(* ===== verification/_CoqProject ===== *)
-Q . S2P
Prelude.v
Text.v
Regex.v
Paths.v
Dict.v
PyValue.v
Json.v
Decimal.v
Floats.v
FloatProofs.v
Findings.v
FindingsProofs.v
Correspondence.v
CorrespondenceProofs.v
Locations.v
LocationProofs.v
Differential.v
DifferentialProofs.v
Suppression.v
SuppressionProofs.v
Scope.v
ScopeProofs.v
RangeReview.v
RangeReviewProofs.v
Diff.v
DiffProofs.v
Assembly.v
AssemblyProofs.v
Graphs.v
GraphProofs.v
Backlog.v
BacklogProofs.v
Lifecycle.v
DigestProofs.v
LifecycleProofs.v
Bundles.v
BundleProofs.v
Evidence.v
EvidenceProofs.v
PytestPolicy.v
PytestPolicyProofs.v
TestGate.v
TestGateProofs.v
Merge.v
MergeProofs.v
Ledger.v
LedgerProofs.v
FeatureKeys.v
FeatureKeyProofs.v
Comparator.v
ComparatorProofs.v
Policy.v
PolicyProofs.v
Cleanup.v
CleanupProofs.v
Ast.v
Fixes.v
FixProofs.v
LocalReview.v
LocalReviewProofs.v
RunCommand.v
RunCommandProofs.v
ReviewRun.v
ReviewRunProofs.v
