(* ===== verification/Prelude.v ===== *)
(** * A verification development for specfact-cli-modules

    The repository is a set of Python packages that plug into the SpecFact
    command line ([src/packages/specfact-*]).  Most of its lines drive other
    programs, read and write files and print; the decisions it takes are made
    by a smaller set of pure or nearly pure modules, and those are modelled
    here, definition by definition, under the names the sources use.

    ** The parts of the program and their files

    Code review ([specfact_code_review]).  Analyzer output becomes findings;
    the scorer turns findings into a score; the findings of a base and a head
    tree are compared; comment directives that silence analyzers are compared
    too; everything ends in a report whose verdict and exit code are derived
    and validated; a ledger records the reports.
    - [Findings]: [run/findings.py] and [run/scorer.py].  The pydantic models
      are records, a [model_validator] or [field_validator] is a function to
      [result], and constructing a model is [validate_<Model>].
    - [Correspondence]: the line correspondence of [run/differential.py]: edit
      cost matrices, memo tables (state passed explicitly), anchors, and the
      continuity decision for one pair of findings.
    - [Locations]: the source locations of the same module, over real UTF-8.
    - [Differential]: finding buckets, pairing, removed findings, verdict and
      exact renames of the same module; calls [Correspondence].
    - [Suppression]: directive patterns, occurrences, the budgeted
      correspondence cache, quarantine and catalog activation of the same
      module; calls [Correspondence] and [Regex].
    - [Scope]: [run/scope.py] with [run/runtime_discovery.py]: Git trees and
      snapshots, governed paths, canonical exact renames, the claimed
      pull-request context, range and index resolution, options and local
      files.  What Git and the file system answer is a [Repository] (and
      [IndexAnswers]) record; an error of theirs is a value like the code's
      [GitResolutionError], [PolicyResolutionError], [ContextResolutionError].
    - [Diff]: the changed-line evidence of [run/runner.py]: quoted paths, the
      zero-context diff parser, caller-relative paths, staged records.
    - [RangeReview]: the immutable range review of the same file: the findings
      of each profile member on both sides go through [Differential], the
      result is mapped back to analyzer findings, and the suppression delta of
      [Suppression] is merged into the members' evidence.
    - [Assembly]: the reports of the same file: filters, capsule and host
      reports, and the enforcement modes that turn a report and the changed
      lines of [Diff] into an exit code.
    - [PytestPolicy]: the test policy of [run/scope.py] and [run/runner.py]:
      which configuration file governs pytest and coverage, its values, their
      projection below the capsule's roots, serialization and binding, and the
      rules on options, plugins and test candidates.
    - [TestGate]: the test gate of [run/runner.py], run under the bound policy
      of [PytestPolicy]: observer records, JUnit cases and the exit status are
      reconciled with the plan, then the coverage of every source is compared
      with the threshold.  One pytest run is a [PytestRun], the file system a
      [HostFiles].
    - [LocalReview]: [run_capsule_review] of the same file, the review of local
      files: capsule or development host, staged snapshot or worktree, with the
      identity of the worktree compared around the analysis.  What the host
      answers in one review is a [LocalAnswers] record.
    - [Cleanup]: [run/forecast.py] and [run/cleanup_evidence.py]: the clean-up
      forecast, patch previews and mutation signals, over a store of files.
      The fixers a preview runs are an interface, [ConfinedFixers].
    - [Ast], [Fixes]: the mechanical rewrites of [run/commands.py] over Python
      syntax trees; [Fixes] implements [ConfinedFixers].
    - [RunCommand], [ReviewRun]: the rest of [run/commands.py].  [RunCommand]
      builds and checks a request and reads the Requirements proof a report
      takes its provenance from; [ReviewRun] is one run: the files, the loop
      around a review (the interface [GovernedReviews], which [LocalReview]
      implements), the report of an unresolved scope, and the exit code.  A
      review returns the store it left with its report: the tests it runs may
      write any file.
    - [Ledger]: [ledger/client.py].  The remote tables and the local file are
      a [World] that every call takes and returns, also with an error; what the
      service answers during a call, and what a write that fails leaves of the
      local file, is an [Answers] value.

    Backlog ([specfact_backlog/backlog_core]).  Provider items become a typed
    dependency graph, which is analysed, compared with a baseline and checked
    before a release.
    - [Graphs]: the work-list closure, the recursive closure, cycle search
      and memoised longest path, over any adjacency function.
    - [Backlog]: [graph/models.py], [graph/config_schema.py],
      [graph/builder.py], [analyzers/dependency.py] and the decisions of
      [commands/sync.py], [delta.py], [verify.py], [promote.py] and
      [release_notes.py]; the builder's attributes are the record
      [BacklogGraphBuilder], every method maps it to the next one.
    - [Policy]: the policy engine ([policy_engine/engine], [policies],
      [registry] and the decisions of its [main.py]); what the loaders read
      from files is an argument of [validate_command] and [suggest_command].

    Requirements ([specfact_requirements/requirements]).
    - [Lifecycle]: [lifecycle.py]: validation of sidecar mappings, canonical
      digests, plans, JUnit results and reconciliation.
    - [Bundles]: [runtime.py]: loading, merging, importing and persisting the
      requirements of a bundle; the errors of the two writes are a
      [bundle_writes] value, and the directory is returned with them.
    - [Evidence]: [evidence.py], the evidence gate: changed sources and their
      sidecar links, verdicts per source, lifecycle reports over [Lifecycle]
      and [Bundles], the plan artifact, the files written and the exit code.

    Project ([specfact_project]).
    - [Merge]: [merge/resolver.py] with [utils/persona_ownership.py].
    - [FeatureKeys]: [utils/feature_keys.py].
    - [Comparator]: [comparators/plan_comparator.py], over [FeatureKeys].

    Shared: [Prelude] (ordering classes, sorting, tactics, hints), [Text]
    ([str] methods), [Regex] (a matcher proved equal to its declarative
    reading), [Paths] ([PurePosixPath], [relpath], [normpath], [fnmatch], and
    the components of joined paths), [Decimal] (printed numbers), [Dict]
    (insertion-ordered dictionaries), [PyValue] (dynamic values, exceptions and the [result]
    monad with its [let!] notation), [Json] ([json.dumps] and UTF-8),
    [Floats] (binary64, [float(s)], [round] and one-decimal printing).  A component [X]
    has its theorems in [XProofs] ([GraphProofs] for [Graphs], [DigestProofs]
    for the digests of [Lifecycle]).

    ** What the theorems show

    - [FindingsProofs]: reports fail closed (unknown required evidence never
      exits with 0 outside shadow mode), validation is idempotent and derives
      what it says, scores are bounded and monotone, assurance reports and the
      consumer matrix accept only what they should.
    - [CorrespondenceProofs]: the matrices compute minima over alignments, the
      memo tables are transparent, and a verdict is a statement about the
      optimal alignments of two sources within the cell budget.
    - [LocationProofs]: decoding is inverse to encoding and exact locations
      are byte offsets of character boundaries.
    - [DifferentialProofs], [SuppressionProofs]: every finding and directive
      is accounted for once, a passing verdict has a counterpart for
      everything it waves through, budgets hold, catalogs are bound.
    - [ScopeProofs]: a range passes only over one merge base, safe governed
      inputs and an unchanged policy (configuration files, their closure and
      every source lock); exact renames are the unambiguous ones.
    - [DiffProofs]: Git's quoted paths and plumbing records read back, and the
      parsed added lines are those of the diff Git prints.
    - [RangeReviewProofs], [AssemblyProofs]: the findings of a member always
      map back; a range report passes only if every member of the profile
      does; the score of a host review is the one computed from its findings,
      and its exit code and that of changed-line enforcement are functions of
      the findings named there.
    - [PytestPolicyProofs]: a projected policy reads below the snapshot and
      writes below the output root, and the governing source is the first of
      pytest's order that applies.
    - [TestGateProofs]: a clean gate proves that everything planned ran and
      passed in all three signals and that every production file is covered;
      an honest run is accepted; the bound policy is the one the gate reads.
    - [LocalReviewProofs]: a local review exits with 0 only on inputs it
      analyzed, a changed-mode worktree only when its identity was kept; the
      failures listed there end in an unknown report, others raise.
    - [FloatProofs], [CleanupProofs]: the forecast is always produced and its
      bounds are in order whatever the floats round; a preview changes no file
      and annotates the findings it previews, and only these when no two
      findings share file, line and rule.
    - [FixProofs]: removing a dead branch keeps every execution of the body and
      in a source whose lines end in line feeds removes the lines of the
      statement; a rewrite touches the named lines of the named file; where a
      rewrite called safe is not.
    - [RunCommandProofs]: an accepted proof is a complete one, and the proofs
      the Requirements lifecycle writes are accepted.
    - [ReviewRunProofs]: the interactive run equals the plain one, a run
      without fixes writes nothing but its report beyond what its review
      leaves, an immutable scope passes only when resolved.
    - [LedgerProofs]: recording any sequence of reports refines an abstract
      ledger (streaks, counts and balance as functions of the reports), and
      each outcome of the service and of the local write leaves the data where
      stated: a write that fails may lose the history.
    - [GraphProofs], [BacklogProofs]: closures are reachability, cycle reports
      exist exactly for cyclic graphs, the critical path is longest on acyclic
      graphs, two algorithms agree, results do not depend on set order.
    - [LifecycleProofs], [DigestProofs]: a gate passes exactly when its
      mapping or its run proves what it must, the stages compose, digests
      identify values up to the order of mappings and sets.
    - [BundleProofs], [EvidenceProofs]: importing is an ordered upsert that
      sticks when the files can be written, and a sidecar that cannot be
      replaced keeps what it held; the evidence gate passes exactly when every source proves what
      it must, and the plan it writes can be verified by [Lifecycle].
    - [PolicyProofs]: the validate command exits with 0 exactly when no
      selected rule is violated, whatever limit and grouping are asked for.
    - [MergeProofs]: a merge decides field by field by ownership and counts
      what it decided.
    - [ComparatorProofs], [FeatureKeyProofs]: a comparison is empty exactly
      for agreeing plans; converted keys find their features back.

    ** Conventions, bounds and fuel

    - A [str] is a [string] whose characters are the code points below 256;
      case mapping is that of ASCII letters.  [Locations] is the exception: it
      decodes real UTF-8 into lists of code points.
    - Python integers are [Z]; floats are [spec_float] with 53 bits and
      [round(x, 2)] is computed on the exact value.
    - Exceptions are the [Err] case of [result]; an argument contract that
      fails is [ContractViolation].
    - The store of [Cleanup] maps the text of a path to a file that is UTF-8 or
      not; two texts are two files, so links are not modelled, and an exception
      loses the store it happened in.
    - A write that fails leaves in [Ledger] whatever the outside says and in
      [Bundles] the old sidecar (a temporary file replaces it) or whatever
      [save_project_bundle] left; the temporary directories of [Evidence] are
      gone with the error.  Its output files are listed when written in full.
    - A dictionary keeps its insertion order; the order in which a set of
      strings is iterated is the parameter [SetIter], a function of the set,
      about which proofs use [SetIterLaws] only: it lists the elements.
    - The loops of [Graphs] take fuel.  The callers pass [loop_fuel] (the work
      list plus all edges out of the nodes) and [cycle_fuel] (one more than
      the number of nodes), and [GraphProofs] proves that this always gives a
      result.  [translate] of [Merge] and [replace] of [Text] take the length
      of their input, which each step shortens.  Python's own recursion limit
      is not modelled.

    ** Parameters

    Code that is not in the repository is a class with no instance here, and
    the theorems hold for every instance: [Sha256] (the digest), [PyRepr]
    ([str] of floats and containers), [Tokenize] (the comment tokens of
    [tokenize]), [JsonLoads], [ParseXml], [ReportDump] and [LedgerCodec] (how
    pydantic writes and reads a report and a ledger state), [DeviationValue]
    (the texts of an enumeration of [specfact_cli]), [TomlLoads], [IniRead]
    and [RangePolicyPaths] (configuration readers and the closures of analyzer
    configurations), [Sha1], [LineTargetsDataclass] and [Callable] (Git's
    object names, a test on the syntax tree, [callable]).  Further
    [RequirementsCore] (the requirement models, importers and bundle writer of
    [specfact_cli], with [RequirementsCoreLaws]: attached requirements and a
    written extension read back), [EvidenceHost] (Git, files, YAML and archives
    for the evidence gate), [TomlValues] and [ParserError] (TOML with floats,
    the texts of parse errors), [EvidenceFiles] and [ArgText] (a JSON file
    read, texts of Python values).  The parser [ast.parse] is an argument that
    answers with a tree of [Ast]; [ruff], [git], temporary directory names,
    the paths that can be written, [model_dump_json] and the review of a
    resolved immutable scope are arguments too.  What processes and
    files answer in one call is a record that the operation takes:
    [Repository], [IndexAnswers], [DiffAnswers], [HostAnswers], [HostFiles],
    [PytestRun], [LocalAnswers].  [LedgerCodecLaws] says that a stored state
    reads back; in the witness instance a text is a state or does not parse.
    The plan and bundle classes of [specfact_cli] appear as records of the
    fields the code touches: that those attributes exist is assumed.

    ** Not modelled

    - Command lines, console output, REST calls, git and analyzer
      subprocesses, sandboxes and native capsules (the rest of
      [run/runner.py], [run/toolchain.py], [run/native_*.py], most
      [*/commands.py]): effects on the operating system with little logic of
      their own.  Of [run/scope.py], the temporary directories and the
      no-follow file reads are answers of the [Repository].
    - Analyzer adapters and code analyzers, which walk the Python AST, and the
      Markdown and YAML importers: mostly tables of heuristics.
    - Argument checks made by sampling decorators (containers) and pydantic's
      coercions on input types that the annotations exclude.
    - [ledger/client.py]: the default path lookup and request headers;
      [backlog_core]: fetching graphs and writing baselines.
    - The discovery of tests in the syntax tree and the portable worker of the
      test gate; the temporary evidence files of a pytest run are created and
      removed by the host.

    ** Left for later

    The lock and archive validators of [run/toolchain.py], the agile validation
    rules and backlog item creation ([commands/add.py]). *)

From stdpp Require Export base decidable option list sorting strings gmap pretty.
From Stdlib Require Export ZArith Lia Ascii.

Declare Scope py_scope.
Delimit Scope py_scope with py.
Open Scope py_scope.

Create HintDb py.
Create Rewrite HintDb pysimpl.

(** * Tactics *)

(** Split every [if] and [match] on a boolean or an option of the goal. *)
Ltac case_all := repeat (case_match; simplify_eq/=).

(** Turn the boolean conjunctions and disjunctions of the context into
    propositions. *)
Ltac bool_hyps :=
  repeat match goal with
  | H : _ && _ = true |- _ => apply andb_true_iff in H as [? ?]
  | H : _ || _ = false |- _ => apply orb_false_iff in H as [? ?]
  | H : negb _ = true |- _ => apply negb_true_iff in H
  | H : negb _ = false |- _ => apply negb_false_iff in H
  | H : bool_decide _ = true |- _ => apply bool_decide_eq_true in H
  | H : bool_decide _ = false |- _ => apply bool_decide_eq_false in H
  | H : (_ <=? _)%Z = true |- _ => apply Z.leb_le in H
  | H : (_ <=? _)%Z = false |- _ => apply Z.leb_gt in H
  | H : (_ <? _)%Z = true |- _ => apply Z.ltb_lt in H
  | H : (_ <? _)%Z = false |- _ => apply Z.ltb_ge in H
  | H : (_ =? _)%Z = true |- _ => apply Z.eqb_eq in H
  | H : (_ =? _)%Z = false |- _ => apply Z.eqb_neq in H
  end.

(** * Ordering of keys

    [PyOrd] is the comparison that [sorted], [min] and [max] apply to the
    keys of this code base: strings, integers, booleans and tuples of them. *)
Class PyOrd (A : Type) := py_cmp : A → A → comparison.
#[export] Hint Mode PyOrd ! : typeclass_instances.

Class PyOrdLaws (A : Type) `{PyOrd A} := {
  py_cmp_eq (x y : A) : py_cmp x y = Eq ↔ x = y;
  py_cmp_antisym (x y : A) : py_cmp y x = CompOpp (py_cmp x y);
  py_cmp_lt_trans (x y z : A) : py_cmp x y = Lt → py_cmp y z = Lt → py_cmp x z = Lt
}.

Definition py_leb {A} `{PyOrd A} (x y : A) : bool :=
  match py_cmp x y with Gt => false | _ => true end.

Definition py_le {A} `{PyOrd A} (x y : A) : Prop := py_leb x y = true.

#[export] Instance py_le_dec {A} `{PyOrd A} : RelDecision (py_le (A:=A)).
Proof. intros x y. unfold py_le. apply _. Defined.

#[export] Instance py_ord_string : PyOrd string := String.compare.
#[export] Instance py_ord_Z : PyOrd Z := Z.compare.
#[export] Instance py_ord_nat : PyOrd nat := Nat.compare.
#[export] Instance py_ord_bool : PyOrd bool :=
  λ x y, match x, y with
         | false, true => Lt | true, false => Gt | _, _ => Eq
         end.
#[export] Instance py_ord_prod {A B} `{PyOrd A} `{PyOrd B} : PyOrd (A * B) :=
  λ x y, match py_cmp x.1 y.1 with Eq => py_cmp x.2 y.2 | c => c end.

Lemma ascii_compare_refl a : Ascii.compare a a = Eq.
Proof. unfold Ascii.compare. apply N.compare_refl. Qed.

Lemma ascii_compare_lt_trans a b c :
  Ascii.compare a b = Lt → Ascii.compare b c = Lt → Ascii.compare a c = Lt.
Proof.
  unfold Ascii.compare. rewrite !N.compare_lt_iff. apply N.lt_trans.
Qed.

#[export] Instance py_ord_laws_string : PyOrdLaws string.
Proof.
  split; unfold py_cmp, py_ord_string.
  - intros x y. split; [apply String.compare_eq_iff|intros ->].
    induction y; simpl; [done|]. by rewrite ascii_compare_refl.
  - intros x y. apply String.compare_antisym.
  - induction x as [|a x IH]; intros [|b y] [|c z]; simpl; try done.
    destruct (Ascii.compare a b) eqn:Hab; try done.
    + apply Ascii.compare_eq_iff in Hab as ->.
      destruct (Ascii.compare b c); try done. apply IH.
    + destruct (Ascii.compare b c) eqn:Hbc; try done; intros _ _.
      * apply Ascii.compare_eq_iff in Hbc as ->. by rewrite Hab.
      * by rewrite (ascii_compare_lt_trans _ _ _ Hab Hbc).
Qed.

#[export] Instance py_ord_laws_Z : PyOrdLaws Z.
Proof.
  split; unfold py_cmp, py_ord_Z.
  - apply Z.compare_eq_iff.
  - intros. apply Z.compare_antisym.
  - intros x y z. rewrite !Z.compare_lt_iff. lia.
Qed.

#[export] Instance py_ord_laws_nat : PyOrdLaws nat.
Proof.
  split; unfold py_cmp, py_ord_nat.
  - apply Nat.compare_eq_iff.
  - intros. apply Nat.compare_antisym.
  - intros x y z. rewrite !Nat.compare_lt_iff. lia.
Qed.

#[export] Instance py_ord_laws_bool : PyOrdLaws bool.
Proof.
  split; [by intros [] []|by intros [] []|by intros [] [] []].
Qed.

#[export] Instance py_ord_laws_prod {A B}
  `{PyOrdLaws A} `{PyOrdLaws B} : PyOrdLaws (A * B).
Proof.
  split; unfold py_cmp, py_ord_prod.
  - intros [x1 x2] [y1 y2]; simpl. split.
    + destruct (py_cmp x1 y1) eqn:E; intros; simplify_eq.
      apply py_cmp_eq in E as ->. f_equal. by apply py_cmp_eq.
    + intros [= -> ->]. rewrite (proj2 (py_cmp_eq y1 y1) eq_refl).
      by apply py_cmp_eq.
  - intros [x1 x2] [y1 y2]; simpl. rewrite (py_cmp_antisym x1 y1).
    destruct (py_cmp x1 y1); simpl; [apply py_cmp_antisym|done|done].
  - intros [x1 x2] [y1 y2] [z1 z2]; simpl.
    destruct (py_cmp x1 y1) eqn:E1; try done.
    + apply py_cmp_eq in E1 as ->. destruct (py_cmp y1 z1); try done.
      apply py_cmp_lt_trans.
    + destruct (py_cmp y1 z1) eqn:E2; try done; intros _ _.
      * apply py_cmp_eq in E2 as ->. by rewrite E1.
      * by rewrite (py_cmp_lt_trans _ _ _ E1 E2).
Qed.

Section py_le_laws.
Context {A} `{PyOrdLaws A}.

#[export] Instance py_le_total : Total (py_le (A:=A)).
Proof.
  intros x y. unfold py_le, py_leb. rewrite (py_cmp_antisym x y).
  destruct (py_cmp x y); simpl; auto.
Qed.

#[export] Instance py_le_antisymm : AntiSymm (=) (py_le (A:=A)).
Proof.
  intros x y. unfold py_le, py_leb. rewrite (py_cmp_antisym x y).
  destruct (py_cmp x y) eqn:E; simpl; try done. by apply py_cmp_eq in E.
Qed.

#[export] Instance py_le_trans : Transitive (py_le (A:=A)).
Proof.
  intros x y z. unfold py_le, py_leb.
  destruct (py_cmp x y) eqn:E1; try done.
  - by apply py_cmp_eq in E1 as ->.
  - destruct (py_cmp y z) eqn:E2; try done; intros _ _.
    + apply py_cmp_eq in E2 as ->. by rewrite E1.
    + by rewrite (py_cmp_lt_trans _ _ _ E1 E2).
Qed.

#[export] Instance py_le_refl : Reflexive (py_le (A:=A)).
Proof. intros x. by destruct (total py_le x x). Qed.
End py_le_laws.

(** * [sorted]

    [sort_by key l] is [sorted(l, key=key)]: insertion sort, stable as
    Python's sort is (an element is placed before the first later element
    whose key is not smaller). *)
Section sort_by.
Context {A K} `{PyOrd K} (key : A → K).

Fixpoint insert_by (x : A) (l : list A) : list A :=
  match l with
  | [] => [x]
  | y :: l' => if py_leb (key x) (key y) then x :: l else y :: insert_by x l'
  end.

Fixpoint sort_by (l : list A) : list A :=
  match l with
  | [] => []
  | x :: l' => insert_by x (sort_by l')
  end.

Definition key_le (x y : A) : Prop := py_le (key x) (key y).

Lemma insert_by_perm x l : insert_by x l ≡ₚ x :: l.
Proof.
  induction l as [|y l IH]; simpl; [done|].
  case_match; [done|]. rewrite IH. apply Permutation_swap.
Qed.

Lemma sort_by_perm l : sort_by l ≡ₚ l.
Proof. induction l as [|x l IH]; simpl; [done|]. by rewrite insert_by_perm, IH. Qed.

Lemma elem_of_sort_by x l : x ∈ sort_by l ↔ x ∈ l.
Proof. by rewrite sort_by_perm. Qed.

Lemma length_sort_by l : length (sort_by l) = length l.
Proof. by rewrite sort_by_perm. Qed.

Context `{!PyOrdLaws K}.

#[local] Instance key_le_trans : Transitive key_le.
Proof. intros x y z. unfold key_le. apply transitivity. Qed.

Lemma insert_by_sorted x l : StronglySorted key_le l → StronglySorted key_le (insert_by x l).
Proof.
  induction 1 as [|y l Hl IH Hy]; simpl; [by repeat constructor|].
  case_match eqn:E.
  - constructor; [by constructor|]. constructor; [done|].
    eapply Forall_impl; [exact Hy|]. intros z ?. by trans y.
  - constructor; [done|]. rewrite insert_by_perm. constructor; [|done].
    destruct (total py_le (key x) (key y)) as [?|?]; [|done].
    unfold py_le in *. congruence.
Qed.

Lemma sort_by_sorted l : StronglySorted key_le (sort_by l).
Proof. induction l; simpl; [constructor|by apply insert_by_sorted]. Qed.

(** The result of [sorted] does not depend on the order of the input when
    elements with equal keys are equal. *)
Lemma sort_by_perm_eq l1 l2 :
  (∀ x y, x ∈ l1 → y ∈ l1 → key x = key y → x = y) →
  l1 ≡ₚ l2 → sort_by l1 = sort_by l2.
Proof.
  intros Hinj Hp. apply (StronglySorted_unique_strong key_le).
  - intros x y Hx Hy Hxy Hyx. rewrite elem_of_sort_by in Hx.
    rewrite elem_of_sort_by, <-Hp in Hy.
    apply Hinj; [done..|]. by apply (anti_symm py_le).
  - apply sort_by_sorted.
  - apply sort_by_sorted.
  - by rewrite !sort_by_perm.
Qed.
End sort_by.

Definition sorted {A} `{PyOrd A} : list A → list A := sort_by id.

Section sorted.
Context {A} `{PyOrdLaws A}.

Lemma sorted_perm (l : list A) : sorted l ≡ₚ l.
Proof. apply sort_by_perm. Qed.

Lemma elem_of_sorted x (l : list A) : x ∈ sorted l ↔ x ∈ l.
Proof. apply elem_of_sort_by. Qed.

Lemma NoDup_sorted (l : list A) : NoDup (sorted l) ↔ NoDup l.
Proof. by rewrite sorted_perm. Qed.

Lemma sorted_perm_eq (l1 l2 : list A) : l1 ≡ₚ l2 → sorted l1 = sorted l2.
Proof. apply (sort_by_perm_eq id). by intros. Qed.

Lemma sorted_nil_iff (l : list A) : sorted l = [] ↔ l = [].
Proof.
  split; [|by intros ->]. intros E. apply Permutation_nil_r.
  by rewrite <-(sorted_perm l), E.
Qed.
End sorted.

#[export] Instance sorted_proper {A} `{PyOrdLaws A} :
  Proper ((≡ₚ) ==> (=)) (sorted (A:=A)).
Proof. intros l1 l2. apply sorted_perm_eq. Qed.

(** [sorted(s)] for a Python set [s]. *)
Definition sorted_set `{PyOrd A} `{Countable A} (X : gset A) : list A :=
  sorted (elements X).

Section sorted_set.
Context {A} `{PyOrdLaws A} `{Countable A}.

Lemma elem_of_sorted_set x (X : gset A) : x ∈ sorted_set X ↔ x ∈ X.
Proof. unfold sorted_set. by rewrite elem_of_sorted, elem_of_elements. Qed.

Lemma NoDup_sorted_set (X : gset A) : NoDup (sorted_set X).
Proof. unfold sorted_set. rewrite NoDup_sorted. apply NoDup_elements. Qed.

Lemma sorted_set_nil_iff (X : gset A) : sorted_set X = [] ↔ X = ∅.
Proof.
  unfold sorted_set. rewrite sorted_nil_iff. split.
  - intros E. by apply leibniz_equiv, elements_empty_inv.
  - intros ->. apply elements_empty.
Qed.
End sorted_set.

#[export] Hint Rewrite @elem_of_sorted @elem_of_sorted_set @elem_of_sort_by
  @length_sort_by using apply _ : pysimpl.

(** ** Partitions of a list by a key *)

(** Collecting the classes of every key gives the list back. *)
Lemma partition_perm {A K} `{EqDecision K} (f : A → K) (ks : list K) (l : list A) :
  NoDup ks → (∀ x, x ∈ l → f x ∈ ks) →
  mjoin ((λ k, filter (λ x, f x = k) l) <$> ks) ≡ₚ l.
Proof.
  revert l. induction ks as [|k ks IH]; intros l Hks Hl.
  - destruct l as [|x l]; [done|]. specialize (Hl x (list_elem_of_here x l)). set_solver.
  - apply NoDup_cons in Hks as [Hk Hks]. cbn.
    transitivity (filter (λ x, f x = k) l ++ filter (λ x, ¬ f x = k) l);
      [|apply filter_app_complement].
    apply Permutation_app_head.
    rewrite <-(IH (filter (λ x, ¬ f x = k) l) Hks).
    2:{ intros x. rewrite list_elem_of_filter. intros [Hne Hx%Hl]. set_solver. }
    apply reflexive_eq. f_equal. apply list_fmap_ext. intros i k' Hk'%list_elem_of_lookup_2.
    clear -Hk Hk'. induction l as [|x l IHl]; [done|]. rewrite !filter_cons.
    destruct (decide (f x = k)) as [->|Hne].
    + rewrite decide_False by congruence. rewrite decide_False by (by intros []). done.
    + rewrite (decide_True (P := ¬ f x = k)) by done. rewrite filter_cons, IHl. done.
Qed.

Lemma fmap_nil_iff {A B} (f : A → B) (l : list A) : f <$> l = [] ↔ l = [].
Proof. by destruct l. Qed.

(** ** Iteration over sets *)

(** The order in which a Python set of strings is iterated is a parameter. *)
Class SetIter := set_iter : gset string → list string.
Class SetIterLaws `{SetIter} := set_iter_perm : ∀ X, set_iter X ≡ₚ elements X.

(** The order [elements] gives is one such order. *)
Definition elements_iter : SetIter := elements.
Lemma elements_iter_laws : SetIterLaws (H := elements_iter).
Proof. intros X. reflexivity. Qed.
