(* ===== verification/Text.v ===== *)
(** Text: the [str] methods the components call, on strings read as
    sequences of code points 0 to 255 (one [ascii] per code point); case
    mapping is the ASCII one. *)

From S2P Require Import Prelude.

(** * Characters *)

Definition chars (s : string) : list ascii := String.list_ascii_of_string s.
Definition of_chars (l : list ascii) : string := String.string_of_list_ascii l.
Definition code (c : ascii) : Z := Z.of_N (N_of_ascii c).
Definition between (lo hi : Z) (c : ascii) : bool := (lo <=? code c)%Z && (code c <=? hi)%Z.

(** [str.isspace] on one code point below 256. *)
Definition is_space (c : ascii) : bool :=
  between 9 13 c || between 28 32 c || between 133 133 c || between 160 160 c.
Definition is_digit : ascii → bool := between 48 57.
Definition is_upper : ascii → bool := between 65 90.
Definition is_lower : ascii → bool := between 97 122.
Definition is_hex_lower (c : ascii) : bool := is_digit c || between 97 102 c.

Definition lower_char (c : ascii) : ascii :=
  if is_upper c then ascii_of_N (N_of_ascii c + 32) else c.
Definition upper_char (c : ascii) : ascii :=
  if is_lower c then ascii_of_N (N_of_ascii c - 32) else c.

(** * Methods of [str] *)

Definition lower (s : string) : string := of_chars (lower_char <$> chars s).
Definition upper (s : string) : string := of_chars (upper_char <$> chars s).

Fixpoint lstrip_chars (l : list ascii) : list ascii :=
  match l with
  | [] => []
  | c :: l' => if is_space c then lstrip_chars l' else l
  end.
Definition strip (s : string) : string :=
  of_chars (reverse (lstrip_chars (reverse (lstrip_chars (chars s))))).

(** [bool(s.strip())] *)
Definition nonblank (s : string) : bool := bool_decide (strip s ≠ "").

Fixpoint split_chars (p : ascii → bool) (l : list ascii) : list (list ascii) :=
  match l with
  | [] => [[]]
  | c :: l' =>
      if p c then [] :: split_chars p l'
      else match split_chars p l' with
           | [] => [[c]]
           | w :: ws => (c :: w) :: ws
           end
  end.

(** [s.split(c)] for a separator of one character. *)
Definition split_on (c : ascii) (s : string) : list string :=
  of_chars <$> split_chars (λ d, bool_decide (d = c)) (chars s).

(** [s.split()]: maximal runs of non-space characters. *)
Definition split_ws (s : string) : list string :=
  of_chars <$> filter (λ w, w ≠ []) (split_chars is_space (chars s)).

Fixpoint join (sep : string) (l : list string) : string :=
  match l with
  | [] => ""
  | [s] => s
  | s :: l' => s +:+ sep +:+ join sep l'
  end.

(** [" ".join(s.split())] *)
Definition normalize_ws (s : string) : string := join " " (split_ws s).

Definition startswith (p s : string) : bool := String.prefix p s.
Definition py_in (p s : string) : bool :=
  match String.index 0 p s with Some _ => true | None => false end.

(** [s.replace(old, new)] for a non-empty [old], left to right and not
    overlapping; [fuel] bounds the characters left to scan. *)
Fixpoint replace_go (fuel : nat) (old new s : string) : string :=
  match fuel with
  | O => s
  | S n =>
      if String.prefix old s
      then new +:+ replace_go n old new
             (String.substring (String.length old) (String.length s) s)
      else match s with
           | "" => ""
           | String c s' => String c (replace_go n old new s')
           end
  end.
Definition replace (old new s : string) : string :=
  replace_go (S (String.length s)) old new s.

(** [int(s)] on a string: surrounding spaces, an optional sign, decimal
    digits with single underscores between digits; [None] is [ValueError]. *)
Fixpoint parse_digits (acc : Z) (after_digit : bool) (l : list ascii) : option Z :=
  match l with
  | [] => if after_digit then Some acc else None
  | c :: l' =>
      if is_digit c then parse_digits (10 * acc + (code c - 48))%Z true l'
      else if bool_decide (c = "_"%char) && after_digit
           then parse_digits acc false l' else None
  end.
Definition parse_int (s : string) : option Z :=
  match chars (strip s) with
  | "-"%char :: l => Z.opp <$> parse_digits 0 false l
  | "+"%char :: l => parse_digits 0 false l
  | l => parse_digits 0 false l
  end.

(** [str.splitlines()]: lines end at CR LF and at every line boundary of the
    code points below 256; no empty line after a final boundary. *)
Definition is_line_boundary (c : ascii) : bool :=
  between 10 13 c || between 28 30 c || between 133 133 c.
Fixpoint str_splitlines_go (cur : list ascii) (l : list ascii) : list (list ascii) :=
  match l with
  | [] => match cur with [] => [] | _ => [reverse cur] end
  | c :: l' =>
      if is_line_boundary c then
        match l' with
        | d :: l'' =>
            if (code c =? 13)%Z && (code d =? 10)%Z then reverse cur :: str_splitlines_go [] l''
            else reverse cur :: str_splitlines_go [] l'
        | [] => [reverse cur]
        end
      else str_splitlines_go (c :: cur) l'
  end.
Definition str_splitlines (s : string) : list string := of_chars <$> str_splitlines_go [] (chars s).

(** [s.removeprefix(p)], [s.removesuffix(p)], [s.endswith(p)] *)
Definition removeprefix (p s : string) : string :=
  if String.prefix p s then of_chars (drop (String.length p) (chars s)) else s.
Definition endswith (p s : string) : bool :=
  (String.length p <=? String.length s)%nat &&
  bool_decide (drop (String.length s - String.length p) (chars s) = chars p).
Definition removesuffix (p s : string) : string :=
  if endswith p s then of_chars (take (String.length s - String.length p) (chars s)) else s.

(** [s.partition(c)] for a separator of one character: the parts around its
    first occurrence. *)
Fixpoint partition_chars (c : ascii) (l : list ascii) : option (list ascii * list ascii) :=
  match l with
  | [] => None
  | d :: l' =>
      if bool_decide (d = c) then Some ([], l')
      else (λ ht, (d :: ht.1, ht.2)) <$> partition_chars c l'
  end.
Definition partition (c : ascii) (s : string) : option (string * string) :=
  (λ ht, (of_chars ht.1, of_chars ht.2)) <$> partition_chars c (chars s).

(** [s.split("cc")] for a separator made of one character twice *)
Fixpoint split_pair_go (c : ascii) (cur l : list ascii) : list (list ascii) :=
  match l with
  | [] => [reverse cur]
  | d :: l' =>
      match l' with
      | e :: l'' =>
          if bool_decide (d = c) && bool_decide (e = c) then reverse cur :: split_pair_go c [] l''
          else split_pair_go c (d :: cur) l'
      | [] => [reverse (d :: cur)]
      end
  end.
Definition split_pair (c : ascii) (s : string) : list string := of_chars <$> split_pair_go c [] (chars s).

(** [sha256:[0-9a-f]{64}] and [[0-9a-f]{40}([0-9a-f]{24})?] matched against
    the whole text. *)
Definition hex_run (n : nat) (l : list ascii) : bool :=
  (length l =? n)%nat && forallb is_hex_lower l.
Definition is_sha256_text (s : string) : bool :=
  bool_decide (take 7 (chars s) = chars "sha256:") && hex_run 64 (drop 7 (chars s)).
Definition is_object_id (s : string) : bool := hex_run 40 (chars s) || hex_run 64 (chars s).

(** * Facts *)

Lemma of_chars_chars s : of_chars (chars s) = s.
Proof. apply String.string_of_list_ascii_of_string. Qed.

Lemma chars_of_chars l : chars (of_chars l) = l.
Proof. apply String.list_ascii_of_string_of_list_ascii. Qed.

#[export] Instance chars_inj : Inj (=) (=) chars.
Proof. intros s t E. by rewrite <-(of_chars_chars s), E, of_chars_chars. Qed.

#[export] Instance of_chars_inj : Inj (=) (=) of_chars.
Proof. intros s t E. by rewrite <-(chars_of_chars s), E, chars_of_chars. Qed.

Lemma chars_app s t : chars (s +:+ t) = chars s ++ chars t.
Proof.
  induction s as [|c s IH]; [done|].
  unfold chars in *. simpl. by rewrite <-IH.
Qed.

Lemma split_chars_no_sep p l w :
  w ∈ split_chars p l → ∀ c, c ∈ w → p c = false.
Proof.
  revert w; induction l as [|d l IH]; simpl; intros w Hw c Hc.
  - apply list_elem_of_singleton in Hw as ->. by apply not_elem_of_nil in Hc.
  - destruct (p d) eqn:Hd.
    + apply elem_of_cons in Hw as [->|Hw]; [by apply not_elem_of_nil in Hc|eauto].
    + destruct (split_chars p l) as [|w' ws] eqn:E.
      * apply list_elem_of_singleton in Hw as ->.
        by apply list_elem_of_singleton in Hc as ->.
      * apply elem_of_cons in Hw as [->|Hw]; [|by eapply IH; [right|]].
        apply elem_of_cons in Hc as [->|Hc]; [done|].
        eapply IH; [left|done].
Qed.

Lemma lstrip_chars_nil l : lstrip_chars l = [] → Forall (λ c, is_space c = true) l.
Proof.
  induction l as [|c l IH]; [constructor|]. cbn. destruct (is_space c) eqn:E; [|done].
  intros Hl. constructor; [done|by apply IH].
Qed.

Lemma nonblank_head c l : is_space c = false → nonblank (of_chars (c :: l)) = true.
Proof.
  intros Hc. apply bool_decide_eq_true. unfold strip. rewrite chars_of_chars.
  cbn [lstrip_chars]. rewrite Hc. intros E.
  assert (E' : reverse (lstrip_chars (reverse (c :: l))) = []).
  { apply (f_equal chars) in E. by rewrite chars_of_chars in E. }
  apply (f_equal reverse) in E'. rewrite reverse_involutive, reverse_nil in E'.
  apply lstrip_chars_nil in E'. rewrite Forall_forall in E'.
  rewrite (E' c) in Hc; [done|]. apply elem_of_reverse. left.
Qed.

Lemma lstrip_chars_app l c r :
  is_space c = false → ∃ t, lstrip_chars (l ++ c :: r) = t ++ c :: r.
Proof.
  intros Hc. induction l as [|d l IH]; cbn; [rewrite Hc; by exists []|].
  destruct (is_space d); [done|]. by exists (d :: l).
Qed.

(** Stripping keeps a prefix whose ends are not spaces. *)
Lemma strip_prefix c p d s :
  is_space c = false → is_space d = false →
  ∃ t, chars (strip (of_chars (c :: p ++ d :: s))) = c :: p ++ d :: t.
Proof.
  intros Hc Hd. unfold strip. rewrite !chars_of_chars. cbn [lstrip_chars]. rewrite Hc.
  rewrite reverse_cons, reverse_app, reverse_cons, <-!app_assoc. cbn [app].
  destruct (lstrip_chars_app (reverse s) d (reverse p ++ [c]) Hd) as [t ->]. exists (reverse t).
  rewrite reverse_app, reverse_cons, reverse_app, !reverse_involutive. cbn. by rewrite <-app_assoc.
Qed.

(** ** Prefixes and suffixes *)
Lemma chars_nil_iff s : chars s = [] ↔ s = "".
Proof. by destruct s. Qed.
Lemma length_chars s : length (chars s) = String.length s.
Proof. induction s as [|c s IH]; [done|]. unfold chars in *. simpl. by rewrite IH. Qed.
Lemma of_chars_app l k : of_chars (l ++ k) = of_chars l +:+ of_chars k.
Proof. apply (inj chars). by rewrite chars_app, !chars_of_chars. Qed.
Lemma startswith_iff p s : startswith p s = true ↔ ∃ t, s = p +:+ t.
Proof.
  unfold startswith. revert s. induction p as [|c p IH]; intros s.
  - split; [intros _; by exists s|intros _; by destruct s].
  - destruct s as [|d s]; [split; [done|by intros [t [=]]]|]. cbn [String.prefix].
    destruct (ascii_dec c d) as [->|N].
    + rewrite (IH s). split; intros [t E]; exists t; [by rewrite E|]. by injection E.
    + split; [done|]. intros [t [= -> _]]. done.
Qed.
Lemma startswith_app p t : startswith p (p +:+ t) = true.
Proof. apply startswith_iff. by exists t. Qed.
Lemma removeprefix_app p t : removeprefix p (p +:+ t) = t.
Proof.
  unfold removeprefix. change (String.prefix p (p +:+ t)) with (startswith p (p +:+ t)).
  rewrite startswith_app, chars_app, <-length_chars, drop_app_length. apply of_chars_chars.
Qed.
Lemma length_app_string s t : String.length (s +:+ t) = (String.length s + String.length t)%nat.
Proof. by rewrite <-!length_chars, chars_app, length_app. Qed.
Lemma endswith_iff p s : endswith p s = true ↔ ∃ t, s = t +:+ p.
Proof.
  unfold endswith. rewrite andb_true_iff, Nat.leb_le, bool_decide_eq_true. split.
  - intros [Hl E]. exists (of_chars (take (String.length s - String.length p) (chars s))).
    apply (inj chars). rewrite chars_app, chars_of_chars, <-E. by rewrite take_drop.
  - intros [t ->]. rewrite length_app_string. split; [lia|].
    replace (_ + _ - _)%nat with (String.length t) by lia.
    rewrite chars_app, <-length_chars. apply drop_app_length.
Qed.
Lemma removesuffix_app p t : removesuffix p (t +:+ p) = t.
Proof.
  unfold removesuffix. rewrite (proj2 (endswith_iff p (t +:+ p)) (ex_intro _ t eq_refl)).
  rewrite length_app_string, chars_app, <-!length_chars.
  replace (_ + _ - _)%nat with (length (chars t)) by lia.
  by rewrite take_app_length, of_chars_chars.
Qed.
Lemma removesuffix_id p s : endswith p s = false → removesuffix p s = s.
Proof. unfold removesuffix. by intros ->. Qed.

(** ** Splitting *)

Lemma split_chars_app p l1 c l2 :
  Forall (λ d, p d = false) l1 → p c = true →
  split_chars p (l1 ++ c :: l2) = l1 :: split_chars p l2.
Proof.
  induction 1 as [|d l1 Hd _ IH]; intros Hc; cbn; [by rewrite Hc|]. rewrite Hd, IH by done. done.
Qed.

Lemma split_chars_single p l : Forall (λ d, p d = false) l → split_chars p l = [l].
Proof. induction 1 as [|d l Hd _ IH]; cbn; [done|]. by rewrite Hd, IH. Qed.

(** Records that each end with the separator *)
Definition terminated (c : ascii) (records : list string) : string :=
  foldr (λ r t, r +:+ String c t) "" records.
Lemma split_terminated c records :
  Forall (λ r, r ≠ "" ∧ c ∉ chars r) records →
  filter (λ r, r ≠ "") (split_on c (terminated c records)) = records.
Proof.
  unfold split_on. induction 1 as [|r records [Hr Hc] _ IH]; [done|]. cbn [terminated foldr].
  rewrite chars_app. change (chars (String c ?t)) with (c :: chars t).
  rewrite split_chars_app; [| |by apply bool_decide_eq_true].
  - rewrite fmap_cons, of_chars_chars, filter_cons_True by done. f_equal. exact IH.
  - apply Forall_forall. intros d Hd. apply bool_decide_eq_false. by intros ->.
Qed.
Lemma partition_app c s t : c ∉ chars s → partition c (s +:+ String c t) = Some (s, t).
Proof.
  intros Hc. unfold partition. rewrite chars_app. change (chars (String c t)) with (c :: chars t).
  assert (E : partition_chars c (chars s ++ c :: chars t) = Some (chars s, chars t)).
  { induction (chars s) as [|d l IH]; cbn [app partition_chars]; [by rewrite bool_decide_eq_true_2|].
    apply not_elem_of_cons in Hc as [H1 H2]. rewrite bool_decide_eq_false_2, IH by done. done. }
  rewrite E. cbn. by rewrite !of_chars_chars.
Qed.
Lemma strip_id s : Forall (λ c, is_space c = false) (chars s) → strip s = s.
Proof.
  assert (H : ∀ l, Forall (λ c, is_space c = false) l → lstrip_chars l = l).
  { intros l Hl. destruct Hl as [|c l Hc _]; [done|]. cbn. by rewrite Hc. }
  intros Hs. unfold strip. rewrite (H _ Hs), (H (reverse (chars s))) by by apply Forall_reverse.
  by rewrite reverse_involutive, of_chars_chars.
Qed.

#[export] Hint Rewrite of_chars_chars chars_of_chars chars_app : pysimpl.
