(* ===== verification/Regex.v ===== *)
(** Regex: the regular expressions the sources search text with ([re.search],
    [re.fullmatch] used as a yes/no question), as a syntax with an executable
    backtracking matcher, proved equal to the declarative reading. *)

From S2P Require Import Prelude Text.

Inductive regex :=
  | REmpty
  | RSet (p : ascii → bool)
  | RSeq (r1 r2 : regex)
  | RAlt (r1 r2 : regex)
  | RStar (r : regex)
  | RBound.

(** [\w] on the code points the strings carry *)
Definition is_word (c : ascii) : bool :=
  is_digit c || is_upper c || is_lower c || (code c =? 95)%Z
  || existsb (Z.eqb (code c)) [170; 178; 179; 181; 185; 186; 188; 189; 190]%Z
  || between 192 214 c || between 216 246 c || between 248 255 c.

(** [\b] between the character before and the rest *)
Definition word_at (o : option ascii) : bool := match o with Some c => is_word c | None => false end.
Definition boundary (prev : option ascii) (s : list ascii) : bool :=
  xorb (word_at prev) (word_at (head s)).

(** The matcher: [k] decides what follows.  A repetition runs its body [m] at
    most once per remaining character, each time consuming some. *)
Definition matcher : Type := option ascii → list ascii → (option ascii → list ascii → bool) → bool.
Fixpoint star_loop (m : matcher) (k : option ascii → list ascii → bool)
    (n : nat) (prev : option ascii) (s : list ascii) : bool :=
  k prev s ||
  match n with
  | O => false
  | S n' => m prev s (λ prev' s', (length s' <? length s)%nat && star_loop m k n' prev' s')
  end.

Fixpoint rmatch (r : regex) (prev : option ascii) (s : list ascii)
    (k : option ascii → list ascii → bool) : bool :=
  match r with
  | REmpty => k prev s
  | RSet p => match s with c :: s' => p c && k (Some c) s' | [] => false end
  | RSeq r1 r2 => rmatch r1 prev s (λ prev' s', rmatch r2 prev' s' k)
  | RAlt r1 r2 => rmatch r1 prev s k || rmatch r2 prev s k
  | RStar r1 => star_loop (rmatch r1) k (length s) prev s
  | RBound => boundary prev s && k prev s
  end.

(** [re.search(s) is not None] and [re.fullmatch(s) is not None] *)
Fixpoint search_from (r : regex) (prev : option ascii) (s : list ascii) : bool :=
  rmatch r prev s (λ _ _, true) ||
  match s with [] => false | c :: s' => search_from r (Some c) s' end.
Definition search (r : regex) (s : string) : bool := search_from r None (chars s).
Definition fullmatch (r : regex) (s : string) : bool :=
  rmatch r None (chars s) (λ _ s', bool_decide (s' = [])).

(** * Notation of the patterns *)

Definition RChar (c : ascii) : regex := RSet (λ d, bool_decide (d = c)).
(** A literal, and one under [re.I] *)
Definition rlit (s : string) : regex := foldr (λ c r, RSeq (RChar c) r) REmpty (chars s).
Definition rlit_i (s : string) : regex :=
  foldr (λ c r, RSeq (RSet (λ d, bool_decide (lower_char d = lower_char c))) r) REmpty (chars s).
Definition ropt (r : regex) : regex := RAlt r REmpty.
Definition rplus (r : regex) : regex := RSeq r (RStar r).
Definition rspace : regex := RSet is_space.
Definition rseqs (rs : list regex) : regex := foldr RSeq REmpty rs.
Fixpoint ralts (r : regex) (rs : list regex) : regex :=
  match rs with [] => r | r' :: rs' => RAlt r (ralts r' rs') end.
Definition rrepeat (n : nat) (r : regex) : regex := rseqs (replicate n r).

(** * The declarative reading *)

(** [r] matches from [(prev, s)] and stops at [(prev', s')]. *)
Inductive matches : regex → option ascii → list ascii → option ascii → list ascii → Prop :=
  | m_empty prev s : matches REmpty prev s prev s
  | m_set p prev c s : p c = true → matches (RSet p) prev (c :: s) (Some c) s
  | m_seq r1 r2 p1 s1 p2 s2 p3 s3 :
      matches r1 p1 s1 p2 s2 → matches r2 p2 s2 p3 s3 → matches (RSeq r1 r2) p1 s1 p3 s3
  | m_left r1 r2 p s p' s' : matches r1 p s p' s' → matches (RAlt r1 r2) p s p' s'
  | m_right r1 r2 p s p' s' : matches r2 p s p' s' → matches (RAlt r1 r2) p s p' s'
  | m_star_nil r prev s : matches (RStar r) prev s prev s
  | m_star r p1 s1 p2 s2 p3 s3 :
      matches r p1 s1 p2 s2 → matches (RStar r) p2 s2 p3 s3 → matches (RStar r) p1 s1 p3 s3
  | m_bound prev s : boundary prev s = true → matches RBound prev s prev s.

(** A match consumes a prefix, and the character before is the last one
    consumed. *)
Lemma matches_suffix r p s p' s' :
  matches r p s p' s' → length s' < length s ∨ s' = s ∧ p' = p.
Proof. induction 1; cbn; intuition (subst; auto; lia). Qed.

Lemma rmatch_matches r p s k :
  rmatch r p s k = true ↔ ∃ p' s', matches r p s p' s' ∧ k p' s' = true.
Proof.
  revert p s k. induction r as [|f|r1 IH1 r2 IH2|r1 IH1 r2 IH2|r IH|]; intros p s k; cbn [rmatch].
  - split; [eauto using matches|]. intros (p' & s' & H & Hk). by inversion H; subst.
  - destruct s as [|c s].
    + split; [done|]. intros (p' & s' & H & _). inversion H.
    + rewrite andb_true_iff. split; [intros []; eauto using matches|].
      intros (p' & s' & H & Hk). by inversion H; subst.
  - rewrite IH1. split.
    + intros (p1 & s1 & H1 & (p2 & s2 & H2 & Hk)%IH2). eauto using matches.
    + intros (p' & s' & H & Hk). inversion H; subst. do 2 eexists. split; [done|].
      apply IH2. eauto.
  - rewrite orb_true_iff, IH1, IH2. split.
    + intros [(p' & s' & H & Hk)|(p' & s' & H & Hk)]; eauto using matches.
    + intros (p' & s' & H & Hk). inversion H; subst; eauto.
  - assert (Hgo : ∀ n p s, length s ≤ n →
      star_loop (rmatch r) k n p s = true ↔ ∃ p' s', matches (RStar r) p s p' s' ∧ k p' s' = true).
    { clear p s. induction n as [|n IHn]; intros p s Hn; cbn [star_loop]; rewrite orb_true_iff.
      - split.
        + intros [Hk|]; [|done]. eauto using matches.
        + intros (p' & s' & H & Hk). left. apply matches_suffix in H as [?|[-> ->]]; [lia|done].
      - rewrite IH. setoid_rewrite andb_true_iff. setoid_rewrite Nat.ltb_lt. split.
        + intros [Hk|(p1 & s1 & H & Hlt & Hg)]; [eauto using matches|].
          apply IHn in Hg as (p' & s' & H' & Hk); [|lia]. eauto using matches.
        + intros (p' & s' & H & Hk).
          remember (RStar r) as rs eqn:Er. induction H; simplify_eq; [by left|].
          destruct (matches_suffix _ _ _ _ _ H) as [Hlt|[-> ->]]; [|by apply IHmatches2].
          right. do 2 eexists. split; [done|]. split; [done|]. apply IHn; [lia|]. eauto. }
    apply Hgo. done.
  - rewrite andb_true_iff. split; [intros []; eauto using matches|].
    intros (p' & s' & H & Hk). by inversion H; subst.
Qed.

(** What [search] and [fullmatch] answer. *)
Lemma search_spec r s :
  search r s = true ↔
  ∃ before after p' s', chars s = before ++ after ∧ matches r (last before) after p' s'.
Proof.
  unfold search. generalize (chars s) as l. intros l.
  assert (Hgo : ∀ before, search_from r (last before) l = true ↔
    ∃ b after p' s', l = b ++ after ∧ matches r (last (before ++ b)) after p' s').
  { induction l as [|c l IH]; intros before; cbn [search_from]; rewrite orb_true_iff, rmatch_matches.
    - split.
      + intros [(p' & s' & H & _)|]; [|done]. exists [], [], p', s'. split; [done|]. by rewrite app_nil_r.
      + intros (b & after & p' & s' & E & H). left. destruct b; [|done]. cbn in E. subst.
        rewrite app_nil_r in H. eauto.
    - replace (Some c) with (last (before ++ [c])) by (by rewrite last_snoc).
      rewrite IH. split.
      + intros [(p' & s' & H & _)|(b & after & p' & s' & -> & H)].
        * exists [], (c :: l), p', s'. split; [done|]. by rewrite app_nil_r.
        * exists (c :: b), after, p', s'. rewrite <-app_assoc in H. by split.
      + intros ([|c' b] & after & p' & s' & E & H).
        * left. cbn in E. subst. rewrite app_nil_r in H. eauto.
        * right. injection E as <- ->. exists b, after, p', s'. split; [done|]. by rewrite <-app_assoc. }
  apply (Hgo []).
Qed.

Lemma fullmatch_spec r s : fullmatch r s = true ↔ ∃ p', matches r None (chars s) p' [].
Proof.
  unfold fullmatch. rewrite rmatch_matches. setoid_rewrite bool_decide_eq_true. naive_solver.
Qed.
