(* ===== verification/Paths.v ===== *)
(** Paths: [pathlib.PurePosixPath] on the texts the components pass around:
    parts, names, suffixes, parents, [posixpath.relpath] and [fnmatch]. *)

From S2P Require Import Prelude Text Regex.

(** * Parts *)

Definition is_slash (c : ascii) : bool := bool_decide (c = "/"%char).

(** The components: empty ones and single dots are dropped. *)
Definition path_components (path : string) : list string :=
  of_chars <$> filter (λ part, part ≠ [] ∧ part ≠ ["."%char]) (split_chars is_slash (chars path)).

(** The root: exactly two leading slashes are kept. *)
Definition path_root (path : string) : string :=
  match chars path with
  | "/"%char :: "/"%char :: "/"%char :: _ => "/"
  | "/"%char :: "/"%char :: _ => "//"
  | "/"%char :: _ => "/"
  | _ => ""
  end.

Definition is_absolute (path : string) : bool := bool_decide (path_root path ≠ "").

(** [path.parts] *)
Definition path_parts (path : string) : list string :=
  (if is_absolute path then [path_root path] else []) ++ path_components path.

(** [path.as_posix()] and [str(path)] *)
Definition as_posix (path : string) : string :=
  match path_root path +:+ join "/" (path_components path) with "" => "." | s => s end.

(** [path.name]: the last component, or the empty text *)
Definition path_name (path : string) : list ascii :=
  default [] (last (filter (λ part, part ≠ [] ∧ part ≠ ["."%char])
                      (split_chars is_slash (chars path)))).

(** [path.suffix] *)
Definition path_suffix (path : string) : string :=
  let name := path_name path in
  match list_find (λ c, c = "."%char) (reverse name) with
  | Some (i, _) =>
      (* [i] characters follow the last dot *)
      if (0 <? i)%nat && (S i <? length name)%nat
      then of_chars (drop (length name - S i) name) else ""
  | None => ""
  end.

(** [p1 == p2] and [p2 in p1.parents] on paths *)
Definition path_eqb (p1 p2 : string) : bool := bool_decide (path_parts p1 = path_parts p2).
Definition in_parents (parent path : string) : bool :=
  bool_decide (path_root parent = path_root path) &&
  bool_decide (path_components parent = take (length (path_components parent)) (path_components path)) &&
  (length (path_components parent) <? length (path_components path))%nat.

(** [path.is_relative_to(other)] *)
Definition is_relative_to (path other : string) : bool := path_eqb path other || in_parents other path.

(** [base / path], as text *)
Definition path_join (base path : string) : string :=
  as_posix (if is_absolute path || String.eqb base "" then path
            else if endswith "/" base then base +:+ path else base +:+ "/" +:+ path).

(** The first [k] components of a path, and [path.parents] with their names,
    nearest first *)
Definition path_prefix (path : string) (k : nat) : string :=
  match path_root path +:+ join "/" (take k (path_components path)) with "" => "." | s => s end.
Definition path_ancestors (path : string) : list (string * string) :=
  (λ k, (default "" (last (take k (path_components path))), path_prefix path k))
    <$> rev (seq 0 (length (path_components path))).
(** [path.parent] *)
Definition path_parent (path : string) : string :=
  path_prefix path (length (path_components path) - 1).

(** * [posixpath.normpath] and [posixpath.relpath] of relative paths

    [relpath] joins both paths to the working directory, whose components are
    [cwd]; [..] removes the component before it and stops at the root. *)
Fixpoint normalize_components (acc : list string) (l : list string) : list string :=
  match l with
  | [] => reverse acc
  | ".." :: l' => normalize_components (tail acc) l'
  | x :: l' => normalize_components (x :: acc) l'
  end.
Definition abspath (cwd : list string) (path : string) : list string :=
  normalize_components [] (if is_absolute path then path_components path else cwd ++ path_components path).

Fixpoint common_prefix {A} `{EqDecision A} (l1 l2 : list A) : nat :=
  match l1, l2 with
  | x :: l1', y :: l2' => if decide (x = y) then S (common_prefix l1' l2') else 0
  | _, _ => 0
  end.
Definition relative_components (start path : list string) : list string :=
  let i := common_prefix start path in
  replicate (length start - i) ".." ++ drop i path.
Definition relpath (cwd : list string) (path start : string) : string :=
  match relative_components (abspath cwd start) (abspath cwd path) with
  | [] => "."
  | l => join "/" l
  end.

(** [posixpath.normpath]: in a relative path the leading [..] stay. *)
Fixpoint normpath_components (absolute : bool) (acc l : list string) : list string :=
  match l with
  | [] => reverse acc
  | x :: l' =>
      let pushed := normpath_components absolute (x :: acc) l' in
      if negb (String.eqb x "..") then pushed
      else match acc with
           | [] => if absolute then normpath_components absolute acc l' else pushed
           | y :: acc' => if String.eqb y ".." then pushed else normpath_components absolute acc' l'
           end
  end.
Definition normpath (path : string) : string :=
  match path_root path +:+ join "/" (normpath_components (is_absolute path) [] (path_components path)) with
  | "" => "."
  | s => s
  end.
Example normpath_up : normpath "a/../../b/./c/.." = "../b". Proof. reflexivity. Qed.
Example normpath_root : normpath "/../a//b" = "/a/b". Proof. reflexivity. Qed.

(** * [fnmatch.fnmatch] on POSIX

    A pattern is translated as [fnmatch.translate] does; the members of a
    bracket expression are single characters and ranges. *)

(** The text between brackets split at the dashes that make ranges, and the
    ranges whose bounds are reversed removed. *)
Inductive glob_item := GOne (c : ascii) | GRange (lo hi : ascii).
Definition item_matches (c : ascii) (i : glob_item) : bool :=
  match i with
  | GOne d => bool_decide (c = d)
  | GRange lo hi => (code lo <=? code c)%Z && (code c <=? code hi)%Z
  end.
Fixpoint glob_items (fuel : nat) (l : list ascii) : list glob_item :=
  match fuel, l with
  | S n, c :: "-"%char :: d :: l' => GRange c d :: glob_items n l'
  | S n, c :: l' => GOne c :: glob_items n l'
  | _, _ => []
  end.
Definition glob_set (stuff : list ascii) : ascii → bool :=
  match stuff with
  | "!"%char :: l => λ c, negb (existsb (item_matches c) (glob_items (length l) l))
  | l => λ c, existsb (item_matches c) (glob_items (length l) l)
  end.

(** The characters before the closing bracket and those after it; a bracket
    right after the opening (and its [!]) does not close. *)
Fixpoint until_bracket (l : list ascii) : option (list ascii * list ascii) :=
  match l with
  | [] => None
  | "]"%char :: l' => Some ([], l')
  | c :: l' => (λ sr, (c :: sr.1, sr.2)) <$> until_bracket l'
  end.
Definition bracket_of (l : list ascii) : option (list ascii * list ascii) :=
  let prepend p := option_map (λ sr : list ascii * list ascii, (p ++ sr.1, sr.2)) in
  match l with
  | "!"%char :: "]"%char :: l' => prepend ["!"%char; "]"%char] (until_bracket l')
  | "!"%char :: l' => prepend ["!"%char] (until_bracket l')
  | "]"%char :: l' => prepend ["]"%char] (until_bracket l')
  | _ => until_bracket l
  end.

Fixpoint glob_regex (fuel : nat) (l : list ascii) : regex :=
  match fuel, l with
  | S n, "*"%char :: l' => RSeq (RStar (RSet (λ _, true))) (glob_regex n l')
  | S n, "?"%char :: l' => RSeq (RSet (λ _, true)) (glob_regex n l')
  | S n, "["%char :: l' =>
      match bracket_of l' with
      | Some (stuff, rest) => RSeq (RSet (glob_set stuff)) (glob_regex n rest)
      | None => RSeq (RChar "["%char) (glob_regex n l')
      end
  | S n, c :: l' => RSeq (RChar c) (glob_regex n l')
  | _, _ => REmpty
  end.
Definition fnmatch (name pattern : string) : bool :=
  fullmatch (glob_regex (String.length pattern) (chars pattern)) name.

Example path_suffix_py : path_suffix "a/b.d/c.test.py" = ".py". Proof. reflexivity. Qed.
Example path_suffix_dot : path_suffix ".py" = "". Proof. reflexivity. Qed.
Example relpath_up : relpath ["w"] "a/b" "a/c/" = "../b". Proof. reflexivity. Qed.
Example fnmatch_test : fnmatch "test_a.py" "test_*.py" = true. Proof. reflexivity. Qed.
Example fnmatch_bracket : fnmatch "t-9" "[!a-s]?[]0-9]" = true. Proof. reflexivity. Qed.

(** * Facts *)

Definition component (c : string) : Prop := c ≠ "" ∧ c ≠ "." ∧ Forall (λ d, is_slash d = false) (chars c).

Lemma path_components_good path : Forall component (path_components path).
Proof.
  apply Forall_forall. intros c (l & -> & [Hne Hl]%list_elem_of_filter)%list_elem_of_fmap.
  unfold component. rewrite chars_of_chars. destruct Hne as [H1 H2]. split_and!.
  - intros E. apply H1. apply (f_equal chars) in E. by rewrite chars_of_chars in E.
  - intros E. apply H2. apply (f_equal chars) in E. by rewrite chars_of_chars in E.
  - apply Forall_forall. intros d. by apply split_chars_no_sep with (l := chars path).
Qed.

Lemma split_components comps :
  Forall component comps →
  filter (λ part, part ≠ [] ∧ part ≠ ["."%char]) (split_chars is_slash (chars (join "/" comps))) = chars <$> comps.
Proof.
  assert (∀ c, component c → chars c ≠ [] ∧ chars c ≠ ["."%char]) as Hgood.
  { intros c (H1 & H2 & _). split; intros E; apply (f_equal of_chars) in E; rewrite of_chars_chars in E; done. }
  induction 1 as [|c comps Hc Hcs IH]; [done|]. destruct comps as [|d comps].
  - cbn [join]. destruct Hc as (H1 & H2 & H3). rewrite split_chars_single by done.
    rewrite filter_cons, decide_True by (by apply Hgood). done.
  - change (join "/" (c :: d :: comps)) with (c +:+ "/" +:+ join "/" (d :: comps)).
    rewrite !chars_app. change (chars "/") with ["/"%char]. cbn [app].
    rewrite split_chars_app by (done || apply Hc).
    rewrite filter_cons, decide_True by (by apply Hgood). by rewrite IH.
Qed.
Definition is_root (r : string) : Prop := r = "" ∨ r = "/" ∨ r = "//".
Lemma path_root_is_root path : is_root (path_root path).
Proof. unfold path_root, is_root. repeat case_match; auto. Qed.

Lemma path_components_slash s : path_components (String "/"%char s) = path_components s.
Proof. done. Qed.
Lemma head_not_slash comps d l :
  Forall component comps → chars (join "/" comps) = d :: l → is_slash d = false.
Proof.
  intros Hc E. destruct Hc as [|c comps (Hne & _ & Hs) _]; [done|].
  assert (∃ t, chars (join "/" (c :: comps)) = chars c ++ t) as [t Ht].
  { destruct comps as [|e comps]; [exists []; cbn; by rewrite app_nil_r|].
    change (join "/" (c :: e :: comps)) with (c +:+ "/" +:+ join "/" (e :: comps)). rewrite chars_app. eauto. }
  rewrite Ht in E. destruct (chars c) as [|d' l'] eqn:Ec; [by apply chars_nil_iff in Ec|].
  injection E as <- _. by inversion Hs.
Qed.
Lemma path_root_not_slash s : (∀ d l, chars s = d :: l → is_slash d = false) → path_root s = "".
Proof.
  unfold path_root. intros Hs. destruct (chars s) as [|d l]; [done|]. specialize (Hs d l eq_refl).
  unfold is_slash in Hs. apply bool_decide_eq_false in Hs. by destruct d as [[] [] [] [] [] [] [] []].
Qed.
(** The last component is never absolute. *)
Lemma path_name_relative path : is_absolute (of_chars (path_name path)) = false.
Proof.
  unfold is_absolute. apply bool_decide_eq_false. intros Hr. apply Hr, path_root_not_slash.
  rewrite chars_of_chars. intros d l E. unfold path_name in E.
  destruct (last _) as [w|] eqn:Ew; [|done]. cbn in E. subst w.
  apply last_Some_elem_of, list_elem_of_filter in Ew as [_ Hw].
  eapply split_chars_no_sep; [exact Hw|left].
Qed.
Lemma path_root_slashes s :
  (∀ d l, chars s = d :: l → is_slash d = false) →
  path_root (String "/"%char s) = "/" ∧ path_root (String "/"%char (String "/"%char s)) = "//".
Proof.
  unfold path_root. intros Hs. 
  assert (∀ t, chars (String "/"%char t) = "/"%char :: chars t) as E by done. rewrite !E.
  destruct (chars s) as [|d l]; [done|]. specialize (Hs d l eq_refl).
  unfold is_slash in Hs. apply bool_decide_eq_false in Hs.
  destruct d as [[] [] [] [] [] [] [] []]; (done || by destruct Hs).
Qed.

(** A root and components make the path that has them. *)
Lemma path_render r comps :
  is_root r → Forall component comps →
  path_root (r +:+ join "/" comps) = r ∧ path_components (r +:+ join "/" comps) = comps.
Proof.
  intros Hr Hc. pose proof (λ d l, head_not_slash comps d l Hc) as Hh. split.
  - destruct Hr as [->|[->| ->]]; [by apply path_root_not_slash|by apply path_root_slashes..].
  - assert (path_components (join "/" comps) = comps) as E.
    { unfold path_components. rewrite split_components by done. rewrite <-list_fmap_compose.
      rewrite <-(list_fmap_id comps) at 2. apply list_fmap_ext. intros i c _. apply of_chars_chars. }
    destruct Hr as [->|[->| ->]]; exact E.
Qed.

Lemma as_posix_facts path :
  path_root (as_posix path) = path_root path ∧ path_components (as_posix path) = path_components path.
Proof.
  unfold as_posix. destruct (path_render (path_root path) (path_components path)
    (path_root_is_root path) (path_components_good path)) as [Hr Hc].
  destruct (path_root path +:+ join "/" (path_components path)) eqn:E; [|done].
  rewrite <-Hr, <-Hc. done.
Qed.
Lemma path_root_as_posix path : path_root (as_posix path) = path_root path.
Proof. apply as_posix_facts. Qed.
Lemma path_components_as_posix path : path_components (as_posix path) = path_components path.
Proof. apply as_posix_facts. Qed.

(** The components of [base / path] for a relative path *)
Lemma split_chars_not_nil p l : split_chars p l ≠ [].
Proof. destruct l as [|c l]; cbn; [done|]. by repeat case_match. Qed.
Lemma split_chars_concat p l1 c l2 :
  p c = true → split_chars p (l1 ++ c :: l2) = split_chars p l1 ++ split_chars p l2.
Proof.
  intros Hc. induction l1 as [|d l1 IH]; cbn; [by rewrite Hc|]. rewrite IH.
  destruct (p d); [done|]. destruct (split_chars p l1) eqn:E; [|done]. by destruct (split_chars_not_nil p l1).
Qed.
Lemma path_components_app base path :
  path_components (base +:+ "/" +:+ path) = path_components base ++ path_components path.
Proof.
  unfold path_components. rewrite !chars_app. change (chars "/") with ["/"%char]. cbn [app].
  rewrite split_chars_concat, filter_app, fmap_app by done. done.
Qed.
Lemma string_app_assoc s t u : (s +:+ t) +:+ u = s +:+ t +:+ u.
Proof. induction s as [|c s IH]; [done|].
  change (String c ((s +:+ t) +:+ u) = String c (s +:+ t +:+ u)). by rewrite IH. Qed.
Lemma path_components_join base path :
  is_absolute path = false → path_components (path_join base path) = path_components base ++ path_components path.
Proof.
  intros Hp. unfold path_join. rewrite Hp. cbn [orb]. rewrite path_components_as_posix.
  destruct (String.eqb_spec base "") as [->|]; [done|]. case_match eqn:E; [|apply path_components_app].
  apply endswith_iff in E as [t ->].
  replace ((t +:+ "/") +:+ path) with (t +:+ "/" +:+ path) by (symmetry; apply string_app_assoc).
  pose proof (path_components_app t "") as E. cbn [String.append] in E. change ("/" +:+ "") with "/" in E.
  rewrite path_components_app, E. by rewrite app_nil_r.
Qed.

Lemma is_absolute_slash path : is_absolute path = false → ∀ d l, chars path = d :: l → is_slash d = false.
Proof.
  unfold is_absolute, path_root. intros Hp d l E. rewrite E in Hp. unfold is_slash. apply bool_decide_eq_false.
  intros ->. destruct l as [|e l]; [done|]. by repeat case_match.
Qed.
Lemma path_root_app base path :
  base ≠ "" → (∀ d l, chars path = d :: l → is_slash d = false) ∨ endswith "/" base = false →
  path_root (base +:+ path) = path_root base.
Proof.
  intros Hne Hp. unfold path_root. rewrite chars_app.
  assert (chars base = ["/"%char] ∨ chars base = ["/"%char; "/"%char] →
    ∀ d l, chars path = d :: l → d ≠ "/"%char) as Hs.
  { intros Hb d l E. destruct Hp as [Hp|Hp].
    - specialize (Hp d l E). by apply bool_decide_eq_false in Hp.
    - exfalso. assert (endswith "/" base = true); [|congruence].
      rewrite <-(of_chars_chars base). by destruct Hb as [-> | ->]. }
  destruct (chars base) as [|a [|b [|c l]]] eqn:E; [by apply chars_nil_iff in E| | |done]; cbn [app].
  - destruct (decide (a = "/"%char)) as [->|Ha].
    + destruct (chars path) as [|d l]; [done|]. pose proof (Hs (or_introl eq_refl) d l eq_refl) as Hd.
      destruct d as [[] [] [] [] [] [] [] []]; solve [done|by destruct Hd].
    + destruct a as [[] [] [] [] [] [] [] []]; solve [done|by destruct Ha].
  - destruct (decide (a = "/"%char)) as [->|Ha].
    + destruct (decide (b = "/"%char)) as [->|Hb].
      * destruct (chars path) as [|d l]; [done|]. pose proof (Hs (or_intror eq_refl) d l eq_refl) as Hd.
        destruct d as [[] [] [] [] [] [] [] []]; solve [done|by destruct Hd].
      * destruct b as [[] [] [] [] [] [] [] []]; solve [done|by destruct Hb].
    + destruct a as [[] [] [] [] [] [] [] []]; solve [done|by destruct Ha].
Qed.
Lemma path_root_join base path :
  is_absolute path = false → base ≠ "" → path_root (path_join base path) = path_root base.
Proof.
  intros Hp Hb. unfold path_join. rewrite Hp, path_root_as_posix. cbn [orb].
  destruct (String.eqb_spec base "") as [->|_]; [done|].
  destruct (endswith "/" base) eqn:E; apply path_root_app; auto. left. by apply is_absolute_slash.
Qed.

Lemma path_parts_inj p q :
  path_parts p = path_parts q → path_root p = path_root q ∧ path_components p = path_components q.
Proof.
  assert (∀ s, component s → ¬ is_root s ∨ s = "") as Hcr.
  { intros s (Hne & _ & Hs). left. intros [->|[->| ->]]; [done|by inversion Hs..]. }
  unfold path_parts, is_absolute.
  pose proof (path_root_is_root p) as Hrp. pose proof (path_root_is_root q) as Hrq.
  pose proof (path_components_good p) as Hcp. pose proof (path_components_good q) as Hcq.
  case_bool_decide as Hp; case_bool_decide as Hq; cbn [app].
  - by intros [= -> ->].
  - intros E. rewrite <-E in Hcq. inversion Hcq as [|? ? (Hne & _ & Hs) _]; subst.
    destruct Hrp as [Hr|[Hr|Hr]]; rewrite Hr in Hs; [by rewrite Hr in Hp|by inversion Hs..].
  - intros E. rewrite E in Hcp. inversion Hcp as [|? ? (Hne & _ & Hs) _]; subst.
    destruct Hrq as [Hr|[Hr|Hr]]; rewrite Hr in Hs; [by rewrite Hr in Hq|by inversion Hs..].
  - intros ->. by rewrite Hp, Hq.
Qed.
Lemma is_relative_to_iff path other :
  is_relative_to path other = true ↔
  path_root path = path_root other ∧ ∃ rest, path_components path = path_components other ++ rest.
Proof.
  unfold is_relative_to, path_eqb, in_parents. rewrite orb_true_iff, !andb_true_iff, !bool_decide_eq_true. split.
  - intros [E|[[Hr Hc] _]].
    + apply path_parts_inj in E as [-> ->]. split; [done|]. exists []. by rewrite app_nil_r.
    + split; [done|]. exists (drop (length (path_components other)) (path_components path)).
      rewrite Hc at 1. by rewrite take_drop.
  - intros [Hr [rest E]]. destruct rest as [|x rest].
    + left. rewrite app_nil_r in E. unfold path_parts, is_absolute. by rewrite Hr, E.
    + right. rewrite E, take_app_length, length_app. split_and!; [done|done|]. apply Nat.ltb_lt. cbn. lia.
Qed.
Lemma is_relative_to_join base path :
  is_absolute path = false → base ≠ "" → is_relative_to (path_join base path) base = true.
Proof.
  intros Hp Hb. apply is_relative_to_iff. rewrite path_root_join, path_components_join by done. eauto.
Qed.
