(* ===== verification/Dict.v ===== *)
(** Dict: Python dictionaries as insertion-ordered association lists, with
    [d[k] = v] in place for a present key and at the end for a new one. *)

From S2P Require Import Prelude.

Section dict.
Context {K : Type} `{EqDecision K} {V : Type}.

Fixpoint dict_get (k : K) (d : list (K * V)) : option V :=
  match d with
  | [] => None
  | (k', v) :: d' => if decide (k = k') then Some v else dict_get k d'
  end.

Fixpoint dict_set (k : K) (v : V) (d : list (K * V)) : list (K * V) :=
  match d with
  | [] => [(k, v)]
  | (k', v') :: d' =>
      if decide (k = k') then (k', v) :: d' else (k', v') :: dict_set k v d'
  end.

Definition dict_keys (d : list (K * V)) : list K := d.*1.
Definition dict_values (d : list (K * V)) : list V := d.*2.
Definition dict_mem (k : K) (d : list (K * V)) : bool :=
  match dict_get k d with Some _ => true | None => false end.

(** [dict(pairs)], [{k: v for ...}] *)
Definition dict_of (l : list (K * V)) : list (K * V) :=
  foldl (λ d kv, dict_set kv.1 kv.2 d) [] l.

(** [{**d1, **d2}] *)
Definition dict_merge (d1 d2 : list (K * V)) : list (K * V) :=
  foldl (λ d kv, dict_set kv.1 kv.2 d) d1 d2.

Definition dict_wf (d : list (K * V)) : Prop := NoDup (dict_keys d).
End dict.

(** [defaultdict(list)] filled by [d[f(x)].append(x)] in the order of [l]. *)
Definition dict_append {K V} `{EqDecision K} (k : K) (v : V)
    (d : list (K * list V)) : list (K * list V) :=
  dict_set k (default [] (dict_get k d) ++ [v]) d.
Definition group_by {K V} `{EqDecision K} (f : V → K) (l : list V) : list (K * list V) :=
  foldl (λ d x, dict_append (f x) x d) [] l.
(** [d.get(k, [])] on such a dictionary *)
Definition bucket {K V} `{EqDecision K} (k : K) (d : list (K * list V)) : list V :=
  default [] (dict_get k d).

(** [d[k] = d.get(k, 0) + n] *)
Definition dict_incr {K} `{EqDecision K} (k : K) (n : Z) (d : list (K * Z)) : list (K * Z) :=
  dict_set k (default 0%Z (dict_get k d) + n)%Z d.

Section dict_facts.
Context {K : Type} `{EqDecision K} {V : Type}.
Implicit Types (d : list (K * V)) (k : K) (v : V).

Lemma dict_get_set_eq k v d : dict_get k (dict_set k v d) = Some v.
Proof.
  induction d as [|[k' v'] d IH]; simpl; [by rewrite decide_True|].
  case_decide as E; simpl; [by rewrite decide_True|by rewrite decide_False].
Qed.

Lemma dict_get_set_ne k k' v d : k ≠ k' → dict_get k (dict_set k' v d) = dict_get k d.
Proof.
  intros Hne. induction d as [|[k'' v''] d IH]; simpl.
  - by rewrite decide_False.
  - destruct (decide (k' = k'')) as [->|]; simpl.
    + by rewrite !decide_False.
    + by rewrite IH.
Qed.

Lemma dict_set_fresh k v d : k ∉ dict_keys d → dict_set k v d = d ++ [(k, v)].
Proof.
  induction d as [|[k' v'] d IH]; simpl; [done|]. intros [H1 H2]%not_elem_of_cons.
  by rewrite decide_False, IH.
Qed.

Lemma dict_get_set k k' v d :
  dict_get k (dict_set k' v d) = if decide (k = k') then Some v else dict_get k d.
Proof.
  case_decide as E; [subst; apply dict_get_set_eq|by apply dict_get_set_ne].
Qed.

Lemma dict_get_Some_elem k v d : dict_get k d = Some v → (k, v) ∈ d.
Proof.
  induction d as [|[k' v'] d IH]; simpl; [done|].
  case_decide; intros; simplify_eq; [left|right; auto].
Qed.

Lemma dict_get_None k d : dict_get k d = None ↔ k ∉ dict_keys d.
Proof.
  unfold dict_keys. induction d as [|[k' v'] d IH]; simpl; [set_solver|].
  rewrite not_elem_of_cons. case_decide as E; [subst; split; [done|by intros [? _]]|].
  rewrite IH. by split; [|intros [_ ?]].
Qed.

Lemma dict_get_elem k v d : dict_wf d → (k, v) ∈ d → dict_get k d = Some v.
Proof.
  unfold dict_wf, dict_keys. induction d as [|[k' v'] d IH]; simpl; [set_solver|].
  rewrite NoDup_cons, elem_of_cons. intros [Hk Hd] [E|E].
  - simplify_eq. by rewrite decide_True.
  - rewrite decide_False; [auto|]. intros ->. apply Hk.
    apply list_elem_of_fmap. by exists (k', v).
Qed.

Lemma elem_of_dict_keys k d : k ∈ dict_keys d ↔ is_Some (dict_get k d).
Proof.
  destruct (dict_get k d) as [v|] eqn:E.
  - split; [by eexists|intros _]. apply list_elem_of_fmap.
    exists (k, v). split; [done|]. by apply dict_get_Some_elem.
  - apply dict_get_None in E. split; [done|by intros []].
Qed.

Lemma dict_mem_true k d : dict_mem k d = true ↔ k ∈ dict_keys d.
Proof.
  rewrite elem_of_dict_keys. unfold dict_mem.
  destruct (dict_get k d); by split; try done; intros [].
Qed.

Lemma dict_keys_set k v d :
  dict_keys (dict_set k v d) =
    if decide (k ∈ dict_keys d) then dict_keys d else dict_keys d ++ [k].
Proof.
  unfold dict_keys. induction d as [|[k' v'] d IH]; csimpl; [done|].
  destruct (decide (k = k')) as [->|Hne]; csimpl.
  - rewrite decide_True; [done|left].
  - rewrite IH. repeat case_decide; set_solver.
Qed.

Lemma dict_wf_set k v d : dict_wf d → dict_wf (dict_set k v d).
Proof.
  unfold dict_wf. intros Hd. rewrite dict_keys_set. case_decide; [done|].
  apply NoDup_app. split_and!; [done|set_solver|apply NoDup_singleton].
Qed.

Lemma dict_wf_merge d1 d2 : dict_wf d1 → dict_wf (dict_merge d1 d2).
Proof.
  unfold dict_merge. revert d1. induction d2 as [|[k v] d2 IH]; simpl; [done|].
  intros d1 Hd. by apply IH, dict_wf_set.
Qed.

Lemma dict_wf_nil : dict_wf (@nil (K * V)).
Proof. apply NoDup_nil_2. Qed.

(** The last binding of a key wins. *)
Lemma dict_get_merge k d1 d2 : dict_wf d2 →
  dict_get k (dict_merge d1 d2) =
    match dict_get k d2 with Some v => Some v | None => dict_get k d1 end.
Proof.
  unfold dict_merge, dict_wf, dict_keys. revert d1.
  induction d2 as [|[k' v'] d2 IH]; simpl; intros d1; [done|].
  rewrite NoDup_cons. intros [Hk' Hd2]. rewrite IH by done.
  rewrite dict_get_set. case_decide as E; [|done]. subst.
  by rewrite (proj2 (dict_get_None k' d2) Hk').
Qed.
End dict_facts.

#[export] Hint Resolve dict_wf_nil dict_wf_set dict_wf_merge : py.

(** ** Buckets *)
Section buckets.
Context {K : Type} `{EqDecision K} {V : Type} (f : V → K).

Lemma bucket_append (k k' : K) (x : V) d :
  bucket k (dict_append k' x d) = bucket k d ++ (if decide (k = k') then [x] else []).
Proof.
  unfold bucket, dict_append. rewrite dict_get_set.
  case_decide as E; simpl; [by subst|by rewrite app_nil_r].
Qed.

Lemma bucket_group_by (k : K) l : bucket k (group_by f l) = filter (λ x, f x = k) l.
Proof.
  unfold group_by.
  assert (∀ d, bucket k (foldl (λ d x, dict_append (f x) x d) d l) =
    bucket k d ++ filter (λ x, f x = k) l) as Hgo; [|by rewrite Hgo].
  induction l as [|x l IH]; intros d; simpl; [by rewrite app_nil_r|].
  rewrite IH, bucket_append, filter_cons, <-app_assoc.
  f_equal. repeat case_decide; naive_solver.
Qed.

Lemma dict_wf_group_by l : dict_wf (group_by f l).
Proof.
  unfold group_by. assert (∀ d, dict_wf d →
    dict_wf (foldl (λ d x, dict_append (f x) x d) d l)) as Hgo; [|apply Hgo; auto with py].
  induction l as [|x l IH]; intros d Hd; simpl; [done|].
  apply IH. unfold dict_append. auto with py.
Qed.

Lemma elem_of_keys_group_by (k : K) l : k ∈ dict_keys (group_by f l) ↔ ∃ x, x ∈ l ∧ f x = k.
Proof.
  unfold group_by. assert (∀ d, k ∈ dict_keys (foldl (λ d x, dict_append (f x) x d) d l) ↔
    k ∈ dict_keys d ∨ ∃ x, x ∈ l ∧ f x = k) as Hgo.
  { induction l as [|x l IH]; intros d; simpl; [set_solver|].
    rewrite IH. unfold dict_append. rewrite dict_keys_set.
    case_decide; set_solver. }
  rewrite Hgo. set_solver.
Qed.
End buckets.

(** ** Counting with [dict_incr] *)

Lemma dict_incr_get {K} `{EqDecision K} (k k' : K) n d :
  default 0%Z (dict_get k (dict_incr k' n d)) =
    (default 0 (dict_get k d) + if decide (k = k') then n else 0)%Z.
Proof.
  unfold dict_incr. rewrite dict_get_set. case_decide as E; [by subst|]. by rewrite Z.add_0_r.
Qed.

Section count.
Context {A K : Type} `{EqDecision K} (f : A → K).
Definition dict_count (l : list A) : list (K * Z) := foldl (λ d x, dict_incr (f x) 1 d) [] l.

Lemma dict_count_get k l :
  default 0%Z (dict_get k (dict_count l)) = Z.of_nat (length (filter (λ x, f x = k) l)).
Proof.
  unfold dict_count. enough (∀ d, default 0%Z (dict_get k (foldl (λ d x, dict_incr (f x) 1 d) d l)) =
    (default 0 (dict_get k d) + Z.of_nat (length (filter (λ x, f x = k) l)))%Z) as E by apply (E []).
  induction l as [|x l IH]; intros d; cbn [foldl]; [cbn; lia|]. rewrite IH, dict_incr_get, filter_cons.
  destruct (decide (k = f x)), (decide (f x = k)); cbn; try congruence; lia.
Qed.
Lemma dict_count_wf l : dict_wf (dict_count l).
Proof.
  unfold dict_count. enough (∀ d, dict_wf d → dict_wf (foldl (λ d x, dict_incr (f x) 1 d) d l)) as E
    by apply (E []), dict_wf_nil.
  induction l as [|x l IH]; intros d Hd; [done|]. by apply IH, dict_wf_set.
Qed.
End count.

(** ** The last binding of a key *)

Lemma dict_of_wf {K V} `{EqDecision K} (l : list (K * V)) : dict_wf (dict_of l).
Proof. apply (dict_wf_merge [] l), dict_wf_nil. Qed.

Lemma dict_of_get {K V} `{EqDecision K} (k : K) (l : list (K * V)) :
  dict_get k (dict_of l) = snd <$> last (filter (λ kv, kv.1 = k) l).
Proof.
  unfold dict_of. induction l as [|[k' v] l IH] using rev_ind; [done|].
  rewrite foldl_app. cbn [foldl]. rewrite dict_get_set, filter_app, filter_cons, filter_nil.
  cbn [fst snd]. destruct (decide (k = k')) as [->|Hne].
  - by rewrite decide_True, last_snoc.
  - rewrite decide_False by congruence. by rewrite app_nil_r.
Qed.
Lemma dict_of_get_elem {K V} `{EqDecision K} (k : K) (v : V) l : dict_get k (dict_of l) = Some v → (k, v) ∈ l.
Proof.
  rewrite dict_of_get. intros ([k' v'] & Hl & Hv)%fmap_Some. cbn in Hv. subst.
  apply last_Some_elem_of, list_elem_of_filter in Hl as [Hk Hin]. cbn in Hk. by subst.
Qed.

Lemma omap_dict_get {K V} `{EqDecision K} (d : list (K * V)) :
  dict_wf d → omap (λ k, dict_get k d) d.*1 = d.*2.
Proof.
  intros Hwf. assert (Hgo : ∀ l, (∀ k v, (k, v) ∈ l → dict_get k d = Some v) →
    omap (λ k, dict_get k d) l.*1 = l.*2).
  { induction l as [|[k v] l IH]; intros Hl; [done|]. cbn. rewrite (Hl k v) by left.
    f_equal. apply IH. intros k' v' Hin. apply Hl. by right. }
  apply Hgo. intros k v. by apply dict_get_elem.
Qed.

Lemma omap_fmap_dict {A K V} `{EqDecision K} (f : A → K) (d : list (K * V)) (l : list A) :
  omap (λ x, dict_get (f x) d) l = omap (λ k, dict_get k d) (f <$> l).
Proof. induction l as [|x l IH]; [done|]. cbn. by rewrite IH. Qed.

(** A dictionary built from distinct keys is the list of its items. *)
Lemma dict_merge_fresh {K V} `{EqDecision K} (d l : list (K * V)) :
  NoDup ((d ++ l).*1) → dict_merge d l = d ++ l.
Proof.
  unfold dict_merge. revert d. induction l as [|[k v] l IH]; intros d Hd; cbn [foldl]; [by rewrite app_nil_r|].
  rewrite dict_set_fresh.
  - rewrite IH; [by rewrite <-app_assoc|]. by rewrite <-app_assoc.
  - rewrite fmap_app, NoDup_app in Hd. destruct Hd as (_ & Hd & _). intros Hk. apply (Hd _ Hk). left.
Qed.
Lemma dict_of_id {K V} `{EqDecision K} (l : list (K * V)) : dict_wf l → dict_of l = l.
Proof. intros Hl. by apply (dict_merge_fresh [] l). Qed.
Lemma dict_of_app {K V} `{EqDecision K} (l1 l2 : list (K * V)) : dict_of (l1 ++ l2) = dict_merge (dict_of l1) l2.
Proof. unfold dict_of, dict_merge. by rewrite foldl_app. Qed.
Lemma dict_ext {K V} `{EqDecision K} (d1 d2 : list (K * V)) :
  dict_wf d1 → dict_keys d1 = dict_keys d2 → (∀ k, dict_get k d1 = dict_get k d2) → d1 = d2.
Proof.
  intros Hw Hk Hg. assert (Hw2 : dict_wf d2) by (unfold dict_wf; by rewrite <-Hk).
  rewrite <-(zip_fst_snd d1), <-(zip_fst_snd d2), <-(omap_dict_get d1), <-(omap_dict_get d2) by done.
  unfold dict_keys in Hk. rewrite Hk. f_equal. clear Hw Hw2 Hk. induction (d2.*1) as [|k l IH]; [done|].
  cbn. by rewrite Hg, IH.
Qed.
Lemma dict_keys_merge {K V} `{EqDecision K} (d l : list (K * V)) :
  dict_keys (dict_merge d l) = foldl (λ ks k, if decide (k ∈ ks) then ks else ks ++ [k]) (dict_keys d) l.*1.
Proof.
  unfold dict_merge. revert d. induction l as [|[k v] l IH]; intros d; [done|]. cbn [foldl fmap list_fmap fst].
  rewrite IH. by rewrite dict_keys_set.
Qed.
