(* ===== verification/PyValue.v ===== *)
(** PyValue: the dynamically typed values the components read from YAML and
    JSON payloads ([dict[str, Any]], [Mapping[Any, Any]], [object]), and the
    exceptions the code raises. *)

From S2P Require Import Prelude Text Dict.
From Stdlib Require Export SpecFloat.

(** * Values *)

(** Floats are binary64 values in the standard library's [spec_float];
    dates and datetimes are carried by their [str()] text; [VOther] is a
    value of any other type, named. *)
#[warnings="-register-all"]
Inductive pyval :=
  | VNone
  | VBool (b : bool)
  | VInt (z : Z)
  | VFloat (f : spec_float)
  | VStr (s : string)
  | VDatetime (text : string)
  | VDate (text : string)
  | VList (l : list pyval)
  | VTuple (l : list pyval)
  | VDict (l : list (pyval * pyval))
  | VSet (l : list pyval)
  | VOther (type_name : string).

Section pyval_rect.
Variable P : pyval → Prop.
Hypothesis HNone : P VNone.
Hypothesis HBool : ∀ b, P (VBool b).
Hypothesis HInt : ∀ z, P (VInt z).
Hypothesis HFloat : ∀ f, P (VFloat f).
Hypothesis HStr : ∀ s, P (VStr s).
Hypothesis HDatetime : ∀ s, P (VDatetime s).
Hypothesis HDate : ∀ s, P (VDate s).
Hypothesis HList : ∀ l, Forall P l → P (VList l).
Hypothesis HTuple : ∀ l, Forall P l → P (VTuple l).
Hypothesis HDict : ∀ l, Forall (λ kv, P kv.1 ∧ P kv.2) l → P (VDict l).
Hypothesis HSet : ∀ l, Forall P l → P (VSet l).
Hypothesis HOther : ∀ s, P (VOther s).

Fixpoint pyval_nested_ind (v : pyval) : P v :=
  let go := fix go l : Forall P l :=
    match l with
    | [] => Forall_nil_2 P
    | x :: l' => Forall_cons_2 P x l' (pyval_nested_ind x) (go l')
    end in
  match v with
  | VNone => HNone
  | VBool b => HBool b
  | VInt z => HInt z
  | VFloat f => HFloat f
  | VStr s => HStr s
  | VDatetime s => HDatetime s
  | VDate s => HDate s
  | VList l => HList l (go l)
  | VTuple l => HTuple l (go l)
  | VDict l =>
      HDict l ((fix go2 l : Forall (λ kv, P kv.1 ∧ P kv.2) l :=
        match l with
        | [] => Forall_nil_2 _
        | x :: l' => Forall_cons_2 _ x l'
            (conj (pyval_nested_ind x.1) (pyval_nested_ind x.2)) (go2 l')
        end) l)
  | VSet l => HSet l (go l)
  | VOther s => HOther s
  end.
End pyval_rect.

#[export] Instance spec_float_eq_dec : EqDecision spec_float.
Proof. solve_decision. Defined.

#[export] Instance pyval_eq_dec : EqDecision pyval.
Proof.
  refine (fix go v1 v2 :=
    let _ : EqDecision _ := @go in
    match v1, v2 with
    | VNone, VNone => left eq_refl
    | VBool x, VBool y => cast_if (decide (x = y))
    | VInt x, VInt y => cast_if (decide (x = y))
    | VFloat x, VFloat y => cast_if (decide (x = y))
    | VStr x, VStr y => cast_if (decide (x = y))
    | VDatetime x, VDatetime y => cast_if (decide (x = y))
    | VDate x, VDate y => cast_if (decide (x = y))
    | VList x, VList y => cast_if (decide (x = y))
    | VTuple x, VTuple y => cast_if (decide (x = y))
    | VDict x, VDict y => cast_if (decide (x = y))
    | VSet x, VSet y => cast_if (decide (x = y))
    | VOther x, VOther y => cast_if (decide (x = y))
    | _, _ => right _
    end); abstract congruence.
Defined.

(** [bool(v)] *)
Definition truthy (v : pyval) : bool :=
  match v with
  | VNone => false
  | VBool b => b
  | VInt z => negb (z =? 0)%Z
  | VFloat (S754_zero _) => false
  | VFloat _ => true
  | VStr s => bool_decide (s ≠ "")
  | VList l => bool_decide (l ≠ [])
  | VTuple l => bool_decide (l ≠ [])
  | VDict l => bool_decide (l ≠ [])
  | VSet l => bool_decide (l ≠ [])
  | VDatetime _ | VDate _ | VOther _ => true
  end.

(** [v1 or v2] *)
Definition py_or (v1 v2 : pyval) : pyval := if truthy v1 then v1 else v2.

(** Lists, dicts and sets cannot be members of a set or keys of a dict. *)
Fixpoint hashable (v : pyval) : bool :=
  match v with
  | VList _ | VDict _ | VSet _ => false
  | VTuple l => forallb hashable l
  | _ => true
  end.

(** The text of the values whose [str()] is computed by the interpreter from
    [repr] of floats and containers is a parameter. *)
Class PyRepr := py_repr : pyval → string.

Definition py_str `{PyRepr} (v : pyval) : string :=
  match v with
  | VStr s => s
  | VNone => "None"
  | VBool true => "True"
  | VBool false => "False"
  | VInt z => pretty z
  | VDatetime s | VDate s => s
  | _ => py_repr v
  end.

(** [json.loads] of a payload; [None] is a [JSONDecodeError] or a payload that
    is not text. *)
Class JsonLoads := json_loads : string → option pyval.

(** [d.get(k)] and [d.get(k, default)] with a string key *)
Definition vget (k : string) (d : list (pyval * pyval)) : pyval :=
  default VNone (dict_get (VStr k) d).
Definition sget_default (k : string) (dflt : pyval) (d : list (string * pyval)) : pyval :=
  default dflt (dict_get k d).
Definition sget (k : string) (d : list (string * pyval)) : pyval := sget_default k VNone d.

(** [v == s] for a string [s] *)
Definition is_str (s : string) (v : pyval) : bool := bool_decide (v = VStr s).

(** * Exceptions *)

Inductive exn :=
  | ValueError (msg : string)
  | TypeError (msg : string)
  | KeyError (msg : string)
  | OverflowError (msg : string)
  | AttributeError (msg : string)
  | UnsupportedWaiverInput (msg : string)
  | OSError (msg : string)
  | GitResolutionError (msg : string)
  | ContextResolutionError (msg : string)
  | PolicyResolutionError (msg : string)
  | InvalidScopeOption (msg : string)
  | ConflictingScopeError (msg : string)
  | NoReviewableFilesError (msg : string)
  | RunCommandError (msg : string)
  | ContractViolation (msg : string)
  | OtherError (type_name : string).

(** [type(error).__name__]; [OtherError] is an exception of other code, by the
    name of its type. *)
Definition exn_type_name (e : exn) : string :=
  match e with
  | ValueError _ => "ValueError" | TypeError _ => "TypeError" | KeyError _ => "KeyError"
  | OverflowError _ => "OverflowError" | AttributeError _ => "AttributeError"
  | UnsupportedWaiverInput _ => "UnsupportedWaiverInput" | OSError _ => "OSError"
  | GitResolutionError _ => "GitResolutionError"
  | ContextResolutionError _ => "ContextResolutionError"
  | PolicyResolutionError _ => "PolicyResolutionError"
  | InvalidScopeOption _ => "InvalidScopeOption"
  | ConflictingScopeError _ => "ConflictingScopeError"
  | NoReviewableFilesError _ => "NoReviewableFilesError"
  | RunCommandError _ => "RunCommandError" | ContractViolation _ => "ViolationError"
  | OtherError type_name => type_name
  end.

Inductive result (A : Type) :=
  | Ok (a : A)
  | Err (e : exn).
Arguments Ok {A} a.
Arguments Err {A} e.

#[export] Instance exn_eq_dec : EqDecision exn.
Proof. solve_decision. Defined.

Definition res_bind {A B} (m : result A) (f : A → result B) : result B :=
  match m with Ok a => f a | Err e => Err e end.

Notation "'let!' x ':=' m 'in' k" := (res_bind m (λ x, k))
  (at level 10, x pattern, m at level 100, k at level 200) : py_scope.

(** [if not c: raise e] *)
Definition check (c : bool) (e : exn) : result unit := if c then Ok tt else Err e.

(** [any] and [all] over a generator whose body can raise. *)
Fixpoint any_res {A} (p : A → result bool) (l : list A) : result bool :=
  match l with
  | [] => Ok false
  | x :: l' => let! b := p x in if b then Ok true else any_res p l'
  end.
Fixpoint all_res {A} (p : A → result bool) (l : list A) : result bool :=
  match l with
  | [] => Ok true
  | x :: l' => let! b := p x in if b then all_res p l' else Ok false
  end.
Fixpoint map_res {A B} (f : A → result B) (l : list A) : result (list B) :=
  match l with
  | [] => Ok []
  | x :: l' => let! y := f x in let! ys := map_res f l' in Ok (y :: ys)
  end.
Fixpoint filter_res {A} (p : A → result bool) (l : list A) : result (list A) :=
  match l with
  | [] => Ok []
  | x :: l' => let! b := p x in let! ys := filter_res p l' in Ok (if b then x :: ys else ys)
  end.
Fixpoint fold_res {A B} (f : B → A → result B) (acc : B) (l : list A) : result B :=
  match l with
  | [] => Ok acc
  | x :: l' => let! acc := f acc x in fold_res f acc l'
  end.

(** [d[k]] with a string key *)
Definition vitem (k : string) (d : list (pyval * pyval)) : result pyval :=
  match dict_get (VStr k) d with Some v => Ok v | None => Err (KeyError k) end.

(** [v in s] for a set [s] of strings: hashing [v] can raise. *)
Definition in_set (v : pyval) (s : list string) : result bool :=
  if hashable v
  then Ok (match v with VStr t => bool_decide (t ∈ s) | _ => false end)
  else Err (TypeError "unhashable type").

(** [int(v)]: floats are truncated towards zero. *)
Definition float_trunc (f : spec_float) : result Z :=
  match f with
  | S754_zero _ => Ok 0%Z
  | S754_infinity _ => Err (OverflowError "cannot convert float infinity to integer")
  | S754_nan => Err (ValueError "cannot convert float NaN to integer")
  | S754_finite s m e =>
      let a := if (0 <=? e)%Z then (Zpos m * 2 ^ e)%Z else (Zpos m / 2 ^ (- e))%Z in
      Ok (if s then (- a)%Z else a)
  end.
Definition py_int (v : pyval) : result Z :=
  match v with
  | VInt z => Ok z
  | VBool b => Ok (Z.b2z b)
  | VFloat f => float_trunc f
  | VStr s => match parse_int s with
              | Some z => Ok z
              | None => Err (ValueError "invalid literal for int()")
              end
  | _ => Err (TypeError "int() argument must be a string or a real number")
  end.

(** What a [for] over [v] yields; [None] when [v] is not iterable. *)
Definition py_iter (v : pyval) : option (list pyval) :=
  match v with
  | VList l | VTuple l | VSet l => Some l
  | VDict d => Some d.*1
  | VStr s => Some ((λ c, VStr (of_chars [c])) <$> chars s)
  | _ => None
  end.

Lemma res_bind_Ok {A B} (m : result A) (f : A → result B) b :
  res_bind m f = Ok b ↔ ∃ a, m = Ok a ∧ f a = Ok b.
Proof. destruct m; simpl; naive_solver. Qed.

Lemma all_res_true {A} (p : A → result bool) l :
  all_res p l = Ok true ↔ Forall (λ x, p x = Ok true) l.
Proof.
  induction l as [|x l IH]; simpl; [done|].
  rewrite Forall_cons, <-IH. destruct (p x) as [[]|]; simpl; naive_solver.
Qed.

Lemma any_res_false {A} (p : A → result bool) l :
  any_res p l = Ok false ↔ Forall (λ x, p x = Ok false) l.
Proof.
  induction l as [|x l IH]; simpl; [done|].
  rewrite Forall_cons, <-IH. destruct (p x) as [[]|]; simpl; naive_solver.
Qed.

Lemma in_set_true v s : in_set v s = Ok true ↔ ∃ t, v = VStr t ∧ t ∈ s.
Proof.
  unfold in_set. split.
  - destruct (hashable v); [|done]. destruct v; intros; simplify_eq.
    bool_hyps. eauto.
  - intros (t & -> & Ht). simpl. by rewrite bool_decide_eq_true_2.
Qed.

Lemma fold_res_app {A B} (f : B → A → result B) acc l1 l2 :
  fold_res f acc (l1 ++ l2) = (let! acc := fold_res f acc l1 in fold_res f acc l2).
Proof. revert acc. induction l1 as [|x l1 IH]; intros acc; cbn; [done|]. by destruct (f acc x); cbn. Qed.

Lemma fold_res_inv {A B} (f : B → A → result B) (P : B → Prop) acc l out :
  fold_res f acc l = Ok out → P acc → (∀ x b b', x ∈ l → P b → f b x = Ok b' → P b') → P out.
Proof.
  revert acc. induction l as [|x l IH]; intros acc Hf Hp Hstep; cbn in Hf; [by simplify_eq|].
  destruct (f acc x) as [acc'|] eqn:E; [|done]. cbn in Hf. eapply IH; [exact Hf| |].
  - eapply Hstep; [left|done|done].
  - intros y b b' Hy. apply Hstep. by right.
Qed.

(** What one step establishes and the later ones keep *)
Lemma fold_res_reach {A B} (f : B → A → result B) (P : B → Prop) acc l out x :
  fold_res f acc l = Ok out → x ∈ l → (∀ b b', f b x = Ok b' → P b') →
  (∀ y b b', y ∈ l → P b → f b y = Ok b' → P b') → P out.
Proof.
  intros Hf (l1 & l2 & ->)%list_elem_of_split Hx Hkeep. rewrite fold_res_app in Hf.
  destruct (fold_res f acc l1) as [b|] eqn:E1; [|done]. cbn in Hf.
  destruct (f b x) as [b'|] eqn:E2; [|done]. cbn in Hf. eapply fold_res_inv; [exact Hf|by eapply Hx|].
  intros y c c' Hy. apply Hkeep. apply elem_of_app. right. by right.
Qed.

Lemma map_res_Ok {A B} (f : A → result B) l ys :
  map_res f l = Ok ys ↔ Forall2 (λ x y, f x = Ok y) l ys.
Proof.
  revert ys. induction l as [|x l IH]; intros ys; simpl.
  - split; [intros [= <-]; constructor|by intros ->%Forall2_nil_inv_l].
  - split.
    + intros (y & Hy & (ys' & Hys & [= <-])%res_bind_Ok)%res_bind_Ok. constructor; [done|by apply IH].
    + intros (y & ys' & Hy & Hys & ->)%Forall2_cons_inv_l. rewrite Hy. simpl.
      apply IH in Hys. by rewrite Hys.
Qed.

Lemma filter_res_elem {A} (p : A → result bool) l ys x :
  filter_res p l = Ok ys → x ∈ ys ↔ x ∈ l ∧ p x = Ok true.
Proof.
  revert ys. induction l as [|y l IH]; intros ys; simpl.
  - intros [= <-]. rewrite elem_of_nil. tauto.
  - intros (b & Hb & (zs & Hz & [= <-])%res_bind_Ok)%res_bind_Ok. specialize (IH _ Hz).
    destruct b; rewrite ?elem_of_cons, IH; (split; [intros Hx|intros [[->|?] ?]]).
    all: try (destruct Hx as [->|[? ?]]); try (destruct Hx as [? ?]); auto; congruence.
Qed.

(** Run the checks of a hypothesis [m = Ok a] one after the other. *)
Ltac res_inv :=
  repeat match goal with
  | H : res_bind _ _ = Ok _ |- _ => apply res_bind_Ok in H as (? & ? & ?)
  | H : Ok _ = Ok _ |- _ => injection H as H
  | H : Err _ = Ok _ |- _ => discriminate H
  | H : check ?b _ = Ok _ |- _ => unfold check in H; destruct b eqn:?; [clear H|discriminate H]
  | H : match ?p with pair _ _ => _ end = Ok _ |- _ => destruct p eqn:?
  end.
