(* ===== verification/Json.v ===== *)
(** Json: the JSON documents the components serialize with
    [json.dumps(..., separators=(",", ":"))], as lists of code points, and the
    SHA-256 digests taken of them. *)

From S2P Require Import Prelude Text.

#[warnings="-register-all"]
Inductive json :=
  | JNull
  | JBool (b : bool)
  | JInt (z : Z)
  | JStr (s : string)
  | JArr (l : list json)
  | JObj (l : list (string * json)).

Section json_rect.
Variable P : json → Prop.
Hypothesis HNull : P JNull.
Hypothesis HBool : ∀ b, P (JBool b).
Hypothesis HInt : ∀ z, P (JInt z).
Hypothesis HStr : ∀ s, P (JStr s).
Hypothesis HArr : ∀ l, Forall P l → P (JArr l).
Hypothesis HObj : ∀ l, Forall (λ kv, P kv.2) l → P (JObj l).

Fixpoint json_nested_ind (j : json) : P j :=
  match j with
  | JNull => HNull
  | JBool b => HBool b
  | JInt z => HInt z
  | JStr s => HStr s
  | JArr l =>
      HArr l ((fix go l : Forall P l :=
        match l with
        | [] => Forall_nil_2 P
        | x :: l' => Forall_cons_2 P x l' (json_nested_ind x) (go l')
        end) l)
  | JObj l =>
      HObj l ((fix go l : Forall (λ kv, P kv.2) l :=
        match l with
        | [] => Forall_nil_2 _
        | x :: l' => Forall_cons_2 _ x l' (json_nested_ind x.2) (go l')
        end) l)
  end.
End json_rect.

#[export] Instance json_eq_dec : EqDecision json.
Proof.
  refine (fix go v1 v2 :=
    let _ : EqDecision _ := @go in
    match v1, v2 with
    | JNull, JNull => left eq_refl
    | JBool x, JBool y => cast_if (decide (x = y))
    | JInt x, JInt y => cast_if (decide (x = y))
    | JStr x, JStr y => cast_if (decide (x = y))
    | JArr x, JArr y => cast_if (decide (x = y))
    | JObj x, JObj y => cast_if (decide (x = y))
    | _, _ => right _
    end); abstract congruence.
Defined.

(** * String escapes *)

Definition dquote : ascii := ascii_of_nat 34.
Definition backslash : ascii := ascii_of_nat 92.
Definition hex_digit (n : N) : ascii :=
  if (n <? 10)%N then ascii_of_N (48 + n) else ascii_of_N (87 + n).
Definition u_escape (c : ascii) : list ascii :=
  [backslash; "u"; "0"; "0"; hex_digit (N_of_ascii c / 16); hex_digit (N_of_ascii c mod 16)]%char.

(** One code point: the two-character escapes, then [\u00xx] for the other
    control characters and, with [ensure_ascii], for everything past [~]. *)
Definition escape_char (ensure_ascii : bool) (c : ascii) : list ascii :=
  let n := N_of_ascii c in
  if (n =? 34)%N then [backslash; dquote]
  else if (n =? 92)%N then [backslash; backslash]
  else if (n =? 8)%N then [backslash; "b"%char]
  else if (n =? 12)%N then [backslash; "f"%char]
  else if (n =? 10)%N then [backslash; "n"%char]
  else if (n =? 13)%N then [backslash; "r"%char]
  else if (n =? 9)%N then [backslash; "t"%char]
  else if (n <? 32)%N || (ensure_ascii && (126 <? n)%N) then u_escape c
  else [c].

Definition hex_value (c : ascii) : N :=
  let n := N_of_ascii c in if (n <? 58)%N then (n - 48)%N else (n - 87)%N.
Definition unescape_char (l : list ascii) : option (ascii * list ascii) :=
  match l with
  | [] => None
  | c :: l1 =>
      if (N_of_ascii c =? 34)%N then None
      else if (N_of_ascii c =? 92)%N then
        match l1 with
        | d :: l2 =>
            match N_of_ascii d with
            | 34 => Some (dquote, l2) | 92 => Some (backslash, l2)
            | 98 => Some (ascii_of_nat 8, l2) | 102 => Some (ascii_of_nat 12, l2)
            | 110 => Some (ascii_of_nat 10, l2) | 114 => Some (ascii_of_nat 13, l2)
            | 116 => Some (ascii_of_nat 9, l2)
            | _ => match l2 with
                   | _ :: _ :: h :: k :: l3 =>
                       Some (ascii_of_N (16 * hex_value h + hex_value k), l3)
                   | _ => None
                   end
            end%N
        | [] => None
        end
      else Some (c, l1)
  end.

Definition escape_string (ensure_ascii : bool) (s : string) : list ascii :=
  mjoin (escape_char ensure_ascii <$> chars s).

(** * [json.dumps] *)

Fixpoint commas (ls : list (list ascii)) : list ascii :=
  match ls with
  | [] => []
  | [l] => l
  | l :: ls' => l ++ ","%char :: commas ls'
  end.

(** [json.dumps(j, ensure_ascii=..., separators=(",", ":"))] *)
Fixpoint dumps (ensure_ascii : bool) (j : json) : list ascii :=
  let str s := dquote :: escape_string ensure_ascii s ++ [dquote] in
  match j with
  | JNull => chars "null"
  | JBool true => chars "true"
  | JBool false => chars "false"
  | JInt z => chars (pretty z)
  | JStr s => str s
  | JArr l => "["%char :: commas (dumps ensure_ascii <$> l) ++ ["]"%char]
  | JObj l =>
      "{"%char :: commas ((λ kv, str kv.1 ++ ":"%char :: dumps ensure_ascii kv.2) <$> l)
        ++ ["}"%char]
  end.

(** [sort_keys=True]: every object's items in the order of their keys. *)
Fixpoint sort_keys (j : json) : json :=
  match j with
  | JArr l => JArr (sort_keys <$> l)
  | JObj l => JObj (sort_by fst ((λ kv, (kv.1, sort_keys kv.2)) <$> l))
  | _ => j
  end.

(** [str.encode()]: UTF-8 of code points below 256 *)
Definition utf8_char (c : ascii) : list ascii :=
  let n := N_of_ascii c in
  if (n <? 128)%N then [c] else [ascii_of_N (192 + n / 64); ascii_of_N (128 + n mod 64)].
Definition utf8 (l : list ascii) : list ascii := mjoin (utf8_char <$> l).

(** * Digests *)

(** [hashlib.sha256(payload).hexdigest()] is a parameter. *)
Class Sha256 := sha256_hex : list ascii → string.
Definition sha256_digest `{Sha256} (payload : list ascii) : string :=
  "sha256:" +:+ sha256_hex payload.

(** * Facts *)

Lemma unescape_escape ea c l : unescape_char (escape_char ea c ++ l) = Some (c, l).
Proof. destruct c as [[] [] [] [] [] [] [] []], ea; reflexivity. Qed.

Lemma escape_string_prefix ea s1 s2 r1 r2 :
  escape_string ea s1 ++ dquote :: r1 = escape_string ea s2 ++ dquote :: r2 →
  s1 = s2 ∧ r1 = r2.
Proof.
  unfold escape_string. intros E.
  cut (chars s1 = chars s2 ∧ r1 = r2); [intros [?%(inj chars) ?]; done|].
  revert E. generalize (chars s1) (chars s2). clear.
  induction l as [|c l IH]; intros [|d k] E; csimpl in *.
  - by simplify_eq.
  - exfalso. rewrite <-app_assoc in E.
    apply (f_equal unescape_char) in E. by rewrite unescape_escape in E.
  - exfalso. rewrite <-app_assoc in E. symmetry in E.
    apply (f_equal unescape_char) in E. by rewrite unescape_escape in E.
  - rewrite <-!app_assoc in E. apply (f_equal unescape_char) in E.
    rewrite !unescape_escape in E. injection E as -> E. apply IH in E as [-> ->]. done.
Qed.

Lemma span_unique (p : ascii → bool) l1 l2 r1 r2 :
  Forall (λ c, p c = true) l1 → Forall (λ c, p c = true) l2 →
  (∀ c, head r1 = Some c → p c = false) → (∀ c, head r2 = Some c → p c = false) →
  l1 ++ r1 = l2 ++ r2 → l1 = l2 ∧ r1 = r2.
Proof.
  intros H1. revert l2. induction H1 as [|c l1 Hc H1 IH]; intros l2 H2 Hr1 Hr2 E.
  - destruct H2 as [|d l2 Hd H2]; [done|]. simpl in E. subst. rewrite (Hr1 d) in Hd; done.
  - destruct H2 as [|d l2 Hd H2]; simpl in E.
    + subst. rewrite (Hr2 c) in Hc; done.
    + injection E as -> E. by destruct (IH l2 H2 Hr1 Hr2 E) as [-> ->].
Qed.

(** The characters of a printed integer. *)
Definition int_char (c : ascii) : bool := is_digit c || bool_decide (c = "-"%char).

Lemma pretty_N_char_digit x : is_digit (pretty_N_char x) = true.
Proof. unfold pretty_N_char. by repeat case_match. Qed.

Lemma pretty_N_go_chars x s :
  Forall (λ c, int_char c = true) (chars s) →
  Forall (λ c, int_char c = true) (chars (pretty_N_go x s)).
Proof.
  revert s. induction (N.lt_wf_0 x) as [x _ IH]; intros s Hs.
  destruct (decide (0 < x)%N).
  - rewrite pretty_N_go_step by done. apply IH; [by apply N.div_lt|].
    constructor; [|done]. unfold int_char. by rewrite pretty_N_char_digit.
  - assert (x = 0)%N as -> by lia. by rewrite pretty_N_go_0.
Qed.

Lemma pretty_N_chars (x : N) : Forall (λ c, int_char c = true) (chars (pretty x)).
Proof.
  unfold pretty, pretty_N. case_decide; [by repeat constructor|].
  apply pretty_N_go_chars. constructor.
Qed.

Lemma pretty_Z_chars (z : Z) : Forall (λ c, int_char c = true) (chars (pretty z)).
Proof.
  destruct z; [by repeat constructor|apply pretty_N_chars|].
  unfold pretty, pretty_Z. rewrite chars_app. apply Forall_app_2; [by repeat constructor|].
  apply pretty_N_chars.
Qed.

Lemma chars_nonempty s : s ≠ "" → chars s ≠ [].
Proof. by destruct s. Qed.

Lemma pretty_Z_head (z : Z) : ∃ c, head (chars (pretty z)) = Some c ∧ int_char c = true.
Proof.
  pose proof (pretty_Z_chars z) as H.
  destruct (chars (pretty z)) as [|c l] eqn:E; [|apply Forall_cons in H as []; by eexists].
  exfalso. apply (f_equal of_chars) in E. rewrite of_chars_chars in E.
  assert (pretty z ≠ "") as Hne; [|done].
  destruct z as [|p|p]; [done| |done]. intros E'. change (pretty (Npos p) = "") in E'.
  unfold pretty, pretty_N in E'. case_decide; [done|].
  revert E'. rewrite pretty_N_go_step by lia.
  assert (∀ x s, s ≠ "" → pretty_N_go x s ≠ "") as Hgo.
  { intros x. induction (N.lt_wf_0 x) as [x _ IH]; intros s Hs.
    destruct (decide (0 < x)%N).
    - rewrite pretty_N_go_step by done. apply IH; [by apply N.div_lt|done].
    - assert (x = 0)%N as -> by lia. by rewrite pretty_N_go_0. }
  by apply Hgo.
Qed.

(** ** [dumps] is injective *)

Definition is_delim (c : ascii) : bool :=
  bool_decide (c = ","%char) || bool_decide (c = "]"%char) || bool_decide (c = "}"%char).
(** What may follow an encoded value. *)
Definition delimited (r : list ascii) : Prop := ∀ c, head r = Some c → is_delim c = true.

Lemma delim_not_int c : is_delim c = true → int_char c = false.
Proof.
  unfold is_delim. rewrite !orb_true_iff, !bool_decide_eq_true. by intros [[->| ->]| ->].
Qed.

Lemma commas_cons l ls : commas (l :: ls) = l ++ mjoin ((λ k, ","%char :: k) <$> ls).
Proof.
  revert l. induction ls as [|k ls IH]; intros l; [by rewrite app_nil_r|].
  change (commas (l :: k :: ls)) with (l ++ ","%char :: commas (k :: ls)). by rewrite IH.
Qed.

Section sequences.
Context {X : Type} (enc : X → list ascii) (cl : ascii).
Hypothesis cl_delim : is_delim cl = true.
Hypothesis cl_comma : cl ≠ ","%char.
Hypothesis enc_head : ∀ x, ∃ c, head (enc x) = Some c ∧ is_delim c = false.

Definition prefix_ok (x : X) : Prop :=
  ∀ y r1 r2, delimited r1 → delimited r2 → enc x ++ r1 = enc y ++ r2 → x = y ∧ r1 = r2.

Lemma tail_delimited l r : delimited (mjoin ((λ k, ","%char :: k) <$> (enc <$> l)) ++ cl :: r).
Proof. intros c. destruct l; simpl; intros [= <-]; done. Qed.

Lemma tail_prefix l1 l2 r1 r2 :
  Forall prefix_ok l1 →
  mjoin ((λ k, ","%char :: k) <$> (enc <$> l1)) ++ cl :: r1 =
  mjoin ((λ k, ","%char :: k) <$> (enc <$> l2)) ++ cl :: r2 → l1 = l2 ∧ r1 = r2.
Proof.
  intros H. revert l2. induction H as [|x l1 Hx H IH]; intros [|y l2] E; csimpl in *.
  - by simplify_eq.
  - by simplify_eq.
  - by simplify_eq.
  - injection E as E. rewrite <-!app_assoc in E.
    apply Hx in E as [-> E]; [|apply tail_delimited..]. by apply IH in E as [-> ->].
Qed.

Lemma commas_prefix l1 l2 r1 r2 :
  Forall prefix_ok l1 →
  commas (enc <$> l1) ++ cl :: r1 = commas (enc <$> l2) ++ cl :: r2 → l1 = l2 ∧ r1 = r2.
Proof.
  assert (∀ x l r k, cl :: r ≠ commas (enc <$> x :: l) ++ k) as Hhead.
  { intros x l r k. rewrite fmap_cons, commas_cons. destruct (enc_head x) as (c & Hc & Hd).
    destruct (enc x); simpl in *; [done|]. intros E. simplify_eq. congruence. }
  intros H E. destruct H as [|x l1 Hx H], l2 as [|y l2].
  - by simplify_eq/=.
  - by apply Hhead in E.
  - symmetry in E. by apply Hhead in E.
  - rewrite !fmap_cons, !commas_cons, <-!app_assoc in E.
    apply Hx in E as [-> E]; [|apply tail_delimited..].
    by apply tail_prefix in E as [-> ->].
Qed.
End sequences.

Section dumps_injective.
Variable ea : bool.

Lemma dumps_head j : ∃ c, head (dumps ea j) = Some c ∧ is_delim c = false.
Proof.
  destruct j as [|[]|z|s|l|l]; simpl; try (by eexists).
  destruct (pretty_Z_head z) as (c & Hc & Hi). exists c. split; [done|].
  destruct (is_delim c) eqn:E; [|done]. apply delim_not_int in E. congruence.
Qed.

Lemma field_head (kv : string * json) : ∃ c,
  head ((dquote :: escape_string ea kv.1 ++ [dquote]) ++ ":"%char :: dumps ea kv.2) = Some c ∧
  is_delim c = false.
Proof. by eexists. Qed.

Lemma int_prefix (z1 z2 : Z) r1 r2 : delimited r1 → delimited r2 →
  chars (pretty z1) ++ r1 = chars (pretty z2) ++ r2 → z1 = z2 ∧ r1 = r2.
Proof.
  intros H1 H2 E. apply (span_unique int_char) in E as [E ->];
    [|apply pretty_Z_chars..|by intros c ?%H1%delim_not_int|by intros c ?%H2%delim_not_int].
  by apply (inj chars), (inj pretty) in E.
Qed.

(** A first character that no integer starts with. *)
Lemma int_head_ne (z : Z) c l r : int_char c = false → chars (pretty z) ++ l ≠ c :: r.
Proof.
  intros Hc E. destruct (pretty_Z_head z) as (d & Hd & Hi).
  destruct (chars (pretty z)); simplify_eq/=. congruence.
Qed.

Lemma dumps_prefix j : prefix_ok (dumps ea) j.
Proof.
  induction j as [|b|z|s|l IH|l IH] using json_nested_ind; intros j2 r1 r2 H1 H2 E.
  - destruct j2 as [|[]|z2|s2|l2|l2]; simpl in E; try done; [by simplify_eq|].
    symmetry in E. by apply int_head_ne in E.
  - destruct b, j2 as [|[]|z2|s2|l2|l2]; simpl in E; try done; try (by simplify_eq);
      symmetry in E; by apply int_head_ne in E.
  - destruct j2 as [|[]|z2|s2|l2|l2]; simpl in E; try (by apply int_head_ne in E).
    by apply int_prefix in E as [-> ->].
  - destruct j2 as [|[]|z2|s2|l2|l2]; simpl in E; try done.
    { symmetry in E. by apply int_head_ne in E. }
    injection E as E. rewrite <-!app_assoc in E. simpl in E.
    by apply escape_string_prefix in E as [-> ->].
  - destruct j2 as [|[]|z2|s2|l2|l2]; simpl in E; try done.
    { symmetry in E. by apply int_head_ne in E. }
    injection E as E. rewrite <-!app_assoc in E.
    apply commas_prefix in E as [-> ->]; try done; apply dumps_head.
  - destruct j2 as [|[]|z2|s2|l2|l2]; simpl in E; try done.
    { symmetry in E. by apply int_head_ne in E. }
    injection E as E. rewrite <-!app_assoc in E.
    apply commas_prefix in E as [-> ->]; try done; [apply field_head|].
    eapply Forall_impl; [exact IH|]. intros [k v] Hv [k' v'] q1 q2 Hq1 Hq2 E'.
    simpl in *. injection E' as E'. rewrite <-!app_assoc in E'. simpl in E'.
    apply escape_string_prefix in E' as [-> E']. injection E' as E'.
    by apply Hv in E' as [-> ->].
Qed.

Lemma dumps_inj j1 j2 : dumps ea j1 = dumps ea j2 → j1 = j2.
Proof.
  intros E. destruct (dumps_prefix j1 j2 [] []) as [H _]; [done|done| |done].
  by rewrite !app_nil_r.
Qed.
End dumps_injective.

#[export] Instance dumps_Inj ea : Inj (=) (=) (dumps ea).
Proof. intros j1 j2. apply dumps_inj. Qed.

Lemma utf8_char_prefix c1 c2 r1 r2 :
  utf8_char c1 ++ r1 = utf8_char c2 ++ r2 → c1 = c2 ∧ r1 = r2.
Proof.
  assert (∀ c r, match utf8_char c ++ r with
    | a :: l => if (N_of_ascii a <? 128)%N then Some (a, l)
                else match l with
                     | b :: l' => Some (ascii_of_N (64 * (N_of_ascii a - 192) + (N_of_ascii b - 128)), l')
                     | [] => None end
    | [] => None end = Some (c, r)) as Hdec.
  { intros c r. destruct c as [[] [] [] [] [] [] [] []]; reflexivity. }
  intros E. pose proof (Hdec c1 r1) as D1. pose proof (Hdec c2 r2) as D2.
  rewrite E in D1. rewrite D1 in D2. by injection D2.
Qed.

#[export] Instance utf8_Inj : Inj (=) (=) utf8.
Proof.
  intros l1. unfold utf8. induction l1 as [|c l1 IH]; intros [|d l2] E; csimpl in *; [done| | |].
  - exfalso. revert E. unfold utf8_char. by case_match.
  - exfalso. revert E. unfold utf8_char. by case_match.
  - apply utf8_char_prefix in E as [-> E]. f_equal. by apply IH.
Qed.
