(* ===== verification/Decimal.v ===== *)
(** Decimal: the digits that [str] of a non-negative integer consists of, and
    the value they have. *)

From S2P Require Import Prelude Text Json.

Definition dec_step (a : Z) (c : ascii) : Z := (10 * a + (code c - 48))%Z.
Definition dec_value (l : list ascii) : Z := foldl dec_step 0%Z l.
Definition digits (l : list ascii) : Prop := Forall (λ c, is_digit c = true) l.

Lemma digits_app l1 l2 : digits l1 → digits l2 → digits (l1 ++ l2).
Proof. apply Forall_app_2. Qed.

Lemma pretty_N_char_code x : (x < 10)%N → (code (pretty_N_char x) - 48)%Z = Z.of_N x.
Proof.
  intros Hx. assert (x = 0 ∨ x = 1 ∨ x = 2 ∨ x = 3 ∨ x = 4 ∨ x = 5 ∨ x = 6 ∨ x = 7 ∨ x = 8 ∨ x = 9)%N by lia.
  naive_solver.
Qed.

Lemma pretty_N_go_spec x s :
  (digits (chars s) → digits (chars (pretty_N_go x s))) ∧
  dec_value (chars (pretty_N_go x s)) = foldl dec_step (Z.of_N x) (chars s).
Proof.
  revert s. induction (N.lt_wf_0 x) as [x _ IH]; intros s.
  destruct (decide (0 < x)%N); [|by assert (x = 0)%N as -> by lia].
  rewrite pretty_N_go_step by done. destruct (IH (x `div` 10)%N) with (s := String (pretty_N_char (x `mod` 10)) s)
    as [Hd Hv]; [by apply N.div_lt|]. split.
  - intros Hs. apply Hd. constructor; [apply pretty_N_char_digit|done].
  - rewrite Hv. change (chars (String ?c s)) with (c :: chars s). cbn [foldl]. f_equal. unfold dec_step.
    rewrite pretty_N_char_code by (by apply N.mod_lt). pose proof (N.div_mod x 10 ltac:(done)). lia.
Qed.

Lemma pretty_nonneg z : (0 <= z)%Z → digits (chars (pretty z)) ∧ dec_value (chars (pretty z)) = z.
Proof.
  intros Hz. destruct z as [|p|p]; [split; [by repeat constructor|done]| |lia].
  change (pretty (Z.pos p)) with (pretty (N.pos p)). unfold pretty, pretty_N. rewrite decide_False by done.
  destruct (pretty_N_go_spec (N.pos p) "") as [Hd Hv]. split; [apply Hd; constructor|exact Hv].
Qed.

Lemma parse_digits_value b a l :
  digits l → b = true ∨ l ≠ [] → parse_digits a b l = Some (foldl dec_step a l).
Proof.
  intros Hl. revert a b. induction Hl as [|c l Hc Hl IH]; intros a b Hb; cbn [parse_digits foldl].
  - by destruct Hb as [->|].
  - rewrite Hc. apply IH. by left.
Qed.

Lemma digits_not_space l : digits l → Forall (λ c, is_space c = false) l.
Proof.
  intros H. eapply Forall_impl; [exact H|]. intros [[] [] [] [] [] [] [] []]; by vm_compute.
Qed.
Lemma pretty_not_nil (z : Z) : chars (pretty z) ≠ [].
Proof. destruct (pretty_Z_head z) as (c & Hc & _). by destruct (chars (pretty z)). Qed.

(** [int(str(z)) == z] *)
Lemma parse_int_pretty z : (0 <= z)%Z → parse_int (pretty z) = Some z.
Proof.
  intros Hz. destruct (pretty_nonneg z Hz) as [Hd Hv]. unfold parse_int.
  rewrite strip_id by by apply digits_not_space.
  pose proof (parse_digits_value false 0 _ Hd (or_intror (pretty_not_nil z))) as E.
  change (foldl dec_step 0%Z (chars (pretty z))) with (dec_value (chars (pretty z))) in E. rewrite Hv in E.
  destruct (chars (pretty z)) as [|c l]; [done|]. apply Forall_cons in Hd as [Hc _].
  destruct c as [[] [] [] [] [] [] [] []]; first [exact E|discriminate Hc].
Qed.
