(* ===== verification/Floats.v ===== *)
(** Floats: the binary64 operations the components perform on Python floats,
    over the standard library's [spec_float], the decimal a float is printed
    with and the float a text is read as. *)

From S2P Require Import Prelude Text PyValue.
From Stdlib Require Export SpecFloat.

Definition prec : Z := 53.
Definition emax : Z := 1024.

Definition float_of_Z (z : Z) : spec_float := binary_normalize prec emax z 0 false.
Definition float_add : spec_float → spec_float → spec_float := SFadd prec emax.
Definition float_sub : spec_float → spec_float → spec_float := SFsub prec emax.
Definition float_mul : spec_float → spec_float → spec_float := SFmul prec emax.
Definition float_div : spec_float → spec_float → spec_float := SFdiv prec emax.
Definition float_leb : spec_float → spec_float → bool := SFleb.
Definition float_ltb : spec_float → spec_float → bool := SFltb.
Definition float_eqb : spec_float → spec_float → bool := SFeqb.

(** An integer before any rounding, and [n / d] on integers, rounded once *)
Definition exact_float (z : Z) : spec_float :=
  match z with
  | Z0 => S754_zero false
  | Zpos p => S754_finite false p 0
  | Zneg p => S754_finite true p 0
  end.
Definition int_div (n d : Z) : spec_float := float_div (exact_float n) (exact_float d).

(** The double nearest to the decimal [n / 10^k] *)
Definition float_dec (n : Z) (k : Z) : spec_float := int_div n (10 ^ k).

(** [a / b] rounded to an integer, ties to even; [b] positive *)
Definition round_half_even (a b : Z) : Z :=
  let q := (a / b)%Z in
  let r := (2 * (a mod b))%Z in
  if (r <? b)%Z then q
  else if (b <? r)%Z then (q + 1)%Z
  else if Z.even q then q else (q + 1)%Z.

(** [round(x, k)]: the exact value is rounded to [k] decimals, half to even,
    and the result is the nearest double. *)
Definition decimal_units (k : Z) (f : spec_float) : Z :=
  match f with
  | S754_finite s m e =>
      let a := (Zpos m * 10 ^ k)%Z in
      let n := if (0 <=? e)%Z then (a * 2 ^ e)%Z else round_half_even a (2 ^ (- e)) in
      if s then (- n)%Z else n
  | _ => 0%Z
  end.
Definition round_digits (k : Z) (f : spec_float) : spec_float :=
  match f with
  | S754_finite s _ _ =>
      if (decimal_units k f =? 0)%Z then S754_zero s else float_dec (decimal_units k f) k
  | _ => f
  end.
Definition round2 : spec_float → spec_float := round_digits 2.

Example float_dec_09 : float_dec 9 1 = S754_finite false 8106479329266893 (-53).
Proof. vm_compute. reflexivity. Qed.
Example round2_third : round2 (int_div 1 3) = float_dec 33 2.
Proof. vm_compute. reflexivity. Qed.

(** [f"{x:.1f}"]: the exact value rounded to tenths, half to even *)
Definition tenths (m : positive) (e : Z) : Z :=
  let a := (Zpos m * 10)%Z in
  if (0 <=? e)%Z then (a * 2 ^ e)%Z else round_half_even a (2 ^ (- e)).
Definition sign_text (s : bool) : string := if s then "-" else "".
Definition format_tenths (f : spec_float) : string :=
  match f with
  | S754_nan => "nan"
  | S754_infinity s => sign_text s +:+ "inf"
  | S754_zero s => sign_text s +:+ "0.0"
  | S754_finite s m e =>
      let n := tenths m e in
      sign_text s +:+ pretty (n / 10)%Z +:+ "." +:+ pretty (n mod 10)%Z
  end.

(** * Parsing numbers ([float(v)]) *)

(** Decimal digits with single underscores between them: their value and how
    many there are, with the rest of the text. *)
Fixpoint scan_digits (acc : Z) (n : Z) (l : list ascii) : Z * Z * list ascii :=
  match l with
  | c :: l' =>
      if is_digit c then scan_digits (10 * acc + (code c - 48))%Z (n + 1)%Z l'
      else
        match l' with
        | d :: l'' =>
            if bool_decide (c = "_"%char) && (0 <? n)%Z && is_digit d
            then scan_digits (10 * acc + (code d - 48))%Z (n + 1)%Z l''
            else (acc, n, l)
        | [] => (acc, n, l)
        end
  | [] => (acc, n, l)
  end.
Definition take_sign (l : list ascii) : bool * list ascii :=
  match l with
  | "-"%char :: l' => (true, l')
  | "+"%char :: l' => (false, l')
  | _ => (false, l)
  end.
Definition float_neg (s : bool) (f : spec_float) : spec_float := if s then SFopp f else f.
(** The double nearest to [m * 10^e] *)
Definition float_scaled (m e : Z) : spec_float :=
  if (m =? 0)%Z then S754_zero false
  else if (0 <=? e)%Z then float_of_Z (m * 10 ^ e) else int_div m (10 ^ (- e)).
(** [float(s)] on a string; [None] is [ValueError]. *)
Definition parse_float (s : string) : option spec_float :=
  let '(neg, l) := take_sign (chars (lower (strip s))) in
  if bool_decide (of_chars l ∈ ["inf"; "infinity"]) then Some (S754_infinity neg)
  else if bool_decide (of_chars l = "nan") then Some S754_nan
  else
    let '(whole, n, l) := scan_digits 0 0 l in
    let '(m, k, l) :=
      match l with
      | "."%char :: l' => scan_digits whole 0 l'
      | _ => (whole, 0%Z, l)
      end in
    if (n + k =? 0)%Z then None
    else
      match l with
      | [] => Some (float_neg neg (float_scaled m (- k)))
      | "e"%char :: l' =>
          let '(eneg, l') := take_sign l' in
          let '(e, j, l') := scan_digits 0 0 l' in
          if (0 <? j)%Z && bool_decide (l' = [])
          then Some (float_neg neg (float_scaled m ((if eneg then - e else e) - k)))
          else None
      | _ => None
      end.

(** An integer as a float: too large an integer is an error. *)
Definition int_float (z : Z) : result spec_float :=
  match float_of_Z z with
  | S754_infinity _ => Err (OverflowError "int too large to convert to float")
  | f => Ok f
  end.
Definition py_float (v : pyval) : result spec_float :=
  match v with
  | VFloat f => Ok f
  | VInt z => int_float z
  | VBool b => int_float (Z.b2z b)
  | VStr s => match parse_float s with
              | Some f => Ok f
              | None => Err (ValueError "could not convert string to float")
              end
  | _ => Err (TypeError "float() argument must be a string or a real number")
  end.

Example parse_float_plain : parse_float " -1_0.25e1 " = Some (float_dec (-1025) 1).
Proof. vm_compute. reflexivity. Qed.
Example parse_float_bad : parse_float "1__0" = None ∧ parse_float "." = None ∧ parse_float "1e" = None.
Proof. vm_compute. done. Qed.

Example format_tenths_py : format_tenths (float_dec 7985 2) = "79.8" ∧ format_tenths (float_of_Z 80) = "80.0".
Proof. vm_compute. done. Qed.

(** [round(x)]: to an integer, ties to even *)
Definition round_int (f : spec_float) : result Z :=
  match f with
  | S754_nan => Err (ValueError "cannot convert float NaN to integer")
  | S754_infinity _ => Err (OverflowError "cannot convert float infinity to integer")
  | S754_zero _ => Ok 0%Z
  | S754_finite _ _ _ => Ok (decimal_units 0 f)
  end.
(** [max(a, b)] of two floats: the first unless the second is greater *)
Definition float_max (a b : spec_float) : spec_float := if float_ltb a b then b else a.

Example round_int_ties : round_int (float_dec 25 1) = Ok 2%Z ∧ round_int (float_dec 35 1) = Ok 4%Z.
Proof. vm_compute. done. Qed.
