(* ===== verification/FloatProofs.v ===== *)
(** Rounding facts about the binary64 operations of [Floats]: an operation
    whose exact result lies between two integers below [2^53] returns a
    finite float between the same two integers. *)

From S2P Require Import Prelude Text PyValue Floats.
Local Open Scope Z_scope.

(** * Floats between integers *)

(** The value of a non-negative finite float, in units of [2^-1074] *)
Definition units (f : spec_float) : Z :=
  match f with
  | S754_finite false m e => Zpos m * 2 ^ (e + 1074)
  | _ => 0
  end.
Definition nonneg_finite (f : spec_float) : Prop :=
  match f with
  | S754_zero false => True
  | S754_finite false _ e => -1074 ≤ e
  | _ => False
  end.
(** [f] is finite and [lo ≤ f ≤ hi]. *)
Definition within (lo hi : Z) (f : spec_float) : Prop :=
  nonneg_finite f ∧ lo * 2 ^ 1074 ≤ units f ≤ hi * 2 ^ 1074.

Lemma within_weaken lo hi lo' hi' f :
  within lo hi f → lo' ≤ lo → hi ≤ hi' → within lo' hi' f.
Proof. intros [Hf Hu] ??. split; [done|]. nia. Qed.

Lemma within_zero : within 0 0 (S754_zero false).
Proof. done. Qed.

(** The bounds of a finite float, scaled by a power that clears its exponent *)
Lemma within_finite lo hi m e s :
  -1074 ≤ e → - s ≤ e → 0 ≤ s →
  lo * 2 ^ s ≤ Zpos m * 2 ^ (e + s) ≤ hi * 2 ^ s → within lo hi (S754_finite false m e).
Proof.
  intros He Hs Hs0 Hb. split; [done|]. simpl.
  assert (Hp : ∀ a b : Z, 0 ≤ a → 0 ≤ b → 2 ^ (a + b) = 2 ^ a * 2 ^ b) by (intros; by rewrite Z.pow_add_r).
  assert (Hscale : Zpos m * 2 ^ (e + 1074) * 2 ^ s = Zpos m * 2 ^ (e + s) * 2 ^ 1074).
  { rewrite <-!Z.mul_assoc, <-!Z.pow_add_r by lia. do 2 f_equal. lia. }
  assert (0 < 2 ^ s) by (apply Z.pow_pos_nonneg; lia).
  assert (0 < 2 ^ 1074) by (apply Z.pow_pos_nonneg; lia).
  revert Hscale Hb. generalize (Zpos m * 2 ^ (e + 1074)) (Zpos m * 2 ^ (e + s)).
  generalize dependent (2 ^ 1074). intros u Hu v w Heq [Hlo Hhi]. split; nia.
Qed.

Lemma finite_bounds lo hi m e s :
  within lo hi (S754_finite false m e) → 1074 ≤ s →
  lo * 2 ^ s ≤ Zpos m * 2 ^ (e + s) ≤ hi * 2 ^ s.
Proof.
  intros [He Hb] Hs. simpl in He, Hb.
  replace (2 ^ s) with (2 ^ 1074 * 2 ^ (s - 1074)) by (rewrite <-Z.pow_add_r by lia; f_equal; lia).
  replace (2 ^ (e + s)) with (2 ^ (e + 1074) * 2 ^ (s - 1074))
    by (rewrite <-Z.pow_add_r by lia; f_equal; lia).
  assert (0 ≤ 2 ^ (s - 1074)) by (apply Z.pow_nonneg; lia).
  rewrite !Z.mul_assoc. split; apply Z.mul_le_mono_nonneg_r; lia.
Qed.

(** * Digits and shifts *)

Lemma digits2_bounds m : 2 ^ (Zpos (digits2_pos m) - 1) ≤ Zpos m < 2 ^ Zpos (digits2_pos m).
Proof.
  induction m as [m IH|m IH|]; simpl; [| |done];
    rewrite Pos2Z.inj_succ, Z.pow_succ_r by lia;
    replace (Z.succ (Zpos (digits2_pos m)) - 1) with (Z.succ (Zpos (digits2_pos m) - 1)) by lia;
    rewrite Z.pow_succ_r by lia; lia.
Qed.

Lemma digits2_le m n : 0 ≤ n → Zpos m < 2 ^ n → Zpos (digits2_pos m) ≤ n.
Proof.
  intros Hn Hm. pose proof (digits2_bounds m) as [Hlo _].
  assert (Zpos (digits2_pos m) - 1 < n); [|lia].
  apply (Z.pow_lt_mono_r_iff 2); lia.
Qed.

Lemma iter_pos_nat {A} (f : A → A) p x : iter_pos f p x = Nat.iter (Pos.to_nat p) f x.
Proof.
  revert x. induction p as [p IH|p IH|]; intros x; cbn [iter_pos]; [| |done].
  - rewrite !IH, Pos2Nat.inj_xI, Nat.iter_succ_r. simpl. by rewrite Nat.add_0_r, Nat.iter_add.
  - rewrite !IH, Pos2Nat.inj_xO. simpl. by rewrite Nat.add_0_r, Nat.iter_add.
Qed.

(** The record of a mantissa [m] shifted right [n] times: the quotient, the
    bit shifted out last, and whether any earlier bit was set. *)
Definition shifted (m : Z) (n : nat) (x : shr_record) : Prop :=
  ∃ t, 0 ≤ shr_m x ∧ 2 * m = shr_m x * 2 ^ (Z.of_nat n + 1) + Z.b2z (shr_r x) * 2 ^ Z.of_nat n + t
       ∧ 0 ≤ t < 2 ^ Z.of_nat n ∧ (shr_s x = false ↔ t = 0).

Lemma shr_1_half x :
  0 ≤ shr_m x →
  0 ≤ shr_m (shr_1 x) ∧ shr_m x = 2 * shr_m (shr_1 x) + Z.b2z (shr_r (shr_1 x))
  ∧ shr_s (shr_1 x) = shr_r x || shr_s x.
Proof. destruct x as [[|[p|p|]|p] r s]; simpl; lia || (intros; split_and!; try done; lia). Qed.

Lemma shifted_step m n x : shifted m n x → shifted m (S n) (shr_1 x).
Proof.
  intros (t & Hq & Hm & Ht & Hs). destruct (shr_1_half x Hq) as (Hq' & Hx & Hsx).
  exists (Z.b2z (shr_r x) * 2 ^ Z.of_nat n + t).
  rewrite Hsx, orb_false_iff.
  rewrite Nat2Z.inj_succ, !Z.pow_add_r, !Z.pow_succ_r by lia.
  rewrite Z.pow_add_r in Hm by lia. rewrite Hx in Hm.
  assert (0 < 2 ^ Z.of_nat n) by (apply Z.pow_pos_nonneg; lia).
  split_and!; [done|nia| | |].
  - destruct (shr_r x); simpl; lia.
  - destruct (shr_r x); simpl; lia.
  - destruct (shr_r x); simpl; [|rewrite Hs; lia]. split; [by intros []|lia].
Qed.

Lemma shifted_iter m p : 0 ≤ m → shifted m (Pos.to_nat p) (iter_pos shr_1 p (shr_record_of_loc m loc_Exact)).
Proof.
  intros Hm. rewrite iter_pos_nat. induction (Pos.to_nat p) as [|n IH]; simpl.
  - exists 0. simpl. split_and!; lia || done.
  - by apply shifted_step.
Qed.

(** Rounding the shifted mantissa stays between the multiples of the shift. *)
Lemma round_shifted m n x a b :
  shifted m n x → a * 2 ^ Z.of_nat n ≤ m ≤ b * 2 ^ Z.of_nat n →
  a ≤ round_nearest_even (shr_m x) (loc_of_shr_record x) ≤ b.
Proof.
  intros (t & Hq & Hm & Ht & Hs) Hab. rewrite Z.pow_add_r in Hm by lia.
  assert (0 < 2 ^ Z.of_nat n) by (apply Z.pow_pos_nonneg; lia).
  assert (a ≤ shr_m x ∧ shr_m x ≤ b) as [Ha Hb] by (destruct (shr_r x); simpl in Hm; nia).
  assert (shr_r x = true ∨ shr_s x = true → shr_m x + 1 ≤ b) as Hup.
  { intros Hrs. destruct (shr_r x); simpl in Hm; [nia|].
    destruct Hrs as [|Hst]; [done|]. assert (t ≠ 0) by (intros ->; intuition congruence). nia. }
  destruct x as [q r s]; simpl in *. destruct r, s; simpl; try lia; try (specialize (Hup ltac:(auto)); lia).
  destruct (Z.even q); specialize (Hup ltac:(auto)); lia.
Qed.

(** * Rounding *)

Lemma fexp64_eq e : fexp prec emax e = Z.max (e - 53) (-1074).
Proof. done. Qed.

(** The second shift of [binary_round_aux] is exact. *)
Definition second_shift (q e : Z) : spec_float :=
  let '(x, e') := shr_fexp prec emax q e loc_Exact in
  match shr_m x with
  | Z0 => S754_zero false
  | Zpos m => if e' <=? emax - prec then S754_finite false m e' else S754_infinity false
  | _ => S754_nan
  end.

Lemma second_shift_exact q e :
  0 < q ≤ 2 ^ 53 → -1074 ≤ e ≤ 900 →
  ∃ m e', second_shift q e = S754_finite false m e' ∧ -1074 ≤ e'
          ∧ Zpos m * 2 ^ (e' + 1074) = q * 2 ^ (e + 1074).
Proof.
  intros [Hq Hq53] [He He9]. destruct q as [|q|q]; [lia| |lia].
  destruct (decide (Zpos q = 2 ^ 53)) as [Heq|Hne].
  - injection Heq as ->. exists (2 ^ 52)%positive, (e + 1).
    unfold second_shift, shr_fexp. rewrite fexp64_eq.
    replace (Z.max _ _ - e) with 1 by (change (Zdigits2 _) with 54; lia).
    cbn [shr iter_pos].
    change (shr_1 (shr_record_of_loc (2 ^ 53)%Z loc_Exact))
      with {| shr_m := (2 ^ 52)%Z; shr_r := false; shr_s := false |}.
    cbn [shr_m]. rewrite (proj2 (Z.leb_le _ _)) by (change (emax - prec) with 971; lia).
    split_and!; [done|lia|].
    replace (e + 1 + 1074) with (1 + (e + 1074)) by lia. rewrite Z.pow_add_r by lia.
    change (2 ^ 1) with 2. rewrite Z.mul_assoc. done.
  - exists q, e. unfold second_shift, shr_fexp. rewrite fexp64_eq.
    assert (Hd : Zpos (digits2_pos q) ≤ 53) by (apply digits2_le; lia).
    change (Zdigits2 (Zpos q)) with (Zpos (digits2_pos q)).
    assert (Hn : Z.max (Zpos (digits2_pos q) + e - 53) (-1074) - e ≤ 0) by lia.
    destruct (Z.max _ _ - e) eqn:Hk; [|lia|];
      cbn [shr shr_record_of_loc shr_m];
      rewrite (proj2 (Z.leb_le _ _)) by (change (emax - prec) with 971; lia); done.
Qed.

Lemma binary_round_aux_unfold m e :
  binary_round_aux prec emax false (Zpos m) e loc_Exact
  = let '(x, e') := shr_fexp prec emax (Zpos m) e loc_Exact in
    second_shift (round_nearest_even (shr_m x) (loc_of_shr_record x)) e'.
Proof. unfold binary_round_aux, second_shift. by destruct (shr_fexp _ _ _ _ _). Qed.

Lemma second_shift_within lo hi q e :
  -1074 ≤ e ≤ 0 → 0 ≤ q ≤ 2 ^ 53 → lo * 2 ^ (- e) ≤ q ≤ hi * 2 ^ (- e) →
  within lo hi (second_shift q e).
Proof.
  intros He Hq Hb. destruct (decide (q = 0)) as [->|Hq0].
  - assert (second_shift 0 e = S754_zero false) as ->.
    { unfold second_shift, shr_fexp. rewrite fexp64_eq.
      change (Zdigits2 0) with 0. destruct (Z.max _ _ - e) eqn:Hk; [done| |done]. lia. }
    split; [done|]. assert (0 < 2 ^ (- e)) by (apply Z.pow_pos_nonneg; lia).
    assert (lo ≤ 0 ≤ hi) by nia. simpl units.
    assert (0 < 2 ^ 1074) by (apply Z.pow_pos_nonneg; lia). nia.
  - destruct (second_shift_exact q e) as (m & e' & -> & He' & Hv); [lia|lia|].
    split; [done|]. simpl units. rewrite Hv.
    replace (2 ^ 1074) with (2 ^ (- e) * 2 ^ (e + 1074)) by (rewrite <-Z.pow_add_r by lia; f_equal; lia).
    rewrite !Z.mul_assoc. split; apply Z.mul_le_mono_nonneg_r; (apply Z.pow_nonneg; lia) || lia.
Qed.

Lemma shifted_bounds lo hi m e s p :
  lo * 2 ^ s ≤ m * 2 ^ (e + s) ≤ hi * 2 ^ s → 0 ≤ e + s → 0 ≤ p → e + p ≤ 0 →
  lo * 2 ^ (- (e + p)) * 2 ^ p ≤ m ≤ hi * 2 ^ (- (e + p)) * 2 ^ p.
Proof.
  intros Hb Hes Hp Hep. rewrite <-!Z.mul_assoc, <-!Z.pow_add_r by lia.
  replace (2 ^ s) with (2 ^ (- (e + p) + p) * 2 ^ (e + s)) in Hb
    by (rewrite <-Z.pow_add_r by lia; f_equal; lia).
  rewrite !Z.mul_assoc in Hb. assert (0 < 2 ^ (e + s)) by (apply Z.pow_pos_nonneg; lia).
  split; eapply Z.mul_le_mono_pos_r; [done|lia|done|lia].
Qed.

(** The digits of a value below [2^53] *)
Lemma digits_exponent hi m e s :
  hi < 2 ^ 53 → 0 ≤ s → 0 ≤ e + s → Zpos m * 2 ^ (e + s) ≤ hi * 2 ^ s →
  Zpos (digits2_pos m) + e ≤ 53.
Proof.
  intros Hhi Hs Hes Hb. pose proof (digits2_bounds m) as [Hdl _].
  set (d := Zpos (digits2_pos m)) in *. assert (1 ≤ d) by lia.
  assert (d - 1 + (e + s) < 53 + s); [|lia]. apply (Z.pow_lt_mono_r_iff 2); [lia|lia|].
  rewrite (Z.pow_add_r 2 (d - 1)), (Z.pow_add_r 2 53) by lia.
  assert (0 < 2 ^ (e + s)) by (apply Z.pow_pos_nonneg; lia).
  assert (0 < 2 ^ s) by (apply Z.pow_pos_nonneg; lia). nia.
Qed.

(** A value between two integers below [2^53] rounds to a float between them. *)
Lemma round_aux_within lo hi m e s :
  0 ≤ lo → hi < 2 ^ 53 → 0 ≤ s → - s ≤ e →
  lo * 2 ^ s ≤ Zpos m * 2 ^ (e + s) ≤ hi * 2 ^ s →
  within lo hi (binary_round_aux prec emax false (Zpos m) e loc_Exact).
Proof.
  intros Hlo Hhi Hs Hse Hb. rewrite binary_round_aux_unfold. unfold shr_fexp. rewrite fexp64_eq.
  change (Zdigits2 (Zpos m)) with (Zpos (digits2_pos m)).
  pose proof (digits_exponent hi m e s Hhi Hs ltac:(lia) ltac:(lia)) as Hde.
  pose proof (digits2_bounds m) as [_ Hdu]. set (d := Zpos (digits2_pos m)) in *.
  assert (1 ≤ d) by lia.
  assert (Hexact : d ≤ 53 → -1074 ≤ e → within lo hi (second_shift (Zpos m) e)).
  { intros Hd53 He. assert (2 ^ d ≤ 2 ^ 53) by (apply Z.pow_le_mono_r; lia).
    destruct (second_shift_exact (Zpos m) e) as (m' & e' & -> & He' & Hv); [lia|lia|].
    split; [done|]. simpl units. rewrite Hv. by apply (within_finite lo hi m e s). }
  destruct (Z.max (d + e - 53) (-1074) - e) as [|p|p] eqn:Hp; cbn [shr shr_record_of_loc].
  - apply Hexact; lia.
  - pose proof (shifted_iter (Zpos m) p ltac:(lia)) as Hsh.
    pose proof (shifted_bounds lo hi (Zpos m) e s (Zpos p) Hb ltac:(lia) ltac:(lia) ltac:(lia)) as Hpb.
    assert (Hu : 0 * 2 ^ Zpos p ≤ Zpos m ≤ 2 ^ 53 * 2 ^ Zpos p).
    { split; [lia|]. rewrite <-Z.pow_add_r by lia.
      assert (2 ^ d ≤ 2 ^ (53 + Zpos p)) by (apply Z.pow_le_mono_r; lia). lia. }
    rewrite <-(positive_nat_Z p) in Hpb, Hu.
    pose proof (round_shifted _ _ _ _ _ Hsh Hpb) as Hq. pose proof (round_shifted _ _ _ _ _ Hsh Hu) as Hq'.
    rewrite positive_nat_Z in Hq.
    apply second_shift_within; [lia|done|done].
  - apply Hexact; lia.
Qed.

(** * The operations *)

Lemma shl_align_value m e e' :
  Zpos (shl_align m e e').1 * 2 ^ ((shl_align m e e').2 - Z.min e e') = Zpos m * 2 ^ (e - Z.min e e')
  ∧ (shl_align m e e').2 = Z.min e e'.
Proof.
  unfold shl_align. destruct (e' - e) as [|p|p] eqn:Hd; cbn [fst snd].
  - rewrite Z.min_l by lia. done.
  - rewrite Z.min_l by lia. done.
  - rewrite Z.min_r by lia. split; [|done]. replace (e - e') with (Zpos p) by lia.
    rewrite Z.sub_diag, Z.mul_1_r, <-(Pos2Z.inj_pow 2 p), <-Pos2Z.inj_mul.
    f_equal. unfold Pos.pow. rewrite Pos.mul_comm. clear Hd. revert m.
    induction p as [|p IH] using Pos.peano_ind; intros m; [done|].
    rewrite !Pos.iter_succ, IH. lia.
Qed.

Lemma round_within lo hi m e s :
  0 ≤ lo → hi < 2 ^ 53 → 1074 ≤ s → - s ≤ e →
  lo * 2 ^ s ≤ Zpos m * 2 ^ (e + s) ≤ hi * 2 ^ s →
  within lo hi (binary_round prec emax false m e).
Proof.
  intros Hlo Hhi Hs Hse Hb. unfold binary_round.
  pose proof (shl_align_value m e (fexp prec emax (Zpos (digits2_pos m) + e))) as [Hv He].
  rewrite fexp64_eq in *. destruct (shl_align _ _ _) as [mz ez]; cbn [fst snd] in *.
  assert (- s ≤ ez) by lia.
  apply (round_aux_within lo hi mz ez s); [done|done|lia|done|].
  rewrite He, Z.sub_diag, Z.mul_1_r in Hv. rewrite Hv, He, <-Z.mul_assoc, <-Z.pow_add_r by lia.
  by replace (e - _ + (_ + s)) with (e + s) by lia.
Qed.

Lemma normalize_within lo hi m e s :
  0 ≤ m → 0 ≤ lo → hi < 2 ^ 53 → 1074 ≤ s → - s ≤ e →
  lo * 2 ^ s ≤ m * 2 ^ (e + s) ≤ hi * 2 ^ s →
  within lo hi (binary_normalize prec emax m e false).
Proof.
  intros Hm Hlo Hhi Hs Hse Hb. destruct m as [|m|m]; [| |lia]; cbn [binary_normalize].
  - split; [done|]. simpl units. assert (0 < 2 ^ s) by (apply Z.pow_pos_nonneg; lia).
    assert (lo ≤ 0 ≤ hi) by nia. assert (0 < 2 ^ 1074) by (apply Z.pow_pos_nonneg; lia). nia.
  - by apply (round_within lo hi m e s).
Qed.

Lemma float_of_Z_within z : 0 ≤ z < 2 ^ 53 → within z z (float_of_Z z).
Proof. intros Hz. apply (normalize_within z z z 0 1074); simpl Z.add; lia. Qed.

Lemma float_mul_within lo1 hi1 lo2 hi2 f1 f2 :
  within lo1 hi1 f1 → within lo2 hi2 f2 → 0 ≤ lo1 → 0 ≤ lo2 → hi1 * hi2 < 2 ^ 53 →
  within (lo1 * lo2) (hi1 * hi2) (float_mul f1 f2).
Proof.
  intros H1 H2 Hl1 Hl2 Hh.
  assert (Hu : 0 < 2 ^ 1074) by (apply Z.pow_pos_nonneg; lia).
  destruct f1 as [[]|?| |[] m1 e1], f2 as [[]|?| |[] m2 e2]; try (by destruct H1 as [[] _]);
    try (by destruct H2 as [[] _]).
  1-3: split; [done|]; destruct H1 as [_ H1], H2 as [_ H2]; simpl units in *; split; nia.
  cbn [float_mul SFmul xorb].
  pose proof (finite_bounds _ _ _ _ _ H1 (Z.le_refl 1074)) as Hb1.
  pose proof (finite_bounds _ _ _ _ _ H2 (Z.le_refl 1074)) as Hb2.
  destruct H1 as [He1 _], H2 as [He2 _]; simpl in He1, He2.
  apply (round_aux_within _ _ _ _ 2148); [nia|done|lia|lia|].
  replace (2 ^ 2148) with (2 ^ 1074 * 2 ^ 1074) by (rewrite <-Z.pow_add_r by lia; done).
  replace (e1 + e2 + 2148) with ((e1 + 1074) + (e2 + 1074)) by lia.
  rewrite (Z.pow_add_r 2 (e1 + 1074)), Pos2Z.inj_mul by lia.
  revert Hb1 Hb2 Hu. generalize (2 ^ 1074) (2 ^ (e1 + 1074)) (2 ^ (e2 + 1074)).
  intros u a b Hb1 Hb2 Hu.
  assert (0 ≤ lo1 * u ∧ 0 ≤ lo2 * u) as [] by nia.
  split.
  - replace (lo1 * lo2 * (u * u)) with ((lo1 * u) * (lo2 * u)) by ring.
    replace (Zpos m1 * Zpos m2 * (a * b)) with ((Zpos m1 * a) * (Zpos m2 * b)) by ring.
    apply Z.mul_le_mono_nonneg; lia.
  - replace (hi1 * hi2 * (u * u)) with ((hi1 * u) * (hi2 * u)) by ring.
    replace (Zpos m1 * Zpos m2 * (a * b)) with ((Zpos m1 * a) * (Zpos m2 * b)) by ring.
    apply Z.mul_le_mono_nonneg; lia.
Qed.

Lemma float_add_within lo1 hi1 lo2 hi2 f1 f2 :
  within lo1 hi1 f1 → within lo2 hi2 f2 → 0 ≤ lo1 → 0 ≤ lo2 → hi1 + hi2 < 2 ^ 53 →
  within (lo1 + lo2) (hi1 + hi2) (float_add f1 f2).
Proof.
  intros H1 H2 Hl1 Hl2 Hh.
  assert (Hu : 0 < 2 ^ 1074) by (apply Z.pow_pos_nonneg; lia).
  destruct f1 as [[]|?| |[] m1 e1], f2 as [[]|?| |[] m2 e2]; try (by destruct H1 as [[] _]);
    try (by destruct H2 as [[] _]).
  1-3: destruct H1 as [Hf1 H1], H2 as [Hf2 H2]; split; [done|]; simpl units in *; split; nia.
  cbn [float_add SFadd cond_Zopp].
  pose proof (finite_bounds _ _ _ _ _ H1 (Z.le_refl 1074)) as Hb1.
  pose proof (finite_bounds _ _ _ _ _ H2 (Z.le_refl 1074)) as Hb2.
  destruct H1 as [He1 _], H2 as [He2 _]; simpl in He1, He2.
  set (ez := Z.min e1 e2).
  assert (Halign : ∀ m e, ez ≤ e → Zpos (shl_align m e ez).1 * 2 ^ (ez + 1074) = Zpos m * 2 ^ (e + 1074)).
  { intros m e Hle. pose proof (shl_align_value m e ez) as [Hv He]. rewrite Z.min_r in Hv, He by lia.
    rewrite He, Z.sub_diag, Z.mul_1_r in Hv. rewrite Hv, <-Z.mul_assoc, <-Z.pow_add_r by lia.
    do 2 f_equal. lia. }
  apply (normalize_within _ _ _ _ 1074); [lia|lia|done|lia|lia|].
  rewrite !Z.mul_add_distr_r, !Halign by lia. lia.
Qed.

(** * Rounding to an integer *)

Lemma round_half_even_within a b lo hi :
  0 < b → lo * b ≤ a ≤ hi * b → lo ≤ round_half_even a b ≤ hi.
Proof.
  intros Hb Hab. unfold round_half_even. pose proof (Z.div_mod a b ltac:(lia)) as Hdm.
  pose proof (Z.mod_pos_bound a b Hb) as Hr.
  assert (lo ≤ a / b ≤ hi) by (split; nia).
  destruct (Z.ltb_spec (2 * (a mod b)) b); [lia|].
  assert (a / b + 1 ≤ hi) by nia.
  destruct (Z.ltb_spec b (2 * (a mod b))); [lia|]. destruct (Z.even _); lia.
Qed.

Lemma round_int_within lo hi f :
  within lo hi f → ∃ z, round_int f = Ok z ∧ lo ≤ z ≤ hi.
Proof.
  intros Hw. destruct f as [[]|?| |[] m e]; try (by destruct Hw as [[] _]).
  - exists 0. split; [done|]. destruct Hw as [_ Hw]. simpl units in Hw.
    assert (0 < 2 ^ 1074) by (apply Z.pow_pos_nonneg; lia). nia.
  - eexists. split; [done|]. pose proof (finite_bounds _ _ _ _ _ Hw (Z.le_refl 1074)) as Hb.
    destruct Hw as [He _]. simpl in He. cbn [decimal_units]. change (10 ^ 0) with 1. rewrite Z.mul_1_r.
    destruct (Z.leb_spec 0 e).
    + rewrite Z.pow_add_r, Z.mul_assoc in Hb by lia.
      assert (0 < 2 ^ 1074) by (apply Z.pow_pos_nonneg; lia). nia.
    + apply round_half_even_within; [apply Z.pow_pos_nonneg; lia|].
      replace (2 ^ 1074) with (2 ^ (- e) * 2 ^ (e + 1074)) in Hb
        by (rewrite <-Z.pow_add_r by lia; f_equal; lia).
      assert (0 < 2 ^ (e + 1074)) by (apply Z.pow_pos_nonneg; lia).
      rewrite !Z.mul_assoc in Hb. split; eapply Z.mul_le_mono_pos_r; [done|lia|done|lia].
Qed.
