(* ===== verification/Findings.v ===== *)
(** Findings: the review evidence model of
    [specfact_code_review/run/findings.py] and the scorer of
    [run/scorer.py]: finding and report validation, derived lifecycle and
    governance fields, assurance projection, the schema reader and the
    consumer matrix. *)

From S2P Require Import Prelude Text Dict PyValue.

(** * Closed vocabularies *)

Inductive category :=
  | CleanCode | Security | TypeSafety | Contracts | Testing | Style | Architecture
  | ToolErrorCat | Naming | Kiss | Yagni | Dry | Solid | AiBloat.
Inductive severity := SevError | SevWarning | SevInfo.
Inductive finding_status := StOpen | StFixed | StWaivedByReference.
Inductive differential_state := DsIntroduced | DsFixed | DsUnchanged | DsUnknown.
Inductive execution_state := ExRan | ExError | ExNotApplicable.
Inductive confidence := ConfLow | ConfMedium | ConfHigh.
Inductive guidance_kind := SafeMechanical | NeedsTests | DesignJudgment | Preserve.
Inductive recommended_action :=
  | RaRemove | RaInline | RaCollapse | RaDeduplicate | RaMakeRequired | RaKeep | RaInspect.
Inductive clean_code_principle :=
  | CcKiss | CcDry | CcYagni | CcContracts | CcApiStability | CcReadability.
Inductive action_status := AsRecommended | AsApplied | AsKept | AsSkipped | AsFailed.
Inductive preserve_reason_kind :=
  | PrContractLambda | PrProtocolMember | PrPublicApi | PrCompatShim | PrCliCallback
  | PrDomainWrapper | PrSpecLinked | PrLoadBearing.
Inductive verdict := PASS | PASS_WITH_ADVISORY | FAIL.
(** [AssuranceStatus], also the [evidence_outcome] vocabulary *)
Inductive assurance_status := APass | AFail | AUnknown | ANotApplicable.
Inductive enforcement_mode := EmFull | EmChanged | EmShadow.

#[export] Instance category_eq_dec : EqDecision category. Proof. solve_decision. Defined.
#[export] Instance severity_eq_dec : EqDecision severity. Proof. solve_decision. Defined.
#[export] Instance finding_status_eq_dec : EqDecision finding_status. Proof. solve_decision. Defined.
#[export] Instance confidence_eq_dec : EqDecision confidence. Proof. solve_decision. Defined.
#[export] Instance guidance_kind_eq_dec : EqDecision guidance_kind. Proof. solve_decision. Defined.
#[export] Instance action_status_eq_dec : EqDecision action_status. Proof. solve_decision. Defined.
#[export] Instance verdict_eq_dec : EqDecision verdict. Proof. solve_decision. Defined.
#[export] Instance assurance_status_eq_dec : EqDecision assurance_status. Proof. solve_decision. Defined.
#[export] Instance enforcement_mode_eq_dec : EqDecision enforcement_mode. Proof. solve_decision. Defined.

Definition assurance_text (s : assurance_status) : string :=
  match s with
  | APass => "PASS" | AFail => "FAIL" | AUnknown => "UNKNOWN" | ANotApplicable => "NOT_APPLICABLE"
  end.
Definition parse_assurance (s : string) : option assurance_status :=
  if decide (s = "PASS") then Some APass
  else if decide (s = "FAIL") then Some AFail
  else if decide (s = "UNKNOWN") then Some AUnknown
  else if decide (s = "NOT_APPLICABLE") then Some ANotApplicable
  else None.
Definition verdict_text (v : verdict) : string :=
  match v with
  | PASS => "PASS" | PASS_WITH_ADVISORY => "PASS_WITH_ADVISORY" | FAIL => "FAIL"
  end.
Definition enforcement_text (m : enforcement_mode) : string :=
  match m with EmFull => "full" | EmChanged => "changed" | EmShadow => "shadow" end.

(** * Analyzer profile evidence *)

Definition PR_RANGE_REQUIRED_ANALYZERS : list string :=
  ["ruff"; "radon"; "semgrep-clean"; "ai-bloat-ast"; "ast-clean-code";
   "basedpyright"; "pylint"; "contracts"].
Definition PR_RANGE_CONDITIONAL_ANALYZERS : list string :=
  ["semgrep-bugs"; "targeted-pytest-coverage"].
Definition PR_RANGE_ANALYZERS : list string :=
  PR_RANGE_REQUIRED_ANALYZERS ++ PR_RANGE_CONDITIONAL_ANALYZERS.
Definition PASSING_ANALYZER_OUTCOMES : list string := ["PASS"; "NOT_APPLICABLE"].
Definition VALID_ANALYZER_OUTCOMES : list string :=
  PASSING_ANALYZER_OUTCOMES ++ ["FAIL"; "UNKNOWN"].

Abbreviation evidence_item := (list (string * pyval)).

(** [len(ids) == len(required) and set(ids) == set(required) and all(...)];
    the conjunction stops before the outcomes when the ids differ. *)
Definition _passing_pr_range_analyzer_profile `{PyRepr}
    (evidence : option (list evidence_item)) : result bool :=
  let items := default [] evidence in
  let evidence_ids := (λ item, py_str (sget_default "id" (VStr "") item)) <$> items in
  if (length evidence_ids =? length PR_RANGE_ANALYZERS)%nat
     && bool_decide (list_to_set evidence_ids =@{gset string} list_to_set PR_RANGE_ANALYZERS)
  then all_res (λ item, in_set (sget "evidence_outcome" item) PASSING_ANALYZER_OUTCOMES) items
  else Ok false.

Definition _has_untrusted_analyzer_outcome (evidence : option (list evidence_item)) : result bool :=
  any_res (λ item, let! ok := in_set (sget "evidence_outcome" item) VALID_ANALYZER_OUTCOMES in
                   Ok (negb ok)) (default [] evidence).

(** One iteration of [_has_required_unknown_evidence]: the loop returns
    [True] at the first item whose reasons are not an empty list. *)
Definition _has_required_unknown_evidence (evidence : option (list evidence_item)) : bool :=
  existsb (λ item,
    match sget_default "required_unknown_reasons" (VList []) item with
    | VList reasons =>
        existsb (λ r, match r with VStr s => bool_decide (s = "") | _ => true end) reasons
        || bool_decide (reasons ≠ [])
    | _ => true
    end) (default [] evidence).

(** * Evidence records *)

Record EvidenceRef := {
  er_path : option string;
  er_start_line : option Z;
  er_end_line : option Z;
  er_artifact_id : option string;
  er_description : option string
}.

Definition non_blank_opt (o : option string) : bool :=
  match o with Some s => nonblank s | None => true end.
Definition at_least (n : Z) (o : option Z) : bool :=
  match o with Some z => (n <=? z)%Z | None => true end.

Definition EvidenceRef_validate_invariants (r : EvidenceRef) : result EvidenceRef :=
  let! _ := check (match er_path r, er_artifact_id r, er_start_line r with
                   | None, None, None => false | _, _, _ => true end)
    (ValueError "at least one locator (path, artifact_id, or start_line) must be provided") in
  let! _ := check (match er_end_line r, er_start_line r with
                   | Some _, None => false | _, _ => true end)
    (ValueError "start_line must be provided if end_line is present") in
  let! _ := check (match er_start_line r, er_end_line r with
                   | Some s, Some e => negb (e <? s)%Z | _, _ => true end)
    (ValueError "end_line must be greater than or equal to start_line") in
  Ok r.

(** Field constraints and field validators run first, in field order. *)
Definition validate_EvidenceRef (r : EvidenceRef) : result EvidenceRef :=
  let empty := ValueError "value must not be empty if provided" in
  let! _ := check (non_blank_opt (er_path r)) empty in
  let! _ := check (at_least 1 (er_start_line r)) (ValueError "start_line") in
  let! _ := check (at_least 1 (er_end_line r)) (ValueError "end_line") in
  let! _ := check (non_blank_opt (er_artifact_id r)) empty in
  let! _ := check (non_blank_opt (er_description r)) empty in
  EvidenceRef_validate_invariants r.

Record SignalTraceEntry := {
  ste_tool : string;
  ste_source : string;
  ste_fired : bool;
  ste_score : option spec_float;
  ste_value : pyval;
  ste_evidence_refs : option (list EvidenceRef);
  ste_explanation : string
}.

Record PreserveReasonEvidence := {
  pre_reason : preserve_reason_kind;
  pre_evidence_refs : list EvidenceRef;
  pre_explanation : string
}.

Record RemediationPacket := {
  rp_issue : string;
  rp_recommended_action : string;
  rp_possible_keep_reason : option string;
  rp_safety_checks : list string;
  rp_validation_plan : list string;
  rp_safe_to_autofix : bool;
  rp_patch_forecast_refs : option (list string)
}.

Definition validate_SignalTraceEntry (s : SignalTraceEntry) : result SignalTraceEntry :=
  let! _ := check (nonblank (ste_tool s) && nonblank (ste_source s) && nonblank (ste_explanation s))
    (ValueError "value must not be empty") in
  let! _ := map_res validate_EvidenceRef (default [] (ste_evidence_refs s)) in Ok s.

Definition validate_PreserveReasonEvidence (p : PreserveReasonEvidence) :
    result PreserveReasonEvidence :=
  let! _ := check (bool_decide (pre_evidence_refs p ≠ [])) (ValueError "evidence_refs") in
  let! _ := map_res validate_EvidenceRef (pre_evidence_refs p) in
  let! _ := check (nonblank (pre_explanation p)) (ValueError "value must not be empty") in Ok p.

Definition validate_RemediationPacket (p : RemediationPacket) : result RemediationPacket :=
  let! _ := check (nonblank (rp_issue p) && nonblank (rp_recommended_action p)
                   && non_blank_opt (rp_possible_keep_reason p))
    (ValueError "value must not be empty") in
  let! _ := check (bool_decide (rp_safety_checks p ≠ []) && bool_decide (rp_validation_plan p ≠ []))
    (ValueError "min_length") in
  let! _ := check (forallb nonblank (rp_safety_checks p) && forallb nonblank (rp_validation_plan p)
                   && forallb nonblank (default [] (rp_patch_forecast_refs p)))
    (ValueError "entries must not be empty") in Ok p.

Record ReviewedLoc := { rl_production : Z; rl_tests : Z; rl_total : Z }.
Record DeletionEstimate := { de_low : Z; de_expected : Z; de_high : Z }.
Record AiBloatIndex := {
  abi_findings_per_kloc : spec_float;
  abi_weighted_bloat_points_per_kloc : spec_float;
  abi_cleanup_yield_loc_per_kloc : spec_float
}.
Record GuidanceKindForecast := {
  gkf_count : Z; gkf_estimated_deletion_lines : Z; gkf_weight : spec_float
}.
Record CleanupForecast := {
  cf_reviewed_loc : ReviewedLoc;
  cf_estimated_deletion_lines : DeletionEstimate;
  cf_ai_bloat_index : AiBloatIndex;
  cf_by_guidance_kind : list (string * GuidanceKindForecast);
  cf_by_action_status : list (string * Z);
  cf_preview_evidence_count : Z;
  cf_mutation_evidence_count : Z
}.

Definition validate_ReviewedLoc (l : ReviewedLoc) : result ReviewedLoc :=
  let! _ := check ((0 <=? rl_production l) && (0 <=? rl_tests l) && (0 <=? rl_total l))%Z
    (ValueError "ge=0") in
  let! _ := check (rl_total l =? rl_production l + rl_tests l)%Z
    (ValueError "reviewed_loc.total must equal production + tests") in Ok l.

Definition validate_DeletionEstimate (d : DeletionEstimate) : result DeletionEstimate :=
  let! _ := check ((0 <=? de_low d) && (0 <=? de_expected d) && (0 <=? de_high d))%Z
    (ValueError "ge=0") in
  let! _ := check ((de_low d <=? de_expected d) && (de_expected d <=? de_high d))%Z
    (ValueError "estimated_deletion_lines must satisfy low <= expected <= high") in Ok d.

(** * Findings *)

Record ReviewFinding := {
  rf_category : category;
  rf_severity : severity;
  rf_tool : string;
  rf_rule : string;
  rf_file : string;
  rf_line : Z;
  rf_message : string;
  rf_fixable : bool;
  rf_status : finding_status;
  rf_differential_state : option differential_state;
  rf_autofix_available : option bool;
  rf_blocking : option bool;
  rf_execution_state : option execution_state;
  rf_evidence_outcome : option assurance_status;
  rf_evidence_refs : option (list EvidenceRef);
  rf_confidence : option confidence;
  rf_rewrite_hint : option string;
  rf_canonical_pattern : option string;
  rf_intent_key : option string;
  rf_estimated_deletion_lines : option Z;
  rf_related_locations : option (list EvidenceRef);
  rf_guidance_kind : option guidance_kind;
  rf_recommended_action : option recommended_action;
  rf_clean_code_principle : option clean_code_principle;
  rf_rationale : option string;
  rf_safety_checks : option (list string);
  rf_preserve_reason : option string;
  rf_action_status : option action_status;
  rf_before_ref : option EvidenceRef;
  rf_after_ref : option EvidenceRef;
  rf_improvement : option string;
  rf_signal_trace : option (list SignalTraceEntry);
  rf_preserve_reasons : option (list PreserveReasonEvidence);
  rf_remediation_packet : option RemediationPacket
}.

(** Assignment of the two fields the lifecycle validator derives. *)
Definition with_lifecycle (autofix blocking : option bool) (f : ReviewFinding) : ReviewFinding :=
  {| rf_category := rf_category f; rf_severity := rf_severity f; rf_tool := rf_tool f;
     rf_rule := rf_rule f; rf_file := rf_file f; rf_line := rf_line f;
     rf_message := rf_message f; rf_fixable := rf_fixable f; rf_status := rf_status f;
     rf_differential_state := rf_differential_state f;
     rf_autofix_available := autofix; rf_blocking := blocking;
     rf_execution_state := rf_execution_state f;
     rf_evidence_outcome := rf_evidence_outcome f; rf_evidence_refs := rf_evidence_refs f;
     rf_confidence := rf_confidence f; rf_rewrite_hint := rf_rewrite_hint f;
     rf_canonical_pattern := rf_canonical_pattern f; rf_intent_key := rf_intent_key f;
     rf_estimated_deletion_lines := rf_estimated_deletion_lines f;
     rf_related_locations := rf_related_locations f; rf_guidance_kind := rf_guidance_kind f;
     rf_recommended_action := rf_recommended_action f;
     rf_clean_code_principle := rf_clean_code_principle f; rf_rationale := rf_rationale f;
     rf_safety_checks := rf_safety_checks f; rf_preserve_reason := rf_preserve_reason f;
     rf_action_status := rf_action_status f; rf_before_ref := rf_before_ref f;
     rf_after_ref := rf_after_ref f; rf_improvement := rf_improvement f;
     rf_signal_trace := rf_signal_trace f; rf_preserve_reasons := rf_preserve_reasons f;
     rf_remediation_packet := rf_remediation_packet f |}.

Definition ReviewFinding_validate_non_empty_text (f : ReviewFinding) : bool :=
  nonblank (rf_tool f) && nonblank (rf_rule f) && nonblank (rf_file f)
  && nonblank (rf_message f) && non_blank_opt (rf_rewrite_hint f)
  && non_blank_opt (rf_canonical_pattern f) && non_blank_opt (rf_intent_key f)
  && non_blank_opt (rf_rationale f) && non_blank_opt (rf_preserve_reason f)
  && non_blank_opt (rf_improvement f).

Definition ReviewFinding_validate_safety_checks (value : option (list string)) : bool :=
  match value with
  | None => true
  | Some l => bool_decide (l ≠ []) && forallb nonblank l
  end.

Definition ReviewFinding_validate_non_empty_evidence_list {A} (value : option (list A)) : bool :=
  match value with Some [] => false | _ => true end.

Definition has_some {A} (o : option A) : bool := match o with Some _ => true | None => false end.

Definition _validate_guided_metadata (f : ReviewFinding) : result ReviewFinding :=
  match rf_guidance_kind f with
  | None =>
      let! _ := check (negb (has_some (rf_recommended_action f)
          || has_some (rf_clean_code_principle f) || has_some (rf_rationale f)
          || has_some (rf_safety_checks f) || has_some (rf_action_status f)
          || has_some (rf_preserve_reason f) || has_some (rf_before_ref f)
          || has_some (rf_after_ref f) || has_some (rf_improvement f)))
        (ValueError "guidance_kind is required when guided metadata fields are present") in
      Ok f
  | Some kind =>
      let! _ := check (has_some (rf_recommended_action f))
        (ValueError "recommended_action is required when guidance_kind is present") in
      let! _ := check (has_some (rf_clean_code_principle f))
        (ValueError "clean_code_principle is required when guidance_kind is present") in
      let! _ := check (has_some (rf_rationale f))
        (ValueError "rationale is required when guidance_kind is present") in
      let! _ := check (has_some (rf_safety_checks f))
        (ValueError "safety_checks is required when guidance_kind is present") in
      let! _ := check (negb (bool_decide (kind = Preserve) && negb (has_some (rf_preserve_reason f))))
        (ValueError "preserve_reason is required for preserve guidance") in
      Ok f
  end.

Definition expected_blocking (f : ReviewFinding) : bool :=
  bool_decide (rf_severity f = SevError) && bool_decide (rf_status f = StOpen).

Definition _derive_c14_lifecycle_fields (f : ReviewFinding) : result ReviewFinding :=
  let! _ := check (match rf_autofix_available f with
                   | Some b => Bool.eqb b (rf_fixable f) | None => true end)
    (ValueError "autofix_available must preserve the legacy fixable value") in
  let! _ := check (match rf_blocking f with
                   | Some b => Bool.eqb b (expected_blocking f) | None => true end)
    (ValueError "blocking must be derived from severity and lifecycle status") in
  Ok (with_lifecycle (Some (rf_fixable f)) (Some (expected_blocking f)) f).

Definition opt_res {A} (f : A → result A) (o : option A) : result unit :=
  match o with Some a => let! _ := f a in Ok tt | None => Ok tt end.

(** The nested models, field constraints and field validators of a
    [ReviewFinding]. *)
Definition validate_ReviewFinding_fields (f : ReviewFinding) : result unit :=
  let! _ := check (1 <=? rf_line f)%Z (ValueError "line") in
  let! _ := check (at_least 0 (rf_estimated_deletion_lines f))
    (ValueError "estimated_deletion_lines") in
  let! _ := map_res validate_EvidenceRef (default [] (rf_evidence_refs f)) in
  let! _ := map_res validate_EvidenceRef (default [] (rf_related_locations f)) in
  let! _ := opt_res validate_EvidenceRef (rf_before_ref f) in
  let! _ := opt_res validate_EvidenceRef (rf_after_ref f) in
  let! _ := map_res validate_SignalTraceEntry (default [] (rf_signal_trace f)) in
  let! _ := map_res validate_PreserveReasonEvidence (default [] (rf_preserve_reasons f)) in
  let! _ := opt_res validate_RemediationPacket (rf_remediation_packet f) in
  let! _ := check (ReviewFinding_validate_non_empty_text f)
    (ValueError "value must not be empty") in
  let! _ := check (ReviewFinding_validate_safety_checks (rf_safety_checks f))
    (ValueError "safety_checks") in
  let! _ := check (ReviewFinding_validate_non_empty_evidence_list (rf_signal_trace f)
                   && ReviewFinding_validate_non_empty_evidence_list (rf_preserve_reasons f))
    (ValueError "evidence lists must not be empty when provided") in
  Ok tt.

(** Construction of a [ReviewFinding]: the fields, then the two model
    validators in their order. *)
Definition validate_ReviewFinding (f : ReviewFinding) : result ReviewFinding :=
  let! _ := validate_ReviewFinding_fields f in
  let! f1 := _validate_guided_metadata f in
  _derive_c14_lifecycle_fields f1.

Definition has_simplification_metadata (f : ReviewFinding) : bool :=
  has_some (rf_confidence f) || has_some (rf_rewrite_hint f)
  || has_some (rf_canonical_pattern f) || has_some (rf_intent_key f)
  || has_some (rf_estimated_deletion_lines f) || has_some (rf_related_locations f)
  || has_some (rf_guidance_kind f) || has_some (rf_recommended_action f)
  || has_some (rf_clean_code_principle f) || has_some (rf_rationale f)
  || has_some (rf_safety_checks f) || has_some (rf_preserve_reason f)
  || has_some (rf_action_status f) || has_some (rf_before_ref f)
  || has_some (rf_after_ref f) || has_some (rf_improvement f)
  || has_some (rf_signal_trace f) || has_some (rf_preserve_reasons f)
  || has_some (rf_remediation_packet f).

Definition has_guided_simplification_metadata (f : ReviewFinding) : bool :=
  has_some (rf_guidance_kind f).

Definition is_safe_mechanical_simplification (f : ReviewFinding) : bool :=
  bool_decide (rf_guidance_kind f = Some SafeMechanical)
  && match rf_action_status f with
     | None | Some AsRecommended | Some AsFailed => true | _ => false
     end
  && match rf_preserve_reasons f with Some (_ :: _) => false | _ => true end.

Definition has_cleanup_handoff_metadata (f : ReviewFinding) : bool :=
  has_some (rf_signal_trace f) || has_some (rf_preserve_reasons f)
  || has_some (rf_remediation_packet f).

Definition simplification_metadata_is_deterministic (f : ReviewFinding) : bool :=
  has_some (rf_rewrite_hint f) && has_some (rf_canonical_pattern f) && has_some (rf_intent_key f).

(** [bool(self.blocking)] *)
Definition is_blocking (f : ReviewFinding) : bool :=
  match rf_blocking f with Some b => b | None => false end.

Record SimplificationSummary := {
  ss_by_guidance_kind : list (guidance_kind * Z);
  ss_by_action_status : list (action_status * Z);
  ss_blocking_simplification_count : Z;
  ss_applied_count : Z;
  ss_kept_count : Z
}.

Definition count_kind (d : list (guidance_kind * Z)) (f : ReviewFinding) : list (guidance_kind * Z) :=
  match rf_guidance_kind f with Some k => dict_incr k 1 d | None => d end.
Definition count_action (d : list (action_status * Z)) (f : ReviewFinding) : list (action_status * Z) :=
  match rf_action_status f with Some a => dict_incr a 1 d | None => d end.
Definition count_true {A} (p : A → bool) (l : list A) : Z :=
  foldr (λ x n, Z.b2z (p x) + n)%Z 0%Z l.

Definition _build_simplification_summary (findings : list ReviewFinding) :
    option SimplificationSummary :=
  let guided := List.filter has_guided_simplification_metadata findings in
  match guided with
  | [] => None
  | _ =>
      let by_guidance_kind := foldl count_kind [] guided in
      let by_action_status := foldl count_action [] guided in
      Some {| ss_by_guidance_kind := by_guidance_kind;
              ss_by_action_status := by_action_status;
              ss_blocking_simplification_count := count_true is_safe_mechanical_simplification guided;
              ss_applied_count := default 0%Z (dict_get AsApplied by_action_status);
              ss_kept_count := default 0%Z (dict_get AsKept by_action_status) |}
  end.

(** * Review report *)

Inductive gate := GatePass | GateFail.
Record RequirementsEvidenceContext := {
  rec_path : string;
  rec_content_digest : string;
  rec_mapping_digest : string;
  rec_plan_digest : string;
  rec_source_ref : string;
  rec_gate_decision : gate
}.

Definition validate_RequirementsEvidenceContext (c : RequirementsEvidenceContext) :
    result RequirementsEvidenceContext :=
  let! _ := check (bool_decide (rec_path c ≠ "")) (ValueError "path") in
  let! _ := check (is_sha256_text (rec_content_digest c) && is_sha256_text (rec_mapping_digest c)
                   && is_sha256_text (rec_plan_digest c)) (ValueError "digest pattern") in
  let! _ := check (is_object_id (rec_source_ref c)) (ValueError "source_ref pattern") in
  Ok c.

(** A datetime: microseconds of its wall-clock fields and its UTC offset,
    [None] for a naive one. *)
Record datetime := { dt_wall_us : Z; dt_utcoffset_us : option Z }.

Definition _normalize_timestamp (value : datetime) : datetime :=
  match dt_utcoffset_us value with
  | None => {| dt_wall_us := dt_wall_us value; dt_utcoffset_us := Some 0%Z |}
  | Some off => {| dt_wall_us := dt_wall_us value - off; dt_utcoffset_us := Some 0%Z |}
  end.

Record ReviewReport := {
  rr_schema_version : string;
  rr_run_id : string;
  rr_timestamp : datetime;
  rr_overall_verdict : option verdict;
  rr_ci_exit_code : option Z;
  rr_assurance_status : option assurance_status;
  rr_has_unknown_required_evidence : option bool;
  rr_scope_evidence : option (list (string * pyval));
  rr_analyzer_evidence : option (list evidence_item);
  rr_suppression_catalog_digest : option string;
  rr_score : Z;
  rr_reward_delta : option Z;
  rr_findings : list ReviewFinding;
  rr_summary : string;
  rr_simplification_summary : option SimplificationSummary;
  rr_cleanup_forecast : option CleanupForecast;
  rr_enforcement_mode : option enforcement_mode;
  rr_enforcement_summary : option string;
  rr_requirements_evidence : option RequirementsEvidenceContext;
  rr_house_rules_updates : list string
}.

Definition with_timestamp (t : datetime) (r : ReviewReport) : ReviewReport :=
  match r with
  | Build_ReviewReport sv id _ ov ec st un sc ev di so rd fs su ss cf em es re hr =>
      Build_ReviewReport sv id t ov ec st un sc ev di so rd fs su ss cf em es re hr
  end.

(** The fields the governance validator assigns. *)
Record governance := {
  g_schema_version : string;
  g_overall_verdict : option verdict;
  g_ci_exit_code : option Z;
  g_assurance_status : option assurance_status;
  g_has_unknown : option bool;
  g_reward_delta : option Z;
  g_simplification_summary : option SimplificationSummary
}.

Definition with_governance (r : ReviewReport) (g : governance) : ReviewReport :=
  {| rr_schema_version := g_schema_version g; rr_run_id := rr_run_id r;
     rr_timestamp := rr_timestamp r; rr_overall_verdict := g_overall_verdict g;
     rr_ci_exit_code := g_ci_exit_code g; rr_assurance_status := g_assurance_status g;
     rr_has_unknown_required_evidence := g_has_unknown g;
     rr_scope_evidence := rr_scope_evidence r; rr_analyzer_evidence := rr_analyzer_evidence r;
     rr_suppression_catalog_digest := rr_suppression_catalog_digest r;
     rr_score := rr_score r; rr_reward_delta := g_reward_delta g;
     rr_findings := rr_findings r; rr_summary := rr_summary r;
     rr_simplification_summary := g_simplification_summary g;
     rr_cleanup_forecast := rr_cleanup_forecast r;
     rr_enforcement_mode := rr_enforcement_mode r;
     rr_enforcement_summary := rr_enforcement_summary r;
     rr_requirements_evidence := rr_requirements_evidence r;
     rr_house_rules_updates := rr_house_rules_updates r |}.

Definition schema_version_at_least (value : string) (required_minor : Z) : bool :=
  match split_on "."%char value with
  | major_text :: minor_text :: _ =>
      match parse_int major_text, parse_int minor_text with
      | Some major, Some minor =>
          (1 <? major)%Z || ((major =? 1)%Z && (required_minor <=? minor)%Z)
      | _, _ => false
      end
  | _ => false
  end.

Definition _schema_version (r : ReviewReport) (simplification_summary : option SimplificationSummary) :
    string :=
  if schema_version_at_least (rr_schema_version r) 6 then rr_schema_version r
  else if has_some (rr_requirements_evidence r) then "1.5"
  else if has_some (rr_enforcement_mode r) then "1.4"
  else if has_some (rr_cleanup_forecast r) || existsb has_cleanup_handoff_metadata (rr_findings r)
  then "1.3"
  else if has_some simplification_summary then "1.2"
  else if existsb has_simplification_metadata (rr_findings r) then "1.1"
  else rr_schema_version r.

(** The four verdicts of the authoritative branch. *)
Definition authoritative_verdict (s : assurance_status) (findings : list ReviewFinding) : verdict :=
  match s with
  | APass => if bool_decide (length findings ≠ 0) then PASS_WITH_ADVISORY else PASS
  | ANotApplicable => PASS_WITH_ADVISORY
  | AFail | AUnknown => FAIL
  end.

Definition accepted_status (s : assurance_status) : bool :=
  bool_decide (s = APass) || bool_decide (s = ANotApplicable).

(** [_derive_authoritative_governance]: [None] when it returns [False]. The
    disjuncts are evaluated in order and stop at the first true one. *)
Definition _derive_authoritative_governance `{PyRepr} (r : ReviewReport) (schema_version : string)
    : result (option (assurance_status * bool * verdict * Z)) :=
  match rr_assurance_status r with
  | Some status =>
      if schema_version_at_least schema_version 6 then
        let! profile_incomplete :=
          (if bool_decide (status = APass)
           then let! ok := _passing_pr_range_analyzer_profile (rr_analyzer_evidence r) in
                Ok (negb ok)
           else Ok false) in
        let! has_unknown :=
          (if bool_decide (rr_has_unknown_required_evidence r = Some true)
              || bool_decide (status = AUnknown) || profile_incomplete
           then Ok true
           else
             let! untrusted := _has_untrusted_analyzer_outcome (rr_analyzer_evidence r) in
             Ok (untrusted || _has_required_unknown_evidence (rr_analyzer_evidence r)
                 || existsb (λ item, is_str "UNKNOWN" (sget "evidence_outcome" item))
                      (default [] (rr_analyzer_evidence r)))) in
        let status' := if has_unknown && accepted_status status then AUnknown else status in
        let exit := if bool_decide (rr_enforcement_mode r = Some EmShadow) || accepted_status status'
                    then 0%Z else 1%Z in
        Ok (Some (status', has_unknown, authoritative_verdict status' (rr_findings r), exit))
      else Ok None
  | None => Ok None
  end.

Definition _has_explicit_legacy_governance (r : ReviewReport) : bool :=
  has_some (rr_enforcement_mode r) && has_some (rr_overall_verdict r) && has_some (rr_ci_exit_code r).

Definition _derive_score_governance (score : Z) (findings : list ReviewFinding) : verdict * Z :=
  if existsb is_blocking findings then (FAIL, 1%Z)
  else if (70 <=? score)%Z then (PASS, 0%Z)
  else if (50 <=? score)%Z then (PASS_WITH_ADVISORY, 0%Z)
  else (FAIL, 1%Z).

Definition _derive_governance_fields `{PyRepr} (r : ReviewReport) : result ReviewReport :=
  let summary := match rr_simplification_summary r with
                 | None => _build_simplification_summary (rr_findings r)
                 | s => s
                 end in
  let version := _schema_version r summary in
  let mk v e s u := with_governance r
    {| g_schema_version := version; g_overall_verdict := v; g_ci_exit_code := e;
       g_assurance_status := s; g_has_unknown := u;
       g_reward_delta := Some (rr_score r - 80)%Z; g_simplification_summary := summary |} in
  let! auth := _derive_authoritative_governance r version in
  match auth with
  | Some (s, u, v, e) => Ok (mk (Some v) (Some e) (Some s) (Some u))
  | None =>
      if _has_explicit_legacy_governance r
      then Ok (mk (rr_overall_verdict r) (rr_ci_exit_code r) (rr_assurance_status r)
                 (rr_has_unknown_required_evidence r))
      else
        let (v, e) := _derive_score_governance (rr_score r) (rr_findings r) in
        Ok (mk (Some v) (Some e) (rr_assurance_status r) (rr_has_unknown_required_evidence r))
  end.

(** Construction of a [ReviewReport] whose nested models are validated:
    field constraints and field validators, then the model validator. *)
Definition validate_ReviewReport `{PyRepr} (r : ReviewReport) : result ReviewReport :=
  let! _ := check (nonblank (rr_schema_version r) && nonblank (rr_run_id r))
    (ValueError "value must not be empty") in
  let! _ := check (match rr_ci_exit_code r with
                   | Some z => (z =? 0)%Z || (z =? 1)%Z | None => true end)
    (ValueError "ci_exit_code") in
  let! _ := check ((0 <=? rr_score r) && (rr_score r <=? 120))%Z (ValueError "score") in
  let! _ := check (nonblank (rr_summary r)) (ValueError "value must not be empty") in
  _derive_governance_fields (with_timestamp (_normalize_timestamp (rr_timestamp r)) r).

Definition has_blocking_findings (r : ReviewReport) : bool := existsb is_blocking (rr_findings r).

(** * Scorer *)

Record ReviewScore := {
  sc_score : Z; sc_reward_delta : Z; sc_overall_verdict : verdict; sc_ci_exit_code : Z
}.

Record ReviewScoreModifiers := {
  zero_loc_violations : bool;
  zero_complexity_violations : bool;
  all_apis_have_icontract : bool;
  coverage_90_plus : bool;
  no_new_suppressions : bool
}.

Definition _bonus_points (m : ReviewScoreModifiers) : Z :=
  5 * (Z.b2z (zero_loc_violations m) + Z.b2z (zero_complexity_violations m)
       + Z.b2z (all_apis_have_icontract m) + Z.b2z (coverage_90_plus m)
       + Z.b2z (no_new_suppressions m)).

Definition _deduction_for_finding (simplification_score_neutral : bool) (f : ReviewFinding) : Z :=
  if bool_decide (rf_category f = AiBloat) then 0
  else if simplification_score_neutral
       && (bool_decide (rf_category f = Dry) || bool_decide (rf_category f = Kiss))
       && bool_decide (rf_confidence f = Some ConfHigh)
       && simplification_metadata_is_deterministic f then 0
  else if bool_decide (rf_severity f = SevError) && negb (rf_fixable f) then 15
  else if bool_decide (rf_severity f = SevError) && rf_fixable f then 5
  else if bool_decide (rf_severity f = SevWarning) then 2
  else 1.

Definition _determine_verdict (score : Z) (findings : list ReviewFinding) : verdict * Z :=
  if existsb is_blocking findings then (FAIL, 1%Z)
  else if (70 <=? score)%Z then (PASS, 0%Z)
  else if (50 <=? score)%Z then (PASS_WITH_ADVISORY, 0%Z)
  else (FAIL, 1%Z).

Definition sum_deductions (neutral : bool) (findings : list ReviewFinding) : Z :=
  foldr (λ f n, _deduction_for_finding neutral f + n)%Z 0%Z findings.

(** [kwargs.pop(name, False)] followed by [bool(...)] *)
Definition pop_flag (name : string) (kwargs : list (string * pyval)) : bool :=
  truthy (sget_default name (VBool false) kwargs).

Definition known_kwargs : list string :=
  ["zero_loc_violations"; "zero_complexity_violations"; "all_apis_have_icontract";
   "coverage_90_plus"; "no_new_suppressions"; "simplification_score_neutral"].

Definition score_review (findings : list ReviewFinding) (kwargs : list (string * pyval)) :
    result ReviewScore :=
  let modifiers :=
    {| zero_loc_violations := pop_flag "zero_loc_violations" kwargs;
       zero_complexity_violations := pop_flag "zero_complexity_violations" kwargs;
       all_apis_have_icontract := pop_flag "all_apis_have_icontract" kwargs;
       coverage_90_plus := pop_flag "coverage_90_plus" kwargs;
       no_new_suppressions := pop_flag "no_new_suppressions" kwargs |} in
  let neutral := pop_flag "simplification_score_neutral" kwargs in
  let rest := List.filter (λ k, negb (bool_decide (k ∈ known_kwargs))) (dict_keys kwargs) in
  let! _ := check (bool_decide (rest = []))
    (ValueError ("Unexpected keyword arguments: " +:+ join ", " (sorted rest))) in
  let raw := (100 - sum_deductions neutral findings + _bonus_points modifiers)%Z in
  let score := Z.max 0 (Z.min 120 raw) in
  let (overall_verdict, ci_exit_code) := _determine_verdict score findings in
  Ok {| sc_score := score; sc_reward_delta := score - 80;
        sc_overall_verdict := overall_verdict; sc_ci_exit_code := ci_exit_code |}.

(** * Assurance *)

Inductive enforcement16 := Full | Shadow.
#[export] Instance enforcement16_eq_dec : EqDecision enforcement16. Proof. solve_decision. Defined.
Definition parse_enforcement16 (s : string) : option enforcement16 :=
  if decide (s = "full") then Some Full else if decide (s = "shadow") then Some Shadow else None.

Record AssuranceProjection := {
  ap_assurance_status : assurance_status;
  ap_overall_verdict : verdict;
  ap_ci_exit_code : Z;
  ap_enforcement_mode : enforcement16
}.

Definition project_assurance_status (status enforcement : string) : result AssuranceProjection :=
  match parse_assurance status with
  | None => Err (ValueError ("Unsupported assurance status: " +:+ status))
  | Some typed_status =>
      match parse_enforcement16 enforcement with
      | None => Err (ValueError ("Unsupported schema 1.6 enforcement mode: " +:+ enforcement))
      | Some typed_enforcement =>
          let legacy := match typed_status with
                        | APass => PASS | ANotApplicable => PASS_WITH_ADVISORY | _ => FAIL
                        end in
          let exit_code := if bool_decide (typed_enforcement = Shadow) || accepted_status typed_status
                           then 0%Z else 1%Z in
          Ok {| ap_assurance_status := typed_status; ap_overall_verdict := legacy;
                ap_ci_exit_code := exit_code; ap_enforcement_mode := typed_enforcement |}
      end
  end.

Record AssuranceMemberEvidence := {
  ame_id : string;
  ame_outcome : option assurance_status;
  ame_diagnostic : option string;
  ame_base : option assurance_status;
  ame_head : option assurance_status;
  ame_disposition : option differential_state
}.

(** [AssuranceMemberEvidence.model_validate] on a [dict[str, str]]. *)
Definition validate_status_field (o : option string) : result (option assurance_status) :=
  match o with
  | None => Ok None
  | Some s => match parse_assurance s with
              | Some a => Ok (Some a) | None => Err (ValueError "literal_error") end
  end.
Definition validate_disposition (o : option string) : result (option differential_state) :=
  match o with
  | None => Ok None
  | Some s =>
      if decide (s = "fixed") then Ok (Some DsFixed)
      else if decide (s = "introduced") then Ok (Some DsIntroduced)
      else if decide (s = "unchanged") then Ok (Some DsUnchanged)
      else if decide (s = "unknown") then Ok (Some DsUnknown)
      else Err (ValueError "literal_error")
  end.
Definition validate_member (item : list (string * string)) : result AssuranceMemberEvidence :=
  let! id := (match dict_get "id" item with
              | Some s => Ok s | None => Err (ValueError "missing id") end) in
  let! outcome := validate_status_field (dict_get "outcome" item) in
  let! base := validate_status_field (dict_get "base" item) in
  let! head := validate_status_field (dict_get "head" item) in
  let! disposition := validate_disposition (dict_get "disposition" item) in
  Ok {| ame_id := id; ame_outcome := outcome; ame_diagnostic := dict_get "diagnostic" item;
        ame_base := base; ame_head := head; ame_disposition := disposition |}.

Definition member_is_unknown (m : AssuranceMemberEvidence) : bool :=
  bool_decide (ame_outcome m = Some AUnknown)
  || match ame_disposition m with Some DsUnknown => true | _ => false end.

Record AssuranceReport := {
  ar_schema_version : string;
  ar_assurance_status : assurance_status;
  ar_has_unknown_required_evidence : bool;
  ar_overall_verdict : verdict;
  ar_ci_exit_code : Z;
  ar_enforcement_mode : enforcement16;
  ar_member_evidence : list AssuranceMemberEvidence;
  ar_aggregate_blockers : list (list (string * string));
  ar_summary : string;
  ar_suppression_catalog_digest : option string
}.

Definition open_blocker (item : list (string * string)) : bool :=
  bool_decide (dict_get "status" item = Some "open").

Definition assurance_summary (derived : assurance_status) (has_unknown : bool) : string :=
  match derived with
  | APass => "All required validations passed."
  | AFail => "Open blocking findings remain."
             +:+ (if has_unknown then " Required evidence also remains unknown." else "")
  | ANotApplicable => "No governed impact is applicable to this review."
  | AUnknown => "Required validation evidence remains unknown."
  end.

Definition build_assurance_report (status : option string) (enforcement : string)
    (member_evidence valid_blockers : list (list (string * string)))
    (suppression_catalog_digest : option string) : result AssuranceReport :=
  let! members := map_res validate_member member_evidence in
  let has_unknown := existsb member_is_unknown members in
  let blockers := List.filter open_blocker valid_blockers in
  let derived := match status with
                 | None => if bool_decide (blockers ≠ []) then "FAIL"
                           else if has_unknown then "UNKNOWN" else "PASS"
                 | Some s => s
                 end in
  let! projection := project_assurance_status derived enforcement in
  Ok {| ar_schema_version := "1.6";
        ar_assurance_status := ap_assurance_status projection;
        ar_has_unknown_required_evidence := has_unknown;
        ar_overall_verdict := ap_overall_verdict projection;
        ar_ci_exit_code := ap_ci_exit_code projection;
        ar_enforcement_mode := ap_enforcement_mode projection;
        ar_member_evidence := members;
        ar_aggregate_blockers := blockers;
        ar_summary := assurance_summary (ap_assurance_status projection) has_unknown;
        ar_suppression_catalog_digest := suppression_catalog_digest |}.

(** * Reading a serialized report *)

Record ReviewReportReadResult := { rrr_status : assurance_status; rrr_ci_exit_code : Z }.

Definition statuses : list string := ["PASS"; "FAIL"; "UNKNOWN"; "NOT_APPLICABLE"].

(** The status a value denotes; only reached when it is one of the four. *)
Definition status_of (v : pyval) : assurance_status :=
  match v with VStr s => default AUnknown (parse_assurance s) | _ => AUnknown end.

Definition read_review_report `{PyRepr} (payload : list (string * pyval)) :
    result ReviewReportReadResult :=
  let schema_version := py_str (sget_default "schema_version" (VStr "") payload) in
  let raw_status := sget "assurance_status" payload in
  let! status :=
    (if schema_version_at_least schema_version 6 then
       let! known := in_set raw_status statuses in
       Ok (if known then status_of raw_status else AUnknown)
     else
       let! known := in_set raw_status statuses in
       if known then Ok (status_of raw_status)
       else
         let! legacy := in_set (sget "overall_verdict" payload) ["PASS"; "PASS_WITH_ADVISORY"] in
         Ok (if legacy then APass else AFail)) in
  let enforcement := py_str (sget_default "enforcement_mode" (VStr "full") payload) in
  let enforcement := if has_some (parse_enforcement16 enforcement) then enforcement else "full" in
  let! projection := project_assurance_status (assurance_text status) enforcement in
  Ok {| rrr_status := status; rrr_ci_exit_code := ap_ci_exit_code projection |}.

(** * Consumer matrix *)

Inductive matrix_status := MxPass | MxUnknown.
Record ConsumerMatrixValidation := {
  cmv_status : matrix_status;
  cmv_exercised_statuses : list string;
  cmv_reason : string
}.

Definition _unknown_matrix (reason : string) : ConsumerMatrixValidation :=
  {| cmv_status := MxUnknown; cmv_exercised_statuses := []; cmv_reason := reason |}.

(** Equality of a value with an [int]: booleans and integral floats compare
    as numbers. *)
Definition float_is_int (f : spec_float) (z : Z) : bool :=
  match f with
  | S754_zero _ => (z =? 0)%Z
  | S754_finite s m e =>
      let sm := if s then (- Zpos m)%Z else Zpos m in
      if (0 <=? e)%Z then (sm * 2 ^ e =? z)%Z else (sm =? z * 2 ^ (- e))%Z
  | _ => false
  end.
Definition eq_int (v : pyval) (z : Z) : bool :=
  match v with
  | VInt z' => (z' =? z)%Z
  | VBool b => (Z.b2z b =? z)%Z
  | VFloat f => float_is_int f z
  | _ => false
  end.

(** [set(values) == names] for a set [names] of strings. *)
Definition set_is (values : list pyval) (names : list string) : bool :=
  forallb (λ v, match v with VStr s => bool_decide (s ∈ names) | _ => false end) values
  && forallb (λ s, bool_decide (VStr s ∈ values)) names.

Definition binding_names : list string :=
  ["checkpoint"; "resource"; "package"; "profile"; "report"; "static_envelope"].

Definition _validate_matrix_catalog_identity (matrix : list (pyval * pyval)) (expected_digest : string) :
    option string :=
  match vget "accepted_pr_range_envelope" matrix with
  | VDict envelope =>
      if negb (is_str expected_digest (vget "suppression_catalog_digest" envelope))
      then Some "suppression_catalog_identity_mismatch"
      else match vget "suppression_catalog_identity_bindings" matrix with
           | VDict bindings =>
               if negb (set_is (dict_keys bindings) binding_names)
               then Some "consumer_matrix_identity_bindings_invalid"
               else if existsb (λ name, negb (is_str expected_digest (vget name bindings))) binding_names
               then Some "suppression_catalog_identity_mismatch"
               else None
           | _ => Some "consumer_matrix_identity_bindings_invalid"
           end
  | _ => Some "suppression_catalog_identity_mismatch"
  end.

Definition _validated_matrix_status (report : pyval) (expected_digest : string) : string * option string :=
  match report with
  | VDict report =>
      match vget "assurance_status" report with
      | VStr status =>
          match project_assurance_status status "full" with
          | Err _ => ("", Some "consumer_matrix_status_reports_invalid")
          | Ok projection =>
              if is_str (verdict_text (ap_overall_verdict projection)) (vget "overall_verdict" report)
                 && eq_int (vget "ci_exit_code" report) (ap_ci_exit_code projection)
                 && is_str expected_digest (vget "suppression_catalog_digest" report)
              then (status, None)
              else ("", Some "consumer_matrix_status_projection_mismatch")
          end
      | _ => ("", Some "consumer_matrix_status_reports_invalid")
      end
  | _ => ("", Some "consumer_matrix_status_reports_invalid")
  end.

Fixpoint matrix_statuses_loop (reports : list pyval) (expected_digest : string)
    (acc : gset string) : gset string * option string :=
  match reports with
  | [] => (acc, None)
  | report :: rest =>
      match _validated_matrix_status report expected_digest with
      | (_, Some reason) => (∅, Some reason)
      | (status, None) => matrix_statuses_loop rest expected_digest ({[status]} ∪ acc)
      end
  end.

Definition _validated_matrix_statuses (matrix : list (pyval * pyval)) (expected_digest : string) :
    gset string * option string :=
  match vget "canonical_status_reports" matrix with
  | VList reports =>
      match matrix_statuses_loop reports expected_digest ∅ with
      | (_, Some reason) => (∅, Some reason)
      | (found, None) =>
          if bool_decide (found = list_to_set statuses) then (found, None)
          else (∅, Some "consumer_matrix_status_set_invalid")
      end
  | _ => (∅, Some "consumer_matrix_status_reports_invalid")
  end.

(** A set comprehension over the dict members of a list: hashing raises on
    an unhashable value. *)
Definition _matrix_case_values (matrix : list (pyval * pyval)) (key value_key : string) :
    result (option (list pyval)) :=
  match vget key matrix with
  | VList cases =>
      let values := omap (λ c, match c with VDict d => Some (vget value_key d) | _ => None end) cases in
      let! _ := check (forallb hashable values) (TypeError "unhashable type") in
      Ok (Some values)
  | _ => Ok None
  end.

Definition expected_boundaries : list string :=
  ["accepted"; "analyzer_profile"; "merge_base"; "producer_identity"; "project_runtime";
   "schema"; "suppression_catalog"].

Definition case_values_are (values : option (list pyval)) (names : list string) : bool :=
  match values with Some vs => set_is vs names | None => false end.

(** [catalog_digest] is [_packaged_suppression_catalog_digest()]: the digest
    of the packaged resource file, [None] when it cannot be read. *)
Definition validate_consumer_matrix (catalog_digest : option string) (matrix : pyval) :
    result ConsumerMatrixValidation :=
  match matrix with
  | VDict matrix =>
      match catalog_digest with
      | None => Ok (_unknown_matrix "suppression_catalog_resource_unavailable")
      | Some digest =>
          match _validate_matrix_catalog_identity matrix digest with
          | Some reason => Ok (_unknown_matrix reason)
          | None =>
              match _validated_matrix_statuses matrix digest with
              | (_, Some reason) => Ok (_unknown_matrix reason)
              | (found, None) =>
                  let! multiset := _matrix_case_values matrix "finding_multiset_cases" "disposition" in
                  if negb (case_values_are multiset ["fixed"; "introduced"; "unchanged"; "unknown"])
                  then Ok (_unknown_matrix "consumer_matrix_finding_multiset_invalid") else
                  let! runtime := _matrix_case_values matrix "project_runtime_cases" "expected_status" in
                  if negb (case_values_are runtime ["PASS"; "UNKNOWN"])
                  then Ok (_unknown_matrix "consumer_matrix_project_runtime_invalid") else
                  let! boundary := _matrix_case_values matrix "pr_range_boundary_cases" "dimension" in
                  if negb (case_values_are boundary expected_boundaries)
                  then Ok (_unknown_matrix "consumer_matrix_pr_range_boundaries_invalid") else
                  Ok {| cmv_status := MxPass; cmv_exercised_statuses := sorted_set found;
                        cmv_reason := "" |}
              end
          end
      end
  | _ => Ok (_unknown_matrix "consumer_matrix_invalid")
  end.
