(* ===== verification/FindingsProofs.v ===== *)
(** FindingsProofs: the theorems of the review evidence model and the
    scorer, with the sample values their witnesses use. *)

From S2P Require Import Prelude Text Dict PyValue Findings.

(** * Samples *)

Definition sample_finding (sev : severity) (fixable : bool) : ReviewFinding :=
  {| rf_category := Style; rf_severity := sev; rf_tool := "ruff"; rf_rule := "E501";
     rf_file := "a.py"; rf_line := 3; rf_message := "line too long"; rf_fixable := fixable;
     rf_status := StOpen; rf_differential_state := None; rf_autofix_available := None;
     rf_blocking := None; rf_execution_state := None; rf_evidence_outcome := None;
     rf_evidence_refs := None; rf_confidence := None; rf_rewrite_hint := None;
     rf_canonical_pattern := None; rf_intent_key := None; rf_estimated_deletion_lines := None;
     rf_related_locations := None; rf_guidance_kind := None; rf_recommended_action := None;
     rf_clean_code_principle := None; rf_rationale := None; rf_safety_checks := None;
     rf_preserve_reason := None; rf_action_status := None; rf_before_ref := None;
     rf_after_ref := None; rf_improvement := None; rf_signal_trace := None;
     rf_preserve_reasons := None; rf_remediation_packet := None |}.

Definition blocking_finding : ReviewFinding :=
  with_lifecycle (Some false) (Some true) (sample_finding SevError false).

Definition sample_report (status : option assurance_status)
    (evidence : option (list evidence_item)) : ReviewReport :=
  {| rr_schema_version := "1.6"; rr_run_id := "run-1";
     rr_timestamp := {| dt_wall_us := 0; dt_utcoffset_us := None |};
     rr_overall_verdict := None; rr_ci_exit_code := None; rr_assurance_status := status;
     rr_has_unknown_required_evidence := None; rr_scope_evidence := None;
     rr_analyzer_evidence := evidence; rr_suppression_catalog_digest := None; rr_score := 90;
     rr_reward_delta := None; rr_findings := []; rr_summary := "ok";
     rr_simplification_summary := None; rr_cleanup_forecast := None;
     rr_enforcement_mode := None; rr_enforcement_summary := None;
     rr_requirements_evidence := None; rr_house_rules_updates := [] |}.

Definition full_profile : list evidence_item :=
  (λ a, [("id", VStr a); ("evidence_outcome", VStr "PASS")]) <$> PR_RANGE_ANALYZERS.

#[local] Instance sample_repr : PyRepr := λ _, "<repr>".

(** * Scorer *)

Lemma deduction_nonneg n f : (0 ≤ _deduction_for_finding n f)%Z.
Proof. unfold _deduction_for_finding. repeat case_match; lia. Qed.

Lemma bonus_bounds m : (0 ≤ _bonus_points m ≤ 25)%Z.
Proof.
  unfold _bonus_points.
  destruct m as [[] [] [] [] []]; simpl; lia.
Qed.

Lemma sum_deductions_perm n l1 l2 : l1 ≡ₚ l2 → sum_deductions n l1 = sum_deductions n l2.
Proof. induction 1; simpl; lia. Qed.

Lemma sum_deductions_app n l1 l2 :
  sum_deductions n (l1 ++ l2) = (sum_deductions n l1 + sum_deductions n l2)%Z.
Proof. induction l1; simpl; lia. Qed.

Lemma sum_deductions_nonneg n l : (0 ≤ sum_deductions n l)%Z.
Proof. induction l as [|f l]; simpl; [lia|]. pose proof (deduction_nonneg n f). lia. Qed.

Lemma sum_deductions_submseteq n l1 l2 :
  l1 ⊆+ l2 → (sum_deductions n l1 ≤ sum_deductions n l2)%Z.
Proof.
  intros [k Hk]%submseteq_Permutation.
  rewrite (sum_deductions_perm n _ _ Hk), sum_deductions_app.
  pose proof (sum_deductions_nonneg n k). lia.
Qed.

Lemma existsb_elem {A} (p : A → bool) l : existsb p l = true ↔ ∃ x, x ∈ l ∧ p x = true.
Proof. rewrite existsb_exists. by setoid_rewrite <-list_elem_of_In. Qed.

Lemma existsb_submseteq {A} (p : A → bool) l1 l2 :
  l1 ⊆+ l2 → existsb p l1 = true → existsb p l2 = true.
Proof.
  intros Hs. rewrite !existsb_elem. intros (x & Hx & Hp).
  exists x. split; [|done]. by eapply elem_of_submseteq.
Qed.

(** The scorer's verdict as a function of blocking findings and the score. *)
Lemma determine_verdict_spec score fs v e :
  _determine_verdict score fs = (v, e) →
  (e = 0 ∨ e = 1)%Z ∧
  (e = 1%Z ↔ existsb is_blocking fs = true ∨ (score < 50)%Z) ∧
  (v = FAIL ↔ e = 1%Z) ∧
  (v = PASS ↔ existsb is_blocking fs = false ∧ (70 ≤ score)%Z).
Proof.
  unfold _determine_verdict.
  destruct (existsb is_blocking fs), (Z.leb_spec 70 score), (Z.leb_spec 50 score);
    intros; simplify_eq/=; intuition (done || lia).
Qed.

Lemma score_review_inv fs kw sc :
  score_review fs kw = Ok sc →
  let neutral := pop_flag "simplification_score_neutral" kw in
  ∃ bonus, (0 ≤ bonus ≤ 25)%Z ∧
  sc_score sc = Z.max 0 (Z.min 120 (100 - sum_deductions neutral fs + bonus)) ∧
  sc_reward_delta sc = (sc_score sc - 80)%Z ∧
  _determine_verdict (sc_score sc) fs = (sc_overall_verdict sc, sc_ci_exit_code sc).
Proof.
  unfold score_review. intros H. res_inv.
  simplify_eq/=. eexists. split; [apply bonus_bounds|]. eauto.
Qed.

(** [score_review] (run/scorer.py): every score it returns lies in 0..120
    and the reward is the score minus 80; the CI exit code is 1 exactly when a
    finding blocks or the score is below 50, the verdict is FAIL exactly then,
    and PASS exactly when nothing blocks and the score is at least 70. *)
Theorem score_review_verdict fs kw sc :
  score_review fs kw = Ok sc →
  (0 ≤ sc_score sc ≤ 120)%Z ∧ sc_reward_delta sc = (sc_score sc - 80)%Z ∧
  (sc_ci_exit_code sc = 1%Z ↔ existsb is_blocking fs = true ∨ (sc_score sc < 50)%Z) ∧
  (sc_overall_verdict sc = FAIL ↔ sc_ci_exit_code sc = 1%Z) ∧
  (sc_overall_verdict sc = PASS ↔ existsb is_blocking fs = false ∧ (70 ≤ sc_score sc)%Z).
Proof.
  intros (b & Hb & Hs & Hr & Hv)%score_review_inv.
  apply determine_verdict_spec in Hv as (_ & ? & ? & ?). split_and!; auto; lia.
Qed.

Lemma score_review_verdict_witness :
  ∃ sc, score_review [blocking_finding; sample_finding SevWarning true] [] = Ok sc ∧
    sc_ci_exit_code sc = 1%Z ∧ sc_score sc = 83%Z.
Proof.
  eexists. split; [reflexivity|]. split; [|reflexivity].
  destruct (score_review_verdict [blocking_finding; sample_finding SevWarning true] [] _ eq_refl)
    as (_ & _ & Hexit & _).
  apply Hexit. left. reflexivity.
Defined.

(** [score_review]: with the same keyword arguments, a review with more
    findings (as multisets, so in any order) never scores higher and never
    turns a failing CI exit code into a passing one. *)
Theorem score_review_monotone fs1 fs2 kw sc1 sc2 :
  fs1 ⊆+ fs2 → score_review fs1 kw = Ok sc1 → score_review fs2 kw = Ok sc2 →
  (sc_score sc2 ≤ sc_score sc1)%Z ∧ (sc_ci_exit_code sc1 ≤ sc_ci_exit_code sc2)%Z.
Proof.
  intros Hs H1 H2. assert (sc_score sc2 ≤ sc_score sc1)%Z as Hle.
  { unfold score_review in H1, H2. res_inv.
    simplify_eq/=.
    pose proof (sum_deductions_submseteq
      (pop_flag "simplification_score_neutral" kw) _ _ Hs). lia. }
  split; [done|].
  apply score_review_inv in H1 as (_ & _ & _ & _ & Hv1).
  apply score_review_inv in H2 as (_ & _ & _ & _ & Hv2).
  apply determine_verdict_spec in Hv1 as ([E1|E1] & D1 & _);
    apply determine_verdict_spec in Hv2 as ([E2|E2] & D2 & _); try lia.
  assert (sc_ci_exit_code sc2 = 1%Z); [|lia]. apply D2.
  destruct (proj1 D1 E1); [left; by eapply existsb_submseteq|right; lia].
Qed.

Lemma score_review_monotone_witness :
  ∃ sc1 sc2, score_review [sample_finding SevInfo false] [] = Ok sc1 ∧
    score_review [blocking_finding; sample_finding SevInfo false] [] = Ok sc2 ∧
    (sc_score sc2 ≤ sc_score sc1)%Z ∧ (sc_ci_exit_code sc1 ≤ sc_ci_exit_code sc2)%Z.
Proof.
  do 2 eexists. split; [reflexivity|]. split; [reflexivity|].
  apply (score_review_monotone [sample_finding SevInfo false]
    [blocking_finding; sample_finding SevInfo false] []); [|reflexivity|reflexivity].
  apply submseteq_cons. reflexivity.
Defined.

(** * Finding validation *)

(** What a validated finding guarantees: the lifecycle fields are the derived
    ones and the guidance metadata is complete or absent. *)
Definition finding_wf (f : ReviewFinding) : Prop :=
  (1 ≤ rf_line f)%Z ∧
  rf_autofix_available f = Some (rf_fixable f) ∧
  (is_blocking f = true ↔ rf_severity f = SevError ∧ rf_status f = StOpen) ∧
  (rf_guidance_kind f = None →
     rf_recommended_action f = None ∧ rf_clean_code_principle f = None ∧
     rf_rationale f = None ∧ rf_safety_checks f = None ∧ rf_action_status f = None ∧
     rf_preserve_reason f = None) ∧
  (is_Some (rf_guidance_kind f) →
     is_Some (rf_recommended_action f) ∧ is_Some (rf_clean_code_principle f) ∧
     is_Some (rf_rationale f) ∧ ∃ c cs, rf_safety_checks f = Some (c :: cs)) ∧
  (rf_guidance_kind f = Some Preserve → is_Some (rf_preserve_reason f)).

Lemma has_some_true {A} (o : option A) : has_some o = true ↔ is_Some o.
Proof. destruct o; split; (done || by intros []). Qed.

Lemma has_some_false {A} (o : option A) : has_some o = false ↔ o = None.
Proof. by destruct o. Qed.

Lemma guided_metadata_id f g : _validate_guided_metadata f = Ok g → g = f.
Proof. unfold _validate_guided_metadata. case_match; intros; res_inv; congruence. Qed.

Lemma guided_metadata_ok f : _validate_guided_metadata f = Ok f →
  (rf_guidance_kind f = None →
     rf_recommended_action f = None ∧ rf_clean_code_principle f = None ∧
     rf_rationale f = None ∧ rf_safety_checks f = None ∧ rf_action_status f = None ∧
     rf_preserve_reason f = None) ∧
  (is_Some (rf_guidance_kind f) →
     is_Some (rf_recommended_action f) ∧ is_Some (rf_clean_code_principle f) ∧
     is_Some (rf_rationale f) ∧ is_Some (rf_safety_checks f)) ∧
  (rf_guidance_kind f = Some Preserve → is_Some (rf_preserve_reason f)).
Proof.
  unfold _validate_guided_metadata. destruct (rf_guidance_kind f) as [k|]; intros; res_inv.
  - rewrite !has_some_true in *. split_and!; try done. intros [= ->].
    destruct (rf_preserve_reason f); [by eexists|done].
  - bool_hyps. rewrite !has_some_false in *.
    split_and!; try done; by intros [].
Qed.

Lemma validate_finding_inv f g : validate_ReviewFinding f = Ok g →
  (1 ≤ rf_line f)%Z ∧ ReviewFinding_validate_safety_checks (rf_safety_checks f) = true ∧
  _validate_guided_metadata f = Ok f ∧ _derive_c14_lifecycle_fields f = Ok g.
Proof.
  unfold validate_ReviewFinding. intros H. res_inv.
  match goal with E : _validate_guided_metadata f = Ok _ |- _ =>
    pose proof (guided_metadata_id _ _ E); subst end.
  match goal with E : validate_ReviewFinding_fields f = _ |- _ =>
    unfold validate_ReviewFinding_fields in E end.
  res_inv. bool_hyps. auto.
Qed.

Lemma fields_with_lifecycle a b f :
  validate_ReviewFinding_fields (with_lifecycle a b f) = validate_ReviewFinding_fields f.
Proof. reflexivity. Qed.

Lemma guided_with_lifecycle a b f :
  _validate_guided_metadata f = Ok f →
  _validate_guided_metadata (with_lifecycle a b f) = Ok (with_lifecycle a b f).
Proof.
  unfold _validate_guided_metadata. simpl. case_match; intros; res_inv;
    by repeat match goal with E : ?b = true |- context [check ?b _] => rewrite E; simpl end.
Qed.

Lemma lifecycle_fields_inv f g : _derive_c14_lifecycle_fields f = Ok g →
  g = with_lifecycle (Some (rf_fixable f)) (Some (expected_blocking f)) f.
Proof. unfold _derive_c14_lifecycle_fields. intros. res_inv. done. Qed.

(** Validating once more accepts the same value: every check reads fields
    the first validation left alone or set to the value it requires. *)
Lemma validate_finding_idem f g :
  validate_ReviewFinding f = Ok g → validate_ReviewFinding g = Ok g.
Proof.
  intros H. pose proof (validate_finding_inv _ _ H) as (_ & _ & _ & ->%lifecycle_fields_inv).
  pose proof (validate_finding_inv _ _ H) as (_ & _ & Hg & _).
  unfold validate_ReviewFinding in *. rewrite fields_with_lifecycle.
  destruct (validate_ReviewFinding_fields f); [|done]. simpl.
  rewrite guided_with_lifecycle by done. simpl.
  unfold _derive_c14_lifecycle_fields. simpl. by rewrite !Bool.eqb_reflx.
Qed.

(** [ReviewFinding] validation (run/findings.py): an accepted finding has
    the derived lifecycle (autofix mirrors fixable, blocking exactly for an
    open error), complete guidance metadata when a guidance kind is set and
    none otherwise, its other fields are untouched, and validating it again
    returns it unchanged. *)
Theorem validate_finding_wf f g :
  validate_ReviewFinding f = Ok g →
  finding_wf g ∧ g = with_lifecycle (rf_autofix_available g) (rf_blocking g) f ∧
  validate_ReviewFinding g = Ok g.
Proof.
  intros H. pose proof (validate_finding_idem _ _ H) as Hidem.
  apply validate_finding_inv in H as (Hline & Hchecks & Hguided & ->%lifecycle_fields_inv).
  apply guided_metadata_ok in Hguided as (Hno & Hyes & Hpres).
  split_and!; [|done|done]. unfold finding_wf, is_blocking; simpl. split_and!; try done.
  - unfold expected_blocking. rewrite andb_true_iff, !bool_decide_eq_true. done.
  - intros (? & ? & ? & [l Hl])%Hyes. rewrite Hl in *. simpl in Hchecks. bool_hyps.
    destruct l; naive_solver.
Qed.

Lemma validate_finding_wf_witness :
  ∃ g, validate_ReviewFinding (sample_finding SevError true) = Ok g ∧
    validate_ReviewFinding g = Ok g ∧ is_blocking g = true.
Proof.
  eexists. split; [reflexivity|].
  destruct (validate_finding_wf (sample_finding SevError true) _ eq_refl) as (_ & _ & Hi).
  split; [exact Hi|reflexivity].
Defined.

(** * Report governance *)

Section governance.
Context `{PyRepr}.

(** The analyzer evidence proves the whole PR-range profile. *)
Definition complete_profile (evidence : option (list evidence_item)) : Prop :=
  let items := default [] evidence in
  let ids := (λ item, py_str (sget_default "id" (VStr "") item)) <$> items in
  ids ≡ₚ PR_RANGE_ANALYZERS ∧
  ∀ item, item ∈ items →
    sget "evidence_outcome" item = VStr "PASS" ∨
    sget "evidence_outcome" item = VStr "NOT_APPLICABLE".

Lemma same_set_same_length_perm (l k : list string) :
  NoDup k → length l = length k →
  list_to_set l =@{gset string} list_to_set k → l ≡ₚ k.
Proof.
  intros Hk Hlen Hset. symmetry.
  assert (k ⊆+ l) as [k' Hp]%submseteq_Permutation.
  { apply NoDup_submseteq; [done|]. intros x Hx.
    apply (elem_of_list_to_set (C:=gset string)). rewrite Hset.
    by apply elem_of_list_to_set. }
  assert (k' = []) as ->; [|by rewrite Hp, app_nil_r].
  apply nil_length_inv. apply Permutation_length in Hp. rewrite length_app in Hp. lia.
Qed.

Lemma passing_profile_complete evidence :
  _passing_pr_range_analyzer_profile evidence = Ok true → complete_profile evidence.
Proof.
  unfold _passing_pr_range_analyzer_profile, complete_profile.
  set (items := default [] evidence). intros Hp. case_match eqn:E; [|done].
  bool_hyps. apply all_res_true in Hp. split.
  - apply same_set_same_length_perm; [|by apply Nat.eqb_eq|done].
    apply (bool_decide_unpack _). vm_compute. done.
  - rewrite Forall_forall in Hp. intros item Hi%Hp%in_set_true.
    destruct Hi as (t & -> & Ht). unfold PASSING_ANALYZER_OUTCOMES in Ht.
    set_unfold in Ht. naive_solver.
Qed.

Lemma accepted_status_true s : accepted_status s = true ↔ s = APass ∨ s = ANotApplicable.
Proof. destruct s; naive_solver. Qed.

Lemma authoritative_inv r version s u v e :
  _derive_authoritative_governance r version = Ok (Some (s, u, v, e)) →
  (s = APass ∨ s = ANotApplicable → u = false ∧ rr_assurance_status r = Some s ∧
     (s = APass → complete_profile (rr_analyzer_evidence r)) ∧
     _has_required_unknown_evidence (rr_analyzer_evidence r) = false ∧
     _has_untrusted_analyzer_outcome (rr_analyzer_evidence r) = Ok false ∧
     rr_has_unknown_required_evidence r ≠ Some true) ∧
  v = authoritative_verdict s (rr_findings r) ∧
  (e = 0%Z ↔ rr_enforcement_mode r = Some EmShadow ∨ s = APass ∨ s = ANotApplicable) ∧
  (e = 0 ∨ e = 1)%Z.
Proof.
  unfold _derive_authoritative_governance.
  destruct (rr_assurance_status r) as [status|]; [|done].
  case_match; [|done]. intros Hd. res_inv. simplify_eq/=.
  rename x into incomplete. split_and!; try done.
  - intros Hs.
    assert (u = false) as -> by (destruct u, status; naive_solver).
    simpl in *. split; [done|]. split; [done|].
    case_match eqn:E1; [done|]. res_inv. bool_hyps. subst.
    split_and!; [|done|congruence|done].
    intros ->. rewrite bool_decide_eq_true_2 in * by done. res_inv.
    apply passing_profile_complete. by destruct x.
  - rewrite <-accepted_status_true.
    destruct (accepted_status _), (decide (rr_enforcement_mode r = Some EmShadow)) as [E|E];
      rewrite ?(bool_decide_eq_true_2 _ E), ?(bool_decide_eq_false_2 _ E);
      simpl; split; naive_solver.
  - case (bool_decide (rr_enforcement_mode r = Some EmShadow) || _); auto.
Qed.

Lemma derive_governance_inv r r' :
  _derive_governance_fields r = Ok r' →
  ∃ version summary auth v e s u, version = _schema_version r summary ∧
  summary = match rr_simplification_summary r with
            | None => _build_simplification_summary (rr_findings r) | s => s end ∧
  _derive_authoritative_governance r version = Ok auth ∧
  r' = with_governance r
    {| g_schema_version := version; g_overall_verdict := v; g_ci_exit_code := e;
       g_assurance_status := s; g_has_unknown := u;
       g_reward_delta := Some (rr_score r - 80)%Z; g_simplification_summary := summary |} ∧
  match auth with
  | Some (s0, u0, v0, e0) => s = Some s0 ∧ u = Some u0 ∧ v = Some v0 ∧ e = Some e0
  | None =>
      s = rr_assurance_status r ∧ u = rr_has_unknown_required_evidence r ∧
      if _has_explicit_legacy_governance r
      then v = rr_overall_verdict r ∧ e = rr_ci_exit_code r
      else ∃ v0 e0, _derive_score_governance (rr_score r) (rr_findings r) = (v0, e0) ∧
           v = Some v0 ∧ e = Some e0
  end.
Proof.
  unfold _derive_governance_fields. intros Hd. res_inv.
  match goal with E : _derive_authoritative_governance r _ = Ok ?a |- _ =>
    destruct a as [[[[s u] v] e]|] eqn:Ea;
      [|destruct (_has_explicit_legacy_governance r) eqn:Hleg;
        [|destruct (_derive_score_governance _ _) as [v e]]];
    do 2 eexists; eexists; do 4 eexists;
    (split; [reflexivity|]; split; [reflexivity|]; split; [exact E|])
  end; res_inv; (split; [by symmetry|]); rewrite ?Hleg; eauto 10.
Qed.

Lemma authoritative_none r version :
  _derive_authoritative_governance r version = Ok None ↔
  schema_version_at_least version 6 = false ∨ rr_assurance_status r = None.
Proof.
  unfold _derive_authoritative_governance. split.
  - case_match; [|by auto]. case_match; [|by auto]. intros Hd. res_inv. done.
  - intros [Hv|Hs]; [|by rewrite Hs]. case_match; [|done]. by rewrite Hv.
Qed.
End governance.

Lemma validate_report_inv `{PyRepr} r r' : validate_ReviewReport r = Ok r' →
  _derive_governance_fields (with_timestamp (_normalize_timestamp (rr_timestamp r)) r) = Ok r'.
Proof. unfold validate_ReviewReport. intros. res_inv. done. Qed.

Lemma with_timestamp_fields t r :
  let r1 := with_timestamp t r in
  rr_findings r1 = rr_findings r ∧ rr_analyzer_evidence r1 = rr_analyzer_evidence r ∧
  rr_enforcement_mode r1 = rr_enforcement_mode r ∧ rr_score r1 = rr_score r ∧
  rr_assurance_status r1 = rr_assurance_status r ∧
  rr_has_unknown_required_evidence r1 = rr_has_unknown_required_evidence r ∧
  rr_overall_verdict r1 = rr_overall_verdict r ∧ rr_ci_exit_code r1 = rr_ci_exit_code r.
Proof. by destruct r. Qed.

(** What validation keeps and what it derives *)
Lemma validated_fields `{PyRepr} r r' : validate_ReviewReport r = Ok r' →
  rr_findings r' = rr_findings r ∧ rr_enforcement_mode r' = rr_enforcement_mode r ∧
  rr_analyzer_evidence r' = rr_analyzer_evidence r ∧ rr_score r' = rr_score r ∧
  rr_run_id r' = rr_run_id r ∧ rr_scope_evidence r' = rr_scope_evidence r.
Proof.
  intros (version & summary & auth & v & e & s & u & _ & _ & _ & -> & _)%validate_report_inv%derive_governance_inv.
  by destruct r.
Qed.
Lemma validated_exit_some `{PyRepr} r r' : validate_ReviewReport r = Ok r' →
  is_Some (rr_ci_exit_code r') ∧ is_Some (rr_overall_verdict r').
Proof.
  intros (version & summary & auth & v & e & s & u & _ & _ & _ & -> & Hf)%validate_report_inv%derive_governance_inv.
  simpl. destruct auth as [[[[s0 u0] v0] e0]|]; [by destruct Hf as (_ & _ & -> & ->)|].
  destruct Hf as (_ & _ & Hf). destruct (_has_explicit_legacy_governance _) eqn:El.
  - unfold _has_explicit_legacy_governance in El. bool_hyps. destruct Hf as [-> ->].
    by rewrite <-!has_some_true.
  - destruct Hf as (v0 & e0 & _ & -> & ->). eauto.
Qed.
(** An accepted status of a validated report with schema 1.6 is one that
    exits with 0. *)
Lemma validated_accepted_exit `{PyRepr} r r' s :
  validate_ReviewReport r = Ok r' → schema_version_at_least (rr_schema_version r') 6 = true →
  rr_assurance_status r' = Some s → s = APass ∨ s = ANotApplicable → rr_ci_exit_code r' = Some 0%Z.
Proof.
  intros (version & summary & auth & v & e & s' & u & _ & _ & Hauth & -> & Hf)%validate_report_inv%derive_governance_inv.
  simpl. intros Hv -> Hs. destruct auth as [[[[s0 u0] v0] e0]|].
  - destruct Hf as (Hs0 & _ & _ & ->). injection Hs0 as <-.
    apply authoritative_inv in Hauth as (_ & _ & He & _). f_equal. apply He. naive_solver.
  - apply authoritative_none in Hauth as [?|Hn]; [congruence|]. destruct Hf as (Hf & _). congruence.
Qed.
(** An explicit verdict of a report without an assurance status is kept. *)
Lemma validated_explicit `{PyRepr} r r' :
  validate_ReviewReport r = Ok r' → rr_assurance_status r = None →
  is_Some (rr_enforcement_mode r) → is_Some (rr_overall_verdict r) → is_Some (rr_ci_exit_code r) →
  rr_overall_verdict r' = rr_overall_verdict r ∧ rr_ci_exit_code r' = rr_ci_exit_code r ∧
  rr_assurance_status r' = None.
Proof.
  intros (version & summary & auth & v & e & s & u & _ & _ & Hauth & -> & Hf)%validate_report_inv%derive_governance_inv.
  pose proof (with_timestamp_fields (_normalize_timestamp (rr_timestamp r)) r)
    as (_ & _ & Hem & _ & Hst & _ & Hv & Hx). intros Hs [m Hm] [w Hw] [x Hxx]. simpl.
  destruct auth as [[[[s0 u0] v0] e0]|].
  { unfold _derive_authoritative_governance in Hauth. rewrite Hst, Hs in Hauth. done. }
  destruct Hf as (-> & _ & Hf). unfold _has_explicit_legacy_governance in Hf.
  rewrite Hem, Hv, Hx, Hm, Hw, Hxx in Hf. cbn in Hf. destruct Hf as [-> ->]. rewrite Hst. auto.
Qed.
Lemma validated_zero_exit `{PyRepr} r r' :
  validate_ReviewReport r = Ok r' →
  schema_version_at_least (rr_schema_version r') 6 = true →
  is_Some (rr_assurance_status r') →
  rr_ci_exit_code r' = Some 0%Z → rr_enforcement_mode r' ≠ Some EmShadow →
  ∃ s, rr_assurance_status r' = Some s ∧ rr_assurance_status r = Some s ∧
    (s = APass ∨ s = ANotApplicable) ∧
    (s = APass → complete_profile (rr_analyzer_evidence r)) ∧
    _has_required_unknown_evidence (rr_analyzer_evidence r) = false ∧
    _has_untrusted_analyzer_outcome (rr_analyzer_evidence r) = Ok false ∧
    rr_has_unknown_required_evidence r ≠ Some true ∧
    (rr_overall_verdict r' = Some PASS ↔ s = APass ∧ rr_findings r = []).
Proof.
  intros Hv%validate_report_inv.
  pose proof (with_timestamp_fields (_normalize_timestamp (rr_timestamp r)) r) as Hts.
  revert Hv Hts. generalize (with_timestamp (_normalize_timestamp (rr_timestamp r)) r).
  intros r1 (version & summary & auth & v & e & s & u & _ & _ & Hauth & -> & Hfields)%derive_governance_inv
    (Hfs & Hev & Hem & _ & Hst & Hun & _ & _) Hver Hsome Hexit Hmode. simpl in *.
  destruct auth as [[[[s0 u0] v0] e0]|].
  - destruct Hfields as (-> & -> & -> & ->).
    apply authoritative_inv in Hauth as (Hpass & -> & Hzero & _).
    assert (e0 = 0%Z) as -> by congruence.
    destruct (proj1 Hzero eq_refl) as [?|Hacc]; [done|].
    destruct (Hpass Hacc) as (_ & ? & ? & ? & ? & ?).
    exists s0. split_and!; try congruence; try done.
    + by rewrite <-Hev.
    + rewrite Hfs. unfold authoritative_verdict.
      destruct (rr_findings r), Hacc as [-> | ->]; simpl; by split; intros; destruct_and?.
  - apply authoritative_none in Hauth as [?|?]; [congruence|].
    destruct Hfields as (-> & _). destruct Hsome. congruence.
Qed.

(** C1 [ReviewReport] governance (run/findings.py) fails closed: in a
    validated report with schema at least 1.6 and an assurance status, an exit
    code of 0 outside shadow mode means the status is PASS or NOT_APPLICABLE as
    submitted, no required evidence is unknown or untrusted, and for PASS the
    analyzer evidence lists exactly the ten profile analyzers, each once, with
    a passing outcome; the verdict is PASS only without findings. *)
Theorem report_fails_closed `{PyRepr} r r' :
  validate_ReviewReport r = Ok r' →
  schema_version_at_least (rr_schema_version r') 6 = true →
  is_Some (rr_assurance_status r') →
  rr_ci_exit_code r' = Some 0%Z → rr_enforcement_mode r' ≠ Some EmShadow →
  ∃ s, rr_assurance_status r' = Some s ∧ rr_assurance_status r = Some s ∧
    (s = APass ∨ s = ANotApplicable) ∧
    (s = APass → complete_profile (rr_analyzer_evidence r)) ∧
    _has_required_unknown_evidence (rr_analyzer_evidence r) = false ∧
    _has_untrusted_analyzer_outcome (rr_analyzer_evidence r) = Ok false ∧
    rr_has_unknown_required_evidence r ≠ Some true ∧
    (rr_overall_verdict r' = Some PASS ↔ s = APass ∧ rr_findings r = []).
Proof. apply validated_zero_exit. Qed.

Lemma report_fails_closed_witness :
  ∃ r', validate_ReviewReport (sample_report (Some APass) (Some full_profile)) = Ok r' ∧
    complete_profile (Some full_profile) ∧ rr_overall_verdict r' = Some PASS.
Proof.
  eexists. split; [vm_compute; reflexivity|].
  edestruct (report_fails_closed (sample_report (Some APass) (Some full_profile)))
    as (s & Hs & _ & Hacc & Hcomplete & _).
  - vm_compute; reflexivity.
  - vm_compute; reflexivity.
  - vm_compute; eexists; reflexivity.
  - vm_compute; reflexivity.
  - vm_compute; discriminate.
  - split; [|reflexivity]. apply Hcomplete. vm_compute in Hs. by injection Hs.
Defined.

Section idempotence.
Context `{PyRepr}.

Lemma schema_version_idem r g s :
  g_schema_version g = _schema_version r s →
  _schema_version (with_governance r g) s = _schema_version r s.
Proof.
  intros Hg. unfold _schema_version at 1. simpl. rewrite Hg. unfold _schema_version.
  destruct (schema_version_at_least (rr_schema_version r) 6) eqn:E; [by rewrite E|].
  destruct (has_some (rr_requirements_evidence r)); [done|].
  destruct (has_some (rr_enforcement_mode r)); [done|].
  destruct (has_some (rr_cleanup_forecast r) || _); [done|].
  destruct (has_some s); [done|].
  destruct (existsb has_simplification_metadata _); [done|]. by rewrite E.
Qed.

(** Deriving again from the derived status and flag changes neither. *)
Lemma authoritative_idem r g version s u v e :
  _derive_authoritative_governance r version = Ok (Some (s, u, v, e)) →
  g_assurance_status g = Some s → g_has_unknown g = Some u →
  _derive_authoritative_governance (with_governance r g) version = Ok (Some (s, u, v, e)).
Proof.
  unfold _derive_authoritative_governance. simpl. intros Hd -> ->.
  destruct (rr_assurance_status r) as [status|]; [|done].
  destruct (schema_version_at_least version 6); [|done].
  res_inv. simplify_eq/=. destruct u; simpl.
  - destruct status; simpl in *; by repeat (case_match; simplify_eq/=).
  - match goal with E : _ = Ok false |- _ => revert E end.
    match goal with E : _ = Ok ?x |- _ => rewrite E; simpl end.
    destruct (bool_decide (rr_has_unknown_required_evidence r = Some true)),
      (bool_decide (status = AUnknown)), x; simpl; intros Hu; try done. by rewrite Hu.
Qed.

Lemma governance_idem r r' :
  _derive_governance_fields r = Ok r' → _derive_governance_fields r' = Ok r'.
Proof.
  intros (version & summary & auth & v & e & s & u & Hver & Hsum & Hauth & -> & Hf)%derive_governance_inv.
  set (g := Build_governance _ _ _ _ _ _ _).
  assert (_schema_version (with_governance r g) summary = version) as Hver'.
  { by rewrite schema_version_idem. }
  assert (match summary with
          | Some s0 => Some s0
          | None => _build_simplification_summary (rr_findings r) end = summary) as Hsum'.
  { rewrite Hsum. by repeat case_match. }
  unfold _derive_governance_fields.
  cbn [rr_simplification_summary with_governance g g_simplification_summary rr_findings].
  rewrite Hsum', Hver'.
  destruct auth as [[[[s0 u0] v0] e0]|].
  - destruct Hf as (-> & -> & -> & ->).
    rewrite (authoritative_idem r g version s0 u0 v0 e0) by done. done.
  - destruct Hf as (-> & -> & Hrest).
    assert (_derive_authoritative_governance (with_governance r g) version = Ok None) as ->.
    { apply authoritative_none. by apply authoritative_none in Hauth. }
    simpl. unfold _has_explicit_legacy_governance in *. simpl.
    destruct (has_some (rr_enforcement_mode r)); simpl in *.
    + destruct (has_some (rr_overall_verdict r) && has_some (rr_ci_exit_code r)) eqn:E.
      * destruct Hrest as [-> ->]. by rewrite E.
      * destruct Hrest as (v0 & e0 & _ & -> & ->). done.
    + destruct Hrest as (v0 & e0 & -> & -> & ->). done.
Qed.
End idempotence.

Lemma normalize_timestamp_idem t :
  _normalize_timestamp (_normalize_timestamp t) = _normalize_timestamp t.
Proof. destruct t as [w [o|]]; unfold _normalize_timestamp; simpl; by rewrite Z.sub_0_r. Qed.

Lemma validate_report_checks `{PyRepr} r r' :
  validate_ReviewReport r = Ok r' →
  nonblank (rr_schema_version r') = true ∧ nonblank (rr_run_id r') = true ∧
  match rr_ci_exit_code r' with Some z => (z =? 0)%Z || (z =? 1)%Z | None => true end = true ∧
  ((0 <=? rr_score r') && (rr_score r' <=? 120))%Z = true ∧ nonblank (rr_summary r') = true ∧
  with_timestamp (_normalize_timestamp (rr_timestamp r')) r' = r'.
Proof.
  unfold validate_ReviewReport. intros Hv. res_inv.
  match goal with E : _derive_governance_fields _ = _ |- _ => revert E end.
  intros (version & summary & auth & v & e & s & u & -> & _ & Hauth & -> & Hf)%derive_governance_inv.
  destruct r; simpl in *. bool_hyps. split_and!; try done.
  - unfold _schema_version. repeat case_match; done.
  - destruct auth as [[[[s0 u0] v0] e0]|].
    + destruct Hf as (-> & -> & -> & ->).
      apply authoritative_inv in Hauth as (_ & _ & _ & [->| ->]); done.
    + destruct Hf as (-> & -> & Hf). case_match; [by destruct Hf as [-> ->]|].
      destruct Hf as (v0 & e0 & Hd & -> & ->). revert Hd. unfold _derive_score_governance.
      repeat case_match; intros; by simplify_eq.
  - by apply andb_true_iff; split; apply Z.leb_le.
  - by rewrite normalize_timestamp_idem.
Qed.

(** [ReviewReport] validation (run/findings.py) is idempotent: a validated
    report, serialized and validated again, derives exactly the same schema
    version, verdict, exit code, assurance status and summary. *)
Theorem validate_report_idempotent `{PyRepr} r r' :
  validate_ReviewReport r = Ok r' → validate_ReviewReport r' = Ok r'.
Proof.
  intros Hv. pose proof (validate_report_checks _ _ Hv) as (H1 & H2 & H3 & H4 & H5 & H6).
  apply validate_report_inv in Hv. unfold validate_ReviewReport.
  rewrite H1, H2, H3, H4, H5, H6. simpl. by eapply governance_idem.
Qed.

Lemma validate_report_idempotent_witness :
  ∃ r', validate_ReviewReport (sample_report (Some APass) None) = Ok r' ∧
    validate_ReviewReport r' = Ok r' ∧ rr_assurance_status r' = Some AUnknown.
Proof.
  eexists. split; [vm_compute; reflexivity|]. split; [|reflexivity].
  apply (validate_report_idempotent (sample_report (Some APass) None)). vm_compute. reflexivity.
Defined.

(** [_derive_score_governance] and [score_review] agree: a legacy report
    (no assurance status, no explicit enforcement) built from a score and its
    findings carries the verdict, exit code and reward the scorer computed. *)
Theorem report_matches_score `{PyRepr} r kw sc r' :
  score_review (rr_findings r) kw = Ok sc → rr_score r = sc_score sc →
  rr_assurance_status r = None → rr_enforcement_mode r = None →
  validate_ReviewReport r = Ok r' →
  rr_overall_verdict r' = Some (sc_overall_verdict sc) ∧
  rr_ci_exit_code r' = Some (sc_ci_exit_code sc) ∧
  rr_reward_delta r' = Some (sc_reward_delta sc).
Proof.
  intros (b & _ & _ & Hrd & Hd)%score_review_inv Hscore Hst Hem
    (version & summary & auth & v & e & s & u & _ & _ & Hauth & -> & Hf)%validate_report_inv%derive_governance_inv.
  pose proof (with_timestamp_fields (_normalize_timestamp (rr_timestamp r)) r)
    as (Hfs & _ & Hem' & Hsc & Hst' & _).
  destruct auth as [[[[s0 u0] v0] e0]|].
  { unfold _derive_authoritative_governance in Hauth. rewrite Hst', Hst in Hauth. done. }
  destruct Hf as (_ & _ & Hf). unfold _has_explicit_legacy_governance in Hf.
  rewrite Hem', Hem in Hf. simpl in *. destruct Hf as (v0 & e0 & Hg & -> & ->).
  rewrite Hsc, Hfs, Hscore in *. unfold _derive_score_governance, _determine_verdict in *.
  rewrite Hd in Hg. simplify_eq. rewrite Hrd. done.
Qed.

Definition legacy_report : ReviewReport :=
  {| rr_schema_version := "1.0"; rr_run_id := "r";
     rr_timestamp := {| dt_wall_us := 0; dt_utcoffset_us := None |};
     rr_overall_verdict := None; rr_ci_exit_code := None; rr_assurance_status := None;
     rr_has_unknown_required_evidence := None; rr_scope_evidence := None;
     rr_analyzer_evidence := None; rr_suppression_catalog_digest := None; rr_score := 100;
     rr_reward_delta := None; rr_findings := []; rr_summary := "ok";
     rr_simplification_summary := None; rr_cleanup_forecast := None;
     rr_enforcement_mode := None; rr_enforcement_summary := None;
     rr_requirements_evidence := None; rr_house_rules_updates := [] |}.
Definition legacy_score : ReviewScore :=
  {| sc_score := 100; sc_reward_delta := 20; sc_overall_verdict := PASS; sc_ci_exit_code := 0 |}.
Definition legacy_validated : ReviewReport :=
  with_governance (with_timestamp {| dt_wall_us := 0; dt_utcoffset_us := Some 0%Z |} legacy_report)
    {| g_schema_version := "1.0"; g_overall_verdict := Some PASS; g_ci_exit_code := Some 0%Z;
       g_assurance_status := None; g_has_unknown := None; g_reward_delta := Some 20%Z;
       g_simplification_summary := None |}.

Lemma report_matches_score_witness :
  score_review [] [] = Ok legacy_score ∧ validate_ReviewReport legacy_report = Ok legacy_validated ∧
  rr_overall_verdict legacy_validated = Some PASS.
Proof.
  assert (score_review [] [] = Ok legacy_score) as Hs by (vm_compute; reflexivity).
  assert (validate_ReviewReport legacy_report = Ok legacy_validated) as Hr by (vm_compute; reflexivity).
  split; [exact Hs|]. split; [exact Hr|].
  exact (proj1 (report_matches_score legacy_report [] legacy_score legacy_validated
    Hs eq_refl eq_refl eq_refl Hr)).
Defined.

(** * Assurance *)

Lemma parse_assurance_text s : parse_assurance (assurance_text s) = Some s.
Proof. by destruct s. Qed.

Lemma parse_assurance_Some t s : parse_assurance t = Some s → t = assurance_text s.
Proof. unfold parse_assurance. repeat case_decide; intros; by simplify_eq. Qed.

Lemma parse_assurance_statuses t : is_Some (parse_assurance t) ↔ t ∈ statuses.
Proof.
  unfold statuses. split.
  - intros [s ->%parse_assurance_Some]. destruct s; set_solver.
  - rewrite !elem_of_cons, elem_of_nil. intros [->|[->|[->|[->|[]]]]]; by eexists.
Qed.

Lemma project_status_ok s m :
  project_assurance_status (assurance_text s) (match m with Full => "full" | Shadow => "shadow" end) =
  Ok {| ap_assurance_status := s;
        ap_overall_verdict := match s with
                              | APass => PASS | ANotApplicable => PASS_WITH_ADVISORY | _ => FAIL end;
        ap_ci_exit_code := if bool_decide (m = Shadow) || accepted_status s then 0%Z else 1%Z;
        ap_enforcement_mode := m |}.
Proof. by destruct s, m. Qed.

(** [build_assurance_report] (run/findings.py), status derived: an open
    blocker gives FAIL even when evidence is unknown, otherwise an unknown
    member gives UNKNOWN, otherwise PASS; the aggregate blockers are the open
    ones, the unknown flag is that of the members, and full enforcement exits
    1 exactly unless the status is PASS. *)
Theorem assurance_report_derivation members blockers digest validated :
  map_res validate_member members = Ok validated →
  ∃ r, build_assurance_report None "full" members blockers digest = Ok r ∧
    ar_aggregate_blockers r = List.filter open_blocker blockers ∧
    (ar_has_unknown_required_evidence r = true ↔ ∃ m, m ∈ validated ∧ member_is_unknown m = true) ∧
    (ar_assurance_status r = AFail ↔ ∃ b, b ∈ blockers ∧ open_blocker b = true) ∧
    (ar_assurance_status r = AUnknown ↔
       ar_has_unknown_required_evidence r = true ∧ ar_assurance_status r ≠ AFail) ∧
    (ar_ci_exit_code r = 0%Z ↔ ar_assurance_status r = APass).
Proof.
  intros Hm. unfold build_assurance_report. rewrite Hm. simpl.
  set (open := List.filter open_blocker blockers).
  assert (open ≠ [] ↔ ∃ b, b ∈ blockers ∧ open_blocker b = true) as Hopen.
  { unfold open. split.
    - destruct (List.filter open_blocker blockers) as [|b bs] eqn:E; [done|]. intros _.
      exists b. rewrite list_elem_of_In. apply filter_In. rewrite E. by left.
    - intros (b & Hb%list_elem_of_In & Ho) E. by destruct (proj2 (filter_In _ b blockers) (conj Hb Ho)) || (
        assert (In b (List.filter open_blocker blockers)) as Hin by (by apply filter_In);
        rewrite E in Hin; destruct Hin). }
  destruct (decide (open = [])) as [E|E].
  - rewrite (bool_decide_eq_false_2 (open ≠ [])) by auto.
    assert (¬ ∃ b, b ∈ blockers ∧ open_blocker b = true) as Hno by (rewrite <-Hopen; auto).
    destruct (existsb member_is_unknown validated) eqn:Eu; simpl;
      (eexists; split; [reflexivity|]); simpl; rewrite <-existsb_elem, Eu;
      split_and!; try done; intuition (done || congruence).
  - rewrite (bool_decide_eq_true_2 (open ≠ [])) by auto.
    simpl; (eexists; split; [reflexivity|]); simpl; rewrite <-existsb_elem.
    split_and!; try done; intuition (done || congruence).
Qed.

Lemma assurance_report_derivation_witness :
  map_res validate_member [[("id", "ruff"); ("outcome", "UNKNOWN")]] =
    Ok [{| ame_id := "ruff"; ame_outcome := Some AUnknown; ame_diagnostic := None;
           ame_base := None; ame_head := None; ame_disposition := None |}] ∧
  ∃ r, build_assurance_report None "full" [[("id", "ruff"); ("outcome", "UNKNOWN")]]
         [[("status", "open")]] None = Ok r ∧ ar_assurance_status r = AFail.
Proof.
  split; [reflexivity|].
  destruct (assurance_report_derivation [[("id", "ruff"); ("outcome", "UNKNOWN")]]
    [[("status", "open")]] None _ eq_refl) as (r & Hr & _ & _ & Hf & _).
  exists r. split; [exact Hr|]. apply Hf. exists [("status", "open")].
  split; [left|reflexivity].
Defined.

(** * Reading a serialized report *)

Definition mode_value (m : option enforcement_mode) : pyval :=
  match m with Some m => VStr (enforcement_text m) | None => VNone end.

Lemma in_set_status s : in_set (VStr (assurance_text s)) statuses = Ok true.
Proof. by destruct s. Qed.

Lemma effective_enforcement `{PyRepr} m :
  let e := py_str (mode_value m) in
  (if has_some (parse_enforcement16 e) then e else "full") =
  match m with Some EmShadow => "shadow" | _ => "full" end.
Proof. by destruct m as [[]|]. Qed.

(** [read_review_report] (run/findings.py) reads back what an
    authoritative report says: on the payload of a validated report with
    schema at least 1.6 and an assurance status it returns that status and the
    very exit code the report carries, in every enforcement mode; and a
    payload of such a schema whose status is missing reads as UNKNOWN. *)
Theorem read_report_roundtrip `{PyRepr} r r' payload :
  validate_ReviewReport r = Ok r' →
  schema_version_at_least (rr_schema_version r') 6 = true →
  sget_default "schema_version" (VStr "") payload = VStr (rr_schema_version r') →
  (∀ s, rr_assurance_status r' = Some s → sget "assurance_status" payload = VStr (assurance_text s)) →
  (rr_assurance_status r' = None → sget "assurance_status" payload = VNone) →
  sget_default "enforcement_mode" (VStr "full") payload = mode_value (rr_enforcement_mode r') →
  ∃ res, read_review_report payload = Ok res ∧
    match rr_assurance_status r' with
    | Some s => rrr_status res = s ∧ rr_ci_exit_code r' = Some (rrr_ci_exit_code res)
    | None => rrr_status res = AUnknown
    end.
Proof.
  intros Hv Hver Hsv Hst Hnone Hmode.
  unfold read_review_report. rewrite Hsv, Hmode. cbn [py_str]. rewrite Hver, effective_enforcement.
  assert (∀ s m, project_assurance_status (assurance_text s)
    match m with Some EmShadow => "shadow" | _ => "full" end = Ok {|
      ap_assurance_status := s;
      ap_overall_verdict := match s with
                            | APass => PASS | ANotApplicable => PASS_WITH_ADVISORY | _ => FAIL end;
      ap_ci_exit_code := if bool_decide (m = Some EmShadow) || accepted_status s then 0%Z else 1%Z;
      ap_enforcement_mode := match m with Some EmShadow => Shadow | _ => Full end |}) as Hproj.
  { by intros [] [[]|]. }
  destruct (rr_assurance_status r') as [s|] eqn:Es.
  - rewrite (Hst s eq_refl), in_set_status. cbn [res_bind status_of].
    rewrite parse_assurance_text. cbn [default]. rewrite Hproj. cbn [res_bind].
    eexists; split; [reflexivity|]. simpl. split; [done|].
    apply validate_report_inv, derive_governance_inv in Hv
      as (version & summary & auth & v & e & s1 & u & _ & _ & Hauth & -> & Hf).
    simpl in *. subst s1. destruct auth as [[[[s0 u0] v0] e0]|].
    + destruct Hf as ([= ->] & _ & _ & ->).
      apply authoritative_inv in Hauth as (_ & _ & Hz & He). f_equal.
      rewrite <-accepted_status_true in Hz.
      destruct (accepted_status s0), (decide (rr_enforcement_mode
        (with_timestamp (_normalize_timestamp (rr_timestamp r)) r) = Some EmShadow)) as [E|E];
      rewrite ?(bool_decide_eq_true_2 _ E), ?(bool_decide_eq_false_2 _ E); simpl; naive_solver.
    + destruct Hf as (Hs & _). apply authoritative_none in Hauth. destruct Hauth; congruence.
  - rewrite (Hnone eq_refl). cbn [res_bind in_set hashable].
    change "UNKNOWN" with (assurance_text AUnknown). rewrite (Hproj AUnknown). cbn [res_bind].
    by eexists.
Qed.

Definition unknown_payload : list (string * pyval) :=
  [("schema_version", VStr "1.6"); ("assurance_status", VStr "UNKNOWN"); ("enforcement_mode", VNone)].

Lemma read_report_roundtrip_witness :
  ∃ r', validate_ReviewReport (sample_report (Some APass) None) = Ok r' ∧
    ∃ res, read_review_report unknown_payload = Ok res ∧
      match rr_assurance_status r' with
      | Some s => rrr_status res = s ∧ rr_ci_exit_code r' = Some (rrr_ci_exit_code res)
      | None => rrr_status res = AUnknown
      end.
Proof.
  eexists. split; [vm_compute; reflexivity|].
  apply (read_report_roundtrip (sample_report (Some APass) None)).
  - vm_compute. reflexivity.
  - vm_compute. reflexivity.
  - reflexivity.
  - intros s Hs. injection Hs as <-. reflexivity.
  - discriminate.
  - reflexivity.
Defined.

(** * Consumer matrix *)

Lemma set_is_spec values names :
  set_is values names = true ↔
  ∀ v, v ∈ values ↔ ∃ s, v = VStr s ∧ s ∈ names.
Proof.
  unfold set_is. rewrite andb_true_iff, !forallb_forall. setoid_rewrite <-list_elem_of_In.
  split.
  - intros [H1 H2] v. split.
    + intros Hv%H1. destruct v; try done. apply bool_decide_eq_true in Hv. eauto.
    + intros (s & -> & Hs%H2). by apply bool_decide_eq_true in Hs.
  - intros H. split.
    + intros v (s & -> & Hs)%H. by apply bool_decide_eq_true.
    + intros s Hs. apply bool_decide_eq_true, H. eauto.
Qed.

Lemma matrix_status_None report digest s :
  _validated_matrix_status report digest = (s, None) →
  ∃ d a, report = VDict d ∧ s = assurance_text a ∧ vget "assurance_status" d = VStr s ∧
    vget "suppression_catalog_digest" d = VStr digest ∧
    eq_int (vget "ci_exit_code" d) (if accepted_status a then 0 else 1) = true ∧
    vget "overall_verdict" d = VStr (verdict_text (authoritative_verdict a [])).
Proof.
  unfold _validated_matrix_status. destruct report; try done. intros Hr.
  destruct (vget "assurance_status" l) as [| | | |s0| | | | | | |] eqn:Es; try done.
  destruct (project_assurance_status s0 "full") as [p|] eqn:Ep; [|done].
  case_match eqn:Ec; [|done]. simplify_eq. bool_hyps. unfold is_str in *. bool_hyps.
  unfold project_assurance_status in Ep. destruct (parse_assurance s) as [a|] eqn:Ea; [|done].
  apply parse_assurance_Some in Ea as ->. simplify_eq/=.
  exists l, a. by split_and!.
Qed.

Lemma matrix_loop_None reports digest acc found :
  matrix_statuses_loop reports digest acc = (found, None) →
  (∀ s, s ∈ found → s ∈ acc ∨ ∃ r, r ∈ reports ∧ _validated_matrix_status r digest = (s, None)) ∧
  ∀ r, r ∈ reports → ∃ s, _validated_matrix_status r digest = (s, None).
Proof.
  revert acc. induction reports as [|r reports IH]; simpl; intros acc Hl; simplify_eq.
  - set_solver.
  - destruct (_validated_matrix_status r digest) as [s [|]] eqn:E; [done|].
    apply IH in Hl as [H1 H2]. split.
    + intros s' Hs'. apply H1 in Hs' as [Hs'|(r' & Hr' & E')]; [|set_solver].
      apply elem_of_union in Hs' as [->%elem_of_singleton|?]; [|by left].
      right. exists r. split; [left|done].
    + intros r' [->|Hr']%elem_of_cons; eauto.
Qed.

(** [validate_consumer_matrix] (run/findings.py) accepts only a matrix
    bound to the packaged catalog: PASS means the envelope and all six named
    identity bindings carry the packaged digest, every canonical report
    projects its own status (verdict, exit code and digest), each of the four
    statuses is exercised, and the boundary cases name exactly the seven
    dimensions. *)
Theorem consumer_matrix_pass catalog matrix res :
  validate_consumer_matrix catalog matrix = Ok res → cmv_status res = MxPass →
  ∃ digest m bindings reports envelope boundary,
    catalog = Some digest ∧ matrix = VDict m ∧
    vget "accepted_pr_range_envelope" m = VDict envelope ∧
    vget "suppression_catalog_digest" envelope = VStr digest ∧
    vget "suppression_catalog_identity_bindings" m = VDict bindings ∧
    (∀ name, name ∈ binding_names → vget name bindings = VStr digest) ∧
    vget "canonical_status_reports" m = VList reports ∧
    (∀ r, r ∈ reports → ∃ s, _validated_matrix_status r digest = (s, None)) ∧
    (∀ a, ∃ r, r ∈ reports ∧ _validated_matrix_status r digest = (assurance_text a, None)) ∧
    _matrix_case_values m "pr_range_boundary_cases" "dimension" = Ok (Some boundary) ∧
    (∀ v, v ∈ boundary ↔ ∃ s, v = VStr s ∧ s ∈ expected_boundaries).
Proof.
  unfold validate_consumer_matrix. intros Hv Hpass.
  destruct matrix as [| | | | | | | | |m| |]; try (simplify_eq/=; done).
  destruct catalog as [digest|]; [|simplify_eq/=; done].
  destruct (_validate_matrix_catalog_identity m digest) eqn:Hid; [simplify_eq/=; done|].
  destruct (_validated_matrix_statuses m digest) as [found [|]] eqn:Hst; [simplify_eq/=; done|].
  do 3 (res_inv; match goal with H : (if negb ?c then _ else _) = Ok _ |- _ =>
    destruct c eqn:?; simpl in H; [|by (injection H as <-)] end).
  unfold _validate_matrix_catalog_identity in Hid.
  destruct (vget "accepted_pr_range_envelope" m) as [| | | | | | | | |envelope| |] eqn:He; try done.
  case_match eqn:Hd; [done|]. bool_hyps. unfold is_str in Hd. bool_hyps.
  destruct (vget "suppression_catalog_identity_bindings" m) as [| | | | | | | | |bindings| |] eqn:Hb; try done.
  do 2 (case_match; [done|]). bool_hyps.
  unfold _validated_matrix_statuses in Hst.
  destruct (vget "canonical_status_reports" m) as [| | | | | | |reports| | | |] eqn:Hr; try done.
  destruct (matrix_statuses_loop reports digest ∅) as [found' [|]] eqn:Hl; [done|].
  case_bool_decide as Hfound; [|done]. simplify_eq.
  apply matrix_loop_None in Hl as [Hl1 Hl2].
  match goal with E : case_values_are ?x expected_boundaries = true |- _ =>
    destruct x as [boundary|]; [|done]; cbn [case_values_are] in E; rewrite set_is_spec in E end.
  exists digest, m, bindings, reports, envelope, boundary. split_and!; try done.
  - intros name Hn.
    destruct (decide (vget name bindings = VStr digest)) as [|Hne]; [done|].
    exfalso. match goal with E : existsb _ binding_names = false |- _ =>
      apply not_true_iff_false in E; apply E end.
    apply existsb_elem. exists name. split; [done|]. unfold is_str. by rewrite bool_decide_eq_false_2.
  - intros a. assert (assurance_text a ∈ (list_to_set statuses : gset string)) as Hin.
    { apply elem_of_list_to_set, parse_assurance_statuses.
      by rewrite parse_assurance_text. }
    destruct (Hl1 _ Hin) as [?%elem_of_empty|(r & ? & ?)]; [done|eauto].
Qed.

Definition sample_digest : string := "sha256:00".
Definition matrix_report (s : assurance_status) : pyval :=
  VDict [(VStr "assurance_status", VStr (assurance_text s));
         (VStr "overall_verdict", VStr (verdict_text (authoritative_verdict s [])));
         (VStr "ci_exit_code", VInt (if accepted_status s then 0 else 1));
         (VStr "suppression_catalog_digest", VStr sample_digest)].
Definition matrix_cases (key : string) (values : list string) : pyval :=
  VList ((λ v, VDict [(VStr key, VStr v)]) <$> values).
Definition sample_matrix : pyval := VDict
  [(VStr "accepted_pr_range_envelope", VDict [(VStr "suppression_catalog_digest", VStr sample_digest)]);
   (VStr "suppression_catalog_identity_bindings",
     VDict ((λ n, (VStr n, VStr sample_digest)) <$> binding_names));
   (VStr "canonical_status_reports", VList (matrix_report <$> [APass; AFail; AUnknown; ANotApplicable]));
   (VStr "finding_multiset_cases", matrix_cases "disposition" ["fixed"; "introduced"; "unchanged"; "unknown"]);
   (VStr "project_runtime_cases", matrix_cases "expected_status" ["PASS"; "UNKNOWN"]);
   (VStr "pr_range_boundary_cases", matrix_cases "dimension" expected_boundaries)].
Definition sample_matrix_result : ConsumerMatrixValidation :=
  {| cmv_status := MxPass; cmv_exercised_statuses := ["FAIL"; "NOT_APPLICABLE"; "PASS"; "UNKNOWN"];
     cmv_reason := "" |}.

Lemma consumer_matrix_pass_witness :
  validate_consumer_matrix (Some sample_digest) sample_matrix = Ok sample_matrix_result ∧
  ∃ digest, Some sample_digest = Some digest.
Proof.
  assert (validate_consumer_matrix (Some sample_digest) sample_matrix = Ok sample_matrix_result) as E
    by (vm_compute; reflexivity).
  split; [exact E|].
  destruct (consumer_matrix_pass (Some sample_digest) sample_matrix sample_matrix_result E eq_refl)
    as (digest & _ & _ & _ & _ & _ & Hd & _).
  exists digest. exact Hd.
Defined.
