(* ===== verification/Correspondence.v ===== *)
(** Correspondence: the source-line correspondence of
    [specfact_code_review/run/differential.py]: the edit-cost matrices, their
    memo tables and the continuity decision for a pair of findings. *)

From S2P Require Import Prelude Text Dict PyValue Json.

(** * Lines of a source *)

(** [bytes.splitlines()]: lines end at LF, CR or CR LF; no empty line after a
    final line end. *)
Fixpoint splitlines_go (cur : list ascii) (l : list ascii) : list (list ascii) :=
  match l with
  | [] => match cur with [] => [] | _ => [reverse cur] end
  | c :: l' =>
      if (N_of_ascii c =? 10)%N then reverse cur :: splitlines_go [] l'
      else if (N_of_ascii c =? 13)%N then
        match l' with
        | d :: l'' =>
            if (N_of_ascii d =? 10)%N then reverse cur :: splitlines_go [] l''
            else reverse cur :: splitlines_go [] l'
        | [] => [reverse cur]
        end
      else splitlines_go (c :: cur) l'
  end.
Definition splitlines (source : string) : list string :=
  of_chars <$> splitlines_go [] (chars source).

Record DifferentialFinding := {
  df_analyzer : string;
  df_rule : string;
  df_severity : string;
  df_path : string;
  df_line : Z;
  df_message : string;
  df_blocking : bool
}.
#[export] Instance DifferentialFinding_eq_dec : EqDecision DifferentialFinding.
Proof. solve_decision. Defined.

Definition _MAX_SOURCE_BYTES : Z := 16 * 1024 * 1024.
Definition _MAX_SOURCE_LINES : Z := 20000.
Definition _MAX_CORRESPONDENCE_CELLS : Z := 4000000.
Definition _MAX_AGGREGATE_CORRESPONDENCE_CELLS : Z := 4000000.

(** * Edit-cost matrices *)

Definition min_of (c : Z) (cs : list Z) : Z := foldl Z.min c cs.

(** One row: [prev] is the previous row from the current diagonal on, [left]
    the cell just written; cell [(base_index, head_index)] of the code is the
    one whose diagonal is [(bi, hj)]. *)
Fixpoint fill_row (forbidden_pair : option (nat * nat)) (bi : nat) (base_line : string)
    (head_lines : list string) (hj : nat) (prev : list Z) (left : Z) : list Z :=
  match head_lines, prev with
  | head_line :: heads, diag :: ((up :: _) as prev') =>
      let replace_cost := if decide (base_line = head_line) then 0%Z else 2%Z in
      let cost := min_of (up + 1)%Z
        ((left + 1)%Z :: (if decide (forbidden_pair = Some (bi, hj)) then []
                          else [(diag + replace_cost)%Z])) in
      cost :: fill_row forbidden_pair bi base_line heads (S hj) prev' cost
  | _, _ => []
  end.

Fixpoint fill_rows (forbidden_pair : option (nat * nat)) (bi : nat) (base_lines : list string)
    (head_lines : list string) (prev : list Z) : list (list Z) :=
  match base_lines with
  | [] => []
  | base_line :: bases =>
      let first := Z.of_nat (S bi) in
      let row := first :: fill_row forbidden_pair bi base_line head_lines 0 prev first in
      row :: fill_rows forbidden_pair (S bi) bases head_lines row
  end.

Definition _edit_costs (base_lines head_lines : list string) (forbidden_pair : option (nat * nat)) :
    list (list Z) :=
  let row0 := Z.of_nat <$> seq 0 (S (length head_lines)) in
  row0 :: fill_rows forbidden_pair 0 base_lines head_lines row0.

(** [costs[i][j]] inside the matrix *)
Definition cell (costs : list (list Z)) (i j : nat) : Z :=
  default 0%Z (costs !! i ≫= λ row, row !! j).
(** [costs[-1][-1]] *)
Definition last_cell (costs : list (list Z)) : Z :=
  default 0%Z (last costs ≫= last).

Definition _suffix_edit_costs (base_lines head_lines : list string) : list (list Z) :=
  let reversed_costs := _edit_costs (reverse base_lines) (reverse head_lines) None in
  let rows := length base_lines in
  let columns := length head_lines in
  (λ base_index,
     (λ head_index, cell reversed_costs (rows - base_index) (columns - head_index))
       <$> seq 0 (S columns))
    <$> seq 0 (S rows).

(** * Continuity context *)

Record _ContinuityContext := {
  ctx_base_lines : list string;
  ctx_head_lines : list string;
  ctx_base_index : Z;
  ctx_head_index : Z;
  ctx_cells : Z
}.

Definition _continuity_within_bounds (base_source head_source : string)
    (base_lines head_lines : list string) (cells : Z) : bool :=
  (Z.max (Z.of_nat (String.length base_source)) (Z.of_nat (String.length head_source))
     <=? _MAX_SOURCE_BYTES)%Z
  && (Z.max (Z.of_nat (length base_lines)) (Z.of_nat (length head_lines)) <=? _MAX_SOURCE_LINES)%Z
  && (cells <=? _MAX_CORRESPONDENCE_CELLS)%Z.

Definition _continuity_anchor_is_valid (c : _ContinuityContext) : bool :=
  ((0 <=? ctx_base_index c) && (ctx_base_index c <? Z.of_nat (length (ctx_base_lines c)))
   && (0 <=? ctx_head_index c) && (ctx_head_index c <? Z.of_nat (length (ctx_head_lines c))))%Z.

(** The context, or the evidence of why there is none, for two sources whose
    lines are given. *)
Definition continuity_context_lines (base_line head_line : Z) (base_source head_source : string)
    (base_lines head_lines : list string) : _ContinuityContext + list (string * json) :=
  (let cells := (Z.of_nat (length base_lines) + 1) * (Z.of_nat (length head_lines) + 1) in
   if negb (_continuity_within_bounds base_source head_source base_lines head_lines cells)
   then inr [("cells", JInt cells); ("reason", JStr "correspondence_bounds")]
   else
     let context := {| ctx_base_lines := base_lines; ctx_head_lines := head_lines;
                       ctx_base_index := base_line - 1; ctx_head_index := head_line - 1;
                       ctx_cells := cells |} in
     if negb (_continuity_anchor_is_valid context)
     then inr [("cells", JInt cells); ("reason", JStr "invalid_source_anchor")]
     else inl context)%Z.

Definition _continuity_context (base_line head_line : Z) (base_source head_source : option string) :
    _ContinuityContext + list (string * json) :=
  match base_source, head_source with
  | Some base_source, Some head_source =>
      continuity_context_lines base_line head_line base_source head_source
        (splitlines base_source) (splitlines head_source)
  | _, _ => inr [("reason", JStr "missing_source")]
  end.

(** * Memo tables *)

Record memo := {
  memo_matrices : gmap (string * string) (list (list Z) * list (list Z));
  memo_forbidden : gmap (string * string * nat * nat) Z
}.
Definition empty_memo : memo := {| memo_matrices := ∅; memo_forbidden := ∅ |}.

Record CostEvidence := {
  ce_cells : Z; ce_global_cost : Z; ce_forced_cost : Z; ce_forbidden_cost : Z; ce_pair_cost : Z
}.

Definition line_at (lines : list string) (i : nat) : string := default "" (lines !! i).

(** The costs of a pair, read from the memo tables when they hold them and
    stored there when they were computed. *)
Definition _continuity_cost_evidence (context : _ContinuityContext) (source_key : string * string)
    (m : memo) : CostEvidence * memo :=
  let base_lines := ctx_base_lines context in
  let head_lines := ctx_head_lines context in
  let bi := Z.to_nat (ctx_base_index context) in
  let hi := Z.to_nat (ctx_head_index context) in
  let '(matrices, m1) :=
    match memo_matrices m !! source_key with
    | Some matrices => (matrices, m)
    | None =>
        let matrices := (_edit_costs base_lines head_lines None,
                         _suffix_edit_costs base_lines head_lines) in
        (matrices, {| memo_matrices := <[source_key := matrices]> (memo_matrices m);
                      memo_forbidden := memo_forbidden m |})
    end in
  let '(forward, suffix) := matrices in
  let global_cost := last_cell forward in
  let pair_cost := if decide (line_at base_lines bi = line_at head_lines hi) then 0%Z else 2%Z in
  let forced_cost := (cell forward bi hi + pair_cost + cell suffix (S bi) (S hi))%Z in
  let forbidden_key := (source_key, bi, hi) in
  let '(forbidden_cost, m2) :=
    match memo_forbidden m1 !! forbidden_key with
    | Some cost => (cost, m1)
    | None =>
        let cost := last_cell (_edit_costs base_lines head_lines (Some (bi, hi))) in
        (cost, {| memo_matrices := memo_matrices m1;
                  memo_forbidden := <[forbidden_key := cost]> (memo_forbidden m1) |})
    end in
  ({| ce_cells := ctx_cells context; ce_global_cost := global_cost;
      ce_forced_cost := forced_cost; ce_forbidden_cost := forbidden_cost;
      ce_pair_cost := pair_cost |}, m2).

(** * Anchors and decision *)

Definition _line_anchor (lines : list string) (index : nat) : string * string * string :=
  (match index with O => "<BOF>" | S i => line_at lines i end,
   line_at lines index,
   if (S index <? length lines)%nat then line_at lines (S index) else "<EOF>").

Definition count_line (line : string) (lines : list string) : Z :=
  Z.of_nat (length (filter (λ l, l = line) lines)).

Definition nul : string := String (ascii_of_nat 0) "".

Section digests.
Context `{Sha256}.

Definition anchor_digest (anchor : string * string * string) : string :=
  let '(before, line, after) := anchor in
  sha256_digest (chars (join nul [before; line; after])).

Definition _continuity_anchor_evidence (context : _ContinuityContext) : list (string * json) :=
  let bi := Z.to_nat (ctx_base_index context) in
  let hi := Z.to_nat (ctx_head_index context) in
  [("base_anchor_digest", JStr (anchor_digest (_line_anchor (ctx_base_lines context) bi)));
   ("head_anchor_digest", JStr (anchor_digest (_line_anchor (ctx_head_lines context) hi)));
   ("base_distinct_location_count",
      JInt (count_line (line_at (ctx_base_lines context) bi) (ctx_base_lines context)));
   ("head_distinct_location_count",
      JInt (count_line (line_at (ctx_head_lines context) hi) (ctx_head_lines context)))].

Inductive continuity := Unchanged | Introduced | Unknown.
#[export] Instance continuity_eq_dec : EqDecision continuity.
Proof. solve_decision. Defined.

(** The decision and its label; the costs and counts are the integers of the
    evidence. *)
Definition _continuity_decision (context : _ContinuityContext) (costs : CostEvidence) :
    continuity * string :=
  let bi := Z.to_nat (ctx_base_index context) in
  let hi := Z.to_nat (ctx_head_index context) in
  let base_lines := ctx_base_lines context in
  let head_lines := ctx_head_lines context in
  if negb (count_line (line_at base_lines bi) base_lines =? 1)%Z
     || negb (count_line (line_at head_lines hi) head_lines =? 1)%Z
  then (Unknown, "ambiguous_source_anchor")
  else if bool_decide (_line_anchor base_lines bi ≠ _line_anchor head_lines hi)
  then (Introduced, "occurrence_anchor_changed")
  else if (ce_pair_cost costs =? 0)%Z && (ce_forced_cost costs =? ce_global_cost costs)%Z
          && (ce_global_cost costs <? ce_forbidden_cost costs)%Z
  then (Unchanged, "unique_optimal_match")
  else if (ce_global_cost costs <? ce_forced_cost costs)%Z || negb (ce_pair_cost costs =? 0)%Z
  then (Introduced, "not_on_optimal_correspondence")
  else (Unknown, "alternate_optimal_correspondence").

Definition bounds_evidence : json :=
  JObj [("max_source_bytes", JInt _MAX_SOURCE_BYTES);
        ("max_source_lines", JInt _MAX_SOURCE_LINES);
        ("max_cells", JInt _MAX_CORRESPONDENCE_CELLS)].

Definition cost_items (c : CostEvidence) : list (string * json) :=
  [("cells", JInt (ce_cells c)); ("global_cost", JInt (ce_global_cost c));
   ("forced_cost", JInt (ce_forced_cost c)); ("forbidden_cost", JInt (ce_forbidden_cost c));
   ("pair_cost", JInt (ce_pair_cost c))].

Definition _continuity (base head : DifferentialFinding) (base_source head_source : option string)
    (m : memo) : continuity * list (string * json) * memo :=
  let evidence :=
    [("algorithm", JStr "source-line-correspondence-v1"); ("base_line", JInt (df_line base));
     ("head_line", JInt (df_line head)); ("bounds", bounds_evidence)] in
  match _continuity_context (df_line base) (df_line head) base_source head_source with
  | inr reason => (Unknown, dict_merge evidence reason, m)
  | inl context =>
      let source_key := (default "" base_source, default "" head_source) in
      let '(costs, m') := _continuity_cost_evidence context source_key m in
      let evidence := dict_merge evidence (cost_items costs) in
      let evidence := dict_merge evidence (_continuity_anchor_evidence context) in
      let '(status, decision) := _continuity_decision context costs in
      (status, dict_merge evidence [("decision", JStr decision)], m')
  end.
End digests.
