(* ===== verification/CorrespondenceProofs.v ===== *)
(** CorrespondenceProofs: the edit-cost matrices compute minima over line
    alignments, the memo tables are transparent, and the continuity decision
    is exactly a statement about the optimal alignments. *)

From S2P Require Import Prelude Text Dict PyValue Json Correspondence.

(** * Alignments

    An alignment of the first [i] base lines with the first [j] head lines is
    the list of matched positions, last match first, strictly decreasing in
    both coordinates.  Unmatched lines cost one each, a matched pair costs
    nothing when the lines agree and two otherwise. *)

Definition pair_cost_at (base_lines head_lines : list string) (i j : nat) : Z :=
  if decide (line_at base_lines i = line_at head_lines j) then 0%Z else 2%Z.

Fixpoint alignment (i j : nat) (ps : list (nat * nat)) : Prop :=
  match ps with
  | [] => True
  | (i', j') :: ps' => i' < i ∧ j' < j ∧ alignment i' j' ps'
  end.

Fixpoint savings (b h : list string) (ps : list (nat * nat)) : Z :=
  match ps with
  | [] => 0%Z
  | (i, j) :: ps' => (pair_cost_at b h i j - 2 + savings b h ps')%Z
  end.

Definition alignment_cost (b h : list string) (i j : nat) (ps : list (nat * nat)) : Z :=
  (Z.of_nat i + Z.of_nat j + savings b h ps)%Z.

Definition avoids (forbidden_pair : option (nat * nat)) (ps : list (nat * nat)) : Prop :=
  Forall (λ p, forbidden_pair ≠ Some p) ps.

(** [c] is the least cost of the alignments that satisfy [P]. *)
Definition least_cost (P : list (nat * nat) → Prop) (b h : list string) (i j : nat) (c : Z) : Prop :=
  (∃ ps, P ps ∧ alignment i j ps ∧ alignment_cost b h i j ps = c) ∧
  (∀ ps, P ps → alignment i j ps → (c ≤ alignment_cost b h i j ps)%Z).

(** An alignment of all the lines that no other beats. *)
Definition optimal (b h : list string) (ps : list (nat * nat)) : Prop :=
  alignment (length b) (length h) ps ∧
  ∀ qs, alignment (length b) (length h) qs →
    (alignment_cost b h (length b) (length h) ps ≤ alignment_cost b h (length b) (length h) qs)%Z.

Lemma alignment_mono i j i' j' ps : i ≤ i' → j ≤ j' → alignment i j ps → alignment i' j' ps.
Proof. destruct ps as [|[a b] ps]; cbn; intuition lia. Qed.

Lemma savings_app b h ps qs : savings b h (ps ++ qs) = (savings b h ps + savings b h qs)%Z.
Proof. induction ps as [|[i j] ps IH]; cbn; [done|]. rewrite IH. lia. Qed.

Lemma least_cost_ext P b h i j c c' :
  least_cost P b h i j c → least_cost P b h i j c' → c = c'.
Proof.
  intros [(ps & HP & Ha & <-) Hlb] [(qs & HQ & Hb & <-) Hlb'].
  apply Z.le_antisymm; eauto.
Qed.

(** * The reference recursion *)

Section reference.
Context (fp : option (nat * nat)) (b h : list string).

Fixpoint edit_distance (i : nat) : nat → Z :=
  match i with
  | O => λ j, Z.of_nat j
  | S i' =>
      fix go (j : nat) : Z :=
        match j with
        | O => Z.of_nat (S i')
        | S j' =>
            min_of (edit_distance i' (S j') + 1)
              ((go j' + 1) :: (if decide (fp = Some (i', j')) then []
                               else [edit_distance i' j' + pair_cost_at b h i' j']))
        end%Z
  end.

Lemma edit_distance_S i j :
  edit_distance (S i) (S j) =
    min_of (edit_distance i (S j) + 1)%Z
      ((edit_distance (S i) j + 1)%Z ::
       (if decide (fp = Some (i, j)) then [] else [(edit_distance i j + pair_cost_at b h i j)%Z])).
Proof. done. Qed.

Lemma min_of_spec c cs : min_of c cs ∈ c :: cs ∧ ∀ x, x ∈ c :: cs → (min_of c cs ≤ x)%Z.
Proof.
  unfold min_of. revert c. induction cs as [|d cs IH]; intros c; cbn.
  - split; [set_solver|]. intros x ->%list_elem_of_singleton. lia.
  - destruct (IH (Z.min c d)) as [Hin Hle]. split.
    + apply elem_of_cons in Hin as [->|Hin]; [|set_solver].
      destruct (Z.min_spec c d) as [[_ ->]|[_ ->]]; set_solver.
    + intros x Hx. rewrite !elem_of_cons in Hx.
      assert (Hm : (foldl Z.min (Z.min c d) cs ≤ Z.min c d)%Z) by (apply Hle; set_solver).
      destruct Hx as [->|[->|Hx]]; [lia|lia|]. apply Hle. set_solver.
Qed.

Lemma edit_distance_attained i j :
  ∃ ps, avoids fp ps ∧ alignment i j ps ∧ alignment_cost b h i j ps = edit_distance i j.
Proof.
  revert j. induction i as [|i IHi]; intros j.
  { exists []. split; [constructor|]. split; [done|]. unfold alignment_cost. cbn -[Z.of_nat]. lia. }
  induction j as [|j IHj].
  { exists []. split; [constructor|]. split; [done|]. unfold alignment_cost. cbn -[Z.of_nat]. lia. }
  rewrite edit_distance_S. destruct (min_of_spec (edit_distance i (S j) + 1)%Z
    ((edit_distance (S i) j + 1)%Z ::
     (if decide (fp = Some (i, j)) then [] else [(edit_distance i j + pair_cost_at b h i j)%Z])))
    as [Hin _].
  apply elem_of_cons in Hin as [->|[->|Hin]%elem_of_cons].
  - destruct (IHi (S j)) as (ps & ? & Ha & Hc). exists ps. repeat split; [done|..].
    + eapply alignment_mono; [| |exact Ha]; lia.
    + unfold alignment_cost in *. lia.
  - destruct IHj as (ps & ? & Ha & Hc). exists ps. repeat split; [done|..].
    + eapply alignment_mono; [| |exact Ha]; lia.
    + unfold alignment_cost in *. lia.
  - destruct (decide (fp = Some (i, j))) as [|Hne]; [by apply elem_of_nil in Hin|].
    apply list_elem_of_singleton in Hin as ->.
    destruct (IHi j) as (ps & ? & Ha & Hc). exists ((i, j) :: ps).
    repeat split; [by constructor|lia|lia|done|].
    unfold alignment_cost in *. cbn [savings]. lia.
Qed.

Lemma edit_distance_le i j ps :
  avoids fp ps → alignment i j ps → (edit_distance i j ≤ alignment_cost b h i j ps)%Z.
Proof.
  revert j ps. induction i as [|i IHi]; intros j ps Hav Ha.
  { destruct ps as [|[i' j'] ps]; [unfold alignment_cost; cbn -[Z.of_nat]; lia|]. cbn in Ha. lia. }
  induction j as [|j IHj].
  { destruct ps as [|[i' j'] ps]; [unfold alignment_cost; cbn -[Z.of_nat]; lia|]. cbn in Ha. lia. }
  rewrite edit_distance_S. edestruct min_of_spec as [_ Hle].
  assert (Hup : (edit_distance i (S j) + 1 ≤ alignment_cost b h (S i) (S j) ps)%Z ∨
                (edit_distance (S i) j + 1 ≤ alignment_cost b h (S i) (S j) ps)%Z ∨
                fp ≠ Some (i, j) ∧
                (edit_distance i j + pair_cost_at b h i j ≤ alignment_cost b h (S i) (S j) ps)%Z).
  { destruct ps as [|[i' j'] ps].
    - left. specialize (IHi (S j) [] Hav I). unfold alignment_cost in *. lia.
    - destruct Ha as (Hi & Hj & Ha).
      destruct (decide (i' = i)) as [->|]; [destruct (decide (j' = j)) as [->|]|].
      + inversion Hav; subst. right; right. split; [done|].
        specialize (IHi j ps ltac:(done) Ha). unfold alignment_cost in *. cbn [savings]. lia.
      + right; left. assert (Ha' : alignment (S i) j ((i, j') :: ps)) by (cbn; intuition lia).
        specialize (IHj Ha'). unfold alignment_cost in *. lia.
      + left. assert (Ha' : alignment i (S j) ((i', j') :: ps)) by (cbn; intuition lia).
        specialize (IHi (S j) _ Hav Ha'). unfold alignment_cost in *. lia. }
  destruct Hup as [H|[H|[Hne H]]]; (etrans; [apply Hle|exact H]).
  - set_solver.
  - set_solver.
  - rewrite decide_False by done. set_solver.
Qed.

Lemma edit_distance_least i j : least_cost (avoids fp) b h i j (edit_distance i j).
Proof.
  split; [apply edit_distance_attained|].
  intros ps Hav Ha. by apply edit_distance_le.
Qed.
End reference.

(** * The matrices hold the reference values *)

Section matrices.
Context (fp : option (nat * nat)) (b h : list string).

Lemma fill_row_cons bi bl hl hs hj diag up row left :
  fill_row fp bi bl (hl :: hs) hj (diag :: up :: row) left =
  let cost := min_of (up + 1)%Z
    ((left + 1)%Z :: (if decide (fp = Some (bi, hj)) then []
                      else [(diag + (if decide (bl = hl) then 0 else 2))%Z])) in
  cost :: fill_row fp bi bl hs (S hj) (up :: row) cost.
Proof. done. Qed.

Lemma fill_row_reference bi bl hs hj :
  bl = line_at b bi → hs = drop hj h → hj ≤ length h →
  fill_row fp bi bl hs hj (edit_distance fp b h bi <$> seq hj (S (length hs)))
    (edit_distance fp b h (S bi) hj) =
  edit_distance fp b h (S bi) <$> seq (S hj) (length hs).
Proof.
  intros ->. revert hj. induction hs as [|hl hs IH]; intros hj Hhs Hlen; [done|].
  assert (Hhl : h !! hj = Some hl).
  { rewrite <-(Nat.add_0_r hj), <-lookup_drop, <-Hhs. done. }
  assert (Hl : line_at h hj = hl) by (unfold line_at; by rewrite Hhl).
  cbn [length seq]. rewrite !fmap_cons, fill_row_cons. 
  rewrite <-Hl. fold (pair_cost_at b h bi hj).
  rewrite <-edit_distance_S. f_equal.
  rewrite <-fmap_cons. change (S hj :: seq (S (S hj)) (length hs)) with (seq (S hj) (S (length hs))).
  apply IH.
  - apply (f_equal (drop 1)) in Hhs. rewrite drop_drop in Hhs. cbn in Hhs.
    by rewrite Nat.add_comm in Hhs.
  - apply lookup_lt_Some in Hhl. lia.
Qed.

Lemma fill_rows_reference bs bi :
  bs = drop bi b →
  fill_rows fp bi bs h (edit_distance fp b h bi <$> seq 0 (S (length h))) =
  (λ i, edit_distance fp b h i <$> seq 0 (S (length h))) <$> seq (S bi) (length bs).
Proof.
  revert bi. induction bs as [|bl bs IH]; intros bi Hbs; [done|].
  assert (Hbl : b !! bi = Some bl).
  { rewrite <-(Nat.add_0_r bi), <-lookup_drop, <-Hbs. done. }
  cbn [fill_rows].
  assert (Hrow : Z.of_nat (S bi) :: fill_row fp bi bl h 0
      (edit_distance fp b h bi <$> seq 0 (S (length h))) (Z.of_nat (S bi)) =
    edit_distance fp b h (S bi) <$> seq 0 (S (length h))).
  { change (Z.of_nat (S bi)) with (edit_distance fp b h (S bi) 0).
    rewrite fill_row_reference; [done| |done|lia]. unfold line_at. by rewrite Hbl. }
  rewrite Hrow. cbn [length seq fmap list_fmap]. f_equal. apply IH.
  apply (f_equal (drop 1)) in Hbs. rewrite drop_drop in Hbs. cbn in Hbs.
  by rewrite Nat.add_comm in Hbs.
Qed.

Lemma edit_costs_reference :
  _edit_costs b h fp =
  (λ i, edit_distance fp b h i <$> seq 0 (S (length h))) <$> seq 0 (S (length b)).
Proof.
  unfold _edit_costs. cbv zeta.
  change (Z.of_nat <$> seq 0 (S (length h))) with (edit_distance fp b h 0 <$> seq 0 (S (length h))).
  rewrite fill_rows_reference by done. done.
Qed.

Lemma cell_edit_costs i j :
  i ≤ length b → j ≤ length h → cell (_edit_costs b h fp) i j = edit_distance fp b h i j.
Proof.
  intros Hi Hj. rewrite edit_costs_reference. unfold cell.
  rewrite list_lookup_fmap, lookup_seq_lt by lia. cbn [fmap option_fmap option_map mbind option_bind].
  rewrite list_lookup_fmap, lookup_seq_lt by lia. done.
Qed.

Lemma last_cell_edit_costs :
  last_cell (_edit_costs b h fp) = edit_distance fp b h (length b) (length h).
Proof.
  rewrite edit_costs_reference. unfold last_cell.
  rewrite (seq_S (length b)), fmap_app, last_app. cbn [fmap list_fmap last].
  cbn [mbind option_bind default]. rewrite (seq_S (length h)), fmap_app, last_app. done.
Qed.
End matrices.

(** * Reversal: the suffix matrix *)

Section reversal.
Context (b h : list string).

(** Mirror image of a position *)
Definition mirror (p : nat * nat) : nat * nat := (length b - S p.1, length h - S p.2).

(** Alignments of the lines from [(li, lj)] on. *)
Fixpoint alignment_from (li lj i j : nat) (ps : list (nat * nat)) : Prop :=
  match ps with
  | [] => True
  | (i', j') :: ps' => li ≤ i' < i ∧ lj ≤ j' < j ∧ alignment_from li lj i' j' ps'
  end.

Lemma alignment_from_snoc li lj i j ps x y :
  alignment_from li lj i j (ps ++ [(x, y)]) ↔
  alignment_from (S x) (S y) i j ps ∧ li ≤ x < i ∧ lj ≤ y < j.
Proof.
  revert i j. induction ps as [|[i' j'] ps IH]; intros i j; cbn; [intuition lia|].
  rewrite IH. intuition lia.
Qed.

Lemma alignment_split i j qs x y rs :
  alignment i j (qs ++ (x, y) :: rs) ↔
  alignment_from (S x) (S y) i j qs ∧ x < i ∧ y < j ∧ alignment x y rs.
Proof.
  revert i j. induction qs as [|[i' j'] qs IH]; intros i j; cbn; [intuition lia|].
  rewrite IH. intuition lia.
Qed.

Lemma alignment_from_mirror li lj i j qs :
  i ≤ length b → j ≤ length h → alignment_from li lj i j qs →
  alignment (length b - li) (length h - lj) (reverse (mirror <$> qs)).
Proof.
  intros Hi Hj. revert li lj.
  induction qs as [|[x y] qs IH] using rev_ind; intros li lj; [done|].
  rewrite alignment_from_snoc, fmap_app, reverse_app. cbn.
  intros (H & ? & ?). split; [lia|]. split; [lia|].
  by apply IH.
Qed.

Lemma mirror_alignment li lj ps :
  alignment (length b - li) (length h - lj) ps →
  alignment_from li lj (length b) (length h) (reverse (mirror <$> ps)).
Proof.
  revert li lj. induction ps as [|[x y] ps IH]; intros li lj; [done|].
  intros (Hx & Hy & H). rewrite fmap_cons, reverse_cons. apply alignment_from_snoc. cbn.
  split; [|lia]. apply IH.
  eapply alignment_mono; [| |exact H]; lia.
Qed.

Lemma alignment_from_bound li lj i j qs :
  alignment_from li lj i j qs → Forall (λ p, p.1 < i ∧ p.2 < j) qs.
Proof.
  revert i j. induction qs as [|[x y] qs IH]; intros i j; cbn; [constructor|].
  intros (? & ? & ?%IH). constructor; [cbn; lia|].
  eapply Forall_impl; [done|]. cbn. lia.
Qed.

Lemma alignment_bound i j ps : alignment i j ps → Forall (λ p, p.1 < i ∧ p.2 < j) ps.
Proof.
  revert i j. induction ps as [|[x y] ps IH]; intros i j; cbn; [constructor|].
  intros (? & ? & H%IH). constructor; [done|].
  eapply Forall_impl; [done|]. cbn. lia.
Qed.

Lemma pair_cost_mirror i j :
  i < length b → j < length h →
  pair_cost_at (reverse b) (reverse h) (length b - S i) (length h - S j) = pair_cost_at b h i j.
Proof.
  intros Hi Hj. unfold pair_cost_at, line_at.
  rewrite !reverse_lookup by lia.
  by replace (length b - S (length b - S i)) with i by lia;
    replace (length h - S (length h - S j)) with j by lia.
Qed.

Lemma savings_reverse b' h' ps : savings b' h' (reverse ps) = savings b' h' ps.
Proof.
  induction ps as [|[i j] ps IH]; [done|].
  rewrite reverse_cons, savings_app, IH. cbn. lia.
Qed.

Lemma savings_mirror ps :
  Forall (λ p, p.1 < length b ∧ p.2 < length h) ps →
  savings (reverse b) (reverse h) (reverse (mirror <$> ps)) = savings b h ps.
Proof.
  intros Hps. rewrite savings_reverse. induction Hps as [|[i j] ps [Hi Hj] _ IH]; [done|].
  cbn in *. rewrite IH, pair_cost_mirror by done. done.
Qed.

Lemma savings_unmirror ps :
  Forall (λ p, p.1 < length b ∧ p.2 < length h) ps →
  savings b h (reverse (mirror <$> ps)) = savings (reverse b) (reverse h) ps.
Proof.
  intros Hps. rewrite savings_reverse. induction Hps as [|[i j] ps [Hi Hj] _ IH]; [done|].
  cbn in *. rewrite IH, <-pair_cost_mirror by lia.
  by replace (length b - S (length b - S i)) with i by lia;
    replace (length h - S (length h - S j)) with j by lia.
Qed.

Lemma cell_suffix i j :
  i ≤ length b → j ≤ length h →
  cell (_suffix_edit_costs b h) i j =
  edit_distance None (reverse b) (reverse h) (length b - i) (length h - j).
Proof.
  intros Hi Hj. unfold _suffix_edit_costs, cell at 1. cbv zeta.
  rewrite list_lookup_fmap, lookup_seq_lt by lia. cbn [fmap option_fmap option_map mbind option_bind].
  rewrite list_lookup_fmap, lookup_seq_lt by lia. cbn [fmap option_fmap option_map default].
  rewrite cell_edit_costs; rewrite ?length_reverse; [done|lia|lia].
Qed.

(** ** Least cost through a pair *)

Definition forced_cost (i j : nat) : Z :=
  (cell (_edit_costs b h None) i j + pair_cost_at b h i j +
   cell (_suffix_edit_costs b h) (S i) (S j))%Z.

Lemma avoids_None ps : avoids None ps.
Proof. apply Forall_true. done. Qed.

Lemma forced_cost_least i j :
  i < length b → j < length h →
  least_cost (λ ps, (i, j) ∈ ps) b h (length b) (length h) (forced_cost i j).
Proof.
  intros Hi Hj. unfold forced_cost. rewrite cell_edit_costs, cell_suffix by lia.
  destruct (edit_distance_least None b h i j) as [(rs & _ & Hrs & Hcr) Hler].
  destruct (edit_distance_least None (reverse b) (reverse h) (length b - S i) (length h - S j))
    as [(qs & _ & Hqs & Hcq) Hleq].
  split.
  - assert (Hb : Forall (λ p, p.1 < length b ∧ p.2 < length h) qs).
    { eapply Forall_impl; [by eapply alignment_bound|]. cbn. lia. }
    exists (reverse (mirror <$> qs) ++ (i, j) :: rs). split; [set_solver|]. split.
    + apply alignment_split. apply mirror_alignment in Hqs. done.
    + unfold alignment_cost in *. rewrite savings_app. cbn [savings].
      rewrite savings_unmirror by done. lia.
  - intros ps Hin Ha. apply list_elem_of_split in Hin as (qs' & rs' & ->).
    apply alignment_split in Ha as (Hq' & _ & _ & Hr').
    specialize (Hler _ (avoids_None _) Hr').
    pose proof (alignment_from_bound _ _ _ _ _ Hq') as Hbd.
    apply alignment_from_mirror in Hq'; [|done..].
    specialize (Hleq _ (avoids_None _) Hq').
    unfold alignment_cost in *. rewrite savings_app. cbn [savings].
    rewrite savings_mirror in Hleq by done. lia.
Qed.
End reversal.

(** * Costs against optimal alignments *)

Section optimal.
Context (b h : list string).

Let global := last_cell (_edit_costs b h None).

Lemma global_least : least_cost (avoids None) b h (length b) (length h) global.
Proof. unfold global. rewrite last_cell_edit_costs. apply edit_distance_least. Qed.

Lemma optimal_cost ps :
  optimal b h ps ↔
  alignment (length b) (length h) ps ∧ alignment_cost b h (length b) (length h) ps = global.
Proof.
  destruct global_least as [(qs & _ & Hq & Hc) Hle]. split.
  - intros [Ha Ho]. split; [done|].
    specialize (Ho _ Hq). specialize (Hle ps (avoids_None _) Ha). lia.
  - intros [Ha Hcp]. split; [done|]. intros rs Hr.
    specialize (Hle rs (avoids_None _) Hr). lia.
Qed.

Lemma optimal_exists : ∃ ps, optimal b h ps.
Proof.
  destruct global_least as [(ps & _ & Ha & Hc) _]. exists ps. by apply optimal_cost.
Qed.

Context (i j : nat) (Hi : i < length b) (Hj : j < length h).
Let forced := forced_cost b h i j.
Let forbidden := last_cell (_edit_costs b h (Some (i, j))).

Lemma forbidden_least : least_cost (λ ps, (i, j) ∉ ps) b h (length b) (length h) forbidden.
Proof.
  unfold forbidden. rewrite last_cell_edit_costs.
  destruct (edit_distance_least (Some (i, j)) b h (length b) (length h)) as [(ps & Hav & H) Hle].
  assert (Hiff : ∀ qs, avoids (Some (i, j)) qs ↔ (i, j) ∉ qs).
  { intros qs. unfold avoids. rewrite Forall_forall. split.
    - intros Hq Hin. by apply (Hq _ Hin).
    - intros Hn p Hp [= <-]. done. }
  split; [exists ps; by rewrite <-Hiff|]. intros qs Hq. apply Hle. by apply Hiff.
Qed.

Lemma global_le_forced : (global ≤ forced)%Z.
Proof.
  destruct (forced_cost_least b h i j Hi Hj) as [(ps & _ & Ha & Hc) _].
  destruct global_least as [_ Hle]. specialize (Hle ps (avoids_None _) Ha).
  unfold forced in *. lia.
Qed.

Lemma forced_is_global :
  forced = global ↔ ∃ ps, optimal b h ps ∧ (i, j) ∈ ps.
Proof.
  destruct (forced_cost_least b h i j Hi Hj) as [(ps & Hin & Ha & Hc) Hle]. fold forced in Hc, Hle.
  split.
  - intros E. exists ps. split; [|done]. apply optimal_cost. split; [done|]. lia.
  - intros (qs & Ho & Hq). apply optimal_cost in Ho as [Hqa Hqc].
    specialize (Hle qs Hq Hqa). pose proof global_le_forced. lia.
Qed.

Lemma global_below_forbidden :
  (global < forbidden)%Z ↔ ∀ ps, optimal b h ps → (i, j) ∈ ps.
Proof.
  destruct forbidden_least as [(ps & Hin & Ha & Hc) Hle]. split.
  - intros Hlt qs [Hqa Hqc]%optimal_cost. destruct (decide ((i, j) ∈ qs)) as [|Hn]; [done|].
    specialize (Hle qs Hn Hqa). lia.
  - intros Hall. destruct global_least as [_ Hg]. specialize (Hg ps (avoids_None _) Ha).
    destruct (decide (global = forbidden)) as [E|]; [|lia].
    destruct Hin. apply Hall, optimal_cost. split; [done|]. lia.
Qed.

End optimal.

(** * Memo tables *)

(** Every stored entry is the value the code would compute for its key. *)
Definition coherent (m : memo) : Prop :=
  (∀ bs hs p, memo_matrices m !! (bs, hs) = Some p →
     p = (_edit_costs (splitlines bs) (splitlines hs) None,
          _suffix_edit_costs (splitlines bs) (splitlines hs))) ∧
  (∀ bs hs i j c, memo_forbidden m !! (bs, hs, i, j) = Some c →
     c = last_cell (_edit_costs (splitlines bs) (splitlines hs) (Some (i, j)))).

Lemma coherent_empty : coherent empty_memo.
Proof. split; intros *; cbn; rewrite lookup_empty; done. Qed.

Definition costs_of (context : _ContinuityContext) : CostEvidence :=
  let b := ctx_base_lines context in
  let h := ctx_head_lines context in
  let i := Z.to_nat (ctx_base_index context) in
  let j := Z.to_nat (ctx_head_index context) in
  {| ce_cells := ctx_cells context;
     ce_global_cost := last_cell (_edit_costs b h None);
     ce_forced_cost := forced_cost b h i j;
     ce_forbidden_cost := last_cell (_edit_costs b h (Some (i, j)));
     ce_pair_cost := pair_cost_at b h i j |}.

Lemma cost_evidence_coherent context bs hs m :
  coherent m → ctx_base_lines context = splitlines bs → ctx_head_lines context = splitlines hs →
  ∃ m', _continuity_cost_evidence context (bs, hs) m = (costs_of context, m') ∧ coherent m'.
Proof.
  intros [Hm Hf] Eb Eh. unfold _continuity_cost_evidence. cbv zeta.
  set (i := Z.to_nat _); set (j := Z.to_nat _).
  assert (H1 : ∃ m1,
    match memo_matrices m !! (bs, hs) with
    | Some matrices => (matrices, m)
    | None =>
        ((_edit_costs (ctx_base_lines context) (ctx_head_lines context) None,
          _suffix_edit_costs (ctx_base_lines context) (ctx_head_lines context)),
         {| memo_matrices := <[(bs, hs) :=
              (_edit_costs (ctx_base_lines context) (ctx_head_lines context) None,
               _suffix_edit_costs (ctx_base_lines context) (ctx_head_lines context))]>
              (memo_matrices m); memo_forbidden := memo_forbidden m |})
    end = ((_edit_costs (ctx_base_lines context) (ctx_head_lines context) None,
            _suffix_edit_costs (ctx_base_lines context) (ctx_head_lines context)), m1) ∧ coherent m1).
  { destruct (memo_matrices m !! (bs, hs)) as [p|] eqn:E.
    - exists m. split; [|done]. by rewrite (Hm _ _ _ E), Eb, Eh.
    - eexists. split; [done|]. split; cbn; [|done].
      intros bs' hs' p. destruct (decide ((bs', hs') = (bs, hs))) as [[= -> ->]|Hne].
      + rewrite lookup_insert_eq. intros [= <-]. by rewrite Eb, Eh.
      + rewrite lookup_insert_ne by done. apply Hm. }
  destruct H1 as (m1 & -> & Hm1 & Hf1).
  destruct (memo_forbidden m1 !! (bs, hs, i, j)) as [c|] eqn:E.
  - exists m1. split; [|done]. rewrite (Hf1 _ _ _ _ _ E), <-Eb, <-Eh. done.
  - eexists. split; [done|]. split; cbn; [done|].
    intros bs' hs' i' j' c. destruct (decide ((bs', hs', i', j') = (bs, hs, i, j))) as [[= -> -> -> ->]|Hne].
    + rewrite lookup_insert_eq. intros [= <-]. by rewrite Eb, Eh.
    + rewrite lookup_insert_ne by done. apply Hf1.
Qed.

(** * The decision *)

Lemma continuity_context_inl bl hl bs hs ctx :
  _continuity_context bl hl (Some bs) (Some hs) = inl ctx →
  ctx_base_lines ctx = splitlines bs ∧ ctx_head_lines ctx = splitlines hs ∧
  Z.of_nat (Z.to_nat (ctx_base_index ctx)) = (bl - 1)%Z ∧
  Z.of_nat (Z.to_nat (ctx_head_index ctx)) = (hl - 1)%Z ∧
  Z.to_nat (ctx_base_index ctx) < length (splitlines bs) ∧
  Z.to_nat (ctx_head_index ctx) < length (splitlines hs) ∧
  ctx_cells ctx = ((Z.of_nat (length (splitlines bs)) + 1) *
                   (Z.of_nat (length (splitlines hs)) + 1))%Z ∧
  (ctx_cells ctx ≤ _MAX_CORRESPONDENCE_CELLS)%Z.
Proof.
  unfold _continuity_context, continuity_context_lines. cbv zeta.
  destruct (_continuity_within_bounds bs hs (splitlines bs) (splitlines hs) _) eqn:Hb; [|done].
  cbn [negb]. destruct (_continuity_anchor_is_valid _) eqn:Hv; [|done]. intros [= <-]. cbn.
  unfold _continuity_anchor_is_valid in Hv. cbn in Hv.
  unfold _continuity_within_bounds in Hb.
  rewrite !andb_true_iff in Hv, Hb. repeat split; lia.
Qed.

Lemma line_anchor_line b h i j :
  _line_anchor b i = _line_anchor h j → pair_cost_at b h i j = 0%Z.
Proof. unfold _line_anchor, pair_cost_at. intros [= _ E _]. by rewrite decide_True. Qed.

Definition unique_anchor (b h : list string) (i j : nat) : Prop :=
  count_line (line_at b i) b = 1%Z ∧ count_line (line_at h j) h = 1%Z.

Lemma decision_spec ctx :
  let b := ctx_base_lines ctx in
  let h := ctx_head_lines ctx in
  let i := Z.to_nat (ctx_base_index ctx) in
  let j := Z.to_nat (ctx_head_index ctx) in
  i < length b → j < length h →
  match (_continuity_decision ctx (costs_of ctx)).1 with
  | Unchanged => unique_anchor b h i j ∧ _line_anchor b i = _line_anchor h j ∧
      ∀ ps, optimal b h ps → (i, j) ∈ ps
  | Introduced => unique_anchor b h i j ∧
      (_line_anchor b i ≠ _line_anchor h j ∨ ∀ ps, optimal b h ps → (i, j) ∉ ps)
  | Unknown => ¬ unique_anchor b h i j ∨
      _line_anchor b i = _line_anchor h j ∧
      (∃ ps, optimal b h ps ∧ (i, j) ∈ ps) ∧ ∃ ps, optimal b h ps ∧ (i, j) ∉ ps
  end.
Proof.
  intros b h i j Hi Hj. unfold _continuity_decision. fold b h i j.
  destruct (decide (unique_anchor b h i j)) as [[U1 U2]|Hu].
  2:{ assert (E : negb (count_line (line_at b i) b =? 1)%Z
                  || negb (count_line (line_at h j) h =? 1)%Z = true).
      { apply orb_true_iff. rewrite !negb_true_iff, !Z.eqb_neq.
        destruct (decide (count_line (line_at b i) b = 1%Z)); [right|by left].
        intros E. by apply Hu. }
      rewrite E. by left. }
  rewrite U1, U2. cbn [Z.eqb Pos.eqb negb orb].
  case_bool_decide as Ha; [by cbn; split; [split|left]|].
  pose proof (forced_is_global b h i j Hi Hj) as HF.
  pose proof (global_below_forbidden b h i j Hi Hj) as HN.
  pose proof (global_le_forced b h i j Hi Hj) as HG.
  unfold costs_of. fold b h i j. cbn [ce_pair_cost ce_forced_cost ce_global_cost ce_forbidden_cost].
  rewrite (line_anchor_line _ _ _ _ Ha). cbn [Z.eqb negb andb orb].
  destruct (Z.eqb_spec (forced_cost b h i j) (last_cell (_edit_costs b h None))) as [Ef|Ef].
  - destruct (Z.ltb_spec (last_cell (_edit_costs b h None))
               (last_cell (_edit_costs b h (Some (i, j))))) as [Hlt|Hge].
    + cbn. split; [done|]. split; [done|]. by apply HN.
    + replace (last_cell (_edit_costs b h None) <? forced_cost b h i j)%Z with false by lia.
      cbn. right. split; [done|]. split; [by apply HF|].
      destruct (forbidden_least b h i j) as [(ps & Hin & Hal & Hc) Hle].
      exists ps. split; [|done]. apply (proj2 (optimal_cost b h ps)). split; [done|].
      pose proof (global_least b h) as [_ Hgl].
      specialize (Hgl ps (avoids_None _) Hal). lia.
  - replace (last_cell (_edit_costs b h None) <? forced_cost b h i j)%Z with true by lia.
    cbn. split; [done|]. right. intros ps Ho Hin. apply Ef, HF. by exists ps.
Qed.

Section continuity.
Context `{Sha256}.

Lemma continuity_inl base head bs hs m ctx :
  coherent m →
  _continuity_context (df_line base) (df_line head) (Some bs) (Some hs) = inl ctx →
  ∃ ev m', coherent m' ∧
    _continuity base head (Some bs) (Some hs) m =
      ((_continuity_decision ctx (costs_of ctx)).1,
       dict_merge ev [("decision", JStr (_continuity_decision ctx (costs_of ctx)).2)], m').
Proof.
  intros Hm Hc. pose proof (continuity_context_inl _ _ _ _ _ Hc) as (Eb & Eh & _).
  destruct (cost_evidence_coherent ctx bs hs m Hm Eb Eh) as (m' & Hce & Hm').
  unfold _continuity. rewrite Hc. cbv beta iota zeta. unfold default, from_option, id. rewrite Hce.
  destruct (_continuity_decision ctx (costs_of ctx)) as [st d]. eauto.
Qed.

(** C8 the continuity verdict is a statement about optimal alignments.
    Within bounds and at valid anchors, whatever coherent contents the memo
    tables already have (each entry is what computing it would give, which the
    calls keep so), a pair is [Unchanged] exactly when both lines occur once, their
    anchors (line and neighbours) agree and every minimum-cost alignment of
    the two files matches the two lines; it is [Introduced] exactly when both
    lines occur once and either the anchors differ or no minimum-cost
    alignment matches them. *)
Theorem continuity_verdict (base head : DifferentialFinding) (bs hs : string) (m : memo)
    (ctx : _ContinuityContext)
    (Hm : coherent m)
    (Hctx : _continuity_context (df_line base) (df_line head) (Some bs) (Some hs) = inl ctx) :
  let b := splitlines bs in
  let h := splitlines hs in
  let i := Z.to_nat (df_line base - 1) in
  let j := Z.to_nat (df_line head - 1) in
  let st := (_continuity base head (Some bs) (Some hs) m).1.1 in
  (st = Unchanged ↔
     unique_anchor b h i j ∧ _line_anchor b i = _line_anchor h j ∧
     ∀ ps, optimal b h ps → (i, j) ∈ ps) ∧
  (st = Introduced ↔
     unique_anchor b h i j ∧
     (_line_anchor b i ≠ _line_anchor h j ∨ ∀ ps, optimal b h ps → (i, j) ∉ ps)).
Proof.
  intros b h i j st.
  destruct (continuity_inl base head bs hs m ctx Hm Hctx) as (ev & m' & _ & E).
  pose proof (continuity_context_inl _ _ _ _ _ Hctx) as (Eb & Eh & Ei & Ej & Hi & Hj & _).
  assert (Hst : st = (_continuity_decision ctx (costs_of ctx)).1) by (unfold st; by rewrite E).
  assert (Ii : Z.to_nat (ctx_base_index ctx) = i) by lia.
  assert (Ij : Z.to_nat (ctx_head_index ctx) = j) by lia.
  pose proof (decision_spec ctx) as D. cbv zeta in D.
  rewrite Eb, Eh, Ii, Ij in D. rewrite Ii in Hi. rewrite Ij in Hj.
  specialize (D Hi Hj). rewrite <-Hst in D. fold b h in D.
  destruct (optimal_exists b h) as [os Hos].
  destruct st; (split; [split|split]); try done.
  - intros (_ & [Hn|Hn]); destruct D as (_ & Ha & D); [done|]. by destruct (Hn os Hos (D os Hos)).
  - intros (_ & Ha & Hn). destruct D as (_ & [D|D]); [done|]. by destruct (D os Hos (Hn os Hos)).
  - intros (? & ? & Hn). destruct D as [?|(_ & _ & qs & Ho & Hq)]; [done|]. by destruct (Hq (Hn qs Ho)).
  - intros (? & [Hn|Hn]); destruct D as [?|(Ha & (qs & Ho & Hq) & _)]; try done.
    by destruct (Hn qs Ho Hq).
Qed.

Lemma continuity_memo_coherent (base head : DifferentialFinding) (sb sh : option string) (m : memo) :
  coherent m →
  coherent (_continuity base head sb sh m).2 ∧
  (_continuity base head sb sh m).1 = (_continuity base head sb sh empty_memo).1.
Proof.
  intros Hm.   unfold _continuity.
  destruct (_continuity_context (df_line base) (df_line head) sb sh) as [ctx|r] eqn:Hc; [|done].
  destruct sb as [bs|], sh as [hs|]; try done.
  pose proof (continuity_context_inl _ _ _ _ _ Hc) as (Eb & Eh & _).
  cbv beta iota zeta. unfold default, from_option, id.
  destruct (cost_evidence_coherent ctx bs hs m Hm Eb Eh) as (m1 & -> & Hm1).
  destruct (cost_evidence_coherent ctx bs hs _ coherent_empty Eb Eh) as (m2 & -> & _).
  destruct (_continuity_decision ctx (costs_of ctx)) as [st d]. done.
Qed.

(** C9 the shared memo tables never change a result: started from coherent
    tables, [_continuity] leaves them coherent and returns the status and
    the evidence it would have computed from empty tables. *)
Theorem continuity_memo_transparent (base head : DifferentialFinding) (sb sh : option string)
    (m : memo) (Hm : coherent m) :
  coherent (_continuity base head sb sh m).2 ∧
  (_continuity base head sb sh m).1 = (_continuity base head sb sh empty_memo).1.
Proof. by apply continuity_memo_coherent. Qed.
End continuity.

(** The matrices stay within the declared budget: when a context is
    produced, the forward matrix has exactly [ctx_cells] cells, which is at
    most [_MAX_CORRESPONDENCE_CELLS], one row per base line and one column per
    head line, plus one of each. *)
Theorem continuity_cells_bounded (bl hl : Z) (bs hs : string) (ctx : _ContinuityContext)
    (fp : option (nat * nat))
    (Hctx : _continuity_context bl hl (Some bs) (Some hs) = inl ctx) :
  let costs := _edit_costs (ctx_base_lines ctx) (ctx_head_lines ctx) fp in
  foldr (λ row n, Z.of_nat (length row) + n)%Z 0%Z costs = ctx_cells ctx ∧
  (ctx_cells ctx ≤ _MAX_CORRESPONDENCE_CELLS)%Z ∧
  Forall (λ row, length row = S (length (ctx_head_lines ctx))) costs.
Proof.
  pose proof (continuity_context_inl _ _ _ _ _ Hctx) as (Eb & Eh & _ & _ & _ & _ & Ec & Hle).
  intros costs. rewrite Ec. unfold costs. rewrite edit_costs_reference, Eb, Eh.
  split; [|split; [lia|]].
  - generalize (splitlines bs). intros b. generalize (splitlines hs). intros h.
    assert (E : ∀ l, foldr (λ row n, Z.of_nat (length row) + n)%Z 0%Z
      ((λ i, edit_distance fp b h i <$> seq 0 (S (length h))) <$> l) =
      (Z.of_nat (length l) * (Z.of_nat (length h) + 1))%Z).
    { induction l as [|x l IH]; [done|]. rewrite fmap_cons. cbn [foldr]. rewrite IH.
      rewrite length_fmap, length_seq. cbn [length]. lia. }
    rewrite E, length_seq. lia.
  - apply Forall_fmap, Forall_true. intros x. cbn. by rewrite length_fmap, length_seq.
Qed.

(** ** Witnesses *)

Section samples.
(** A stand-in digest for the samples: the padded length. *)
#[local] Instance sample_sha : Sha256 := λ bytes, of_chars (replicate 64 "0"%char ++ chars (pretty (length bytes))).

Definition nl : string := String (ascii_of_nat 10) "".
Definition lines_text (ls : list string) : string := String.concat "" ((λ l, l ++ nl)%string <$> ls).
Definition sample_at (line : Z) : DifferentialFinding :=
  {| df_analyzer := "ruff"; df_rule := "E501"; df_severity := "error"; df_path := "a.py";
     df_line := line; df_message := "m"; df_blocking := true |}.
Definition old_text : string := lines_text ["a"; "b"; "c"; "d"].
Definition new_text : string := lines_text ["z"; "a"; "b"; "c"].
Definition sample_context : _ContinuityContext :=
  {| ctx_base_lines := ["a"; "b"; "c"; "d"]; ctx_head_lines := ["z"; "a"; "b"; "c"];
     ctx_base_index := 1; ctx_head_index := 2; ctx_cells := 25 |}.

Lemma continuity_verdict_witness :
  (_continuity (sample_at 2) (sample_at 3) (Some old_text) (Some new_text) empty_memo).1.1 = Unchanged ∧
  ∀ ps, optimal (splitlines old_text) (splitlines new_text) ps → (1, 2) ∈ ps.
Proof.
  assert (Hc : _continuity_context 2 3 (Some old_text) (Some new_text) = inl sample_context)
    by (vm_compute; reflexivity).
  destruct (continuity_verdict (sample_at 2) (sample_at 3) old_text new_text empty_memo
              sample_context coherent_empty Hc) as [Hu _].
  assert (Hs : (_continuity (sample_at 2) (sample_at 3) (Some old_text) (Some new_text)
                  empty_memo).1.1 = Unchanged) by (vm_compute; reflexivity).
  split; [exact Hs|]. exact (proj2 (proj2 (proj1 Hu Hs))).
Defined.

Lemma continuity_memo_transparent_witness :
  let m := (_continuity (sample_at 2) (sample_at 3) (Some old_text) (Some new_text) empty_memo).2 in
  coherent m ∧
  (_continuity (sample_at 1) (sample_at 3) (Some old_text) (Some new_text) m).1 =
  (_continuity (sample_at 1) (sample_at 3) (Some old_text) (Some new_text) empty_memo).1.
Proof.
  intros m.
  assert (Hm : coherent m).
  { exact (proj1 (continuity_memo_transparent (sample_at 2) (sample_at 3) (Some old_text)
             (Some new_text) empty_memo coherent_empty)). }
  split; [exact Hm|].
  exact (proj2 (continuity_memo_transparent (sample_at 1) (sample_at 3) (Some old_text)
           (Some new_text) m Hm)).
Defined.

Lemma continuity_cells_bounded_witness :
  foldr (λ row n, Z.of_nat (length row) + n)%Z 0%Z
    (_edit_costs (splitlines old_text) (splitlines new_text) (Some (1, 2))) = 25%Z.
Proof.
  assert (Hc : _continuity_context 2 3 (Some old_text) (Some new_text) = inl sample_context)
    by (vm_compute; reflexivity).
  exact (proj1 (continuity_cells_bounded 2 3 old_text new_text sample_context (Some (1, 2)) Hc)).
Defined.

(** An introduced and an ambiguous pair. *)
Example continuity_introduced :
  (_continuity (sample_at 2) (sample_at 3) (Some old_text) (Some (lines_text ["b"; "a"; "c"]))
     empty_memo).1.1 = Introduced.
Proof. vm_compute. reflexivity. Qed.
Example continuity_ambiguous :
  (_continuity (sample_at 1) (sample_at 1) (Some (lines_text ["a"; "a"])) (Some (lines_text ["a"; "a"]))
     empty_memo).1.1 = Unknown.
Proof. vm_compute. reflexivity. Qed.
End samples.
