(* ===== verification/Locations.v ===== *)
(** Locations: source locations in UTF-8 byte columns, converted from code
    point or UTF-16 columns, of [specfact_code_review/run/differential.py].

    Here a decoded text is the list of its code points, so that text outside
    Latin-1 is covered; a source is its bytes, one character each. *)

From S2P Require Import Prelude Text Dict PyValue Json Correspondence.

(** * UTF-8 and UTF-16 *)

Definition bytes_of (source : string) : list N := N_of_ascii <$> chars source.
(** Code points that have an encoding *)
Definition is_scalar (n : N) : bool := (n <? 55296)%N || ((57344 <=? n) && (n <=? 1114111))%N.

(** [c.encode()] *)
Definition encode_char (n : N) : list N :=
  (if n <? 128 then [n]
   else if n <? 2048 then [192 + n / 64; 128 + n mod 64]
   else if n <? 65536 then [224 + n / 4096; 128 + (n / 64) mod 64; 128 + n mod 64]
   else [240 + n / 262144; 128 + (n / 4096) mod 64; 128 + (n / 64) mod 64; 128 + n mod 64])%N.
Definition encode (l : list N) : list N := l ≫= encode_char.

(** [bytes.decode("utf-8")]: the continuation bytes, the shortest form and the
    range of code points are checked; [None] is [UnicodeDecodeError]. *)
Definition cont (b : N) : bool := (128 <=? b)%N && (b <? 192)%N.
Definition two (a b : N) : N := ((a - 192) * 64 + (b - 128))%N.
Definition three (a b c : N) : N := ((a - 224) * 4096 + (b - 128) * 64 + (c - 128))%N.
Definition four (a b c d : N) : N :=
  ((a - 240) * 262144 + (b - 128) * 4096 + (c - 128) * 64 + (d - 128))%N.
Definition two_ok (a b : N) : bool := ((194 <=? a) && (a <? 224))%N && cont b.
Definition three_ok (a b c : N) : bool :=
  ((224 <=? a) && (a <? 240))%N && cont b && cont c && (2048 <=? three a b c)%N && is_scalar (three a b c).
Definition four_ok (a b c d : N) : bool :=
  ((240 <=? a) && (a <? 245))%N && cont b && cont c && cont d
  && ((65536 <=? four a b c d) && (four a b c d <=? 1114111))%N.
Fixpoint decode (l : list N) : option (list N) :=
  match l with
  | [] => Some []
  | a :: l1 =>
      if (a <? 128)%N then cons a <$> decode l1
      else
        match l1 with
        | b :: l2 =>
            if two_ok a b then cons (two a b) <$> decode l2
            else
              match l2 with
              | c :: l3 =>
                  if three_ok a b c then cons (three a b c) <$> decode l3
                  else
                    match l3 with
                    | d :: l4 => if four_ok a b c d then cons (four a b c d) <$> decode l4 else None
                    | [] => None
                    end
              | [] => None
              end
        | [] => None
        end
  end.

(** [len(c.encode("utf-16-le")) // 2] *)
Definition utf16_width (n : N) : Z := if (n <? 65536)%N then 1 else 2.

(** [str.splitlines()]: unlike [bytes.splitlines()] it also ends a line at
    vertical tab, form feed, the file, group and record separators, next line,
    and the Unicode line and paragraph separators. *)
Definition is_line_end (n : N) : bool :=
  bool_decide (n ∈ [10; 11; 12; 28; 29; 30; 133; 8232; 8233])%N.
Fixpoint text_lines_go (cur : list N) (l : list N) : list (list N) :=
  match l with
  | [] => match cur with [] => [] | _ => [reverse cur] end
  | c :: l' =>
      if is_line_end c then reverse cur :: text_lines_go [] l'
      else if (c =? 13)%N then
        match l' with
        | d :: l'' => if (d =? 10)%N then reverse cur :: text_lines_go [] l''
                      else reverse cur :: text_lines_go [] l'
        | [] => [reverse cur]
        end
      else text_lines_go (c :: cur) l'
  end.
Definition text_lines (l : list N) : list (list N) := text_lines_go [] l.

(** * Locations *)

Inductive location_precision := Exact | Line.
Record SourceSpan := {
  span_path : string;
  start_line : Z;
  start_column : Z;
  end_line : Z;
  end_column : Z;
  precision : location_precision
}.
Record LocatedFinding := { lf_analyzer : string; lf_location : SourceSpan }.
Inductive continuity_status := ContinuityPass | ContinuityUnknown.
Record ContinuityResult := { cr_status : continuity_status; cr_reason : string }.

Definition decode_error : exn := ValueError "invalid utf-8".

Definition line_fallback_location (path : string) (source : string) (line : Z) : result SourceSpan :=
  let! _ := check (1 <=? line)%Z (ContractViolation "line numbers are one-based") in
  let payload := default "" (splitlines source !! Z.to_nat (line - 1)) in
  match decode (bytes_of payload) with
  | None => Err decode_error
  | Some _ =>
      Ok {| span_path := path; start_line := line; start_column := 0; end_line := line;
            end_column := Z.of_nat (length (chars payload)); precision := Line |}
  end.

(** The units consumed and the characters kept by the loop *)
Fixpoint utf16_prefix (consumed : Z) (line : list N) (units : Z) : Z * list N :=
  match line with
  | [] => (consumed, [])
  | character :: line =>
      let width := utf16_width character in
      if (units <? consumed + width)%Z then (consumed, [])
      else if (consumed + width =? units)%Z then ((consumed + width)%Z, [character])
      else
        let '(consumed, characters) := utf16_prefix (consumed + width) line units in
        (consumed, character :: characters)
  end.
Definition _utf16_prefix_to_utf8_column (line : list N) (units : Z) : result Z :=
  let '(consumed, characters) := utf16_prefix 0 line units in
  if (consumed =? units)%Z then Ok (Z.of_nat (length (encode characters)))
  else Err (ValueError "coordinate splits a UTF-16 surrogate pair or exceeds the line").

Definition position : Type := Z * Z.
(** [(end_row, end_column) < (start_row, start_column)] *)
Definition before (p q : position) : bool := (p.1 <? q.1)%Z || ((p.1 =? q.1)%Z && (p.2 <? q.2)%Z).

Definition convert_exact_location (path source coordinate_system : string) (start end_ : position) :
    result SourceSpan :=
  match decode (bytes_of source) with
  | None => Err decode_error
  | Some text =>
      let lines := text_lines text in
      let rows := Z.of_nat (length lines) in
      if negb ((0 <=? start.1) && (start.1 <? rows))%Z || negb ((0 <=? end_.1) && (end_.1 <? rows))%Z
         || (start.2 <? 0)%Z || (end_.2 <? 0)%Z || before end_ start
      then Err (ValueError "source coordinate is outside the decoded source")
      else
        let start_text := default [] (lines !! Z.to_nat start.1) in
        let end_text := default [] (lines !! Z.to_nat end_.1) in
        let! (canonical_start, canonical_end) :=
          (if String.eqb coordinate_system "utf16-code-units"
           then
             let! s := _utf16_prefix_to_utf8_column start_text start.2 in
             let! e := _utf16_prefix_to_utf8_column end_text end_.2 in
             Ok (s, e)
           else if (Z.of_nat (length start_text) <? start.2)%Z || (Z.of_nat (length end_text) <? end_.2)%Z
           then Err (ValueError "source column is outside the decoded line")
           else Ok (Z.of_nat (length (encode (take (Z.to_nat start.2) start_text))),
                    Z.of_nat (length (encode (take (Z.to_nat end_.2) end_text))))) in
        Ok {| span_path := path; start_line := start.1 + 1; start_column := canonical_start;
              end_line := end_.1 + 1; end_column := canonical_end; precision := Exact |}
  end.

(** [raw[key]]: a missing key is not among the errors that are caught. *)
Definition raw_get (key : string) (raw : list (string * Z)) : result Z :=
  match dict_get key raw with Some z => Ok z | None => Err (KeyError key) end.
Definition caught (e : exn) : bool := match e with ValueError _ => true | _ => false end.
Definition normalize_location (analyzer path source : string) (raw : list (string * Z)) :
    result (LocatedFinding + ContinuityResult) :=
  let location :=
    let! row := raw_get "row" raw in
    let! column := raw_get "column" raw in
    let! end_row := raw_get "end_row" raw in
    let! end_column := raw_get "end_column" raw in
    convert_exact_location path source "unicode-code-points" (row - 1, column)%Z (end_row - 1, end_column)%Z in
  match location with
  | Ok location => Ok (inl {| lf_analyzer := analyzer; lf_location := location |})
  | Err e =>
      if caught e
      then Ok (inr {| cr_status := ContinuityUnknown; cr_reason := "invalid_source_coordinate" |})
      else Err e
  end.

Definition source_continuity (location : list (string * string)) : ContinuityResult :=
  if bool_decide (dict_get "kind" location = Some "source_span")
  then {| cr_status := ContinuityPass; cr_reason := "" |}
  else {| cr_status := ContinuityUnknown; cr_reason := "non_source_location" |}.

(** The two ways of splitting lines differ: a form feed starts a new row here,
    but not for [line_fallback_location]. *)
Definition form_feed_source : string := of_chars ["a"; ascii_of_nat 12; "b"; ascii_of_nat 10; "c"]%char.
Example form_feed_rows :
  length (splitlines form_feed_source) = 2 ∧
  convert_exact_location "p" form_feed_source "unicode-code-points" (1, 0)%Z (1, 1)%Z =
    Ok {| span_path := "p"; start_line := 2; start_column := 0; end_line := 2; end_column := 1; precision := Exact |} ∧
  text_lines (bytes_of form_feed_source) = [[97]; [98]; [99]]%N.
Proof. vm_compute. done. Qed.
