(* ===== verification/LocationProofs.v ===== *)
(** LocationProofs: UTF-8 decoding is inverse to encoding, and the converted
    columns are the byte offsets of character boundaries. *)

From S2P Require Import Prelude Text Dict PyValue Json Correspondence Locations.

Ltac Zify.zify_post_hook ::= Z.to_euclidean_division_equations.

(** * Encoding *)

(** Comparisons of the context as propositions *)
Ltac N_hyps :=
  bool_hyps; repeat match goal with
  | H : (_ <=? _)%N = true |- _ => apply N.leb_le in H
  | H : (_ <? _)%N = true |- _ => apply N.ltb_lt in H
  end.

(** Evaluate the comparisons of a decoding step. *)
Ltac decide_range :=
  repeat match goal with
  | |- context [(?a <? ?b)%N] =>
      first [rewrite (proj2 (N.ltb_lt a b)) by lia | rewrite (proj2 (N.ltb_ge a b)) by lia]
  | |- context [(?a <=? ?b)%N] =>
      first [rewrite (proj2 (N.leb_le a b)) by lia | rewrite (proj2 (N.leb_gt a b)) by lia]
  end; cbn [andb orb negb].

Lemma decode_encode_char n l : is_scalar n = true → decode (encode_char n ++ l) = cons n <$> decode l.
Proof.
  unfold is_scalar. rewrite orb_true_iff, andb_true_iff, N.ltb_lt, !N.leb_le. intros Hn. unfold encode_char.
  destruct (N.ltb_spec n 128); [|destruct (N.ltb_spec n 2048); [|destruct (N.ltb_spec n 65536)]];
    cbn [app decode].
  - decide_range. done.
  - unfold two_ok, cont. decide_range. f_equal. f_equal. unfold two. lia.
  - assert (E : three (224 + n / 4096) (128 + (n / 64) mod 64) (128 + n mod 64) = n) by (unfold three; lia).
    unfold two_ok, three_ok, is_scalar, cont. rewrite E. decide_range.
    destruct Hn as [Hn|[Hn Hn']]; decide_range; rewrite ?orb_true_r; done.
  - assert (E : four (240 + n / 262144) (128 + (n / 4096) mod 64) (128 + (n / 64) mod 64) (128 + n mod 64) = n)
      by (unfold four; lia).
    unfold two_ok, three_ok, four_ok, cont. rewrite E. decide_range. done.
Qed.

Lemma decode_encode cs : Forall (λ n, is_scalar n = true) cs → decode (encode cs) = Some cs.
Proof.
  induction 1 as [|n cs Hn _ IH]; [done|]. unfold encode in *. cbn [mbind list_bind].
  by rewrite decode_encode_char, IH.
Qed.

(** What a successful decoding step read *)
Lemma two_ok_spec a b : two_ok a b = true → encode_char (two a b) = [a; b] ∧ is_scalar (two a b) = true.
Proof.
  unfold two_ok, cont, is_scalar, encode_char, two. intros H. N_hyps.
  split; decide_range; [|done]. f_equal; [lia|]. f_equal. lia.
Qed.
Lemma three_ok_spec a b c :
  three_ok a b c = true → encode_char (three a b c) = [a; b; c] ∧ is_scalar (three a b c) = true.
Proof.
  unfold three_ok, cont, encode_char. intros H. bool_hyps. split; [|done]. N_hyps.
  assert (three a b c < 65536)%N by (unfold three; lia). decide_range. unfold three in *.
  f_equal; [lia|]. f_equal; [lia|]. f_equal. lia.
Qed.
Lemma four_ok_spec a b c d :
  four_ok a b c d = true → encode_char (four a b c d) = [a; b; c; d] ∧ is_scalar (four a b c d) = true.
Proof.
  unfold four_ok, cont, encode_char, is_scalar. intros H. N_hyps.
  split; decide_range; [|done]. unfold four in *.
  f_equal; [lia|]. f_equal; [lia|]. f_equal; [lia|]. f_equal. lia.
Qed.

(** Decoding succeeds on encodings only. *)
Lemma decode_inv n l cs :
  length l ≤ n → decode l = Some cs → encode cs = l ∧ Forall (λ n, is_scalar n = true) cs.
Proof.
  revert l cs. induction n as [|n IH]; intros l cs Hn; [destruct l; [|cbn in Hn; lia]; by intros [= <-]|].
  assert (Hstep : ∀ (m : N) (bs l' : list N), length l' ≤ n → encode_char m = bs → is_scalar m = true →
    cons m <$> decode l' = Some cs → encode cs = bs ++ l' ∧ Forall (λ n, is_scalar n = true) cs).
  { intros m bs l' Hl' <- Hm E. apply fmap_Some in E as (cs' & E & ->). destruct (IH l' cs' Hl' E) as [<- Hcs'].
    split; [done|by constructor]. }
  destruct l as [|a l]; [by intros [= <-]|]. cbn in Hn. cbn [decode].
  destruct (N.ltb_spec a 128) as [Ha|_].
  { apply (Hstep a [a] l); [lia| |].
    - unfold encode_char. decide_range. done.
    - unfold is_scalar. decide_range. done. }
  destruct l as [|b l]; [done|]. cbn in Hn. destruct (two_ok a b) eqn:E2.
  { destruct (two_ok_spec a b E2). apply (Hstep (two a b) [a; b] l); [lia|done..]. }
  destruct l as [|c l]; [done|]. cbn in Hn. destruct (three_ok a b c) eqn:E3.
  { destruct (three_ok_spec a b c E3). apply (Hstep (three a b c) [a; b; c] l); [lia|done..]. }
  destruct l as [|d l]; [done|]. cbn in Hn. destruct (four_ok a b c d) eqn:E4; [|done].
  destruct (four_ok_spec a b c d E4). apply (Hstep (four a b c d) [a; b; c; d] l); [lia|done..].
Qed.

(** * Columns *)

(** The width of a text in the units of a coordinate system *)
Definition width_of (coordinate_system : string) (c : N) : Z :=
  if String.eqb coordinate_system "utf16-code-units" then utf16_width c else 1.
Fixpoint measure (coordinate_system : string) (l : list N) : Z :=
  match l with
  | [] => 0
  | c :: l => width_of coordinate_system c + measure coordinate_system l
  end.
(** [bytes] is the byte offset of the character boundary at [column]. *)
Definition offset (coordinate_system : string) (line : list N) (column bytes : Z) : Prop :=
  ∃ k, k ≤ length line ∧ measure coordinate_system (take k line) = column ∧
    bytes = Z.of_nat (length (encode (take k line))).

Lemma width_pos sys c : (0 < width_of sys c)%Z.
Proof. unfold width_of, utf16_width. by repeat case_match. Qed.
Lemma utf16_width_pos c : (0 < utf16_width c)%Z.
Proof. apply (width_pos "utf16-code-units"). Qed.
Lemma measure_nonneg sys l : (0 <= measure sys l)%Z.
Proof. induction l as [|c l IH]; cbn; [done|]. pose proof (width_pos sys c). lia. Qed.

Lemma utf16_prefix_spec (Q : list N → Prop) consumed line units :
  (consumed <= units)%Z →
  (∃ cs, utf16_prefix consumed line units = (units, cs) ∧ Q cs) ↔
  ∃ k, k ≤ length line ∧ (consumed + measure "utf16-code-units" (take k line))%Z = units ∧ Q (take k line).
Proof.
  revert consumed Q. induction line as [|c line IH]; intros consumed Q Hle; cbn [utf16_prefix].
  { split.
    - intros (cs & [= -> <-] & HQ). exists 0. cbn. split_and!; [lia..|done].
    - intros (k & _ & Hk & HQ). rewrite take_nil in *. cbn in Hk. exists []. split; [|done]. f_equal. lia. }
  pose proof (utf16_width_pos c) as Hw.
  destruct (Z.ltb_spec units (consumed + utf16_width c)) as [Hlt|Hge].
  { split.
    - intros (cs & [= -> <-] & HQ). exists 0. cbn. split_and!; [lia..|done].
    - intros ([|k] & _ & Hk & HQ); cbn in Hk; [exists []; split; [f_equal; lia|done]|].
      change (width_of "utf16-code-units" c) with (utf16_width c) in Hk.
      pose proof (measure_nonneg "utf16-code-units" (take k line)). lia. }
  destruct (Z.eqb_spec (consumed + utf16_width c) units) as [E|Hne].
  { split.
    - intros (cs & [= E' <-] & HQ). exists 1. cbn. rewrite take_0. cbn [measure].
      change (width_of "utf16-code-units" c) with (utf16_width c). split_and!; [lia..|done].
    - intros ([|[|k]] & Hlen & Hk & HQ); cbn in Hk, HQ, Hlen.
      + lia.
      + rewrite take_0 in HQ. exists [c]. split; [by rewrite E|done].
      + destruct line as [|d line]; cbn in *; [lia|].
        change (width_of "utf16-code-units" c) with (utf16_width c) in Hk.
        pose proof (utf16_width_pos d).
        pose proof (measure_nonneg "utf16-code-units" (take k line)). lia. }
  specialize (IH (consumed + utf16_width c)%Z (λ cs, Q (c :: cs)) ltac:(lia)).
  split.
  - intros (cs & Ecs & HQ). destruct (utf16_prefix _ line units) as [n cs'] eqn:E. injection Ecs as -> <-.
    destruct (proj1 IH) as (k & Hlen & Hk & HQ'); [eauto|]. exists (S k). cbn.
    change (width_of "utf16-code-units" c) with (utf16_width c). split_and!; [lia..|done].
  - intros ([|k] & Hlen & Hk & HQ); cbn in Hk, Hlen; [lia|].
    change (width_of "utf16-code-units" c) with (utf16_width c) in Hk.
    destruct (proj2 IH) as (cs & Ecs & HQ').
    { exists k. split_and!; [lia..|done]. }
    rewrite Ecs. eauto.
Qed.

Lemma utf16_column line units bytes :
  (0 <= units)%Z →
  _utf16_prefix_to_utf8_column line units = Ok bytes ↔ offset "utf16-code-units" line units bytes.
Proof.
  intros Hu. unfold _utf16_prefix_to_utf8_column, offset.
  pose proof (utf16_prefix_spec (λ cs, bytes = Z.of_nat (length (encode cs))) 0 line units Hu) as Hspec.
  setoid_rewrite Z.add_0_l in Hspec. rewrite <-Hspec.
  destruct (utf16_prefix 0 line units) as [n cs]. destruct (Z.eqb_spec n units) as [->|Hne].
  - split; [intros [= <-]; eauto|]. by intros (cs' & [= <-] & ->).
  - split; [done|]. intros (cs' & [= Hn _] & _). congruence.
Qed.

Lemma measure_points sys l : String.eqb sys "utf16-code-units" = false → measure sys l = Z.of_nat (length l).
Proof.
  intros Hs. induction l as [|c l IH]; [done|]. cbn. unfold width_of in *. rewrite Hs in *. lia.
Qed.
Lemma point_column sys line column bytes :
  String.eqb sys "utf16-code-units" = false → (0 <= column)%Z →
  (column <= Z.of_nat (length line))%Z ∧ bytes = Z.of_nat (length (encode (take (Z.to_nat column) line))) ↔
  offset sys line column bytes.
Proof.
  intros Hs Hc. unfold offset. split.
  - intros [Hle ->]. exists (Z.to_nat column). rewrite measure_points, length_take by done. split_and!; lia || done.
  - intros (k & Hk & <- & ->). rewrite measure_points, length_take by done. split; [lia|].
    replace (Z.to_nat (Z.of_nat (k `min` length line))) with k by lia. done.
Qed.

Lemma measure_mono sys l k1 k2 :
  k1 < k2 → k2 ≤ length l → (measure sys (take k1 l) < measure sys (take k2 l))%Z.
Proof.
  revert k1 k2. induction l as [|c l IH]; intros [|k1] [|k2] H1 H2; cbn in *; try lia.
  - pose proof (width_pos sys c). pose proof (measure_nonneg sys (take k2 l)). lia.
  - specialize (IH k1 k2 ltac:(lia) ltac:(lia)). lia.
Qed.
Lemma encode_mono l k1 k2 : k1 ≤ k2 → length (encode (take k1 l)) ≤ length (encode (take k2 l)).
Proof.
  intros Hk. rewrite <-(take_drop k1 (take k2 l)), take_take, Nat.min_l by done.
  unfold encode. rewrite bind_app, length_app. lia.
Qed.
Lemma offset_mono sys l c1 c2 b1 b2 :
  offset sys l c1 b1 → offset sys l c2 b2 → (c1 <= c2)%Z → (b1 <= b2)%Z.
Proof.
  intros (k1 & H1 & <- & ->) (k2 & H2 & <- & ->) Hle. destruct (decide (k1 ≤ k2)).
  - pose proof (encode_mono l k1 k2). lia.
  - pose proof (measure_mono sys l k2 k1). lia.
Qed.

(** * Exact locations *)

(** The text of the line at a row *)
Definition line_at (text : list N) (row : Z) (line : list N) : Prop :=
  (0 <= row)%Z ∧ text_lines text !! Z.to_nat row = Some line.

Lemma row_in_range (lines : list (list N)) row :
  (0 <=? row)%Z && (row <? Z.of_nat (length lines))%Z = true ↔
  (0 <= row)%Z ∧ ∃ line, lines !! Z.to_nat row = Some line.
Proof.
  rewrite andb_true_iff, Z.leb_le, Z.ltb_lt. split; intros [Hr Hl]; (split; [done|]).
  - apply lookup_lt_is_Some_2. lia.
  - apply lookup_lt_is_Some_1 in Hl. lia.
Qed.

Lemma columns_spec sys l1 l2 s e (r : Z * Z) :
  (0 <= s)%Z → (0 <= e)%Z →
  (if String.eqb sys "utf16-code-units"
   then let! s := _utf16_prefix_to_utf8_column l1 s in
        let! e := _utf16_prefix_to_utf8_column l2 e in Ok (s, e)
   else if (Z.of_nat (length l1) <? s)%Z || (Z.of_nat (length l2) <? e)%Z
   then Err (ValueError "source column is outside the decoded line")
   else Ok (Z.of_nat (length (encode (take (Z.to_nat s) l1))),
            Z.of_nat (length (encode (take (Z.to_nat e) l2))))) = Ok r ↔
  offset sys l1 s r.1 ∧ offset sys l2 e r.2.
Proof.
  intros Hs He. destruct (String.eqb sys "utf16-code-units") eqn:Esys.
  - apply String.eqb_eq in Esys as ->. rewrite <-!utf16_column by done. split.
    + intros (c1 & H1 & (c2 & H2 & [= <-])%res_bind_Ok)%res_bind_Ok. done.
    + intros [H1 H2]. rewrite H1, H2. by destruct r.
  - rewrite <-!point_column by done.
    destruct (Z.ltb_spec (Z.of_nat (length l1)) s), (Z.ltb_spec (Z.of_nat (length l2)) e); cbn [orb].
    1-3: split; [done|intros [[] []]; lia].
    split; [by intros [= <-]|]. destruct r as [r1 r2]. cbn. by intros [[_ ->] [_ ->]].
Qed.

(** C10 [convert_exact_location] succeeds exactly on the positions of a UTF-8
    source, and answers with their byte columns: the source is the encoding of
    a text of encodable code points, both rows are rows of that text, the end
    is not before the start, and both columns are character boundaries of
    their lines, counted in code points or, for that coordinate system, in
    UTF-16 units (a column inside a surrogate pair or past the line has no
    boundary). The span has one-based lines and the byte offsets of the two
    boundaries, and its end is not before its start either. *)
Theorem exact_location_spec path source sys (start end_ : position) span :
  convert_exact_location path source sys start end_ = Ok span ↔
  ∃ text l1 l2, bytes_of source = encode text ∧ Forall (λ n, is_scalar n = true) text ∧
    line_at text start.1 l1 ∧ line_at text end_.1 l2 ∧
    (0 <= start.2)%Z ∧ (0 <= end_.2)%Z ∧ before end_ start = false ∧
    offset sys l1 start.2 (start_column span) ∧ offset sys l2 end_.2 (end_column span) ∧
    span_path span = path ∧ start_line span = (start.1 + 1)%Z ∧ end_line span = (end_.1 + 1)%Z ∧
    precision span = Exact ∧
    before (end_line span, end_column span) (start_line span, start_column span) = false.
Proof.
  unfold convert_exact_location. split.
  - destruct (decode (bytes_of source)) as [text|] eqn:Ed; [|done].
    apply (decode_inv _ _ _ (Nat.le_refl _)) in Ed as [Henc Htext]. cbv zeta.
    match goal with |- (if ?b then _ else _) = _ → _ => destruct b eqn:Eg end; [done|]. intros ([cs ce] & Hcol & [= <-])%res_bind_Ok.
    rewrite !orb_false_iff, !negb_false_iff in Eg. destruct Eg as ((((Hr1 & Hr2) & Hs) & He) & Hb).
    apply row_in_range in Hr1 as [? [l1 H1]], Hr2 as [? [l2 H2]]. rewrite H1, H2 in Hcol. bool_hyps.
    apply columns_spec in Hcol as [Ho1 Ho2]; [|done..]. exists text, l1, l2. cbn in *.
    split_and!; try done; cbn.
    unfold before in *. cbn. apply orb_false_iff in Hb as [Hb1 Hb2]. apply orb_false_iff.
    apply Z.ltb_ge in Hb1. split; [apply Z.ltb_ge; lia|]. destruct (Z.eqb_spec end_.1 start.1) as [E|E].
    + cbn in Hb2. apply Z.ltb_ge in Hb2. rewrite E in H2. rewrite H1 in H2. injection H2 as <-.
      rewrite E, Z.eqb_refl. cbn. apply Z.ltb_ge. by eapply offset_mono.
    + destruct (Z.eqb_spec (end_.1 + 1) (start.1 + 1)); [lia|done].
  - intros (text & l1 & l2 & -> & Htext & [Hr1 H1] & [Hr2 H2] & Hs & He & Hb & Ho1 & Ho2 & Hp & Hl1 & Hl2 & Hpr & _).
    rewrite decode_encode by done. cbv zeta.
    rewrite (proj2 (row_in_range (text_lines text) start.1)) by eauto.
    rewrite (proj2 (row_in_range (text_lines text) end_.1)) by eauto.
    rewrite Hb, (proj2 (Z.ltb_ge _ _) Hs), (proj2 (Z.ltb_ge _ _) He). cbn [negb orb].
    rewrite H1, H2. change (default [] (Some ?l)) with l.
    pose proof (proj2 (columns_spec sys l1 l2 start.2 end_.2 (start_column span, end_column span) Hs He)
      (conj Ho1 Ho2)) as Hcol. rewrite Hcol. cbn [res_bind]. destruct span. cbn in *. by subst.
Qed.

(** The second unit of a surrogate pair has no byte column; the boundary behind
    the pair does. *)
Example surrogate_pair :
  let source := of_chars (ascii_of_N <$> encode [97; 128512; 98]%N) in
  (∃ e, convert_exact_location "p" source "utf16-code-units" (0, 0)%Z (0, 2)%Z = Err e) ∧
  (end_column <$> match convert_exact_location "p" source "utf16-code-units" (0, 0)%Z (0, 3)%Z with
                  | Ok s => Some s | Err _ => None end) = Some 5%Z.
Proof. vm_compute. split; [by eexists|done]. Qed.

(** A record with its four coordinates never makes normalization raise. *)
Lemma normalize_location_total analyzer path source raw :
  (∀ k, k ∈ ["row"; "column"; "end_row"; "end_column"] → is_Some (dict_get k raw)) →
  ∃ r, normalize_location analyzer path source raw = Ok r.
Proof.
  intros Hraw. unfold normalize_location, raw_get.
  destruct (Hraw "row") as [r1 ->]; [set_solver|]. destruct (Hraw "column") as [c1 ->]; [set_solver|].
  destruct (Hraw "end_row") as [r2 ->]; [set_solver|]. destruct (Hraw "end_column") as [c2 ->]; [set_solver|].
  cbn [res_bind]. destruct (convert_exact_location _ _ _ _ _) as [span|e] eqn:E; [eauto|].
  revert E. unfold convert_exact_location. destruct (decode _); [|intros [= <-]; cbn; eauto]. cbv zeta.
  match goal with |- (if ?b then _ else _) = _ → _ => destruct b end; [intros [= <-]; cbn; eauto|].
  change (String.eqb "unicode-code-points" "utf16-code-units") with false. cbv iota.
  destruct (_ || _); intros [= <-]; cbn; eauto.
Qed.
