(* ===== verification/Differential.v ===== *)
(** Differential: the classification of base and head findings and the
    canonical exact renames of [specfact_code_review/run/differential.py]. *)

From S2P Require Import Prelude Text Dict PyValue Json Correspondence.

(** * Requests and results *)

Inductive classification_status := C_PASS | C_FAIL | C_UNKNOWN.
#[export] Instance classification_status_eq_dec : EqDecision classification_status.
Proof. solve_decision. Defined.

Record DifferentialClassification := {
  dc_status : classification_status;
  dc_introduced : list DifferentialFinding;
  dc_fixed : list DifferentialFinding;
  dc_unchanged : list DifferentialFinding;
  dc_unknown : list DifferentialFinding;
  dc_evidence_digest : string;
  dc_reason : string;
  dc_correspondence_evidence : list (list (string * json))
}.

Record FindingClassificationRequest := {
  req_base_findings : list (list (string * pyval));
  req_head_findings : list (list (string * pyval));
  req_base_sources : list (string * string);
  req_head_sources : list (string * string);
  req_base_analysis_status : string;
  req_rename_facts : option (list (string * string));
  req_rename_ambiguities : option (list (string * list string));
  req_deleted_paths : list string;
  req_added_paths : list string;
  req_source_size_override : option Z;
  req_changed_lines : option (list (string * list Z))
}.

Record _ClassificationState := {
  st_introduced : list DifferentialFinding;
  st_fixed : list DifferentialFinding;
  st_unchanged : list DifferentialFinding;
  st_unknown : list DifferentialFinding;
  st_evidence : list (list (string * json));
  st_memo : memo
}.
Definition empty_state : _ClassificationState :=
  {| st_introduced := []; st_fixed := []; st_unchanged := []; st_unknown := [];
     st_evidence := []; st_memo := empty_memo |}.

(** The appends of the handlers *)
Definition add_introduced (fs : list DifferentialFinding) (st : _ClassificationState) :=
  {| st_introduced := st_introduced st ++ fs; st_fixed := st_fixed st;
     st_unchanged := st_unchanged st; st_unknown := st_unknown st;
     st_evidence := st_evidence st; st_memo := st_memo st |}.
Definition add_fixed (fs : list DifferentialFinding) (st : _ClassificationState) :=
  {| st_introduced := st_introduced st; st_fixed := st_fixed st ++ fs;
     st_unchanged := st_unchanged st; st_unknown := st_unknown st;
     st_evidence := st_evidence st; st_memo := st_memo st |}.
Definition add_unchanged (fs : list DifferentialFinding) (st : _ClassificationState) :=
  {| st_introduced := st_introduced st; st_fixed := st_fixed st;
     st_unchanged := st_unchanged st ++ fs; st_unknown := st_unknown st;
     st_evidence := st_evidence st; st_memo := st_memo st |}.
Definition add_unknown (fs : list DifferentialFinding) (st : _ClassificationState) :=
  {| st_introduced := st_introduced st; st_fixed := st_fixed st;
     st_unchanged := st_unchanged st; st_unknown := st_unknown st ++ fs;
     st_evidence := st_evidence st; st_memo := st_memo st |}.
Definition add_evidence (e : list (string * json)) (st : _ClassificationState) :=
  {| st_introduced := st_introduced st; st_fixed := st_fixed st;
     st_unchanged := st_unchanged st; st_unknown := st_unknown st;
     st_evidence := st_evidence st ++ [e]; st_memo := st_memo st |}.
Definition set_memo (m : memo) (st : _ClassificationState) :=
  {| st_introduced := st_introduced st; st_fixed := st_fixed st;
     st_unchanged := st_unchanged st; st_unknown := st_unknown st;
     st_evidence := st_evidence st; st_memo := m |}.

(** [l1 or l2] on lists *)
Definition list_or {A} (l1 l2 : list A) : list A := match l1 with [] => l2 | _ => l1 end.

(** [l.remove(x)] *)
Fixpoint remove_first {A} `{EqDecision A} (x : A) (l : list A) : list A :=
  match l with
  | [] => []
  | y :: l' => if decide (y = x) then l' else y :: remove_first x l'
  end.

(** * Findings and sources *)

Definition _finding `{PyRepr} (value : list (string * pyval)) : result DifferentialFinding :=
  let! line := py_int (sget_default "line" (VInt 1) value) in
  Ok {| df_analyzer := py_str (sget_default "analyzer" (VStr "") value);
        df_rule := py_str (sget_default "rule" (VStr "") value);
        df_severity := py_str (sget_default "severity" (VStr "") value);
        df_path := py_str (sget_default "path" (VStr "") value);
        df_line := line;
        df_message := normalize_ws (py_str (sget_default "message" (VStr "") value));
        df_blocking := truthy (sget_default "blocking" (VBool false) value) |}.

Definition _source_for (path : string) (sources : list (string * string)) : option string :=
  match dict_get path sources with
  | Some source => Some source
  | None => match sources with [(_, source)] => Some source | _ => None end
  end.

Definition identity : Type := string * string * string * string.
Definition _identity (finding : DifferentialFinding) (normalized_path : string) : identity :=
  (df_analyzer finding, df_rule finding, normalized_path, df_message finding).

Definition renames_of (request : FindingClassificationRequest) : list (string * string) :=
  default [] (req_rename_facts request).

(** [{new: old for old, new in renames.items()}] *)
Definition reverse_renames (renames : list (string * string)) : list (string * string) :=
  dict_of ((λ on, (on.2, on.1)) <$> renames).
Definition normalized_path (reverse_renames : list (string * string)) (path : string) : string :=
  default path (dict_get path reverse_renames).

Definition base_identity (f : DifferentialFinding) : identity := _identity f (df_path f).
Definition head_identity (renames : list (string * string)) (f : DifferentialFinding) : identity :=
  _identity f (normalized_path (reverse_renames renames) (df_path f)).

Definition _finding_buckets (base_values head_values : list DifferentialFinding)
    (renames : list (string * string)) :
    list (identity * list DifferentialFinding) * list (identity * list DifferentialFinding) :=
  (group_by base_identity base_values, group_by (head_identity renames) head_values).

Definition lifecycle_class (f : DifferentialFinding) : string * bool := (df_severity f, df_blocking f).

Definition _severity_multiset_changed (base_bucket head_bucket : list DifferentialFinding) : bool :=
  match base_bucket, head_bucket with
  | [], _ | _, [] => false
  | _, _ =>
      bool_decide ((list_to_set (lifecycle_class <$> base_bucket) : gset (string * bool)) ≠
                   list_to_set (lifecycle_class <$> head_bucket))
  end.

Definition _pairing_sort_key (f : DifferentialFinding) :
    string * string * string * Z * string * string * bool :=
  (df_analyzer f, df_rule f, df_path f, df_line f, df_message f, df_severity f, df_blocking f).

Definition finding_json (f : DifferentialFinding) : json :=
  JObj [("analyzer", JStr (df_analyzer f)); ("rule", JStr (df_rule f));
        ("severity", JStr (df_severity f)); ("path", JStr (df_path f));
        ("line", JInt (df_line f)); ("message", JStr (df_message f));
        ("blocking", JBool (df_blocking f))].

Section classification.
Context `{PyRepr} `{Sha256}.

Definition _classification_digest (introduced fixed unchanged unknown : list DifferentialFinding)
    (correspondence_evidence : list (list (string * json))) : string :=
  let document := JObj
    [("fixed", JArr (finding_json <$> fixed));
     ("introduced", JArr (finding_json <$> introduced));
     ("unchanged", JArr (finding_json <$> unchanged));
     ("unknown", JArr (finding_json <$> unknown));
     ("correspondence_evidence", JArr (JObj <$> correspondence_evidence))] in
  sha256_digest (utf8 (dumps true (sort_keys document))).

Definition state_digest (st : _ClassificationState) : string :=
  _classification_digest (st_introduced st) (st_fixed st) (st_unchanged st) (st_unknown st)
    (st_evidence st).

Definition _classification_with_reason (st : _ClassificationState) (reason : string) :
    DifferentialClassification :=
  {| dc_status := C_UNKNOWN; dc_introduced := []; dc_fixed := []; dc_unchanged := [];
     dc_unknown := st_unknown st; dc_evidence_digest := state_digest st; dc_reason := reason;
     dc_correspondence_evidence := [] |}.

Definition oversized (request : FindingClassificationRequest) : bool :=
  match req_source_size_override request with
  | Some size => (_MAX_SOURCE_BYTES <? size)%Z
  | None => false
  end.
Definition has_ambiguities (request : FindingClassificationRequest) : bool :=
  match req_rename_ambiguities request with Some (_ :: _) => true | _ => false end.

Definition _early_classification (request : FindingClassificationRequest)
    (base_values head_values : list DifferentialFinding) (st : _ClassificationState) :
    option DifferentialClassification :=
  if negb (String.eqb (req_base_analysis_status request) "pass")
  then Some (_classification_with_reason st "baseline_analysis_error")
  else if has_ambiguities request || oversized request
  then Some (_classification_with_reason (add_unknown (list_or head_values base_values) st)
               "continuity_unavailable")
  else None.

(** * Pairing *)

Definition continuity_of (request : FindingClassificationRequest)
    (base_item head_item : DifferentialFinding) (m : memo) :
    continuity * list (string * json) * memo :=
  _continuity base_item head_item
    (_source_for (df_path base_item) (req_base_sources request))
    (_source_for (df_path head_item) (req_head_sources request)) m.

(** The comprehension over [remaining_base], the memo tables threaded. *)
Fixpoint candidates (request : FindingClassificationRequest) (head_item : DifferentialFinding)
    (remaining_base : list DifferentialFinding) (m : memo) : list DifferentialFinding * memo :=
  match remaining_base with
  | [] => ([], m)
  | base_item :: rest =>
      let '(status, _, m1) := continuity_of request base_item head_item m in
      let '(found, m2) := candidates request head_item rest m1 in
      ((if decide (status = Unchanged) then base_item :: found else found), m2)
  end.

(** [(pairs, remaining_base, remaining_head, memo)] after one head item *)
Definition pairing : Type :=
  list (DifferentialFinding * DifferentialFinding) * list DifferentialFinding *
  list DifferentialFinding * memo.
Definition pair_head (request : FindingClassificationRequest) (acc : pairing)
    (head_item : DifferentialFinding) : pairing :=
  let '(pairs, remaining_base, remaining_head, m) := acc in
  let '(found, m') := candidates request head_item remaining_base m in
  match found with
  | [base_item] =>
      (pairs ++ [(base_item, head_item)], remove_first base_item remaining_base,
       remove_first head_item remaining_head, m')
  | _ => (pairs, remaining_base, remaining_head, m')
  end.

Definition _continuity_compatible_pairs (request : FindingClassificationRequest)
    (base_partition head_partition : list DifferentialFinding) (m : memo) :
    pairing :=
  let remaining_base := sort_by _pairing_sort_key base_partition in
  let remaining_head := sort_by _pairing_sort_key head_partition in
  let '(pairs, remaining_base, remaining_head, m) :=
    foldl (pair_head request) ([], remaining_base, remaining_head, m) remaining_head in
  let pair_count := Nat.min (length remaining_base) (length remaining_head) in
  (pairs ++ zip (take pair_count remaining_base) (take pair_count remaining_head),
   drop pair_count remaining_base, drop pair_count remaining_head, m).

Definition add_continuity (c : continuity) (f : DifferentialFinding) (st : _ClassificationState) :=
  match c with
  | Unchanged => add_unchanged [f] st
  | Introduced => add_introduced [f] st
  | Unknown => add_unknown [f] st
  end.

Definition identity_list (i : identity) : json :=
  let '(analyzer, rule, path, message) := i in
  JArr [JStr analyzer; JStr rule; JStr path; JStr message].

Definition _classify_pair (request : FindingClassificationRequest) (i : identity)
    (st : _ClassificationState) (pair : DifferentialFinding * DifferentialFinding) :
    _ClassificationState :=
  let '(base_item, head_item) := pair in
  let '(status, evidence, m) := continuity_of request base_item head_item (st_memo st) in
  add_continuity status head_item
    (add_evidence (dict_merge evidence
       [("identity", identity_list i); ("base_path", JStr (df_path base_item));
        ("head_path", JStr (df_path head_item))]) (set_memo m st)).

Definition _classify_removed_base (request : FindingClassificationRequest)
    (st : _ClassificationState) (base_item : DifferentialFinding) : _ClassificationState :=
  let ambiguous_add_delete :=
    bool_decide (df_path base_item ∈ req_deleted_paths request) &&
    bool_decide (req_added_paths request ≠ []) in
  if dict_mem (df_path base_item) (renames_of request) || ambiguous_add_delete
  then add_unknown [base_item] st
  else add_fixed [base_item] st.

Definition _classify_partition (request : FindingClassificationRequest) (i : identity)
    (base_partition head_partition : list DifferentialFinding) (st : _ClassificationState) :
    _ClassificationState :=
  let '(pairs, remaining_base, remaining_head, m) :=
    _continuity_compatible_pairs request base_partition head_partition (st_memo st) in
  let st := set_memo m st in
  let st := foldl (_classify_pair request i) st pairs in
  let st := foldl (_classify_removed_base request) st remaining_base in
  add_introduced remaining_head st.

Definition partition_classes (base_bucket head_bucket : list DifferentialFinding) :
    gset (string * bool) :=
  list_to_set (lifecycle_class <$> (base_bucket ++ head_bucket)).

Definition _classify_identity (base_buckets head_buckets : list (identity * list DifferentialFinding))
    (request : FindingClassificationRequest) (st : _ClassificationState) (i : identity) :
    _ClassificationState :=
  let base_bucket := bucket i base_buckets in
  let head_bucket := bucket i head_buckets in
  if _severity_multiset_changed base_bucket head_bucket
  then add_unknown (list_or head_bucket base_bucket) st
  else
    foldl (λ st c,
        _classify_partition request i (filter (λ f, lifecycle_class f = c) base_bucket)
          (filter (λ f, lifecycle_class f = c) head_bucket) st)
      st (sorted_set (partition_classes base_bucket head_bucket)).

Definition evidence_key (e : list (string * json)) : string :=
  of_chars (dumps true (sort_keys (JObj e))).

Definition _final_classification (st : _ClassificationState) : DifferentialClassification :=
  let evidence := sort_by evidence_key (st_evidence st) in
  let digest := _classification_digest (st_introduced st) (st_fixed st) (st_unchanged st)
                  (st_unknown st) evidence in
  {| dc_status :=
       if bool_decide (st_unknown st ≠ []) then C_UNKNOWN
       else if existsb df_blocking (st_introduced st ++ st_unchanged st) then C_FAIL
       else C_PASS;
     dc_introduced := st_introduced st; dc_fixed := st_fixed st;
     dc_unchanged := st_unchanged st; dc_unknown := st_unknown st;
     dc_evidence_digest := digest; dc_reason := "";
     dc_correspondence_evidence := evidence |}.

Definition classify_values (request : FindingClassificationRequest)
    (base_values head_values : list DifferentialFinding) : DifferentialClassification :=
  match _early_classification request base_values head_values empty_state with
  | Some early_result => early_result
  | None =>
      let '(base_buckets, head_buckets) :=
        _finding_buckets base_values head_values (renames_of request) in
      let identities : gset identity :=
        list_to_set (dict_keys base_buckets ++ dict_keys head_buckets) in
      _final_classification
        (foldl (_classify_identity base_buckets head_buckets request) empty_state
           (sorted_set identities))
  end.

Definition classify_findings (request : FindingClassificationRequest) :
    result DifferentialClassification :=
  let! base_values := map_res _finding (req_base_findings request) in
  let! head_values := map_res _finding (req_head_findings request) in
  Ok (classify_values request base_values head_values).
End classification.

(** * Snapshots, locations of other kinds *)

Record DifferentialSnapshotSelection := {
  baseline_commit : string; target_tip_commit : string; head_commit : string
}.
Definition select_differential_snapshots (merge_base base_tip head : string) :
    DifferentialSnapshotSelection :=
  {| baseline_commit := merge_base; target_tip_commit := base_tip; head_commit := head |}.

(** * Exact renames *)

Record ExactRenameFacts := {
  rename_pairs : list (string * string);
  rename_ambiguities : list string;
  rename_algorithm : string
}.

(** Paths grouped by blob, in the order of the mapping *)
Definition by_blob (paths : list (string * string)) : list (string * list string) :=
  foldl (λ d pb, dict_append pb.2 pb.1 d) [] paths.

Definition rename_step (deleted_by_blob added_by_blob : list (string * list string))
    (acc : list (string * string) * list string) (blob : string) :
    list (string * string) * list string :=
  let '(pairs, ambiguities) := acc in
  match sorted (bucket blob deleted_by_blob), sorted (bucket blob added_by_blob) with
  | [old_path], [new_path] => (pairs ++ [(old_path, new_path)], ambiguities)
  | _, _ => (pairs, ambiguities ++ [blob])
  end.

Definition canonical_exact_renames (deleted added : list (string * string)) : ExactRenameFacts :=
  let deleted_by_blob := by_blob deleted in
  let added_by_blob := by_blob added in
  let shared : gset string :=
    list_to_set (dict_keys deleted_by_blob) ∩ list_to_set (dict_keys added_by_blob) in
  let '(pairs, ambiguities) :=
    foldl (rename_step deleted_by_blob added_by_blob) ([], []) (sorted_set shared) in
  {| rename_pairs := pairs; rename_ambiguities := ambiguities;
     rename_algorithm := "canonical-exact-rename-v1" |}.
