(* ===== verification/DifferentialProofs.v ===== *)
(** DifferentialProofs: every finding is accounted for once, the verdict
    follows from the classified findings, an unchanged finding has a base
    counterpart, and exact renames pair unique blobs. *)

From S2P Require Import Prelude Text Dict PyValue Json.
From S2P Require Import Correspondence CorrespondenceProofs Differential.

Lemma remove_first_perm {A} `{EqDecision A} (x : A) l : x ∈ l → l ≡ₚ x :: remove_first x l.
Proof.
  induction l as [|y l IH]; [by intros ?%elem_of_nil|].
  intros Hx. cbn. case_decide as E; [by subst|].
  apply elem_of_cons in Hx as [->|Hx]; [done|]. rewrite (IH Hx) at 1. apply Permutation_swap.
Qed.

Lemma list_or_nonempty {A} (l1 l2 : list A) : l1 ≠ [] → list_or l1 l2 = l1.
Proof. by destruct l1. Qed.

(** * Accounting *)

(** The head findings classified without doubt. *)
Definition known (st : _ClassificationState) : list DifferentialFinding :=
  st_introduced st ++ st_unchanged st.

(** Between two states the head findings [hs] were classified once each, and
    of the base findings [bs] some became unknown and some fixed. *)
Definition accounts (st st' : _ClassificationState) (hs bs : list DifferentialFinding) : Prop :=
  ∃ known_head unknown_head unknown_base fixed_base,
    known st' ≡ₚ known st ++ known_head ∧
    st_unknown st' ≡ₚ st_unknown st ++ unknown_head ++ unknown_base ∧
    st_fixed st' ≡ₚ st_fixed st ++ fixed_base ∧
    hs ≡ₚ known_head ++ unknown_head ∧
    unknown_base ++ fixed_base ⊆+ bs.

Lemma accounts_refl st : accounts st st [] [].
Proof. exists [], [], [], []. rewrite !app_nil_r. done. Qed.

Lemma accounts_trans st1 st2 st3 h1 h2 b1 b2 :
  accounts st1 st2 h1 b1 → accounts st2 st3 h2 b2 → accounts st1 st3 (h1 ++ h2) (b1 ++ b2).
Proof.
  intros (k1 & v1 & u1 & f1 & Hk1 & Hu1 & Hf1 & Hh1 & Hb1)
    (k2 & v2 & u2 & f2 & Hk2 & Hu2 & Hf2 & Hh2 & Hb2).
  exists (k1 ++ k2), (v1 ++ v2), (u1 ++ u2), (f1 ++ f2). split_and!.
  - rewrite Hk2, Hk1. solve_Permutation.
  - rewrite Hu2, Hu1. solve_Permutation.
  - rewrite Hf2, Hf1. solve_Permutation.
  - rewrite Hh1, Hh2. solve_Permutation.
  - transitivity ((u1 ++ f1) ++ (u2 ++ f2)); [|by apply submseteq_app].
    apply Permutation_submseteq. solve_Permutation.
Qed.

Lemma accounts_perm st st' h h' b b' :
  h ≡ₚ h' → b ⊆+ b' → accounts st st' h b → accounts st st' h' b'.
Proof.
  intros Hh Hb (k & v & u & f & Hk & Hu & Hf & Hhs & Hs). exists k, v, u, f.
  rewrite <-Hh. split_and!; try done. by transitivity b.
Qed.

(** Folding a step that accounts for the pieces of each element. *)
Lemma accounts_foldl {A} (step : _ClassificationState → A → _ClassificationState)
    (hs bs : A → list DifferentialFinding) l st :
  (∀ x st', accounts st' (step st' x) (hs x) (bs x)) →
  accounts st (foldl step st l) (mjoin (hs <$> l)) (mjoin (bs <$> l)).
Proof.
  intros Hstep. revert st. induction l as [|x l IH]; intros st; [apply accounts_refl|].
  cbn. eapply accounts_trans; [apply Hstep|apply IH].
Qed.

(** Close an [accounts] goal with the four lists given. *)
Ltac account k v u f :=
  exists k, v, u, f; unfold known; cbn; rewrite ?app_nil_r; split_and!;
  [solve_Permutation|solve_Permutation|solve_Permutation|solve_Permutation|done].

Lemma accounts_introduced st hs : accounts st (add_introduced hs st) hs [].
Proof. account hs (@nil DifferentialFinding) (@nil DifferentialFinding) (@nil DifferentialFinding). Qed.
Lemma accounts_unknown st hs : accounts st (add_unknown hs st) hs [].
Proof. account (@nil DifferentialFinding) hs (@nil DifferentialFinding) (@nil DifferentialFinding). Qed.
Lemma accounts_continuity c f st : accounts st (add_continuity c f st) [f] [].
Proof.
  destruct c.
  - account [f] (@nil DifferentialFinding) (@nil DifferentialFinding) (@nil DifferentialFinding).
  - account [f] (@nil DifferentialFinding) (@nil DifferentialFinding) (@nil DifferentialFinding).
  - account (@nil DifferentialFinding) [f] (@nil DifferentialFinding) (@nil DifferentialFinding).
Qed.

Section accounting.
Context `{PyRepr} `{Sha256}.
Context (request : FindingClassificationRequest).

Lemma accounts_pair i st p : accounts st (_classify_pair request i st p) [p.2] [].
Proof.
  destruct p as [b h]. unfold _classify_pair.
  destruct (continuity_of request b h (st_memo st)) as [[c e] m].
  destruct (accounts_continuity c h (add_evidence (dict_merge e
       [("identity", identity_list i); ("base_path", JStr (df_path b));
        ("head_path", JStr (df_path h))]) (set_memo m st))) as (k & v & u & f & Hacc).
  exists k, v, u, f. exact Hacc.
Qed.

Lemma accounts_removed_base st b : accounts st (_classify_removed_base request st b) [] [b].
Proof.
  unfold _classify_removed_base. cbv zeta. case_match.
  - account (@nil DifferentialFinding) (@nil DifferentialFinding) [b] (@nil DifferentialFinding).
  - account (@nil DifferentialFinding) (@nil DifferentialFinding) (@nil DifferentialFinding) [b].
Qed.

(** ** Pairing *)

Lemma candidates_sub h rb m : (candidates request h rb m).1 `sublist_of` rb.
Proof.
  revert m. induction rb as [|b rb IH]; intros m; [done|]. cbn.
  destruct (continuity_of request b h m) as [[c e] m1].
  specialize (IH m1). destruct (candidates request h rb m1) as [found m2]. cbn in *.
  case_decide; by constructor.
Qed.

(** Pairs and remainders partition the two lists. *)
Definition partitioned (bs hs : list DifferentialFinding) (acc : pairing) : Prop :=
  acc.1.1.1.*1 ++ acc.1.1.2 ≡ₚ bs ∧ acc.1.1.1.*2 ++ acc.1.2 ≡ₚ hs.

Lemma pair_heads_partitioned bs hs todo acc :
  todo ⊆+ acc.1.2 → partitioned bs hs acc →
  partitioned bs hs (foldl (pair_head request) acc todo).
Proof.
  revert acc. induction todo as [|h todo IH]; intros acc Hsub Hp; [done|]. cbn.
  destruct acc as [[[pairs rb] rh] m]. cbn in Hsub.
  assert (Hh : h ∈ rh) by (eapply elem_of_submseteq; [|exact Hsub]; by left).
  pose proof (candidates_sub h rb m) as Hc. unfold pair_head at 2.
  destruct (candidates request h rb m) as [found m']. cbn in Hc.
  assert (Hsub' : todo ⊆+ rh) by (etrans; [|exact Hsub]; by apply submseteq_cons).
  destruct found as [|b [|b' found]]; [by apply IH| |by apply IH].
  assert (Hb : b ∈ rb) by (eapply elem_of_sublist; [by left|exact Hc]).
  apply IH; cbn.
  - rewrite (remove_first_perm h rh Hh) in Hsub. by apply (submseteq_app_inv_l _ _ [h]) in Hsub.
  - destruct Hp as [Hp1 Hp2]. cbn in *. split; cbn; rewrite fmap_app, <-app_assoc; cbn.
    + by rewrite <-(remove_first_perm b rb Hb).
    + by rewrite <-(remove_first_perm h rh Hh).
Qed.

Lemma zip_take_fst {A B} (l : list A) (k : list B) :
  let n := Nat.min (length l) (length k) in
  (zip (take n l) (take n k)).*1 = take n l ∧ (zip (take n l) (take n k)).*2 = take n k.
Proof.
  intros n. split; [rewrite fst_zip|rewrite snd_zip]; rewrite ?length_take; unfold n; lia || done.
Qed.

Lemma compatible_pairs_partitioned bs hs m :
  partitioned bs hs (_continuity_compatible_pairs request bs hs m).
Proof.
  unfold _continuity_compatible_pairs. cbv zeta.
  assert (Hp : partitioned bs hs (foldl (pair_head request)
    ([], sort_by _pairing_sort_key bs, sort_by _pairing_sort_key hs, m)
    (sort_by _pairing_sort_key hs))).
  { apply pair_heads_partitioned; cbn; [done|]. split; cbn; apply sort_by_perm. }
  destruct (foldl (pair_head request) _ _) as [[[pairs rb] rh] m'].
  destruct Hp as [Hp1 Hp2]. cbn in Hp1, Hp2.
  destruct (zip_take_fst rb rh) as [Z1 Z2]. cbv zeta in Z1, Z2.
  split; cbn; rewrite fmap_app, ?Z1, ?Z2, <-app_assoc, take_drop; done.
Qed.

Lemma mjoin_singletons {A B} (f : A → B) l : mjoin ((λ x, [f x]) <$> l) = f <$> l.
Proof. induction l as [|x l IH]; [done|]. rewrite !fmap_cons. cbn [mjoin list_join app]. by f_equal. Qed.
Lemma mjoin_nils {A B} (l : list A) : mjoin ((λ _, [] : list B) <$> l) = [].
Proof. induction l; done. Qed.

Lemma accounts_partition i bs hs st : accounts st (_classify_partition request i bs hs st) hs bs.
Proof.
  unfold _classify_partition.
  pose proof (compatible_pairs_partitioned bs hs (st_memo st)) as Hp.
  destruct (_continuity_compatible_pairs request bs hs (st_memo st)) as [[[pairs rb] rh] m].
  destruct Hp as [Hp1 Hp2]. cbn in Hp1, Hp2. cbv zeta.
  pose proof (accounts_foldl (_classify_pair request i) (λ p, [p.2]) (λ _, []) pairs (set_memo m st)
                (λ p st', accounts_pair i st' p)) as A1.
  set (st1 := foldl (_classify_pair request i) (set_memo m st) pairs) in *.
  pose proof (accounts_foldl (_classify_removed_base request) (λ _, []) (λ b, [b]) rb st1
                (λ b st', accounts_removed_base st' b)) as A2.
  set (st2 := foldl (_classify_removed_base request) st1 rb) in *.
  rewrite (mjoin_singletons snd) in A1. rewrite (mjoin_singletons id), list_fmap_id in A2.
  rewrite mjoin_nils in A1. rewrite mjoin_nils in A2.
  pose proof (accounts_trans _ _ _ _ _ _ _ (accounts_trans _ _ _ _ _ _ _ A1 A2)
                (accounts_introduced st2 rh)) as Ha.
  eapply accounts_perm; [| |destruct Ha as (k & v & u & f & Ha); exists k, v, u, f; exact Ha].
  - by rewrite app_nil_r.
  - rewrite <-Hp1, app_nil_r. apply submseteq_inserts_l. done.
Qed.

Lemma accounts_identity bbs hbs i st :
  accounts st (_classify_identity bbs hbs request st i) (bucket i hbs) (bucket i bbs).
Proof.
  unfold _classify_identity. cbv zeta.
  destruct (_severity_multiset_changed (bucket i bbs) (bucket i hbs)) eqn:E.
  - assert (Hne : bucket i hbs ≠ []).
    { intros E'. rewrite E' in E. by destruct (bucket i bbs). }
    rewrite list_or_nonempty by done. eapply accounts_perm; [done| |apply accounts_unknown].
    apply submseteq_nil_l.
  - set (ks := sorted_set _).
    assert (Hks : NoDup ks) by apply NoDup_sorted_set.
    assert (Hin : ∀ f, f ∈ bucket i bbs ++ bucket i hbs → lifecycle_class f ∈ ks).
    { intros f Hf. unfold ks. apply elem_of_sorted_set, elem_of_list_to_set.
      by apply list_elem_of_fmap_2. }
    eapply accounts_perm; [| |apply (accounts_foldl _
      (λ c, filter (λ f, lifecycle_class f = c) (bucket i hbs))
      (λ c, filter (λ f, lifecycle_class f = c) (bucket i bbs)))].
    + apply partition_perm; [done|]. intros f Hf. apply Hin. set_solver.
    + apply Permutation_submseteq, partition_perm; [done|]. intros f Hf. apply Hin. set_solver.
    + intros c st'. apply accounts_partition.
Qed.

Definition final_state (base_values head_values : list DifferentialFinding) : _ClassificationState :=
  let '(bbs, hbs) := _finding_buckets base_values head_values (renames_of request) in
  foldl (_classify_identity bbs hbs request) empty_state
    (sorted_set (list_to_set (dict_keys bbs ++ dict_keys hbs) : gset identity)).

Lemma accounts_final base_values head_values :
  accounts empty_state (final_state base_values head_values) head_values base_values.
Proof.
  unfold final_state, _finding_buckets.
  set (ks := sorted_set _).
  assert (Hks : NoDup ks) by apply NoDup_sorted_set.
  assert (Hin : ∀ k, k ∈ ks ↔ (∃ f, f ∈ base_values ∧ base_identity f = k) ∨
                             ∃ f, f ∈ head_values ∧ head_identity (renames_of request) f = k).
  { intros k. unfold ks. rewrite elem_of_sorted_set, elem_of_list_to_set, elem_of_app.
    by rewrite !elem_of_keys_group_by. }
  eapply accounts_perm; [| |apply (accounts_foldl _
    (λ i, filter (λ f, head_identity (renames_of request) f = i) head_values)
    (λ i, filter (λ f, base_identity f = i) base_values))].
  - apply partition_perm; [done|]. intros f Hf. apply Hin. eauto.
  - apply Permutation_submseteq, partition_perm; [done|]. intros f Hf. apply Hin. eauto.
  - intros i st'. rewrite <-!bucket_group_by. apply accounts_identity.
Qed.
End accounting.

(** * What unchanged means *)

Section soundness.
Context `{PyRepr} `{Sha256}.
Context (request : FindingClassificationRequest).

(** [h] is the continuation of [b]: same identity across the rename, same
    severity and blocking flag, and a continuity verdict, computed afresh. *)
Definition continues (b h : DifferentialFinding) : Prop :=
  base_identity b = head_identity (renames_of request) h ∧
  lifecycle_class b = lifecycle_class h ∧
  (continuity_of request b h empty_memo).1.1 = Unchanged.

Context (base_values : list DifferentialFinding).

Definition sound (st : _ClassificationState) : Prop :=
  coherent (st_memo st) ∧
  Forall (λ h, ∃ b, b ∈ base_values ∧ continues b h) (st_unchanged st).

Lemma continuity_of_coherent b h m :
  coherent m →
  coherent (continuity_of request b h m).2 ∧
  (continuity_of request b h m).1 = (continuity_of request b h empty_memo).1.
Proof. apply continuity_memo_coherent. Qed.

Lemma candidates_coherent h rb m : coherent m → coherent (candidates request h rb m).2.
Proof.
  revert m. induction rb as [|b rb IH]; intros m Hm; [done|]. cbn.
  pose proof (proj1 (continuity_of_coherent b h m Hm)) as Hm1.
  destruct (continuity_of request b h m) as [[c e] m1]. specialize (IH m1 Hm1).
  destruct (candidates request h rb m1) as [found m2]. done.
Qed.

Lemma pair_heads_coherent todo acc :
  coherent acc.2 → coherent (foldl (pair_head request) acc todo).2.
Proof.
  revert acc. induction todo as [|h todo IH]; intros acc Hm; [done|]. cbn. apply IH.
  destruct acc as [[[pairs rb] rh] m]. unfold pair_head.
  pose proof (candidates_coherent h rb m Hm) as Hm'.
  destruct (candidates request h rb m) as [found m']. by destruct found as [|b [|]].
Qed.

Lemma compatible_pairs_coherent bs hs m :
  coherent m → coherent (_continuity_compatible_pairs request bs hs m).2.
Proof.
  intros Hm. unfold _continuity_compatible_pairs. cbv zeta.
  pose proof (pair_heads_coherent (sort_by _pairing_sort_key hs)
    ([], sort_by _pairing_sort_key bs, sort_by _pairing_sort_key hs, m) Hm) as Hm'.
  destruct (foldl (pair_head request) _ _) as [[[pairs rb] rh] m']. done.
Qed.

Lemma sound_pair i st b h :
  b ∈ base_values → base_identity b = head_identity (renames_of request) h →
  lifecycle_class b = lifecycle_class h →
  sound st → sound (_classify_pair request i st (b, h)).
Proof.
  intros Hb Hi Hl [Hm Hu]. unfold _classify_pair.
  destruct (continuity_of_coherent b h (st_memo st) Hm) as [Hm' He].
  destruct (continuity_of request b h (st_memo st)) as [[c e] m].
  destruct c; split; cbn; try done. apply Forall_app_2; [done|].
  apply Forall_singleton. exists b. split; [done|]. split_and!; [done..|]. by rewrite <-He.
Qed.

Lemma sound_foldl {A} (step : _ClassificationState → A → _ClassificationState) l st :
  (∀ x st', x ∈ l → sound st' → sound (step st' x)) → sound st → sound (foldl step st l).
Proof.
  revert st. induction l as [|x l IH]; intros st Hstep Hs; [done|]. cbn.
  apply IH; [intros y st' Hy; apply Hstep; by right|]. apply Hstep; [left|done].
Qed.

Lemma sound_partition i c bs hs st :
  (∀ b, b ∈ bs → b ∈ base_values ∧ base_identity b = i ∧ lifecycle_class b = c) →
  (∀ h, h ∈ hs → head_identity (renames_of request) h = i ∧ lifecycle_class h = c) →
  sound st → sound (_classify_partition request i bs hs st).
Proof.
  intros Hbs Hhs Hs. unfold _classify_partition.
  pose proof (compatible_pairs_partitioned request bs hs (st_memo st)) as Hp.
  pose proof (compatible_pairs_coherent bs hs (st_memo st) (proj1 Hs)) as Hm.
  destruct (_continuity_compatible_pairs request bs hs (st_memo st)) as [[[pairs rb] rh] m].
  destruct Hp as [Hp1 Hp2]. cbn in Hp1, Hp2, Hm. cbv zeta.
  assert (H1 : sound (foldl (_classify_pair request i) (set_memo m st) pairs)).
  { apply sound_foldl; [|split; [done|apply Hs]]. intros [b h] st' Hin Hs'.
    assert (Hb : b ∈ bs).
    { rewrite <-Hp1. apply elem_of_app. left. by apply (list_elem_of_fmap_2 fst) in Hin. }
    assert (Hh : h ∈ hs).
    { rewrite <-Hp2. apply elem_of_app. left. by apply (list_elem_of_fmap_2 snd) in Hin. }
    apply Hbs in Hb as (? & Hbi & Hbc). apply Hhs in Hh as (Hhi & Hhc).
    apply sound_pair; congruence || done. }
  assert (H2 : ∀ st', sound st' → sound (foldl (_classify_removed_base request) st' rb)).
  { intros st' Hs'. apply sound_foldl; [|done]. intros b st'' _ Hs''.
    unfold _classify_removed_base. cbv zeta. case_match; exact Hs''. }
  destruct (H2 _ H1) as [Hm2 Hu2]. split; [exact Hm2|exact Hu2].
Qed.

Lemma sound_final head_values : sound (final_state request base_values head_values).
Proof.
  unfold final_state, _finding_buckets. apply sound_foldl.
  2:{ split; [apply coherent_empty|constructor]. }
  intros i st _ Hs. unfold _classify_identity. cbv zeta.
  destruct (_severity_multiset_changed _ _); [exact Hs|].
  apply sound_foldl; [|done]. intros c st' _ Hs'. rewrite !bucket_group_by.
  apply (sound_partition i c); [| |done].
  - intros b. rewrite !list_elem_of_filter. naive_solver.
  - intros h. rewrite !list_elem_of_filter. naive_solver.
Qed.
End soundness.

(** * Theorems *)

Section theorems.
Context `{PyRepr} `{Sha256}.

(** An analysed request without ambiguities runs to the final state. *)
Definition analysed (request : FindingClassificationRequest) : Prop :=
  req_base_analysis_status request = "pass" ∧ has_ambiguities request = false ∧
  oversized request = false.

Lemma classify_values_analysed request base_values head_values :
  analysed request →
  classify_values request base_values head_values =
    _final_classification (final_state request base_values head_values).
Proof.
  intros (E1 & E2 & E3). unfold classify_values, _early_classification.
  rewrite E1, E2, E3. done.
Qed.

Lemma conserves_spec (request : FindingClassificationRequest)
    (base_values head_values : list DifferentialFinding) (Hreq : analysed request) :
  let c := classify_values request base_values head_values in
  ∃ unknown_head unknown_base,
    head_values ≡ₚ dc_introduced c ++ dc_unchanged c ++ unknown_head ∧
    dc_unknown c ≡ₚ unknown_head ++ unknown_base ∧
    unknown_base ++ dc_fixed c ⊆+ base_values.
Proof.
  intros c. unfold c. rewrite classify_values_analysed by done.
  destruct (accounts_final request base_values head_values) as (k & v & u & f & Hk & Hu & Hf & Hh & Hs).
  revert Hk Hu Hf. generalize (final_state request base_values head_values).
  intros st Hk Hu Hf. cbn in Hk, Hu, Hf.
  exists v, u. cbn. split_and!; [|done|by rewrite Hf].
  rewrite Hh, <-Hk. unfold known. by rewrite app_assoc.
Qed.

(** C24 nothing is lost and nothing is counted twice.  For an analysed
    request every head finding is in exactly one of introduced, unchanged and
    unknown (as multisets); the only other entries of unknown are base
    findings, and fixed findings are base findings that are not among them. *)
Theorem classification_conserves (request : FindingClassificationRequest)
    (base_values head_values : list DifferentialFinding) (Hreq : analysed request) :
  let c := classify_values request base_values head_values in
  ∃ unknown_head unknown_base,
    head_values ≡ₚ dc_introduced c ++ dc_unchanged c ++ unknown_head ∧
    dc_unknown c ≡ₚ unknown_head ++ unknown_base ∧
    unknown_base ++ dc_fixed c ⊆+ base_values.
Proof. by apply conserves_spec. Qed.

Lemma verdict_spec (request : FindingClassificationRequest)
    (c : DifferentialClassification) (Hc : classify_findings request = Ok c) :
  ∃ base_values head_values,
    map_res _finding (req_base_findings request) = Ok base_values ∧
    map_res _finding (req_head_findings request) = Ok head_values ∧
    (dc_status c = C_PASS ↔
       analysed request ∧ dc_unknown c = [] ∧ Forall (λ f, df_blocking f = false) head_values) ∧
    (dc_status c = C_FAIL ↔
       analysed request ∧ dc_unknown c = [] ∧ Exists (λ f, df_blocking f = true) head_values).
Proof.
  unfold classify_findings in Hc. res_inv. subst c. do 2 eexists. split; [eassumption|].
  split; [eassumption|]. rename x into base_values, x0 into head_values.
  destruct (_early_classification request base_values head_values empty_state) as [r|] eqn:Ee.
  - assert (Hr : dc_status r = C_UNKNOWN ∧ ¬ analysed request).
    { unfold _early_classification in Ee. unfold analysed.
      destruct (String.eqb_spec (req_base_analysis_status request) "pass") as [E|E]; cbn in Ee.
      - destruct (has_ambiguities request), (oversized request); cbn in Ee; simplify_eq;
          (split; [done|naive_solver]).
      - simplify_eq. split; [done|]. naive_solver. }
    unfold classify_values. rewrite Ee. destruct Hr as [-> Hn]. naive_solver.
  - assert (Ha : analysed request).
    { unfold _early_classification in Ee. unfold analysed.
      destruct (String.eqb_spec (req_base_analysis_status request) "pass") as [E|E]; cbn in Ee; [|done].
      destruct (has_ambiguities request), (oversized request); done. }
    rewrite classify_values_analysed by done.
    destruct (accounts_final request base_values head_values)
      as (k & v & u & f & Hk & Hu & _ & Hh & _).
    revert Hk Hu. generalize (final_state request base_values head_values).
    intros st Hk Hu. cbn in Hk, Hu |- *.
    destruct (st_unknown st) as [|x l].
    2:{ rewrite bool_decide_eq_true_2 by done. naive_solver. }
    rewrite bool_decide_eq_false_2 by (intros []; done).
    assert (v = []) as -> by (destruct v; [done|by apply Permutation_nil_cons in Hu]).
    rewrite app_nil_r in Hh.
    assert (Hheads : head_values ≡ₚ known st) by (by rewrite Hh).
    fold (known st). rewrite Hheads.
    destruct (existsb df_blocking (known st)) eqn:Ex.
    + apply existsb_exists in Ex as (x & Hx & Hxb). apply list_elem_of_In in Hx.
      split; split; [done| | |done].
      * intros (_ & _ & Hall). rewrite Forall_forall in Hall. by rewrite (Hall x Hx) in Hxb.
      * intros _. split_and!; [done..|]. apply Exists_exists. eauto.
    + assert (Hall : Forall (λ f, df_blocking f = false) (known st)).
      { apply Forall_forall. intros x Hx. destruct (df_blocking x) eqn:Ebx; [|done].
        rewrite <-Ex. symmetry. apply existsb_exists. exists x. by rewrite <-list_elem_of_In. }
      split; split; [intros _; by split_and!|done|done|].
      intros (_ & _ & (x & Hx & Hxb)%Exists_exists).
      rewrite Forall_forall in Hall. by rewrite (Hall x Hx) in Hxb.
Qed.

(** C25 the verdict of a classification fails closed.  [PASS] is returned
    only for an analysed request with nothing unknown, when no head finding
    is blocking; [FAIL] only when nothing is unknown and some head finding
    is blocking, new or old; everything else is [UNKNOWN]. *)
Theorem classification_verdict (request : FindingClassificationRequest)
    (c : DifferentialClassification) (Hc : classify_findings request = Ok c) :
  ∃ base_values head_values,
    map_res _finding (req_base_findings request) = Ok base_values ∧
    map_res _finding (req_head_findings request) = Ok head_values ∧
    (dc_status c = C_PASS ↔
       analysed request ∧ dc_unknown c = [] ∧ Forall (λ f, df_blocking f = false) head_values) ∧
    (dc_status c = C_FAIL ↔
       analysed request ∧ dc_unknown c = [] ∧ Exists (λ f, df_blocking f = true) head_values).
Proof. by apply verdict_spec. Qed.

(** No finding is waved through as unchanged without a base
    counterpart: each unchanged head finding has a base finding of the same
    analyzer, rule, message, path (across the renames), severity and blocking
    flag for which the line correspondence, computed from empty memo tables,
    says [Unchanged]. *)
Theorem unchanged_has_counterpart (request : FindingClassificationRequest)
    (base_values head_values : list DifferentialFinding) (h : DifferentialFinding)
    (Hh : h ∈ dc_unchanged (classify_values request base_values head_values)) :
  h ∈ head_values ∧ ∃ b, b ∈ base_values ∧ continues request b h.
Proof.
  unfold classify_values in Hh.
  destruct (_early_classification request base_values head_values empty_state) as [r|] eqn:Ee.
  - unfold _early_classification in Ee. repeat case_match; simplify_eq; by apply elem_of_nil in Hh.
  - change (h ∈ st_unchanged (final_state request base_values head_values)) in Hh. split.
    + destruct (accounts_final request base_values head_values) as (k & v & u & f & Hk & _ & _ & Hhv & _).
      rewrite Hhv. apply elem_of_app. left.
      change (known empty_state ++ k) with k in Hk. rewrite <-Hk.
      apply elem_of_app. by right.
    + destruct (sound_final request base_values head_values) as [_ Hu].
      rewrite Forall_forall in Hu. by apply Hu.
Qed.
End theorems.

(** * Exact renames *)

Lemma NoDup_omap_proj {A B C} (g : B → C) (f : A → option B) l :
  NoDup l → (∀ x y u v, f x = Some u → f y = Some v → g u = g v → x = y) →
  NoDup (g <$> omap f l).
Proof.
  intros Hl Hinj. induction Hl as [|x l Hx Hl IH]; [constructor|]. cbn.
  destruct (f x) as [u|] eqn:Ex; [|done]. cbn. constructor; [|done].
  intros (v & Eq & (y & Hy & Ey)%list_elem_of_omap)%list_elem_of_fmap.
  assert (x = y) as -> by eauto. done.
Qed.

Section renames.
Implicit Types paths : list (string * string).

Lemma bucket_by_blob blob paths :
  bucket blob (by_blob paths) = (filter (λ pb, pb.2 = blob) paths).*1.
Proof.
  unfold by_blob. assert (Hgo : ∀ d, bucket blob (foldl (λ d pb, dict_append pb.2 pb.1 d) d paths) =
    bucket blob d ++ (filter (λ pb, pb.2 = blob) paths).*1); [|by rewrite Hgo].
  induction paths as [|[p b] paths IH]; intros d; [by rewrite app_nil_r|].
  cbn [foldl]. rewrite IH, bucket_append, filter_cons, <-app_assoc. f_equal. cbn.
  destruct (decide (blob = b)) as [->|Hne]; [by rewrite decide_True|by rewrite decide_False].
Qed.

Lemma elem_of_bucket_by_blob p blob paths : p ∈ bucket blob (by_blob paths) ↔ (p, blob) ∈ paths.
Proof.
  rewrite bucket_by_blob, list_elem_of_fmap. split.
  - intros ([p' b] & -> & [Hb Hin]%list_elem_of_filter). cbn in *. by subst.
  - intros Hin. exists (p, blob). split; [done|]. by apply list_elem_of_filter.
Qed.

Lemma NoDup_bucket_by_blob blob paths : dict_wf paths → NoDup (bucket blob (by_blob paths)).
Proof.
  intros Hwf. rewrite bucket_by_blob. unfold dict_wf, dict_keys in Hwf.
  induction paths as [|[p b] paths IH]; [constructor|]. rewrite filter_cons.
  cbn in Hwf. apply NoDup_cons in Hwf as [Hp Hwf]. case_decide; [|by apply IH].
  cbn. constructor; [|by apply IH]. intros Hin. apply Hp.
  apply list_elem_of_fmap in Hin as ([p' b'] & -> & [_ Hin]%list_elem_of_filter).
  by apply (list_elem_of_fmap_2 fst) in Hin.
Qed.

Lemma elem_of_keys_by_blob blob paths : blob ∈ dict_keys (by_blob paths) ↔ ∃ p, (p, blob) ∈ paths.
Proof.
  unfold by_blob. assert (Hgo : ∀ d,
    blob ∈ dict_keys (foldl (λ d pb, dict_append pb.2 pb.1 d) d paths) ↔
    blob ∈ dict_keys d ∨ ∃ p, (p, blob) ∈ paths).
  { induction paths as [|[p b] paths IH]; intros d; cbn [foldl]; [set_solver|].
    rewrite IH. unfold dict_append. rewrite dict_keys_set. cbn.
    assert (Hx : (∃ p', (p', blob) ∈ (p, b) :: paths) ↔ blob = b ∨ ∃ p', (p', blob) ∈ paths) by set_solver.
    rewrite Hx. case_decide; set_solver. }
  rewrite Hgo. set_solver.
Qed.

Lemma sorted_singleton {A} `{PyOrdLaws A} (l : list A) x : sorted l = [x] ↔ l = [x].
Proof.
  split; [|by intros ->]. intros E. apply Permutation_singleton_r. by rewrite <-(sorted_perm l), E.
Qed.

(** [blob] has exactly one path *)
Lemma single_path blob paths p :
  dict_wf paths →
  sorted (bucket blob (by_blob paths)) = [p] ↔
  (p, blob) ∈ paths ∧ ∀ p', (p', blob) ∈ paths → p' = p.
Proof.
  intros Hwf. rewrite sorted_singleton. setoid_rewrite <-elem_of_bucket_by_blob.
  pose proof (NoDup_bucket_by_blob blob paths Hwf) as Hnd. split.
  - intros ->. split; [by left|]. by intros p' ?%list_elem_of_singleton.
  - intros [Hp Hall]. destruct (bucket blob (by_blob paths)) as [|q [|q' l]]; [by apply elem_of_nil in Hp| |].
    + f_equal. apply Hall. by left.
    + exfalso. assert (q = q') as -> by (transitivity p; [|symmetry]; apply Hall; [by left|by right; left]).
      apply NoDup_cons in Hnd as [Hn _]. apply Hn. by left.
Qed.

Definition blob_pair (deleted added : list (string * list string)) (blob : string) :
    option (string * string) :=
  match sorted (bucket blob deleted), sorted (bucket blob added) with
  | [o], [n] => Some (o, n)
  | _, _ => None
  end.

Lemma rename_step_pair deleted added pairs ambiguities blob :
  rename_step deleted added (pairs, ambiguities) blob =
  match blob_pair deleted added blob with
  | Some p => (pairs ++ [p], ambiguities)
  | None => (pairs, ambiguities ++ [blob])
  end.
Proof.
  unfold rename_step, blob_pair.
  by destruct (sorted (bucket blob deleted)) as [|? [|]], (sorted (bucket blob added)) as [|? [|]].
Qed.

Lemma rename_steps deleted added blobs pairs ambiguities :
  foldl (rename_step deleted added) (pairs, ambiguities) blobs =
  (pairs ++ omap (blob_pair deleted added) blobs,
   ambiguities ++ filter (λ b, blob_pair deleted added b = None) blobs).
Proof.
  revert pairs ambiguities. induction blobs as [|b blobs IH]; intros ps am; [by rewrite !app_nil_r|].
  cbn [foldl omap list_omap]. rewrite rename_step_pair, filter_cons.
  destruct (blob_pair deleted added b) as [p|].
  - rewrite IH, decide_False, <-app_assoc by done. done.
  - rewrite IH, decide_True, <-app_assoc by done. done.
Qed.

Lemma blob_pair_Some deleted added blob o n :
  dict_wf deleted → dict_wf added →
  blob_pair (by_blob deleted) (by_blob added) blob = Some (o, n) ↔
  ((o, blob) ∈ deleted ∧ ∀ p, (p, blob) ∈ deleted → p = o) ∧
  ((n, blob) ∈ added ∧ ∀ p, (p, blob) ∈ added → p = n).
Proof.
  intros Hd Ha. rewrite <-!single_path by done. unfold blob_pair.
  destruct (sorted (bucket blob (by_blob deleted))) as [|? [|]],
    (sorted (bucket blob (by_blob added))) as [|? [|]]; naive_solver.
Qed.
End renames.

(** exact renames are one to one.  For mappings of deleted and added
    paths to blobs, a pair is reported exactly when the two paths are the
    only ones with their blob on each side, so no path is reported twice; a
    blob present on both sides with several paths on one of them is reported
    as ambiguous instead, and no other blob is. *)
Theorem exact_renames_unique (deleted added : list (string * string))
    (Hd : dict_wf deleted) (Ha : dict_wf added) :
  let facts := canonical_exact_renames deleted added in
  let only p blob paths := (p, blob) ∈ paths ∧ ∀ p', (p', blob) ∈ paths → p' = p in
  (∀ o n, (o, n) ∈ rename_pairs facts ↔ ∃ blob, only o blob deleted ∧ only n blob added) ∧
  NoDup (rename_pairs facts).*1 ∧ NoDup (rename_pairs facts).*2 ∧
  (∀ blob, blob ∈ rename_ambiguities facts ↔
     (∃ p, (p, blob) ∈ deleted) ∧ (∃ p, (p, blob) ∈ added) ∧
     ¬ ∃ o n, only o blob deleted ∧ only n blob added).
Proof.
  intros facts only.
  set (blobs := sorted_set (list_to_set (dict_keys (by_blob deleted)) ∩
                 list_to_set (dict_keys (by_blob added)) : gset string)).
  assert (Hin : ∀ b, b ∈ blobs ↔ (∃ p, (p, b) ∈ deleted) ∧ ∃ p, (p, b) ∈ added).
  { intros b. unfold blobs. rewrite elem_of_sorted_set, elem_of_intersection, !elem_of_list_to_set.
    by rewrite !elem_of_keys_by_blob. }
  assert (Hnd : NoDup blobs) by apply NoDup_sorted_set.
  assert (Hf : facts = {| rename_pairs := omap (blob_pair (by_blob deleted) (by_blob added)) blobs;
    rename_ambiguities := filter (λ b, blob_pair (by_blob deleted) (by_blob added) b = None) blobs;
    rename_algorithm := "canonical-exact-rename-v1" |}).
  { unfold facts, canonical_exact_renames. cbv zeta. fold blobs. by rewrite rename_steps. }
  assert (Hpair : ∀ o n, (o, n) ∈ rename_pairs facts ↔ ∃ blob, only o blob deleted ∧ only n blob added).
  { intros o n. rewrite Hf. cbn. rewrite list_elem_of_omap. split.
    - intros (b & _ & Hb). exists b. by apply blob_pair_Some.
    - intros (b & Ho & Hn). exists b. split; [|by apply blob_pair_Some].
      apply Hin. split; [exists o; apply Ho|exists n; apply Hn]. }
  assert (Hsome : ∀ b o n, blob_pair (by_blob deleted) (by_blob added) b = Some (o, n) →
    (o, b) ∈ deleted ∧ (n, b) ∈ added).
  { intros b o n. rewrite blob_pair_Some by done. naive_solver. }
  split; [done|]. rewrite Hf. cbn. split_and!.
  - apply (NoDup_omap_proj fst); [done|]. intros b1 b2 [o1 n1] [o2 n2] (E1 & _)%Hsome (E2 & _)%Hsome Eq.
    cbn in Eq. subst. apply (dict_get_elem _ _ _ Hd) in E1, E2. congruence.
  - apply (NoDup_omap_proj snd); [done|]. intros b1 b2 [o1 n1] [o2 n2] (_ & E1)%Hsome (_ & E2)%Hsome Eq.
    cbn in Eq. subst. apply (dict_get_elem _ _ _ Ha) in E1, E2. congruence.
  - intros b. rewrite list_elem_of_filter, Hin.
    assert (Hex : (∃ o n, only o b deleted ∧ only n b added) ↔
      is_Some (blob_pair (by_blob deleted) (by_blob added) b)).
    { split; [intros (o & n & ?); exists (o, n); by apply blob_pair_Some|].
      intros [[o n] E]. exists o, n. by apply blob_pair_Some in E. }
    rewrite Hex, <-eq_None_not_Some. tauto.
Qed.

(** * Witnesses *)

Section samples.
#[local] Instance sample_repr : PyRepr := λ v, "value".
#[local] Instance sample_sha : Sha256 := λ bytes, of_chars (replicate 64 "0"%char ++ chars (pretty (length bytes))).

Definition raw_finding (line : Z) (blocking : bool) : list (string * pyval) :=
  [("analyzer", VStr "ruff"); ("rule", VStr "E501"); ("severity", VStr "error"); ("path", VStr "a.py");
   ("line", VInt line); ("message", VStr " m  n "); ("blocking", VBool blocking)].
Definition raw_value (line : Z) (blocking : bool) : DifferentialFinding :=
  {| df_analyzer := "ruff"; df_rule := "E501"; df_severity := "error"; df_path := "a.py";
     df_line := line; df_message := "m n"; df_blocking := blocking |}.
Definition sample_request (blocking : bool) : FindingClassificationRequest :=
  {| req_base_findings := [raw_finding 2 blocking; raw_finding 4 blocking];
     req_head_findings := [raw_finding 3 blocking];
     req_base_sources := [("a.py", old_text)]; req_head_sources := [("a.py", new_text)];
     req_base_analysis_status := "pass"; req_rename_facts := None; req_rename_ambiguities := None;
     req_deleted_paths := []; req_added_paths := []; req_source_size_override := None;
     req_changed_lines := None |}.

Definition sample_classification : DifferentialClassification :=
  Eval vm_compute in classify_values (sample_request false)
    [raw_value 2 false; raw_value 4 false] [raw_value 3 false].

Definition blocking_classification : DifferentialClassification :=
  Eval vm_compute in classify_values (sample_request true)
    [raw_value 2 true; raw_value 4 true] [raw_value 3 true].

Lemma classification_conserves_witness :
  analysed (sample_request true) ∧
  dc_unchanged blocking_classification = [raw_value 3 true] ∧
  dc_fixed blocking_classification = [raw_value 4 true] ∧
  ∃ unknown_head unknown_base,
    [raw_value 3 true] ≡ₚ dc_introduced blocking_classification ++
      dc_unchanged blocking_classification ++ unknown_head ∧
    dc_unknown blocking_classification ≡ₚ unknown_head ++ unknown_base ∧
    unknown_base ++ dc_fixed blocking_classification ⊆+ [raw_value 2 true; raw_value 4 true].
Proof.
  assert (Ha : analysed (sample_request true)) by (vm_compute; auto).
  assert (Hc : classify_values (sample_request true) [raw_value 2 true; raw_value 4 true]
                 [raw_value 3 true] = blocking_classification) by (vm_compute; reflexivity).
  split; [exact Ha|]. split; [reflexivity|]. split; [reflexivity|].
  pose proof (classification_conserves (sample_request true) [raw_value 2 true; raw_value 4 true]
           [raw_value 3 true] Ha) as Hw.
  cbv zeta in Hw. rewrite Hc in Hw. exact Hw.
Defined.

Lemma classification_verdict_witness :
  ∃ base_values head_values,
    map_res _finding (req_base_findings (sample_request false)) = Ok base_values ∧
    map_res _finding (req_head_findings (sample_request false)) = Ok head_values ∧
    Forall (λ f, df_blocking f = false) head_values.
Proof.
  assert (Hc : classify_findings (sample_request false) = Ok sample_classification)
    by (vm_compute; reflexivity).
  assert (Hs : dc_status sample_classification = C_PASS) by reflexivity.
  destruct (classification_verdict (sample_request false) _ Hc) as (bs & hs & Hb & Hh & Hp & _).
  exists bs, hs. split; [exact Hb|]. split; [exact Hh|]. exact (proj2 (proj2 (proj1 Hp Hs))).
Defined.

Lemma unchanged_has_counterpart_witness :
  raw_value 3 true ∈ [raw_value 3 true] ∧
  ∃ b, b ∈ [raw_value 2 true; raw_value 4 true] ∧ continues (sample_request true) b (raw_value 3 true).
Proof.
  assert (Hh : raw_value 3 true ∈ dc_unchanged (classify_values (sample_request true)
      [raw_value 2 true; raw_value 4 true] [raw_value 3 true])) by (vm_compute; left).
  exact (unchanged_has_counterpart (sample_request true) [raw_value 2 true; raw_value 4 true]
           [raw_value 3 true] (raw_value 3 true) Hh).
Defined.

Definition sample_deleted : list (string * string) := [("old.py", "b1"); ("x.py", "b2"); ("y.py", "b2")].
Definition sample_added : list (string * string) := [("z.py", "b2"); ("new.py", "b1")].

Lemma exact_renames_unique_witness :
  dict_wf sample_deleted ∧ dict_wf sample_added ∧
  ∃ blob, (("old.py", blob) ∈ sample_deleted ∧ ∀ p, (p, blob) ∈ sample_deleted → p = "old.py") ∧
    (("new.py", blob) ∈ sample_added ∧ ∀ p, (p, blob) ∈ sample_added → p = "new.py").
Proof.
  assert (Hd : dict_wf sample_deleted) by (unfold dict_wf; refine (bool_decide_unpack _ _); vm_compute; exact I).
  assert (Ha : dict_wf sample_added) by (unfold dict_wf; refine (bool_decide_unpack _ _); vm_compute; exact I).
  split; [exact Hd|]. split; [exact Ha|].
  assert (Hin : ("old.py", "new.py") ∈ rename_pairs (canonical_exact_renames sample_deleted sample_added))
    by (vm_compute; left).
  exact (proj1 (proj1 (exact_renames_unique sample_deleted sample_added Hd Ha) _ _) Hin).
Defined.
End samples.
