(* ===== verification/Suppression.v ===== *)
(** Suppression: the registered comment directives, the suppression delta
    between two source trees and the activation of the suppression catalog of
    [specfact_code_review/run/differential.py]. *)

From S2P Require Import Prelude Text Paths Regex Dict PyValue Json Correspondence Differential.

(** * Directives *)

Definition introduced_inline : string := "introduced_inline_suppression".
Definition introduced_control : string := "introduced_analyzer_result_control".

(** [\[[^]]*\]] *)
Definition bracketed : regex :=
  rseqs [RChar "["; RStar (RSet (λ c, bool_decide (c ≠ "]"%char))); RChar "]"].
Definition letters : ascii → bool := λ c, is_upper c || is_lower c.

Definition _DIRECTIVE_PATTERNS : list (string * string * regex) :=
  [("ruff-noqa", introduced_inline,
    rseqs [RBound; ralts (rlit_i "noqa") [rseqs [rlit_i "ruff:"; RStar rspace; rlit_i "noqa"]]; RBound]);
   ("ruff-control", introduced_inline,
    rseqs [RBound; rlit "ruff:"; RStar rspace;
           ralts (rlit "ignore") [rlit "file-ignore"; rlit "disable"; rlit "enable"];
           RStar rspace; RChar "["]);
   ("ruff-isort", introduced_inline,
    rseqs [RBound; ropt (rseqs [rlit_i "ruff:"; RStar rspace]); rlit_i "isort:"; RStar rspace;
           ralts (rlit_i "skip_file") [rlit_i "on"; rlit_i "off"; rlit_i "skip"; rlit_i "split"]; RBound]);
   ("pylint", introduced_inline,
    rseqs [RBound; rlit_i "pylint:"; RStar rspace;
           ralts (rseqs [rlit_i "disable";
                         ropt (ralts (rlit_i "-next") [rlit_i "-all"; rlit_i "-msg"])])
                 [rlit_i "skip-file"]; RBound]);
   ("type-ignore", introduced_inline,
    rseqs [RBound; rlit_i "type:"; RStar rspace; rlit_i "ignore"; ropt bracketed]);
   ("nosemgrep", introduced_inline,
    rseqs [RBound; rlit_i "no"; ralts (rlit_i "semgrep") [rlit_i "sem"]; RBound]);
   ("coverage", introduced_inline,
    rseqs [RBound; rlit_i "pragma:"; RStar rspace; rlit_i "no"; rplus rspace;
           ralts (rlit_i "cover") [rlit_i "branch"]; RBound]);
   ("basedpyright", introduced_control,
    rseqs [RBound; rlit_i "pyright:"; RStar rspace;
           ralts (rseqs [rlit_i "ignore"; ropt bracketed])
             [rlit_i "strict"; rlit_i "basic"; rlit_i "standard";
              rseqs [RSet letters; RStar (RSet (λ c, letters c || is_digit c)); RStar rspace;
                     RChar "="]]]);
   ("crosshair", introduced_control,
    rseqs [RBound; rlit_i "crosshair:"; RStar rspace;
           ralts (rlit_i "on") [rlit_i "off"; rlit_i "enabled"; rlit_i "analysis_kind";
             rlit_i "specs_complete"; rlit_i "max_iterations"; rlit_i "per_condition_timeout";
             rlit_i "per_path_timeout"; rlit_i "max_uninteresting_iterations"]; RBound])].

Definition _SUPPRESSION_ANALYZERS : list (string * list string) :=
  [("ruff-noqa", ["ruff"]); ("ruff-control", ["ruff"]); ("ruff-isort", ["ruff"]);
   ("pylint", ["pylint"]); ("basedpyright", ["basedpyright"]); ("crosshair", ["contracts"]);
   ("type-ignore", ["basedpyright"; "pylint"]); ("nosemgrep", ["semgrep"; "semgrep-bugs"]);
   ("coverage", ["targeted-pytest-coverage"])].

Record SuppressionOccurrence := {
  so_path : string; so_line : Z; so_family : string; so_kind : string; so_token : string
}.
#[export] Instance SuppressionOccurrence_eq_dec : EqDecision SuppressionOccurrence.
Proof. solve_decision. Defined.

(** The comments of a source with their lines, from [tokenize], or the name
    of the exception it raises on a source it cannot read. *)
Class Tokenize := py_comments : string → string + list (Z * string).

(** The first directive of a normalised comment *)
Definition directive_of (normalized : string) : option (string * string) :=
  fst <$> find (λ fkp, search fkp.2 normalized) _DIRECTIVE_PATTERNS.

Definition _tokenize_comments `{Tokenize} (path source : string) :
    string + list SuppressionOccurrence :=
  match py_comments source with
  | inl e => inl e
  | inr comments =>
      inr (omap (λ lt,
        let normalized := normalize_ws (strip lt.2) in
        match directive_of normalized with
        | Some (family, kind) =>
            Some {| so_path := path; so_line := lt.1; so_family := family; so_kind := kind;
                    so_token := lower normalized |}
        | None => None
        end) comments)
  end.

Definition _SuppressionKey : Type := string * string * string * Z.
Definition _SuppressionEntry : Type := _SuppressionKey * SuppressionOccurrence.
Definition suppression_identity : Type := string * string * string.

Definition suppression_identity_of (reverse_renames : list (string * string))
    (o : SuppressionOccurrence) : suppression_identity :=
  (normalized_path reverse_renames (so_path o), so_family o, so_token o).
Definition _suppression_key (o : SuppressionOccurrence) (reverse_renames : list (string * string))
    (ordinal : Z) : _SuppressionKey :=
  (normalized_path reverse_renames (so_path o), so_family o, so_token o, ordinal).

(** [sorted(sources.items())] *)
Definition sorted_items (sources : list (string * string)) : list (string * string) := sorted sources.

Definition _python_sources (sources : list (string * string)) : list (string * string) :=
  filter (λ ps, path_suffix ps.1 ∈ [".py"; ".pyi"]) sources.

Fixpoint collect_occurrences `{Tokenize} (sources : list (string * string)) :
    string + list SuppressionOccurrence :=
  match sources with
  | [] => inr []
  | (path, source) :: rest =>
      match _tokenize_comments path source with
      | inl e => inl e
      | inr os => match collect_occurrences rest with inl e => inl e | inr os' => inr (os ++ os') end
      end
  end.
Definition _suppression_occurrences `{Tokenize} (sources : list (string * string)) :
    string + list SuppressionOccurrence :=
  collect_occurrences (sorted_items sources).

(** * Indexes *)

Definition index_step (reverse_renames : list (string * string))
    (acc : list (suppression_identity * Z) * list _SuppressionEntry) (o : SuppressionOccurrence) :
    list (suppression_identity * Z) * list _SuppressionEntry :=
  let '(counts, indexed) := acc in
  let identity := suppression_identity_of reverse_renames o in
  let ordinal := default 0%Z (dict_get identity counts) in
  (dict_set identity (ordinal + 1)%Z counts,
   dict_set (_suppression_key o reverse_renames ordinal) o indexed).
Definition _suppression_occurrence_index (occurrences : list SuppressionOccurrence)
    (reverse_renames : list (string * string)) : list _SuppressionEntry :=
  (foldl (index_step reverse_renames) ([], []) occurrences).2.

Definition _suppression_indexes (base_occurrences head_occurrences : list SuppressionOccurrence)
    (renames : list (string * string)) : list _SuppressionEntry * list _SuppressionEntry :=
  (_suppression_occurrence_index base_occurrences [],
   _suppression_occurrence_index head_occurrences (reverse_renames renames)).

Definition _suppression_identity_buckets (occurrences : list _SuppressionEntry) :
    list (suppression_identity * list _SuppressionEntry) :=
  group_by (λ e, e.1.1) (sort_by fst occurrences).

(** * Evidence *)

Record _SuppressionCorrespondence := {
  sc_status : continuity; sc_evidence : list (string * json)
}.
Record _SuppressionIntroduction := {
  intro_base_key : option _SuppressionKey;
  intro_head_key : _SuppressionKey;
  intro_evidence : list (string * json)
}.
Record _SuppressionPairing := {
  pair_base_key : option _SuppressionKey;
  pair_head_key : _SuppressionKey;
  pair_evidence : list (string * json)
}.

Record SuppressionTransitionEvidence := {
  ste_base_path : string; ste_base_line : Z; ste_base_occurrence_digest : string;
  ste_correspondence_status : string; ste_correspondence_digest : string;
  ste_correspondence_evidence : list (string * json)
}.
Record SuppressionEvidence := {
  se_changed_hunk_digest : string; se_analyzers : list string; se_family : string;
  se_base_blob_digest : string; se_head_blob_digest : string; se_occurrence_digest : string;
  se_base_manifest_digest : string; se_head_manifest_digest : string;
  se_transition : SuppressionTransitionEvidence
}.
Record SuppressionFinding := {
  sf_kind : string; sf_path : string; sf_line : Z; sf_blocking : bool;
  sf_evidence : SuppressionEvidence
}.
Record SuppressionClassification := {
  scl_status : classification_status;
  scl_findings : list SuppressionFinding;
  scl_introduced : list SuppressionOccurrence;
  scl_unchanged : list SuppressionOccurrence;
  scl_missing_base_disposition : string;
  scl_reason : string
}.

Record _SuppressionDeltaContext := {
  sdc_base_by_key : list _SuppressionEntry;
  sdc_head_by_key : list _SuppressionEntry;
  sdc_base_sources : list (string * string);
  sdc_head_sources : list (string * string);
  sdc_base_manifest_digest : string;
  sdc_head_manifest_digest : string
}.

(** * The correspondence cache *)

Record _CorrespondenceCache := {
  cc_memo : memo;
  cc_forbidden_cells : gmap (string * string) Z;
  cc_source_lines : gmap string (list string);
  cc_source_equal : gmap (string * string) bool
}.
Definition empty_cache : _CorrespondenceCache :=
  {| cc_memo := empty_memo; cc_forbidden_cells := ∅; cc_source_lines := ∅; cc_source_equal := ∅ |}.

Definition _cached_source_lines (source : string) (c : _CorrespondenceCache) :
    list string * _CorrespondenceCache :=
  match cc_source_lines c !! source with
  | Some lines => (lines, c)
  | None =>
      let lines := splitlines source in
      (lines, {| cc_memo := cc_memo c; cc_forbidden_cells := cc_forbidden_cells c;
                 cc_source_lines := <[source := lines]> (cc_source_lines c);
                 cc_source_equal := cc_source_equal c |})
  end.

Definition _cached_source_equality (base_source head_source : string) (c : _CorrespondenceCache) :
    bool * _CorrespondenceCache :=
  match cc_source_equal c !! (base_source, head_source) with
  | Some equal => (equal, c)
  | None =>
      let equal := bool_decide (base_source = head_source) in
      (equal, {| cc_memo := cc_memo c; cc_forbidden_cells := cc_forbidden_cells c;
                 cc_source_lines := cc_source_lines c;
                 cc_source_equal := <[(base_source, head_source) := equal]> (cc_source_equal c) |})
  end.

Definition with_memo (m : memo) (c : _CorrespondenceCache) : _CorrespondenceCache :=
  {| cc_memo := m; cc_forbidden_cells := cc_forbidden_cells c;
     cc_source_lines := cc_source_lines c; cc_source_equal := cc_source_equal c |}.

Definition _reserve_forbidden_correspondence (c : _CorrespondenceCache)
    (source_key : string * string) (context : _ContinuityContext) : bool * _CorrespondenceCache :=
  let forbidden_key := (source_key, Z.to_nat (ctx_base_index context),
                        Z.to_nat (ctx_head_index context)) in
  if bool_decide (is_Some (memo_forbidden (cc_memo c) !! forbidden_key)) then (true, c)
  else
    let used_cells := default 0%Z (cc_forbidden_cells c !! source_key) in
    if (_MAX_AGGREGATE_CORRESPONDENCE_CELLS <? used_cells + ctx_cells context)%Z then (false, c)
    else
      (true, {| cc_memo := cc_memo c;
                cc_forbidden_cells :=
                  <[source_key := (used_cells + ctx_cells context)%Z]> (cc_forbidden_cells c);
                cc_source_lines := cc_source_lines c; cc_source_equal := cc_source_equal c |}).

(** * Correspondence of two occurrences *)

Section suppression.
Context `{Sha256} `{Tokenize}.

Definition canonical_bytes (document : json) : list ascii := utf8 (dumps false (sort_keys document)).

Definition continuity_text (c : continuity) : string :=
  match c with Unchanged => "unchanged" | Introduced => "introduced" | Unknown => "unknown" end.

Definition _suppression_correspondence (status : continuity) (evidence : list (string * json))
    (decision : string) : _SuppressionCorrespondence :=
  {| sc_status := status;
     sc_evidence := dict_merge evidence
       [("decision", JStr decision); ("status", JStr (continuity_text status))] |}.

Definition aggregate_bounds : json :=
  JObj [("max_source_bytes", JInt _MAX_SOURCE_BYTES); ("max_source_lines", JInt _MAX_SOURCE_LINES);
        ("max_cells", JInt _MAX_CORRESPONDENCE_CELLS);
        ("max_aggregate_cells", JInt _MAX_AGGREGATE_CORRESPONDENCE_CELLS)].

Definition newline : string := String (ascii_of_nat 10) "".

(** The part of the decision after the anchors were found equal and unique. *)
Definition cost_correspondence (context : _ContinuityContext) (source_key : string * string)
    (evidence : list (string * json)) (c : _CorrespondenceCache) :
    _SuppressionCorrespondence * _CorrespondenceCache :=
  let '(reserved, c) := _reserve_forbidden_correspondence c source_key context in
  if negb reserved
  then (_suppression_correspondence Unknown evidence "aggregate_correspondence_bounds", c)
  else
    let '(costs, m) := _continuity_cost_evidence context source_key (cc_memo c) in
    let c := with_memo m c in
    let evidence := dict_merge evidence (cost_items costs) in
    if (ce_pair_cost costs =? 0)%Z && (ce_forced_cost costs =? ce_global_cost costs)%Z
       && (ce_global_cost costs <? ce_forbidden_cost costs)%Z
    then (_suppression_correspondence Unchanged evidence "unique_optimal_match", c)
    else (_suppression_correspondence Introduced evidence "not_unique_optimal_correspondence", c).

Definition _suppression_occurrence_continuity (base head : SuppressionOccurrence)
    (base_source head_source : string) (c : _CorrespondenceCache) :
    _SuppressionCorrespondence * _CorrespondenceCache :=
  let evidence := [("algorithm", JStr "source-line-correspondence-v1");
                   ("base_line", JInt (so_line base)); ("head_line", JInt (so_line head));
                   ("bounds", aggregate_bounds)] in
  let '(equal, c) := _cached_source_equality base_source head_source c in
  if (equal : bool)
  then (_suppression_correspondence Unchanged evidence "identical_source", c)
  else
    let '(base_lines, c) := _cached_source_lines base_source c in
    let '(head_lines, c) := _cached_source_lines head_source c in
    match continuity_context_lines (so_line base) (so_line head) base_source head_source
            base_lines head_lines with
    | inr reason =>
        (_suppression_correspondence Unknown (dict_merge evidence reason) "unavailable", c)
    | inl context =>
        let evidence := dict_merge evidence
          [("base_line_sequence_digest",
            JStr (sha256_digest (chars (join newline (ctx_base_lines context)))));
           ("head_line_sequence_digest",
            JStr (sha256_digest (chars (join newline (ctx_head_lines context)))))] in
        let base_line := line_at (ctx_base_lines context) (Z.to_nat (ctx_base_index context)) in
        let head_line := line_at (ctx_head_lines context) (Z.to_nat (ctx_head_index context)) in
        if bool_decide (base_line ≠ head_line)
        then (_suppression_correspondence Introduced evidence "physical_line_changed", c)
        else if negb (count_line base_line (ctx_base_lines context) =? 1)%Z
                || negb (count_line head_line (ctx_head_lines context) =? 1)%Z
        then (_suppression_correspondence Unknown evidence "ambiguous_physical_line", c)
        else cost_correspondence context (base_source, head_source) evidence c
    end.

(** * Classification of an identity *)

(** [sources[path]]: occurrences are collected from these sources, so the
    path is there ([SuppressionProofs.occurrence_source]). *)
Definition source_at (path : string) (sources : list (string * string)) : string :=
  default "" (dict_get path sources).

Record _SuppressionSources := { src_base : list (string * string); src_head : list (string * string) }.

Definition _suppression_physical_lines (bucket : list _SuppressionEntry) (source_lines : list string) :
    list (_SuppressionKey * option string) :=
  (λ e : _SuppressionEntry,
     (e.1, if (0 <? so_line e.2)%Z && (so_line e.2 <=? Z.of_nat (length source_lines))%Z
           then source_lines !! Z.to_nat (so_line e.2 - 1) else None)) <$> bucket.

Definition _suppression_entries_by_line (bucket : list _SuppressionEntry)
    (physical_lines : list (_SuppressionKey * option string)) :
    list (string * list _SuppressionEntry) :=
  foldl (λ d (e : _SuppressionEntry),
      match mjoin (dict_get e.1 physical_lines) with
      | Some line => dict_append line e d
      | None => d
      end) [] bucket.

Definition correspondences : Type :=
  list ((_SuppressionKey * _SuppressionKey) * _SuppressionCorrespondence).

Definition pair_evidence_step (base_source head_source : string)
    (base_by_line head_by_line : list (string * list _SuppressionEntry))
    (acc : correspondences * _CorrespondenceCache) (line : string) :
    correspondences * _CorrespondenceCache :=
  let '(found, c) := acc in
  match bucket line base_by_line, bucket line head_by_line with
  | [(base_key, base_item)], [(head_key, head_item)] =>
      let '(correspondence, c) :=
        _suppression_occurrence_continuity base_item head_item base_source head_source c in
      (dict_set (base_key, head_key) correspondence found, c)
  | _, _ => (found, c)
  end.

Definition head_path (bucket : list _SuppressionEntry) : string :=
  match bucket with (_, o) :: _ => so_path o | [] => "" end.

Definition _suppression_pair_evidence (base_bucket head_bucket : list _SuppressionEntry)
    (sources : _SuppressionSources) (c : _CorrespondenceCache) :
    correspondences * _CorrespondenceCache :=
  let base_source := source_at (head_path base_bucket) (src_base sources) in
  let head_source := source_at (head_path head_bucket) (src_head sources) in
  let '(bls, c) := _cached_source_lines base_source c in
  let base_lines := _suppression_physical_lines base_bucket bls in
  let '(hls, c) := _cached_source_lines head_source c in
  let head_lines := _suppression_physical_lines head_bucket hls in
  let base_by_line := _suppression_entries_by_line base_bucket base_lines in
  let head_by_line := _suppression_entries_by_line head_bucket head_lines in
  let shared : gset string :=
    list_to_set (dict_keys base_by_line) ∩ list_to_set (dict_keys head_by_line) in
  foldl (pair_evidence_step base_source head_source base_by_line head_by_line) ([], c)
    (sorted_set shared).

(** [(unchanged, introduced, unknown)] *)
Definition identity_result : Type :=
  list _SuppressionPairing * list _SuppressionIntroduction * bool.

Definition fallback_step (sources : _SuppressionSources)
    (acc : identity_result * _CorrespondenceCache) (pair : _SuppressionEntry * _SuppressionEntry) :
    identity_result * _CorrespondenceCache :=
  let '((unchanged, introduced, correspondence_unknown), c) := acc in
  let '((base_key, base_item), (head_key, head_item)) := pair in
  let '(correspondence, c) :=
    _suppression_occurrence_continuity base_item head_item
      (source_at (so_path base_item) (src_base sources))
      (source_at (so_path head_item) (src_head sources)) c in
  if decide (sc_status correspondence = Introduced)
  then ((unchanged,
         introduced ++ [{| intro_base_key := Some base_key; intro_head_key := head_key;
                           intro_evidence := sc_evidence correspondence |}],
         correspondence_unknown), c)
  else ((unchanged ++ [{| pair_base_key := Some base_key; pair_head_key := head_key;
                          pair_evidence := sc_evidence correspondence |}],
         introduced,
         correspondence_unknown || bool_decide (sc_status correspondence = Unknown)), c).

Definition surplus_evidence (base_bucket head_bucket : list _SuppressionEntry) : list (string * json) :=
  [("algorithm", JStr "source-line-correspondence-v1");
   ("base_count", JInt (Z.of_nat (length base_bucket)));
   ("decision", JStr "ambiguous_surplus_candidate");
   ("head_count", JInt (Z.of_nat (length head_bucket)));
   ("status", JStr "unknown")].

(** A head entry without base counterpart *)
Definition introduce (e : _SuppressionEntry) : _SuppressionIntroduction :=
  {| intro_base_key := None; intro_head_key := e.1; intro_evidence := [] |}.

Definition _suppression_fallback_pairs (base_bucket head_bucket : list _SuppressionEntry)
    (sources : _SuppressionSources) (c : _CorrespondenceCache) :
    identity_result * _CorrespondenceCache :=
  let pair_count := Nat.min (length base_bucket) (length head_bucket) in
  let '((unchanged, introduced, correspondence_unknown), c) :=
    foldl (fallback_step sources) (([], [], false), c)
      (zip (take pair_count base_bucket) (take pair_count head_bucket)) in
  let surplus := drop pair_count head_bucket in
  if (correspondence_unknown : bool)
  then ((unchanged ++ ((λ e : _SuppressionEntry,
           {| pair_base_key := None; pair_head_key := e.1;
              pair_evidence := surplus_evidence base_bucket head_bucket |}) <$> surplus),
         introduced, correspondence_unknown), c)
  else ((unchanged, introduced ++ (introduce <$> surplus), correspondence_unknown), c).

Definition _classify_changed_suppression_identity (base_bucket head_bucket : list _SuppressionEntry)
    (sources : _SuppressionSources) (c : _CorrespondenceCache) :
    identity_result * _CorrespondenceCache :=
  let '(found, c) := _suppression_pair_evidence base_bucket head_bucket sources c in
  let kept := filter (λ kc, sc_status kc.2 ≠ Introduced) found in
  let changed := filter (λ kc, sc_status kc.2 = Introduced) found in
  let correspondence_pairs :=
    (λ kc, {| pair_base_key := Some kc.1.1; pair_head_key := kc.1.2;
              pair_evidence := sc_evidence kc.2 |}) <$> kept in
  let introduced :=
    (λ kc, {| intro_base_key := Some kc.1.1; intro_head_key := kc.1.2;
              intro_evidence := sc_evidence kc.2 |}) <$> changed in
  let matched_base := (dict_keys found).*1 in
  let matched_head := (dict_keys found).*2 in
  let remaining_base := filter (λ e : _SuppressionEntry, e.1 ∉ matched_base) base_bucket in
  let remaining_head := filter (λ e : _SuppressionEntry, e.1 ∉ matched_head) head_bucket in
  let '((fallback_pairs, fallback_introduced, fallback_unknown), c) :=
    _suppression_fallback_pairs remaining_base remaining_head sources c in
  let correspondence_unknown := existsb (λ k, bool_decide (sc_status k = Unknown)) (dict_values found) in
  ((correspondence_pairs ++ fallback_pairs, introduced ++ fallback_introduced,
    correspondence_unknown || fallback_unknown), c).

Definition _classify_suppression_identity (base_bucket head_bucket : list _SuppressionEntry)
    (sources : _SuppressionSources) (c : _CorrespondenceCache) :
    identity_result * _CorrespondenceCache :=
  match base_bucket, head_bucket with
  | [], _ => (([], introduce <$> head_bucket, false), c)
  | _, [] => (([], [], false), c)
  | _, _ =>
      let base_source := source_at (head_path base_bucket) (src_base sources) in
      let head_source := source_at (head_path head_bucket) (src_head sources) in
      let '(equal, c) := _cached_source_equality base_source head_source c in
      if (equal : bool)
      then
        let pair_count := Nat.min (length base_bucket) (length head_bucket) in
        (((λ bh : _SuppressionEntry * _SuppressionEntry,
             {| pair_base_key := Some bh.1.1; pair_head_key := bh.2.1; pair_evidence := [] |})
            <$> zip (take pair_count base_bucket) (take pair_count head_bucket),
          introduce <$> drop pair_count head_bucket, false), c)
      else _classify_changed_suppression_identity base_bucket head_bucket sources c
  end.

Definition keys_step (base_buckets head_buckets : list (suppression_identity * list _SuppressionEntry))
    (sources : _SuppressionSources) (acc : identity_result * _CorrespondenceCache)
    (identity : suppression_identity) : identity_result * _CorrespondenceCache :=
  let '((unchanged, introduced, correspondence_unknown), c) := acc in
  let '((identity_unchanged, identity_introduced, identity_unknown), c) :=
    _classify_suppression_identity (bucket identity base_buckets) (bucket identity head_buckets)
      sources c in
  ((unchanged ++ identity_unchanged, introduced ++ identity_introduced,
    correspondence_unknown || identity_unknown), c).

Definition is_none {A} (o : option A) : bool := match o with None => true | Some _ => false end.
Definition _suppression_pairing_sort_key (p : _SuppressionPairing) :
    bool * _SuppressionKey * _SuppressionKey :=
  (is_none (pair_base_key p), default (pair_head_key p) (pair_base_key p), pair_head_key p).

Definition _classify_suppression_keys (base_by_key head_by_key : list _SuppressionEntry)
    (base_sources head_sources : list (string * string)) (c : _CorrespondenceCache) :
    identity_result * _CorrespondenceCache :=
  let base_buckets := _suppression_identity_buckets base_by_key in
  let head_buckets := _suppression_identity_buckets head_by_key in
  let sources := {| src_base := base_sources; src_head := head_sources |} in
  let identities : gset suppression_identity :=
    list_to_set (dict_keys base_buckets ++ dict_keys head_buckets) in
  let '((unchanged, introduced, correspondence_unknown), c) :=
    foldl (keys_step base_buckets head_buckets sources) (([], [], false), c)
      (sorted_set identities) in
  ((sort_by _suppression_pairing_sort_key unchanged, sort_by intro_head_key introduced,
    correspondence_unknown), c).
End suppression.

(** * Findings and the delta *)

Section delta.
Context `{Sha256} `{Tokenize}.

Definition canonical_digest (document : json) : string := sha256_digest (canonical_bytes document).

Definition _source_manifest_digest (sources : list (string * string)) : string :=
  canonical_digest (JObj ((λ ps, (ps.1, JStr (sha256_digest (chars ps.2)))) <$> sorted_items sources)).

Definition _suppression_occurrence_projection (o : SuppressionOccurrence) : json :=
  JObj [("family", JStr (so_family o)); ("kind", JStr (so_kind o)); ("line", JInt (so_line o));
        ("path", JStr (so_path o)); ("token", JStr (so_token o))].

(** ["sha256:" + ... if source is not None else ""] *)
Definition blob_digest (source : option string) : string :=
  match source with Some s => sha256_digest (chars s) | None => "" end.

Definition _suppression_evidence (o : SuppressionOccurrence) (base_occurrence : option SuppressionOccurrence)
    (base_source head_source : option string) (context : _SuppressionDeltaContext)
    (correspondence : list (string * json)) : SuppressionEvidence :=
  {| se_changed_hunk_digest :=
       sha256_digest (chars (default "" base_source +:+ nul +:+ default "" head_source));
     se_analyzers := default [] (dict_get (so_family o) _SUPPRESSION_ANALYZERS);
     se_family := so_family o;
     se_base_blob_digest := blob_digest base_source;
     se_head_blob_digest := blob_digest head_source;
     se_occurrence_digest := canonical_digest (_suppression_occurrence_projection o);
     se_base_manifest_digest := sdc_base_manifest_digest context;
     se_head_manifest_digest := sdc_head_manifest_digest context;
     se_transition :=
       {| ste_base_path := match base_occurrence with Some b => so_path b | None => "" end;
          ste_base_line := match base_occurrence with Some b => so_line b | None => 0%Z end;
          ste_base_occurrence_digest :=
            match base_occurrence with
            | Some b => canonical_digest (_suppression_occurrence_projection b)
            | None => ""
            end;
          ste_correspondence_status :=
            match dict_get "status" correspondence with Some (JStr s) => s | _ => "" end;
          ste_correspondence_digest :=
            match correspondence with [] => "" | _ => canonical_digest (JObj correspondence) end;
          ste_correspondence_evidence := correspondence |} |}.

(** The finding about the head entry of key [k]; [kind] overrides its own. *)
Definition suppression_finding (context : _SuppressionDeltaContext) (kind : option string)
    (head_item : SuppressionOccurrence) (base_item : option SuppressionOccurrence)
    (base_source : option string) (evidence : list (string * json)) : SuppressionFinding :=
  {| sf_kind := default (so_kind head_item) kind; sf_path := so_path head_item;
     sf_line := so_line head_item; sf_blocking := true;
     sf_evidence := _suppression_evidence head_item base_item base_source
       (dict_get (so_path head_item) (sdc_head_sources context)) context evidence |}.

Definition base_item_of (context : _SuppressionDeltaContext) (key : option _SuppressionKey) :
    option SuppressionOccurrence :=
  key ≫= λ k, dict_get k (sdc_base_by_key context).

Definition _introduced_suppression_findings (introductions : list _SuppressionIntroduction)
    (context : _SuppressionDeltaContext) : list SuppressionFinding :=
  omap (λ introduction,
    (λ head_item,
       let base_item := base_item_of context (intro_base_key introduction) in
       suppression_finding context None head_item base_item
         (base_item ≫= λ b, dict_get (so_path b) (sdc_base_sources context))
         (intro_evidence introduction))
      <$> dict_get (intro_head_key introduction) (sdc_head_by_key context)) introductions.

(** [sources_equal], the cache read only when there is a base source *)
Definition sources_equal (base_source : option string) (head_source : string)
    (c : _CorrespondenceCache) : bool * _CorrespondenceCache :=
  match base_source with
  | Some base_source => _cached_source_equality base_source head_source c
  | None => (false, c)
  end.

(** [(findings, quarantined)] after one unchanged pair *)
Definition quarantine_step (context : _SuppressionDeltaContext)
    (acc : list SuppressionFinding * bool * _CorrespondenceCache) (pair : _SuppressionPairing) :
    list SuppressionFinding * bool * _CorrespondenceCache :=
  let '(findings, quarantined, c) := acc in
  match dict_get (pair_head_key pair) (sdc_head_by_key context) with
  | None => acc
  | Some head_item =>
      let base_item := base_item_of context (pair_base_key pair) in
      let base_source :=
        match base_item with
        | Some b => dict_get (so_path b) (sdc_base_sources context)
        | None => dict_get (pair_head_key pair).1.1.1 (sdc_base_sources context)
        end in
      let head_source := source_at (so_path head_item) (sdc_head_sources context) in
      let '(equal, c) := sources_equal base_source head_source c in
      if bool_decide (is_Some base_item) && equal
      then (findings, quarantined, c)
      else (findings ++ [suppression_finding context (Some "unchanged_suppression_on_changed_file")
                           head_item base_item base_source (pair_evidence pair)], true, c)
  end.
Definition _append_quarantined_suppressions (findings : list SuppressionFinding)
    (unchanged_pairs : list _SuppressionPairing) (context : _SuppressionDeltaContext)
    (c : _CorrespondenceCache) : list SuppressionFinding * bool * _CorrespondenceCache :=
  foldl (quarantine_step context) (findings, false, c) unchanged_pairs.

Definition _suppression_status (quarantined introduced : bool) : classification_status :=
  if quarantined then C_UNKNOWN else if introduced then C_FAIL else C_PASS.

Definition _suppression_delta_context (base_occurrences head_occurrences : list SuppressionOccurrence)
    (base_sources head_sources : list (string * string)) (renames : list (string * string)) :
    _SuppressionDeltaContext :=
  let '(base_by_key, head_by_key) := _suppression_indexes base_occurrences head_occurrences renames in
  {| sdc_base_by_key := base_by_key; sdc_head_by_key := head_by_key;
     sdc_base_sources := base_sources; sdc_head_sources := head_sources;
     sdc_base_manifest_digest := _source_manifest_digest base_sources;
     sdc_head_manifest_digest := _source_manifest_digest head_sources |}.

Definition manifest_error (exception_name : string) : SuppressionClassification :=
  {| scl_status := C_UNKNOWN; scl_findings := []; scl_introduced := []; scl_unchanged := [];
     scl_missing_base_disposition := "ordinary";
     scl_reason := "suppression_manifest_error:" +:+ exception_name |}.

Definition classify_delta (context : _SuppressionDeltaContext) (missing_base_findings : bool) :
    SuppressionClassification :=
  let '((unchanged_pairs, introductions, correspondence_unknown), c) :=
    _classify_suppression_keys (sdc_base_by_key context) (sdc_head_by_key context)
      (sdc_base_sources context) (sdc_head_sources context) empty_cache in
  let head_item k := dict_get k (sdc_head_by_key context) in
  let unchanged := omap (λ p, head_item (pair_head_key p)) unchanged_pairs in
  let introduced := omap (λ i, head_item (intro_head_key i)) introductions in
  let findings := _introduced_suppression_findings introductions context in
  let '(findings, quarantined, _) :=
    _append_quarantined_suppressions findings unchanged_pairs context c in
  {| scl_status := _suppression_status quarantined (bool_decide (introduced ≠ []));
     scl_findings := findings; scl_introduced := introduced; scl_unchanged := unchanged;
     scl_missing_base_disposition :=
       if bool_decide (introduced ≠ []) && missing_base_findings then "unknown" else "ordinary";
     scl_reason := if correspondence_unknown then "suppression_correspondence_unknown" else "" |}.

Definition classify_suppression_delta (base_sources head_sources : list (string * string))
    (rename_facts : option (list (string * string)))
    (missing_base_findings : option (list (list (string * pyval))))
    (waiver : option (list (string * pyval))) : result SuppressionClassification :=
  match waiver with
  | Some _ => Err (UnsupportedWaiverInput "C14 has no authenticated waiver ingestion path")
  | None =>
      let base_sources := _python_sources base_sources in
      let head_sources := _python_sources head_sources in
      match _suppression_occurrences base_sources with
      | inl e => Ok (manifest_error e)
      | inr base_occurrences =>
          match _suppression_occurrences head_sources with
          | inl e => Ok (manifest_error e)
          | inr head_occurrences =>
              let context := _suppression_delta_context base_occurrences head_occurrences
                base_sources head_sources (default [] rename_facts) in
              Ok (classify_delta context
                    (match missing_base_findings with Some (_ :: _) => true | _ => false end))
          end
      end
  end.
End delta.

(** * Catalog activation *)

Definition _FROZEN_SUPPRESSION_CATALOG_DIGEST : string :=
  "sha256:3cc769700bc97d6a13b1a9c3554b66453aa319cf229795e7cede4d917ff13f3b".
Definition _PR_RANGE_V1_SUPPRESSION_CATALOG_DIGEST : string := _FROZEN_SUPPRESSION_CATALOG_DIGEST.

Record CatalogActivation := {
  ca_status : classification_status; ca_profile_activated : bool;
  ca_digest : option string; ca_reason : string
}.
Definition not_activated (reason : string) : CatalogActivation :=
  {| ca_status := C_UNKNOWN; ca_profile_activated := false; ca_digest := None; ca_reason := reason |}.

Definition activate_suppression_catalog
    (checkpoint_digest resource_digest package_digest profile_digest : string) : CatalogActivation :=
  let digests : gset string :=
    list_to_set [checkpoint_digest; resource_digest; package_digest; profile_digest] in
  if bool_decide (size digests ≠ 1)
  then not_activated "suppression_catalog_identity_mismatch"
  else {| ca_status := C_PASS; ca_profile_activated := true; ca_digest := Some resource_digest;
          ca_reason := "" |}.

Definition required_bindings : gset string :=
  list_to_set ["checkpoint"; "resource"; "package"; "profile"; "report"; "static_envelope"].

(** The keys of a mapping, when all of them are strings *)
Definition string_keys (d : list (pyval * pyval)) : option (gset string) :=
  list_to_set <$> mapM (λ kv, match kv.1 with VStr s => Some s | _ => None end) d.

Definition _activate_bound_suppression_catalog (resource_digest : string) (matrix_bindings : pyval)
    (package_digest : option string) : CatalogActivation :=
  match matrix_bindings with
  | VDict bindings =>
      if negb (bool_decide (string_keys bindings = Some required_bindings))
      then not_activated "suppression_catalog_identity_bindings_invalid"
      else if existsb (λ name, negb (is_str resource_digest (vget name bindings)))
                (elements required_bindings)
      then not_activated "suppression_catalog_identity_mismatch"
      else
        match package_digest with
        | None => not_activated "suppression_catalog_package_binding_unavailable"
        | Some package_digest =>
            activate_suppression_catalog _FROZEN_SUPPRESSION_CATALOG_DIGEST resource_digest
              package_digest _PR_RANGE_V1_SUPPRESSION_CATALOG_DIGEST
        end
  | _ => not_activated "suppression_catalog_identity_bindings_invalid"
  end.

Definition platforms : list string := ["linux-x86_64"; "darwin-arm64"].
(** [[0-9]+\.[0-9]+\.[0-9]+] *)
Definition version_pattern : regex :=
  rseqs [rplus (RSet is_digit); RChar "."; rplus (RSet is_digit); RChar "."; rplus (RSet is_digit)].
Definition digest_pattern : regex :=
  RSeq (rlit "sha256:") (rrepeat 64 (RSet (λ c, is_digit c || between 97 102 c))).
Definition policy_keys : gset string :=
  list_to_set ["help_schema_digest"; "parser_catalog_digest"; "platform"; "tool_version"].

(** One policy of the loop: the admitted versions extended, or rejection; an
    unhashable platform raises. *)
Definition admit_policy (admitted : list (string * string)) (policy : pyval) :
    result (option (list (string * string))) :=
  match policy with
  | VDict d =>
      if negb (bool_decide (string_keys d = Some policy_keys)) then Ok None
      else
        let! known := in_set (vget "platform" d) platforms in
        Ok match vget "platform" d, vget "tool_version" d,
                 vget "parser_catalog_digest" d, vget "help_schema_digest" d with
           | VStr platform, VStr version, VStr parser_digest, VStr help_digest =>
               if known && negb (dict_mem platform admitted)
                  && fullmatch version_pattern version && fullmatch digest_pattern parser_digest
                  && fullmatch digest_pattern help_digest
               then Some (dict_set platform version admitted) else None
           | _, _, _, _ => None
           end
  | _ => Ok None
  end.
Fixpoint admit_policies (admitted : list (string * string)) (policies : list pyval) :
    result (option (list (string * string))) :=
  match policies with
  | [] => Ok (Some admitted)
  | policy :: rest =>
      let! admitted := admit_policy admitted policy in
      match admitted with Some admitted => admit_policies admitted rest | None => Ok None end
  end.

(** [next(item for item in families if item.get("id") == "nosemgrep")]; a
    member without [get] raises. *)
Fixpoint find_nosemgrep (families : list pyval) : result (option (list (pyval * pyval))) :=
  match families with
  | [] => Ok None
  | VDict f :: rest => if is_str "nosemgrep" (vget "id" f) then Ok (Some f) else find_nosemgrep rest
  | _ :: _ => Err (AttributeError "get")
  end.
(** The policies; [None] is one of the caught exceptions. *)
Definition nosemgrep_policies (document : option pyval) : result (option pyval) :=
  match document with
  | Some (VDict d) =>
      match dict_get (VStr "families") d ≫= py_iter with
      | Some families =>
          let! family := find_nosemgrep families in
          Ok (family ≫= dict_get (VStr "platform_version_policies"))
      | None => Ok None
      end
  | _ => Ok None
  end.

Definition admitted_versions : list (string * string) :=
  [("linux-x86_64", "1.144.0"); ("darwin-arm64", "1.175.0")].
(** [admitted == {...}], whatever the order *)
Definition same_dict (d1 d2 : list (string * string)) : bool :=
  bool_decide ((list_to_map d1 : gmap string string) = list_to_map d2).

Definition _semgrep_suppression_policy_admitted `{JsonLoads} (catalog : string) (platform_id : string)
    (analyzer_versions : list (string * string)) : result bool :=
  if negb (bool_decide (platform_id ∈ platforms)) then Ok false
  else
    match dict_get "semgrep-clean" analyzer_versions, dict_get "semgrep-bugs" analyzer_versions with
    | Some clean, Some bugs =>
        if negb (String.eqb clean bugs) then Ok false
        else
          let! policies := nosemgrep_policies (json_loads catalog) in
          match policies with
          | Some (VList policies) =>
              if negb (length policies =? 2)%nat then Ok false
              else
                let! admitted := admit_policies [] policies in
                Ok match admitted with
                   | Some admitted =>
                       same_dict admitted admitted_versions
                       && bool_decide (dict_get platform_id admitted = Some clean)
                   | None => false
                   end
          | _ => Ok false
          end
    | _, _ => Ok false
    end.

(** The packaged resources: file contents, [None] when reading fails. *)
Record catalog_resources := {
  res_catalog : option string;
  res_matrix : option string;
  res_package_manifest : option pyval
}.

Record SuppressionCatalogResource := { scr_digest : string; scr_bytes : string }.

Section activation.
Context `{Sha256} `{JsonLoads}.

(** The catalog must parse; its checkpoint carries the frozen digest. *)
Definition load_suppression_catalog_and_checkpoint (r : catalog_resources) :
    option (SuppressionCatalogResource * string) :=
  match res_catalog r with
  | Some bytes =>
      if bool_decide (is_Some (json_loads bytes))
      then Some ({| scr_digest := sha256_digest (chars bytes); scr_bytes := bytes |},
                 _FROZEN_SUPPRESSION_CATALOG_DIGEST)
      else None
  | None => None
  end.

Definition _SUPPRESSION_CATALOG_RESOURCE : string :=
  "resources/contracts/pr-range-v1-suppression-catalog.json".

Definition _authenticated_package_catalog_digest (manifest : option pyval) : option string :=
  match manifest with
  | Some (VDict m) =>
      match dict_get (VStr "authenticated_resources") m with
      | Some (VDict resources) =>
          match dict_get (VStr _SUPPRESSION_CATALOG_RESOURCE) resources with
          | Some (VDict entry) =>
              if is_str "suppression_catalog_contract" (vget "checkpoint_contract" entry)
              then match vget "digest" entry with VStr digest => Some digest | _ => None end
              else None
          | _ => None
          end
      | _ => None
      end
  | _ => None
  end.

Definition default_analyzer_versions : list (string * string) :=
  [("semgrep-clean", "1.144.0"); ("semgrep-bugs", "1.144.0")].

Definition activate_packaged_suppression_catalog (r : catalog_resources) (platform_id : string)
    (analyzer_versions : option (list (string * string))) : result CatalogActivation :=
  let unavailable := Ok (not_activated "suppression_catalog_resource_unavailable") in
  match load_suppression_catalog_and_checkpoint r, res_matrix r ≫= json_loads with
  | Some (resource, checkpoint), Some (VDict matrix) =>
      match dict_get (VStr "suppression_catalog_identity_bindings") matrix with
      | None => unavailable
      | Some bindings =>
          if negb (String.eqb checkpoint _FROZEN_SUPPRESSION_CATALOG_DIGEST)
          then Ok (not_activated "suppression_catalog_checkpoint_binding_mismatch")
          else
            let versions := match analyzer_versions with
                            | Some (v :: vs) => v :: vs
                            | _ => default_analyzer_versions
                            end in
            let! admitted :=
              _semgrep_suppression_policy_admitted (scr_bytes resource) platform_id versions in
            Ok (if negb admitted
                then not_activated "suppression_catalog_semgrep_policy_mismatch"
                else _activate_bound_suppression_catalog (scr_digest resource) bindings
                       (_authenticated_package_catalog_digest (res_package_manifest r)))
      end
  | _, _ => unavailable
  end.
End activation.
