(* ===== verification/SuppressionProofs.v ===== *)
(** SuppressionProofs: the occurrence index loses nothing, every head
    directive is classified once, a passing delta has every directive in an
    unchanged source, the correspondence cache stays coherent and within its
    budget, and catalog activation needs every bound digest. *)

From S2P Require Import Prelude Text Regex Dict PyValue Json.
From S2P Require Import Correspondence CorrespondenceProofs Differential Suppression.

(** * The occurrence index *)

Section index.
Context (rr : list (string * string)).

Definition index_ok (acc : list (suppression_identity * Z) * list _SuppressionEntry) : Prop :=
  dict_wf acc.2 ∧
  Forall (λ e : _SuppressionEntry,
    e.1.1 = suppression_identity_of rr e.2 ∧
    (e.1.2 < default 0 (dict_get e.1.1 acc.1))%Z) acc.2.

Lemma index_step_ok acc o :
  index_ok acc → index_ok (index_step rr acc o) ∧
  (index_step rr acc o).2.*2 = acc.2.*2 ++ [o].
Proof.
  destruct acc as [counts indexed]. intros [Hwf Hall]. unfold index_step. cbn in Hwf, Hall |- *.
  set (i := suppression_identity_of rr o) in *. set (n := default 0%Z (dict_get i counts)) in *.
  assert (Hkey : _suppression_key o rr n = (i, n)) by done. rewrite Hkey.
  assert (Hfresh : (i, n) ∉ dict_keys indexed).
  { intros ([[i' n'] o'] & E & Hin)%list_elem_of_fmap. cbn in E. injection E as E1 E2.
    rewrite Forall_forall in Hall. destruct (Hall _ Hin) as [_ Hlt]. cbn in Hlt.
    rewrite <-E1, <-E2 in Hlt. exact (Z.lt_irrefl _ Hlt). }
  rewrite (dict_set_fresh (i, n) o indexed Hfresh). split; [split|by rewrite fmap_app]; cbn.
  - rewrite <-(dict_set_fresh (i, n) o indexed Hfresh). by apply dict_wf_set.
  - apply Forall_app_2.
    + eapply Forall_impl; [exact Hall|]. intros e [He Hlt]. split; [done|].
      rewrite dict_get_set. case_decide as E; [|done]. rewrite E in Hlt. apply (Z.lt_trans _ n); [exact Hlt|apply Z.lt_succ_diag_r].
    + apply Forall_singleton. cbn. split; [done|]. rewrite dict_get_set_eq. cbn. lia.
Qed.

Lemma index_spec os :
  dict_wf (_suppression_occurrence_index os rr) ∧
  (_suppression_occurrence_index os rr).*2 = os ∧
  Forall (λ e : _SuppressionEntry, e.1.1 = suppression_identity_of rr e.2)
    (_suppression_occurrence_index os rr).
Proof.
  unfold _suppression_occurrence_index.
  assert (Hgo : ∀ acc, index_ok acc →
    index_ok (foldl (index_step rr) acc os) ∧
    (foldl (index_step rr) acc os).2.*2 = acc.2.*2 ++ os).
  { induction os as [|o os IH]; intros acc Hacc; [by rewrite app_nil_r|]. cbn [foldl].
    destruct (index_step_ok acc o Hacc) as [Hok Hv]. destruct (IH _ Hok) as [Hok' Hv'].
    split; [done|]. by rewrite Hv', Hv, <-app_assoc. }
  assert (H0 : index_ok ([], [])) by (split; [apply dict_wf_nil|constructor]).
  destruct (Hgo _ H0) as [[Hwf Hall] Hv]. split_and!; [done|done|].
  eapply Forall_impl; [exact Hall|]. by intros e [].
Qed.
End index.

(** * The cache *)

(** Every table of the cache is right, and no pair of sources has used more
    than the aggregate budget. *)
Record cache_ok (c : _CorrespondenceCache) : Prop := {
  ok_memo : coherent (cc_memo c);
  ok_lines : ∀ s l, cc_source_lines c !! s = Some l → l = splitlines s;
  ok_equal : ∀ a b e, cc_source_equal c !! (a, b) = Some e → e = bool_decide (a = b);
  ok_budget : ∀ key n, cc_forbidden_cells c !! key = Some n →
    (n ≤ _MAX_AGGREGATE_CORRESPONDENCE_CELLS)%Z
}.

Lemma empty_cache_ok : cache_ok empty_cache.
Proof. split; [apply coherent_empty|..]; intros *; cbn; by rewrite lookup_empty. Qed.

Lemma cached_lines_ok s c :
  cache_ok c → (_cached_source_lines s c).1 = splitlines s ∧ cache_ok (_cached_source_lines s c).2.
Proof.
  intros Hc. unfold _cached_source_lines. destruct (cc_source_lines c !! s) as [l|] eqn:E.
  - split; [by apply (ok_lines c Hc)|done].
  - split; [done|]. destruct Hc. split; cbn; try done. intros s' l'.
    destruct (decide (s' = s)) as [->|]; [rewrite lookup_insert_eq; congruence|].
    rewrite lookup_insert_ne by done. eauto.
Qed.

Lemma cached_equality_ok a b c :
  cache_ok c → (_cached_source_equality a b c).1 = bool_decide (a = b) ∧
  cache_ok (_cached_source_equality a b c).2.
Proof.
  intros Hc. unfold _cached_source_equality.
  destruct (cc_source_equal c !! (a, b)) as [e|] eqn:E.
  - split; [by apply (ok_equal c Hc)|done].
  - split; [done|]. destruct Hc. split; cbn; try done. intros a' b' e'.
    destruct (decide ((a', b') = (a, b))) as [[= -> ->]|]; [rewrite lookup_insert_eq; congruence|].
    rewrite lookup_insert_ne by done. eauto.
Qed.

Lemma reserve_ok c key context :
  cache_ok c → cache_ok (_reserve_forbidden_correspondence c key context).2.
Proof.
  intros Hc. unfold _reserve_forbidden_correspondence. cbv zeta. case_bool_decide; [done|].
  destruct (Z.ltb_spec _MAX_AGGREGATE_CORRESPONDENCE_CELLS
    (default 0%Z (cc_forbidden_cells c !! key) + ctx_cells context)) as [|Hle]; [done|].
  destruct Hc. split; cbn; try done. intros key' n.
  destruct (decide (key' = key)) as [->|]; [rewrite lookup_insert_eq; intros [= <-]; lia|].
  rewrite lookup_insert_ne by done. eauto.
Qed.

Lemma with_memo_ok m c : coherent m → cache_ok c → cache_ok (with_memo m c).
Proof. intros Hm []. by split. Qed.

Section proofs.
Context `{Sha256} `{Tokenize}.

Lemma cost_correspondence_ok context bs hs evidence c :
  ctx_base_lines context = splitlines bs → ctx_head_lines context = splitlines hs →
  cache_ok c → cache_ok (cost_correspondence context (bs, hs) evidence c).2.
Proof.
  intros Eb Eh Hc. unfold cost_correspondence.
  pose proof (reserve_ok c (bs, hs) context Hc) as Hr.
  destruct (_reserve_forbidden_correspondence c (bs, hs) context) as [[] c1]; cbn in Hr |- *; [|done].
  destruct (cost_evidence_coherent context bs hs (cc_memo c1) (ok_memo c1 Hr) Eb Eh) as (m & -> & Hm).
  cbv zeta. case_match; cbn; by apply with_memo_ok.
Qed.

Lemma occurrence_continuity_ok b h bs hs c :
  cache_ok c → cache_ok (_suppression_occurrence_continuity b h bs hs c).2.
Proof.
  intros Hc. unfold _suppression_occurrence_continuity. cbv zeta.
  destruct (cached_equality_ok bs hs c Hc) as [_ H1].
  destruct (_cached_source_equality bs hs c) as [eq c1]. cbn in H1. destruct eq; [done|].
  destruct (cached_lines_ok bs c1 H1) as [El H2].
  destruct (_cached_source_lines bs c1) as [bls c2]. cbn in El, H2. subst bls.
  destruct (cached_lines_ok hs c2 H2) as [El H3].
  destruct (_cached_source_lines hs c2) as [hls c3]. cbn in El, H3. subst hls.
  destruct (continuity_context_lines _ _ _ _ _ _) as [ctx|] eqn:Hctx; [|done].
  pose proof (continuity_context_inl (so_line b) (so_line h) bs hs ctx Hctx) as (Eb & Eh & _).
  case_bool_decide; [done|]. case_match; [done|].
  by apply cost_correspondence_ok.
Qed.

(** * Accounting for the head entries *)

(** The head keys of a result *)
Definition heads (r : identity_result) : list _SuppressionKey :=
  (pair_head_key <$> r.1.1) ++ (intro_head_key <$> r.1.2).

(** An unchanged pair has its base key among [base_keys], if it has one. *)
Definition pairs_from (base_keys : list _SuppressionKey) (r : identity_result) : Prop :=
  Forall (λ p, ∀ k, pair_base_key p = Some k → k ∈ base_keys) r.1.1.

Lemma heads_introduce es : intro_head_key <$> (introduce <$> es) = es.*1.
Proof. by rewrite <-list_fmap_compose. Qed.

(** What a classification step of an identity promises *)
Record accounted (bb hb : list _SuppressionEntry) (r : identity_result * _CorrespondenceCache) : Prop := {
  acc_heads : heads r.1 ≡ₚ hb.*1;
  acc_pairs : pairs_from bb.*1 r.1;
  acc_cache : cache_ok r.2
}.

(** ** Fallback pairs *)

Lemma fallback_step_ok sources acc p base_keys :
  cache_ok acc.2 → pairs_from base_keys acc.1 → p.1.1 ∈ base_keys →
  cache_ok (fallback_step sources acc p).2 ∧ pairs_from base_keys (fallback_step sources acc p).1 ∧
  heads (fallback_step sources acc p).1 ≡ₚ heads acc.1 ++ [p.2.1].
Proof.
  destruct acc as [[[un intro] unk] c], p as [[bk b] [hk h]]. intros Hc Hp Hk. cbn in Hc, Hp, Hk.
  unfold fallback_step.
  pose proof (occurrence_continuity_ok b h (source_at (so_path b) (src_base sources))
    (source_at (so_path h) (src_head sources)) c Hc) as Hc'.
  destruct (_suppression_occurrence_continuity b h _ _ c) as [k c']. cbn in Hc'.
  case_decide; (split; [done|]); unfold heads, pairs_from in *; cbn; rewrite ?fmap_app; cbn.
  - split; [done|]. by rewrite app_assoc.
  - split; [apply Forall_app_2; [done|]; apply Forall_singleton; cbn; by intros ? [= <-]|].
    rewrite <-!app_assoc. apply Permutation_app_head. cbn. by rewrite Permutation_cons_append.
Qed.

Lemma fallback_steps_ok sources acc ps base_keys :
  cache_ok acc.2 → pairs_from base_keys acc.1 → Forall (λ p, p.1.1 ∈ base_keys) ps →
  cache_ok (foldl (fallback_step sources) acc ps).2 ∧
  pairs_from base_keys (foldl (fallback_step sources) acc ps).1 ∧
  heads (foldl (fallback_step sources) acc ps).1 ≡ₚ heads acc.1 ++ ((λ p : _SuppressionEntry * _SuppressionEntry, p.2.1) <$> ps).
Proof.
  intros Hc Hp Hps. revert acc Hc Hp.
  induction Hps as [|p ps Hk Hps IH]; intros acc Hc Hp; [cbn; by rewrite app_nil_r|].
  destruct (fallback_step_ok sources acc p base_keys Hc Hp Hk) as (Hc' & Hp' & Hh).
  destruct (IH _ Hc' Hp') as (Hc2 & Hp2 & Hh2). cbn [foldl]. split_and!; [done|done|].
  rewrite Hh2, Hh, <-app_assoc. done.
Qed.

Lemma zip_take_perm (bb hb : list _SuppressionEntry) :
  let n := Nat.min (length bb) (length hb) in
  ((λ p : _SuppressionEntry * _SuppressionEntry, p.2.1) <$> zip (take n bb) (take n hb)) =
    (take n hb).*1 ∧
  Forall (λ p : _SuppressionEntry * _SuppressionEntry, p.1.1 ∈ bb.*1) (zip (take n bb) (take n hb)).
Proof.
  intros n. split.
  - transitivity ((zip (take n bb) (take n hb)).*2.*1); [by rewrite <-list_fmap_compose|].
    rewrite snd_zip; [done|]. rewrite !length_take. unfold n. lia.
  - apply Forall_forall. intros [b h] Hin%elem_of_zip_l. apply list_elem_of_fmap_2.
    cbn. eapply elem_of_sublist; [exact Hin|apply sublist_take].
Qed.

Lemma fallback_accounted bb hb sources c :
  cache_ok c → accounted bb hb (_suppression_fallback_pairs bb hb sources c).
Proof.
  intros Hc. unfold _suppression_fallback_pairs. cbv zeta.
  destruct (zip_take_perm bb hb) as [Z1 Z2]. cbv zeta in Z1, Z2.
  set (n := Nat.min (length bb) (length hb)) in *.
  destruct (fallback_steps_ok sources (([], [], false), c) (zip (take n bb) (take n hb)) bb.*1)
    as (Hc' & Hp & Hh); [done|constructor|done|].
  rewrite Z1 in Hh. change (heads (([], [], false), c).1) with (@nil _SuppressionKey) in Hh.
  destruct (foldl _ _ _) as [[[un intro] unk] c']. unfold heads in Hh. cbn in Hc', Hp, Hh.
  assert (Hhb : hb.*1 = (take n hb).*1 ++ (drop n hb).*1)
    by (by rewrite <-fmap_app, take_drop).
  destruct unk; split; cbn; try done; unfold heads, pairs_from in *; cbn in *.
  - rewrite fmap_app, <-list_fmap_compose, Hhb, <-Hh.
    rewrite <-!app_assoc. apply Permutation_app_head. apply Permutation_app_comm.
  - apply Forall_app_2; [done|]. apply Forall_fmap, Forall_true. by intros x k [=].
  - rewrite fmap_app, heads_introduce, Hhb, <-Hh. by rewrite app_assoc.
Qed.

(** ** Pairs of unique lines *)

Definition line_of (phys : list (_SuppressionKey * option string)) (k : _SuppressionKey) : option string :=
  mjoin (dict_get k phys).

Lemma bucket_by_line line es phys :
  bucket line (_suppression_entries_by_line es phys) =
  filter (λ e : _SuppressionEntry, line_of phys e.1 = Some line) es.
Proof.
  unfold _suppression_entries_by_line.
  assert (Hgo : ∀ d, bucket line (foldl (λ d (e : _SuppressionEntry),
      match mjoin (dict_get e.1 phys) with
      | Some l => dict_append l e d
      | None => d
      end) d es) = bucket line d ++ filter (λ e : _SuppressionEntry, line_of phys e.1 = Some line) es);
    [|by rewrite Hgo].
  induction es as [|e es IH]; intros d; cbn [foldl]; [by rewrite app_nil_r|].
  rewrite IH, filter_cons. change (mjoin (dict_get e.1 phys)) with (line_of phys e.1).
  destruct (line_of phys e.1) as [l|] eqn:E.
  - rewrite bucket_append, <-app_assoc. f_equal.
    destruct (decide (line = l)) as [->|]; [by rewrite decide_True|].
    rewrite decide_False by congruence. done.
  - by rewrite decide_False by done.
Qed.

(** The pairs found so far: bases and heads come from the buckets, and each
    head is the only entry of one of the lines done. *)
Definition found_ok (bb hb : list _SuppressionEntry) (hphys : list (_SuppressionKey * option string))
    (done_lines : list string) (found : correspondences) : Prop :=
  NoDup (dict_keys found).*2 ∧
  Forall (λ k : _SuppressionKey * _SuppressionKey,
    k.1 ∈ bb.*1 ∧ k.2 ∈ hb.*1 ∧ ∃ line, line_of hphys k.2 = Some line ∧ line ∈ done_lines)
    (dict_keys found).

Lemma pair_evidence_step_ok bs hs bb hb bphys hphys lines acc line :
  line ∉ lines →
  cache_ok acc.2 → found_ok bb hb hphys lines acc.1 →
  let acc' := pair_evidence_step bs hs (_suppression_entries_by_line bb bphys)
                (_suppression_entries_by_line hb hphys) acc line in
  cache_ok acc'.2 ∧ found_ok bb hb hphys (lines ++ [line]) acc'.1.
Proof.
  intros Hline Hc [Hnd Hall]. destruct acc as [found c]. cbn in Hc, Hnd, Hall. cbv zeta.
  assert (Hmono : Forall (λ k : _SuppressionKey * _SuppressionKey, k.1 ∈ bb.*1 ∧ k.2 ∈ hb.*1 ∧
      ∃ l, line_of hphys k.2 = Some l ∧ l ∈ lines ++ [line]) (dict_keys found)).
  { eapply Forall_impl; [exact Hall|]. intros k (? & ? & l & ? & ?). set_solver. }
  unfold pair_evidence_step. rewrite !bucket_by_line.
  destruct (filter _ bb) as [|[bk b] [|]] eqn:Eb; [by split..| |by split].
  destruct (filter _ hb) as [|[hk h] [|]] eqn:Eh; [by split..| |by split].
  pose proof (occurrence_continuity_ok b h bs hs c Hc) as Hc'.
  destruct (_suppression_occurrence_continuity b h bs hs c) as [k c']. cbn in Hc'.
  split; [done|]. cbn.
  assert (Hb : (bk, b) ∈ bb ∧ line_of bphys bk = Some line).
  { assert (Hin : (bk, b) ∈ filter (λ e : _SuppressionEntry, line_of bphys e.1 = Some line) bb)
      by (rewrite Eb; left). apply list_elem_of_filter in Hin. tauto. }
  assert (Hh : (hk, h) ∈ hb ∧ line_of hphys hk = Some line).
  { assert (Hin : (hk, h) ∈ filter (λ e : _SuppressionEntry, line_of hphys e.1 = Some line) hb)
      by (rewrite Eh; left). apply list_elem_of_filter in Hin. tauto. }
  assert (Hfresh : hk ∉ (dict_keys found).*2).
  { intros ([bk' hk'] & E & Hin)%list_elem_of_fmap. cbn in E. subst hk'.
    rewrite Forall_forall in Hall. destruct (Hall _ Hin) as (_ & _ & l & El & Hl). cbn in El.
    destruct Hh as [_ Hh]. congruence. }
  assert (Hkey : (bk, hk) ∉ dict_keys found).
  { intros Hin. apply Hfresh. by apply (list_elem_of_fmap_2 snd) in Hin. }
  rewrite (dict_set_fresh _ _ _ Hkey). unfold found_ok, dict_keys in *. rewrite !fmap_app. cbn.
  split.
  - apply NoDup_app. split_and!; [done| |apply NoDup_singleton]. set_solver.
  - apply Forall_app_2; [done|]. apply Forall_singleton. cbn.
    destruct Hb as [Hb _]. apply (list_elem_of_fmap_2 fst) in Hb.
    destruct Hh as [Hh Hl]. apply (list_elem_of_fmap_2 fst) in Hh.
    split_and!; [done|done|]. exists line. split; [done|]. set_solver.
Qed.

Lemma pair_evidence_ok bb hb sources c :
  cache_ok c →
  cache_ok (_suppression_pair_evidence bb hb sources c).2 ∧
  ∃ hphys lines, found_ok bb hb hphys lines (_suppression_pair_evidence bb hb sources c).1.
Proof.
  intros Hc. unfold _suppression_pair_evidence. cbv zeta.
  destruct (cached_lines_ok (source_at (head_path bb) (src_base sources)) c Hc) as [_ H1].
  destruct (_cached_source_lines _ c) as [bls c1]. cbn in H1.
  destruct (cached_lines_ok (source_at (head_path hb) (src_head sources)) c1 H1) as [_ H2].
  destruct (_cached_source_lines _ c1) as [hls c2]. cbn in H2.
  set (bphys := _suppression_physical_lines bb bls). set (hphys := _suppression_physical_lines hb hls).
  set (ls := sorted_set _). assert (Hnd : NoDup ls) by apply NoDup_sorted_set.
  revert Hnd. generalize ls. clear ls. intros ls Hnd.
  assert (Hgo : ∀ lines acc, cache_ok acc.2 → found_ok bb hb hphys lines acc.1 → NoDup (lines ++ ls) →
    cache_ok (foldl (pair_evidence_step (source_at (head_path bb) (src_base sources))
      (source_at (head_path hb) (src_head sources)) (_suppression_entries_by_line bb bphys)
      (_suppression_entries_by_line hb hphys)) acc ls).2 ∧
    ∃ lines', found_ok bb hb hphys lines' (foldl (pair_evidence_step
      (source_at (head_path bb) (src_base sources)) (source_at (head_path hb) (src_head sources))
      (_suppression_entries_by_line bb bphys) (_suppression_entries_by_line hb hphys)) acc ls).1).
  { clear Hnd. induction ls as [|l ls IH]; intros lines acc Hca Hf Hnd; [eauto|]. cbn [foldl].
    assert (Hl : l ∉ lines) by (apply NoDup_app in Hnd; set_solver).
    destruct (pair_evidence_step_ok (source_at (head_path bb) (src_base sources))
      (source_at (head_path hb) (src_head sources)) bb hb bphys hphys lines acc l Hl Hca Hf) as [Hc' Hf'].
    apply (IH (lines ++ [l])); [done|done|]. by rewrite <-app_assoc. }
  destruct (Hgo [] ([], c2) H2) as [Hc' [lines Hf]].
  - split; constructor.
  - done.
  - eauto.
Qed.

Lemma matched_remaining (hb : list _SuppressionEntry) (matched : list _SuppressionKey) :
  NoDup hb.*1 → NoDup matched → (∀ k, k ∈ matched → k ∈ hb.*1) →
  hb.*1 ≡ₚ matched ++ (filter (λ e : _SuppressionEntry, e.1 ∉ matched) hb).*1.
Proof.
  intros Hnd Hm Hsub. apply NoDup_Permutation; [done| |].
  - apply NoDup_app. split_and!; [done| |].
    + intros k Hk ([k' o] & -> & [Hn _]%list_elem_of_filter)%list_elem_of_fmap. done.
    + clear Hm Hsub. induction hb as [|[k o] hb IH]; [constructor|]. cbn in Hnd.
      apply NoDup_cons in Hnd as [Hk Hnd]. rewrite filter_cons. case_decide; [|by apply IH].
      cbn. constructor; [|by apply IH]. intros ([k' o'] & -> & [_ Hin]%list_elem_of_filter)%list_elem_of_fmap.
      apply Hk. by apply (list_elem_of_fmap_2 fst) in Hin.
  - intros k. rewrite elem_of_app. split.
    + intros Hk. destruct (decide (k ∈ matched)) as [|Hn]; [by left|right].
      apply list_elem_of_fmap in Hk as ([k' o] & -> & Hin). apply list_elem_of_fmap.
      exists (k', o). split; [done|]. by apply list_elem_of_filter.
    + intros [Hk|([k' o] & -> & [_ Hin]%list_elem_of_filter)%list_elem_of_fmap]; [by apply Hsub|].
      by apply (list_elem_of_fmap_2 fst) in Hin.
Qed.

Lemma fmap_filter_split {A B} (f : A → B) (P : A → Prop) `{∀ x, Decision (P x)} l :
  (f <$> filter (λ x, ¬ P x) l) ++ (f <$> filter P l) ≡ₚ f <$> l.
Proof.
  rewrite <-fmap_app. apply fmap_Permutation. rewrite Permutation_app_comm.
  apply filter_app_complement.
Qed.

Lemma changed_accounted bb hb sources c :
  NoDup hb.*1 → cache_ok c →
  accounted bb hb (_classify_changed_suppression_identity bb hb sources c).
Proof.
  intros Hnd Hc. unfold _classify_changed_suppression_identity. cbv zeta.
  destruct (pair_evidence_ok bb hb sources c Hc) as (Hc' & hphys & lines & Hfnd & Hfound).
  destruct (_suppression_pair_evidence bb hb sources c) as [found c']. cbn in Hc', Hfnd, Hfound.
  match goal with |- context [_suppression_fallback_pairs ?x ?y] => set (rb := x); set (rh := y) end.
  destruct (fallback_accounted rb rh sources c' Hc') as [Fh Fp Fc].
  destruct (_suppression_fallback_pairs rb rh sources c') as [[[fp fi] fu] c2]. cbn in Fh, Fp, Fc.
  rewrite Forall_forall in Hfound.
  split; cbn; [|unfold pairs_from in *; cbn in *|done].
  - rewrite (matched_remaining hb (dict_keys found).*2 Hnd Hfnd).
    2:{ intros k ([k1 k2] & -> & Hin)%list_elem_of_fmap. by apply Hfound in Hin as (_ & ? & _). }
    change (filter (λ e : _SuppressionEntry, e.1 ∉ (dict_keys found).*2) hb) with rh.
    rewrite <-Fh. unfold heads; cbn. rewrite !fmap_app.
    assert (Hsplit : (pair_head_key <$> ((λ kc : (_SuppressionKey * _SuppressionKey) * _SuppressionCorrespondence,
        {| pair_base_key := Some kc.1.1; pair_head_key := kc.1.2; pair_evidence := sc_evidence kc.2 |})
        <$> filter (λ kc, sc_status kc.2 ≠ Introduced) found)) ++
      (intro_head_key <$> ((λ kc : (_SuppressionKey * _SuppressionKey) * _SuppressionCorrespondence,
        {| intro_base_key := Some kc.1.1; intro_head_key := kc.1.2; intro_evidence := sc_evidence kc.2 |})
        <$> filter (λ kc, sc_status kc.2 = Introduced) found)) ≡ₚ (dict_keys found).*2).
    { rewrite <-!list_fmap_compose. unfold dict_keys. rewrite <-list_fmap_compose.
      apply (fmap_filter_split (λ kc : (_SuppressionKey * _SuppressionKey) * _SuppressionCorrespondence, kc.1.2)). }
    rewrite <-Hsplit. solve_Permutation.
  - apply Forall_app_2.
    + apply Forall_fmap, Forall_forall. intros [k corr] Hin%list_elem_of_filter k' [= <-].
      apply (Hfound k). destruct Hin as [_ Hin]. by apply (list_elem_of_fmap_2 fst) in Hin.
    + eapply Forall_impl; [exact Fp|]. intros p Hp k Hk. specialize (Hp k Hk).
      apply list_elem_of_fmap in Hp as ([k' o] & -> & [_ Hin]%list_elem_of_filter).
      by apply (list_elem_of_fmap_2 fst) in Hin.
Qed.

Lemma identity_accounted bb hb sources c :
  NoDup hb.*1 → cache_ok c → accounted bb hb (_classify_suppression_identity bb hb sources c).
Proof.
  intros Hnd Hc. unfold _classify_suppression_identity.
  destruct bb as [|b bb].
  { split; [|constructor|done].
    change (intro_head_key <$> (introduce <$> hb) ≡ₚ hb.*1). by rewrite heads_introduce. }
  destruct hb as [|h hb]; [by split; [|constructor|]|]. cbv zeta.
  destruct (cached_equality_ok (source_at (head_path (b :: bb)) (src_base sources))
    (source_at (head_path (h :: hb)) (src_head sources)) c Hc) as [_ Hc'].
  destruct (_cached_source_equality _ _ c) as [eq c']. cbn in Hc'.
  destruct eq; [|by apply changed_accounted].
  destruct (zip_take_perm (b :: bb) (h :: hb)) as [Z1 Z2]. cbv zeta in Z1, Z2.
  revert Z1 Z2. generalize (b :: bb), (h :: hb). clear -Hc'. intros bb hb.
  set (n := Nat.min _ _). intros Z1 Z2. split; [|unfold pairs_from|done]; cbn [fst snd].
  - unfold heads. cbn [fst snd]. rewrite heads_introduce, <-list_fmap_compose. rewrite <-(take_drop n hb) at 3.
    rewrite fmap_app. f_equiv; [|done]. apply reflexive_eq. exact Z1.
  - apply Forall_fmap. eapply Forall_impl; [exact Z2|]. by intros p Hp k [= <-].
Qed.

(** ** All identities *)

(** The base key of an unchanged pair has the identity of its head key. *)
Definition linked (base_keys : list _SuppressionKey) (r : identity_result) : Prop :=
  Forall (λ p, ∀ k, pair_base_key p = Some k → k ∈ base_keys ∧ k.1 = (pair_head_key p).1) r.1.1.

Section keys.
Context (base head : list _SuppressionEntry) (sources : _SuppressionSources).
Context (Hwf : dict_wf head).

Let bbs := _suppression_identity_buckets base.
Let hbs := _suppression_identity_buckets head.

Lemma elem_of_identity_bucket i (entries : list _SuppressionEntry) k :
  k ∈ (bucket i (_suppression_identity_buckets entries)).*1 → k ∈ entries.*1 ∧ k.1 = i.
Proof.
  unfold _suppression_identity_buckets. rewrite bucket_group_by.
  intros ([k' o] & -> & [Hi Hin]%list_elem_of_filter)%list_elem_of_fmap.
  apply elem_of_sort_by in Hin. split; [by apply (list_elem_of_fmap_2 fst) in Hin|done].
Qed.

Lemma NoDup_identity_bucket i : NoDup (bucket i hbs).*1.
Proof.
  unfold hbs, _suppression_identity_buckets. rewrite bucket_group_by.
  assert (Hnd : NoDup (sort_by fst head).*1).
  { unfold dict_wf, dict_keys in Hwf. by rewrite sort_by_perm. }
  revert Hnd. generalize (sort_by fst head). intros l Hnd.
  induction l as [|[k o] l IH]; [constructor|]. cbn in Hnd. apply NoDup_cons in Hnd as [Hk Hnd].
  rewrite filter_cons. case_decide; [|by apply IH]. cbn. constructor; [|by apply IH].
  intros ([k' o'] & -> & [_ Hin]%list_elem_of_filter)%list_elem_of_fmap.
  apply Hk. by apply (list_elem_of_fmap_2 fst) in Hin.
Qed.

Lemma keys_step_ok acc i :
  cache_ok acc.2 → linked base.*1 acc.1 →
  cache_ok (keys_step bbs hbs sources acc i).2 ∧
  linked base.*1 (keys_step bbs hbs sources acc i).1 ∧
  heads (keys_step bbs hbs sources acc i).1 ≡ₚ heads acc.1 ++ (bucket i hbs).*1.
Proof.
  destruct acc as [[[un intro] unk] c]. intros Hc Hl. cbn in Hc.
  destruct (identity_accounted (bucket i bbs) (bucket i hbs) sources c (NoDup_identity_bucket i) Hc)
    as [Ah Ap Ac].
  unfold keys_step. destruct (_classify_suppression_identity _ _ sources c) as [[[iu ii] ik] c'].
  cbn in Ah, Ap, Ac |- *. split; [done|]. split.
  - apply Forall_app_2; [done|]. unfold pairs_from in Ap. cbn in Ap.
    rewrite Forall_forall in Ap. apply Forall_forall. intros p Hp k Hk.
    destruct (elem_of_identity_bucket i base k (Ap p Hp k Hk)) as [Hin Hi]. split; [done|].
    transitivity i; [exact Hi|symmetry]. apply (elem_of_identity_bucket i head). fold hbs. rewrite <-Ah.
    unfold heads. apply elem_of_app. left. by apply list_elem_of_fmap_2.
  - rewrite <-Ah. unfold heads. cbn. rewrite !fmap_app. solve_Permutation.
Qed.

Lemma keys_steps_ok ids acc :
  cache_ok acc.2 → linked base.*1 acc.1 →
  cache_ok (foldl (keys_step bbs hbs sources) acc ids).2 ∧
  linked base.*1 (foldl (keys_step bbs hbs sources) acc ids).1 ∧
  heads (foldl (keys_step bbs hbs sources) acc ids).1 ≡ₚ
    heads acc.1 ++ mjoin ((λ i, (bucket i hbs).*1) <$> ids).
Proof.
  revert acc. induction ids as [|i ids IH]; intros acc Hc Hl; [cbn; by rewrite app_nil_r|].
  destruct (keys_step_ok acc i Hc Hl) as (Hc' & Hl' & Hh).
  destruct (IH _ Hc' Hl') as (Hc2 & Hl2 & Hh2). cbn [foldl]. split_and!; [done|done|].
  rewrite Hh2, Hh, <-app_assoc. done.
Qed.

Lemma mjoin_fmap_fst (ids : list suppression_identity) :
  mjoin ((λ i, (bucket i hbs).*1) <$> ids) = (mjoin ((λ i, bucket i hbs) <$> ids)).*1.
Proof.
  induction ids as [|i ids IH]; [done|]. rewrite !fmap_cons. cbn [mjoin list_join].
  rewrite fmap_app. by f_equal.
Qed.

Lemma keys_accounted c :
  cache_ok c →
  let r := _classify_suppression_keys base head (src_base sources) (src_head sources) c in
  heads r.1 ≡ₚ head.*1 ∧ linked base.*1 r.1 ∧ cache_ok r.2.
Proof.
  intros Hc. cbv zeta. unfold _classify_suppression_keys. fold bbs hbs.
  replace {| src_base := src_base sources; src_head := src_head sources |} with sources by by destruct sources.
  set (ids := sorted_set _). cbv zeta.
  assert (Hnd : NoDup ids) by apply NoDup_sorted_set.
  assert (Hin : ∀ e : _SuppressionEntry, e ∈ sort_by fst head → e.1.1 ∈ ids).
  { intros e He. unfold ids. apply elem_of_sorted_set, elem_of_list_to_set, elem_of_app. right.
    unfold hbs, _suppression_identity_buckets. apply elem_of_keys_group_by. eauto. }
  destruct (keys_steps_ok ids (([], [], false), c) Hc (Forall_nil_2 _)) as (Hc' & Hl & Hh).
  rewrite mjoin_fmap_fst in Hh. unfold hbs at 2 in Hh. unfold _suppression_identity_buckets in Hh.
  assert (Hp : mjoin ((λ i, bucket i (group_by (λ e : _SuppressionEntry, e.1.1) (sort_by fst head))) <$> ids)
               ≡ₚ head).
  { transitivity (sort_by fst head); [|apply sort_by_perm].
    transitivity (mjoin ((λ i, filter (λ e : _SuppressionEntry, e.1.1 = i) (sort_by fst head)) <$> ids));
      [|by apply partition_perm].
    apply reflexive_eq. f_equal. apply list_fmap_ext. intros ? i _. apply bucket_group_by. }
  rewrite Hp in Hh. change (heads ([], [], false)) with (@nil _SuppressionKey) in Hh. cbn [app] in Hh.
  destruct (foldl _ _ _) as [[[un intro] unk] c']. cbn in Hc', Hl, Hh |- *.
  unfold heads, linked in *. cbn in *. split_and!; [|by rewrite sort_by_perm|done].
  by rewrite !sort_by_perm.
Qed.
End keys.
End proofs.

(** * The delta *)

Section delta.
Context `{Sha256} `{Tokenize}.

(** What a pair must show to stay out of quarantine *)
Definition settled (context : _SuppressionDeltaContext) (o : SuppressionOccurrence)
    (p : _SuppressionPairing) : Prop :=
  ∃ bk b, pair_base_key p = Some bk ∧ dict_get bk (sdc_base_by_key context) = Some b ∧
    dict_get (so_path b) (sdc_base_sources context) =
      Some (source_at (so_path o) (sdc_head_sources context)).

Lemma quarantine_step_ok context acc p :
  cache_ok acc.2 →
  cache_ok (quarantine_step context acc p).2 ∧
  ∃ extra, (quarantine_step context acc p).1.1 = acc.1.1 ++ extra ∧
    Forall (λ f, sf_blocking f = true) extra ∧
    (quarantine_step context acc p).1.2 = acc.1.2 || bool_decide (extra ≠ []) ∧
    (extra = [] → ∀ o, dict_get (pair_head_key p) (sdc_head_by_key context) = Some o →
       settled context o p).
Proof.
  destruct acc as [[findings q] c]. intros Hc. cbn in Hc. unfold quarantine_step.
  destruct (dict_get (pair_head_key p) (sdc_head_by_key context)) as [o|] eqn:Eo.
  2:{ split; [done|]. exists []. cbn. rewrite app_nil_r, orb_false_r. by split_and!. }
  cbv zeta. set (base_source := match base_item_of _ _ with Some b => _ | None => _ end).
  assert (He : cache_ok (sources_equal base_source
      (source_at (so_path o) (sdc_head_sources context)) c).2 ∧
    ((sources_equal base_source (source_at (so_path o) (sdc_head_sources context)) c).1 = true →
     base_source = Some (source_at (so_path o) (sdc_head_sources context)))).
  { unfold sources_equal. destruct base_source as [s|]; [|done].
    destruct (cached_equality_ok s (source_at (so_path o) (sdc_head_sources context)) c Hc) as [-> Hc'].
    split; [done|]. intros E%bool_decide_eq_true. by subst. }
  destruct (sources_equal base_source _ c) as [eq c'] eqn:Eeq. cbn in He. destruct He as [Hc' He].
  destruct (bool_decide (is_Some (base_item_of context (pair_base_key p))) && eq) eqn:Eb.
  - split; [done|]. exists []. cbn. rewrite app_nil_r, orb_false_r. split_and!; [done..|].
    intros _ o' [= <-]. apply andb_true_iff in Eb as [Hs%bool_decide_eq_true Hq].
    specialize (He Hq). subst base_source. unfold base_item_of in *.
    destruct (pair_base_key p) as [bk|] eqn:Ebk; [|by destruct Hs]. cbn in *.
    destruct (dict_get bk (sdc_base_by_key context)) as [b|] eqn:Eb; [|by destruct Hs].
    exists bk, b. by split_and!.
  - split; [done|]. eexists [_]. cbn. split; [done|]. split; [by apply Forall_singleton|].
    split; [by rewrite orb_true_r|done].
Qed.

Lemma quarantine_ok context pairs acc :
  cache_ok acc.2 →
  ∃ extra, (foldl (quarantine_step context) acc pairs).1.1 = acc.1.1 ++ extra ∧
    Forall (λ f, sf_blocking f = true) extra ∧
    (foldl (quarantine_step context) acc pairs).1.2 = acc.1.2 || bool_decide (extra ≠ []) ∧
    (extra = [] → ∀ p o, p ∈ pairs →
       dict_get (pair_head_key p) (sdc_head_by_key context) = Some o → settled context o p).
Proof.
  revert acc. induction pairs as [|p pairs IH]; intros acc Hc.
  { exists []. cbn. rewrite app_nil_r, orb_false_r. split_and!; [done..|]. by intros _ p o ?%elem_of_nil. }
  destruct (quarantine_step_ok context acc p Hc) as (Hc' & e1 & F1 & B1 & Q1 & S1).
  destruct (IH _ Hc') as (e2 & F2 & B2 & Q2 & S2). exists (e1 ++ e2). cbn [foldl]. split_and!.
  - by rewrite F2, F1, app_assoc.
  - by apply Forall_app_2.
  - rewrite Q2, Q1, <-orb_assoc. f_equal. by destruct e1.
  - intros [-> ->]%app_eq_nil p' o [->|Hin]%elem_of_cons Ho; eauto.
Qed.

(** The delta of two readable trees, in terms of its parts *)
Lemma delta_spec bo ho bs hs renames mb :
  let context := _suppression_delta_context bo ho bs hs renames in
  let r := classify_delta context mb in
  scl_introduced r ++ scl_unchanged r ≡ₚ ho ∧
  ∃ fi extra, scl_findings r = fi ++ extra ∧
    length fi = length (scl_introduced r) ∧
    Forall (λ f, sf_blocking f = true) (fi ++ extra) ∧
    scl_status r = _suppression_status (bool_decide (extra ≠ [])) (bool_decide (scl_introduced r ≠ [])) ∧
    (extra = [] → ∀ o, o ∈ scl_unchanged r → ∃ b, b ∈ bo ∧
       suppression_identity_of [] b = suppression_identity_of (reverse_renames renames) o ∧
       dict_get (so_path b) bs = Some (source_at (so_path o) hs)).
Proof.
  intros context r.
  destruct (index_spec [] bo) as (Bwf & Bv & Bid).
  destruct (index_spec (reverse_renames renames) ho) as (Hwf & Hv & Hid).
  pose proof (keys_accounted (_suppression_occurrence_index bo [])
    (_suppression_occurrence_index ho (reverse_renames renames))
    {| src_base := bs; src_head := hs |} Hwf empty_cache empty_cache_ok) as Hk. cbv zeta in Hk.
  unfold r, classify_delta.
  change (sdc_base_by_key context) with (_suppression_occurrence_index bo []).
  change (sdc_head_by_key context) with (_suppression_occurrence_index ho (reverse_renames renames)).
  cbn [src_base src_head] in Hk. change (sdc_base_sources context) with bs. change (sdc_head_sources context) with hs.
  destruct (_classify_suppression_keys _ _ bs hs empty_cache) as [[[un intro] unk] c] eqn:Ek.
  destruct Hk as (Hh & Hl & Hc). unfold linked in Hl. cbn in Hh, Hl, Hc.
  set (hd := _suppression_occurrence_index ho (reverse_renames renames)) in *.
  assert (Hfi : length (_introduced_suppression_findings intro context) =
                length (omap (λ i, dict_get (intro_head_key i) hd) intro) ∧
                Forall (λ f, sf_blocking f = true) (_introduced_suppression_findings intro context)).
  { unfold _introduced_suppression_findings. change (sdc_head_by_key context) with hd. clear.
    induction intro as [|i intro IH]; [by split|]. cbn.
    destruct (dict_get (intro_head_key i) hd); cbn; [|done]. destruct IH. split; [by f_equal|by constructor]. }
  destruct (quarantine_ok context un (_introduced_suppression_findings intro context, false, c) Hc)
    as (extra & F & B & Q & S).
  unfold _append_quarantined_suppressions.
  destruct (foldl (quarantine_step context) _ un) as [[fs q] c']. cbn in F, Q |- *.
  split.
  - etransitivity; [apply Permutation_app_comm|].
    transitivity (omap (λ k, dict_get k hd) ((pair_head_key <$> un) ++ (intro_head_key <$> intro))).
    { by rewrite omap_app, <-!omap_fmap_dict. }
    transitivity (omap (λ k, dict_get k hd) hd.*1); [by apply omap_Permutation|].
    apply reflexive_eq. by transitivity (hd.*2); [apply omap_dict_get|].
  - exists (_introduced_suppression_findings intro context), extra.
    destruct Hfi as [Hlen Hbl]. rewrite Q. split_and!; [done|done|by apply Forall_app_2|done|].
    intros He o (p & Hp & Ho)%list_elem_of_omap.
    destruct (S He p o Hp Ho) as (bk & b & Ebk & Eb & Es).
    exists b. rewrite Forall_forall in Hl. destruct (Hl p Hp bk Ebk) as [_ Hkk].
    apply dict_get_Some_elem in Eb as Hb. apply dict_get_Some_elem in Ho as Hoin.
    rewrite Forall_forall in Bid, Hid. pose proof (Bid _ Hb) as Eid. pose proof (Hid _ Hoin) as Eid'.
    cbn in Eid, Eid'. split_and!.
    + rewrite <-Bv. by apply (list_elem_of_fmap_2 snd) in Hb.
    + congruence.
    + done.
Qed.
End delta.

Lemma existsb_Exists {A} (p : A → bool) l : existsb p l = false ↔ ∀ x, x ∈ l → p x = false.
Proof.
  induction l as [|x l IH]; cbn; [split; [by intros _ x ?%elem_of_nil|done]|].
  rewrite orb_false_iff, IH. setoid_rewrite elem_of_cons. naive_solver.
Qed.

Section theorems.
Context `{Sha256} `{Tokenize}.

(** C27 [classify_suppression_delta] (run/differential.py) accounts for every
    directive: when both trees can be tokenised, each head directive is
    reported exactly once, as introduced or as unchanged; every finding is
    blocking; and the status is [PASS] exactly when there is no finding. *)
Theorem suppression_accounting (base_sources head_sources : list (string * string))
    (renames : option (list (string * string))) (missing : option (list (list (string * pyval))))
    (bo ho : list SuppressionOccurrence)
    (Hb : _suppression_occurrences (_python_sources base_sources) = inr bo)
    (Hh : _suppression_occurrences (_python_sources head_sources) = inr ho) :
  ∃ r, classify_suppression_delta base_sources head_sources renames missing None = Ok r ∧
    scl_introduced r ++ scl_unchanged r ≡ₚ ho ∧
    Forall (λ f, sf_blocking f = true) (scl_findings r) ∧
    (scl_status r = C_PASS ↔ scl_findings r = []) ∧
    (scl_status r = C_FAIL → scl_introduced r ≠ []).
Proof.
  unfold classify_suppression_delta. cbv zeta. rewrite Hb, Hh. eexists. split; [done|].
  match goal with |- context [classify_delta (_suppression_delta_context ?a ?b ?c ?d ?e) ?m] =>
    destruct (delta_spec a b c d e m) as (Hp & fi & extra & F & L & B & S & _) end.
  cbv zeta in Hp, F, L, S. set (r := classify_delta _ _) in *. rewrite F, S. split_and!; [done|done|..].
  - unfold _suppression_status. destruct extra as [|x extra].
    + rewrite app_nil_r. cbn. destruct (scl_introduced r) as [|y l]; cbn in L |- *.
      * split; [by destruct fi|done].
      * split; [done|]. intros ->. done.
    + split; [done|]. by intros [? ?]%app_eq_nil.
  - unfold _suppression_status. destruct extra; cbn; [|done]. by destruct (scl_introduced r).
Qed.

(** [classify_suppression_delta]: a [PASS] means no directive moved into a
    changed file.  Every head directive has a base directive of the same
    family and token, at the same path up to the renames, in a source with
    exactly the same bytes. *)
Theorem suppression_pass (base_sources head_sources : list (string * string))
    (renames : option (list (string * string))) (missing : option (list (list (string * pyval))))
    (r : SuppressionClassification)
    (Hr : classify_suppression_delta base_sources head_sources renames missing None = Ok r)
    (Hpass : scl_status r = C_PASS) :
  ∃ bo ho, _suppression_occurrences (_python_sources base_sources) = inr bo ∧
    _suppression_occurrences (_python_sources head_sources) = inr ho ∧
    ∀ o, o ∈ ho → ∃ b, b ∈ bo ∧
      so_family b = so_family o ∧ so_token b = so_token o ∧
      so_path b = normalized_path (reverse_renames (default [] renames)) (so_path o) ∧
      dict_get (so_path b) (_python_sources base_sources) =
        Some (source_at (so_path o) (_python_sources head_sources)).
Proof.
  unfold classify_suppression_delta in Hr. cbv zeta in Hr.
  destruct (_suppression_occurrences (_python_sources base_sources)) as [e|bo] eqn:Eb.
  { injection Hr as <-. done. }
  destruct (_suppression_occurrences (_python_sources head_sources)) as [e|ho] eqn:Eh.
  { injection Hr as <-. done. }
  exists bo, ho. split; [done|]. split; [done|]. injection Hr as Hr.
  match type of Hr with classify_delta (_suppression_delta_context ?a ?b ?c ?d ?e) ?m = _ =>
    destruct (delta_spec a b c d e m) as (Hp & fi & extra & F & L & _ & S & Hs) end.
  cbv zeta in Hp, F, L, S, Hs. rewrite Hr in Hp, F, L, S, Hs. rewrite Hpass in S. symmetry in S.
  unfold _suppression_status in S. destruct extra; cbn in S; [|done].
  destruct (scl_introduced r); cbn in S; [|done]. cbn [app] in Hp.
  intros o Ho. rewrite <-Hp in Ho. destruct (Hs eq_refl o Ho) as (b & Hb & Hid & Hsrc).
  exists b. split; [done|]. unfold suppression_identity_of in Hid. injection Hid as Hpath Hfamily Htoken.
  by split_and!.
Qed.

(** The correspondence cache of [classify_suppression_delta]: classifying
    any two indexes leaves every memo table equal to what recomputation
    gives, and no pair of sources has reserved more than
    [_MAX_AGGREGATE_CORRESPONDENCE_CELLS] cells of forbidden-pair matrices. *)
Theorem correspondence_budget (base head : list SuppressionOccurrence)
    (renames base_sources head_sources : list (string * string)) :
  let c := (_classify_suppression_keys (_suppression_indexes base head renames).1
              (_suppression_indexes base head renames).2 base_sources head_sources empty_cache).2 in
  coherent (cc_memo c) ∧
  (∀ s l, cc_source_lines c !! s = Some l → l = splitlines s) ∧
  (∀ key n, cc_forbidden_cells c !! key = Some n → (n ≤ _MAX_AGGREGATE_CORRESPONDENCE_CELLS)%Z).
Proof.
  intros c.
  destruct (index_spec (reverse_renames renames) head) as (Hwf & _).
  destruct (keys_accounted (_suppression_occurrence_index base []) _
    {| src_base := base_sources; src_head := head_sources |} Hwf empty_cache empty_cache_ok)
    as (_ & _ & Hc).
  destruct Hc as [Hm Hlines _ Hbudget]. by split_and!.
Qed.
End theorems.

(** * Catalog activation *)

(** [activate_packaged_suppression_catalog] (run/differential.py) activates
    the profile only when every binding agrees: the digest of the installed
    bytes is the frozen digest, the one the package manifest authenticates,
    and the value of all six matrix bindings, and the Semgrep version of the
    platform was admitted by the catalog. *)
Theorem catalog_activation_bound `{Sha256} `{JsonLoads} (r : catalog_resources)
    (platform_id : string) (versions : option (list (string * string))) (a : CatalogActivation)
    (Ha : activate_packaged_suppression_catalog r platform_id versions = Ok a)
    (Hact : ca_profile_activated a = true) :
  ca_status a = C_PASS ∧ ca_digest a = Some _FROZEN_SUPPRESSION_CATALOG_DIGEST ∧
  ∃ bytes, res_catalog r = Some bytes ∧
    sha256_digest (chars bytes) = _FROZEN_SUPPRESSION_CATALOG_DIGEST ∧
    _authenticated_package_catalog_digest (res_package_manifest r) =
      Some _FROZEN_SUPPRESSION_CATALOG_DIGEST ∧
    (∃ matrix bindings, res_matrix r ≫= json_loads = Some (VDict matrix) ∧
       dict_get (VStr "suppression_catalog_identity_bindings") matrix = Some (VDict bindings) ∧
       ∀ name, name ∈ required_bindings →
         vget name bindings = VStr _FROZEN_SUPPRESSION_CATALOG_DIGEST) ∧
    platform_id ∈ platforms ∧
    ∃ versions', _semgrep_suppression_policy_admitted bytes platform_id versions' = Ok true.
Proof.
  unfold activate_packaged_suppression_catalog in Ha.
  destruct (load_suppression_catalog_and_checkpoint r) as [[resource checkpoint]|] eqn:El;
    [|injection Ha as <-; done].
  unfold load_suppression_catalog_and_checkpoint in El.
  destruct (res_catalog r) as [bytes|] eqn:Ec; [|done]. case_bool_decide; [|done].
  injection El as <- <-.
  destruct (res_matrix r ≫= json_loads) as [[]|] eqn:Em; try (injection Ha as <-; done).
  rename l into matrix.
  destruct (dict_get (VStr "suppression_catalog_identity_bindings") matrix) as [bindings|] eqn:Eb;
    [|injection Ha as <-; done].
  rewrite String.eqb_refl in Ha. cbn [negb scr_bytes scr_digest] in Ha. cbv zeta in Ha.
  set (versions' := match versions with Some (v :: vs) => _ | _ => _ end) in Ha.
  apply res_bind_Ok in Ha as (admitted & Hadm & Ha). injection Ha as <-.
  destruct admitted; [|done]. cbn [negb] in *.
  unfold _activate_bound_suppression_catalog in *. destruct bindings; try done.
  destruct (bool_decide (string_keys l = Some required_bindings)); [|done]. cbn [negb] in *.
  destruct (existsb _ (elements required_bindings)) eqn:Ex; [done|].
  destruct (_authenticated_package_catalog_digest (res_package_manifest r)) as [pd|] eqn:Ep; [|done].
  unfold activate_suppression_catalog in *. cbv zeta in *.
  case_bool_decide as Hsize; [done|].
  apply size_1_elem_of in Hsize as [d Hd].
  assert (Hall : ∀ x, x ∈ [_FROZEN_SUPPRESSION_CATALOG_DIGEST; sha256_digest (chars bytes); pd;
                           _PR_RANGE_V1_SUPPRESSION_CATALOG_DIGEST] → x = d).
  { intros x Hx. apply (elem_of_singleton (C := gset string)), Hd. by apply elem_of_list_to_set. }
  assert (Hdig : sha256_digest (chars bytes) = _FROZEN_SUPPRESSION_CATALOG_DIGEST).
  { rewrite (Hall _FROZEN_SUPPRESSION_CATALOG_DIGEST) by left. apply Hall. right; left. }
  cbn [ca_status ca_digest]. split; [done|]. split; [by rewrite Hdig|].
  exists bytes. split; [done|]. split; [done|]. split.
  { f_equal. rewrite (Hall _FROZEN_SUPPRESSION_CATALOG_DIGEST) by left. apply Hall. by do 2 right; left. }
  split; [|split].
  - exists matrix, l. split; [done|]. split; [done|]. intros name Hn.
    rewrite existsb_Exists in Ex. specialize (Ex name ltac:(by apply elem_of_elements)).
    apply negb_false_iff, bool_decide_eq_true in Ex. by rewrite Ex, Hdig.
  - unfold _semgrep_suppression_policy_admitted in Hadm.
    destruct (decide (platform_id ∈ platforms)) as [E|E]; [exact E|].
    rewrite bool_decide_eq_false_2 in Hadm by exact E. discriminate Hadm.
  - by exists versions'.
Qed.

(** * Witnesses *)

Section samples.
#[local] Instance sample_sha : Sha256 := λ bytes,
  "3cc769700bc97d6a13b1a9c3554b66453aa319cf229795e7cede4d917ff13f3b".

(** A line tokenizer: what follows the first hash of a line is its comment. *)
Fixpoint after_hash (l : list ascii) : option (list ascii) :=
  match l with
  | [] => None
  | c :: l' => if bool_decide (c = "#"%char) then Some l else after_hash l'
  end.
#[local] Instance sample_tokenize : Tokenize := λ source,
  inr (omap (λ il, (λ c, (Z.of_nat (S il.1), of_chars c)) <$> after_hash (chars il.2))
         (imap pair (splitlines source))).

Definition annotated : string := "import x  # noqa: F401" +:+ newline.
Definition changed_source : string := annotated +:+ "y = 1  # type: ignore[attr]" +:+ newline.
Definition base_tree : list (string * string) := [("a.py", annotated); ("b.txt", "# noqa")].
Definition noqa : SuppressionOccurrence :=
  {| so_path := "a.py"; so_line := 1; so_family := "ruff-noqa"; so_kind := introduced_inline;
     so_token := "# noqa: f401" |}.
Definition type_ignore : SuppressionOccurrence :=
  {| so_path := "a.py"; so_line := 2; so_family := "type-ignore"; so_kind := introduced_inline;
     so_token := "# type: ignore[attr]" |}.

Lemma suppression_accounting_witness :
  ∃ r, classify_suppression_delta base_tree [("a.py", changed_source)] None None None = Ok r ∧
    scl_introduced r ++ scl_unchanged r ≡ₚ [noqa; type_ignore] ∧
    Forall (λ f, sf_blocking f = true) (scl_findings r) ∧
    (scl_status r = C_PASS ↔ scl_findings r = []) ∧
    (scl_status r = C_FAIL → scl_introduced r ≠ []).
Proof.
  assert (Hb : _suppression_occurrences (_python_sources base_tree) = inr [noqa])
    by (vm_compute; reflexivity).
  assert (Hh : _suppression_occurrences (_python_sources [("a.py", changed_source)]) =
    inr [noqa; type_ignore]) by (vm_compute; reflexivity).
  exact (suppression_accounting base_tree [("a.py", changed_source)] None None _ _ Hb Hh).
Defined.

Definition passing_delta : SuppressionClassification :=
  Eval vm_compute in
    match classify_suppression_delta base_tree [("a.py", annotated)] None None None with
    | Ok r => r
    | Err _ => manifest_error ""
    end.

Lemma suppression_pass_witness :
  scl_status passing_delta = C_PASS ∧
  ∃ bo ho, _suppression_occurrences (_python_sources base_tree) = inr bo ∧
    _suppression_occurrences (_python_sources [("a.py", annotated)]) = inr ho ∧
    ∀ o, o ∈ ho → ∃ b, b ∈ bo ∧ so_family b = so_family o ∧ so_token b = so_token o ∧
      so_path b = normalized_path (reverse_renames []) (so_path o) ∧
      dict_get (so_path b) (_python_sources base_tree) =
        Some (source_at (so_path o) (_python_sources [("a.py", annotated)])).
Proof.
  assert (Hr : classify_suppression_delta base_tree [("a.py", annotated)] None None None =
    Ok passing_delta) by (vm_compute; reflexivity).
  assert (Hp : scl_status passing_delta = C_PASS) by reflexivity.
  split; [exact Hp|].
  exact (suppression_pass base_tree [("a.py", annotated)] None None passing_delta Hr Hp).
Defined.

(** A directive in a changed file is never silently unchanged. *)
Example changed_file_quarantined :
  match classify_suppression_delta base_tree [("a.py", changed_source)] None None None with
  | Ok r => scl_status r = C_UNKNOWN ∧ scl_introduced r = [type_ignore] ∧ scl_unchanged r = [noqa]
  | Err _ => False
  end.
Proof. vm_compute. auto. Qed.
Example waiver_refused :
  classify_suppression_delta [] [] None None (Some []) =
  Err (UnsupportedWaiverInput "C14 has no authenticated waiver ingestion path").
Proof. reflexivity. Qed.

(** ** Activation *)

Definition sample_policy (platform version : string) : pyval :=
  VDict [(VStr "help_schema_digest", VStr _FROZEN_SUPPRESSION_CATALOG_DIGEST);
         (VStr "parser_catalog_digest", VStr _FROZEN_SUPPRESSION_CATALOG_DIGEST);
         (VStr "platform", VStr platform); (VStr "tool_version", VStr version)].
Definition sample_catalog : pyval :=
  VDict [(VStr "families", VList [VDict [(VStr "id", VStr "nosemgrep");
    (VStr "platform_version_policies",
     VList [sample_policy "linux-x86_64" "1.144.0"; sample_policy "darwin-arm64" "1.175.0"])]])].
Definition sample_matrix : pyval :=
  VDict [(VStr "suppression_catalog_identity_bindings",
    VDict ((λ name, (VStr name, VStr _FROZEN_SUPPRESSION_CATALOG_DIGEST)) <$>
      ["checkpoint"; "resource"; "package"; "profile"; "report"; "static_envelope"]))].
#[local] Instance sample_loads : JsonLoads := λ text,
  if String.eqb text "catalog" then Some sample_catalog
  else if String.eqb text "matrix" then Some sample_matrix else None.
Definition sample_resources : catalog_resources :=
  {| res_catalog := Some "catalog"; res_matrix := Some "matrix";
     res_package_manifest := Some (VDict [(VStr "authenticated_resources",
       VDict [(VStr _SUPPRESSION_CATALOG_RESOURCE,
         VDict [(VStr "checkpoint_contract", VStr "suppression_catalog_contract");
                (VStr "digest", VStr _FROZEN_SUPPRESSION_CATALOG_DIGEST)])])]) |}.
Definition active : CatalogActivation :=
  {| ca_status := C_PASS; ca_profile_activated := true;
     ca_digest := Some _FROZEN_SUPPRESSION_CATALOG_DIGEST; ca_reason := "" |}.

Lemma catalog_activation_bound_witness :
  ca_status active = C_PASS ∧
  _authenticated_package_catalog_digest (res_package_manifest sample_resources) =
    Some _FROZEN_SUPPRESSION_CATALOG_DIGEST.
Proof.
  assert (Ha : activate_packaged_suppression_catalog sample_resources "linux-x86_64" None = Ok active)
    by (vm_compute; reflexivity).
  destruct (catalog_activation_bound sample_resources "linux-x86_64" None active Ha eq_refl)
    as (Hs & _ & bytes & _ & _ & Hp & _).
  split; [exact Hs|exact Hp].
Defined.
End samples.
