(* ===== verification/Scope.v ===== *)
(** Scope: the scope resolution of [specfact_code_review/run/scope.py]: Git
    trees and snapshots, governed paths, canonical exact renames, the claimed
    pull-request context, range and index resolution, option validation and
    the selection of local files.  What Git and the file system answer is a
    [Repository] record. *)

From S2P Require Import Prelude Text Paths Dict PyValue Json Findings.

(** * Vocabularies and constants *)

Inductive ScopeKind := SkWorktree | SkIndex | SkRange | SkFull | SkExplicitFiles | SkChanged.
Inductive AssuranceKind :=
  | AkWorktree | AkIndex | AkRangePreview | AkRangeCandidate | AkPrRange | AkFull | AkExplicitFiles.
#[export] Instance ScopeKind_eq_dec : EqDecision ScopeKind. Proof. solve_decision. Defined.
#[export] Instance AssuranceKind_eq_dec : EqDecision AssuranceKind. Proof. solve_decision. Defined.

Definition _REGULAR_GIT_MODES : list string := ["100644"; "100755"].
Definition _PYTHON_SUFFIXES : list string := [".py"; ".pyi"].
Definition GOVERNED_POLICY_PATHS_V1 : list string :=
  [".coveragerc"; ".coveragerc.toml"; ".pylintrc"; ".pylintrc.toml"; ".pytest.ini"; ".pytest.toml";
   ".ruff.toml"; ".semgrep/bugs.yaml"; ".semgrep/clean_code.yaml"; "basedpyrightconfig.json";
   "mypy.ini"; "pylintrc"; "pylintrc.toml"; "pytest.ini"; "pytest.toml"; "pyrightconfig.json";
   "radon.cfg"; "resources/semgrep-rules/ai-bloat.yaml"; "ruff.toml"].
Definition _PYPROJECT_POLICY_SECTIONS : list (list string) :=
  [["tool"; "basedpyright"]; ["tool"; "coverage"]; ["tool"; "pylint"]; ["tool"; "pyright"];
   ["tool"; "pytest"]; ["tool"; "radon"]; ["tool"; "ruff"]].
Definition _INI_POLICY_SECTIONS : list string :=
  ["coverage:html"; "coverage:paths"; "coverage:report"; "coverage:run"; "mypy"; "pylint"; "pytest";
   "radon"; "tool:pytest"].

Definition _recognized_ini_policy_section (section : string) : bool :=
  let normalized := lower section in
  bool_decide (normalized ∈ _INI_POLICY_SECTIONS) || startswith "pylint." normalized.

(** * Git objects *)

Record TreeEntry := {
  te_git_mode : string; te_object_type : string; te_object_id : string; te_path : string
}.
Record InputIdentity := {
  ii_object_type : string; ii_git_mode : string; ii_blob_sha : string; ii_content_digest : string
}.
Record IndexMetadata := {
  im_git_mode : string; im_blob_sha : string; im_stage : Z; im_intent_to_add : bool;
  im_flag_tag : string
}.
Inductive rename_disposition := XrExactRename | XrCopy | XrAmbiguous.
Record ExactRename := {
  xr_old_path : string; xr_new_path : string; xr_blob_sha : string; xr_git_mode : string;
  xr_disposition : rename_disposition
}.
#[export] Instance TreeEntry_eq_dec : EqDecision TreeEntry. Proof. solve_decision. Defined.
#[export] Instance rename_disposition_eq_dec : EqDecision rename_disposition.
Proof. solve_decision. Defined.

(** A materialized tree: [root] is left out, the paths below it are read
    through the [Repository]. *)
Record Snapshot := {
  sn_commit : string; sn_tree : string;
  sn_contents : list (string * string);
  sn_entries : list (string * TreeEntry);
  sn_vcs_commit : string
}.
Definition bytes_or_none (s : Snapshot) (relative_path : string) : option string :=
  dict_get relative_path (sn_contents s).
Definition entry_or_none (s : Snapshot) (relative_path : string) : option TreeEntry :=
  dict_get relative_path (sn_entries s).

Definition is_regular_blob (object_type git_mode : string) : bool :=
  String.eqb object_type "blob" && bool_decide (git_mode ∈ _REGULAR_GIT_MODES).

(** What Git and the file system answer during one resolution: the standard
    output of the commands, or the error. *)
Record Repository := {
  git_rev_parse : string → string → result string;
  git_merge_base_all : string → string → result string;
  git_ls_tree : string → result string;
  git_cat_blob : string → result string;
  git_diff_name_only : string → string → result string;
  git_diff_name_status : string → string → result string;
  materialized_bytes : string → string → result string;
  project_links : string → result unit;
  context_bytes : result string
}.

(** [s.split("\0")] *)
Definition split_nul (s : string) : list string := split_on (ascii_of_nat 0) s.

(** [text.split(" ", 2)] into exactly three fields *)
Definition split_space2 (s : string) : option (string * string * string) :=
  match partition " "%char s with
  | Some (a, rest) =>
      match partition " "%char rest with Some (b, c) => Some (a, b, c) | None => None end
  | None => None
  end.

Section git.
Context `{Sha256} (repo : Repository).

Definition sha256_bytes (payload : string) : string := sha256_digest (chars payload).
Definition _canonical_json_digest (value : json) : string :=
  sha256_digest (utf8 (dumps false (sort_keys value))).

Definition _git_lines (stdout : result string) : result (list string) :=
  let! out := stdout in
  Ok (filter (λ l, l ≠ "") (strip <$> str_splitlines out)).

Definition _resolve_revision (ref object_type : string) : result string :=
  let! out := git_rev_parse repo ref object_type in
  let resolved := strip out in
  let! _ := check (String.length resolved =? 40)%nat
    (GitResolutionError ("Git returned a non-full " +:+ object_type +:+ " identity")) in
  Ok resolved.
Definition _resolve_commit (ref : string) : result string := _resolve_revision ref "commit".
Definition _resolve_tree (commit : string) : result string := _resolve_revision commit "tree".

Definition _best_merge_bases (base head : string) : result (list string) :=
  let! lines := _git_lines (git_merge_base_all repo base head) in Ok (sorted lines).

(** One record of [git ls-tree -z]: "mode type object\tpath" *)
Definition tree_entry (record : string) : result TreeEntry :=
  match partition (ascii_of_nat 9) record with
  | None => Err (GitResolutionError "Git tree entry omitted its path separator")
  | Some (metadata, path) =>
      match split_space2 metadata with
      | Some (mode, object_type, object_id) =>
          Ok {| te_git_mode := mode; te_object_type := object_type; te_object_id := object_id;
                te_path := path |}
      | None => Err (ValueError "not enough values to unpack")
      end
  end.
Definition parse_tree_entries (output : string) : result (list TreeEntry) :=
  map_res tree_entry (filter (λ record, record ≠ "") (split_nul output)).
Definition _tree_entries (revision : string) : result (list TreeEntry) :=
  let! output := git_ls_tree repo revision in parse_tree_entries output.

Definition _safe_snapshot_path (relative : string) : result (list string) :=
  let! _ := check (negb (is_absolute relative || bool_decide (".." ∈ path_parts relative)))
    (GitResolutionError "Unsafe path in Git tree") in
  Ok (path_parts relative).

(** The loop over the entries: blobs are read, regular ones also written
    below the root under a safe path. *)
Fixpoint materialize_entries (contents : list (string * string)) (entries : list TreeEntry) :
    result (list (string * string)) :=
  match entries with
  | [] => Ok contents
  | entry :: rest =>
      if negb (String.eqb (te_object_type entry) "blob") then materialize_entries contents rest
      else
        let! payload := git_cat_blob repo (te_object_id entry) in
        let contents := dict_set (te_path entry) payload contents in
        let! _ := (if bool_decide (te_git_mode entry ∈ _REGULAR_GIT_MODES)
                   then let! _ := _safe_snapshot_path (te_path entry) in Ok tt else Ok tt) in
        materialize_entries contents rest
  end.

Definition _materialize_tree (revision snapshot_identity : string) (preserve_links : bool) :
    result Snapshot :=
  let! tree := _resolve_tree revision in
  let! listed := _tree_entries revision in
  let entries := dict_of ((λ e, (te_path e, e)) <$> listed) in
  let! contents := materialize_entries [] (dict_values entries) in
  let! _ := (if preserve_links then project_links repo snapshot_identity else Ok tt) in
  Ok {| sn_commit := snapshot_identity; sn_tree := tree; sn_contents := contents;
        sn_entries := entries; sn_vcs_commit := "" |}.
Definition _materialize_commit (commit : string) (preserve_links : bool) : result Snapshot :=
  _materialize_tree commit commit preserve_links.
End git.

(** * Governed paths *)

(** The TOML and INI readers: the document as an object, the sections with
    their items in order; [None] is a parse or decoding error. *)
Class TomlLoads := toml_loads : string → option json.
Class IniRead := ini_sections : string → option (list (string * list (string * string))).

Definition json_get (k : string) (j : json) : option json :=
  match j with JObj l => dict_get k l | _ => None end.

Section policy.
Context `{TomlLoads} `{IniRead}.

Definition invalid_policy_document : json := JStr "invalid-policy-document".

(** The value under a path of keys; [null] is not selected. *)
Fixpoint section_value (value : json) (section : list string) : option json :=
  match section with
  | [] => match value with JNull => None | v => Some v end
  | component :: rest => json_get component value ≫= λ v, section_value v rest
  end.
Definition _toml_policy_projection (payload : option string) : json :=
  match payload with
  | None => JObj []
  | Some payload =>
      match toml_loads payload with
      | None => invalid_policy_document
      | Some document =>
          JObj (omap (λ section, (λ v, (join "." section, v)) <$> section_value document section)
                  _PYPROJECT_POLICY_SECTIONS)
      end
  end.
Definition _ini_policy_projection (payload : option string) : json :=
  match payload with
  | None => JObj []
  | Some payload =>
      match ini_sections payload with
      | None => invalid_policy_document
      | Some sections =>
          JObj (dict_of ((λ si, (lower si.1, JObj ((λ kv, (kv.1, JStr kv.2)) <$> si.2))) <$>
                  filter (λ si, _recognized_ini_policy_section si.1 = true) sections))
      end
  end.

(** Equality of two parsed values: the order of an object does not count, and
    [True == 1]. *)
Fixpoint bools_as_ints (j : json) : json :=
  match j with
  | JBool b => JInt (Z.b2z b)
  | JArr l => JArr (bools_as_ints <$> l)
  | JObj l => JObj ((λ kv, (kv.1, bools_as_ints kv.2)) <$> l)
  | _ => j
  end.
Definition same_json (j1 j2 : json) : bool :=
  bool_decide (sort_keys (bools_as_ints j1) = sort_keys (bools_as_ints j2)).

Definition _section_policy_changed (relative : string) (base head : Snapshot) : bool :=
  let base_payload := bytes_or_none base relative in
  let head_payload := bytes_or_none head relative in
  if String.eqb relative "pyproject.toml"
  then negb (same_json (_toml_policy_projection base_payload) (_toml_policy_projection head_payload))
  else if bool_decide (relative ∈ ["setup.cfg"; "tox.ini"])
  then negb (same_json (_ini_policy_projection base_payload) (_ini_policy_projection head_payload))
  else false.

Definition _policy_projection (relative : string) (payload : option string) : option json :=
  if String.eqb relative "pyproject.toml" then Some (_toml_policy_projection payload)
  else if bool_decide (relative ∈ ["setup.cfg"; "tox.ini"]) then Some (_ini_policy_projection payload)
  else None.

Definition _is_policy_path (relative : string) (source_lock_paths : gset string) (base head : Snapshot)
    (additional_policy_paths : gset string) : bool :=
  bool_decide (relative ∈ GOVERNED_POLICY_PATHS_V1)
  || bool_decide (relative ∈ additional_policy_paths)
  || bool_decide (relative ∈ source_lock_paths)
  || _section_policy_changed relative base head.

Definition _governed_path (relative : string) (source_lock_paths : gset string) (base head : Snapshot)
    (additional_policy_paths : gset string) : bool :=
  bool_decide (path_suffix relative ∈ _PYTHON_SUFFIXES)
  || _is_policy_path relative source_lock_paths base head additional_policy_paths.
End policy.

Definition _is_test_path (path : string) : bool := bool_decide ("tests" ∈ path_parts path).
Definition _is_ignored_path (path : string) : bool :=
  if is_absolute path then false
  else existsb (λ part, startswith "." part && (1 <? String.length part)%nat)
         (take (length (path_parts path) - 1) (path_parts path)).

(** * Ranges *)

Section ranges.
Context `{Sha256} (repo : Repository).

Definition parse_range_paths (stdout : string) : list string :=
  sorted_set (list_to_set (filter (λ path, path ≠ "") (split_nul stdout))).
Definition _range_paths (merge_base head : string) : result (list string) :=
  let! stdout := git_diff_name_only repo merge_base head in Ok (parse_range_paths stdout).

(** [for index in range(0, len(tokens) - 1, 2)] *)
Fixpoint status_pairs (tokens : list string) (statuses : list (string * string)) :
    list (string * string) :=
  match tokens with
  | status :: path :: rest =>
      status_pairs rest
        (if bool_decide (status ≠ "") && bool_decide (path ≠ "")
         then dict_set path status statuses else statuses)
  | _ => statuses
  end.
Definition parse_range_statuses (stdout : string) : list (string * string) :=
  dict_of (sorted (status_pairs (split_nul stdout) [])).
Definition _range_statuses (base head : string) : result (list (string * string)) :=
  let! stdout := git_diff_name_status repo base head in Ok (parse_range_statuses stdout).
End ranges.

(** ** Canonical exact renames *)

Definition _entry_identity (entry : TreeEntry) : string * string * string :=
  (te_object_type entry, te_git_mode entry, te_object_id entry).

Definition _entries_with_status (snapshot : Snapshot) (statuses : list (string * string))
    (expected_status : string) : list (string * option TreeEntry) :=
  (λ ps, (ps.1, entry_or_none snapshot ps.1)) <$> filter (λ ps, ps.2 = expected_status) statuses.

Definition _matching_entries (entries : list (string * option TreeEntry)) (candidate : TreeEntry) :
    list (string * TreeEntry) :=
  omap (λ pe, match pe.2 with
              | Some entry => if decide (_entry_identity entry = _entry_identity candidate)
                              then Some (pe.1, entry) else None
              | None => None
              end) entries.

(** [min(paths)] of a non-empty list *)
Definition min_path (paths : list string) : string := default "" (head (sorted paths)).

Definition base_entries (base : Snapshot) : list (string * option TreeEntry) :=
  (λ pe, (pe.1, Some pe.2)) <$> sn_entries base.
Definition _rename_disposition (base : Snapshot) (deleted added : list (string * option TreeEntry))
    (new_entry : TreeEntry) : option (string * rename_disposition) :=
  let deleted_matches := _matching_entries deleted new_entry in
  let all_base_matches := _matching_entries (base_entries base) new_entry in
  let same_added_count := length (_matching_entries added new_entry) in
  match deleted_matches, same_added_count with
  | [(old_path, _)], 1 => Some (old_path, XrExactRename)
  | _, _ =>
      match deleted_matches, all_base_matches with
      | [], [(old_path, _)] => Some (old_path, XrCopy)
      | _, _ =>
          match (match deleted_matches with [] => all_base_matches | _ => deleted_matches end) with
          | [] => None
          | matches => Some (min_path matches.*1, XrAmbiguous)
          end
      end
  end.

Definition disposition_text (d : rename_disposition) : string :=
  match d with XrExactRename => "exact_rename" | XrCopy => "copy" | XrAmbiguous => "ambiguous" end.
Definition rename_key (r : ExactRename) : string * string * string :=
  (xr_old_path r, xr_new_path r, disposition_text (xr_disposition r)).

Definition _canonical_exact_renames (base head : Snapshot) (statuses : list (string * string)) :
    list ExactRename :=
  let deleted := _entries_with_status base statuses "D" in
  let added := _entries_with_status head statuses "A" in
  sort_by rename_key
    (omap (λ pe,
       match pe.2 with
       | None => None
       | Some new_entry =>
           (λ ok, {| xr_old_path := ok.1; xr_new_path := pe.1; xr_blob_sha := te_object_id new_entry;
                     xr_git_mode := te_git_mode new_entry; xr_disposition := ok.2 |})
             <$> _rename_disposition base deleted added new_entry
       end) added).

(** * Requests and the claimed context *)

Record ScopeRequest := {
  sq_scope : ScopeKind;
  sq_files : list string;
  sq_base_ref : option string;
  sq_head_ref : option string;
  sq_enforcement : option enforcement_mode;
  sq_include_tests : bool;
  sq_exclude_tests : bool;
  sq_focus : list string;
  sq_path_filters : list string;
  sq_no_tests : bool;
  sq_level : option string;
  sq_fix : bool;
  sq_preview_fixes : bool;
  sq_with_mutation : bool;
  sq_has_pr_context_file : bool;
  sq_repository_slug : option string;
  sq_project_runtime_source_lock_paths : list string;
  sq_portable_project_runtime : bool
}.

Record _ClaimedContext := { cx_document : list (pyval * pyval); cx_digest : string }.

Definition _is_full_sha (value : pyval) : bool :=
  match value with VStr s => hex_run 40 (chars s) | _ => false end.
Definition _is_sha256_digest (value : pyval) : bool :=
  match value with VStr s => (String.length s =? 71)%nat && startswith "sha256:" s | _ => false end.

Definition _decode_context `{JsonLoads} (payload : string) : result (list (pyval * pyval)) :=
  match json_loads payload with
  | None => Err (ContextResolutionError "PR context is not valid UTF-8 JSON")
  | Some (VDict d) =>
      if forallb (λ kv, match kv.1 with VStr _ => true | _ => false end) d then Ok d
      else Err (ContextResolutionError "PR context must be a JSON object with string keys.")
  | Some _ => Err (ContextResolutionError "PR context must be a JSON object with string keys.")
  end.

Definition non_empty_str (v : pyval) : bool :=
  match v with VStr s => bool_decide (s ≠ "") | _ => false end.
Definition context_strings : list string :=
  ["schema"; "provider"; "repository"; "event"; "target_ref"; "head_ref"].
Definition _validate_context_header (document : list (pyval * pyval)) (request : ScopeRequest) :
    result unit :=
  let! _ := check (forallb (λ field, non_empty_str (vget field document)) context_strings)
    (ContextResolutionError "PR context omits a required non-empty string field.") in
  let! _ := check (is_str "github-actions-pr-v1" (vget "schema" document)
                   && is_str "github-actions" (vget "provider" document))
    (ContextResolutionError "PR context schema/provider is unsupported.") in
  check (match sq_repository_slug request with
         | Some slug => is_str slug (vget "repository" document) | None => true end)
    (ContextResolutionError "PR context repository identity does not match the request.").

(** [isinstance(v, int) and v > 0]; a [bool] is an [int]. *)
Definition positive_int (v : pyval) : bool :=
  match v with VInt z => (0 <? z)%Z | VBool b => b | _ => false end.
Definition _validate_context_event (document : list (pyval * pyval)) : result unit :=
  let event := vget "event" document in
  let! _ := check (is_str "pull_request" event || is_str "merge_group" event)
    (ContextResolutionError "PR context event is unsupported.") in
  check (negb (is_str "pull_request" event && negb (positive_int (vget "pull_request" document))))
    (ContextResolutionError "Pull-request context requires a positive pull_request identity.").

Definition _validate_context_git_identities (document : list (pyval * pyval)) : result unit :=
  let! _ := check (forallb (λ field, _is_full_sha (vget field document)) ["target_commit"; "head_commit"])
    (ContextResolutionError "must be a full lowercase commit SHA.") in
  check (forallb (λ field, _is_full_sha (vget field document)) ["target_tree"; "head_tree"])
    (ContextResolutionError "must be a full lowercase tree SHA.").

Definition _validate_optional_digest (document : list (pyval * pyval)) (field : string) : result unit :=
  check (match vget field document with VNone => true | value => _is_sha256_digest value end)
    (ContextResolutionError (field +:+ " is not a canonical SHA-256 digest.")).

Definition safe_relative (v : pyval) : bool :=
  match v with
  | VStr path => bool_decide (path ≠ "") && negb (is_absolute path)
                 && negb (bool_decide (".." ∈ path_parts path))
  | _ => false
  end.
Definition lock_records (v : pyval) : option (list (list (pyval * pyval))) :=
  match v with
  | VList items => mapM (λ item, match item with VDict d => Some d | _ => None end) items
  | _ => None
  end.
Definition _validated_source_lock_records (runtime_document : list (pyval * pyval)) :
    result (list (list (pyval * pyval))) :=
  match lock_records (default (VList []) (dict_get (VStr "source_lock_paths") runtime_document)) with
  | None => Err (ContextResolutionError "source_lock_paths must be lock records.")
  | Some records =>
      let paths := vget "path" <$> records in
      let! _ := check (forallb safe_relative paths)
        (ContextResolutionError "source_lock_paths must use safe relative paths.") in
      let! _ := check (forallb (λ item, _is_full_sha (vget "blob_sha" item)
                                        && _is_sha256_digest (vget "content_sha256" item)) records)
        (ContextResolutionError "source_lock_paths identities are invalid.") in
      let! _ := check (bool_decide (NoDup paths))
        (ContextResolutionError "source_lock_paths must not contain duplicates.") in
      Ok records
  end.

Definition _validate_context_runtime (document : list (pyval * pyval)) : result unit :=
  let! _ := _validate_optional_digest document "project_runtime_descriptor_digest" in
  let! _ := _validate_optional_digest document "project_runtime_build_attestation_digest" in
  match vget "project_runtime" document with
  | VNone => Ok tt
  | VDict runtime_document =>
      let! _ := _validate_optional_digest runtime_document "descriptor_digest" in
      let! _ := _validate_optional_digest runtime_document "build_attestation_digest" in
      let! _ := _validated_source_lock_records runtime_document in Ok tt
  | _ => Err (ContextResolutionError "PR context project_runtime must be an object when present.")
  end.

Definition _load_claimed_context `{Sha256} `{JsonLoads} (repo : Repository) (request : ScopeRequest) :
    result (option _ClaimedContext) :=
  if negb (sq_has_pr_context_file request) then Ok None
  else
    let! payload := context_bytes repo in
    let! document := _decode_context payload in
    let! _ := _validate_context_header document request in
    let! _ := _validate_context_event document in
    let! _ := _validate_context_git_identities document in
    let! _ := _validate_context_runtime document in
    Ok (Some {| cx_document := document; cx_digest := sha256_bytes payload |}).

(** The paths of a validated context's lock records *)
Definition _context_source_lock_paths (context : option _ClaimedContext) : gset string :=
  match context with
  | None => ∅
  | Some context =>
      match vget "project_runtime" (cx_document context) with
      | VDict project_runtime =>
          match lock_records (default (VList []) (dict_get (VStr "source_lock_paths") project_runtime)) with
          | Some records =>
              list_to_set (omap (λ record, match vget "path" record with
                                           | VStr path => Some path | _ => None end) records)
          | None => ∅
          end
      | _ => ∅
      end
  end.

(** * Resolutions *)

Record PolicyBundle := {
  pb_source_commit : string; pb_source_tree : string; pb_paths : list string; pb_digest : string
}.
Record ScopeResolution := {
  sr_status : assurance_status;
  sr_reason : string;
  sr_selected_paths : list string;
  sr_assurance_kind : AssuranceKind;
  sr_effective_assurance_kind : AssuranceKind;
  sr_ci_exit_code : Z;
  sr_diagnostics : string;
  sr_base_snapshot : option Snapshot;
  sr_head_snapshot : option Snapshot;
  sr_materialized : bool;
  sr_merge_base_candidates : list string;
  sr_merge_base_candidate_identities : list (string * string);
  sr_merge_base_candidate_digest : string;
  sr_context_digest : string;
  sr_claimed_context : option (list (pyval * pyval));
  sr_project_runtime_source_locks : list (string * string * string);
  sr_resolved_target_commit : string;
  sr_resolved_target_tree : string;
  sr_resolved_head_commit : string;
  sr_resolved_head_tree : string;
  sr_input_manifest : list (string * InputIdentity);
  sr_base_input_manifest : list (string * InputIdentity);
  sr_index_metadata : list (string * IndexMetadata);
  sr_index_tree : string;
  sr_selection_tree : string;
  sr_path_statuses : list (string * string);
  sr_exact_renames : list ExactRename;
  sr_exact_rename_digest : string;
  sr_base_source_manifest_digest : string;
  sr_head_source_manifest_digest : string;
  sr_policy_bundle : option PolicyBundle;
  sr_policy_paths : list string;
  sr_policy_manifest_digest : string;
  sr_candidate_policy_change_digest : string
}.
(** The keyword arguments with their defaults *)
Definition resolution (status : assurance_status) (reason : string) (selected_paths : list string)
    (kind : AssuranceKind) (ci_exit_code : Z) (diagnostics : string) : ScopeResolution :=
  {| sr_status := status; sr_reason := reason; sr_selected_paths := selected_paths;
     sr_assurance_kind := kind; sr_effective_assurance_kind := kind;
     sr_ci_exit_code := ci_exit_code; sr_diagnostics := diagnostics;
     sr_base_snapshot := None; sr_head_snapshot := None; sr_materialized := false;
     sr_merge_base_candidates := []; sr_merge_base_candidate_identities := [];
     sr_merge_base_candidate_digest := ""; sr_context_digest := ""; sr_claimed_context := None;
     sr_project_runtime_source_locks := []; sr_resolved_target_commit := "";
     sr_resolved_target_tree := ""; sr_resolved_head_commit := ""; sr_resolved_head_tree := "";
     sr_input_manifest := []; sr_base_input_manifest := []; sr_index_metadata := [];
     sr_index_tree := ""; sr_selection_tree := ""; sr_path_statuses := []; sr_exact_renames := [];
     sr_exact_rename_digest := ""; sr_base_source_manifest_digest := "";
     sr_head_source_manifest_digest := ""; sr_policy_bundle := None; sr_policy_paths := [];
     sr_policy_manifest_digest := ""; sr_candidate_policy_change_digest := "" |}.

Definition with_candidates (candidates : list string) (identities : list (string * string))
    (digest : string) (r : ScopeResolution) : ScopeResolution :=
  {| sr_status := sr_status r; sr_reason := sr_reason r; sr_selected_paths := sr_selected_paths r;
     sr_assurance_kind := sr_assurance_kind r;
     sr_effective_assurance_kind := sr_effective_assurance_kind r;
     sr_ci_exit_code := sr_ci_exit_code r; sr_diagnostics := sr_diagnostics r;
     sr_base_snapshot := sr_base_snapshot r; sr_head_snapshot := sr_head_snapshot r;
     sr_materialized := sr_materialized r; sr_merge_base_candidates := candidates;
     sr_merge_base_candidate_identities := identities; sr_merge_base_candidate_digest := digest;
     sr_context_digest := sr_context_digest r; sr_claimed_context := sr_claimed_context r;
     sr_project_runtime_source_locks := sr_project_runtime_source_locks r;
     sr_resolved_target_commit := sr_resolved_target_commit r;
     sr_resolved_target_tree := sr_resolved_target_tree r;
     sr_resolved_head_commit := sr_resolved_head_commit r;
     sr_resolved_head_tree := sr_resolved_head_tree r;
     sr_input_manifest := sr_input_manifest r; sr_base_input_manifest := sr_base_input_manifest r;
     sr_index_metadata := sr_index_metadata r; sr_index_tree := sr_index_tree r;
     sr_selection_tree := sr_selection_tree r; sr_path_statuses := sr_path_statuses r;
     sr_exact_renames := sr_exact_renames r; sr_exact_rename_digest := sr_exact_rename_digest r;
     sr_base_source_manifest_digest := sr_base_source_manifest_digest r;
     sr_head_source_manifest_digest := sr_head_source_manifest_digest r;
     sr_policy_bundle := sr_policy_bundle r; sr_policy_paths := sr_policy_paths r;
     sr_policy_manifest_digest := sr_policy_manifest_digest r;
     sr_candidate_policy_change_digest := sr_candidate_policy_change_digest r |}.

Record _ResolvedRange := {
  rg_candidates : list string;
  rg_target_commit : string;
  rg_target_tree : string;
  rg_base_snapshot : Snapshot;
  rg_head_snapshot : Snapshot;
  rg_selected_paths : list string;
  rg_source_lock_paths : gset string;
  rg_project_runtime_source_locks : list (string * string * string);
  rg_path_statuses : list (string * string);
  rg_exact_renames : list ExactRename;
  rg_exact_rename_digest : string;
  rg_base_source_manifest_digest : string;
  rg_head_source_manifest_digest : string;
  rg_policy_bundle : PolicyBundle;
  rg_candidate_policy_paths : list string;
  rg_policy_manifest_digest : string;
  rg_candidate_policy_change_digest : string;
  rg_claimed_context : option _ClaimedContext
}.
Record _RangeResultContext := {
  rc_resolved : _ResolvedRange;
  rc_base_manifest : list (string * InputIdentity);
  rc_head_manifest : list (string * InputIdentity);
  rc_claimed_context : option _ClaimedContext;
  rc_assurance : AssuranceKind;
  rc_candidate_identities : list (string * string);
  rc_candidate_digest : string
}.

Section resolutions.
Context `{Sha256} `{JsonLoads} `{TomlLoads} `{IniRead} (repo : Repository).

Definition identities_digest (identities : list (string * string)) : string :=
  _canonical_json_digest (JArr ((λ ct, JArr [JStr ct.1; JStr ct.2]) <$> identities)).

Definition _source_manifest_digest (snapshot : Snapshot) : string :=
  _canonical_json_digest (JArr ((λ entry, JObj
      [("blob_sha", JStr (te_object_id entry)); ("git_mode", JStr (te_git_mode entry));
       ("object_type", JStr (te_object_type entry)); ("path", JStr (te_path entry));
       ("content_digest", JStr (sha256_bytes (default "" (bytes_or_none snapshot (te_path entry)))))])
    <$> sort_by te_path (dict_values (sn_entries snapshot)))).

Definition source_lock_identity (snapshot : Snapshot) (path : string) :
    result (string * string * string) :=
  match entry_or_none snapshot path, bytes_or_none snapshot path with
  | Some entry, Some payload =>
      if is_regular_blob (te_object_type entry) (te_git_mode entry)
      then Ok (path, te_object_id entry, sha256_bytes payload)
      else Err (GitResolutionError "source lock is not a tracked regular target-tree blob")
  | _, _ => Err (GitResolutionError "source lock is not a tracked regular target-tree blob")
  end.
Definition _snapshot_source_lock_identities (snapshot : Snapshot) (source_lock_paths : gset string) :
    result (list (string * string * string)) :=
  map_res (source_lock_identity snapshot) (sorted_set source_lock_paths).

Definition _unknown_range (reason diagnostics : string) (candidates : list string)
    (candidate_identities : list (string * string)) : ScopeResolution :=
  with_candidates candidates candidate_identities (identities_digest candidate_identities)
    (resolution AUnknown reason [] AkRangePreview 1 diagnostics).

(** A commit whose tree cannot be resolved has the empty tree. *)
Definition candidate_identity (commit : string) : result (string * string) :=
  match _resolve_tree repo commit with
  | Ok tree => Ok (commit, tree)
  | Err (GitResolutionError _) => Ok (commit, "")
  | Err e => Err e
  end.
Definition _candidate_identities (candidates : list string) : result (list (string * string)) :=
  let! identities := map_res candidate_identity candidates in Ok (sorted identities).

(** ** The policy bundle of the target commit *)

Definition policy_section_files : list string := ["pyproject.toml"; "setup.cfg"; "tox.ini"].
Definition empty_projection (j : option json) : bool :=
  match j with None | Some (JObj []) => true | _ => false end.
Definition is_invalid (j : option json) : bool := bool_decide (j = Some invalid_policy_document).

(** One candidate path: nothing, or its manifest record. *)
Definition policy_bundle_entry (entries : list (string * TreeEntry)) (relative : string) :
    result (option (string * json)) :=
  match dict_get relative entries with
  | None => Ok None
  | Some entry =>
      let! payload := (if String.eqb (te_object_type entry) "blob"
                       then git_cat_blob repo (te_object_id entry) else Ok "") in
      let projection := _policy_projection relative (Some payload) in
      let! _ := check (negb (is_invalid projection))
        (PolicyResolutionError ("Unable to parse target-tip policy input: " +:+ relative)) in
      if bool_decide (relative ∈ policy_section_files) && empty_projection projection then Ok None
      else
        let! _ := check (is_regular_blob (te_object_type entry) (te_git_mode entry))
          (PolicyResolutionError ("Target-tip policy input is not a regular Git blob: " +:+ relative)) in
        let! _ := _safe_snapshot_path relative in
        Ok (Some (relative, JObj
          [("blob_sha", JStr (te_object_id entry)); ("content_digest", JStr (sha256_bytes payload));
           ("git_mode", JStr (te_git_mode entry)); ("object_type", JStr (te_object_type entry));
           ("path", JStr relative); ("sections", default JNull projection)]))
  end.
Definition _build_policy_bundle (target_commit : string)
    (source_lock_paths additional_policy_paths : gset string) : result PolicyBundle :=
  let! target_tree := _resolve_tree repo target_commit in
  let! listed := _tree_entries repo target_commit in
  let entries := dict_of ((λ e, (te_path e, e)) <$> listed) in
  let candidate_paths := sorted_set
    (list_to_set GOVERNED_POLICY_PATHS_V1 ∪ source_lock_paths ∪ additional_policy_paths
     ∪ list_to_set policy_section_files) in
  let! records := map_res (policy_bundle_entry entries) candidate_paths in
  let selected := omap id records in
  Ok {| pb_source_commit := target_commit; pb_source_tree := target_tree;
        pb_paths := selected.*1; pb_digest := _canonical_json_digest (JArr selected.*2) |}.

Definition entry_json (o : option TreeEntry) : json :=
  match o with
  | None => JNull
  | Some e => JObj [("git_mode", JStr (te_git_mode e)); ("object_type", JStr (te_object_type e));
                    ("object_id", JStr (te_object_id e)); ("path", JStr (te_path e))]
  end.
Definition _candidate_policy_evidence (selected_paths : list string) (source_lock_paths : gset string)
    (base head : Snapshot) (statuses : list (string * string)) (additional_policy_paths : gset string) :
    list string * string * string :=
  let policy_paths := List.filter
    (λ path, _is_policy_path path source_lock_paths base head additional_policy_paths) selected_paths in
  let manifest := (λ path, JObj
      [("base", entry_json (entry_or_none base path));
       ("base_sections", default JNull (_policy_projection path (bytes_or_none base path)));
       ("head", entry_json (entry_or_none head path));
       ("head_sections", default JNull (_policy_projection path (bytes_or_none head path)));
       ("path", JStr path); ("status", JStr (default "" (dict_get path statuses)))]) <$> policy_paths in
  let manifest_digest := _canonical_json_digest (JArr manifest) in
  (policy_paths, manifest_digest,
   _canonical_json_digest (JObj [("policy_manifest_digest", JStr manifest_digest)])).

(** ** Input manifests *)

(** The no-follow read below the root of a snapshot *)
Definition _descriptor_relative_bytes (snapshot : Snapshot) (relative : string) : result string :=
  let! _ := check (negb (is_absolute relative || bool_decide (path_parts relative = [])
                         || bool_decide (".." ∈ path_parts relative)))
    (GitResolutionError "Unsafe materialized path") in
  materialized_bytes repo (sn_commit snapshot) relative.

Definition _input_identity (snapshot : Snapshot) (relative : string) : result (option InputIdentity) :=
  match entry_or_none snapshot relative with
  | None => Ok None
  | Some entry =>
      let payload := default "" (bytes_or_none snapshot relative) in
      let! _ := (if is_regular_blob (te_object_type entry) (te_git_mode entry)
                 then let! opened_payload := _descriptor_relative_bytes snapshot relative in
                      check (String.eqb opened_payload payload)
                        (GitResolutionError "Materialized content does not match Git blob bytes")
                 else Ok tt) in
      Ok (Some {| ii_object_type := te_object_type entry; ii_git_mode := te_git_mode entry;
                  ii_blob_sha := te_object_id entry; ii_content_digest := sha256_bytes payload |})
  end.

Definition add_identity (path : string) (identity : option InputIdentity)
    (manifest : list (string * InputIdentity)) : list (string * InputIdentity) :=
  match identity with Some i => dict_set path i manifest | None => manifest end.
Fixpoint range_manifests (base head : Snapshot) (paths : list string)
    (acc : list (string * InputIdentity) * list (string * InputIdentity)) :
    result (list (string * InputIdentity) * list (string * InputIdentity)) :=
  match paths with
  | [] => Ok acc
  | path :: rest =>
      let! base_identity := _input_identity base path in
      let! head_identity := _input_identity head path in
      range_manifests base head rest
        (add_identity path base_identity acc.1, add_identity path head_identity acc.2)
  end.
Definition _governed_range_manifests (resolved : _ResolvedRange) :
    result (list (string * InputIdentity) * list (string * InputIdentity)) :=
  range_manifests (rg_base_snapshot resolved) (rg_head_snapshot resolved)
    (rg_selected_paths resolved) ([], []).

Definition unsafe_identity (identity : InputIdentity) : bool :=
  negb (is_regular_blob (ii_object_type identity) (ii_git_mode identity)).
Definition first_unsafe (manifest : list (string * InputIdentity)) : option string :=
  fst <$> find (λ pi, unsafe_identity pi.2) (sort_by fst manifest).
Definition _unsafe_manifest_path (base_manifest head_manifest : list (string * InputIdentity)) :
    option string :=
  match first_unsafe base_manifest with Some path => Some path | None => first_unsafe head_manifest end.

(** ** Range results *)

Definition _context_matches_range (context : _ClaimedContext) (resolved : _ResolvedRange) : bool :=
  is_str (rg_target_commit resolved) (vget "target_commit" (cx_document context))
  && is_str (sn_commit (rg_head_snapshot resolved)) (vget "head_commit" (cx_document context))
  && is_str (rg_target_tree resolved) (vget "target_tree" (cx_document context))
  && is_str (sn_tree (rg_head_snapshot resolved)) (vget "head_tree" (cx_document context)).

(** [candidates[0]] of a resolved range, which has exactly one candidate *)
Definition range_candidate_identities (resolved : _ResolvedRange) : list (string * string) :=
  [(default "" (head (rg_candidates resolved)), sn_tree (rg_base_snapshot resolved))].

Definition with_range (resolved : _ResolvedRange) (r : ScopeResolution) : ScopeResolution :=
  {| sr_status := sr_status r; sr_reason := sr_reason r; sr_selected_paths := sr_selected_paths r;
     sr_assurance_kind := sr_assurance_kind r;
     sr_effective_assurance_kind := sr_effective_assurance_kind r;
     sr_ci_exit_code := sr_ci_exit_code r; sr_diagnostics := sr_diagnostics r;
     sr_base_snapshot := Some (rg_base_snapshot resolved);
     sr_head_snapshot := Some (rg_head_snapshot resolved); sr_materialized := true;
     sr_merge_base_candidates := rg_candidates resolved;
     sr_merge_base_candidate_identities := range_candidate_identities resolved;
     sr_merge_base_candidate_digest := identities_digest (range_candidate_identities resolved);
     sr_context_digest := sr_context_digest r; sr_claimed_context := sr_claimed_context r;
     sr_project_runtime_source_locks := sr_project_runtime_source_locks r;
     sr_resolved_target_commit := rg_target_commit resolved;
     sr_resolved_target_tree := rg_target_tree resolved;
     sr_resolved_head_commit := sn_commit (rg_head_snapshot resolved);
     sr_resolved_head_tree := sn_tree (rg_head_snapshot resolved);
     sr_input_manifest := sr_input_manifest r; sr_base_input_manifest := sr_base_input_manifest r;
     sr_index_metadata := []; sr_index_tree := ""; sr_selection_tree := "";
     sr_path_statuses := sr_path_statuses r;
     sr_exact_renames := sr_exact_renames r; sr_exact_rename_digest := sr_exact_rename_digest r;
     sr_base_source_manifest_digest := sr_base_source_manifest_digest r;
     sr_head_source_manifest_digest := sr_head_source_manifest_digest r;
     sr_policy_bundle := sr_policy_bundle r; sr_policy_paths := sr_policy_paths r;
     sr_policy_manifest_digest := sr_policy_manifest_digest r;
     sr_candidate_policy_change_digest := sr_candidate_policy_change_digest r |}.

Definition _context_failure (reason diagnostics : string) (resolved : _ResolvedRange) : ScopeResolution :=
  with_range resolved
    (resolution AUnknown reason (rg_selected_paths resolved) AkRangePreview 1 diagnostics).

Definition _range_result_context (resolved : _ResolvedRange)
    (base_manifest head_manifest : list (string * InputIdentity))
    (claimed_context : option _ClaimedContext) : _RangeResultContext :=
  {| rc_resolved := resolved; rc_base_manifest := base_manifest; rc_head_manifest := head_manifest;
     rc_claimed_context := claimed_context;
     rc_assurance := match claimed_context with Some _ => AkRangeCandidate | None => AkRangePreview end;
     rc_candidate_identities := range_candidate_identities resolved;
     rc_candidate_digest := identities_digest (range_candidate_identities resolved) |}.

Definition _range_resolution (context : _RangeResultContext) (status : assurance_status)
    (reason : string) (ci_exit_code : Z) (diagnostics : string) : ScopeResolution :=
  let resolved := rc_resolved context in
  {| sr_status := status; sr_reason := reason; sr_selected_paths := rg_selected_paths resolved;
     sr_assurance_kind := rc_assurance context; sr_effective_assurance_kind := rc_assurance context;
     sr_ci_exit_code := ci_exit_code; sr_diagnostics := diagnostics;
     sr_base_snapshot := Some (rg_base_snapshot resolved);
     sr_head_snapshot := Some (rg_head_snapshot resolved); sr_materialized := true;
     sr_merge_base_candidates := rg_candidates resolved;
     sr_merge_base_candidate_identities := rc_candidate_identities context;
     sr_merge_base_candidate_digest := rc_candidate_digest context;
     sr_context_digest := match rc_claimed_context context with Some c => cx_digest c | None => "" end;
     sr_claimed_context := cx_document <$> rc_claimed_context context;
     sr_project_runtime_source_locks := rg_project_runtime_source_locks resolved;
     sr_resolved_target_commit := rg_target_commit resolved;
     sr_resolved_target_tree := rg_target_tree resolved;
     sr_resolved_head_commit := sn_commit (rg_head_snapshot resolved);
     sr_resolved_head_tree := sn_tree (rg_head_snapshot resolved);
     sr_input_manifest := rc_head_manifest context; sr_base_input_manifest := rc_base_manifest context;
     sr_index_metadata := []; sr_index_tree := ""; sr_selection_tree := "";
     sr_path_statuses := rg_path_statuses resolved; sr_exact_renames := rg_exact_renames resolved;
     sr_exact_rename_digest := rg_exact_rename_digest resolved;
     sr_base_source_manifest_digest := rg_base_source_manifest_digest resolved;
     sr_head_source_manifest_digest := rg_head_source_manifest_digest resolved;
     sr_policy_bundle := Some (rg_policy_bundle resolved);
     sr_policy_paths := rg_candidate_policy_paths resolved;
     sr_policy_manifest_digest := rg_policy_manifest_digest resolved;
     sr_candidate_policy_change_digest := rg_candidate_policy_change_digest resolved |}.

(** [GitResolutionError] becomes a failure, other errors are raised. *)
Definition _range_manifests_or_failure (resolved : _ResolvedRange) :
    result (ScopeResolution + list (string * InputIdentity) * list (string * InputIdentity)) :=
  match _governed_range_manifests resolved with
  | Ok manifests => Ok (inr manifests)
  | Err (GitResolutionError msg) => Ok (inl (_context_failure "unsafe_governed_input" msg resolved))
  | Err e => Err e
  end.

Definition _range_result (request : ScopeRequest) (resolved : _ResolvedRange) : result ScopeResolution :=
  let! manifests := _range_manifests_or_failure resolved in
  match manifests with
  | inl failure => Ok failure
  | inr (base_manifest, head_manifest) =>
      match _unsafe_manifest_path base_manifest head_manifest with
      | Some unsafe_path =>
          Ok (_range_resolution (_range_result_context resolved base_manifest head_manifest None)
                AUnknown "unsafe_governed_input" 1
                ("Governed input is not a regular blob with an allowed Git mode: " +:+ unsafe_path))
      | None =>
          let claimed_context := rg_claimed_context resolved in
          if match claimed_context with
             | Some c => negb (_context_matches_range c resolved) | None => false end
          then Ok (_context_failure "pr_context_identity_mismatch"
                     "Claimed target/head identity mismatch." resolved)
          else
            let context := _range_result_context resolved base_manifest head_manifest claimed_context in
            let portable := sq_portable_project_runtime request && negb (has_some claimed_context) in
            if negb portable
               && existsb (λ path, bool_decide (path ∈ rg_source_lock_paths resolved))
                    (rg_selected_paths resolved)
            then Ok (_range_resolution context AUnknown "candidate_project_runtime_source_lock_change" 1
                       "Candidate source-lock bytes are governed evidence and cannot build the project-runtime layer.")
            else if bool_decide (rg_candidate_policy_paths resolved ≠ []) && negb portable
            then Ok (_range_resolution context AUnknown "candidate_policy_change" 1
                       "Candidate policy/configuration changes are shadow-only and cannot authorize analysis.")
            else
              Ok (_range_resolution context
                    (if bool_decide (rg_selected_paths resolved ≠ []) then APass else ANotApplicable)
                    (if bool_decide (rg_selected_paths resolved ≠ []) then "resolved"
                     else "no_governed_impact") 0 "")
      end
  end.

(** ** Materialization of a range *)

Definition PROJECT_INPUT_NAMES : list string :=
  ["pyproject.toml"; "hatch.toml"; "uv.toml"; "uv.lock"; "poetry.lock"; "pylock.toml"; "setup.py";
   "setup.cfg"; ".python-version"; "pytest.ini"; ".pytest.ini"; "pytest.toml"; ".pytest.toml";
   "tox.ini"; "pyrightconfig.json"; "basedpyrightconfig.json"; "ruff.toml"; ".ruff.toml";
   ".pylintrc"; "pylintrc"].
Definition portable_source_lock (path : string) : bool :=
  let name := of_chars (path_name path) in
  bool_decide (name ∈ PROJECT_INPUT_NAMES) || String.eqb (path_suffix path) ".lock"
  || startswith "requirements" name || startswith "constraints" name.
Definition _portable_source_locks (base head : Snapshot) : gset string :=
  list_to_set (List.filter portable_source_lock
    (dict_keys (sn_contents base) ++ dict_keys (sn_contents head))).
End resolutions.

(** The closures of the Ruff and basedpyright configurations of a
    materialized tree: the paths, or the first policy that does not resolve. *)
Class RangePolicyPaths := _range_policy_paths : Snapshot → result (gset string).

Section materialization.
Context `{Sha256} `{JsonLoads} `{TomlLoads} `{IniRead} `{RangePolicyPaths} (repo : Repository).

Definition _range_policy_closure (request : ScopeRequest) (target head : Snapshot) :
    result (gset string) :=
  let! paths := _range_policy_paths target in
  if sq_portable_project_runtime request
  then let! more := _range_policy_paths head in Ok (paths ∪ more)
  else Ok paths.

Definition ambiguous_base (candidates : list string) (identities : list (string * string)) :
    ScopeResolution :=
  _unknown_range "ambiguous_merge_base"
    ("Expected exactly one best merge base; observed " +:+ pretty (length candidates) +:+ ".")
    candidates identities.

Definition rename_json (r : ExactRename) : json :=
  JObj [("old_path", JStr (xr_old_path r)); ("new_path", JStr (xr_new_path r));
        ("blob_sha", JStr (xr_blob_sha r)); ("git_mode", JStr (xr_git_mode r));
        ("disposition", JStr (disposition_text (xr_disposition r)))].

Definition _materialized_range (request : ScopeRequest) (base_ref head_ref : string) :
    result (ScopeResolution + _ResolvedRange) :=
  let! claimed_context := _load_claimed_context repo request in
  let! base := _resolve_commit repo base_ref in
  let! head := _resolve_commit repo head_ref in
  let! candidates := _best_merge_bases repo base head in
  match candidates with
  | [merge_base] =>
      let links := sq_portable_project_runtime request in
      let! base_snapshot := _materialize_commit repo merge_base links in
      let! head_snapshot := _materialize_commit repo head links in
      let portable := links && negb (has_some claimed_context) in
      let source_locks : gset string :=
        list_to_set (as_posix <$> sq_project_runtime_source_lock_paths request)
        ∪ _context_source_lock_paths claimed_context
        ∪ (if portable then _portable_source_locks base_snapshot head_snapshot else ∅) in
      let! target_snapshot := (if String.eqb base merge_base then Ok base_snapshot
                               else _materialize_commit repo base links) in
      let identity_locks : gset string :=
        if portable then filter (λ path, path ∈ dict_keys (sn_contents target_snapshot)) source_locks
        else source_locks in
      let! locks := _snapshot_source_lock_identities target_snapshot identity_locks in
      let! additional_policy_paths := _range_policy_closure request target_snapshot head_snapshot in
      let! paths := _range_paths repo merge_base head in
      let selected := List.filter (λ path,
        _governed_path path source_locks base_snapshot head_snapshot additional_policy_paths) paths in
      let! statuses := _range_statuses repo merge_base head in
      let renames := _canonical_exact_renames base_snapshot head_snapshot statuses in
      let! policy_bundle := _build_policy_bundle repo base source_locks additional_policy_paths in
      let '(policy_paths, policy_manifest_digest, candidate_policy_change_digest) :=
        _candidate_policy_evidence selected source_locks base_snapshot head_snapshot statuses
          additional_policy_paths in
      let! target_tree := _resolve_tree repo base in
      Ok (inr {| rg_candidates := candidates; rg_target_commit := base; rg_target_tree := target_tree;
                 rg_base_snapshot := base_snapshot; rg_head_snapshot := head_snapshot;
                 rg_selected_paths := selected; rg_source_lock_paths := source_locks;
                 rg_project_runtime_source_locks := locks; rg_path_statuses := statuses;
                 rg_exact_renames := renames;
                 rg_exact_rename_digest := _canonical_json_digest (JArr (rename_json <$> renames));
                 rg_base_source_manifest_digest := _source_manifest_digest base_snapshot;
                 rg_head_source_manifest_digest := _source_manifest_digest head_snapshot;
                 rg_policy_bundle := policy_bundle; rg_candidate_policy_paths := policy_paths;
                 rg_policy_manifest_digest := policy_manifest_digest;
                 rg_candidate_policy_change_digest := candidate_policy_change_digest;
                 rg_claimed_context := claimed_context |})
  | _ =>
      let! identities := _candidate_identities repo candidates in
      Ok (inl (ambiguous_base candidates identities))
  end.

Definition _resolve_range (request : ScopeRequest) : result ScopeResolution :=
  match sq_base_ref request, sq_head_ref request with
  | Some base_ref, Some head_ref =>
      match _materialized_range request base_ref head_ref with
      | Err (ContextResolutionError msg) => Ok (_unknown_range "unsafe_pr_context" msg [] [])
      | Err (PolicyResolutionError msg) => Ok (_unknown_range "policy_parse_failure" msg [] [])
      | Err (GitResolutionError msg) => Ok (_unknown_range "git_resolution_failed" msg [] [])
      | Err e => Err e
      | Ok (inl failure) => Ok failure
      | Ok (inr resolved) => _range_result repo request resolved
      end
  | _, _ => Ok (_unknown_range "missing_range_ref" "Range scope requires full base and head refs." [] [])
  end.
End materialization.

(** * Index resolution *)

Record _IndexResolutionContext := {
  ix_base_snapshot : Snapshot;
  ix_index_snapshot : Snapshot;
  ix_selected_paths : list string;
  ix_metadata : list (string * IndexMetadata);
  ix_index_tree : string;
  ix_base_manifest : list (string * InputIdentity);
  ix_manifest : list (string * InputIdentity);
  ix_policy_paths : list string
}.

(** The captured index: what Git prints for it, and the policy closures of a
    materialized tree (the paths, and the reasons of those that do not
    resolve). *)
Record IndexAnswers := {
  capture_index : result string;
  ls_files_stage : result string;
  ls_files_flags : result string;
  write_tree : result string;
  resolved_index_policy_paths : Snapshot → gset string * string;
  discovered_index_policy_paths : Snapshot → result (gset string)
}.

Record stage_entry := { se_mode : string; se_object_id : string; se_stage : Z; se_path : string }.
Definition index_stage_entry (record : string) : result stage_entry :=
  match partition (ascii_of_nat 9) record with
  | None => Err (GitResolutionError "Captured index entry omitted its path separator.")
  | Some (metadata, path) =>
      match split_space2 metadata with
      | Some (mode, object_id, stage_text) =>
          match parse_int stage_text with
          | Some stage => Ok {| se_mode := mode; se_object_id := object_id; se_stage := stage;
                                se_path := path |}
          | None => Err (ValueError "invalid literal for int()")
          end
      | None => Err (ValueError "not enough values to unpack")
      end
  end.
Definition _index_stage_entries (stdout : result string) : result (list stage_entry) :=
  let! output := stdout in
  map_res index_stage_entry (filter (λ record, record ≠ "") (split_nul output)).

Definition index_flag_tag (record : string) : result (string * string) :=
  match partition " "%char record with
  | Some (tag, path) =>
      let! _ := check (String.length tag =? 1)%nat
        (GitResolutionError "Captured index flag record is malformed.") in Ok (path, tag)
  | None => Err (GitResolutionError "Captured index flag record is malformed.")
  end.
Definition _index_flag_tags (stdout : result string) : result (list (string * string)) :=
  let! output := stdout in
  let! tags := map_res index_flag_tag (filter (λ record, record ≠ "") (split_nul output)) in
  Ok (dict_of tags).

Definition _write_index_tree (stdout : result string) : result string :=
  let! out := stdout in
  let! _ := check (String.length (strip out) =? 40)%nat
    (GitResolutionError "Captured index produced a non-full tree identity") in
  Ok (strip out).

Definition _index_metadata (stage_entries : list stage_entry) (flag_tags : list (string * string))
    (tree_entries : list (string * TreeEntry)) : list (string * IndexMetadata) :=
  dict_of ((λ e, (se_path e,
    {| im_git_mode := se_mode e; im_blob_sha := se_object_id e; im_stage := se_stage e;
       im_intent_to_add := (se_stage e =? 0)%Z && negb (dict_mem (se_path e) tree_entries);
       im_flag_tag := default "" (dict_get (se_path e) flag_tags) |})) <$> stage_entries).

Definition with_index (context : _IndexResolutionContext) (r : ScopeResolution) : ScopeResolution :=
  {| sr_status := sr_status r; sr_reason := sr_reason r; sr_selected_paths := ix_selected_paths context;
     sr_assurance_kind := AkIndex; sr_effective_assurance_kind := AkIndex;
     sr_ci_exit_code := sr_ci_exit_code r; sr_diagnostics := sr_diagnostics r;
     sr_base_snapshot := Some (ix_base_snapshot context);
     sr_head_snapshot := Some (ix_index_snapshot context); sr_materialized := true;
     sr_merge_base_candidates := []; sr_merge_base_candidate_identities := [];
     sr_merge_base_candidate_digest := ""; sr_context_digest := ""; sr_claimed_context := None;
     sr_project_runtime_source_locks := []; sr_resolved_target_commit := "";
     sr_resolved_target_tree := ""; sr_resolved_head_commit := ""; sr_resolved_head_tree := "";
     sr_input_manifest := ix_manifest context; sr_base_input_manifest := ix_base_manifest context;
     sr_index_metadata := ix_metadata context;
     sr_index_tree := ix_index_tree context; sr_selection_tree := ix_index_tree context;
     sr_path_statuses := []; sr_exact_renames := []; sr_exact_rename_digest := "";
     sr_base_source_manifest_digest := ""; sr_head_source_manifest_digest := "";
     sr_policy_bundle := None; sr_policy_paths := ix_policy_paths context;
     sr_policy_manifest_digest := ""; sr_candidate_policy_change_digest := "" |}.
Definition _index_unknown (reason diagnostics : string) (context : option _IndexResolutionContext) :
    ScopeResolution :=
  let r := resolution AUnknown reason [] AkIndex 1 diagnostics in
  match context with Some context => with_index context r | None => r end.

Definition unsafe_index_entry (context : _IndexResolutionContext) (path : string) : bool :=
  let metadata := dict_get path (ix_metadata context) in
  let identity := dict_get path (ix_manifest context) in
  match metadata with Some m => im_intent_to_add m || negb (im_stage m =? 0)%Z | None => false end
  || (bool_decide (path ∈ ix_policy_paths context) && negb (has_some identity))
  || match identity with Some i => unsafe_identity i | None => false end.
Definition _unsafe_index_path (context : _IndexResolutionContext) : option string :=
  find (unsafe_index_entry context) (ix_selected_paths context).

Definition _resolved_index (context : _IndexResolutionContext) : ScopeResolution :=
  with_index context
    (if bool_decide (ix_selected_paths context ≠ [])
     then resolution APass "resolved" [] AkIndex 0 ""
     else resolution ANotApplicable "no_governed_impact" [] AkIndex 0 "").

Definition with_vcs_commit (commit : string) (s : Snapshot) : Snapshot :=
  {| sn_commit := sn_commit s; sn_tree := sn_tree s; sn_contents := sn_contents s;
     sn_entries := sn_entries s; sn_vcs_commit := commit |}.
Definition _unsafe_snapshot_policy_paths (snapshot : Snapshot) (policy_paths : gset string) : gset string :=
  filter (λ path, match entry_or_none snapshot path with
                  | Some entry => negb (is_regular_blob (te_object_type entry) (te_git_mode entry))
                  | None => false
                  end = true) policy_paths.
Definition _missing_snapshot_policy_paths (snapshot : Snapshot) (policy_paths : gset string) : gset string :=
  filter (λ path, has_some (entry_or_none snapshot path) = false) policy_paths.

Section index.
Context `{Sha256} `{TomlLoads} `{IniRead} (repo : Repository) (index : IndexAnswers).

Fixpoint _snapshot_input_manifest (snapshot : Snapshot) (paths : list string)
    (manifest : list (string * InputIdentity)) : result (list (string * InputIdentity)) :=
  match paths with
  | [] => Ok manifest
  | path :: rest =>
      let! identity := _input_identity repo snapshot path in
      _snapshot_input_manifest snapshot rest (add_identity path identity manifest)
  end.

Definition _index_context_with_policy_evidence (context : _IndexResolutionContext)
    (changed_paths base_policy_paths additional_policy_paths : gset string) :
    result _IndexResolutionContext :=
  let base := ix_base_snapshot context in
  let head := ix_index_snapshot context in
  let selected_paths := List.filter (λ path, _governed_path path ∅ base head additional_policy_paths)
    (sorted_set changed_paths) in
  let manifest_paths := sorted_set (list_to_set selected_paths ∪ base_policy_paths
                                    ∪ additional_policy_paths) in
  let! base_manifest := _snapshot_input_manifest base manifest_paths [] in
  let! manifest := _snapshot_input_manifest head manifest_paths [] in
  Ok {| ix_base_snapshot := base; ix_index_snapshot := head; ix_selected_paths := selected_paths;
        ix_metadata := ix_metadata context; ix_index_tree := ix_index_tree context;
        ix_base_manifest := base_manifest; ix_manifest := manifest;
        ix_policy_paths := sorted_set additional_policy_paths |}.

Definition _materialized_index_context (preserve_links : bool) :
    result (ScopeResolution + _IndexResolutionContext) :=
  let! digest := capture_index index in
  let! stage_entries := _index_stage_entries (ls_files_stage index) in
  if existsb (λ e, negb (se_stage e =? 0)%Z) stage_entries
  then Ok (inl (_index_unknown "unsafe_governed_input" "Captured index contains unmerged stages." None))
  else
    let! tree := _write_index_tree (write_tree index) in
    let! listed := _tree_entries repo tree in
    let tree_entries := dict_of ((λ e, (te_path e, e)) <$> listed) in
    let! flag_tags := _index_flag_tags (ls_files_flags index) in
    let metadata := _index_metadata stage_entries flag_tags tree_entries in
    let! head := _resolve_commit repo "HEAD" in
    let! base_snapshot := _materialize_commit repo head preserve_links in
    let! index_snapshot := _materialize_tree repo tree ("index-" +:+ of_chars (drop 7 (chars digest)))
                             preserve_links in
    let index_snapshot := with_vcs_commit head index_snapshot in
    let! range := _range_paths repo head tree in
    let changed_paths : gset string :=
      list_to_set range ∪
      list_to_set (dict_keys (filter (λ pm, im_intent_to_add pm.2 = true) metadata)) in
    let (base_policy_paths, _) := resolved_index_policy_paths index base_snapshot in
    let! discovered := discovered_index_policy_paths index index_snapshot in
    let preliminary_policy_paths := base_policy_paths ∪ discovered in
    let candidates := changed_paths ∪ _unsafe_snapshot_policy_paths index_snapshot discovered
                      ∪ _missing_snapshot_policy_paths index_snapshot discovered in
    let paths := List.filter (λ path,
      _governed_path path ∅ base_snapshot index_snapshot preliminary_policy_paths)
      (sorted_set candidates) in
    let! base_manifest := _snapshot_input_manifest base_snapshot paths [] in
    let! manifest := _snapshot_input_manifest index_snapshot paths [] in
    let preliminary :=
      {| ix_base_snapshot := base_snapshot; ix_index_snapshot := index_snapshot;
         ix_selected_paths := paths; ix_metadata := metadata; ix_index_tree := tree;
         ix_base_manifest := base_manifest; ix_manifest := manifest;
         ix_policy_paths := List.filter (λ path,
           _is_policy_path path ∅ base_snapshot index_snapshot preliminary_policy_paths) paths |} in
    if has_some (_unsafe_index_path preliminary) then Ok (inr preliminary)
    else
      let (additional_policy_paths, policy_error) := resolved_index_policy_paths index index_snapshot in
      if bool_decide (policy_error ≠ "")
      then Ok (inl (_index_unknown "policy_parse_failure" policy_error None))
      else
        let! context := _index_context_with_policy_evidence preliminary changed_paths base_policy_paths
                          additional_policy_paths in
        Ok (inr context).

Definition _resolve_index (request : ScopeRequest) : result ScopeResolution :=
  match _materialized_index_context (sq_portable_project_runtime request) with
  | Err (GitResolutionError msg) => Ok (_index_unknown "git_resolution_failed" msg None)
  | Err e => Err e
  | Ok (inl failure) => Ok failure
  | Ok (inr context) =>
      match _unsafe_index_path context with
      | Some unsafe_path =>
          Ok (_index_unknown "unsafe_governed_input"
                ("Captured index contains unsafe governed input: " +:+ unsafe_path) (Some context))
      | None => Ok (_resolved_index context)
      end
  end.
End index.

(** * Entry point *)

Definition normalize_scope_request (request : ScopeRequest) : ScopeRequest :=
  let scope := if decide (sq_scope request = SkChanged) then SkWorktree else sq_scope request in
  let enforcement :=
    if bool_decide (scope = SkRange) && negb (has_some (sq_enforcement request)) then Some EmFull
    else sq_enforcement request in
  {| sq_scope := scope; sq_files := sq_files request; sq_base_ref := sq_base_ref request;
     sq_head_ref := sq_head_ref request; sq_enforcement := enforcement;
     sq_include_tests := sq_include_tests request; sq_exclude_tests := sq_exclude_tests request;
     sq_focus := sq_focus request; sq_path_filters := sq_path_filters request;
     sq_no_tests := sq_no_tests request; sq_level := sq_level request; sq_fix := sq_fix request;
     sq_preview_fixes := sq_preview_fixes request; sq_with_mutation := sq_with_mutation request;
     sq_has_pr_context_file := sq_has_pr_context_file request;
     sq_repository_slug := sq_repository_slug request;
     sq_project_runtime_source_lock_paths := sq_project_runtime_source_lock_paths request;
     sq_portable_project_runtime := sq_portable_project_runtime request |}.

(** [next(name for name, enabled in options.items() if enabled)] *)
Definition first_enabled (options : list (string * bool)) : option string :=
  fst <$> find snd options.
Definition mutations (request : ScopeRequest) : list (string * bool) :=
  [("fix", sq_fix request); ("preview_fixes", sq_preview_fixes request);
   ("with_mutation", sq_with_mutation request)].
Definition narrowing (request : ScopeRequest) : list (string * bool) :=
  [("files", bool_decide (sq_files request ≠ [])); ("include_tests", negb (sq_include_tests request));
   ("exclude_tests", sq_exclude_tests request); ("focus", bool_decide (sq_focus request ≠ []));
   ("path_filters", bool_decide (sq_path_filters request ≠ [])); ("no_tests", sq_no_tests request);
   ("level", has_some (sq_level request));
   ("enforcement", negb (bool_decide (sq_enforcement request = Some EmFull)
                         || bool_decide (sq_enforcement request = Some EmShadow)))].
Definition _validate_immutable_scope_options (request : ScopeRequest) : result unit :=
  if negb (bool_decide (sq_scope request = SkIndex) || bool_decide (sq_scope request = SkRange)) then Ok tt
  else
    match first_enabled (mutations request) with
    | Some rejected => Err (InvalidScopeOption (rejected +:+ " is forbidden for immutable scope"))
    | None =>
        if negb (bool_decide (sq_scope request = SkRange)) then Ok tt
        else match first_enabled (narrowing request) with
             | Some rejected =>
                 Err (InvalidScopeOption (rejected +:+ " would narrow immutable range evidence"))
             | None => Ok tt
             end
    end.

Section entry.
Context `{Sha256} `{JsonLoads} `{TomlLoads} `{IniRead} `{RangePolicyPaths}.

Definition scope_assurance (scope : ScopeKind) : AssuranceKind :=
  match scope with
  | SkIndex => AkIndex | SkRange => AkRangePreview | SkFull => AkFull
  | SkExplicitFiles => AkExplicitFiles | SkWorktree | SkChanged => AkWorktree
  end.
Definition resolve_scope (repo : Repository) (index : IndexAnswers) (request : ScopeRequest) :
    result ScopeResolution :=
  let normalized := normalize_scope_request request in
  let! _ := _validate_immutable_scope_options normalized in
  match sq_scope normalized with
  | SkRange => _resolve_range repo normalized
  | SkIndex => _resolve_index repo index normalized
  | SkExplicitFiles =>
      let selected := sorted (as_posix <$> sq_files normalized) in
      Ok (if bool_decide (selected ≠ [])
          then resolution APass "resolved" selected AkExplicitFiles 0 ""
          else resolution ANotApplicable "no_governed_impact" [] AkExplicitFiles 0 "")
  | kind => Ok (resolution AUnknown "scope_not_materialized" [] (scope_assurance kind) 1
                  "scope materialization is not available yet.")
  end.
End entry.

(** [verify_pr_assurance]: the status and reason *)
Definition verify_pr_assurance (r : ScopeResolution) (has_envelope : bool) : assurance_status * string :=
  if bool_decide (sr_effective_assurance_kind r = AkPrRange) && has_envelope
  then (APass, "trusted_consumer_envelope")
  else (AUnknown, "protected_pr_assurance_unverified").

Definition local_enforcement_allowed (r : ScopeResolution) : bool :=
  bool_decide (sr_status r = APass) &&
  bool_decide (sr_assurance_kind r ∈ [AkExplicitFiles; AkFull; AkIndex; AkWorktree]).

(** * Local file selection *)

Definition _matches_focus (file_path facet : string) : bool :=
  if negb (bool_decide (path_suffix file_path ∈ _PYTHON_SUFFIXES)) then false
  else if String.eqb facet "tests" then _is_test_path file_path
  else if String.eqb facet "docs" then bool_decide ("docs" ∈ path_parts file_path)
  else String.eqb facet "source" && negb (_is_test_path file_path)
       && negb (bool_decide ("docs" ∈ path_parts file_path)).
Definition filter_files_by_focus (files facets : list string) : list string :=
  match List.filter (λ facet, bool_decide (facet ∈ ["source"; "tests"; "docs"])) facets with
  | [] => files
  | file_facets => List.filter (λ file_path, existsb (_matches_focus file_path) file_facets) files
  end.

Definition _path_filter_matches (file_path path_filter : string) : bool :=
  path_eqb file_path path_filter || in_parents path_filter file_path.
Definition _filtered_files (files path_filters : list string) : result (list string) :=
  let normalized := List.filter (λ f, nonblank (as_posix f)) path_filters in
  match find is_absolute normalized, normalized with
  | Some absolute, _ => Err (RunCommandError ("Path filters must be repo-relative: " +:+ absolute))
  | None, [] => Ok files
  | None, _ =>
      Ok (List.filter (λ file_path, existsb (_path_filter_matches file_path) normalized) files)
  end.

Record LegacyFileSelectionRequest := {
  lf_include_tests : bool;
  lf_scope : option ScopeKind;
  lf_path_filters : list string;
  lf_changed_discovery : bool → list string;
  lf_full_discovery : list string
}.
Definition _auto_discovered_files (request : LegacyFileSelectionRequest) : list string :=
  let include_tests := lf_include_tests request in
  let filtered := bool_decide (lf_path_filters request ≠ []) in
  if decide (lf_scope request = Some SkFull) then
    if include_tests || filtered then lf_full_discovery request
    else List.filter (λ path, negb (_is_test_path path)) (lf_full_discovery request)
  else lf_changed_discovery request (include_tests || filtered).
Definition _resolved_explicit_files (files : list string) : result (list string) :=
  let resolved := List.filter (λ file_path, negb (_is_ignored_path file_path)) files in
  let! _ := check (bool_decide (resolved ≠ []))
    (NoReviewableFilesError "No Python files to review were provided or detected.") in
  Ok resolved.
Definition _resolved_automatic_files (request : LegacyFileSelectionRequest) : result (list string) :=
  let! filtered := _filtered_files (_auto_discovered_files request) (lf_path_filters request) in
  Ok (List.filter (λ file_path, negb (_is_ignored_path file_path)) filtered).

Definition resolve_legacy_files (is_file : string → bool) (files : list string)
    (request : LegacyFileSelectionRequest) : result (list string) :=
  let! _ := check (negb (bool_decide (files ≠ []) &&
                         (has_some (lf_scope request) || bool_decide (lf_path_filters request ≠ []))))
    (ConflictingScopeError "Choose positional files or auto-scope controls, not both.") in
  let! resolved := (if bool_decide (files ≠ []) then _resolved_explicit_files files
                    else _resolved_automatic_files request) in
  let! _ := check (bool_decide (resolved ≠ []))
    (NoReviewableFilesError "No reviewable files matched the selected auto-scope controls.") in
  match find (λ file_path, negb (is_file file_path)) resolved with
  | Some missing => Err (NoReviewableFilesError ("File not found: " +:+ missing))
  | None => Ok resolved
  end.

(** [list(dict.fromkeys(paths))]: equal paths kept once *)
Fixpoint dedup_paths (seen : list (list string)) (paths : list string) : list string :=
  match paths with
  | [] => []
  | p :: rest => if bool_decide (path_parts p ∈ seen) then dedup_paths seen rest
                 else p :: dedup_paths (path_parts p :: seen) rest
  end.
Definition _discovered_python_files (is_file : string → bool) (paths : list string)
    (include_tests : bool) : list string :=
  let selected := List.filter (λ path, bool_decide (path_suffix path ∈ _PYTHON_SUFFIXES)
                    && is_file path && negb (_is_ignored_path path)) paths in
  let deduplicated := dedup_paths [] selected in
  if include_tests then deduplicated
  else List.filter (λ path, negb (_is_test_path path)) deduplicated.
Definition discover_worktree_python_files (is_file : string → bool) (tracked untracked : string)
    (include_tests : bool) : list string :=
  _discovered_python_files is_file
    (filter (λ p, p ≠ "") (split_nul tracked) ++ filter (λ p, p ≠ "") (split_nul untracked)) include_tests.
