(* ===== verification/ScopeProofs.v ===== *)
(** ScopeProofs: what a resolved scope guarantees.  A range or an index that
    passes was materialized from one merge base (or one captured index) whose
    governed inputs are regular blobs with the bytes Git stores; an exact
    rename is the only possible one. *)

From S2P Require Import Prelude Text Paths Dict PyValue Json Findings FindingsProofs Scope.

(** * Input manifests *)

Section manifests.
Context `{Sha256} (repo : Repository).

(** A governed path is safe on one side: it is absent there, or a regular blob
    whose materialized bytes are the blob's. *)
Definition safe_input (snapshot : Snapshot) (path : string) : Prop :=
  ∀ entry, entry_or_none snapshot path = Some entry →
    is_regular_blob (te_object_type entry) (te_git_mode entry) = true ∧
    materialized_bytes repo (sn_commit snapshot) path = Ok (default "" (bytes_or_none snapshot path)).

Lemma input_identity_some snapshot path i :
  _input_identity repo snapshot path = Ok (Some i) →
  ∃ entry, entry_or_none snapshot path = Some entry ∧
    ii_object_type i = te_object_type entry ∧ ii_git_mode i = te_git_mode entry ∧
    (is_regular_blob (te_object_type entry) (te_git_mode entry) = true →
     materialized_bytes repo (sn_commit snapshot) path = Ok (default "" (bytes_or_none snapshot path))).
Proof.
  unfold _input_identity. destruct (entry_or_none snapshot path) as [entry|]; [|done]. intros Hi.
  exists entry. split; [done|]. destruct (is_regular_blob _ _) eqn:Er.
  - destruct (_descriptor_relative_bytes repo snapshot path) as [opened|] eqn:Eo; [|done]. cbn [res_bind] in Hi.
    destruct (String.eqb opened _) eqn:Eq; [|done]. cbn in Hi. injection Hi as <-. apply String.eqb_eq in Eq.
    split_and!; [done..|]. intros _. unfold _descriptor_relative_bytes in Eo. res_inv. congruence.
  - cbn [res_bind] in Hi. injection Hi as <-. by split_and!.
Qed.
Lemma input_identity_none snapshot path :
  _input_identity repo snapshot path = Ok None → entry_or_none snapshot path = None.
Proof.
  unfold _input_identity. destruct (entry_or_none snapshot path); [|done]. intros Hi. exfalso.
  destruct (is_regular_blob _ _).
  - destruct (_descriptor_relative_bytes repo snapshot path); [|done]. cbn [res_bind] in Hi.
    by destruct (String.eqb _ _).
  - done.
Qed.

(** The identity a manifest ends with *)
Lemma add_identity_get path identity path' manifest :
  dict_get path' (add_identity path identity manifest)
  = match identity with
    | Some i => if decide (path' = path) then Some i else dict_get path' manifest
    | None => dict_get path' manifest
    end.
Proof. destruct identity; [apply dict_get_set|done]. Qed.
Lemma range_manifests_get base head paths acc bm hm path :
  range_manifests repo base head paths acc = Ok (bm, hm) → path ∈ paths →
  ∃ bi hi, _input_identity repo base path = Ok bi ∧ _input_identity repo head path = Ok hi ∧
    (∀ i, bi = Some i → dict_get path bm = Some i) ∧ (∀ i, hi = Some i → dict_get path hm = Some i).
Proof.
  assert (Hkeep : ∀ paths acc, range_manifests repo base head paths acc = Ok (bm, hm) →
    (∀ i, _input_identity repo base path = Ok (Some i) → dict_get path acc.1 = Some i → dict_get path bm = Some i) ∧
    (∀ i, _input_identity repo head path = Ok (Some i) → dict_get path acc.2 = Some i → dict_get path hm = Some i)).
  { clear paths acc. intros paths. induction paths as [|p paths IH]; intros acc Hr; cbn in Hr.
    - injection Hr as ->. by split.
    - destruct (_input_identity repo base p) as [bi|] eqn:Eb; [|done]. cbn [res_bind] in Hr.
      destruct (_input_identity repo head p) as [hi|] eqn:Eh; [|done]. cbn [res_bind] in Hr.
      apply IH in Hr as [H1 H2]. cbn [fst snd] in H1, H2. split; intros i Hi Ha.
      + apply H1; [done|]. rewrite add_identity_get. destruct bi; [|done]. case_decide; [|done]. congruence.
      + apply H2; [done|]. rewrite add_identity_get. destruct hi; [|done]. case_decide; [|done]. congruence. }
  revert acc. induction paths as [|p paths IH]; intros acc Hr; [by intros ?%not_elem_of_nil|].
  cbn in Hr. destruct (_input_identity repo base p) as [bi|] eqn:Eb; [|done]. cbn [res_bind] in Hr.
  destruct (_input_identity repo head p) as [hi|] eqn:Eh; [|done]. cbn [res_bind] in Hr.
  intros [-> |Hp]%elem_of_cons; [|by eapply IH].
  exists bi, hi. destruct (Hkeep _ _ Hr) as [H1 H2]. cbn [fst snd] in H1, H2. split_and!; [done|done|..].
  - intros i ->. apply H1; [done|]. rewrite add_identity_get. by rewrite decide_True.
  - intros i ->. apply H2; [done|]. rewrite add_identity_get. by rewrite decide_True.
Qed.

Lemma first_unsafe_none manifest path i :
  first_unsafe manifest = None → dict_get path manifest = Some i → unsafe_identity i = false.
Proof.
  unfold first_unsafe. intros Hf Hg. destruct (find _ _) as [x|] eqn:E; [done|].
  apply dict_get_Some_elem in Hg. apply (find_none _ _ E (path, i)). apply list_elem_of_In.
  by rewrite sort_by_perm.
Qed.
(** Manifests without an unsafe path cover every governed path safely. *)
Lemma manifests_safe base head paths bm hm path :
  range_manifests repo base head paths ([], []) = Ok (bm, hm) → _unsafe_manifest_path bm hm = None →
  path ∈ paths → safe_input base path ∧ safe_input head path.
Proof.
  intros Hr Hu Hp. destruct (range_manifests_get _ _ _ _ _ _ _ Hr Hp) as (bi & hi & Hb & Hh & Hbg & Hhg).
  unfold _unsafe_manifest_path in Hu. destruct (first_unsafe bm) eqn:Eb; [done|].
  assert (Hside : ∀ snapshot identity manifest, _input_identity repo snapshot path = Ok identity →
    (∀ i, identity = Some i → dict_get path manifest = Some i) → first_unsafe manifest = None →
    safe_input snapshot path).
  { intros snapshot identity manifest Hi Hg Hf entry He. destruct identity as [i|].
    - destruct (input_identity_some _ _ _ Hi) as (entry' & He' & Ht & Hm & Hbytes).
      rewrite He in He'. injection He' as <-.
      pose proof (first_unsafe_none _ _ _ Hf (Hg i eq_refl)) as Hs. unfold unsafe_identity in Hs.
      rewrite Ht, Hm in Hs. apply negb_false_iff in Hs. split; [done|]. by apply Hbytes.
    - apply input_identity_none in Hi. congruence. }
  split; [exact (Hside _ _ _ Hb Hbg Eb)|exact (Hside _ _ _ Hh Hhg Hu)].
Qed.
End manifests.

(** * Ranges *)

Section range.
Context `{Sha256} `{JsonLoads} `{TomlLoads} `{IniRead} `{RangePolicyPaths} (repo : Repository).

(** The exit code is 0 exactly for an accepted status. *)
Definition exits_with_status (r : ScopeResolution) : Prop :=
  sr_ci_exit_code r = (if accepted_status (sr_status r) then 0 else 1)%Z.

(** ** The paths whose change is a policy change *)

(** A lock file one of the records of the claimed context names *)
Definition context_lock (context : _ClaimedContext) (path : string) : Prop :=
  ∃ runtime records record,
    vget "project_runtime" (cx_document context) = VDict runtime ∧
    lock_records (default (VList []) (dict_get (VStr "source_lock_paths") runtime)) = Some records ∧
    record ∈ records ∧ vget "path" record = VStr path.
(** The source locks: those the request and the claimed context name, and in a
    portable range without a context the project inputs and lock files of
    either side. *)
Definition source_lock (request : ScopeRequest) (resolved : _ResolvedRange) (path : string) : Prop :=
  path ∈ as_posix <$> sq_project_runtime_source_lock_paths request
  ∨ (∃ context, rg_claimed_context resolved = Some context ∧ context_lock context path)
  ∨ (sq_portable_project_runtime request = true ∧ rg_claimed_context resolved = None ∧
     portable_source_lock path = true ∧
     (path ∈ dict_keys (sn_contents (rg_base_snapshot resolved))
      ∨ path ∈ dict_keys (sn_contents (rg_head_snapshot resolved)))).
(** The configuration closure of the target commit, and of the head too when
    the runtime is portable *)
Definition policy_closure (request : ScopeRequest) (resolved : _ResolvedRange) (closure : gset string) : Prop :=
  ∃ target target_paths,
    _materialize_commit repo (rg_target_commit resolved) (sq_portable_project_runtime request) = Ok target ∧
    _range_policy_paths target = Ok target_paths ∧
    if sq_portable_project_runtime request
    then ∃ head_paths, _range_policy_paths (rg_head_snapshot resolved) = Ok head_paths
                       ∧ closure = target_paths ∪ head_paths
    else closure = target_paths.
Definition policy_path (request : ScopeRequest) (resolved : _ResolvedRange) (closure : gset string)
    (path : string) : Prop :=
  path ∈ GOVERNED_POLICY_PATHS_V1 ∨ path ∈ closure ∨ source_lock request resolved path
  ∨ _section_policy_changed path (rg_base_snapshot resolved) (rg_head_snapshot resolved) = true.
Definition changed_path (resolved : _ResolvedRange) (path : string) : Prop :=
  ∃ paths, _range_paths repo (sn_commit (rg_base_snapshot resolved)) (sn_commit (rg_head_snapshot resolved)) = Ok paths
    ∧ path ∈ paths.

Lemma context_source_lock_paths_elem context path :
  path ∈ _context_source_lock_paths context ↔ ∃ c, context = Some c ∧ context_lock c path.
Proof.
  unfold _context_source_lock_paths, context_lock. destruct context as [c|].
  2:{ split; [set_solver|]. by intros (c & ? & _). }
  destruct (vget "project_runtime" (cx_document c)) eqn:Ev;
    try (split; [set_solver|]; intros (c' & [= <-] & runtime' & _ & _ & Hr & _); congruence).
  match goal with E : _ = VDict ?r |- _ => rename r into runtime end.
  destruct (lock_records _) as [records|] eqn:El.
  - rewrite elem_of_list_to_set, list_elem_of_omap. split.
    + intros (record & Hin & Hp). exists c. split; [done|]. exists runtime, records, record.
      split_and!; [done..|]. destruct (vget "path" record); simplify_eq; done.
    + intros (c' & [= <-] & runtime' & records' & record & Hr & Hl & Hin & Hp).
      assert (runtime' = runtime) as -> by congruence. rewrite El in Hl. injection Hl as <-.
      exists record. by rewrite Hp.
  - split; [set_solver|]. intros (c' & [= <-] & runtime' & records' & record & Hr & Hl & _).
    assert (runtime' = runtime) as -> by congruence. congruence.
Qed.
Lemma portable_source_locks_elem base head path :
  path ∈ _portable_source_locks base head ↔
  portable_source_lock path = true ∧ (path ∈ dict_keys (sn_contents base) ∨ path ∈ dict_keys (sn_contents head)).
Proof.
  unfold _portable_source_locks. rewrite elem_of_list_to_set, list_elem_of_In, filter_In, <-list_elem_of_In.
  rewrite elem_of_app. tauto.
Qed.
Lemma is_policy_path_spec path locks base head closure :
  _is_policy_path path locks base head closure = true ↔
  path ∈ GOVERNED_POLICY_PATHS_V1 ∨ path ∈ closure ∨ path ∈ locks ∨ _section_policy_changed path base head = true.
Proof. unfold _is_policy_path. rewrite !orb_true_iff, !bool_decide_eq_true. tauto. Qed.

Record range_facts (request : ScopeRequest) (base_ref head_ref : string) (resolved : _ResolvedRange)
    (closure : gset string) : Prop := {
  rf_context : _load_claimed_context repo request = Ok (rg_claimed_context resolved);
  rf_merge_base : ∃ base head merge_base,
    _resolve_commit repo base_ref = Ok base ∧ _resolve_commit repo head_ref = Ok head ∧
    _best_merge_bases repo base head = Ok [merge_base] ∧ rg_candidates resolved = [merge_base] ∧
    rg_target_commit resolved = base ∧ _resolve_tree repo base = Ok (rg_target_tree resolved) ∧
    _materialize_commit repo merge_base (sq_portable_project_runtime request) = Ok (rg_base_snapshot resolved) ∧
    _materialize_commit repo head (sq_portable_project_runtime request) = Ok (rg_head_snapshot resolved) ∧
    sn_commit (rg_base_snapshot resolved) = merge_base ∧ sn_commit (rg_head_snapshot resolved) = head;
  rf_source_locks : ∀ path, path ∈ rg_source_lock_paths resolved ↔ source_lock request resolved path;
  rf_closure : policy_closure request resolved closure;
  rf_selected : ∃ paths,
    _range_paths repo (sn_commit (rg_base_snapshot resolved)) (sn_commit (rg_head_snapshot resolved)) = Ok paths ∧
    rg_selected_paths resolved `sublist_of` paths ∧
    (∀ path, path ∈ rg_selected_paths resolved ↔
       changed_path resolved path ∧
       (path_suffix path ∈ _PYTHON_SUFFIXES ∨ policy_path request resolved closure path)) ∧
    rg_candidate_policy_paths resolved `sublist_of` paths ∧
    ∀ path, path ∈ rg_candidate_policy_paths resolved ↔
      changed_path resolved path ∧ policy_path request resolved closure path
}.
Lemma materialize_commit_identity commit links snapshot :
  _materialize_commit repo commit links = Ok snapshot → sn_commit snapshot = commit.
Proof. unfold _materialize_commit, _materialize_tree. intros Hm. res_inv. by subst. Qed.
Lemma range_policy_closure_inv request target head closure :
  _range_policy_closure request target head = Ok closure →
  ∃ target_paths, _range_policy_paths target = Ok target_paths ∧
    if sq_portable_project_runtime request
    then ∃ head_paths, _range_policy_paths head = Ok head_paths ∧ closure = target_paths ∪ head_paths
    else closure = target_paths.
Proof.
  unfold _range_policy_closure. intros (paths & Hp & Hc)%res_bind_Ok. exists paths. split; [done|].
  destruct (sq_portable_project_runtime request); [|congruence].
  apply res_bind_Ok in Hc as (more & Hm & [= <-]). by exists more.
Qed.
(** The target commit is materialized, as the merge base when it is that. *)
Lemma target_materialized (base merge_base : string) (links : bool) base_snapshot target :
  _materialize_commit repo merge_base links = Ok base_snapshot →
  (if String.eqb base merge_base then Ok base_snapshot else _materialize_commit repo base links) = Ok target →
  _materialize_commit repo base links = Ok target.
Proof. destruct (String.eqb_spec base merge_base) as [->|]; congruence. Qed.
Lemma selected_paths_spec request resolved closure paths :
  _range_paths repo (sn_commit (rg_base_snapshot resolved)) (sn_commit (rg_head_snapshot resolved)) = Ok paths →
  (∀ path, path ∈ rg_source_lock_paths resolved ↔ source_lock request resolved path) →
  let policy path := _is_policy_path path (rg_source_lock_paths resolved) (rg_base_snapshot resolved)
                       (rg_head_snapshot resolved) closure in
  let selected := List.filter (λ path, _governed_path path (rg_source_lock_paths resolved)
                    (rg_base_snapshot resolved) (rg_head_snapshot resolved) closure) paths in
  (∀ path, path ∈ selected ↔ changed_path resolved path ∧
     (path_suffix path ∈ _PYTHON_SUFFIXES ∨ policy_path request resolved closure path)) ∧
  (∀ path, path ∈ List.filter policy selected ↔
     changed_path resolved path ∧ policy_path request resolved closure path).
Proof.
  intros Hpaths Hlocks policy selected.
  assert (Hch : ∀ path, changed_path resolved path ↔ path ∈ paths).
  { intros path. unfold changed_path. rewrite Hpaths. split; [by intros (? & [= <-] & ?)|by exists paths]. }
  assert (Hpol : ∀ path, policy path = true ↔ policy_path request resolved closure path).
  { intros path. unfold policy, policy_path. by rewrite is_policy_path_spec, Hlocks. }
  assert (Hsel : ∀ path, path ∈ selected ↔ changed_path resolved path ∧
     (path_suffix path ∈ _PYTHON_SUFFIXES ∨ policy_path request resolved closure path)).
  { intros path. unfold selected. rewrite list_elem_of_In, filter_In, <-list_elem_of_In, Hch. unfold _governed_path.
    by rewrite orb_true_iff, bool_decide_eq_true, <-Hpol. }
  split; [exact Hsel|]. intros path. rewrite list_elem_of_In, filter_In, <-list_elem_of_In, Hsel, Hpol. tauto.
Qed.
(** The set [_materialized_range] makes of them *)
Lemma source_locks_elem request resolved path :
  path ∈ ((list_to_set (as_posix <$> sq_project_runtime_source_lock_paths request) : gset string)
    ∪ _context_source_lock_paths (rg_claimed_context resolved)
    ∪ (if sq_portable_project_runtime request && negb (has_some (rg_claimed_context resolved))
       then _portable_source_locks (rg_base_snapshot resolved) (rg_head_snapshot resolved) else ∅))
  ↔ source_lock request resolved path.
Proof.
  unfold source_lock. rewrite !elem_of_union, elem_of_list_to_set, context_source_lock_paths_elem.
  destruct (sq_portable_project_runtime request), (rg_claimed_context resolved) as [c|]; cbn [has_some negb andb];
    rewrite ?portable_source_locks_elem; set_solver.
Qed.
Lemma filter_sublist {A} (f : A → bool) l : List.filter f l `sublist_of` l.
Proof. induction l as [|x l IH]; cbn; [done|]. destruct (f x); by constructor. Qed.

Lemma materialized_range_inv request base_ref head_ref resolved :
  _materialized_range repo request base_ref head_ref = Ok (inr resolved) →
  ∃ closure, range_facts request base_ref head_ref resolved closure.
Proof.
  unfold _materialized_range. intros Hm. res_inv.
  match goal with E : match ?l with _ => _ end = Ok (inr resolved) |- _ => destruct l as [|merge_base [|]] eqn:El end;
    res_inv; try done.
  match goal with E : _candidate_policy_evidence _ _ _ _ _ _ = _ |- _ =>
    unfold _candidate_policy_evidence in E; injection E as Epolicy _ _ end.
  match goal with E : _range_policy_closure _ _ _ = Ok ?c |- _ =>
    exists c; apply range_policy_closure_inv in E as (target_paths & Htarget & Hclosure) end.
  match goal with E : (if String.eqb _ _ then _ else _) = Ok _ |- _ => eapply target_materialized in E; [|eassumption] end.
  repeat match goal with E : _materialize_commit repo _ _ = Ok _ |- _ =>
    pose proof (materialize_commit_identity _ _ _ E); revert E end. intros.
  assert (Hlocks : ∀ path, path ∈ rg_source_lock_paths resolved ↔ source_lock request resolved path)
    by (intros path; rewrite <-source_locks_elem; by subst resolved).
  match goal with E : _range_paths repo _ _ = Ok ?l |- _ => rename l into paths; rename E into Hpaths end.
  assert (Hpaths' : _range_paths repo (sn_commit (rg_base_snapshot resolved)) (sn_commit (rg_head_snapshot resolved))
                    = Ok paths) by (subst resolved; cbn [rg_base_snapshot rg_head_snapshot]; congruence).
  match type of Htarget with _range_policy_paths ?t = _ => rename t into target end.
  match goal with |- range_facts _ _ _ _ ?c => rename c into closure end.
  destruct (selected_paths_spec request resolved closure paths Hpaths' Hlocks) as [Hsel Hpol].
  split; [by subst resolved| |exact Hlocks| |].
  - do 3 eexists. subst resolved. cbn [rg_candidates rg_target_commit rg_target_tree rg_base_snapshot rg_head_snapshot].
    split_and!; try eassumption; reflexivity.
  - exists target, target_paths. subst resolved. by split_and!.
  - exists paths. split; [done|]. rewrite <-Epolicy in *. subst resolved. split_and!; [apply filter_sublist|exact Hsel| |exact Hpol].
    etrans; apply filter_sublist.
Qed.

Lemma materialized_range_failure request base_ref head_ref failure :
  _materialized_range repo request base_ref head_ref = Ok (inl failure) →
  ∃ candidates identities, failure = ambiguous_base candidates identities.
Proof.
  unfold _materialized_range. intros Hm. res_inv.
  match goal with E : match ?l with _ => _ end = Ok (inl failure) |- _ => destruct l as [|merge_base [|]] eqn:El end;
    res_inv; try done; subst; eauto.
Qed.

(** Outcomes that can never be taken for protected assurance *)
Definition unprotected (r : ScopeResolution) : Prop :=
  exits_with_status r ∧ ∀ has_envelope, (verify_pr_assurance r has_envelope).1 = AUnknown.
Lemma unprotected_kind r :
  exits_with_status r → sr_effective_assurance_kind r ≠ AkPrRange → unprotected r.
Proof.
  intros He Hk. split; [done|]. intros b. unfold verify_pr_assurance. by rewrite bool_decide_eq_false_2.
Qed.
Lemma range_resolution_unprotected resolved bm hm claimed status reason code diagnostics :
  code = (if accepted_status status then 0 else 1)%Z →
  unprotected (_range_resolution (_range_result_context resolved bm hm claimed) status reason code diagnostics).
Proof. intros ->. apply unprotected_kind; [done|]. by destruct claimed. Qed.
Lemma unknown_range_unprotected reason diagnostics candidates identities :
  unprotected (_unknown_range reason diagnostics candidates identities).
Proof. by apply unprotected_kind. Qed.
Lemma context_failure_unprotected reason diagnostics resolved :
  unprotected (_context_failure reason diagnostics resolved).
Proof. by apply unprotected_kind. Qed.

(** What a passing result says of a materialized range *)
Definition passing_result (request : ScopeRequest) (resolved : _ResolvedRange) (closure : gset string)
    (r : ScopeResolution) : Prop :=
  sr_base_snapshot r = Some (rg_base_snapshot resolved) ∧
  sr_head_snapshot r = Some (rg_head_snapshot resolved) ∧
  sr_merge_base_candidates r = rg_candidates resolved ∧
  sr_selected_paths r = rg_selected_paths resolved ∧ sr_selected_paths r ≠ [] ∧
  (∀ path, path ∈ sr_selected_paths r →
     safe_input repo (rg_base_snapshot resolved) path ∧ safe_input repo (rg_head_snapshot resolved) path) ∧
  (∀ claimed, rg_claimed_context resolved = Some claimed →
     vget "target_commit" (cx_document claimed) = VStr (rg_target_commit resolved) ∧
     vget "head_commit" (cx_document claimed) = VStr (sn_commit (rg_head_snapshot resolved)) ∧
     vget "target_tree" (cx_document claimed) = VStr (rg_target_tree resolved) ∧
     vget "head_tree" (cx_document claimed) = VStr (sn_tree (rg_head_snapshot resolved))) ∧
  (sq_portable_project_runtime request = false ∨ is_Some (rg_claimed_context resolved) →
     ∀ path, changed_path resolved path → ¬ policy_path request resolved closure path).

Lemma not_portable request resolved :
  sq_portable_project_runtime request = false ∨ is_Some (rg_claimed_context resolved) →
  sq_portable_project_runtime request && negb (has_some (rg_claimed_context resolved)) = false.
Proof. intros [-> |[c ->]]; [done|]. apply andb_false_r. Qed.
Lemma context_matches_spec claimed resolved :
  _context_matches_range claimed resolved = true →
  vget "target_commit" (cx_document claimed) = VStr (rg_target_commit resolved) ∧
  vget "head_commit" (cx_document claimed) = VStr (sn_commit (rg_head_snapshot resolved)) ∧
  vget "target_tree" (cx_document claimed) = VStr (rg_target_tree resolved) ∧
  vget "head_tree" (cx_document claimed) = VStr (sn_tree (rg_head_snapshot resolved)).
Proof.
  unfold _context_matches_range, is_str. rewrite !andb_true_iff, !bool_decide_eq_true. tauto.
Qed.
Lemma range_result_spec request base_ref head_ref closure resolved r :
  range_facts request base_ref head_ref resolved closure → _range_result repo request resolved = Ok r →
  unprotected r ∧ (sr_status r = APass → passing_result request resolved closure r).
Proof.
  intros Hfacts. unfold _range_result, _range_manifests_or_failure. intros Hr.
  destruct (_governed_range_manifests repo resolved) as [[bm hm]|e] eqn:Eg.
  2:{ destruct e; cbn in Hr; try done; injection Hr as <-; (split; [apply context_failure_unprotected|done]). }
  cbn [res_bind] in Hr. destruct (_unsafe_manifest_path bm hm) as [path|] eqn:Eu.
  { injection Hr as <-. split; [by apply range_resolution_unprotected|done]. }
  case_match eqn:Ectx; [injection Hr as <-; split; [apply context_failure_unprotected|done]|].
  case_match eqn:Elock; [injection Hr as <-; split; [by apply range_resolution_unprotected|done]|].
  case_match eqn:Epol; [injection Hr as <-; split; [by apply range_resolution_unprotected|done]|].
  injection Hr as <-. split.
  { apply range_resolution_unprotected. by destruct (bool_decide (rg_selected_paths resolved ≠ [])). }
  cbn. destruct (bool_decide (rg_selected_paths resolved ≠ [])) eqn:Esel; [|done]. apply bool_decide_eq_true in Esel. intros _. split_and!; try done.
  - intros path Hp. by eapply manifests_safe.
  - intros claimed Hc. rewrite Hc in Ectx. by apply negb_false_iff, context_matches_spec in Ectx.
  - intros Hn%not_portable. rewrite Hn in Epol. cbn [negb] in Epol.
    rewrite andb_true_r in Epol. apply bool_decide_eq_false, dec_stable in Epol.
    intros path Hch Hp. destruct (rf_selected _ _ _ _ _ Hfacts) as (_ & _ & _ & _ & _ & Hpol).
    rewrite Epol in Hpol. by apply (not_elem_of_nil path), Hpol.
Qed.

(** C4 A range is admitted on sound ground. When [_resolve_range] passes, both
    refs resolved to full commits with exactly one best merge base, the
    snapshots are the trees of that base and of the head, the selected
    paths are the changed paths (in Git's order) that are Python files or
    policy paths, and at least one, each is absent or a regular blob on
    either side and its bytes are the blob's, a claimed context names
    exactly these commits and trees, and the exit code is 0. A policy path
    is a governed configuration file, a path of the configuration closure
    of the target commit (of the head too for a portable runtime), a source
    lock of the request or the claimed context, or a file a policy section
    of which differs; no changed path is one, unless the runtime is
    portable and no context was claimed, when lock files and project inputs
    count as source locks too. Exit code 0 always needs an accepted status,
    and a range alone is never protected assurance. *)
Theorem range_pass (request : ScopeRequest) (r : ScopeResolution) :
  _resolve_range repo request = Ok r →
  unprotected r ∧
  (sr_status r = APass →
   sr_ci_exit_code r = 0%Z ∧
   ∃ base_ref head_ref resolved closure,
     sq_base_ref request = Some base_ref ∧ sq_head_ref request = Some head_ref ∧
     range_facts request base_ref head_ref resolved closure ∧ passing_result request resolved closure r).
Proof.
  unfold _resolve_range. intros Hr.
  destruct (sq_base_ref request) as [base_ref|] eqn:Eb;
    [|injection Hr as <-; split; [apply unknown_range_unprotected|done]].
  destruct (sq_head_ref request) as [head_ref|] eqn:Eh;
    [|injection Hr as <-; split; [apply unknown_range_unprotected|done]].
  destruct (_materialized_range repo request base_ref head_ref) as [[failure|resolved]|e] eqn:Em.
  - apply materialized_range_failure in Em as (c & i & ->). injection Hr as <-.
    split; [apply unknown_range_unprotected|done].
  - apply materialized_range_inv in Em as [closure Hf]. apply (range_result_spec _ _ _ _ _ _ Hf) in Hr as [Hu Hp].
    split; [done|]. intros Hs. split; [by destruct Hu as [-> _]; rewrite Hs|].
    exists base_ref, head_ref, resolved, closure. split_and!; [done|done|done|by apply Hp].
  - destruct e; try done; injection Hr as <-; (split; [apply unknown_range_unprotected|done]).
Qed.
End range.

(** * Exact renames *)

Section renames.
Context (base head : Snapshot) (statuses : list (string * string)).
Hypothesis Hstatuses : dict_wf statuses.
Hypothesis Hbase : dict_wf (sn_entries base).

(** The deleted, the added and all base paths whose entry has the identity of
    [entry] (type, mode and object id). *)
Definition same_entry (snapshot : Snapshot) (entry : TreeEntry) (path : string) : Prop :=
  ∃ e, entry_or_none snapshot path = Some e ∧ _entry_identity e = _entry_identity entry.
Definition deleted_as (entry : TreeEntry) (path : string) : Prop :=
  dict_get path statuses = Some "D" ∧ same_entry base entry path.
Definition added_as (entry : TreeEntry) (path : string) : Prop :=
  dict_get path statuses = Some "A" ∧ same_entry head entry path.

Lemma matching_entries_keys entries candidate path :
  path ∈ (_matching_entries entries candidate).*1 ↔
  ∃ e, (path, Some e) ∈ entries ∧ _entry_identity e = _entry_identity candidate.
Proof.
  unfold _matching_entries. rewrite list_elem_of_fmap. split.
  - intros ([p e] & -> & ([p' o] & Hin & Ho)%list_elem_of_omap). cbn in Ho. destruct o as [e'|]; [|done].
    case_decide as Hid; [|done]. injection Ho as -> ->. by exists e.
  - intros (e & Hin & He). exists (path, e). split; [done|]. apply list_elem_of_omap.
    exists (path, Some e). split; [done|]. cbn. by rewrite decide_True.
Qed.
Lemma matching_entries_NoDup entries candidate :
  NoDup entries.*1 → NoDup (_matching_entries entries candidate).*1.
Proof.
  induction entries as [|[p o] entries IH]; [by constructor|]. cbn [fmap list_fmap].
  intros [Hp Hn]%NoDup_cons. unfold _matching_entries. cbn [omap list_omap snd fst].
  assert (Hfresh : p ∉ (_matching_entries entries candidate).*1).
  { rewrite matching_entries_keys. intros (e & Hin & _). apply Hp. by apply (list_elem_of_fmap_2 fst) in Hin. }
  destruct o as [e|]; [|by apply IH]. case_decide; [|by apply IH].
  rewrite fmap_cons. constructor; [exact Hfresh|by apply IH].
Qed.
Lemma entries_with_status_keys snapshot st candidate path :
  path ∈ (_matching_entries (_entries_with_status snapshot statuses st) candidate).*1 ↔
  dict_get path statuses = Some st ∧ same_entry snapshot candidate path.
Proof.
  rewrite matching_entries_keys. unfold _entries_with_status, same_entry. split.
  - intros (e & ([p s] & [= -> He] & [Hs Hin]%list_elem_of_filter)%list_elem_of_fmap & Hi). cbn in Hs, He. subst s.
    split; [by apply dict_get_elem|]. by exists e.
  - intros [Hg (e & He & Hi)]. exists e. split; [|done]. apply list_elem_of_fmap. exists (path, st).
    split; [by rewrite <-He|]. apply list_elem_of_filter. split; [done|]. by apply dict_get_Some_elem.
Qed.
Lemma NoDup_filter_keys {A} (P : string * A → Prop) `{∀ x, Decision (P x)} l : NoDup l.*1 → NoDup (filter P l).*1.
Proof.
  induction l as [|x l IH]; [by constructor|]. cbn [fmap list_fmap]. intros [Hx Hn]%NoDup_cons.
  rewrite filter_cons. case_decide; [|by apply IH]. rewrite fmap_cons. constructor; [|by apply IH].
  intros (y & Exy & [_ Hy]%list_elem_of_filter)%list_elem_of_fmap. apply Hx. rewrite Exy. by apply list_elem_of_fmap_2.
Qed.
Lemma entries_with_status_NoDup snapshot st candidate :
  NoDup (_matching_entries (_entries_with_status snapshot statuses st) candidate).*1.
Proof.
  apply matching_entries_NoDup. unfold _entries_with_status. rewrite <-list_fmap_compose.
  change (fst ∘ _) with (@fst string string). unfold dict_wf, dict_keys in Hstatuses.
  by apply NoDup_filter_keys.
Qed.
Lemma base_entries_keys candidate path :
  path ∈ (_matching_entries (base_entries base) candidate).*1 ↔ same_entry base candidate path.
Proof.
  rewrite matching_entries_keys. unfold base_entries, same_entry, entry_or_none. split.
  - intros (e & ([p e'] & [= -> ->] & Hin)%list_elem_of_fmap & Hi). exists e'. split; [|done].
    by apply dict_get_elem.
  - intros (e & He & Hi). exists e. split; [|done]. apply list_elem_of_fmap. exists (path, e).
    split; [done|]. by apply dict_get_Some_elem.
Qed.
Lemma base_entries_NoDup candidate : NoDup (_matching_entries (base_entries base) candidate).*1.
Proof.
  apply matching_entries_NoDup. unfold base_entries. rewrite <-list_fmap_compose. exact Hbase.
Qed.

(** A list without duplicates that is one path *)
Lemma keys_singleton {A} (l : list (string * A)) path :
  NoDup l.*1 → (∃ e, l = [(path, e)]) ↔ path ∈ l.*1 ∧ ∀ q, q ∈ l.*1 → q = path.
Proof.
  intros Hn. split.
  - intros [e ->]. cbn. split; [left|]. by intros q ->%list_elem_of_singleton.
  - intros [Hin Hall]. destruct l as [|[p e] [|[p' e'] l]]; cbn in *.
    + by apply not_elem_of_nil in Hin.
    + exists e. f_equal. f_equal. apply Hall. left.
    + apply NoDup_cons in Hn as [Hp _]. exfalso. apply Hp.
      rewrite (Hall p), <-(Hall p'); [left|right; left|left].
Qed.
Lemma keys_nil {A} (l : list (string * A)) : l = [] ↔ ∀ q, q ∉ l.*1.
Proof.
  split; [intros -> q; apply not_elem_of_nil|]. destruct l as [|[p e] l]; [done|].
  intros Hq. exfalso. apply (Hq p). cbn. left.
Qed.

Definition renames : list ExactRename := _canonical_exact_renames base head statuses.
Definition disposition (entry : TreeEntry) : option (string * rename_disposition) :=
  _rename_disposition base (_entries_with_status base statuses "D") (_entries_with_status head statuses "A") entry.
Definition only {A} (P : A → Prop) (x : A) : Prop := P x ∧ ∀ y, P y → y = x.

Lemma disposition_spec entry new :
  dict_get new statuses = Some "A" → entry_or_none head new = Some entry →
  (∀ old, disposition entry = Some (old, XrExactRename) ↔ only (deleted_as entry) old ∧ only (added_as entry) new) ∧
  (∀ old, disposition entry = Some (old, XrCopy) ↔
     (∀ q, ¬ deleted_as entry q) ∧ only (same_entry base entry) old) ∧
  (is_Some (disposition entry) ↔ ∃ q, same_entry base entry q).
Proof.
  intros Hnew Hentry. unfold disposition, _rename_disposition.
  set (D := _matching_entries (_entries_with_status base statuses "D") entry).
  set (A := _matching_entries (_entries_with_status head statuses "A") entry).
  set (B := _matching_entries (base_entries base) entry).
  assert (HD : ∀ q, q ∈ D.*1 ↔ deleted_as entry q) by (intros; apply entries_with_status_keys).
  assert (HA : ∀ q, q ∈ A.*1 ↔ added_as entry q) by (intros; apply entries_with_status_keys).
  assert (HB : ∀ q, q ∈ B.*1 ↔ same_entry base entry q) by (intros; apply base_entries_keys).
  assert (HDB : ∀ q, deleted_as entry q → same_entry base entry q) by (by intros q [_ ?]).
  assert (HDs : ∀ q, (∃ e, D = [(q, e)]) ↔ only (deleted_as entry) q).
  { intros q. rewrite keys_singleton by apply entries_with_status_NoDup. unfold only. by setoid_rewrite HD. }
  assert (HBs : ∀ q, (∃ e, B = [(q, e)]) ↔ only (same_entry base entry) q).
  { intros q. rewrite keys_singleton by apply base_entries_NoDup. unfold only. by setoid_rewrite HB. }
  assert (HAs : length A = 1%nat ↔ only (added_as entry) new).
  { assert (HAn : added_as entry new) by (split; [done|by exists entry]). rewrite <-HA in HAn.
    assert (HA1 : (∃ e, A = [(new, e)]) ↔ only (added_as entry) new).
    { rewrite keys_singleton by apply entries_with_status_NoDup. unfold only. by setoid_rewrite HA. }
    rewrite <-HA1. split; [|by intros [e ->]]. destruct A as [|[q e] [|]]; try done. intros _. exists e.
    cbn in HAn. apply list_elem_of_singleton in HAn. by subst. }
  assert (HDn : D = [] ↔ ∀ q, ¬ deleted_as entry q) by (rewrite keys_nil; by setoid_rewrite HD).
  assert (HBn : B ≠ [] ↔ ∃ q, same_entry base entry q).
  { setoid_rewrite <-HB. destruct B as [|[q e] B']; split; try done; [by intros [q ?%not_elem_of_nil]|].
    intros _. exists q. left. }
  assert (HBD : D ≠ [] → B ≠ []).
  { rewrite HBn. intros Hd. destruct D as [|[q e] D']; [done|]. exists q. apply HDB, HD. left. }
  setoid_rewrite <-HDs. setoid_rewrite <-HBs. setoid_rewrite <-HAs. setoid_rewrite <-HDn. rewrite <-HBn.
  clearbody D A B. clear -HBD. destruct D as [|[d e] [|d' D]].
  - destruct B as [|[b eb] [|b' B]]; (split_and!; [intros old..|]); naive_solver.
  - specialize (HBD ltac:(done)). destruct A as [|a [|a' A]]; (split_and!; [intros old..|]); naive_solver.
  - specialize (HBD ltac:(done)). (split_and!; [intros old..|]); naive_solver.
Qed.

Lemma renames_elem x :
  x ∈ renames ↔
  ∃ entry, dict_get (xr_new_path x) statuses = Some "A" ∧ entry_or_none head (xr_new_path x) = Some entry ∧
    xr_blob_sha x = te_object_id entry ∧ xr_git_mode x = te_git_mode entry ∧
    disposition entry = Some (xr_old_path x, xr_disposition x).
Proof.
  unfold renames, _canonical_exact_renames. rewrite sort_by_perm, list_elem_of_omap. split.
  - intros ([new o] & ([p s] & [= -> ->] & [Hs Hin]%list_elem_of_filter)%list_elem_of_fmap & Hx).
    cbn in Hs, Hx. subst s. destruct (entry_or_none head p) as [entry|] eqn:He; [|done].
    apply fmap_Some in Hx as ([old d] & Hd & ->). exists entry. cbn. by rewrite (dict_get_elem _ _ _ Hstatuses Hin).
  - destruct x as [old new blob mode d]. cbn. intros (entry & Hs & He & -> & -> & Hd).
    exists (new, Some entry). split.
    + apply list_elem_of_fmap. exists (new, "A"). cbn. rewrite He. split; [done|].
      apply list_elem_of_filter. split; [done|]. by apply dict_get_Some_elem.
    + cbn. apply fmap_Some. by exists (old, d).
Qed.

(** The added entry a record describes *)
Definition added_entry (new blob mode : string) (entry : TreeEntry) : Prop :=
  dict_get new statuses = Some "A" ∧ entry_or_none head new = Some entry ∧
  te_object_id entry = blob ∧ te_git_mode entry = mode.

(** Exact renames are exactly the unambiguous ones.  [_canonical_exact_renames]
    records [old] renamed to [new] just when [new] was added, [old] is the one
    deleted path with its object type, mode and blob and [new] the one added
    path with them; it records a copy just when no deleted path has them and
    [old] is the only base path that does; an added path has a record just when
    some base path has them; and the exact renames it records are a partial
    bijection between deleted and added paths, so no debt is moved twice. *)
Theorem exact_renames_characterized :
  (∀ old new blob mode,
     ({| xr_old_path := old; xr_new_path := new; xr_blob_sha := blob; xr_git_mode := mode;
         xr_disposition := XrExactRename |} ∈ renames
      ↔ ∃ entry, added_entry new blob mode entry ∧ only (deleted_as entry) old ∧ only (added_as entry) new) ∧
     ({| xr_old_path := old; xr_new_path := new; xr_blob_sha := blob; xr_git_mode := mode;
         xr_disposition := XrCopy |} ∈ renames
      ↔ ∃ entry, added_entry new blob mode entry ∧ (∀ q, ¬ deleted_as entry q) ∧
          only (same_entry base entry) old)) ∧
  (∀ new entry, dict_get new statuses = Some "A" → entry_or_none head new = Some entry →
     (∃ x, x ∈ renames ∧ xr_new_path x = new) ↔ ∃ q, same_entry base entry q) ∧
  (∀ x y, x ∈ renames → y ∈ renames →
     xr_disposition x = XrExactRename → xr_disposition y = XrExactRename →
     xr_old_path x = xr_old_path y ∨ xr_new_path x = xr_new_path y → x = y).
Proof.
  assert (Hexact : ∀ old new blob mode,
     {| xr_old_path := old; xr_new_path := new; xr_blob_sha := blob; xr_git_mode := mode;
        xr_disposition := XrExactRename |} ∈ renames
     ↔ ∃ entry, added_entry new blob mode entry ∧ only (deleted_as entry) old ∧ only (added_as entry) new).
  { intros old new blob mode. rewrite renames_elem. cbn. f_equiv. intros entry. unfold added_entry. split.
    - intros (Hs & He & -> & -> & Hd). split; [done|]. by apply (disposition_spec entry new).
    - intros ((Hs & He & <- & <-) & Hd). split_and!; try done. by apply (disposition_spec entry new). }
  split_and!.
  - intros old new blob mode. split; [done|]. rewrite renames_elem. cbn. f_equiv. intros entry. unfold added_entry. split.
    + intros (Hs & He & -> & -> & Hd). split; [done|]. by apply (disposition_spec entry new).
    + intros ((Hs & He & <- & <-) & Hd). split_and!; try done. by apply (disposition_spec entry new).
  - intros new entry Hs He. destruct (disposition_spec entry new Hs He) as (_ & _ & Hn). split.
    + intros (x & Hx & <-). apply renames_elem in Hx as (entry' & _ & He' & _ & _ & Hd).
      rewrite He in He'. injection He' as <-. apply Hn. by eexists.
    + intros Hq%Hn. destruct Hq as [[old d] Hd].
      exists {| xr_old_path := old; xr_new_path := new; xr_blob_sha := te_object_id entry;
                xr_git_mode := te_git_mode entry; xr_disposition := d |}. split; [|done].
      apply renames_elem. by exists entry.
  - intros [o n b m d] [o' n' b' m' d'] Hx Hy. cbn. intros -> -> Ho.
    apply Hexact in Hx as (e & (Hs & He & <- & <-) & [[Hd Hsame] Hdu] & [Hna Hau]).
    apply Hexact in Hy as (e' & (Hs' & He' & <- & <-) & [[Hd' Hsame'] Hdu'] & [Hna' Hau']).
    assert (Hid : _entry_identity e = _entry_identity e').
    { destruct Ho as [-> | ->]; [|congruence]. destruct Hsame as (x & Hx & <-), Hsame' as (x' & Hx' & <-). congruence. }
    assert (n' = n) as ->.
    { apply Hau. split; [done|]. by exists e'. }
    assert (o' = o) as ->.
    { apply Hdu. split; [done|]. destruct Hsame' as (x' & Hx' & Hi). exists x'. split; [done|]. congruence. }
    congruence.
Qed.
End renames.

(** * Sample resolutions *)

Section samples.
#[local] Instance scope_sha : Sha256 := λ bytes, of_chars bytes.
#[local] Instance scope_loads : JsonLoads := λ _, None.
#[local] Instance scope_toml : TomlLoads := λ _, None.
#[local] Instance scope_ini : IniRead := λ _, None.
#[local] Instance scope_policies : RangePolicyPaths := λ _, Ok ∅.

Definition full_id (c : ascii) : string := of_chars (replicate 40 c).
Definition terminated_nul (s : string) : string := s +:+ String (ascii_of_nat 0) "".
Definition tree_line (object_id path : string) : string :=
  terminated_nul ("100644 blob " +:+ object_id +:+ String (ascii_of_nat 9) path).

(** [main] at commit [a…a] holds one module; [topic] at [b…b] edits it. *)
Definition scope_repo : Repository := {|
  git_rev_parse := λ ref type,
    if String.eqb type "tree"
    then Ok (full_id (if String.eqb ref (full_id "a") then "c" else "d") +:+ String (ascii_of_nat 10) "")
    else Ok (full_id (if String.eqb ref "main" then "a" else "b") +:+ String (ascii_of_nat 10) "");
  git_merge_base_all := λ base _, Ok (base +:+ String (ascii_of_nat 10) "");
  git_ls_tree := λ revision,
    Ok (tree_line (if String.eqb revision (full_id "a") then "old" else "new") "m.py");
  git_cat_blob := λ oid, Ok oid;
  git_diff_name_only := λ _ _, Ok (terminated_nul "m.py");
  git_diff_name_status := λ _ _, Ok (terminated_nul "M" +:+ terminated_nul "m.py");
  materialized_bytes := λ commit _, Ok (if String.eqb commit (full_id "a") then "old" else "new");
  project_links := λ _, Ok tt;
  context_bytes := Ok ""
|}.
Definition scope_request : ScopeRequest := {|
  sq_scope := SkRange; sq_files := []; sq_base_ref := Some "main"; sq_head_ref := Some "topic";
  sq_enforcement := None; sq_include_tests := false; sq_exclude_tests := false; sq_focus := [];
  sq_path_filters := []; sq_no_tests := false; sq_level := None; sq_fix := false;
  sq_preview_fixes := false; sq_with_mutation := false; sq_has_pr_context_file := false;
  sq_repository_slug := None; sq_project_runtime_source_lock_paths := [];
  sq_portable_project_runtime := false
|}.
Definition scope_result : ScopeResolution :=
  match _resolve_range scope_repo scope_request with
  | Ok r => r | Err _ => _unknown_range "" "" [] [] end.

Lemma range_pass_witness :
  _resolve_range scope_repo scope_request = Ok scope_result ∧ sr_status scope_result = APass ∧
  sr_selected_paths scope_result = ["m.py"] ∧ sr_merge_base_candidates scope_result = [full_id "a"] ∧
  safe_input scope_repo (default (Build_Snapshot "" "" [] [] "") (sr_head_snapshot scope_result)) "m.py".
Proof.
  assert (Hr : _resolve_range scope_repo scope_request = Ok scope_result) by (vm_compute; reflexivity).
  assert (Hs : sr_status scope_result = APass) by (vm_compute; reflexivity).
  split; [exact Hr|]. split; [exact Hs|]. split; [vm_compute; reflexivity|]. split; [vm_compute; reflexivity|].
  destruct (proj2 (range_pass scope_repo scope_request scope_result Hr) Hs)
    as (_ & base_ref & head_ref & resolved & closure & _ & _ & _ & Hpass).
  destruct Hpass as (_ & Hhead & _ & _ & _ & Hsafe & _). rewrite Hhead. apply Hsafe.
  apply (bool_decide_unpack _). vm_compute. reflexivity.
Defined.

(** A deleted path and an added one with its blob; a copied blob; and a
    blob whose two deleted paths leave the rename ambiguous. *)
Definition sample_entry (object_id path : string) : string * TreeEntry :=
  (path, {| te_git_mode := "100644"; te_object_type := "blob"; te_object_id := object_id; te_path := path |}).
Definition rename_snapshot (entries : list (string * TreeEntry)) : Snapshot :=
  {| sn_commit := ""; sn_tree := ""; sn_contents := []; sn_entries := entries; sn_vcs_commit := "" |}.
Definition rename_base : Snapshot := rename_snapshot
  [sample_entry "1" "old.py"; sample_entry "2" "kept.py"; sample_entry "3" "x.py"; sample_entry "3" "y.py"].
Definition rename_head : Snapshot := rename_snapshot
  [sample_entry "1" "new.py"; sample_entry "2" "kept.py"; sample_entry "2" "copy.py"; sample_entry "3" "z.py"].
Definition rename_statuses : list (string * string) :=
  [("copy.py", "A"); ("new.py", "A"); ("old.py", "D"); ("x.py", "D"); ("y.py", "D"); ("z.py", "A")].

Lemma exact_renames_characterized_witness :
  dict_wf rename_statuses ∧ dict_wf (sn_entries rename_base) ∧
  renames rename_base rename_head rename_statuses
  = [ {| xr_old_path := "kept.py"; xr_new_path := "copy.py"; xr_blob_sha := "2"; xr_git_mode := "100644";
         xr_disposition := XrCopy |};
      {| xr_old_path := "old.py"; xr_new_path := "new.py"; xr_blob_sha := "1"; xr_git_mode := "100644";
         xr_disposition := XrExactRename |};
      {| xr_old_path := "x.py"; xr_new_path := "z.py"; xr_blob_sha := "3"; xr_git_mode := "100644";
         xr_disposition := XrAmbiguous |} ] ∧
  ∃ entry, added_entry rename_head rename_statuses "new.py" "1" "100644" entry ∧
    only (deleted_as rename_base rename_statuses entry) "old.py".
Proof.
  assert (H1 : dict_wf rename_statuses) by (apply (bool_decide_unpack _); vm_compute; reflexivity).
  assert (H2 : dict_wf (sn_entries rename_base)) by (apply (bool_decide_unpack _); vm_compute; reflexivity).
  assert (E : renames rename_base rename_head rename_statuses
    = [ {| xr_old_path := "kept.py"; xr_new_path := "copy.py"; xr_blob_sha := "2"; xr_git_mode := "100644";
           xr_disposition := XrCopy |};
        {| xr_old_path := "old.py"; xr_new_path := "new.py"; xr_blob_sha := "1"; xr_git_mode := "100644";
           xr_disposition := XrExactRename |};
        {| xr_old_path := "x.py"; xr_new_path := "z.py"; xr_blob_sha := "3"; xr_git_mode := "100644";
           xr_disposition := XrAmbiguous |} ]) by (vm_compute; reflexivity).
  split; [exact H1|]. split; [exact H2|]. split; [exact E|].
  destruct (exact_renames_characterized rename_base rename_head rename_statuses H1 H2) as (Hx & _ & _).
  destruct (proj1 (proj1 (Hx "old.py" "new.py" "1" "100644"))) as (entry & Ha & Ho & _);
    [rewrite E; right; left|].
  exists entry. split; [exact Ha|exact Ho].
Defined.
End samples.
