(* ===== verification/RangeReview.v ===== *)
(** RangeReview: the evidence of an immutable range review in
    [specfact_code_review/run/runner.py]: analyzer profiles, the
    classification of every member's base and head findings, the application
    of the suppression delta and the aggregation of member outcomes; calls
    [Differential], [Suppression] and [Findings] on a [Scope] resolution. *)

From S2P Require Import Prelude Text Paths Dict PyValue Json Findings Correspondence Differential.
From S2P Require Import Suppression Scope.

(** * Profiles *)

Record AnalyzerProfile := {
  apr_id : string; apr_required_ids : list string; apr_conditional_ids : list string
}.
Definition all_ids (p : AnalyzerProfile) : list string := apr_required_ids p ++ apr_conditional_ids p.
Definition default_pr_range_profile : AnalyzerProfile :=
  {| apr_id := "pr-range-v1"; apr_required_ids := PR_RANGE_REQUIRED_ANALYZERS;
     apr_conditional_ids := PR_RANGE_CONDITIONAL_ANALYZERS |}.

Definition _C14_ANALYZER_VERSIONS : list (string * string) :=
  [("ai-bloat-ast", "module-release-bound"); ("ast-clean-code", "module-release-bound");
   ("basedpyright", "1.39.10"); ("contracts", "crosshair-tool-0.0.109+icontract-2.7.1");
   ("pylint", "4.0.7"); ("radon", "6.0.1"); ("ruff", "0.15.12"); ("semgrep-clean", "1.144.0");
   ("semgrep-bugs", "1.144.0");
   ("targeted-pytest-coverage", "pytest-9.0.3+pytest-cov-7.1.0+coverage-7.15.4")].

Record AnalyzerEvidence := {
  ae_id : string; ae_execution_state : string; ae_evidence_outcome : string; ae_version : string;
  ae_diagnostic : string
}.
Record ProfileEvidenceReport := {
  per_analyzer_evidence : list AnalyzerEvidence;
  per_assurance_status : assurance_status;
  per_overall_verdict : verdict;
  per_has_unknown_required_evidence : bool
}.

(** [d[k]] on a dictionary; a missing key raises. *)
Definition dict_index {V} (k : string) (d : list (string * V)) : result V :=
  match dict_get k d with Some v => Ok v | None => Err (KeyError k) end.

Definition classification_text (s : classification_status) : string :=
  match s with C_PASS => "PASS" | C_FAIL => "FAIL" | C_UNKNOWN => "UNKNOWN" end.
Definition severity_text (s : severity) : string :=
  match s with SevError => "error" | SevWarning => "warning" | SevInfo => "info" end.

Section review.
Context `{PyRepr}.

Definition _has_required_unknown_reasons (raw_reasons : pyval) : bool :=
  match raw_reasons with VList l => bool_decide (l ≠ []) | _ => true end.

(** [str(d.get(k, default))] *)
Definition text_of (k dflt : string) (d : evidence_item) : string :=
  py_str (sget_default k (VStr dflt) d).

Definition valid_expected (expected : list (string * string)) : bool :=
  bool_decide ((list_to_set (dict_keys expected) : gset string) =
               list_to_set (all_ids default_pr_range_profile))
  && forallb (λ v, bool_decide (v ≠ "")) (dict_values expected).

(** One iteration of the loop: the member's evidence, whether it is unknown
    and whether it fails. *)
Definition aggregate_member (expected : list (string * string)) (evidence : list (string * evidence_item))
    (member_id : string) : AnalyzerEvidence * bool * bool :=
  let raw := default [] (dict_get member_id evidence) in
  let execution := text_of "execution_state" "error" raw in
  let version := text_of "version" "" raw in
  let has_member_unknown :=
    _has_required_unknown_reasons (sget_default "required_unknown_reasons" (VList []) raw) in
  let outcome :=
    if String.eqb execution "error" || negb (valid_expected expected)
       || negb (bool_decide (dict_get member_id expected = Some version))
    then "UNKNOWN" else text_of "evidence_outcome" "UNKNOWN" raw in
  ({| ae_id := member_id; ae_execution_state := execution; ae_evidence_outcome := outcome;
      ae_version := version; ae_diagnostic := text_of "diagnostic" "" raw |},
   String.eqb outcome "UNKNOWN" || has_member_unknown, String.eqb outcome "FAIL").

Definition aggregate_profile_evidence (evidence : list (string * evidence_item))
    (expected_versions : option (list (string * string))) : ProfileEvidenceReport :=
  let expected := match expected_versions with
                  | Some (v :: vs) => v :: vs | _ => _C14_ANALYZER_VERSIONS end in
  let members := aggregate_member expected evidence <$> all_ids default_pr_range_profile in
  let required_unknown := existsb (λ m, m.1.2) members in
  let known_fail := existsb snd members in
  let assurance := if known_fail then AFail else if required_unknown then AUnknown else APass in
  {| per_analyzer_evidence := (λ m, m.1.1) <$> members;
     per_assurance_status := assurance;
     per_overall_verdict := if bool_decide (assurance = APass) then PASS else FAIL;
     per_has_unknown_required_evidence := required_unknown |}.

(** * Findings of one member *)

Definition _differential_finding_projection (f : ReviewFinding) : list (string * pyval) :=
  [("analyzer", VStr (rf_tool f)); ("blocking", VBool (is_blocking f)); ("line", VInt (rf_line f));
   ("message", VStr (rf_message f)); ("path", VStr (rf_file f)); ("rule", VStr (rf_rule f));
   ("severity", VStr (severity_text (rf_severity f)))].

(** The key of a classified finding and the key of an analyzer finding *)
Definition finding_key : Type := string * string * string * Z * string * string * bool.
Definition _differential_finding_key (f : DifferentialFinding) : finding_key :=
  (df_analyzer f, df_rule f, df_path f, df_line f, normalize_ws (df_message f), df_severity f,
   df_blocking f).
Definition review_finding_key (f : ReviewFinding) : finding_key :=
  (rf_tool f, rf_rule f, rf_file f, rf_line f, normalize_ws (rf_message f),
   severity_text (rf_severity f), is_blocking f).

(** [{**original.model_dump(), "differential_state": state, ...}] *)
Definition with_state (state : differential_state) (blocking : option bool) (status : finding_status)
    (f : ReviewFinding) : ReviewFinding :=
  {| rf_category := rf_category f; rf_severity := rf_severity f; rf_tool := rf_tool f;
     rf_rule := rf_rule f; rf_file := rf_file f; rf_line := rf_line f;
     rf_message := rf_message f; rf_fixable := rf_fixable f; rf_status := status;
     rf_differential_state := Some state; rf_autofix_available := rf_autofix_available f;
     rf_blocking := blocking; rf_execution_state := rf_execution_state f;
     rf_evidence_outcome := rf_evidence_outcome f; rf_evidence_refs := rf_evidence_refs f;
     rf_confidence := rf_confidence f; rf_rewrite_hint := rf_rewrite_hint f;
     rf_canonical_pattern := rf_canonical_pattern f; rf_intent_key := rf_intent_key f;
     rf_estimated_deletion_lines := rf_estimated_deletion_lines f;
     rf_related_locations := rf_related_locations f; rf_guidance_kind := rf_guidance_kind f;
     rf_recommended_action := rf_recommended_action f;
     rf_clean_code_principle := rf_clean_code_principle f; rf_rationale := rf_rationale f;
     rf_safety_checks := rf_safety_checks f; rf_preserve_reason := rf_preserve_reason f;
     rf_action_status := rf_action_status f; rf_before_ref := rf_before_ref f;
     rf_after_ref := rf_after_ref f; rf_improvement := rf_improvement f;
     rf_signal_trace := rf_signal_trace f; rf_preserve_reasons := rf_preserve_reasons f;
     rf_remediation_packet := rf_remediation_packet f |}.
Definition state_update (state : differential_state) (f : ReviewFinding) : ReviewFinding :=
  match state with
  | DsFixed => with_state DsFixed (Some false) StFixed f
  | _ => with_state state (rf_blocking f) (rf_status f) f
  end.

(** The two multimaps of analyzer findings by key; [pop_candidate] is
    [(preferred.get(key) or fallback.get(key)).pop(0)]. *)
Definition by_key : Type := list (finding_key * list ReviewFinding).
Definition pop_candidate (key : finding_key) (preferred fallback : by_key) :
    option (ReviewFinding * by_key * by_key) :=
  match bucket key preferred, bucket key fallback with
  | original :: rest, _ => Some (original, dict_set key rest preferred, fallback)
  | [], original :: rest => Some (original, preferred, dict_set key rest fallback)
  | [], [] => None
  end.
Definition mapping_error : exn := ValueError "differential finding cannot be mapped to analyzer evidence".

(** The inner loop over one state's findings; the maps are
    [(base_by_key, head_by_key)]. *)
Fixpoint classified_in_state (state : differential_state) (findings : list DifferentialFinding)
    (base_by_key head_by_key : by_key) : result (list ReviewFinding * by_key * by_key) :=
  match findings with
  | [] => Ok ([], base_by_key, head_by_key)
  | finding :: rest =>
      let key := _differential_finding_key finding in
      let popped :=
        match state with
        | DsFixed => pop_candidate key base_by_key head_by_key
        | _ => (λ p : ReviewFinding * by_key * by_key, (p.1.1, p.2, p.1.2))
                 <$> pop_candidate key head_by_key base_by_key
        end in
      match popped with
      | None => Err mapping_error
      | Some (original, base_by_key, head_by_key) =>
          let! updated := validate_ReviewFinding (state_update state original) in
          let! (result, base_by_key, head_by_key) :=
            classified_in_state state rest base_by_key head_by_key in
          Ok (updated :: result, base_by_key, head_by_key)
      end
  end.

Definition _classified_findings (c : DifferentialClassification) (base head : list ReviewFinding) :
    result (list ReviewFinding) :=
  let base_by_key := group_by review_finding_key base in
  let head_by_key := group_by review_finding_key head in
  let! (introduced, b1, h1) := classified_in_state DsIntroduced (dc_introduced c) base_by_key head_by_key in
  let! (unchanged, b2, h2) := classified_in_state DsUnchanged (dc_unchanged c) b1 h1 in
  let! (fixed, b3, h3) := classified_in_state DsFixed (dc_fixed c) b2 h2 in
  let! (unknown, _, _) := classified_in_state DsUnknown (dc_unknown c) b3 h3 in
  Ok (introduced ++ unchanged ++ fixed ++ unknown).

Definition _member_snapshot_is_consistent (evidence : evidence_item) (findings : list ReviewFinding) : bool :=
  let outcome := text_of "evidence_outcome" "UNKNOWN" evidence in
  if String.eqb outcome "UNKNOWN" then false
  else if String.eqb outcome "NOT_APPLICABLE" then bool_decide (length findings = 0)
  else String.eqb outcome (if existsb is_blocking findings then "FAIL" else "PASS").
End review.

(** * One member of the range *)

Record RangeDifferentialContext := {
  rdc_base_sources : list (string * string);
  rdc_head_sources : list (string * string);
  rdc_rename_facts : list (string * string);
  rdc_rename_ambiguities : option (list (string * list string));
  rdc_added_paths : list string;
  rdc_deleted_paths : list string
}.

Definition renames_with (d : rename_disposition) (renames : list ExactRename) : list ExactRename :=
  filter (λ item, xr_disposition item = d) renames.
Definition _range_differential_context (r : ScopeResolution) (base_snapshot head_snapshot : Snapshot) :
    RangeDifferentialContext :=
  let rename_ambiguities :=
    dict_of ((λ item, (xr_old_path item, [xr_new_path item]))
               <$> renames_with XrAmbiguous (sr_exact_renames r)) in
  let with_status s := sorted ((filter (λ ps, ps.2 = s) (sr_path_statuses r)).*1) in
  {| rdc_base_sources := sn_contents base_snapshot;
     rdc_head_sources := sn_contents head_snapshot;
     rdc_rename_facts :=
       dict_of ((λ item, (xr_old_path item, xr_new_path item))
                  <$> renames_with XrExactRename (sr_exact_renames r));
     rdc_rename_ambiguities := match rename_ambiguities with [] => None | l => Some l end;
     rdc_added_paths := with_status "A"; rdc_deleted_paths := with_status "D" |}.

(** A nested [dict[str, object]] *)
Definition dict_value (d : evidence_item) : pyval := VDict ((λ kv, (VStr kv.1, kv.2)) <$> d).

Definition _unknown_range_member (member reason : string) (base head : evidence_item) :
    result evidence_item :=
  let! version := dict_index member _C14_ANALYZER_VERSIONS in
  Ok [("execution_state", VStr "error"); ("evidence_outcome", VStr "UNKNOWN");
      ("version", VStr version); ("diagnostic", VStr reason); ("disposition", VStr "unknown");
      ("base", dict_value base); ("head", dict_value head)].

Definition _not_applicable_range_member (member : string) (base head : evidence_item) :
    result evidence_item :=
  let! version := dict_index member _C14_ANALYZER_VERSIONS in
  Ok [("execution_state", VStr "not_applicable"); ("evidence_outcome", VStr "NOT_APPLICABLE");
      ("version", VStr version); ("diagnostic", VStr ""); ("disposition", VStr "not_applicable");
      ("base", dict_value base); ("head", dict_value head)].

(** [finding.model_copy(update={"differential_state": "unknown"})]: nothing is
    validated again. *)
Definition is_tool_error (f : ReviewFinding) : bool := bool_decide (rf_category f = ToolErrorCat).
Definition _incomplete_snapshot_findings (base_findings head_findings : list ReviewFinding) :
    list ReviewFinding :=
  (λ f, with_state DsUnknown (rf_blocking f) (rf_status f) f)
    <$> (head_findings ++ List.filter is_tool_error base_findings).

Definition range_request `{PyRepr} (context : RangeDifferentialContext)
    (base_findings head_findings : list ReviewFinding) : FindingClassificationRequest :=
  {| req_base_findings := _differential_finding_projection <$> base_findings;
     req_head_findings := _differential_finding_projection <$> head_findings;
     req_base_sources := rdc_base_sources context; req_head_sources := rdc_head_sources context;
     req_base_analysis_status := "pass";
     req_rename_facts := Some (rdc_rename_facts context);
     req_rename_ambiguities := rdc_rename_ambiguities context;
     req_deleted_paths := rdc_deleted_paths context; req_added_paths := rdc_added_paths context;
     req_source_size_override := None; req_changed_lines := None |}.

Section member.
Context `{PyRepr} `{Sha256}.

Definition differential_counts (c : DifferentialClassification) : pyval :=
  VDict [(VStr "fixed", VInt (Z.of_nat (length (dc_fixed c)))); (VStr "introduced", VInt (Z.of_nat (length (dc_introduced c))));
         (VStr "unchanged", VInt (Z.of_nat (length (dc_unchanged c)))); (VStr "unknown", VInt (Z.of_nat (length (dc_unknown c))))].

Definition _classify_range_member (member : string) (context : RangeDifferentialContext)
    (base_evidence head_evidence : evidence_item) (base_findings head_findings : list ReviewFinding) :
    result (evidence_item * list ReviewFinding) :=
  let outcome e := text_of "evidence_outcome" "UNKNOWN" e in
  if String.eqb (outcome base_evidence) "NOT_APPLICABLE" && String.eqb (outcome head_evidence) "NOT_APPLICABLE"
  then let! evidence := _not_applicable_range_member member base_evidence head_evidence in
       Ok (evidence, [])
  else if negb (_member_snapshot_is_consistent base_evidence base_findings)
          || negb (_member_snapshot_is_consistent head_evidence head_findings)
  then let! evidence := _unknown_range_member member "snapshot_member_incomplete" base_evidence
                          head_evidence in
       Ok (evidence, _incomplete_snapshot_findings base_findings head_findings)
  else
    let! classification := classify_findings (range_request context base_findings head_findings) in
    match _classified_findings classification base_findings head_findings with
    | Err (ValueError _) =>
        let! evidence := _unknown_range_member member "differential_finding_mapping_failed"
                           base_evidence head_evidence in
        Ok (evidence, [])
    | Err e => Err e
    | Ok classified =>
        let! version := dict_index member _C14_ANALYZER_VERSIONS in
        Ok ([("execution_state", VStr "ran");
             ("evidence_outcome", VStr (classification_text (dc_status classification)));
             ("version", VStr version); ("diagnostic", VStr (dc_reason classification));
             ("disposition", VStr (if bool_decide (dc_status classification = C_UNKNOWN)
                                   then "unknown" else "differential_complete"));
             ("differential_counts", differential_counts classification);
             ("differential_evidence_digest", VStr (dc_evidence_digest classification));
             ("base", dict_value base_evidence); ("head", dict_value head_evidence)], classified)
    end.

(** * Merging a fail-closed fact *)

Definition _normalized_unknown_reasons (raw_reasons : pyval) : gset string :=
  match raw_reasons with
  | VList l => list_to_set (omap (λ v, match v with
                                       | VStr s => if bool_decide (s ≠ "") then Some s else None
                                       | _ => None end) l)
  | _ => {["invalid_required_unknown_reasons"]}
  end.
Definition _preexisting_unknown_reason (outcome diagnostic : string) : string :=
  if String.eqb outcome "UNKNOWN"
  then match diagnostic with "" => "preexisting_member_unknown" | d => d end
  else if bool_decide (outcome ∈ ["PASS"; "FAIL"; "NOT_APPLICABLE"]) then ""
  else "untrusted_preexisting_member_outcome".

Definition non_empty_set (l : list string) : gset string := list_to_set (filter (λ s, s ≠ "") l).
Definition _merge_member_outcome (evidence : evidence_item) (outcome reason : string) : evidence_item :=
  let existing_outcome := text_of "evidence_outcome" "UNKNOWN" evidence in
  let existing_diagnostic := text_of "diagnostic" "" evidence in
  let diagnostics := non_empty_set [existing_diagnostic; reason] in
  let unknown_reasons :=
    _normalized_unknown_reasons (sget_default "required_unknown_reasons" (VList []) evidence)
    ∪ non_empty_set [_preexisting_unknown_reason existing_outcome existing_diagnostic]
    ∪ (if String.eqb outcome "UNKNOWN" then {[reason]} else ∅) in
  let merged_outcome :=
    if String.eqb existing_outcome "FAIL" || String.eqb outcome "FAIL" then "FAIL" else "UNKNOWN" in
  let merged := dict_merge evidence
    [("evidence_outcome", VStr merged_outcome);
     ("diagnostic", VStr (join ";" (sorted_set diagnostics)));
     ("disposition", VStr (if String.eqb merged_outcome "FAIL" then "introduced" else "unknown"))] in
  if bool_decide (unknown_reasons = ∅) then merged
  else dict_set "required_unknown_reasons" (VList (VStr <$> sorted_set unknown_reasons)) merged.

(** * The suppression delta *)

Definition _suppression_finding_category (member : string) : result category :=
  dict_index member
    [("basedpyright", TypeSafety); ("contracts", Contracts); ("pylint", CleanCode); ("ruff", Style);
     ("semgrep", Security); ("semgrep-bugs", Security); ("targeted-pytest-coverage", Testing)].

Definition or_absent (digest : string) : string := match digest with "" => "absent" | d => d end.
Definition _suppression_evidence_refs (finding : SuppressionFinding) : list EvidenceRef :=
  let evidence := sf_evidence finding in
  let transition := se_transition evidence in
  [{| er_path := Some (sf_path finding); er_start_line := Some (sf_line finding);
      er_end_line := Some (sf_line finding); er_artifact_id := Some (se_occurrence_digest evidence);
      er_description := Some (se_family evidence +:+ "; base=" +:+ or_absent (se_base_blob_digest evidence)
        +:+ "; head=" +:+ or_absent (se_head_blob_digest evidence)
        +:+ "; change=" +:+ se_changed_hunk_digest evidence) |}]
  ++ (if bool_decide (ste_base_occurrence_digest transition ≠ "") then
        [{| er_path := Some (ste_base_path transition); er_start_line := Some (ste_base_line transition);
            er_end_line := Some (ste_base_line transition);
            er_artifact_id := Some (ste_base_occurrence_digest transition);
            er_description := Some "Baseline suppression occurrence matched to the head transition." |}]
      else [])
  ++ (if bool_decide (ste_correspondence_digest transition ≠ "") then
        [{| er_path := None; er_start_line := None; er_end_line := None;
            er_artifact_id := Some (ste_correspondence_digest transition);
            er_description := Some (of_chars (dumps true
              (sort_keys (JObj (ste_correspondence_evidence transition))))) |}]
      else []).

Definition quarantine_kind : string := "unchanged_suppression_on_changed_file".
Definition _suppression_review_finding (finding : SuppressionFinding) (member : string) :
    result ReviewFinding :=
  let unknown := String.eqb (sf_kind finding) quarantine_kind in
  let! category := _suppression_finding_category member in
  let! refs := map_res validate_EvidenceRef (_suppression_evidence_refs finding) in
  validate_ReviewFinding
    {| rf_category := category; rf_severity := SevError; rf_tool := member; rf_rule := sf_kind finding;
       rf_file := sf_path finding; rf_line := sf_line finding;
       rf_message := "C14 suppression control requires "
         +:+ (if unknown then "unknown" else "introduced") +:+ " disposition for " +:+ member +:+ ".";
       rf_fixable := false; rf_status := StOpen;
       rf_differential_state := Some (if unknown then DsUnknown else DsIntroduced);
       rf_autofix_available := None; rf_blocking := Some (sf_blocking finding);
       rf_execution_state := None; rf_evidence_outcome := None; rf_evidence_refs := Some refs;
       rf_confidence := None; rf_rewrite_hint := None; rf_canonical_pattern := None;
       rf_intent_key := None; rf_estimated_deletion_lines := None; rf_related_locations := None;
       rf_guidance_kind := None; rf_recommended_action := None; rf_clean_code_principle := None;
       rf_rationale := None; rf_safety_checks := None; rf_preserve_reason := None;
       rf_action_status := None; rf_before_ref := None; rf_after_ref := None; rf_improvement := None;
       rf_signal_trace := None; rf_preserve_reasons := None; rf_remediation_packet := None |}.

(** [{**item.model_dump(exclude={"blocking"}), "differential_state": "unknown", "status": "open"}] *)
Definition is_fixed (f : ReviewFinding) : bool :=
  match rf_differential_state f with Some DsFixed => true | _ => false end.
Definition _reclassify_missing_base_findings (findings : list ReviewFinding) (path : string) :
    result (list ReviewFinding) :=
  map_res (λ item,
    if String.eqb (rf_file item) path && is_fixed item
    then validate_ReviewFinding (with_state DsUnknown None StOpen item) else Ok item) findings.

(** The members' evidence and findings while the delta is applied *)
Definition range_state : Type := list (string * evidence_item) * list (string * list ReviewFinding).

Definition apply_to_member (suppression : SuppressionClassification) (finding : SuppressionFinding)
    (st : range_state) (member : string) : result range_state :=
  let (combined, findings_by_member) := st in
  match dict_get member combined with
  | None => Ok st
  | Some evidence =>
      if is_str "NOT_APPLICABLE" (sget "evidence_outcome" evidence) then Ok st
      else
        let state := if String.eqb (sf_kind finding) quarantine_kind then "UNKNOWN" else "FAIL" in
        let! review_finding := _suppression_review_finding finding member in
        let findings_by_member := dict_append member review_finding findings_by_member in
        let combined := dict_set member (_merge_member_outcome evidence state (sf_kind finding)) combined in
        if String.eqb (scl_missing_base_disposition suppression) "unknown"
        then let! reclassified := _reclassify_missing_base_findings
                                    (bucket member findings_by_member) (sf_path finding) in
             Ok (combined, dict_set member reclassified findings_by_member)
        else Ok (combined, findings_by_member)
  end.

Definition unknown_reason (suppression : SuppressionClassification) : string :=
  match scl_reason suppression with "" => "suppression_manifest_unknown" | r => r end.
Definition _apply_suppression_delta (suppression : SuppressionClassification) (st : range_state) :
    result range_state :=
  if bool_decide (scl_status suppression = C_UNKNOWN) && bool_decide (length (scl_findings suppression) = 0)
  then
    let! combined := fold_res (λ combined member,
      let! evidence := dict_index member combined in
      Ok (dict_set member (_merge_member_outcome evidence "UNKNOWN" (unknown_reason suppression)) combined))
      st.1 (all_ids default_pr_range_profile) in
    Ok (combined, st.2)
  else
    fold_res (λ st finding,
      fold_res (apply_to_member suppression finding) st (se_analyzers (sf_evidence finding)))
      st (scl_findings suppression).

(** * All members *)

Record CapsuleSnapshotResult := {
  csr_evidence : list (string * evidence_item);
  csr_findings_by_member : list (string * list ReviewFinding)
}.

Definition classify_member_step (context : RangeDifferentialContext) (base head : CapsuleSnapshotResult)
    (st : range_state) (member : string) : result range_state :=
  let! base_evidence := dict_index member (csr_evidence base) in
  let! head_evidence := dict_index member (csr_evidence head) in
  let! (evidence, findings) := _classify_range_member member context base_evidence head_evidence
    (bucket member (csr_findings_by_member base)) (bucket member (csr_findings_by_member head)) in
  Ok (dict_set member evidence st.1, dict_set member findings st.2).

Context `{Tokenize}.

Definition _classify_range_findings (r : ScopeResolution) (base_snapshot head_snapshot : Snapshot)
    (base head : CapsuleSnapshotResult) : result range_state :=
  let context := _range_differential_context r base_snapshot head_snapshot in
  let! st := fold_res (classify_member_step context base head) ([], [])
               (all_ids default_pr_range_profile) in
  let! suppression := classify_suppression_delta (rdc_base_sources context) (rdc_head_sources context)
    (Some (rdc_rename_facts context))
    (Some (_differential_finding_projection <$> mjoin (dict_values (csr_findings_by_member base)))) None in
  _apply_suppression_delta suppression st.
End member.
