(* ===== verification/RangeReviewProofs.v ===== *)
(** RangeReviewProofs: the classification of a member's findings maps every
    classified finding back to one analyzer finding, and what a passing range
    says about the analyzers and the suppressions. *)

From S2P Require Import Prelude Text Dict PyValue Json Findings FindingsProofs Correspondence.
From S2P Require Import CorrespondenceProofs Differential DifferentialProofs Suppression SuppressionProofs Scope RangeReview.

(** * Normalised messages *)

Definition word (w : list ascii) : Prop := w ≠ [] ∧ Forall (λ c, is_space c = false) w.
Lemma split_ws_words s w : w ∈ split_ws s → word (chars w).
Proof.
  unfold split_ws. intros (l & -> & [Hn Hl]%list_elem_of_filter)%list_elem_of_fmap. rewrite chars_of_chars.
  split; [done|]. apply Forall_forall. intros c Hc. by eapply split_chars_no_sep.
Qed.
Lemma split_ws_join ws : Forall (λ w, word (chars w)) ws → split_ws (join " " ws) = ws.
Proof.
  unfold split_ws. induction 1 as [|w ws [Hn Hw] _ IH]; [done|]. destruct ws as [|w' ws].
  - cbn [join]. rewrite split_chars_single by done. rewrite filter_cons_True by done. cbn.
    by rewrite of_chars_chars.
  - cbn [join]. rewrite !chars_app. change (chars " " ++ ?l) with (" "%char :: l).
    rewrite split_chars_app by done. rewrite filter_cons_True, fmap_cons, of_chars_chars by done.
    f_equal. exact IH.
Qed.
Lemma normalize_ws_idem s : normalize_ws (normalize_ws s) = normalize_ws s.
Proof.
  unfold normalize_ws at 1. unfold normalize_ws at 1. rewrite split_ws_join; [done|].
  apply Forall_forall. intros w. apply split_ws_words.
Qed.

(** * The multimaps of the mapping *)

Definition pool (d : by_key) : list ReviewFinding := mjoin (dict_values d).
Definition well_keyed (d : by_key) : Prop :=
  dict_wf d ∧ ∀ k l, (k, l) ∈ d → Forall (λ f, review_finding_key f = k) l.

Lemma pool_set_fresh k l d : k ∉ dict_keys d → pool (dict_set k l d) = pool d ++ l.
Proof.
  intros Hk. rewrite dict_set_fresh by done. unfold pool, dict_values.
  rewrite fmap_app, join_app. cbn. by rewrite app_nil_r.
Qed.
Lemma pool_set k l l' d :
  dict_get k d = Some l → pool (dict_set k l' d) ++ l ≡ₚ pool d ++ l'.
Proof.
  induction d as [|[k2 l2] d IH]; [done|]. cbn [dict_get dict_set]. case_decide as E.
  - intros [= ->]. subst. change (pool ((k2, ?x) :: d)) with (x ++ pool d). solve_Permutation.
  - intros Hg. change (pool ((k2, l2) :: ?x)) with (l2 ++ pool x). rewrite <-!app_assoc. by rewrite IH.
Qed.
Lemma pool_append f d : pool (dict_append (review_finding_key f) f d) ≡ₚ f :: pool d.
Proof.
  unfold dict_append. destruct (dict_get (review_finding_key f) d) as [l|] eqn:E; cbn [default].
  - pose proof (pool_set _ _ (l ++ [f]) _ E) as Hp. apply (Permutation_app_inv_r l). rewrite Hp.
    solve_Permutation.
  - apply dict_get_None in E. rewrite pool_set_fresh by done. cbn. solve_Permutation.
Qed.
Lemma well_keyed_set k l d :
  well_keyed d → Forall (λ f, review_finding_key f = k) l → well_keyed (dict_set k l d).
Proof.
  intros [Hw Hk] Hl. split; [by apply dict_wf_set|]. intros k2 l2 Hin.
  apply dict_get_elem in Hin; [|by apply dict_wf_set]. rewrite dict_get_set in Hin. case_decide.
  - by simplify_eq.
  - apply dict_get_Some_elem in Hin. by apply Hk.
Qed.
Lemma bucket_keyed k d : well_keyed d → Forall (λ f, review_finding_key f = k) (bucket k d).
Proof.
  intros [Hw Hk]. unfold bucket. destruct (dict_get k d) as [l|] eqn:E; [|constructor].
  by apply dict_get_Some_elem, Hk in E.
Qed.
Lemma group_by_pool l :
  pool (group_by review_finding_key l) ≡ₚ l ∧ well_keyed (group_by review_finding_key l).
Proof.
  unfold group_by.
  assert (Hgo : ∀ d, well_keyed d →
    pool (foldl (λ d x, dict_append (review_finding_key x) x d) d l) ≡ₚ pool d ++ l ∧
    well_keyed (foldl (λ d x, dict_append (review_finding_key x) x d) d l)).
  { induction l as [|f l IH]; intros d Hd; cbn [foldl]; [by rewrite app_nil_r|].
    destruct (IH (dict_append (review_finding_key f) f d)) as [H1 H2].
    { apply well_keyed_set; [done|]. apply Forall_app. split; [by apply bucket_keyed|by constructor]. }
    split; [|done]. rewrite H1, pool_append. solve_Permutation. }
  destruct (Hgo []) as [H1 H2]; [split; [apply dict_wf_nil|by intros ?? ?%not_elem_of_nil]|].
  by split.
Qed.
Lemma pool_bucket f d : well_keyed d → f ∈ pool d → f ∈ bucket (review_finding_key f) d.
Proof.
  intros [Hw Hk] Hf. unfold pool in Hf. apply list_elem_of_join in Hf as (l & Hf & Hl).
  unfold dict_values in Hl. apply list_elem_of_fmap in Hl as ([k l'] & -> & Hin). cbn in Hf.
  pose proof (Hk k l' Hin) as Hall. rewrite Forall_forall in Hall. rewrite (Hall f Hf). unfold bucket.
  by rewrite (dict_get_elem _ _ _ Hw Hin).
Qed.

(** Popping takes one finding with the key out of the two maps. *)
Lemma pop_candidate_some key p q :
  well_keyed p → well_keyed q → key ∈ (review_finding_key <$> pool p ++ pool q) →
  ∃ f p' q', pop_candidate key p q = Some (f, p', q') ∧ review_finding_key f = key ∧
    well_keyed p' ∧ well_keyed q' ∧ f :: pool p' ++ pool q' ≡ₚ pool p ++ pool q.
Proof.
  intros Hp Hq Hin. unfold pop_candidate.
  assert (Hpop : ∀ d g l, well_keyed d → bucket key d = g :: l →
    review_finding_key g = key ∧ well_keyed (dict_set key l d) ∧ g :: pool (dict_set key l d) ≡ₚ pool d).
  { intros d g l Hd E. pose proof (bucket_keyed key d Hd) as Hall. rewrite E in Hall.
    apply Forall_cons in Hall as [Hg Hl]. split; [done|]. split; [by apply well_keyed_set|].
    unfold bucket in E. destruct (dict_get key d) as [l0|] eqn:E0; [|done]. cbn in E. subst l0.
    pose proof (pool_set _ _ l _ E0) as Hperm. apply (Permutation_app_inv_r l). rewrite <-Hperm.
    solve_Permutation. }
  destruct (bucket key p) as [|g l] eqn:Ep.
  - destruct (bucket key q) as [|g l] eqn:Eq.
    + exfalso. apply list_elem_of_fmap in Hin as (f & -> & [Hf|Hf]%elem_of_app);
        apply pool_bucket in Hf; try done; [rewrite Ep in Hf|rewrite Eq in Hf]; by apply not_elem_of_nil in Hf.
    + destruct (Hpop q g l Hq Eq) as (Hg & Hk & Hperm). do 3 eexists. split_and!; [done|done|done|done|].
      rewrite <-Hperm. solve_Permutation.
  - destruct (Hpop p g l Hp Ep) as (Hg & Hk & Hperm). do 3 eexists. split_and!; [done|done|done|done|].
    rewrite <-Hperm. solve_Permutation.
Qed.

(** An update of a validated finding is valid as it is. *)
Definition valid_finding (f : ReviewFinding) : Prop := validate_ReviewFinding f = Ok f.
Lemma derive_fixpoint f :
  rf_blocking f = Some (expected_blocking f) → rf_autofix_available f = Some (rf_fixable f) →
  _derive_c14_lifecycle_fields f = Ok f.
Proof.
  intros Hb Ha. unfold _derive_c14_lifecycle_fields. rewrite Hb, Ha, !Bool.eqb_reflx. cbn [check res_bind].
  f_equal. rewrite <-Hb, <-Ha. by destruct f.
Qed.
Lemma state_update_valid state f : valid_finding f → valid_finding (state_update state f).
Proof.
  intros Hf. pose proof (validate_finding_inv _ _ Hf) as (_ & _ & Hg & Hl).
  pose proof (lifecycle_fields_inv _ _ Hl) as Hlc.
  assert (Hb : rf_blocking f = Some (expected_blocking f) ∧ rf_autofix_available f = Some (rf_fixable f)).
  { rewrite Hlc. by destruct f. }
  destruct Hb as [Hb Ha]. unfold valid_finding, validate_ReviewFinding in *.
  assert (Hfields : ∀ s b st, validate_ReviewFinding_fields (with_state s b st f) = validate_ReviewFinding_fields f)
    by reflexivity.
  assert (Hguide : ∀ s b st, _validate_guided_metadata (with_state s b st f) = Ok (with_state s b st f)).
  { intros s b st. clear -Hg. revert Hg. unfold _validate_guided_metadata. simpl. case_match; intros; res_inv;
    by repeat match goal with E : ?b = true |- context [check ?b _] => rewrite E; simpl end. }
  destruct (validate_ReviewFinding_fields f) eqn:Ef; [|done]. cbn [res_bind] in Hf.
  unfold state_update. destruct state; rewrite Hfields; cbn [res_bind]; rewrite Hguide; cbn [res_bind];
    (apply derive_fixpoint; [|exact Ha]); [exact Hb| |exact Hb..].
  unfold expected_blocking. cbn. by rewrite andb_false_r.
Qed.

(** One state's findings: each takes an analyzer finding with its key. *)
Lemma classified_in_state_ok state findings b h :
  well_keyed b → well_keyed h → Forall valid_finding (pool b ++ pool h) →
  _differential_finding_key <$> findings ⊆+ review_finding_key <$> pool b ++ pool h →
  ∃ originals b' h',
    classified_in_state state findings b h = Ok (state_update state <$> originals, b', h') ∧
    review_finding_key <$> originals = _differential_finding_key <$> findings ∧
    originals ++ pool b' ++ pool h' ≡ₚ pool b ++ pool h ∧ well_keyed b' ∧ well_keyed h'.
Proof.
  revert b h. induction findings as [|x findings IH]; intros b h Hb Hh Hv Hsub.
  - exists [], b, h. by split_and!.
  - cbn [classified_in_state]. rewrite fmap_cons in Hsub.
    assert (Hin : _differential_finding_key x ∈ (review_finding_key <$> pool b ++ pool h)).
    { eapply elem_of_submseteq; [|exact Hsub]. left. }
    assert (Hpop : ∃ f b' h',
      match state with
      | DsFixed => pop_candidate (_differential_finding_key x) b h
      | _ => (λ p : ReviewFinding * by_key * by_key, (p.1.1, p.2, p.1.2))
               <$> pop_candidate (_differential_finding_key x) h b
      end = Some (f, b', h') ∧ review_finding_key f = _differential_finding_key x ∧
      well_keyed b' ∧ well_keyed h' ∧ f :: pool b' ++ pool h' ≡ₚ pool b ++ pool h).
    { destruct (pop_candidate_some _ b h Hb Hh Hin) as (f & b' & h' & E & Hk & Hb' & Hh' & Hp).
      assert (Hin' : _differential_finding_key x ∈ (review_finding_key <$> pool h ++ pool b)).
      { by rewrite (Permutation_app_comm (pool h) (pool b)). }
      destruct (pop_candidate_some _ h b Hh Hb Hin') as (g & h2 & b2 & E2 & Hk2 & Hh2 & Hb2 & Hp2).
      destruct state; rewrite ?E, ?E2; cbn; do 3 eexists; (split_and!; [done|..]); try done;
        rewrite (Permutation_app_comm (pool b2)), Hp2; apply Permutation_app_comm. }
    destruct Hpop as (f & b' & h' & -> & Hk & Hb' & Hh' & Hp).
    assert (Hvf : Forall valid_finding (f :: pool b' ++ pool h')) by (by rewrite Hp).
    apply Forall_cons in Hvf as [Hf Hv']. rewrite (state_update_valid state f Hf). cbn [res_bind].
    destruct (IH b' h' Hb' Hh' Hv') as (originals & b2 & h2 & E & Hks & Hp2 & Hb2 & Hh2).
    { rewrite <-Hp, fmap_cons, Hk in Hsub. by apply (submseteq_app_inv_l _ _ [_]) in Hsub. }
    exists (f :: originals), b2, h2. rewrite E. cbn [res_bind]. split_and!; [done| |by rewrite <-Hp, <-Hp2|done..].
    by rewrite !fmap_cons, Hk, Hks.
Qed.

(** The same with what the next states still need *)
Lemma classified_in_state_step state findings rest b h :
  well_keyed b ∧ well_keyed h ∧ Forall valid_finding (pool b ++ pool h) →
  (_differential_finding_key <$> findings) ++ rest ⊆+ review_finding_key <$> pool b ++ pool h →
  ∃ originals b' h',
    classified_in_state state findings b h = Ok (state_update state <$> originals, b', h') ∧
    review_finding_key <$> originals = _differential_finding_key <$> findings ∧
    originals ++ pool b' ++ pool h' ≡ₚ pool b ++ pool h ∧
    Forall valid_finding (state_update state <$> originals) ∧
    (well_keyed b' ∧ well_keyed h' ∧ Forall valid_finding (pool b' ++ pool h')) ∧
    rest ⊆+ review_finding_key <$> pool b' ++ pool h'.
Proof.
  intros (Hb & Hh & Hv) Hsub.
  destruct (classified_in_state_ok state findings b h Hb Hh Hv) as (o & b' & h' & E & K & P & Hb' & Hh').
  { etrans; [|exact Hsub]. by apply submseteq_inserts_r. }
  exists o, b', h'. rewrite <-P in Hv. apply Forall_app in Hv as [Hvo Hv']. split_and!; try done.
  - apply Forall_fmap. eapply Forall_impl; [exact Hvo|]. intros f. apply state_update_valid.
  - rewrite <-P, fmap_app, K in Hsub. by apply submseteq_app_inv_l in Hsub.
Qed.

(** * The classification of a member *)

Section member.
Context `{PyRepr} `{Sha256}.

Definition projected (f : ReviewFinding) : DifferentialFinding :=
  {| df_analyzer := rf_tool f; df_rule := rf_rule f; df_severity := severity_text (rf_severity f);
     df_path := rf_file f; df_line := rf_line f; df_message := normalize_ws (rf_message f);
     df_blocking := is_blocking f |}.
Lemma finding_of_projection f : _finding (_differential_finding_projection f) = Ok (projected f).
Proof. reflexivity. Qed.
Lemma findings_of_projections l :
  map_res _finding (_differential_finding_projection <$> l) = Ok (projected <$> l).
Proof. induction l as [|f l IH]; [done|]. cbn [fmap list_fmap map_res]. rewrite finding_of_projection. cbn [res_bind]. by rewrite IH. Qed.
Lemma projected_key f : _differential_finding_key (projected f) = review_finding_key f.
Proof.
  unfold _differential_finding_key, review_finding_key, projected.
  cbn [df_analyzer df_rule df_path df_line df_message df_severity df_blocking]. by rewrite normalize_ws_idem.
Qed.

(** Whatever branch is taken, the classified values are base and head values,
    each once, and every head value is in one of the current states. *)
Lemma classify_values_sub request base_values head_values :
  req_base_analysis_status request = "pass" →
  let c := classify_values request base_values head_values in
  dc_introduced c ++ dc_unchanged c ++ dc_fixed c ++ dc_unknown c ⊆+ base_values ++ head_values ∧
  head_values ⊆+ dc_introduced c ++ dc_unchanged c ++ dc_unknown c ∧
  dc_fixed c ⊆+ base_values.
Proof.
  intros Hpass c. destruct (has_ambiguities request || oversized request) eqn:E.
  - assert (Hc : dc_introduced c = [] ∧ dc_unchanged c = [] ∧ dc_fixed c = [] ∧
                 dc_unknown c = list_or head_values base_values).
    { unfold c, classify_values, _early_classification. rewrite Hpass, E. done. }
    destruct Hc as (-> & -> & -> & ->). cbn [app]. split_and!; [| |apply submseteq_nil_l].
    + destruct head_values; cbn; [apply submseteq_inserts_r; done|by apply submseteq_inserts_l].
    + destruct head_values; [apply submseteq_nil_l|done].
  - apply orb_false_iff in E as [E1 E2].
    destruct (conserves_spec request base_values head_values) as (uh & ub & H1 & H2 & H3); [by split|].
    fold c in H1, H2, H3. split_and!.
    + rewrite H1, H2.
      transitivity ((dc_introduced c ++ dc_unchanged c ++ uh) ++ (ub ++ dc_fixed c)).
      { apply Permutation_submseteq. solve_Permutation. }
      etrans; [apply submseteq_app; [done|exact H3]|]. apply Permutation_submseteq, Permutation_app_comm.
    + rewrite H1, H2. rewrite !(app_assoc _ _ (uh ++ ub)). rewrite (app_assoc _ uh).
      rewrite !app_assoc. by apply submseteq_inserts_r.
    + etrans; [|exact H3]. by apply submseteq_inserts_l.
Qed.

(** C26 The classification of a member always maps back to the analyzers'
    findings.  For validated findings of both sides it never fails (so the
    branch that would turn the member unknown for that reason is not taken):
    the result is the introduced, unchanged, fixed and unknown findings in that
    order, each an analyzer finding with only its differential state set (a
    fixed one closed and not blocking), no finding used twice, every finding of
    the head among the introduced, unchanged and unknown ones, and all of them
    valid. *)
Theorem classified_findings_total (context : RangeDifferentialContext) (base head : list ReviewFinding) :
  Forall valid_finding (base ++ head) →
  ∃ c introduced unchanged fixed unknown,
    classify_findings (range_request context base head) = Ok c ∧
    _classified_findings c base head
      = Ok ((state_update DsIntroduced <$> introduced) ++ (state_update DsUnchanged <$> unchanged)
            ++ (state_update DsFixed <$> fixed) ++ (state_update DsUnknown <$> unknown)) ∧
    introduced ++ unchanged ++ fixed ++ unknown ⊆+ base ++ head ∧
    (review_finding_key <$> head) ⊆+ (review_finding_key <$> introduced ++ unchanged ++ unknown) ∧
    (review_finding_key <$> fixed) ⊆+ (review_finding_key <$> base) ∧
    Forall valid_finding ((state_update DsIntroduced <$> introduced) ++ (state_update DsUnchanged <$> unchanged)
            ++ (state_update DsFixed <$> fixed) ++ (state_update DsUnknown <$> unknown)).
Proof.
  intros Hv. set (request := range_request context base head).
  set (c := classify_values request (projected <$> base) (projected <$> head)).
  assert (Hc : classify_findings request = Ok c).
  { unfold classify_findings, request, range_request. cbn [req_base_findings req_head_findings].
    by rewrite !findings_of_projections. }
  destruct (classify_values_sub request (projected <$> base) (projected <$> head) eq_refl) as (H1 & H2 & H3).
  fold c in H1, H2, H3.
  assert (Hkeys : ∀ l : list ReviewFinding, _differential_finding_key <$> (projected <$> l) = review_finding_key <$> l).
  { intros l. rewrite <-list_fmap_compose. apply list_fmap_ext. intros i f _. apply projected_key. }
  apply (fmap_submseteq _differential_finding_key) in H1, H2, H3.
  rewrite (fmap_app _ (projected <$> base)), !Hkeys, !fmap_app in H1. rewrite !Hkeys in H2, H3.
  destruct (group_by_pool base) as [Pb Kb]. destruct (group_by_pool head) as [Ph Kh].
  rewrite <-(fmap_app _ base), <-Pb, <-Ph in H1.
  assert (Hpool : well_keyed (group_by review_finding_key base) ∧ well_keyed (group_by review_finding_key head) ∧
    Forall valid_finding (pool (group_by review_finding_key base) ++ pool (group_by review_finding_key head)))
    by (by rewrite Pb, Ph).
  destruct (classified_in_state_step DsIntroduced _ _ _ _ Hpool H1) as (o1 & b1 & h1 & E1 & K1 & P1 & V1 & W1 & S1).
  destruct (classified_in_state_step DsUnchanged _ _ _ _ W1 S1) as (o2 & b2 & h2 & E2 & K2 & P2 & V2 & W2 & S2).
  destruct (classified_in_state_step DsFixed _ _ _ _ W2 S2) as (o3 & b3 & h3 & E3 & K3 & P3 & V3 & W3 & S3).
  rewrite <-(app_nil_r (_differential_finding_key <$> dc_unknown c)) in S3.
  destruct (classified_in_state_step DsUnknown _ _ _ _ W3 S3) as (o4 & b4 & h4 & E4 & K4 & P4 & V4 & W4 & S4).
  exists c, o1, o2, o3, o4. split; [done|]. split_and!.
  - unfold _classified_findings. rewrite E1. cbn [res_bind]. rewrite E2. cbn [res_bind].
    rewrite E3. cbn [res_bind]. by rewrite E4.
  - rewrite <-Pb, <-Ph, <-P1, <-P2, <-P3, <-P4. rewrite !app_assoc.
    rewrite <-(app_assoc _ (pool b4)). by apply submseteq_inserts_r.
  - by rewrite !fmap_app, K1, K2, K4, <-!fmap_app.
  - by rewrite K3.
  - by rewrite !Forall_app.
Qed.
End member.

(** * Folding over the members *)

(** When no state is [Bad] at the end and a step changes what [get] reads only
    by making the state [Bad], every step read the same. *)
Lemma fold_res_unless {A B C} (f : B → A → result B) (get : B → C) (Bad : B → Prop) acc l out :
  fold_res f acc l = Ok out →
  (∀ x b b', x ∈ l → f b x = Ok b' → (Bad b → Bad b') ∧ (Bad b' ∨ get b' = get b)) →
  ¬ Bad out →
  get out = get acc ∧ ∀ x, x ∈ l → ∃ b b', f b x = Ok b' ∧ get b = get acc ∧ ¬ Bad b'.
Proof.
  revert acc. induction l as [|x l IH]; intros acc Hf Hstep Hout; cbn in Hf.
  - injection Hf as <-. split; [done|]. by intros x ?%not_elem_of_nil.
  - destruct (f acc x) as [acc'|] eqn:E; [|done]. cbn in Hf.
    assert (Hstep' : ∀ y b b', y ∈ l → f b y = Ok b' → (Bad b → Bad b') ∧ (Bad b' ∨ get b' = get b)).
    { intros y b b' Hy. apply Hstep. by right. }
    destruct (Hstep x acc acc') as [_ Hx]; [left|done|].
    assert (Hnot : ¬ Bad acc').
    { intros Hb. apply Hout. eapply fold_res_inv; [exact Hf|exact Hb|].
      intros y b b' Hy Hbb Hfb. by apply (Hstep' y b b'). }
    destruct Hx as [|Hget]; [done|]. destruct (IH acc' Hf Hstep' Hout) as [IH1 IH2].
    split; [congruence|]. intros y [-> |Hy]%elem_of_cons.
    + exists acc, acc'. by split_and!.
    + destruct (IH2 y Hy) as (b & b' & ? & ? & ?). exists b, b'. split_and!; [done|congruence|done].
Qed.

(** * The delta only makes outcomes worse *)

Section delta.
Context `{PyRepr} `{Sha256}.

Definition outcome_of (evidence : evidence_item) : string := text_of "evidence_outcome" "UNKNOWN" evidence.
Definition bad (evidence : evidence_item) : Prop :=
  outcome_of evidence = "FAIL" ∨ outcome_of evidence = "UNKNOWN".
Definition bad_at (member : string) (combined : list (string * evidence_item)) : Prop :=
  ∃ evidence, dict_get member combined = Some evidence ∧ bad evidence.

Lemma merge_member_outcome_bad evidence outcome reason : bad (_merge_member_outcome evidence outcome reason).
Proof.
  unfold bad, outcome_of, text_of, _merge_member_outcome.
  set (merged := if _ || _ then "FAIL" else "UNKNOWN").
  assert (Hm : merged = "FAIL" ∨ merged = "UNKNOWN") by (unfold merged; case_match; auto).
  set (d := dict_merge evidence _).
  assert (Hd : sget_default "evidence_outcome" (VStr "UNKNOWN") d = VStr merged).
  { unfold sget_default, d. rewrite dict_get_merge; [done|].
    by apply (bool_decide_unpack _); vm_compute. }
  case_bool_decide; [by rewrite Hd|].
  unfold sget_default in *. rewrite dict_get_set_ne by done. by rewrite Hd.
Qed.

(** One member of one finding: other members are left alone, and this one is
    absent, not applicable, or bad afterwards. *)
Lemma apply_to_member_spec suppression finding st member st' :
  apply_to_member suppression finding st member = Ok st' →
  (∀ m, m ≠ member → dict_get m st'.1 = dict_get m st.1) ∧
  (st'.1 = st.1 ∧ (∀ evidence, dict_get member st.1 = Some evidence → outcome_of evidence = "NOT_APPLICABLE")
   ∨ bad_at member st'.1).
Proof.
  unfold apply_to_member. destruct st as [combined fbm]. cbn [fst].
  destruct (dict_get member combined) as [evidence|] eqn:E.
  2:{ intros [= <-]. split; [done|]. left. split; [done|]. intros ev Hev. cbn [fst] in Hev. congruence. }
  destruct (is_str "NOT_APPLICABLE" (sget "evidence_outcome" evidence)) eqn:En.
  { intros [= <-]. split; [done|]. left. split; [done|]. intros ev [= <-].
    unfold outcome_of, text_of. unfold sget, sget_default in *.
    destruct (dict_get "evidence_outcome" evidence) as [v|]; [|done]. cbn in En |- *.
    destruct v; try done. apply (bool_decide_eq_true_1 _) in En. by injection En as ->. }
  intros Hr. assert (Hst : st'.1 = dict_set member (_merge_member_outcome evidence
      (if String.eqb (sf_kind finding) quarantine_kind then "UNKNOWN" else "FAIL") (sf_kind finding)) combined).
  { destruct (_suppression_review_finding finding member); [|done]. cbn [res_bind] in Hr.
    destruct (String.eqb (scl_missing_base_disposition suppression) "unknown").
    - destruct (_reclassify_missing_base_findings _ _); [|done]. cbn in Hr. by injection Hr as <-.
    - cbn in Hr. by injection Hr as <-. }
  rewrite Hst. split; [intros m Hm; by rewrite dict_get_set_ne|]. right.
  eexists. rewrite dict_get_set_eq. split; [done|]. apply merge_member_outcome_bad.
Qed.
Lemma apply_to_member_bad suppression finding st member st' m :
  apply_to_member suppression finding st member = Ok st' → bad_at m st.1 → bad_at m st'.1.
Proof.
  intros Ha Hb. destruct (apply_to_member_spec _ _ _ _ _ Ha) as [Hne Hm].
  destruct (decide (m = member)) as [->|N]; [destruct Hm as [[-> _]|]; done|].
  unfold bad_at. by rewrite Hne.
Qed.

Lemma bad_at_dec m combined : bad_at m combined ∨ ¬ bad_at m combined.
Proof.
  unfold bad_at. destruct (dict_get m combined) as [ev|]; [|right; by intros (? & ? & _)].
  destruct (decide (outcome_of ev = "FAIL" ∨ outcome_of ev = "UNKNOWN")) as [Hd|Hd]; [by left; eexists|].
  right. by intros (ev' & [= <-] & Hb).
Qed.
Lemma apply_to_member_step suppression finding m b member b' :
  apply_to_member suppression finding b member = Ok b' →
  (bad_at m b.1 → bad_at m b'.1) ∧ (bad_at m b'.1 ∨ dict_get m b'.1 = dict_get m b.1).
Proof.
  intros Hb. split; [by apply (apply_to_member_bad _ _ _ _ _ _ Hb)|].
  destruct (apply_to_member_spec _ _ _ _ _ Hb) as [Hne Hm].
  destruct (decide (m = member)) as [->|N]; [destruct Hm as [[-> _]|]; auto|right; by apply Hne].
Qed.
Lemma apply_finding_step suppression finding m b b' :
  fold_res (apply_to_member suppression finding) b (se_analyzers (sf_evidence finding)) = Ok b' →
  (bad_at m b.1 → bad_at m b'.1) ∧ (bad_at m b'.1 ∨ dict_get m b'.1 = dict_get m b.1).
Proof.
  intros Hb. split.
  - intros Hbad. eapply (fold_res_inv _ (λ b, bad_at m b.1)); [exact Hb|done|].
    intros x c c' _ Hc Hx. by eapply apply_to_member_step.
  - destruct (bad_at_dec m b'.1) as [|Hnot]; [by left|right].
    eapply (fold_res_unless _ (λ b : range_state, dict_get m b.1) (λ b, bad_at m b.1)); [exact Hb| |exact Hnot].
    intros x c c' _. apply apply_to_member_step.
Qed.

(** A member that is not bad afterwards has the evidence it had, and every
    finding that names it found it not applicable. *)
Lemma suppression_delta_spares suppression st st' m evidence :
  _apply_suppression_delta suppression st = Ok st' →
  m ∈ all_ids default_pr_range_profile →
  dict_get m st'.1 = Some evidence → ¬ bad evidence →
  ¬ (scl_status suppression = C_UNKNOWN ∧ scl_findings suppression = []) ∧
  dict_get m st.1 = Some evidence ∧
  (∀ finding, finding ∈ scl_findings suppression → m ∈ se_analyzers (sf_evidence finding) →
     outcome_of evidence = "NOT_APPLICABLE").
Proof.
  unfold _apply_suppression_delta. intros Ha Hm Hg Hnb.
  assert (Hnb' : ¬ bad_at m st'.1).
  { intros (ev & Hev & Hb). rewrite Hg in Hev. by injection Hev as <-. }
  destruct (bool_decide (scl_status suppression = C_UNKNOWN) && bool_decide (length (scl_findings suppression) = 0)) eqn:E.
  - exfalso. destruct (fold_res _ st.1 _) as [combined|] eqn:Ef; [|done]. cbn in Ha. injection Ha as <-.
    apply Hnb'. cbn [fst]. eapply (fold_res_reach _ (bad_at m) _ _ _ m); [exact Ef|exact Hm| |].
    + intros b b' Hb. cbn beta in Hb. destruct (dict_index m b); [|done]. cbn in Hb. injection Hb as <-.
      eexists. rewrite dict_get_set_eq. split; [done|]. apply merge_member_outcome_bad.
    + intros y b b' _ (ev & Hev & Hbad) Hb. cbn beta in Hb. destruct (dict_index y b); [|done]. cbn in Hb. injection Hb as <-.
      unfold bad_at. rewrite dict_get_set. destruct (decide (m = y)); [|by eexists].
      eexists. split; [done|]. apply merge_member_outcome_bad.
  - split.
    { intros [Hs Hf]. rewrite Hs, Hf in E. done. }
    apply (fold_res_unless _ (λ b : range_state, dict_get m b.1) (λ b, bad_at m b.1)) in Ha as [Hsame Hall];
      [|intros finding b b' _; apply apply_finding_step|done].
    rewrite Hsame in Hg. split; [done|]. intros finding Hf Hin.
    destruct (Hall finding Hf) as (b & b' & Hb & Hget & Hnot).
    apply (fold_res_unless _ (λ b : range_state, dict_get m b.1) (λ b, bad_at m b.1)) in Hb as [_ Hall2];
      [|intros mb c c' _; apply apply_to_member_step|done].
    destruct (Hall2 m Hin) as (c & c' & Hc & Hget2 & Hnot2).
    apply apply_to_member_spec in Hc as [_ [[_ Hna]|]]; [|done]. apply Hna. by rewrite Hget2, Hget.
Qed.
End delta.

(** * All members *)

Section members.
Context `{PyRepr} `{Sha256} `{Tokenize}.

(** What is known of a member that is neither failing nor unknown. *)
Definition member_passes (context : RangeDifferentialContext) (base head : CapsuleSnapshotResult)
    (member : string) : Prop :=
  ∃ base_evidence head_evidence,
    dict_get member (csr_evidence base) = Some base_evidence ∧
    dict_get member (csr_evidence head) = Some head_evidence ∧
    (outcome_of base_evidence = "NOT_APPLICABLE" ∧ outcome_of head_evidence = "NOT_APPLICABLE" ∨
     _member_snapshot_is_consistent base_evidence (bucket member (csr_findings_by_member base)) = true ∧
     _member_snapshot_is_consistent head_evidence (bucket member (csr_findings_by_member head)) = true ∧
     Forall (λ f, is_blocking f = false) (bucket member (csr_findings_by_member head)) ∧
     default [] (rdc_rename_ambiguities context) = []).
Definition member_not_applicable (base head : CapsuleSnapshotResult) (member : string) : Prop :=
  ∃ base_evidence head_evidence,
    dict_get member (csr_evidence base) = Some base_evidence ∧
    dict_get member (csr_evidence head) = Some head_evidence ∧
    outcome_of base_evidence = "NOT_APPLICABLE" ∧ outcome_of head_evidence = "NOT_APPLICABLE".

Lemma dict_index_Ok {V} k (d : list (string * V)) v : dict_index k d = Ok v ↔ dict_get k d = Some v.
Proof. unfold dict_index. destruct (dict_get k d); naive_solver. Qed.

(** The evidence of one member, when it is not bad *)
Lemma classify_range_member_good member context be he bf hf evidence findings :
  _classify_range_member member context be he bf hf = Ok (evidence, findings) → ¬ bad evidence →
  (outcome_of be = "NOT_APPLICABLE" ∧ outcome_of he = "NOT_APPLICABLE" ∧ outcome_of evidence = "NOT_APPLICABLE") ∨
  (outcome_of evidence = "PASS" ∧
   _member_snapshot_is_consistent be bf = true ∧ _member_snapshot_is_consistent he hf = true ∧
   Forall (λ f, is_blocking f = false) hf ∧ default [] (rdc_rename_ambiguities context) = []).
Proof.
  unfold _classify_range_member. intros Hc Hnb. case_match eqn:Ena.
  { apply andb_true_iff in Ena as [E1%String.eqb_eq E2%String.eqb_eq]. left. split_and!; [done|done|].
    unfold _not_applicable_range_member in Hc. destruct (dict_index member _C14_ANALYZER_VERSIONS); [|done].
    by injection Hc as <- <-. }
  right. destruct (_member_snapshot_is_consistent be bf) eqn:Eb, (_member_snapshot_is_consistent he hf) eqn:Eh;
    cbn [negb orb] in Hc.
  2-4: exfalso; apply Hnb; right; unfold _unknown_range_member in Hc;
    destruct (dict_index member _C14_ANALYZER_VERSIONS); [|done]; by injection Hc as <- <-.
  destruct (classify_findings (range_request context bf hf)) as [c|] eqn:Ec; [|done]. cbn [res_bind] in Hc.
  destruct (_classified_findings c bf hf) as [fs|ex] eqn:Ef.
  2:{ destruct ex; try done. exfalso. apply Hnb. right. unfold _unknown_range_member in Hc.
      destruct (dict_index member _C14_ANALYZER_VERSIONS); [|done]. by injection Hc as <- <-. }
  destruct (dict_index member _C14_ANALYZER_VERSIONS) as [version|]; [|done]. cbn [res_bind] in Hc.
  injection Hc as <- <-.
  assert (Hpass : dc_status c = C_PASS).
  { destruct (dc_status c); [done|exfalso; apply Hnb; by left|exfalso; apply Hnb; by right]. }
  split; [by rewrite Hpass|]. split; [done|]. split; [done|].
  destruct (verdict_spec _ _ Ec) as (bv & hv & _ & Hhv & Hp & _). apply Hp in Hpass as ((_ & Ha & _) & _ & Hall).
  cbn [range_request req_head_findings] in Hhv. rewrite findings_of_projections in Hhv. injection Hhv as <-.
  split.
  - apply Forall_fmap in Hall. exact Hall.
  - unfold has_ambiguities in Ha. cbn in Ha. by destruct (rdc_rename_ambiguities context) as [[|]|].
Qed.

Lemma classify_members_good context base head st member evidence :
  fold_res (classify_member_step context base head) ([], []) (all_ids default_pr_range_profile) = Ok st →
  member ∈ all_ids default_pr_range_profile →
  dict_get member st.1 = Some evidence → ¬ bad evidence →
  member_passes context base head member ∧
  (outcome_of evidence = "NOT_APPLICABLE" → member_not_applicable base head member).
Proof.
  intros Hf Hm Hg Hnb.
  assert (Hstep : ∀ b b', classify_member_step context base head b member = Ok b' →
    ∃ be he ev fs, dict_get member (csr_evidence base) = Some be ∧ dict_get member (csr_evidence head) = Some he ∧
      _classify_range_member member context be he (bucket member (csr_findings_by_member base))
        (bucket member (csr_findings_by_member head)) = Ok (ev, fs) ∧ dict_get member b'.1 = Some ev).
  { intros b b' Hb. unfold classify_member_step in Hb.
    destruct (dict_index member (csr_evidence base)) as [be|] eqn:E1; [|done]. cbn [res_bind] in Hb.
    destruct (dict_index member (csr_evidence head)) as [he|] eqn:E2; [|done]. cbn [res_bind] in Hb.
    destruct (_classify_range_member _ _ _ _ _ _) as [[ev fs]|] eqn:E3; [|done]. cbn [res_bind] in Hb.
    injection Hb as <-. exists be, he, ev, fs. apply dict_index_Ok in E1, E2. cbn [fst].
    by rewrite dict_get_set_eq. }
  destruct (fold_res_reach _ (λ b : range_state, ∃ be he ev fs,
      dict_get member (csr_evidence base) = Some be ∧ dict_get member (csr_evidence head) = Some he ∧
      _classify_range_member member context be he (bucket member (csr_findings_by_member base))
        (bucket member (csr_findings_by_member head)) = Ok (ev, fs) ∧ dict_get member b.1 = Some ev)
      _ _ _ member Hf Hm Hstep) as (be & he & ev & fs & Hbe & Hhe & Hc & Hget).
  { intros y b b' _ Hb Hy. destruct (decide (y = member)) as [->|N]; [by eapply Hstep|].
    destruct Hb as (be & he & ev & fs & H1' & H2' & H3' & H4'). exists be, he, ev, fs. split_and!; try done.
    unfold classify_member_step in Hy. destruct (dict_index y (csr_evidence base)); [|done]. cbn [res_bind] in Hy.
    destruct (dict_index y (csr_evidence head)); [|done]. cbn [res_bind] in Hy.
    destruct (_classify_range_member y _ _ _ _ _) as [[ev' fs']|]; [|done]. cbn [res_bind] in Hy.
    injection Hy as <-. cbn [fst]. rewrite dict_get_set_ne by done. done. }
  rewrite Hg in Hget. injection Hget as <-. apply classify_range_member_good in Hc; [|done]. split.
  - exists be, he. split; [done|]. split; [done|]. destruct Hc as [(? & ? & _)|(_ & ?)]; auto.
  - intros Hna. exists be, he. split; [done|]. split; [done|].
    destruct Hc as [(? & ? & _)|(Hp & _)]; [done|congruence].
Qed.

(** What the evidence of a whole range says when a member is neither failing
    nor unknown in it. *)
Lemma range_member_good r base_snapshot head_snapshot base head combined findings_by_member member evidence :
  _classify_range_findings r base_snapshot head_snapshot base head = Ok (combined, findings_by_member) →
  member ∈ all_ids default_pr_range_profile →
  dict_get member combined = Some evidence → ¬ bad evidence →
  let context := _range_differential_context r base_snapshot head_snapshot in
  member_passes context base head member ∧
  ∃ suppression,
    classify_suppression_delta (rdc_base_sources context) (rdc_head_sources context)
      (Some (rdc_rename_facts context))
      (Some (_differential_finding_projection <$> mjoin (dict_values (csr_findings_by_member base)))) None
      = Ok suppression ∧
    ¬ (scl_status suppression = C_UNKNOWN ∧ scl_findings suppression = []) ∧
    (∀ finding, finding ∈ scl_findings suppression → member ∈ se_analyzers (sf_evidence finding) →
       member_not_applicable base head member).
Proof.
  intros Hr Hm Hg Hnb context. unfold _classify_range_findings in Hr. fold context in Hr.
  destruct (fold_res _ _ _) as [st|] eqn:Ef; [|done]. cbn [res_bind] in Hr.
  destruct (classify_suppression_delta _ _ _ _ _) as [suppression|] eqn:Es; [|done]. cbn [res_bind] in Hr.
  destruct (suppression_delta_spares suppression st _ member evidence Hr Hm Hg Hnb) as (H1' & H2' & H3').
  destruct (classify_members_good context base head st member evidence Ef Hm H2' Hnb) as [Hp Hna].
  split; [done|]. exists suppression. split; [done|]. split; [done|]. intros finding Hf Hin.
  by apply Hna, (H3' finding).
Qed.
End members.

Section samples.
#[local] Instance member_repr : PyRepr := λ _, "<repr>".
#[local] Instance member_sha : Sha256 := λ _, "0".
Definition sample_context : RangeDifferentialContext :=
  {| rdc_base_sources := [("a.py", "x")]; rdc_head_sources := [("a.py", "x")]; rdc_rename_facts := [];
     rdc_rename_ambiguities := None; rdc_added_paths := []; rdc_deleted_paths := [] |}.
Definition advisory_finding : ReviewFinding :=
  with_lifecycle (Some true) (Some false) (sample_finding SevWarning true).
Lemma classified_findings_total_witness :
  Forall valid_finding ([advisory_finding; blocking_finding] ++ [blocking_finding; blocking_finding]) ∧
  ∃ c result,
    classify_findings (range_request sample_context [advisory_finding; blocking_finding]
      [blocking_finding; blocking_finding]) = Ok c ∧
    _classified_findings c [advisory_finding; blocking_finding] [blocking_finding; blocking_finding] = Ok result ∧
    Forall valid_finding result.
Proof.
  assert (Hv : Forall valid_finding ([advisory_finding; blocking_finding] ++ [blocking_finding; blocking_finding]))
    by (repeat constructor; vm_compute; reflexivity).
  split; [exact Hv|].
  destruct (classified_findings_total sample_context _ _ Hv) as (c & i & u & f & k & H1 & H2 & _ & _ & _ & H3).
  exists c. eexists. split; [exact H1|]. split; [exact H2|exact H3].
Defined.
End samples.
