(* ===== verification/Diff.v ===== *)
(** Diff: the changed-line evidence of [specfact_code_review/run/runner.py]:
    Git's quoted paths, the zero-context diff parser, caller-relative paths
    and the plumbing records of the staged snapshot.  Texts are the bytes Git
    prints: [text=True] decodes them strictly and [os.fsencode] gives them
    back, so both views carry the same information. *)

From S2P Require Import Prelude Text Paths Dict PyValue Findings.
From S2P Require Json.

(** * Lines of a decoded text

    [str.splitlines()] on the UTF-8 text of these bytes: next to the
    boundaries below 128, U+0085, U+2028 and U+2029 end a line. *)
Definition byte_is (n : N) (c : ascii) : bool := (N_of_ascii c =? n)%N.
Definition ascii_boundary (c : ascii) : bool := between 10 13 c || between 28 30 c.
Fixpoint text_lines_go (cur : list ascii) (l : list ascii) : list (list ascii) :=
  match l with
  | [] => match cur with [] => [] | _ => [reverse cur] end
  | c :: l1 =>
      if ascii_boundary c then
        match l1 with
        | d :: l2 => if byte_is 13 c && byte_is 10 d then reverse cur :: text_lines_go [] l2
                     else reverse cur :: text_lines_go [] l1
        | [] => [reverse cur]
        end
      else
        match l1 with
        | d :: l2 =>
            if byte_is 194 c && byte_is 133 d then reverse cur :: text_lines_go [] l2
            else
              match l2 with
              | e :: l3 =>
                  if byte_is 226 c && byte_is 128 d && (byte_is 168 e || byte_is 169 e)
                  then reverse cur :: text_lines_go [] l3
                  else text_lines_go (c :: cur) l1
              | [] => text_lines_go (c :: cur) l1
              end
        | [] => text_lines_go (c :: cur) l1
        end
  end.
Definition text_lines (s : string) : list string := of_chars <$> text_lines_go [] (chars s).

(** * Quoted paths *)

Definition _GIT_QUOTED_PATH_ESCAPES : list (ascii * ascii) :=
  [("a"%char, ascii_of_nat 7); ("b"%char, ascii_of_nat 8); ("t"%char, ascii_of_nat 9);
   ("n"%char, ascii_of_nat 10); ("v"%char, ascii_of_nat 11); ("f"%char, ascii_of_nat 12);
   ("r"%char, ascii_of_nat 13); (ascii_of_nat 92, ascii_of_nat 92); (ascii_of_nat 34, ascii_of_nat 34)].

Definition is_octal : ascii → bool := between 48 55.
Definition octal_value (c : ascii) : N := (N_of_ascii c - 48)%N.

(** Up to [n] more octal digits *)
Fixpoint take_octal (n : nat) (acc : N) (l : list ascii) : N * list ascii :=
  match n, l with
  | S n', c :: l' => if is_octal c then take_octal n' (8 * acc + octal_value c) l' else (acc, l)
  | _, _ => (acc, l)
  end.

(** The escape after a backslash: its byte and what follows. *)
Definition _decode_git_path_escape (l : list ascii) : option (ascii * list ascii) :=
  match l with
  | [] => None
  | escape :: rest =>
      match dict_get escape _GIT_QUOTED_PATH_ESCAPES with
      | Some byte => Some (byte, rest)
      | None =>
          if is_octal escape then
            let (decoded_byte, rest) := take_octal 2 (octal_value escape) rest in
            if (decoded_byte <=? 255)%N then Some (ascii_of_N decoded_byte, rest) else None
          else None
      end
  end.

(** The loop over the text between the quotes; [fuel] bounds its length. *)
Fixpoint decode_content (fuel : nat) (l : list ascii) : option (list ascii) :=
  match fuel, l with
  | _, [] => Some []
  | O, _ => None
  | S n, c :: rest =>
      if byte_is 92 c then
        match _decode_git_path_escape rest with
        | Some (byte, rest) => cons byte <$> decode_content n rest
        | None => None
        end
      else if byte_is 34 c then None
      else cons c <$> decode_content n rest
  end.
Definition quote_text : string := String (ascii_of_nat 34) "".
Definition tab_text : string := String (ascii_of_nat 9) "".
Definition _decode_git_diff_path (raw_path : string) : option string :=
  let raw_path := removesuffix tab_text raw_path in
  if negb (startswith quote_text raw_path) then Some raw_path
  else if (String.length raw_path <? 2)%nat || negb (endswith quote_text raw_path) then None
  else
    let content := take (String.length raw_path - 2) (drop 1 (chars raw_path)) in
    of_chars <$> decode_content (length content) content.

(** * Diff headers *)

(** Positions where [p] occurs in [l], counted from [i]. *)
Fixpoint occurrences_from (p : list ascii) (i : nat) (l : list ascii) : list nat :=
  match l with
  | [] => if bool_decide (p = []) then [i] else []
  | _ :: l' => (if bool_decide (take (length p) l = p) then [i] else []) ++ occurrences_from p (S i) l'
  end.
Definition quoted_separator_text : list ascii :=
  [ascii_of_nat 34; " "%char; ascii_of_nat 34; "b"%char; "/"%char].
Definition separator_text : list ascii := [" "; "b"; "/"]%char.

(** The first separator that repeats the path *)
Definition destination_at (header : list ascii) (separator : nat) : option string :=
  let source := of_chars (take separator header) in
  let destination := of_chars (drop (S separator) header) in
  if startswith "a/" source &&
     String.eqb (of_chars (drop 2 (chars source))) (removeprefix "b/" destination)
  then Some (removeprefix "b/" destination) else None.
Definition _new_file_destination_from_diff_header (raw_header : string) : option string :=
  let header := chars raw_header in
  match (if startswith (quote_text +:+ "a/") raw_header
         then last (occurrences_from quoted_separator_text 0 header) else None) with
  | Some quoted_separator =>
      match _decode_git_diff_path (of_chars (take (S quoted_separator) header)),
            _decode_git_diff_path (of_chars (drop (quoted_separator + 2) header)) with
      | Some source, Some destination =>
          if String.eqb (removeprefix "a/" source) (removeprefix "b/" destination)
          then Some (removeprefix "b/" destination) else None
      | _, _ => None
      end
  | None => head (omap (destination_at header) (occurrences_from separator_text 0 header))
  end.

(** * Hunks *)

Definition lineset : Type := gset Z.
Definition line_map : Type := list (string * lineset).

(** [re.search(r"\+(\d+)(?:,(\d+))?", line)]: the first plus sign that digits
    follow, and the optional count. *)
Fixpoint span_digits (l : list ascii) : list ascii * list ascii :=
  match l with
  | c :: l' => if is_digit c then let (d, r) := span_digits l' in (c :: d, r) else ([], l)
  | [] => ([], [])
  end.
Definition digits_value (l : list ascii) : Z := foldl (λ n c, 10 * n + (code c - 48))%Z 0%Z l.
Fixpoint hunk_range (l : list ascii) : option (Z * Z) :=
  match l with
  | [] => None
  | c :: l' =>
      if byte_is 43 c then
        match span_digits l' with
        | ([], _) => hunk_range l'
        | (start, rest) =>
            Some (digits_value start,
              match rest with
              | d :: rest' =>
                  if byte_is 44 d then
                    match span_digits rest' with
                    | ([], _) => 1%Z
                    | (count, _) => digits_value count
                    end
                  else 1%Z
              | [] => 1%Z
              end)
        end
      else hunk_range l'
  end.

(** [set(range(start, start + count))] *)
Definition range_set (start count : Z) : lineset := list_to_set (seqZ start count).

(** The loop variables of the parser *)
Record diff_state := {
  ds_changed_lines : line_map;
  ds_current_file : option string;
  ds_header_destination : option string;
  ds_awaiting_destination_header : bool;
  ds_destination_header_seen : bool
}.
Definition diff_start : diff_state :=
  {| ds_changed_lines := []; ds_current_file := None; ds_header_destination := None;
     ds_awaiting_destination_header := false; ds_destination_header_seen := false |}.

(** [d.setdefault(k, v)] *)
Definition setdefault {V} (k : string) (v : V) (d : list (string * V)) : list (string * V) :=
  match dict_get k d with Some _ => d | None => dict_set k v d end.
Definition add_lines (path : string) (lines : lineset) (d : line_map) : line_map :=
  dict_set path (default ∅ (dict_get path d) ∪ lines) d.

(** [None] is a hunk without its file header. *)
Definition _record_added_hunk_lines (line : string) (current_file : option string)
    (destination_header_seen : bool) (changed_lines : line_map) : option line_map :=
  if negb (startswith "@@ " line) then Some changed_lines
  else if negb destination_header_seen then None
  else
    match current_file with
    | None => Some changed_lines
    | Some file =>
        match hunk_range (chars line) with
        | None => Some changed_lines
        | Some (start, count) =>
            Some (if (0 <? count)%Z then add_lines file (range_set start count) changed_lines
                  else changed_lines)
        end
    end.

Definition diff_line (line : string) (st : diff_state) : option diff_state :=
  if startswith "diff --git " line then
    Some {| ds_changed_lines := ds_changed_lines st; ds_current_file := None;
            ds_header_destination :=
              _new_file_destination_from_diff_header (removeprefix "diff --git " line);
            ds_awaiting_destination_header := true; ds_destination_header_seen := false |}
  else if ds_awaiting_destination_header st && startswith "new file mode " line then
    match ds_header_destination st with
    | None => None
    | Some destination =>
        Some {| ds_changed_lines := setdefault destination {[1%Z]} (ds_changed_lines st);
                ds_current_file := ds_current_file st;
                ds_header_destination := ds_header_destination st;
                ds_awaiting_destination_header := ds_awaiting_destination_header st;
                ds_destination_header_seen := ds_destination_header_seen st |}
    end
  else if ds_awaiting_destination_header st && startswith "+++ " line then
    match _decode_git_diff_path (of_chars (drop 4 (chars line))) with
    | None => None
    | Some destination =>
        let current_file := if String.eqb destination "/dev/null" then None
                            else Some (removeprefix "b/" destination) in
        Some {| ds_changed_lines :=
                  match current_file with
                  | Some file => setdefault file ∅ (ds_changed_lines st)
                  | None => ds_changed_lines st
                  end;
                ds_current_file := current_file;
                ds_header_destination := ds_header_destination st;
                ds_awaiting_destination_header := false; ds_destination_header_seen := true |}
    end
  else
    (λ changed, {| ds_changed_lines := changed; ds_current_file := ds_current_file st;
                   ds_header_destination := ds_header_destination st;
                   ds_awaiting_destination_header := ds_awaiting_destination_header st;
                   ds_destination_header_seen := ds_destination_header_seen st |})
    <$> _record_added_hunk_lines line (ds_current_file st) (ds_destination_header_seen st)
          (ds_changed_lines st).

Fixpoint diff_lines (lines : list string) (st : diff_state) : option diff_state :=
  match lines with
  | [] => Some st
  | line :: rest => diff_line line st ≫= diff_lines rest
  end.
Definition _parse_added_lines_from_diff (diff_text : string) : option line_map :=
  ds_changed_lines <$> diff_lines (text_lines diff_text) diff_start.

(** * Paths relative to the caller *)

(** [git rev-parse --show-prefix] *)
Definition newline_text : string := String (ascii_of_nat 10) "".
Definition _caller_git_prefix (stdout : option string) : option string :=
  match stdout with
  | Some out =>
      if endswith newline_text out then
        let prefix := removesuffix newline_text out in
        if negb (is_absolute prefix) && negb (bool_decide (".." ∈ path_parts prefix))
           && (bool_decide (prefix = "") || endswith "/" prefix)
        then Some prefix else None
      else None
  | None => None
  end.

Fixpoint relative_lines (cwd : list string) (caller_prefix : string) (changed : line_map)
    (normalized : line_map) : option line_map :=
  match changed with
  | [] => Some normalized
  | (raw_path, lines) :: rest =>
      if bool_decide (raw_path = "") || is_absolute raw_path || bool_decide (".." ∈ path_parts raw_path)
      then None
      else relative_lines cwd caller_prefix rest
             (add_lines (relpath cwd raw_path (match caller_prefix with "" => "." | p => p end))
                lines normalized)
  end.
Definition _changed_lines_relative_to_caller (cwd : list string) (changed_lines : line_map)
    (caller_prefix : string) : option line_map := relative_lines cwd caller_prefix changed_lines [].

(** * Changed lines of the reviewed files *)

Record CachedDiffIdentity := {
  cdi_base_tree : string; cdi_index_tree : string; cdi_caller_prefix : string
}.

(** What the environment and the commands answer: the diff mode, the revision
    chosen for it, the diff, the prefix, the listing and the number of lines of
    each untracked file, and the raw-byte evidence. *)
Record DiffAnswers := {
  da_diff_mode : string;
  da_cached_worktree_matches_index : option bool;
  da_worktree_base_tree : option (option string);
  da_diff_stdout : list string → option string;
  da_prefix_stdout : option string;
  da_exists : string → bool;
  da_report_path : string → string;
  da_untracked : string → option string;
  da_line_count : string → option Z;
  da_raw_lines : option line_map;
  da_cwd : list string
}.

Definition _changed_diff_revision (a : DiffAnswers) (cached_diff : option CachedDiffIdentity) :
    option (list string) :=
  let diff_mode := lower (strip (da_diff_mode a)) in
  match cached_diff with
  | Some cached =>
      if String.eqb diff_mode "cached" then Some [cdi_base_tree cached; cdi_index_tree cached] else None
  | None =>
      if String.eqb diff_mode "cached" then
        if bool_decide (da_cached_worktree_matches_index a = Some true) then Some ["--cached"] else None
      else if negb (String.eqb diff_mode "worktree") then None
      else match da_worktree_base_tree a with
           | None => Some ["HEAD"]
           | Some None => None
           | Some (Some base_tree) => Some [base_tree]
           end
  end.

Definition _changed_diff_command (files revision : list string) : list string :=
  ["git"; "--literal-pathspecs"; "diff"; "--unified=0"; "--no-ext-diff"; "--no-color"; "--text";
   "--no-textconv"; "--src-prefix=a/"; "--dst-prefix=b/"] ++ revision
  ++ (if bool_decide (files ≠ []) then "--" :: (as_posix <$> files) else []).

Definition _untracked_changed_lines (a : DiffAnswers) (file_path : string) : option lineset :=
  match da_untracked a file_path with
  | None => None
  | Some "" => Some ∅
  | Some _ =>
      (λ line_count, if (line_count =? 0)%Z then {[1%Z]} else range_set 1 line_count)
        <$> da_line_count a file_path
  end.
Fixpoint _add_untracked_changed_lines (a : DiffAnswers) (files : list string) (changed_lines : line_map) :
    option line_map :=
  match files with
  | [] => Some changed_lines
  | file_path :: rest =>
      if negb (da_exists a file_path) then _add_untracked_changed_lines a rest changed_lines
      else
        let relative := da_report_path a file_path in
        if dict_mem relative changed_lines then _add_untracked_changed_lines a rest changed_lines
        else
          match _untracked_changed_lines a file_path with
          | None => None
          | Some line_numbers =>
              _add_untracked_changed_lines a rest
                (if bool_decide (line_numbers ≠ ∅) then dict_set relative line_numbers changed_lines
                 else changed_lines)
          end
  end.

Definition nonempty_lines (m : line_map) : gmap string lineset :=
  list_to_map (filter (λ pl, pl.2 ≠ ∅) m).
Definition _worktree_lines_match_raw_bytes (a : DiffAnswers) (changed_lines : line_map) : bool :=
  if negb (String.eqb (lower (strip (da_diff_mode a))) "worktree") then true
  else match da_raw_lines a with
       | None => false
       | Some raw => bool_decide (nonempty_lines changed_lines = nonempty_lines raw)
       end.

Definition _changed_lines_from_git (a : DiffAnswers) (files : list string)
    (cached_diff : option CachedDiffIdentity) : option line_map :=
  revision ← _changed_diff_revision a cached_diff;
  stdout ← da_diff_stdout a (_changed_diff_command files revision);
  changed_lines ← _parse_added_lines_from_diff stdout;
  caller_prefix ← (match cached_diff with
                   | Some cached => Some (cdi_caller_prefix cached)
                   | None => _caller_git_prefix (da_prefix_stdout a)
                   end);
  changed_lines ← _changed_lines_relative_to_caller (da_cwd a) changed_lines caller_prefix;
  match cached_diff with
  | Some _ => Some changed_lines
  | None =>
      changed_lines ← _add_untracked_changed_lines a files changed_lines;
      if _worktree_lines_match_raw_bytes a changed_lines then Some changed_lines else None
  end.

(** * Plumbing records of the staged snapshot *)

(** [str.split()] and [bytes.split()] on the ASCII white space *)
Definition str_ws (c : ascii) : bool := between 9 13 c || between 28 32 c.
Definition bytes_ws (c : ascii) : bool := between 9 13 c || between 32 32 c.
Definition fields_of (ws : ascii → bool) (l : list ascii) : list (list ascii) :=
  filter (λ w, w ≠ []) (split_chars ws l).

Definition nul_char : ascii := ascii_of_nat 0.
Definition records_of (stdout : string) : list string :=
  filter (λ record, record ≠ "") (split_on nul_char stdout).

(** "mode type oid\tpath" as [(path, mode, oid)] *)
Definition _parse_cached_tree_entry (record : string) : option (string * string * string) :=
  match partition (ascii_of_nat 9) record with
  | None => None
  | Some (metadata, path) =>
      match of_chars <$> fields_of str_ws (chars metadata) with
      | [mode; object_type; oid] =>
          if bool_decide (path ≠ "") && negb (is_absolute path)
             && negb (bool_decide (".." ∈ path_parts path))
             && ((String.eqb object_type "commit" && String.eqb mode "160000")
                 || (String.eqb object_type "blob"
                     && bool_decide (mode ∈ ["100644"; "100755"; "120000"])))
             && is_object_id oid
          then Some (path, mode, oid) else None
      | _ => None
      end
  end.
Fixpoint tree_entry_loop (records : list string) (entries : list (string * (string * string))) :
    option (list (string * (string * string))) :=
  match records with
  | [] => Some entries
  | record :: rest =>
      match _parse_cached_tree_entry record with
      | None => None
      | Some (path, mode, oid) =>
          if dict_mem path entries then None
          else tree_entry_loop rest (dict_set path (mode, oid) entries)
      end
  end.
Definition _cached_tree_entries (stdout : option string) : option (list (string * (string * string))) :=
  out ← stdout; tree_entry_loop (records_of out) [].

(** "mode oid stage\tpath" of the selected paths *)
Definition index_blob (selected : list string) (entries : list (string * (string * string)))
    (record : string) : option (string * (string * string)) :=
  match partition (ascii_of_nat 9) record with
  | None => None
  | Some (metadata, path) =>
      match of_chars <$> fields_of str_ws (chars metadata) with
      | [mode; oid; stage] =>
          if bool_decide (path ∈ selected) && String.eqb stage "0" && negb (dict_mem path entries)
             && bool_decide (mode ∈ ["100644"; "100755"; "120000"]) && is_object_id oid
          then Some (path, (mode, oid)) else None
      | _ => None
      end
  end.
Fixpoint index_blob_loop (selected : list string) (records : list string)
    (entries : list (string * (string * string))) : option (list (string * (string * string))) :=
  match records with
  | [] => Some entries
  | record :: rest =>
      match index_blob selected entries record with
      | Some (path, entry) => index_blob_loop selected rest (dict_set path entry entries)
      | None => None
      end
  end.
Definition _cached_index_blobs (stdout : option string) (paths : list string) :
    option (list (string * (string * string))) :=
  out ← stdout; index_blob_loop paths (records_of out) [].

(** What an analyzer would read at a path *)
Inductive worktree_blob := WbMissing | WbUnreadable | WbBytes (content : string).

(** [hashlib.sha1(payload).hexdigest()] *)
Class Sha1 := sha1_hex : list ascii → string.
Definition blob_payload (content : string) : list ascii :=
  chars "blob " ++ chars (pretty (Z.of_nat (String.length content))) ++ nul_char :: chars content.
Definition _git_blob_oid `{Sha1} `{Json.Sha256} (content expected_oid : string) : option string :=
  if (String.length expected_oid =? 40)%nat then Some (sha1_hex (blob_payload content))
  else if (String.length expected_oid =? 64)%nat then Some (Json.sha256_hex (blob_payload content))
  else None.

(** One selected path: [None] is evidence that cannot be had. *)
Definition path_matches_index `{Sha1} `{Json.Sha256} (index_blobs : list (string * (string * string)))
    (read : string → worktree_blob) (path : string) : option bool :=
  match dict_get path index_blobs with
  | None =>
      match read path with WbMissing => Some true | WbUnreadable => None | WbBytes _ => Some false end
  | Some (mode, expected_oid) =>
      if String.eqb mode "120000" then None
      else match read path with
           | WbUnreadable => None
           | WbMissing => Some false
           | WbBytes content => Some (bool_decide (_git_blob_oid content expected_oid = Some expected_oid))
           end
  end.
Fixpoint _cached_worktree_matches_index `{Sha1} `{Json.Sha256}
    (index_blobs : list (string * (string * string))) (read : string → worktree_blob)
    (selected : list string) : option bool :=
  match selected with
  | [] => Some true
  | path :: rest =>
      match path_matches_index index_blobs read path with
      | Some true => _cached_worktree_matches_index index_blobs read rest
      | r => r
      end
  end.

(** ** [git cat-file --batch] *)

(** The bytes up to the next line feed, and those after it *)
Fixpoint until_newline (l : list ascii) : option (list ascii * list ascii) :=
  match l with
  | [] => None
  | c :: l' => if byte_is 10 c then Some ([], l') else (λ hr, (c :: hr.1, hr.2)) <$> until_newline l'
  end.
(** [output] from the cursor on; what follows the blob is returned. *)
Definition _parse_cached_batch_blob (output : list ascii) (expected_oid : string) :
    option (list ascii * list ascii) :=
  match until_newline output with
  | None => None
  | Some (header, rest) =>
      match fields_of bytes_ws header with
      | [oid; kind; size_text] =>
          if bool_decide (oid = chars expected_oid) && bool_decide (kind = chars "blob") then
            match parse_int (of_chars size_text) with
            | Some size =>
                if (0 <=? size)%Z then
                  match drop (Z.to_nat size) rest with
                  | c :: after =>
                      if byte_is 10 c then Some (take (Z.to_nat size) rest, after) else None
                  | [] => None
                  end
                else None
            | None => None
            end
          else None
      | _ => None
      end
  end.
Fixpoint batch_loop (output : list ascii) (oids : list string) (contents : list (string * string)) :
    option (list (string * string)) :=
  match oids with
  | [] => if bool_decide (output = []) then Some contents else None
  | oid :: rest =>
      match _parse_cached_batch_blob output oid with
      | Some (content, after) => batch_loop after rest (dict_set oid (of_chars content) contents)
      | None => None
      end
  end.
(** [tuple(dict.fromkeys(oids))] *)
Fixpoint unique (seen l : list string) : list string :=
  match l with
  | [] => []
  | x :: l' => if bool_decide (x ∈ seen) then unique seen l' else x :: unique (x :: seen) l'
  end.
Definition _cached_blob_contents (stdout : list string → option string) (oids : list string) :
    option (list (string * string)) :=
  out ← stdout (unique [] oids); batch_loop (chars out) (unique [] oids) [].

(** ** Findings of the staged snapshot *)

(** [path.relative_to(root).as_posix()] *)
Definition relative_to (root path : string) : option (list string) :=
  if bool_decide (path_root root = path_root path)
     && bool_decide (take (length (path_components root)) (path_components path) = path_components root)
  then Some (drop (length (path_components root)) (path_components path)) else None.
Definition safe_parts (parts : list string) : option (list string) :=
  if bool_decide (parts ≠ []) && negb (bool_decide (".." ∈ parts)) then Some parts else None.
Definition _cached_snapshot_finding_relative_path (raw_path snapshot_root : string) :
    option (list string) :=
  if is_absolute raw_path then
    match relative_to snapshot_root raw_path with
    | Some relative => safe_parts relative
    | None =>
        match relative_to "/opt/specfact/snapshot" raw_path with
        | Some relative => safe_parts relative
        | None => None
        end
    end
  else safe_parts (path_parts raw_path).

Definition with_file (path : string) (f : ReviewFinding) : ReviewFinding :=
  {| rf_category := rf_category f; rf_severity := rf_severity f; rf_tool := rf_tool f;
     rf_rule := rf_rule f; rf_file := path; rf_line := rf_line f;
     rf_message := rf_message f; rf_fixable := rf_fixable f; rf_status := rf_status f;
     rf_differential_state := rf_differential_state f; rf_autofix_available := rf_autofix_available f;
     rf_blocking := rf_blocking f; rf_execution_state := rf_execution_state f;
     rf_evidence_outcome := rf_evidence_outcome f; rf_evidence_refs := rf_evidence_refs f;
     rf_confidence := rf_confidence f; rf_rewrite_hint := rf_rewrite_hint f;
     rf_canonical_pattern := rf_canonical_pattern f; rf_intent_key := rf_intent_key f;
     rf_estimated_deletion_lines := rf_estimated_deletion_lines f;
     rf_related_locations := rf_related_locations f; rf_guidance_kind := rf_guidance_kind f;
     rf_recommended_action := rf_recommended_action f;
     rf_clean_code_principle := rf_clean_code_principle f; rf_rationale := rf_rationale f;
     rf_safety_checks := rf_safety_checks f; rf_preserve_reason := rf_preserve_reason f;
     rf_action_status := rf_action_status f; rf_before_ref := rf_before_ref f;
     rf_after_ref := rf_after_ref f; rf_improvement := rf_improvement f;
     rf_signal_trace := rf_signal_trace f; rf_preserve_reasons := rf_preserve_reasons f;
     rf_remediation_packet := rf_remediation_packet f |}.
Definition rebase_finding (report_path : list string → string) (snapshot_root : string)
    (f : ReviewFinding) : option ReviewFinding :=
  (λ parts, with_file (report_path parts) f)
    <$> _cached_snapshot_finding_relative_path (rf_file f) snapshot_root.
Definition _rebase_cached_snapshot_findings (report_path : list string → string) (snapshot_root : string)
    (findings_by_member : list (string * list ReviewFinding)) :
    option (list (string * list ReviewFinding)) :=
  mapM (λ mf, (λ fs, (mf.1, fs)) <$> mapM (rebase_finding report_path snapshot_root) mf.2)
    findings_by_member.
