(* ===== verification/DiffProofs.v ===== *)
(** DiffProofs: Git's quoted names decode to the names they stand for, the
    parser of zero-context diffs finds exactly the added lines of a rendered
    diff, and the plumbing records of a staged snapshot read back. *)

From S2P Require Import Prelude Text Decimal Paths Dict PyValue Json Findings Diff.

(** * Quoted names *)

Definition backslash : ascii := ascii_of_nat 92.
Definition quote_char : ascii := ascii_of_nat 34.

(** How Git writes a byte between quotes: by letter where it has one, and the
    others as they are or by three octal digits ([core.quotePath] decides). *)
Definition letter_escape (c : ascii) : option ascii :=
  fst <$> find (λ p : ascii * ascii, bool_decide (p.2 = c)) _GIT_QUOTED_PATH_ESCAPES.
Definition octal_escape (c : ascii) : list ascii :=
  let n := N_of_ascii c in
  [ascii_of_N (48 + n / 64); ascii_of_N (48 + n / 8 mod 8); ascii_of_N (48 + n mod 8)].
Definition quote_byte (verbatim : ascii → bool) (c : ascii) : list ascii :=
  match letter_escape c with
  | Some e => [backslash; e]
  | None => if verbatim c then [c] else backslash :: octal_escape c
  end.
Definition quoted_content (verbatim : ascii → bool) (path : string) : list ascii :=
  mjoin (quote_byte verbatim <$> chars path).
Definition git_quoted (verbatim : ascii → bool) (path : string) : string :=
  of_chars (quote_char :: quoted_content verbatim path ++ [quote_char]).

Lemma decode_quote_byte verbatim c n l :
  decode_content (S n) (quote_byte verbatim c ++ l) = cons c <$> decode_content n l.
Proof.
  unfold quote_byte. destruct (verbatim c); destruct c as [[] [] [] [] [] [] [] []]; reflexivity.
Qed.
Lemma quote_byte_length verbatim c : (1 <= length (quote_byte verbatim c))%nat.
Proof. unfold quote_byte. destruct (letter_escape c), (verbatim c); simpl; lia. Qed.
Lemma decode_quoted_content verbatim l n :
  (length (mjoin (quote_byte verbatim <$> l)) <= n)%nat →
  decode_content n (mjoin (quote_byte verbatim <$> l)) = Some l.
Proof.
  revert n. induction l as [|c l IH]; intros n Hn; [by destruct n|].
  change (mjoin (quote_byte verbatim <$> c :: l))
    with (quote_byte verbatim c ++ mjoin (quote_byte verbatim <$> l)) in *.
  rewrite length_app in Hn. pose proof (quote_byte_length verbatim c) as Hc.
  destruct n as [|n]; [lia|]. rewrite decode_quote_byte, IH; [done|]. lia.
Qed.
Lemma git_quoted_no_tab verbatim path : endswith tab_text (git_quoted verbatim path) = false.
Proof.
  apply not_true_is_false. rewrite endswith_iff. intros [t Ht]. apply (f_equal chars) in Ht.
  unfold git_quoted in Ht. rewrite chars_app, chars_of_chars, app_comm_cons in Ht.
  apply app_inj_tail in Ht as [_ [=]].
Qed.
Lemma decode_git_quoted verbatim path :
  _decode_git_diff_path (git_quoted verbatim path) = Some path.
Proof.
  unfold _decode_git_diff_path, git_quoted.
  pose proof (git_quoted_no_tab verbatim path) as E. unfold git_quoted in E.
  rewrite (removesuffix_id _ _ E), <-length_chars, chars_of_chars.
  assert (startswith quote_text (of_chars (quote_char :: quoted_content verbatim path ++ [quote_char])) = true) as ->.
  { apply startswith_iff. by exists (of_chars (quoted_content verbatim path ++ [quote_char])). }
  assert (endswith quote_text (of_chars (quote_char :: quoted_content verbatim path ++ [quote_char])) = true) as ->.
  { apply endswith_iff. exists (of_chars (quote_char :: quoted_content verbatim path)).
    change quote_text with (of_chars [quote_char]). by rewrite <-of_chars_app. }
  cbn [negb orb length]. rewrite length_app. cbn [length orb drop].
  replace (S (length (quoted_content verbatim path) + 1) <? 2)%nat with false by (symmetry; apply Nat.ltb_ge; lia).
  replace (S (length (quoted_content verbatim path) + 1) - 2)%nat
    with (length (quoted_content verbatim path)) by lia.
  cbn [orb]. rewrite drop_0, take_app_length. unfold quoted_content. rewrite decode_quoted_content by done.
  simpl. by rewrite of_chars_chars.
Qed.

Lemma decode_removes_tab name :
  endswith tab_text name = false → _decode_git_diff_path (name +:+ tab_text) = _decode_git_diff_path name.
Proof.
  intros E. unfold _decode_git_diff_path. by rewrite removesuffix_app, (removesuffix_id _ _ E).
Qed.
Lemma decode_git_quoted_tab verbatim path :
  _decode_git_diff_path (git_quoted verbatim path +:+ tab_text) = Some path.
Proof. rewrite decode_removes_tab by apply git_quoted_no_tab. apply decode_git_quoted. Qed.
Lemma decode_plain name :
  startswith quote_text name = false → endswith tab_text name = false →
  _decode_git_diff_path name = Some name.
Proof. intros Hq Ht. unfold _decode_git_diff_path. by rewrite (removesuffix_id _ _ Ht), Hq. Qed.
Lemma decode_plain_tab name :
  startswith quote_text name = false → _decode_git_diff_path (name +:+ tab_text) = Some name.
Proof. intros Hq. unfold _decode_git_diff_path. by rewrite removesuffix_app, Hq. Qed.

(** * Headers *)

Lemma occurrences_from_spec p i l s :
  s ∈ occurrences_from p i l ↔ ∃ l1 l2, l = l1 ++ p ++ l2 ∧ s = (i + length l1)%nat.
Proof.
  revert i. induction l as [|c l IH]; intros i; cbn [occurrences_from].
  - case_bool_decide as E; [subst p|]; rewrite ?list_elem_of_singleton.
    + split; [intros ->; exists [], []; split; [done|simpl; lia]|].
      intros (l1 & l2 & E & ->). destruct l1; [simpl; lia|done].
    + split; [by intros ?%not_elem_of_nil|]. intros (l1 & l2 & E' & _).
      symmetry in E'. apply app_eq_nil in E' as [_ [-> _]%app_eq_nil]. done.
  - rewrite elem_of_app, IH. split.
    + intros [H|(l1 & l2 & -> & ->)].
      * case_bool_decide as E; [|by apply not_elem_of_nil in H]. apply list_elem_of_singleton in H as ->.
        exists [], (drop (length p) (c :: l)). rewrite <-E at 1. rewrite take_drop. split; [done|simpl; lia].
      * exists (c :: l1), l2. split; [done|simpl; lia].
    + intros ([|d l1] & l2 & E & ->); [left|right].
      * rewrite bool_decide_eq_true_2 by (rewrite E; cbn [app]; apply take_app_length).
        apply list_elem_of_singleton. simpl. lia.
      * injection E as -> ->. exists l1, l2. split; [done|simpl; lia].
Qed.
Lemma occurrences_from_app p i l1 l2 :
  ∃ before, occurrences_from p i (l1 ++ l2) = before ++ occurrences_from p (i + length l1) l2.
Proof.
  revert i. induction l1 as [|c l1 IH]; intros i; simpl.
  - exists []. by rewrite Nat.add_0_r.
  - destruct (IH (S i)) as [b ->]. eexists. rewrite app_assoc.
    replace (i + S (length l1))%nat with (S i + length l1)%nat by lia. reflexivity.
Qed.

(** Plain names: the separator is found by the repetition of the path. *)
Lemma header_plain path :
  _new_file_destination_from_diff_header ("a/" +:+ path +:+ " b/" +:+ path) = Some path.
Proof.
  unfold _new_file_destination_from_diff_header.
  replace (startswith (quote_text +:+ "a/") ("a/" +:+ path +:+ " b/" +:+ path)) with false by done.
  set (header := chars _). set (occs := occurrences_from separator_text 0 header).
  assert (Hh : header = "a"%char :: "/"%char :: chars path ++ separator_text ++ chars path).
  { unfold header. by rewrite !chars_app. }
  assert (Hall : ∀ s d, s ∈ occs → destination_at header s = Some d → d = path).
  { intros s d Hs Hd. apply occurrences_from_spec in Hs as (l1 & l2 & E & ->).
    unfold destination_at in Hd. rewrite E in Hd. simpl in Hd. rewrite take_app_length in Hd.
    replace (S (length l1)) with (length (l1 ++ [" "%char])) in Hd by (rewrite length_app; simpl; lia).
    change (l1 ++ " "%char :: "b"%char :: "/"%char :: l2)
      with (l1 ++ [" "%char] ++ "b"%char :: "/"%char :: l2) in Hd.
    rewrite app_assoc, drop_app_length in Hd.
    change (of_chars ("b"%char :: "/"%char :: l2)) with ("b/" +:+ of_chars l2) in Hd.
    rewrite removeprefix_app in Hd. case_match eqn:G; [|done]. injection Hd as <-.
    apply andb_true_iff in G as [Ha%startswith_iff He%String.eqb_eq]. destruct Ha as [t Ht].
    apply (f_equal chars) in Ht. rewrite chars_of_chars, chars_app in Ht. subst l1. rewrite chars_of_chars in He. cbn [chars String.list_ascii_of_string app drop] in He.
    change (of_chars (chars t) = of_chars l2) in He. apply (inj of_chars) in He. subst l2. rewrite Hh in E.
    simpl in E. injection E as E. apply (inj chars). rewrite chars_of_chars.
    apply (f_equal length) in E as El. rewrite !length_app in El. simpl in El.
    symmetry. apply (app_inj_1 _ _ _ _) in E; [by destruct E|lia]. }
  assert (Hin : (2 + length (chars path))%nat ∈ occs).
  { apply occurrences_from_spec. exists ("a"%char :: "/"%char :: chars path), (chars path). by rewrite Hh. }
  assert (Hdest : destination_at header (2 + length (chars path)) = Some path).
  { unfold destination_at. rewrite Hh. cbn [drop take Nat.add]. rewrite take_app_length.
    change (chars path ++ separator_text ++ chars path)
      with (chars path ++ [" "%char] ++ "b"%char :: "/"%char :: chars path).
    replace (S (length (chars path))) with (length (chars path ++ [" "%char])) by (rewrite length_app; simpl; lia).
    rewrite app_assoc, drop_app_length.
    change (of_chars ("b"%char :: "/"%char :: chars path)) with ("b/" +:+ of_chars (chars path)).
    rewrite removeprefix_app, of_chars_chars.
    change (of_chars ("a"%char :: "/"%char :: chars path)) with ("a/" +:+ of_chars (chars path)).
    rewrite startswith_app. change (chars ("a/" +:+ ?x)) with ("a"%char :: "/"%char :: chars x).
    change (drop 2 ("a"%char :: "/"%char :: ?l)) with l.
    by rewrite !of_chars_chars, String.eqb_refl. }
  destruct (head (omap (destination_at header) occs)) as [d|] eqn:E.
  - apply head_Some_elem_of in E. apply list_elem_of_omap in E as (s & Hs & Hd). f_equal. by eapply Hall.
  - apply head_None in E. exfalso.
    assert (Hp : path ∈ omap (destination_at header) occs) by (apply list_elem_of_omap; eauto).
    rewrite E in Hp. by apply not_elem_of_nil in Hp.
Qed.

(** Quoted names: inside the quotes a quote follows a backslash, so the
    separator of the two names occurs once. *)
Lemma quote_byte_head verbatim c : ∃ d l, quote_byte verbatim c = d :: l ∧ d ≠ quote_char.
Proof.
  unfold quote_byte. destruct (letter_escape c) eqn:E; [eexists _, _; by split|].
  destruct (verbatim c); [|eexists _, _; by split]. exists c, []. split; [done|]. by intros ->.
Qed.
Lemma content_then_quote verbatim l :
  head (mjoin (quote_byte verbatim <$> l) ++ [quote_char]) = Some quote_char → l = [].
Proof.
  destruct l as [|c l]; [done|]. rewrite fmap_cons.
  change (mjoin (?x :: ?l)) with (x ++ mjoin l).
  destruct (quote_byte_head verbatim c) as (d & k & -> & Hd). simpl. by intros [= ->].
Qed.
Lemma content_no_separator verbatim l i :
  occurrences_from quoted_separator_text i (mjoin (quote_byte verbatim <$> l) ++ [quote_char]) = [].
Proof.
  assert (Hno : ∀ c k j, c ≠ quote_char →
    occurrences_from quoted_separator_text j (c :: k) = occurrences_from quoted_separator_text (S j) k).
  { intros c k j Hc. cbn [occurrences_from]. rewrite bool_decide_eq_false_2; [done|]. by intros [= ->]. }
  revert i. induction l as [|c l IH]; intros i; [done|]. rewrite fmap_cons.
  change (mjoin (?x :: ?l)) with (x ++ mjoin l). rewrite <-app_assoc. unfold quote_byte at 1.
  destruct (letter_escape c) as [e|] eqn:El.
  - cbn [app]. rewrite Hno by done. cbn [occurrences_from]. rewrite bool_decide_eq_false_2, IH; [done|].
    intros E. cbn [length quoted_separator_text take] in E. injection E as -> E.
    set (rest := mjoin (quote_byte verbatim <$> l) ++ [quote_char]) in *.
    destruct l as [|c2 l]; [by cbv in E|]. unfold rest in E. rewrite fmap_cons in E.
    change (mjoin (?x :: ?l)) with (x ++ mjoin l) in E. rewrite <-app_assoc in E.
    unfold quote_byte at 1 in E. destruct (letter_escape c2); [by injection E|].
    destruct (verbatim c2); [|by injection E]. cbn [app take] in E. injection E as -> E.
    destruct (mjoin (quote_byte verbatim <$> l) ++ [quote_char]) as [|x k] eqn:Ek; [done|].
    cbn in E. injection E as -> E. rewrite (content_then_quote verbatim l) in Ek by (by rewrite Ek).
    cbn in Ek. injection Ek as <-. done.
  - assert (Hc : c ≠ quote_char) by (by intros ->).
    destruct (verbatim c); cbn [app octal_escape]; rewrite ?Hno by done; [apply IH|].
    destruct c as [[] [] [] [] [] [] [] []]; rewrite !Hno by done; apply IH.
Qed.

Definition printable_verbatim (verbatim : ascii → bool) : Prop :=
  ∀ c, between 32 126 c = true → verbatim c = true.
Lemma header_quoted verbatim path :
  printable_verbatim verbatim →
  _new_file_destination_from_diff_header
    (git_quoted verbatim ("a/" +:+ path) +:+ " " +:+ git_quoted verbatim ("b/" +:+ path)) = Some path.
Proof.
  intros Hv. unfold _new_file_destination_from_diff_header.
  set (qa := git_quoted verbatim ("a/" +:+ path)). set (qb := git_quoted verbatim ("b/" +:+ path)).
  assert (Hq : ∀ x, x = "a"%char ∨ x = "b"%char → chars (git_quoted verbatim (String x (String "/" path)))
    = quote_char :: x :: "/"%char :: quoted_content verbatim path ++ [quote_char]).
  { intros x Hx. unfold git_quoted, quoted_content. rewrite chars_of_chars.
    change (chars (String x (String "/" path))) with (x :: "/"%char :: chars path). rewrite !fmap_cons.
    change (mjoin (?a :: ?b :: ?l)) with (a ++ b ++ mjoin l). unfold quote_byte at 1 2.
    rewrite (Hv "/"%char) by done. by destruct Hx as [-> | ->]; rewrite Hv. }
  pose proof (Hq "a"%char (or_introl eq_refl)) as Ha. pose proof (Hq "b"%char (or_intror eq_refl)) as Hb.
  change (String "a" (String "/" path)) with ("a/" +:+ path) in Ha.
  change (String "b" (String "/" path)) with ("b/" +:+ path) in Hb. fold qa in Ha. fold qb in Hb.
  set (body := quoted_content verbatim path) in *.
  assert (startswith (quote_text +:+ "a/") (qa +:+ " " +:+ qb) = true) as ->.
  { apply startswith_iff. exists (of_chars (body ++ [quote_char]) +:+ " " +:+ qb). apply (inj chars).
    rewrite !chars_app, Ha, chars_of_chars. done. }
  assert (Hl : last (occurrences_from quoted_separator_text 0 (chars (qa +:+ " " +:+ qb)))
               = Some (3 + length body)%nat).
  { rewrite !chars_app, Ha, Hb.
    change ((quote_char :: "a"%char :: "/"%char :: body ++ [quote_char]) ++ chars " " ++ ?l)
      with ((quote_char :: "a"%char :: "/"%char :: body ++ [quote_char]) ++ " "%char :: l).
    replace ((quote_char :: "a"%char :: "/"%char :: body ++ [quote_char]) ++
        " "%char :: quote_char :: "b"%char :: "/"%char :: body ++ [quote_char])
      with ((quote_char :: "a"%char :: "/"%char :: body) ++
        quote_char :: " "%char :: quote_char :: "b"%char :: "/"%char :: body ++ [quote_char])
      by (cbn [app]; by rewrite <-app_assoc).
    destruct (occurrences_from_app quoted_separator_text 0 (quote_char :: "a"%char :: "/"%char :: body)
      (quote_char :: " "%char :: quote_char :: "b"%char :: "/"%char :: body ++ [quote_char])) as [before ->].
    cbn [occurrences_from]. rewrite bool_decide_eq_true_2 by done.
    rewrite !(bool_decide_eq_false_2 (take _ _ = _)) by done.
    unfold body, quoted_content. rewrite content_no_separator. cbn [app]. rewrite last_snoc. f_equal. }
  rewrite Hl. rewrite !chars_app, Ha. cbn [Nat.add take].
  change ((quote_char :: "a"%char :: "/"%char :: body ++ [quote_char]) ++ ?l)
    with (quote_char :: "a"%char :: "/"%char :: (body ++ [quote_char]) ++ l).
  cbn [take drop].
  assert (length (body ++ [quote_char]) = S (length body)) as Hlen by (rewrite length_app; simpl; lia).
  rewrite (take_app_le _ _ (S (length body))), take_ge by lia.
  replace (length body + 2)%nat with (length (body ++ [quote_char]) + 1)%nat by lia.
  rewrite drop_app_add' by done. rewrite <-Ha, of_chars_chars.
  change (drop 1 (chars " " ++ chars qb)) with (chars qb). rewrite of_chars_chars. unfold qa, qb.
  rewrite !decode_git_quoted, !removeprefix_app. by rewrite String.eqb_refl.
Qed.

(** C12 Every path that Git writes decodes to itself: a quoted name (whatever
    bytes are left as they are, with or without the tab that ends names with
    spaces) and a plain one; the destination of a "diff --git" header is found
    both for plain names, spaces and " b/" in the path included, and for
    quoted ones.  A quoted name that is not closed is an error. *)
Theorem git_path_roundtrip (verbatim : ascii → bool) (path : string) :
  printable_verbatim verbatim →
  _decode_git_diff_path (git_quoted verbatim path) = Some path ∧
  _decode_git_diff_path (git_quoted verbatim path +:+ tab_text) = Some path ∧
  (startswith quote_text path = false → _decode_git_diff_path (path +:+ tab_text) = Some path ∧
    (endswith tab_text path = false → _decode_git_diff_path path = Some path)) ∧
  _new_file_destination_from_diff_header ("a/" +:+ path +:+ " b/" +:+ path) = Some path ∧
  _new_file_destination_from_diff_header
    (git_quoted verbatim ("a/" +:+ path) +:+ " " +:+ git_quoted verbatim ("b/" +:+ path)) = Some path ∧
  (startswith quote_text path = true → endswith quote_text path = false → endswith tab_text path = false →
   _decode_git_diff_path path = None).
Proof.
  intros Hv. split_and!.
  - apply decode_git_quoted.
  - apply decode_git_quoted_tab.
  - intros Hq. split; [by apply decode_plain_tab|]. intros Ht. by apply decode_plain.
  - apply header_plain.
  - by apply header_quoted.
  - intros Hq He Ht. unfold _decode_git_diff_path. rewrite (removesuffix_id _ _ Ht), Hq, He.
    by rewrite orb_true_r.
Qed.

Lemma git_path_roundtrip_witness :
  printable_verbatim (between 32 126) ∧
  _decode_git_diff_path (git_quoted (between 32 126) (of_chars [ascii_of_nat 195; ascii_of_nat 169; quote_char; backslash]))
    = Some (of_chars [ascii_of_nat 195; ascii_of_nat 169; quote_char; backslash]).
Proof. split; [by intros c|]. apply (git_path_roundtrip (between 32 126)). by intros c. Defined.

(** * Lines *)

(** No line boundary of [str.splitlines] inside the text. *)
Fixpoint line_safe (l : list ascii) : bool :=
  match l with
  | [] => true
  | c :: l1 =>
      negb (ascii_boundary c)
      && negb (match l1 with
               | d :: l2 =>
                   (byte_is 194 c && byte_is 133 d)
                   || match l2 with
                      | e :: _ => byte_is 226 c && byte_is 128 d && (byte_is 168 e || byte_is 169 e)
                      | [] => false
                      end
               | [] => false
               end)
      && line_safe l1
  end.
Definition newline : ascii := ascii_of_nat 10.
(** Each line ended by a line feed *)
Definition unlines (lines : list string) : string := foldr (λ l t, l +:+ String newline t) "" lines.

Lemma text_lines_go_line cur l rest :
  line_safe l = true →
  text_lines_go cur (l ++ newline :: rest) = (reverse cur ++ l) :: text_lines_go [] rest.
Proof.
  revert cur. induction l as [|c l IH]; intros cur; cbn [line_safe app].
  - intros _. rewrite app_nil_r. cbn [text_lines_go]. by destruct rest.
  - intros [[Hc Hd]%andb_true_iff Hl]%andb_true_iff. apply negb_true_iff in Hc, Hd.
    assert (Hgo : text_lines_go cur (c :: l ++ newline :: rest)
                  = text_lines_go (c :: cur) (l ++ newline :: rest)).
    { cbn [text_lines_go]. rewrite Hc.
      destruct l as [|d [|e l]]; cbn [app] in *.
      - change (byte_is 133 newline) with false. rewrite andb_false_r.
        destruct rest; [done|]. change (byte_is 128 newline) with false. by rewrite andb_false_r.
      - rewrite orb_false_r in Hd. rewrite Hd.
        change (byte_is 168 newline || byte_is 169 newline) with false. by rewrite andb_false_r.
      - apply orb_false_iff in Hd as [-> ->]. done. }
    rewrite Hgo, (IH _ Hl), reverse_cons, <-app_assoc. done.
Qed.
Lemma text_lines_unlines lines :
  Forall (λ l, line_safe (chars l) = true) lines → text_lines (unlines lines) = lines.
Proof.
  unfold text_lines. induction 1 as [|l lines Hl _ IH]; [done|]. cbn [unlines foldr].
  rewrite chars_app. change (chars (String newline ?t)) with (newline :: chars t).
  rewrite text_lines_go_line by done. rewrite fmap_cons. f_equal; [apply of_chars_chars|exact IH].
Qed.

(** * Rendered diffs *)

(** A file of a zero-context diff, as Git prints it: how its name is written
    ([None] is plain), its old name, the other header lines, and its hunks. *)
Inductive change_kind := Created | Deleted | Modified.
Record hunk := {
  hk_old : Z * Z; hk_start : Z; hk_count : Z; hk_context : string; hk_lines : list string
}.
Record file_diff := {
  fd_quoting : option (ascii → bool);
  fd_old : string;
  fd_path : string;
  fd_kind : change_kind;
  fd_mode : string;
  fd_headers : list string;
  fd_hunks : list hunk
}.
Definition spelled (quoting : option (ascii → bool)) (name : string) : string :=
  match quoting with Some verbatim => git_quoted verbatim name | None => name end.
(** The name before the hunks: a tab ends it just when it holds a space. *)
Definition destination_label (f : file_diff) : string :=
  let name := spelled (fd_quoting f) ("b/" +:+ fd_path f) in
  name +:+ (if bool_decide (" "%char ∈ chars name) then tab_text else "").
Definition range_text (start count : Z) : string :=
  pretty start +:+ (if (count =? 1)%Z then "" else "," +:+ pretty count).
Definition hunk_header (h : hunk) : string :=
  "@@ -" +:+ range_text (hk_old h).1 (hk_old h).2 +:+ " +" +:+ range_text (hk_start h) (hk_count h)
  +:+ " @@" +:+ hk_context h.
Definition diff_text_lines (f : file_diff) : list string :=
  ("diff --git " +:+ spelled (fd_quoting f) ("a/" +:+ fd_old f) +:+ " "
   +:+ spelled (fd_quoting f) ("b/" +:+ fd_path f))
  :: match fd_kind f with Created => ["new file mode " +:+ fd_mode f] | _ => [] end
  ++ fd_headers f
  ++ (if bool_decide (fd_hunks f = []) then []
      else ["+++ " +:+ match fd_kind f with
                       | Deleted => "/dev/null"
                       | _ => destination_label f
                       end])
  ++ (fd_hunks f ≫= λ h, hunk_header h :: hk_lines h).
Definition rendered (files : list file_diff) : string := unlines (files ≫= diff_text_lines).

(** What the header and content lines must be like. *)
Definition parsed_prefixes : list string := ["diff --git "; "new file mode "; "+++ "; "@@ "].
Definition inert (line : string) : Prop := Forall (λ p, startswith p line = false) parsed_prefixes.
Definition content_line (line : string) : Prop :=
  match line with String c _ => c ∈ ["+"; "-"; " "; backslash]%char | "" => False end.
Record wf_file (f : file_diff) : Prop := {
  wf_lines : Forall (λ l, line_safe (chars l) = true) (diff_text_lines f);
  wf_created : fd_kind f = Created → fd_old f = fd_path f;
  wf_quoting : ∀ verbatim, fd_quoting f = Some verbatim → printable_verbatim verbatim;
  wf_plain : fd_quoting f = None → endswith tab_text (fd_path f) = false;
  wf_headers : Forall inert (fd_headers f);
  wf_contents : Forall (λ h, Forall content_line (hk_lines h) ∧ (0 <= hk_start h)%Z ∧ (0 <= hk_count h)%Z
                               ∧ (0 <= (hk_old h).1)%Z ∧ (0 <= (hk_old h).2)%Z)
                  (fd_hunks f)
}.

(** The lines a file's part adds; [None]: the path gets no entry. *)
Definition hunk_lines (h : hunk) : lineset := range_set (hk_start h) (hk_count h).
Definition file_lines (f : file_diff) : option lineset :=
  match fd_kind f, fd_hunks f with
  | Deleted, _ => None
  | Created, hunks => Some ({[1%Z]} ∪ ⋃ (hunk_lines <$> hunks))
  | Modified, [] => None
  | Modified, hunks => Some (⋃ (hunk_lines <$> hunks))
  end.

(** ** One line at a time *)

Lemma diff_lines_app l1 l2 st : diff_lines (l1 ++ l2) st = diff_lines l1 st ≫= diff_lines l2.
Proof. revert st. induction l1 as [|x l1 IH]; intros st; [done|]. simpl. destruct (diff_line x st); [apply IH|done]. Qed.
Lemma diff_line_inert line st : inert line → diff_line line st = Some st.
Proof.
  intros H. repeat (apply Forall_cons in H as [? H]). unfold diff_line, _record_added_hunk_lines.
  repeat match goal with E : startswith _ _ = false |- _ => rewrite E; clear E end.
  rewrite !andb_false_r. by destruct st.
Qed.
Lemma content_line_prefixes line :
  content_line line → startswith "diff --git " line = false ∧ startswith "@@ " line = false.
Proof.
  destruct line as [|c line]; [done|]. unfold content_line. rewrite !elem_of_cons.
  intros [-> | [-> | [-> | [-> | []%not_elem_of_nil]]]]; by split.
Qed.
Lemma diff_line_content line st :
  content_line line → ds_awaiting_destination_header st = false → diff_line line st = Some st.
Proof.
  intros [H1 H2]%content_line_prefixes Ha. unfold diff_line, _record_added_hunk_lines.
  destruct st. cbn in Ha |- *. subst. by rewrite H1, H2.
Qed.
Lemma diff_lines_content lines st :
  Forall content_line lines → ds_awaiting_destination_header st = false → diff_lines lines st = Some st.
Proof.
  intros H Ha. induction H as [|l lines Hl _ IH]; [done|]. simpl. by rewrite diff_line_content.
Qed.
Lemma diff_lines_inert lines st : Forall inert lines → diff_lines lines st = Some st.
Proof. induction 1 as [|l lines Hl _ IH]; [done|]. simpl. by rewrite diff_line_inert. Qed.

(** ** Hunk headers *)

Lemma span_digits_app l rest :
  digits l → match rest with c :: _ => is_digit c = false | [] => True end →
  span_digits (l ++ rest) = (l, rest).
Proof.
  intros Hl Hr. induction Hl as [|c l Hc _ IH]; simpl.
  - destruct rest as [|c rest]; [done|]. simpl. by rewrite Hr.
  - by rewrite Hc, IH.
Qed.
Lemma pretty_digits z :
  (0 <= z)%Z → digits (chars (pretty z)) ∧ digits_value (chars (pretty z)) = z ∧ chars (pretty z) ≠ [].
Proof.
  intros Hz. destruct (pretty_nonneg z Hz) as [Hd Hv]. split_and!; [done|exact Hv|apply pretty_not_nil].
Qed.
Lemma range_text_chars s c : (0 <= s)%Z → (0 <= c)%Z →
  ∃ l, chars (range_text s c) = chars (pretty s) ++ l ∧
    (l = [] ∧ c = 1%Z ∨ l = ","%char :: chars (pretty c)).
Proof.
  intros _ _. unfold range_text. rewrite chars_app. destruct (Z.eqb_spec c 1) as [->|]; eexists; split; eauto.
Qed.
Lemma hunk_range_skip l rest :
  Forall (λ c, byte_is 43 c = false) l → hunk_range (l ++ rest) = hunk_range rest.
Proof. induction 1 as [|c l Hc _ IH]; [done|]. simpl. by rewrite Hc. Qed.
Lemma digits_no_plus l : digits l → Forall (λ c, byte_is 43 c = false) l.
Proof.
  intros H. eapply Forall_impl; [exact H|]. intros c. unfold is_digit, between, code, byte_is.
  rewrite andb_true_iff, !Z.leb_le. intros [? ?]. apply N.eqb_neq. lia.
Qed.
Lemma range_text_no_plus s c : (0 <= s)%Z → (0 <= c)%Z →
  Forall (λ x, byte_is 43 x = false) (chars (range_text s c)).
Proof.
  intros Hs Hc. destruct (range_text_chars s c Hs Hc) as (l & -> & Hl). apply Forall_app. split.
  - apply digits_no_plus, pretty_digits, Hs.
  - destruct Hl as [[-> _] | ->]; constructor; [done|]. apply digits_no_plus, pretty_digits, Hc.
Qed.
Lemma hunk_range_header h :
  (0 <= (hk_old h).1)%Z → (0 <= (hk_old h).2)%Z → (0 <= hk_start h)%Z → (0 <= hk_count h)%Z →
  hunk_range (chars (hunk_header h)) = Some (hk_start h, hk_count h).
Proof.
  intros H1 H2 Hs Hc. unfold hunk_header. rewrite !chars_app.
  rewrite (hunk_range_skip (chars "@@ -")) by (by repeat constructor).
  rewrite hunk_range_skip by (by apply range_text_no_plus).
  destruct (range_text_chars _ _ Hs Hc) as (l & -> & Hl).
  destruct (pretty_digits _ Hs) as (Hd & Hv & Hne). change (chars " +") with [" "%char; "+"%char].
  cbn [app hunk_range]. change (byte_is 43 " ") with false. change (byte_is 43 "+") with true. cbn match.
  rewrite <-app_assoc. rewrite span_digits_app; [|done|by destruct Hl as [[-> _] | ->]].
  destruct (chars (pretty (hk_start h))) as [|c0 l0] eqn:E; [done|]. rewrite <-E in *. f_equal. f_equal.
  - rewrite <-Hv at 2. by rewrite E.
  - destruct Hl as [[-> ->] | ->]; [done|].
    destruct (pretty_digits _ Hc) as (Hd2 & Hv2 & Hne2). cbn [app].
    change (byte_is 44 ",") with true. cbn match.
    rewrite span_digits_app by done. destruct (chars (pretty (hk_count h))) eqn:E2; [done|].
    done.
Qed.

(** ** A file of the diff *)

Definition with_changed (m : line_map) (st : diff_state) : diff_state :=
  {| ds_changed_lines := m; ds_current_file := ds_current_file st;
     ds_header_destination := ds_header_destination st;
     ds_awaiting_destination_header := ds_awaiting_destination_header st;
     ds_destination_header_seen := ds_destination_header_seen st |}.
Definition add_hunk (file : option string) (m : line_map) (h : hunk) : line_map :=
  match file with
  | Some path => if (0 <? hk_count h)%Z then add_lines path (hunk_lines h) m else m
  | None => m
  end.
Definition destination_of (f : file_diff) : option string :=
  match fd_kind f with Deleted => None | _ => Some (fd_path f) end.
Definition add_file (m : line_map) (f : file_diff) : line_map :=
  let m := match fd_kind f with Created => setdefault (fd_path f) {[1%Z]} m | _ => m end in
  match fd_hunks f with
  | [] => m
  | hunks => foldl (add_hunk (destination_of f))
               (match destination_of f with Some p => setdefault p ∅ m | None => m end) hunks
  end.

Lemma diff_lines_hunks hunks st :
  Forall (λ h, Forall content_line (hk_lines h) ∧ (0 <= hk_start h)%Z ∧ (0 <= hk_count h)%Z
               ∧ (0 <= (hk_old h).1)%Z ∧ (0 <= (hk_old h).2)%Z) hunks →
  ds_awaiting_destination_header st = false → ds_destination_header_seen st = true →
  diff_lines (hunks ≫= λ h, hunk_header h :: hk_lines h) st
  = Some (with_changed (foldl (add_hunk (ds_current_file st)) (ds_changed_lines st) hunks) st).
Proof.
  intros H. revert st. induction H as [|h hunks (Hc & H1 & H2 & H3 & H4) _ IH]; intros st Ha Hs;
    [by destruct st|].
  cbn [mbind list_bind foldl]. cbn [app]. cbn [diff_lines].
  assert (E : diff_line (hunk_header h) st
              = Some (with_changed (add_hunk (ds_current_file st) (ds_changed_lines st) h) st)).
  { unfold diff_line. rewrite Ha, !andb_false_l.
    unfold _record_added_hunk_lines.
    replace (startswith "@@ " (hunk_header h)) with true by done.
    replace (startswith "diff --git " (hunk_header h)) with false by done.
    rewrite Hs, hunk_range_header by done. cbn [negb]. destruct (ds_current_file st) eqn:Ef; cbn [add_hunk].
    - unfold with_changed. cbn [fmap option_fmap option_map]. by rewrite Ef, Ha, Hs.
    - unfold with_changed. cbn [fmap option_fmap option_map]. by rewrite Ef, Ha, Hs. }
  rewrite E. cbn [mbind option_bind]. rewrite diff_lines_app, diff_lines_content by done.
  cbn [mbind option_bind]. by rewrite (IH (with_changed _ st) Ha Hs).
Qed.

Lemma spelled_header f :
  wf_file f → fd_kind f = Created →
  _new_file_destination_from_diff_header
    (spelled (fd_quoting f) ("a/" +:+ fd_old f) +:+ " " +:+ spelled (fd_quoting f) ("b/" +:+ fd_path f))
  = Some (fd_path f).
Proof.
  intros Hf Hk. rewrite (wf_created f Hf Hk). destruct (fd_quoting f) eqn:Eq; cbn [spelled].
  - by apply header_quoted, (wf_quoting f Hf).
  - exact (header_plain (fd_path f)).
Qed.
Lemma destination_label_read f :
  wf_file f → _decode_git_diff_path (destination_label f) = Some ("b/" +:+ fd_path f).
Proof.
  intros Hf. assert (Hnil : ∀ s, s +:+ "" = s).
  { intros s. induction s as [|c s IH]; [done|].
    change (String c s +:+ "") with (String c (s +:+ "")). by rewrite IH. }
  unfold destination_label. case_bool_decide as Hs.
  - destruct (fd_quoting f); [apply decode_git_quoted_tab|by apply decode_plain_tab].
  - rewrite Hnil. destruct (fd_quoting f) eqn:Eq; cbn [spelled]; [apply decode_git_quoted|].
    apply decode_plain; [done|]. pose proof (wf_plain f Hf Eq) as Ht. apply not_true_is_false.
    rewrite endswith_iff. intros [t Et]. apply not_true_iff_false in Ht. apply Ht, endswith_iff.
    destruct t as [|c [|c' t]]; [discriminate Et|discriminate Et|]. injection Et as _ _ Et. by exists t.
Qed.
Lemma drop_plus s : of_chars (drop 4 (chars ("+++ " +:+ s))) = s.
Proof. rewrite chars_app. change (chars "+++ ") with (["+"; "+"; "+"; " "]%char). apply of_chars_chars. Qed.

(** The line before the hunks *)
Lemma diff_line_destination f st :
  wf_file f → ds_awaiting_destination_header st = true →
  diff_line ("+++ " +:+ match fd_kind f with
                        | Deleted => "/dev/null"
                        | _ => destination_label f
                        end) st
  = Some {| ds_changed_lines := match destination_of f with
                                | Some p => setdefault p ∅ (ds_changed_lines st)
                                | None => ds_changed_lines st end;
            ds_current_file := destination_of f;
            ds_header_destination := ds_header_destination st;
            ds_awaiting_destination_header := false; ds_destination_header_seen := true |}.
Proof.
  intros Hf Ha. unfold diff_line. rewrite Ha, !andb_true_l.
  replace (startswith "diff --git " ("+++ " +:+ _)) with false by done.
  replace (startswith "new file mode " ("+++ " +:+ _)) with false by done.
  rewrite startswith_app, drop_plus. unfold destination_of. destruct (fd_kind f); [|done|];
    rewrite (destination_label_read f Hf); replace (String.eqb ("b/" +:+ fd_path f) "/dev/null") with false by done;
    by rewrite removeprefix_app.
Qed.

Lemma diff_lines_file f st :
  wf_file f → ∃ st', diff_lines (diff_text_lines f) st = Some st' ∧
    ds_changed_lines st' = add_file (ds_changed_lines st) f.
Proof.
  intros Hf. unfold diff_text_lines.
  set (names := spelled _ _ +:+ " " +:+ _).
  set (st1 := {| ds_changed_lines := ds_changed_lines st; ds_current_file := None;
                 ds_header_destination := _new_file_destination_from_diff_header names;
                 ds_awaiting_destination_header := true; ds_destination_header_seen := false |}).
  assert (E1 : diff_line ("diff --git " +:+ names) st = Some st1).
  { unfold diff_line. by rewrite startswith_app, removeprefix_app. }
  cbn [diff_lines]. rewrite E1. cbn [mbind option_bind].
  set (m := match fd_kind f with
            | Created => setdefault (fd_path f) {[1%Z]} (ds_changed_lines st)
            | _ => ds_changed_lines st end).
  assert (E2 : diff_lines (match fd_kind f with Created => ["new file mode " +:+ fd_mode f] | _ => [] end) st1
               = Some (with_changed m st1)).
  { unfold m. destruct (fd_kind f) eqn:Hk; [|done|done]. cbn [diff_lines]. unfold diff_line.
    replace (startswith "diff --git " ("new file mode " +:+ fd_mode f)) with false by done.
    rewrite startswith_app. cbn [ds_awaiting_destination_header st1 andb ds_header_destination].
    unfold with_changed, st1. cbn [ds_header_destination ds_changed_lines ds_current_file
      ds_awaiting_destination_header ds_destination_header_seen]. by rewrite (spelled_header f Hf Hk : _ names = _). }
  rewrite diff_lines_app, E2. cbn [mbind option_bind].
  rewrite diff_lines_app, diff_lines_inert by apply (wf_headers f Hf). cbn [mbind option_bind].
  unfold add_file. fold m. destruct (fd_hunks f) as [|h hunks] eqn:Eh.
  - cbn [bool_decide decide decide_rel]. exists (with_changed m st1). by split.
  - rewrite <-Eh. rewrite (bool_decide_eq_false_2 (fd_hunks f = [])) by (by rewrite Eh).
    cbn [app diff_lines]. rewrite diff_line_destination by done. cbn [mbind option_bind].
    rewrite diff_lines_hunks by (done || apply (wf_contents f Hf)). eexists. split; [done|]. by rewrite Eh.
Qed.
Lemma parse_rendered files :
  Forall wf_file files → _parse_added_lines_from_diff (rendered files) = Some (foldl add_file [] files).
Proof.
  intros H. unfold _parse_added_lines_from_diff, rendered. rewrite text_lines_unlines.
  - change (@nil (string * lineset)) with (ds_changed_lines diff_start). generalize diff_start.
    induction H as [|f files Hf _ IH]; intros st; [done|]. cbn [mbind list_bind foldl].
    rewrite diff_lines_app. destruct (diff_lines_file f st Hf) as (st' & -> & E).
    cbn [mbind option_bind]. by rewrite IH, E.
  - apply Forall_forall. intros l Hl. apply list_elem_of_bind in Hl as (f & Hl & Hf).
    rewrite Forall_forall in H. pose proof (wf_lines f (H f Hf)) as W. rewrite Forall_forall in W. auto.
Qed.

(** ** What the map holds *)

Lemma setdefault_get {V} k k' (v : V) d :
  dict_get k (setdefault k' v d) = if decide (k = k') then Some (default v (dict_get k d)) else dict_get k d.
Proof.
  unfold setdefault. destruct (decide (k = k')) as [->|N].
  - destruct (dict_get k' d) eqn:E; [by rewrite E|apply dict_get_set_eq].
  - destruct (dict_get k' d); [done|]. by rewrite dict_get_set_ne.
Qed.
Lemma hunk_lines_empty h : (hk_count h <= 0)%Z → hunk_lines h = ∅.
Proof. intros H. unfold hunk_lines, range_set. by rewrite seqZ_nil. Qed.
Lemma add_hunks_get path hunks m :
  is_Some (dict_get path m) →
  dict_get path (foldl (add_hunk (Some path)) m hunks)
    = Some (default ∅ (dict_get path m) ∪ ⋃ (hunk_lines <$> hunks)) ∧
  (∀ p, p ≠ path → dict_get p (foldl (add_hunk (Some path)) m hunks) = dict_get p m).
Proof.
  revert m. induction hunks as [|h hunks IH]; intros m [s Hs]; cbn [foldl fmap list_fmap].
  - rewrite Hs. split; [|done]. f_equal. cbn. set_solver.
  - assert (E : add_hunk (Some path) m h = m ∧ hunk_lines h = ∅
                ∨ add_hunk (Some path) m h = dict_set path (s ∪ hunk_lines h) m).
    { cbn [add_hunk]. destruct (Z.ltb_spec 0 (hk_count h)); [right|left; split; [done|by apply hunk_lines_empty]].
      unfold add_lines. by rewrite Hs. }
    destruct E as [[-> Eh] | ->].
    + destruct (IH m) as [IH1 IH2]; [by exists s|]. split; [|done]. rewrite IH1, Hs. f_equal. cbn. set_solver.
    + destruct (IH (dict_set path (s ∪ hunk_lines h) m)) as [IH1 IH2]; [rewrite dict_get_set_eq; eauto|].
      rewrite dict_get_set_eq in IH1. rewrite IH1, Hs. cbn. split; [f_equal; set_solver|].
      intros p Hp. rewrite IH2 by done. by apply dict_get_set_ne.
Qed.
Lemma add_file_get m f :
  (∀ p, p ≠ fd_path f → dict_get p (add_file m f) = dict_get p m) ∧
  (file_lines f = None → add_file m f = m) ∧
  (dict_get (fd_path f) m = None → dict_get (fd_path f) (add_file m f) = file_lines f).
Proof.
  assert (Hd : ∀ hunks m, foldl (add_hunk None) m hunks = m) by (by induction hunks).
  unfold add_file, file_lines, destination_of.
  destruct (fd_kind f) eqn:Hk; (destruct (fd_hunks f) as [|h hunks] eqn:Eh; [clear Eh|rewrite <-Eh; clear Eh]).
  - split_and!; [|done|]; intros; rewrite setdefault_get; [by rewrite decide_False|].
    rewrite decide_True by done. match goal with E : dict_get _ _ = None |- _ => rewrite E end.
    cbn. done.
  - destruct (add_hunks_get (fd_path f) (fd_hunks f) (setdefault (fd_path f) ∅ (setdefault (fd_path f) {[1%Z]} m)))
      as [H1 H2]; [rewrite setdefault_get, decide_True by done; by eexists|].
    split_and!; [|done|].
    + intros p Hp. rewrite H2, !setdefault_get, !decide_False by done. done.
    + intros E. rewrite H1, !setdefault_get, !decide_True by done. by rewrite E.
  - split_and!; intros; done.
  - rewrite !Hd. split_and!; intros; done.
  - split_and!; intros; done.
  - destruct (add_hunks_get (fd_path f) (fd_hunks f) (setdefault (fd_path f) ∅ m))
      as [H1 H2]; [rewrite setdefault_get, decide_True by done; by eexists|].
    split_and!; [| |].
    + intros p Hp. rewrite H2, !setdefault_get, !decide_False by done. done.
    + by destruct (fd_hunks f).
    + intros E. rewrite H1, !setdefault_get, !decide_True by done. rewrite E. cbn.
      destruct (fd_hunks f); (f_equal; set_solver).
Qed.

Definition touched (files : list file_diff) : list string :=
  omap (λ f, (λ _, fd_path f) <$> file_lines f) files.
Lemma add_files_get files m :
  NoDup (touched files) → (∀ p, p ∈ touched files → dict_get p m = None) →
  (∀ f l, f ∈ files → file_lines f = Some l → dict_get (fd_path f) (foldl add_file m files) = Some l) ∧
  (∀ p, p ∉ touched files → dict_get p (foldl add_file m files) = dict_get p m).
Proof.
  revert m. induction files as [|f files IH]; intros m Hn Hm; [split; [by intros ?? ?%not_elem_of_nil|done]|].
  destruct (add_file_get m f) as (Hne & Hnone & Hget). cbn [foldl].
  destruct (file_lines f) as [l0|] eqn:El.
  - assert (Et : touched (f :: files) = fd_path f :: touched files) by (unfold touched; simpl; by rewrite El).
    rewrite Et in *. apply NoDup_cons in Hn as [Hf Hn].
    destruct (IH (add_file m f) Hn) as [IH1 IH2].
    { intros p Hp. rewrite Hne by (by intros ->). apply Hm. by right. }
    split.
    + intros g l [-> | Hg]%elem_of_cons Hl; [|by apply IH1]. rewrite IH2 by done.
      rewrite Hget by (apply Hm; left). congruence.
    + intros p Hp. apply not_elem_of_cons in Hp as [Hp1 Hp2]. rewrite IH2 by done. by apply Hne.
  - assert (Et : touched (f :: files) = touched files) by (unfold touched; simpl; by rewrite El).
    rewrite Et in *. rewrite (Hnone eq_refl). destruct (IH m Hn Hm) as [IH1 IH2]. split; [|done].
    intros g l [-> | Hg]%elem_of_cons Hl; [congruence|by apply IH1].
Qed.

(** C11 The parser finds exactly the added lines of a zero-context diff: for
    any files as Git prints them (created, deleted or modified, renamed ones
    included, names plain or quoted, with the tab Git puts after a destination
    name just when it holds a space (a name that ends in a tab itself is
    quoted), any header lines and any added or removed
    text without an inner line boundary, text that looks like a header
    included), every file with an entry gets the lines of its hunks, a created
    file line 1 too, a deleted file and a file without hunks nothing, and no
    other path appears. *)
Theorem added_lines_exact (files : list file_diff) :
  Forall wf_file files → NoDup (touched files) →
  ∃ changed, _parse_added_lines_from_diff (rendered files) = Some changed ∧
    (∀ f l, f ∈ files → file_lines f = Some l → dict_get (fd_path f) changed = Some l) ∧
    (∀ p, p ∉ touched files → dict_get p changed = None).
Proof.
  intros Hf Hn. exists (foldl add_file [] files). split; [by apply parse_rendered|].
  by destruct (add_files_get files [] Hn) as [H1 H2].
Qed.

Definition sample_created : file_diff :=
  {| fd_quoting := None; fd_old := "src/a b/c.py"; fd_path := "src/a b/c.py"; fd_kind := Created;
     fd_mode := "100644"; fd_headers := ["index 0000000..1111111"; "--- /dev/null"];
     fd_hunks := [{| hk_old := (0, 0); hk_start := 1; hk_count := 2; hk_context := "";
                     hk_lines := ["+x"; "+++ b/other.py"] |}] |}%Z.
Definition sample_modified : file_diff :=
  {| fd_quoting := Some (between 32 126); fd_old := of_chars [quote_char; "o"%char];
     fd_path := of_chars [ascii_of_nat 195; ascii_of_nat 169]; fd_kind := Modified;
     fd_mode := ""; fd_headers := ["similarity index 90%"];
     fd_hunks := [{| hk_old := (3, 2); hk_start := 3; hk_count := 1; hk_context := " def f():";
                     hk_lines := ["-y"; "-z"; "+@@ -1 +9 @@"] |};
                  {| hk_old := (12, 1); hk_start := 10; hk_count := 0; hk_context := "";
                     hk_lines := ["-w"] |}] |}%Z.
Definition sample_plain : file_diff :=
  {| fd_quoting := None; fd_old := "setup.py"; fd_path := "setup.py"; fd_kind := Modified; fd_mode := "";
     fd_headers := ["index 0000000..1111111 100644"; "--- a/setup.py"];
     fd_hunks := [{| hk_old := (7, 0); hk_start := 8; hk_count := 1; hk_context := ""; hk_lines := ["+z"] |}] |}%Z.
Definition sample_files : list file_diff := [sample_created; sample_modified; sample_plain].
Lemma sample_files_wf : Forall wf_file sample_files.
Proof.
  repeat constructor; try (by vm_compute); try (intros; by vm_compute);
    try (intros ? [= <-]; by intros c).
Qed.
Lemma added_lines_exact_witness :
  Forall wf_file sample_files ∧ NoDup (touched sample_files) ∧
  destination_label sample_plain = "b/setup.py" ∧ destination_label sample_created = "b/src/a b/c.py" +:+ tab_text ∧
  ∃ changed, _parse_added_lines_from_diff (rendered sample_files) = Some changed ∧
    dict_get "src/a b/c.py" changed = Some (list_to_set [1; 2]%Z) ∧
    dict_get (of_chars [ascii_of_nat 195; ascii_of_nat 169]) changed = Some (list_to_set [3%Z]) ∧
    dict_get "setup.py" changed = Some (list_to_set [8%Z]).
Proof.
  split; [exact sample_files_wf|]. split; [by apply (bool_decide_unpack _); vm_compute|].
  split; [by vm_compute|]. split; [by vm_compute|].
  destruct (added_lines_exact sample_files sample_files_wf) as (m & H & H1 & _).
  { by apply (bool_decide_unpack _); vm_compute. }
  exists m. split; [exact H|]. split_and!.
  - apply (H1 sample_created); [left|by vm_compute].
  - apply (H1 sample_modified); [right; left|by vm_compute].
  - apply (H1 sample_plain); [right; right; left|by vm_compute].
Defined.

(** An added line with a form feed in it is read as several lines: the text
    after the form feed is taken for headers, and the next hunk of the file is
    recorded for the file they name. *)
Definition form_feed : string := String (ascii_of_nat 12) "".
Definition form_feed_diff : file_diff :=
  {| fd_quoting := None; fd_old := "a.py"; fd_path := "a.py"; fd_kind := Modified; fd_mode := "";
     fd_headers := [];
     fd_hunks := [{| hk_old := (1, 1); hk_start := 1; hk_count := 1; hk_context := "";
                     hk_lines := ["+# " +:+ form_feed +:+ "diff --git a/b.py b/b.py"
                                   +:+ form_feed +:+ "+++ b/b.py"] |};
                  {| hk_old := (9, 1); hk_start := 9; hk_count := 1; hk_context := "";
                     hk_lines := ["+y"] |}] |}%Z.
Lemma form_feed_moves_hunk :
  file_lines form_feed_diff = Some (list_to_set [1; 9]%Z) ∧
  (λ m, (dict_get "a.py" m, dict_get "b.py" m)) <$> _parse_added_lines_from_diff (rendered [form_feed_diff])
  = Some (Some (list_to_set [1%Z]), Some (list_to_set [9%Z])).
Proof. split; by vm_compute. Qed.

(** * Plumbing records *)

Definition tab_char : ascii := ascii_of_nat 9.
Lemma fields_of_word ws w c l :
  w ≠ [] → Forall (λ d, ws d = false) w → ws c = true →
  fields_of ws (w ++ c :: l) = w :: fields_of ws l.
Proof.
  intros Hw Hd Hc. unfold fields_of. rewrite split_chars_app by done. by rewrite filter_cons_True.
Qed.
Lemma fields_of_last ws w : w ≠ [] → Forall (λ d, ws d = false) w → fields_of ws w = [w].
Proof. intros Hw Hd. unfold fields_of. rewrite split_chars_single by done. by rewrite filter_cons_True. Qed.

Lemma hex_char_not_ws c : is_hex_lower c = true → str_ws c = false ∧ bytes_ws c = false ∧ c ≠ newline ∧ c ≠ tab_char.
Proof. destruct c as [[] [] [] [] [] [] [] []]; intros H; try discriminate H; split_and!; done. Qed.
Lemma object_id_hex oid :
  is_object_id oid = true → Forall (λ c, is_hex_lower c = true) (chars oid) ∧ chars oid ≠ [].
Proof.
  unfold is_object_id, hex_run. rewrite orb_true_iff, !andb_true_iff, !Nat.eqb_eq.
  intros [[Hl Hf]|[Hl Hf]]; (split; [by apply Forall_forall; intros c Hc; eapply forallb_forall in Hf;
    [|by apply list_elem_of_In]|by intros E; rewrite E in Hl]).
Qed.

(** The records of [git ls-tree -rz] *)
Definition entry_record (kind : string → string) (e : string * (string * string)) : string :=
  e.2.1 +:+ " " +:+ kind e.2.1 +:+ " " +:+ e.2.2 +:+ String tab_char e.1.
Definition mode_kind (mode : string) : string := if String.eqb mode "160000" then "commit" else "blob".
Definition tree_listing (entries : list (string * (string * string))) : string :=
  terminated nul_char (entry_record mode_kind <$> entries).
Record staged_entry (e : string * (string * string)) : Prop := {
  sge_path : e.1 ≠ "" ∧ is_absolute e.1 = false ∧ (".." ∉ path_parts e.1) ∧ (nul_char ∉ chars e.1);
  sge_mode : e.2.1 ∈ ["100644"; "100755"; "120000"; "160000"];
  sge_oid : is_object_id e.2.2 = true
}.
Lemma entry_metadata e : staged_entry e →
  of_chars <$> fields_of str_ws (chars (e.2.1 +:+ " " +:+ mode_kind e.2.1 +:+ " " +:+ e.2.2))
    = [e.2.1; mode_kind e.2.1; e.2.2] ∧
  (tab_char ∉ chars (e.2.1 +:+ " " +:+ mode_kind e.2.1 +:+ " " +:+ e.2.2)) ∧
  (nul_char ∉ chars (e.2.1 +:+ " " +:+ mode_kind e.2.1 +:+ " " +:+ e.2.2)).
Proof.
  intros [_ Hm Ho]. destruct (object_id_hex _ Ho) as [Hh Hn].
  assert (Hoid : ∀ c, c ∈ chars e.2.2 → str_ws c = false ∧ c ≠ tab_char ∧ c ≠ nul_char).
  { intros c Hc. rewrite Forall_forall in Hh. specialize (Hh c Hc).
    destruct (hex_char_not_ws c Hh) as (? & _ & _ & ?). split_and!; [done|done|by intros ->]. }
  assert (Hfix : ∀ m k, m ∈ ["100644"; "100755"; "120000"; "160000"] → k ∈ ["commit"; "blob"] →
    of_chars <$> fields_of str_ws (chars (m +:+ " " +:+ k +:+ " " +:+ e.2.2)) = [m; k; e.2.2] ∧
    ∀ c, c ∈ [tab_char; nul_char] → c ∉ chars (m +:+ " " +:+ k +:+ " " +:+ e.2.2)).
  { intros m k Hm' Hk. split.
    - rewrite !chars_app. change (chars " ") with [" "%char]. cbn [app].
      assert (Hw : ∀ x, x ∈ ["100644"; "100755"; "120000"; "160000"; "commit"; "blob"] →
        chars x ≠ [] ∧ Forall (λ d, str_ws d = false) (chars x)).
      { intros x Hx%list_elem_of_In. cbn in Hx. destruct_or! Hx; try done;
          subst x; (split; [done|by repeat constructor]). }
      destruct (Hw m) as [? ?]; [set_solver|]. destruct (Hw k) as [? ?]; [set_solver|].
      rewrite fields_of_word, fields_of_word, fields_of_last by (done || (apply Forall_forall; intros; by apply Hoid)).
      cbn. by rewrite !of_chars_chars.
    - intros c Hc. rewrite !chars_app, !elem_of_app. intros Hin.
      assert (Hno : (c ∉ chars m) ∧ (c ∉ chars " ") ∧ (c ∉ chars k)).
      { apply list_elem_of_In in Hc, Hm', Hk. clear Hin. cbn in Hc, Hm', Hk.
        destruct_or! Hc; try done; destruct_or! Hm'; try done; destruct_or! Hk; try done; subst c m k;
          split_and!; by apply (bool_decide_unpack _); vm_compute. }
      destruct Hno as (? & ? & ?). destruct_or! Hin; try done.
      destruct (Hoid c Hin) as (_ & ? & ?). set_solver. }
  destruct (Hfix e.2.1 (mode_kind e.2.1) Hm) as [H1 H2].
  { unfold mode_kind. destruct (String.eqb e.2.1 "160000"); set_solver. }
  split; [done|]. split; apply H2; set_solver.
Qed.

Lemma entry_record_split e :
  entry_record mode_kind e
  = (e.2.1 +:+ " " +:+ mode_kind e.2.1 +:+ " " +:+ e.2.2) +:+ String tab_char e.1.
Proof. apply (inj chars). unfold entry_record. rewrite !chars_app. by rewrite <-!app_assoc. Qed.
Lemma parse_staged_entry e :
  staged_entry e → _parse_cached_tree_entry (entry_record mode_kind e) = Some (e.1, e.2.1, e.2.2).
Proof.
  intros He. destruct (entry_metadata e He) as (Hf & Ht & _). destruct He as [(Hp1 & Hp2 & Hp3 & _) Hm Ho].
  unfold _parse_cached_tree_entry. rewrite entry_record_split, (partition_app tab_char) by done. rewrite Hf.
  rewrite (bool_decide_eq_true_2 (e.1 ≠ "")), Hp2, (bool_decide_eq_false_2 (".." ∈ _)), Ho by done.
  destruct e as [path [mode oid]]. apply list_elem_of_In in Hm. cbn in Hm. by destruct_or! Hm; subst.
Qed.
Lemma tree_entry_loop_staged entries before :
  Forall staged_entry entries → NoDup (dict_keys (before ++ entries)) →
  tree_entry_loop (entry_record mode_kind <$> entries) before = Some (before ++ entries).
Proof.
  intros H. revert before. induction H as [|e entries He _ IH]; intros before Hn; cbn [fmap list_fmap tree_entry_loop].
  - by rewrite app_nil_r.
  - rewrite parse_staged_entry by done. destruct e as [path [mode oid]]. cbn [fst snd].
    assert (Hfresh : path ∉ dict_keys before).
    { unfold dict_keys in *. rewrite fmap_app, fmap_cons in Hn. apply NoDup_app in Hn as (_ & Hd & _).
      intros Hin. apply (Hd _ Hin). left. }
    destruct (dict_mem path before) eqn:Em; [by apply dict_mem_true in Em|].
    rewrite (dict_set_fresh _ _ _ Hfresh), IH by (by rewrite <-app_assoc). by rewrite <-app_assoc.
Qed.
Lemma staged_record_ok e : staged_entry e → entry_record mode_kind e ≠ "" ∧ (nul_char ∉ chars (entry_record mode_kind e)).
Proof.
  intros He. destruct (entry_metadata e He) as (_ & _ & Hn). rewrite entry_record_split. split.
  - intros E. apply (f_equal chars) in E. rewrite chars_app in E. apply app_eq_nil in E as [_ E]. done.
  - rewrite chars_app, elem_of_app. change (chars (String tab_char e.1)) with (tab_char :: chars e.1).
    rewrite elem_of_cons. destruct (sge_path e He) as (_ & _ & _ & ?). by intros [|[|]].
Qed.
Lemma cached_tree_listing entries :
  Forall staged_entry entries → NoDup (dict_keys entries) →
  _cached_tree_entries (Some (tree_listing entries)) = Some entries.
Proof.
  intros H Hn. unfold _cached_tree_entries, records_of, tree_listing. cbn [mbind option_bind].
  rewrite split_terminated; [by apply tree_entry_loop_staged|].
  apply Forall_fmap. eapply Forall_impl; [exact H|]. intros e. apply staged_record_ok.
Qed.

(** The answer of [git cat-file --batch] to a list of blobs *)
Definition batch_blob (content_of : string → string) (oid : string) : list ascii :=
  chars (oid +:+ " blob " +:+ pretty (Z.of_nat (String.length (content_of oid))))
  ++ newline :: chars (content_of oid) ++ [newline].
Definition batch_output (content_of : string → string) (oids : list string) : string :=
  of_chars (mjoin (batch_blob content_of <$> oids)).

Lemma until_newline_app l rest : newline ∉ l → until_newline (l ++ newline :: rest) = Some (l, rest).
Proof.
  induction l as [|c l IH]; [done|]. intros [H1 H2]%not_elem_of_cons. cbn [app until_newline].
  assert (byte_is 10 c = false) as ->.
  { apply N.eqb_neq. intros E. apply H1. rewrite <-(ascii_N_embedding c), E. done. }
  by rewrite IH.
Qed.
Lemma parse_batch_blob content_of oid rest :
  is_object_id oid = true →
  _parse_cached_batch_blob (batch_blob content_of oid ++ rest) oid = Some (chars (content_of oid), rest).
Proof.
  intros Ho. destruct (object_id_hex _ Ho) as [Hh Hn].
  unfold batch_blob, _parse_cached_batch_blob.
  destruct (pretty_nonneg (Z.of_nat (String.length (content_of oid))) ltac:(lia)) as [Hd _].
  set (num := pretty _) in *. rewrite <-app_assoc. cbn [app]. rewrite <-app_assoc.
  assert (Hdig : Forall (λ c, is_hex_lower c = true) (chars num)).
  { eapply Forall_impl; [exact Hd|]. intros c Hc. unfold is_hex_lower. by rewrite Hc. }
  rewrite until_newline_app.
  2:{ rewrite !chars_app, !elem_of_app. rewrite Forall_forall in Hh, Hdig. intros [Hin|[Hin|Hin]].
      - by destruct (hex_char_not_ws _ (Hh _ Hin)) as (_ & _ & ? & _).
      - revert Hin. by apply (bool_decide_unpack _); vm_compute.
      - by destruct (hex_char_not_ws _ (Hdig _ Hin)) as (_ & _ & ? & _). }
  rewrite !chars_app. change (chars " blob ") with (" "%char :: chars "blob" ++ [" "%char]).
  cbn [app]. rewrite <-app_assoc. cbn [app].
  assert (Hws : ∀ l, Forall (λ c, is_hex_lower c = true) l → Forall (λ c, bytes_ws c = false) l).
  { intros l Hl. eapply Forall_impl; [exact Hl|]. intros c Hc. by destruct (hex_char_not_ws c Hc) as (_ & ? & _). }
  pose proof (pretty_not_nil (Z.of_nat (String.length (content_of oid))) : chars num ≠ []) as Hnum.
  rewrite fields_of_word, (fields_of_word _ (chars "blob")), fields_of_last
    by first [done | by apply Hws | by repeat constructor].
  rewrite !bool_decide_eq_true_2 by done. cbn [andb]. rewrite of_chars_chars. unfold num.
  rewrite parse_int_pretty by lia. rewrite (proj2 (Z.leb_le 0 _)) by lia. rewrite Nat2Z.id, <-length_chars.
  rewrite drop_app_length, take_app_length. done.
Qed.
Lemma batch_loop_output content_of oids contents :
  Forall (λ oid, is_object_id oid = true) oids →
  batch_loop (mjoin (batch_blob content_of <$> oids)) oids contents
  = Some (foldl (λ d oid, dict_set oid (content_of oid) d) contents oids).
Proof.
  intros H. revert contents. induction H as [|oid oids Ho _ IH]; intros contents; [done|].
  rewrite fmap_cons. change (mjoin (?x :: ?l)) with (x ++ mjoin l). cbn [batch_loop foldl].
  rewrite parse_batch_blob by done. by rewrite of_chars_chars, IH.
Qed.

Lemma unique_spec seen l : NoDup (unique seen l) ∧ (∀ x, x ∈ unique seen l ↔ x ∈ l ∧ (x ∉ seen)).
Proof.
  revert seen. induction l as [|y l IH]; intros seen; cbn [unique].
  - split; [constructor|]. intros x. split; [by intros ?%not_elem_of_nil|by intros [?%not_elem_of_nil _]].
  - case_bool_decide as E.
    + destruct (IH seen) as [Hn Hs]. split; [done|]. intros x. rewrite Hs, elem_of_cons. naive_solver.
    + destruct (IH (y :: seen)) as [Hn Hs]. split.
      * constructor; [|done]. rewrite Hs. intros [_ H]. apply H. left.
      * intros x. rewrite elem_of_cons, Hs, !elem_of_cons.
        destruct (decide (x = y)); naive_solver.
Qed.
Lemma foldl_set_get {V} (g : string → V) l (d : list (string * V)) k :
  dict_get k (foldl (λ d x, dict_set x (g x) d) d l) = if decide (k ∈ l) then Some (g k) else dict_get k d.
Proof.
  revert d. induction l as [|x l IH]; intros d; cbn [foldl].
  - rewrite decide_False; [done|apply not_elem_of_nil].
  - rewrite IH. destruct (decide (k ∈ l)) as [H|H].
    + rewrite decide_True; [done|by right].
    + destruct (decide (k = x)) as [->|N].
      * rewrite decide_True by left. apply dict_get_set_eq.
      * rewrite decide_False by set_solver. by apply dict_get_set_ne.
Qed.

(** The plumbing records of a staged snapshot read back: the listing of any
    tree (distinct safe paths, spaces, tabs and line feeds in them included,
    regular, executable, link and submodule entries) is parsed to its entries,
    and the answer of one batch call for any object ids, repeated ones
    included, gives every blob its exact bytes, line feeds and header-like
    text included, and nothing else; bytes left over are an error. *)
Theorem staged_records_roundtrip (entries : list (string * (string * string)))
    (content_of : string → string) (oids : list string) :
  Forall staged_entry entries → NoDup (dict_keys entries) →
  Forall (λ oid, is_object_id oid = true) oids →
  _cached_tree_entries (Some (tree_listing entries)) = Some entries ∧
  (∃ contents,
    _cached_blob_contents (λ l, Some (batch_output content_of l)) oids = Some contents ∧
    ∀ oid, dict_get oid contents = if decide (oid ∈ oids) then Some (content_of oid) else None) ∧
  (∀ extra, extra ≠ "" →
    _cached_blob_contents (λ l, Some (batch_output content_of l +:+ extra)) oids = None).
Proof.
  intros He Hn Ho. assert (Hu : Forall (λ oid, is_object_id oid = true) (unique [] oids)).
  { apply Forall_forall. intros x Hx. rewrite Forall_forall in Ho. apply Ho.
    by apply unique_spec in Hx as [? _]. }
  split; [by apply cached_tree_listing|]. unfold _cached_blob_contents, batch_output.
  cbn [mbind option_bind]. split.
  - eexists. rewrite chars_of_chars. split; [by apply batch_loop_output|]. intros oid. rewrite foldl_set_get.
    destruct (unique_spec [] oids) as [_ Hs]. apply decide_ext. rewrite Hs. set_solver.
  - intros extra Hx. rewrite chars_app, chars_of_chars. generalize (@nil (string * string)).
    induction Hu as [|oid l Hoid _ IH]; intros contents.
    + cbn. rewrite bool_decide_eq_false_2; [done|]. by rewrite chars_nil_iff.
    + rewrite fmap_cons. change (mjoin (?x :: ?l)) with (x ++ mjoin l). rewrite <-app_assoc. cbn [batch_loop].
      rewrite parse_batch_blob by done. apply IH.
Qed.
Lemma staged_records_roundtrip_witness :
  let oid := of_chars (replicate 40 "a"%char) in
  let entries := [("dir/a " +:+ newline_text +:+ ".py", ("100755", oid)); ("sub", ("160000", oid))] in
  Forall staged_entry entries ∧ NoDup (dict_keys entries) ∧ is_object_id oid = true ∧
  _cached_tree_entries (Some (tree_listing entries)) = Some entries.
Proof.
  intros oid entries.
  assert (H : Forall staged_entry entries).
  { repeat constructor; try by vm_compute. all: by apply (bool_decide_unpack _); vm_compute. }
  assert (Hn : NoDup (dict_keys entries)) by (by apply (bool_decide_unpack _); vm_compute).
  split; [exact H|]. split; [exact Hn|]. split; [by vm_compute|].
  apply (staged_records_roundtrip entries (λ _, "") [oid]); [exact H|exact Hn|by repeat constructor].
Defined.
