(* ===== verification/Assembly.v ===== *)
(** Assembly: how [specfact_code_review/run/runner.py] assembles reports: the
    noise, level and focus filters, the capsule report, the host report and
    the enforcement modes; calls [RangeReview], [Suppression], [Findings] and
    takes the changed lines from [Diff]. *)

From S2P Require Import Prelude Text Paths Dict PyValue Json Findings Correspondence Differential.
From S2P Require Import Suppression Scope RangeReview Diff Floats.

(** * Options *)

Inductive ReviewFocus := Simplify.
#[export] Instance ReviewFocus_eq_dec : EqDecision ReviewFocus. Proof. solve_decision. Defined.
Inductive review_level := LevelError | LevelWarning.

Record ReviewOptions := {
  ro_no_tests : bool;
  ro_include_noise : bool;
  ro_bug_hunt : bool;
  ro_review_level : option review_level;
  ro_review_mode : enforcement_mode;
  ro_focus : option ReviewFocus
}.

Definition bool_option (key : string) (overrides : list (string * pyval)) : result bool :=
  match sget_default key (VBool false) overrides with
  | VBool b => Ok b
  | _ => Err (TypeError (key +:+ " must be bool"))
  end.
Definition allowed_keys : list string :=
  ["no_tests"; "include_noise"; "progress_callback"; "bug_hunt"; "review_level"; "review_mode"; "focus";
   "project_config"; "project_runtime"].
(** [v not in {...}] where [None] is a member *)
Definition in_set_or_none (v : pyval) (s : list string) : result bool :=
  if hashable v
  then Ok (match v with VNone => true | VStr t => bool_decide (t ∈ s) | _ => false end)
  else Err (TypeError "unhashable type").
(** [callable(v)] *)
Class Callable := callable : pyval → bool.
Definition parse_level (v : pyval) : option review_level :=
  match v with
  | VStr "error" => Some LevelError | VStr "warning" => Some LevelWarning | _ => None
  end.
Definition parse_mode (v : pyval) : enforcement_mode :=
  match v with VStr "changed" => EmChanged | VStr "shadow" => EmShadow | _ => EmFull end.
Definition _review_options_from_kwargs `{Callable} (options : option ReviewOptions) (overrides : list (string * pyval)) :
    result ReviewOptions :=
  match options, overrides with
  | Some _, _ :: _ => Err (TypeError "pass either options or keyword review overrides, not both")
  | Some options, [] => Ok options
  | None, _ =>
      let unknown_keys := List.filter (λ k, negb (bool_decide (k ∈ allowed_keys))) (dict_keys overrides) in
      let! _ := check (bool_decide (unknown_keys = []))
        (TypeError ("unknown review option override: " +:+ join ", " (sorted unknown_keys))) in
      let! no_tests := bool_option "no_tests" overrides in
      let! include_noise := bool_option "include_noise" overrides in
      let! bug_hunt := bool_option "bug_hunt" overrides in
      let progress_callback := sget "progress_callback" overrides in
      let! _ := check (bool_decide (progress_callback = VNone) || callable progress_callback)
        (TypeError "progress_callback must be callable or None") in
      let review_level := sget "review_level" overrides in
      let! level_ok := in_set_or_none review_level ["error"; "warning"] in
      let! _ := check level_ok (TypeError "review_level must be one of error, warning, or None") in
      let review_mode := sget_default "review_mode" (VStr "full") overrides in
      let! mode_ok := in_set review_mode ["full"; "changed"; "shadow"; "enforce"] in
      let! _ := check mode_ok (TypeError "review_mode must be one of full, changed, shadow, or enforce") in
      let focus := sget "focus" overrides in
      let! focus_ok := in_set_or_none focus ["simplify"] in
      let! _ := check focus_ok (TypeError "focus must be simplify or None") in
      Ok {| ro_no_tests := no_tests; ro_include_noise := include_noise; ro_bug_hunt := bug_hunt;
            ro_review_level := parse_level review_level; ro_review_mode := parse_mode review_mode;
            ro_focus := if is_str "simplify" focus then Some Simplify else None |}
  end.

(** * Filters *)

Definition _GLOBAL_NOISE_RULES : list (string * string) := [("pylint", "R0801")].
Definition _TEST_NOISE_RULES : list (string * string) :=
  [("contract_runner", "MISSING_ICONTRACT"); ("basedpyright", "reportMissingImports");
   ("basedpyright", "reportAttributeAccessIssue"); ("pylint", "W0212")].
Definition _PYLINT_CLI_WRAPPER_NOISE_RULES : list string := ["R0914"; "R0917"].
Definition _NOISE_MESSAGE_PREFIXES : list string := ["ValidationError: 1 validation error for LedgerState"].

Definition _is_test_file (file_path : string) : bool := bool_decide ("tests" ∈ path_parts file_path).
Definition backslash_text : string := String (ascii_of_nat 92) "".
Definition _path_name (file_path : string) : string :=
  of_chars (path_name (replace backslash_text "/" file_path)).

(** Whether a dataclass is declared at a line of a file, from its syntax tree *)
Class LineTargetsDataclass := _line_targets_dataclass : string → Z → bool.

Definition _is_pylint_structural_noise `{LineTargetsDataclass} (f : ReviewFinding) : bool :=
  if negb (String.eqb (rf_tool f) "pylint") then false
  else if bool_decide (rf_rule f ∈ _PYLINT_CLI_WRAPPER_NOISE_RULES)
          && String.eqb (_path_name (rf_file f)) "commands.py"
  then py_in "argument" (rf_message f) || py_in "local variable" (rf_message f)
  else String.eqb (rf_rule f) "R0902" && py_in "Too many instance attributes" (rf_message f)
       && _line_targets_dataclass (rf_file f) (rf_line f).

Definition is_noise `{LineTargetsDataclass} (f : ReviewFinding) : bool :=
  bool_decide ((rf_tool f, rf_rule f) ∈ _GLOBAL_NOISE_RULES)
  || _is_pylint_structural_noise f
  || (String.eqb (rf_tool f) "crosshair"
      && existsb (λ prefix, startswith prefix (rf_message f)) _NOISE_MESSAGE_PREFIXES)
  || (_is_test_file (rf_file f) && bool_decide ((rf_tool f, rf_rule f) ∈ _TEST_NOISE_RULES)).
Definition _suppress_known_noise `{LineTargetsDataclass} (findings : list ReviewFinding) :
    list ReviewFinding := List.filter (λ f, negb (is_noise f)) findings.

Definition _filter_findings_by_review_level (findings : list ReviewFinding)
    (level : option review_level) : list ReviewFinding :=
  match level with
  | None => findings
  | Some LevelError => List.filter (λ f, bool_decide (rf_severity f = SevError)) findings
  | Some LevelWarning =>
      List.filter (λ f, bool_decide (rf_severity f = SevError)
                        || bool_decide (rf_severity f = SevWarning)) findings
  end.

Definition _belongs_to_simplification_queue (f : ReviewFinding) : bool :=
  bool_decide (rf_category f = ToolErrorCat) || bool_decide (rf_category f = AiBloat)
  || ((bool_decide (rf_category f = Dry) || bool_decide (rf_category f = Kiss))
      && bool_decide (rf_confidence f = Some ConfHigh) && simplification_metadata_is_deterministic f).
Definition _filter_findings_by_focus (findings : list ReviewFinding) (focus : option ReviewFocus) :
    list ReviewFinding :=
  match focus with
  | None => findings
  | Some Simplify => List.filter _belongs_to_simplification_queue findings
  end.

Definition _summary_for_findings (findings : list ReviewFinding) : string :=
  match findings with
  | [] => "Review completed with no findings."
  | _ => "Review completed with " +:+ pretty (Z.of_nat (length findings)) +:+ " findings ("
         +:+ pretty (count_true is_blocking findings) +:+ " blocking)."
  end.

(** * New reports *)

(** [ReviewReport(run_id=..., ...)] with the defaults of the other fields *)
Definition fresh_report (schema_version run_id : string) (now : datetime) (score : Z)
    (findings : list ReviewFinding) (summary : string) : ReviewReport :=
  {| rr_schema_version := schema_version; rr_run_id := run_id; rr_timestamp := now;
     rr_overall_verdict := None; rr_ci_exit_code := None; rr_assurance_status := None;
     rr_has_unknown_required_evidence := None; rr_scope_evidence := None;
     rr_analyzer_evidence := None; rr_suppression_catalog_digest := None; rr_score := score;
     rr_reward_delta := None; rr_findings := findings; rr_summary := summary;
     rr_simplification_summary := None; rr_cleanup_forecast := None; rr_enforcement_mode := None;
     rr_enforcement_summary := None; rr_requirements_evidence := None; rr_house_rules_updates := [] |}.

(** [model_copy(update=...)] and [payload.update(...)]: the fields given are
    replaced. *)
Record report_update := {
  u_overall_verdict : option (option verdict);
  u_ci_exit_code : option (option Z);
  u_assurance_status : option (option assurance_status);
  u_has_unknown : option (option bool);
  u_analyzer_evidence : option (option (list evidence_item));
  u_enforcement_mode : option enforcement_mode;
  u_enforcement_summary : option string
}.
Definition no_update : report_update :=
  {| u_overall_verdict := None; u_ci_exit_code := None; u_assurance_status := None;
     u_has_unknown := None; u_analyzer_evidence := None; u_enforcement_mode := None;
     u_enforcement_summary := None |}.
Definition apply_update (u : report_update) (r : ReviewReport) : ReviewReport :=
  {| rr_schema_version := rr_schema_version r; rr_run_id := rr_run_id r;
     rr_timestamp := rr_timestamp r;
     rr_overall_verdict := default (rr_overall_verdict r) (u_overall_verdict u);
     rr_ci_exit_code := default (rr_ci_exit_code r) (u_ci_exit_code u);
     rr_assurance_status := default (rr_assurance_status r) (u_assurance_status u);
     rr_has_unknown_required_evidence := default (rr_has_unknown_required_evidence r) (u_has_unknown u);
     rr_scope_evidence := rr_scope_evidence r;
     rr_analyzer_evidence := default (rr_analyzer_evidence r) (u_analyzer_evidence u);
     rr_suppression_catalog_digest := rr_suppression_catalog_digest r; rr_score := rr_score r;
     rr_reward_delta := rr_reward_delta r; rr_findings := rr_findings r; rr_summary := rr_summary r;
     rr_simplification_summary := rr_simplification_summary r;
     rr_cleanup_forecast := rr_cleanup_forecast r;
     rr_enforcement_mode :=
       match u_enforcement_mode u with Some m => Some m | None => rr_enforcement_mode r end;
     rr_enforcement_summary :=
       match u_enforcement_summary u with Some s => Some s | None => rr_enforcement_summary r end;
     rr_requirements_evidence := rr_requirements_evidence r;
     rr_house_rules_updates := rr_house_rules_updates r |}.
Definition set_enforcement (mode : enforcement_mode) (summary : string) (u : report_update) :
    report_update :=
  {| u_overall_verdict := u_overall_verdict u; u_ci_exit_code := u_ci_exit_code u;
     u_assurance_status := u_assurance_status u; u_has_unknown := u_has_unknown u;
     u_analyzer_evidence := u_analyzer_evidence u; u_enforcement_mode := Some mode;
     u_enforcement_summary := Some summary |}.

Section assembly.
Context `{PyRepr} `{Sha256} `{JsonLoads} `{LineTargetsDataclass}.

(** * The capsule report *)

Definition _capsule_evidence_list (evidence : list (string * evidence_item)) : result (list evidence_item) :=
  map_res (λ member, let! item := dict_index member evidence in
                     Ok (dict_merge [("id", VStr member)] item)) (all_ids default_pr_range_profile).

Definition is_activated (a : CatalogActivation) : bool :=
  bool_decide (ca_status a = C_PASS) && ca_profile_activated a.
Definition or_text (s dflt : string) : string := match s with "" => dflt | s => s end.
Definition deactivated_item (versions : list (string * string)) (activation : CatalogActivation)
    (evidence : list (string * evidence_item)) (member : string) : result (string * evidence_item) :=
  let! version := dict_index member versions in
  Ok (member, dict_merge (default [] (dict_get member evidence))
    [("execution_state", VStr "error"); ("evidence_outcome", VStr "UNKNOWN"); ("version", VStr version);
     ("diagnostic", VStr (or_text (ca_reason activation) "suppression_catalog_activation_failed"))]).
Definition _activated_capsule_report_evidence (resources : catalog_resources)
    (evidence : list (string * evidence_item)) (expected_versions : option (list (string * string)))
    (platform_id : string) : result (CatalogActivation * list (string * evidence_item)) :=
  let versions := match expected_versions with Some (v :: vs) => v :: vs | _ => _C14_ANALYZER_VERSIONS end in
  let! activation := activate_packaged_suppression_catalog resources platform_id (Some versions) in
  if is_activated activation && has_some (ca_digest activation) then Ok (activation, evidence)
  else if bool_decide ((list_to_set (dict_keys evidence) : gset string) =
                       list_to_set (all_ids default_pr_range_profile))
          && forallb (λ item, is_str "UNKNOWN" (sget "evidence_outcome" item)) (dict_values evidence)
  then Ok (activation, evidence)
  else
    let! items := map_res (deactivated_item versions activation evidence)
                    (all_ids default_pr_range_profile) in
    Ok (activation, dict_of items).

Definition pytest_member : string := "targeted-pytest-coverage".
Definition _LOCAL_ASSURANCE_KINDS : list string := ["worktree"; "full"; "explicit_files"].

(** The Darwin adjustment: the scope evidence and the members' evidence *)
Definition darwin_evidence (options : ReviewOptions) (scope_evidence : list (string * pyval))
    (report_evidence : list (string * evidence_item)) :
    result (list (string * pyval) * list (string * evidence_item)) :=
  let pytest_evidence := default [] (dict_get pytest_member report_evidence) in
  let ran := is_str "ran" (sget "execution_state" pytest_evidence) in
  let pytest_evidence :=
    if ran then dict_set "result_provenance" (VStr "project-origin-v1") pytest_evidence
    else pytest_evidence in
  let scope_evidence :=
    if ran then dict_set "native_pytest_result_provenance" (VStr "project-origin-v1") scope_evidence
    else scope_evidence in
  let skipped_pytest := is_str "not_applicable" (sget "execution_state" pytest_evidence) in
  let bypassed_pytest := ro_no_tests options && is_str "PASS" (sget "evidence_outcome" pytest_evidence) in
  let! local := in_set (sget "assurance_kind" scope_evidence) _LOCAL_ASSURANCE_KINDS in
  let protected_range := negb local && negb (is_str "UNKNOWN" (sget "evidence_outcome" pytest_evidence)) in
  Ok (scope_evidence,
      dict_set pytest_member
        (if skipped_pytest || bypassed_pytest || protected_range then
           dict_merge pytest_evidence
             [("execution_state", VStr "error"); ("evidence_outcome", VStr "UNKNOWN");
              ("diagnostic", VStr (if protected_range
                                   then "native_project_origin_pytest_not_protected_range_evidence"
                                   else "native_pytest_required_for_complete_review"))]
         else pytest_evidence) report_evidence).

Definition member_findings (findings_by_member : list (string * list ReviewFinding)) : list ReviewFinding :=
  mjoin ((λ member, bucket member findings_by_member) <$> all_ids default_pr_range_profile).
Definition select_findings (options : ReviewOptions) (findings : list ReviewFinding) : list ReviewFinding :=
  _filter_findings_by_focus
    (_filter_findings_by_review_level
       (if ro_include_noise options then findings else _suppress_known_noise findings)
       (ro_review_level options)) (ro_focus options).

Definition _capsule_report (resources : catalog_resources) (run_id : string) (now : datetime)
    (evidence : list (string * evidence_item)) (findings_by_member : list (string * list ReviewFinding))
    (options : ReviewOptions) (scope_evidence : list (string * pyval))
    (expected_versions : option (list (string * string))) (platform_id : string) : result ReviewReport :=
  let! (activation, report_evidence) :=
    _activated_capsule_report_evidence resources evidence expected_versions platform_id in
  let! (scope_evidence, report_evidence) :=
    (if String.eqb platform_id "darwin-arm64" then darwin_evidence options scope_evidence report_evidence
     else Ok (scope_evidence, report_evidence)) in
  let profile := aggregate_profile_evidence report_evidence expected_versions in
  let findings := select_findings options (member_findings findings_by_member) in
  let score := if bool_decide (per_assurance_status profile = APass)
                  && negb (existsb is_blocking findings) then 100%Z else 0%Z in
  let! items := _capsule_evidence_list report_evidence in
  validate_ReviewReport
    {| rr_schema_version := "1.6"; rr_run_id := "review-capsule-" +:+ run_id; rr_timestamp := now;
       rr_overall_verdict := None; rr_ci_exit_code := None;
       rr_assurance_status := Some (per_assurance_status profile);
       rr_has_unknown_required_evidence := Some (per_has_unknown_required_evidence profile);
       rr_scope_evidence := Some scope_evidence; rr_analyzer_evidence := Some items;
       rr_suppression_catalog_digest := if is_activated activation then ca_digest activation else None;
       rr_score := score; rr_reward_delta := None; rr_findings := findings;
       rr_summary := if bool_decide (per_assurance_status profile ≠ AUnknown)
                     then _summary_for_findings findings
                     else "Analyzer capsule execution is incomplete; assurance is UNKNOWN.";
       rr_simplification_summary := None; rr_cleanup_forecast := None;
       rr_enforcement_mode := Some (ro_review_mode options); rr_enforcement_summary := None;
       rr_requirements_evidence := None; rr_house_rules_updates := [] |}.

(** The backend the controller selects *)
Record BackendSelection := { bs_kind : string; bs_environment_id : string }.
Definition _unknown_capsule_report (resources : catalog_resources) (run_id : string) (now : datetime)
    (selected : BackendSelection) (reason : string) (options : ReviewOptions)
    (scope_evidence : list (string * pyval)) : result ReviewReport :=
  let versions := if String.eqb (bs_kind selected) "darwin-arm64"
                  then (λ member, (member, "unavailable")) <$> all_ids default_pr_range_profile
                  else _C14_ANALYZER_VERSIONS in
  let! evidence := map_res (λ member,
    let! version := dict_index member versions in
    Ok (member, [("execution_state", VStr "error"); ("evidence_outcome", VStr "UNKNOWN");
                 ("version", VStr version); ("diagnostic", VStr reason);
                 ("environment_id", VStr (or_text (bs_environment_id selected) "unsupported-controller"))]))
    (all_ids default_pr_range_profile) in
  _capsule_report resources run_id now evidence [] options scope_evidence (Some versions) (bs_kind selected).
End assembly.

(** * Enforcement *)

#[export] Instance EvidenceRef_eq_dec : EqDecision EvidenceRef. Proof. solve_decision. Defined.
#[export] Instance differential_state_eq_dec : EqDecision differential_state.
Proof. solve_decision. Defined.
#[export] Instance execution_state_eq_dec : EqDecision execution_state. Proof. solve_decision. Defined.
#[export] Instance recommended_action_eq_dec : EqDecision recommended_action.
Proof. solve_decision. Defined.
#[export] Instance clean_code_principle_eq_dec : EqDecision clean_code_principle.
Proof. solve_decision. Defined.
#[export] Instance preserve_reason_kind_eq_dec : EqDecision preserve_reason_kind.
Proof. solve_decision. Defined.
#[export] Instance SignalTraceEntry_eq_dec : EqDecision SignalTraceEntry. Proof. solve_decision. Defined.
#[export] Instance PreserveReasonEvidence_eq_dec : EqDecision PreserveReasonEvidence.
Proof. solve_decision. Defined.
#[export] Instance RemediationPacket_eq_dec : EqDecision RemediationPacket. Proof. solve_decision. Defined.
#[export] Instance ReviewFinding_eq_dec : EqDecision ReviewFinding. Proof. solve_decision. Defined.

Section enforcement.
Context `{PyRepr} (report_path : string → string).

Definition _finding_targets_changed_line (f : ReviewFinding) (changed_lines : line_map) : bool :=
  match dict_get (report_path (rf_file f)) changed_lines with
  | Some line_numbers => bool_decide (rf_line f ∈ line_numbers)
  | None => false
  end.

(** The report that ends enforcement early, or the changed lines;
    [changed_lines] is what [_changed_lines_from_git] returned. *)
Definition _changed_enforcement_precondition (report : ReviewReport) (changed_lines : option line_map)
    (cached_diff : bool) : ReviewReport + line_map :=
  if bool_decide (rr_assurance_status report = Some AUnknown)
     || bool_decide (rr_has_unknown_required_evidence report = Some true)
  then inl (apply_update (set_enforcement EmChanged
              "Changed enforcement cannot pass while required evidence is UNKNOWN." no_update) report)
  else
    match changed_lines with
    | Some changed_lines => inr changed_lines
    | None =>
        if negb cached_diff
        then inl (apply_update (set_enforcement EmChanged
               "Changed-line evidence is unavailable; the completed report retains its existing verdict."
               no_update) report)
        else inl (apply_update (set_enforcement EmChanged
               "Changed-line evidence is unavailable; changed enforcement fails closed."
               {| u_overall_verdict := Some (Some FAIL); u_ci_exit_code := Some (Some 1%Z);
                  u_assurance_status :=
                    Some (if has_some (rr_assurance_status report) then Some AUnknown else None);
                  u_has_unknown := Some (Some true); u_analyzer_evidence := None;
                  u_enforcement_mode := None; u_enforcement_summary := None |}) report)
    end.

(** One item of the projection: unchanged, projected, or [None] when the
    failure is not explained. *)
Definition is_failed (item : evidence_item) : bool := is_str "FAIL" (sget "evidence_outcome" item).
Definition member_blockers (findings_by_member : list (string * list ReviewFinding))
    (item : evidence_item) : list ReviewFinding :=
  List.filter is_blocking (bucket (py_str (sget_default "id" (VStr "") item)) findings_by_member).
Definition project_item (report : ReviewReport) (findings_by_member : list (string * list ReviewFinding))
    (changed_lines : line_map) (item : evidence_item) : option evidence_item :=
  if negb (is_failed item) then Some item
  else
    let blockers := member_blockers findings_by_member item in
    if bool_decide (length blockers = 0)
       || negb (forallb (λ f, bool_decide (f ∈ rr_findings report)) blockers)
       || existsb (λ f, _finding_targets_changed_line f changed_lines) blockers
    then None
    else Some (dict_merge item
      [("pre_enforcement_evidence_outcome", VStr "FAIL"); ("evidence_outcome", VStr "PASS");
       ("enforcement_disposition", VStr "unchanged_blockers_advisory")]).
Definition _project_unchanged_member_failures (report : ReviewReport)
    (findings_by_member : list (string * list ReviewFinding)) (changed_lines : line_map) :
    option (list evidence_item) :=
  match rr_analyzer_evidence report with
  | None => None
  | Some items =>
      projected ← mapM (project_item report findings_by_member changed_lines) items;
      if bool_decide (rr_assurance_status report = Some AFail) && negb (existsb is_failed items)
      then None else Some projected
  end.

Definition _revalidated_report (report : ReviewReport) (updates : report_update) : result ReviewReport :=
  validate_ReviewReport (apply_update updates report).

Definition _with_changed_enforcement (report : ReviewReport)
    (findings_by_member : list (string * list ReviewFinding)) (changed_lines : option line_map)
    (cached_diff : bool) : result ReviewReport :=
  match _changed_enforcement_precondition report changed_lines cached_diff with
  | inl precondition => Ok precondition
  | inr changed_lines =>
      let blocking_changed :=
        List.filter (λ f, is_blocking f && _finding_targets_changed_line f changed_lines)
          (rr_findings report) in
      if bool_decide (length blocking_changed ≠ 0) then
        _revalidated_report report (set_enforcement EmChanged
          ("Changed enforcement blocks on " +:+ pretty (Z.of_nat (length blocking_changed))
           +:+ " blocking finding(s) on changed lines.")
          {| u_overall_verdict := Some (Some FAIL); u_ci_exit_code := Some (Some 1%Z);
             u_assurance_status :=
               Some (if has_some (rr_assurance_status report) then Some AFail else None);
             u_has_unknown := None; u_analyzer_evidence := None;
             u_enforcement_mode := None; u_enforcement_summary := None |})
      else
        let projected_evidence :=
          if has_some (rr_assurance_status report)
          then Some <$> _project_unchanged_member_failures report findings_by_member changed_lines
          else Some (rr_analyzer_evidence report) in
        match projected_evidence with
        | None =>
            _revalidated_report report (set_enforcement EmChanged
              "Changed enforcement cannot pass because failing analyzer evidence is not fully explained by proven unchanged blocking findings."
              no_update)
        | Some projected_evidence =>
            let legacy_blocking := count_true is_blocking (rr_findings report) in
            _revalidated_report report (set_enforcement EmChanged
              (if (legacy_blocking =? 0)%Z
               then "Changed enforcement found no blocking findings on changed lines."
               else "Changed enforcement found no blocking findings on changed lines; "
                    +:+ pretty legacy_blocking
                    +:+ " legacy blocking finding(s) remain as evidence.")
              {| u_overall_verdict :=
                   Some (Some (match rr_findings report with [] => PASS | _ => PASS_WITH_ADVISORY end));
                 u_ci_exit_code := Some (Some 0%Z);
                 u_assurance_status :=
                   Some (if has_some (rr_assurance_status report) then Some APass else None);
                 u_has_unknown := None; u_analyzer_evidence := Some projected_evidence;
                 u_enforcement_mode := None; u_enforcement_summary := None |})
        end
  end.

Definition _with_enforcement (report : ReviewReport) (mode : enforcement_mode)
    (findings_by_member : list (string * list ReviewFinding)) (changed_lines : option line_map)
    (cached_diff : bool) : result ReviewReport :=
  match mode with
  | EmFull =>
      Ok (apply_update (set_enforcement EmFull
            "Full enforcement blocks on any blocking finding in the reviewed files." no_update) report)
  | EmShadow =>
      Ok (apply_update (set_enforcement EmShadow
            "Shadow enforcement records findings as evidence and never blocks CI."
            {| u_overall_verdict := None; u_ci_exit_code := Some (Some 0%Z); u_assurance_status := None;
               u_has_unknown := None; u_analyzer_evidence := None; u_enforcement_mode := None;
               u_enforcement_summary := None |}) report)
  | EmChanged => _with_changed_enforcement report findings_by_member changed_lines cached_diff
  end.
End enforcement.

(** * The host review *)

(** What the tools report: the findings of the analyzers, of the tests, of
    the checklist, and what the clean-up enrichment and forecast compute. *)
Record HostAnswers := {
  ha_tool_findings : list ReviewFinding;
  ha_tdd_findings : list ReviewFinding;
  ha_coverage_by_source : list (string * spec_float);
  ha_checklist_findings : list ReviewFinding;
  ha_enrich : ReviewFinding → ReviewFinding;
  ha_forecast : list ReviewFinding → CleanupForecast;
  ha_no_suppressions : bool
}.

Section host.
Context `{PyRepr} `{LineTargetsDataclass} (report_path : string → string).

Definition with_cleanup_forecast (forecast : option CleanupForecast) (r : ReviewReport) : ReviewReport :=
  match r with
  | Build_ReviewReport sv id t ov ec st un sc ev di so rd fs su ss _ em es re hr =>
      Build_ReviewReport sv id t ov ec st un sc ev di so rd fs su ss forecast em es re hr
  end.

(** [_collect_tdd_findings] *)
Definition _collect_tdd_findings (a : HostAnswers) (no_tests : bool) : list ReviewFinding * bool :=
  if no_tests then ([], false)
  else
    (ha_tdd_findings a,
     bool_decide (length (ha_coverage_by_source a) ≠ 0)
     && forallb (λ sp, float_leb (float_of_Z 90) sp.2) (ha_coverage_by_source a)).

Definition run_review_findings (a : HostAnswers) (options : ReviewOptions) : list ReviewFinding :=
  let tdd := (_collect_tdd_findings a (ro_no_tests options)).1 in
  let findings := select_findings options
    (ha_tool_findings a ++ tdd ++ ha_checklist_findings a) in
  match ro_focus options with
  | Some Simplify => ha_enrich a <$> findings
  | None => findings
  end.
Definition score_kwargs (a : HostAnswers) (options : ReviewOptions) (findings : list ReviewFinding) :
    list (string * pyval) :=
  let has p := existsb p findings in
  [("zero_loc_violations",
    VBool (negb (has (λ f, String.eqb (rf_tool f) "ruff" && String.eqb (rf_rule f) "E501"))));
   ("zero_complexity_violations", VBool (negb (has (λ f, String.eqb (rf_tool f) "radon"))));
   ("all_apis_have_icontract", VBool (negb (has (λ f, String.eqb (rf_rule f) "MISSING_ICONTRACT"))));
   ("coverage_90_plus", VBool (_collect_tdd_findings a (ro_no_tests options)).2);
   ("no_new_suppressions", VBool (ha_no_suppressions a));
   ("simplification_score_neutral", VBool (bool_decide (ro_focus options = Some Simplify)))].

Definition blocking_simplifications (r : ReviewReport) : bool :=
  match rr_simplification_summary r with
  | Some s => (0 <? ss_blocking_simplification_count s)%Z
  | None => false
  end.
Definition run_review (a : HostAnswers) (run_id : string) (now : datetime) (options : ReviewOptions)
    (changed_lines : option line_map) : result ReviewReport :=
  let findings := run_review_findings a options in
  let! score := score_review findings (score_kwargs a options findings) in
  let forecast := match ro_focus options with
                  | Some Simplify => Some (ha_forecast a findings) | None => None end in
  let! report := validate_ReviewReport
    (with_cleanup_forecast forecast
       (fresh_report "1.0" ("review-" +:+ run_id) now (sc_score score) findings
          (_summary_for_findings findings))) in
  let! report := _with_enforcement report_path report (ro_review_mode options) [] changed_lines false in
  Ok (if bool_decide (ro_focus options = Some Simplify) && bool_decide (ro_review_mode options = EmFull)
         && blocking_simplifications report
      then apply_update {| u_overall_verdict := Some (Some FAIL); u_ci_exit_code := Some (Some 1%Z);
             u_assurance_status := None; u_has_unknown := None; u_analyzer_evidence := None;
             u_enforcement_mode := None; u_enforcement_summary := None |} report
      else report).
End host.
