(* ===== verification/AssemblyProofs.v ===== *)
(** AssemblyProofs: what a report exits with after enforcement, and what the
    reports of the host and of the capsule say about the findings they were
    built from. *)

From S2P Require Import Prelude Text Paths Dict PyValue Json Findings FindingsProofs Correspondence.
From S2P Require Import Differential Suppression SuppressionProofs Scope RangeReview RangeReviewProofs Diff Assembly Floats.

(** * Updates *)

Lemma apply_update_fields u r :
  rr_findings (apply_update u r) = rr_findings r ∧ rr_score (apply_update u r) = rr_score r ∧
  rr_schema_version (apply_update u r) = rr_schema_version r ∧ rr_run_id (apply_update u r) = rr_run_id r.
Proof. by destruct r. Qed.

(** A failing item of the analyzer evidence that a changed-line review waves
    through: its blocking findings exist, are reported, and none of them is on
    a changed line. *)
Definition explained `{PyRepr} (report_path : string → string) (report : ReviewReport)
    (findings_by_member : list (string * list ReviewFinding)) (changed : line_map)
    (item : evidence_item) : Prop :=
  member_blockers findings_by_member item ≠ [] ∧
  ∀ f, f ∈ member_blockers findings_by_member item →
    f ∈ rr_findings report ∧ _finding_targets_changed_line report_path f changed = false.

Lemma project_item_explained `{PyRepr} report_path report fbm changed item out :
  project_item report_path report fbm changed item = Some out → is_failed item = true →
  explained report_path report fbm changed item.
Proof.
  unfold project_item. intros Hp Hf. rewrite Hf in Hp. cbn [negb] in Hp. case_match eqn:E; [done|].
  bool_hyps. split.
  - intros Hn. rewrite Hn in *. done.
  - intros f Hin. split.
    + match goal with X : forallb _ _ = true |- _ => rewrite forallb_forall in X;
        apply (bool_decide_eq_true_1 _), X, list_elem_of_In, Hin end.
    + apply not_true_is_false. intros Ht.
      match goal with X : existsb _ _ = false |- _ => apply not_true_iff_false in X; apply X end.
      apply existsb_elem. eauto.
Qed.
Lemma projection_explained `{PyRepr} report_path report fbm changed items :
  _project_unchanged_member_failures report_path report fbm changed = Some items →
  ∀ item, item ∈ default [] (rr_analyzer_evidence report) → is_failed item = true →
    explained report_path report fbm changed item.
Proof.
  unfold _project_unchanged_member_failures. destruct (rr_analyzer_evidence report) as [l|]; [|done].
  intros Hp. apply bind_Some in Hp as (projected & Hm & _). apply mapM_Some in Hm.
  intros item Hi Hf. cbn in Hi. apply list_elem_of_lookup in Hi as [i Hi].
  destruct (Forall2_lookup_l _ _ _ _ _ Hm Hi) as (out & _ & Ho). by eapply project_item_explained.
Qed.

(** No blocking finding of the report is on a changed line. *)
Definition clear_of_changes (report_path : string → string) (report : ReviewReport) (changed : line_map) : Prop :=
  ∀ f, f ∈ rr_findings report → is_blocking f = true →
    _finding_targets_changed_line report_path f changed = false.
Lemma blocking_changed_nil report_path report changed :
  List.filter (λ f, is_blocking f && _finding_targets_changed_line report_path f changed)
    (rr_findings report) = [] ↔ clear_of_changes report_path report changed.
Proof.
  unfold clear_of_changes. split.
  - intros E f Hf Hb. apply not_true_is_false. intros Ht.
    assert (Hin : f ∈ List.filter (λ f, is_blocking f && _finding_targets_changed_line report_path f changed)
                       (rr_findings report)).
    { apply list_elem_of_In, filter_In. split; [by apply list_elem_of_In|]. by rewrite Hb, Ht. }
    rewrite E in Hin. by apply not_elem_of_nil in Hin.
  - intros Hc. destruct (List.filter _ _) as [|f l] eqn:E; [done|].
    assert (Hin : In f (List.filter (λ f, is_blocking f && _finding_targets_changed_line report_path f changed)
                       (rr_findings report))) by (rewrite E; by left).
    apply filter_In in Hin as [Hin [Hb Ht]%andb_true_iff]. apply list_elem_of_In in Hin.
    by rewrite (Hc f Hin Hb) in Ht.
Qed.

(** The schema of a report that has one from 1.6 on stays, and so does the
    presence of an assurance status. *)
Lemma validated_schema `{PyRepr} r r' : validate_ReviewReport r = Ok r' →
  schema_version_at_least (rr_schema_version r) 6 = true → rr_schema_version r' = rr_schema_version r.
Proof.
  intros (version & summary & auth & v & e & s & u & -> & _ & _ & -> & _)%validate_report_inv%derive_governance_inv Hv.
  simpl. unfold _schema_version. destruct r; cbn in *. by rewrite Hv.
Qed.
Lemma validated_status_some `{PyRepr} r r' : validate_ReviewReport r = Ok r' →
  is_Some (rr_assurance_status r) → is_Some (rr_assurance_status r').
Proof.
  intros (version & summary & auth & v & e & s & u & _ & _ & _ & -> & Hf)%validate_report_inv%derive_governance_inv.
  simpl. destruct auth as [[[[s0 u0] v0] e0]|]; [by destruct Hf as (-> & _); eauto|].
  destruct Hf as (-> & _). by destruct r.
Qed.

Section changed.
Context `{PyRepr} (report_path : string → string) (report : ReviewReport)
  (findings_by_member : list (string * list ReviewFinding)).

(** A revalidated report that exits with 0 had an accepted status. *)
Lemma revalidated_zero u out :
  _revalidated_report report u = Ok out → u_enforcement_mode u = Some EmChanged →
  is_Some (rr_assurance_status (apply_update u report)) →
  schema_version_at_least (rr_schema_version report) 6 = true → rr_ci_exit_code out = Some 0%Z →
  ∃ s, rr_assurance_status (apply_update u report) = Some s ∧ (s = APass ∨ s = ANotApplicable) ∧
    (s = APass → complete_profile (rr_analyzer_evidence out)).
Proof.
  unfold _revalidated_report. intros Ho Hm Hs Hv Hz.
  destruct (apply_update_fields u report) as (_ & _ & Hver & _).
  destruct (validated_fields _ _ Ho) as (_ & Hmode & Hev & _).
  assert (Hu : rr_enforcement_mode (apply_update u report) = Some EmChanged) by (cbn; by rewrite Hm).
  destruct (validated_zero_exit _ _ Ho) as (s & _ & Hst & Hacc & Hcp & _).
  - rewrite (validated_schema _ _ Ho); by rewrite Hver.
  - by apply (validated_status_some _ _ Ho).
  - done.
  - by rewrite Hmode, Hu.
  - exists s. split; [done|]. split; [done|]. intros Hp. rewrite Hev. by apply Hcp.
Qed.
Lemma revalidated_explicit u out x v :
  _revalidated_report report u = Ok out → u_enforcement_mode u = Some EmChanged →
  rr_assurance_status (apply_update u report) = None →
  u_overall_verdict u = Some (Some v) → u_ci_exit_code u = Some (Some x) → rr_ci_exit_code out = Some x.
Proof.
  unfold _revalidated_report. intros Ho Hm Hs Hv Hx.
  destruct (validated_explicit _ _ Ho Hs) as (_ & -> & _); cbn; rewrite ?Hm, ?Hv, ?Hx; eauto.
Qed.

Lemma changed_enforcement_known changed cached_diff out :
  _with_changed_enforcement report_path report findings_by_member (Some changed) cached_diff = Ok out →
  rr_assurance_status report ≠ Some AUnknown → rr_has_unknown_required_evidence report ≠ Some true →
  (¬ clear_of_changes report_path report changed ∧ ∃ u,
     _revalidated_report report u = Ok out ∧ u_enforcement_mode u = Some EmChanged ∧
     u_overall_verdict u = Some (Some FAIL) ∧ u_ci_exit_code u = Some (Some 1%Z) ∧
     rr_assurance_status (apply_update u report)
       = if has_some (rr_assurance_status report) then Some AFail else None) ∨
  (is_Some (rr_assurance_status report) ∧ ∃ u,
     _revalidated_report report u = Ok out ∧ u_enforcement_mode u = Some EmChanged ∧
     rr_assurance_status (apply_update u report) = rr_assurance_status report) ∨
  (clear_of_changes report_path report changed ∧
   (is_Some (rr_assurance_status report) → ∀ item, item ∈ default [] (rr_analyzer_evidence report) →
      is_failed item = true → explained report_path report findings_by_member changed item) ∧ ∃ u v,
     _revalidated_report report u = Ok out ∧ u_enforcement_mode u = Some EmChanged ∧
     u_overall_verdict u = Some (Some v) ∧ u_ci_exit_code u = Some (Some 0%Z) ∧
     rr_assurance_status (apply_update u report)
       = if has_some (rr_assurance_status report) then Some APass else None).
Proof.
  unfold _with_changed_enforcement, _changed_enforcement_precondition. intros Ho Hu1 Hu2.
  rewrite !bool_decide_eq_false_2 in Ho by done. cbn [orb] in Ho.
  rewrite <-blocking_changed_nil. case_bool_decide as Hb.
  - left. split; [by intros Hn; rewrite Hn in Hb|]. eexists. split_and!; [exact Ho|done..].
  - apply nil_length_inv in Hb. destruct (rr_assurance_status report) as [st|] eqn:Hst; cbn [has_some] in Ho.
    + destruct (_project_unchanged_member_failures _ _ _ _) as [items|] eqn:Hp; cbn in Ho.
      * right; right. split; [done|]. split; [by intros _; eapply projection_explained|].
        do 2 eexists. split_and!; [exact Ho|done..].
      * right; left. split; [by eexists|]. eexists. split_and!; [exact Ho|done|]. by destruct report.
    + right; right. split; [done|]. split; [by intros [? [=]]|].
      do 2 eexists. split_and!; [exact Ho|done..].
Qed.

Lemma revalidated_fields u out :
  _revalidated_report report u = Ok out → u_enforcement_mode u = Some EmChanged →
  rr_findings out = rr_findings report ∧ rr_enforcement_mode out = Some EmChanged ∧
  rr_score out = rr_score report.
Proof. intros (-> & -> & _ & -> & _)%validated_fields Hm. cbn. by rewrite Hm. Qed.
(** Without an assurance status the changed lines decide. *)
Lemma changed_legacy changed cached_diff out :
  _with_changed_enforcement report_path report findings_by_member (Some changed) cached_diff = Ok out →
  rr_assurance_status report = None → rr_has_unknown_required_evidence report ≠ Some true →
  rr_ci_exit_code out = Some 0%Z ↔ clear_of_changes report_path report changed.
Proof.
  intros Ho Hn Hu. apply changed_enforcement_known in Ho
    as [(Hc & u & Hr & Hm & Hv & Hx & Hs)|[((st & Hst) & _)|(Hc & _ & u & v & Hr & Hm & Hv & Hx & Hs)]];
    [|congruence| |congruence|done]; rewrite Hn in Hs;
    rewrite (revalidated_explicit _ _ _ _ Hr Hm Hs Hv Hx); naive_solver.
Qed.
Lemma changed_unknown_lines cached_diff out :
  _with_changed_enforcement report_path report findings_by_member None cached_diff = Ok out →
  rr_assurance_status report ≠ Some AUnknown → rr_has_unknown_required_evidence report ≠ Some true →
  rr_findings out = rr_findings report ∧ rr_enforcement_mode out = Some EmChanged ∧
  rr_score out = rr_score report ∧
  rr_ci_exit_code out = if cached_diff then Some 1%Z else rr_ci_exit_code report.
Proof.
  unfold _with_changed_enforcement, _changed_enforcement_precondition. intros Ho Hu1 Hu2.
  rewrite !bool_decide_eq_false_2 in Ho by done. cbn [orb] in Ho.
  destruct cached_diff; cbn [negb] in Ho; injection Ho as <-; done.
Qed.
End changed.

(** C6 Changed-line enforcement is a gate: on a validated report, whatever it
    ends with keeps the findings.  A report with an unknown status or unknown
    required evidence keeps its exit code and its status, whatever lines
    changed.  On any other, without the changed lines a staged review exits
    with 1 and any other keeps the exit code it had; with them a report without
    an assurance status exits with 0 exactly when no blocking finding is on a
    changed line, and one with an assurance status (schema 1.6) exits with 0
    only if it already did, or if no blocking finding is on a changed line,
    every failing analyzer is explained by reported findings off the changed
    lines, and the projected evidence is a complete passing profile. *)
Theorem changed_enforcement_gate `{PyRepr} (report_path : string → string) raw report findings_by_member
    changed_lines cached_diff out :
  validate_ReviewReport raw = Ok report →
  _with_changed_enforcement report_path report findings_by_member changed_lines cached_diff = Ok out →
  rr_findings out = rr_findings report ∧ rr_enforcement_mode out = Some EmChanged ∧
  (rr_assurance_status report = Some AUnknown ∨ rr_has_unknown_required_evidence report = Some true →
   rr_ci_exit_code out = rr_ci_exit_code report ∧ rr_assurance_status out = rr_assurance_status report) ∧
  (changed_lines = None →
   rr_assurance_status report ≠ Some AUnknown → rr_has_unknown_required_evidence report ≠ Some true →
   rr_ci_exit_code out = if cached_diff then Some 1%Z else rr_ci_exit_code report) ∧
  (∀ changed, changed_lines = Some changed →
   (rr_assurance_status report = None → rr_has_unknown_required_evidence report ≠ Some true →
    rr_ci_exit_code out = Some 0%Z ↔ clear_of_changes report_path report changed) ∧
   (is_Some (rr_assurance_status report) → schema_version_at_least (rr_schema_version report) 6 = true →
    rr_ci_exit_code out = Some 0%Z →
    rr_ci_exit_code report = Some 0%Z ∨
    clear_of_changes report_path report changed ∧
    (∀ item, item ∈ default [] (rr_analyzer_evidence report) → is_failed item = true →
       explained report_path report findings_by_member changed item) ∧
    complete_profile (rr_analyzer_evidence out))).
Proof.
  intros Hraw Ho.
  destruct (decide (rr_assurance_status report = Some AUnknown ∨ rr_has_unknown_required_evidence report = Some true))
    as [Hunk|Hunk].
  { unfold _with_changed_enforcement, _changed_enforcement_precondition in Ho.
    replace (bool_decide (rr_assurance_status report = Some AUnknown)
             || bool_decide (rr_has_unknown_required_evidence report = Some true)) with true in Ho.
    - injection Ho as <-. cbn. split_and!; [done|done|by destruct report|naive_solver|].
      intros changed _. split; [naive_solver|]. intros _ _ Hz. by left.
    - symmetry. rewrite orb_true_iff, !bool_decide_eq_true. done. }
  assert (Hu1 : rr_assurance_status report ≠ Some AUnknown) by naive_solver.
  assert (Hu2 : rr_has_unknown_required_evidence report ≠ Some true) by naive_solver. destruct changed_lines as [changed|].
  - pose proof (changed_legacy report_path report findings_by_member changed cached_diff out Ho) as Hleg.
    destruct (changed_enforcement_known report_path report findings_by_member changed cached_diff out Ho Hu1 Hu2)
      as [(Hc & u & Hr & Hm & Hv & Hx & Hs)|[((st & Hst) & u & Hr & Hm & Hs)|(Hc & He & u & v & Hr & Hm & Hv & Hx & Hs)]];
      destruct (revalidated_fields _ u _ Hr Hm) as (-> & -> & _); (split_and!; [done|done|naive_solver|done|]);
      intros changed' [= <-]; (split; [exact Hleg|]).
    + intros [st Hst] Hver Hz. rewrite Hst in Hs. cbn [has_some] in Hs.
      assert (Hu : is_Some (rr_assurance_status (apply_update u report))) by (rewrite Hs; by eexists).
      destruct (revalidated_zero _ _ _ Hr Hm Hu Hver Hz) as (s & Hs' & [-> | ->] & _); congruence.
    + intros _ Hver Hz. left. rewrite Hst in Hs.
      assert (Hu : is_Some (rr_assurance_status (apply_update u report))) by (rewrite Hs; by eexists).
      destruct (revalidated_zero _ _ _ Hr Hm Hu Hver Hz) as (s & Hs' & Hacc & _).
      eapply (validated_accepted_exit _ _ s Hraw Hver); [|done]. congruence.
    + intros [st Hst] Hver Hz. right. split; [done|]. split; [by apply He; eexists|]. rewrite Hst in Hs. cbn [has_some] in Hs.
      assert (Hu : is_Some (rr_assurance_status (apply_update u report))) by (rewrite Hs; by eexists).
      destruct (revalidated_zero _ _ _ Hr Hm Hu Hver Hz) as (s & Hs' & _ & Hcp).
      apply Hcp. rewrite Hs in Hs'. by injection Hs'.
  - apply changed_unknown_lines in Ho as (-> & -> & _ & ->); [|done..]. split_and!; [done|done|naive_solver|done|done].
Qed.

#[local] Instance sample_repr : PyRepr := λ _, "<repr>".
Definition ok_or {A} (r : result A) (dflt : A) : A := match r with Ok x => x | Err _ => dflt end.
(** One failing analyzer with one blocking finding, on line 3 of a.py *)
Definition failing_report : ReviewReport :=
  match sample_report (Some AFail)
    (Some ((λ a, [("id", VStr a); ("evidence_outcome", VStr (if String.eqb a "ruff" then "FAIL" else "PASS"))])
             <$> PR_RANGE_ANALYZERS)) with
  | Build_ReviewReport sv id t ov ec st un sc ev di so rd _ su ss fc em es re hr =>
      Build_ReviewReport sv id t ov ec st un sc ev di so rd [blocking_finding] su ss fc em es re hr
  end.
Definition failing_validated : ReviewReport :=
  Eval vm_compute in ok_or (validate_ReviewReport failing_report) failing_report.
Definition changed_out : ReviewReport :=
  Eval vm_compute in ok_or (_with_changed_enforcement id failing_validated [("ruff", [blocking_finding])]
    (Some [("a.py", {[5%Z]})]) false) failing_report.
Lemma changed_enforcement_gate_witness :
  validate_ReviewReport failing_report = Ok failing_validated ∧
  rr_ci_exit_code failing_validated = Some 1%Z ∧
  _with_changed_enforcement id failing_validated [("ruff", [blocking_finding])]
    (Some [("a.py", {[5%Z]})]) false = Ok changed_out ∧
  rr_ci_exit_code changed_out = Some 0%Z ∧ complete_profile (rr_analyzer_evidence changed_out).
Proof.
  assert (H1 : validate_ReviewReport failing_report = Ok failing_validated) by (vm_compute; reflexivity).
  assert (H2 : _with_changed_enforcement id failing_validated [("ruff", [blocking_finding])]
    (Some [("a.py", {[5%Z]})]) false = Ok changed_out) by (vm_compute; reflexivity).
  destruct (changed_enforcement_gate id _ _ _ _ _ _ H1 H2) as (_ & _ & _ & _ & H3).
  destruct (H3 _ eq_refl) as [_ H4].
  split; [exact H1|]. split; [reflexivity|]. split; [exact H2|]. split; [reflexivity|].
  destruct H4 as [H4|(_ & _ & H4)]; [by eexists|vm_compute; reflexivity|reflexivity|discriminate H4|exact H4].
Defined.

(** * The host review *)

Lemma validated_no_status `{PyRepr} r r' :
  validate_ReviewReport r = Ok r' → rr_assurance_status r = None →
  rr_assurance_status r' = None ∧ rr_has_unknown_required_evidence r' = rr_has_unknown_required_evidence r.
Proof.
  intros (version & summary & auth & v & e & s & u & _ & _ & Hauth & -> & Hf)%validate_report_inv%derive_governance_inv Hs.
  pose proof (with_timestamp_fields (_normalize_timestamp (rr_timestamp r)) r) as (_ & _ & _ & _ & Hst & Hun & _).
  simpl. destruct auth as [[[[s0 u0] v0] e0]|].
  { unfold _derive_authoritative_governance in Hauth. rewrite Hst, Hs in Hauth. done. }
  destruct Hf as (-> & -> & _). by rewrite Hst, Hun.
Qed.

(** A report whose exit code is the scorer's *)
Definition score_passes (findings : list ReviewFinding) (score : Z) : Prop :=
  existsb is_blocking findings = false ∧ (50 ≤ score)%Z.
Lemma validated_score_exit `{PyRepr} r kw sc r' :
  score_review (rr_findings r) kw = Ok sc → rr_score r = sc_score sc →
  rr_assurance_status r = None → rr_enforcement_mode r = None →
  validate_ReviewReport r = Ok r' →
  rr_ci_exit_code r' = Some 0%Z ↔ score_passes (rr_findings r) (sc_score sc).
Proof.
  intros Hsc Hs Hst Hm Hv. destruct (report_matches_score r kw sc r' Hsc Hs Hst Hm Hv) as (_ & -> & _).
  apply score_review_inv in Hsc as (b & _ & _ & _ & Hd).
  apply determine_verdict_spec in Hd as (H01 & H1 & _ & _). unfold score_passes.
  destruct (existsb is_blocking (rr_findings r)); split; intros Hx; simplify_eq/=.
  - exfalso. assert (sc_ci_exit_code sc = 1%Z) by (apply H1; by left). congruence.
  - by destruct Hx.
  - split; [done|]. destruct (Z.lt_ge_cases (sc_score sc) 50) as [Hl|]; [|done].
    assert (sc_ci_exit_code sc = 1%Z) by (apply H1; by right). congruence.
  - f_equal. destruct H01 as [|Ho]; [done|]. apply H1 in Ho as [|]; [done|]. lia.
Qed.

Section host_review.
Context `{PyRepr} `{LineTargetsDataclass} (report_path : string → string).

Definition first_report (a : HostAnswers) (run_id : string) (now : datetime) (options : ReviewOptions)
    (sc : ReviewScore) : ReviewReport :=
  let findings := run_review_findings a options in
  with_cleanup_forecast
    (match ro_focus options with Some Simplify => Some (ha_forecast a findings) | None => None end)
    (fresh_report "1.0" ("review-" +:+ run_id) now (sc_score sc) findings (_summary_for_findings findings)).
Lemma run_review_inv a run_id now options changed_lines r :
  run_review report_path a run_id now options changed_lines = Ok r →
  ∃ sc report enforced,
    score_review (run_review_findings a options)
      (score_kwargs a options (run_review_findings a options)) = Ok sc ∧
    validate_ReviewReport (first_report a run_id now options sc) = Ok report ∧
    _with_enforcement report_path report (ro_review_mode options) [] changed_lines false = Ok enforced ∧
    rr_findings r = rr_findings enforced ∧ rr_score r = rr_score enforced ∧
    rr_enforcement_mode r = rr_enforcement_mode enforced ∧
    rr_ci_exit_code r
      = (if bool_decide (ro_focus options = Some Simplify) && bool_decide (ro_review_mode options = EmFull)
            && blocking_simplifications enforced
         then Some 1%Z else rr_ci_exit_code enforced) ∧
    blocking_simplifications r = blocking_simplifications enforced.
Proof.
  unfold run_review. intros Hr. res_inv.
  do 3 eexists. split; [done|]. split; [done|]. split; [done|]. subst r.
  destruct (bool_decide (ro_focus options = Some Simplify) && _ && _); by split_and!.
Qed.

(** ** The score of a review *)

Definition how_many (P : ReviewFinding → Prop) `{∀ f, Decision (P f)} (findings : list ReviewFinding) : Z :=
  Z.of_nat (length (filter P findings)).
Definition bonus (P : Prop) `{Decision P} : Z := if decide P then 5 else 0.
(** A finding costs points, unless it is an AI-bloat one or, under the simplify
    focus, a certain duplication or complexity one with deterministic
    metadata. *)
Definition costs (options : ReviewOptions) (f : ReviewFinding) : Prop :=
  rf_category f ≠ AiBloat ∧
  ¬ (ro_focus options = Some Simplify ∧ (rf_category f = Dry ∨ rf_category f = Kiss)
     ∧ rf_confidence f = Some ConfHigh ∧ simplification_metadata_is_deterministic f = true).
#[global] Instance costs_dec options f : Decision (costs options f).
Proof. unfold costs. apply _. Defined.
Definition deductions (findings : list ReviewFinding) : Z :=
  15 * how_many (λ f, rf_severity f = SevError ∧ rf_fixable f = false) findings
  + 5 * how_many (λ f, rf_severity f = SevError ∧ rf_fixable f = true) findings
  + 2 * how_many (λ f, rf_severity f = SevWarning) findings
  + how_many (λ f, rf_severity f = SevInfo) findings.
Definition bonuses (a : HostAnswers) (options : ReviewOptions) (findings : list ReviewFinding) : Z :=
  bonus (Forall (λ f, ¬ (rf_tool f = "ruff" ∧ rf_rule f = "E501")) findings)
  + bonus (Forall (λ f, rf_tool f ≠ "radon") findings)
  + bonus (Forall (λ f, rf_rule f ≠ "MISSING_ICONTRACT") findings)
  + bonus (ro_no_tests options = false ∧ ha_coverage_by_source a ≠ [] ∧
           Forall (λ sp, float_leb (float_of_Z 90) sp.2 = true) (ha_coverage_by_source a))
  + bonus (ha_no_suppressions a = true).
Definition review_score (a : HostAnswers) (options : ReviewOptions) (findings : list ReviewFinding) : Z :=
  Z.max 0 (Z.min 120 (100 - deductions (filter (costs options) findings) + bonuses a options findings)).

Lemma how_many_cons P `{∀ f, Decision (P f)} f l :
  how_many P (f :: l) = (how_many P l + Z.b2z (bool_decide (P f)))%Z.
Proof.
  unfold how_many. rewrite filter_cons. case_bool_decide; [rewrite decide_True by done|rewrite decide_False by done];
  cbn [length Z.b2z]; lia.
Qed.
Lemma sum_deductions_spec options findings :
  sum_deductions (bool_decide (ro_focus options = Some Simplify)) findings
  = deductions (filter (costs options) findings).
Proof.
  induction findings as [|f findings IH]; [done|]. cbn [sum_deductions foldr].
  change (foldr _ 0%Z findings) with (sum_deductions (bool_decide (ro_focus options = Some Simplify)) findings).
  rewrite IH, filter_cons. unfold _deduction_for_finding.
  assert (Hneutral : bool_decide (ro_focus options = Some Simplify)
     && (bool_decide (rf_category f = Dry) || bool_decide (rf_category f = Kiss))
     && bool_decide (rf_confidence f = Some ConfHigh) && simplification_metadata_is_deterministic f = true ↔
     ro_focus options = Some Simplify ∧ (rf_category f = Dry ∨ rf_category f = Kiss)
     ∧ rf_confidence f = Some ConfHigh ∧ simplification_metadata_is_deterministic f = true)
    by (rewrite !andb_true_iff, orb_true_iff, !bool_decide_eq_true; tauto).
  destruct (decide (costs options f)) as [[Hc Hn]|Hc].
  - rewrite bool_decide_eq_false_2 by done. rewrite <-Hneutral in Hn. apply not_true_iff_false in Hn. rewrite Hn.
    unfold deductions. rewrite !how_many_cons. destruct (rf_severity f), (rf_fixable f);
      repeat match goal with |- context [bool_decide ?P] =>
        let v := eval vm_compute in (bool_decide P) in change (bool_decide P) with v end;
      cbn [andb orb negb Z.b2z]; lia.
  - destruct (bool_decide_reflect (rf_category f = AiBloat)); [lia|].
    destruct (_ && simplification_metadata_is_deterministic f) eqn:E; [lia|].
    destruct Hc. split; [done|]. rewrite <-Hneutral. congruence.
Qed.
Lemma bonus_b2z (b : bool) (P : Prop) `{Decision P} : b = true ↔ P → (5 * Z.b2z b)%Z = bonus P.
Proof. unfold bonus. intros Hb. destruct b; case_decide; cbn; naive_solver. Qed.
Lemma negb_existsb_Forall {A} (p : A → bool) (P : A → Prop) l :
  (∀ x, p x = false ↔ P x) → negb (existsb p l) = true ↔ Forall P l.
Proof.
  intros Hp. rewrite negb_true_iff. induction l as [|x l IH]; cbn; [split; [constructor|done]|].
  by rewrite orb_false_iff, Forall_cons, IH, Hp.
Qed.
Lemma host_score a options sc :
  score_review (run_review_findings a options) (score_kwargs a options (run_review_findings a options)) = Ok sc →
  sc_score sc = review_score a options (run_review_findings a options).
Proof.
  set (findings := run_review_findings a options). unfold score_review.
  change (pop_flag "simplification_score_neutral" _) with (bool_decide (ro_focus options = Some Simplify)).
  rewrite sum_deductions_spec. intros Hsc. res_inv. subst sc. cbn [sc_score]. unfold review_score. do 3 f_equal.
  unfold _bonus_points, bonuses.
  cbn [zero_loc_violations zero_complexity_violations all_apis_have_icontract coverage_90_plus no_new_suppressions].
  rewrite !Z.mul_add_distr_l. repeat f_equal; apply bonus_b2z.
  - change (pop_flag _ _) with (negb (existsb (λ f, String.eqb (rf_tool f) "ruff" && String.eqb (rf_rule f) "E501") findings)).
    apply negb_existsb_Forall. intros f. rewrite andb_false_iff, !String.eqb_neq.
    destruct (decide (rf_tool f = "ruff")); tauto.
  - change (pop_flag _ _) with (negb (existsb (λ f, String.eqb (rf_tool f) "radon") findings)).
    apply negb_existsb_Forall. intros f. apply String.eqb_neq.
  - change (pop_flag _ _) with (negb (existsb (λ f, String.eqb (rf_rule f) "MISSING_ICONTRACT") findings)).
    apply negb_existsb_Forall. intros f. apply String.eqb_neq.
  - change (pop_flag _ _) with (_collect_tdd_findings a (ro_no_tests options)).2. unfold _collect_tdd_findings.
    destruct (ro_no_tests options); cbn [snd]; [naive_solver|]. rewrite andb_true_iff, bool_decide_eq_true, forallb_forall.
    rewrite Forall_forall. setoid_rewrite list_elem_of_In. destruct (ha_coverage_by_source a); naive_solver.
  - change (pop_flag _ _) with (ha_no_suppressions a). done.
Qed.

End host_review.

#[local] Instance sample_dataclass : LineTargetsDataclass := λ _ _, false.
Definition sample_forecast : CleanupForecast :=
  {| cf_reviewed_loc := {| rl_production := 1; rl_tests := 0; rl_total := 1 |};
     cf_estimated_deletion_lines := {| de_low := 0; de_expected := 0; de_high := 0 |};
     cf_ai_bloat_index := {| abi_findings_per_kloc := S754_zero false;
       abi_weighted_bloat_points_per_kloc := S754_zero false; abi_cleanup_yield_loc_per_kloc := S754_zero false |};
     cf_by_guidance_kind := []; cf_by_action_status := []; cf_preview_evidence_count := 0;
     cf_mutation_evidence_count := 0 |}%Z.
Definition sample_answers : HostAnswers :=
  {| ha_tool_findings := [blocking_finding; sample_finding SevInfo true]; ha_tdd_findings := [];
     ha_coverage_by_source := []; ha_checklist_findings := []; ha_enrich := id;
     ha_forecast := λ _, sample_forecast; ha_no_suppressions := false |}.
Definition sample_options (mode : enforcement_mode) : ReviewOptions :=
  {| ro_no_tests := true; ro_include_noise := true; ro_bug_hunt := false; ro_review_level := None;
     ro_review_mode := mode; ro_focus := None |}.
Definition sample_review : ReviewReport :=
  Eval vm_compute in ok_or (run_review id sample_answers "1" {| dt_wall_us := 0; dt_utcoffset_us := None |}
    (sample_options EmChanged) (Some [("a.py", {[5%Z]})])) failing_report.

(** * The capsule report *)

Section capsule.
Context `{PyRepr} `{Sha256} `{JsonLoads} `{LineTargetsDataclass}.

Lemma aggregate_pass evidence :
  per_assurance_status (aggregate_profile_evidence evidence None) = APass →
  ∀ member, member ∈ all_ids default_pr_range_profile →
    ∃ e, dict_get member evidence = Some e ∧ ¬ bad e.
Proof.
  unfold aggregate_profile_evidence. set (expected := _C14_ANALYZER_VERSIONS). cbn [per_assurance_status].
  intros Hp member Hm.
  destruct (existsb snd (aggregate_member expected evidence <$> all_ids default_pr_range_profile)) eqn:Ef; [done|].
  destruct (existsb (λ m, m.1.2) (aggregate_member expected evidence <$> all_ids default_pr_range_profile)) eqn:Eu;
    [done|].
  assert (Hex : ∀ p, existsb p (aggregate_member expected evidence <$> all_ids default_pr_range_profile) = false →
    p (aggregate_member expected evidence member) = false).
  { intros p Hp'. apply not_true_is_false. intros Ht. apply not_true_iff_false in Hp'. apply Hp'.
    apply existsb_elem. exists (aggregate_member expected evidence member). split; [|done].
    by apply list_elem_of_fmap_2. }
  apply Hex in Ef, Eu. unfold aggregate_member in Ef, Eu. cbn [fst snd] in Ef, Eu.
  apply orb_false_iff in Eu as [Eu _].
  destruct (dict_get member evidence) as [e|] eqn:Eg; cbn [default] in Ef, Eu.
  - exists e. split; [done|]. case_match; [done|]. apply String.eqb_neq in Ef, Eu.
    intros [Hb|Hb]; [by apply Ef|by apply Eu].
  - done.
Qed.

Lemma aggregate_not_na evidence :
  per_assurance_status (aggregate_profile_evidence evidence None) ≠ ANotApplicable.
Proof. unfold aggregate_profile_evidence. cbn [per_assurance_status]. by repeat case_match. Qed.
Lemma deactivated_unknown versions activation evidence member k item :
  deactivated_item versions activation evidence member = Ok (k, item) → outcome_of item = "UNKNOWN".
Proof.
  unfold deactivated_item. intros Hd. destruct (dict_index member versions); [|done]. cbn [res_bind] in Hd.
  injection Hd as <- <-. unfold outcome_of, text_of, sget_default.
  rewrite !dict_get_set_ne by done. by rewrite dict_get_set_eq.
Qed.
Lemma map_res_elem {A B} (f : A → result B) l out y :
  map_res f l = Ok out → y ∈ out → ∃ x, x ∈ l ∧ f x = Ok y.
Proof.
  revert out. induction l as [|x l IH]; intros out Hm Hy; cbn in Hm.
  - injection Hm as <-. by apply not_elem_of_nil in Hy.
  - res_inv. simplify_eq. apply elem_of_cons in Hy as [-> |Hy]; [exists x; split; [left|done]|].
    destruct (IH _ ltac:(eassumption) Hy) as (z & ? & ?). exists z. split; [by right|done].
Qed.

(** Evidence that is not replaced comes with an activated catalog, unless all
    of it is unknown. *)
Lemma activated_evidence resources evidence platform activation report_evidence :
  _activated_capsule_report_evidence resources evidence None platform = Ok (activation, report_evidence) →
  per_assurance_status (aggregate_profile_evidence report_evidence None) = APass →
  activate_packaged_suppression_catalog resources platform (Some _C14_ANALYZER_VERSIONS) = Ok activation ∧
  is_activated activation = true ∧ report_evidence = evidence.
Proof.
  intros Ha Hp. unfold _activated_capsule_report_evidence in Ha.
  destruct (activate_packaged_suppression_catalog _ _ _) as [a|] eqn:Eact; [|done]. cbn [res_bind] in Ha.
  destruct (is_activated a && has_some (ca_digest a)) eqn:Ei.
  { injection Ha as <- <-. by apply andb_true_iff in Ei as [-> _]. }
  exfalso.
  assert (Hin : "basedpyright" ∈ all_ids default_pr_range_profile) by (by apply (bool_decide_unpack _); vm_compute).
  destruct (aggregate_pass _ Hp _ Hin) as (e & Hg & Hb). apply Hb. right. case_match eqn:Eall.
  - injection Ha as <- <-. apply andb_true_iff in Eall as [_ Hall]. rewrite forallb_forall in Hall.
    assert (He : In e (dict_values evidence)).
    { apply list_elem_of_In. unfold dict_values. apply dict_get_Some_elem in Hg.
      by apply (list_elem_of_fmap_2 snd) in Hg. }
    apply Hall, bool_decide_eq_true in He. unfold outcome_of, text_of, sget, sget_default in *.
    destruct (dict_get "evidence_outcome" e); [|done]. cbn in He |- *. by subst.
  - destruct (map_res _ _) as [items|] eqn:Em; [|done]. cbn [res_bind] in Ha. injection Ha as <- <-.
    apply dict_of_get_elem in Hg. destruct (map_res_elem _ _ _ _ Em Hg) as (m & _ & Hm).
    by eapply deactivated_unknown.
Qed.

Lemma capsule_report_inv resources run_id now evidence findings_by_member options scope_evidence platform report :
  _capsule_report resources run_id now evidence findings_by_member options scope_evidence None platform
    = Ok report →
  platform ≠ "darwin-arm64" →
  ∃ activation report_evidence raw,
    _activated_capsule_report_evidence resources evidence None platform = Ok (activation, report_evidence) ∧
    validate_ReviewReport raw = Ok report ∧ rr_schema_version raw = "1.6" ∧
    rr_assurance_status raw = Some (per_assurance_status (aggregate_profile_evidence report_evidence None)) ∧
    rr_enforcement_mode raw = Some (ro_review_mode options) ∧
    rr_findings raw = select_findings options (member_findings findings_by_member).
Proof.
  intros Hr Hd. unfold _capsule_report in Hr.
  destruct (_activated_capsule_report_evidence _ _ _ _) as [[activation ev]|] eqn:Ea; [|done]. cbn [res_bind] in Hr.
  apply String.eqb_neq in Hd. rewrite Hd in Hr. cbn [res_bind] in Hr.
  destruct (_capsule_evidence_list ev) as [items|]; [|done]. cbn [res_bind] in Hr.
  do 3 eexists. split; [done|]. split; [exact Hr|]. by split_and!.
Qed.

Context `{Tokenize}.

(** C2 A range report passes only on complete evidence.  When a capsule report
    of a classified range exits with 0 outside shadow mode (on a platform other
    than darwin-arm64), the suppression catalog of the platform is activated;
    every analyzer of the profile either did not apply to either side, or has
    evidence for both sides that agrees with its findings, no rename in the
    range is ambiguous and none of its head findings blocks, new or old; the
    suppression delta was classified, and every directive it reports belongs
    only to analyzers that did not apply or that are not in the profile. *)
Theorem range_report_gate resources r base_snapshot head_snapshot base head combined findings_by_member
    run_id now options scope_evidence platform report :
  _classify_range_findings r base_snapshot head_snapshot base head = Ok (combined, findings_by_member) →
  _capsule_report resources run_id now combined findings_by_member options scope_evidence None platform
    = Ok report →
  platform ≠ "darwin-arm64" → ro_review_mode options ≠ EmShadow → rr_ci_exit_code report = Some 0%Z →
  let context := _range_differential_context r base_snapshot head_snapshot in
  (∃ activation,
     activate_packaged_suppression_catalog resources platform (Some _C14_ANALYZER_VERSIONS) = Ok activation ∧
     is_activated activation = true) ∧
  (∀ member, member ∈ all_ids default_pr_range_profile → member_passes context base head member) ∧
  ∃ suppression,
    classify_suppression_delta (rdc_base_sources context) (rdc_head_sources context)
      (Some (rdc_rename_facts context))
      (Some (_differential_finding_projection <$> mjoin (dict_values (csr_findings_by_member base)))) None
      = Ok suppression ∧
    ¬ (scl_status suppression = C_UNKNOWN ∧ scl_findings suppression = []) ∧
    ∀ finding member, finding ∈ scl_findings suppression →
      member ∈ se_analyzers (sf_evidence finding) →
      member ∉ all_ids default_pr_range_profile ∨ member_not_applicable base head member.
Proof.
  intros Hc Hr Hd Hmode Hexit context.
  destruct (capsule_report_inv _ _ _ _ _ _ _ _ _ Hr Hd) as (activation & ev & raw & Ha & Hv & Hver & Hst & Hem & _).
  assert (Hpass : per_assurance_status (aggregate_profile_evidence ev None) = APass).
  { destruct (validated_zero_exit _ _ Hv) as (s & _ & Hs & Hacc & _).
    - rewrite (validated_schema _ _ Hv); by rewrite Hver.
    - apply (validated_status_some _ _ Hv). by rewrite Hst.
    - done.
    - destruct (validated_fields _ _ Hv) as (_ & -> & _). rewrite Hem. congruence.
    - rewrite Hst in Hs. injection Hs as Hs. rewrite <-Hs in Hacc.
      destruct Hacc as [|Hna]; [done|]. by destruct (aggregate_not_na ev). }
  destruct (activated_evidence _ _ _ _ _ Ha Hpass) as (Hact & Hon & ->).
  assert (Hall : ∀ member, member ∈ all_ids default_pr_range_profile →
    ∃ e, dict_get member combined = Some e ∧ ¬ bad e) by (by apply aggregate_pass).
  split; [by eexists|]. split.
  { intros member Hm. destruct (Hall member Hm) as (e & Hg & Hb).
    by destruct (range_member_good _ _ _ _ _ _ _ member e Hc Hm Hg Hb) as [? _]. }
  assert (Hin : "basedpyright" ∈ all_ids default_pr_range_profile) by (by apply (bool_decide_unpack _); vm_compute).
  destruct (Hall _ Hin) as (e & Hg & Hb).
  destruct (range_member_good _ _ _ _ _ _ _ _ e Hc Hin Hg Hb) as (_ & suppression & Hs & Hsome & _).
  exists suppression. split; [done|]. split; [done|]. intros finding member Hf Hma.
  destruct (decide (member ∈ all_ids default_pr_range_profile)) as [Hm|]; [right|by left].
  destruct (Hall member Hm) as (e2 & Hg2 & Hb2).
  destruct (range_member_good _ _ _ _ _ _ _ member e2 Hc Hm Hg2 Hb2) as (_ & s2 & Hs2 & _ & Hna).
  fold context in Hs2, Hs. rewrite Hs in Hs2. injection Hs2 as <-. by apply (Hna finding).
Qed.
End capsule.

(** ** A range with an introduced [nosemgrep] directive *)

Section samples.
#[local] Instance range_sha : Sha256 := λ _,
  "3cc769700bc97d6a13b1a9c3554b66453aa319cf229795e7cede4d917ff13f3b".
#[local] Instance range_tokenize : Tokenize := sample_tokenize.
#[local] Instance range_loads : JsonLoads := sample_loads.

(** Every analyzer passes; [semgrep-bugs], which runs only when asked for, does
    not apply. *)
Definition range_evidence : list (string * evidence_item) :=
  (λ mv, (mv.1,
     if String.eqb mv.1 "semgrep-bugs"
     then [("execution_state", VStr "not_applicable"); ("evidence_outcome", VStr "NOT_APPLICABLE");
           ("version", VStr mv.2)]
     else [("execution_state", VStr "ran"); ("evidence_outcome", VStr "PASS"); ("version", VStr mv.2)]))
  <$> _C14_ANALYZER_VERSIONS.
Definition range_side : CapsuleSnapshotResult :=
  {| csr_evidence := range_evidence; csr_findings_by_member := [] |}.
Definition range_snapshot (source : string) : Snapshot :=
  {| sn_commit := ""; sn_tree := ""; sn_contents := [("a.py", source)]; sn_entries := []; sn_vcs_commit := "" |}.
Definition range_base : Snapshot := range_snapshot ("eval(x)" +:+ newline_text).
Definition range_head : Snapshot := range_snapshot ("eval(x)  # nosemgrep" +:+ newline_text).
Definition range_resolution : ScopeResolution := resolution APass "resolved" ["a.py"] AkRangePreview 0 "".
Definition range_classified : list (string * evidence_item) * list (string * list ReviewFinding) :=
  Eval vm_compute in ok_or (_classify_range_findings range_resolution range_base range_head range_side range_side) ([], []).
Definition range_report : ReviewReport :=
  Eval vm_compute in ok_or (_capsule_report sample_resources "1" {| dt_wall_us := 0; dt_utcoffset_us := None |}
    range_classified.1 range_classified.2 (sample_options EmFull) [] None "linux-x86_64") failing_report.

Lemma range_report_gate_witness :
  _classify_range_findings range_resolution range_base range_head range_side range_side = Ok range_classified ∧
  rr_ci_exit_code range_report = Some 0%Z ∧
  ∃ suppression,
    classify_suppression_delta (sn_contents range_base) (sn_contents range_head) (Some []) (Some []) None
      = Ok suppression ∧ scl_status suppression = C_FAIL ∧
    (∀ finding member, finding ∈ scl_findings suppression → member ∈ se_analyzers (sf_evidence finding) →
       member ∉ all_ids default_pr_range_profile ∨ member_not_applicable range_side range_side member).
Proof.
  assert (H1 : _classify_range_findings range_resolution range_base range_head range_side range_side
    = Ok (range_classified.1, range_classified.2)) by (vm_compute; reflexivity).
  assert (H2 : _capsule_report sample_resources "1" {| dt_wall_us := 0; dt_utcoffset_us := None |}
    range_classified.1 range_classified.2 (sample_options EmFull) [] None "linux-x86_64" = Ok range_report)
    by (vm_compute; reflexivity).
  split; [exact H1|]. split; [reflexivity|].
  destruct (range_report_gate _ _ _ _ _ _ _ _ _ _ _ _ _ _ H1 H2) as (_ & _ & s & Hs & _ & Hall);
    [discriminate|discriminate|reflexivity|].
  exists s. split; [exact Hs|]. split; [|exact Hall]. vm_compute in Hs. injection Hs as <-. reflexivity.
Defined.
End samples.
