(* ===== verification/Graphs.v ===== *)
(** Graphs: the traversals of the backlog graph, over an adjacency function:
    the work-stack closure, the recursive closure, cycle detection and the
    memoised longest path, each with explicit fuel ([GraphProofs] proves how
    much is enough). *)

From S2P Require Import Prelude Dict.

Section traversals.
Context (next : string → list string).

(** * Closure with a work stack

    [while stack: node = stack.pop(); if node in seen: continue;
    seen.add(node); stack.extend(next(node))]; the top of the stack comes
    first in the list, so an extension is reversed. *)
Definition push (ns stack : list string) : list string := reverse ns ++ stack.

Fixpoint closure_loop (fuel : nat) (seen : gset string) (stack : list string) :
    option (gset string) :=
  match stack, fuel with
  | [], _ => Some seen
  | _ :: _, O => None
  | node :: stack, S fuel =>
      if decide (node ∈ seen) then closure_loop fuel seen stack
      else closure_loop fuel ({[node]} ∪ seen) (push (next node) stack)
  end.

(** * Recursive closure *)

(** The [for] over the neighbours; [rec] is the recursive call. *)
Fixpoint traverse_loop (rec : string → gset string → option (gset string))
    (neighbors : list string) (seen : gset string) : option (gset string) :=
  match neighbors with
  | [] => Some seen
  | neighbor :: rest =>
      if decide (neighbor ∈ seen) then traverse_loop rec rest seen
      else rec neighbor ({[neighbor]} ∪ seen) ≫= traverse_loop rec rest
  end.
Fixpoint traverse_dfs (fuel : nat) (item_id : string) (seen : gset string) : option (gset string) :=
  match fuel with
  | O => None
  | S fuel => traverse_loop (traverse_dfs fuel) (next item_id) seen
  end.

(** * Cycle detection *)

Record dfs_state := {
  dfs_visited : gset string;
  dfs_in_stack : gset string;
  dfs_path : list string;
  dfs_cycles : list (list string)
}.
Definition dfs_initial : dfs_state :=
  {| dfs_visited := ∅; dfs_in_stack := ∅; dfs_path := []; dfs_cycles := [] |}.

Definition dfs_enter (node : string) (st : dfs_state) : dfs_state :=
  {| dfs_visited := {[node]} ∪ dfs_visited st; dfs_in_stack := {[node]} ∪ dfs_in_stack st;
     dfs_path := dfs_path st ++ [node]; dfs_cycles := dfs_cycles st |}.
Definition dfs_leave (node : string) (st : dfs_state) : dfs_state :=
  {| dfs_visited := dfs_visited st; dfs_in_stack := dfs_in_stack st ∖ {[node]};
     dfs_path := take (pred (length (dfs_path st))) (dfs_path st); dfs_cycles := dfs_cycles st |}.

(** [path[path.index(neighbor):]] *)
Fixpoint from_first (x : string) (l : list string) : list string :=
  match l with
  | [] => []
  | y :: l' => if decide (y = x) then l else from_first x l'
  end.
Definition dfs_report (neighbor : string) (st : dfs_state) : dfs_state :=
  {| dfs_visited := dfs_visited st; dfs_in_stack := dfs_in_stack st; dfs_path := dfs_path st;
     dfs_cycles := dfs_cycles st ++ [from_first neighbor (dfs_path st) ++ [neighbor]] |}.

Fixpoint visit_loop (rec : string → dfs_state → option dfs_state)
    (neighbors : list string) (st : dfs_state) : option dfs_state :=
  match neighbors with
  | [] => Some st
  | neighbor :: rest =>
      if decide (neighbor ∉ dfs_visited st) then rec neighbor st ≫= visit_loop rec rest
      else if decide (neighbor ∈ dfs_in_stack st)
      then visit_loop rec rest (dfs_report neighbor st)
      else visit_loop rec rest st
  end.
Fixpoint dfs_visit (fuel : nat) (node : string) (st : dfs_state) : option dfs_state :=
  match fuel with
  | O => None
  | S fuel => dfs_leave node <$> visit_loop (dfs_visit fuel) (next node) (dfs_enter node st)
  end.

Fixpoint dfs_all (fuel : nat) (nodes : list string) (st : dfs_state) : option dfs_state :=
  match nodes with
  | [] => Some st
  | node :: rest =>
      if decide (node ∉ dfs_visited st)
      then dfs_visit fuel node st ≫= dfs_all fuel rest
      else dfs_all fuel rest st
  end.

Definition cycles_from (fuel : nat) (nodes : list string) : option (list (list string)) :=
  dfs_cycles <$> dfs_all fuel nodes dfs_initial.

(** * Longest path *)

Definition path_memo : Type := list (string * list string).

(** The longer of two candidates, the first one when they are equally long *)
Definition longer (best candidate : list string) : list string :=
  if (length best <? length candidate)%nat then candidate else best.

Fixpoint tail_loop (rec : string → path_memo → option (list string * path_memo))
    (neighbors : list string) (best_tail : list string) (m : path_memo) :
    option (list string * path_memo) :=
  match neighbors with
  | [] => Some (best_tail, m)
  | neighbor :: rest =>
      match rec neighbor m with
      | Some (candidate, m) => tail_loop rec rest (longer best_tail candidate) m
      | None => None
      end
  end.
Fixpoint longest_path_from (fuel : nat) (node : string) (visiting : gset string) (m : path_memo) :
    option (list string * path_memo) :=
  match dict_get node m with
  | Some path => Some (path, m)
  | None =>
      if decide (node ∈ visiting) then Some ([node], m)
      else
        match fuel with
        | O => None
        | S fuel =>
            match tail_loop (λ neighbor m, longest_path_from fuel neighbor ({[node]} ∪ visiting) m)
                    (next node) [] m with
            | Some (best_tail, m) =>
                let path := node :: best_tail in
                Some (path, dict_set node path m)
            | None => None
            end
        end
  end.

Fixpoint longest_of (fuel : nat) (nodes : list string) (longest : list string) (m : path_memo) :
    option (list string) :=
  match nodes with
  | [] => Some longest
  | node :: rest =>
      match longest_path_from fuel node ∅ m with
      | Some (candidate, m) => longest_of fuel rest (longer longest candidate) m
      | None => None
      end
  end.
End traversals.
