(* ===== verification/GraphProofs.v ===== *)
(** GraphProofs: the traversals terminate within stated fuel and compute
    reachability, cycle existence and longest paths. *)

From S2P Require Import Prelude Dict Graphs.
From stdpp Require Export relations.

Section graph.
Context (next : string → list string).

Definition edge (x y : string) : Prop := y ∈ next x.

(** A list of nodes closed under edges: the finite universe of a traversal *)
Definition closed (U : list string) : Prop := ∀ x y, x ∈ U → edge x y → y ∈ U.

(** A set closed under edges contains what is reachable from its members. *)
Lemma closed_rtc (X : gset string) x y :
  (∀ a b, a ∈ X → edge a b → b ∈ X) → x ∈ X → rtc edge x y → y ∈ X.
Proof. intros Hcl Hx. induction 1; eauto. Qed.

Lemma closed_list_rtc U x y : closed U → x ∈ U → rtc edge x y → y ∈ U.
Proof. intros Hcl Hx. induction 1; eauto. Qed.

Lemma tc_inv x z : tc edge x z ↔ ∃ y, edge x y ∧ rtc edge y z.
Proof.
  split.
  - destruct 1 as [x z Hxz|x y z Hxy Hyz]; [by exists z|]. exists y. split; [done|]. by apply tc_rtc.
  - intros (y & Hxy & Hyz). eapply tc_rtc_r; [by apply tc_once|done].
Qed.

(** * Measures *)

Definition unseen (U : list string) (seen : gset string) : list string :=
  filter (λ n, n ∉ seen) U.
Definition weight (U : list string) (seen : gset string) : nat :=
  sum_list ((λ n, length (next n)) <$> unseen U seen).

Lemma unseen_insert_le U seen n : length (unseen U ({[n]} ∪ seen)) ≤ length (unseen U seen).
Proof.
  unfold unseen. induction U as [|u U IH]; [done|]. rewrite !filter_cons.
  repeat case_decide; cbn; try lia. set_solver.
Qed.

Lemma unseen_insert_lt U seen n :
  n ∈ U → n ∉ seen → length (unseen U ({[n]} ∪ seen)) < length (unseen U seen).
Proof.
  induction U as [|u U IH]; intros Hn Hs; [by apply elem_of_nil in Hn|].
  pose proof (unseen_insert_le U seen n) as Hle. unfold unseen in *. rewrite !filter_cons.
  destruct (decide (u = n)) as [->|Hne].
  - rewrite decide_False by set_solver. rewrite decide_True by done. cbn. lia.
  - apply elem_of_cons in Hn as [->|Hn]; [done|]. specialize (IH Hn Hs).
    repeat case_decide; cbn; try lia; set_solver.
Qed.

Lemma weight_insert_le U seen n : weight U ({[n]} ∪ seen) ≤ weight U seen.
Proof.
  unfold weight, unseen. induction U as [|u U IH]; [done|]. rewrite !filter_cons.
  repeat case_decide; cbn; try lia. set_solver.
Qed.

Lemma weight_insert U seen n :
  n ∈ U → n ∉ seen → length (next n) + weight U ({[n]} ∪ seen) ≤ weight U seen.
Proof.
  induction U as [|u U IH]; intros Hn Hs; [by apply elem_of_nil in Hn|].
  pose proof (weight_insert_le U seen n) as Hle. unfold weight, unseen in *. rewrite !filter_cons.
  destruct (decide (u = n)) as [->|Hne].
  - rewrite decide_False by set_solver. rewrite decide_True by done. cbn. lia.
  - apply elem_of_cons in Hn as [->|Hn]; [done|]. specialize (IH Hn Hs).
    repeat case_decide; cbn; try lia; set_solver.
Qed.

(** * The work-stack closure *)

Lemma closure_loop_spec U fuel seen stack :
  closed U → (∀ x, x ∈ stack → x ∈ U) → length stack + weight U seen ≤ fuel →
  ∃ S, closure_loop next fuel seen stack = Some S ∧
    seen ⊆ S ∧ (∀ x, x ∈ stack → x ∈ S) ∧
    (∀ x y, x ∈ S → x ∉ seen → edge x y → y ∈ S) ∧
    (∀ x, x ∈ S → x ∈ seen ∨ ∃ s, s ∈ stack ∧ rtc edge s x).
Proof.
  intros Hcl. revert seen stack. induction fuel as [|fuel IH]; intros seen [|node stack] HU Hf;
    cbn in Hf; try lia; cbn [closure_loop].
  1-2: exists seen; split_and!; [done|done|by intros x ?%elem_of_nil|done|by left].
  case_decide as Hseen.
  - destruct (IH seen stack) as (S & -> & H1 & H2 & H3 & H4); [set_solver|lia|].
    exists S. split_and!; [done|done|set_solver|done|]. intros x Hx. destruct (H4 x Hx); set_solver.
  - assert (HnU : node ∈ U) by set_solver.
    pose proof (weight_insert U seen node HnU Hseen) as Hw.
    destruct (IH ({[node]} ∪ seen) (push (next node) stack)) as (S & -> & H1 & H2 & H3 & H4).
    { unfold push. intros x. rewrite elem_of_app, elem_of_reverse. intros [Hx|Hx]; [|set_solver].
      by apply (Hcl node). }
    { unfold push. rewrite length_app, length_reverse. lia. }
    unfold push in H2, H4. setoid_rewrite elem_of_app in H2. setoid_rewrite elem_of_app in H4.
    setoid_rewrite elem_of_reverse in H2. setoid_rewrite elem_of_reverse in H4.
    exists S. split_and!; [done|set_solver|set_solver| |].
    + intros x y Hx Hnx Hxy. destruct (decide (x = node)) as [->|]; [apply H2; by left|].
      apply (H3 x); set_solver.
    + intros x Hx. destruct (H4 x Hx) as [[->%elem_of_singleton|?]%elem_of_union|(s & Hs & Hr)].
      * right. exists node. split; [left|done].
      * by left.
      * right. destruct Hs as [Hs|Hs].
        -- exists node. split; [left|]. by eapply rtc_l.
        -- exists s. split; [by right|done].
Qed.

(** From an empty [seen] it computes reachability from the stack. *)
Lemma closure_loop_reach U fuel stack :
  closed U → (∀ x, x ∈ stack → x ∈ U) → length stack + weight U ∅ ≤ fuel →
  ∃ S, closure_loop next fuel ∅ stack = Some S ∧
    ∀ x, x ∈ S ↔ ∃ s, s ∈ stack ∧ rtc edge s x.
Proof.
  intros Hcl HU Hf. destruct (closure_loop_spec U fuel ∅ stack Hcl HU Hf) as (S & HS & _ & H2 & H3 & H4).
  exists S. split; [done|]. intros x. split.
  - intros Hx. destruct (H4 x Hx); [set_solver|done].
  - intros (s & Hs & Hr). eapply closed_rtc; [|by apply H2|exact Hr].
    intros a b Ha Hab. by apply (H3 a b Ha).
Qed.

(** * The recursive closure *)

Lemma traverse_dfs_spec U fuel n seen :
  closed U → n ∈ U → length (unseen U seen) < fuel →
  ∃ S, traverse_dfs next fuel n seen = Some S ∧
    seen ⊆ S ∧ (∀ y, edge n y → y ∈ S) ∧
    (∀ x y, x ∈ S → x ∉ seen → edge x y → y ∈ S) ∧
    (∀ x, x ∈ S → x ∈ seen ∨ tc edge n x).
Proof.
  intros Hcl. revert n seen. induction fuel as [|fuel IH]; intros n seen Hn Hf; [lia|].
  cbn [traverse_dfs]. set (loop := traverse_loop (traverse_dfs next fuel)).
  assert (Hloop : ∀ ns seen', (∀ y, y ∈ ns → edge n y) → length (unseen U seen') ≤ fuel →
    ∃ S, loop ns seen' = Some S ∧ seen' ⊆ S ∧ (∀ y, y ∈ ns → y ∈ S) ∧
      (∀ x y, x ∈ S → x ∉ seen' → edge x y → y ∈ S) ∧
      (∀ x, x ∈ S → x ∈ seen' ∨ tc edge n x)).
  { induction ns as [|y ns IHns]; intros seen' Hns Hlen.
    { exists seen'. split_and!; [done|done|by intros y ?%elem_of_nil|done|by left]. }
    change (loop (y :: ns) seen') with
      (if decide (y ∈ seen') then loop ns seen'
       else traverse_dfs next fuel y ({[y]} ∪ seen') ≫= loop ns).
    assert (Hny : edge n y) by set_solver. assert (HyU : y ∈ U) by (by apply (Hcl n)).
    case_decide as Hy.
    - destruct (IHns seen') as (S & HS & H1 & H2 & H3 & H4); [set_solver|done|].
      exists S. split_and!; [done|done| |done|done].
      intros z [->|?]%elem_of_cons; [by apply H1|by apply H2].
    - pose proof (unseen_insert_lt U seen' y HyU Hy) as Hlt.
      destruct (IH y ({[y]} ∪ seen') HyU) as (S1 & HS1 & A1 & A2 & A3 & A4); [lia|].
      rewrite HS1. cbn [mbind option_bind].
      assert (Hle : length (unseen U S1) ≤ length (unseen U ({[y]} ∪ seen'))).
      { unfold unseen. apply submseteq_length, sublist_submseteq.
        clear -A1. induction U as [|u U IHU]; [done|]. rewrite !filter_cons.
        repeat case_decide; try (by constructor); set_solver. }
      destruct (IHns S1) as (S & HS & H1 & H2 & H3 & H4); [set_solver|lia|].
      exists S. split_and!; [done|set_solver| | |].
      + intros z [->|?]%elem_of_cons; [set_solver|by apply H2].
      + intros x z Hx Hnx Hxz. destruct (decide (x ∈ S1)) as [Hx1|Hx1]; [|by apply (H3 x)].
        destruct (decide (x = y)) as [->|]; [by apply H1, A2|]. apply H1, (A3 x); set_solver.
      + intros x Hx. destruct (H4 x Hx) as [Hx1|]; [|by right].
        destruct (A4 x Hx1) as [[->%elem_of_singleton|?]%elem_of_union|Ht]; [|by left|].
        * right. by apply tc_once.
        * right. by eapply tc_l. }
  destruct (Hloop (next n) seen) as (S & HS & H1 & H2 & H3 & H4); [done|lia|].
  exists S. split_and!; done.
Qed.

Lemma traverse_dfs_reach U fuel n :
  closed U → n ∈ U → length U < fuel →
  ∃ S, traverse_dfs next fuel n ∅ = Some S ∧ ∀ x, x ∈ S ↔ tc edge n x.
Proof.
  intros Hcl Hn Hf.
  assert (Hlen : length (unseen U ∅) ≤ length U) by apply length_filter.
  destruct (traverse_dfs_spec U fuel n ∅ Hcl Hn) as (S & HS & _ & H2 & H3 & H4); [lia|].
  exists S. split; [done|]. intros x. split.
  - intros Hx. destruct (H4 x Hx); [set_solver|done].
  - intros Ht. apply tc_inv in Ht as (y & Hny & Hr).
    eapply closed_rtc; [|by apply H2|exact Hr]. intros a b Ha Hab. by apply (H3 a b Ha).
Qed.

(** * Walks *)

Fixpoint walk (l : list string) : Prop :=
  match l with
  | x :: (y :: _) as l' => edge x y ∧ walk l'
  | _ => True
  end.

(** A closed walk: at least one edge, back to where it started *)
Definition closed_walk (c : list string) : Prop := ∃ x mid, c = x :: mid ++ [x] ∧ walk c.

Lemma walk_app l x y : walk (l ++ [x]) → edge x y → walk (l ++ [x; y]).
Proof.
  induction l as [|z l IH]; [done|]. destruct l as [|w l]; cbn in *; [tauto|].
  intros [? ?] ?. split; [done|]. by apply IH.
Qed.

Lemma walk_from_first x l : walk l → walk (from_first x l).
Proof.
  induction l as [|y l IH]; [done|]. intros Hw. cbn. case_decide; [done|].
  apply IH. destruct l; [done|]. apply Hw.
Qed.

Lemma from_first_spec x l : x ∈ l → ∃ l', from_first x l = x :: l' ∧ ∃ l0, l = l0 ++ x :: l'.
Proof.
  induction l as [|y l IH]; [by intros ?%elem_of_nil|]. cbn. case_decide as E.
  - subst. intros _. exists l. split; [done|]. by exists [].
  - intros [->|Hx]%elem_of_cons; [done|]. destruct (IH Hx) as (l' & -> & l0 & ->).
    exists l'. split; [done|]. by exists (y :: l0).
Qed.

Lemma walk_tc x y mid : walk (x :: mid ++ [y]) → tc edge x y.
Proof.
  revert x. induction mid as [|z mid IH]; intros x; cbn.
  - intros [? _]. by apply tc_once.
  - destruct mid as [|w mid]; cbn in *; intros [Hxz Hw].
    + eapply tc_l; [done|]. apply tc_once. tauto.
    + eapply tc_l; [done|]. by apply IH.
Qed.

Lemma closed_walk_tc c : closed_walk c → ∃ x, x ∈ c ∧ tc edge x x.
Proof. intros (x & mid & -> & Hw). exists x. split; [left|]. by eapply walk_tc. Qed.

(** * Cycle detection *)

Section cycles.
Context (R : string → Prop) (HR : ∀ x y, R x → edge x y → R y).

Definition black (st : dfs_state) : gset string := dfs_visited st ∖ dfs_in_stack st.

Record dfs_inv (st : dfs_state) : Prop := {
  inv_stack : ∀ x, x ∈ dfs_in_stack st ↔ x ∈ dfs_path st;
  inv_visited : ∀ x, x ∈ dfs_path st → x ∈ dfs_visited st;
  inv_walk : walk (dfs_path st);
  inv_path : Forall R (dfs_path st);
  inv_cycles : Forall (λ c, closed_walk c ∧ Forall R c) (dfs_cycles st);
  inv_black : dfs_cycles st = [] → ∀ x, x ∈ black st →
    (∀ y, edge x y → y ∈ black st) ∧ ¬ tc edge x x
}.

(** What a visit leaves behind *)
Record dfs_after (st st' : dfs_state) : Prop := {
  after_inv : dfs_inv st';
  after_path : dfs_path st' = dfs_path st;
  after_stack : dfs_in_stack st' = dfs_in_stack st;
  after_visited : dfs_visited st ⊆ dfs_visited st';
  after_cycles : ∃ cs, dfs_cycles st' = dfs_cycles st ++ cs
}.

Lemma dfs_after_refl st : dfs_inv st → dfs_after st st.
Proof. intros Hst. split; [done..|]. exists []. by rewrite app_nil_r. Qed.

Lemma dfs_after_trans st1 st2 st3 : dfs_after st1 st2 → dfs_after st2 st3 → dfs_after st1 st3.
Proof.
  intros [_ P1 S1 V1 [c1 C1]] [I2 P2 S2 V2 [c2 C2]].
  split; [done|congruence|congruence|set_solver|]. exists (c1 ++ c2). by rewrite C2, C1, app_assoc.
Qed.

Lemma dfs_enter_inv node st :
  dfs_inv st → node ∉ dfs_visited st → walk (dfs_path st ++ [node]) → R node →
  dfs_inv (dfs_enter node st).
Proof.
  intros [I1 I2 I3 I4 I5 I6] Hn Hw HRn. split; cbn; [|set_solver|done| |done|].
  - intros x. rewrite elem_of_union, elem_of_app, I1. set_solver.
  - apply Forall_app_2; [done|by apply Forall_singleton].
  - intros Hc x Hx. unfold black in *. cbn in Hx.
    assert (Hx' : x ∈ dfs_visited st ∖ dfs_in_stack st) by set_solver.
    destruct (I6 Hc x Hx') as [H1 H2]. split; [|done]. intros y Hxy. specialize (H1 y Hxy).
    cbn. set_solver.
Qed.

Lemma dfs_report_inv path node y st :
  dfs_inv st → dfs_path st = path ++ [node] → edge node y → y ∈ dfs_in_stack st →
  dfs_after st (dfs_report y st).
Proof.
  intros [I1 I2 I3 I4 I5 I6] Hp Hny Hy. split; cbn; [|done|done|done|by eexists].
  split; cbn; [done|done|done|done| |by intros [_ ?]%app_eq_nil].
  apply Forall_app_2; [done|]. apply Forall_singleton.
  destruct (from_first_spec y (dfs_path st)) as (l' & Hf & l0 & Hl); [by apply I1|].
  assert (HRf : Forall R (from_first y (dfs_path st))).
  { rewrite Hf. rewrite Hl in I4. by apply Forall_app in I4 as [_ ?]. }
  split; [|apply Forall_app_2; [done|]; apply Forall_singleton; rewrite Hf in HRf; by inversion HRf].
  exists y, l'. rewrite Hf. split; [done|].
  assert (Hlast : ∃ l1, y :: l' = l1 ++ [node]).
  { rewrite Hp in Hl. destruct l' as [|z l' _] using rev_ind.
    - apply app_inj_tail in Hl as [_ ->]. by exists [].
    - rewrite app_comm_cons, app_assoc in Hl. apply app_inj_tail in Hl as [_ ->].
      exists (y :: l'). done. }
  destruct Hlast as [l1 Hl1]. rewrite Hl1, <-app_assoc. apply walk_app; [|done].
  rewrite <-Hl1, <-Hf. by apply walk_from_first.
Qed.

Context (U : list string) (HU : closed U).

Lemma visit_loop_spec fuel path node ns st :
  (∀ n st, dfs_inv st → n ∉ dfs_visited st → walk (dfs_path st ++ [n]) → R n → n ∈ U →
     length (unseen U (dfs_visited st)) < fuel →
     ∃ st', dfs_visit next fuel n st = Some st' ∧ dfs_after st st' ∧ n ∈ dfs_visited st') →
  dfs_inv st → dfs_path st = path ++ [node] → node ∈ U → (∀ y, y ∈ ns → edge node y) →
  length (unseen U (dfs_visited st)) < fuel →
  ∃ st', visit_loop (dfs_visit next fuel) ns st = Some st' ∧ dfs_after st st' ∧
    (dfs_cycles st' = [] → ∀ y, y ∈ ns → y ∈ black st').
Proof.
  intros Hvisit. revert st. induction ns as [|y ns IH]; intros st Hi Hp Hn Hns Hf; cbn [visit_loop].
  { exists st. split; [done|]. split; [by apply dfs_after_refl|]. by intros _ y ?%elem_of_nil. }
  assert (Hny : edge node y) by (apply Hns; left).
  assert (Hrest : ∀ st1, dfs_after st st1 → (dfs_cycles st1 = [] → y ∈ black st1) →
    ∃ st', visit_loop (dfs_visit next fuel) ns st1 = Some st' ∧ dfs_after st st' ∧
      (dfs_cycles st' = [] → ∀ z, z ∈ y :: ns → z ∈ black st')).
  { intros st1 Ha Hy. destruct (IH st1) as (st' & -> & Ha' & Hb).
    - apply Ha.
    - by rewrite (after_path _ _ Ha).
    - done.
    - set_solver.
    - eapply Nat.le_lt_trans; [|exact Hf]. unfold unseen.
      apply submseteq_length, sublist_submseteq. pose proof (after_visited _ _ Ha) as Hv.
      clear -Hv. induction U as [|u U' IHU]; [done|]. rewrite !filter_cons.
      repeat case_decide; try (by constructor); set_solver.
    - exists st'. split; [done|]. split; [by eapply dfs_after_trans|].
      intros Hc z [->|Hz]%elem_of_cons; [|by apply Hb].
      destruct (after_cycles _ _ Ha') as [cs Hcs]. rewrite Hc in Hcs.
      symmetry in Hcs. apply app_eq_nil in Hcs as [Hcs _]. specialize (Hy Hcs). unfold black in *.
      rewrite (after_stack _ _ Ha'). pose proof (after_visited _ _ Ha'). set_solver. }
  case_decide as Hv.
  - destruct (Hvisit y st) as (st1 & -> & Ha & Hy1); [done|done| | | |done|].
    + rewrite Hp, <-app_assoc. apply walk_app; [|done]. rewrite <-Hp. apply Hi.
    + apply (HR node); [|done]. pose proof (inv_path _ Hi) as HP. rewrite Hp in HP.
      apply Forall_app in HP as [_ HP]. by inversion HP.
    + by apply (HU node).
    + cbn [mbind option_bind]. apply Hrest; [done|]. intros _. unfold black.
      rewrite (after_stack _ _ Ha). apply elem_of_difference. split; [done|].
      rewrite (inv_stack _ Hi). intros Hin. by apply Hv, (inv_visited _ Hi).
  - case_decide as Hs.
    + apply Hrest; [by eapply dfs_report_inv|]. cbn. by intros [_ ?]%app_eq_nil.
    + apply Hrest; [by apply dfs_after_refl|]. intros _. unfold black. set_solver.
Qed.

Lemma dfs_visit_spec fuel node st :
  dfs_inv st → node ∉ dfs_visited st → walk (dfs_path st ++ [node]) → R node → node ∈ U →
  length (unseen U (dfs_visited st)) < fuel →
  ∃ st', dfs_visit next fuel node st = Some st' ∧ dfs_after st st' ∧ node ∈ dfs_visited st'.
Proof.
  revert node st. induction fuel as [|fuel IH]; intros node st Hi Hn Hw HRn HnU Hf; [lia|].
  cbn [dfs_visit].
  destruct (visit_loop_spec fuel (dfs_path st) node (next node) (dfs_enter node st))
    as (st1 & -> & Ha & Hb); [done|by apply dfs_enter_inv|done|done|done| |].
  { cbn. pose proof (unseen_insert_lt U _ node HnU Hn). lia. }
  cbn [fmap option_fmap option_map]. eexists. split; [done|].
  destruct Ha as [[J1 J2 J3 J4 J5 J6] Hp Hs Hv Hc]. cbn in Hp, Hs, Hv, Hc.
  assert (Hns : node ∉ dfs_in_stack st).
  { rewrite (inv_stack _ Hi). intros ?%(inv_visited _ Hi). done. }
  assert (Hstack : dfs_in_stack st1 ∖ {[node]} = dfs_in_stack st) by (rewrite Hs; set_solver).
  assert (Hpath : take (pred (length (dfs_path st1))) (dfs_path st1) = dfs_path st).
  { rewrite Hp, length_app. cbn. rewrite Nat.add_1_r. cbn. by rewrite take_app_length. }
  split; [|cbn; set_solver]. split; cbn; [|done|done|set_solver|done].
  split; cbn; rewrite ?Hpath; [rewrite Hstack; apply Hi|intros x Hx; apply Hv, elem_of_union_r, (inv_visited _ Hi), Hx
    |apply Hi|apply Hi|done|].
  intros Hc0. specialize (J6 Hc0). specialize (Hb Hc0).
  assert (Hblack : ∀ x, x ∈ black (dfs_leave node st1) ↔ x ∈ black st1 ∨ x = node).
  { intros x. unfold black. cbn. rewrite Hstack, Hs.
    assert (Hnv : node ∈ dfs_visited st1) by (apply Hv, elem_of_union_l, elem_of_singleton; done).
    rewrite !elem_of_difference, not_elem_of_union, not_elem_of_singleton.
    destruct (decide (x = node)) as [->|]; tauto. }
  intros x Hx. setoid_rewrite Hblack. apply Hblack in Hx as [Hx| ->].
  - destruct (J6 x Hx) as [H1 H2]. split; [|done]. intros y Hxy. left. by apply H1.
  - split; [intros y Hy; left; by apply Hb|].
    intros (y & Hny & Hr)%tc_inv.
    assert (Hin : node ∈ black st1).
    { eapply (closed_rtc (black st1)); [|by apply Hb|exact Hr]. intros a c Ha. by apply J6. }
    unfold black in Hin. rewrite Hs in Hin. set_solver.
Qed.

Lemma dfs_all_spec fuel nodes st :
  dfs_inv st → dfs_path st = [] → (∀ n, n ∈ nodes → R n ∧ n ∈ U) → length U < fuel →
  ∃ st', dfs_all next fuel nodes st = Some st' ∧ dfs_after st st' ∧
    ∀ n, n ∈ nodes → n ∈ dfs_visited st'.
Proof.
  revert st. induction nodes as [|n nodes IH]; intros st Hi Hp Hn Hf; cbn [dfs_all].
  { exists st. split; [done|]. split; [by apply dfs_after_refl|]. by intros n ?%elem_of_nil. }
  assert (Hrest : ∀ st1, dfs_after st st1 → n ∈ dfs_visited st1 →
    ∃ st', dfs_all next fuel nodes st1 = Some st' ∧ dfs_after st st' ∧
      ∀ m, m ∈ n :: nodes → m ∈ dfs_visited st').
  { intros st1 Ha Hv. destruct (IH st1) as (st' & -> & Ha' & Hall).
    - apply Ha.
    - by rewrite (after_path _ _ Ha).
    - intros m Hm. apply Hn. by right.
    - done.
    - exists st'. split; [done|]. split; [by eapply dfs_after_trans|].
      intros m [->|Hm]%elem_of_cons; [|by apply Hall]. by apply (after_visited _ _ Ha'). }
  destruct (Hn n) as [HRn HnU]; [left|]. case_decide as Hv.
  - destruct (dfs_visit_spec fuel n st) as (st1 & -> & Ha & Hv1); [done|done|by rewrite Hp|done|done| |].
    { eapply Nat.le_lt_trans; [apply length_filter|done]. }
    by apply Hrest.
  - apply Hrest; [by apply dfs_after_refl|done].
Qed.
End cycles.

(** Cycle detection returns, every reported list is a closed walk of nodes
    reachable from the roots, and nothing is reported exactly when no
    reachable node lies on a cycle. *)
Lemma cycles_from_spec U fuel nodes :
  closed U → (∀ n, n ∈ nodes → n ∈ U) → length U < fuel →
  ∃ cycles, cycles_from next fuel nodes = Some cycles ∧
    Forall (λ c, closed_walk c ∧ Forall (λ x, ∃ n, n ∈ nodes ∧ rtc edge n x) c) cycles ∧
    (cycles = [] ↔ ∀ n x, n ∈ nodes → rtc edge n x → ¬ tc edge x x).
Proof.
  intros Hcl HU Hf. set (R x := ∃ n, n ∈ nodes ∧ rtc edge n x).
  assert (HR : ∀ x y, R x → edge x y → R y).
  { intros x y (n & Hn & Hr) Hxy. exists n. split; [done|]. by eapply rtc_r. }
  assert (Hi : dfs_inv R dfs_initial).
  { split; cbn; [set_solver|set_solver|done|constructor|constructor|]. intros _ x. unfold black; cbn.
    set_solver. }
  destruct (dfs_all_spec R HR U Hcl fuel nodes dfs_initial Hi eq_refl) as (st & Hst & Ha & Hall).
  { intros n Hn. split; [by exists n|by apply HU]. }
  { done. }
  exists (dfs_cycles st). unfold cycles_from. rewrite Hst. split; [done|].
  destruct Ha as [[_ _ _ _ I5 I6] _ Hs _ _]. cbn in Hs. split; [done|]. split.
  - intros Hc n x Hn Hr. assert (Hx : x ∈ black st); [|by apply (I6 Hc)].
    eapply (closed_rtc (black st)); [intros a b Hab; by apply (I6 Hc)| |exact Hr].
    unfold black. rewrite Hs. specialize (Hall n Hn). set_solver.
  - intros Hno. destruct (dfs_cycles st) as [|c cs]; [done|].
    inversion I5 as [|?? [Hc HRc] _]; subst. apply closed_walk_tc in Hc as (x & Hx & Ht).
    rewrite Forall_forall in HRc. destruct (HRc x Hx) as (n & Hn & Hr). by destruct (Hno n x Hn Hr).
Qed.

(** * Longest paths *)

Definition chain_from (n : string) (p : list string) : Prop := (∃ p', p = n :: p') ∧ walk p.

(** [p] is a longest path among those that start in a node of [ns]; empty
    when there is none. *)
Definition longest_among (ns : list string) (p : list string) : Prop :=
  (p = [] ∨ ∃ n, n ∈ ns ∧ chain_from n p) ∧
  ∀ n q, n ∈ ns → chain_from n q → length q ≤ length p.

Lemma longest_among_nil : longest_among [] [].
Proof. split; [by left|]. by intros n q ?%elem_of_nil. Qed.

Lemma longest_among_snoc ns n p best :
  longest_among ns best → longest_among [n] p → longest_among (ns ++ [n]) (longer best p).
Proof.
  intros [H1 H2] [H3 H4]. unfold longer. destruct (Nat.ltb_spec (length best) (length p)) as [Hlt|Hge].
  - split.
    + destruct H3 as [->|(m & ->%list_elem_of_singleton & Hc)]; [by left|]. right. exists n.
      split; [set_solver|done].
    + intros m q [Hm| ->%list_elem_of_singleton]%elem_of_app Hq; [|apply (H4 n); [by left|done]].
      specialize (H2 m q Hm Hq). lia.
  - split.
    + destruct H1 as [->|(m & Hm & Hc)]; [by left|]. right. exists m. split; [set_solver|done].
    + intros m q [Hm| ->%list_elem_of_singleton]%elem_of_app Hq; [by apply (H2 m)|].
      specialize (H4 n q ltac:(by left) Hq). lia.
Qed.

Lemma longest_among_cons n p :
  longest_among (next n) p → longest_among [n] (n :: p).
Proof.
  intros [H1 H2]. split.
  - right. exists n. split; [left|]. split; [by eexists|].
    destruct H1 as [->|(y & Hy & [[p' ->] Hw])]; [done|]. by split.
  - intros m q ->%list_elem_of_singleton [[q' ->] Hw]. cbn.
    destruct q' as [|y q']; [cbn; lia|]. destruct Hw as [Hny Hw].
    specialize (H2 y (y :: q') Hny). cbn in *. apply le_n_S, H2. split; [by eexists|done].
Qed.

Definition memo_ok (m : path_memo) : Prop :=
  ∀ n p, dict_get n m = Some p → longest_among [n] p.

Section longest.
Context (U : list string) (HU : closed U) (Hacyclic : ∀ x, x ∈ U → ¬ tc edge x x).

Lemma tail_loop_spec (rec : string → path_memo → option (list string * path_memo)) ns before best m :
  (∀ y m, y ∈ ns → memo_ok m → ∃ p m', rec y m = Some (p, m') ∧ longest_among [y] p ∧ memo_ok m') →
  longest_among before best → memo_ok m →
  ∃ p m', tail_loop rec ns best m = Some (p, m') ∧ longest_among (before ++ ns) p ∧ memo_ok m'.
Proof.
  revert before best m. induction ns as [|y ns IH]; intros before best m Hrec Hb Hm; cbn [tail_loop].
  { exists best, m. by rewrite app_nil_r. }
  destruct (Hrec y m) as (p & m' & -> & Hp & Hm'); [by left|done|].
  destruct (IH (before ++ [y]) (longer best p) m') as (p' & m2 & -> & Hp' & Hm2).
  - intros z m0 Hz. apply Hrec. by right.
  - by apply longest_among_snoc.
  - done.
  - exists p', m2. rewrite <-app_assoc in Hp'. done.
Qed.

Lemma longest_path_from_spec fuel node visiting m :
  memo_ok m → node ∈ U → (∀ v, v ∈ visiting → tc edge v node) →
  length (unseen U visiting) ≤ fuel →
  ∃ p m', longest_path_from next fuel node visiting m = Some (p, m') ∧
    longest_among [node] p ∧ memo_ok m'.
Proof.
  revert node visiting m. induction fuel as [|fuel IH]; intros node visiting m Hm Hn Hv Hf;
    cbn [longest_path_from]; destruct (dict_get node m) as [p|] eqn:Em; try by (exists p, m; eauto).
  all: assert (Hnv : node ∉ visiting) by (intros Hin; by apply (Hacyclic node Hn), Hv).
  all: rewrite decide_False by done; pose proof (unseen_insert_lt U visiting node Hn Hnv) as Hlt.
  1: lia.
  destruct (tail_loop_spec
    (λ neighbor m, longest_path_from next fuel neighbor ({[node]} ∪ visiting) m) (next node) [] [] m)
    as (p & m' & -> & Hp & Hm'); [|apply longest_among_nil|done|].
  { intros y m0 Hy Hm0. apply IH; [done|by apply (HU node)| |lia].
    intros v [->%elem_of_singleton|Hvv]%elem_of_union; [by apply tc_once|].
    eapply tc_r; [by apply Hv|done]. }
  cbv zeta. do 2 eexists. split; [done|]. apply longest_among_cons in Hp. split; [done|].
  intros n q. rewrite dict_get_set. case_decide as E; [|apply Hm'].
  intros [= <-]. by rewrite E.
Qed.

Lemma longest_of_spec fuel nodes before longest m :
  memo_ok m → (∀ n, n ∈ nodes → n ∈ U) → length U ≤ fuel → longest_among before longest →
  ∃ p, longest_of next fuel nodes longest m = Some p ∧ longest_among (before ++ nodes) p.
Proof.
  revert before longest m. induction nodes as [|n nodes IH]; intros before longest m Hm Hn Hf Hl;
    cbn [longest_of].
  { exists longest. by rewrite app_nil_r. }
  destruct (longest_path_from_spec fuel n ∅ m) as (p & m' & -> & Hp & Hm').
  - done.
  - apply Hn. left.
  - intros v ?%elem_of_empty. done.
  - etrans; [apply length_filter|done].
  - destruct (IH (before ++ [n]) (longer longest p) m') as (q & -> & Hq).
    + done.
    + intros x Hx. apply Hn. by right.
    + done.
    + by apply longest_among_snoc.
    + exists q. rewrite <-app_assoc in Hq. done.
Qed.
End longest.
End graph.
