(* ===== verification/Backlog.v ===== *)
(** Backlog: the dependency graph of [specfact_backlog/backlog_core]: the
    graph models, the builder with its configuration, the dependency analyzer,
    the sync delta and the decisions of the verify, promote, delta and release
    commands. *)

From S2P Require Import Prelude Text Dict PyValue Floats Graphs.

(** * Models (graph/models.py) *)

Inductive ItemType := EPIC | FEATURE | STORY | TASK | BUG | SUB_TASK | CUSTOM_ITEM.
Inductive DependencyType :=
  PARENT_CHILD | BLOCKS | RELATES_TO | DUPLICATES | CLONED_FROM | IMPLEMENTS | CUSTOM_DEP.
#[export] Instance ItemType_eq_dec : EqDecision ItemType.
Proof. solve_decision. Defined.
#[export] Instance DependencyType_eq_dec : EqDecision DependencyType.
Proof. solve_decision. Defined.

Definition item_type_text (t : ItemType) : string :=
  match t with
  | EPIC => "epic" | FEATURE => "feature" | STORY => "story" | TASK => "task" | BUG => "bug"
  | SUB_TASK => "sub_task" | CUSTOM_ITEM => "custom"
  end.
Definition dependency_type_text (t : DependencyType) : string :=
  match t with
  | PARENT_CHILD => "parent_child" | BLOCKS => "blocks" | RELATES_TO => "relates_to"
  | DUPLICATES => "duplicates" | CLONED_FROM => "cloned_from" | IMPLEMENTS => "implements"
  | CUSTOM_DEP => "custom"
  end.
Definition item_types : list ItemType := [EPIC; FEATURE; STORY; TASK; BUG; SUB_TASK; CUSTOM_ITEM].
Definition dependency_types : list DependencyType :=
  [PARENT_CHILD; BLOCKS; RELATES_TO; DUPLICATES; CLONED_FROM; IMPLEMENTS; CUSTOM_DEP].

(** [ItemType(v)] and [DependencyType(v)]; [None] is a [ValueError]. *)
Definition parse_item_type (v : pyval) : option ItemType :=
  find (λ t, is_str (item_type_text t) v) item_types.
Definition parse_dependency_type (v : pyval) : option DependencyType :=
  find (λ t, is_str (dependency_type_text t) v) dependency_types.

Record BacklogItem := {
  bi_id : string;
  bi_key : option string;
  bi_title : string;
  bi_type : ItemType;
  bi_status : string;
  bi_description : option string;
  bi_priority : option string;
  bi_parent_id : option string;
  bi_raw_data : list (string * pyval);
  bi_inferred_type : option ItemType;
  bi_confidence : spec_float
}.

Definition effective_type (item : BacklogItem) : ItemType :=
  match bi_inferred_type item with
  | Some t => if float_leb (float_dec 5 1) (bi_confidence item) then t else bi_type item
  | None => bi_type item
  end.

Record Dependency := {
  dep_source : string;
  dep_target : string;
  dep_type : DependencyType;
  dep_metadata : list (string * pyval);
  dep_confidence : spec_float
}.

Record BacklogGraph := {
  bg_items : list (string * BacklogItem);
  bg_dependencies : list Dependency;
  bg_provider : string;
  bg_project_key : string;
  bg_transitive_closure : list (string * list string);
  bg_cycles_detected : list (list string);
  bg_orphans : list string
}.

(** * Configuration (graph/config_schema.py, graph/builder.py) *)

Record BacklogConfigModel := {
  bc_template : option string;
  bc_type_mapping : list (string * string);
  bc_dependency_rules : list (string * string);
  bc_status_mapping : list (string * string);
  bc_creation_hierarchy : list (string * list string)
}.

(** The merged configuration dictionary; the flattened payloads carry the
    same keys, [providers] only when they come from the schema. *)
Record merged_config := {
  mc_template : option string;
  mc_project_key : option string;
  mc_type_mapping : list (string * string);
  mc_dependency_rules : list (string * string);
  mc_status_mapping : list (string * string);
  mc_creation_hierarchy : list (string * list string);
  mc_providers : list (string * pyval)
}.

Definition invalid {A} : result A := Err (ValueError "validation error").

(** Field validators of the pydantic models *)
Definition as_str (v : pyval) : result string := match v with VStr s => Ok s | _ => invalid end.
Definition as_opt_str (v : pyval) : result (option string) :=
  match v with VNone => Ok None | VStr s => Ok (Some s) | _ => invalid end.
Definition as_str_list (v : pyval) : result (list string) :=
  match v with VList l | VTuple l | VSet l => map_res as_str l | _ => invalid end.
Definition as_dict {A} (f : pyval → result A) (v : pyval) : result (list (string * A)) :=
  match v with
  | VDict d => map_res (λ kv, let! k := as_str kv.1 in let! a := f kv.2 in Ok (k, a)) d
  | _ => invalid
  end.
(** An absent field takes its default. *)
Definition field {A} (name : string) (dflt : A) (f : pyval → result A) (d : list (pyval * pyval)) :
    result A :=
  match dict_get (VStr name) d with Some v => f v | None => Ok dflt end.

Definition validate_config_model (d : list (pyval * pyval)) : result BacklogConfigModel :=
  let! template := field "template" None as_opt_str d in
  let! type_mapping := field "type_mapping" [] (as_dict as_str) d in
  let! dependency_rules := field "dependency_rules" [] (as_dict as_str) d in
  let! status_mapping := field "status_mapping" [] (as_dict as_str) d in
  let! creation_hierarchy := field "creation_hierarchy" [] (as_dict as_str_list) d in
  Ok {| bc_template := template; bc_type_mapping := type_mapping;
        bc_dependency_rules := dependency_rules; bc_status_mapping := status_mapping;
        bc_creation_hierarchy := creation_hierarchy |}.

Record ProviderConfig := {
  pc_adapter : option string; pc_project_id : option string; pc_settings : list (string * pyval)
}.
Definition validate_ProviderConfig (v : pyval) : result ProviderConfig :=
  match v with
  | VDict d =>
      let! adapter := field "adapter" None as_opt_str d in
      let! project_id := field "project_id" None as_opt_str d in
      let! settings := field "settings" [] (as_dict Ok) d in
      Ok {| pc_adapter := adapter; pc_project_id := project_id; pc_settings := settings |}
  | _ => invalid
  end.

Record DevOpsStageConfig := {
  ds_default_action : option string; ds_enabled : bool; ds_settings : list (string * pyval)
}.
(** The values a boolean field accepts *)
Definition as_bool (v : pyval) : result bool :=
  match v with
  | VBool b => Ok b
  | VInt 0 => Ok false
  | VInt 1 => Ok true
  | VFloat f => if float_eqb f (exact_float 0) then Ok false
                else if float_eqb f (exact_float 1) then Ok true else invalid
  | VStr s =>
      if bool_decide (lower s ∈ ["0"; "off"; "f"; "false"; "n"; "no"]) then Ok false
      else if bool_decide (lower s ∈ ["1"; "on"; "t"; "true"; "y"; "yes"]) then Ok true
      else invalid
  | _ => invalid
  end.
Definition validate_DevOpsStageConfig (v : pyval) : result DevOpsStageConfig :=
  match v with
  | VDict d =>
      let! default_action := field "default_action" None as_opt_str d in
      let! enabled := field "enabled" true as_bool d in
      let! settings := field "settings" [] (as_dict Ok) d in
      Ok {| ds_default_action := default_action; ds_enabled := enabled; ds_settings := settings |}
  | _ => invalid
  end.

Record BacklogConfigSchema := {
  bs_dependencies : BacklogConfigModel;
  bs_providers : list (string * ProviderConfig);
  bs_devops_stages : list (string * DevOpsStageConfig)
}.
Definition empty_config_model : BacklogConfigModel :=
  {| bc_template := None; bc_type_mapping := []; bc_dependency_rules := [];
     bc_status_mapping := []; bc_creation_hierarchy := [] |}.
Definition validate_BacklogConfigSchema (d : list (pyval * pyval)) : result BacklogConfigSchema :=
  let! dependencies := field "dependencies" empty_config_model
    (λ v, match v with VDict d => validate_config_model d | _ => invalid end) d in
  let! providers := field "providers" [] (as_dict validate_ProviderConfig) d in
  let! devops_stages := field "devops_stages" [] (as_dict validate_DevOpsStageConfig) d in
  Ok {| bs_dependencies := dependencies; bs_providers := providers; bs_devops_stages := devops_stages |}.

(** The parsed file, [None] when it does not exist *)
Definition _load_backlog_config_from_yaml (file : option pyval) : result (option BacklogConfigSchema) :=
  match file with
  | Some (VDict loaded) =>
      match dict_get (VStr "backlog_config") loaded with
      | Some (VDict backlog_config) =>
          let payload :=
            match dict_get (VStr "devops_stages") loaded with
            | Some (VDict stages) => dict_set (VStr "devops_stages") (VDict stages) backlog_config
            | _ => backlog_config
            end in
          let! schema := validate_BacklogConfigSchema payload in Ok (Some schema)
      | _ => Ok None
      end
  | _ => Ok None
  end.

(** [model_dump()] of a provider *)
Definition opt_val (o : option string) : pyval := match o with Some s => VStr s | None => VNone end.
Definition dump_provider (p : ProviderConfig) : pyval :=
  VDict [(VStr "adapter", opt_val (pc_adapter p)); (VStr "project_id", opt_val (pc_project_id p));
         (VStr "settings", VDict ((λ kv, (VStr kv.1, kv.2)) <$> pc_settings p))].

Definition flatten_model (m : BacklogConfigModel) (providers : list (string * ProviderConfig)) :
    merged_config :=
  {| mc_template := bc_template m; mc_project_key := None; mc_type_mapping := bc_type_mapping m;
     mc_dependency_rules := bc_dependency_rules m; mc_status_mapping := bc_status_mapping m;
     mc_creation_hierarchy := bc_creation_hierarchy m;
     mc_providers := (λ np, (np.1, dump_provider np.2)) <$> providers |}.

Definition _flatten_config_payload (config_payload : list (pyval * pyval)) : result merged_config :=
  if dict_mem (VStr "dependencies") config_payload || dict_mem (VStr "providers") config_payload
  then let! schema := validate_BacklogConfigSchema config_payload in
       Ok (flatten_model (bs_dependencies schema) (bs_providers schema))
  else let! model := validate_config_model config_payload in Ok (flatten_model model []).

(** [override.get(key)] when it is not [None], else [base] *)
Definition override_with {A} (base override : option A) : option A :=
  match override with Some _ => override | None => base end.
Definition _merge_config (base override : merged_config) : merged_config :=
  {| mc_template := override_with (mc_template base) (mc_template override);
     mc_project_key := override_with (mc_project_key base) (mc_project_key override);
     mc_type_mapping := dict_merge (mc_type_mapping base) (mc_type_mapping override);
     mc_dependency_rules := dict_merge (mc_dependency_rules base) (mc_dependency_rules override);
     mc_status_mapping := dict_merge (mc_status_mapping base) (mc_status_mapping override);
     mc_creation_hierarchy := dict_merge (mc_creation_hierarchy base) (mc_creation_hierarchy override);
     mc_providers := dict_merge (mc_providers base) (mc_providers override) |}.

Definition get_dict (name : string) (v : option pyval) : option pyval :=
  match v with Some (VDict d) => dict_get (VStr name) d | _ => None end.
Definition as_mapping (v : option pyval) : option (list (pyval * pyval)) :=
  match v with Some (VDict d) => Some d | _ => None end.
(** The first of the values that is a dictionary *)
Fixpoint first_mapping (vs : list (option pyval)) : option (list (pyval * pyval)) :=
  match vs with
  | [] => None
  | v :: vs => match as_mapping v with Some d => Some d | None => first_mapping vs end
  end.

Definition _load_custom_config (spec_file : option pyval) (custom_config : list (pyval * pyval)) :
    result merged_config :=
  let merged := flatten_model empty_config_model [] in
  let! spec_config := _load_backlog_config_from_yaml spec_file in
  let merged :=
    match spec_config with
    | Some schema => _merge_config merged (flatten_model (bs_dependencies schema) (bs_providers schema))
    | None => merged
    end in
  match custom_config with
  | [] => Ok merged
  | _ =>
      let metadata := dict_get (VStr "project_bundle_metadata") custom_config in
      let! merged :=
        match first_mapping
                [get_dict "backlog_config" metadata;
                 get_dict "backlog_config" (get_dict "backlog_core" metadata);
                 get_dict "backlog_config" (get_dict "backlog_core" (get_dict "extensions" metadata))] with
        | Some backlog_config =>
            let! flat := _flatten_config_payload backlog_config in Ok (_merge_config merged flat)
        | None => Ok merged
        end in
      let! flat := _flatten_config_payload custom_config in
      Ok (_merge_config merged flat)
  end.

(** * The builder (graph/builder.py) *)

Record BacklogGraphBuilder := {
  gb_provider : string;
  gb_template_name : string;
  gb_template : list (pyval * pyval);
  gb_custom_config : merged_config;
  gb_items : list (string * BacklogItem);
  gb_dependencies : list Dependency
}.

Definition default_template : list (pyval * pyval) :=
  [(VStr "type_mapping", VDict []); (VStr "dependency_rules", VDict []);
   (VStr "status_mapping", VDict [])].

(** The parsed candidate files in order, [None] for one that does not exist *)
Definition _load_template (template_name : string) (candidates : list (option pyval)) :
    result (list (pyval * pyval)) :=
  if nonblank template_name then Ok (default default_template (first_mapping candidates))
  else Err (ContractViolation "Template name must be non-empty").

Definition new_builder (provider : string) (template_name : option string)
    (candidates : list (option pyval)) (spec_file : option pyval)
    (custom_config : list (pyval * pyval)) : result BacklogGraphBuilder :=
  if nonblank provider then
    let name := match template_name with Some t => if String.eqb t "" then provider else t
                                       | None => provider end in
    let! template := _load_template name candidates in
    let! config := _load_custom_config spec_file custom_config in
    Ok {| gb_provider := provider; gb_template_name := name; gb_template := template;
          gb_custom_config := config; gb_items := []; gb_dependencies := [] |}
  else Err (ContractViolation "Provider must be non-empty").

(** [{k.lower(): v for k, v in template.get(name, {}).items()}] *)
Definition template_mapping (template : list (pyval * pyval)) (name : string) :
    result (list (string * pyval)) :=
  match default (VDict []) (dict_get (VStr name) template) with
  | VDict d =>
      let! pairs := map_res (λ kv, match kv.1 with
                                   | VStr k => Ok (lower k, kv.2)
                                   | _ => Err (AttributeError "lower")
                                   end) d in
      Ok (dict_of pairs)
  | _ => Err (AttributeError "items")
  end.
Definition lowered (mapping : list (string * string)) : list (string * pyval) :=
  dict_of ((λ kv, (lower kv.1, VStr kv.2)) <$> mapping).

(** [str(raw.get(k1) or raw.get(k2) or dflt)] *)
Definition first_text `{PyRepr} (raw : list (string * pyval)) (k1 k2 dflt : string) : string :=
  py_str (py_or (py_or (sget k1 raw) (sget k2 raw)) (VStr dflt)).
(** [str(v) if v else None] *)
Definition opt_text `{PyRepr} (v : pyval) : option string :=
  if truthy v then Some (py_str v) else None.

Definition confidence_high : spec_float := float_dec 9 1.
Definition confidence_low : spec_float := float_dec 4 1.
Definition confidence_none : spec_float := float_dec 1 1.

Section builder.
Context `{PyRepr}.

Definition _infer_type (b : BacklogGraphBuilder) (raw_item : list (string * pyval)) :
    result (ItemType * spec_float) :=
  let raw_type := lower (strip (first_text raw_item "type" "work_item_type" "custom")) in
  let! template := template_mapping (gb_template b) "type_mapping" in
  let mapping := dict_merge template (lowered (mc_type_mapping (gb_custom_config b))) in
  let mapped := default (VStr "custom") (dict_get raw_type mapping) in
  Ok match parse_item_type mapped with
     | Some t => (t, if is_str "custom" mapped then confidence_low else confidence_high)
     | None => (CUSTOM_ITEM, confidence_none)
     end.

Definition _map_status (b : BacklogGraphBuilder) (status : string) : result string :=
  let normalized := lower (strip status) in
  let! template := template_mapping (gb_template b) "status_mapping" in
  let mapping := dict_merge template (lowered (mc_status_mapping (gb_custom_config b))) in
  let fallback := if String.eqb normalized "" then "unknown" else normalized in
  Ok (py_str (default (VStr fallback) (dict_get normalized mapping))).

Definition with_items (items : list (string * BacklogItem)) (b : BacklogGraphBuilder) :=
  {| gb_provider := gb_provider b; gb_template_name := gb_template_name b;
     gb_template := gb_template b; gb_custom_config := gb_custom_config b;
     gb_items := items; gb_dependencies := gb_dependencies b |}.
Definition with_dependencies (deps : list Dependency) (b : BacklogGraphBuilder) :=
  {| gb_provider := gb_provider b; gb_template_name := gb_template_name b;
     gb_template := gb_template b; gb_custom_config := gb_custom_config b;
     gb_items := gb_items b; gb_dependencies := deps |}.

(** [str(raw.get("id") or raw.get("key") or "")] *)
Definition raw_item_id (raw_item : list (string * pyval)) : string := first_text raw_item "id" "key" "".

Definition make_item (b : BacklogGraphBuilder) (raw_item : list (string * pyval)) : result BacklogItem :=
  let item_id := raw_item_id raw_item in
  let! inferred := _infer_type b raw_item in
  let '(inferred_type, confidence) := inferred in
  let! status_value := _map_status b (first_text raw_item "status" "state" "unknown") in
  Ok {| bi_id := item_id;
        bi_key := Some (py_str (py_or (sget "key" raw_item) (VStr item_id)));
        bi_title := first_text raw_item "title" "name" item_id;
        bi_type := inferred_type;
        bi_status := status_value;
        bi_description := opt_text (sget "description" raw_item);
        bi_priority := opt_text (sget "priority" raw_item);
        bi_parent_id := opt_text (sget "parent_id" raw_item);
        bi_raw_data := raw_item;
        bi_inferred_type := Some inferred_type;
        bi_confidence := confidence |}.

Definition add_item (b : BacklogGraphBuilder) (raw_item : list (string * pyval)) :
    result BacklogGraphBuilder :=
  if String.eqb (raw_item_id raw_item) "" then Ok b
  else let! item := make_item b raw_item in
       Ok (with_items (dict_set (bi_id item) item (gb_items b)) b).
Fixpoint add_items (b : BacklogGraphBuilder) (raw_items : list (list (string * pyval))) :
    result BacklogGraphBuilder :=
  match raw_items with
  | [] => Ok b
  | raw_item :: rest => let! b := add_item b raw_item in add_items b rest
  end.

Definition _infer_dependency_type (b : BacklogGraphBuilder) (raw_relationship_type : string) :
    result DependencyType :=
  let normalized := lower (strip raw_relationship_type) in
  let! template := template_mapping (gb_template b) "dependency_rules" in
  let mapping := dict_merge template (lowered (mc_dependency_rules (gb_custom_config b))) in
  Ok (default CUSTOM_DEP (dict_get normalized mapping ≫= parse_dependency_type)).

Definition make_dependency (b : BacklogGraphBuilder) (relationship : list (string * pyval)) :
    result (option Dependency) :=
  let source_id := first_text relationship "source_id" "from" "" in
  let target_id := first_text relationship "target_id" "to" "" in
  if String.eqb source_id "" || String.eqb target_id "" then Ok None
  else
    let! type := _infer_dependency_type b (first_text relationship "type" "relation" "") in
    Ok (Some {| dep_source := source_id; dep_target := target_id; dep_type := type;
                dep_metadata := relationship;
                dep_confidence := if decide (type = CUSTOM_DEP) then confidence_low
                                  else confidence_high |}).
Fixpoint add_dependencies (b : BacklogGraphBuilder) (relationships : list (list (string * pyval))) :
    result BacklogGraphBuilder :=
  match relationships with
  | [] => Ok b
  | relationship :: rest =>
      let! dep := make_dependency b relationship in
      add_dependencies
        (match dep with
         | Some d => with_dependencies (gb_dependencies b ++ [d]) b
         | None => b
         end) rest
  end.
End builder.

(** ** Adjacency *)

Definition targets_of (deps : list Dependency) (x : string) : list string :=
  dep_target <$> filter (λ d, dep_source d = x) deps.
Definition sources_of (deps : list Dependency) (x : string) : list string :=
  dep_source <$> filter (λ d, dep_target d = x) deps.
(** The nodes an edge touches, and the fuel that is enough for them *)
Definition endpoints (deps : list Dependency) : list string :=
  (dep_source <$> deps) ++ (dep_target <$> deps).
Definition loop_fuel (next : string → list string) (nodes stack : list string) : nat :=
  length stack + sum_list ((λ n, length (next n)) <$> nodes).

(** [defaultdict(list)] filled with the edges *)
Definition adjacency (deps : list Dependency) : list (string * list string) :=
  foldl (λ d dep, dict_append (dep_source dep) (dep_target dep) d) [] deps.
Definition reverse_adjacency (deps : list Dependency) : list (string * list string) :=
  foldl (λ d dep, dict_append (dep_target dep) (dep_source dep) d) [] deps.
Definition neighbors (adj : list (string * list string)) (x : string) : list string := bucket x adj.

(** ** Building *)

Section building.
Context `{SetIter}.

Definition neighbor_set (deps : list Dependency) (x : string) : list string :=
  set_iter (list_to_set (neighbors (adjacency deps) x)).

Fixpoint closure_entries (deps : list Dependency) (sources : list string) :
    option (list (string * list string)) :=
  match sources with
  | [] => Some []
  | source :: rest =>
      let next := neighbor_set deps in
      let stack := reverse (next source) in
      match closure_loop next (loop_fuel next (endpoints deps) stack) ∅ stack with
      | Some seen =>
          (if decide (seen = ∅) then id else cons (source, sorted_set seen))
            <$> closure_entries deps rest
      | None => None
      end
  end.
Definition _compute_transitive_closure (b : BacklogGraphBuilder) :
    option (list (string * list string)) :=
  closure_entries (gb_dependencies b) (dict_keys (gb_items b)).

Definition cycle_fuel (deps : list Dependency) (items : list string) : nat :=
  S (length (items ++ endpoints deps)).
Definition _detect_cycles (b : BacklogGraphBuilder) : option (list (list string)) :=
  let items := dict_keys (gb_items b) in
  cycles_from (neighbors (adjacency (gb_dependencies b))) (cycle_fuel (gb_dependencies b) items) items.

(** [if item.parent_id] *)
Definition has_parent (item : BacklogItem) : bool :=
  match bi_parent_id item with Some p => bool_decide (p ≠ "") | None => false end.
Definition _find_orphans (b : BacklogGraphBuilder) : list string :=
  let targets := dep_target <$> gb_dependencies b in
  let orphans := bi_id <$> filter (λ item, has_parent item = false ∧ bi_id item ∉ targets)
                             (dict_values (gb_items b)) in
  sorted_set (list_to_set orphans).

Definition build (b : BacklogGraphBuilder) : option BacklogGraph :=
  match _compute_transitive_closure b, _detect_cycles b with
  | Some closure, Some cycles =>
      Some {| bg_items := gb_items b; bg_dependencies := gb_dependencies b;
              bg_provider := gb_provider b;
              bg_project_key :=
                match mc_project_key (gb_custom_config b) with
                | Some k => if String.eqb k "" then "unknown" else k
                | None => "unknown"
                end;
              bg_transitive_closure := closure; bg_cycles_detected := cycles;
              bg_orphans := _find_orphans b |}
  | _, _ => None
  end.
End building.

(** * The dependency analyzer (analyzers/dependency.py) *)

Record DependencyAnalyzer := {
  an_graph : BacklogGraph;
  an_adjacency : list (string * list string);
  an_reverse_adjacency : list (string * list string);
  an_dependency_types : list ((string * string) * DependencyType)
}.
Definition new_analyzer (graph : BacklogGraph) : DependencyAnalyzer :=
  {| an_graph := graph;
     an_adjacency := adjacency (bg_dependencies graph);
     an_reverse_adjacency := reverse_adjacency (bg_dependencies graph);
     an_dependency_types :=
       dict_of ((λ d, ((dep_source d, dep_target d), dep_type d)) <$> bg_dependencies graph) |}.

Definition item_ids (a : DependencyAnalyzer) : list string := dict_keys (bg_items (an_graph a)).
Definition analyzer_nodes (a : DependencyAnalyzer) : list string :=
  item_ids a ++ endpoints (bg_dependencies (an_graph a)).
Definition an_next (a : DependencyAnalyzer) : string → list string := neighbors (an_adjacency a).

Fixpoint analyzer_entries (a : DependencyAnalyzer) (sources : list string) :
    option (list (string * list string)) :=
  match sources with
  | [] => Some []
  | item_id :: rest =>
      match traverse_dfs (an_next a) (S (length (analyzer_nodes a))) item_id ∅ with
      | Some seen =>
          let seen := seen ∖ {[item_id]} in
          (if decide (seen = ∅) then id else cons (item_id, sorted_set seen))
            <$> analyzer_entries a rest
      | None => None
      end
  end.
Definition compute_transitive_closure (a : DependencyAnalyzer) : option (list (string * list string)) :=
  analyzer_entries a (item_ids a).

Definition detect_cycles (a : DependencyAnalyzer) : option (list (list string)) :=
  cycles_from (an_next a) (S (length (analyzer_nodes a))) (item_ids a).

Definition critical_path (a : DependencyAnalyzer) : option (list string) :=
  longest_of (an_next a) (length (analyzer_nodes a)) (item_ids a) [] [].

Record impact := {
  direct_dependents : list string;
  transitive_dependents : list string;
  blockers : list string;
  estimated_impact_count : nat
}.
Definition impact_analysis (a : DependencyAnalyzer) (item_id : string) : option (result impact) :=
  if nonblank item_id then
    let previous := neighbors (an_reverse_adjacency a) in
    let direct := sorted_set (list_to_set (previous item_id) : gset string) in
    let stack := reverse direct in
    (λ dependents,
       Ok {| direct_dependents := direct;
             transitive_dependents := sorted_set dependents;
             blockers := sorted (omap (λ e, if decide (e.1.1 = item_id ∧ e.2 = BLOCKS)
                                            then Some e.1.2 else None)
                                   (an_dependency_types a));
             estimated_impact_count := size dependents |})
      <$> closure_loop previous
            (loop_fuel previous (endpoints (bg_dependencies (an_graph a))) stack) ∅ stack
  else Some (Err (ContractViolation "item_id must be non-empty")).

Record coverage := {
  cov_total_items : nat; cov_properly_typed : nat; cov_properly_typed_pct : spec_float;
  cov_with_dependencies : nat; cov_orphan_count : nat; cov_cycle_count : nat
}.
Definition coverage_analysis (a : DependencyAnalyzer) : option coverage :=
  let items := bg_items (an_graph a) in
  let deps := bg_dependencies (an_graph a) in
  let total := length items in
  let typed := length (filter (λ i, effective_type i ≠ CUSTOM_ITEM) (dict_values items)) in
  let pct := if (total =? 0)%nat then exact_float 0
             else float_mul (int_div (Z.of_nat typed) (Z.of_nat total)) (exact_float 100) in
  (λ cycles,
     {| cov_total_items := total; cov_properly_typed := typed; cov_properly_typed_pct := round2 pct;
        cov_with_dependencies := size (list_to_set (endpoints deps) : gset string);
        cov_orphan_count := length (bg_orphans (an_graph a)); cov_cycle_count := length cycles |})
    <$> detect_cycles a.

(** * The sync delta (commands/sync.py) *)

Record status_transition := { tr_id : string; tr_from : string; tr_to : string }.
#[export] Instance status_transition_eq_dec : EqDecision status_transition.
Proof. solve_decision. Defined.

Definition edge_key : Type := string * string * string.
Record delta := {
  added_items : list string;
  removed_items : list string;
  updated_items : list string;
  status_transitions : list status_transition;
  new_dependencies : list edge_key;
  removed_dependencies : list edge_key
}.

(** Equality of [model_dump(exclude={"raw_data"})] *)
Definition same_dump (i1 i2 : BacklogItem) : bool :=
  bool_decide (bi_id i1 = bi_id i2) && bool_decide (bi_key i1 = bi_key i2)
  && bool_decide (bi_title i1 = bi_title i2) && bool_decide (bi_type i1 = bi_type i2)
  && bool_decide (bi_status i1 = bi_status i2) && bool_decide (bi_description i1 = bi_description i2)
  && bool_decide (bi_priority i1 = bi_priority i2) && bool_decide (bi_parent_id i1 = bi_parent_id i2)
  && bool_decide (bi_inferred_type i1 = bi_inferred_type i2)
  && float_eqb (bi_confidence i1) (bi_confidence i2).

Definition ids (g : BacklogGraph) : gset string := list_to_set (dict_keys (bg_items g)).
Definition edge_set (g : BacklogGraph) : gset edge_key :=
  list_to_set ((λ d, (dep_source d, dep_target d, dependency_type_text (dep_type d)))
                 <$> bg_dependencies g).

(** The items of an id present in both graphs *)
Definition both_items (g1 g2 : BacklogGraph) (id : string) : option (BacklogItem * BacklogItem) :=
  match dict_get id (bg_items g1), dict_get id (bg_items g2) with
  | Some i1, Some i2 => Some (i1, i2)
  | _, _ => None
  end.

Definition compute_delta (baseline_graph current_graph : BacklogGraph) : delta :=
  let common_ids := sorted_set (ids baseline_graph ∩ ids current_graph) in
  {| added_items := sorted_set (ids current_graph ∖ ids baseline_graph);
     removed_items := sorted_set (ids baseline_graph ∖ ids current_graph);
     updated_items := omap (λ id,
       match both_items baseline_graph current_graph id with
       | Some (old_item, new_item) => if same_dump old_item new_item then None else Some id
       | None => None
       end) common_ids;
     status_transitions := omap (λ id,
       match both_items baseline_graph current_graph id with
       | Some (old_item, new_item) =>
           if decide (bi_status old_item = bi_status new_item) then None
           else Some {| tr_id := id; tr_from := bi_status old_item; tr_to := bi_status new_item |}
       | None => None
       end) common_ids;
     new_dependencies := sorted_set (edge_set current_graph ∖ edge_set baseline_graph);
     removed_dependencies := sorted_set (edge_set baseline_graph ∖ edge_set current_graph) |}.

(** * Decisions of the commands *)

(** ** commands/delta.py *)
Definition _empty_delta : delta :=
  {| added_items := []; removed_items := []; updated_items := []; status_transitions := [];
     new_dependencies := []; removed_dependencies := [] |}.

Definition effort_points (d : delta) : nat :=
  length (added_items d) * 3 + length (updated_items d) * 2 + length (removed_items d)
  + length (new_dependencies d).
Definition rollback_risk (d : delta) : string :=
  if (0 <? length (removed_items d))%nat || (0 <? length (removed_dependencies d))%nat
  then "HIGH" else "LOW".

(** The parsed configuration file, [None] when it is missing or unreadable *)
Definition _load_provider_config (loaded : option pyval) (adapter : string) : list (pyval * pyval) :=
  match loaded with
  | Some (VDict d) =>
      match get_dict adapter (dict_get (VStr "providers") d) with
      | Some (VDict p) => p
      | _ => match dict_get (VStr adapter) d with Some (VDict p) => p | _ => [] end
      end
  | _ => []
  end.

(** [o or v] for an optional string *)
Definition str_or (o : option string) (v : pyval) : pyval :=
  match o with Some s => if String.eqb s "" then v else VStr s | None => v end.
Definition _resolve_project_id (loaded : option pyval) (adapter : string)
    (project_id repo_owner repo_name : option string) : option string :=
  let provider_config := _load_provider_config loaded adapter in
  match project_id with
  | Some (String _ _ as p) => Some p
  | _ =>
      let fallback :=
        match str_or repo_owner (vget "repo_owner" provider_config),
              str_or repo_name (vget "repo_name" provider_config) with
        | VStr owner, VStr name =>
            if String.eqb adapter "github" && negb (String.eqb owner "") && negb (String.eqb name "")
            then Some (owner +:+ "/" +:+ name) else None
        | _, _ => None
        end in
      match vget "project_id" provider_config with
      | VStr configured => if nonblank configured then Some (strip configured) else fallback
      | _ => fallback
      end
  end.

(** ** commands/verify.py *)
Definition DONE_STATES : list string := ["done"; "completed"; "closed"; "resolved"].
Definition KNOWN_STATES : list string :=
  ["todo"; "new"; "planned"; "in_progress"; "active"; "blocked"; "open"] ++ DONE_STATES.

Inductive readiness_finding :=
  | CircularDependencies (count : nat)
  | TargetNotFound (id : string)
  | HasBlockers (id : string) (blockers : list string)
  | UnrecognizedStatus (id status : string)
  | ChildrenNotCompleted (parent : string) (children : list string).

Definition target_ids_of (g : BacklogGraph) (target_items : string) : list string :=
  match filter (λ x, x ≠ "") (strip <$> split_on ","%char target_items) with
  | [] => sorted (dict_keys (bg_items g))
  | l => l
  end.

Definition target_findings (a : DependencyAnalyzer) (id : string) :
    option (result (list readiness_finding)) :=
  match dict_get id (bg_items (an_graph a)) with
  | None => Some (Ok [TargetNotFound id])
  | Some item =>
      (λ found, let! i := found in
         Ok ((if decide (blockers i = []) then [] else [HasBlockers id (blockers i)]) ++
             (if decide (strip (lower (bi_status item)) ∈ KNOWN_STATES) then []
              else [UnrecognizedStatus id (bi_status item)])))
        <$> impact_analysis a id
  end.

Definition children_of (deps : list Dependency) : list (string * list string) :=
  foldl (λ d dep, dict_append (dep_source dep) (dep_target dep) d) []
    (filter (λ d, dep_type d = PARENT_CHILD) deps).
Definition is_done (item : BacklogItem) : bool := bool_decide (lower (bi_status item) ∈ DONE_STATES).
Definition not_done_children (g : BacklogGraph) (children : list string) : list string :=
  filter (λ c, match dict_get c (bg_items g) with Some i => negb (is_done i) | None => false end = true)
    children.
Definition parent_findings (g : BacklogGraph) : list readiness_finding :=
  omap (λ pc, match dict_get pc.1 (bg_items g) with
              | Some parent =>
                  if is_done parent
                  then match not_done_children g pc.2 with
                       | [] => None
                       | l => Some (ChildrenNotCompleted pc.1 (sorted l))
                       end
                  else None
              | None => None
              end) (children_of (bg_dependencies g)).

(** The findings, in order; the command is READY when there are none. *)
Definition verify_readiness (g : BacklogGraph) (target_items : string) :
    option (result (list readiness_finding)) :=
  let a := new_analyzer g in
  match detect_cycles a, mapM (target_findings a) (target_ids_of g target_items) with
  | Some cycles, Some per_target =>
      Some (let! found := map_res id per_target in
            Ok ((if decide (cycles = []) then [] else [CircularDependencies (length cycles)])
                ++ mjoin found ++ parent_findings g))
  | _, _ => None
  end.
(** [typer.Exit]'s code *)
Definition readiness_exit (findings : list readiness_finding) : Z :=
  match findings with [] => 0 | _ => 1 end.

(** ** commands/promote.py: exit code of the validation *)
Definition promote (g : BacklogGraph) (item_id : string) : option (result Z) :=
  match dict_get item_id (bg_items g) with
  | None => Some (Ok 1%Z)
  | Some _ =>
      (λ found, let! i := found in Ok (if decide (blockers i = []) then 0%Z else 1%Z))
        <$> impact_analysis (new_analyzer g) item_id
  end.

(** ** commands/release_notes.py *)
Definition done_items (g : BacklogGraph) : list (string * option string * string) :=
  sort_by (λ row, match row.1.2 with
                  | Some k => if String.eqb k "" then row.1.1 else k
                  | None => row.1.1
                  end)
    ((λ i, (bi_id i, bi_key i, bi_title i)) <$>
       filter (λ i, strip (lower (bi_status i)) ∈ DONE_STATES) (dict_values (bg_items g))).
Definition release_note_line (row : string * option string * string) : string :=
  let '(id, key, title) := row in
  "- " +:+ (match key with Some k => if String.eqb k "" then id else k | None => id end) +:+ ": " +:+ title.
(** The document; the generation time is given. *)
Definition _render_release_notes (project_id adapter generated : string)
    (rows : list (string * option string * string)) : string :=
  join (String (ascii_of_nat 10) "")
    (["# Release Notes"; ""; "- Project: " +:+ project_id; "- Adapter: " +:+ adapter;
      "- Generated: " +:+ generated; ""; "## Completed Items"; ""]
     ++ (match rows with [] => ["- No completed items found."] | _ => release_note_line <$> rows end)
     ++ [""]).
