(* ===== verification/BacklogProofs.v ===== *)
(** BacklogProofs: the closures, cycles, critical paths and impact sets of
    the backlog graph against the relation its dependencies denote, the
    builder's invariant, the sync delta and the readiness decision. *)

From S2P Require Import Prelude Text Dict PyValue Floats Graphs GraphProofs Backlog.

(** * The relation of a dependency list *)

Definition dep_edge (deps : list Dependency) (x y : string) : Prop :=
  ∃ d, d ∈ deps ∧ dep_source d = x ∧ dep_target d = y.

Section adjacency.
Context (deps : list Dependency).

Lemma neighbors_adjacency x : neighbors (adjacency deps) x = targets_of deps x.
Proof.
  unfold neighbors, adjacency, targets_of.
  assert (∀ d0, bucket x (foldl (λ d dep, dict_append (dep_source dep) (dep_target dep) d) d0 deps)
    = bucket x d0 ++ (dep_target <$> filter (λ d, dep_source d = x) deps)) as Hgo; [|by rewrite Hgo].
  induction deps as [|e l IH]; intros d0; cbn [foldl]; [by rewrite app_nil_r|].
  rewrite IH, bucket_append, filter_cons, <-app_assoc. f_equal.
  repeat case_decide; congruence || done.
Qed.

Lemma neighbors_reverse_adjacency x : neighbors (reverse_adjacency deps) x = sources_of deps x.
Proof.
  unfold neighbors, reverse_adjacency, sources_of.
  assert (∀ d0, bucket x (foldl (λ d dep, dict_append (dep_target dep) (dep_source dep) d) d0 deps)
    = bucket x d0 ++ (dep_source <$> filter (λ d, dep_target d = x) deps)) as Hgo; [|by rewrite Hgo].
  induction deps as [|e l IH]; intros d0; cbn [foldl]; [by rewrite app_nil_r|].
  rewrite IH, bucket_append, filter_cons, <-app_assoc. f_equal.
  repeat case_decide; congruence || done.
Qed.

Lemma edge_adjacency x y : edge (neighbors (adjacency deps)) x y ↔ dep_edge deps x y.
Proof.
  unfold edge, dep_edge. rewrite neighbors_adjacency. unfold targets_of.
  rewrite list_elem_of_fmap. setoid_rewrite list_elem_of_filter. naive_solver.
Qed.

Lemma edge_reverse_adjacency x y : edge (neighbors (reverse_adjacency deps)) x y ↔ dep_edge deps y x.
Proof.
  unfold edge, dep_edge. rewrite neighbors_reverse_adjacency. unfold sources_of.
  rewrite list_elem_of_fmap. setoid_rewrite list_elem_of_filter. naive_solver.
Qed.

Lemma dep_edge_endpoints x y : dep_edge deps x y → x ∈ endpoints deps ∧ y ∈ endpoints deps.
Proof.
  intros (d & Hd & <- & <-). unfold endpoints. rewrite !elem_of_app.
  split; [left|right]; by apply list_elem_of_fmap_2.
Qed.
End adjacency.

(** Relations with the same steps have the same paths. *)
Lemma rtc_iff {A} (R1 R2 : A → A → Prop) x y :
  (∀ a b, R1 a b ↔ R2 a b) → rtc R1 x y ↔ rtc R2 x y.
Proof.
  intros HR. split; induction 1; [done| |done|]; (eapply rtc_l; [by apply HR|done]).
Qed.
Lemma tc_iff {A} (R1 R2 : A → A → Prop) x y :
  (∀ a b, R1 a b ↔ R2 a b) → tc R1 x y ↔ tc R2 x y.
Proof.
  intros HR. split; induction 1 as [?? H|??? H]; ((by apply tc_once, HR) || (eapply tc_l; [by apply HR|done])).
Qed.
Lemma tc_flip {A} (R1 R2 : A → A → Prop) x y :
  (∀ a b, R1 a b ↔ R2 b a) → tc R1 x y → tc R2 y x.
Proof.
  intros HR. induction 1 as [?? H|??? H _ IH]; [by apply tc_once, HR|].
  eapply tc_r; [done|by apply HR].
Qed.

Lemma unseen_empty U : unseen U ∅ = U.
Proof.
  unfold unseen. induction U as [|u U IH]; [done|].
  rewrite filter_cons, decide_True by apply not_elem_of_empty. by rewrite IH.
Qed.

Section traversal.
Context (next : string → list string) (R : string → string → Prop) (U : list string).
Context (Hedge : ∀ x y, edge next x y ↔ R x y) (HU : ∀ x y, R x y → y ∈ U).

Lemma traversal_closed V : closed next (V ++ U).
Proof. intros x y _ Hxy. apply elem_of_app. right. by apply (HU x), Hedge. Qed.

(** The work-stack closure of the neighbours of [x] computes the proper
    reachability relation. *)
Lemma closure_loop_tc x stack fuel :
  (∀ y, y ∈ stack ↔ R x y) → loop_fuel next U stack ≤ fuel →
  ∃ S, closure_loop next fuel ∅ stack = Some S ∧ ∀ y, y ∈ S ↔ tc R x y.
Proof.
  intros Hst Hf. destruct (closure_loop_reach next U fuel stack) as (S & HS & Hin).
  - apply (traversal_closed []).
  - intros y Hy. by apply (HU x), Hst.
  - etrans; [|exact Hf]. unfold loop_fuel, weight.
    by rewrite unseen_empty.
  - exists S. split; [done|]. intros y. rewrite Hin, <-(tc_iff (edge next) R) by done.
    rewrite tc_inv. setoid_rewrite Hst. by setoid_rewrite Hedge.
Qed.
End traversal.

(** * Transitive closures *)

(** The set of nodes reachable by at least one dependency *)
Definition reachable (deps : list Dependency) (x : string) : gset string :=
  let next := targets_of deps in
  default ∅ (closure_loop next (loop_fuel next (endpoints deps) (next x)) ∅ (next x)).

Lemma targets_edge deps x y : edge (targets_of deps) x y ↔ dep_edge deps x y.
Proof. unfold edge. rewrite <-neighbors_adjacency. apply edge_adjacency. Qed.

Lemma reachable_spec deps x y : y ∈ reachable deps x ↔ tc (dep_edge deps) x y.
Proof.
  destruct (closure_loop_tc (targets_of deps) (dep_edge deps) (endpoints deps)
    (targets_edge deps) (λ a b Hab, proj2 (dep_edge_endpoints deps a b Hab))
    x (targets_of deps x) (loop_fuel (targets_of deps) (endpoints deps) (targets_of deps x)))
    as (S & HS & Hin); [apply targets_edge|done|].
  unfold reachable. cbv zeta. rewrite HS. apply Hin.
Qed.

(** The closure dictionary of a reachability function: sorted, and only the
    items that reach something *)
Definition closure_of (reach : string → gset string) (items : list string) :
    list (string * list string) :=
  omap (λ x, if decide (reach x = ∅) then None else Some (x, sorted_set (reach x))) items.

Section builder_closure.
Context `{SetIterLaws}.

Lemma neighbor_set_edge deps x y : edge (neighbor_set deps) x y ↔ dep_edge deps x y.
Proof.
  unfold edge, neighbor_set. rewrite set_iter_perm, elem_of_elements, elem_of_list_to_set.
  apply edge_adjacency.
Qed.

Lemma closure_entries_spec deps items :
  closure_entries deps items = Some (closure_of (reachable deps) items).
Proof.
  induction items as [|x items IH]; [done|]. cbn [closure_entries]. cbv zeta.
  destruct (closure_loop_tc (neighbor_set deps) (dep_edge deps) (endpoints deps)
    (neighbor_set_edge deps) (λ a b Hab, proj2 (dep_edge_endpoints deps a b Hab))
    x (reverse (neighbor_set deps x))
    (loop_fuel (neighbor_set deps) (endpoints deps) (reverse (neighbor_set deps x))))
    as (S & -> & Hin); [|done|].
  { intros y. rewrite elem_of_reverse. apply neighbor_set_edge. }
  assert (S = reachable deps x) as ->.
  { apply set_eq. intros y. by rewrite Hin, reachable_spec. }
  rewrite IH. cbn. by case_decide.
Qed.
End builder_closure.

Lemma analyzer_entries_spec g items :
  (∀ x, x ∈ items → x ∈ dict_keys (bg_items g)) →
  analyzer_entries (new_analyzer g) items =
    Some (closure_of (λ x, reachable (bg_dependencies g) x ∖ {[x]}) items).
Proof.
  intros Hi. induction items as [|x items IH]; [done|]. cbn [analyzer_entries].
  destruct (traverse_dfs_reach (an_next (new_analyzer g)) (analyzer_nodes (new_analyzer g))
    (S (length (analyzer_nodes (new_analyzer g)))) x) as (S & -> & Hin).
  - intros a b _ Hab. apply edge_adjacency in Hab. unfold analyzer_nodes. apply elem_of_app. right.
    by apply dep_edge_endpoints in Hab as [_ ?].
  - unfold analyzer_nodes. apply elem_of_app. left. apply Hi. left.
  - lia.
  - assert (S = reachable (bg_dependencies g) x) as ->.
    { apply set_eq. intros y. rewrite Hin, reachable_spec. apply tc_iff, edge_adjacency. }
    rewrite IH by (intros y Hy; apply Hi; by right). cbn. by case_decide.
Qed.

(** Membership in a closure dictionary *)
Definition closure_relates (c : list (string * list string)) (x y : string) : Prop :=
  ∃ l, (x, l) ∈ c ∧ y ∈ l.

Lemma closure_of_relates reach items x y :
  closure_relates (closure_of reach items) x y ↔ x ∈ items ∧ y ∈ reach x.
Proof.
  unfold closure_relates, closure_of. setoid_rewrite list_elem_of_omap. split.
  - intros (l & (z & Hz & E) & Hy). case_decide; [done|]. simplify_eq.
    by rewrite elem_of_sorted_set in Hy.
  - intros [Hx Hy]. exists (sorted_set (reach x)). rewrite elem_of_sorted_set. split; [|done].
    exists x. split; [done|]. rewrite decide_False; [done|]. intros E.
    rewrite E in Hy. by apply elem_of_empty in Hy.
Qed.

(** Every entry is a sorted, duplicate-free, non-empty list of an item. *)
Definition closure_entry_ok (items : list string) (e : string * list string) : Prop :=
  e.1 ∈ items ∧ e.2 ≠ [] ∧ NoDup e.2 ∧ StronglySorted py_le e.2.

Lemma closure_of_ok reach items : Forall (closure_entry_ok items) (closure_of reach items).
Proof.
  apply Forall_forall. intros [x l] (z & Hz & E)%list_elem_of_omap. case_decide as Hne; [done|].
  simplify_eq. split; [done|]. split; [cbn; by rewrite sorted_set_nil_iff|].
  split; [apply NoDup_sorted_set|]. cbn. unfold sorted_set, sorted. apply (sort_by_sorted id).
Qed.

(** * Cycles *)

Lemma graph_nodes_closed deps items :
  closed (neighbors (adjacency deps)) (items ++ endpoints deps).
Proof.
  intros x y _ Hxy%edge_adjacency. apply elem_of_app. right.
  by apply dep_edge_endpoints in Hxy as [_ ?].
Qed.

(** A list of nodes along which every step is a dependency and that comes
    back to its first node *)
Fixpoint dep_path (deps : list Dependency) (l : list string) : Prop :=
  match l with
  | x :: (y :: _) as l' => dep_edge deps x y ∧ dep_path deps l'
  | _ => True
  end.
Definition dep_cycle (deps : list Dependency) (c : list string) : Prop :=
  ∃ x mid, c = x :: mid ++ [x] ∧ dep_path deps c.
(** Nodes reachable from the items *)
Definition from_items (deps : list Dependency) (items : list string) (x : string) : Prop :=
  ∃ i, i ∈ items ∧ rtc (dep_edge deps) i x.

Lemma walk_dep_path deps l : walk (neighbors (adjacency deps)) l ↔ dep_path deps l.
Proof.
  induction l as [|x l IH]; [done|]. destruct l as [|y l]; [done|].
  change (edge (neighbors (adjacency deps)) x y ∧ walk (neighbors (adjacency deps)) (y :: l)
    ↔ dep_edge deps x y ∧ dep_path deps (y :: l)).
  by rewrite IH, edge_adjacency.
Qed.

Lemma cycles_from_deps deps items :
  ∃ cycles, cycles_from (neighbors (adjacency deps)) (S (length (items ++ endpoints deps))) items
      = Some cycles ∧
    Forall (λ c, dep_cycle deps c ∧ Forall (from_items deps items) c) cycles ∧
    (cycles = [] ↔ ∀ x, from_items deps items x → ¬ tc (dep_edge deps) x x).
Proof.
  destruct (cycles_from_spec (neighbors (adjacency deps)) (items ++ endpoints deps)
    (S (length (items ++ endpoints deps))) items) as (cycles & Hc & Hall & Hnil).
  - apply graph_nodes_closed.
  - intros n Hn. apply elem_of_app. by left.
  - lia.
  - pose proof (edge_adjacency deps) as Hedge.
    exists cycles. split; [done|]. split.
    + eapply Forall_impl; [exact Hall|]. intros c [(x & mid & E & Hw) HR]. split.
      * exists x, mid. split; [done|]. by apply walk_dep_path.
      * eapply Forall_impl; [exact HR|]. intros y (i & Hi & Hr). exists i. split; [done|].
        revert Hr. apply rtc_iff. intros. by rewrite Hedge.
    + rewrite Hnil. unfold from_items. split.
      * intros Hno x (i & Hi & Hr) Ht. apply (Hno i x Hi).
        -- revert Hr. apply rtc_iff. done.
        -- revert Ht. apply tc_iff. done.
      * intros Hno i x Hi Hr Ht. apply (Hno x).
        -- exists i. split; [done|]. revert Hr. apply rtc_iff. intros. by rewrite Hedge.
        -- revert Ht. apply tc_iff. intros. by rewrite Hedge.
Qed.

(** * Impact analysis *)

(** The type of the last dependency from [x] to [y] *)
Definition last_dep_type (deps : list Dependency) (x y : string) : option DependencyType :=
  dep_type <$> last (filter (λ d, dep_source d = x ∧ dep_target d = y) deps).

Lemma dependency_types_get g x y :
  dict_get (x, y) (an_dependency_types (new_analyzer g)) = last_dep_type (bg_dependencies g) x y.
Proof.
  cbn [an_dependency_types new_analyzer]. rewrite dict_of_get. unfold last_dep_type.
  induction (bg_dependencies g) as [|d l IH] using rev_ind; [done|].
  rewrite fmap_app, !filter_app, !filter_cons, !filter_nil. cbn [fmap list_fmap].
  rewrite filter_cons, filter_nil. cbn [fst].
  destruct (decide (dep_source d = x ∧ dep_target d = y)) as [[-> ->]|Hne].
  - rewrite decide_True by done. by rewrite !last_snoc.
  - rewrite decide_False by (intros [=]; by apply Hne). rewrite !app_nil_r. apply IH.
Qed.

(** The targets of the entries of a source that are BLOCKS *)
Definition blocking_targets (types : list ((string * string) * DependencyType)) (x : string) :
    list string :=
  omap (λ e, if decide (e.1.1 = x ∧ e.2 = BLOCKS) then Some e.1.2 else None) types.

Lemma elem_of_blocking_targets types x y :
  dict_wf types → y ∈ blocking_targets types x ↔ dict_get (x, y) types = Some BLOCKS.
Proof.
  intros Hwf. unfold blocking_targets. rewrite list_elem_of_omap. split.
  - intros ([[a b] t] & Hin & E). cbn in E. case_decide as Hd; [|done]. destruct Hd as [-> ->].
    simplify_eq. by apply dict_get_elem.
  - intros Hget%dict_get_Some_elem. exists ((x, y), BLOCKS). split; [done|]. cbn.
    by rewrite decide_True.
Qed.

Lemma NoDup_blocking_targets types x : dict_wf types → NoDup (blocking_targets types x).
Proof.
  unfold dict_wf, dict_keys, blocking_targets. induction types as [|[[a b] t] types IH]; intros Hwf;
    [constructor|]. rewrite fmap_cons in Hwf. apply NoDup_cons in Hwf as [Hn Hwf]. cbn.
  case_decide as Hd; [|by apply IH]. destruct Hd as [-> ->]. constructor; [|by apply IH].
  intros ([[a b'] t'] & Hin & E)%list_elem_of_omap. cbn in E. case_decide as Hd; [|done].
  destruct Hd as [-> ->]. simplify_eq. apply Hn. apply list_elem_of_fmap.
  by exists ((x, b), BLOCKS).
Qed.

(** What an impact report promises for an item *)
Record impact_ok (g : BacklogGraph) (id : string) (i : impact) : Prop := {
  impact_direct : ∀ y, y ∈ direct_dependents i ↔ dep_edge (bg_dependencies g) y id;
  impact_transitive : ∀ y, y ∈ transitive_dependents i ↔ tc (dep_edge (bg_dependencies g)) y id;
  impact_count : estimated_impact_count i = length (transitive_dependents i);
  impact_blockers : ∀ y,
    y ∈ blockers i ↔ last_dep_type (bg_dependencies g) id y = Some BLOCKS;
  impact_nodup : NoDup (direct_dependents i) ∧ NoDup (transitive_dependents i) ∧ NoDup (blockers i)
}.

Lemma length_sorted_set {A} `{PyOrdLaws A} `{Countable A} (X : gset A) :
  length (sorted_set X) = size X.
Proof. unfold sorted_set, sorted. by rewrite length_sort_by. Qed.

Lemma impact_analysis_ok g id :
  nonblank id = true →
  ∃ i, impact_analysis (new_analyzer g) id = Some (Ok i) ∧ impact_ok g id i.
Proof.
  intros Hid. unfold impact_analysis. rewrite Hid. cbv zeta.
  set (deps := bg_dependencies g). set (prev := neighbors (reverse_adjacency deps)).
  change (neighbors (an_reverse_adjacency (new_analyzer g))) with prev.
  change (bg_dependencies (an_graph (new_analyzer g))) with deps.
  set (direct := sorted_set (list_to_set (prev id) : gset string)).
  assert (Hdir : ∀ y, y ∈ direct ↔ dep_edge deps y id).
  { intros y. unfold direct. rewrite elem_of_sorted_set, elem_of_list_to_set.
    apply edge_reverse_adjacency. }
  destruct (closure_loop_tc prev (λ x y, dep_edge deps y x) (endpoints deps)
    (edge_reverse_adjacency deps) (λ a b Hab, proj1 (dep_edge_endpoints deps b a Hab))
    id (reverse direct) (loop_fuel prev (endpoints deps) (reverse direct))) as (S & -> & Hin); [|done|].
  { intros y. by rewrite elem_of_reverse. }
  cbn [fmap option_fmap option_map]. eexists. split; [done|].
  pose proof (dict_of_wf ((λ d, ((dep_source d, dep_target d), dep_type d)) <$> deps)) as Hwf.
  split; cbn.
  - done.
  - intros y. rewrite elem_of_sorted_set, Hin. split; apply tc_flip; done.
  - symmetry. apply length_sorted_set.
  - intros y. rewrite elem_of_sorted. change (omap _ _) with
      (blocking_targets (an_dependency_types (new_analyzer g)) id).
    rewrite elem_of_blocking_targets by done. by rewrite dependency_types_get.
  - split_and!; [apply NoDup_sorted_set..|]. apply NoDup_sorted.
    change (omap _ _) with (blocking_targets (an_dependency_types (new_analyzer g)) id).
    by apply NoDup_blocking_targets.
Qed.

(** * Readiness *)

Lemma omap_nil_iff {A B} (f : A → option B) l : omap f l = [] ↔ ∀ x, x ∈ l → f x = None.
Proof.
  induction l as [|x l IH]; [split; [by intros _ x ?%elem_of_nil|done]|]. cbn.
  destruct (f x) as [b|] eqn:E.
  - split; [done|]. intros H. rewrite (H x) in E; [done|left].
  - rewrite IH. split; intros H y; [intros [->|Hy]%elem_of_cons; [done|by apply H]|].
    intros Hy. apply H. by right.
Qed.

Lemma mjoin_nil_iff {A} (ls : list (list A)) : mjoin ls = [] ↔ ∀ l, l ∈ ls → l = [].
Proof.
  induction ls as [|l ls IH]; [split; [by intros _ l ?%elem_of_nil|done]|]. cbn. split.
  - intros [-> Hj]%app_eq_nil l' [->|Hl]%elem_of_cons; [done|]. by apply IH.
  - intros H. rewrite (H l) by left. apply IH. intros l' Hl. apply H. by right.
Qed.

Lemma adjacency_wf deps : dict_wf (adjacency deps).
Proof.
  unfold adjacency. assert (∀ d, dict_wf d →
    dict_wf (foldl (λ d dep, dict_append (dep_source dep) (dep_target dep) d) d deps)) as Hgo;
    [|apply Hgo; auto with py].
  induction deps as [|x l IH]; intros d Hd; cbn; [done|]. apply IH. unfold dict_append. auto with py.
Qed.

Lemma elem_of_adjacency deps x l : (x, l) ∈ adjacency deps → l = targets_of deps x.
Proof.
  intros Hin. rewrite <-neighbors_adjacency. unfold neighbors, bucket.
  by rewrite (dict_get_elem x l _ (adjacency_wf deps) Hin).
Qed.

Lemma adjacency_keys deps d : d ∈ deps → (dep_source d, targets_of deps (dep_source d)) ∈ adjacency deps.
Proof.
  intros Hd. pose proof (neighbors_adjacency deps (dep_source d)) as Hn.
  assert (Ht : dep_target d ∈ targets_of deps (dep_source d)).
  { apply list_elem_of_fmap_2, list_elem_of_filter. done. }
  unfold neighbors, bucket in Hn. rewrite <-Hn in *.
  destruct (dict_get _ _) as [l|] eqn:E; cbn in *; [by apply dict_get_Some_elem|].
  by apply elem_of_nil in Ht.
Qed.

Lemma children_of_adjacency deps :
  children_of deps = adjacency (filter (λ d, dep_type d = PARENT_CHILD) deps).
Proof. done. Qed.

(** No child of a completed parent is open. *)
Definition children_done (g : BacklogGraph) : Prop :=
  ∀ d parent child, d ∈ bg_dependencies g → dep_type d = PARENT_CHILD →
    dict_get (dep_source d) (bg_items g) = Some parent → is_done parent = true →
    dict_get (dep_target d) (bg_items g) = Some child → is_done child = true.

Lemma not_done_children_nil g cs :
  not_done_children g cs = [] ↔
  ∀ c child, c ∈ cs → dict_get c (bg_items g) = Some child → is_done child = true.
Proof.
  unfold not_done_children. split.
  - intros Hf c child Hc Hget. destruct (is_done child) eqn:E; [done|].
    assert (c ∈ @nil string) as []%elem_of_nil. rewrite <-Hf. apply list_elem_of_filter.
    by rewrite Hget, E.
  - intros H. destruct (filter _ cs) as [|c l] eqn:E; [done|].
    assert (Hc : c ∈ c :: l) by left. rewrite <-E in Hc. apply list_elem_of_filter in Hc as [Hn Hc].
    destruct (dict_get c (bg_items g)) as [child|] eqn:Hget; [|done].
    by rewrite (H c child Hc Hget) in Hn.
Qed.

Lemma parent_findings_nil g : parent_findings g = [] ↔ children_done g.
Proof.
  unfold parent_findings. rewrite omap_nil_iff, children_of_adjacency. split.
  - intros H d parent child Hd Ht Hp Hpd Hc.
    assert (Hf : d ∈ filter (λ d, dep_type d = PARENT_CHILD) (bg_dependencies g))
      by (by apply list_elem_of_filter).
    specialize (H _ (adjacency_keys _ d Hf)). cbn [fst snd] in H. rewrite Hp, Hpd in H.
    destruct (not_done_children g _) as [|? ?] eqn:E; [|done].
    rewrite not_done_children_nil in E. apply (E (dep_target d)); [|done].
    by apply list_elem_of_fmap_2, list_elem_of_filter.
  - intros H [p l] Hin. cbn [fst snd]. destruct (dict_get p (bg_items g)) as [parent|] eqn:Hp; [|done].
    destruct (is_done parent) eqn:Hpd; [|done].
    assert (not_done_children g l = []) as ->; [|done]. apply not_done_children_nil.
    intros c child Hc Hget. apply elem_of_adjacency in Hin as ->. unfold targets_of in Hc.
    apply list_elem_of_fmap in Hc as (d & -> & [Hs Hf]%list_elem_of_filter).
    apply list_elem_of_filter in Hf as [Ht Hd]. subst p. by apply (H d parent child).
Qed.

(** A target that may be released *)
Definition target_ready (g : BacklogGraph) (id : string) : Prop :=
  ∃ item, dict_get id (bg_items g) = Some item ∧
    (∀ y, last_dep_type (bg_dependencies g) id y ≠ Some BLOCKS) ∧
    strip (lower (bi_status item)) ∈ KNOWN_STATES.

Lemma target_findings_ready g id :
  nonblank id = true →
  ∃ fs, target_findings (new_analyzer g) id = Some (Ok fs) ∧ (fs = [] ↔ target_ready g id).
Proof.
  intros Hid. unfold target_findings, target_ready.
  change (bg_items (an_graph (new_analyzer g))) with (bg_items g).
  destruct (dict_get id (bg_items g)) as [item|] eqn:E.
  2:{ eexists. split; [done|]. split; [done|]. by intros (? & ? & _). }
  destruct (impact_analysis_ok g id Hid) as (i & -> & Hok). cbn [fmap option_fmap option_map res_bind].
  eexists. split; [done|].
  assert (Hb : blockers i = [] ↔ ∀ y, last_dep_type (bg_dependencies g) id y ≠ Some BLOCKS).
  { destruct Hok as [_ _ _ Hbl _]. split.
    - intros Hnil y Hy%Hbl. rewrite Hnil in Hy. by apply elem_of_nil in Hy.
    - intros Hno. destruct (blockers i) as [|y l] eqn:El; [done|]. exfalso.
      apply (Hno y), Hbl. left. }
  split.
  - intros [H1 H2]%app_eq_nil. exists item. split; [done|]. rewrite <-Hb.
    case_decide; [|done]. case_decide; done.
  - intros (item' & [= <-] & H1%Hb & H2). by rewrite !decide_True by done.
Qed.

(** The release condition *)
Record release_ready (g : BacklogGraph) (targets : list string) : Prop := {
  ready_acyclic : ∀ x, from_items (bg_dependencies g) (dict_keys (bg_items g)) x →
    ¬ tc (dep_edge (bg_dependencies g)) x x;
  ready_targets : ∀ id, id ∈ targets → target_ready g id;
  ready_children : children_done g
}.

Lemma all_targets_findings g ids :
  Forall (λ id, nonblank id = true) ids →
  ∃ fss rs, mapM (target_findings (new_analyzer g)) ids = Some rs ∧ map_res id rs = Ok fss ∧
    (mjoin fss = [] ↔ ∀ id, id ∈ ids → target_ready g id).
Proof.
  induction 1 as [|i ids Hi _ (fss & rs & E1 & E2 & IH)].
  { exists [], []. split_and!; [done..|]. split; [by intros _ ? ?%elem_of_nil|done]. }
  destruct (target_findings_ready g i Hi) as (fs & Et & Hr).
  exists (fs :: fss), (Ok fs :: rs). split; [by cbn; rewrite Et; cbn; rewrite E1|].
  split; [cbn [map_res]; by rewrite E2|]. split.
  - intros [H1%Hr H2]%app_eq_nil x [->|Hx]%elem_of_cons; [done|]. by apply IH.
  - intros H. change (fs ++ mjoin fss = []). rewrite (proj2 Hr) by (apply H; left).
    apply IH. intros x Hx. apply H. by right.
Qed.

(** * The sync delta *)

Lemma elem_of_ids g x : x ∈ ids g ↔ x ∈ dict_keys (bg_items g).
Proof. unfold ids. by rewrite elem_of_list_to_set. Qed.

Lemma both_items_Some g1 g2 x i1 i2 :
  both_items g1 g2 x = Some (i1, i2) ↔
  dict_get x (bg_items g1) = Some i1 ∧ dict_get x (bg_items g2) = Some i2.
Proof. unfold both_items. repeat case_match; naive_solver. Qed.

Lemma elem_of_common g1 g2 x i1 i2 :
  both_items g1 g2 x = Some (i1, i2) → x ∈ sorted_set (ids g1 ∩ ids g2).
Proof.
  intros [H1 H2]%both_items_Some. rewrite elem_of_sorted_set, elem_of_intersection, !elem_of_ids.
  rewrite !elem_of_dict_keys. by split; eexists.
Qed.

Lemma elem_of_updated g1 g2 x :
  x ∈ updated_items (compute_delta g1 g2) ↔
  ∃ i1 i2, both_items g1 g2 x = Some (i1, i2) ∧ same_dump i1 i2 = false.
Proof.
  cbn [updated_items compute_delta]. rewrite list_elem_of_omap. split.
  - intros (y & _ & E). destruct (both_items g1 g2 y) as [[i1 i2]|] eqn:Eb; [|done].
    destruct (same_dump i1 i2) eqn:Ed; [done|]. simplify_eq. by exists i1, i2.
  - intros (i1 & i2 & Eb & Ed). exists x. split; [by eapply elem_of_common|]. by rewrite Eb, Ed.
Qed.

Lemma elem_of_transitions g1 g2 t :
  t ∈ status_transitions (compute_delta g1 g2) ↔
  ∃ i1 i2, both_items g1 g2 (tr_id t) = Some (i1, i2) ∧ tr_from t = bi_status i1 ∧
    tr_to t = bi_status i2 ∧ tr_from t ≠ tr_to t.
Proof.
  cbn [status_transitions compute_delta]. rewrite list_elem_of_omap. split.
  - intros (y & _ & E). destruct (both_items g1 g2 y) as [[i1 i2]|] eqn:Eb; [|done].
    case_decide; [done|]. simplify_eq. cbn. by exists i1, i2.
  - intros (i1 & i2 & Eb & E1 & E2 & Hne). exists (tr_id t). split; [by eapply elem_of_common|].
    rewrite Eb, decide_False by congruence. f_equal. destruct t; cbn in *; congruence.
Qed.

(** A status change is an update. *)
Lemma same_dump_status i1 i2 : same_dump i1 i2 = true → bi_status i1 = bi_status i2.
Proof.
  unfold same_dump. rewrite !andb_true_iff, !bool_decide_eq_true. tauto.
Qed.

(** * The builder *)

Section builder_facts.
Context `{PyRepr}.

(** The three mappings of the template are readable. *)
Definition template_ok (b : BacklogGraphBuilder) : Prop :=
  ∀ name, name ∈ ["type_mapping"; "status_mapping"; "dependency_rules"] →
    ∃ m, template_mapping (gb_template b) name = Ok m.

(** Every item sits under its own non-empty id, the type it was inferred with
    is the effective one, and dependencies name both ends. *)
Record builder_wf (b : BacklogGraphBuilder) : Prop := {
  wf_items : dict_wf (gb_items b);
  wf_ids : ∀ x i, dict_get x (gb_items b) = Some i → bi_id i = x ∧ x ≠ "" ∧ effective_type i = bi_type i;
  wf_deps : ∀ d, d ∈ gb_dependencies b → dep_source d ≠ "" ∧ dep_target d ≠ ""
}.

Lemma make_item_total b raw :
  template_ok b → ∃ item, make_item b raw = Ok item ∧ bi_id item = raw_item_id raw ∧
    effective_type item = bi_type item.
Proof.
  intros Ht. unfold make_item. cbv zeta.
  destruct (Ht "type_mapping") as [m1 E1]; [by left|].
  destruct (Ht "status_mapping") as [m2 E2]; [by right; left|].
  unfold _infer_type, _map_status. rewrite E1, E2. cbv zeta. cbn [res_bind].
  destruct (match parse_item_type _ with Some _ => _ | None => _ end) as [t c].
  eexists. split; [done|]. split; [done|]. unfold effective_type. cbn. by case_match.
Qed.

Lemma make_dependency_total b raw :
  template_ok b → ∃ o, make_dependency b raw = Ok o ∧
    ∀ d, o = Some d → dep_source d ≠ "" ∧ dep_target d ≠ "".
Proof.
  intros Ht. unfold make_dependency, _infer_dependency_type. cbv zeta.
  destruct (Ht "dependency_rules") as [m E]; [by right; right; left|]. rewrite E.
  destruct (_ || _) eqn:Eb; [by eexists|]. apply orb_false_iff in Eb as [E1 E2].
  cbn [res_bind]. eexists. split; [done|]. intros d [= <-]. cbn.
  split; by apply String.eqb_neq.
Qed.

Lemma add_item_spec b raw :
  template_ok b → builder_wf b →
  ∃ b', add_item b raw = Ok b' ∧ template_ok b' ∧ builder_wf b' ∧
    (∀ r, make_item b' r = make_item b r) ∧ gb_dependencies b' = gb_dependencies b ∧
    ∀ x, dict_get x (gb_items b') =
      if decide (raw_item_id raw = x ∧ x ≠ "")
      then match make_item b raw with Ok item => Some item | Err _ => None end
      else dict_get x (gb_items b).
Proof.
  intros Ht Hw. unfold add_item. destruct (String.eqb_spec (raw_item_id raw) "") as [Ee|Hne].
  { exists b. split_and!; try done. intros x. rewrite decide_False; [done|].
    intros [<- ?]. done. }
  destruct (make_item_total b raw Ht) as (item & Em & Hid & He). rewrite Em. cbn [res_bind].
  eexists. split; [done|]. split; [done|].
  assert (Hget : ∀ x, dict_get x (dict_set (bi_id item) item (gb_items b)) =
    if decide (raw_item_id raw = x ∧ x ≠ "") then Some item else dict_get x (gb_items b)).
  { intros x. rewrite dict_get_set, Hid. destruct (decide (x = raw_item_id raw)) as [->|Hx].
    - by rewrite decide_True.
    - rewrite decide_False; [done|]. intros [? _]. by apply Hx. }
  split; [|done]. destruct Hw as [W1 W2 W3]. split; [|intros x i|exact W3].
  - by apply dict_wf_set.
  - cbn [gb_items with_items]. rewrite Hget. case_decide as Hd; [|apply W2].
    destruct Hd as [<- Hx]. intros [= <-]. done.
Qed.

(** The raw item that decides what is stored under an id: the last one *)
Definition last_raw (raws : list (list (string * pyval))) (x : string) :
    option (list (string * pyval)) :=
  last (filter (λ raw, raw_item_id raw = x) raws).

Lemma last_raw_cons raw raws x :
  last_raw (raw :: raws) x =
    match last_raw raws x with
    | Some r => Some r
    | None => if decide (raw_item_id raw = x) then Some raw else None
    end.
Proof.
  unfold last_raw. rewrite filter_cons. case_decide; [|by destruct (last _)].
  rewrite last_cons. by destruct (last _).
Qed.

Lemma add_items_spec b raws :
  template_ok b → builder_wf b →
  ∃ b', add_items b raws = Ok b' ∧ builder_wf b' ∧ gb_dependencies b' = gb_dependencies b ∧
    ∀ x, x ≠ "" → dict_get x (gb_items b') =
      match last_raw raws x with
      | Some raw => match make_item b raw with Ok item => Some item | Err _ => None end
      | None => dict_get x (gb_items b)
      end.
Proof.
  revert b. induction raws as [|raw raws IH]; intros b Ht Hw; cbn [add_items].
  { by exists b. }
  destruct (add_item_spec b raw Ht Hw) as (b1 & -> & Ht1 & Hw1 & Hm & Hd & Hg). cbn [res_bind].
  destruct (IH b1 Ht1 Hw1) as (b2 & -> & Hw2 & Hd2 & Hg2). exists b2.
  split; [done|]. split; [done|]. split; [congruence|]. intros x Hx.
  rewrite Hg2, last_raw_cons by done. destruct (last_raw raws x) as [r|]; [by rewrite Hm|].
  rewrite Hg. repeat case_decide; naive_solver.
Qed.

Lemma add_dependencies_spec b raws :
  template_ok b → builder_wf b →
  ∃ b' new, add_dependencies b raws = Ok b' ∧ builder_wf b' ∧ gb_items b' = gb_items b ∧
    gb_dependencies b' = gb_dependencies b ++ new ∧ length new ≤ length raws.
Proof.
  revert b. induction raws as [|raw raws IH]; intros b Ht Hw; cbn [add_dependencies].
  { exists b, []. by rewrite app_nil_r. }
  destruct (make_dependency_total b raw Ht) as (o & -> & Ho). cbn [res_bind].
  destruct o as [d|].
  - destruct (IH (with_dependencies (gb_dependencies b ++ [d]) b)) as (b' & new & -> & H1 & H2 & H3 & H4);
      [done| |].
    { destruct Hw as [W1 W2 W3]. split; [done|done|]. intros e. cbn.
      intros [He| ->%list_elem_of_singleton]%elem_of_app; [by apply W3|by apply Ho]. }
    exists b', (d :: new). split_and!; [done..| |cbn; lia]. rewrite H3. cbn. by rewrite <-app_assoc.
  - destruct (IH b Ht Hw) as (b' & new & -> & H1 & H2 & H3 & H4). exists b', new.
    split_and!; [done..|cbn; lia].
Qed.
End builder_facts.

Lemma load_custom_config_project_key spec cc m :
  _load_custom_config spec cc = Ok m → mc_project_key m = None.
Proof.
  assert (Hflat : ∀ p f, _flatten_config_payload p = Ok f → mc_project_key f = None).
  { intros p f. unfold _flatten_config_payload. case_match.
    - intros (? & _ & [= <-])%res_bind_Ok. done.
    - intros (? & _ & [= <-])%res_bind_Ok. done. }
  assert (Hmerge : ∀ a b, mc_project_key a = None → mc_project_key b = None →
    mc_project_key (_merge_config a b) = None).
  { intros a b Ha Hb. cbn. by rewrite Hb. }
  unfold _load_custom_config. cbv zeta. intros (sc & _ & Hm)%res_bind_Ok.
  set (m0 := match sc with Some _ => _ | None => _ end) in Hm.
  assert (H0 : mc_project_key m0 = None) by (unfold m0; destruct sc; done).
  destruct cc as [|kv cc]; [by injection Hm as <-|].
  apply res_bind_Ok in Hm as (m1 & H1 & (f & Hf & [= <-])%res_bind_Ok).
  apply Hmerge; [|by eapply Hflat]. destruct (first_mapping _) as [bc|]; [|by injection H1 as <-].
  apply res_bind_Ok in H1 as (f1 & Hf1 & [= <-]). apply Hmerge; [done|by eapply Hflat].
Qed.

(** * Properties *)

Section sample.
Definition sample_item (id status : string) : BacklogItem :=
  {| bi_id := id; bi_key := None; bi_title := id; bi_type := TASK; bi_status := status;
     bi_description := None; bi_priority := None; bi_parent_id := None; bi_raw_data := [];
     bi_inferred_type := Some TASK; bi_confidence := confidence_high |}.
Definition sample_dep (x y : string) (t : DependencyType) : Dependency :=
  {| dep_source := x; dep_target := y; dep_type := t; dep_metadata := [];
     dep_confidence := confidence_high |}.
Definition sample_builder : BacklogGraphBuilder :=
  {| gb_provider := "github"; gb_template_name := "github"; gb_template := default_template;
     gb_custom_config := flatten_model empty_config_model [];
     gb_items := [("A", sample_item "A" "done"); ("B", sample_item "B" "open")];
     gb_dependencies := [sample_dep "A" "B" PARENT_CHILD; sample_dep "B" "C" BLOCKS] |}.
(** The same items in a cycle *)
Definition cyclic_builder : BacklogGraphBuilder :=
  with_dependencies [sample_dep "A" "B" BLOCKS; sample_dep "B" "A" BLOCKS] sample_builder.
Definition sample_graph : BacklogGraph :=
  {| bg_items := gb_items sample_builder; bg_dependencies := gb_dependencies sample_builder;
     bg_provider := "github"; bg_project_key := "unknown";
     bg_transitive_closure := [("A", ["B"; "C"]); ("B", ["C"])]; bg_cycles_detected := [];
     bg_orphans := ["A"] |}.
End sample.

Definition reversed_iter : SetIter := λ X, reverse (elements X).
Lemma reversed_iter_laws : SetIterLaws (H := reversed_iter).
Proof. intros X. apply reverse_Permutation. Qed.

(** C28 Whatever order the sets are iterated in, building a graph terminates
    and yields the builder's items and dependencies together with: a closure
    that relates an item to exactly the nodes it reaches by one or more
    dependencies, in sorted entries without duplicates; cycles that are closed
    walks of dependencies, none exactly when no node reachable from the items
    lies on a cycle; and as orphans exactly the items that have no parent and
    that no dependency targets. *)
Theorem build_graph `{SetIterLaws} b :
  ∃ g, build b = Some g ∧ bg_items g = gb_items b ∧ bg_dependencies g = gb_dependencies b ∧
    Forall (closure_entry_ok (dict_keys (gb_items b))) (bg_transitive_closure g) ∧
    (∀ x y, closure_relates (bg_transitive_closure g) x y ↔
       x ∈ dict_keys (gb_items b) ∧ tc (dep_edge (gb_dependencies b)) x y) ∧
    Forall (λ c, dep_cycle (gb_dependencies b) c ∧
                 Forall (from_items (gb_dependencies b) (dict_keys (gb_items b))) c)
      (bg_cycles_detected g) ∧
    (bg_cycles_detected g = [] ↔
       ∀ x, from_items (gb_dependencies b) (dict_keys (gb_items b)) x →
         ¬ tc (dep_edge (gb_dependencies b)) x x) ∧
    (∀ x, x ∈ bg_orphans g ↔ ∃ i, i ∈ dict_values (gb_items b) ∧ bi_id i = x ∧
       has_parent i = false ∧ ¬ ∃ s, dep_edge (gb_dependencies b) s x).
Proof.
  set (items := dict_keys (gb_items b)). set (deps := gb_dependencies b).
  destruct (cycles_from_deps deps items) as (cycles & Hc & Hall & Hnil).
  unfold build, _compute_transitive_closure. rewrite closure_entries_spec.
  change (_detect_cycles b) with
    (cycles_from (neighbors (adjacency deps)) (S (length (items ++ endpoints deps))) items).
  rewrite Hc. eexists. split; [done|]. cbn. split_and!; try done.
  - apply closure_of_ok.
  - intros x y. rewrite closure_of_relates, reachable_spec.
    done.
  - intros x. unfold _find_orphans. cbv zeta. fold deps. rewrite elem_of_sorted_set, elem_of_list_to_set.
    rewrite list_elem_of_fmap. setoid_rewrite list_elem_of_filter.
    assert (Ht : ∀ y, y ∈ dep_target <$> deps ↔ ∃ s, dep_edge deps s y).
    { intros y. rewrite list_elem_of_fmap. unfold dep_edge. naive_solver. }
    split.
    + intros (i & -> & [Hp Hn] & Hi). exists i. by rewrite <-Ht.
    + intros (i & Hi & <- & Hp & Hn). exists i. by rewrite Ht.
Qed.
Lemma build_graph_witness :
  build (H := elements_iter) sample_builder = Some sample_graph ∧
  (bg_cycles_detected sample_graph = [] → ¬ tc (dep_edge (gb_dependencies sample_builder)) "A" "A") ∧
  ∃ g, build (H := elements_iter) cyclic_builder = Some g ∧ bg_cycles_detected g = [["A"; "B"; "A"]].
Proof.
  assert (H : build (H := elements_iter) sample_builder = Some sample_graph)
    by (vm_compute; reflexivity).
  split; [done|]. split.
  - pose proof (build_graph (H0 := elements_iter_laws) sample_builder)
      as (g & Hg & _ & _ & _ & _ & _ & Hn & _).
    rewrite H in Hg. injection Hg as <-. intros Hc. apply (proj1 Hn Hc). exists "A".
    split; [left|done].
  - eexists. split; vm_compute; reflexivity.
Defined.

(** The graph does not depend on the order in which the interpreter
    iterates over its sets. *)
Theorem build_order_independent (I1 I2 : SetIter) b :
  SetIterLaws (H := I1) → SetIterLaws (H := I2) → build (H := I1) b = build (H := I2) b.
Proof.
  intros H1 H2. unfold build, _compute_transitive_closure.
  by rewrite (closure_entries_spec (H0 := H1)), (closure_entries_spec (H0 := H2)).
Qed.
Lemma build_order_independent_witness :
  neighbor_set (H := elements_iter) [sample_dep "A" "B" BLOCKS; sample_dep "A" "C" BLOCKS] "A"
    ≠ neighbor_set (H := reversed_iter) [sample_dep "A" "B" BLOCKS; sample_dep "A" "C" BLOCKS] "A" ∧
  build (H := elements_iter) sample_builder = build (H := reversed_iter) sample_builder.
Proof.
  split; [vm_compute; discriminate|].
  apply (build_order_independent elements_iter reversed_iter sample_builder
    elements_iter_laws reversed_iter_laws).
Defined.

(** C29 On a built graph the dependency analyzer agrees with the builder: its
    recursive closure relates an item to the same nodes except the item
    itself, in entries of the same shape, and it reports the same cycles. *)
Theorem analyzer_agrees `{SetIterLaws} b g :
  build b = Some g →
  detect_cycles (new_analyzer g) = Some (bg_cycles_detected g) ∧
  ∃ c, compute_transitive_closure (new_analyzer g) = Some c ∧
    Forall (closure_entry_ok (dict_keys (bg_items g))) c ∧
    ∀ x y, closure_relates c x y ↔ closure_relates (bg_transitive_closure g) x y ∧ y ≠ x.
Proof.
  intros Hg. unfold build, _compute_transitive_closure in Hg. rewrite closure_entries_spec in Hg.
  destruct (_detect_cycles b) as [cycles|] eqn:Hc; [|done]. injection Hg as <-. split; [exact Hc|].
  unfold compute_transitive_closure. rewrite analyzer_entries_spec by done.
  eexists. split; [done|]. split; [apply closure_of_ok|]. intros x y.
  cbn [bg_transitive_closure]. rewrite !closure_of_relates, elem_of_difference, elem_of_singleton.
  tauto.
Qed.
Lemma analyzer_agrees_witness :
  build (H := elements_iter) sample_builder = Some sample_graph ∧
  detect_cycles (new_analyzer sample_graph) = Some [].
Proof.
  assert (H : build (H := elements_iter) sample_builder = Some sample_graph)
    by (vm_compute; reflexivity).
  split; [done|].
  destruct (analyzer_agrees (H0 := elements_iter_laws) sample_builder sample_graph H) as [Hd _].
  exact Hd.
Defined.

(** When no node of the graph lies on a dependency cycle, the critical
    path is found: a path of dependencies from an item such that no path of
    dependencies from any item is longer; it is empty only without items. *)
Theorem critical_path_longest g :
  (∀ x, ¬ tc (dep_edge (bg_dependencies g)) x x) →
  ∃ p, critical_path (new_analyzer g) = Some p ∧ dep_path (bg_dependencies g) p ∧
    (∀ x p', p = x :: p' → x ∈ dict_keys (bg_items g)) ∧
    ∀ x q, x ∈ dict_keys (bg_items g) → dep_path (bg_dependencies g) (x :: q) →
      length (x :: q) ≤ length p.
Proof.
  intros Hac. set (deps := bg_dependencies g). set (items := dict_keys (bg_items g)).
  destruct (longest_of_spec (neighbors (adjacency deps)) (items ++ endpoints deps)
    (graph_nodes_closed deps items)
    (λ x _ Hx, Hac x (proj1 (tc_iff _ _ x x (edge_adjacency deps)) Hx))
    (length (items ++ endpoints deps)) items [] [] [])
    as (p & Hp & [Hfrom Hmax]).
  - intros n q E. discriminate E.
  - intros n Hn. apply elem_of_app. by left.
  - done.
  - apply longest_among_nil.
  - exists p. split; [exact Hp|]. split_and!.
    + destruct Hfrom as [->|(n & _ & _ & Hw)]; [done|]. by apply walk_dep_path.
    + intros x p' ->. destruct Hfrom as [?|(n & Hn & [(? & [= -> ->]) _])]; [done|]. done.
    + intros x q Hx Hq. apply (Hmax x); [done|]. split; [by exists q|]. by apply walk_dep_path.
Qed.
Lemma critical_path_longest_witness :
  critical_path (new_analyzer sample_graph) = Some ["A"; "B"; "C"] ∧
  (∀ q, dep_path (bg_dependencies sample_graph) ("B" :: q) → length ("B" :: q) ≤ 3).
Proof.
  assert (H : critical_path (new_analyzer sample_graph) = Some ["A"; "B"; "C"])
    by (vm_compute; reflexivity).
  assert (Hac : ∀ x, ¬ tc (dep_edge (bg_dependencies sample_graph)) x x).
  { pose (rank := λ s, if decide (s = "A") then 0 else if decide (s = "B") then 1 else 2).
    assert (Hr : ∀ x y, tc (dep_edge (bg_dependencies sample_graph)) x y → rank x < rank y).
    { assert (Hs : ∀ x y, dep_edge (bg_dependencies sample_graph) x y → rank x < rank y).
      { intros x y (d & Hd & <- & <-). cbn in Hd.
        apply elem_of_cons in Hd as [->|Hd]; [vm_compute; lia|].
        apply list_elem_of_singleton in Hd as ->. vm_compute. lia. }
      induction 1 as [|??? H1 _ IH]; [by apply Hs|]. specialize (Hs _ _ H1). lia. }
    intros x Hx%Hr. lia. }
  split; [done|].
  destruct (critical_path_longest sample_graph Hac) as (p & Hp & _ & _ & Hmax).
  rewrite H in Hp. injection Hp as <-. intros q Hq.
  apply (Hmax "B" q); [right; left|done].
Defined.

(** The impact analysis of a non-blank id terminates and reports, without
    duplicates: as direct dependents the sources of dependencies on it, as
    transitive dependents the nodes that reach it by one or more dependencies,
    counted exactly, and as blockers the nodes whose last dependency from the
    item is BLOCKS. A blank id violates the precondition. *)
Theorem impact_analysis_spec g id :
  if nonblank id
  then ∃ i, impact_analysis (new_analyzer g) id = Some (Ok i) ∧ impact_ok g id i
  else impact_analysis (new_analyzer g) id =
         Some (Err (ContractViolation "item_id must be non-empty")).
Proof.
  destruct (nonblank id) eqn:E; [by apply impact_analysis_ok|].
  unfold impact_analysis. by rewrite E.
Qed.

(** The readiness check of non-blank targets terminates, and exits with
    code 0 exactly when no node reachable from an item lies on a dependency
    cycle, every target is a known item in a known state with no node it is
    last recorded as blocking, and no child of a completed parent is open. *)
Theorem verify_readiness_ready g targets :
  Forall (λ id, nonblank id = true) (target_ids_of g targets) →
  ∃ fs, verify_readiness g targets = Some (Ok fs) ∧
    (readiness_exit fs = 0%Z ↔ release_ready g (target_ids_of g targets)).
Proof.
  intros Hids. set (deps := bg_dependencies g). set (items := dict_keys (bg_items g)).
  destruct (cycles_from_deps deps items) as (cycles & Hc & _ & Hnil).
  destruct (all_targets_findings g _ Hids) as (fss & rs & E1 & E2 & Ht).
  unfold verify_readiness. cbv zeta.
  change (detect_cycles (new_analyzer g)) with
    (cycles_from (neighbors (adjacency deps)) (S (length (items ++ endpoints deps))) items).
  rewrite Hc, E1. eexists. split; [rewrite E2; reflexivity|].
  assert (Hx : ∀ fs, readiness_exit fs = 0%Z ↔ fs = []) by (intros []; split; done).
  rewrite Hx. split.
  - intros [H1 [H2 H3]%app_eq_nil]%app_eq_nil. case_decide as Hd; [|done].
    split; [by apply Hnil|by apply Ht|by apply parent_findings_nil].
  - intros [H1 H2 H3]. rewrite (proj2 Hnil H1), decide_True by done.
    rewrite (proj2 Ht H2), (proj2 (parent_findings_nil g) H3). done.
Qed.
Lemma verify_readiness_ready_witness :
  verify_readiness sample_graph "A,B" =
    Some (Ok [HasBlockers "B" ["C"]; ChildrenNotCompleted "A" ["B"]]) ∧
  ¬ release_ready sample_graph ["A"; "B"].
Proof.
  assert (Hids : Forall (λ id, nonblank id = true) (target_ids_of sample_graph "A,B")).
  { assert (target_ids_of sample_graph "A,B" = ["A"; "B"]) as -> by (vm_compute; reflexivity).
    repeat constructor; vm_compute; reflexivity. }
  assert (H : verify_readiness sample_graph "A,B" =
    Some (Ok [HasBlockers "B" ["C"]; ChildrenNotCompleted "A" ["B"]])) by (vm_compute; reflexivity).
  split; [done|].
  destruct (verify_readiness_ready sample_graph "A,B" Hids) as (fs & Hfs & Hiff).
  rewrite H in Hfs. injection Hfs as <-. cbn in Hiff.
  assert (E : target_ids_of sample_graph "A,B" = ["A"; "B"]) by (vm_compute; reflexivity).
  rewrite E in Hiff. intros Hr%Hiff. discriminate Hr.
Defined.

(** The sync delta between two graphs: applying its removals and additions
    to the baseline's ids (and edges) gives exactly the current ones, nothing
    removed is current and nothing added was there; the updated items are the
    ones present in both whose stored fields differ; the transitions are the
    changed statuses, each of an updated item. *)
Theorem compute_delta_spec g1 g2 :
  let d := compute_delta g1 g2 in
  (∀ x, x ∈ dict_keys (bg_items g2) ↔
     (x ∈ dict_keys (bg_items g1) ∧ x ∉ removed_items d) ∨ x ∈ added_items d) ∧
  (∀ x, x ∈ removed_items d → x ∉ dict_keys (bg_items g2)) ∧
  (∀ x, x ∈ added_items d → x ∉ dict_keys (bg_items g1)) ∧
  (∀ e, e ∈ edge_set g2 ↔
     (e ∈ edge_set g1 ∧ e ∉ removed_dependencies d) ∨ e ∈ new_dependencies d) ∧
  (∀ e, e ∈ removed_dependencies d → e ∉ edge_set g2) ∧
  (∀ e, e ∈ new_dependencies d → e ∉ edge_set g1) ∧
  (∀ x, x ∈ updated_items d ↔ ∃ i1 i2, dict_get x (bg_items g1) = Some i1 ∧
     dict_get x (bg_items g2) = Some i2 ∧ same_dump i1 i2 = false) ∧
  (∀ t, t ∈ status_transitions d ↔ ∃ i1 i2, dict_get (tr_id t) (bg_items g1) = Some i1 ∧
     dict_get (tr_id t) (bg_items g2) = Some i2 ∧ tr_from t = bi_status i1 ∧
     tr_to t = bi_status i2 ∧ tr_from t ≠ tr_to t) ∧
  (∀ t, t ∈ status_transitions d → tr_id t ∈ updated_items d).
Proof.
  intros d. split_and!.
  - intros x. unfold d; cbn [removed_items added_items compute_delta].
    rewrite !elem_of_sorted_set, !elem_of_difference, !elem_of_ids.
    destruct (decide (x ∈ dict_keys (bg_items g1))), (decide (x ∈ dict_keys (bg_items g2))); tauto.
  - intros x. unfold d; cbn [removed_items compute_delta].
    rewrite elem_of_sorted_set, elem_of_difference, !elem_of_ids. tauto.
  - intros x. unfold d; cbn [added_items compute_delta].
    rewrite elem_of_sorted_set, elem_of_difference, !elem_of_ids. tauto.
  - intros e. unfold d; cbn [removed_dependencies new_dependencies compute_delta].
    rewrite !elem_of_sorted_set, !elem_of_difference.
    destruct (decide (e ∈ edge_set g1)), (decide (e ∈ edge_set g2)); tauto.
  - intros e. unfold d; cbn [removed_dependencies compute_delta].
    rewrite elem_of_sorted_set, elem_of_difference. tauto.
  - intros e. unfold d; cbn [new_dependencies compute_delta].
    rewrite elem_of_sorted_set, elem_of_difference. tauto.
  - intros x. unfold d. rewrite elem_of_updated. setoid_rewrite both_items_Some. naive_solver.
  - intros t. unfold d. rewrite elem_of_transitions. setoid_rewrite both_items_Some. naive_solver.
  - intros t. unfold d. rewrite elem_of_transitions, elem_of_updated.
    intros (i1 & i2 & Hb & E1 & E2 & Hne). exists i1, i2. split; [done|].
    destruct (same_dump i1 i2) eqn:Es; [|done]. apply same_dump_status in Es. congruence.
Qed.

(** With a readable template, adding raw items always succeeds and keeps
    the builder well-formed (every item under its own non-empty id, its
    inferred type effective, every dependency naming both ends); an id holds
    what the last raw item carrying it was translated to, and ids no raw item
    carries are unchanged. Relationships likewise only append well-formed
    dependencies. *)
Theorem builder_invariant `{PyRepr} b raws relationships :
  template_ok b → builder_wf b →
  (∃ b', add_items b raws = Ok b' ∧ builder_wf b' ∧ gb_dependencies b' = gb_dependencies b ∧
     ∀ x, x ≠ "" → dict_get x (gb_items b') =
       match last_raw raws x with
       | Some raw => match make_item b raw with Ok item => Some item | Err _ => None end
       | None => dict_get x (gb_items b)
       end) ∧
  (∃ b' new, add_dependencies b relationships = Ok b' ∧ builder_wf b' ∧
     gb_items b' = gb_items b ∧ gb_dependencies b' = gb_dependencies b ++ new ∧
     length new ≤ length relationships).
Proof.
  intros Ht Hw. split; [by apply add_items_spec|by apply add_dependencies_spec].
Qed.
#[local] Instance sample_repr : PyRepr := λ _, "<repr>".
Lemma builder_invariant_witness :
  let raws := [[("id", VStr "X"); ("status", VStr "New")]; [("id", VStr "X"); ("state", VStr " Done ")]] in
  ∃ b', add_items (with_items [] sample_builder) raws = Ok b' ∧
    bi_status <$> dict_get "X" (gb_items b') = Some "done".
Proof.
  assert (Ht : template_ok (with_items [] sample_builder)).
  { intros name Hn. exists []. apply elem_of_cons in Hn as [->|Hn]; [vm_compute; reflexivity|].
    apply elem_of_cons in Hn as [->|Hn]; [vm_compute; reflexivity|].
    apply list_elem_of_singleton in Hn as ->. vm_compute. reflexivity. }
  assert (Hw : builder_wf (with_items [] sample_builder)).
  { split; [constructor|discriminate|]. intros d Hd. cbn in Hd.
    apply elem_of_cons in Hd as [->|Hd]; [done|]. by apply list_elem_of_singleton in Hd as ->. }
  destruct (builder_invariant (with_items [] sample_builder)
    [[("id", VStr "X"); ("status", VStr "New")]; [("id", VStr "X"); ("state", VStr " Done ")]] []
    Ht Hw) as [(b' & E & _ & _ & Hg) _].
  exists b'. split; [exact E|]. rewrite Hg by done. vm_compute. reflexivity.
Defined.

(** A project key passed in the configuration never reaches the graph:
    flattening the configuration drops it, so every built graph carries
    "unknown". *)
Theorem project_key_unknown `{PyRepr, SetIter} provider name candidates spec config b raws b1
    relationships b2 g :
  new_builder provider name candidates spec config = Ok b →
  add_items b raws = Ok b1 → add_dependencies b1 relationships = Ok b2 → build b2 = Some g →
  bg_project_key g = "unknown".
Proof.
  intros Hb H1 H2 Hg.
  assert (E0 : mc_project_key (gb_custom_config b) = None).
  { unfold new_builder in Hb. destruct (nonblank provider); [|done]. cbv zeta in Hb.
    apply res_bind_Ok in Hb as (t & _ & (m & Hm & [= <-])%res_bind_Ok).
    by eapply load_custom_config_project_key. }
  assert (E1 : gb_custom_config b1 = gb_custom_config b).
  { clear -H1. revert b H1. induction raws as [|r raws IH]; intros b H1; [by injection H1 as <-|].
    cbn in H1. apply res_bind_Ok in H1 as (b' & Ha & H1%IH). rewrite H1. unfold add_item in Ha.
    destruct (String.eqb _ _); [by injection Ha as <-|].
    by apply res_bind_Ok in Ha as (i & _ & [= <-]). }
  assert (E2 : gb_custom_config b2 = gb_custom_config b1).
  { clear -H2. revert b1 H2. induction relationships as [|r rs IH]; intros b1 H2;
      [by injection H2 as <-|]. cbn in H2. apply res_bind_Ok in H2 as (o & _ & H2%IH). rewrite H2.
    by destruct o. }
  unfold build in Hg. destruct (_compute_transitive_closure b2); [|done].
  destruct (_detect_cycles b2); [|done]. injection Hg as <-. cbn. by rewrite E2, E1, E0.
Qed.
Lemma project_key_unknown_witness :
  ∃ b g, new_builder "github" None [] None [(VStr "project_key", VStr "nold-ai/specfact")] = Ok b ∧
    build (H := elements_iter) b = Some g ∧ bg_project_key g = "unknown".
Proof.
  destruct (new_builder "github" None [] None [(VStr "project_key", VStr "nold-ai/specfact")])
    as [b|e] eqn:Eb; [|exfalso; vm_compute in Eb; discriminate Eb].
  destruct (build (H := elements_iter) b) as [g|] eqn:Eg;
    [|exfalso; vm_compute in Eb; injection Eb as <-; vm_compute in Eg; discriminate Eg].
  exists b, g. split; [done|]. split; [done|].
  exact (project_key_unknown "github" None [] None _ b [] b [] b g Eb eq_refl eq_refl Eg).
Defined.
