(* ===== verification/Lifecycle.v ===== *)
(** Lifecycle: the requirements lifecycle of
    [specfact_requirements/requirements/lifecycle.py]: canonical digests of
    sidecar mappings, mapping validation, deterministic plans and the
    reconciliation of JUnit results with a plan. *)

From S2P Require Import Prelude Text Regex Dict PyValue Json.

(** * Maturities *)

Inductive maturity := Incomplete | Planned | Accepted | TestAuthored | Red | Verified.
#[export] Instance maturity_eq_dec : EqDecision maturity.
Proof. solve_decision. Defined.

Definition maturity_text (m : maturity) : string :=
  match m with
  | Incomplete => "incomplete" | Planned => "planned" | Accepted => "accepted"
  | TestAuthored => "test-authored" | Red => "red" | Verified => "verified"
  end.
Definition MATURITY_ORDER (m : maturity) : Z :=
  match m with
  | Incomplete => 0 | Planned => 1 | Accepted => 2 | TestAuthored => 3 | Red => 4 | Verified => 5
  end.
Definition SUPPORTED_REQUIRED_MATURITY : list maturity := [Planned; Accepted; TestAuthored; Red; Verified].
(** Membership of a text in [SUPPORTED_REQUIRED_MATURITY] *)
Definition parse_required (s : string) : option maturity :=
  find (λ m, String.eqb (maturity_text m) s) SUPPORTED_REQUIRED_MATURITY.
Definition DELIVERY_STATUS_BY_MATURITY (m : maturity) : string :=
  match m with
  | Planned => "proposal-only" | Accepted => "proposal-accepted" | TestAuthored => "test-design"
  | Red => "failing-first-proven" | Verified => "implementation-verified"
  | Incomplete => "incomplete"
  end.
Definition IMPLEMENTATION_EVIDENCE_BY_MATURITY (m : maturity) : string :=
  match m with
  | Planned => "not-yet-available" | Accepted => "not-yet-available"
  | TestAuthored => "tests-not-executed" | Red => "failing-first-proven"
  | Verified => "passing-after-red-proven" | Incomplete => "not-available"
  end.
Definition lifecycle_status (m : maturity) : string * string :=
  (DELIVERY_STATUS_BY_MATURITY m, IMPLEMENTATION_EVIDENCE_BY_MATURITY m).

Definition _SUPPORTED_METHODS : list string := ["test"; "analysis"; "inspection"; "demonstration"].
Definition MAX_JUNIT_BYTES : Z := 10 * 1024 * 1024.

(** * Canonical digests *)

(** [float.hex()] of a binary64 value: one leading digit, thirteen
    hexadecimal digits of fraction and the power of two *)
Fixpoint hex_digits (n : nat) (z : Z) : list ascii :=
  match n with
  | O => []
  | S n => hex_digits n (z / 16) ++ [hex_digit (Z.to_N (z mod 16))]
  end.
Definition signed_text (z : Z) : list ascii :=
  if (z <? 0)%Z then "-"%char :: chars (pretty (- z)%Z) else "+"%char :: chars (pretty z).
Definition float_hex (f : spec_float) : string :=
  let sign (s : bool) := if s then ["-"%char] else [] in
  of_chars
    match f with
    | S754_nan => chars "nan"
    | S754_infinity s => sign s ++ chars "inf"
    | S754_zero s => sign s ++ chars "0x0.0p+0"
    | S754_finite s m e =>
        let top := (Zpos m / 2 ^ 52)%Z in
        sign s ++ chars "0x" ++ hex_digit (Z.to_N top) :: "."%char ::
          hex_digits 13 (Zpos m mod 2 ^ 52) ++
          "p"%char :: signed_text (if (top =? 0)%Z then -1022 else e + 52)
    end.

(** [json.dumps(node, separators=(",", ":"), ensure_ascii=True)] *)
Definition _encoded_sort_key (value : json) : string := of_chars (dumps true value).

Definition _scalar_node (value : pyval) : option json :=
  match value with
  | VNone => Some (JArr [JStr "none"])
  | VBool b => Some (JArr [JStr "bool"; JBool b])
  | VInt z => Some (JArr [JStr "int"; JStr (pretty z)])
  | VFloat f => Some (JArr [JStr "float"; JStr (float_hex f)])
  | VStr s => Some (JArr [JStr "str"; JStr s])
  | VDatetime s => Some (JArr [JStr "datetime"; JStr s])
  | VDate s => Some (JArr [JStr "date"; JStr s])
  | _ => None
  end.

Definition pair_node (kv : json * json) : json := JArr [kv.1; kv.2].
Definition entry_key (kv : json * json) : string * string :=
  (_encoded_sort_key kv.1, _encoded_sort_key kv.2).

Fixpoint _json_safe (value : pyval) : result json :=
  let all := fix all (l : list pyval) : result (list json) :=
    match l with
    | [] => Ok []
    | v :: l => let! j := _json_safe v in let! js := all l in Ok (j :: js)
    end in
  match value with
  | VDict d =>
      let! entries := (fix items (d : list (pyval * pyval)) : result (list (json * json)) :=
        match d with
        | [] => Ok []
        | kv :: d =>
            let! k := _json_safe kv.1 in
            let! v := _json_safe kv.2 in
            let! es := items d in Ok ((k, v) :: es)
        end) d in
      Ok (JArr [JStr "mapping"; JArr (pair_node <$> sort_by entry_key entries)])
  | VList l => let! js := all l in Ok (JArr [JStr "list"; JArr js])
  | VTuple l => let! js := all l in Ok (JArr [JStr "tuple"; JArr js])
  | VSet l => let! js := all l in Ok (JArr [JStr "set"; JArr (sort_by _encoded_sort_key js)])
  | VOther type_name => Err (ValueError ("unsupported-sidecar-value:" +:+ type_name))
  | _ =>
      match _scalar_node value with
      | Some j => Ok j
      | None => Err (ValueError "unsupported-sidecar-value")
      end
  end.

Definition canonical_digest `{Sha256} (value : list (pyval * pyval)) : result string :=
  let! node := _json_safe (VDict value) in Ok (sha256_digest (dumps true node)).

(** A dictionary with string keys *)
Definition obj (l : list (string * pyval)) : list (pyval * pyval) := (λ kv, (VStr kv.1, kv.2)) <$> l.

(** * Mapping validation *)

Definition _is_text (value : pyval) : bool := match value with VStr s => nonblank s | _ => false end.
Definition _is_digest (value : pyval) : bool :=
  match value with VStr s => is_sha256_text s | _ => false end.

Definition _mapping_payload (mapping : list (pyval * pyval)) : list (pyval * pyval) :=
  obj [("schema_version", vget "schema_version" mapping); ("requirements", vget "requirements" mapping)].

(** The finding recorded for a blank field, if any *)
Definition _append_missing (value : pyval) (field identifier : string) : list string :=
  if _is_text value then [] else ["missing-" +:+ field +:+ ":" +:+ identifier].

(** [(?!-)[A-Za-z0-9_./-]+\.py::[A-Za-z0-9_:.\[\]-]+] *)
Definition alnum_or (extra : string) (c : ascii) : bool :=
  is_digit c || is_upper c || is_lower c || bool_decide (c ∈ chars extra).
Definition _PYTEST_SELECTOR_PATTERN : regex :=
  rseqs [rplus (RSet (alnum_or "_./-")); rlit ".py::"; rplus (RSet (alnum_or "_:.[]-"))].
Definition selector_matches (s : string) : bool :=
  negb (bool_decide (head (chars s) = Some "-"%char)) && fullmatch _PYTEST_SELECTOR_PATTERN s.
Definition _SELECTOR_FORBIDDEN_CHARACTERS : list ascii :=
  dquote :: backslash :: chars "$&;|`<>*?(){}!".

(** [s.partition("::")[0]] *)
Fixpoint before_colons (l : list ascii) : list ascii :=
  match l with
  | [] => []
  | c :: l' =>
      if bool_decide (c = ":"%char) && bool_decide (head l' = Some ":"%char) then []
      else c :: before_colons l'
  end.
(** The parts of a [PurePosixPath], its root apart *)
Definition path_parts (path : string) : list string :=
  filter (λ p, p ≠ "" ∧ p ≠ ".") (split_on "/"%char path).
Definition path_is_absolute (path : string) : bool := startswith "/" path.

Record selector := { sel_runner : string; sel_node_id : string }.

(** The selector and the finding, exactly one of them *)
Definition _validate_selector (case : list (pyval * pyval)) (case_id : string) : selector + string :=
  match vget "selector" case with
  | VDict sel =>
      if negb (is_str "pytest" (vget "runner" sel)) then inr ("unsupported-selector-runner:" +:+ case_id)
      else
        let invalid := inr ("invalid-selector:" +:+ case_id) in
        match vget "node_id" sel with
        | VStr node_id =>
            let test_path := of_chars (before_colons (chars node_id)) in
            if negb (selector_matches node_id) then invalid
            else if path_is_absolute test_path || bool_decide (".." ∈ path_parts test_path)
                    || existsb (λ c, bool_decide (c ∈ chars node_id)) _SELECTOR_FORBIDDEN_CHARACTERS
            then invalid
            else inl {| sel_runner := "pytest"; sel_node_id := node_id |}
        | _ => invalid
        end
  | _ => inr ("missing-selector:" +:+ case_id)
  end.

Definition _selector_required (method : string) (required_maturity : maturity)
    (case : list (pyval * pyval)) : bool :=
  (String.eqb method "test" && (MATURITY_ORDER TestAuthored <=? MATURITY_ORDER required_maturity)%Z)
  || match vget "selector" case with VDict _ => true | _ => false end.

(** The preserved case; the method is a member of [_SUPPORTED_METHODS]. *)
Definition preserved_case (requirement_id case_id method : string) (case : list (pyval * pyval))
    (sel : option selector) : list (pyval * pyval) :=
  obj ([("requirement_id", VStr requirement_id); ("case_id", VStr case_id);
        ("scenario_id", vget "scenario_id" case); ("method", VStr method);
        ("intent", vget "intent" case); ("observable", vget "observable" case)] ++
       match sel with
       | Some s =>
           [("selector", VDict (obj [("runner", VStr (sel_runner s)); ("node_id", VStr (sel_node_id s))]));
            ("runner", VStr (sel_runner s)); ("node_id", VStr (sel_node_id s))]
       | None => []
       end).

Definition field_findings (case : list (pyval * pyval)) (case_name : string) : list string :=
  mjoin ((λ field, _append_missing (vget field case) field case_name)
           <$> ["scenario_id"; "method"; "intent"; "observable"]).

Definition _validated_case (case : pyval) (requirement_id : string) (required_maturity : maturity) :
    result (option (list (pyval * pyval)) * list string) :=
  match case with
  | VDict case =>
      match vget "case_id" case with
      | VStr case_name =>
          if negb (nonblank case_name) then Ok (None, ["missing-case-id:" +:+ requirement_id])
          else
            let findings := field_findings case case_name in
            let! supported := in_set (vget "method" case) _SUPPORTED_METHODS in
            match vget "method" case with
            | VStr method =>
                if negb supported
                then Ok (None, findings ++ ["unsupported-verification-method:" +:+ case_name])
                else if _selector_required method required_maturity case
                then Ok match _validate_selector case case_name with
                        | inl s => (Some (preserved_case requirement_id case_name method case (Some s)),
                                    findings)
                        | inr f => (Some (preserved_case requirement_id case_name method case None),
                                    findings ++ [f])
                        end
                else Ok (Some (preserved_case requirement_id case_name method case None), findings)
            | _ => Ok (None, findings ++ ["unsupported-verification-method:" +:+ case_name])
            end
      | _ => Ok (None, ["missing-case-id:" +:+ requirement_id])
      end
  | _ => Ok (None, ["invalid-verification-case:" +:+ requirement_id])
  end.

Definition touchpoint_ok (touchpoint : pyval) : bool :=
  match touchpoint with
  | VDict d => forallb (λ field, _is_text (vget field d)) ["id"; "kind"; "locator"]
  | _ => false
  end.
Definition _touchpoint_findings (requirement : list (pyval * pyval)) (identifier : string) : list string :=
  match vget "touchpoints" requirement with
  | VList ((_ :: _) as touchpoints) =>
      if forallb touchpoint_ok touchpoints then [] else ["invalid-touchpoint:" +:+ identifier]
  | _ => ["missing-touchpoints:" +:+ identifier]
  end.

Fixpoint case_results (verification_cases : list pyval) (identifier : string)
    (required_maturity : maturity) : result (list (list (pyval * pyval)) * list string) :=
  match verification_cases with
  | [] => Ok ([], [])
  | case :: rest =>
      let! validated := _validated_case case identifier required_maturity in
      let! more := case_results rest identifier required_maturity in
      Ok (match validated.1 with Some c => c :: more.1 | None => more.1 end, validated.2 ++ more.2)
  end.
Definition _verification_case_results (requirement : list (pyval * pyval)) (identifier : string)
    (required_maturity : maturity) : result (list (list (pyval * pyval)) * list string) :=
  match vget "verification_cases" requirement with
  | VList ((_ :: _) as cases) => case_results cases identifier required_maturity
  | _ => Ok ([], ["missing-verification-cases:" +:+ identifier])
  end.

Definition is_mapping (v : pyval) : bool := match v with VDict _ => true | _ => false end.
Definition with_touchpoints (requirement case : list (pyval * pyval)) : list (pyval * pyval) :=
  match vget "touchpoints" requirement with
  | VList touchpoints => dict_set (VStr "touchpoints") (VList (filter (λ t, is_mapping t = true) touchpoints)) case
  | _ => case
  end.
Definition _requirement_cases (requirement_id requirement : pyval) (required_maturity : maturity) :
    result (list (list (pyval * pyval)) * list string) :=
  match requirement_id, requirement with
  | VStr identifier, VDict requirement =>
      if negb (nonblank identifier) then Ok ([], ["invalid-requirement-entry"])
      else
        let! cases := _verification_case_results requirement identifier required_maturity in
        Ok (with_touchpoints requirement <$> cases.1,
            _append_missing (vget "rationale" requirement) "rationale" identifier
              ++ _touchpoint_findings requirement identifier ++ cases.2)
  | _, _ => Ok ([], ["invalid-requirement-entry"])
  end.

(** The exact-test selectors of the cases that have one *)
Definition node_ids (cases : list (list (pyval * pyval))) : list string :=
  omap (λ case, match vget "node_id" case with
                | VStr s => if nonblank s then Some s else None
                | _ => None
                end) cases.
Definition count_occ_of (x : string) (l : list string) : nat := length (filter (λ y, y = x) l).
Definition _duplicate_selector_findings (cases : list (list (pyval * pyval))) : list string :=
  let selectors := node_ids cases in
  let duplicates := filter (λ s, 1 < count_occ_of s selectors) selectors in
  (λ s, "duplicate-selector:" +:+ s) <$> sorted_set (list_to_set duplicates : gset string).

Fixpoint requirements_cases (items : list (pyval * pyval)) (required_maturity : maturity) :
    result (list (list (pyval * pyval)) * list string) :=
  match items with
  | [] => Ok ([], [])
  | (requirement_id, requirement) :: rest =>
      let! r := _requirement_cases requirement_id requirement required_maturity in
      let! more := requirements_cases rest required_maturity in
      Ok (r.1 ++ more.1, r.2 ++ more.2)
  end.
Definition _validated_cases `{PyRepr} (mapping : list (pyval * pyval)) (required_maturity : maturity) :
    result (list (list (pyval * pyval)) * list string) :=
  if negb (is_str "2" (vget "schema_version" mapping)) then Ok ([], ["unsupported-sidecar-schema"])
  else
    match vget "requirements" mapping with
    | VDict ((_ :: _) as requirements) =>
        let! r := requirements_cases (sort_by (λ kv, py_str kv.1) requirements) required_maturity in
        Ok (r.1, sorted_set (list_to_set (r.2 ++ _duplicate_selector_findings r.1) : gset string))
    | _ => Ok ([], ["missing-requirements"])
    end.

Definition _valid_acceptance (review_evidence : option (list (pyval * pyval))) (mapping_digest : string) :
    list string :=
  match review_evidence with
  | None => ["acceptance-missing"]
  | Some ev =>
      ((λ field, "acceptance-missing-" +:+ field) <$>
         filter (λ field, _is_text (vget field ev) = false)
           ["reviewer_id"; "reviewer_role"; "recorded_at"; "reference"])
      ++ (if is_str "accepted" (vget "decision" ev) then [] else ["acceptance-not-accepted"])
      ++ (if is_str mapping_digest (vget "mapping_digest" ev) then [] else ["acceptance-stale"])
  end.

(** * Plans *)

(** The text a plan sorts a field by *)
Definition field_text `{PyRepr} (field : string) (case : list (pyval * pyval)) : string :=
  py_str (vget field case).
Definition plan_key : Type := (string * string) * string.
Definition plan_sort_key `{PyRepr, Sha256} (case : list (pyval * pyval)) : result plan_key :=
  let! digest := canonical_digest case in
  Ok (field_text "requirement_id" case, field_text "case_id" case, digest).
Definition keyed_case `{PyRepr, Sha256} (case : list (pyval * pyval)) :
    result (plan_key * list (pyval * pyval)) :=
  let! key := plan_sort_key case in Ok (key, case).

Definition plan_identity (mapping_digest : string) (ordered_cases : list (list (pyval * pyval))) :
    list (pyval * pyval) :=
  obj [("mapping_digest", VStr mapping_digest); ("cases", VList (VDict <$> ordered_cases))].

Definition ordered_cases `{PyRepr, Sha256} (cases : list (list (pyval * pyval))) :
    result (list (list (pyval * pyval))) :=
  let! keyed := map_res keyed_case cases in Ok ((sort_by fst keyed).*2).
Definition build_plan `{PyRepr, Sha256} (mapping_digest : string) (cases : list (list (pyval * pyval))) :
    result (list (pyval * pyval)) :=
  let! ordered := ordered_cases cases in
  let identity := plan_identity mapping_digest ordered in
  let! plan_digest := canonical_digest identity in
  Ok (dict_set (VStr "plan_digest") (VStr plan_digest) identity).

Definition str_list (l : list string) : pyval := VList (VStr <$> l).

Definition passed (findings : list string) (observed required : maturity) : bool :=
  bool_decide (findings = []) && (MATURITY_ORDER required <=? MATURITY_ORDER observed)%Z.
Definition _lifecycle_report `{PyRepr, Sha256} (required_maturity observed_maturity : maturity)
    (mapping_digest : string) (findings : list string) (cases : list (list (pyval * pyval))) :
    result (list (pyval * pyval)) :=
  let ok := passed findings observed_maturity required_maturity in
  let '(delivery_status, implementation_evidence) := lifecycle_status observed_maturity in
  let! plan := build_plan mapping_digest cases in
  Ok (obj [("schema_version", VStr "2"); ("verdict", VStr (if ok then "passed" else "failed"));
           ("gate_decision", VStr (if ok then "pass" else "fail"));
           ("required_maturity", VStr (maturity_text required_maturity));
           ("observed_maturity", VStr (maturity_text observed_maturity));
           ("delivery_status", VStr delivery_status);
           ("implementation_evidence", VStr implementation_evidence);
           ("mapping_digest", VStr mapping_digest);
           ("findings", str_list (sorted_set (list_to_set findings : gset string)));
           ("plan", VDict plan)]).

(** The maturity observed, and the findings once acceptance was examined *)
Definition observe (required_maturity : maturity) (mapping_digest : string)
    (review_evidence : option (list (pyval * pyval))) (findings : list string) : maturity * list string :=
  let observed := if bool_decide (findings = []) then Planned else Incomplete in
  let '(observed, findings) :=
    if bool_decide (findings = []) && (MATURITY_ORDER Accepted <=? MATURITY_ORDER required_maturity)%Z
    then let acceptance_findings := _valid_acceptance review_evidence mapping_digest in
         (if bool_decide (acceptance_findings = []) then Accepted else observed,
          findings ++ acceptance_findings)
    else (observed, findings) in
  let observed :=
    if bool_decide (findings = []) && (MATURITY_ORDER TestAuthored <=? MATURITY_ORDER required_maturity)%Z
    then TestAuthored else observed in
  if bool_decide (required_maturity = Red) || bool_decide (required_maturity = Verified)
  then (Incomplete, findings ++ ["execution-proof-required:" +:+ maturity_text required_maturity])
  else (observed, findings).

Definition evaluate_mapping `{PyRepr, Sha256} (mapping : list (pyval * pyval)) (required_maturity : string)
    (review_evidence : option (list (pyval * pyval))) : result (list (pyval * pyval)) :=
  match parse_required required_maturity with
  | None => Err (ValueError
      "required maturity must be planned, accepted, test-authored, red, or verified")
  | Some required =>
      match canonical_digest (_mapping_payload mapping) with
      | Ok mapping_digest =>
          let! r := _validated_cases mapping required in
          let '(observed, findings) := observe required mapping_digest review_evidence r.2 in
          _lifecycle_report required observed mapping_digest findings r.1
      | Err (ValueError msg) =>
          let! mapping_digest := canonical_digest (obj [("invalid", VStr "ValueError")]) in
          _lifecycle_report required Incomplete mapping_digest [msg] []
      | Err e => Err e
      end
  end.

(** * JUnit results *)

(** An XML element; [ET.fromstring] is a parameter, [None] a parse error. *)
#[warnings="-register-all"]
Inductive element :=
  | Elem (tag : string) (attrib : list (string * string)) (children : list element).
Definition el_tag (e : element) : string := match e with Elem t _ _ => t end.
Definition el_attrib (e : element) : list (string * string) := match e with Elem _ a _ => a end.
Definition el_children (e : element) : list element := match e with Elem _ _ c => c end.
Class ParseXml := parse_xml : list ascii → option element.

(** [findall(tag)]: the children with a tag *)
Definition children_named (tag : string) (e : element) : list element :=
  filter (λ c, el_tag c = tag) (el_children e).
(** [iter(tag)]: the element and its descendants with a tag, in document order *)
Fixpoint iter_named (tag : string) (e : element) : list element :=
  match e with
  | Elem t a cs =>
      (if String.eqb t tag then [e] else []) ++
      (fix go (l : list element) : list element :=
         match l with [] => [] | c :: l => iter_named tag c ++ go l end) cs
  end.

Definition _junit_case_result (test_case : element) : option string * string :=
  let properties := children_named "properties" test_case ≫= children_named "property" in
  let selector :=
    head (filter (λ p, dict_get "name" (el_attrib p) = Some "specfact.selector") properties)
      ≫= λ p, dict_get "value" (el_attrib p) in
  (selector,
   if bool_decide (children_named "failure" test_case ≠ []) then "failed"
   else if bool_decide (children_named "error" test_case ≠ []) then "errored"
   else if bool_decide (children_named "skipped" test_case ≠ []) then "skipped"
   else "passed").

(** What opening and reading the file gives: [JunitBytes] carries at most
    [MAX_JUNIT_BYTES + 1] bytes. *)
Inductive junit_file := JunitUnreadable | JunitNotRegular | JunitBytes (payload : list ascii).

Definition upper_bytes (l : list ascii) : string := of_chars (upper_char <$> l).
Definition collect_result (acc : list (string * list string) * list string) (test_case : element) :
    list (string * list string) * list string :=
  let '(selector, outcome) := _junit_case_result test_case in
  match selector with
  | Some s => if nonblank s then (dict_append s outcome acc.1, acc.2)
              else (acc.1, acc.2 ++ ["junit-selector-missing"])
  | None => (acc.1, acc.2 ++ ["junit-selector-missing"])
  end.
Definition _junit_results `{Sha256, ParseXml} (junit : junit_file) :
    list (string * list string) * list string * option string :=
  match junit with
  | JunitUnreadable => ([], ["junit-malformed"], None)
  | JunitNotRegular => ([], ["junit-not-regular-file"], None)
  | JunitBytes payload =>
      if (MAX_JUNIT_BYTES <? Z.of_nat (length payload))%Z then ([], ["junit-too-large"], None)
      else if py_in "<!DOCTYPE" (upper_bytes payload) || py_in "<!ENTITY" (upper_bytes payload)
      then ([], ["junit-unsafe-doctype"], None)
      else
        match parse_xml payload with
        | None => ([], ["junit-malformed"], None)
        | Some root =>
            (foldl collect_result ([], []) (iter_named "testcase" root), Some (sha256_digest payload))
        end
  end.

(** * Trusted plans *)

Definition _trusted_plan (plan_report : list (pyval * pyval)) : result (list (pyval * pyval)) :=
  if negb (is_str "pass" (vget "gate_decision" plan_report))
     || negb (is_str "test-authored" (vget "observed_maturity" plan_report))
  then Err (ValueError "plan report must be a passing test-authored lifecycle report")
  else
    let bad := Err (ValueError "plan report must contain a lifecycle plan") in
    match vget "plan" plan_report with
    | VDict plan =>
        match vget "cases" plan with
        | VList _ =>
            if negb (_is_digest (vget "mapping_digest" plan)) || negb (_is_digest (vget "plan_digest" plan))
            then bad else Ok plan
        | _ => bad
        end
    | _ => bad
    end.

Definition mapping_cases (l : list pyval) : list (list (pyval * pyval)) :=
  omap (λ v, match v with VDict d => Some d | _ => None end) l.
(** A trusted plan has a list of cases and a digest text. *)
Definition _consistent_plan_cases `{PyRepr, Sha256} (plan : list (pyval * pyval)) :
    result (list (list (pyval * pyval))) :=
  match vget "cases" plan, vget "mapping_digest" plan with
  | VList cases, VStr mapping_digest =>
      let all_cases := mapping_cases cases in
      let! expected_plan := build_plan mapping_digest all_cases in
      if bool_decide (vget "plan_digest" expected_plan ≠ vget "plan_digest" plan)
      then Err (ValueError "plan report has an invalid plan digest")
      else if bool_decide (length all_cases ≠ length cases) || bool_decide (all_cases = [])
      then Err (ValueError "plan report must contain nonempty valid cases")
      else Ok all_cases
  | _, _ => Err (ValueError "plan report must contain a valid mapping digest")
  end.

(** [str(case.get("case_id", "<unknown>"))] *)
Definition case_label `{PyRepr} (case : list (pyval * pyval)) : string :=
  py_str (default (VStr "<unknown>") (dict_get (VStr "case_id") case)).
Definition execution_selector `{PyRepr} (case : list (pyval * pyval)) : result string :=
  match _validate_selector case (case_label case) with
  | inl s => if bool_decide (vget "node_id" case ≠ VStr (sel_node_id s))
             then Err (ValueError "plan report contains an invalid test selector")
             else Ok (sel_node_id s)
  | inr _ => Err (ValueError "plan report contains an invalid test selector")
  end.
Definition is_test_case (case : list (pyval * pyval)) : bool := is_str "test" (vget "method" case).
Definition _execution_cases `{PyRepr} (cases : list (list (pyval * pyval))) :
    result (list (list (pyval * pyval))) :=
  let executable_cases := filter (λ c, is_test_case c = true) cases in
  match executable_cases with
  | [] => Err (ValueError "plan report must contain executable test cases")
  | _ =>
      let! selectors := map_res execution_selector executable_cases in
      if bool_decide (NoDup selectors) then Ok executable_cases
      else Err (ValueError "plan report contains duplicate test selectors")
  end.

Record plan_cases := {
  pl_mapping_digest : string;
  pl_plan_digest : string;
  pl_plan : list (pyval * pyval);
  pl_cases : list (list (pyval * pyval))
}.
Definition _plan_cases `{PyRepr, Sha256} (plan_report : list (pyval * pyval)) : result plan_cases :=
  let! plan := _trusted_plan plan_report in
  let! all_cases := _consistent_plan_cases plan in
  let! cases := _execution_cases all_cases in
  Ok {| pl_mapping_digest := py_str (vget "mapping_digest" plan);
        pl_plan_digest := py_str (vget "plan_digest" plan); pl_plan := plan; pl_cases := cases |}.

(** * Reconciliation *)

Inductive run_stage := RedStage | FinalStage.
#[export] Instance run_stage_eq_dec : EqDecision run_stage.
Proof. solve_decision. Defined.
Definition stage_text (s : run_stage) : string := match s with RedStage => "red" | FinalStage => "final" end.

(** The fields are as the caller passed them, of any type. *)
Record ReconciliationContext := {
  rc_run_stage : pyval;
  rc_source_ref : pyval;
  rc_prior_red_proof : pyval;
  rc_legacy_tdd_evidence : pyval
}.

Definition context_fields : list string :=
  ["run_stage"; "source_ref"; "prior_red_proof"; "legacy_tdd_evidence"].
Definition _resolved_reconciliation_context (context : option ReconciliationContext)
    (legacy_context : list (string * pyval)) : result ReconciliationContext :=
  match context with
  | Some c =>
      match legacy_context with
      | [] => Ok c
      | _ => Err (ValueError "reconciliation context cannot be combined with legacy keyword arguments")
      end
  | None =>
      match dict_get "run_stage" legacy_context, dict_get "source_ref" legacy_context with
      | Some stage, Some ref =>
          if forallb (λ kv, bool_decide (kv.1 ∈ context_fields)) legacy_context
          then Ok {| rc_run_stage := stage; rc_source_ref := ref;
                     rc_prior_red_proof := sget "prior_red_proof" legacy_context;
                     rc_legacy_tdd_evidence := sget "legacy_tdd_evidence" legacy_context |}
          else Err (ValueError "reconciliation context requires run_stage and source_ref")
      | _, _ => Err (ValueError "reconciliation context requires run_stage and source_ref")
      end
  end.

(** The stage of a valid context *)
Definition _validate_reconciliation_context (context : ReconciliationContext) : result (run_stage * string) :=
  let! known := in_set (rc_run_stage context) ["red"; "final"] in
  if negb known then Err (ValueError "run stage must be red or final")
  else
    match rc_source_ref context with
    | VStr ref =>
        if is_object_id ref
        then Ok (if is_str "red" (rc_run_stage context) then RedStage else FinalStage, ref)
        else Err (ValueError "source ref must be a full lowercase Git object id")
    | _ => Err (TypeError "expected string or bytes-like object")
    end.

Definition expected_outcome (stage : run_stage) : string :=
  match stage with RedStage => "failed" | FinalStage => "passed" end.
Definition _selector_result_finding (selector : string) (outcomes : list string)
    (expected_outcome maturity : string) : option string :=
  match outcomes with
  | [] => Some ("uncollected-selector:" +:+ selector)
  | [outcome] =>
      if String.eqb outcome expected_outcome then None
      else Some (maturity +:+ "-proof-" +:+ outcome +:+ "-not-" +:+ expected_outcome +:+ ":" +:+ selector)
  | _ => Some ("duplicate-selector-result:" +:+ selector)
  end.
Definition _selector_result_findings (expected : gset string) (results : list (string * list string))
    (stage : run_stage) : list string :=
  omap (λ selector,
    _selector_result_finding selector (bucket selector results) (expected_outcome stage)
      (stage_text stage)) (sorted_set expected).

(** [value.get]: only a mapping has the method. *)
Definition as_evidence (value : pyval) : result (list (pyval * pyval)) :=
  match value with VDict d => Ok d | _ => Err (AttributeError "get") end.

Definition _prior_red_proof_findings (prior_red_proof : pyval) (mapping_digest plan_digest : string) :
    result (list string) :=
  match prior_red_proof with
  | VNone => Ok ["prior-red-proof-missing"]
  | _ =>
      let! p := as_evidence prior_red_proof in
      Ok (if is_str "red" (vget "observed_maturity" p)
             && is_str mapping_digest (vget "mapping_digest" p)
             && is_str plan_digest (vget "plan_digest" p)
             && is_str "pass" (vget "gate_decision" p)
          then [] else ["prior-red-proof-invalid"])
  end.
Definition _legacy_tdd_evidence_findings (legacy : pyval) (mapping_digest plan_digest : string) :
    result (list string) :=
  match legacy with
  | VNone => Ok ["prior-red-proof-missing"]
  | _ =>
      let! p := as_evidence legacy in
      Ok (if is_str "1" (vget "schema_version" p) && is_str "legacy-tdd-ledger" (vget "kind" p)
             && _is_text (vget "change_id" p) && _is_digest (vget "ledger_digest" p)
             && is_str mapping_digest (vget "mapping_digest" p)
             && is_str plan_digest (vget "plan_digest" p)
          then [] else ["legacy-tdd-evidence-invalid"])
  end.

Definition basis (name : string) (findings : list string) : option string :=
  match findings with [] => Some name | _ => None end.
Definition _final_proof_findings (prior_red_proof legacy : pyval) (mapping_digest plan_digest : string) :
    result (list string * option string) :=
  if bool_decide (prior_red_proof ≠ VNone) && bool_decide (legacy ≠ VNone)
  then Ok (["proof-basis-ambiguous"], None)
  else if bool_decide (prior_red_proof ≠ VNone)
  then let! findings := _prior_red_proof_findings prior_red_proof mapping_digest plan_digest in
       Ok (findings, basis "red-junit" findings)
  else let! findings := _legacy_tdd_evidence_findings legacy mapping_digest plan_digest in
       Ok (findings, basis "legacy-tdd-ledger" findings).

Definition _proof_basis_for_context (context : ReconciliationContext) (stage : run_stage)
    (mapping_digest plan_digest : string) : result (list string * option string) :=
  match stage with
  | FinalStage =>
      _final_proof_findings (rc_prior_red_proof context) (rc_legacy_tdd_evidence context)
        mapping_digest plan_digest
  | RedStage =>
      Ok (if bool_decide (rc_legacy_tdd_evidence context ≠ VNone)
          then ["legacy-tdd-evidence-red-stage"] else [], None)
  end.

Record ReconciliationOutcome := {
  ro_plan : plan_cases;
  ro_findings : list string;
  ro_proof_basis : option string;
  ro_junit_digest : option string
}.

Definition dict_del (k : string) (d : list (pyval * pyval)) : list (pyval * pyval) :=
  filter (λ kv, kv.1 ≠ VStr k) d.
Definition set_str (k : string) (v : pyval) (d : list (pyval * pyval)) : list (pyval * pyval) :=
  dict_set (VStr k) v d.
Definition stage_maturity (stage : run_stage) : maturity :=
  match stage with RedStage => Red | FinalStage => Verified end.
Definition execution_proof `{PyRepr} (stage : run_stage) (source_ref : string)
    (outcome : ReconciliationOutcome) : list (pyval * pyval) :=
  obj ([("run_stage", VStr (stage_text stage)); ("source_ref", VStr source_ref);
        ("selectors", str_list (sorted ((λ c, py_str (vget "node_id" c)) <$> pl_cases (ro_plan outcome))))]
       ++ match ro_proof_basis outcome with Some b => [("proof_basis", VStr b)] | None => [] end
       ++ match ro_junit_digest outcome with Some d => [("junit_digest", VStr d)] | None => [] end).

Definition _reconciliation_report `{PyRepr, Sha256} (context : ReconciliationContext) (stage : run_stage)
    (source_ref : string) (outcome : ReconciliationOutcome) : result (list (pyval * pyval)) :=
  let observed := stage_maturity stage in
  let findings := ro_findings outcome in
  let! report := _lifecycle_report observed (if bool_decide (findings = []) then observed else Incomplete)
                   (pl_mapping_digest (ro_plan outcome)) findings (pl_cases (ro_plan outcome)) in
  let report := set_str "execution_plan" (vget "plan" report) (dict_del "plan" report) in
  let report := set_str "plan" (VDict (pl_plan (ro_plan outcome))) report in
  let report := set_str "execution_proof" (VDict (execution_proof stage source_ref outcome)) report in
  let report :=
    if bool_decide (ro_proof_basis outcome = Some "legacy-tdd-ledger") && bool_decide (findings = [])
    then set_str "legacy_tdd_evidence"
           (match rc_legacy_tdd_evidence context with VDict d => VDict d | _ => VDict [] end)
           (set_str "implementation_evidence" (VStr "passing-after-legacy-tdd-ledger") report)
    else report in
  Ok (set_str "plan_digest" (VStr (pl_plan_digest (ro_plan outcome))) report).

Definition reconcile_junit `{PyRepr, Sha256, ParseXml} (plan_report : list (pyval * pyval))
    (junit : junit_file) (context : option ReconciliationContext)
    (legacy_context : list (string * pyval)) : result (list (pyval * pyval)) :=
  let! context := _resolved_reconciliation_context context legacy_context in
  let! stage_ref := _validate_reconciliation_context context in
  let '(stage, source_ref) := stage_ref in
  let! plan := _plan_cases plan_report in
  let '(results, junit_findings, junit_digest) := _junit_results junit in
  let expected : gset string := list_to_set ((λ c, py_str (vget "node_id" c)) <$> pl_cases plan) in
  let! proof := _proof_basis_for_context context stage (pl_mapping_digest plan) (pl_plan_digest plan) in
  _reconciliation_report context stage source_ref
    {| ro_plan := plan;
       ro_findings := junit_findings ++ _selector_result_findings expected results stage ++ proof.1;
       ro_proof_basis := proof.2; ro_junit_digest := junit_digest |}.
