(* ===== verification/DigestProofs.v ===== *)
(** DigestProofs: the canonical encoding of sidecar values is faithful (two
    values have the same encoding exactly when they are the same up to the
    order of mapping entries and set members), so canonical digests and plan
    digests do not depend on that order. *)

From S2P Require Import Prelude Text Dict PyValue Json Lifecycle.

(** * Generic lemmas *)

(** The left lists of [Forall2] can follow a permutation of the right ones. *)
Lemma Forall2_perm_r {A B} (R : A → B → Prop) l k k' :
  Forall2 R l k → k ≡ₚ k' → ∃ l', l ≡ₚ l' ∧ Forall2 R l' k'.
Proof.
  intros HF Hp. revert l HF. induction Hp as [|y k k' _ IH|y z k|k1 k2 k3 _ IH1 _ IH2]; intros l HF.
  - exists []. apply Forall2_nil_inv_r in HF as ->. by split.
  - apply Forall2_cons_inv_r in HF as (x & l0 & Hx & HF & ->).
    destruct (IH l0 HF) as (l' & Hl & HF'). exists (x :: l'). split; [by rewrite Hl|by constructor].
  - apply Forall2_cons_inv_r in HF as (x1 & l0 & Hx1 & HF & ->).
    apply Forall2_cons_inv_r in HF as (x2 & l1 & Hx2 & HF & ->).
    exists (x2 :: x1 :: l1). split; [apply Permutation_swap|by repeat constructor].
  - destruct (IH1 l HF) as (l2 & Hl2 & HF2). destruct (IH2 l2 HF2) as (l3 & Hl3 & HF3).
    exists l3. split; [by rewrite Hl2|done].
Qed.

Lemma of_chars_inj l1 l2 : of_chars l1 = of_chars l2 → l1 = l2.
Proof. intros E%(f_equal chars). by rewrite !chars_of_chars in E. Qed.

(** * The hexadecimal text of a float *)

(** The binary64 values: the mantissa is normalised unless the exponent is
    the smallest one. *)
Definition float_ok (f : spec_float) : bool :=
  match f with
  | S754_finite _ m e => ((Zpos m <? 2 ^ 53) && ((2 ^ 52 <=? Zpos m) || (e =? -1074)) && (-1074 <=? e))%Z
  | _ => true
  end.

Lemma hex_digit_inj a b : (a < 16)%N → (b < 16)%N → hex_digit a = hex_digit b → a = b.
Proof.
  intros Ha Hb E. apply (f_equal N_of_ascii) in E. unfold hex_digit in E.
  destruct (N.ltb_spec a 10), (N.ltb_spec b 10); rewrite !N_ascii_embedding in E by lia; lia.
Qed.

Lemma length_hex_digits n z : length (hex_digits n z) = n.
Proof. revert z. induction n as [|n IH]; intros z; cbn; [done|]. rewrite length_app, IH. cbn. lia. Qed.

Lemma hex_digits_inj n z1 z2 :
  (0 <= z1 < 16 ^ Z.of_nat n)%Z → (0 <= z2 < 16 ^ Z.of_nat n)%Z →
  hex_digits n z1 = hex_digits n z2 → z1 = z2.
Proof.
  revert z1 z2. induction n as [|n IH]; intros z1 z2 H1 H2 E; [cbn in *; lia|].
  cbn [hex_digits] in E. apply app_inj_2 in E as [E1 E2]; [|done].
  rewrite Nat2Z.inj_succ, Z.pow_succ_r in H1, H2 by lia.
  apply IH in E1; [|split; [apply Z.div_pos; lia|apply Z.div_lt_upper_bound; lia]..].
  injection E2 as E2. apply hex_digit_inj in E2.
  - pose proof (Z.div_mod z1 16). pose proof (Z.div_mod z2 16).
    pose proof (Z.mod_pos_bound z1 16). pose proof (Z.mod_pos_bound z2 16). lia.
  - pose proof (Z.mod_pos_bound z1 16). lia.
  - pose proof (Z.mod_pos_bound z2 16). lia.
Qed.

Lemma signed_text_inj z1 z2 : signed_text z1 = signed_text z2 → z1 = z2.
Proof.
  unfold signed_text. destruct (Z.ltb_spec z1 0), (Z.ltb_spec z2 0); intros E; try done;
    injection E as E; apply (inj chars), (inj pretty) in E; lia.
Qed.

Definition sign_text (s : bool) : list ascii := if s then ["-"%char] else [].
Lemma sign_text_inj s1 s2 b1 b2 :
  head b1 ≠ Some "-"%char → head b2 ≠ Some "-"%char →
  sign_text s1 ++ b1 = sign_text s2 ++ b2 → s1 = s2 ∧ b1 = b2.
Proof.
  intros H1 H2 E. destruct s1, s2; cbn in E.
  - by injection E as ->.
  - by rewrite <-E in H2.
  - by rewrite E in H1.
  - done.
Qed.

(** The digits of a finite non-zero value *)
Definition hex_body (m : positive) (e : Z) : list ascii :=
  let top := (Zpos m / 2 ^ 52)%Z in
  hex_digit (Z.to_N top) :: "."%char :: hex_digits 13 (Zpos m mod 2 ^ 52) ++
    "p"%char :: signed_text (if (top =? 0)%Z then -1022 else e + 52).
Definition unsigned_hex (f : spec_float) : list ascii :=
  match f with
  | S754_nan => chars "nan"
  | S754_infinity _ => chars "inf"
  | S754_zero _ => chars "0x0.0p+0"
  | S754_finite _ m e => chars "0x" ++ hex_body m e
  end.
Definition float_sign (f : spec_float) : bool :=
  match f with S754_nan => false | S754_infinity s | S754_zero s | S754_finite s _ _ => s end.

Lemma float_hex_split f : chars (float_hex f) = sign_text (float_sign f) ++ unsigned_hex f.
Proof. unfold float_hex. rewrite chars_of_chars. by destruct f. Qed.

Lemma unsigned_hex_head f : head (unsigned_hex f) ≠ Some "-"%char.
Proof. by destruct f. Qed.

Lemma hex_body_inj m1 e1 m2 e2 s1 s2 :
  float_ok (S754_finite s1 m1 e1) = true → float_ok (S754_finite s2 m2 e2) = true →
  hex_body m1 e1 = hex_body m2 e2 → m1 = m2 ∧ e1 = e2.
Proof.
  cbn [float_ok]. intros H1 H2 E. bool_hyps. unfold hex_body in E. cbv zeta in E.
  pose proof (f_equal head E) as Et. apply (f_equal (drop 2)) in E.
  injection Et as Et. cbn [drop] in E.
  apply app_inj_1 in E as [Ef Ee]; [|by rewrite !length_hex_digits].
  apply (f_equal tail) in Ee. cbn [tail] in Ee. apply signed_text_inj in Ee.
  pose proof (Z.mod_pos_bound (Zpos m1) (2 ^ 52)) as B1.
  pose proof (Z.mod_pos_bound (Zpos m2) (2 ^ 52)) as B2.
  apply hex_digits_inj in Ef; [|lia..].
  pose proof (Z.div_mod (Zpos m1) (2 ^ 52)) as D1. pose proof (Z.div_mod (Zpos m2) (2 ^ 52)) as D2.
  assert (T1 : (0 <= Zpos m1 / 2 ^ 52 < 2)%Z)
    by (split; [apply Z.div_pos; lia|apply Z.div_lt_upper_bound; lia]).
  assert (T2 : (0 <= Zpos m2 / 2 ^ 52 < 2)%Z)
    by (split; [apply Z.div_pos; lia|apply Z.div_lt_upper_bound; lia]).
  apply hex_digit_inj in Et; [|lia..]. apply Z2N.inj in Et; [|lia..].
  assert (m1 = m2) as <- by lia. split; [done|].
  destruct (Z.eqb_spec (Zpos m1 / 2 ^ 52) 0) as [E0|E0]; [|lia].
  repeat match goal with H : _ || _ = true |- _ => apply orb_true_iff in H end.
  rewrite !Z.leb_le, !Z.eqb_eq in *. lia.
Qed.

Lemma float_hex_inj f1 f2 :
  float_ok f1 = true → float_ok f2 = true → float_hex f1 = float_hex f2 → f1 = f2.
Proof.
  intros H1 H2 E%(f_equal chars). rewrite !float_hex_split in E.
  apply sign_text_inj in E as [Es E]; [|apply unsigned_hex_head..].
  destruct f1 as [s1|s1| |s1 m1 e1], f2 as [s2|s2| |s2 m2 e2]; cbn in Es; subst; try done;
    cbn [unsigned_hex] in E; try discriminate E.
  apply (app_inv_head (chars "0x")) in E. by destruct (hex_body_inj _ _ _ _ _ _ H1 H2 E) as [-> ->].
Qed.

(** * Values that are the same up to the order of entries and members *)

#[warnings="-register-all"]
Inductive same_value : pyval → pyval → Prop :=
  | same_refl v : same_value v v
  | same_list l1 l2 : Forall2 same_value l1 l2 → same_value (VList l1) (VList l2)
  | same_tuple l1 l2 : Forall2 same_value l1 l2 → same_value (VTuple l1) (VTuple l2)
  | same_dict d1 d2 d2' :
      d2 ≡ₚ d2' → Forall2 (λ x y, same_value x.1 y.1 ∧ same_value x.2 y.2) d1 d2' →
      same_value (VDict d1) (VDict d2)
  | same_set l1 l2 l2' :
      l2 ≡ₚ l2' → Forall2 same_value l1 l2' → same_value (VSet l1) (VSet l2).

(** The floats of a value are binary64 ones. *)
Fixpoint floats_ok (v : pyval) : bool :=
  match v with
  | VFloat f => float_ok f
  | VList l | VTuple l | VSet l => forallb floats_ok l
  | VDict d => forallb (λ kv, floats_ok kv.1 && floats_ok kv.2) d
  | _ => true
  end.

(** * The encoding *)

Definition entry_node (kv : pyval * pyval) : result (json * json) :=
  let! k := _json_safe kv.1 in let! v := _json_safe kv.2 in Ok (k, v).

Ltac unfold_members l :=
  cbn [_json_safe]; f_equal;
  let v := fresh in let IH := fresh in
  induction l as [|v l IH]; [done|]; cbn [map_res]; by rewrite IH.
Lemma json_safe_list l :
  _json_safe (VList l) = let! js := map_res _json_safe l in Ok (JArr [JStr "list"; JArr js]).
Proof. unfold_members l. Qed.
Lemma json_safe_tuple l :
  _json_safe (VTuple l) = let! js := map_res _json_safe l in Ok (JArr [JStr "tuple"; JArr js]).
Proof. unfold_members l. Qed.
Lemma json_safe_set l :
  _json_safe (VSet l) = let! js := map_res _json_safe l in
    Ok (JArr [JStr "set"; JArr (sort_by _encoded_sort_key js)]).
Proof. unfold_members l. Qed.
Lemma json_safe_dict d :
  _json_safe (VDict d) = let! es := map_res entry_node d in
    Ok (JArr [JStr "mapping"; JArr (pair_node <$> sort_by entry_key es)]).
Proof.
  cbn [_json_safe]. f_equal. induction d as [|kv d IH]; [done|]. cbn [map_res]. unfold entry_node.
  destruct (_json_safe kv.1) as [k|]; cbn [res_bind]; [|done].
  destruct (_json_safe kv.2) as [v|]; cbn [res_bind]; [|done]. by rewrite IH.
Qed.

Lemma encoded_sort_key_inj j1 j2 : _encoded_sort_key j1 = _encoded_sort_key j2 → j1 = j2.
Proof. intros E%of_chars_inj. by apply dumps_inj in E. Qed.
Lemma entry_key_inj e1 e2 : entry_key e1 = entry_key e2 → e1 = e2.
Proof.
  destruct e1, e2. unfold entry_key; cbn. intros [= E1%encoded_sort_key_inj E2%encoded_sort_key_inj].
  congruence.
Qed.
#[local] Instance pair_node_inj : Inj (=) (=) pair_node.
Proof. intros [] [] E. unfold pair_node in E. cbn in E. congruence. Qed.

Lemma entry_node_Ok kv e :
  entry_node kv = Ok e ↔ _json_safe kv.1 = Ok e.1 ∧ _json_safe kv.2 = Ok e.2.
Proof.
  unfold entry_node. destruct e as [k v]. split.
  - by intros (k' & -> & (v' & -> & [= -> ->])%res_bind_Ok)%res_bind_Ok.
  - intros [E1 E2]. cbn in *. by rewrite E1, E2.
Qed.

(** ** Equal encodings come from the same values *)

Definition value_tag (v : pyval) : string :=
  match v with
  | VNone => "none" | VBool _ => "bool" | VInt _ => "int" | VFloat _ => "float" | VStr _ => "str"
  | VDatetime _ => "datetime" | VDate _ => "date" | VList _ => "list" | VTuple _ => "tuple"
  | VDict _ => "mapping" | VSet _ => "set" | VOther _ => "other"
  end.

Lemma json_safe_tag v j : _json_safe v = Ok j → ∃ body, j = JArr (JStr (value_tag v) :: body).
Proof.
  destruct v; try rewrite json_safe_list; try rewrite json_safe_tuple; try rewrite json_safe_dict;
    try rewrite json_safe_set; intros E; cbn in E; res_inv; subst; try (by eexists).
Qed.

Definition encodes_one (v1 : pyval) : Prop :=
  ∀ v2 j, floats_ok v1 = true → floats_ok v2 = true →
    _json_safe v1 = Ok j → _json_safe v2 = Ok j → same_value v1 v2.

Lemma members_same l1 l2 js :
  Forall encodes_one l1 → forallb floats_ok l1 = true → forallb floats_ok l2 = true →
  Forall2 (λ v j, _json_safe v = Ok j) l1 js → Forall2 (λ v j, _json_safe v = Ok j) l2 js →
  Forall2 same_value l1 l2.
Proof.
  intros H. revert l2 js. induction H as [|v l1 Hv _ IH]; intros l2 js H1 H2 E1 E2.
  - apply Forall2_nil_inv_l in E1 as ->. apply Forall2_nil_inv_r in E2 as ->. constructor.
  - apply Forall2_cons_inv_l in E1 as (j & js' & Ej & E1 & ->).
    apply Forall2_cons_inv_r in E2 as (v2 & l2' & Ej2 & E2 & ->).
    cbn in H1, H2. bool_hyps. constructor; [by eapply Hv|by eapply IH].
Qed.

Lemma entries_same d1 d2 es :
  Forall (λ kv, encodes_one kv.1 ∧ encodes_one kv.2) d1 →
  forallb (λ kv, floats_ok kv.1 && floats_ok kv.2) d1 = true →
  forallb (λ kv, floats_ok kv.1 && floats_ok kv.2) d2 = true →
  Forall2 (λ kv e, entry_node kv = Ok e) d1 es → Forall2 (λ kv e, entry_node kv = Ok e) d2 es →
  Forall2 (λ x y, same_value x.1 y.1 ∧ same_value x.2 y.2) d1 d2.
Proof.
  intros H. revert d2 es. induction H as [|kv d1 [Hk Hv] _ IH]; intros d2 es H1 H2 E1 E2.
  - apply Forall2_nil_inv_l in E1 as ->. apply Forall2_nil_inv_r in E2 as ->. constructor.
  - apply Forall2_cons_inv_l in E1 as (e & es' & Ee & E1 & ->).
    apply Forall2_cons_inv_r in E2 as (kv2 & d2' & Ee2 & E2 & ->).
    apply entry_node_Ok in Ee as [? ?], Ee2 as [? ?].
    cbn in H1, H2. bool_hyps. constructor; [|by eapply IH].
    split; [by eapply Hk|by eapply Hv].
Qed.

Lemma forallb_perm {A} (p : A → bool) l1 l2 : l1 ≡ₚ l2 → forallb p l1 = true → forallb p l2 = true.
Proof.
  intros Hp. rewrite !forallb_forall. intros H x Hx. apply H.
  by apply (Permutation_in x (Permutation_sym Hp)).
Qed.

Lemma json_safe_inj v1 : encodes_one v1.
Proof.
  induction v1 as [|b|z|f|s|s|s|l IH|l IH|d IH|l IH|s] using pyval_nested_ind;
    intros v2 j H1 H2 E1 E2;
    pose proof (json_safe_tag _ _ E1) as (b1 & ->); pose proof (json_safe_tag _ _ E2) as (b2 & Et);
    destruct v2; try discriminate Et; clear Et b2.
  - constructor.
  - cbn in E1, E2. simplify_eq. constructor.
  - cbn in E1, E2. injection E1 as E1. injection E2 as E2. rewrite <-E1 in E2.
    injection E2 as E2. apply (inj pretty) in E2 as ->. constructor.
  - cbn in E1, E2. injection E1 as E1. injection E2 as E2. rewrite <-E1 in E2.
    injection E2 as E2. apply float_hex_inj in E2 as ->; [constructor|done..].
  - cbn in E1, E2. simplify_eq. constructor.
  - cbn in E1, E2. simplify_eq. constructor.
  - cbn in E1, E2. simplify_eq. constructor.
  - rewrite json_safe_list in E1, E2. res_inv. subst. simplify_eq.
    rewrite map_res_Ok in *. apply same_list. by eapply members_same.
  - rewrite json_safe_tuple in E1, E2. res_inv. subst. simplify_eq.
    rewrite map_res_Ok in *. apply same_tuple. by eapply members_same.
  - rewrite json_safe_dict in E1, E2. apply res_bind_Ok in E1 as (es1 & E1 & [= Eb]).
    apply res_bind_Ok in E2 as (es2 & E2 & [= Eb2]). rewrite map_res_Ok in E1, E2.
    rewrite <-Eb in Eb2. injection Eb2 as Eb2. apply (inj _) in Eb2.
    assert (Hp : es2 ≡ₚ es1).
    { by rewrite <-(sort_by_perm entry_key es2), Eb2, sort_by_perm. }
    destruct (Forall2_perm_r _ _ _ _ E2 Hp) as (d2' & Hd & E2').
    apply (same_dict _ _ d2'); [done|]. eapply entries_same; [exact IH|exact H1| |exact E1|exact E2'].
    by eapply forallb_perm.
  - rewrite json_safe_set in E1, E2. apply res_bind_Ok in E1 as (js1 & E1 & [= Eb]).
    apply res_bind_Ok in E2 as (js2 & E2 & [= Eb2]). rewrite map_res_Ok in E1, E2.
    rewrite <-Eb in Eb2. injection Eb2 as Eb2.
    assert (Hp : js2 ≡ₚ js1).
    { by rewrite <-(sort_by_perm _encoded_sort_key js2), Eb2, sort_by_perm. }
    destruct (Forall2_perm_r _ _ _ _ E2 Hp) as (l2' & Hd & E2').
    apply (same_set _ _ l2'); [done|]. eapply members_same; [exact IH|exact H1| |exact E1|exact E2'].
    by eapply forallb_perm.
  - discriminate E1.
Qed.

(** ** The same values have equal encodings *)

Definition encoding_kept (v1 : pyval) : Prop :=
  ∀ v2 j, same_value v1 v2 → _json_safe v1 = Ok j → _json_safe v2 = Ok j.

Lemma members_kept l1 l2 js :
  Forall encoding_kept l1 → Forall2 same_value l1 l2 →
  Forall2 (λ v j, _json_safe v = Ok j) l1 js → Forall2 (λ v j, _json_safe v = Ok j) l2 js.
Proof.
  intros H. revert l2 js. induction H as [|v l1 Hv _ IH]; intros l2 js Hs E1.
  - apply Forall2_nil_inv_l in Hs as ->. apply Forall2_nil_inv_l in E1 as ->. constructor.
  - apply Forall2_cons_inv_l in Hs as (v2 & l2' & Hv2 & Hs & ->).
    apply Forall2_cons_inv_l in E1 as (j & js' & Ej & E1 & ->).
    constructor; [by eapply Hv|by eapply IH].
Qed.

Lemma entries_kept d1 d2 es :
  Forall (λ kv, encoding_kept kv.1 ∧ encoding_kept kv.2) d1 →
  Forall2 (λ x y, same_value x.1 y.1 ∧ same_value x.2 y.2) d1 d2 →
  Forall2 (λ kv e, entry_node kv = Ok e) d1 es → Forall2 (λ kv e, entry_node kv = Ok e) d2 es.
Proof.
  intros H. revert d2 es. induction H as [|kv d1 [Hk Hv] _ IH]; intros d2 es Hs E1.
  - apply Forall2_nil_inv_l in Hs as ->. apply Forall2_nil_inv_l in E1 as ->. constructor.
  - apply Forall2_cons_inv_l in Hs as (kv2 & d2' & [Hk2 Hv2] & Hs & ->).
    apply Forall2_cons_inv_l in E1 as (e & es' & Ee & E1 & ->).
    apply entry_node_Ok in Ee as [? ?]. constructor; [|by eapply IH].
    apply entry_node_Ok. split; [by eapply Hk|by eapply Hv].
Qed.

Lemma json_safe_same v1 : encoding_kept v1.
Proof.
  induction v1 as [|b|z|f|s|s|s|l IH|l IH|d IH|l IH|s] using pyval_nested_ind;
    intros v2 j Hs E1; inversion Hs as [?|? l2 HF|? l2 HF|? d2 d2' Hd HF|? l2 l2' Hd HF]; subst; try done.
  - rewrite json_safe_list in *. apply res_bind_Ok in E1 as (js & E1 & [= <-]).
    rewrite map_res_Ok in E1.
    by rewrite (proj2 (map_res_Ok _ _ _) (members_kept _ _ _ IH HF E1)).
  - rewrite json_safe_tuple in *. apply res_bind_Ok in E1 as (js & E1 & [= <-]).
    rewrite map_res_Ok in E1.
    by rewrite (proj2 (map_res_Ok _ _ _) (members_kept _ _ _ IH HF E1)).
  - rewrite json_safe_dict in *. apply res_bind_Ok in E1 as (es & E1 & [= <-]).
    rewrite map_res_Ok in E1. pose proof (entries_kept _ _ _ IH HF E1) as E2.
    apply Forall2_flip in E2.
    destruct (Forall2_perm_r _ _ _ _ E2 (Permutation_sym Hd)) as (es2 & Hp & E3).
    apply Forall2_flip in E3. rewrite (proj2 (map_res_Ok _ _ _) E3). cbn [res_bind].
    by rewrite (sort_by_perm_eq entry_key es2 es (λ x y _ _, entry_key_inj x y) (Permutation_sym Hp)).
  - rewrite json_safe_set in *. apply res_bind_Ok in E1 as (js & E1 & [= <-]).
    rewrite map_res_Ok in E1. pose proof (members_kept _ _ _ IH HF E1) as E2.
    apply Forall2_flip in E2.
    destruct (Forall2_perm_r _ _ _ _ E2 (Permutation_sym Hd)) as (js2 & Hp & E3).
    apply Forall2_flip in E3. rewrite (proj2 (map_res_Ok _ _ _) E3). cbn [res_bind].
    by rewrite (sort_by_perm_eq _encoded_sort_key js2 js (λ x y _ _, encoded_sort_key_inj x y)
                  (Permutation_sym Hp)).
Qed.

(** * Digests *)

(** Two encodings the hash function does not confuse *)
Definition no_collision `{Sha256} (j1 j2 : json) : Prop :=
  sha256_hex (dumps true j1) = sha256_hex (dumps true j2) → j1 = j2.

Lemma append_inj_l s t1 t2 : s +:+ t1 = s +:+ t2 → t1 = t2.
Proof. intros E. by apply (inj (String.append s)) in E. Qed.

Lemma canonical_digest_Ok `{Sha256} d x :
  canonical_digest d = Ok x ↔ ∃ j, _json_safe (VDict d) = Ok j ∧ x = sha256_digest (dumps true j).
Proof.
  unfold canonical_digest. rewrite res_bind_Ok. split.
  - intros (j & Hj & [= <-]). by exists j.
  - intros (j & Hj & ->). by exists j.
Qed.

(** * Plans *)

Section sorting.
Context {A K : Type} `{PyOrdLaws K} (key : A → K).

(** The keys of a sorted list are the sorted keys. *)
Lemma insert_by_keys x l : key <$> insert_by key x l = insert_by id (key x) (key <$> l).
Proof. induction l as [|y l IH]; cbn; [done|]. case_match; cbn; [done|]. by rewrite IH. Qed.

Lemma sort_by_keys l : key <$> sort_by key l = sorted (key <$> l).
Proof. induction l as [|x l IH]; cbn; [done|]. by rewrite insert_by_keys, IH. Qed.

(** Sorting a sorted list changes nothing. *)
Lemma insert_by_head x l : Forall (key_le key x) l → insert_by key x l = x :: l.
Proof. intros [|y l' Hy _]; cbn; [done|]. unfold key_le, py_le in Hy. by rewrite Hy. Qed.

Lemma sort_by_id l : StronglySorted (key_le key) l → sort_by key l = l.
Proof. induction 1 as [|x l _ IH Hx]; cbn; [done|]. rewrite IH. by apply insert_by_head. Qed.
End sorting.

Section plans.
Context `{PyRepr, Sha256}.

Lemma keyed_case_Ok c k :
  keyed_case c = Ok k ↔ k.2 = c ∧ plan_sort_key c = Ok k.1.
Proof.
  unfold keyed_case. rewrite res_bind_Ok. destruct k as [key c']. split.
  - by intros (key' & Hk & [= -> ->]).
  - intros [Hc Hk]. cbn in *. subst. by exists key.
Qed.

Lemma keyed_values cases ks : Forall2 (λ c k, keyed_case c = Ok k) cases ks → ks.*2 = cases.
Proof.
  induction 1 as [|c k cases ks Hk _ IH]; [done|]. cbn. apply keyed_case_Ok in Hk as [-> _]. by rewrite IH.
Qed.

Lemma ordered_cases_perm cases o : ordered_cases cases = Ok o → o ≡ₚ cases.
Proof.
  unfold ordered_cases. rewrite res_bind_Ok. intros (ks & Hk%map_res_Ok & [= <-]).
  by rewrite (sort_by_perm fst ks), (keyed_values _ _ Hk).
Qed.

(** Ordering ordered cases changes nothing. *)
Lemma ordered_cases_id cases o : ordered_cases cases = Ok o → ordered_cases o = Ok o.
Proof.
  unfold ordered_cases. rewrite res_bind_Ok. intros (ks & Hk%map_res_Ok & [= <-]).
  pose proof (sort_by_perm fst ks) as Hp.
  assert (Hk' : Forall (λ k, keyed_case k.2 = Ok k) ks).
  { clear Hp. induction Hk as [|c k cases ks Hc _ IH]; [constructor|]. constructor; [|done].
    pose proof Hc as [<- _]%keyed_case_Ok. done. }
  assert (Hs : map_res keyed_case (sort_by fst ks).*2 = Ok (sort_by fst ks)).
  { rewrite <-Hp in Hk'. apply map_res_Ok. clear Hk Hp.
    induction Hk' as [|k l Hk' _ IH]; cbn; constructor; done. }
  rewrite Hs. cbn [res_bind]. rewrite (sort_by_id fst); [done|]. apply (sort_by_sorted fst).
Qed.

Lemma same_identity md o1 o2 :
  Forall2 same_value (VDict <$> o1) (VDict <$> o2) →
  same_value (VDict (plan_identity md o1)) (VDict (plan_identity md o2)).
Proof.
  intros HF. eapply same_dict; [reflexivity|]. unfold plan_identity, obj. cbn.
  constructor; [by split; constructor|]. constructor; [|constructor].
  split; [constructor|]. by apply same_list.
Qed.

(** Cases whose digests are equal are the same. *)
Definition cases_distinguished (cases : list (list (pyval * pyval))) : Prop :=
  (∀ c, c ∈ cases → floats_ok (VDict c) = true) ∧
  (∀ c1 c2 j1 j2, c1 ∈ cases → c2 ∈ cases → _json_safe (VDict c1) = Ok j1 →
     _json_safe (VDict c2) = Ok j2 → no_collision j1 j2).

Lemma plan_sort_key_same cases c1 c2 k :
  cases_distinguished cases → c1 ∈ cases → c2 ∈ cases →
  plan_sort_key c1 = Ok k → plan_sort_key c2 = Ok k → same_value (VDict c1) (VDict c2).
Proof.
  intros [Hf Hc] H1 H2 E1 E2. unfold plan_sort_key in *.
  apply res_bind_Ok in E1 as (x1 & (j1 & Ej1 & ->)%canonical_digest_Ok & [= <-]).
  apply res_bind_Ok in E2 as (x2 & (j2 & Ej2 & ->)%canonical_digest_Ok & [= _ _ Ed]).
  apply append_inj_l in Ed. symmetry in Ed.
  pose proof (Hc c1 c2 j1 j2 H1 H2 Ej1 Ej2 Ed) as ->.
  apply (json_safe_inj (VDict c1) (VDict c2) j2); auto.
Qed.

Lemma ordered_cases_same cases1 cases2 o1 :
  cases1 ≡ₚ cases2 → cases_distinguished cases1 → ordered_cases cases1 = Ok o1 →
  ∃ o2, ordered_cases cases2 = Ok o2 ∧ Forall2 same_value (VDict <$> o1) (VDict <$> o2).
Proof.
  intros Hp Hd. unfold ordered_cases. rewrite res_bind_Ok. intros (k1 & Hk1%map_res_Ok & [= <-]).
  apply Forall2_flip in Hk1 as Hk1'.
  destruct (Forall2_perm_r _ _ _ _ Hk1' Hp) as (k2 & Hpk & Hk2%Forall2_flip).
  exists ((sort_by fst k2).*2). rewrite (proj2 (map_res_Ok _ _ _) Hk2). split; [done|].
  assert (Hkeys : (sort_by fst k1).*1 = (sort_by fst k2).*1).
  { rewrite !sort_by_keys. by rewrite Hpk. }
  assert (Hin : ∀ ks cs, Forall2 (λ c k, keyed_case c = Ok k) cs ks →
    ∀ k, k ∈ sort_by fst ks → k.2 ∈ cs ∧ plan_sort_key k.2 = Ok k.1).
  { intros ks cs HF k Hin%elem_of_sort_by. rewrite <-(keyed_values _ _ HF).
    split; [by apply list_elem_of_fmap_2|].
    apply list_elem_of_lookup in Hin as [i Hi].
    destruct (Forall2_lookup_r _ _ _ _ _ HF Hi) as (c & _ & [<- Hc]%keyed_case_Ok). done. }
  pose proof (Hin _ _ Hk1) as Hin1. pose proof (Hin _ _ Hk2) as Hin2.
  revert Hkeys Hin1 Hin2. generalize (sort_by fst k1) (sort_by fst k2).
  intros s1. induction s1 as [|x s1 IH]; intros [|y s2] Hkeys Hin1 Hin2; cbn in Hkeys;
    try discriminate Hkeys; cbn; [constructor|]. injection Hkeys as Hxy Hkeys. constructor.
  - destruct (Hin1 x) as [Hx1 Hx2]; [left|]. destruct (Hin2 y) as [Hy1 Hy2]; [left|].
    rewrite <-Hp in Hy1. apply (plan_sort_key_same cases1 _ _ x.1); [done..|]. by rewrite Hxy.
  - apply IH; [done|..]; intros k Hk'; [apply Hin1|apply Hin2]; by right.
Qed.
End plans.

(** * Properties *)

#[local] Instance sample_repr : PyRepr := λ _, "<repr>".
#[local] Instance sample_sha : Sha256 := λ l, of_chars (reverse l).

(** C35 Canonical digests identify sidecar mappings: mappings that are the
    same up to the order of mapping entries and set members have the same
    digest, and when the hash function does not confuse their encodings,
    mappings with the same digest are the same up to that order. *)
Theorem canonical_digest_faithful `{Sha256} d1 d2 j1 j2 :
  _json_safe (VDict d1) = Ok j1 → _json_safe (VDict d2) = Ok j2 →
  floats_ok (VDict d1) = true → floats_ok (VDict d2) = true → no_collision j1 j2 →
  canonical_digest d1 = canonical_digest d2 ↔ same_value (VDict d1) (VDict d2).
Proof.
  intros E1 E2 F1 F2 Hc. unfold canonical_digest. rewrite E1, E2. cbn [res_bind]. split.
  - intros [= E]. apply append_inj_l, Hc in E as ->.
    by apply (json_safe_inj (VDict d1) (VDict d2) j2).
  - intros Hs. apply (json_safe_same _ _ _ Hs) in E1. rewrite E2 in E1. by injection E1 as ->.
Qed.
Lemma canonical_digest_faithful_witness :
  same_value (VDict [(VStr "a", VInt 1); (VInt 1, VFloat (S754_finite false 4503599627370496 (-52)))])
    (VDict [(VInt 1, VFloat (S754_finite false 4503599627370496 (-52))); (VStr "a", VInt 1)]) ∧
  canonical_digest [(VStr "a", VInt 1)] ≠ canonical_digest [(VStr "a", VStr "1")].
Proof.
  assert (Hsha : ∀ j1 j2, no_collision j1 j2).
  { intros j1 j2 E. unfold sha256_hex, sample_sha in E. apply of_chars_inj in E.
    apply (inj reverse) in E. by apply dumps_inj in E. }
  split.
  - refine (proj1 (canonical_digest_faithful _ _ _ _ _ _ _ _ (Hsha _ _)) _); vm_compute; reflexivity.
  - intros E.
    refine ((λ Hs, _) (proj1 (canonical_digest_faithful _ _ _ _ _ _ _ _ (Hsha _ _)) E));
      [|vm_compute; reflexivity..]. clear E. rename Hs into E.
    inversion E as [|? ? H|? ? H|? ? ? Hp H|? ? ? Hp H]; subst.
    apply Permutation_singleton_l in Hp. subst. inversion H as [|? ? ? ? [_ Hv] _]; subst. inversion Hv.
Defined.

(** The identity digest of a plan does not depend on the order in which
    its cases are given, when no two of them collide. *)
Theorem plan_digest_order_independent `{PyRepr, Sha256} md cases1 cases2 p1 :
  cases1 ≡ₚ cases2 → cases_distinguished cases1 → build_plan md cases1 = Ok p1 →
  ∃ p2, build_plan md cases2 = Ok p2 ∧ vget "plan_digest" p2 = vget "plan_digest" p1 ∧
    same_value (VDict p1) (VDict p2).
Proof.
  intros Hp Hd. unfold build_plan. rewrite res_bind_Ok. intros (o1 & Ho1 & E1).
  cbv zeta in E1. apply res_bind_Ok in E1 as (x & Hx & [= <-]).
  destruct (ordered_cases_same cases1 cases2 o1 Hp Hd Ho1) as (o2 & -> & HF). cbn [res_bind].
  apply canonical_digest_Ok in Hx as (j & Hj & ->).
  pose proof (json_safe_same _ _ _ (same_identity md o1 o2 HF) Hj) as Hj2.
  rewrite (proj2 (canonical_digest_Ok (plan_identity md o2) _) (ex_intro _ j (conj Hj2 eq_refl))).
  eexists. split; [done|]. split; [done|].
  eapply same_dict; [reflexivity|]. unfold plan_identity, obj. cbn.
  constructor; [by split; constructor|]. constructor; [split; [constructor|by apply same_list]|].
  constructor; [by split; constructor|constructor].
Qed.
Lemma plan_digest_order_independent_witness :
  let a := [(VStr "case_id", VStr "A")] in let b := [(VStr "case_id", VStr "B")] in
  ∃ p1 p2, build_plan "sha256:0" [a; b] = Ok p1 ∧ build_plan "sha256:0" [b; a] = Ok p2 ∧
    vget "plan_digest" p2 = vget "plan_digest" p1.
Proof.
  intros a b.
  destruct (build_plan "sha256:0" [a; b]) as [p1|e] eqn:E1; [|exfalso; vm_compute in E1; discriminate E1].
  assert (Hd : cases_distinguished [a; b]).
  { split.
    - intros c Hc. apply elem_of_cons in Hc as [->|Hc]; [reflexivity|].
      apply list_elem_of_singleton in Hc as ->. reflexivity.
    - intros c1 c2 j1 j2 _ _ _ _ E. unfold sha256_hex, sample_sha in E. apply of_chars_inj in E.
      apply (inj reverse) in E. by apply dumps_inj in E. }
  destruct (plan_digest_order_independent "sha256:0" [a; b] [b; a] p1 (Permutation_swap b a []) Hd E1)
    as (p2 & E2 & Hx & _).
  exists p1, p2. done.
Defined.
