(* ===== verification/LifecycleProofs.v ===== *)
(** LifecycleProofs: what a passing lifecycle gate guarantees, that a passing
    test-authored report is a plan the reconciliation accepts, and that a
    passing red proof serves as the basis of the final one. *)

From S2P Require Import Prelude Text Regex Dict PyValue Json Lifecycle DigestProofs.

(** * Findings of the mapping validation *)

Definition text_field (field : string) (d : list (pyval * pyval)) : Prop := _is_text (vget field d) = true.

Lemma append_missing_nil v field id : _append_missing v field id = [] ↔ _is_text v = true.
Proof. unfold _append_missing. by destruct (_is_text v). Qed.

Definition case_fields : list string := ["scenario_id"; "method"; "intent"; "observable"].
Lemma field_findings_nil case name :
  field_findings case name = [] ↔ ∀ f, f ∈ case_fields → text_field f case.
Proof.
  unfold field_findings, text_field. change ["scenario_id"; "method"; "intent"; "observable"] with case_fields.
  induction case_fields as [|f fs IH]; [split; [by intros _ ? ?%elem_of_nil|done]|].
  rewrite fmap_cons. cbn [mjoin list_join]. split.
  - intros [H1%append_missing_nil H2]%app_eq_nil g [->|Hg]%elem_of_cons; [done|]. by apply IH.
  - intros Hall. rewrite (proj2 (append_missing_nil _ _ _)) by (apply Hall; left).
    apply IH. intros g Hg. apply Hall. by right.
Qed.

(** A verification case that may enter a plan *)
Definition case_complete (required : maturity) (v : pyval) : Prop :=
  ∃ case name method, v = VDict case ∧ vget "case_id" case = VStr name ∧ nonblank name = true ∧
    (∀ f, f ∈ case_fields → text_field f case) ∧
    vget "method" case = VStr method ∧ method ∈ _SUPPORTED_METHODS ∧
    (_selector_required method required case = true → ∃ s, _validate_selector case name = inl s).

(** What is kept of a complete case *)
Definition kept_case (requirement_id : string) (required : maturity) (v : pyval)
    (c : list (pyval * pyval)) : Prop :=
  ∃ case name method sel, v = VDict case ∧ c = preserved_case requirement_id name method case sel ∧
    match sel with
    | Some s => _validate_selector case name = inl s
    | None => _selector_required method required case = false
    end.

Lemma validated_case_ok required requirement_id v :
  (∃ o, _validated_case v requirement_id required = Ok (o, [])) ↔ case_complete required v.
Proof.
  unfold case_complete. split.
  - intros [o E]. destruct v as [| | | | | | | | |case| |]; try discriminate E. cbn [_validated_case] in E.
    destruct (vget "case_id" case) as [| | | |name| | | | | | |] eqn:En; try discriminate E.
    destruct (nonblank name) eqn:Hb; [|discriminate E]. cbn [negb] in E. cbv zeta in E.
    apply res_bind_Ok in E as (supported & Hs & E).
    destruct (vget "method" case) as [| | | |method| | | | | | |] eqn:Em;
      try (injection E as _ E; by apply app_eq_nil in E as [_ ?]).
    destruct supported; cbn [negb] in E; [|injection E as _ E; by apply app_eq_nil in E as [_ ?]].
    apply in_set_true in Hs as (t & [= <-] & Ht). exists case, name, method.
    destruct (_selector_required method required case) eqn:Er.
    + destruct (_validate_selector case name) as [s|f] eqn:Es.
      * injection E as _ E. rewrite field_findings_nil in E. split_and!; try done. by exists s.
      * injection E as _ E. by apply app_eq_nil in E as [_ ?].
    + injection E as _ E. rewrite field_findings_nil in E. by split_and!.
  - intros (case & name & method & -> & En & Hb & Hf & Em & Hm & Hs). cbn [_validated_case].
    rewrite En, Hb, Em. cbn [negb]. cbv zeta.
    rewrite (proj2 (in_set_true _ _)) by (by exists method). cbn [res_bind negb].
    rewrite (proj2 (field_findings_nil case name) Hf).
    destruct (_selector_required method required case) eqn:Er; [|by eexists].
    destruct (Hs eq_refl) as [s ->]. by eexists.
Qed.

Lemma validated_case_kept required requirement_id v o :
  _validated_case v requirement_id required = Ok (o, []) → ∃ c, o = Some c ∧ kept_case requirement_id required v c.
Proof.
  intros E. pose proof (proj1 (validated_case_ok required requirement_id v) (ex_intro _ o E))
    as (case & name & method & -> & En & Hb & Hf & Em & Hm & Hs).
  cbn [_validated_case] in E. rewrite En, Hb, Em in E. cbn [negb] in E. cbv zeta in E.
  rewrite (proj2 (in_set_true _ _)) in E by (by exists method). cbn [res_bind negb] in E.
  rewrite (proj2 (field_findings_nil case name) Hf) in E. unfold kept_case.
  destruct (_selector_required method required case) eqn:Er.
  - destruct (Hs eq_refl) as [s Es]. rewrite Es in E. injection E as <-.
    eexists. split; [done|]. by exists case, name, method, (Some s).
  - injection E as <-. eexists. split; [done|]. by exists case, name, method, None.
Qed.

Lemma case_results_ok required id vs :
  (∃ cs, case_results vs id required = Ok (cs, [])) ↔ Forall (case_complete required) vs.
Proof.
  induction vs as [|v vs IH]; [split; [by constructor|by eexists]|]. cbn [case_results]. split.
  - intros (cs & E). apply res_bind_Ok in E as ([o f] & Ev & ([cs' f'] & Er & E)%res_bind_Ok).
    cbn [fst snd] in E. injection E as _ [-> ->]%app_eq_nil. constructor.
    + apply (validated_case_ok required id). by exists o.
    + apply IH. by exists cs'.
  - intros [Hv Hvs]%Forall_cons. apply (validated_case_ok required id) in Hv as [o ->].
    apply IH in Hvs as [cs ->]. cbn. by eexists.
Qed.

Lemma case_results_kept required id vs cs :
  case_results vs id required = Ok (cs, []) → Forall2 (kept_case id required) vs cs.
Proof.
  revert cs. induction vs as [|v vs IH]; intros cs; cbn [case_results]; [intros [= <-]; constructor|].
  intros ([o f] & Ev & ([cs' f'] & Er & E)%res_bind_Ok)%res_bind_Ok. cbn [fst snd] in E.
  injection E as <- [-> ->]%app_eq_nil. destruct (validated_case_kept _ _ _ _ Ev) as (c & -> & Hc).
  constructor; [done|by apply IH].
Qed.

(** A requirement entry that may enter a plan *)
Definition requirement_complete (required : maturity) (kv : pyval * pyval) : Prop :=
  ∃ id r touchpoints cases, kv = (VStr id, VDict r) ∧ nonblank id = true ∧ text_field "rationale" r ∧
    vget "touchpoints" r = VList touchpoints ∧ touchpoints ≠ [] ∧ forallb touchpoint_ok touchpoints = true ∧
    vget "verification_cases" r = VList cases ∧ cases ≠ [] ∧ Forall (case_complete required) cases.

Lemma touchpoint_findings_nil r id :
  _touchpoint_findings r id = [] ↔
  ∃ ts, vget "touchpoints" r = VList ts ∧ ts ≠ [] ∧ forallb touchpoint_ok ts = true.
Proof.
  unfold _touchpoint_findings. split.
  - destruct (vget "touchpoints" r) as [| | | | | | |[|t ts]| | | |] eqn:E; try discriminate.
    intros Hf. exists (t :: ts). by destruct (forallb touchpoint_ok (t :: ts)).
  - intros (ts & -> & Hne & Hf). destruct ts as [|t ts]; [done|]. by rewrite Hf.
Qed.

Lemma verification_case_results_ok required r id :
  (∃ cs, _verification_case_results r id required = Ok (cs, [])) ↔
  ∃ vs, vget "verification_cases" r = VList vs ∧ vs ≠ [] ∧ Forall (case_complete required) vs.
Proof.
  unfold _verification_case_results. split.
  - destruct (vget "verification_cases" r) as [| | | | | | |[|v vs]| | | |] eqn:E;
      try (intros [? ?]; discriminate).
    intros H%case_results_ok. by exists (v :: vs).
  - intros (vs & -> & Hne & Hf). destruct vs as [|v vs]; [done|]. by apply case_results_ok.
Qed.

Lemma requirement_cases_ok required kv :
  (∃ cs, _requirement_cases kv.1 kv.2 required = Ok (cs, [])) ↔ requirement_complete required kv.
Proof.
  unfold requirement_complete. split.
  - intros [cs E]. destruct kv as [k r]. cbn [fst snd] in E.
    destruct k as [| | | |id| | | | | | |], r as [| | | | | | | | |r| |]; try discriminate E.
    cbn [_requirement_cases] in E. destruct (nonblank id) eqn:Hb; [|discriminate E]. cbn [negb] in E.
    apply res_bind_Ok in E as ([cs' f] & Ev & E). cbn [fst snd] in E.
    injection E as _ [E1 [E2 ->]%app_eq_nil]%app_eq_nil.
    apply append_missing_nil in E1. apply touchpoint_findings_nil in E2 as (ts & ? & ? & ?).
    destruct (proj1 (verification_case_results_ok required r id) (ex_intro _ _ Ev)) as (vs & ? & ? & ?).
    by exists id, r, ts, vs.
  - intros (id & r & ts & vs & -> & Hb & Hr & Ht & Htn & Hto & Hv & Hvn & Hvo).
    cbn [fst snd _requirement_cases]. rewrite Hb. cbn [negb].
    destruct (proj2 (verification_case_results_ok required r id)) as [cs ->]; [by exists vs|].
    cbn [res_bind fst snd]. rewrite (proj2 (append_missing_nil _ _ _) Hr).
    rewrite (proj2 (touchpoint_findings_nil r id)) by (by exists ts). by eexists.
Qed.

Lemma requirements_cases_ok required items :
  (∃ cs, requirements_cases items required = Ok (cs, [])) ↔ Forall (requirement_complete required) items.
Proof.
  induction items as [|[k r] items IH]; [split; [by constructor|by eexists]|].
  cbn [requirements_cases]. split.
  - intros (cs & E). apply res_bind_Ok in E as ([o f] & Ev & ([cs' f'] & Er & E)%res_bind_Ok).
    cbn [fst snd] in E. injection E as _ [-> ->]%app_eq_nil. constructor.
    + apply requirement_cases_ok. by exists o.
    + apply IH. by exists cs'.
  - intros [Hv Hvs]%Forall_cons. apply requirement_cases_ok in Hv as [o Ho]. cbn [fst snd] in Ho.
    rewrite Ho. apply IH in Hvs as [cs ->]. cbn. by eexists.
Qed.

Lemma filter_none {A} (P : A → Prop) `{∀ x, Decision (P x)} l : (∀ x, x ∈ l → ¬ P x) → filter P l = [].
Proof.
  induction l as [|x l IH]; intros Hn; [done|]. rewrite filter_cons, decide_False by (apply Hn; left).
  apply IH. intros y Hy. apply Hn. by right.
Qed.
Lemma twice_counted l i j x : l !! i = Some x → l !! j = Some x → i < j → 1 < count_occ_of x l.
Proof.
  intros Hi Hj Hlt. unfold count_occ_of.
  rewrite <-(take_drop j l), filter_app, length_app.
  rewrite (drop_S l x j Hj), filter_cons, decide_True by done. cbn [length].
  assert (Hin : x ∈ filter (λ y, y = x) (take j l)).
  { apply list_elem_of_filter. split; [done|]. apply (list_elem_of_lookup_2 _ i).
    by rewrite lookup_take_lt. }
  destruct (filter (λ y, y = x) (take j l)); [by apply elem_of_nil in Hin|]. cbn. lia.
Qed.

Lemma count_occ_of_nil_dup l :
  filter (λ s, 1 < count_occ_of s l) l = [] ↔ NoDup l.
Proof.
  split.
  - intros Hf. apply NoDup_alt. intros i j x Hi Hj.
    assert (Hc : ¬ 1 < count_occ_of x l).
    { intros Hc. apply (filter_nil_not_elem_of _ _ _ Hf Hc). by eapply list_elem_of_lookup_2. }
    destruct (Nat.lt_trichotomy i j) as [Hij|[?|Hij]]; [|done|]; exfalso; apply Hc;
      [by apply (twice_counted l i j x)|by apply (twice_counted l j i x)].
  - intros Hnd. apply filter_none. intros x Hx. unfold count_occ_of. intros Hlt.
    assert (Hs : NoDup (filter (λ y, y = x) l)) by by apply NoDup_filter.
    destruct (filter (λ y, y = x) l) as [|a [|b k]] eqn:E; cbn in Hlt; [lia..|].
    assert (Ha : a ∈ filter (λ y, y = x) l) by (rewrite E; left).
    assert (Hb : b ∈ filter (λ y, y = x) l) by (rewrite E; right; left).
    apply list_elem_of_filter in Ha as [-> _], Hb as [-> _].
    apply NoDup_cons in Hs as [Hn _]. apply Hn. left.
Qed.

Lemma set_list_nil_iff (l : list string) : sorted_set (list_to_set l : gset string) = [] ↔ l = [].
Proof.
  rewrite sorted_set_nil_iff. split; [|by intros ->].
  intros E. destruct l as [|x l]; [done|]. exfalso.
  assert (x ∈ (∅ : gset string)) as []%elem_of_empty. rewrite <-E. apply elem_of_list_to_set. left.
Qed.

Lemma duplicate_selector_findings_nil cases :
  _duplicate_selector_findings cases = [] ↔ NoDup (node_ids cases).
Proof.
  unfold _duplicate_selector_findings. cbv zeta. rewrite <-count_occ_of_nil_dup, fmap_nil_iff.
  apply set_list_nil_iff.
Qed.

(** A sidecar mapping with nothing to report; [cases] are its plan cases. *)
Definition mapping_complete `{PyRepr} (required : maturity) (mapping : list (pyval * pyval))
    (cases : list (list (pyval * pyval))) : Prop :=
  vget "schema_version" mapping = VStr "2" ∧
  ∃ requirements, vget "requirements" mapping = VDict requirements ∧ requirements ≠ [] ∧
    Forall (requirement_complete required) requirements ∧
    requirements_cases (sort_by (λ kv, py_str kv.1) requirements) required = Ok (cases, []) ∧
    NoDup (node_ids cases).

Lemma is_str_true s v : is_str s v = true ↔ v = VStr s.
Proof. unfold is_str. apply bool_decide_eq_true. Qed.

Lemma validated_cases_ok `{PyRepr} required mapping cases :
  _validated_cases mapping required = Ok (cases, []) ↔ mapping_complete required mapping cases.
Proof.
  unfold _validated_cases, mapping_complete.
  destruct (is_str "2" (vget "schema_version" mapping)) eqn:Ev; cbn [negb].
  2:{ split; [done|]. intros [E _]. apply is_str_true in E. congruence. }
  apply is_str_true in Ev. split.
  - destruct (vget "requirements" mapping) as [| | | | | | | | |[|kv d]| |] eqn:Er; try discriminate.
    intros ([cs fs] & E & [= <- Hn])%res_bind_Ok. cbn [fst snd] in Hn.
    apply set_list_nil_iff, app_eq_nil in Hn as [-> Hn].
    apply duplicate_selector_findings_nil in Hn. split; [done|]. exists (kv :: d).
    split_and!; try done.
    rewrite <-(sort_by_perm (λ kv, py_str kv.1) (kv :: d)). apply requirements_cases_ok. by exists cs.
  - intros [_ (d & Er & Hne & _ & E & Hnd)]. rewrite Er. destruct d as [|kv d]; [done|].
    rewrite E. cbn [res_bind fst snd]. by rewrite (proj2 (duplicate_selector_findings_nil cases) Hnd).
Qed.

(** * Acceptance *)

Definition acceptance_valid (review : option (list (pyval * pyval))) (md : string) : Prop :=
  ∃ ev, review = Some ev ∧
    (∀ f, f ∈ ["reviewer_id"; "reviewer_role"; "recorded_at"; "reference"] → text_field f ev) ∧
    vget "decision" ev = VStr "accepted" ∧ vget "mapping_digest" ev = VStr md.

Lemma valid_acceptance_nil review md : _valid_acceptance review md = [] ↔ acceptance_valid review md.
Proof.
  unfold _valid_acceptance, acceptance_valid. destruct review as [ev|].
  2:{ split; [done|]. by intros (? & ? & _). }
  split.
  - intros [H1 [H2 H3]%app_eq_nil]%app_eq_nil. exists ev. split; [done|].
    destruct (is_str "accepted" _) eqn:E2; [|done]. destruct (is_str md _) eqn:E3; [|done].
    apply is_str_true in E2, E3. split; [|done]. intros f Hf. unfold text_field.
    destruct (_is_text (vget f ev)) eqn:E; [done|]. exfalso. apply fmap_nil_inv in H1.
    assert (f ∈ @nil string) as []%elem_of_nil. rewrite <-H1. by apply list_elem_of_filter.
  - intros (ev' & [= <-] & Hf & E2 & E3). rewrite (proj2 (is_str_true _ _) E2), (proj2 (is_str_true _ _) E3).
    rewrite !app_nil_r. apply fmap_nil_iff, filter_none. intros f Hin. rewrite (Hf f Hin). done.
Qed.

(** * Reports *)

Section reports.
Context `{PyRepr, Sha256}.

Lemma lifecycle_report_inv required observed md findings cases r :
  _lifecycle_report required observed md findings cases = Ok r →
  ∃ plan, build_plan md cases = Ok plan ∧
    vget "gate_decision" r = VStr (if passed findings observed required then "pass" else "fail") ∧
    vget "observed_maturity" r = VStr (maturity_text observed) ∧
    vget "mapping_digest" r = VStr md ∧ vget "plan" r = VDict plan.
Proof.
  unfold _lifecycle_report. cbv zeta.
  destruct (lifecycle_status observed) as [ds ie]. rewrite res_bind_Ok.
  intros (plan & Hp & [= <-]). exists plan. by split_and!.
Qed.

Lemma lifecycle_report_total required observed md findings cases plan :
  build_plan md cases = Ok plan →
  ∃ r, _lifecycle_report required observed md findings cases = Ok r.
Proof.
  intros Hp. unfold _lifecycle_report. cbv zeta. destruct (lifecycle_status observed) as [ds ie].
  rewrite Hp. by eexists.
Qed.

Lemma build_plan_inv md cases plan :
  build_plan md cases = Ok plan →
  ∃ o x, ordered_cases cases = Ok o ∧ canonical_digest (plan_identity md o) = Ok x ∧
    vget "cases" plan = VList (VDict <$> o) ∧ vget "mapping_digest" plan = VStr md ∧
    vget "plan_digest" plan = VStr x.
Proof.
  unfold build_plan. rewrite res_bind_Ok. intros (o & Ho & E). cbv zeta in E.
  apply res_bind_Ok in E as (x & Hx & [= <-]). exists o, x. by split_and!.
Qed.

Lemma maturity_text_inj m1 m2 : maturity_text m1 = maturity_text m2 → m1 = m2.
Proof. by destruct m1, m2. Qed.

Lemma parse_required_Some s m : parse_required s = Some m → s = maturity_text m ∧ m ≠ Incomplete.
Proof.
  unfold parse_required. intros Hf. apply find_some in Hf as [Hin E%String.eqb_eq].
  split; [done|]. intros ->. cbn in Hin. intuition discriminate.
Qed.

(** What [observe] reports as passing *)
Lemma observe_passed required md review findings obs fs :
  required ≠ Incomplete → observe required md review findings = (obs, fs) →
  passed fs obs required = true ↔
    findings = [] ∧ required ∈ [Planned; Accepted; TestAuthored] ∧
    (required ≠ Planned → acceptance_valid review md).
Proof.
  intros Hi E. rewrite <-valid_acceptance_nil. unfold observe in E. revert E.
  generalize (_valid_acceptance review md). intros af E. unfold passed.
  rewrite andb_true_iff, bool_decide_eq_true, Z.leb_le.
  destruct findings as [|f findings].
  - destruct required; try done; cbn in E.
    + injection E as <- <-. cbn. split; [intros _|by split; [|lia]].
      split_and!; [done|set_solver|done].
    + destruct af as [|a af]; cbn in E; injection E as <- <-; cbn.
      * split; [intros _|by split; [|lia]]. split_and!; [done|set_solver|done].
      * split; [by intros [? _]|]. intros (_ & _ & Ha). by discriminate Ha.
    + destruct af as [|a af]; cbn in E; injection E as <- <-; cbn.
      * split; [intros _|by split; [|lia]]. split_and!; [done|set_solver|done].
      * split; [by intros [? _]|]. intros (_ & _ & Ha). by discriminate Ha.
    + split; [|intros (_ & Hin & _); set_solver].
      intros [_ Hle]. destruct af; injection E as <- <-; cbn in Hle; lia.
    + split; [|intros (_ & Hin & _); set_solver].
      intros [_ Hle]. destruct af; injection E as <- <-; cbn in Hle; lia.
  - destruct required; cbn in E; try done; injection E as <- <-; cbn;
      (split; [intros [E1 E2]; discriminate E1|by intros [? _]]).
Qed.

Lemma observe_observed required md review findings obs fs :
  required ≠ Incomplete → observe required md review findings = (obs, fs) →
  passed fs obs required = true → obs = required ∧ fs = [].
Proof.
  intros Hi E. unfold observe in E. revert E.
  generalize (_valid_acceptance review md). intros af E. unfold passed.
  rewrite andb_true_iff, bool_decide_eq_true, Z.leb_le. intros [-> Hle].
  destruct required; try done; destruct findings, af; lazy in E; simplify_eq; try done;
    cbn in Hle; lia.
Qed.

(** * Evaluation *)

Lemma evaluate_mapping_inv mapping req review r :
  evaluate_mapping mapping req review = Ok r →
  ∃ required, parse_required req = Some required ∧
  ((∃ md cases findings obs fs, canonical_digest (_mapping_payload mapping) = Ok md ∧
      _validated_cases mapping required = Ok (cases, findings) ∧
      observe required md review findings = (obs, fs) ∧
      _lifecycle_report required obs md fs cases = Ok r) ∨
   (∃ e md msg, canonical_digest (_mapping_payload mapping) = Err e ∧
      _lifecycle_report required Incomplete md [msg] [] = Ok r)).
Proof.
  unfold evaluate_mapping. destruct (parse_required req) as [required|]; [|done].
  intros E. exists required. split; [done|].
  destruct (canonical_digest (_mapping_payload mapping)) as [md|e].
  - left. apply res_bind_Ok in E as ([cases findings] & Ev & E). cbn [fst snd] in E.
    destruct (observe required md review findings) as [obs fs] eqn:Eo.
    by exists md, cases, findings, obs, fs.
  - right. destruct e; try done. apply res_bind_Ok in E as (md & _ & E). by exists (ValueError msg), md, msg.
Qed.

(** A sidecar mapping that may pass at a maturity *)
Definition evaluation_passes (mapping : list (pyval * pyval)) (required : maturity)
    (review : option (list (pyval * pyval))) (md : string) (cases : list (list (pyval * pyval))) : Prop :=
  required ∈ [Planned; Accepted; TestAuthored] ∧
  canonical_digest (_mapping_payload mapping) = Ok md ∧
  mapping_complete required mapping cases ∧
  (required ≠ Planned → acceptance_valid review md).

Lemma evaluate_gate_spec mapping req review r :
  evaluate_mapping mapping req review = Ok r →
  (vget "gate_decision" r = VStr "pass" ↔
     ∃ required md cases, parse_required req = Some required ∧
       evaluation_passes mapping required review md cases) ∧
  (vget "gate_decision" r = VStr "pass" →
     ∃ required md cases plan, parse_required req = Some required ∧
       evaluation_passes mapping required review md cases ∧
       vget "observed_maturity" r = VStr req ∧ vget "mapping_digest" r = VStr md ∧
       build_plan md cases = Ok plan ∧ vget "plan" r = VDict plan).
Proof.
  intros E. apply evaluate_mapping_inv in E as (required & Hreq & [Hok|Hbad]).
  - destruct Hok as (md & cases & findings & obs & fs & Hmd & Hv & Ho & Hr).
    apply lifecycle_report_inv in Hr as (plan & Hp & Hg & Hobs & Hrmd & Hplan).
    pose proof (parse_required_Some _ _ Hreq) as [-> Hi].
    pose proof (observe_passed required md review findings obs fs Hi Ho) as Hpass.
    pose proof (observe_observed required md review findings obs fs Hi Ho) as Hobserved.
    assert (Hfwd : passed fs obs required = true → evaluation_passes mapping required review md cases).
    { intros (-> & Hin & Hacc)%Hpass. split_and!; try done. by apply validated_cases_ok. }
    rewrite Hg. destruct (passed fs obs required) eqn:Ep.
    + specialize (Hfwd eq_refl). destruct (Hobserved eq_refl) as [-> _].
      split; [split; [|done]; intros _; by exists required, md, cases|].
      intros _. exists required, md, cases, plan. by split_and!.
    + split; [|done]. split; [done|]. intros (required' & md' & cases' & Hr' & Hin & Hmd' & Hc & Hacc).
      exfalso. rewrite Hreq in Hr'. injection Hr' as <-. rewrite Hmd in Hmd'. injection Hmd' as <-. apply validated_cases_ok in Hc.
      rewrite Hv in Hc. injection Hc as <- ->. by assert (false = true) by by apply Hpass.
  - destruct Hbad as (e & md & msg & Hmd & Hr).
    apply lifecycle_report_inv in Hr as (plan & Hp & Hg & _).
    assert (passed [msg] Incomplete required = false) as Ef by done. rewrite Ef in Hg. rewrite Hg.
    split; [|done]. split; [done|]. intros (? & md' & ? & _ & _ & Hmd' & _). congruence.
Qed.
End reports.

(** * Selectors *)

Lemma selector_nonblank s : selector_matches s = true → nonblank s = true.
Proof.
  unfold selector_matches, fullmatch. rewrite andb_true_iff. intros [_ Hm].
  rewrite <-(of_chars_chars s). destruct (chars s) as [|c l]; [done|].
  apply nonblank_head. unfold _PYTEST_SELECTOR_PATTERN, rseqs, rplus in Hm. cbn [foldr rmatch] in Hm.
  apply andb_true_iff in Hm as [Hc _].
  destruct c as [[] [] [] [] [] [] [] []]; try reflexivity; vm_compute in Hc; discriminate Hc.
Qed.

Lemma validate_selector_inl case name s :
  _validate_selector case name = inl s →
  sel_runner s = "pytest" ∧ selector_matches (sel_node_id s) = true ∧
  ∀ case' name', vget "selector" case' =
      VDict (obj [("runner", VStr (sel_runner s)); ("node_id", VStr (sel_node_id s))]) →
    _validate_selector case' name' = inl s.
Proof.
  unfold _validate_selector. destruct (vget "selector" case) as [| | | | | | | | |sel| |]; try done.
  destruct (is_str "pytest" (vget "runner" sel)); cbn [negb]; [|done]. cbv zeta.
  destruct (vget "node_id" sel) as [| | | |node_id| | | | | | |]; try done.
  destruct (selector_matches node_id) eqn:Em; cbn [negb]; [|done].
  destruct (path_is_absolute _ || _ || _) eqn:Ep; [done|]. intros [= <-]. cbn [sel_runner sel_node_id].
  split; [done|]. split; [done|]. intros case' name' ->.
  change (vget "runner" _) with (VStr "pytest"). change (vget "node_id" _) with (VStr node_id).
  change (is_str "pytest" (VStr "pytest")) with true. cbn [negb]. by rewrite Em, Ep.
Qed.

Lemma vget_with_touchpoints k r c : k ≠ "touchpoints" → vget k (with_touchpoints r c) = vget k c.
Proof.
  intros Hk. unfold with_touchpoints. destruct (vget "touchpoints" r); try done.
  unfold vget. rewrite dict_get_set_ne; [done|]. by intros [=].
Qed.

(** What is known of a case of a plan: an exact test names its selector. *)
Definition plan_case_ok (c : list (pyval * pyval)) : Prop :=
  is_test_case c = true →
  ∃ s, (∀ name, _validate_selector c name = inl s) ∧ vget "node_id" c = VStr (sel_node_id s) ∧
    nonblank (sel_node_id s) = true.

Lemma kept_case_ok id required v c r :
  (MATURITY_ORDER TestAuthored <= MATURITY_ORDER required)%Z →
  kept_case id required v c → plan_case_ok (with_touchpoints r c).
Proof.
  intros Hreq (case & name & method & sel & _ & -> & Hsel) Ht.
  assert (Hm : method = "test").
  { unfold is_test_case in Ht. rewrite vget_with_touchpoints in Ht by done.
    apply is_str_true in Ht. by destruct sel; injection Ht. }
  subst method. destruct sel as [s|].
  2:{ exfalso. unfold _selector_required in Hsel. apply Z.leb_le in Hreq.
      rewrite Hreq in Hsel. discriminate Hsel. }
  destruct (validate_selector_inl _ _ _ Hsel) as (Hr & Hm & Hagain). exists s. split_and!.
  - intros name'. apply Hagain. by rewrite vget_with_touchpoints.
  - by rewrite vget_with_touchpoints.
  - by apply selector_nonblank.
Qed.

(** Every case of a complete mapping is a kept one with its touchpoints. *)
Lemma requirements_cases_kept items required cs :
  requirements_cases items required = Ok (cs, []) →
  Forall (λ c, ∃ id v r k, kept_case id required v k ∧ c = with_touchpoints r k) cs.
Proof.
  revert cs. induction items as [|[k r] items IH]; intros cs; cbn [requirements_cases].
  { intros [= <-]. constructor. }
  intros ([c1 f1] & E1 & ([c2 f2] & E2 & E)%res_bind_Ok)%res_bind_Ok. cbn [fst snd] in E.
  injection E as <- [-> ->]%app_eq_nil. apply Forall_app_2; [|by apply IH].
  destruct (proj1 (requirement_cases_ok required (k, r)) (ex_intro _ c1 E1))
    as (id & d & ts & vs & [= -> ->] & Hb & _ & _ & _ & _ & Hv & Hne & _).
  cbn [_requirement_cases] in E1. rewrite Hb in E1. cbn [negb] in E1.
  apply res_bind_Ok in E1 as ([cs f] & Ec & E1). cbn [fst snd] in E1.
  injection E1 as <- [_ [_ ->]%app_eq_nil]%app_eq_nil.
  unfold _verification_case_results in Ec. rewrite Hv in Ec. destruct vs as [|v vs]; [done|].
  apply case_results_kept in Ec. apply Forall_fmap, Forall_forall. intros c Hc.
  apply list_elem_of_lookup in Hc as [i Hi].
  destruct (Forall2_lookup_r _ _ _ _ _ Ec Hi) as (v' & _ & Hk). by exists id, v', d, c.
Qed.
Lemma requirements_cases_plan items required cs :
  (MATURITY_ORDER TestAuthored <= MATURITY_ORDER required)%Z →
  requirements_cases items required = Ok (cs, []) → Forall plan_case_ok cs.
Proof.
  intros Hreq Hcs%requirements_cases_kept. eapply Forall_impl; [exact Hcs|].
  intros c (id & v & r & k & Hk & ->). by eapply kept_case_ok.
Qed.

(** * Accepted plans *)

(** The exact-test selector of a case *)
Definition selector_of `{PyRepr} (c : list (pyval * pyval)) : string := py_str (vget "node_id" c).

Lemma execution_selectors `{PyRepr} cases :
  Forall plan_case_ok cases →
  ∃ sels, map_res execution_selector (filter (λ c, is_test_case c = true) cases) = Ok sels ∧
    sels = selector_of <$> filter (λ c, is_test_case c = true) cases ∧
    sels `sublist_of` node_ids cases.
Proof.
  induction 1 as [|c cases Hc _ (sels & E & Es & Hs)]; [by exists []|].
  rewrite filter_cons. destruct (decide (is_test_case c = true)) as [Ht|Ht].
  - destruct (Hc Ht) as (s & Hv & Hn & Hb). exists (sel_node_id s :: sels). cbn [map_res fmap list_fmap].
    assert (Ex : execution_selector c = Ok (sel_node_id s)).
    { unfold execution_selector. rewrite Hv, Hn. by rewrite bool_decide_false by (by intros []). }
    rewrite Ex, E, Es. cbn [res_bind]. split; [done|]. split; [unfold selector_of at 2; by rewrite Hn|].
    unfold node_ids. cbn [omap list_omap]. rewrite Hn, Hb. constructor. by rewrite <-Es.
  - exists sels. split; [done|]. split; [done|]. unfold node_ids. cbn [omap list_omap].
    destruct (match vget "node_id" c with VStr s => _ | _ => _ end); [by apply sublist_cons|done].
Qed.

Section accepted.
Context `{PyRepr, Sha256}.

Lemma mapping_cases_dicts o : mapping_cases (VDict <$> o) = o.
Proof. unfold mapping_cases. induction o as [|c o IH]; [done|]. cbn. by rewrite IH. Qed.

Lemma build_plan_ordered md cases o :
  ordered_cases cases = Ok o → build_plan md o = build_plan md cases.
Proof. intros Ho. unfold build_plan. by rewrite Ho, (ordered_cases_id _ _ Ho). Qed.

(** A passing test-authored report with a digest of the documented shape, at
    least one exact test and distinct selectors is accepted as it is. *)
Lemma plan_cases_accepted r md cases plan :
  vget "gate_decision" r = VStr "pass" → vget "observed_maturity" r = VStr "test-authored" →
  vget "plan" r = VDict plan → build_plan md cases = Ok plan →
  is_sha256_text md = true → (∀ x, is_sha256_text (sha256_digest x) = true) →
  Forall plan_case_ok cases → NoDup (node_ids cases) → Exists (λ c, is_test_case c = true) cases →
  ∃ o, ordered_cases cases = Ok o ∧
    _plan_cases r = Ok {| pl_mapping_digest := md; pl_plan_digest := py_str (vget "plan_digest" plan);
                          pl_plan := plan; pl_cases := filter (λ c, is_test_case c = true) o |}.
Proof.
  intros Hg Ho Hp Hb Hmd Hsha Hok Hnd Hex.
  destruct (build_plan_inv md cases plan Hb) as (o & x & Hord & Hx & Hcs & Hpmd & Hpd).
  exists o. split; [done|]. pose proof (ordered_cases_perm _ _ Hord) as Hperm.
  unfold _plan_cases, _trusted_plan.
  rewrite Hg, Ho, (proj2 (is_str_true _ _) eq_refl), (proj2 (is_str_true _ _) eq_refl).
  cbn [negb orb]. cbv zeta. rewrite Hp, Hcs, Hpmd, Hpd. cbn [_is_digest].
  apply canonical_digest_Ok in Hx as (j & _ & ->). rewrite Hmd, Hsha. cbn [negb orb res_bind].
  unfold _consistent_plan_cases. rewrite Hcs, Hpmd. cbv zeta. rewrite mapping_cases_dicts.
  rewrite (build_plan_ordered md cases o Hord), Hb. cbn [res_bind].
  rewrite bool_decide_false by (by intros []). rewrite length_fmap, bool_decide_false by (by intros []).
  cbn [orb].
  assert (Hne : filter (λ c, is_test_case c = true) o ≠ []).
  { apply Exists_exists in Hex as (c & Hc & Ht). rewrite <-Hperm in Hc. intros E.
    apply (filter_nil_not_elem_of _ _ _ E Ht Hc). }
  rewrite bool_decide_false by (by intros ->). cbn [res_bind].
  unfold _execution_cases. cbv zeta.
  rewrite <-Hperm in Hok. destruct (execution_selectors o Hok) as (sels & Es & _ & Hsub).
  assert (Hnds : NoDup sels).
  { eapply sublist_NoDup; [|exact Hsub]. unfold node_ids. by rewrite (omap_Permutation _ _ _ Hperm). }
  destruct (filter _ o) as [|c l] eqn:Ef; [done|]. rewrite Es. cbn [res_bind].
  case_bool_decide; [|done]. cbn [res_bind]. by rewrite Hpd.
Qed.
End accepted.

(** * Reconciliation *)

Section reconciliation.
Context `{PyRepr, Sha256, ParseXml}.

(** The run of a stage proves a plan: the file was read, every test case of it
    names a selector, and each selector of the plan has exactly one outcome,
    the expected one. *)
Definition run_proves (stage : run_stage) (junit : junit_file) (pl : plan_cases) : Prop :=
  ∃ results digest, _junit_results junit = (results, [], digest) ∧
    ∀ c, c ∈ pl_cases pl → bucket (selector_of c) results = [expected_outcome stage].

Lemma selector_result_finding_None s os e m : _selector_result_finding s os e m = None ↔ os = [e].
Proof.
  unfold _selector_result_finding. destruct os as [|o [|o' os]]; try done.
  destruct (String.eqb_spec o e) as [->|Hne]; split; try done. intros [= ->]. done.
Qed.

Lemma selector_result_findings_nil (selectors : list string) results stage :
  _selector_result_findings (list_to_set selectors) results stage = [] ↔
  ∀ s, s ∈ selectors → bucket s results = [expected_outcome stage].
Proof.
  unfold _selector_result_findings.
  assert (Hnil : ∀ (f : string → option string) l, omap f l = [] ↔ ∀ x, x ∈ l → f x = None).
  { intros f l. induction l as [|x l IH]; [split; [by intros _ ? ?%elem_of_nil|done]|].
    cbn. destruct (f x) as [y|] eqn:E.
    - split; [done|]. intros Hf. rewrite Hf in E; [done|left].
    - rewrite IH. split; [intros Hf z [->|Hz]%elem_of_cons; auto|]. intros Hf z Hz. apply Hf. by right. }
  rewrite Hnil. split.
  - intros Hf s Hs. apply (selector_result_finding_None s _ _ (stage_text stage)), Hf.
    by rewrite elem_of_sorted_set, elem_of_list_to_set.
  - intros Hf s. rewrite elem_of_sorted_set, elem_of_list_to_set. intros Hs.
    by apply selector_result_finding_None, Hf.
Qed.

(** The provenance a stage requires *)
Definition red_proof_for (proof : pyval) (pl : plan_cases) : Prop :=
  ∃ p, proof = VDict p ∧ vget "observed_maturity" p = VStr "red" ∧ vget "gate_decision" p = VStr "pass" ∧
    vget "mapping_digest" p = VStr (pl_mapping_digest pl) ∧
    vget "plan_digest" p = VStr (pl_plan_digest pl).
Definition legacy_ledger_for (proof : pyval) (pl : plan_cases) : Prop :=
  ∃ p, proof = VDict p ∧ vget "schema_version" p = VStr "1" ∧ vget "kind" p = VStr "legacy-tdd-ledger" ∧
    _is_text (vget "change_id" p) = true ∧ _is_digest (vget "ledger_digest" p) = true ∧
    vget "mapping_digest" p = VStr (pl_mapping_digest pl) ∧
    vget "plan_digest" p = VStr (pl_plan_digest pl).
Definition provenance_ok (stage : run_stage) (ctx : ReconciliationContext) (pl : plan_cases) : Prop :=
  match stage with
  | RedStage => rc_legacy_tdd_evidence ctx = VNone
  | FinalStage =>
      (rc_legacy_tdd_evidence ctx = VNone ∧ red_proof_for (rc_prior_red_proof ctx) pl) ∨
      (rc_prior_red_proof ctx = VNone ∧ legacy_ledger_for (rc_legacy_tdd_evidence ctx) pl)
  end.

Lemma prior_red_proof_nil proof pl :
  _prior_red_proof_findings proof (pl_mapping_digest pl) (pl_plan_digest pl) = Ok [] ↔ red_proof_for proof pl.
Proof.
  unfold _prior_red_proof_findings, red_proof_for. split.
  - destruct proof; try discriminate. cbn [as_evidence res_bind].
    destruct (_ && _) eqn:E; [|done]. intros _. bool_hyps.
    repeat match goal with H : is_str _ _ = true |- _ => apply is_str_true in H end. by eexists.
  - intros (p & -> & E1 & E2 & E3 & E4). cbn [as_evidence res_bind].
    by rewrite E1, E2, E3, E4, !(proj2 (is_str_true _ _) eq_refl).
Qed.

Lemma legacy_evidence_nil proof pl :
  _legacy_tdd_evidence_findings proof (pl_mapping_digest pl) (pl_plan_digest pl) = Ok [] ↔
  legacy_ledger_for proof pl.
Proof.
  unfold _legacy_tdd_evidence_findings, legacy_ledger_for. split.
  - destruct proof; try discriminate. cbn [as_evidence res_bind].
    destruct (_ && _) eqn:E; [|done]. intros _. bool_hyps.
    repeat match goal with H : is_str _ _ = true |- _ => apply is_str_true in H end. by eexists.
  - intros (p & -> & E1 & E2 & E3 & E4 & E5 & E6). cbn [as_evidence res_bind].
    by rewrite E1, E2, E3, E4, E5, E6, !(proj2 (is_str_true _ _) eq_refl).
Qed.

Lemma proof_basis_nil ctx stage pl :
  (∃ b, _proof_basis_for_context ctx stage (pl_mapping_digest pl) (pl_plan_digest pl) = Ok ([], b)) ↔
  provenance_ok stage ctx pl.
Proof.
  unfold _proof_basis_for_context, provenance_ok. destruct stage.
  - case_bool_decide as E; (split; [by intros [b ?]|]); [done|by eexists].
  - unfold _final_proof_findings. rewrite <-prior_red_proof_nil, <-legacy_evidence_nil.
    destruct (bool_decide_reflect (rc_prior_red_proof ctx ≠ VNone)) as [E1|E1%dec_stable],
      (bool_decide_reflect (rc_legacy_tdd_evidence ctx ≠ VNone)) as [E2|E2%dec_stable]; cbn [andb].
    + split; [by intros [b ?]|]. by intros [[? _]|[? _]].
    + split; [|intros [[_ Hf]|[? _]]; [rewrite Hf; by eexists|done]].
      intros (b & (fs & Hf & [= -> <-])%res_bind_Ok). by left.
    + split; [|intros [[? _]|[_ Hf]]; [done|rewrite Hf; by eexists]].
      intros (b & (fs & Hf & [= -> <-])%res_bind_Ok). by right.
    + rewrite E1, E2. cbn. split; [by intros [b ?]|]. by intros [[_ ?]|[_ ?]].
Qed.
End reconciliation.

Section pipeline.
Context `{PyRepr, Sha256, ParseXml}.

(** ** Plans of encodable cases exist *)

Definition encodable (c : list (pyval * pyval)) : Prop := ∃ j, _json_safe (VDict c) = Ok j.

Lemma map_res_total {A B} (f : A → result B) l : Forall (λ x, ∃ y, f x = Ok y) l → ∃ k, map_res f l = Ok k.
Proof.
  induction 1 as [|x l [y Hy] _ [k Hk]]; [by eexists|]. exists (y :: k). cbn. by rewrite Hy, Hk.
Qed.

Lemma keyed_encodable c : (∃ k, keyed_case c = Ok k) ↔ encodable c.
Proof.
  unfold encodable, keyed_case, plan_sort_key, canonical_digest. split.
  - intros [k E]. res_inv. by eexists.
  - intros [j Hj]. rewrite Hj. by eexists.
Qed.

Lemma ordered_cases_encodable cases o : ordered_cases cases = Ok o → Forall encodable o.
Proof.
  intros Ho. rewrite (ordered_cases_perm _ _ Ho). unfold ordered_cases in Ho.
  apply res_bind_Ok in Ho as (ks & Hk%map_res_Ok & _). apply Forall_forall. intros c Hc.
  apply list_elem_of_lookup in Hc as [i Hi]. destruct (Forall2_lookup_l _ _ _ _ _ Hk Hi) as (k & _ & E).
  apply keyed_encodable. by exists k.
Qed.

Lemma identity_encodable md o : Forall encodable o → encodable (plan_identity md o).
Proof.
  intros Ho. destruct (map_res_total _json_safe (VDict <$> o)) as [js Hjs].
  { apply Forall_fmap. done. }
  unfold encodable. rewrite json_safe_dict. unfold plan_identity, obj. cbn [fmap list_fmap map_res].
  unfold entry_node at 1 2. cbn [fst snd]. rewrite json_safe_list, Hjs. by eexists.
Qed.

Lemma build_plan_total md cases : Forall encodable cases → ∃ plan, build_plan md cases = Ok plan.
Proof.
  intros Hc. destruct (map_res_total keyed_case cases) as [ks Hks].
  { eapply Forall_impl; [exact Hc|]. intros c. apply keyed_encodable. }
  assert (Ho : ordered_cases cases = Ok (sort_by fst ks).*2) by (unfold ordered_cases; by rewrite Hks).
  unfold build_plan. rewrite Ho. cbn [res_bind]. cbv zeta.
  destruct (identity_encodable md _ (ordered_cases_encodable _ _ Ho)) as [j Hj].
  unfold canonical_digest. rewrite Hj. by eexists.
Qed.

(** ** Reports of a reconciliation *)

Lemma passed_report findings m :
  passed findings (if bool_decide (findings = []) then m else Incomplete) m = bool_decide (findings = []).
Proof. unfold passed. case_bool_decide; cbn; [apply Z.leb_refl|done]. Qed.

Lemma reconciliation_report_inv ctx stage ref out r :
  _reconciliation_report ctx stage ref out = Ok r →
  vget "gate_decision" r = VStr (if bool_decide (ro_findings out = []) then "pass" else "fail") ∧
  vget "observed_maturity" r =
    VStr (maturity_text (if bool_decide (ro_findings out = []) then stage_maturity stage else Incomplete)) ∧
  vget "mapping_digest" r = VStr (pl_mapping_digest (ro_plan out)) ∧
  vget "plan_digest" r = VStr (pl_plan_digest (ro_plan out)) ∧
  vget "plan" r = VDict (pl_plan (ro_plan out)).
Proof.
  unfold _reconciliation_report. cbv zeta. rewrite res_bind_Ok. intros (r0 & Hr0 & [= <-]).
  unfold _lifecycle_report in Hr0. cbv zeta in Hr0. rewrite passed_report in Hr0.
  destruct (lifecycle_status _) as [ds ie]. apply res_bind_Ok in Hr0 as (plan & _ & [= <-]).
  destruct (bool_decide (ro_proof_basis out = _) && _); by split_and!.
Qed.

Lemma reconcile_inv pr junit context legacy r :
  reconcile_junit pr junit context legacy = Ok r →
  ∃ ctx stage ref pl, _resolved_reconciliation_context context legacy = Ok ctx ∧
    _validate_reconciliation_context ctx = Ok (stage, ref) ∧ _plan_cases pr = Ok pl ∧
    (vget "gate_decision" r = VStr "pass" ↔ run_proves stage junit pl ∧ provenance_ok stage ctx pl) ∧
    (vget "gate_decision" r = VStr "pass" → vget "observed_maturity" r = VStr (maturity_text (stage_maturity stage))) ∧
    vget "mapping_digest" r = VStr (pl_mapping_digest pl) ∧
    vget "plan_digest" r = VStr (pl_plan_digest pl).
Proof.
  unfold reconcile_junit.
  intros (ctx & Hctx & ([stage ref] & Hv & (pl & Hpl & E)%res_bind_Ok)%res_bind_Ok)%res_bind_Ok.
  destruct (_junit_results junit) as [[results jf] jd] eqn:Ej. cbv zeta in E.
  apply res_bind_Ok in E as ([pf b] & Hp & E). cbn [fst snd] in E.
  apply reconciliation_report_inv in E as (Hg & Ho & Hm & Hd & _). cbn [ro_findings ro_plan] in *.
  exists ctx, stage, ref, pl. do 3 (split; [done|]).
  set (fs := jf ++ _ ++ pf) in *.
  assert (Hfs : fs = [] ↔ run_proves stage junit pl ∧ provenance_ok stage ctx pl).
  { unfold fs, run_proves. rewrite <-proof_basis_nil, Hp, Ej. split.
    - intros [-> [Hs ->]%app_eq_nil]%app_eq_nil. split; [|by eexists].
      pose proof (proj1 (selector_result_findings_nil (selector_of <$> pl_cases pl) results stage) Hs) as Hs'.
      exists results, jd. split; [done|]. intros c Hc. apply Hs'. by apply list_elem_of_fmap_2.
    - intros [(results' & digest & [= <- -> <-] & Hs) (b' & [= -> <-])]. rewrite app_nil_l, app_nil_r.
      apply (selector_result_findings_nil (selector_of <$> pl_cases pl) results stage).
      intros s (c & -> & Hc)%list_elem_of_fmap. by apply Hs. }
  rewrite <-Hfs, Hg, Ho. split_and!; try done; case_bool_decide; (split; congruence) || congruence || done.
Qed.

Lemma reconcile_total pr junit ctx stage ref pl :
  _validate_reconciliation_context ctx = Ok (stage, ref) → _plan_cases pr = Ok pl →
  Forall encodable (pl_cases pl) → provenance_ok stage ctx pl →
  ∃ r, reconcile_junit pr junit (Some ctx) [] = Ok r.
Proof.
  intros Hv Hpl Henc Hprov. unfold reconcile_junit. cbn [_resolved_reconciliation_context res_bind].
  rewrite Hv. cbn [res_bind]. rewrite Hpl. cbn [res_bind].
  destruct (_junit_results junit) as [[results jf] jd]. cbv zeta.
  apply proof_basis_nil in Hprov as [b ->]. cbn [res_bind fst snd].
  unfold _reconciliation_report. cbv zeta. cbn [ro_plan ro_findings].
  destruct (build_plan_total (pl_mapping_digest pl) (pl_cases pl) Henc) as [plan Hplan].
  destruct (lifecycle_report_total (stage_maturity stage)
    (if bool_decide (jf ++ _selector_result_findings
        (list_to_set ((λ c, py_str (vget "node_id" c)) <$> pl_cases pl)) results stage ++ [] = [])
     then stage_maturity stage else Incomplete) (pl_mapping_digest pl)
    (jf ++ _selector_result_findings
        (list_to_set ((λ c, py_str (vget "node_id" c)) <$> pl_cases pl)) results stage ++ [])
    (pl_cases pl) plan Hplan) as [r0 ->].
  cbn [res_bind]. by eexists.
Qed.
End pipeline.

(** An unhashable verification method is not reported as a finding: the
    membership test raises. *)
Lemma unhashable_method_raises case name l requirement_id required :
  vget "case_id" case = VStr name → nonblank name = true → vget "method" case = VList l →
  _validated_case (VDict case) requirement_id required = Err (TypeError "unhashable type").
Proof. intros Hn Hb Hm. cbn [_validated_case]. by rewrite Hn, Hb, Hm. Qed.

(** * Properties *)

#[local] Instance sample_repr : PyRepr := λ _, "<repr>".
#[local] Instance zero_sha : Sha256 := λ _, of_chars (replicate 64 "0"%char).

Definition sample_test_case : pyval :=
  VDict (obj [("case_id", VStr "C1"); ("scenario_id", VStr "S1"); ("method", VStr "test");
              ("intent", VStr "it works"); ("observable", VStr "exit code");
              ("selector", VDict (obj [("runner", VStr "pytest"); ("node_id", VStr "tests/test_a.py::test_it")]))]).
Definition sample_mapping : list (pyval * pyval) :=
  obj [("schema_version", VStr "2");
       ("requirements", VDict (obj [("REQ-1", VDict (obj
         [("rationale", VStr "needed");
          ("touchpoints", VList [VDict (obj [("id", VStr "T"); ("kind", VStr "cli"); ("locator", VStr "run")])]);
          ("verification_cases", VList [sample_test_case])]))]))].
Definition sample_review : list (pyval * pyval) :=
  obj [("reviewer_id", VStr "r"); ("reviewer_role", VStr "lead"); ("recorded_at", VStr "today");
       ("reference", VStr "PR 1"); ("decision", VStr "accepted");
       ("mapping_digest", VStr (sha256_digest []))].
Definition testcase (selector : string) (children : list element) : element :=
  Elem "testcase" [] (Elem "properties" []
    [Elem "property" [("name", "specfact.selector"); ("value", selector)] []] :: children).
(** The XML reader of the sample: any payload that starts with [F] is a run
    with a failing test, any other one a passing run. *)
#[local] Instance sample_xml : ParseXml := λ payload,
  Some (Elem "testsuite" []
    [testcase "tests/test_a.py::test_it"
       (if bool_decide (head payload = Some "F"%char) then [Elem "failure" [] []] else [])]).

(** C30 The lifecycle gate of a sidecar mapping (evaluate_mapping) passes
    exactly when the required maturity is planned, accepted or test-authored,
    the mapping can be digested and is complete for that maturity (schema 2,
    requirements with rationale, valid touchpoints and verification cases,
    exact tests with valid selectors once tests are required, no selector
    twice), and from accepted on an acceptance record of that very digest is
    given; a passing report carries the required maturity as observed and the
    plan of the mapping's cases. It never passes at red or verified. *)
Theorem evaluate_gate `{PyRepr, Sha256} mapping req review r :
  evaluate_mapping mapping req review = Ok r →
  (vget "gate_decision" r = VStr "pass" ↔
     ∃ required md cases, parse_required req = Some required ∧
       evaluation_passes mapping required review md cases) ∧
  (vget "gate_decision" r = VStr "pass" →
     req ≠ "red" ∧ req ≠ "verified" ∧
     ∃ required md cases plan, parse_required req = Some required ∧
       evaluation_passes mapping required review md cases ∧
       vget "observed_maturity" r = VStr req ∧ vget "mapping_digest" r = VStr md ∧
       build_plan md cases = Ok plan ∧ vget "plan" r = VDict plan).
Proof.
  intros E. destruct (evaluate_gate_spec mapping req review r E) as [H1 H2]. split; [exact H1|].
  intros Hg. destruct (H2 Hg) as (required & md & cases & plan & Hreq & Hpass & Hrest).
  pose proof (parse_required_Some _ _ Hreq) as [Ereq _]. destruct Hpass as [Hin Hpass].
  split_and!.
  - intros Er. rewrite Ereq in Er. destruct required; try done; set_solver.
  - intros Er. rewrite Ereq in Er. destruct required; try done; set_solver.
  - exists required, md, cases, plan. split; [done|]. split; [by split|done].
Qed.
Lemma evaluate_gate_witness :
  ∃ r, evaluate_mapping sample_mapping "test-authored" (Some sample_review) = Ok r ∧
    vget "gate_decision" r = VStr "pass" ∧ vget "observed_maturity" r = VStr "test-authored".
Proof.
  destruct (evaluate_mapping sample_mapping "test-authored" (Some sample_review)) as [r|e] eqn:E;
    [|exfalso; vm_compute in E; discriminate E].
  exists r. split; [done|].
  assert (Hg : vget "gate_decision" r = VStr "pass")
    by (vm_compute in E; injection E as <-; vm_compute; reflexivity).
  split; [done|].
  destruct (evaluate_gate _ _ _ _ E) as [_ H2].
  destruct (H2 Hg) as (_ & _ & required & md & cases & plan & _ & _ & Ho & _). exact Ho.
Defined.

(** C31 JUnit reconciliation (reconcile_junit) passes exactly when the run
    proves the plan (the file was read and every test names its selector, and
    each selector of the trusted plan has exactly one outcome: failed for the
    red stage, passed for the final one) and the provenance is the one the
    stage requires: no legacy ledger at red, and at final exactly one of a
    passing red proof or a legacy ledger, bound to the same mapping and plan
    digests. A passing report observes red or verified accordingly. *)
Theorem reconcile_gate `{PyRepr, Sha256, ParseXml} pr junit context legacy r :
  reconcile_junit pr junit context legacy = Ok r →
  ∃ ctx stage ref pl, _resolved_reconciliation_context context legacy = Ok ctx ∧
    _validate_reconciliation_context ctx = Ok (stage, ref) ∧ _plan_cases pr = Ok pl ∧
    (vget "gate_decision" r = VStr "pass" ↔ run_proves stage junit pl ∧ provenance_ok stage ctx pl) ∧
    (vget "gate_decision" r = VStr "pass" →
       vget "observed_maturity" r = VStr (maturity_text (stage_maturity stage))) ∧
    vget "mapping_digest" r = VStr (pl_mapping_digest pl) ∧
    vget "plan_digest" r = VStr (pl_plan_digest pl).
Proof. apply reconcile_inv. Qed.

(** The report names at least one exact test. *)
Definition has_test_case (r : list (pyval * pyval)) : Prop :=
  ∃ plan cs c, vget "plan" r = VDict plan ∧ vget "cases" plan = VList (VDict <$> cs) ∧
    c ∈ cs ∧ is_test_case c = true.
Definition red_context (ref : string) : ReconciliationContext :=
  {| rc_run_stage := VStr "red"; rc_source_ref := VStr ref; rc_prior_red_proof := VNone;
     rc_legacy_tdd_evidence := VNone |}.
Definition final_context (ref : string) (red : list (pyval * pyval)) : ReconciliationContext :=
  {| rc_run_stage := VStr "final"; rc_source_ref := VStr ref; rc_prior_red_proof := VDict red;
     rc_legacy_tdd_evidence := VNone |}.

Lemma red_context_valid ref :
  is_object_id ref = true → _validate_reconciliation_context (red_context ref) = Ok (RedStage, ref).
Proof.
  intros Hr. unfold _validate_reconciliation_context. cbn [red_context rc_run_stage rc_source_ref].
  rewrite Hr. reflexivity.
Qed.
Lemma final_context_valid ref red :
  is_object_id ref = true → _validate_reconciliation_context (final_context ref red) = Ok (FinalStage, ref).
Proof.
  intros Hr. unfold _validate_reconciliation_context. cbn [final_context rc_run_stage rc_source_ref].
  rewrite Hr. reflexivity.
Qed.

(** A run where every planned test fails, then one where they all pass *)
Definition runs_verify `{PyRepr, Sha256, ParseXml} (plan_report : list (pyval * pyval)) (pl : plan_cases) : Prop :=
  ∀ ref1 ref2 junit1 junit2, is_object_id ref1 = true → is_object_id ref2 = true →
    run_proves RedStage junit1 pl → run_proves FinalStage junit2 pl →
    ∃ r1 r2, reconcile_junit plan_report junit1 (Some (red_context ref1)) [] = Ok r1 ∧
      vget "gate_decision" r1 = VStr "pass" ∧
      reconcile_junit plan_report junit2 (Some (final_context ref2 r1)) [] = Ok r2 ∧
      vget "gate_decision" r2 = VStr "pass" ∧ vget "observed_maturity" r2 = VStr "verified".
Lemma plan_pipeline `{PyRepr, Sha256, ParseXml} r0 pl :
  _plan_cases r0 = Ok pl → Forall encodable (pl_cases pl) → runs_verify r0 pl.
Proof.
  intros Hpl Henc ref1 ref2 junit1 junit2 Hr1 Hr2 Hrun1 Hrun2.
  pose proof (red_context_valid ref1 Hr1) as Hv1.
  destruct (reconcile_total r0 junit1 _ _ _ pl Hv1 Hpl Henc eq_refl) as [r1 Hrec1].
  destruct (reconcile_inv _ _ _ _ _ Hrec1) as
    (ctx & stage & ref & pl' & [= <-] & Hv' & Hpl' & Hpass1 & Hobs1 & Hmd1 & Hpd1).
  rewrite Hv1 in Hv'. injection Hv' as <- <-. rewrite Hpl in Hpl'. injection Hpl' as <-.
  assert (Hg1 : vget "gate_decision" r1 = VStr "pass") by (by apply Hpass1).
  pose proof (final_context_valid ref2 r1 Hr2) as Hv2.
  assert (Hprov : provenance_ok FinalStage (final_context ref2 r1) pl).
  { left. split; [done|]. exists r1. split_and!; try done. by apply Hobs1. }
  destruct (reconcile_total r0 junit2 _ _ _ pl Hv2 Hpl Henc Hprov) as [r2 Hrec2].
  destruct (reconcile_inv _ _ _ _ _ Hrec2) as
    (ctx & stage & ref & pl' & [= <-] & Hv' & Hpl' & Hpass2 & Hobs2 & _ & _).
  rewrite Hv2 in Hv'. injection Hv' as <- <-. rewrite Hpl in Hpl'. injection Hpl' as <-.
  assert (Hg2 : vget "gate_decision" r2 = VStr "pass") by (by apply Hpass2).
  exists r1, r2. split_and!; try done. by apply Hobs2.
Qed.

#[local] Instance VDict_inj : Inj (=) (=) VDict.
Proof. intros d1 d2 E. by injection E. Qed.

(** The lifecycle composes: a passing test-authored report with an exact
    test is accepted as a plan, and for any later runs where every planned
    test first fails and then passes, the red reconciliation passes, its report
    serves as the red proof of the final reconciliation, and that one passes
    with observed maturity verified. *)
Theorem lifecycle_pipeline `{PyRepr, Sha256, ParseXml} mapping review r0 :
  (∀ x, is_sha256_text (sha256_digest x) = true) →
  evaluate_mapping mapping "test-authored" review = Ok r0 →
  vget "gate_decision" r0 = VStr "pass" → has_test_case r0 →
  ∃ pl, _plan_cases r0 = Ok pl ∧
    ∀ ref1 ref2 junit1 junit2, is_object_id ref1 = true → is_object_id ref2 = true →
      run_proves RedStage junit1 pl → run_proves FinalStage junit2 pl →
      ∃ r1 r2, reconcile_junit r0 junit1 (Some (red_context ref1)) [] = Ok r1 ∧
        vget "gate_decision" r1 = VStr "pass" ∧
        reconcile_junit r0 junit2 (Some (final_context ref2 r1)) [] = Ok r2 ∧
        vget "gate_decision" r2 = VStr "pass" ∧ vget "observed_maturity" r2 = VStr "verified".
Proof.
  intros Hsha E Hg (plan' & cs & c & Hplan' & Hcs & Hc & Ht).
  destruct (proj2 (evaluate_gate_spec _ _ _ _ E) Hg) as
    (required & md & cases & plan & Hreq & (_ & Hmd & Hcomplete & _) & Hobs & _ & Hb & Hplan).
  assert (required = TestAuthored) as -> by (cbn in Hreq; by injection Hreq).
  rewrite Hplan in Hplan'. injection Hplan' as <-.
  destruct (build_plan_inv md cases plan Hb) as (o' & x & Hord' & _ & Hcs' & _).
  rewrite Hcs in Hcs'. injection Hcs' as Hcs'. apply (inj (fmap VDict)) in Hcs' as ->.
  destruct Hcomplete as (_ & reqs & _ & _ & _ & Hcases & Hnd).
  apply requirements_cases_plan in Hcases; [|done].
  apply canonical_digest_Ok in Hmd as (j & _ & Emd).
  destruct (plan_cases_accepted r0 md cases plan Hg Hobs Hplan Hb) as (o & Hord & Hpl).
  { by rewrite Emd. }
  { done. }
  { done. }
  { done. }
  { apply Exists_exists. exists c. split; [|done]. by rewrite <-(ordered_cases_perm _ _ Hord'). }
  eexists. split; [exact Hpl|]. apply plan_pipeline; [exact Hpl|].
  pose proof (ordered_cases_encodable cases o Hord) as Ho. rewrite Forall_forall in Ho.
  apply Forall_forall. intros d Hd. apply list_elem_of_filter in Hd as [_ Hd]. by apply Ho.
Qed.

Definition sample_ref : string := of_chars (replicate 40 "a"%char).
Lemma lifecycle_pipeline_witness :
  ∃ r0 r1 r2, evaluate_mapping sample_mapping "test-authored" (Some sample_review) = Ok r0 ∧
    reconcile_junit r0 (JunitBytes ["F"%char]) (Some (red_context sample_ref)) [] = Ok r1 ∧
    reconcile_junit r0 (JunitBytes ["P"%char]) (Some (final_context sample_ref r1)) [] = Ok r2 ∧
    vget "observed_maturity" r2 = VStr "verified".
Proof.
  destruct (evaluate_mapping sample_mapping "test-authored" (Some sample_review)) as [r0|e] eqn:E;
    [|exfalso; vm_compute in E; discriminate E].
  assert (Hg : vget "gate_decision" r0 = VStr "pass")
    by (vm_compute in E; injection E as <-; vm_compute; reflexivity).
  assert (Ht : has_test_case r0).
  { vm_compute in E; injection E as <-. do 3 eexists. split; [vm_compute; reflexivity|].
    split; [instantiate (1 := [_]); vm_compute; reflexivity|].
    split; [left|vm_compute; reflexivity]. }
  assert (Hsha : ∀ x, is_sha256_text (sha256_digest x) = true) by (intros x; vm_compute; reflexivity).
  destruct (lifecycle_pipeline sample_mapping (Some sample_review) r0 Hsha E Hg Ht) as (pl & Hpl & Hruns).
  assert (Hsel : selector_of <$> pl_cases pl = ["tests/test_a.py::test_it"]).
  { vm_compute in E; injection E as <-. vm_compute in Hpl. injection Hpl as <-. vm_compute. reflexivity. }
  assert (Hrun : ∀ stage junit results digest, _junit_results junit = (results, [], digest) →
    bucket "tests/test_a.py::test_it" results = [expected_outcome stage] → run_proves stage junit pl).
  { intros stage junit results digest Hj Hb. exists results, digest. split; [done|]. intros c Hc.
    assert (Hin : selector_of c ∈ selector_of <$> pl_cases pl) by by apply list_elem_of_fmap_2.
    rewrite Hsel in Hin. by apply list_elem_of_singleton in Hin as ->. }
  destruct (Hruns sample_ref sample_ref (JunitBytes ["F"%char]) (JunitBytes ["P"%char]))
    as (r1 & r2 & Hr1 & _ & Hr2 & _ & Ho).
  - vm_compute; reflexivity.
  - vm_compute; reflexivity.
  - eapply Hrun; vm_compute; reflexivity.
  - eapply Hrun; vm_compute; reflexivity.
  - exists r0, r1, r2. done.
Defined.

Lemma reconcile_gate_witness :
  ∃ r0 r1, evaluate_mapping sample_mapping "test-authored" (Some sample_review) = Ok r0 ∧
    reconcile_junit r0 (JunitBytes ["P"%char]) (Some (red_context sample_ref)) [] = Ok r1 ∧
    vget "gate_decision" r1 = VStr "fail" ∧ ∃ pl, ¬ run_proves RedStage (JunitBytes ["P"%char]) pl.
Proof.
  destruct (evaluate_mapping sample_mapping "test-authored" (Some sample_review)) as [r0|e] eqn:E;
    [|exfalso; vm_compute in E; discriminate E].
  destruct (reconcile_junit r0 (JunitBytes ["P"%char]) (Some (red_context sample_ref)) []) as [r1|e] eqn:E1.
  2:{ exfalso. vm_compute in E; injection E as <-. vm_compute in E1. discriminate E1. }
  assert (Hf : vget "gate_decision" r1 = VStr "fail").
  { vm_compute in E; injection E as <-. vm_compute in E1. injection E1 as <-. vm_compute. reflexivity. }
  exists r0, r1. do 3 (split; [done|]).
  destruct (reconcile_gate _ _ _ _ _ E1) as (ctx & stage & ref & pl & [= <-] & Hv & _ & Hpass & _).
  exists pl. assert (stage = RedStage) as -> by (vm_compute in Hv; by injection Hv).
  intros Hrun. assert (Hg : vget "gate_decision" r1 = VStr "pass") by by apply Hpass.
  rewrite Hf in Hg. discriminate Hg.
Defined.
