(* ===== verification/Bundles.v ===== *)
(** Bundles: requirement bundles on disk, of
    [specfact_requirements/requirements/runtime.py]: imported requirements are
    merged with those a bundle holds and written next to it.  The requirement
    models, the importers and the validator belong to [specfact_cli]; they are
    the fields of [RequirementsCore]. *)

From S2P Require Import Prelude Text Paths Dict PyValue.

(** * The core helpers *)

(** A mapping [model_dump(mode="json")] returns *)
Definition payload : Type := list (pyval * pyval).

(** A requirement record: its identity and its dump *)
Record RequirementInput := { rq_requirement_id : string; rq_payload : payload }.
(** A diagnostic: [str(diagnostic.severity)] and its dump *)
Record Diagnostic := { dg_severity : string; dg_payload : payload }.
Record ImportResult := { ir_requirements : list RequirementInput; ir_diagnostics : list Diagnostic }.
#[export] Instance RequirementInput_eq_dec : EqDecision RequirementInput. Proof. solve_decision. Defined.

Class RequirementsCore (Bundle : Type) := {
  create_empty_project_bundle : string → Bundle;
  (* what [load_project_bundle] reads of what [save_project_bundle] wrote *)
  stored_bundle : Bundle → Bundle;
  load_requirements_from_bundle : Bundle → list RequirementInput;
  attach_requirements_to_bundle : Bundle → list RequirementInput → Bundle;
  (* what [yaml.safe_load] reads of the dumped extension payload *)
  stored_input_extension : list RequirementInput → result pyval;
  load_requirements_input_extension : payload → result (list RequirementInput);
  normalize_requirement_records : list pyval → string → result ImportResult;
  supports_project_root : string → bool;
  import_helper : string → string → option string → result ImportResult;
  validate_requirement_context : Bundle → option string → result payload;
  inspect_requirement_context_coverage : list RequirementInput → payload;
  core_requirement_context_profiles : list string
}.

Section bundles.
Context `{RequirementsCore Bundle}.

(** The files of a bundle directory: the bundle, with what
    [load_project_bundle] reads of it, and the two places of the requirements
    sidecar, each with what [yaml.safe_load] reads of it. *)
Record bundle_dir := {
  bd_bundle : result Bundle;
  bd_inputs : option (result pyval);
  bd_legacy_inputs : option (result pyval)
}.
Definition new_bundle_dir (name : string) : bundle_dir :=
  {| bd_bundle := Ok (stored_bundle (create_empty_project_bundle name)); bd_inputs := None;
     bd_legacy_inputs := None |}.

(** How the outside answers the writes of one import: [None] when they
    succeed, otherwise the error raised, for [save_project_bundle] with the
    directory it left. *)
Record bundle_writes := {
  save_failure : option (exn * bundle_dir);
  sidecar_failure : option exn
}.
Definition all_written : bundle_writes := {| save_failure := None; sidecar_failure := None |}.

(** * Diagnostics *)

Definition _diagnostic_is_error (diagnostic : Diagnostic) : bool :=
  String.eqb (dg_severity diagnostic) "error".
Definition import_result_has_errors (import_result : ImportResult) : bool :=
  existsb _diagnostic_is_error (ir_diagnostics import_result).

(** * Profiles *)

Definition normalize_requirement_context_profile (profile : string) : string := replace "-" "_" profile.
Definition _profile_aliases (profiles : gset string) : gset string :=
  profiles ∪ set_map (replace "_" "-") profiles ∪ set_map (replace "-" "_") profiles.
Definition _known_requirement_context_profiles : gset string :=
  _profile_aliases (list_to_set core_requirement_context_profiles).
Definition is_requirement_context_profile_supported (profile : string) : bool :=
  bool_decide (normalize_requirement_context_profile profile ∈
    (set_map normalize_requirement_context_profile _known_requirement_context_profiles : gset string)).
(** [@require] of the validating helpers *)
Definition profile_ok (profile : option string) : bool :=
  match profile with Some p => is_requirement_context_profile_supported p | None => true end.

(** * Loading and persisting *)

Definition _existing_requirements_sidecar_path (d : bundle_dir) : option (result pyval) :=
  match bd_inputs d with Some sidecar => Some sidecar | None => bd_legacy_inputs d end.

Definition _load_bundle_with_requirements (d : bundle_dir) : result Bundle :=
  let! bundle := bd_bundle d in
  match _existing_requirements_sidecar_path d with
  | None => Ok bundle
  | Some sidecar =>
      let! loaded := sidecar in
      match loaded with
      | VDict loaded =>
          let! records := load_requirements_input_extension loaded in
          Ok (attach_requirements_to_bundle bundle records)
      | _ => Err (ValueError "must contain a requirements.inputs mapping payload")
      end
  end.

Definition save_project_bundle (bundle : Bundle) (w : bundle_writes) (d : bundle_dir) :
    result unit * bundle_dir :=
  match save_failure w with
  | Some (e, left_dir) => (Err e, left_dir)
  | None => (Ok tt, {| bd_bundle := Ok (stored_bundle bundle); bd_inputs := bd_inputs d;
                       bd_legacy_inputs := bd_legacy_inputs d |})
  end.
(** The text goes to a temporary file that then replaces the sidecar and is
    removed when that fails: an error leaves the sidecar as it was. *)
Definition _write_requirements_sidecar (records : list RequirementInput) (w : bundle_writes) (d : bundle_dir) :
    result unit * bundle_dir :=
  match sidecar_failure w with
  | Some e => (Err e, d)
  | None => (Ok tt, {| bd_bundle := bd_bundle d; bd_inputs := Some (stored_input_extension records);
                       bd_legacy_inputs := bd_legacy_inputs d |})
  end.

(** [by_id] and [order] of the loop *)
Definition merge_step (acc : list (string * RequirementInput) * list string) (record : RequirementInput) :
    list (string * RequirementInput) * list string :=
  (dict_set (rq_requirement_id record) record acc.1,
   if dict_mem (rq_requirement_id record) acc.1 then acc.2 else acc.2 ++ [rq_requirement_id record]).
Definition merge_requirement_inputs (existing imported : list RequirementInput) : list RequirementInput :=
  let by_id := dict_of ((λ record, (rq_requirement_id record, record)) <$> existing) in
  let order := rq_requirement_id <$> existing in
  let '(by_id, order) := foldl merge_step (by_id, order) imported in
  omap (λ requirement_id, dict_get requirement_id by_id) order.

(** The directory is returned with an error too. *)
Definition _persist_imported_requirements (imported : list RequirementInput) (w : bundle_writes)
    (d : bundle_dir) : result unit * bundle_dir :=
  match _load_bundle_with_requirements d with
  | Err e => (Err e, d)
  | Ok bundle =>
      let merged := merge_requirement_inputs (load_requirements_from_bundle bundle) imported in
      let '(saved, d) := save_project_bundle (attach_requirements_to_bundle bundle merged) w d in
      match saved with
      | Err e => (Err e, d)
      | Ok _ => _write_requirements_sidecar merged w d
      end
  end.

(** * Imports *)

Definition _records_are_supported (records : list pyval) : bool :=
  forallb (λ record, match record with VDict _ => true | _ => false end) records.

(** [loaded] is what [yaml.safe_load] makes of the file. *)
Definition load_requirement_records (loaded : pyval) : result (list pyval) :=
  let! records :=
    match loaded with
    | VNone => Ok []
    | VList records => Ok records
    | VDict mapping =>
        match vget "requirements" mapping with
        | VList records => Ok records
        | _ => Ok [VDict mapping]
        end
    | _ => Err (ValueError "requirements source must be a mapping, a list, or a mapping with a requirements list")
    end in
  let! _ := check (_records_are_supported records)
    (ContractViolation "all loaded records must be RequirementInput or mapping values") in
  Ok records.

Definition import_requirements_file_to_bundle (source_file : string) (loaded : result pyval)
    (w : bundle_writes) (d : bundle_dir) : result ImportResult * bundle_dir :=
  match (let! loaded := loaded in
         let! records := load_requirement_records loaded in
         normalize_requirement_records records source_file) with
  | Err e => (Err e, d)
  | Ok imported =>
      let '(persisted, d) := _persist_imported_requirements (ir_requirements imported) w d in
      (let! _ := persisted in Ok imported, d)
  end.

Definition _NATIVE_IMPORT_HELPERS : list (string * string) :=
  [("openspec", "import_openspec_change"); ("speckit", "import_speckit_feature")].

(** [resolved] is [change_dir.resolve()]. *)
Definition _openspec_source_context (resolved : string) : string * option string :=
  let changes_dir := path_parent resolved in
  let openspec_dir := path_parent changes_dir in
  if bool_decide (path_name changes_dir = chars "changes") && bool_decide (path_name openspec_dir = chars "openspec")
  then (resolved, Some (path_parent openspec_dir)) else (resolved, None).

Definition native_import (source_kind source_dir : string) (resolved : result string) : result ImportResult :=
  match dict_get source_kind _NATIVE_IMPORT_HELPERS with
  | None => Err (ContractViolation "source_kind must be openspec or speckit")
  | Some helper =>
      let! (canonical_source_dir, project_root) :=
        (if String.eqb source_kind "openspec"
         then let! resolved := resolved in Ok (_openspec_source_context resolved)
         else Ok (source_dir, None)) in
      import_helper helper canonical_source_dir (if supports_project_root helper then project_root else None)
  end.
Definition import_native_requirements_to_bundle (source_kind source_dir : string) (resolved : result string)
    (w : bundle_writes) (d : bundle_dir) : result ImportResult * bundle_dir :=
  match native_import source_kind source_dir resolved with
  | Err e => (Err e, d)
  | Ok imported =>
      if import_result_has_errors imported then (Ok imported, d)
      else
        let '(persisted, d) := _persist_imported_requirements (ir_requirements imported) w d in
        (let! _ := persisted in Ok imported, d)
  end.

(** The sole entry of a list of sources *)
Definition _sole_source (candidates : list string) (expected_layout : string) : result string :=
  match candidates with
  | [source] => Ok source
  | [] => Err (ValueError ("No import source found; expected " +:+ expected_layout +:+ "."))
  | _ => Err (ValueError ("Multiple import sources found (" +:+ join ", " ((of_chars ∘ path_name) <$> candidates)
           +:+ "); pass an explicit path instead of " +:+ expected_layout +:+ "."))
  end.
(** [entries] are the directories below [openspec/changes], or none when it is
    not a directory; those of [specs] come with whether they hold a [spec.md]. *)
Definition auto_detect_openspec_change (entries : list string) : result string :=
  _sole_source (List.filter (λ path, negb (bool_decide (path_name path = chars "archive"))) (sorted entries))
    "openspec/changes/".
Definition auto_detect_speckit_feature (entries : list (string * bool)) : result string :=
  _sole_source (List.filter (λ e, e.2) (sort_by fst entries)).*1 "specs/<feature>/".

(** * Validation *)

Definition validate_requirements_bundle (d : bundle_dir) (profile : option string) : result payload :=
  let! _ := check (profile_ok profile)
    (ContractViolation "profile must be a known requirement context profile when provided") in
  let! bundle := _load_bundle_with_requirements d in
  validate_requirement_context bundle (normalize_requirement_context_profile <$> profile).

(** The codes of the violations of a report; a violation is a mapping. *)
Definition violation_codes (report : payload) : list string :=
  match vget "violations" report with
  | VList violations =>
      omap (λ violation, match violation with
        | VDict violation => match vget "code" violation with VStr code => Some code | _ => None end
        | _ => None end) violations
  | _ => []
  end.
Definition requirements_gate_finding_counts (d : bundle_dir) (profile : option string) :
    result (list (string * Z)) :=
  let! report := validate_requirements_bundle d profile in
  Ok (dict_count id (violation_codes report)).

Definition inspect_requirements_bundle_coverage (d : bundle_dir) : result payload :=
  let! bundle := _load_bundle_with_requirements d in
  Ok (inspect_requirement_context_coverage (load_requirements_from_bundle bundle)).
End bundles.
