(* ===== verification/BundleProofs.v ===== *)
(** BundleProofs: importing requirements into a bundle is an ordered upsert,
    what is persisted reads back, a second import changes nothing, and a
    sidecar that cannot be written keeps what it held. *)

From S2P Require Import Prelude Text Paths Dict PyValue Bundles.

(** * The merge *)

Definition keyed (records : list RequirementInput) : list (string * RequirementInput) :=
  (λ record, (rq_requirement_id record, record)) <$> records.
Definition ids (records : list RequirementInput) : list string := rq_requirement_id <$> records.

Lemma record_keys records : (keyed records).*1 = ids records.
Proof. unfold keyed, ids. by rewrite <-list_fmap_compose. Qed.
Lemma record_values records : (keyed records).*2 = records.
Proof. unfold keyed. rewrite <-list_fmap_compose. apply list_fmap_id. Qed.

Lemma merge_fold records by_id :
  foldl merge_step (by_id, dict_keys by_id) records
  = (dict_merge by_id (keyed records), dict_keys (dict_merge by_id (keyed records))).
Proof.
  revert by_id. induction records as [|r records IH]; intros by_id; [done|].
  change (dict_merge by_id (keyed (r :: records)))
    with (dict_merge (dict_set (rq_requirement_id r) r by_id) (keyed records)).
  rewrite <-IH. cbn [foldl]. f_equal. unfold merge_step. cbn [fst snd]. f_equal. rewrite dict_keys_set. unfold dict_mem.
  destruct (decide _) as [[v Hv]%elem_of_dict_keys|Hn]; [by rewrite Hv|].
  by rewrite (proj2 (dict_get_None _ _) Hn).
Qed.
(** Merging is building one dictionary of all records. *)
Lemma merge_dict existing imported :
  NoDup (ids existing) →
  merge_requirement_inputs existing imported = dict_values (dict_of (keyed (existing ++ imported))).
Proof.
  intros Hn. unfold merge_requirement_inputs. fold (keyed existing). fold (ids existing).
  assert (Hk : dict_of (keyed existing) = keyed existing).
  { apply dict_of_id. unfold dict_wf, dict_keys. by rewrite record_keys. }
  rewrite Hk. assert (Hids : ids existing = dict_keys (keyed existing)) by (unfold dict_keys; by rewrite record_keys).
  rewrite Hids, merge_fold.
  assert (E : dict_of (keyed (existing ++ imported)) = dict_merge (keyed existing) (keyed imported)).
  { unfold keyed at 1. rewrite fmap_app. change (dict_of (keyed existing ++ keyed imported) = dict_merge (keyed existing) (keyed imported)).
    by rewrite dict_of_app, Hk. }
  rewrite <-E. apply omap_dict_get, dict_of_wf.
Qed.

(** Every record of a dictionary of records is under its own identity. *)
Lemma dict_of_keyed_fixed records :
  keyed (dict_values (dict_of (keyed records))) = dict_of (keyed records).
Proof.
  assert (Hin : ∀ kv, kv ∈ dict_of (keyed records) → kv.1 = rq_requirement_id kv.2).
  { intros [k r] Hkr. apply dict_get_elem in Hkr; [|apply dict_of_wf].
    apply dict_of_get_elem, list_elem_of_fmap in Hkr as (r' & [= -> ->] & _). done. }
  revert Hin. generalize (dict_of (keyed records)). intros d Hd. unfold keyed, dict_values.
  rewrite <-list_fmap_compose. induction d as [|[k r] d IH]; [done|]. cbn. f_equal.
  - pose proof (Hd (k, r) ltac:(left)) as Hk. cbn in Hk. by rewrite Hk.
  - apply IH. intros kv Hkv. apply Hd. by right.
Qed.
Lemma merged_ids existing imported :
  NoDup (ids existing) → NoDup (ids (merge_requirement_inputs existing imported)).
Proof.
  intros Hn. rewrite merge_dict by done. rewrite <-record_keys, dict_of_keyed_fixed. apply dict_of_wf.
Qed.
Lemma keyed_filter i records :
  filter (λ kv : string * RequirementInput, kv.1 = i) (keyed records)
  = keyed (filter (λ r, rq_requirement_id r = i) records).
Proof.
  induction records as [|r records IH]; [done|]. cbn [keyed fmap list_fmap]. rewrite !filter_cons. cbn [fst].
  destruct (decide _); [|exact IH]. cbn [keyed fmap list_fmap]. f_equal. exact IH.
Qed.
(** The last record of an identity *)
Definition latest (i : string) (records : list RequirementInput) : option RequirementInput :=
  last (filter (λ r, rq_requirement_id r = i) records).
Lemma dict_of_keyed_get i records : dict_get i (dict_of (keyed records)) = latest i records.
Proof.
  rewrite dict_of_get, keyed_filter. unfold latest, keyed. rewrite fmap_last. by destruct (last _).
Qed.
Lemma latest_app i l1 l2 :
  latest i (l1 ++ l2) = match latest i l2 with Some r => Some r | None => latest i l1 end.
Proof. unfold latest. by rewrite filter_app, last_app. Qed.
Lemma latest_unique i records : NoDup (ids records) → latest i records = dict_get i (keyed records).
Proof.
  intros Hn. rewrite <-dict_of_keyed_get, dict_of_id; [done|]. unfold dict_wf, dict_keys. by rewrite record_keys.
Qed.
Lemma latest_elem i records : i ∈ ids records → is_Some (latest i records).
Proof.
  intros (r & -> & Hr)%list_elem_of_fmap. unfold latest. apply last_is_Some. intros E.
  apply (filter_nil_not_elem_of _ _ r E); done.
Qed.

(** The identities after an upsert: those held, then the new ones in order *)
Definition upserted : list string → list string → list string :=
  foldl (λ held i, if decide (i ∈ held) then held else held ++ [i]).
Lemma upserted_absorbs held js : (∀ j, j ∈ js → j ∈ held) → upserted held js = held.
Proof.
  unfold upserted. induction js as [|j js IH]; intros Hj; [done|]. cbn [foldl].
  rewrite decide_True by (apply Hj; left). apply IH. intros k Hk. apply Hj. by right.
Qed.
Lemma upserted_covers held js j : j ∈ upserted held js ↔ j ∈ held ∨ j ∈ js.
Proof.
  unfold upserted. revert held. induction js as [|k js IH]; intros held; cbn [foldl]; [set_solver|].
  rewrite IH. case_decide; set_solver.
Qed.
Lemma upserted_extends held js : held `prefix_of` upserted held js.
Proof.
  unfold upserted. revert held. induction js as [|k js IH]; intros held; cbn [foldl]; [done|].
  etrans; [|apply IH]. case_decide; [done|by exists [k]].
Qed.

Lemma merged_keyed existing imported :
  NoDup (ids existing) →
  keyed (merge_requirement_inputs existing imported) = dict_of (keyed (existing ++ imported)).
Proof. intros Hn. rewrite merge_dict by done. apply dict_of_keyed_fixed. Qed.
Lemma merged_latest existing imported i :
  NoDup (ids existing) →
  latest i (merge_requirement_inputs existing imported) = latest i (existing ++ imported).
Proof. intros Hn. rewrite latest_unique by by apply merged_ids. by rewrite merged_keyed, dict_of_keyed_get. Qed.
Lemma merged_order existing imported :
  NoDup (ids existing) →
  ids (merge_requirement_inputs existing imported) = upserted (ids existing) (ids imported).
Proof.
  intros Hn. rewrite <-record_keys, merged_keyed by done.
  assert (E : keyed (existing ++ imported) = keyed existing ++ keyed imported) by apply fmap_app.
  rewrite E, dict_of_app. rewrite dict_of_id by (unfold dict_wf, dict_keys; by rewrite record_keys).
  etrans; [apply dict_keys_merge|]. unfold dict_keys. by rewrite !record_keys.
Qed.
Lemma merged_again existing imported :
  NoDup (ids existing) →
  let merged := merge_requirement_inputs existing imported in
  merge_requirement_inputs merged imported = merged.
Proof.
  intros Hn merged. assert (Hm : NoDup (ids merged)) by by apply merged_ids.
  assert (E : keyed (merge_requirement_inputs merged imported) = keyed merged).
  { rewrite merged_keyed by done. apply dict_ext.
    - apply dict_of_wf.
    - rewrite <-merged_keyed by done. unfold dict_keys. rewrite !record_keys, merged_order by done.
      apply upserted_absorbs. intros j Hj. unfold merged. rewrite merged_order by done.
      apply upserted_covers. by right.
    - intros i. rewrite dict_of_keyed_get, <-latest_unique, latest_app by done. unfold merged.
      rewrite merged_latest, latest_app by done. by destruct (latest i imported). }
  by rewrite <-(record_values (merge_requirement_inputs merged imported)), E, record_values.
Qed.

(** * Persisting *)

(** Attached requirements read back, also through the written extension. *)
Class RequirementsCoreLaws (Bundle : Type) `{RequirementsCore Bundle} := {
  attached_requirements (b : Bundle) rs : load_requirements_from_bundle (attach_requirements_to_bundle b rs) = rs;
  input_extension_reads rs : ∃ d, stored_input_extension rs = Ok (VDict d) ∧
    load_requirements_input_extension d = Ok rs
}.

Section persist.
Context `{RequirementsCoreLaws Bundle}.

(** The requirements a directory holds *)
Definition held (d : bundle_dir) : result (list RequirementInput) :=
  let! bundle := _load_bundle_with_requirements d in Ok (load_requirements_from_bundle bundle).

Lemma load_attached (b : Bundle) records rest legacy :
  stored_input_extension records = Ok (VDict rest) → load_requirements_input_extension rest = Ok records →
  held {| bd_bundle := Ok b; bd_inputs := Some (stored_input_extension records); bd_legacy_inputs := legacy |}
    = Ok records.
Proof.
  intros He Hl. unfold held, _load_bundle_with_requirements, _existing_requirements_sidecar_path.
  cbn [bd_bundle bd_inputs res_bind]. rewrite He. cbn [res_bind]. rewrite Hl. cbn [res_bind].
  by rewrite attached_requirements.
Qed.
Lemma persist_held imported d before w :
  held d = Ok before → save_failure w = None → sidecar_failure w = None →
  ∃ d', _persist_imported_requirements imported w d = (Ok tt, d') ∧
    held d' = Ok (merge_requirement_inputs before imported).
Proof.
  unfold held at 1. intros (bundle & Hb & [= <-])%res_bind_Ok Hsave Hside.
  unfold _persist_imported_requirements, save_project_bundle, _write_requirements_sidecar.
  rewrite Hb, Hsave, Hside. eexists. split; [done|].
  destruct (input_extension_reads (merge_requirement_inputs (load_requirements_from_bundle bundle) imported))
    as (e & He & Hl). by eapply load_attached.
Qed.
(** What is held depends on the bundle of a directory with a sidecar only
    through its being readable. *)
Lemma held_sidecar d b before :
  held d = Ok before → is_Some (_existing_requirements_sidecar_path d) →
  held {| bd_bundle := Ok b; bd_inputs := bd_inputs d; bd_legacy_inputs := bd_legacy_inputs d |} = Ok before.
Proof.
  unfold held, _load_bundle_with_requirements. intros Hh [sidecar Hs].
  change (_existing_requirements_sidecar_path {| bd_bundle := Ok b; bd_inputs := bd_inputs d;
    bd_legacy_inputs := bd_legacy_inputs d |}) with (_existing_requirements_sidecar_path d).
  rewrite Hs in *. cbn [bd_bundle res_bind]. destruct (bd_bundle d) as [b'|e]; [|done]. cbn [res_bind] in Hh.
  destruct sidecar as [loaded|e]; [|done]. cbn [res_bind] in *. destruct loaded; try done.
  destruct (load_requirements_input_extension _) as [records|e]; [|done]. cbn [res_bind] in *.
  by rewrite attached_requirements in *.
Qed.

End persist.

(** * A sample core *)

Section samples.
(** A bundle is the list of its requirements; the extension lists them. *)
Definition record_value (r : RequirementInput) : pyval :=
  VDict [(VStr "id", VStr (rq_requirement_id r)); (VStr "record", VDict (rq_payload r))].
Definition value_record (v : pyval) : option RequirementInput :=
  match v with
  | VDict [(_, VStr i); (_, VDict p)] => Some {| rq_requirement_id := i; rq_payload := p |}
  | _ => None
  end.
#[local] Instance list_core : RequirementsCore (list RequirementInput) := {
  create_empty_project_bundle := λ _, [];
  stored_bundle := id;
  load_requirements_from_bundle := id;
  attach_requirements_to_bundle := λ _ rs, rs;
  stored_input_extension := λ rs, Ok (VDict [(VStr "requirements", VList (record_value <$> rs))]);
  load_requirements_input_extension := λ d,
    match vget "requirements" d with VList l => Ok (omap value_record l) | _ => Ok [] end;
  normalize_requirement_records := λ _ _, Ok {| ir_requirements := []; ir_diagnostics := [] |};
  supports_project_root := λ _, true;
  import_helper := λ _ _ _, Ok {| ir_requirements := []; ir_diagnostics := [] |};
  validate_requirement_context := λ _ _, Ok [];
  inspect_requirement_context_coverage := λ _, [];
  core_requirement_context_profiles := ["enterprise"]
}.
#[local] Instance list_core_laws : RequirementsCoreLaws (list RequirementInput).
Proof.
  split; [done|]. intros rs. eexists. split; [done|]. cbn. f_equal.
  induction rs as [|[i p] rs IH]; [done|]. cbn. by rewrite IH.
Qed.

Definition sample_record (i text : string) : RequirementInput :=
  {| rq_requirement_id := i; rq_payload := [(VStr "title", VStr text)] |}.
Definition sample_dir : bundle_dir (Bundle := list RequirementInput) :=
  {| bd_bundle := Ok []; bd_inputs := None;
     bd_legacy_inputs := Some (stored_input_extension [sample_record "R1" "old"; sample_record "R2" "kept"]) |}.
Definition no_sidecar : bundle_writes (Bundle := list RequirementInput) :=
  {| save_failure := None; sidecar_failure := Some (OSError "No space left on device") |}.
End samples.
