(* ===== verification/Evidence.v ===== *)
(** Evidence: the requirements evidence gate of
    [specfact_requirements/requirements/evidence.py]: which changed sources are
    examined, the verdict on each, the lifecycle report with its plan artifact,
    and the files and exit code of the command; calls [Bundles] and
    [Lifecycle]. *)

From S2P Require Import Prelude Text Regex Paths Dict PyValue Json Lifecycle Bundles.

Definition SCHEMA_VERSION : string := "1".
Definition EXECUTION_PROOF : string := "not-included".
Definition EVIDENCE_SIDECAR_NAME : string := "requirements-evidence.yaml".

(** What processes and files answer during one run: the standard output of a
    git command (or its error), the root of the materialized index, the
    directory an archived change is copied to, tests on paths, and the YAML
    document of a file ([None] when it cannot be read, decoded or parsed). *)
Class EvidenceHost := {
  git_stdout : list string → result string;
  extracted_index : string → result string;
  archived_import_root : string → result string;
  is_dir : string → bool;
  is_file : string → bool;
  resolve : string → result string;
  read_yaml : string → option pyval;
  (* [json.dumps] then [yaml.safe_load] of the overlay of records *)
  overlay_document : list payload → result pyval;
  (* the error of the n-th write for a source to its temporary directory,
     which is removed when it is raised: making the bundle (0), persisting the
     import (1), writing the overlay (2) and persisting it (3) *)
  temporary_write : string → nat → option exn
}.

(** * Reasons *)

Section reasons.
Context `{PyRepr}.

Definition is_error (entry : payload) : bool := is_str "error" (vget "severity" entry).
Definition _import_reasons (imported : nat) (diagnostics : list payload) : list string :=
  ((λ diagnostic, "import-error:" +:+
      py_str (default (VStr "unknown") (dict_get (VStr "code") diagnostic)))
     <$> List.filter is_error diagnostics)
  ++ (if (imported =? 0)%nat then ["no-requirements-imported"] else []).

Definition _validation_reasons (validation : option payload) : list string :=
  match validation with
  | Some v => if is_str "failed" (vget "status" v) then ["validation-failed"] else []
  | None => []
  end.

Definition count_field (k : string) (d : payload) : result Z :=
  py_int (default (VInt 0) (dict_get (VStr k) d)).
Definition _coverage_reasons (coverage : option payload) : result (list string) :=
  match coverage with
  | None => Ok []
  | Some coverage =>
      let! total := count_field "total_requirements" coverage in
      let! linked := count_field "with_test_links" coverage in
      Ok (if (linked <? total)%Z
          then ["test-link-coverage-incomplete:" +:+ pretty linked +:+ "/" +:+ pretty total] else [])
  end.

(** Iterating over a value that is not iterable raises. *)
Definition error_codes (violations : pyval) : result (list string) :=
  match py_iter violations with
  | None => Err (TypeError "object is not iterable")
  | Some l =>
      Ok (omap (λ violation,
            match violation with
            | VDict violation =>
                if is_error violation && truthy (vget "code" violation)
                then Some (py_str (vget "code" violation)) else None
            | _ => None
            end) l)
  end.
Definition _error_gate_reasons (validation : option payload) (finding_counts : list (string * Z)) :
    result (list string) :=
  let violations := match validation with
    | Some v => default (VList []) (dict_get (VStr "violations") v) | None => VList [] end in
  let! codes := error_codes violations in
  Ok ((λ nc, "gate-finding:" +:+ nc.1 +:+ "=" +:+ pretty nc.2)
        <$> List.filter (λ nc, (0 <? nc.2)%Z && bool_decide (nc.1 ∈ codes)) (sorted finding_counts)).

Definition _source_reasons (imported : nat) (diagnostics : list payload) (validation coverage : option payload)
    (finding_counts : list (string * Z)) : result (list string) :=
  let! coverage_reasons := _coverage_reasons coverage in
  let! gate_reasons := _error_gate_reasons validation finding_counts in
  Ok (_import_reasons imported diagnostics ++ _validation_reasons validation
        ++ coverage_reasons ++ gate_reasons).
End reasons.

(** * The evidence sidecar *)

Section sidecar.
Context `{PyRepr} `{EvidenceHost}.

Definition _source_repository_root (source_path : string) : result string :=
  match find (λ ancestor, String.eqb ancestor.1 "openspec") (path_ancestors source_path) with
  | Some ancestor => Ok (path_parent ancestor.2)
  | None => Err (ValueError "Requirements evidence source is not contained in an OpenSpec repository")
  end.

Definition _test_target_path (repo_root target : string) : string :=
  path_join repo_root (of_chars (before_colons (chars target))).

(** Both paths are resolved; only [OSError] is caught. *)
Definition resolved_pair (repo_root target : string) : result (string * string) :=
  let! resolved_root := resolve repo_root in
  let! resolved_target := resolve (_test_target_path repo_root target) in
  Ok (resolved_root, resolved_target).
Definition _is_repository_test_target (repo_root target : string) : result bool :=
  if is_absolute target then Ok false
  else
    match resolved_pair repo_root target with
    | Ok (resolved_root, resolved_target) =>
        Ok (is_relative_to resolved_target resolved_root && is_file resolved_target)
    | Err (OSError _) => Ok false
    | Err e => Err e
    end.

Definition _read_sidecar_requirements (sidecar_path : string) : option (list (pyval * pyval)) :=
  match default (VDict []) (read_yaml sidecar_path) with
  | VDict loaded => match vget "requirements" loaded with VDict r => Some r | _ => None end
  | _ => None
  end.

(** The links of a non-empty list of non-empty texts *)
Definition link_targets (test_links : pyval) : option (list string) :=
  match test_links with
  | VList ((_ :: _) as l) =>
      mapM (λ target, match target with
                      | VStr s => if bool_decide (s ≠ "") then Some s else None
                      | _ => None end) l
  | _ => None
  end.
Definition _valid_test_targets (repo_root : string) (test_links : pyval) :
    result (list string * list string) :=
  match link_targets test_links with
  | None => Ok ([], ["invalid"])
  | Some links =>
      let! valid_links := filter_res (_is_repository_test_target repo_root) links in
      Ok (valid_links,
          (λ target, "evidence-sidecar-missing-test:" +:+ target)
            <$> List.filter (λ target, negb (bool_decide (target ∈ valid_links))) links)
  end.

Definition _sidecar_entry (requirement_id entry : pyval) (repo_root : string)
    (imported_requirement_ids : gset string) : result (option string * list string * list string) :=
  match requirement_id, entry with
  | VStr requirement_id, VDict entry =>
      let! (links, reasons) := _valid_test_targets repo_root (vget "test_links" entry) in
      if bool_decide (reasons = ["invalid"])
      then Ok (Some requirement_id, [], ["evidence-sidecar-invalid-test-links:" +:+ requirement_id])
      else Ok (Some requirement_id, links,
               (if bool_decide (requirement_id ∈ imported_requirement_ids) then []
                else ["evidence-sidecar-unknown-requirement:" +:+ requirement_id]) ++ reasons)
  | _, _ => Ok (None, [], ["evidence-sidecar-invalid"])
  end.

Definition sidecar_step (repo_root : string) (imported_requirement_ids : gset string)
    (acc : list (string * list string) * list string) (item : pyval * pyval) :
    result (list (string * list string) * list string) :=
  let! (key, links, entry_reasons) := _sidecar_entry item.1 item.2 repo_root imported_requirement_ids in
  Ok (match key with
      | Some key => match links with [] => acc.1 | _ => dict_set key links acc.1 end
      | None => acc.1
      end, acc.2 ++ entry_reasons).
Definition _load_evidence_sidecar (source_path repo_root : string) (imported_requirement_ids : gset string) :
    result (list (string * list string) * list string) :=
  let sidecar_path := path_join source_path EVIDENCE_SIDECAR_NAME in
  if negb (is_file sidecar_path) then Ok ([], [])
  else
    match _read_sidecar_requirements sidecar_path with
    | None => Ok ([], ["evidence-sidecar-invalid"])
    | Some requirements =>
        fold_res (sidecar_step repo_root imported_requirement_ids) ([], [])
          (sort_by (λ kv, py_str kv.1) requirements)
    end.

(** A record with its test links appended; [list(v)] of a field that is not
    iterable raises. *)
Definition test_link (target : string) : pyval :=
  VDict (obj [("link_type", VStr "test"); ("target", VStr target)]).
Definition linked_record (links : list string) (requirement : RequirementInput) : result payload :=
  let record := rq_payload requirement in
  match links with
  | [] => Ok record
  | _ =>
      match py_iter (default (VList []) (dict_get (VStr "evidence_links") record)) with
      | None => Err (TypeError "object is not iterable")
      | Some existing =>
          Ok (dict_set (VStr "evidence_links") (VList (existing ++ (test_link <$> links))) record)
      end
  end.

Context `{RequirementsCore Bundle}.
Definition temporary_writes (source_path : string) (n : nat) (d : bundle_dir (Bundle := Bundle)) :
    bundle_writes (Bundle := Bundle) :=
  {| save_failure := (λ e, (e, d)) <$> temporary_write source_path n; sidecar_failure := None |}.
Definition temporary_written (source_path : string) (n : nat) : result unit :=
  match temporary_write source_path n with Some e => Err e | None => Ok tt end.
Definition imported_ids (requirements : list RequirementInput) : gset string :=
  list_to_set (rq_requirement_id <$> requirements).
Definition _apply_evidence_sidecar (source_path : string) (imported_requirements : list RequirementInput)
    (repository_root : string) (d : bundle_dir) : result (list string * bundle_dir) :=
  let! (links_by_requirement, reasons) :=
    _load_evidence_sidecar source_path repository_root (imported_ids imported_requirements) in
  if bool_decide (reasons ≠ []) || bool_decide (links_by_requirement = []) then Ok (reasons, d)
  else
    let! records := map_res (λ requirement,
      linked_record (bucket (rq_requirement_id requirement) links_by_requirement) requirement)
      imported_requirements in
    let! _ := temporary_written source_path 2 in
    let '(overlaid, d) := import_requirements_file_to_bundle ".requirements-evidence-overlay.json"
                            (overlay_document records) (temporary_writes source_path 3 d) d in
    let! _ := overlaid in
    Ok ([], d).
End sidecar.

(** * Changed sources *)

(** [\d{4}-\d{2}-\d{2}-(.+)] over the name of an archived change *)
Definition archived_change_id (name : list ascii) : option string :=
  let shape := [true; true; true; true; false; true; true; false; true; true; false] in
  let ok := forallb (λ cb : ascii * bool, if cb.2 then is_digit cb.1 else bool_decide (cb.1 = "-"%char))
              (zip name shape) in
  if ok && (length shape <? length name)%nat
     && negb (bool_decide (ascii_of_nat 10 ∈ drop (length shape) name))
  then Some (of_chars (drop (length shape) name)) else None.

Section changes.
Context `{EvidenceHost}.

Definition _source_path_for_import (source_path : string) : result string :=
  if negb (bool_decide (path_name (path_parent source_path) = chars "archive")) then Ok source_path
  else
    match archived_change_id (path_name source_path) with
    | None => Err (ValueError "OpenSpec archive source does not have a date-prefixed stable change id")
    | Some stable_id => archived_import_root stable_id
    end.

(** The root of a changed path below [openspec/changes] *)
Definition change_root (changed_path : string) : option string :=
  match path_parts changed_path with
  | "openspec" :: "changes" :: name :: _ =>
      if String.eqb name "archive" then None else Some (join "/" ["openspec"; "changes"; name])
  | _ => None
  end.
Definition _changed_change_roots (changed_paths : list string) : list string :=
  sorted_set (list_to_set (omap change_root changed_paths) : gset string).

Definition _git_changed_paths (arguments : list string) : result (list string) :=
  let! stdout := git_stdout arguments in Ok (str_splitlines stdout).

(** [[A-Za-z0-9][A-Za-z0-9._/-]*] *)
Definition base_ref_pattern : regex := RSeq (RSet (alnum_or "")) (RStar (RSet (alnum_or "._/-"))).
Definition _validate_base_ref (base_ref : string) : result unit :=
  check (fullmatch base_ref_pattern base_ref)
    (ValueError "base ref must be a non-option Git ref using alphanumeric, '.', '_', '/', or '-' characters").

Definition _discover_changed_openspec_sources (repo_root base_ref : string) : result (list string) :=
  let! _ := _validate_base_ref base_ref in
  let! changed := _git_changed_paths
    ["git"; "diff"; "--name-only"; "--diff-filter=ACMRD"; base_ref +:+ "...HEAD"; "--"; "openspec/changes"] in
  Ok (List.filter is_dir (path_join repo_root <$> _changed_change_roots changed)).
Definition _discover_staged_openspec_source_relatives : result (list string) :=
  let! changed := _git_changed_paths
    ["git"; "diff"; "--cached"; "--name-only"; "--diff-filter=ACMRD"; "--"; "openspec/changes"] in
  Ok (_changed_change_roots changed).

(** [[0-9a-f]{40,64}] *)
Definition is_tree_id (s : string) : bool :=
  forallb is_hex_lower (chars s) && (40 <=? String.length s)%nat && (String.length s <=? 64)%nat.
Definition _materialize_git_index_snapshot : result string :=
  let! tree := _git_changed_paths ["git"; "write-tree"] in
  match tree with
  | [tree] =>
      let! _ := check (is_tree_id tree) (ValueError "Git index tree could not be materialized") in
      extracted_index tree
  | _ => Err (ValueError "Git index tree could not be materialized")
  end.
End changes.

(** * Source mappings *)

Section mapping.
Context `{PyRepr} `{Sha256} `{EvidenceHost} `{RequirementsCore Bundle}.

Definition source_error (diagnostic : payload) : string :=
  "source-import-error:" +:+ py_str (default (VStr "unknown") (dict_get (VStr "code") diagnostic)).
(** [import_source.resolve()] is taken when the importer looks for the
    repository; the bundle is a fresh one in a temporary directory. *)
Definition import_openspec_source (source_path bundle_name : string) :
    result (string * ImportResult * bundle_dir) :=
  let! _ := temporary_written source_path 0 in
  let d := new_bundle_dir bundle_name in
  let! import_source := _source_path_for_import source_path in
  let! _ := check (is_dir import_source) (ContractViolation "source_dir must exist") in
  let '(imported, d) := import_native_requirements_to_bundle "openspec" import_source (resolve import_source)
                          (temporary_writes source_path 1 d) d in
  let! imported := imported in
  Ok (import_source, imported, d).
Definition _source_requirement_ids (source_path : string) : result (gset string * list string) :=
  let! (_, imported, _) := import_openspec_source source_path "bundle" in
  let findings := source_error <$> List.filter is_error (dg_payload <$> ir_diagnostics imported) in
  let requirement_ids := imported_ids (ir_requirements imported) in
  Ok (requirement_ids,
      if bool_decide (findings = []) && bool_decide (requirement_ids = ∅)
      then ["source-no-requirements-imported"] else findings).

Definition _mapped_scenario_ids (requirement : pyval) : list string :=
  match requirement with
  | VDict requirement =>
      match vget "verification_cases" requirement with
      | VList cases =>
          omap (λ case, match case with
            | VDict case =>
                match vget "scenario_id" case with
                | VStr scenario_id => if nonblank scenario_id then Some (strip scenario_id) else None
                | _ => None
                end
            | _ => None end) cases
      | _ => []
      end
  | _ => []
  end.

(** [requirement_id.rsplit(":", maxsplit=1)[-1]] *)
Definition last_segment (requirement_id : string) : string :=
  default "" (last (split_on ":"%char requirement_id)).
Definition scenario_findings (requirements : list (pyval * pyval)) (requirement_id : string) : list string :=
  (λ scenario_id, "unknown-source-scenario:" +:+ requirement_id +:+ ":" +:+ scenario_id)
    <$> List.filter (λ scenario_id, negb (String.eqb scenario_id (last_segment requirement_id)))
          (_mapped_scenario_ids (vget requirement_id requirements)).
Definition mapped_ids (requirements : list (pyval * pyval)) : gset string :=
  list_to_set (omap (λ k, match k with VStr s => Some s | _ => None end) requirements.*1).
Definition _source_mapping_findings (mapping : payload) (source_path : string) : result (list string) :=
  match vget "requirements" mapping with
  | VDict requirements =>
      let! (source_ids, findings) := _source_requirement_ids source_path in
      let mapped := mapped_ids requirements in
      Ok (findings
          ++ ((λ i, "missing-source-requirement-mapping:" +:+ i) <$> sorted_set (source_ids ∖ mapped))
          ++ ((λ i, "unknown-source-requirement:" +:+ i) <$> sorted_set (mapped ∖ source_ids))
          ++ mjoin (scenario_findings requirements <$> sorted_set (source_ids ∩ mapped)))
  | _ => Ok []
  end.

(** [{**report, ...}]; the findings of a lifecycle report are texts. *)
Definition finding_texts (report : payload) : list string :=
  match vget "findings" report with
  | VList l => omap (λ v, match v with VStr s => Some s | _ => None end) l
  | _ => []
  end.
Definition _failed_lifecycle_source_report (report : payload) (findings : list string) : payload :=
  let '(delivery_status, implementation_evidence) := lifecycle_status Incomplete in
  dict_merge report (obj [
    ("verdict", VStr "failed"); ("gate_decision", VStr "fail"); ("observed_maturity", VStr "incomplete");
    ("delivery_status", VStr delivery_status); ("implementation_evidence", VStr implementation_evidence);
    ("findings", str_list (sorted_set (list_to_set (finding_texts report ++ findings) : gset string)))]).

Definition _read_optional_mapping (path : string) : payload :=
  match read_yaml path with Some (VDict d) => d | _ => [] end.
Definition _read_review_evidence (path : option string) : option payload := _read_optional_mapping <$> path.

(** * Lifecycle reports *)

Definition summary (failed passed skipped total : Z) : pyval :=
  VDict (obj [("failed_sources", VInt failed); ("passed_sources", VInt passed);
              ("skipped_sources", VInt skipped); ("total_sources", VInt total)]).
Definition _skipped_report : payload :=
  obj [("schema_version", VStr SCHEMA_VERSION); ("verdict", VStr "skipped");
       ("execution_proof", VStr EXECUTION_PROOF); ("sources", VList []); ("summary", summary 0 0 1 0)].

Definition label_of (labels : list (string * string)) (source_path : string) : string :=
  default source_path (dict_get source_path labels).
(** The report of one source *)
Definition lifecycle_source (required_maturity : string) (review_evidence : option payload)
    (labels : list (string * string)) (source_path : string) : result payload :=
  let mapping := _read_optional_mapping (path_join source_path EVIDENCE_SIDECAR_NAME) in
  let! lifecycle := evaluate_mapping mapping required_maturity review_evidence in
  let! source_findings := _source_mapping_findings mapping source_path in
  let lifecycle := if bool_decide (source_findings = []) then lifecycle
                   else _failed_lifecycle_source_report lifecycle source_findings in
  Ok (dict_merge (obj [("source", VStr (as_posix (label_of labels source_path)))]) lifecycle).

(** [MATURITY_ORDER.get(text, -1)] *)
Definition maturity_rank (text : string) : Z :=
  match find (λ m, String.eqb (maturity_text m) text)
          [Incomplete; Planned; Accepted; TestAuthored; Red; Verified] with
  | Some m => MATURITY_ORDER m | None => -1 end.
(** [min(texts, key=rank)]: the first of least rank *)
Definition least_maturity (texts : list string) : string :=
  match texts with
  | [] => ""
  | t :: rest => foldl (λ best t, if (maturity_rank t <? maturity_rank best)%Z then t else best) t rest
  end.
Definition maturity_of_text (text : string) : maturity :=
  default Incomplete (find (λ m, String.eqb (maturity_text m) text)
                        [Planned; Accepted; TestAuthored; Red; Verified]).
Definition text_field (k : string) (d : payload) : string :=
  match vget k d with VStr s => s | _ => "" end.
Definition count_field_is (k s : string) (sources : list payload) : Z :=
  Z.of_nat (length (List.filter (λ source, is_str s (vget k source)) sources)).

Definition _lifecycle_report (source_paths : list string) (required_maturity : string)
    (review_evidence : option payload) (source_labels : list (string * string)) : result payload :=
  match source_paths with
  | [] =>
      Ok (dict_merge _skipped_report (obj [
        ("schema_version", VStr "2"); ("gate_decision", VStr "pass");
        ("required_maturity", VStr required_maturity); ("observed_maturity", VStr "no-impact");
        ("delivery_status", VStr "no-impact"); ("implementation_evidence", VStr "not-applicable")]))
  | _ =>
      let! sources := map_res (lifecycle_source required_maturity review_evidence source_labels) source_paths in
      let failed_sources := count_field_is "gate_decision" "fail" sources in
      let observed := least_maturity (text_field "observed_maturity" <$> sources) in
      let '(delivery_status, implementation_evidence) := lifecycle_status (maturity_of_text observed) in
      let total := Z.of_nat (length sources) in
      Ok (obj [
        ("schema_version", VStr "2");
        ("verdict", VStr (if (failed_sources =? 0)%Z then "passed" else "failed"));
        ("gate_decision", VStr (if (failed_sources =? 0)%Z then "pass" else "fail"));
        ("required_maturity", VStr required_maturity); ("observed_maturity", VStr observed);
        ("delivery_status", VStr delivery_status);
        ("implementation_evidence", VStr implementation_evidence);
        ("sources", VList (VDict <$> sources));
        ("summary", summary failed_sources (total - failed_sources) 0 total)])
  end.

(** * Plan artifacts *)

(** A source with its plan: the identity of the source and its cases *)
Definition _normalized_source_plan (source : pyval) : option (payload * list payload) :=
  match source with
  | VDict source =>
      match vget "plan" source with
      | VDict plan =>
          match vget "cases" plan, vget "mapping_digest" plan with
          | VList plan_cases, VStr mapping_digest =>
              let source_name := py_str (default (VStr "") (dict_get (VStr "source") source)) in
              let cases := (λ case, dict_merge (obj [("source", VStr source_name)]) case)
                             <$> mapping_cases plan_cases in
              if bool_decide (length cases ≠ length plan_cases) then None
              else Some (obj [("source", VStr source_name); ("mapping_digest", VStr mapping_digest)], cases)
          | _, _ => None
          end
      | _ => None
      end
  | _ => None
  end.
Definition _normalized_plan_inputs (sources : list pyval) : option (list payload * list payload) :=
  match mapM _normalized_source_plan sources with
  | None => None
  | Some normalized =>
      let source_plans := normalized.*1 in
      let cases := mjoin normalized.*2 in
      if bool_decide (source_plans = []) || bool_decide (cases = []) then None
      else Some (source_plans, cases)
  end.
Definition source_sort_key (item : pyval) : string :=
  match item with VDict d => py_str (vget "source" d) | _ => "" end.

(** The keys copied from a report raise [KeyError] when they are missing. *)
Definition _normalized_plan_report (report : payload) : result (option payload) :=
  if negb (is_str "pass" (vget "gate_decision" report)) then Ok None
  else
    match vget "sources" report with
    | VList sources =>
        match _normalized_plan_inputs (sort_by source_sort_key sources) with
        | None => Ok None
        | Some (source_plans, cases) =>
            let identity := obj [("sources", VList (VDict <$> source_plans));
                                 ("cases", VList (VDict <$> cases))] in
            let! mapping_digest := canonical_digest (obj [("sources", VList (VDict <$> source_plans))]) in
            let! plan := build_plan mapping_digest cases in
            let! verdict := vitem "verdict" report in
            let! gate_decision := vitem "gate_decision" report in
            let! required_maturity := vitem "required_maturity" report in
            let! observed_maturity := vitem "observed_maturity" report in
            let! plan_identity_digest := canonical_digest identity in
            Ok (Some (obj [
              ("schema_version", VStr "2"); ("verdict", verdict); ("gate_decision", gate_decision);
              ("required_maturity", required_maturity); ("observed_maturity", observed_maturity);
              ("mapping_digest", VStr mapping_digest); ("plan", VDict plan);
              ("sources", VList (VDict <$> source_plans));
              ("plan_identity_digest", VStr plan_identity_digest)]))
        end
    | _ => Ok None
    end.

(** [report.get("sources", [])] is a list in every report of this module. *)
Definition report_sources (report : payload) : list payload :=
  match vget "sources" report with VList l => mapping_cases l | _ => [] end.
Definition unavailable_source (source : payload) : payload :=
  obj [("source", VStr (py_str (default (VStr "") (dict_get (VStr "source") source))))]
  ++ (match vget "mapping_digest" source with VStr s => obj [("mapping_digest", VStr s)] | _ => [] end)
  ++ (match vget "findings" source with VList l => obj [("findings", VList l)] | _ => [] end).
Definition _unavailable_plan_report (report : payload) : payload :=
  obj [("schema_version", VStr "2");
       ("gate_decision", default (VStr "fail") (dict_get (VStr "gate_decision") report));
       ("plan_status", VStr "not-available"); ("plan", VNone);
       ("sources", VList (VDict <$> (unavailable_source <$> report_sources report)))].
End mapping.

(** * Source verdicts *)

Section verdicts.
Context `{PyRepr} `{Sha256} `{EvidenceHost} `{RequirementsCore Bundle}.

Record source_evaluation := {
  ev_diagnostics : list payload;
  ev_imported : nat;
  ev_validation : option payload;
  ev_coverage : option payload;
  ev_finding_counts : list (string * Z);
  ev_sidecar_reasons : list string
}.
Definition _evaluate_imported_source (source_path import_source : string) (import_result : ImportResult)
    (d : bundle_dir) : result source_evaluation :=
  let diagnostics := dg_payload <$> ir_diagnostics import_result in
  let imported := length (ir_requirements import_result) in
  let stop sidecar_reasons :=
    {| ev_diagnostics := diagnostics; ev_imported := imported; ev_validation := None; ev_coverage := None;
       ev_finding_counts := []; ev_sidecar_reasons := sidecar_reasons |} in
  if existsb is_error diagnostics || (imported =? 0)%nat then Ok (stop [])
  else
    let! repository_root := _source_repository_root source_path in
    let! (sidecar_reasons, d) :=
      _apply_evidence_sidecar import_source (ir_requirements import_result) repository_root d in
    if bool_decide (sidecar_reasons ≠ []) then Ok (stop sidecar_reasons)
    else
      let! validation := validate_requirements_bundle d (Some "enterprise") in
      let! coverage := inspect_requirements_bundle_coverage d in
      let! finding_counts := requirements_gate_finding_counts d (Some "enterprise") in
      Ok {| ev_diagnostics := diagnostics; ev_imported := imported; ev_validation := Some validation;
            ev_coverage := Some coverage; ev_finding_counts := finding_counts; ev_sidecar_reasons := [] |}.

Definition optional_payload (p : option payload) : pyval :=
  match p with Some p => VDict p | None => VNone end.
Definition _source_report (source_path bundle_name source_label : string) : result payload :=
  let! (import_source, import_result, d) := import_openspec_source source_path bundle_name in
  let! e := _evaluate_imported_source source_path import_source import_result d in
  let! source_reasons := _source_reasons (ev_imported e) (ev_diagnostics e) (ev_validation e) (ev_coverage e)
                           (ev_finding_counts e) in
  let reasons := ev_sidecar_reasons e ++ source_reasons in
  Ok (obj [
    ("source", VStr (as_posix source_label));
    ("verdict", VStr (if bool_decide (reasons ≠ []) then "failed" else "passed"));
    ("reasons", str_list reasons);
    ("import", VDict (obj [("diagnostics", VList (VDict <$> ev_diagnostics e));
                           ("imported", VInt (Z.of_nat (ev_imported e)))]));
    ("validation", optional_payload (ev_validation e)); ("coverage", optional_payload (ev_coverage e));
    ("gate_finding_counts", VDict ((λ kv, (VStr kv.1, VInt kv.2)) <$> ev_finding_counts e))]).

Fixpoint source_reports (index : Z) (labels : list (string * string)) (source_paths : list string) :
    result (list payload) :=
  match source_paths with
  | [] => Ok []
  | source_path :: rest =>
      let! report := _source_report source_path ("requirements-evidence-" +:+ pretty index)
                       (label_of labels source_path) in
      let! more := source_reports (index + 1) labels rest in
      Ok (report :: more)
  end.
Definition _evaluate_sources (source_paths : list string) (source_labels : list (string * string)) :
    result payload :=
  match source_paths with
  | [] => Ok _skipped_report
  | _ =>
      let! reports := source_reports 1 source_labels source_paths in
      let failed_sources := count_field_is "verdict" "failed" reports in
      let total := Z.of_nat (length reports) in
      Ok (obj [
        ("schema_version", VStr SCHEMA_VERSION);
        ("verdict", VStr (if (failed_sources =? 0)%Z then "passed" else "failed"));
        ("execution_proof", VStr EXECUTION_PROOF); ("sources", VList (VDict <$> reports));
        ("summary", summary failed_sources (total - failed_sources) 0 total)])
  end.

(** * The command *)

(** The examined sources with their labels; an empty label list stands for
    [None]. *)
Definition evaluate_selected (required_maturity : option string) (review_evidence : option payload)
    (sources : list string) (lifecycle_labels verdict_labels : list (string * string)) : result payload :=
  match required_maturity with
  | Some required_maturity => _lifecycle_report sources required_maturity review_evidence lifecycle_labels
  | None => _evaluate_sources sources verdict_labels
  end.
(** [source.relative_to(repo_root)] of a source below the root *)
Definition relative_to (source repo_root : string) : string :=
  as_posix (join "/" (drop (length (path_components repo_root)) (path_components source))).
Definition evaluate_requirements_evidence (repo_root : string) (base_ref : option string) (staged : bool)
    (required_maturity : option string) (review_evidence : option payload) : result payload :=
  let! _ := check (match base_ref with Some _ => negb staged | None => staged end)
    (ValueError "choose exactly one of --base-ref or --staged") in
  let! _ := check (match required_maturity with Some m => bool_decide (is_Some (parse_required m)) | None => true end)
    (ValueError "required maturity must be planned, accepted, test-authored, red, or verified") in
  match base_ref with
  | Some base_ref =>
      let! sources := _discover_changed_openspec_sources repo_root base_ref in
      evaluate_selected required_maturity review_evidence sources
        ((λ source, (source, relative_to source repo_root)) <$> sources) []
  | None =>
      let! relative_sources := _discover_staged_openspec_source_relatives in
      let! snapshot_root := _materialize_git_index_snapshot in
      let present := List.filter (λ source, is_dir (path_join snapshot_root source)) relative_sources in
      let labels := (λ source, (path_join snapshot_root source, source)) <$> present in
      evaluate_selected required_maturity review_evidence (path_join snapshot_root <$> present) labels labels
  end.

Definition _gate_failure_report (error : exn) : payload :=
  obj [("schema_version", VStr SCHEMA_VERSION); ("verdict", VStr "failed");
       ("execution_proof", VStr EXECUTION_PROOF);
       ("sources", VList [VDict (obj [
          ("source", VStr "<gate>"); ("verdict", VStr "failed");
          ("reasons", str_list ["gate-exception:" +:+ exn_type_name error]);
          ("import", VDict (obj [("diagnostics", VList []); ("imported", VInt 0)]));
          ("validation", VNone); ("coverage", VNone); ("gate_finding_counts", VDict [])])]);
       ("summary", summary 1 0 0 1)].

Record RequirementsEvidenceRequest := {
  rer_repo_root : string;
  rer_output_path : string;
  rer_summary_path : option string;
  rer_base_ref : option string;
  rer_staged : bool;
  rer_required_maturity : option string;
  rer_review_evidence_path : option string;
  rer_plan_output_path : option string
}.

(** ** Destinations *)

(** Whether two paths are the same existing file *)
Definition _evidence_destinations_alias (same_file : string → string → bool)
    (output_path summary_path : string) : result bool :=
  let! output := resolve output_path in
  let! summary := resolve summary_path in
  Ok (path_eqb output summary || same_file output_path summary_path).

Definition destinations (request : RequirementsEvidenceRequest) : list (string * string) :=
  omap (λ np : string * option string, match np.2 with Some path => Some (np.1, path) | None => None end)
    [("output", Some (rer_output_path request)); ("summary", rer_summary_path request);
     ("plan output", rer_plan_output_path request)].
Fixpoint distinct_destinations (same_file : string → string → bool) (l : list (string * string)) :
    result unit :=
  match l with
  | [] => Ok tt
  | (name, path) :: rest =>
      let! _ := fold_res (λ _ other,
        let! alias := _evidence_destinations_alias same_file path other.2 in
        check (negb alias) (ValueError (name +:+ " and " +:+ other.1 +:+
          " paths must resolve to different destinations"))) tt rest in
      distinct_destinations same_file rest
  end.
Definition _validate_evidence_destinations (same_file : string → string → bool)
    (request : RequirementsEvidenceRequest) : result unit :=
  distinct_destinations same_file (destinations request).

(** ** Markdown *)

Definition summary_count (k : string) (report : payload) : result string :=
  let! s := vitem "summary" report in
  match s with
  | VDict d => let! n := vitem k d in Ok (py_str n)
  | _ => Err (TypeError "not subscriptable")
  end.
Definition text_item (k : string) (report : payload) : result string :=
  let! v := vitem k report in Ok (py_str v).
(** [source.get("reasons", source.get("findings", []))], texts *)
Definition source_notes (source : payload) : list string :=
  match default (default (VList []) (dict_get (VStr "findings") source)) (dict_get (VStr "reasons") source) with
  | VList l => py_str <$> l
  | _ => []
  end.
Definition markdown_lines (report : payload) : result (list string) :=
  let! total := summary_count "total_sources" report in
  let! passed := summary_count "passed_sources" report in
  let! failed := summary_count "failed_sources" report in
  let! skipped := summary_count "skipped_sources" report in
  let! verdict := text_item "verdict" report in
  let head := ["## Requirements evidence"; ""; "- Verdict: **" +:+ verdict +:+ "**";
     "- Sources: " +:+ total +:+ " total; " +:+ passed +:+ " passed; " +:+ failed +:+ " failed; "
       +:+ skipped +:+ " skipped"] in
  let! middle :=
    (if dict_mem (VStr "gate_decision") report then
       let! gate_decision := text_item "gate_decision" report in
       let! required := text_item "required_maturity" report in
       let! observed := text_item "observed_maturity" report in
       let! evidence := text_item "implementation_evidence" report in
       Ok ["- Gate decision: **" +:+ gate_decision +:+ "**"; "- Required maturity: `" +:+ required +:+ "`";
           "- Observed maturity: `" +:+ observed +:+ "`";
           "- Implementation evidence: `" +:+ evidence +:+ "`"]
     else Ok ["- Test-execution proof: not included (this gate validates requirement-source and linkage evidence)."]) in
  let! notes := map_res (λ source,
      let! name := text_item "source" source in
      Ok ("- `" +:+ name +:+ "`: " +:+ join ", " (source_notes source)))
    (List.filter (λ source, negb (bool_decide (source_notes source = []))) (report_sources report)) in
  Ok (head ++ middle ++ notes).

(** ** Files and exit code *)

(** What a run leaves behind: the files it wrote in full, and its exit code or
    the exception it ended with.  What a write that fails leaves at its own
    path, perhaps a truncated file, is not listed. *)
Inductive written := WReport (report : payload) | WMarkdown (lines : list string).
Record run_outcome := { ro_files : list (string * written); ro_exit : result Z }.
Definition raised (files : list (string * written)) (e : exn) : run_outcome :=
  {| ro_files := files; ro_exit := Err e |}.

(** Writing a file can fail: [can_write] answers. *)
Definition write_file (can_write : string → result unit) (path : string) (content : result written)
    (files : list (string * written)) (k : list (string * written) → run_outcome) : run_outcome :=
  match content with
  | Err e => raised files e
  | Ok content =>
      match can_write path with
      | Ok _ => k (files ++ [(path, content)])
      | Err e => raised files e
      end
  end.
Definition plan_artifact (report : payload) : result written :=
  let! plan_report := _normalized_plan_report report in
  Ok (WReport (match plan_report with Some (_ :: _ as r) => r | _ => _unavailable_plan_report report end)).

Definition request_report (request : RequirementsEvidenceRequest) : payload :=
  match evaluate_requirements_evidence (rer_repo_root request) (rer_base_ref request) (rer_staged request)
          (rer_required_maturity request) (_read_review_evidence (rer_review_evidence_path request)) with
  | Ok report => report
  | Err error => _gate_failure_report error
  end.
(** The exit code *)
Definition exit_with (report : payload) (files : list (string * written)) : run_outcome :=
  {| ro_files := files;
     ro_exit := let! verdict := vitem "verdict" report in Ok (if is_str "failed" verdict then 1%Z else 0%Z) |}.
(** The optional summary, then the exit code *)
Definition summarise (can_write : string → result unit) (request : RequirementsEvidenceRequest)
    (report : payload) (files : list (string * written)) : run_outcome :=
  match rer_summary_path request with
  | Some path => write_file can_write path (let! lines := markdown_lines report in Ok (WMarkdown lines))
                   files (exit_with report)
  | None => exit_with report files
  end.
Definition write_plan (can_write : string → result unit) (request : RequirementsEvidenceRequest)
    (report : payload) (files : list (string * written)) : run_outcome :=
  match rer_plan_output_path request, rer_required_maturity request with
  | Some path, Some _ =>
      write_file can_write path (plan_artifact report) files (summarise can_write request report)
  | _, _ => summarise can_write request report files
  end.
Definition _write_requirements_evidence (same_file : string → string → bool)
    (can_write : string → result unit) (request : RequirementsEvidenceRequest) : run_outcome :=
  match (let! _ := _validate_evidence_destinations same_file request in
         match rer_base_ref request with Some base_ref => _validate_base_ref base_ref | None => Ok tt end) with
  | Err e => raised [] e
  | Ok _ =>
      let report := request_report request in
      write_file can_write (rer_output_path request) (Ok (WReport report)) []
        (write_plan can_write request report)
  end.

(** ** The keyword convention *)

Definition supported_options : list string :=
  ["summary_path"; "base_ref"; "staged"; "required_maturity"; "review_evidence_path"; "plan_output_path"].
Definition option_text (k : string) (options : list (string * pyval)) : option string :=
  match dict_get k options with Some (VStr s) => Some s | _ => None end.
Definition _legacy_request (repo_root output_path : string) (positional : list string)
    (options : list (string * pyval)) : result RequirementsEvidenceRequest :=
  let! _ := check (length positional <=? 1)%nat
    (TypeError "write_requirements_evidence accepts at most one positional summary path") in
  match sorted (List.filter (λ k, negb (bool_decide (k ∈ supported_options))) (dict_keys options)) with
  | unexpected :: _ => Err (TypeError ("unexpected write_requirements_evidence option: " +:+ unexpected))
  | [] =>
      Ok {| rer_repo_root := repo_root; rer_output_path := output_path;
            rer_summary_path := match positional with path :: _ => Some path
                                | [] => option_text "summary_path" options end;
            rer_base_ref := option_text "base_ref" options;
            rer_staged := truthy (default (VBool false) (dict_get "staged" options));
            rer_required_maturity := option_text "required_maturity" options;
            rer_review_evidence_path := option_text "review_evidence_path" options;
            rer_plan_output_path := option_text "plan_output_path" options |}
  end.
Definition write_requirements_evidence (same_file : string → string → bool) (can_write : string → result unit)
    (repo_root output_path : string) (positional : list string) (options : list (string * pyval)) :
    run_outcome :=
  match _legacy_request repo_root output_path positional options with
  | Err e => raised [] e
  | Ok request => _write_requirements_evidence same_file can_write request
  end.
End verdicts.
