(* ===== verification/EvidenceProofs.v ===== *)
(** EvidenceProofs: the evidence gate exits with 0 exactly when every examined
    source proves what it must, test links stay inside the repository, and the
    plan artifact of a passing run is one the reconciliation accepts. *)

From S2P Require Import Prelude Text Regex Paths Dict PyValue Json Lifecycle DigestProofs LifecycleProofs.
From S2P Require Import Bundles BundleProofs Evidence.

(** * The sidecar *)

Section sidecar.
Context `{PyRepr} `{EvidenceHost}.

(** A test link resolves to a file below the root. *)
Definition contained (repo_root target : string) : Prop :=
  is_absolute target = false ∧
  ∃ resolved_root resolved_target, resolve repo_root = Ok resolved_root ∧
    resolve (_test_target_path repo_root target) = Ok resolved_target ∧
    is_relative_to resolved_target resolved_root = true ∧ is_file resolved_target = true.

Lemma test_target_contained repo_root target :
  _is_repository_test_target repo_root target = Ok true ↔ contained repo_root target.
Proof.
  unfold _is_repository_test_target, contained, resolved_pair.
  destruct (is_absolute target); [split; [done|by intros [? _]]|].
  destruct (resolve repo_root) as [rr|e]; cbn [res_bind].
  2:{ split; [by destruct e|]. by intros (_ & ? & ? & ? & _). }
  destruct (resolve (_test_target_path repo_root target)) as [rt|e]; cbn [res_bind].
  2:{ split; [by destruct e|]. by intros (_ & ? & ? & _ & ? & _). }
  split.
  - intros [= E]. apply andb_true_iff in E as [E1 E2]. split; [done|]. by exists rr, rt.
  - intros (_ & ? & ? & [= <-] & [= <-] & E1 & E2). by rewrite E1, E2.
Qed.

(** The links of an entry that needs no finding *)
Definition entry_links (repo_root : string) (entry : list (pyval * pyval)) (links : list string) : Prop :=
  link_targets (vget "test_links" entry) = Some links ∧ links ≠ [] ∧ Forall (contained repo_root) links.

Lemma filter_res_all {A} (p : A → result bool) l ys :
  filter_res p l = Ok ys → (∀ x, x ∈ l → x ∈ ys) → ys = l.
Proof.
  revert ys. induction l as [|x l IH]; intros ys; cbn; [by intros [= <-]|].
  intros (b & Hb & (zs & Hz & [= <-])%res_bind_Ok)%res_bind_Ok Hall.
  assert (Hx : p x = Ok true).
  { assert (Hin : x ∈ x :: l) by left. pose proof (Hall x Hin) as Hy.
    assert (Hf : filter_res p (x :: l) = Ok (if b then x :: zs else zs)) by (cbn; rewrite Hb; cbn; by rewrite Hz).
    by apply (filter_res_elem p _ _ x Hf) in Hy as [_ ?]. }
  rewrite Hx in Hb. injection Hb as <-. f_equal. apply IH; [done|].
  intros y Hy. apply (filter_res_elem p l zs y Hz). split; [done|].
  assert (Hin : y ∈ x :: l) by by right. pose proof (Hall y Hin) as Hyy.
  assert (Hf : filter_res p (x :: l) = Ok (x :: zs)) by (cbn; rewrite Hx; cbn; by rewrite Hz).
  by apply (filter_res_elem p _ _ y Hf) in Hyy as [_ ?].
Qed.

Lemma link_targets_nonempty v links : link_targets v = Some links → links ≠ [].
Proof.
  unfold link_targets. destruct v as [| | | | | | |[|x l]| | | |]; try done. cbn.
  destruct x as [| | | |s| | | | | | |]; try done. case_bool_decide; [|done]. cbn.
  by intros (? & _ & [= <-])%bind_Some.
Qed.
Lemma valid_targets_links repo_root v links reasons :
  _valid_test_targets repo_root v = Ok (links, reasons) → reasons ≠ ["invalid"] →
  ∃ targets, link_targets v = Some targets ∧ Forall (contained repo_root) links ∧
    (reasons = [] → links = targets).
Proof.
  unfold _valid_test_targets. destruct (link_targets v) as [targets|]; [|by intros [= <- <-]].
  intros (ys & Hy & [= <- <-])%res_bind_Ok _. exists targets. split; [done|]. split.
  - apply Forall_forall. intros t Ht. apply test_target_contained.
    by apply (filter_res_elem _ _ _ t Hy) in Ht as [_ ?].
  - intros Hr%fmap_nil_inv. apply (filter_res_all _ _ _ Hy). intros t Ht.
    destruct (decide (t ∈ ys)) as [|Hn]; [done|]. exfalso.
    assert (Hin : t ∈ List.filter (λ target, negb (bool_decide (target ∈ ys))) targets).
    { apply list_elem_of_In, filter_In. split; [by apply list_elem_of_In|]. by rewrite bool_decide_eq_false_2. }
    rewrite Hr in Hin. by apply elem_of_nil in Hin.
Qed.

Lemma missing_not_invalid (l : list string) :
  ((λ target, "evidence-sidecar-missing-test:" +:+ target) <$> l) ≠ ["invalid"].
Proof. destruct l as [|t [|]]; done. Qed.
(** An entry, with the links it records *)
Lemma sidecar_entry_spec requirement_id entry repo_root imported key links reasons :
  _sidecar_entry requirement_id entry repo_root imported = Ok (key, links, reasons) →
  Forall (contained repo_root) links ∧
  (reasons = [] → ∃ i e, requirement_id = VStr i ∧ entry = VDict e ∧ key = Some i ∧ i ∈ imported ∧
     entry_links repo_root e links).
Proof.
  unfold _sidecar_entry. destruct requirement_id as [| | | |i| | | | | | |]; try (by intros [= <- <- <-]).
  destruct entry as [| | | | | | | | |e| |]; try (by intros [= <- <- <-]).
  intros ([ls rs] & Hv & E)%res_bind_Ok. case_bool_decide as Hi.
  - by injection E as <- <- <-.
  - injection E as <- <- <-. destruct (valid_targets_links _ _ _ _ Hv Hi) as (targets & Ht & Hc & Hall).
    split; [done|]. intros [Hin ->]%app_eq_nil. case_bool_decide; [|done]. rewrite (Hall eq_refl) in *.
    exists i, e. do 4 (split; [done|]). split; [done|]. split; [by eapply link_targets_nonempty|done].
Qed.

Lemma sidecar_step_spec repo_root imported acc item acc' :
  sidecar_step repo_root imported acc item = Ok acc' →
  (∀ i targets, dict_get i acc'.1 = Some targets →
     dict_get i acc.1 = Some targets ∨ (targets ≠ [] ∧ Forall (contained repo_root) targets)) ∧
  (acc'.2 = [] → acc.2 = [] ∧ ∃ i e links, item = (VStr i, VDict e) ∧ i ∈ imported ∧
     entry_links repo_root e links ∧ acc'.1 = dict_set i links acc.1).
Proof.
  unfold sidecar_step. intros ([[key links] reasons] & He & [= <-])%res_bind_Ok. cbn [fst snd].
  destruct (sidecar_entry_spec _ _ _ _ _ _ _ He) as [Hc Hok]. split.
  - intros i targets. destruct key as [key|]; [|by left]. destruct links as [|l ls] eqn:El; [by left|].
    rewrite dict_get_set. case_decide; [|by left]. intros [= <-]. by right.
  - intros [Ha Hr]%app_eq_nil. destruct (Hok Hr) as (i & e & Hi & Hen & -> & Hin & Hl). split; [done|].
    exists i, e, links. destruct item as [k v]. cbn in Hi, Hen. subst. split_and!; try done.
    destruct links; [|done]. by destruct Hl as (_ & ? & _).
Qed.

(** Test links never leave the repository.  Whatever [_load_evidence_sidecar]
    returns, the links it records for a requirement are a non-empty list of
    relative targets whose file exists and, after symbolic links are resolved,
    lies below the resolved repository root.  When it reports nothing, every
    entry of the sidecar is a mapping under an imported requirement's identity
    with a non-empty list of such links, and (the identities being distinct)
    those are the links recorded for it. *)
Theorem sidecar_links_contained (source_path repo_root : string) (imported : gset string)
    (links : list (string * list string)) (reasons : list string) :
  _load_evidence_sidecar source_path repo_root imported = Ok (links, reasons) →
  (∀ i targets, dict_get i links = Some targets → targets ≠ [] ∧ Forall (contained repo_root) targets) ∧
  (reasons = [] → ∀ requirements,
     is_file (path_join source_path EVIDENCE_SIDECAR_NAME) = true →
     _read_sidecar_requirements (path_join source_path EVIDENCE_SIDECAR_NAME) = Some requirements →
     dict_wf requirements →
     ∀ k v, (k, v) ∈ requirements → ∃ i entry targets, k = VStr i ∧ v = VDict entry ∧ i ∈ imported ∧
       entry_links repo_root entry targets ∧ dict_get i links = Some targets).
Proof.
  unfold _load_evidence_sidecar. destruct (is_file (path_join source_path EVIDENCE_SIDECAR_NAME)); cbn [negb].
  2:{ intros [= <- <-]. by split. }
  destruct (_read_sidecar_requirements _) as [requirements|]; [|by intros [= <- <-]].
  intros Hf. split.
  - intros i targets. change links with (links, reasons).1. revert i targets.
    apply (fold_res_inv _ (λ acc, ∀ i targets, dict_get i acc.1 = Some targets →
      targets ≠ [] ∧ Forall (contained repo_root) targets) _ _ _ Hf); [done|].
    intros item acc acc' _ IH Hs i targets Hg.
    destruct (sidecar_step_spec _ _ _ _ _ Hs) as [Hk _]. destruct (Hk _ _ Hg) as [?|?]; [by eapply IH|done].
  - intros -> requirements' _ [= <-] Hwf.
    assert (Hall : ∀ l acc, fold_res (sidecar_step repo_root imported) acc l = Ok (links, []) → NoDup l.*1 →
      (∀ i, VStr i ∉ l.*1 → dict_get i links = dict_get i acc.1) ∧ acc.2 = [] ∧
      ∀ k v, (k, v) ∈ l → ∃ i entry targets, k = VStr i ∧ v = VDict entry ∧ i ∈ imported ∧
        entry_links repo_root entry targets ∧ dict_get i links = Some targets).
    { clear Hf Hwf. induction l as [|item l IH]; intros acc; cbn [fold_res].
      - intros [= ->] _. split_and!; [done|done|]. by intros k v ?%elem_of_nil.
      - intros (acc' & Hs & Hr)%res_bind_Ok [Hni Hnd]%NoDup_cons.
        destruct (IH acc' Hr Hnd) as (Hkeep & Hnil & Hin).
        destruct (sidecar_step_spec _ _ _ _ _ Hs) as [_ Hok]. destruct (Hok Hnil) as (Ha & i & e & ls & -> & Hi & Hl & Hd).
        cbn in Hni. assert (Hli : dict_get i links = Some ls) by (rewrite Hkeep, Hd by done; apply dict_get_set_eq).
        split_and!; [|done|].
        + intros j [Hj1 Hj2]%not_elem_of_cons. cbn in Hj1. rewrite Hkeep, Hd by done.
          apply dict_get_set_ne. intros ->. done.
        + intros k v [[= -> ->]|Hkv]%elem_of_cons; [by exists i, e, ls|by apply Hin]. }
    destruct (Hall _ _ Hf) as (_ & _ & Hin).
    { rewrite sort_by_perm. exact Hwf. }
    intros k v Hkv. apply Hin. by rewrite sort_by_perm.
Qed.
End sidecar.

(** * Verdicts on sources *)

Lemma count_field_zero k s sources :
  (count_field_is k s sources =? 0)%Z = true ↔ ∀ source, source ∈ sources → vget k source ≠ VStr s.
Proof.
  unfold count_field_is. rewrite Z.eqb_eq. split.
  - intros Hc source Hs E. assert (Hn : List.filter (λ source, is_str s (vget k source)) sources = []).
    { destruct (List.filter _ _); [done|cbn in Hc; lia]. }
    assert (Hin : source ∈ List.filter (λ source, is_str s (vget k source)) sources).
    { apply list_elem_of_In, filter_In. split; [by apply list_elem_of_In|]. by apply is_str_true. }
    rewrite Hn in Hin. by apply elem_of_nil in Hin.
  - intros Hall. destruct (List.filter _ _) as [|x l] eqn:E; [done|]. exfalso.
    assert (Hx : x ∈ List.filter (λ source, is_str s (vget k source)) sources) by (rewrite E; left).
    apply list_elem_of_In, filter_In in Hx as [Hin Hx%is_str_true]. apply list_elem_of_In in Hin. by apply (Hall x).
Qed.

Section verdicts.
Context `{PyRepr} `{Sha256} `{EvidenceHost} `{RequirementsCore Bundle}.

(** No code of an error is among the counted codes. *)
Definition clean_violations (validation : payload) : Prop :=
  ∃ codes, error_codes (default (VList []) (dict_get (VStr "violations") validation)) = Ok codes ∧
    ∀ code, code ∈ codes → code ∉ violation_codes validation.
(** A clean report of the documented shape has no error with a code. *)
Lemma clean_violations_errors validation violations violation code :
  clean_violations validation → vget "violations" validation = VList violations →
  VDict violation ∈ violations → is_error violation = true → vget "code" violation = VStr code → code = "".
Proof.
  intros (codes & Hc & Hn) Hv Hin He Hcode. destruct (decide (code = "")) as [|Hne]; [done|]. exfalso.
  assert (Hd : default (VList []) (dict_get (VStr "violations") validation) = VList violations).
  { unfold vget in Hv. destruct (dict_get (VStr "violations") validation); [exact Hv|done]. }
  rewrite Hd in Hc. cbn in Hc. injection Hc as <-. apply (Hn code).
  - apply list_elem_of_omap. exists (VDict violation). split; [done|]. rewrite He, Hcode.
    cbn. by rewrite bool_decide_eq_true_2.
  - unfold violation_codes. rewrite Hv. apply list_elem_of_omap. exists (VDict violation). split; [done|].
    by rewrite Hcode.
Qed.

Lemma gate_counts_nil (codes l : list string) :
  List.filter (λ nc : string * Z, (0 <? nc.2)%Z && bool_decide (nc.1 ∈ codes)) (sorted (dict_count id l)) = []
  ↔ ∀ c, c ∈ codes → c ∉ l.
Proof.
  split.
  - intros Hf c Hc Hl. pose proof (dict_count_get id c l) as Hn.
    assert (Hpos : 0 < length (filter (λ x, id x = c) l)).
    { destruct (filter _ l) eqn:E; [|cbn; lia]. exfalso. by apply (filter_nil_not_elem_of _ _ c E). }
    destruct (dict_get c (dict_count id l)) as [n|] eqn:Eg; cbn in Hn, Hpos; [|lia].
    assert (Hin : (c, n) ∈ List.filter (λ nc : string * Z, (0 <? nc.2)%Z && bool_decide (nc.1 ∈ codes))
                            (sorted (dict_count id l))).
    { apply list_elem_of_In, filter_In. split.
      - apply list_elem_of_In. rewrite elem_of_sorted. by apply dict_get_Some_elem.
      - cbn. rewrite bool_decide_eq_true_2 by done. rewrite andb_true_r. apply Z.ltb_lt. lia. }
    rewrite Hf in Hin. by apply elem_of_nil in Hin.
  - intros Hall. destruct (List.filter _ _) as [|[c n] k] eqn:E; [done|]. exfalso.
    assert (Hx : (c, n) ∈ List.filter (λ nc : string * Z, (0 <? nc.2)%Z && bool_decide (nc.1 ∈ codes))
                            (sorted (dict_count id l))) by (rewrite E; left).
    apply list_elem_of_In, filter_In in Hx as [Hin Hx]. cbn in Hx. bool_hyps.
    apply list_elem_of_In in Hin. rewrite elem_of_sorted in Hin.
    apply dict_get_elem in Hin; [|apply dict_count_wf]. pose proof (dict_count_get id c l) as Hn.
    rewrite Hin in Hn. change (default 0%Z (Some n)) with n in Hn. apply (Hall c); [done|].
    destruct (filter (λ x, id x = c) l) as [|y ys] eqn:Ef; [cbn [length] in Hn; lia|].
    assert (Hy : y ∈ filter (λ x, id x = c) l) by (rewrite Ef; left).
    apply list_elem_of_filter in Hy as [Hy1 Hy2]. unfold id in Hy1. by subst y.
Qed.

Lemma import_reasons_nil imported diagnostics :
  _import_reasons imported diagnostics = [] ↔ existsb is_error diagnostics = false ∧ (imported =? 0)%nat = false.
Proof.
  unfold _import_reasons. destruct (imported =? 0)%nat.
  - split; [by intros [_ ?]%app_eq_nil|by intros [_ ?]].
  - rewrite app_nil_r, fmap_nil_iff. split.
    + intros Hf. split; [|done]. destruct (existsb is_error diagnostics) eqn:E; [|done]. exfalso.
      apply existsb_exists in E as (d & Hd & He). assert (Hin : In d (List.filter is_error diagnostics)) by by apply filter_In.
      by rewrite Hf in Hin.
    + intros [He _]. destruct (List.filter _ _) as [|d l] eqn:E; [done|]. exfalso.
      assert (Hin : In d (List.filter is_error diagnostics)) by (rewrite E; by left).
      apply filter_In in Hin. apply not_true_iff_false in He. apply He, existsb_exists. by exists d.
Qed.

(** A source that passes: it imports without errors, its sidecar gives every
    requirement what it must, and the validated bundle has full coverage. *)
Definition source_passes (bundle_name source_path : string) : Prop :=
  ∃ import_source imported d,
    import_openspec_source source_path bundle_name = Ok (import_source, imported, d) ∧
    existsb is_error (dg_payload <$> ir_diagnostics imported) = false ∧
    (length (ir_requirements imported) =? 0)%nat = false ∧
    ∃ root d', _source_repository_root source_path = Ok root ∧
      _apply_evidence_sidecar import_source (ir_requirements imported) root d = Ok ([], d') ∧
      ∃ validation coverage total linked,
        validate_requirements_bundle d' (Some "enterprise") = Ok validation ∧
        vget "status" validation ≠ VStr "failed" ∧ clean_violations validation ∧
        inspect_requirements_bundle_coverage d' = Ok coverage ∧
        count_field "total_requirements" coverage = Ok total ∧
        count_field "with_test_links" coverage = Ok linked ∧ (total ≤ linked)%Z.

Lemma validation_reasons_nil validation :
  _validation_reasons (Some validation) = [] ↔ vget "status" validation ≠ VStr "failed".
Proof.
  cbn. destruct (is_str "failed" (vget "status" validation)) eqn:E.
  - apply is_str_true in E. by split.
  - split; [intros _ Hv%is_str_true; congruence|done].
Qed.
Lemma coverage_reasons_nil coverage :
  _coverage_reasons (Some coverage) = Ok [] ↔
  ∃ total linked, count_field "total_requirements" coverage = Ok total ∧
    count_field "with_test_links" coverage = Ok linked ∧ (total ≤ linked)%Z.
Proof.
  cbn. destruct (count_field "total_requirements" coverage) as [total|e]; cbn [res_bind].
  2:{ split; [done|]. by intros (? & ? & ? & _). }
  destruct (count_field "with_test_links" coverage) as [linked|e]; cbn [res_bind].
  2:{ split; [done|]. by intros (? & ? & _ & ? & _). }
  destruct (linked <? total)%Z eqn:E.
  - split; [done|]. intros (? & ? & [= <-] & [= <-] & ?). apply Z.ltb_lt in E. lia.
  - split; [|done]. intros _. exists total, linked. apply Z.ltb_ge in E. by split_and!.
Qed.
Lemma gate_reasons_nil validation :
  _error_gate_reasons (Some validation) (dict_count id (violation_codes validation)) = Ok [] ↔
  clean_violations validation.
Proof.
  unfold _error_gate_reasons, clean_violations. destruct (error_codes _) as [codes|e]; cbn [res_bind].
  2:{ split; [done|]. by intros (? & ? & _). }
  split.
  - intros [= Hf]. apply fmap_nil_inv in Hf. exists codes. split; [done|]. by apply gate_counts_nil.
  - intros (codes' & [= <-] & Hf). apply gate_counts_nil in Hf. by rewrite Hf.
Qed.

Lemma source_report_verdict name path label :
  (∀ r, _source_report path name label = Ok r →
     vget "verdict" r = VStr "failed" ∨ vget "verdict" r = VStr "passed") ∧
  ((∃ r, _source_report path name label = Ok r ∧ vget "verdict" r = VStr "passed") ↔ source_passes name path).
Proof.
  split.
  { unfold _source_report. intros r Hr. res_inv. subst r. match goal with |- context [bool_decide ?p] => destruct (bool_decide p) end; auto. }
  unfold _source_report, source_passes. split.
  - intros (r & Hr & Hv). apply res_bind_Ok in Hr as ([[import_source imported] d] & Hi & Hr).
    apply res_bind_Ok in Hr as (e & He & Hr). apply res_bind_Ok in Hr as (rs & Hrs & Hr).
    cbv zeta in Hr. injection Hr as <-.
    assert (Hnil : ev_sidecar_reasons e ++ rs = []).
    { change (vget "verdict" _) with (VStr (if bool_decide (ev_sidecar_reasons e ++ rs ≠ []) then "failed" else "passed")) in Hv.
      by case_bool_decide. }
    clear Hv. apply app_eq_nil in Hnil as [Hs ->].
    unfold _source_reasons in Hrs. apply res_bind_Ok in Hrs as (cr & Hcr & (gr & Hgr & Hrs)%res_bind_Ok).
    injection Hrs as [Hir%import_reasons_nil [Hvr [-> ->]%app_eq_nil]%app_eq_nil]%app_eq_nil.
    exists import_source, imported, d. split; [done|].
    unfold _evaluate_imported_source in He. destruct (existsb is_error _ || _) eqn:Ee.
    { injection He as <-. cbn [ev_imported ev_diagnostics] in Hir. destruct Hir as [F1 F2]. by rewrite F1, F2 in Ee. }
    apply orb_false_iff in Ee as [E1 E2]. split; [done|]. split; [done|].
    apply res_bind_Ok in He as (root & Hroot & ([sr d'] & Hsr & He)%res_bind_Ok). exists root, d'. split; [done|].
    case_bool_decide as Hsrn.
    { injection He as <-. cbn in Hs. by subst. }
    subst sr. split; [done|].
    apply res_bind_Ok in He as (v & Hval & (c & Hc & (fc & Hfc & [= <-])%res_bind_Ok)%res_bind_Ok).
    cbn [ev_validation ev_coverage ev_finding_counts] in Hvr, Hcr, Hgr.
    unfold requirements_gate_finding_counts in Hfc. rewrite Hval in Hfc. injection Hfc as <-.
    apply coverage_reasons_nil in Hcr as (total & linked & Ht & Hl & Hle).
    exists v, c, total, linked. split_and!; try done; [by apply validation_reasons_nil|by apply gate_reasons_nil].
  - intros (import_source & imported & d & Hi & E1 & E2 & root & d' & Hroot & Hsr & v & c & total & linked &
      Hval & Hst & Hcl & Hc & Ht & Hl & Hle).
    rewrite Hi. cbn [res_bind]. unfold _evaluate_imported_source. rewrite E1, E2. cbn [orb]. rewrite Hroot. cbn [res_bind].
    rewrite Hsr. cbn [res_bind]. rewrite bool_decide_false by (by intros []).
    unfold requirements_gate_finding_counts. rewrite Hval. cbn [res_bind]. rewrite Hc. cbn [res_bind].
    unfold _source_reasons. cbn [ev_validation ev_coverage ev_finding_counts ev_imported ev_diagnostics ev_sidecar_reasons].
    rewrite (proj2 (coverage_reasons_nil c)) by (by exists total, linked). cbn [res_bind].
    rewrite (proj2 (gate_reasons_nil v) Hcl). cbn [res_bind].
    rewrite (proj2 (import_reasons_nil _ _)) by done. rewrite (proj2 (validation_reasons_nil v) Hst).
    by eexists.
Qed.
End verdicts.

(** * Lifecycle sources *)

Lemma vget_merge k d1 d2 :
  dict_wf d2 → vget k (dict_merge d1 d2) = match dict_get (VStr k) d2 with Some v => v | None => vget k d1 end.
Proof. intros Hd. unfold vget. rewrite dict_get_merge by done. by destruct (dict_get (VStr k) d2). Qed.
Lemma obj_wf l : NoDup l.*1 → dict_wf (obj l).
Proof.
  intros Hn. unfold dict_wf, dict_keys, obj. rewrite <-list_fmap_compose.
  change (fst ∘ _) with (VStr ∘ @fst string pyval). rewrite list_fmap_compose.
  apply NoDup_fmap_2; [|done]. intros x y E. by injection E.
Qed.

#[local] Instance Ok_inj {A} : Inj (=) (=) (@Ok A).
Proof. intros x y E. by injection E. Qed.

Section lifecycle.
Context `{PyRepr} `{Sha256} `{EvidenceHost} `{RequirementsCore Bundle}.

Lemma evaluated_wf mapping required review r : evaluate_mapping mapping required review = Ok r → dict_wf r.
Proof.
  intros E. assert (Hr : ∀ m o d f c, Lifecycle._lifecycle_report m o d f c = Ok r → dict_wf r).
  { intros m o d f c Hl. unfold Lifecycle._lifecycle_report in Hl. cbv zeta in Hl. destruct (lifecycle_status o) as [ds ie].
    apply res_bind_Ok in Hl as (plan & _ & Hl). apply (inj Ok) in Hl as <-.
    apply obj_wf. apply (bool_decide_unpack _). vm_compute. reflexivity. }
  apply evaluate_mapping_inv in E as (m & _ & [(md & cs & fs & obs & fs' & _ & _ & _ & Hl)|(e & md & msg & _ & Hl)]);
    by eapply Hr.
Qed.
Lemma evaluated_decision mapping required review r :
  evaluate_mapping mapping required review = Ok r →
  vget "gate_decision" r = VStr "fail" ∨ vget "gate_decision" r = VStr "pass".
Proof.
  intros E. apply evaluate_mapping_inv in E as (m & _ & [(md & cs & fs & obs & fs' & _ & _ & _ & Hl)|(e & md & msg & _ & Hl)]);
    apply lifecycle_report_inv in Hl as (plan & _ & Hg & _); rewrite Hg; case_match; auto.
Qed.
Lemma evaluated_requirements mapping required review r :
  evaluate_mapping mapping required review = Ok r → vget "gate_decision" r = VStr "pass" →
  ∃ requirements, vget "requirements" mapping = VDict requirements.
Proof.
  intros E Hg. destruct (proj2 (evaluate_gate_spec _ _ _ _ E) Hg) as (m & md & cs & plan & _ & (_ & _ & Hc & _) & _).
  destruct Hc as (_ & requirements & Hr & _). by exists requirements.
Qed.

Definition sidecar_mapping (source_path : string) : payload :=
  _read_optional_mapping (path_join source_path EVIDENCE_SIDECAR_NAME).
(** The mapping covers exactly the native requirements of the source. *)
Definition covers_source (requirements : list (pyval * pyval)) (source_path : string) : Prop :=
  ∃ native, _source_requirement_ids source_path = Ok (native, []) ∧ mapped_ids requirements = native ∧
    ∀ i scenario, i ∈ native → scenario ∈ _mapped_scenario_ids (vget i requirements) → scenario = last_segment i.
(** A source whose sidecar passes at the required maturity and covers it *)
Definition source_proven (required_maturity : string) (review_evidence : option payload) (source_path : string) : Prop :=
  ∃ r requirements, evaluate_mapping (sidecar_mapping source_path) required_maturity review_evidence = Ok r ∧
    vget "gate_decision" r = VStr "pass" ∧
    vget "requirements" (sidecar_mapping source_path) = VDict requirements ∧ covers_source requirements source_path.

Lemma scenario_findings_nil requirements i :
  scenario_findings requirements i = [] ↔
  ∀ scenario, scenario ∈ _mapped_scenario_ids (vget i requirements) → scenario = last_segment i.
Proof.
  unfold scenario_findings. rewrite fmap_nil_iff. split.
  - intros Hf s Hs. destruct (String.eqb s (last_segment i)) eqn:E; [by apply String.eqb_eq|]. exfalso.
    assert (Hin : In s (List.filter (λ s, negb (String.eqb s (last_segment i))) (_mapped_scenario_ids (vget i requirements)))).
    { apply filter_In. split; [by apply list_elem_of_In|]. by rewrite E. }
    by rewrite Hf in Hin.
  - intros Hall. destruct (List.filter _ _) as [|s l] eqn:E; [done|]. exfalso.
    assert (Hin : In s (List.filter (λ s, negb (String.eqb s (last_segment i))) (_mapped_scenario_ids (vget i requirements))))
      by (rewrite E; by left).
    apply filter_In in Hin as [Hin Hs]. apply list_elem_of_In, Hall in Hin as ->. by rewrite String.eqb_refl in Hs.
Qed.
Lemma mjoin_fmap_nil {A B} (f : A → list B) l : mjoin (f <$> l) = [] ↔ ∀ x, x ∈ l → f x = [].
Proof.
  induction l as [|x l IH]; [split; [by intros _ ? ?%elem_of_nil|done]|]. rewrite fmap_cons.
  change (mjoin (?x :: ?l)) with (x ++ mjoin l). split.
  - intros [F1 F2]%app_eq_nil y [->|Hy]%elem_of_cons; [done|]. by apply IH.
  - intros Hall. rewrite (Hall x) by left. apply IH. intros y Hy. apply Hall. by right.
Qed.
Lemma mapping_findings_nil mapping source_path requirements :
  vget "requirements" mapping = VDict requirements →
  _source_mapping_findings mapping source_path = Ok [] ↔ covers_source requirements source_path.
Proof.
  intros Hr. unfold _source_mapping_findings, covers_source. rewrite Hr. split.
  - intros ([native findings] & Hn & Hf)%res_bind_Ok. cbv zeta in Hf.
    injection Hf as [-> [F1%fmap_nil_inv [F2%fmap_nil_inv F3]%app_eq_nil]%app_eq_nil]%app_eq_nil.
    apply sorted_set_nil_iff in F1, F2. assert (Hm : mapped_ids requirements = native).
    { apply (anti_symm (⊆)); by apply empty_difference_subseteq_L. }
    exists native. split; [done|]. split; [done|]. intros i s Hi.
    rewrite mjoin_fmap_nil in F3. apply scenario_findings_nil, F3. rewrite elem_of_sorted_set, elem_of_intersection. by rewrite Hm.
  - intros (native & Hn & Hm & Hs). rewrite Hn. cbn [res_bind]. cbv zeta.
    rewrite Hm, difference_diag_L, intersection_idemp_L. change (sorted_set (∅ : gset string)) with (@nil string). cbn [fmap list_fmap app].
    f_equal. apply mjoin_fmap_nil. intros i Hi. rewrite elem_of_sorted_set in Hi.
    apply scenario_findings_nil. intros s. by apply Hs.
Qed.

Lemma failed_source_decision report findings :
  vget "gate_decision" (_failed_lifecycle_source_report report findings) = VStr "fail".
Proof.
  unfold _failed_lifecycle_source_report. destruct (lifecycle_status Incomplete) as [ds ie]. rewrite vget_merge; [done|].
  apply obj_wf. apply (bool_decide_unpack _). vm_compute. reflexivity.
Qed.
Lemma failed_source_wf report findings : dict_wf report → dict_wf (_failed_lifecycle_source_report report findings).
Proof.
  unfold _failed_lifecycle_source_report. destruct (lifecycle_status Incomplete) as [ds ie]. apply dict_wf_merge.
Qed.
(** The fields of a source's report are those of the evaluation. *)
Lemma labelled_field k label r : dict_wf r → dict_mem (VStr k) r = true → vget k (dict_merge (obj [("source", label)]) r) = vget k r.
Proof.
  intros Hw Hk. rewrite vget_merge by done. unfold dict_mem, vget in *. by destruct (dict_get (VStr k) r).
Qed.
Lemma vget_mem k d s : vget k d = VStr s → dict_mem (VStr k) d = true.
Proof. unfold vget, dict_mem. by destruct (dict_get (VStr k) d). Qed.

Lemma lifecycle_source_inv required review labels path s :
  lifecycle_source required review labels path = Ok s →
  ∃ r r' label, evaluate_mapping (sidecar_mapping path) required review = Ok r ∧ dict_wf r' ∧
    s = dict_merge (obj [("source", VStr label)]) r' ∧
    (r' = r ∧ _source_mapping_findings (sidecar_mapping path) path = Ok [] ∨
     vget "gate_decision" r' = VStr "fail" ∧
       ¬ _source_mapping_findings (sidecar_mapping path) path = Ok []).
Proof.
  unfold lifecycle_source. intros (r & Hr & (findings & Hf & Hs)%res_bind_Ok)%res_bind_Ok. cbv zeta in Hs.
  fold (sidecar_mapping path) in Hr, Hf. injection Hs as <-. exists r.
  pose proof (evaluated_wf _ _ _ _ Hr) as Hw. case_bool_decide as Hb.
  - subst findings. exists r, (as_posix (label_of labels path)). split_and!; try done. by left.
  - exists (_failed_lifecycle_source_report r findings), (as_posix (label_of labels path)).
    split_and!; try done; [by apply failed_source_wf|]. right. split; [apply failed_source_decision|]. by rewrite Hf; intros [= ->].
Qed.
Lemma lifecycle_source_decision required review labels path :
  (∀ s, lifecycle_source required review labels path = Ok s →
     vget "gate_decision" s = VStr "fail" ∨ vget "gate_decision" s = VStr "pass") ∧
  ((∃ s, lifecycle_source required review labels path = Ok s ∧ vget "gate_decision" s = VStr "pass")
   ↔ source_proven required review path).
Proof.
  split; [|split].
  - intros s (r & r' & label & Hr & Hw & -> & [[-> _]|[Hg _]])%lifecycle_source_inv.
    + destruct (evaluated_decision _ _ _ _ Hr) as [Hg|Hg]; rewrite labelled_field by (try done; by eapply vget_mem); auto.
    + rewrite labelled_field by (try done; by eapply vget_mem). auto.
  - intros (s & (r & r' & label & Hr & Hw & -> & [[-> Hn]|[Hf _]])%lifecycle_source_inv & Hg).
    + assert (Hp : vget "gate_decision" r = VStr "pass").
      { destruct (evaluated_decision _ _ _ _ Hr) as [E|E]; [|done].
        rewrite labelled_field in Hg by (try done; by eapply vget_mem). done. }
      destruct (evaluated_requirements _ _ _ _ Hr Hp) as [requirements Hreq].
      exists r, requirements. split_and!; try done. by eapply mapping_findings_nil.
    + rewrite labelled_field in Hg by (try done; by eapply vget_mem). congruence.
  - intros (r & requirements & Hr & Hg & Hreq & Hc). unfold lifecycle_source. fold (sidecar_mapping path). rewrite Hr.
    cbn [res_bind]. rewrite (proj2 (mapping_findings_nil _ _ _ Hreq) Hc). cbn [res_bind]. cbv zeta.
    rewrite bool_decide_true by done. eexists. split; [done|].
    rewrite labelled_field; [done|by eapply evaluated_wf|by eapply vget_mem].
Qed.
End lifecycle.

(** * The gate *)

Section gate.
Context `{PyRepr} `{Sha256} `{EvidenceHost} `{RequirementsCore Bundle}.

Lemma Forall2_all {A B} (R : A → B → Prop) (P : A → Prop) (Q : B → Prop) l k :
  Forall2 R l k → (∀ x y, R x y → Q y → P x) → Forall Q k → Forall P l.
Proof.
  intros Hr Hpq Hq. induction Hr as [|x y l k Hxy _ IH]; [constructor|]. apply Forall_cons in Hq as [Hy Hk].
  constructor; [by eapply Hpq|by apply IH].
Qed.

Lemma lifecycle_report_gate sources required review labels :
  (∀ report, _lifecycle_report sources required review labels = Ok report → dict_mem (VStr "verdict") report = true) ∧
  ((∃ report, _lifecycle_report sources required review labels = Ok report ∧ vget "verdict" report ≠ VStr "failed")
   ↔ Forall (source_proven required review) sources).
Proof.
  destruct sources as [|path paths]; cbn [_lifecycle_report].
  { split; [by intros report [= <-]|]. split; [by constructor|]. intros _. by eexists. }
  set (sources := path :: paths). split; [|split].
  - intros report (ss & _ & Hr)%res_bind_Ok. cbv zeta in Hr. destruct (lifecycle_status _) as [ds ie].
    by injection Hr as <-.
  - intros (report & (ss & Hss & Hr)%res_bind_Ok & Hv). cbv zeta in Hr. destruct (lifecycle_status _) as [ds ie].
    apply (inj Ok) in Hr as <-. apply map_res_Ok in Hss.
    destruct (count_field_is "gate_decision" "fail" ss =? 0)%Z eqn:E; [|by destruct Hv].
    rewrite count_field_zero in E. eapply (Forall2_all _ _ (λ s, s ∈ ss)); [exact Hss| |by apply Forall_forall].
    intros p s Hs Hin. destruct (lifecycle_source_decision required review labels p) as [Hd <-].
    exists s. split; [done|]. destruct (Hd s Hs) as [Hf|]; [|done]. by destruct (E s Hin).
  - intros Hall. assert (Hss : ∃ ss, map_res (lifecycle_source required review labels) sources = Ok ss ∧
      Forall (λ s, vget "gate_decision" s = VStr "pass") ss).
    { clearbody sources. induction Hall as [|p ps Hp _ (ss & Hss & Hf)]; [by exists []|].
      apply (lifecycle_source_decision required review labels p) in Hp as (s & Hs & Hg).
      exists (s :: ss). cbn. rewrite Hs, Hss. split; [done|by constructor]. }
    destruct Hss as (ss & Hss & Hg). rewrite Hss. cbn [res_bind]. cbv zeta.
    assert (E : (count_field_is "gate_decision" "fail" ss =? 0)%Z = true).
    { apply count_field_zero. intros s Hs. rewrite Forall_forall in Hg. by rewrite (Hg s Hs). }
    rewrite E. destruct (lifecycle_status _) as [ds ie]. by eexists.
Qed.

(** The bundle of the source at a position is named after it. *)
Definition bundle_name (i : Z) : string := "requirements-evidence-" +:+ pretty i.
Fixpoint sources_pass (index : Z) (sources : list string) : Prop :=
  match sources with
  | [] => True
  | source :: rest => source_passes (bundle_name index) source ∧ sources_pass (index + 1) rest
  end.
Lemma source_reports_verdicts labels index sources :
  (∀ rs, source_reports index labels sources = Ok rs →
     Forall (λ r, vget "verdict" r = VStr "failed" ∨ vget "verdict" r = VStr "passed") rs) ∧
  ((∃ rs, source_reports index labels sources = Ok rs ∧ Forall (λ r, vget "verdict" r = VStr "passed") rs)
   ↔ sources_pass index sources).
Proof.
  revert index. induction sources as [|path paths IH]; intros index; cbn [source_reports sources_pass].
  { split; [intros rs [= <-]; constructor|]. split; [done|]. intros _. by exists []. }
  destruct (IH (index + 1)%Z) as [Hd Hi].
  destruct (source_report_verdict (bundle_name index) path (label_of labels path)) as [Hd1 Hi1]. split; [|split].
  - intros rs (r & Hr & (rs' & Hrs & [= <-])%res_bind_Ok)%res_bind_Ok. constructor; [by apply Hd1|by apply Hd].
  - intros (rs & (r & Hr & (rs' & Hrs & [= <-])%res_bind_Ok)%res_bind_Ok & Hall). apply Forall_cons in Hall as [Hv Hall].
    split; [apply Hi1; by exists r|apply Hi; by exists rs'].
  - intros [(r & Hr & Hv)%Hi1 (rs & Hrs & Hall)%Hi]. unfold bundle_name in Hr. rewrite Hr. cbn [res_bind].
    rewrite Hrs. cbn [res_bind]. exists (r :: rs). split; [done|by constructor].
Qed.
Lemma evaluate_sources_gate sources labels :
  (∀ report, _evaluate_sources sources labels = Ok report → dict_mem (VStr "verdict") report = true) ∧
  ((∃ report, _evaluate_sources sources labels = Ok report ∧ vget "verdict" report ≠ VStr "failed")
   ↔ sources_pass 1 sources).
Proof.
  destruct sources as [|path paths].
  { split; [by intros report [= <-]|]. split; [done|]. intros _. by eexists. }
  unfold _evaluate_sources. set (sources := path :: paths).
  destruct (source_reports_verdicts labels 1 sources) as [Hd Hi]. split; [|split].
  - intros report (rs & _ & Hr)%res_bind_Ok. by injection Hr as <-.
  - intros (report & (rs & Hrs & Hr)%res_bind_Ok & Hv). cbv zeta in Hr. apply (inj Ok) in Hr as <-.
    destruct (count_field_is "verdict" "failed" rs =? 0)%Z eqn:E; [|by destruct Hv].
    rewrite count_field_zero in E. apply Hi. exists rs. split; [done|]. pose proof (Hd _ Hrs) as Hall.
    rewrite Forall_forall in Hall. apply Forall_forall. intros r Hr. destruct (Hall r Hr); [by destruct (E r Hr)|done].
  - intros (rs & Hrs & Hall)%Hi. rewrite Hrs. cbn [res_bind]. cbv zeta.
    assert (E : (count_field_is "verdict" "failed" rs =? 0)%Z = true).
    { apply count_field_zero. intros r Hr. rewrite Forall_forall in Hall. by rewrite (Hall r Hr). }
    rewrite E. by eexists.
Qed.

(** The sources a run examines: the changed directories of the working tree
    or of the materialized index *)
Definition examined (request : RequirementsEvidenceRequest) (sources : list string) : Prop :=
  match rer_base_ref request with
  | Some base_ref =>
      rer_staged request = false ∧
      _discover_changed_openspec_sources (rer_repo_root request) base_ref = Ok sources
  | None =>
      rer_staged request = true ∧
      ∃ relative snapshot_root, _discover_staged_openspec_source_relatives = Ok relative ∧
        _materialize_git_index_snapshot = Ok snapshot_root ∧
        sources = path_join snapshot_root <$>
          List.filter (λ source, is_dir (path_join snapshot_root source)) relative
  end.
(** Every examined source proves what the request asks for. *)
Definition gate_passes (request : RequirementsEvidenceRequest) : Prop :=
  ∃ sources, examined request sources ∧
    match rer_required_maturity request with
    | Some required =>
        is_Some (parse_required required) ∧
        Forall (source_proven required (_read_review_evidence (rer_review_evidence_path request))) sources
    | None => sources_pass 1 sources
    end.

Lemma selected_gate required review sources labels labels' :
  (∀ report, evaluate_selected required review sources labels labels' = Ok report →
     dict_mem (VStr "verdict") report = true) ∧
  ((∃ report, evaluate_selected required review sources labels labels' = Ok report ∧
      vget "verdict" report ≠ VStr "failed")
   ↔ match required with Some m => Forall (source_proven m review) sources | None => sources_pass 1 sources end).
Proof. destruct required; [apply lifecycle_report_gate|apply evaluate_sources_gate]. Qed.

Lemma evaluate_gate_report request :
  let result := evaluate_requirements_evidence (rer_repo_root request) (rer_base_ref request) (rer_staged request)
    (rer_required_maturity request) (_read_review_evidence (rer_review_evidence_path request)) in
  (∀ report, result = Ok report → dict_mem (VStr "verdict") report = true) ∧
  ((∃ report, result = Ok report ∧ vget "verdict" report ≠ VStr "failed") ↔ gate_passes request).
Proof.
  intros result. unfold result, evaluate_requirements_evidence, gate_passes, examined. clear result.
  destruct (rer_base_ref request) as [base_ref|], (rer_staged request); cbn [negb check res_bind].
  1,4: by split; [intros report [=]|]; split; [intros (? & [=] & _)|intros (? & [[=] _] & _)].
  all: destruct (match rer_required_maturity request with Some m => bool_decide _ | None => true end) eqn:Em;
    cbn [check res_bind]; [|by split; [intros report [=]|]; split; [intros (? & [=] & _)|];
      intros (? & _ & Hm); destruct (rer_required_maturity request); [destruct Hm as [Hm _]; by rewrite bool_decide_eq_true_2 in Em|done]].
  - destruct (_discover_changed_openspec_sources _ base_ref) as [sources|e]; cbn [res_bind].
    2:{ split; [by intros report [=]|]. split; [by intros (? & [=] & _)|by intros (? & [_ [=]] & _)]. }
    edestruct selected_gate as [Hm Hg]. split; [exact Hm|]. etrans; [exact Hg|]. split.
    + intros Hall. exists sources. split; [done|]. destruct (rer_required_maturity request); [|done].
      split; [by apply bool_decide_eq_true in Em|done].
    + intros (? & [_ [= <-]] & Hall). destruct (rer_required_maturity request); [by destruct Hall|done].
  - destruct _discover_staged_openspec_source_relatives as [relative|e]; cbn [res_bind].
    2:{ split; [by intros report [=]|]. split; [by intros (? & [=] & _)|by intros (? & (_ & ? & ? & [=] & _) & _)]. }
    destruct _materialize_git_index_snapshot as [snapshot_root|e]; cbn [res_bind].
    2:{ split; [by intros report [=]|]. split; [by intros (? & [=] & _)|by intros (? & (_ & ? & ? & _ & [=] & _) & _)]. }
    cbv zeta. edestruct selected_gate as [Hm Hg]. split; [exact Hm|]. etrans; [exact Hg|]. split.
    + intros Hall. eexists. split; [split; [done|]; by exists relative, snapshot_root|].
      destruct (rer_required_maturity request); [|done]. split; [by apply bool_decide_eq_true in Em|done].
    + intros (? & (_ & ? & ? & [= <-] & [= <-] & ->) & Hall). destruct (rer_required_maturity request); [by destruct Hall|done].
Qed.

(** A run that ends with an exit code wrote every file it was to write. *)
Lemma write_file_exit can_write path content files k code :
  ro_exit (write_file can_write path content files k) = Ok code →
  ∃ c, content = Ok c ∧ write_file can_write path content files k = k (files ++ [(path, c)]).
Proof.
  unfold write_file. destruct content as [c|e]; [|done]. destruct (can_write path) as [[]|e] eqn:E; [|done].
  intros _. by exists c.
Qed.
Lemma plan_run_exit can_write request report files code :
  ro_exit (write_plan can_write request report files) = Ok code →
  files `prefix_of` ro_files (write_plan can_write request report files) ∧
  ∃ verdict, vitem "verdict" report = Ok verdict ∧ code = if is_str "failed" verdict then 1%Z else 0%Z.
Proof.
  assert (Hexit : ∀ files, ro_exit (exit_with report files) = Ok code →
    ∃ verdict, vitem "verdict" report = Ok verdict ∧ code = if is_str "failed" verdict then 1%Z else 0%Z).
  { intros fs (v & Hv & [= <-])%res_bind_Ok. by exists v. }
  assert (Hsum : ∀ files, ro_exit (summarise can_write request report files) = Ok code →
    files `prefix_of` ro_files (summarise can_write request report files) ∧
    ∃ verdict, vitem "verdict" report = Ok verdict ∧ code = if is_str "failed" verdict then 1%Z else 0%Z).
  { intros fs. unfold summarise. destruct (rer_summary_path request) as [path|]; [|by intros ?%Hexit].
    intros Hw. destruct (write_file_exit _ _ _ _ _ _ Hw) as (c & _ & E). rewrite E in Hw |- *.
    split; [by eexists|by eapply Hexit]. }
  unfold write_plan. destruct (rer_plan_output_path request) as [path|]; [|apply Hsum].
  destruct (rer_required_maturity request); [|apply Hsum].
  intros Hw. destruct (write_file_exit _ _ _ _ _ _ Hw) as (c & _ & E). rewrite E in Hw |- *.
  destruct (Hsum _ Hw) as [Hp Hv]. split; [|done]. etrans; [|exact Hp]. by eexists.
Qed.

(** C32 The evidence gate decides by its sources alone.  Whenever the command
    ends with an exit code, the first file it wrote is the report at the output
    path, and the code is 0 if every examined source proves what was asked
    (without a required maturity: it imports without errors, its sidecar names
    only imported requirements and existing tests, the bundle validates without
    a coded error and every requirement has a test; with one: its mapping
    passes at that maturity and covers exactly the native requirements) and 1
    otherwise, be it a finding, an exception of git, of the importer or of a
    malformed sidecar. *)
Theorem evidence_gate (same_file : string → string → bool) (can_write : string → result unit)
    (request : RequirementsEvidenceRequest) (code : Z) :
  ro_exit (_write_requirements_evidence same_file can_write request) = Ok code →
  head (ro_files (_write_requirements_evidence same_file can_write request))
    = Some (rer_output_path request, WReport (request_report request)) ∧
  (code = 0%Z ↔ gate_passes request) ∧ (code = 1%Z ↔ ¬ gate_passes request).
Proof.
  unfold _write_requirements_evidence. destruct (let! _ := _ in _) as [u|e]; [|done]. cbv zeta.
  intros Hc. set (report := request_report request) in *.
  destruct (write_file_exit _ _ _ _ _ _ Hc) as (c & Hcc & E). apply (inj Ok) in Hcc as <-.
  rewrite E in Hc |- *. destruct (plan_run_exit _ _ _ _ _ Hc) as ([rest Hrest] & verdict & Hv & ->).
  split; [by rewrite Hrest|].
  assert (Hpass : is_str "failed" verdict = false ↔ gate_passes request).
  { destruct (evaluate_gate_report request) as [_ Hg]. unfold report, request_report in Hv. rewrite <-Hg.
    destruct (evaluate_requirements_evidence _ _ _ _ _) as [r|e].
    - assert (Hvr : vget "verdict" r = verdict).
      { unfold vitem, vget in *. destruct (dict_get (VStr "verdict") r); [by injection Hv|done]. }
      split.
      + intros Hf. exists r. split; [done|]. rewrite Hvr. intros Hx%is_str_true. congruence.
      + intros (r' & [= <-] & Hne). apply not_true_iff_false. rewrite Hvr in Hne. by intros Hx%is_str_true.
    - injection Hv as <-. split; [done|]. by intros (? & [=] & _). }
  rewrite <-Hpass. destruct (is_str "failed" verdict); split; split; done.
Qed.
End gate.

(** * The plan artifact *)

(** What a case of a source's plan is known to be *)
Definition plain_case (c : payload) : Prop := dict_wf c ∧ VStr "source" ∉ dict_keys c.
Lemma obj_keys l : dict_keys (obj l) = VStr <$> l.*1.
Proof. unfold dict_keys, obj. by rewrite <-!list_fmap_compose. Qed.
Lemma kept_case_plain id required v k r : kept_case id required v k → plain_case (with_touchpoints r k).
Proof.
  intros (case & name & method & sel & _ & -> & _).
  assert (Hp : plain_case (preserved_case id name method case sel)).
  { unfold plain_case, preserved_case. rewrite obj_keys. split.
    - apply obj_wf. destruct sel; apply (bool_decide_unpack _); vm_compute; reflexivity.
    - destruct sel; apply (bool_decide_unpack _); vm_compute; reflexivity. }
  unfold with_touchpoints. destruct (vget "touchpoints" r); try done. destruct Hp as [Hw Hs]. split; [by apply dict_wf_set|].
  rewrite dict_keys_set. case_decide; [done|]. rewrite elem_of_app, list_elem_of_singleton. by intros [?|[=]].
Qed.

Definition with_source (name : string) (c : payload) : payload := dict_merge (obj [("source", VStr name)]) c.
Lemma with_source_plain name c : plain_case c → with_source name c = (VStr "source", VStr name) :: c.
Proof.
  intros [Hw Hs]. unfold with_source. rewrite dict_merge_fresh; [done|]. cbn. by apply NoDup_cons.
Qed.
Lemma vget_with_source k name c : plain_case c → k ≠ "source" → vget k (with_source name c) = vget k c.
Proof. intros Hp Hk. rewrite with_source_plain by done. unfold vget. cbn. by rewrite decide_False by (by intros [=]). Qed.

Section plan.
Context `{PyRepr} `{Sha256} `{EvidenceHost} `{RequirementsCore Bundle}.

Definition sourced_ok (c : payload) : Prop := plan_case_ok c ∧ encodable c.
Lemma with_source_ok name c : plain_case c → plan_case_ok c → encodable c → sourced_ok (with_source name c).
Proof.
  intros Hp Hok [j Hj]. split.
  - intros Ht. destruct Hok as (s & Hs & Hn & Hb).
    { unfold is_test_case in *. by rewrite vget_with_source in Ht. }
    exists s. split; [|by rewrite vget_with_source]. intros n. rewrite <-(Hs n). unfold _validate_selector.
    by rewrite vget_with_source.
  - rewrite with_source_plain by done. unfold encodable in *. rewrite json_safe_dict in *.
    apply res_bind_Ok in Hj as (es & Hes & _). cbn [map_res]. unfold entry_node at 1. cbn [fst snd _json_safe _scalar_node res_bind].
    rewrite Hes. by eexists.
Qed.

(** The cases of a source's plan, and those of a report *)
Definition plan_of (source : payload) : list payload :=
  match vget "plan" source with
  | VDict plan => match vget "cases" plan with VList l => mapping_cases l | _ => [] end
  | _ => []
  end.
Definition report_cases (report : payload) : list payload := mjoin (plan_of <$> report_sources report).

(** A passing source, as the plan artifact sees it *)
Definition planned_source (s : payload) : Prop :=
  vget "observed_maturity" s = VStr "test-authored" ∧
  Forall (λ c, plain_case c ∧ plan_case_ok c ∧ encodable c) (plan_of s) ∧
  ∃ identity name md, identity = obj [("source", VStr name); ("mapping_digest", VStr md)] ∧
    _normalized_source_plan (VDict s) = Some (identity, with_source name <$> plan_of s).
Lemma passing_source_planned review labels path s :
  lifecycle_source "test-authored" review labels path = Ok s → vget "gate_decision" s = VStr "pass" →
  planned_source s.
Proof.
  intros (r & r' & label & Hr & Hw & -> & [[-> _]|[Hf _]])%lifecycle_source_inv Hg.
  2:{ rewrite labelled_field in Hg by (try done; by eapply vget_mem). congruence. }
  assert (Hp : vget "gate_decision" r = VStr "pass").
  { destruct (evaluated_decision _ _ _ _ Hr) as [E|E]; [|done].
    rewrite labelled_field in Hg by (try done; by eapply vget_mem). done. }
  destruct (proj2 (evaluate_gate_spec _ _ _ _ Hr) Hp) as
    (required & md & cases & plan & Hreq & (_ & Hmd & Hcomplete & _) & Hobs & _ & Hb & Hplan).
  assert (required = TestAuthored) as -> by (cbn in Hreq; by injection Hreq).
  destruct Hcomplete as (_ & reqs & _ & _ & _ & Hcases & _).
  pose proof (requirements_cases_kept _ _ _ Hcases) as Hkept. apply requirements_cases_plan in Hcases; [|done].
  destruct (build_plan_inv md cases plan Hb) as (o & x & Hord & _ & Hcs & Hpmd & _).
  pose proof (ordered_cases_perm _ _ Hord) as Hperm.
  set (s := dict_merge _ r). assert (Hpl : vget "plan" s = VDict plan).
  { unfold s. rewrite labelled_field; [done|done|]. unfold dict_mem, vget in *. by destruct (dict_get (VStr "plan") r). }
  assert (Ho : plan_of s = o) by (unfold plan_of; by rewrite Hpl, Hcs, mapping_cases_dicts).
  unfold planned_source. rewrite Ho. split_and!.
  - unfold s. by rewrite labelled_field by (try done; by eapply vget_mem).
  - apply Forall_and. split; [|apply Forall_and; split; [by rewrite Hperm|by eapply ordered_cases_encodable]].
    rewrite Hperm. eapply Forall_impl; [exact Hkept|]. intros c (id & v & q & k & Hk & ->). by eapply kept_case_plain.
  - do 3 eexists. split; [done|]. unfold _normalized_source_plan. rewrite Hpl, Hcs, Hpmd. cbv zeta.
    rewrite mapping_cases_dicts, bool_decide_false; [done|]. rewrite !length_fmap. by intros [].
Qed.

(** The exact tests of a list of cases *)
Definition tests (cases : list payload) : list string :=
  selector_of <$> filter (λ c, is_test_case c = true) cases.
Lemma tests_app l1 l2 : tests (l1 ++ l2) = tests l1 ++ tests l2.
Proof. unfold tests. by rewrite filter_app, fmap_app. Qed.
Lemma tests_exist cases : Exists (λ c, is_test_case c = true) cases ↔ tests cases ≠ [].
Proof.
  rewrite Exists_exists. split.
  - intros (c & Hc & Ht) Hn%fmap_nil_inv. by apply (filter_nil_not_elem_of _ _ c Hn).
  - intros Hn. destruct (tests cases) as [|t l] eqn:E; [done|].
    assert (Hin : t ∈ tests cases) by (rewrite E; left).
    apply list_elem_of_fmap in Hin as (c & _ & [Ht Hc]%list_elem_of_filter). by exists c.
Qed.
Lemma tests_with_source name cases : Forall plain_case cases → tests (with_source name <$> cases) = tests cases.
Proof.
  unfold tests. induction 1 as [|c cs Hp _ IH]; [done|]. cbn [fmap list_fmap]. rewrite !filter_cons.
  assert (Ht : is_test_case (with_source name c) = is_test_case c) by (unfold is_test_case; by rewrite vget_with_source).
  rewrite Ht. case_decide; [|exact IH]. cbn [fmap list_fmap]. f_equal; [|exact IH].
  unfold selector_of. by rewrite vget_with_source.
Qed.

Lemma normalized_inputs l :
  Forall planned_source l → l ≠ [] → mjoin (plan_of <$> l) ≠ [] →
  ∃ plans cases, _normalized_plan_inputs (VDict <$> l) = Some (plans, cases) ∧
    Forall (λ p, ∃ name md, p = obj [("source", VStr name); ("mapping_digest", VStr md)]) plans ∧
    Forall sourced_ok cases ∧
    node_ids cases = node_ids (mjoin (plan_of <$> l)) ∧ tests cases = tests (mjoin (plan_of <$> l)).
Proof.
  intros Hl Hne Hc.
  assert (Hm : ∃ k : list (payload * list payload), mapM _normalized_source_plan (VDict <$> l) = Some k ∧ length k = length l ∧
    Forall (λ p, ∃ name md, p = obj [("source", VStr name); ("mapping_digest", VStr md)]) k.*1 ∧
    Forall sourced_ok (mjoin k.*2) ∧ length (mjoin k.*2) = length (mjoin (plan_of <$> l)) ∧
    node_ids (mjoin k.*2) = node_ids (mjoin (plan_of <$> l)) ∧ tests (mjoin k.*2) = tests (mjoin (plan_of <$> l))).
  { clear Hne Hc. induction Hl as [|s l (_ & Hcs & identity & name & md & -> & Hn) _ IH].
    { exists []. split_and!; try done; constructor. }
    destruct IH as (k & Hk & Hlen & Hid & Hok & Hlc & Hni & Hex).
    exists ((obj [("source", VStr name); ("mapping_digest", VStr md)] : payload, with_source name <$> plan_of s) :: k).
    cbn [fmap list_fmap mapM]. rewrite Hn. cbn [mbind option_bind]. rewrite Hk. cbn [mbind option_bind].
    cbn [fst snd]. change (mjoin (?x :: ?l)) with (x ++ mjoin l).
    assert (Hnode : node_ids (with_source name <$> plan_of s) = node_ids (plan_of s)).
    { clear -Hcs. unfold node_ids. induction Hcs as [|c cs (Hp & _) _ IH]; [done|]. cbn.
      rewrite vget_with_source by done. by rewrite IH. }
    assert (Htest : tests (with_source name <$> plan_of s) = tests (plan_of s)).
    { apply tests_with_source. eapply Forall_impl; [exact Hcs|]. by intros c (? & _). }
    split_and!.
    - done.
    - cbn. by rewrite Hlen.
    - constructor; [by exists name, md|done].
    - apply Forall_app_2; [|done]. apply Forall_fmap. eapply Forall_impl; [exact Hcs|].
      intros c (Hp & Hq & He). by apply with_source_ok.
    - rewrite !length_app, length_fmap. by rewrite Hlc.
    - unfold node_ids in *. rewrite !omap_app. f_equal; [exact Hnode|exact Hni].
    - rewrite !tests_app. by rewrite Htest, Hex. }
  destruct Hm as (k & Hk & Hlen & Hid & Hok & Hlc & Hni & Hex). exists k.*1, (mjoin k.*2).
  unfold _normalized_plan_inputs. rewrite Hk. cbv zeta. rewrite !bool_decide_false; [by split_and!|..].
  - intros E. rewrite E in Hlc. by destruct (mjoin (plan_of <$> l)).
  - intros E%fmap_nil_inv. rewrite E in Hlen. by destruct l.
Qed.
Lemma least_maturity_same t l : Forall (λ x, x = t) l → least_maturity (t :: l) = t.
Proof.
  cbn [least_maturity]. induction 1 as [|x l -> _ IH]; [done|]. cbn [foldl]. by rewrite Z.ltb_irrefl.
Qed.

Lemma strings_encodable l : Forall (λ kv : string * pyval, ∃ t, kv.2 = VStr t) l → encodable (obj l).
Proof.
  intros Hl. unfold encodable. rewrite json_safe_dict.
  assert (Hm : ∃ es, map_res entry_node (obj l) = Ok es).
  { induction Hl as [|[k v] l [t Ht] _ [es Hes]]; [by eexists|]. cbn in Ht. subst v. cbn [obj fmap list_fmap map_res fst snd].
    unfold entry_node at 1. cbn [fst snd _json_safe _scalar_node res_bind]. change (obj l) with (obj l) in Hes.
    unfold obj in Hes. rewrite Hes. by eexists. }
  destruct Hm as [es ->]. by eexists.
Qed.
(** The digested identities of an artifact *)
Lemma artifact_encodable plans (cases : list payload) :
  Forall (λ p, ∃ name md, p = obj [("source", VStr name); ("mapping_digest", VStr md)]) plans →
  Forall encodable cases →
  encodable (obj [("sources", VList (VDict <$> plans))]) ∧
  encodable (obj [("sources", VList (VDict <$> plans)); ("cases", VList (VDict <$> cases))]).
Proof.
  intros Hp Hc.
  destruct (map_res_total _json_safe (VDict <$> plans)) as [ps Hps].
  { apply Forall_fmap. eapply Forall_impl; [exact Hp|]. intros p (name & md & ->).
    apply strings_encodable. repeat constructor; by eexists. }
  destruct (map_res_total _json_safe (VDict <$> cases)) as [cs Hcs]; [by apply Forall_fmap|].
  unfold encodable. rewrite !json_safe_dict. cbn [obj fmap list_fmap map_res fst snd].
  unfold entry_node. cbn [fst snd]. rewrite !json_safe_list, Hps, Hcs. split; by eexists.
Qed.
Lemma encodable_digest d : encodable d → ∃ x, canonical_digest d = Ok x.
Proof. intros [j Hj]. unfold canonical_digest. rewrite Hj. by eexists. Qed.

(** The sources of a passing report, and the fields its artifact copies *)
Lemma passing_report_sources sources labels review report :
  _lifecycle_report sources "test-authored" review labels = Ok report →
  vget "gate_decision" report = VStr "pass" →
  ∃ ss, vget "sources" report = VList (VDict <$> ss) ∧ Forall planned_source ss ∧
    (ss ≠ [] → vitem "verdict" report = Ok (VStr "passed") ∧ vitem "gate_decision" report = Ok (VStr "pass") ∧
       vitem "required_maturity" report = Ok (VStr "test-authored") ∧
       vitem "observed_maturity" report = Ok (VStr "test-authored")).
Proof.
  destruct sources as [|path paths]; cbn [_lifecycle_report]; [intros [= <-] _; by exists []|].
  generalize (path :: paths). intros all (ss & Hss & Hr)%res_bind_Ok Hg. cbv zeta in Hr.
  destruct (lifecycle_status _) as [ds ie]. apply (inj Ok) in Hr as <-.
  destruct (count_field_is "gate_decision" "fail" ss =? 0)%Z eqn:E; [|done]. rewrite count_field_zero in E.
  assert (Hp : Forall planned_source ss).
  { apply map_res_Ok in Hss. apply Forall_forall. intros s Hs. apply list_elem_of_lookup in Hs as [i Hi].
    destruct (Forall2_lookup_r _ _ _ _ _ Hss Hi) as (p & _ & Hs).
    destruct (lifecycle_source_decision "test-authored" review labels p) as [Hd _].
    apply list_elem_of_lookup_2 in Hi.
    destruct (Hd s Hs) as [Hf|Hpass]; [by destruct (E s Hi)|]. by eapply passing_source_planned. }
  exists ss. split; [done|]. split; [done|]. intros Hne. split_and!; try done.
  assert (Hl : least_maturity (text_field "observed_maturity" <$> ss) = "test-authored").
  { destruct ss as [|s ss]; [done|]. apply Forall_cons in Hp as [(Ho & _) Hp]. cbn [fmap list_fmap].
    unfold text_field at 1. rewrite Ho. apply least_maturity_same, Forall_fmap. eapply Forall_impl; [exact Hp|].
    intros s' (Ho' & _). unfold text_field. cbn. by rewrite Ho'. }
  unfold vitem. cbn [obj fmap list_fmap fst snd dict_get]. by rewrite Hl.
Qed.
(** Sorting the sources permutes them. *)
Lemma sorted_sources ss :
  ∃ ss', sort_by source_sort_key (VDict <$> ss) = VDict <$> ss' ∧ ss ≡ₚ ss'.
Proof.
  destruct (Permutation_map_inv VDict (l1 := sort_by source_sort_key (VDict <$> ss)) ss) as (ss' & E & Hp).
  { apply sort_by_perm. }
  by exists ss'.
Qed.
End plan.

(** C33 The plan artifact of a passing gate carries the proof obligations of
    every source.  When the gate passes at test-authored, at least one planned
    case is an exact test and no selector is planned twice, then the artifact
    written next to the report is a plan the reconciliation accepts, its tests
    are those planned by the sources, and any later pair of runs where each of
    them first fails and then passes ends verified. *)
Theorem evidence_plan_verifies `{PyRepr} `{Sha256} `{ParseXml} `{EvidenceHost} `{RequirementsCore Bundle}
    (sources : list string) (labels : list (string * string)) (review : option payload) (report : payload) :
  (∀ x, is_sha256_text (sha256_digest x) = true) →
  _lifecycle_report sources "test-authored" review labels = Ok report →
  vget "gate_decision" report = VStr "pass" →
  tests (report_cases report) ≠ [] → NoDup (node_ids (report_cases report)) →
  ∃ artifact pl, plan_artifact report = Ok (WReport artifact) ∧ _plan_cases artifact = Ok pl ∧
    tests (pl_cases pl) ≡ₚ tests (report_cases report) ∧ runs_verify artifact pl.
Proof.
  intros Hsha Hr Hg Htests Hnd.
  destruct (passing_report_sources sources labels review report Hr Hg) as (ss & Hss & Hplanned & Hfields).
  destruct (sorted_sources ss) as (ss' & Hsort & Hperm).
  assert (Hrep : report_cases report ≡ₚ mjoin (plan_of <$> ss')).
  { unfold report_cases, report_sources. rewrite Hss, mapping_cases_dicts. by rewrite Hperm. }
  assert (Htests' : tests (mjoin (plan_of <$> ss')) ≠ []) by (rewrite <-tests_exist in *; by rewrite <-Hrep).
  assert (Hne : ss' ≠ []) by by intros ->.
  destruct Hfields as (Hv & Hgd & Hrm & Hom). { intros ->. by apply Permutation_nil_l in Hperm. }
  destruct (normalized_inputs ss') as (plans & cases & Hin & Hplans & Hok & Hnode & Htest); [by rewrite <-Hperm|done| |].
  { intros E. by rewrite E in Htests'. }
  assert (Henc : Forall encodable cases) by (eapply Forall_impl; [exact Hok|]; by intros c [_ ?]).
  destruct (artifact_encodable plans cases Hplans Henc) as [[md Hmd]%encodable_digest [idd Hidd]%encodable_digest].
  destruct (build_plan_total md cases Henc) as [plan Hplan].
  assert (Hart : ∃ artifact, plan_artifact report = Ok (WReport artifact) ∧
    vget "gate_decision" artifact = VStr "pass" ∧ vget "observed_maturity" artifact = VStr "test-authored" ∧
    vget "plan" artifact = VDict plan).
  { unfold plan_artifact, _normalized_plan_report. rewrite Hg, (proj2 (is_str_true _ _) eq_refl), Hss. cbn [negb].
    rewrite Hsort, Hin. cbv zeta. rewrite Hmd. cbn [res_bind]. rewrite Hplan. cbn [res_bind].
    rewrite Hv, Hgd, Hrm, Hom. cbn [res_bind]. rewrite Hidd. cbn [res_bind]. by eexists. }
  destruct Hart as (artifact & Hart & Ha1 & Ha2 & Ha3). apply canonical_digest_Ok in Hmd as (j & _ & Emd).
  destruct (plan_cases_accepted artifact md cases plan Ha1 Ha2 Ha3 Hplan) as (o & Hord & Hpl).
  { by rewrite Emd. }
  { done. }
  { eapply Forall_impl; [exact Hok|]. by intros c [? _]. }
  { rewrite Hnode. unfold node_ids. by rewrite <-Hrep. }
  { apply tests_exist. by rewrite Htest. }
  exists artifact. eexists. split; [done|]. split; [exact Hpl|]. split.
  - cbn [pl_cases]. transitivity (tests o).
    { unfold tests. f_equiv. rewrite list_filter_filter_l; [done|]. done. }
    unfold tests at 1. rewrite (ordered_cases_perm _ _ Hord). fold (tests cases). rewrite Htest. unfold tests. by rewrite Hrep.
  - apply plan_pipeline; [exact Hpl|]. pose proof (ordered_cases_encodable cases o Hord) as Ho. rewrite Forall_forall in Ho.
    apply Forall_forall. intros d Hd. apply list_elem_of_filter in Hd as [_ Hd]. by apply Ho.
Qed.

(** * A sample repository *)

Section samples.
#[local] Instance gate_repr : PyRepr := λ _, "<repr>".
#[local] Instance gate_sha : Sha256 := λ _, of_chars (replicate 64 "0"%char).
#[local] Instance gate_xml : ParseXml := λ payload,
  Some (Elem "testsuite" [] [testcase "tests/test_a.py::test_it"
    (if bool_decide (head payload = Some "F"%char) then [Elem "failure" [] []] else [])]).

Definition gate_case (node_id : string) : pyval :=
  VDict (obj [("case_id", VStr "C1"); ("scenario_id", VStr "S1"); ("method", VStr "test");
              ("intent", VStr "it works"); ("observable", VStr "exit code");
              ("selector", VDict (obj [("runner", VStr "pytest"); ("node_id", VStr node_id)]))]).
(** The sidecar of a change: a lifecycle mapping whose requirement also lists
    a test link *)
Definition gate_mapping : list (pyval * pyval) :=
  obj [("schema_version", VStr "2");
       ("requirements", VDict (obj [("REQ:S1", VDict (obj
         [("rationale", VStr "needed");
          ("test_links", VList [VStr "tests/test_a.py::test_it"]);
          ("touchpoints", VList [VDict (obj [("id", VStr "T"); ("kind", VStr "cli"); ("locator", VStr "run")])]);
          ("verification_cases", VList [gate_case "tests/test_a.py::test_it"])]))]))].
Definition gate_review : list (pyval * pyval) :=
  obj [("reviewer_id", VStr "r"); ("reviewer_role", VStr "lead"); ("recorded_at", VStr "today");
       ("reference", VStr "PR 1"); ("decision", VStr "accepted");
       ("mapping_digest", VStr (sha256_digest []))].

(** [main...HEAD] changes the files below the given change roots. *)
Definition gate_host (changed : string) : EvidenceHost := {|
  git_stdout := λ _, Ok changed;
  extracted_index := λ _, Err (OSError "");
  archived_import_root := λ _, Err (OSError "");
  is_dir := λ path, startswith "/r/openspec/changes/c" path;
  is_file := λ path, endswith ".py" path || endswith ".yaml" path;
  resolve := Ok;
  read_yaml := λ path, Some (VDict (if String.eqb path "/r/review.yaml" then gate_review else gate_mapping));
  overlay_document := λ records, Ok (VList (VDict <$> records));
  temporary_write := λ _ _, None
|}.
#[local] Instance one_change : EvidenceHost :=
  gate_host ("openspec/changes/c1/spec.md" +:+ String (ascii_of_nat 10) "").
(** The importer finds one requirement; a bundle counts linked ones. *)
#[local] Instance gate_core : RequirementsCore (list RequirementInput) := {
  create_empty_project_bundle := λ _, [];
  stored_bundle := id;
  load_requirements_from_bundle := id;
  attach_requirements_to_bundle := λ _ rs, rs;
  stored_input_extension := λ rs, Ok (VDict [(VStr "requirements", VList (record_value <$> rs))]);
  load_requirements_input_extension := λ d,
    match vget "requirements" d with VList l => Ok (omap value_record l) | _ => Ok [] end;
  normalize_requirement_records := λ records _,
    Ok {| ir_requirements := omap (λ v, match v with
            | VDict d => Some {| rq_requirement_id := "REQ:S1"; rq_payload := d |} | _ => None end) records;
          ir_diagnostics := [] |};
  supports_project_root := λ _, true;
  import_helper := λ _ _ _,
    Ok {| ir_requirements := [{| rq_requirement_id := "REQ:S1"; rq_payload := [] |}]; ir_diagnostics := [] |};
  validate_requirement_context := λ _ _, Ok (obj [("status", VStr "passed"); ("violations", VList [])]);
  inspect_requirement_context_coverage := λ rs, obj [
    ("total_requirements", VInt (Z.of_nat (length rs)));
    ("with_test_links", VInt (Z.of_nat (length (filter (λ r, vget "evidence_links" (rq_payload r) ≠ VNone) rs))))];
  core_requirement_context_profiles := ["enterprise"]
}.

Definition gate_request (required : option string) : RequirementsEvidenceRequest := {|
  rer_repo_root := "/r"; rer_output_path := "/o/report.json"; rer_summary_path := Some "/o/summary.md";
  rer_base_ref := Some "main"; rer_staged := false; rer_required_maturity := required;
  rer_review_evidence_path := Some "/r/review.yaml"; rer_plan_output_path := Some "/o/plan.json"
|}.
Definition gate_run (required : option string) : run_outcome :=
  _write_requirements_evidence (λ _ _, false) (λ _, Ok tt) (gate_request required).

Lemma evidence_gate_witness :
  (ro_exit (gate_run None) = Ok 0%Z ∧ gate_passes (gate_request None)) ∧
  (ro_exit (gate_run (Some "test-authored")) = Ok 0%Z ∧ gate_passes (gate_request (Some "test-authored"))) ∧
  (ro_exit (gate_run (Some "verified")) = Ok 1%Z ∧ ¬ gate_passes (gate_request (Some "verified"))).
Proof.
  split; [|split]; (split; [vm_compute; reflexivity|]).
  - apply (evidence_gate (λ _ _, false) (λ _, Ok tt) (gate_request None) 0); vm_compute; reflexivity.
  - apply (evidence_gate (λ _ _, false) (λ _, Ok tt) (gate_request (Some "test-authored")) 0); vm_compute; reflexivity.
  - apply (evidence_gate (λ _ _, false) (λ _, Ok tt) (gate_request (Some "verified")) 1); vm_compute; reflexivity.
Defined.

Lemma sidecar_links_contained_witness :
  ∃ links, _load_evidence_sidecar "/r/openspec/changes/c1" "/r" {["REQ:S1"]} = Ok (links, []) ∧
    contained "/r" "tests/test_a.py::test_it" ∧ dict_get "REQ:S1" links = Some ["tests/test_a.py::test_it"].
Proof.
  assert (E : _load_evidence_sidecar "/r/openspec/changes/c1" "/r" {["REQ:S1"]}
    = Ok ([("REQ:S1", ["tests/test_a.py::test_it"])], [])) by (vm_compute; reflexivity).
  eexists. split; [exact E|]. split; [|reflexivity].
  destruct (sidecar_links_contained _ _ _ _ _ E) as [Hc _].
  destruct (Hc "REQ:S1" ["tests/test_a.py::test_it"] eq_refl) as [_ Hf].
  exact (Forall_inv Hf).
Defined.

Definition gate_report : payload := request_report (gate_request (Some "test-authored")).
Lemma evidence_plan_verifies_witness :
  ∃ artifact pl, plan_artifact gate_report = Ok (WReport artifact) ∧ _plan_cases artifact = Ok pl ∧
    runs_verify artifact pl ∧ tests (pl_cases pl) ≡ₚ ["tests/test_a.py::test_it"].
Proof.
  destruct (evidence_plan_verifies ["/r/openspec/changes/c1"] [("/r/openspec/changes/c1", "openspec/changes/c1")]
    (Some gate_review) gate_report) as (artifact & pl & H1 & H2 & H3 & H4).
  - intros x. vm_compute. reflexivity.
  - vm_compute. reflexivity.
  - vm_compute. reflexivity.
  - vm_compute. discriminate.
  - apply (bool_decide_unpack _). vm_compute. reflexivity.
  - exists artifact, pl. split; [exact H1|]. split; [exact H2|]. split; [exact H4|].
    assert (E : tests (report_cases gate_report) = ["tests/test_a.py::test_it"]) by (vm_compute; reflexivity).
    rewrite <-E. exact H3.
Defined.

(** Two changes that plan the same test: the gate passes, but the artifact it
    writes is refused by the reconciliation. *)
Definition shared_host : EvidenceHost :=
  gate_host ("openspec/changes/c1/spec.md" +:+ String (ascii_of_nat 10) "openspec/changes/c2/spec.md").
Lemma shared_selector_rejected :
  @gate_passes _ _ shared_host _ _ (gate_request (Some "test-authored")) ∧
  ∃ artifact,
    plan_artifact (@request_report _ _ shared_host _ _ (gate_request (Some "test-authored"))) = Ok (WReport artifact) ∧
    _plan_cases artifact = Err (ValueError "plan report contains duplicate test selectors").
Proof.
  split.
  - apply (proj2 (@evaluate_gate_report _ _ shared_host _ _ (gate_request (Some "test-authored")))).
    eexists. split; [vm_compute; reflexivity|]. vm_compute. discriminate.
  - eexists. split; [vm_compute; reflexivity|]. vm_compute. reflexivity.
Qed.

(** Git quotes a path outside ASCII; its change is not examined. *)
Lemma quoted_path_missed :
  _changed_change_roots [String dquote ("openspec/changes/caf\303\251/spec.md" +:+ String dquote "")] = [].
Proof. vm_compute. reflexivity. Qed.
End samples.
