(* ===== verification/PytestPolicy.v ===== *)
(** PytestPolicy: the test policy of a snapshot in [specfact_code_review]:
    which configuration file governs pytest and coverage ([run/scope.py]), the
    values it holds, what is projected into the capsule, and the rules on
    selection options, plugins, candidates and inputs ([run/runner.py]).  The
    documents the readers return have no floats and no dates. *)

From S2P Require Import Prelude Text Paths Dict PyValue Json Scope RangeReview Floats.

(** * JSON values as Python sees them *)

Fixpoint pyval_of_json (j : json) : pyval :=
  match j with
  | JNull => VNone
  | JBool b => VBool b
  | JInt z => VInt z
  | JStr s => VStr s
  | JArr l => VList (pyval_of_json <$> l)
  | JObj l => VDict ((λ kv, (VStr kv.1, pyval_of_json kv.2)) <$> l)
  end.
Definition json_truthy (j : json) : bool := truthy (pyval_of_json j).
Definition json_str `{PyRepr} (j : json) : string := py_str (pyval_of_json j).
(** [for x in value] *)
Definition json_iter (j : json) : result (list json) :=
  match j with
  | JArr l => Ok l
  | JStr s => Ok ((λ c, JStr (of_chars [c])) <$> chars s)
  | JObj l => Ok (JStr <$> l.*1)
  | _ => Err (TypeError "object is not iterable")
  end.
Definition jget_default (k : string) (dflt : json) (d : list (string * json)) : json :=
  default dflt (dict_get k d).
Definition jitem (k : string) (d : list (string * json)) : result json :=
  match dict_get k d with Some v => Ok v | None => Err (KeyError k) end.
(** A mapping, or the error its first method call raises *)
Definition as_mapping (j : json) : result (list (string * json)) :=
  match j with JObj l => Ok l | _ => Err (AttributeError "object has no attribute 'get'") end.
Definition json_strs `{PyRepr} (j : json) : result (list string) :=
  let! l := json_iter j in Ok (json_str <$> l).

(** * Locating the policy *)

Record LocatedPolicy := {
  lp_status : string; lp_selected_path : string; lp_selected_section : string;
  lp_loader_version : string; lp_ignored_paths : list string; lp_selection_reason : string;
  lp_source_order : list string; lp_manifest_digest : string; lp_reason : string
}.

(** What is at a path below the policy root: nothing, the bytes of a regular
    file, or the refusal to read it *)
Definition policy_root : Type := string → result (option string).
(** [str(exc)] of the reader's exception on a payload *)
Class ParserError := parser_error : string → string.

Section locate.
Context `{Sha256} `{TomlLoads} `{IniRead} `{ParserError}.

(** The payloads, and those read before an error with the error *)
Fixpoint _policy_candidate_payloads (root : policy_root) (source_order : list string) :
    result (list (string * string)) :=
  match source_order with
  | [] => Ok []
  | relative :: rest =>
      match root relative with
      | Err e =>
          match e with
          | GitResolutionError msg =>
              Err (PolicyResolutionError ("Unsafe policy source " +:+ relative +:+ ": " +:+ msg))
          | _ => Err e
          end
      | Ok None => _policy_candidate_payloads root rest
      | Ok (Some payload) =>
          let! payloads := _policy_candidate_payloads root rest in
          Ok ((relative, payload) :: payloads)
      end
  end.

Definition index_of (path : string) (l : list string) : Z :=
  match list_find (λ p, p = path) l with Some (i, _) => Z.of_nat i | None => 0%Z end.
Definition _policy_manifest_digest (payloads : list (string * string)) (source_order : list string) :
    string :=
  _canonical_json_digest (JArr (omap (λ path,
    (λ payload, JObj [("path", JStr path); ("content_digest", JStr (sha256_bytes payload));
                      ("precedence", JInt (index_of path source_order))])
      <$> dict_get path payloads) source_order)).

Definition _unknown_located_policy (loader_version : string) (source_order : list string)
    (reason : string) (payloads : list (string * string)) : LocatedPolicy :=
  {| lp_status := "UNKNOWN"; lp_selected_path := ""; lp_selected_section := "";
     lp_loader_version := loader_version; lp_ignored_paths := dict_keys payloads;
     lp_selection_reason := "unknown"; lp_source_order := source_order;
     lp_manifest_digest := _policy_manifest_digest payloads source_order; lp_reason := reason |}.

Definition parse_failure {A} (relative payload : string) : result A :=
  Err (PolicyResolutionError ("Unable to parse " +:+ relative +:+ ": " +:+ parser_error payload)).
Definition _parsed_ini_sections (payload relative : string) : result (list string) :=
  match ini_sections payload with
  | None => parse_failure relative payload
  | Some sections => Ok (lower <$> sections.*1)
  end.

Definition _pytest_pyproject_section (payload : string) : result (string * bool) :=
  match toml_loads payload with
  | None => parse_failure "pyproject.toml" payload
  | Some document =>
      match json_get "tool" document ≫= json_get "pytest" with
      | None | Some JNull => Ok ("", true)
      | Some (JObj pytest_table) =>
          let has_legacy := dict_mem "ini_options" pytest_table in
          let has_native := existsb (λ key, negb (String.eqb key "ini_options")) (dict_keys pytest_table) in
          if has_legacy && has_native
          then Err (PolicyResolutionError
                 "pyproject.toml contains both native tool.pytest and legacy ini_options values.")
          else Ok (if has_legacy then "tool.pytest.ini_options" else "tool.pytest", false)
      | Some _ => Err (PolicyResolutionError "pyproject.toml tool.pytest must be a table.")
      end
  end.

Definition matches_dict : Type := list (string * (string * string)).
Definition _append_pytest_pyproject_match (payloads : list (string * string)) (matches : matches_dict) :
    result (matches_dict * bool) :=
  match dict_get "pyproject.toml" payloads with
  | None => Ok (matches, false)
  | Some payload =>
      let! (section, bare_pyproject) := _pytest_pyproject_section payload in
      Ok (if String.eqb section "" then matches
          else dict_set "pyproject.toml" (section, "table_match") matches, bare_pyproject)
  end.
Definition _append_pytest_ini_matches (payloads : list (string * string)) (matches : matches_dict) :
    result matches_dict :=
  fold_res (λ matches rs,
    match dict_get rs.1 payloads with
    | None => Ok matches
    | Some payload =>
        let! sections := _parsed_ini_sections payload rs.1 in
        Ok (if bool_decide (rs.2 ∈ sections) then dict_set rs.1 (rs.2, "section_match") matches else matches)
    end) matches [("tox.ini", "pytest"); ("setup.cfg", "tool:pytest")].
Definition primary_sources : list string := ["pytest.toml"; ".pytest.toml"; "pytest.ini"; ".pytest.ini"].
Definition _pytest_policy_matches (payloads : list (string * string)) : result (matches_dict * bool) :=
  let matches := (λ relative, (relative, ("empty-or-native", "present_primary_source")))
                   <$> filter (λ relative, dict_mem relative payloads = true) primary_sources in
  let! (matches, bare_pyproject) := _append_pytest_pyproject_match payloads matches in
  let! matches := _append_pytest_ini_matches payloads matches in
  Ok (matches, bare_pyproject).

Definition _selected_pytest_policy (source_order : list string) (matches : matches_dict)
    (bare_pyproject : bool) : string * string * string :=
  match list_find (λ path, dict_mem path matches = true) source_order with
  | Some (_, selected) =>
      let '(section, reason) := default ("", "") (dict_get selected matches) in (selected, section, reason)
  | None => if bare_pyproject then ("pyproject.toml", "", "bare_pyproject_fallback")
            else ("", "", "pytest-default-v1")
  end.

Definition located (version selected section reason : string) (source_order : list string)
    (payloads : list (string * string)) : LocatedPolicy :=
  {| lp_status := "PASS"; lp_selected_path := selected; lp_selected_section := section;
     lp_loader_version := version;
     lp_ignored_paths := filter (λ path, dict_mem path payloads = true ∧ path ≠ selected) source_order;
     lp_selection_reason := reason; lp_source_order := source_order;
     lp_manifest_digest := _policy_manifest_digest payloads source_order; lp_reason := "" |}.

Definition pytest_source_order : list string :=
  ["pytest.toml"; ".pytest.toml"; "pytest.ini"; ".pytest.ini"; "pyproject.toml"; "tox.ini"; "setup.cfg"].
Definition resolve_pytest_policy (root : policy_root) (expected_version : string) : result LocatedPolicy :=
  let source_order := pytest_source_order in
  if negb (String.eqb expected_version "9.0.3")
  then Ok (_unknown_located_policy "9.0.3" source_order "pytest loader/profile version drift" [])
  else
    match _policy_candidate_payloads root source_order with
    | Err (PolicyResolutionError msg) => Ok (_unknown_located_policy "9.0.3" source_order msg [])
    | Err e => Err e
    | Ok payloads =>
        match _pytest_policy_matches payloads with
        | Err (PolicyResolutionError msg) => Ok (_unknown_located_policy "9.0.3" source_order msg payloads)
        | Err e => Err e
        | Ok (matches, bare_pyproject) =>
            let '(selected, section, reason) := _selected_pytest_policy source_order matches bare_pyproject in
            Ok (located "9.0.3" selected section reason source_order payloads)
        end
    end.

Definition _coverage_applicable (relative payload : string) : result (bool * string) :=
  if String.eqb relative ".coveragerc.toml" then
    match toml_loads payload with
    | None => parse_failure relative payload
    | Some document => Ok (json_truthy document, "run")
    end
  else if String.eqb relative "pyproject.toml" then
    match toml_loads payload with
    | None => parse_failure relative payload
    | Some document =>
        Ok (match json_get "tool" document ≫= json_get "coverage" with Some (JObj _) => true | _ => false end,
            "tool.coverage")
    end
  else
    let! sections := _parsed_ini_sections payload relative in
    if String.eqb relative ".coveragerc"
    then Ok (existsb (λ s, bool_decide (s ∈ ["run"; "report"; "paths"; "html"; "xml"; "json"; "lcov"])) sections,
             "run")
    else Ok (existsb (startswith "coverage:") sections, "coverage:").

Definition coverage_source_order : list string :=
  [".coveragerc"; ".coveragerc.toml"; "setup.cfg"; "tox.ini"; "pyproject.toml"].
Definition coverage_matches (payloads : list (string * string)) : result (list (string * string)) :=
  fold_res (λ matches path,
    match dict_get path payloads with
    | None => Ok matches
    | Some payload =>
        let! (applicable, section) := _coverage_applicable path payload in
        Ok (if applicable then dict_set path section matches else matches)
    end) [] coverage_source_order.
Definition resolve_coverage_policy (root : policy_root) (expected_version : string) : result LocatedPolicy :=
  let source_order := coverage_source_order in
  if negb (String.eqb expected_version "7.15.4")
  then Ok (_unknown_located_policy "7.15.4" source_order "Coverage loader/profile version drift" [])
  else
    match _policy_candidate_payloads root source_order with
    | Err (PolicyResolutionError msg) => Ok (_unknown_located_policy "7.15.4" source_order msg [])
    | Err e => Err e
    | Ok payloads =>
        match coverage_matches payloads with
        | Err (PolicyResolutionError msg) => Ok (_unknown_located_policy "7.15.4" source_order msg payloads)
        | Err e => Err e
        | Ok matches =>
            let selected := match list_find (λ path, dict_mem path matches = true) source_order with
                            | Some (_, path) => path | None => "" end in
            Ok (located "7.15.4" selected (default "" (dict_get selected matches))
                  (if String.eqb selected "" then "coverage-default-v1" else "section_match")
                  source_order payloads)
        end
    end.

(** * The values of the located source *)

Definition _pytest_string_list (value : json) : result (list string) :=
  match value with
  | JStr s => Ok (split_ws s)
  | JArr l =>
      match mapM (λ j, match j with JStr s => Some s | _ => None end) l with
      | Some items => Ok items
      | None => Err (ValueError "pytest_config_ambiguous")
      end
  | _ => Err (ValueError "pytest_config_ambiguous")
  end.

Definition or_empty (raw : option json) : list (string * json) :=
  match raw with Some (JObj l) => l | _ => [] end.
Definition _pytest_toml_values (path payload : string) : result (list (string * json)) :=
  match toml_loads payload with
  | None => Err (ValueError (parser_error payload))
  | Some document =>
      let! document := as_mapping document in
      if negb (String.eqb path "pyproject.toml") then Ok (or_empty (dict_get "pytest" document))
      else
        let! tool := as_mapping (jget_default "tool" (JObj []) document) in
        let raw := dict_get "pytest" tool in
        Ok (match raw ≫= json_get "ini_options" with
            | Some (JObj options) => options
            | _ => or_empty raw
            end)
  end.
Definition _pytest_ini_values (path payload section : string) : result (list (string * json)) :=
  match ini_sections payload with
  | None => Err (OtherError "configparser.Error")
  | Some sections =>
      let selected_section :=
        if bool_decide (path ∈ ["pytest.ini"; ".pytest.ini"]) then "pytest" else section in
      Ok (if String.eqb selected_section "" then []
          else (λ kv, (kv.1, JStr kv.2)) <$> default [] (dict_get selected_section sections))
  end.

(** The bytes of a located file *)
Definition read_selected (root : policy_root) (path : string) : result string :=
  let! payload := root path in
  match payload with Some payload => Ok payload | None => Err (OSError "No such file or directory") end.

Definition pytest_defaults : list (string * json) :=
  [("version", JStr "9.0.3"); ("testpaths", JArr [JStr "."]); ("python_files", JArr [JStr "test_*.py"]);
   ("python_classes", JArr [JStr "Test*"]); ("python_functions", JArr [JStr "test_*"]);
   ("addopts", JArr []); ("config", JObj [])].
Definition list_fields : list string := ["testpaths"; "python_files"; "python_classes"; "python_functions"].
Definition take_list_field (values : list (string * json)) (policy : list (string * json)) (key : string) :
    result (list (string * json)) :=
  match dict_get key values with
  | None | Some JNull => Ok policy
  | Some raw_value =>
      let! items := _pytest_string_list raw_value in Ok (dict_set key (JArr (JStr <$> items)) policy)
  end.
Definition _pytest_policy_values (policy_bundle : option policy_root) : result (list (string * json)) :=
  match policy_bundle with
  | None => Ok pytest_defaults
  | Some root =>
      let! policy := resolve_pytest_policy root "9.0.3" in
      if negb (String.eqb (lp_status policy) "PASS") then Err (ValueError (lp_reason policy))
      else if String.eqb (lp_selected_path policy) "" then Ok pytest_defaults
      else
        let path := lp_selected_path policy in
        let! payload := read_selected root path in
        let! values := if String.eqb (path_suffix path) ".toml" then _pytest_toml_values path payload
                       else _pytest_ini_values path payload (lp_selected_section policy) in
        let! policy := fold_res (take_list_field values) pytest_defaults list_fields in
        let! policy := take_list_field values policy "addopts" in
        Ok (dict_set "config" (JObj values) policy)
  end.

Definition _flatten_coverage_sections (document : list (string * json)) : list (string * json) :=
  dict_of (document ≫= λ sf,
    match sf.2 with JObj fields => (λ kv, (sf.1 +:+ ":" +:+ kv.1, kv.2)) <$> fields | _ => [] end).
Definition _coverage_policy_values (policy_bundle : option policy_root) : result (list (string * json)) :=
  match policy_bundle with
  | None => Ok []
  | Some root =>
      let! policy := resolve_coverage_policy root "7.15.4" in
      if negb (String.eqb (lp_status policy) "PASS") then Err (ValueError (lp_reason policy))
      else if String.eqb (lp_selected_path policy) "" then Ok []
      else
        let path := lp_selected_path policy in
        let! payload := read_selected root path in
        if String.eqb (path_suffix path) ".toml" then
          match toml_loads payload with
          | None => Err (ValueError (parser_error payload))
          | Some document =>
              let! document := as_mapping document in
              let! document :=
                if String.eqb path "pyproject.toml"
                then let! tool := as_mapping (jget_default "tool" (JObj []) document) in
                     as_mapping (jget_default "coverage" (JObj []) tool)
                else Ok document in
              Ok (_flatten_coverage_sections document)
          end
        else
          match ini_sections payload with
          | None => Err (OtherError "configparser.Error")
          | Some sections =>
              Ok (dict_of (sections ≫= λ si,
                (λ kv, (removeprefix "coverage:" si.1 +:+ ":" +:+ kv.1, JStr kv.2)) <$> si.2))
          end
  end.
End locate.

(** * Projection into the capsule *)

Record PytestProjection := {
  pp_status : string; pp_values : list (string * json); pp_writable_paths : list string;
  pp_logical_policy_digest : string; pp_reason : string
}.

Section projection.
Context `{Sha256} `{PyRepr}.

(** The texts a path list is made of *)
Definition path_texts (raw_value : json) : result (list string) :=
  match raw_value with JStr s => Ok (split_ws s) | _ => json_strs raw_value end.
Definition escapes (path : string) : bool := is_absolute path || bool_decide (".." ∈ path_parts path).
(** [None]: a path escapes the snapshot *)
Definition project_read_key (policy config : list (string * json)) (snapshot_root : string)
    (values : list (string * json)) (key : string) : result (option (list (string * json))) :=
  let! raw := path_texts (jget_default key (jget_default key (JArr []) config) policy) in
  if existsb escapes raw then Ok None
  else Ok (Some (if bool_decide (raw = []) then values
                 else dict_set key (JArr ((λ p, JStr (path_join snapshot_root p)) <$> raw)) values)).
Definition copy_key (policy values : list (string * json)) (key : string) : list (string * json) :=
  match dict_get key policy with None | Some JNull => values | Some raw => dict_set key raw values end.
Definition write_destination (output_root key : string) (from to : string) : string :=
  path_join output_root (replace from to key).
Definition project_write_key (config : list (string * json)) (output_root : string)
    (acc : list (string * json) * list string) (key : string) : list (string * json) * list string :=
  if String.eqb key "log_file" && negb (dict_mem key config) then acc
  else let destination := write_destination output_root key "_" "-" in
       (dict_set key (JStr destination) acc.1, acc.2 ++ [destination]).

Definition unbound_read_path (digest : string) : PytestProjection :=
  {| pp_status := "UNKNOWN"; pp_values := []; pp_writable_paths := [];
     pp_logical_policy_digest := digest; pp_reason := "unbound_read_path" |}.
Definition project_pytest_policy (policy : list (string * json)) (snapshot_root output_root : string) :
    result PytestProjection :=
  let logical_digest := _canonical_json_digest (JObj policy) in
  let! config := as_mapping (jget_default "config" (JObj []) policy) in
  let! pythonpath := project_read_key policy config snapshot_root config "pythonpath" in
  match pythonpath with
  | None => Ok (unbound_read_path logical_digest)
  | Some values =>
      let! testpaths := project_read_key policy config snapshot_root values "testpaths" in
      match testpaths with
      | None => Ok (unbound_read_path logical_digest)
      | Some values =>
          let values := foldl (copy_key policy) values ["python_files"; "python_classes"; "python_functions"] in
          let values := match dict_get "addopts" policy with
                        | Some addopts => if json_truthy addopts then dict_set "addopts" addopts values else values
                        | None => values
                        end in
          let '(values, writable) :=
            foldl (project_write_key config output_root) (values, []) ["cache_dir"; "log_file"] in
          Ok {| pp_status := "PASS"; pp_values := values; pp_writable_paths := writable;
                pp_logical_policy_digest := logical_digest; pp_reason := "" |}
      end
  end.

Record CoverageProjection := {
  cp_status : string; cp_values : list (string * json); cp_writable_paths : list string;
  cp_reason : string; cp_policy_source : string
}.
Definition unsupported : list string :=
  ["report:exclude_lines"; "report:exclude_also"; "report:partial_branches"; "report:partial_also"].
Definition has_truthy (policy : list (string * json)) (key : string) : bool :=
  match dict_get key policy with Some v => json_truthy v | None => false end.
Definition project_output_key (output_root : string) (acc : list (string * json) * list string)
    (key : string) : list (string * json) * list string :=
  if String.eqb key "run:data_file" || dict_mem key acc.1
  then let destination := write_destination output_root key ":" "-" in
       (dict_set key (JStr destination) acc.1, acc.2 ++ [destination])
  else acc.
Definition coverage_outputs : list string :=
  ["run:data_file"; "html:directory"; "xml:output"; "json:output"; "lcov:output"].
Definition project_coverage_policy (policy : list (string * json)) (output_root : option string) :
    CoverageProjection :=
  if existsb (has_truthy policy) unsupported || has_truthy policy "run:plugins"
  then {| cp_status := "UNKNOWN"; cp_values := []; cp_writable_paths := [];
          cp_reason := "coverage_policy_unsupported"; cp_policy_source := "target_tip" |}
  else
    let values := foldl (λ values key, dict_set key (JArr []) values) policy unsupported in
    let '(values, writable) := match output_root with
                               | Some output_root => foldl (project_output_key output_root) (values, []) coverage_outputs
                               | None => (values, [])
                               end in
    {| cp_status := "PASS"; cp_values := values; cp_writable_paths := writable; cp_reason := "";
       cp_policy_source := "target_tip" |}.

Definition select_coverage_policy (target candidate : list (string * json)) : CoverageProjection :=
  let same := same_json (JObj candidate) (JObj target) in
  {| cp_status := if same then "PASS" else "UNKNOWN"; cp_values := target; cp_writable_paths := [];
     cp_reason := if same then "" else "candidate_policy_change"; cp_policy_source := "target_tip" |}.

(** * Serialization *)

Definition continuation : string := of_chars [ascii_of_nat 10] +:+ "    ".
Definition newline : string := of_chars [ascii_of_nat 10].
Definition unsupported_value : exn := ValueError "policy_projection_value_unsupported".
Fixpoint _ini_projection_value (value : json) : result string :=
  match value with
  | JBool b => Ok (if b then "true" else "false")
  | JArr l =>
      let! items := (fix all (l : list json) : result (list string) :=
        match l with
        | [] => Ok []
        | x :: l => let! t := _ini_projection_value x in let! ts := all l in Ok (t :: ts)
        end) l in
      Ok (join continuation items)
  | JStr s => Ok (join continuation (str_splitlines s))
  | JInt z => Ok (join continuation (str_splitlines (pretty z)))
  | JNull | JObj _ => Err unsupported_value
  end.
Definition ini_field (kv : string * json) : result string :=
  let! text := _ini_projection_value kv.2 in Ok (kv.1 +:+ " = " +:+ text).
Definition by_key {V} (d : list (string * V)) : list (string * V) := sort_by fst d.
Definition _serialize_pytest_projection (values : list (string * json)) : result string :=
  let! fields := map_res ini_field (by_key values) in
  Ok (join newline ("[pytest]" :: fields) +:+ newline).

Definition section_fields : Type := list (string * list (string * json)).
Definition add_field (sections : section_fields) (kv : string * json) : result section_fields :=
  match partition ":"%char kv.1 with
  | None => Err (ValueError "coverage_policy_projection_field_unsupported")
  | Some (section, key) =>
      Ok (dict_set section (dict_set key kv.2 (default [] (dict_get section sections))) sections)
  end.
Definition _serialize_coverage_projection (values : list (string * json)) : result string :=
  let! sections := fold_res add_field [] values in
  let! blocks := map_res (λ sf : string * list (string * json),
    let! fields := map_res ini_field (by_key sf.2) in
    Ok (("[" +:+ sf.1 +:+ "]") :: fields)) (by_key sections) in
  Ok (join newline (mjoin blocks) +:+ newline).

(** [json.dumps(value, ensure_ascii=False)] with its default separators *)
Fixpoint json_text (value : json) : string :=
  match value with
  | JArr l => "[" +:+ join ", " (json_text <$> l) +:+ "]"
  | JObj l => "{" +:+ join ", " ((λ kv, of_chars (dumps false (JStr kv.1)) +:+ ": " +:+ json_text kv.2) <$> l) +:+ "}"
  | _ => of_chars (dumps false value)
  end.
Definition has_newline (value : json) : bool :=
  match value with JStr s => py_in newline s | _ => false end.
Definition multiline_patterns (values : list (string * json)) : bool :=
  existsb (λ kv, match kv.2 with JArr l => existsb has_newline l | _ => false end) values.
Definition add_toml_field (sections : list (string * list string)) (kv : string * json) :
    result (list (string * list string)) :=
  match partition ":"%char kv.1 with
  | None => Err (ValueError "not enough values to unpack (expected 2, got 1)")
  | Some (section, key) =>
      let! _ := check (match kv.2 with JNull | JObj _ => false | _ => true end) unsupported_value in
      Ok (dict_append section (json_text (JStr key) +:+ " = " +:+ json_text kv.2) sections)
  end.

(** The builder: the directories of the files written, the files, and the
    arguments of the members.  [mkdtemp] names the next temporary directory. *)
Record _PolicyBindingBuilder := {
  bb_config_roots : list string; bb_cleanup_roots : list string;
  bb_files : list (string * string); bb_member_argv : list (string * list string)
}.
Definition empty_builder : _PolicyBindingBuilder :=
  {| bb_config_roots := []; bb_cleanup_roots := []; bb_files := []; bb_member_argv := [] |}.
Definition _mounted_config_path (index : nat) (path : string) : string :=
  path_join (path_join "/opt/specfact/config" (pretty (Z.of_nat index))) (of_chars (path_name path)).
Definition bind_argv (member : string) (argv : list string) (b : _PolicyBindingBuilder) : _PolicyBindingBuilder :=
  {| bb_config_roots := bb_config_roots b; bb_cleanup_roots := bb_cleanup_roots b;
     bb_files := bb_files b; bb_member_argv := dict_set member argv (bb_member_argv b) |}.
(** [register] of a regular file [root / name] just written *)
Definition _write_policy_projection (mkdtemp : nat → string) (b : _PolicyBindingBuilder)
    (name payload : string) : _PolicyBindingBuilder * string :=
  let root := mkdtemp (length (bb_files b)) in
  let path := path_join root name in
  ({| bb_config_roots := bb_config_roots b ++ [root]; bb_cleanup_roots := bb_cleanup_roots b ++ [root];
      bb_files := bb_files b ++ [(path, payload)]; bb_member_argv := bb_member_argv b |},
   _mounted_config_path (S (length (bb_config_roots b))) path).
Definition _write_coverage_projection (mkdtemp : nat → string) (b : _PolicyBindingBuilder)
    (values : list (string * json)) : result (_PolicyBindingBuilder * string) :=
  if multiline_patterns values then
    let! sections := fold_res add_toml_field [] (by_key values) in
    let block sf := "[tool.coverage." +:+ json_text (JStr sf.1) +:+ "]" +:+ newline +:+ join newline sf.2 in
    Ok (_write_policy_projection mkdtemp b "coveragerc.toml" (join newline (block <$> sections) +:+ newline))
  else
    let! payload := _serialize_coverage_projection values in
    Ok (_write_policy_projection mkdtemp b "coveragerc" payload).

(** * Rules on options, plugins and candidates *)

Record CandidateReconciliation := { cr_status : string; cr_reason : string; cr_missing : list string }.
Definition candidate_pass : CandidateReconciliation :=
  {| cr_status := "PASS"; cr_reason := ""; cr_missing := [] |}.
Definition candidate_unknown (reason : string) : CandidateReconciliation :=
  {| cr_status := "UNKNOWN"; cr_reason := reason; cr_missing := [] |}.

Definition rejected_options : list string :=
  ["--cache-clear"; "--co"; "--collect-only"; "--confcutdir"; "--cov"; "--cov-config"; "--cov-fail-under";
   "--cov-report"; "--deselect"; "--doctest-modules"; "--exitfirst"; "--ff"; "--ignore"; "--ignore-glob";
   "--lf"; "--last-failed"; "--maxfail"; "--new-first"; "--no-cov"; "--noconftest"; "--override-ini";
   "--pyargs"; "--rootdir"; "--stepwise"; "--stepwise-skip"; "-c"; "-k"; "-m"; "-p"; "-x"].
Definition option_name (value : string) : string :=
  match partition "="%char value with Some (name, _) => name | None => value end.
Definition short_flags : list ascii := ["k"%char; "m"%char; "x"%char; "c"%char; "p"%char].
Definition short_cluster (value : string) : bool :=
  startswith "-" value && negb (startswith "--" value) && (2 <? String.length value)%nat
  && existsb (λ flag, bool_decide (flag ∈ drop 1 (chars value))) short_flags.
Definition rejected_addopt (value : string) : bool :=
  bool_decide (option_name value ∈ rejected_options) || short_cluster value.
Definition validate_pytest_selection_controls (policy : list (string * json)) :
    result CandidateReconciliation :=
  let! raw_addopts := json_strs (jget_default "addopts" (JArr []) policy) in
  let selection := Ok (candidate_unknown "pytest_selection_policy_unsupported") in
  if existsb rejected_addopt raw_addopts then selection
  else
    let! config := as_mapping (jget_default "config" (JObj []) policy) in
    if has_truthy config "norecursedirs" then selection else Ok candidate_pass.

Definition forbidden_hooks : list string :=
  ["pytest_addhooks"; "pytest_addoption"; "pytest_cmdline_main"; "pytest_cmdline_parse";
   "pytest_collect_directory"; "pytest_collect_file"; "pytest_collection"; "pytest_collection_finish";
   "pytest_collection_modifyitems"; "pytest_collectreport"; "pytest_collectstart"; "pytest_configure";
   "pytest_deselected"; "pytest_generate_tests"; "pytest_ignore_collect"; "pytest_itemcollected";
   "pytest_load_initial_conftests"; "pytest_make_collect_report"; "pytest_make_parametrize_id";
   "pytest_markeval_namespace"; "pytest_plugin_registered"; "pytest_pycollect_makeitem";
   "pytest_pycollect_makemodule"; "pytest_pyfunc_call"; "pytest_runtest_call"; "pytest_runtest_makereport";
   "pytest_runtest_protocol"; "pytest_runtest_setup"; "pytest_runtest_teardown"; "pytest_runtestloop";
   "pytest_sessionfinish"; "pytest_sessionstart"; "pytest_unconfigure"].
(** A plugin by its hooks *)
Definition validate_pytest_plugins (plugins : list (list string)) : CandidateReconciliation :=
  if existsb (existsb (λ hook, bool_decide (hook ∈ forbidden_hooks))) plugins
  then candidate_unknown "pytest_plugin_capability_unsupported" else candidate_pass.

Definition reconcile_test_candidate (role : string) (head_selectors : list string) : CandidateReconciliation :=
  if String.eqb role "test_candidate" && bool_decide (head_selectors = [])
  then candidate_unknown "uncollected_test_candidate" else candidate_pass.
Definition validate_pytest_item_controls (namespace : list (string * json)) : CandidateReconciliation :=
  if bool_decide (dict_get "__test__" namespace = Some (JBool false))
  then candidate_unknown "pytest_item_control_unsupported" else candidate_pass.
Definition is_candidate (roles : list (string * string)) (path : string) : bool :=
  bool_decide (dict_get path roles = Some "test_candidate").
Definition reconcile_test_roles (base head rename_facts : list (string * string)) : CandidateReconciliation :=
  if existsb (λ on, is_candidate base on.1 && negb (is_candidate head on.2)) rename_facts
  then candidate_unknown "uncollected_changed_test" else candidate_pass.
Definition reconcile_pytest_inventories (base head : list string) : CandidateReconciliation :=
  if forallb (λ selector, bool_decide (selector ∈ head)) base
  then candidate_pass else candidate_unknown "removed_selector".
Definition reconcile_test_candidates (candidates collected_paths : list string) : CandidateReconciliation :=
  let missing := sorted_set (list_to_set candidates ∖ list_to_set collected_paths : gset string) in
  {| cr_status := if bool_decide (missing = []) then "PASS" else "UNKNOWN"; cr_reason := "";
     cr_missing := missing |}.
Definition reconcile_coverage_manifest (required observed : list string) : CandidateReconciliation :=
  if bool_decide (sorted required = sorted observed) then candidate_pass
  else candidate_unknown "coverage_input_manifest_mismatch".

(** [_bind_pytest_coverage_policy] *)
Definition local_origins : list string := ["worktree"; "full"; "explicit_files"; "index"; "range_preview"].
Definition snapshot_path : string := "/opt/specfact/snapshot".
Definition local_lines (value : json) : json :=
  match value with
  | JStr s => JArr (JStr <$> filter (λ line, line ≠ "") (strip <$> str_splitlines s))
  | _ => value
  end.
Definition split_local (policy : list (string * json)) : list (string * json) * list (string * json) :=
  (filter (λ kv, kv.1 ∉ unsupported) policy,
   omap (λ key, (λ value, (key, local_lines value)) <$> dict_get key policy) unsupported).
Definition _bind_pytest_coverage_policy `{TomlLoads} `{IniRead} `{ParserError} (mkdtemp : nat → string)
    (b : _PolicyBindingBuilder) (policy_bundle : option policy_root)
    (local_project_assurance : option string) : result _PolicyBindingBuilder :=
  let! _ := check (match local_project_assurance with Some origin => bool_decide (origin ∈ local_origins) | None => true end)
              (ValueError "project_origin_not_local") in
  let is_local := bool_decide (is_Some local_project_assurance) in
  let! pytest_policy := _pytest_policy_values policy_bundle in
  let! selection_policy :=
    if is_local then
      let! addopts := json_iter (jget_default "addopts" (JArr []) pytest_policy) in
      Ok (dict_set "addopts" (JArr (filter (λ v, v ≠ JStr "--doctest-modules") addopts)) pytest_policy)
    else Ok pytest_policy in
  let! selection := validate_pytest_selection_controls selection_policy in
  let! _ := check (String.eqb (cr_status selection) "PASS") (ValueError (cr_reason selection)) in
  let! pytest_projection := project_pytest_policy pytest_policy snapshot_path "/opt/specfact/tmp/pytest" in
  let! _ := check (String.eqb (pp_status pytest_projection) "PASS") (ValueError (pp_reason pytest_projection)) in
  let! coverage_policy := _coverage_policy_values policy_bundle in
  let '(coverage_policy, local_coverage) :=
    if is_local then split_local coverage_policy else (coverage_policy, []) in
  let coverage_projection := project_coverage_policy coverage_policy (Some "/opt/specfact/tmp/coverage") in
  let! _ := check (String.eqb (cp_status coverage_projection) "PASS") (ValueError (cp_reason coverage_projection)) in
  let values := if is_local then filter (λ kv, kv.1 ∉ unsupported) (cp_values coverage_projection)
                else cp_values coverage_projection in
  let values := dict_merge values local_coverage in
  let! payload := _serialize_pytest_projection (pp_values pytest_projection) in
  let '(b, pytest_config) := _write_policy_projection mkdtemp b "pytest.ini" payload in
  let! (b, coverage_config) := _write_coverage_projection mkdtemp b values in
  let b := bind_argv "targeted-pytest-coverage"
             ["-c"; pytest_config; "--rootdir"; snapshot_path; "--cov-config"; coverage_config] b in
  let! testpaths := jitem "testpaths" pytest_policy in
  let! test_roots := json_strs testpaths in
  Ok (bind_argv "contracts" ("contract-inputs-v1" :: (test_roots ≫= λ root, ["--test-root"; root])) b).

(** * Which paths are tests *)

Definition pytest_path_matches_pattern (path pattern : string) : bool :=
  if negb (py_in "/" pattern) then fnmatch (of_chars (path_name path)) pattern
  else fnmatch (as_posix path) (if startswith "/" pattern then pattern else "*/" +:+ pattern).
Definition _matches_python_file (path : string) (patterns : list string) : bool :=
  let match_path := if is_absolute path then path else path_join snapshot_path path in
  existsb (pytest_path_matches_pattern match_path) patterns.
Fixpoint rstrip_slashes (l : list ascii) : list ascii :=
  match l with
  | [] => []
  | c :: l' => match rstrip_slashes l' with
               | [] => if is_slash c then [] else [c]
               | l'' => c :: l''
               end
  end.
Definition rstrip_slash (s : string) : string := of_chars (rstrip_slashes (chars s)).
Definition _logical_test_root_contains (path root : string) : bool :=
  let normalized := rstrip_slash root in
  bool_decide (normalized ∈ [""; "."]) || String.eqb path normalized || startswith (normalized +:+ "/") path.
Record PytestInputRole := { ir_kind : string; ir_inputs : list string }.
Definition classify_pytest_input_role (path : string) (policy : list (string * json)) : result PytestInputRole :=
  let! testpaths := jitem "testpaths" policy in
  let! roots := json_strs testpaths in
  let! python_files := jitem "python_files" policy in
  let! patterns := json_strs python_files in
  let below_root := existsb (_logical_test_root_contains path) (rstrip_slash <$> roots) in
  let matches_test_pattern := _matches_python_file path patterns in
  Ok {| ir_kind := if matches_test_pattern
                   then if below_root then "test_candidate" else "test_candidate_outside_root"
                   else "test_support";
        ir_inputs := ["path"; "testpaths"; "python_files"; "pytest_version"] |}.
Definition _changed_pytest_candidates (changed_paths roots file_patterns : list string) : gset string :=
  list_to_set (filter (λ path,
    existsb (_logical_test_root_contains path) roots && _matches_python_file path file_patterns = true)
    changed_paths).
End projection.

(** * Which members apply to which inputs *)

Record SnapshotMemberState := { ms_id : string; ms_status : string; ms_required : bool }.
Definition member_state (id status : string) : SnapshotMemberState :=
  {| ms_id := id; ms_status := status; ms_required := true |}.
Definition SnapshotInputClassification_member (members : list SnapshotMemberState) (member_id : string) :
    result SnapshotMemberState :=
  match List.find (λ m, String.eqb (ms_id m) member_id) members with
  | Some m => Ok m | None => Err (KeyError member_id)
  end.
Definition classify_snapshot_input_kinds (inputs : list string) : list SnapshotMemberState :=
  let profile_ids := all_ids default_pr_range_profile ++ ["contracts.crosshair"; "contracts.icontract-static-scan"] in
  match inputs with
  | [] => (λ id, member_state id "NOT_APPLICABLE") <$> profile_ids
  | _ =>
      let stub_only := forallb (endswith ".pyi") inputs in
      (λ id, member_state id
         (if stub_only && bool_decide (id ∈ ["targeted-pytest-coverage"; "contracts.crosshair"])
          then "NOT_APPLICABLE" else "PASS")) <$> profile_ids
  end.
Record SnapshotApplicability := { sa_base : string; sa_head : string }.
Definition applicable (inputs : list string) : string :=
  match inputs with [] => "NOT_APPLICABLE" | _ => "PASS" end.
Definition classify_snapshot_applicability (base_inputs head_inputs : list string) : SnapshotApplicability :=
  {| sa_base := applicable base_inputs; sa_head := applicable head_inputs |}.
Record ContractComponents := {
  cc_static_scan : SnapshotMemberState; cc_crosshair : SnapshotMemberState; cc_parent : SnapshotMemberState
}.
Definition classify_contract_components (inputs : list string) (icontract_usage : bool) : ContractComponents :=
  let status (c : bool) := if c then "PASS" else "NOT_APPLICABLE" in
  let static_status := bool_decide (inputs ≠ []) && icontract_usage in
  let crosshair_status := existsb (endswith ".py") inputs in
  {| cc_static_scan := member_state "contracts.icontract-static-scan" (status static_status);
     cc_crosshair := member_state "contracts.crosshair" (status crosshair_status);
     cc_parent := member_state "contracts" (status (static_status || crosshair_status)) |}.
Definition classify_analyzer_input_kinds (inputs : list string) : list (string * list string) :=
  let static := sorted (filter (λ path, endswith ".py" path || endswith ".pyi" path = true) inputs) in
  let runtime := filter (λ path, endswith ".py" path = true) static in
  [("targeted-pytest-coverage", runtime); ("ruff", static); ("basedpyright", static); ("pylint", static);
   ("contracts.icontract-static-scan", static); ("contracts.crosshair", runtime)].

Record StatusResult := {
  st_status : string; st_reason : string; st_disposition : string; st_execution_state : string;
  st_policy_source : string
}.
Definition status_result (status disposition execution_state : string) : StatusResult :=
  {| st_status := status; st_reason := ""; st_disposition := disposition;
     st_execution_state := execution_state; st_policy_source := "" |}.
Definition classify_targeted_pytest (base_outcome head_outcome : string) : StatusResult :=
  if String.eqb base_outcome "fail" && String.eqb head_outcome "pass" then status_result "PASS" "fixed" ""
  else if bool_decide (head_outcome ∈ ["skip"; "xfail"; "xpass"; "assertion-fail"]) then status_result "FAIL" "" ""
  else if bool_decide (head_outcome ∈ ["deselected"; "timeout"; "collection-error"])
  then status_result "UNKNOWN" "" ""
  else status_result "PASS" "" "".
Definition classify_coverage (base head threshold : spec_float) : StatusResult :=
  if float_ltb head threshold then status_result "FAIL" "" "ran"
  else if float_ltb base threshold && float_leb threshold head then status_result "PASS" "fixed" "ran"
  else status_result "PASS" "" "ran".
