(* ===== verification/PytestPolicyProofs.v ===== *)
(** PytestPolicyProofs: which source governs a snapshot, and that its
    projection reads below the snapshot and writes below the output root. *)

From S2P Require Import Prelude Text Paths Dict PyValue Json Scope PytestPolicy.

(** * Projection *)

Section projection.
Context `{Sha256} `{PyRepr}.

(** The value of a path key: the policy's, or else the configuration's *)
Definition read_value (policy config : list (string * json)) (key : string) : json :=
  jget_default key (jget_default key (JArr []) config) policy.
Definition read_keys : list string := ["pythonpath"; "testpaths"].
Definition copied_keys : list string := ["python_files"; "python_classes"; "python_functions"].
Definition write_keys : list string := ["cache_dir"; "log_file"].

(** A text below the snapshot *)
Definition bound (snapshot_root text : string) : Prop :=
  is_relative_to (path_join snapshot_root text) snapshot_root = true ∧
  path_components (path_join snapshot_root text) = path_components snapshot_root ++ path_components text ∧
  ".." ∉ path_components text.
Definition projected_paths (snapshot_root : string) (raw : list string) : json :=
  JArr ((λ p, JStr (path_join snapshot_root p)) <$> raw).

Lemma not_escapes_bound snapshot_root text :
  snapshot_root ≠ "" → escapes text = false → bound snapshot_root text.
Proof.
  intros Hr [Ha Hd%bool_decide_eq_false]%orb_false_iff. split_and!.
  - by apply is_relative_to_join.
  - by apply path_components_join.
  - intros Hin. apply Hd. unfold path_parts. apply elem_of_app. by right.
Qed.

Lemma project_read_key_Ok policy config snapshot_root values key out :
  project_read_key policy config snapshot_root values key = Ok out →
  ∃ raw, path_texts (read_value policy config key) = Ok raw ∧
    match out with
    | None => existsb escapes raw = true
    | Some values' => Forall (λ t, escapes t = false) raw ∧
        values' = (if decide (raw = []) then values else dict_set key (projected_paths snapshot_root raw) values)
    end.
Proof.
  unfold project_read_key. fold (read_value policy config key).
  destruct (path_texts _) as [raw|]; cbn [res_bind]; [|done]. intros Hout. exists raw. split; [done|]. revert Hout.
  destruct (existsb escapes raw) eqn:E; intros [= <-]; [done|]. split.
  - apply Forall_forall. intros t Ht. destruct (escapes t) eqn:Et; [|done].
    rewrite (proj2 (existsb_exists _ _)) in E; [done|]. exists t. by rewrite <-list_elem_of_In.
  - by repeat case_decide || case_bool_decide.
Qed.
Lemma copy_keys_get policy keys : ∀ values key,
  key ∉ keys → dict_get key (foldl (copy_key policy) values keys) = dict_get key values.
Proof.
  induction keys as [|k keys IH]; intros values key Hk; [done|]. apply not_elem_of_cons in Hk as [Hne Hk].
  cbn [foldl]. rewrite IH by done. unfold copy_key. repeat case_match; rewrite ?dict_get_set_ne; done.
Qed.
Lemma write_keys_get config output_root keys : ∀ values writable key,
  key ∉ keys → dict_get key (foldl (project_write_key config output_root) (values, writable) keys).1 = dict_get key values.
Proof.
  induction keys as [|k keys IH]; intros values writable key Hk; [done|]. apply not_elem_of_cons in Hk as [Hne Hk].
  cbn [foldl]. unfold project_write_key at 2. case_match; rewrite IH by done; [done|]. cbn. by rewrite dict_get_set_ne.
Qed.

Definition addopts_step (policy values : list (string * json)) : list (string * json) :=
  match dict_get "addopts" policy with
  | Some addopts => if json_truthy addopts then dict_set "addopts" addopts values else values
  | None => values
  end.
Lemma addopts_get policy values key :
  key ≠ "addopts" → dict_get key (addopts_step policy values) = dict_get key values.
Proof. intros Hk. unfold addopts_step. repeat case_match; rewrite ?dict_get_set_ne; done. Qed.

(** The two writing keys point into the output root, and nowhere else is
    written. *)
Lemma write_keys_spec config output_root values out :
  output_root ≠ "" →
  foldl (project_write_key config output_root) (values, []) write_keys = out →
  Forall (λ w, is_relative_to w output_root = true) out.2 ∧
  (∀ key, key ∈ write_keys → is_Some (dict_get key config) ∨ key = "cache_dir" →
     ∃ w, w ∈ out.2 ∧ dict_get key out.1 = Some (JStr w)).
Proof.
  intros Hr <-. cbn [foldl write_keys]. unfold project_write_key at 2.
  change (String.eqb "cache_dir" "log_file" && _) with false. cbn iota. cbn [fst snd app].
  unfold project_write_key. change (String.eqb "log_file" "log_file") with true. rewrite andb_true_l.
  assert (∀ key, key ∈ write_keys → is_relative_to (write_destination output_root key "_" "-") output_root = true) as Hw.
  { intros key [->|[->|[]%elem_of_nil]%elem_of_cons]%elem_of_cons; by apply is_relative_to_join. }
  destruct (dict_mem "log_file" config) eqn:Em; cbn [negb fst snd app]; split.
  - repeat constructor; apply Hw; repeat constructor.
  - intros key [->|[->|[]%elem_of_nil]%elem_of_cons]%elem_of_cons _; eexists.
    + split; [left|]. rewrite dict_get_set_ne by done. apply dict_get_set_eq.
    + split; [right; left|apply dict_get_set_eq].
  - repeat constructor; apply Hw; repeat constructor.
  - intros key [->|[->|[]%elem_of_nil]%elem_of_cons]%elem_of_cons Hk; [|destruct Hk as [Hk|?]; [|done]].
    + eexists. split; [left|apply dict_get_set_eq].
    + apply elem_of_dict_keys, dict_mem_true in Hk. congruence.
Qed.

Definition touched_keys : list string := read_keys ++ copied_keys ++ "addopts" :: write_keys.

(** ** Policies as the code reads them *)

Section read_policies.
Context `{TomlLoads} `{IniRead} `{ParserError}.

Lemma take_list_field_get values policy policy' key k :
  take_list_field values policy key = Ok policy' →
  dict_get k policy' =
    if decide (k = key) then
      match dict_get key values with
      | None | Some JNull => dict_get key policy
      | Some raw => match _pytest_string_list raw with Ok items => Some (JArr (JStr <$> items)) | Err _ => None end
      end
    else dict_get k policy.
Proof.
  unfold take_list_field. intros Ht. case_decide as E; [subst k|].
  - destruct (dict_get key values) as [[]|]; try (by injection Ht as <-);
      apply res_bind_Ok in Ht as (items & Hi & [= <-]); rewrite Hi; apply dict_get_set_eq.
  - destruct (dict_get key values) as [[]|]; try (by injection Ht as <-);
      apply res_bind_Ok in Ht as (items & _ & [= <-]); by apply dict_get_set_ne.
Qed.
Lemma json_strs_texts items : json_strs (JArr (JStr <$> items)) = Ok items.
Proof. unfold json_strs. cbn. f_equal. rewrite <-list_fmap_compose. by apply list_fmap_id. Qed.
Lemma string_list_nil raw : _pytest_string_list raw = Ok [] → path_texts raw = Ok [].
Proof.
  destruct raw; try done. cbn. destruct (mapM _ _) as [items|] eqn:E; [|done]. intros [= ->].
  apply mapM_Some_1 in E. by inversion E.
Qed.

(** A field of a read policy without paths has a configuration without paths. *)
Lemma read_policy_fields bundle policy config key :
  _pytest_policy_values bundle = Ok policy → as_mapping (jget_default "config" (JObj []) policy) = Ok config →
  key ∈ read_keys → path_texts (read_value policy config key) = Ok [] →
  path_texts (jget_default key (JArr []) config) = Ok [].
Proof.
  assert (Hdefault : ∀ config, as_mapping (jget_default "config" (JObj []) pytest_defaults) = Ok config →
    path_texts (jget_default key (JArr []) config) = Ok []) by (intros ? [= <-]; done).
  unfold _pytest_policy_values. destruct bundle as [root|]; [|intros [= <-]; auto].
  intros (x & _ & Hp)%res_bind_Ok. destruct (negb _); [done|].
  destruct (String.eqb (lp_selected_path x) ""); [injection Hp as <-; auto|].
  apply res_bind_Ok in Hp as (payload & _ & Hp). apply res_bind_Ok in Hp as (values & _ & Hp).
  apply res_bind_Ok in Hp as (fields & Hfields & Hp). apply res_bind_Ok in Hp as (fields' & Haddopts & [= <-]).
  unfold jget_default at 1. rewrite dict_get_set_eq. intros [= <-] Hk. unfold read_value, jget_default.
  assert (Hne : key ≠ "config" ∧ key ≠ "addopts" ∧ (key ∉ ["python_files"; "python_classes"; "python_functions"])).
  { revert Hk. intros [->|[->|[]%elem_of_nil]%elem_of_cons]%elem_of_cons;
      (split_and!; [done|done|apply (bool_decide_unpack _); by vm_compute]). }
  destruct Hne as (Hne1 & Hne2 & Hne3). rewrite dict_get_set_ne by done.
  rewrite (take_list_field_get _ _ _ _ key Haddopts), decide_False by done.
  cbn [fold_res list_fields] in Hfields. apply res_bind_Ok in Hfields as (f1 & H1' & Hfields).
  apply res_bind_Ok in Hfields as (f2 & H2' & Hfields). apply res_bind_Ok in Hfields as (f3 & H3' & Hfields).
  apply res_bind_Ok in Hfields as (f4 & H4' & [= <-]).
  rewrite (take_list_field_get _ _ _ _ key H4'), (take_list_field_get _ _ _ _ key H3'),
    (take_list_field_get _ _ _ _ key H2'), (take_list_field_get _ _ _ _ key H1').
  rewrite !(decide_False (P := key = _)) by (intros ->; apply Hne3; repeat constructor).
  apply elem_of_cons in Hk as [->|Hk]; [by rewrite decide_False|]. apply list_elem_of_singleton in Hk as ->.
  rewrite decide_True by done. destruct (dict_get "testpaths" values) as [raw|]; [|done].
  destruct (_pytest_string_list raw) as [items|] eqn:Ei.
  - destruct raw; try discriminate Ei; intros Hr;
      change (json_strs (JArr (JStr <$> items)) = Ok []) in Hr; rewrite json_strs_texts in Hr; injection Hr as ->;
      by apply string_list_nil.
  - by destruct raw.
Qed.
End read_policies.

(** C15 A projected test policy is confined (project_pytest_policy in
    run/runner.py).  It looks at the test and import paths of the policy's own
    field or, without the field, of the configuration, and passes exactly when
    none of them is absolute or climbs with [..]; it then reads each of them
    at its place below the snapshot, writes only below the output root, where
    the cache directory and a configured log file are sent, and keeps every
    other configuration value that the policy does not replace.  A field that
    names no path leaves the configuration's own text unlooked at; in a policy
    as _pytest_policy_values reads it that text names no path either.
    Otherwise it projects nothing and is unknown. *)
Theorem pytest_projection_confined `{TomlLoads} `{IniRead} `{ParserError} (policy config : list (string * json))
    (snapshot_root output_root : string) (p : PytestProjection) :
  snapshot_root ≠ "" → output_root ≠ "" →
  as_mapping (jget_default "config" (JObj []) policy) = Ok config →
  project_pytest_policy policy snapshot_root output_root = Ok p →
  (pp_status p = "PASS" ∧
   (∀ key, key ∈ read_keys → ∃ raw, path_texts (read_value policy config key) = Ok raw ∧
      Forall (λ t, escapes t = false ∧ bound snapshot_root t) raw ∧
      (raw ≠ [] → dict_get key (pp_values p) = Some (projected_paths snapshot_root raw)) ∧
      (raw = [] → dict_get key (pp_values p) = dict_get key config ∧
         ∀ bundle, _pytest_policy_values bundle = Ok policy →
           path_texts (jget_default key (JArr []) config) = Ok [])) ∧
   Forall (λ w, is_relative_to w output_root = true) (pp_writable_paths p) ∧
   (∀ key, key ∈ write_keys → is_Some (dict_get key config) ∨ key = "cache_dir" →
      ∃ w, w ∈ pp_writable_paths p ∧ dict_get key (pp_values p) = Some (JStr w)) ∧
   (∀ key, key ∉ touched_keys → dict_get key (pp_values p) = dict_get key config)) ∨
  (pp_status p = "UNKNOWN" ∧ pp_values p = [] ∧ pp_writable_paths p = [] ∧
   ∃ key raw, key ∈ read_keys ∧ path_texts (read_value policy config key) = Ok raw ∧ existsb escapes raw = true).
Proof.
  intros Hroot Hout Hconfig. unfold project_pytest_policy. rewrite Hconfig. cbn [res_bind].
  destruct (project_read_key policy config snapshot_root config "pythonpath") as [[v1|]|] eqn:E1; cbn [res_bind];
    [|intros [= <-]; right|done]; apply project_read_key_Ok in E1 as (raw1 & Hraw1 & Hpy); cycle 1.
  { split_and!; [done..|]. exists "pythonpath", raw1. split_and!; [left|done|done]. }
  destruct (project_read_key policy config snapshot_root v1 "testpaths") as [[v2|]|] eqn:E2; cbn [res_bind];
    [|intros [= <-]; right|done]; apply project_read_key_Ok in E2 as (raw2 & Hraw2 & Htest); cycle 1.
  { split_and!; [done..|]. exists "testpaths", raw2. split_and!; [right; left|done|done]. }
  destruct Hpy as [Hb1 Hv1], Htest as [Hb2 Hv2]. cbv zeta.
  fold copied_keys write_keys. fold (addopts_step policy (foldl (copy_key policy) v2 copied_keys)).
  set (v4 := addopts_step policy (foldl (copy_key policy) v2 copied_keys)).
  destruct (foldl (project_write_key config output_root) (v4, []) write_keys) as [values writable] eqn:Ew.
  intros [= <-]. left. cbn [pp_status pp_values pp_writable_paths].
  pose proof (write_keys_spec _ _ _ _ Hout Ew) as [Hwritable Hdest].
  assert (∀ key, key ∉ copied_keys ++ "addopts" :: write_keys → dict_get key values = dict_get key v2) as Hkeep.
  { intros key Hk. pose proof (write_keys_get config output_root write_keys v4 [] key) as Hw. rewrite Ew in Hw.
    cbn [fst] in Hw. rewrite Hw by (intros Hin; apply Hk; apply elem_of_app; right; by right).
    subst v4. rewrite addopts_get by (intros ->; apply Hk; apply elem_of_app; right; left).
    apply copy_keys_get. intros Hin. apply Hk, elem_of_app. by left. }
  assert (∀ raw, Forall (λ t, escapes t = false) raw → Forall (λ t, escapes t = false ∧ bound snapshot_root t) raw) as Hbound.
  { intros raw Hraw. eapply Forall_impl; [exact Hraw|]. intros t Ht. split; [done|by apply not_escapes_bound]. }
  split_and!; [done| |done|done|].
  - assert (Hvalues : ∀ key raw, path_texts (read_value policy config key) = Ok raw → key ∈ read_keys →
      Forall (λ t, escapes t = false) raw →
      dict_get key values = (if decide (raw = []) then dict_get key config else Some (projected_paths snapshot_root raw)) →
      ∃ raw, path_texts (read_value policy config key) = Ok raw ∧
        Forall (λ t, escapes t = false ∧ bound snapshot_root t) raw ∧
        (raw ≠ [] → dict_get key values = Some (projected_paths snapshot_root raw)) ∧
        (raw = [] → dict_get key values = dict_get key config ∧
           ∀ bundle, _pytest_policy_values bundle = Ok policy →
             path_texts (jget_default key (JArr []) config) = Ok [])).
    { intros key raw Hraw Hk Hb Hv. exists raw. split_and!; [done|by apply Hbound|..]; intros Hn; rewrite Hv.
      - by rewrite decide_False.
      - subst raw. rewrite decide_True by done. split; [done|]. intros bundle Hp. by eapply read_policy_fields. }
    intros key [->|[->|[]%elem_of_nil]%elem_of_cons]%elem_of_cons;
      (eapply Hvalues; [done|apply (bool_decide_unpack _); by vm_compute|done|]);
      rewrite Hkeep by (by apply (bool_decide_unpack _); vm_compute); subst v2.
    + transitivity (dict_get "pythonpath" v1); [case_decide; [done|by rewrite dict_get_set_ne]|].
      subst v1. repeat case_decide; done || apply dict_get_set_eq.
    + subst v1. repeat case_decide; done || apply dict_get_set_eq || by rewrite dict_get_set_ne.
  - intros key Hk. unfold touched_keys in Hk. rewrite elem_of_app in Hk.
    rewrite Hkeep by tauto. subst v2 v1.
    assert (key ≠ "pythonpath" ∧ key ≠ "testpaths") as [Hk1 Hk2].
    { split; intros ->; apply Hk; left; [left|right; left]. }
    repeat case_decide; rewrite ?dict_get_set_ne; done.
Qed.
End projection.

(** * Location *)

Section location.
Context `{Sha256} `{TomlLoads} `{IniRead} `{ParserError}.

(** The section and the reason with which a source applies, if it does: a
    dedicated file by being there, the project file by its table, the shared
    ones by their section. *)
Definition ini_section (path : string) : string := if String.eqb path "tox.ini" then "pytest" else "tool:pytest".
Definition applies (payloads : list (string * string)) (path : string) : option (string * string) :=
  payload ← dict_get path payloads;
  if bool_decide (path ∈ primary_sources) then Some ("empty-or-native", "present_primary_source")
  else if String.eqb path "pyproject.toml" then
    match _pytest_pyproject_section payload with
    | Ok (section, _) => if String.eqb section "" then None else Some (section, "table_match")
    | Err _ => None
    end
  else match _parsed_ini_sections payload path with
       | Ok sections => if bool_decide (ini_section path ∈ sections)
                        then Some (ini_section path, "section_match") else None
       | Err _ => None
       end.
(** The project file is there without a pytest table. *)
Definition bare (payloads : list (string * string)) : bool :=
  match dict_get "pyproject.toml" payloads with
  | Some payload => match _pytest_pyproject_section payload with Ok (_, b) => b | Err _ => false end
  | None => false
  end.

Lemma dict_get_constant {V} (v : V) (key : string) keys :
  dict_get key ((λ k, (k, v)) <$> keys) = if decide (key ∈ keys) then Some v else None.
Proof.
  case_decide as Hk.
  - induction keys as [|k keys IH]; [by apply not_elem_of_nil in Hk|]. cbn. case_decide; [done|].
    apply IH. by apply elem_of_cons in Hk as [->|].
  - apply dict_get_None. unfold dict_keys. by rewrite <-list_fmap_compose, list_fmap_id.
Qed.

Lemma primary_matches (payloads : list (string * string)) path :
  dict_get path ((λ relative, (relative, ("empty-or-native", "present_primary_source")))
    <$> filter (λ relative, dict_mem relative payloads = true) primary_sources) =
  if decide (path ∈ primary_sources) then
    (λ _, ("empty-or-native", "present_primary_source")) <$> dict_get path payloads else None.
Proof.
  rewrite dict_get_constant. destruct (dict_get path payloads) eqn:E.
  - assert (dict_mem path payloads = true) as Hm by (apply dict_mem_true, elem_of_dict_keys; eauto).
    destruct (decide (path ∈ filter _ _)) as [Hin|Hin], (decide (path ∈ primary_sources));
      rewrite list_elem_of_filter in Hin; done || (exfalso; tauto).
  - assert (dict_mem path payloads ≠ true) as Hm.
    { rewrite dict_mem_true, elem_of_dict_keys, E. by intros [? [=]]. }
    destruct (decide (path ∈ filter _ _)) as [Hin|Hin], (decide (path ∈ primary_sources));
      rewrite list_elem_of_filter in Hin; done || (exfalso; tauto).
Qed.
Lemma pyproject_matches payloads matches matches' b path :
  _append_pytest_pyproject_match payloads matches = Ok (matches', b) →
  b = bare payloads ∧
  dict_get path matches' =
    if decide (path = "pyproject.toml") then
      match applies payloads path with Some m => Some m | None => dict_get path matches end
    else dict_get path matches.
Proof.
  unfold _append_pytest_pyproject_match, bare, applies. destruct (dict_get "pyproject.toml" payloads) as [payload|] eqn:E.
  - destruct (_pytest_pyproject_section payload) as [[section b']|] eqn:Es; cbn [res_bind]; [|done].
    intros [= <- <-]. split; [done|]. case_decide as Hp; [subst path; rewrite E|]; cbn.
    + rewrite Es. destruct (String.eqb section ""); [done|]. apply dict_get_set_eq.
    + destruct (String.eqb section ""); [done|]. by rewrite dict_get_set_ne.
  - intros [= <- <-]. split; [done|]. case_decide as Hp; [subst path; by rewrite E|done].
Qed.
Lemma ini_matches payloads matches matches' path :
  _append_pytest_ini_matches payloads matches = Ok matches' →
  dict_get path matches' =
    if decide (path ∈ ["tox.ini"; "setup.cfg"]) then
      match applies payloads path with Some m => Some m | None => dict_get path matches end
    else dict_get path matches.
Proof.
  assert (∀ source matches matches', source ∈ ["tox.ini"; "setup.cfg"] →
    (match dict_get source payloads with
     | None => Ok matches
     | Some payload =>
         let! sections := _parsed_ini_sections payload source in
         Ok (if bool_decide (ini_section source ∈ sections)
             then dict_set source (ini_section source, "section_match") matches else matches)
     end) = Ok matches' →
    dict_get path matches' =
      if decide (path = source) then
        match applies payloads path with Some m => Some m | None => dict_get path matches end
      else dict_get path matches) as Hstep.
  { intros source m m' Hsource. unfold applies. destruct (dict_get source payloads) as [payload|] eqn:E.
    - destruct (_parsed_ini_sections payload source) as [sections|] eqn:Es; cbn [res_bind]; [|done].
      intros [= <-]. case_decide as Hp; [subst path; rewrite E|]; cbn.
      + apply elem_of_cons in Hsource as [->|[->|[]%elem_of_nil]%elem_of_cons];
          cbn; change (bool_decide (_ ∈ primary_sources)) with false; cbn; rewrite Es;
          case_bool_decide; done || apply dict_get_set_eq.
      + case_bool_decide; [by rewrite dict_get_set_ne|done].
    - intros [= <-]. case_decide as Hp; [subst path; by rewrite E|done]. }
  unfold _append_pytest_ini_matches. cbn [fold_res fst snd].
  match goal with |- (let! _ := ?m in _) = _ → _ => destruct m as [m1|] eqn:E1 end; cbn [res_bind]; [|done].
  match goal with |- (let! _ := ?m in _) = _ → _ => destruct m as [m2|] eqn:E2 end; cbn [res_bind]; [|done].
  intros [= <-].
  eapply (Hstep "tox.ini") in E1; [|by repeat constructor]. eapply (Hstep "setup.cfg") in E2; [|by repeat constructor].
  rewrite E2, E1. destruct (decide (path = "setup.cfg")) as [->|Hs].
  { rewrite decide_False by done. by rewrite decide_True by (by repeat constructor). }
  destruct (decide (path = "tox.ini")) as [->|Ht]; [by rewrite decide_True by (by repeat constructor)|].
  rewrite decide_False; [done|]. by intros [->|[->|[]%elem_of_nil]%elem_of_cons]%elem_of_cons.
Qed.

Lemma matches_spec payloads matches b :
  _pytest_policy_matches payloads = Ok (matches, b) →
  b = bare payloads ∧
  ∀ path, path ∈ pytest_source_order → dict_get path matches = applies payloads path.
Proof.
  unfold _pytest_policy_matches.
  destruct (_append_pytest_pyproject_match _ _) as [[m1 b']|] eqn:E1; cbn [res_bind]; [|done].
  destruct (_append_pytest_ini_matches payloads m1) as [m2|] eqn:E2; cbn [res_bind]; [|done].
  intros [= <- <-]. split; [by apply (pyproject_matches _ _ _ _ "") in E1 as [? _]|].
  intros path Hpath. rewrite (ini_matches _ _ _ path E2).
  apply (pyproject_matches _ _ _ _ path) in E1 as [_ E1]. rewrite E1, primary_matches.
  assert (path ∈ primary_sources →
    applies payloads path = (λ _, ("empty-or-native", "present_primary_source")) <$> dict_get path payloads) as Hprim.
  { intros Hp. unfold applies. destruct (dict_get path payloads); [|done]. cbn.
    by rewrite (proj2 (bool_decide_eq_true _) Hp). }
  assert (Forall (λ p,
      (p ∈ primary_sources ∧ p ≠ "pyproject.toml" ∧ (p ∉ ["tox.ini"; "setup.cfg"])) ∨
      ((p ∉ primary_sources) ∧ p = "pyproject.toml" ∧ (p ∉ ["tox.ini"; "setup.cfg"])) ∨
      ((p ∉ primary_sources) ∧ p ≠ "pyproject.toml" ∧ p ∈ ["tox.ini"; "setup.cfg"])) pytest_source_order) as Hcases
    by (apply (bool_decide_unpack _); vm_compute; reflexivity).
  rewrite Forall_forall in Hcases.
  destruct (Hcases path Hpath) as [(H1' & H2' & H3')|[(H1' & H2' & H3')|(H1' & H2' & H3')]];
    destruct (decide (path ∈ ["tox.ini"; "setup.cfg"])), (decide (path = "pyproject.toml")),
      (decide (path ∈ primary_sources)); try done; [by rewrite Hprim|by case_match..].
Qed.

Lemma candidate_payloads_spec root : ∀ source_order payloads,
  NoDup source_order → _policy_candidate_payloads root source_order = Ok payloads →
  ∀ path, dict_get path payloads =
    if decide (path ∈ source_order) then match root path with Ok o => o | Err _ => None end else None.
Proof.
  induction source_order as [|relative source_order IH]; intros payloads Hnd; cbn [_policy_candidate_payloads].
  { intros [= <-] path. done. }
  apply NoDup_cons in Hnd as [Hni Hnd].
  destruct (root relative) as [[payload|]|e] eqn:Er; [| |by destruct e].
  - destruct (_policy_candidate_payloads root source_order) as [rest|] eqn:E; cbn [res_bind]; [|done].
    intros [= <-] path. cbn. case_decide as Hp.
    + subst. by rewrite decide_True, Er by (by constructor).
    + rewrite (IH rest Hnd eq_refl). destruct (decide (path ∈ source_order)).
      * by rewrite decide_True by (by right).
      * by rewrite decide_False by (by intros [|]%elem_of_cons).
  - intros E path. rewrite (IH payloads Hnd E).
    destruct (decide (path = relative)) as [->|Hne].
    + by rewrite decide_False, decide_True, Er by (done || by constructor).
    + destruct (decide (path ∈ source_order)).
      * by rewrite decide_True by (by right).
      * by rewrite decide_False by (by intros [|]%elem_of_cons).
Qed.

Lemma candidate_payloads_read root : ∀ source_order payloads,
  _policy_candidate_payloads root source_order = Ok payloads →
  ∀ path, path ∈ source_order → ∃ o, root path = Ok o.
Proof.
  induction source_order as [|relative source_order IH]; intros payloads; cbn [_policy_candidate_payloads].
  { intros _ path []%elem_of_nil. }
  destruct (root relative) as [[payload|]|e] eqn:Er; [| |by destruct e].
  - destruct (_policy_candidate_payloads root source_order) as [rest|] eqn:E; cbn [res_bind]; [|done].
    intros _ path [->|Hp]%elem_of_cons; [eauto|by eapply IH].
  - intros E path [->|Hp]%elem_of_cons; [eauto|by eapply IH].
Qed.

(** The source that governs: the first of the source order that applies *)
Definition governs (payloads : list (string * string)) (selected section reason : string) : Prop :=
  (∃ before after, pytest_source_order = before ++ selected :: after ∧
     Forall (λ path, applies payloads path = None) before ∧ applies payloads selected = Some (section, reason)) ∨
  (Forall (λ path, applies payloads path = None) pytest_source_order ∧ section = "" ∧
   if bare payloads then selected = "pyproject.toml" ∧ reason = "bare_pyproject_fallback"
   else selected = "" ∧ reason = "pytest-default-v1").

Lemma selected_governs payloads matches b selected section reason :
  _pytest_policy_matches payloads = Ok (matches, b) →
  _selected_pytest_policy pytest_source_order matches b = (selected, section, reason) →
  governs payloads selected section reason.
Proof.
  intros [-> Hget]%matches_spec. unfold _selected_pytest_policy, governs.
  assert (∀ path, path ∈ pytest_source_order →
    dict_mem path matches = true ↔ is_Some (applies payloads path)) as Hmem.
  { intros path Hp. by rewrite dict_mem_true, elem_of_dict_keys, Hget. }
  destruct (list_find _ _) as [[i path]|] eqn:E.
  - apply list_find_Some in E as (Hi & Hm & Hfirst). pose proof (list_elem_of_lookup_2 _ _ _ Hi) as Hin.
    apply Hmem in Hm as [[s r] Ha]; [|done]. rewrite Hget, Ha by done. cbn. intros [= <- <- <-]. left.
    exists (take i pytest_source_order), (drop (S i) pytest_source_order).
    split_and!; [by rewrite take_drop_middle| |done].
    apply Forall_forall. intros q (j & Hj)%list_elem_of_lookup. apply lookup_take_Some in Hj as [Hj Hlt].
    destruct (applies payloads q) eqn:Eq; [|done]. destruct (Hfirst j q Hj Hlt).
    apply Hmem; [by eapply list_elem_of_lookup_2|by rewrite Eq].
  - apply list_find_None in E. intros Hsel. right. split_and!.
    + apply Forall_forall. intros q Hq. rewrite Forall_forall in E. specialize (E q Hq).
      rewrite Hmem in E by done. by destruct (applies payloads q); [destruct E; eauto|].
    + by case_match; injection Hsel as <- <- <-.
    + destruct (bare payloads); by injection Hsel as <- <- <-.
Qed.

(** The pytest policy of a snapshot is located as pytest does
    (resolve_pytest_policy in run/scope.py).  A located policy names the first
    source in pytest's order that applies: a dedicated file by being present,
    the project file by a pytest table, [tox.ini] and [setup.cfg] by their
    section; if none does, a project file without a table is the fallback, and
    otherwise the defaults hold.  Every other file that is present is recorded
    as ignored, and an unreadable, unparsable or contradictory source leaves
    the policy unknown with nothing selected. *)
Theorem located_pytest_policy (root : policy_root) (policy : LocatedPolicy) :
  resolve_pytest_policy root "9.0.3" = Ok policy →
  (lp_status policy = "PASS" ∧ lp_reason policy = "" ∧
   ∃ payloads,
     (∀ path, path ∈ pytest_source_order → root path = Ok (dict_get path payloads)) ∧
     governs payloads (lp_selected_path policy) (lp_selected_section policy) (lp_selection_reason policy) ∧
     ∀ path, path ∈ lp_ignored_paths policy ↔
       path ∈ pytest_source_order ∧ is_Some (dict_get path payloads) ∧ path ≠ lp_selected_path policy) ∨
  (lp_status policy = "UNKNOWN" ∧ lp_selected_path policy = "" ∧ lp_selected_section policy = "" ∧
   (_policy_candidate_payloads root pytest_source_order = Err (PolicyResolutionError (lp_reason policy)) ∨
    ∃ payloads, _policy_candidate_payloads root pytest_source_order = Ok payloads ∧
      _pytest_policy_matches payloads = Err (PolicyResolutionError (lp_reason policy)))).
Proof.
  unfold resolve_pytest_policy. cbn [negb String.eqb]. change (negb (String.eqb "9.0.3" "9.0.3")) with false. cbn iota.
  destruct (_policy_candidate_payloads root pytest_source_order) as [payloads|e] eqn:Ep; cycle 1.
  { destruct e; try done. intros [= <-]. right. split_and!; [done..|by left]. }
  destruct (_pytest_policy_matches payloads) as [[matches b]|e] eqn:Em; cycle 1.
  { destruct e; try done. intros [= <-]. right. split_and!; [done..|]. right. eauto. }
  destruct (_selected_pytest_policy _ _ _) as [[selected section] reason] eqn:Es. intros [= <-]. left.
  split_and!; [done|done|]. exists payloads. split_and!.
  - intros path Hp. assert (NoDup pytest_source_order) as Hnd by (apply (bool_decide_unpack _); by vm_compute).
    pose proof (candidate_payloads_spec root _ _ Hnd Ep path) as Hg. rewrite decide_True in Hg by done.
    pose proof (candidate_payloads_read root _ _ Ep path Hp) as [o Ho]. by rewrite Hg, Ho.
  - by eapply selected_governs.
  - intros path. unfold located. cbn [lp_ignored_paths lp_selected_path].
    rewrite list_elem_of_filter, dict_mem_true, elem_of_dict_keys. tauto.
Qed.
End location.

(** * Samples *)

#[local] Instance policy_sha : Sha256 := λ l, of_chars l.
#[local] Instance policy_repr : PyRepr := λ _, "".
#[local] Instance policy_toml : TomlLoads := λ text,
  if String.eqb text "table"
  then Some (JObj [("tool", JObj [("pytest", JObj [("ini_options",
         JObj [("testpaths", JStr "tests unit"); ("log_file", JStr "run.log"); ("strict", JBool true)])])])])
  else Some (JObj []).
#[local] Instance policy_ini : IniRead := λ text,
  if String.eqb text "tox" then Some [("PyTest", [("testpaths", "checks")])]
  else Some [("tool:pytest", [("testpaths", "tests")]); ("coverage:report", [("fail_under", "90")]);
             ("report", [("fail_under", "10")])].
#[local] Instance policy_error : ParserError := λ _, "error".

Definition project_root : policy_root := λ path,
  Ok (if String.eqb path "pyproject.toml" then Some "table"
      else if String.eqb path "setup.cfg" then Some "cfg" else None).
Definition project_policy : list (string * json) :=
  match _pytest_policy_values (Some project_root) with Ok policy => policy | Err _ => [] end.
Definition project_config : list (string * json) :=
  [("testpaths", JStr "tests unit"); ("log_file", JStr "run.log"); ("strict", JBool true)].

Lemma located_pytest_policy_witness : ∃ policy,
  resolve_pytest_policy project_root "9.0.3" = Ok policy ∧
  ((lp_status policy = "PASS" ∧ lp_reason policy = "" ∧
    ∃ payloads,
      (∀ path, path ∈ pytest_source_order → project_root path = Ok (dict_get path payloads)) ∧
      governs payloads (lp_selected_path policy) (lp_selected_section policy) (lp_selection_reason policy) ∧
      ∀ path, path ∈ lp_ignored_paths policy ↔
        path ∈ pytest_source_order ∧ is_Some (dict_get path payloads) ∧ path ≠ lp_selected_path policy) ∨
   (lp_status policy = "UNKNOWN" ∧ lp_selected_path policy = "" ∧ lp_selected_section policy = "" ∧
    (_policy_candidate_payloads project_root pytest_source_order = Err (PolicyResolutionError (lp_reason policy)) ∨
     ∃ payloads, _policy_candidate_payloads project_root pytest_source_order = Ok payloads ∧
       _pytest_policy_matches payloads = Err (PolicyResolutionError (lp_reason policy))))).
Proof.
  destruct (resolve_pytest_policy project_root "9.0.3") as [policy|e] eqn:E; [|vm_compute in E; discriminate E].
  exists policy. split; [reflexivity|]. exact (located_pytest_policy project_root policy E).
Defined.

Lemma pytest_projection_confined_witness : ∃ p,
  project_pytest_policy project_policy "/snapshot" "/out" = Ok p ∧ pp_status p = "PASS" ∧
  dict_get "testpaths" (pp_values p) = Some (JArr [JStr "/snapshot/tests"; JStr "/snapshot/unit"]) ∧
  Forall (λ w, is_relative_to w "/out" = true) (pp_writable_paths p).
Proof.
  destruct (project_pytest_policy project_policy "/snapshot" "/out") as [p|e] eqn:E;
    [|vm_compute in E; discriminate E].
  exists p. split; [reflexivity|].
  destruct (pytest_projection_confined project_policy project_config "/snapshot" "/out" p)
    as [(Hs & Hr & Hw & _)|(Hs & _)]; [discriminate|discriminate|vm_compute; reflexivity|exact E| |].
  - split; [exact Hs|]. split; [vm_compute in E; injection E as <-; reflexivity|exact Hw].
  - exfalso. vm_compute in E. injection E as <-. discriminate Hs.
Defined.

(** ** Behaviours worth knowing *)

(** A section is located whatever its case and then read by its exact name:
    [PyTest] in [tox.ini] hides the policy of [setup.cfg] and gives none. *)
Lemma section_case_hides_policy :
  let root path := Ok (if String.eqb path "tox.ini" then Some "tox"
                       else if String.eqb path "setup.cfg" then Some "cfg" else None) in
  _pytest_policy_values (Some root) = Ok pytest_defaults.
Proof. vm_compute. reflexivity. Qed.
(** Every section of [setup.cfg] is taken for a coverage section. *)
Lemma foreign_section_overrides_coverage :
  let root path := Ok (if String.eqb path "setup.cfg" then Some "cfg" else None) in
  dict_get "report:fail_under" <$> (match _coverage_policy_values (Some root) with Ok v => Some v | _ => None end)
  = Some (Some (JStr "10")).
Proof. vm_compute. reflexivity. Qed.
(** A policy put together by hand, with an empty field and a path in its
    configuration, passes and keeps the text. *)
Lemma empty_field_keeps_text :
  (λ p, (pp_status p, dict_get "testpaths" (pp_values p))) <$>
    match project_pytest_policy [("testpaths", JArr []); ("config", JObj [("testpaths", JStr "/etc ../x")])]
            "/snapshot" "/out" with Ok p => Some p | Err _ => None end
  = Some ("PASS", Some (JStr "/etc ../x")).
Proof. vm_compute. reflexivity. Qed.
