(* ===== verification/TestGate.v ===== *)
(** TestGate: the test and coverage gate of
    [specfact_code_review/run/runner.py].  The records of the pytest observer,
    the JUnit file and the exit status are reconciled, the coverage of every
    source is compared with the threshold, and findings say what is wrong.
    What the file system and one pytest run answer are the records
    [HostFiles] and [PytestRun]. *)

From S2P Require Import Prelude Text Paths Dict PyValue Findings Scope Lifecycle Diff Assembly Floats.
From S2P Require Import PytestPolicy.

(** * Observed outcomes *)

(** A record of the observer: one phase of one node *)
Definition record : Type := list (pyval * pyval).
Inductive outcome_kind := Passed | XPassed | Failed | XFailed | Skipped | UnknownOutcome.
#[export] Instance outcome_kind_eq_dec : EqDecision outcome_kind. Proof. solve_decision. Defined.

Definition record_passed (r : record) : bool := truthy (vget "passed" r).
Definition record_skipped (r : record) : bool := truthy (vget "skipped" r).
Definition record_wasxfail (r : record) : bool := truthy (vget "wasxfail" r).
Definition record_failed (r : record) : bool := negb (record_passed r) && negb (record_skipped r).
Definition is_call (r : record) : bool := is_str "call" (vget "phase" r).

Definition _pytest_call_outcome (call_record : record) (records : list record) : outcome_kind :=
  if record_wasxfail call_record then if record_passed call_record then XPassed else XFailed
  else if record_skipped call_record then Skipped
  else if negb (record_passed call_record) then Failed
  else if existsb record_failed records then Failed else Passed.
Definition _pytest_no_call_outcome (records : list record) : outcome_kind :=
  match List.find record_skipped records with
  | Some skipped_record => if record_wasxfail skipped_record then XFailed else Skipped
  | None => if existsb (λ r, negb (record_passed r)) records then Failed else UnknownOutcome
  end.
Definition _pytest_observed_outcome (records : list record) : outcome_kind :=
  match List.find is_call records with
  | Some call_record => _pytest_call_outcome call_record records
  | None => _pytest_no_call_outcome records
  end.

(** The selectors of the plan that a node comes from *)
Definition node_of (nodeid selector : string) : bool :=
  String.eqb nodeid selector || startswith (selector +:+ "[") nodeid || startswith (selector +:+ "::") nodeid.
Definition selectors_of (planned : list string) (nodeid : string) : list string :=
  List.filter (node_of nodeid) planned.
Fixpoint matched_selectors (planned observed : list string) : option (list string) :=
  match observed with
  | [] => Some []
  | nodeid :: observed =>
      match selectors_of planned nodeid with
      | [selector] => (cons selector) <$> matched_selectors planned observed
      | _ => None
      end
  end.
Definition _pytest_planned_nodes_match (planned observed : list string) : bool :=
  match planned with
  | [] => true
  | _ => bool_decide (NoDup planned) &&
         match matched_selectors planned observed with
         | Some matched => bool_decide ((list_to_set matched : gset string) = list_to_set planned)
         | None => false
         end
  end.

Definition expected_junit (kind : outcome_kind) : option string :=
  match kind with
  | Passed | XPassed => Some "passed" | Failed => Some "failed" | XFailed | Skipped => Some "skipped"
  | UnknownOutcome => None
  end.

Section outcomes.
Context `{PyRepr}.

(** [str(record.get(key, ""))] *)
Definition record_text (key : string) (r : record) : string :=
  py_str (default (VStr "") (dict_get (VStr key) r)).
Definition nodeid_of (r : record) : string := record_text "nodeid" r.

Record PytestOutcomeResult := { or_status : string; or_outcomes : list outcome_kind }.

Definition outcomes_by_node (observer : list record) : list (string * outcome_kind) :=
  (λ nr, (nr.1, _pytest_observed_outcome nr.2)) <$> group_by nodeid_of observer.
Definition junit_by_node (junit : list record) : list (string * string) :=
  dict_of ((λ r, (nodeid_of r, record_text "outcome" r)) <$> junit).
Definition signals_match (observed : list (string * outcome_kind)) (junit : list (string * string)) : bool :=
  (length junit =? length observed)%nat &&
  forallb (λ no, match expected_junit no.2 with
                 | Some outcome => bool_decide (dict_get no.1 junit = Some outcome)
                 | None => false
                 end) observed.
Definition reconcile_pytest_outcomes (observer junit : list record) (process_exit : Z)
    (planned : list string) : PytestOutcomeResult :=
  let observed := outcomes_by_node observer in
  let outcomes := observed.*2 in
  let process_matches :=
    Bool.eqb (negb (process_exit =? 0)%Z) (existsb (λ kind, bool_decide (kind = Failed)) outcomes) in
  {| or_status :=
       if negb (signals_match observed (junit_by_node junit)) || negb process_matches
          || negb (_pytest_planned_nodes_match planned observed.*1)
       then "UNKNOWN"
       else if existsb (λ kind, bool_decide (kind ≠ Passed)) outcomes then "FAIL" else "PASS";
     or_outcomes := outcomes |}.

(** * The JUnit file *)

(** [tag.rsplit("}", maxsplit=1)[-1]] *)
Definition local_name (tag : string) : string :=
  of_chars (default [] (last (split_chars (λ c, bool_decide (c = "}"%char)) (chars tag)))).
(** The class name and the name under which pytest reports a node *)
Definition _pytest_junit_identity (nodeid : string) : option (string * string) :=
  let '(address, parameters) := match partition "["%char nodeid with
                                | Some (address, parameters) => (address, "[" +:+ parameters)
                                | None => (nodeid, "")
                                end in
  match split_pair ":"%char address with
  | path :: qualifiers =>
      match last qualifiers with
      | Some name =>
          if endswith ".py" path
          then Some (join "." (replace "/" "." (removesuffix ".py" path) :: removelast qualifiers),
                     name +:+ parameters)
          else None
      | None => None
      end
  | [] => None
  end.
Definition _pytest_junit_identities (observer : list record) : list ((string * string) * list string) :=
  foldl (λ identities nodeid,
    match _pytest_junit_identity nodeid with
    | Some identity => dict_append identity nodeid identities
    | None => identities
    end) [] (dict_keys (group_by nodeid_of observer)).

Definition _pytest_junit_outcome (test_case : element) : string :=
  let child_tags := (λ child, local_name (el_tag child)) <$> el_children test_case in
  if bool_decide ("error" ∈ child_tags) || bool_decide ("failure" ∈ child_tags) then "failed"
  else if bool_decide ("skipped" ∈ child_tags) then "skipped" else "passed".
(** [root.iter()] *)
Fixpoint iter_all (e : element) : list element :=
  match e with
  | Elem _ _ cs =>
      e :: (fix go (l : list element) : list element :=
              match l with [] => [] | c :: l => iter_all c ++ go l end) cs
  end.
Definition test_cases (root : element) : list element :=
  List.filter (λ e, String.eqb (local_name (el_tag e)) "testcase") (iter_all root).
Definition case_identity (test_case : element) : string * string :=
  (default "" (dict_get "classname" (el_attrib test_case)), default "" (dict_get "name" (el_attrib test_case))).
Definition junit_nodeid (identities : list ((string * string) * list string)) (index : nat)
    (test_case : element) : string :=
  match bucket (case_identity test_case) identities with
  | [nodeid] => nodeid
  | _ => "__unmatched_junit_" +:+ pretty (Z.of_nat index)
  end.
Definition junit_record (nodeid outcome : string) : record :=
  obj [("nodeid", VStr nodeid); ("outcome", VStr outcome)].
Definition _pytest_junit_records (root : element) (identities : list ((string * string) * list string)) :
    list record :=
  imap (λ index test_case,
    junit_record (junit_nodeid identities index test_case) (_pytest_junit_outcome test_case)) (test_cases root).

(** The files of the evidence as the readers answer: the JSON values, the XML
    root, or the error; a parse error of the XML is carried as a [ValueError],
    which is handled alike. *)
Definition observer_records (payload : pyval) : result (list record) :=
  match payload with
  | VList l =>
      match mapM (λ v, match v with VDict r => Some r | _ => None end) l with
      | Some records => Ok records
      | None => Err (ValueError "pytest observer artifact must be a list of objects")
      end
  | _ => Err (ValueError "pytest observer artifact must be a list of objects")
  end.
Definition _load_pytest_outcome_evidence (observer : result pyval) (junit : result element) :
    result (list record * list record) :=
  let! payload := observer in
  let! records := observer_records payload in
  let! junit_root := junit in
  Ok (records, _pytest_junit_records junit_root (_pytest_junit_identities records)).
End outcomes.

(** * Findings *)

Definition gate_finding (category : category) (severity : severity) (rule file message : string) :
    result ReviewFinding :=
  validate_ReviewFinding
    {| rf_category := category; rf_severity := severity; rf_tool := "pytest"; rf_rule := rule;
       rf_file := file; rf_line := 1; rf_message := message;
       rf_fixable := false; rf_status := StOpen; rf_differential_state := None;
       rf_autofix_available := None; rf_blocking := None;
       rf_execution_state := None; rf_evidence_outcome := None; rf_evidence_refs := None;
       rf_confidence := None; rf_rewrite_hint := None; rf_canonical_pattern := None;
       rf_intent_key := None; rf_estimated_deletion_lines := None; rf_related_locations := None;
       rf_guidance_kind := None; rf_recommended_action := None; rf_clean_code_principle := None;
       rf_rationale := None; rf_safety_checks := None; rf_preserve_reason := None;
       rf_action_status := None; rf_before_ref := None; rf_after_ref := None; rf_improvement := None;
       rf_signal_trace := None; rf_preserve_reasons := None; rf_remediation_packet := None |}.
(** [tool_error(tool="pytest", ...)] *)
Definition tool_error (file_path message : string) (severity : severity) : result ReviewFinding :=
  let! _ := check (nonblank message) (ContractViolation "tool_error") in
  gate_finding ToolErrorCat severity "tool_error" (as_posix file_path) message.
Definition _pytest_outcome_finding (anchor status : string) : result ReviewFinding :=
  if String.eqb status "FAIL"
  then gate_finding Testing SevError "TEST_OUTCOME_NOT_PASS" (as_posix anchor)
         "At least one targeted pytest selector skipped, xfailed, xpassed, or failed."
  else tool_error anchor
         "Targeted pytest observer, JUnit, and process outcomes could not be reconciled." SevError.

(** What the file system answers: [path.resolve()] ([None] is an [OSError]),
    the text of a file, whether a path exists, and the working directory. *)
Record HostFiles := {
  hf_resolve : string → option string;
  hf_read_text : string → result string;
  hf_exists : string → bool;
  hf_cwd : string
}.

(** * Coverage of one source *)

Definition normalize_path_variants (h : HostFiles) (path_value : string) : list string :=
  normpath (as_posix path_value) ::
  match hf_resolve h path_value with Some resolved => [normpath (as_posix resolved)] | None => [] end.
(** [isinstance(v, int | float)] and [float(v)] *)
Definition as_number (v : pyval) : option (result spec_float) :=
  match v with VInt _ | VBool _ | VFloat _ => Some (py_float v) | _ => None end.
Definition file_percent (file_payload : pyval) : option (option (result spec_float)) :=
  (* [None]: the search ends without a value; [Some None]: it goes on *)
  match file_payload with
  | VDict file_payload =>
      match vget "summary" file_payload with
      | VDict summary => Some (as_number (vget "percent_covered" summary))
      | _ => None
      end
  | _ => None
  end.
Fixpoint covered_percent (h : HostFiles) (allowed_paths : list string) (files : list (pyval * pyval)) :
    result (option spec_float) :=
  match files with
  | [] => Ok None
  | (VStr filename, file_payload) :: files =>
      if existsb (λ variant, bool_decide (variant ∈ allowed_paths)) (normalize_path_variants h filename) then
        match file_percent file_payload with
        | None => Ok None
        | Some None => covered_percent h allowed_paths files
        | Some (Some percent) => let! f := percent in Ok (Some f)
        end
      else covered_percent h allowed_paths files
  | _ :: files => covered_percent h allowed_paths files
  end.
Definition payload_dict (payload : pyval) : result (list (pyval * pyval)) :=
  match payload with VDict d => Ok d | _ => Err (AttributeError "object has no attribute 'get'") end.
Definition _coverage_for_source (h : HostFiles) (source_file : string) (payload : pyval) :
    result (option spec_float) :=
  let! payload := payload_dict payload in
  match vget "files" payload with
  | VDict files_payload => covered_percent h (normalize_path_variants h source_file) files_payload
  | _ => Ok None
  end.

(** * Initializers without statements

    The three substitutions of [_is_empty_init_file]: texts in three quotes
    [q] that hold no [q] are removed from left to right, then comments up to
    the end of their line. *)
Fixpoint span_not (q : ascii) (l : list ascii) : list ascii * list ascii :=
  match l with
  | [] => ([], [])
  | c :: l' => if bool_decide (c = q) then ([], l) else let '(a, b) := span_not q l' in (c :: a, b)
  end.
Definition after_quotes (q : ascii) (l : list ascii) : option (list ascii) :=
  match l with
  | a :: b :: c :: l' => if bool_decide (a = q ∧ b = q ∧ c = q) then Some l' else None
  | _ => None
  end.
Fixpoint drop_quoted (fuel : nat) (q : ascii) (l : list ascii) : list ascii :=
  match fuel with
  | O => l
  | S fuel =>
      match l with
      | [] => []
      | c :: l' =>
          match after_quotes q l ≫= λ body, after_quotes q (span_not q body).2 with
          | Some rest => drop_quoted fuel q rest
          | None => c :: drop_quoted fuel q l'
          end
      end
  end.
Fixpoint drop_comments (inside : bool) (l : list ascii) : list ascii :=
  match l with
  | [] => []
  | c :: l' =>
      if bool_decide (c = ascii_of_nat 10) then c :: drop_comments false l'
      else if inside || bool_decide (c = "#"%char) then drop_comments true l'
      else c :: drop_comments false l'
  end.
Definition dquote_char : ascii := ascii_of_nat 34.
Definition squote_char : ascii := ascii_of_nat 39.
Definition stripped_content (content : string) : string :=
  let l := chars content in
  let l := drop_quoted (length l) dquote_char l in
  let l := drop_quoted (length l) squote_char l in
  strip (of_chars (drop_comments false l)).
Definition _is_empty_init_file (h : HostFiles) (source_file : string) : result bool :=
  if negb (String.eqb (of_chars (path_name source_file)) "__init__.py") then Ok false
  else match hf_read_text h source_file with
       | Err (OSError _) => Ok false
       | Err e => Err e
       | Ok content => Ok (bool_decide (stripped_content content ∈ [""; "pass"]))
       end.
Definition _is_coverage_omitted_init_by_project_policy (h : HostFiles) (source_file : string) : bool :=
  let rel := default source_file (
    path ← (if is_absolute source_file then Some source_file else hf_resolve h (path_join (hf_cwd h) source_file));
    root ← hf_resolve h (hf_cwd h);
    components ← relative_to root path;
    Some (join "/" components)) in
  String.eqb (of_chars (path_name rel)) "__init__.py" && (2 <=? length (path_parts rel))%nat
  && match path_parts rel with top :: _ => bool_decide (top ∈ ["src"; "packages"]) | [] => false end.

(** * Coverage findings *)

Record coverage_options := {
  co_allow_project_omitted_initializers : bool; co_threshold : spec_float; co_blocking_low_coverage : bool
}.
Definition _COVERAGE_THRESHOLD : spec_float := float_of_Z 80.
Definition default_coverage_options : coverage_options :=
  {| co_allow_project_omitted_initializers := true; co_threshold := _COVERAGE_THRESHOLD;
     co_blocking_low_coverage := false |}.
Definition coverage_by_source : Type := list (string * spec_float).
Definition gate_result : Type := list ReviewFinding * option coverage_by_source.

Definition low_coverage (o : coverage_options) (source_file : string) (percent_covered : spec_float) :
    result ReviewFinding :=
  gate_finding Testing (if co_blocking_low_coverage o then SevError else SevWarning) "TEST_COVERAGE_LOW"
    (as_posix source_file)
    ("Coverage for " +:+ as_posix source_file +:+ " is " +:+ format_tenths percent_covered
     +:+ "%, below required " +:+ format_tenths (co_threshold o) +:+ "%.").
Definition exempt (h : HostFiles) (o : coverage_options) (source_file : string) : result bool :=
  let! empty := _is_empty_init_file h source_file in
  Ok (empty || (co_allow_project_omitted_initializers o
                && _is_coverage_omitted_init_by_project_policy h source_file)).
Fixpoint coverage_loop (h : HostFiles) (o : coverage_options) (payload : pyval) (findings : list ReviewFinding)
    (by_source : coverage_by_source) (source_files : list string) : result gate_result :=
  match source_files with
  | [] => Ok (findings, Some by_source)
  | source_file :: source_files =>
      let! percent := _coverage_for_source h source_file payload in
      match percent with
      | None =>
          let! skip := exempt h o source_file in
          if skip then coverage_loop h o payload findings by_source source_files
          else let! f := tool_error source_file ("Coverage data missing for " +:+ as_posix source_file) SevError in
               Ok ([f], None)
      | Some percent_covered =>
          let by_source := dict_set (as_posix source_file) percent_covered by_source in
          if float_leb (co_threshold o) percent_covered
          then coverage_loop h o payload findings by_source source_files
          else let! f := low_coverage o source_file percent_covered in
               coverage_loop h o payload (findings ++ [f]) by_source source_files
      end
  end.
Definition _coverage_findings (h : HostFiles) (source_files : list string) (coverage_payload : pyval)
    (o : coverage_options) : result gate_result :=
  coverage_loop h o coverage_payload [] [] source_files.

(** * One execution *)

(** What one run of pytest answers: whether its modules can be imported,
    whether the process ran (or the text of the [OSError] or timeout), and the
    evidence files. *)
Inductive execution := ExecutionFailed (text : string) | Executed (returncode : Z).
Record PytestRun := {
  pr_pytest_found : bool; pr_pytest_cov_found : bool; pr_execution : execution;
  pr_observer : result pyval; pr_junit : result element; pr_coverage : result pyval
}.
Definition skip_if_pytest_unavailable (r : PytestRun) (file_path : string) : result (list ReviewFinding) :=
  if negb (pr_pytest_found r) then
    let! f := tool_error file_path
      ("Review checks for pytest were skipped: pytest is not importable in this environment. "
       +:+ "Install `pytest` and `pytest-cov` (declared on the code-review module).") SevWarning in Ok [f]
  else if negb (pr_pytest_cov_found r) then
    let! f := tool_error file_path
      ("Review checks for pytest coverage were skipped: pytest-cov is not importable. "
       +:+ "Install `pytest-cov` (declared on the code-review module).") SevWarning in Ok [f]
  else Ok [].

(** The project discovery of a run without selectors *)
Record discovery := { di_snapshot : string; di_patterns : list string }.
Section execution.
Context `{PyRepr}.
Definition discovered_test (d : discovery) (r : record) : result (option string) :=
  let relative := hd "" (split_pair ":"%char (nodeid_of r)) in
  if is_absolute relative || bool_decide (".." ∈ path_parts relative) || negb (String.eqb (path_suffix relative) ".py")
  then Err (ValueError "project_full_pytest_test_path_invalid")
  else Ok (if existsb (fnmatch (of_chars (path_name relative))) (di_patterns d)
           then Some (path_join (di_snapshot d) relative) else None).
Definition production_sources (d : option discovery) (observer : list record) (source_files : list string) :
    result (list string) :=
  match d with
  | None => Ok source_files
  | Some d =>
      let! _ := check (negb (bool_decide (observer = []))) (ValueError "project_full_pytest_collected_no_tests") in
      let! tests := map_res (discovered_test d) observer in
      let test_files := omap id tests in
      Ok (List.filter (λ path, negb (existsb (path_eqb path) test_files)) source_files)
  end.

(** The evidence read under the handler: a finding that ends the gate, or the
    sources to compare with the coverage payload *)
Definition read_evidence (r : PytestRun) (returncode : Z) (planned source_files : list string)
    (d : option discovery) : result (string + list string * pyval) :=
  let! (observer, junit) := _load_pytest_outcome_evidence (pr_observer r) (pr_junit r) in
  let outcome := reconcile_pytest_outcomes observer junit returncode planned in
  if negb (String.eqb (or_status outcome) "PASS") then Ok (inl (or_status outcome))
  else
    let! source_files := production_sources d observer source_files in
    let! coverage_payload := pr_coverage r in
    Ok (inr (source_files, coverage_payload)).
(** The exceptions the handler catches, with their text *)
Definition caught (e : exn) : option string :=
  match e with OSError msg | ValueError msg => Some msg | _ => None end.

Definition _evaluate_pytest_execution (h : HostFiles) (r : PytestRun) (source_files planned : list string)
    (o : coverage_options) (d : option discovery) (fallback_anchor : string) : result gate_result :=
  let anchor := hd fallback_anchor source_files in
  let! pytest_skip := skip_if_pytest_unavailable r anchor in
  match pytest_skip with
  | _ :: _ => Ok (pytest_skip, None)
  | [] =>
      match pr_execution r with
      | ExecutionFailed text =>
          let! f := tool_error anchor ("Unable to execute targeted tests: " +:+ text) SevError in Ok ([f], None)
      | Executed returncode =>
          match read_evidence r returncode planned source_files d with
          | Err e =>
              match caught e with
              | Some text =>
                  let! f := tool_error anchor ("Unable to read targeted pytest evidence: " +:+ text) SevError in
                  Ok ([f], None)
              | None => Err e
              end
          | Ok (inl status) => let! f := _pytest_outcome_finding anchor status in Ok ([f], None)
          | Ok (inr (source_files, coverage_payload)) => _coverage_findings h source_files coverage_payload o
          end
      end
  end.
End execution.

(** * The gate over the complete inventory *)

Definition _split_pytest_adapter_argv (adapter_argv : list string) : result (list string * list string) :=
  match list_find (λ arg, arg = "--") adapter_argv with
  | Some (separator, _) => Ok (take separator adapter_argv, drop (S separator) adapter_argv)
  | None => Err (ValueError "complete pytest inventory separator is missing")
  end.
(** [argv[argv.index(flag) + 1]] *)
Definition after_flag (flag : string) (argv : list string) : option string :=
  match list_find (λ arg, arg = flag) argv with Some (i, _) => argv !! S i | None => None end.
Definition _is_below_any_root (path : string) (roots : list string) : bool :=
  existsb (λ root, path_eqb path root || is_relative_to path root) roots.

(** [tomllib.load] with its floats and dates *)
Class TomlValues := toml_values : string → option pyval.

Fixpoint compare_list {A} `{PyOrd A} (l1 l2 : list A) : comparison :=
  match l1, l2 with
  | [], [] => Eq
  | [], _ => Lt
  | _, [] => Gt
  | x :: l1, y :: l2 => match py_cmp x y with Eq => compare_list l1 l2 | c => c end
  end.
#[local] Instance py_ord_list {A} `{PyOrd A} : PyOrd (list A) := compare_list.
(** [sorted] of a set of paths, which are compared by their parts *)
Definition sorted_paths (paths : list string) : list string :=
  sort_by (split_on "/"%char) (remove_dups (as_posix <$> paths)).

Section gate.
Context `{PyRepr} `{IniRead} `{TomlValues} (h : HostFiles).

Definition ini_get (section option_name : string) (sections : list (string * list (string * string))) :
    option string := dict_get section sections ≫= dict_get option_name.
Definition invalid_roots {A} : result A := Err (ValueError "sealed pytest test roots are invalid").
Definition _projected_pytest_test_roots (policy_argv : list string) : result (list string) :=
  match after_flag "-c" policy_argv with
  | None => Err (ValueError "sealed pytest configuration is missing")
  | Some config_path =>
      match hf_read_text h config_path with
      | Err (OSError _) => invalid_roots
      | Err e => Err e
      | Ok text =>
          match ini_sections text ≫= ini_get "pytest" "testpaths" with
          | None => invalid_roots
          | Some testpaths =>
              let roots := split_ws testpaths in
              if bool_decide (roots = []) ||
                 existsb (λ root, negb (is_absolute root) || negb (is_relative_to root snapshot_path)) roots
              then Err (ValueError "sealed pytest test root escapes snapshot")
              else Ok roots
          end
      end
  end.

Definition invalid_threshold {A} : result A := Err (ValueError "sealed coverage threshold is invalid").
(** [v.get(key, {})] *)
Definition get_table (key : string) (v : pyval) : result pyval :=
  match v with
  | VDict d => Ok (default (VDict []) (dict_get (VStr key) d))
  | _ => Err (AttributeError "object has no attribute 'get'")
  end.
Definition toml_threshold (text : string) : result spec_float :=
  match toml_values text with
  | None => invalid_threshold
  | Some document =>
      let! tool := get_table "tool" document in
      let! coverage := get_table "coverage" tool in
      let! report := get_table "report" coverage in
      let! report := payload_dict report in
      py_float (default (VFloat _COVERAGE_THRESHOLD) (dict_get (VStr "fail_under") report))
  end.
Definition ini_threshold (text : string) : result spec_float :=
  match ini_sections text with
  | None => invalid_threshold
  | Some sections =>
      match ini_get "report" "fail_under" sections with
      | None => Ok _COVERAGE_THRESHOLD
      | Some value => py_float (VStr value)
      end
  end.
Definition py_max (x y : spec_float) : spec_float := if float_ltb x y then y else x.
Definition _coverage_threshold_from_policy_argv (policy_argv : list string) : result spec_float :=
  match after_flag "--cov-config" policy_argv with
  | None => Err (ValueError "sealed coverage configuration is missing")
  | Some config_path =>
      let configured :=
        let! text := hf_read_text h config_path in
        if String.eqb (path_suffix config_path) ".toml" then toml_threshold text else ini_threshold text in
      match configured with
      | Err (OSError _ | ValueError _ | TypeError _ | AttributeError _) => invalid_threshold
      | Err e => Err e
      | Ok configured =>
          if float_leb (float_of_Z 0) configured && float_leb configured (float_of_Z 100)
          then Ok (py_max _COVERAGE_THRESHOLD configured) else invalid_threshold
      end
  end.

Definition selector_path (selector : string) : string := hd "" (split_pair ":"%char selector).
Definition selected_support_root (snapshot_root path : string) : result (option string) :=
  if path_eqb (path_parent path) snapshot_root then Ok None
  else match relative_to snapshot_root path with
       | None => Err (ValueError (as_posix path +:+ " is not in the subpath of " +:+ as_posix snapshot_root))
       | Some components => Ok (if bool_decide ("tests" ∈ components) then Some (path_parent path) else None)
       end.
Definition _complete_pytest_coverage_roots (test_roots selected_test_files : list string)
    (snapshot_root : string) : result (list string) :=
  let! support := map_res (selected_support_root snapshot_root) selected_test_files in
  Ok (sorted_paths (List.filter (λ root, negb (path_eqb root snapshot_root)) test_roots ++ omap id support)).

Definition gated_source (selected_test_files coverage_test_roots : list string) (file_path : string) : bool :=
  String.eqb (path_suffix file_path) ".py" && negb (existsb (path_eqb file_path) selected_test_files)
  && negb (String.eqb (of_chars (path_name file_path)) "conftest.py")
  && negb (_is_below_any_root file_path coverage_test_roots).
Definition discovery_patterns (policy_argv : list string) : list string :=
  split_ws (default "test_*.py *_test.py" (
    config_path ← after_flag "-c" policy_argv;
    text ← (match hf_read_text h config_path with Ok text => Some text | Err _ => None end);
    sections ← ini_sections text;
    ini_get "pytest" "python_files" sections)).
Definition _evaluate_complete_tdd_gate (r : PytestRun) (files adapter_argv : list string)
    (snapshot_root : string) (allow_project_discovery : bool) : result gate_result :=
  let! (policy_argv, selectors) := _split_pytest_adapter_argv adapter_argv in
  let! test_roots := _projected_pytest_test_roots policy_argv in
  let selected_test_files := (λ s, path_join snapshot_root (selector_path s)) <$> selectors in
  let! coverage_test_roots := _complete_pytest_coverage_roots test_roots selected_test_files snapshot_root in
  let source_files := List.filter (gated_source selected_test_files coverage_test_roots) files in
  if bool_decide (selectors = []) && negb allow_project_discovery then
    let! f := tool_error (hd snapshot_root source_files)
                "Complete pytest inventory contains no collected selectors." SevError in
    Ok ([f], None)
  else
    let! threshold := _coverage_threshold_from_policy_argv policy_argv in
    let discovery :=
      if bool_decide (selectors = [])
      then Some {| di_snapshot := snapshot_root; di_patterns := discovery_patterns policy_argv |} else None in
    _evaluate_pytest_execution h r source_files selectors
      {| co_allow_project_omitted_initializers := false; co_threshold := threshold;
         co_blocking_low_coverage := true |}
      discovery (hd snapshot_root files).

(** * The gate over the files of a change *)

Definition _SOURCE_ROOT : string := "packages/specfact-code-review/src".
Definition _resolved_path_variants (path : string) : list string :=
  match hf_resolve h path with Some resolved => [resolved] | None => [] end.
Fixpoint first_some {A B} (f : A → option B) (l : list A) : option B :=
  match l with [] => None | x :: l => match f x with Some y => Some y | None => first_some f l end end.
Definition _source_relative_path (source_file : string) : option (list string) :=
  let source_root_candidates := _SOURCE_ROOT :: _resolved_path_variants _SOURCE_ROOT in
  first_some (λ candidate, first_some (λ root, relative_to root candidate) source_root_candidates)
    (source_file :: _resolved_path_variants source_file).
(** [Path("tests/unit") / relative_path.parent / f"test_{relative_path.name}"] *)
Definition _expected_test_path (source_file : string) : option string :=
  (λ components,
     path_join (path_join "tests/unit" (path_parent (join "/" components)))
       ("test_" +:+ default "" (last components))) <$> _source_relative_path source_file.

Definition missing_test_file (source_file expected_test : string) : result ReviewFinding :=
  gate_finding Testing SevError "TEST_FILE_MISSING" (as_posix source_file)
    ("Missing corresponding test file: " +:+ as_posix expected_test).
Definition has_expected_test (source_file : string) : bool := bool_decide (is_Some (_expected_test_path source_file)).
Definition _collect_tdd_inputs (files : list string) :
    result (list string * list string * list ReviewFinding) :=
  let source_files := List.filter has_expected_test files in
  let! (test_files, findings) := fold_res (λ acc source_file,
    match _expected_test_path source_file with
    | None => Ok acc
    | Some expected_test =>
        if hf_exists h expected_test then Ok (acc.1 ++ [expected_test], acc.2)
        else let! f := missing_test_file source_file expected_test in Ok (acc.1, acc.2 ++ [f])
    end) ([], []) source_files in
  Ok (source_files, test_files, findings).
(** [run] answers the run over the test files. *)
Definition _evaluate_tdd_gate (run : list string → PytestRun) (files : list string) : result gate_result :=
  let! (source_files, test_files, findings) := _collect_tdd_inputs files in
  match source_files, findings with
  | [], _ => Ok ([], None)
  | _, _ :: _ => Ok (findings, None)
  | _, [] => _evaluate_pytest_execution h (run test_files) source_files [] default_coverage_options None snapshot_path
  end.
Definition run_tdd_gate (run : list string → PytestRun) (files : list string) : result (list ReviewFinding) :=
  let! (findings, _) := _evaluate_tdd_gate run files in Ok findings.
End gate.

(** * The sealed inventory *)

Record PytestPluginIdentity := { pl_entry_point : string }.
Definition _with_pytest_inventory (member_argv : list (string * list string)) (selectors : list string)
    (pytest_plugins : list PytestPluginIdentity) : list (string * list string) :=
  dict_set "targeted-pytest-coverage"
    (default [] (dict_get "targeted-pytest-coverage" member_argv)
     ++ (pytest_plugins ≫= λ plugin, ["-p"; pl_entry_point plugin]) ++ "--" :: selectors) member_argv.
Definition _validate_pytest_inventory (selectors : list string) : result unit :=
  check (forallb (λ selector,
    let raw_path := selector_path selector in
    negb (String.eqb raw_path "" || is_absolute raw_path || bool_decide (".." ∈ path_parts raw_path))) selectors)
    (ValueError "pytest selector escapes snapshot").
