(* ===== verification/TestGateProofs.v ===== *)
(** TestGateProofs: what the gate of [TestGate] accepts.  A pass is a statement
    about every node, every planned selector and every source. *)

From S2P Require Import Prelude Text Paths Dict PyValue Json Findings Scope Lifecycle Diff Assembly Floats.
From S2P Require Import PytestPolicy TestGate.

(** * Outcomes of one node *)

(** The first call phase passed without an expected failure, and no phase of
    the node failed. *)
Definition node_passed (records : list record) : Prop :=
  (∃ call, List.find is_call records = Some call ∧ record_wasxfail call = false ∧
     record_skipped call = false ∧ record_passed call = true) ∧
  Forall (λ r, record_failed r = false) records.

Lemma existsb_false_Forall {A} (p : A → bool) l : existsb p l = false ↔ Forall (λ x, p x = false) l.
Proof.
  induction l as [|x l IH]; cbn; [split; [constructor|done]|].
  rewrite orb_false_iff, IH, Forall_cons. done.
Qed.

Lemma observed_passed records : _pytest_observed_outcome records = Passed ↔ node_passed records.
Proof.
  unfold _pytest_observed_outcome, node_passed. rewrite <-existsb_false_Forall.
  destruct (List.find is_call records) as [call|]; unfold _pytest_call_outcome, _pytest_no_call_outcome.
  - destruct (record_wasxfail call) eqn:Ex, (record_skipped call) eqn:Es, (record_passed call) eqn:Ep,
      (existsb record_failed records) eqn:Ef; cbn; split;
      try (intros [(c & [= <-] & ? & ? & ?) ?]; congruence); try discriminate. eauto 10.
  - split; [case_all; done|]. intros [(c & [=] & _) _].
Qed.

(** * The plan *)

(** Each node comes from exactly one planned selector, and each planned
    selector has a node. *)
Definition plan_covered (planned observed : list string) : Prop :=
  planned = [] ∨
  NoDup planned ∧
  (∀ nodeid, nodeid ∈ observed → ∃ selector, selectors_of planned nodeid = [selector]) ∧
  (∀ selector, selector ∈ planned → ∃ nodeid, nodeid ∈ observed ∧ node_of nodeid selector = true).

Lemma elem_of_selectors_of planned nodeid selector :
  selector ∈ selectors_of planned nodeid ↔ node_of nodeid selector = true ∧ selector ∈ planned.
Proof. unfold selectors_of. rewrite !list_elem_of_In, filter_In. naive_solver. Qed.

Lemma matched_selectors_Some planned observed :
  match matched_selectors planned observed with
  | Some matched =>
      (∀ nodeid, nodeid ∈ observed → ∃ selector, selectors_of planned nodeid = [selector]) ∧
      (∀ selector, selector ∈ matched ↔
         ∃ nodeid, nodeid ∈ observed ∧ selectors_of planned nodeid = [selector])
  | None => ∃ nodeid, nodeid ∈ observed ∧ ∀ selector, selectors_of planned nodeid ≠ [selector]
  end.
Proof.
  induction observed as [|n observed IH]; cbn.
  { split; [intros ? []%elem_of_nil|]. intros s. split; [intros []%elem_of_nil|intros (n & []%elem_of_nil & _)]. }
  destruct (selectors_of planned n) as [|s [|]] eqn:E.
  1,3: exists n; split; [left|intros ? [=]; congruence].
  destruct (matched_selectors planned observed) as [matched|]; cbn.
  - destruct IH as [IH1 IH2]. split; [intros ? [->|]%elem_of_cons; eauto|].
    intros s'. rewrite elem_of_cons, IH2. split.
    + intros [->|(m & Hm & Hs)]; [exists n|exists m]; (split; [|done]); [left|by right].
    + intros (m & [->|Hm]%elem_of_cons & Hs); [left; congruence|right; eauto].
  - destruct IH as (m & Hm & Hs). exists m. split; [by right|done].
Qed.

Lemma planned_nodes_match planned observed :
  _pytest_planned_nodes_match planned observed = true ↔ plan_covered planned observed.
Proof.
  unfold _pytest_planned_nodes_match, plan_covered.
  destruct planned as [|p planned']; [naive_solver|]. set (planned := p :: planned').
  pose proof (matched_selectors_Some planned observed) as Hm.
  rewrite andb_true_iff, bool_decide_eq_true.
  destruct (matched_selectors planned observed) as [matched|].
  - rewrite bool_decide_eq_true. destruct Hm as [Hone Hmatched]. split.
    + intros [Hnd Heq]. right. split_and!; [done|done|]. intros s Hs.
      assert (s ∈ matched) as (n & Hn & E)%Hmatched.
      { apply (elem_of_list_to_set (C:=gset string)). rewrite Heq. by apply elem_of_list_to_set. }
      exists n. split; [done|]. eapply elem_of_selectors_of. rewrite E. left.
    + intros [|(Hnd & _ & Hall)]; [done|]. split; [done|]. apply set_eq. intros s.
      rewrite !elem_of_list_to_set, Hmatched. split.
      * intros (n & Hn & E). eapply elem_of_selectors_of. rewrite E. left.
      * intros Hs. destruct (Hall s Hs) as (n & Hn & Hof). exists n. split; [done|].
        destruct (Hone n Hn) as [s' E]. assert (s ∈ selectors_of planned n) as Hin by (by apply elem_of_selectors_of).
        rewrite E in Hin |- *. apply list_elem_of_singleton in Hin. by subst.
  - split; [naive_solver|]. intros [|(_ & Hone & _)]; [done|]. destruct Hm as (n & Hn & Hno).
    destruct (Hone n Hn) as [s E]. by destruct (Hno s).
Qed.

(** * Reconciliation *)

Section reconciliation.
Context `{PyRepr}.

(** The nodes of a sequence of records, and what is recorded of a node *)
Definition nodes (observer : list record) : list string := dict_keys (group_by nodeid_of observer).
Definition records_of (nodeid : string) (records : list record) : list record :=
  filter (λ r, nodeid_of r = nodeid) records.
(** The outcome of the last JUnit record of a node *)
Definition junit_outcome (nodeid : string) (junit : list record) : option string :=
  record_text "outcome" <$> last (records_of nodeid junit).

Lemma elem_of_nodes observer nodeid : nodeid ∈ nodes observer ↔ ∃ r, r ∈ observer ∧ nodeid_of r = nodeid.
Proof. apply elem_of_keys_group_by. Qed.
Lemma NoDup_nodes observer : NoDup (nodes observer).
Proof. apply dict_wf_group_by. Qed.

Lemma outcomes_by_node_eq observer :
  outcomes_by_node observer =
    (λ nodeid, (nodeid, _pytest_observed_outcome (records_of nodeid observer))) <$> nodes observer.
Proof.
  unfold outcomes_by_node, nodes, dict_keys. rewrite <-list_fmap_compose. apply list_fmap_ext.
  intros i [n rs] Hi%list_elem_of_lookup_2. cbn. do 2 f_equal.
  apply (dict_get_elem _ _ _ (dict_wf_group_by _ _)) in Hi.
  pose proof (bucket_group_by nodeid_of n observer) as Hb. unfold bucket in Hb. by rewrite Hi in Hb.
Qed.
Lemma outcomes_by_node_fst observer : (outcomes_by_node observer).*1 = nodes observer.
Proof. rewrite outcomes_by_node_eq, <-list_fmap_compose. apply list_fmap_id. Qed.

Lemma junit_by_node_get nodeid junit : dict_get nodeid (junit_by_node junit) = junit_outcome nodeid junit.
Proof.
  unfold junit_by_node, junit_outcome, records_of. rewrite dict_of_get.
  replace (filter (λ kv, kv.1 = nodeid) ((λ r, (nodeid_of r, record_text "outcome" r)) <$> junit))
    with ((λ r, (nodeid_of r, record_text "outcome" r)) <$> filter (λ r, nodeid_of r = nodeid) junit).
  { rewrite fmap_last. by destruct (last _). }
  induction junit as [|r junit IH]; [done|]. rewrite fmap_cons, !filter_cons. cbn [fst].
  case_decide; cbn; by rewrite IH.
Qed.
Lemma junit_by_node_keys nodeid junit :
  nodeid ∈ dict_keys (junit_by_node junit) ↔ is_Some (junit_outcome nodeid junit).
Proof. by rewrite elem_of_dict_keys, junit_by_node_get. Qed.

(** Two lists of distinct elements of the same length, one included in the
    other, have the same elements. *)
Lemma NoDup_same_elements {A} (l1 l2 : list A) :
  NoDup l1 → (∀ x, x ∈ l1 → x ∈ l2) → length l2 = length l1 → ∀ x, x ∈ l2 → x ∈ l1.
Proof.
  intros Hnd Hsub Hlen x Hx.
  assert (l1 ≡ₚ l2) as Hp; [|by rewrite Hp].
  apply submseteq_length_Permutation; [|lia]. by apply NoDup_submseteq.
Qed.

Lemma signals_match_spec observer junit :
  signals_match (outcomes_by_node observer) (junit_by_node junit) = true ↔
  (∀ nodeid, is_Some (junit_outcome nodeid junit) → nodeid ∈ nodes observer) ∧
  (∀ nodeid, nodeid ∈ nodes observer → ∃ outcome,
     expected_junit (_pytest_observed_outcome (records_of nodeid observer)) = Some outcome ∧
     junit_outcome nodeid junit = Some outcome).
Proof.
  unfold signals_match. rewrite andb_true_iff, Nat.eqb_eq.
  assert (forallb (λ no, match expected_junit no.2 with
            | Some outcome => bool_decide (dict_get no.1 (junit_by_node junit) = Some outcome)
            | None => false end) (outcomes_by_node observer) = true ↔
    ∀ nodeid, nodeid ∈ nodes observer → ∃ outcome,
     expected_junit (_pytest_observed_outcome (records_of nodeid observer)) = Some outcome ∧
     junit_outcome nodeid junit = Some outcome) as ->.
  { rewrite outcomes_by_node_eq. split.
    - intros Hall n Hn. eapply (forallb_forall _ _) in Hall; cycle 1.
      { apply list_elem_of_In, list_elem_of_fmap_2, Hn. }
      cbn in Hall. rewrite junit_by_node_get in Hall. destruct (expected_junit _); [|done].
      apply bool_decide_eq_true in Hall. eauto.
    - intros Hall. apply forallb_forall. intros x (n & -> & Hn)%list_elem_of_In%list_elem_of_fmap. cbn.
      destruct (Hall n Hn) as (o & -> & E). rewrite junit_by_node_get. by apply bool_decide_eq_true. }
  assert (length (outcomes_by_node observer) = length (nodes observer)) as ->
    by (rewrite outcomes_by_node_eq; apply length_fmap).
  replace (length (junit_by_node junit)) with (length (dict_keys (junit_by_node junit))) by apply length_fmap.
  split; intros [Hl Hall]; (split; [|done]).
  - intros n Hn. apply (NoDup_same_elements _ (dict_keys (junit_by_node junit)));
      [apply NoDup_nodes| |done|by apply junit_by_node_keys].
    intros m Hm. apply junit_by_node_keys. destruct (Hall m Hm) as (o & _ & ->). done.
  - assert (dict_keys (junit_by_node junit) ≡ₚ nodes observer) as Hp; [|by rewrite Hp].
    apply NoDup_Permutation; [apply dict_of_wf|apply NoDup_nodes|]. intros n. rewrite junit_by_node_keys.
    split; [apply Hl|]. intros Hn. destruct (Hall n Hn) as (o & _ & ->). done.
Qed.

(** The three signals agree: the JUnit file has a verdict for exactly the
    observed nodes and it is the one expected, the process failed exactly when
    a node did, and the plan is covered. *)
Definition signals_agree (observer junit : list record) (process_exit : Z) (planned : list string) : Prop :=
  (∀ nodeid, is_Some (junit_outcome nodeid junit) → nodeid ∈ nodes observer) ∧
  (∀ nodeid, nodeid ∈ nodes observer → ∃ outcome,
     expected_junit (_pytest_observed_outcome (records_of nodeid observer)) = Some outcome ∧
     junit_outcome nodeid junit = Some outcome) ∧
  (process_exit = 0%Z ↔ ∀ nodeid, nodeid ∈ nodes observer →
     _pytest_observed_outcome (records_of nodeid observer) ≠ Failed) ∧
  plan_covered planned (nodes observer).
(** Everything that ran passed, and everything planned ran. *)
Definition run_passed (observer junit : list record) (process_exit : Z) (planned : list string) : Prop :=
  process_exit = 0%Z ∧
  (∀ nodeid, nodeid ∈ nodes observer →
     node_passed (records_of nodeid observer) ∧ junit_outcome nodeid junit = Some "passed") ∧
  (∀ nodeid, is_Some (junit_outcome nodeid junit) → nodeid ∈ nodes observer) ∧
  plan_covered planned (nodes observer).

Lemma elem_of_outcomes observer kind :
  kind ∈ (outcomes_by_node observer).*2 ↔
  ∃ nodeid, nodeid ∈ nodes observer ∧ kind = _pytest_observed_outcome (records_of nodeid observer).
Proof.
  rewrite outcomes_by_node_eq, <-list_fmap_compose, list_elem_of_fmap.
  split; intros (n & ? & ?); exists n; by split.
Qed.
Lemma existsb_kind (P : outcome_kind → Prop) `{∀ k, Decision (P k)} observer :
  existsb (λ kind, bool_decide (P kind)) (outcomes_by_node observer).*2 = false ↔
  ∀ nodeid, nodeid ∈ nodes observer → ¬ P (_pytest_observed_outcome (records_of nodeid observer)).
Proof.
  rewrite existsb_false_Forall, Forall_forall. split.
  - intros Hall n Hn. eapply bool_decide_eq_false, Hall, elem_of_outcomes. eauto.
  - intros Hall k (n & Hn & ->)%elem_of_outcomes. by apply bool_decide_eq_false, Hall.
Qed.

Lemma reconcile_status observer junit process_exit planned :
  let status := or_status (reconcile_pytest_outcomes observer junit process_exit planned) in
  let passed := ∀ nodeid, nodeid ∈ nodes observer → _pytest_observed_outcome (records_of nodeid observer) = Passed in
  status = "PASS" ∧ signals_agree observer junit process_exit planned ∧ passed ∨
  status = "FAIL" ∧ signals_agree observer junit process_exit planned ∧ ¬ passed ∨
  status = "UNKNOWN" ∧ ¬ signals_agree observer junit process_exit planned.
Proof.
  cbn. rewrite outcomes_by_node_fst.
  set (guard := _ || negb (_pytest_planned_nodes_match _ _)).
  assert (guard = false ↔ signals_agree observer junit process_exit planned) as Hguard.
  { subst guard. rewrite !orb_false_iff, !negb_false_iff, signals_match_spec, planned_nodes_match, eqb_true_iff.
    unfold signals_agree. rewrite <-(existsb_kind (λ kind, kind = Failed)).
    destruct (existsb _ _); rewrite ?negb_true_iff, ?negb_false_iff, ?Z.eqb_eq, ?Z.eqb_neq; intuition congruence. }
  destruct guard.
  - right; right. split; [done|]. intros [=]%Hguard.
  - destruct (existsb (λ kind, bool_decide (kind ≠ Passed)) (outcomes_by_node observer).*2) eqn:Ex.
    + right; left. split_and!; [done|by apply Hguard|]. intros Hall.
      rewrite (proj2 (existsb_kind (λ kind, kind ≠ Passed) observer)) in Ex; [done|].
      intros n Hn Hne. by apply Hne, Hall.
    + left. split_and!; [done|by apply Hguard|]. intros n Hn.
      apply dec_stable. by apply (proj1 (existsb_kind (λ kind, kind ≠ Passed) observer) Ex).
Qed.

Lemma run_passed_iff observer junit process_exit planned :
  run_passed observer junit process_exit planned ↔
  signals_agree observer junit process_exit planned ∧
  ∀ nodeid, nodeid ∈ nodes observer → _pytest_observed_outcome (records_of nodeid observer) = Passed.
Proof.
  unfold run_passed, signals_agree. split.
  - intros (Hexit & Hall & Honly & Hplan).
    assert (∀ n, n ∈ nodes observer → _pytest_observed_outcome (records_of n observer) = Passed) as Hp.
    { intros n Hn. by apply observed_passed, Hall. }
    split_and!; [done| |split; [|done]|done|done]; intros n Hn; [|intros ?]; rewrite Hp by done; [|done].
    exists "passed". split; [done|]. by apply Hall.
  - intros [(Honly & Hverdict & Hexit & Hplan) Hp]. split_and!; [|intros n Hn|done|done].
    + apply Hexit. intros n Hn. by rewrite Hp.
    + split; [by apply observed_passed, Hp|]. destruct (Hverdict n Hn) as (o & Ho & Hj).
      rewrite Hp in Ho by done. by injection Ho as <-.
Qed.
Lemma reconcile_pass observer junit process_exit planned :
  or_status (reconcile_pytest_outcomes observer junit process_exit planned) = "PASS" ↔
  run_passed observer junit process_exit planned.
Proof.
  rewrite run_passed_iff.
  destruct (reconcile_status observer junit process_exit planned) as [(-> & ? & ?)|[(-> & ? & ?)|(-> & ?)]];
    (split; [try done|]); tauto.
Qed.

(** C13 The verdict on a test run (reconcile_pytest_outcomes in run/runner.py):
    it passes exactly when the process exited with 0, the first call record of
    every observed node passed, neither skipped nor expected to fail, no record
    of the node failed (a skipped setup or teardown is not looked at), every
    node has a passing JUnit verdict, no other node has one, and the plan, when
    there is one, has distinct selectors of which each observed node matches
    exactly one and each is matched.  It fails exactly
    when the observer, the JUnit file, the exit status and the plan agree and
    some node did not pass in this sense; otherwise it is unknown. *)
Theorem test_run_verdict (observer junit : list record) (process_exit : Z) (planned : list string) :
  let status := or_status (reconcile_pytest_outcomes observer junit process_exit planned) in
  (status = "PASS" ↔ run_passed observer junit process_exit planned) ∧
  (status = "FAIL" ↔ signals_agree observer junit process_exit planned ∧
     ∃ nodeid, nodeid ∈ nodes observer ∧ ¬ node_passed (records_of nodeid observer)) ∧
  (status = "UNKNOWN" ↔ ¬ signals_agree observer junit process_exit planned).
Proof.
  cbn zeta. rewrite reconcile_pass, run_passed_iff.
  assert ((∃ nodeid, nodeid ∈ nodes observer ∧ ¬ node_passed (records_of nodeid observer)) ↔
    ¬ (∀ nodeid, nodeid ∈ nodes observer → _pytest_observed_outcome (records_of nodeid observer) = Passed)) as ->.
  { split; [intros (n & Hn & Hne) Hall; by apply Hne, observed_passed, Hall|].
    rewrite <-Forall_forall. intros (n & Hn & Hne)%not_Forall_Exists%Exists_exists; [|intros ?; apply _].
    exists n. by rewrite <-observed_passed. }
  destruct (reconcile_status observer junit process_exit planned) as [(-> & ? & ?)|[(-> & ? & ?)|(-> & ?)]];
    split_and!; (split; [try done|]); tauto.
Qed.
End reconciliation.

(** * Coverage *)

(** A source is covered when its percentage reaches the threshold, or when it
    is exempt and has none. *)
Definition source_covered (h : HostFiles) (o : coverage_options) (payload : pyval) (source_file : string) : Prop :=
  (∃ percent, _coverage_for_source h source_file payload = Ok (Some percent) ∧
     float_leb (co_threshold o) percent = true) ∨
  (_coverage_for_source h source_file payload = Ok None ∧ exempt h o source_file = Ok true).

Lemma coverage_loop_clean h o payload source_files : ∀ findings by_source cov,
  coverage_loop h o payload findings by_source source_files = Ok ([], cov) →
  findings = [] ∧ Forall (source_covered h o payload) source_files ∧ is_Some cov.
Proof.
  induction source_files as [|s source_files IH]; intros findings by_source cov; cbn [coverage_loop].
  { intros [= -> <-]. eauto. }
  rewrite Forall_cons. unfold source_covered at 1.
  destruct (_coverage_for_source h s payload) as [[percent|]|e]; cbn [res_bind]; [| |done].
  - destruct (float_leb (co_threshold o) percent) eqn:Eleb.
    + intros (-> & Hs & Hc)%IH. split_and!; [done|left; eauto|done|done].
    + destruct (low_coverage o s percent) as [f|]; cbn [res_bind]; [|done].
      intros (Hf & _)%IH. by destruct findings.
  - destruct (exempt h o s) as [[|]|]; cbn [res_bind]; [| |done].
    + intros (-> & Hs & Hc)%IH. split_and!; [done|by right|done|done].
    + by destruct (tool_error _ _ _).
Qed.
Lemma coverage_loop_covered h o payload source_files : ∀ by_source,
  Forall (source_covered h o payload) source_files →
  ∃ by_source', coverage_loop h o payload [] by_source source_files = Ok ([], Some by_source').
Proof.
  induction source_files as [|s source_files IH]; intros by_source; cbn [coverage_loop]; [eauto|].
  intros [[(percent & -> & Hleb)|[-> He]] Hs]%Forall_cons; cbn [res_bind].
  - rewrite Hleb. by apply IH.
  - rewrite He. cbn [res_bind]. by apply IH.
Qed.

(** * One execution *)

Section execution.
Context `{PyRepr}.

(** What lets an execution pass: the tests ran and all of them passed, and
    every source left to the gate is covered. *)
Definition execution_accepted (h : HostFiles) (r : PytestRun) (source_files planned : list string)
    (o : coverage_options) (d : option discovery) : Prop :=
  ∃ observer junit sources payload,
    pr_pytest_found r = true ∧ pr_pytest_cov_found r = true ∧ pr_execution r = Executed 0 ∧
    _load_pytest_outcome_evidence (pr_observer r) (pr_junit r) = Ok (observer, junit) ∧
    run_passed observer junit 0 planned ∧
    production_sources d observer source_files = Ok sources ∧ pr_coverage r = Ok payload ∧
    Forall (source_covered h o payload) sources.

Lemma tool_error_not_clean file message severity cov :
  (let! f := tool_error file message severity in Ok ([f], None)) ≠ Ok ([], cov : option coverage_by_source).
Proof. by destruct (tool_error _ _ _). Qed.
Lemma skip_clean r anchor :
  skip_if_pytest_unavailable r anchor = Ok [] ↔ pr_pytest_found r = true ∧ pr_pytest_cov_found r = true.
Proof.
  unfold skip_if_pytest_unavailable. destruct (pr_pytest_found r), (pr_pytest_cov_found r); cbn [negb];
    try (destruct (tool_error _ _ _); cbn); split; done || by intros [].
Qed.
Lemma read_evidence_inr r returncode planned source_files d sources payload :
  read_evidence r returncode planned source_files d = Ok (inr (sources, payload)) ↔
  ∃ observer junit, _load_pytest_outcome_evidence (pr_observer r) (pr_junit r) = Ok (observer, junit) ∧
    run_passed observer junit returncode planned ∧
    production_sources d observer source_files = Ok sources ∧ pr_coverage r = Ok payload.
Proof.
  unfold read_evidence.
  destruct (_load_pytest_outcome_evidence _ _) as [[observer junit]|e]; cbn [res_bind];
    [|split; [done|by intros (? & ? & [=] & _)]].
  pose proof (reconcile_pass observer junit returncode planned) as Hrun.
  destruct (String.eqb_spec (or_status (reconcile_pytest_outcomes observer junit returncode planned)) "PASS")
    as [E|E]; cbn [negb]; rewrite ?E.
  - destruct (production_sources _ _ _) as [l|] eqn:El; cbn [res_bind];
      [|split; [done|intros (? & ? & [= <- <-] & _ & Hs & _); congruence]].
    destruct (pr_coverage r) as [p|]; cbn [res_bind]; [|split; [done|by intros (? & ? & _ & _ & _ & [=])]].
    split; [|intros (? & ? & [= <- <-] & _ & Hs & [= ->]); congruence].
    intros [= -> ->]. exists observer, junit. split_and!; [done|by apply Hrun|done|done].
  - split; [done|]. by intros (? & ? & [= <- <-] & ?%Hrun & _).
Qed.

Lemma execution_clean h r source_files planned o d anchor cov :
  _evaluate_pytest_execution h r source_files planned o d anchor = Ok ([], cov) →
  execution_accepted h r source_files planned o d ∧ is_Some cov.
Proof.
  unfold _evaluate_pytest_execution.
  destruct (skip_if_pytest_unavailable _ _) as [[|f l]|] eqn:Es; cbn [res_bind]; [|done..].
  apply skip_clean in Es as [Hp Hc].
  destruct (pr_execution r) as [text|code] eqn:Ex; [by intros ?%tool_error_not_clean|].
  destruct (read_evidence _ _ _ _ _) as [[status|[sources payload]]|e] eqn:Er.
  - unfold _pytest_outcome_finding. case_match; [|by intros ?%tool_error_not_clean].
    by destruct (gate_finding _ _ _ _ _).
  - intros (_ & Hs & Hcov)%coverage_loop_clean. split; [|done].
    apply read_evidence_inr in Er as (observer & junit & Hl & Hrun & Hps & Hpay).
    pose proof Hrun as [-> _]. exists observer, junit, sources, payload. done.
  - destruct (caught e); [by intros ?%tool_error_not_clean|done].
Qed.
Lemma execution_accepts h r source_files planned o d anchor :
  execution_accepted h r source_files planned o d →
  ∃ cov, _evaluate_pytest_execution h r source_files planned o d anchor = Ok ([], Some cov).
Proof.
  intros (observer & junit & sources & payload & Hp & Hc & Hx & Hl & Hrun & Hps & Hpay & Hs).
  unfold _evaluate_pytest_execution. rewrite (proj2 (skip_clean r _)) by done. cbn [res_bind].
  rewrite Hx, (proj2 (read_evidence_inr r 0 planned source_files d sources payload)) by eauto 10.
  by apply coverage_loop_covered.
Qed.
End execution.

(** * The complete gate *)

Lemma elem_of_sorted_paths path paths : path ∈ sorted_paths paths ↔ ∃ p, p ∈ paths ∧ path = as_posix p.
Proof.
  unfold sorted_paths. rewrite elem_of_sort_by, elem_of_remove_dups, list_elem_of_fmap.
  split; intros (p & ? & ?); eauto.
Qed.
Lemma is_relative_to_as_posix path other : is_relative_to path (as_posix other) = is_relative_to path other.
Proof. apply eq_true_iff_eq. by rewrite !is_relative_to_iff, path_root_as_posix, path_components_as_posix. Qed.
Lemma not_below_any_root path roots :
  (∀ root, root ∈ roots → is_relative_to path root = false) → _is_below_any_root path (sorted_paths roots) = false.
Proof.
  intros Hr. apply existsb_false_Forall, Forall_forall. intros root (p & Hp & ->)%elem_of_sorted_paths.
  rewrite is_relative_to_as_posix, Hr by done. rewrite orb_false_r.
  specialize (Hr p Hp). rewrite <-is_relative_to_as_posix in Hr. unfold is_relative_to in Hr.
  by apply orb_false_iff in Hr as [-> _].
Qed.

Lemma threshold_at_least h `{IniRead} `{TomlValues} policy_argv threshold :
  _coverage_threshold_from_policy_argv h policy_argv = Ok threshold →
  float_leb _COVERAGE_THRESHOLD threshold = true.
Proof.
  unfold _coverage_threshold_from_policy_argv. destruct (after_flag _ _) as [path|]; [|done]. cbn zeta.
  destruct (res_bind _ _) as [configured|[]]; try done. case_match; [|done]. intros [= <-].
  unfold py_max. destruct (float_ltb _COVERAGE_THRESHOLD configured) eqn:E; [|by vm_compute].
  revert E. unfold float_ltb, SFltb, float_leb, SFleb. by destruct (SFcompare _ _) as [[]|].
Qed.

Section gate.
Context `{PyRepr} `{IniRead} `{TomlValues}.

(** The directory of a selected test file, when it is below the snapshot and
    inside [tests] *)
Definition support_root (snapshot_root path root : string) : Prop :=
  root = path_parent path ∧ path_eqb root snapshot_root = false ∧
  ∃ components, relative_to snapshot_root path = Some components ∧ "tests" ∈ components.
Definition selected_file (snapshot_root selector : string) : string :=
  path_join snapshot_root (selector_path selector).
(** A file the gate holds to the coverage threshold: Python, neither a
    [conftest.py] nor a selected or discovered test file, and outside the test
    roots and the directories of the selected tests. *)
Definition production_file (snapshot_root : string) (test_roots selectors : list string)
    (observer : list record) (file : string) : Prop :=
  path_suffix file = ".py" ∧ of_chars (path_name file) ≠ "conftest.py" ∧
  (∀ root, root ∈ test_roots → path_eqb root snapshot_root = false → is_relative_to file root = false) ∧
  (∀ selector, selector ∈ selectors → path_eqb file (selected_file snapshot_root selector) = false) ∧
  (∀ selector root, selector ∈ selectors → support_root snapshot_root (selected_file snapshot_root selector) root →
     is_relative_to file root = false) ∧
  (selectors = [] → ∀ nodeid, nodeid ∈ nodes observer → path_eqb file (selected_file snapshot_root nodeid) = false).

Lemma support_roots_spec snapshot_root selected support :
  map_res (selected_support_root snapshot_root) selected = Ok support →
  ∀ root, root ∈ omap id support → ∃ path, path ∈ selected ∧ support_root snapshot_root path root.
Proof.
  intros Hm%map_res_Ok root (o & Ho & E)%list_elem_of_omap. cbn in E. subst o.
  apply list_elem_of_lookup in Ho as [i Hi]. eapply Forall2_lookup_r in Hm as (path & Hp & Hs); [|done].
  exists path. split; [by eapply list_elem_of_lookup_2|]. revert Hs. unfold selected_support_root, support_root.
  destruct (path_eqb (path_parent path) snapshot_root) eqn:Ep; [done|].
  destruct (relative_to snapshot_root path) as [components|]; [|done]. case_bool_decide; [|done].
  intros [= <-]. eauto.
Qed.
Lemma production_file_gated snapshot_root test_roots selectors observer coverage_roots file :
  _complete_pytest_coverage_roots test_roots (selected_file snapshot_root <$> selectors) snapshot_root = Ok coverage_roots →
  production_file snapshot_root test_roots selectors observer file →
  gated_source (selected_file snapshot_root <$> selectors) coverage_roots file = true.
Proof.
  unfold _complete_pytest_coverage_roots. destruct (map_res _ _) as [support|] eqn:Es; cbn [res_bind]; [|done].
  intros [= <-] (Hsuf & Hname & Hroots & Hsel & Hsup & _). unfold gated_source. rewrite !andb_true_iff, !negb_true_iff.
  split_and!; [by apply String.eqb_eq| |by apply String.eqb_neq|].
  - apply existsb_false_Forall, Forall_forall. intros p (s & -> & Hs)%list_elem_of_fmap. by apply Hsel.
  - apply not_below_any_root. intros root [Hr|Hr]%elem_of_app.
    + apply list_elem_of_In, filter_In in Hr as [Hr%list_elem_of_In He%negb_true_iff]. by apply Hroots.
    + eapply support_roots_spec in Hr as (p & (s & -> & Hs)%list_elem_of_fmap & Hp); [|done]. by eapply Hsup.
Qed.
Lemma split_argv_Ok adapter_argv policy_argv selectors :
  _split_pytest_adapter_argv adapter_argv = Ok (policy_argv, selectors) ↔
  adapter_argv = policy_argv ++ "--" :: selectors ∧ "--" ∉ policy_argv.
Proof.
  unfold _split_pytest_adapter_argv. split.
  - destruct (list_find _ adapter_argv) as [[i x]|] eqn:E; [|done]. intros [= <- <-].
    apply list_find_Some in E as (Hi & -> & Hno). split; [by rewrite take_drop_middle|].
    intros (j & Hj)%list_elem_of_lookup. apply lookup_take_Some in Hj as [Hj Hlt]. by eapply Hno.
  - intros [-> Hno]. rewrite (proj2 (list_find_Some _ _ (length policy_argv) "--")).
    + rewrite take_app_length. do 2 f_equal.
      change (policy_argv ++ "--" :: selectors) with (policy_argv ++ ["--"] ++ selectors).
      rewrite app_assoc. replace (S (length policy_argv)) with (length (policy_argv ++ ["--"]))
        by (rewrite length_app; cbn; lia). apply drop_app_length.
    + split_and!; [by apply list_lookup_middle|done|]. intros j y Hj Hlt ->. apply Hno.
      rewrite lookup_app_l in Hj by done. by eapply list_elem_of_lookup_2.
Qed.

Lemma production_sources_kept snapshot_root (selectors : list string) patterns observer source_files sources file :
  production_sources
    (if bool_decide (selectors = []) then Some {| di_snapshot := snapshot_root; di_patterns := patterns |} else None)
    observer source_files = Ok sources →
  file ∈ source_files →
  (selectors = [] → ∀ nodeid, nodeid ∈ nodes observer → path_eqb file (selected_file snapshot_root nodeid) = false) →
  file ∈ sources.
Proof.
  case_bool_decide as Hs; [|by intros [= ->]]. unfold production_sources. intros Hp Hf Hn.
  destruct (check _ _); cbn [res_bind] in Hp; [|done].
  destruct (map_res _ _) as [tests|] eqn:Em; cbn [res_bind] in Hp; [|done]. injection Hp as <-.
  apply list_elem_of_In, filter_In. split; [by apply list_elem_of_In|]. apply negb_true_iff.
  apply existsb_false_Forall, Forall_forall. intros t (o & Ho & E)%list_elem_of_omap. cbn in E. subst o.
  apply list_elem_of_lookup in Ho as [i Hi]. apply map_res_Ok in Em.
  eapply Forall2_lookup_r in Em as (r & Hr & Hd); [|done]. revert Hd. unfold discovered_test.
  case_match; [done|]. case_match; [|done]. intros [= <-].
  apply (Hn Hs (nodeid_of r)), elem_of_nodes. exists r. split; [by eapply list_elem_of_lookup_2|done].
Qed.

(** ** Initializers without statements *)

(** No three [q] in a row *)
Definition triple_free (q : ascii) (content : string) : Prop := ∀ a b, chars content ≠ a ++ q :: q :: q :: b.
(** A line whose text before a comment is blank, or [pass] *)
Definition idle_chars (l : list ascii) : Prop :=
  ∃ a b, Forall is_space a ∧ Forall is_space b ∧ (l = a ++ b ∨ l = a ++ chars "pass" ++ b).
Definition code_part (l : list ascii) : list ascii := (span_not "#"%char l).1.
Definition idle_line (line : string) : Prop := idle_chars (code_part (chars line)).
Definition newline_at (c : ascii) : bool := bool_decide (c = ascii_of_nat 10).

Lemma lstrip_split l : ∃ a, Forall is_space a ∧ l = a ++ lstrip_chars l.
Proof.
  induction l as [|c l [a [Ha E]]]; [by exists []|]. cbn [lstrip_chars]. destruct (is_space c) eqn:Ec; [|by exists []].
  exists (c :: a). split; [by constructor; [rewrite Ec|]|]. cbn. congruence.
Qed.
Lemma strip_split s : ∃ a b, Forall is_space a ∧ Forall is_space b ∧ chars s = a ++ chars (strip s) ++ b.
Proof.
  destruct (lstrip_split (chars s)) as (a & Ha & Ea).
  destruct (lstrip_split (reverse (lstrip_chars (chars s)))) as (b & Hb & Eb).
  exists a, (reverse b). split_and!; [done|by apply Forall_reverse|].
  unfold strip. rewrite chars_of_chars, <-reverse_app, <-Eb, reverse_involutive. exact Ea.
Qed.
Lemma idle_strip s : strip s ∈ [""; "pass"] → idle_chars (chars s).
Proof.
  destruct (strip_split s) as (a & b & Ha & Hb & E). intros Hs. exists a, b. split_and!; [done..|]. rewrite E.
  apply elem_of_cons in Hs as [-> | ->%list_elem_of_singleton]; [by left|by right].
Qed.

Lemma idle_split l1 l2 : idle_chars (l1 ++ ascii_of_nat 10 :: l2) → idle_chars l1 ∧ idle_chars l2.
Proof.
  assert (Hblank : ∀ l, Forall is_space l → idle_chars l) by (intros l Hl; exists l, []; rewrite app_nil_r; auto).
  assert (Hpass : ∀ a b, Forall is_space a → Forall is_space b → idle_chars (a ++ chars "pass" ++ b))
    by (intros a b Ha Hb; exists a, b; auto).
  intros (a & b & Ha & Hb & [E|E]).
  - assert (Hall : Forall is_space (l1 ++ ascii_of_nat 10 :: l2)) by (rewrite E; by apply Forall_app).
    apply Forall_app in Hall as [Hone [_ Htwo]%Forall_cons]. auto.
  - apply app_eq_app in E as (k & [[-> E]|[-> E]]).
    + apply app_eq_app in E as (k' & [[E1 E2]|[-> E2]]).
      * destruct k' as [|c k'].
        { rewrite app_nil_r in E1. rewrite <-E1. cbn in E2. rewrite <-E2 in Hb. apply Forall_cons in Hb as [_ Hb].
          split; [|auto]. pose proof (Hpass a [] Ha (List.Forall_nil _)) as Hp. by rewrite app_nil_r in Hp. }
        injection E2 as <- _. exfalso. assert (Hin : ascii_of_nat 10 ∈ chars "pass")
          by (rewrite E1; apply elem_of_app; right; left).
        revert Hin. apply (bool_decide_unpack _). by vm_compute.
      * subst b. apply Forall_app in Hb as [Hk [_ Hb]%Forall_cons]. auto.
    + destruct k as [|c k]; [discriminate E|]. injection E as <- ->.
      apply Forall_app in Ha as [Hone [_ Htwo]%Forall_cons]. split; [auto|by apply Hpass].
Qed.
Lemma idle_lines n l : length l ≤ n → idle_chars l → ∀ line, line ∈ split_chars newline_at l → idle_chars line.
Proof.
  revert l. induction n as [|n IH]; intros l Hn Hi line Hline.
  { destruct l; [|cbn in Hn; lia]. cbn in Hline. by apply list_elem_of_singleton in Hline as ->. }
  destruct (decide (ascii_of_nat 10 ∈ l)) as [Hin|Hno].
  - apply list_elem_of_split_l in Hin as (l1 & l2 & -> & Hno). apply idle_split in Hi as [Hone Htwo].
    rewrite length_app in Hn. cbn in Hn. rewrite split_chars_app in Hline.
    + apply elem_of_cons in Hline as [->|Hl]; [done|]. eapply IH; [|exact Htwo|exact Hl]. lia.
    + apply Forall_forall. intros d Hd. apply bool_decide_eq_false_2. by intros ->.
    + by apply bool_decide_eq_true_2.
  - rewrite split_chars_single in Hline; [by apply list_elem_of_singleton in Hline as ->|].
    apply Forall_forall. intros d Hd. apply bool_decide_eq_false_2. by intros ->.
Qed.

Lemma drop_comments_lines l :
  split_chars newline_at (drop_comments false l) = code_part <$> split_chars newline_at l ∧
  split_chars newline_at (drop_comments true l)
  = match split_chars newline_at l with [] => [] | _ :: ws => [] :: (code_part <$> ws) end.
Proof.
  induction l as [|c l [IHf IHt]]; [done|]. cbn [drop_comments].
  change (bool_decide (c = ascii_of_nat 10)) with (newline_at c).
  destruct (newline_at c) eqn:Ec; cbn [orb split_chars]; rewrite ?Ec; [by rewrite IHf|].
  assert (Hne : split_chars newline_at l ≠ []) by (destruct l; cbn; [done|by repeat case_match]).
  destruct (split_chars newline_at l) as [|w ws]; [done|]. split; [|by rewrite IHt].
  rewrite fmap_cons. unfold code_part at 1. cbn [span_not].
  case_bool_decide; [by rewrite IHt|]. cbn [split_chars]. rewrite Ec, IHf, fmap_cons. unfold code_part at 1.
  by destruct (span_not "#"%char w).
Qed.

Lemma drop_quoted_id q fuel l : (∀ a b, l ≠ a ++ q :: q :: q :: b) → drop_quoted fuel q l = l.
Proof.
  revert l. induction fuel as [|fuel IH]; intros l Hl; [done|]. destruct l as [|c l]; [done|]. cbn [drop_quoted].
  replace (after_quotes q (c :: l)) with (@None (list ascii)).
  - cbn. rewrite IH; [done|]. intros a b ->. by apply (Hl (c :: a) b).
  - unfold after_quotes. destruct l as [|d [|e l]]; [done..|]. case_bool_decide as E; [|done].
    destruct E as (-> & -> & ->). by destruct (Hl [] l).
Qed.

(** What passes for an initializer without statements: a file [__init__.py]
    of which nothing but [pass] remains once what stands between runs of
    three quotes and the comments are taken away.  Without such runs every
    line is idle. *)
Lemma idle_init h file :
  _is_empty_init_file h file = Ok true →
  ∃ content, of_chars (path_name file) = "__init__.py" ∧ hf_read_text h file = Ok content ∧
    stripped_content content ∈ [""; "pass"] ∧
    (triple_free dquote_char content → triple_free squote_char content →
     ∀ line, line ∈ split_on (ascii_of_nat 10) content → idle_line line).
Proof.
  unfold _is_empty_init_file. destruct (String.eqb_spec (of_chars (path_name file)) "__init__.py") as [En|]; [|done].
  cbn [negb]. destruct (hf_read_text h file) as [content|e]; [|by destruct e]. intros [= Hs%bool_decide_eq_true].
  exists content. split_and!; [done..|]. intros Hd Hq line Hline. unfold stripped_content in Hs.
  rewrite (drop_quoted_id dquote_char) in Hs by exact Hd. rewrite drop_quoted_id in Hs by exact Hq.
  apply idle_strip in Hs. rewrite chars_of_chars in Hs.
  unfold split_on in Hline. apply list_elem_of_fmap in Hline as (w & -> & Hw). unfold idle_line.
  rewrite chars_of_chars. eapply idle_lines; [reflexivity|exact Hs|]. rewrite (proj1 (drop_comments_lines _)).
  by apply list_elem_of_fmap_2.
Qed.

(** C5 A clean test gate (_evaluate_complete_tdd_gate in run/runner.py) is
    proof of tested, covered code.  When it returns no finding, its arguments
    are the policy, the separator and the selectors; pytest ended with 0; the
    run passed in the sense of the verdict on test runs, with the selectors as
    its plan; and each production file among the reviewed files has a coverage
    percentage of at least the sealed threshold, which is at least 80, or has
    none and is an [__init__.py] the code takes for empty: of its text nothing
    but [pass] remains when what stands between runs of three quotes and the
    comments are taken away.  If no three quotes of a kind stand in a row in
    it, each of its lines is then blank, a comment or [pass]; with them
    statements can hide between two comments (see the finding). *)
Theorem complete_gate_sound (h : HostFiles) (r : PytestRun) (files adapter_argv : list string)
    (snapshot_root : string) (allow_project_discovery : bool) (coverage : option coverage_by_source) :
  _evaluate_complete_tdd_gate h r files adapter_argv snapshot_root allow_project_discovery = Ok ([], coverage) →
  ∃ policy_argv selectors test_roots threshold observer junit payload,
    adapter_argv = policy_argv ++ "--" :: selectors ∧ ("--" ∉ policy_argv) ∧
    (selectors = [] → allow_project_discovery = true) ∧
    _projected_pytest_test_roots h policy_argv = Ok test_roots ∧
    _coverage_threshold_from_policy_argv h policy_argv = Ok threshold ∧
    float_leb (float_of_Z 80) threshold = true ∧
    pr_execution r = Executed 0 ∧
    _load_pytest_outcome_evidence (pr_observer r) (pr_junit r) = Ok (observer, junit) ∧
    run_passed observer junit 0 selectors ∧ pr_coverage r = Ok payload ∧
    ∀ file, file ∈ files → production_file snapshot_root test_roots selectors observer file →
      (∃ percent, _coverage_for_source h file payload = Ok (Some percent) ∧ float_leb threshold percent = true) ∨
      (_coverage_for_source h file payload = Ok None ∧
       ∃ content, of_chars (path_name file) = "__init__.py" ∧ hf_read_text h file = Ok content ∧
         stripped_content content ∈ [""; "pass"] ∧
         (triple_free dquote_char content → triple_free squote_char content →
          ∀ line, line ∈ split_on (ascii_of_nat 10) content → idle_line line)).
Proof.
  unfold _evaluate_complete_tdd_gate.
  destruct (_split_pytest_adapter_argv adapter_argv) as [[policy_argv selectors]|] eqn:Ea; cbn [res_bind]; [|done].
  apply split_argv_Ok in Ea as [-> Hno].
  destruct (_projected_pytest_test_roots h policy_argv) as [test_roots|] eqn:Et; cbn [res_bind]; [|done].
  change ((λ s, path_join snapshot_root (selector_path s)) <$> selectors)
    with (selected_file snapshot_root <$> selectors).
  destruct (_complete_pytest_coverage_roots _ _ _) as [roots|] eqn:Er; cbn [res_bind]; [|done].
  destruct (bool_decide (selectors = []) && negb allow_project_discovery) eqn:Eg;
    [by intros ?%tool_error_not_clean|].
  destruct (_coverage_threshold_from_policy_argv h policy_argv) as [threshold|] eqn:Eth; cbn [res_bind]; [|done].
  intros [(observer & junit & sources & payload & _ & _ & Hx & Hl & Hrun & Hps & Hpay & Hcov) _]%execution_clean.
  exists policy_argv, selectors, test_roots, threshold, observer, junit, payload.
  pose proof (threshold_at_least _ _ _ Eth) as Hth.
  split_and!; try done.
  - intros ->. by destruct allow_project_discovery.
  - intros file Hf Hprod.
    assert (file ∈ sources) as Hin.
    { eapply production_sources_kept; [exact Hps| |apply Hprod].
      apply list_elem_of_In, filter_In. split; [by apply list_elem_of_In|by eapply production_file_gated]. }
    rewrite Forall_forall in Hcov. destruct (Hcov file Hin) as [|[Hnone He]]; [by left|right]. split; [done|].
    apply idle_init. revert He. unfold exempt. by destruct (_is_empty_init_file h file) as [[]|].
Qed.
End gate.

(** * Evidence that pytest writes *)

Section faithful.
Context `{PyRepr}.

Lemma identities_bucket observer identity :
  bucket identity (_pytest_junit_identities observer) =
  filter (λ nodeid, _pytest_junit_identity nodeid = Some identity) (nodes observer).
Proof.
  unfold _pytest_junit_identities. change (dict_keys (group_by nodeid_of observer)) with (nodes observer).
  assert (∀ l d, bucket identity (foldl (λ identities nodeid,
      match _pytest_junit_identity nodeid with
      | Some identity => dict_append identity nodeid identities
      | None => identities
      end) d l) = bucket identity d ++ filter (λ nodeid, _pytest_junit_identity nodeid = Some identity) l) as Hgo.
  { induction l as [|n l IH]; intros d; cbn [foldl]; [by rewrite app_nil_r|]. rewrite IH, filter_cons.
    destruct (_pytest_junit_identity n) as [i|]; [|by rewrite decide_False by done].
    rewrite bucket_append. destruct (decide (identity = i)) as [->|Hne].
    - by rewrite decide_True, <-app_assoc.
    - rewrite decide_False by congruence. by rewrite app_nil_r. }
  apply (Hgo _ []).
Qed.

(** A node whose JUnit name no other observed node has *)
Definition named (observer : list record) (nodeid : string) (identity : string * string) : Prop :=
  nodeid ∈ nodes observer ∧ _pytest_junit_identity nodeid = Some identity ∧
  ∀ other, other ∈ nodes observer → _pytest_junit_identity other = Some identity → other = nodeid.

Lemma NoDup_filter_singleton {A} (P : A → Prop) `{∀ x, Decision (P x)} l x :
  NoDup l → x ∈ l → P x → (∀ y, y ∈ l → P y → y = x) → filter P l = [x].
Proof.
  intros Hnd Hx Hp Hu. apply Permutation_singleton_r, NoDup_Permutation.
  - by apply NoDup_filter.
  - apply NoDup_singleton.
  - intros y. rewrite list_elem_of_filter, list_elem_of_singleton. split; [naive_solver|]. by intros ->.
Qed.
Lemma junit_nodeid_named observer nodeid index test_case :
  named observer nodeid (case_identity test_case) →
  junit_nodeid (_pytest_junit_identities observer) index test_case = nodeid.
Proof.
  intros (Hn & Hi & Hu). unfold junit_nodeid. rewrite identities_bucket.
  by rewrite (NoDup_filter_singleton _ _ nodeid) by (done || apply NoDup_nodes).
Qed.

(** A JUnit file that has a passing case for each observed node, under a name
    of its own, and no other case *)
Definition reports_passes (root : element) (observer : list record) : Prop :=
  (∀ test_case, test_case ∈ test_cases root →
     _pytest_junit_outcome test_case = "passed" ∧ ∃ nodeid, named observer nodeid (case_identity test_case)) ∧
  (∀ nodeid, nodeid ∈ nodes observer →
     ∃ test_case, test_case ∈ test_cases root ∧ named observer nodeid (case_identity test_case)).

Lemma record_texts nodeid outcome :
  nodeid_of (junit_record nodeid outcome) = nodeid ∧ record_text "outcome" (junit_record nodeid outcome) = outcome.
Proof. done. Qed.
Lemma elem_of_junit_records root identities record :
  record ∈ _pytest_junit_records root identities ↔
  ∃ index test_case, test_cases root !! index = Some test_case ∧
    record = junit_record (junit_nodeid identities index test_case) (_pytest_junit_outcome test_case).
Proof.
  unfold _pytest_junit_records. rewrite list_elem_of_lookup. split.
  - intros [i Hi]. rewrite list_lookup_imap in Hi. destruct (test_cases root !! i) as [c|] eqn:E; [|done].
    injection Hi as <-. eauto.
  - intros (i & c & Hi & ->). exists i. by rewrite list_lookup_imap, Hi.
Qed.
Lemma junit_outcome_passed root observer :
  reports_passes root observer →
  let junit := _pytest_junit_records root (_pytest_junit_identities observer) in
  (∀ nodeid, is_Some (junit_outcome nodeid junit) → nodeid ∈ nodes observer) ∧
  (∀ nodeid, nodeid ∈ nodes observer → junit_outcome nodeid junit = Some "passed").
Proof.
  intros [Hcases Hnodes] junit.
  assert (∀ r, r ∈ junit → nodeid_of r ∈ nodes observer ∧ record_text "outcome" r = "passed") as Hall.
  { intros r (i & c & Hc & ->)%elem_of_junit_records. destruct (Hcases c) as [Hp (n & Hn)];
      [by eapply list_elem_of_lookup_2|].
    rewrite (junit_nodeid_named _ n) by done. split; [apply Hn|]. by rewrite Hp. }
  unfold junit_outcome, records_of. split; intros n Hn.
  - destruct (last _) as [r|] eqn:E; cbn in Hn; [|by destruct Hn].
    apply last_Some_elem_of, list_elem_of_filter in E as [<- Hr]. by apply Hall.
  - destruct (Hnodes n Hn) as (c & Hc & Hnamed). apply list_elem_of_lookup in Hc as [i Hi].
    assert (junit_record n (_pytest_junit_outcome c) ∈ filter (λ r, nodeid_of r = n) junit) as Hin.
    { apply list_elem_of_filter. split; [done|]. apply elem_of_junit_records. exists i, c.
      by rewrite (junit_nodeid_named _ n). }
    destruct (last _) as [r|] eqn:E.
    + apply last_Some_elem_of, list_elem_of_filter in E as [_ Hr]. cbn. f_equal. by apply Hall.
    + apply last_None in E. rewrite E in Hin. by apply not_elem_of_nil in Hin.
Qed.

Lemma observer_records_dicts observer : observer_records (VList (VDict <$> observer)) = Ok observer.
Proof.
  unfold observer_records. replace (mapM _ (VDict <$> observer)) with (Some observer); [done|].
  symmetry. apply mapM_Some_2. induction observer; constructor; done.
Qed.

(** What a run without selectors (project discovery) needs of its records, and
    the sources it takes for tests *)
Definition discovery_valid (d : option discovery) (observer : list record) : Prop :=
  d = None ∨ observer ≠ [] ∧ ∀ nodeid, nodeid ∈ nodes observer →
    is_absolute (selector_path nodeid) = false ∧ (".." ∉ path_parts (selector_path nodeid)) ∧
    path_suffix (selector_path nodeid) = ".py".
Definition discovered_source (d : option discovery) (observer : list record) (file : string) : Prop :=
  ∃ di nodeid, d = Some di ∧ nodeid ∈ nodes observer ∧
    existsb (fnmatch (of_chars (path_name (selector_path nodeid)))) (di_patterns di) = true ∧
    path_eqb file (selected_file (di_snapshot di) nodeid) = true.

Lemma discovered_tests_total di observer :
  discovery_valid (Some di) observer →
  map_res (discovered_test di) observer =
    Ok ((λ r, if existsb (fnmatch (of_chars (path_name (selector_path (nodeid_of r))))) (di_patterns di)
              then Some (selected_file (di_snapshot di) (nodeid_of r)) else None) <$> observer).
Proof.
  intros [|[_ Hv]]; [done|]. assert (Hr : ∀ r, r ∈ observer → nodeid_of r ∈ nodes observer)
    by (intros r Hin; apply elem_of_nodes; by exists r).
  assert (Hv' : ∀ r, r ∈ observer → is_absolute (selector_path (nodeid_of r)) = false ∧
    (".." ∉ path_parts (selector_path (nodeid_of r))) ∧ path_suffix (selector_path (nodeid_of r)) = ".py")
    by (intros r Hin; by apply Hv, Hr). clear Hv Hr.
  induction observer as [|r observer IH]; [done|]. cbn [map_res fmap list_fmap].
  destruct (Hv' r) as (H1' & H2' & H3'); [left|]. unfold discovered_test at 1.
  change (hd "" (split_pair ":"%char (nodeid_of r))) with (selector_path (nodeid_of r)).
  rewrite H1', bool_decide_eq_false_2, H3' by done. cbn. rewrite IH; [done|]. intros r' Hr'. apply Hv'. by right.
Qed.
Lemma production_sources_valid d observer source_files :
  discovery_valid d observer →
  ∃ sources, production_sources d observer source_files = Ok sources ∧
    ∀ file, file ∈ sources → file ∈ source_files ∧ ¬ discovered_source d observer file.
Proof.
  intros Hv. destruct d as [di|]; cbn [production_sources].
  2:{ exists source_files. split; [done|]. intros file Hf. split; [done|]. by intros (di & _ & [=] & _). }
  rewrite (discovered_tests_total di observer Hv). destruct Hv as [|[Hne _]]; [done|].
  rewrite bool_decide_eq_false_2 by done. cbn [negb check res_bind]. eexists. split; [reflexivity|].
  intros file Hf. apply list_elem_of_In, filter_In in Hf as [Hf Hn]. split; [by apply list_elem_of_In|].
  intros (di' & nodeid & [= <-] & (r & Hr & <-)%elem_of_nodes & Hm & He).
  apply negb_true_iff, existsb_false_Forall in Hn. rewrite Forall_forall in Hn.
  rewrite (Hn (selected_file (di_snapshot di) (nodeid_of r))) in He; [done|].
  apply list_elem_of_omap. exists (Some (selected_file (di_snapshot di) (nodeid_of r))). split; [|done].
  apply list_elem_of_fmap. exists r. by rewrite Hm.
Qed.

(** C14 The gate does not reject an honest run.  When pytest and its coverage
    plugin are installed and the process exited with 0, each observed node
    passed (its call record passed and no record of it failed), the JUnit file
    has passing cases for exactly the observed nodes under names that tell
    them apart, the plan is covered, and every source is covered in the
    payload, then _evaluate_pytest_execution (run/runner.py) returns no
    finding.  With a project discovery the run must also have recorded
    something, and only nodes of Python files below the root; the sources that
    are such test files then need no coverage. *)
Theorem honest_run_accepted (h : HostFiles) (r : PytestRun) (source_files planned : list string)
    (o : coverage_options) (d : option discovery) (anchor : string) (observer : list record) (root : element)
    (payload : pyval) :
  pr_pytest_found r = true → pr_pytest_cov_found r = true → pr_execution r = Executed 0 →
  pr_observer r = Ok (VList (VDict <$> observer)) → pr_junit r = Ok root → pr_coverage r = Ok payload →
  (∀ nodeid, nodeid ∈ nodes observer → node_passed (records_of nodeid observer)) →
  reports_passes root observer → plan_covered planned (nodes observer) →
  discovery_valid d observer →
  (∀ file, file ∈ source_files → discovered_source d observer file ∨ source_covered h o payload file) →
  ∃ coverage, _evaluate_pytest_execution h r source_files planned o d anchor = Ok ([], Some coverage).
Proof.
  intros Hp Hc Hx Ho Hj Hpay Hnodes Hroot Hplan Hd Hcov. apply execution_accepts.
  destruct (production_sources_valid d observer source_files Hd) as (sources & Hs & Hleft).
  exists observer, (_pytest_junit_records root (_pytest_junit_identities observer)), sources, payload.
  destruct (junit_outcome_passed root observer Hroot) as [Honly Hpassed].
  unfold _load_pytest_outcome_evidence. rewrite Ho, Hj. cbn [res_bind]. rewrite observer_records_dicts.
  split_and!; try done.
  - split_and!; [done| |done|done]. intros n Hn. split; [by apply Hnodes|by apply Hpassed].
  - apply Forall_forall. intros file Hf. destruct (Hleft file Hf) as [Hin Hno]. by destruct (Hcov file Hin).
Qed.
End faithful.

(** * The sealed policy reaches the gate *)

Section sealed.
Context `{Sha256} `{PyRepr} `{TomlLoads} `{IniRead} `{ParserError}.

Lemma mounted_root index path :
  index = 1 ∨ index = 2 → path_root (_mounted_config_path index path) = "/".
Proof.
  intros Hi. unfold _mounted_config_path. rewrite path_root_join.
  - by destruct Hi as [-> | ->].
  - apply path_name_relative.
  - by destruct Hi as [-> | ->].
Qed.
Lemma mounted_not_option index path text :
  index = 1 ∨ index = 2 → path_root text = "" → _mounted_config_path index path ≠ text.
Proof. intros Hi Ht E. apply (mounted_root _ path) in Hi. rewrite E, Ht in Hi. done. Qed.

Definition sealed_argv (pytest_file coverage_file : string) : list string :=
  ["-c"; _mounted_config_path 1 pytest_file; "--rootdir"; snapshot_path;
   "--cov-config"; _mounted_config_path 2 coverage_file].
Lemma sealed_argv_flags pytest_file coverage_file rest :
  after_flag "-c" (sealed_argv pytest_file coverage_file ++ rest) = Some (_mounted_config_path 1 pytest_file) ∧
  after_flag "--cov-config" (sealed_argv pytest_file coverage_file ++ rest)
    = Some (_mounted_config_path 2 coverage_file).
Proof.
  unfold after_flag, sealed_argv. cbn [app]. split; [done|].
  pose proof (mounted_not_option 1 pytest_file "--cov-config" (or_introl eq_refl) eq_refl) as Hne.
  set (m1 := _mounted_config_path 1 pytest_file) in *. set (m2 := _mounted_config_path 2 coverage_file).
  cbn [list_find]. rewrite decide_False by done. cbn [fmap option_fmap option_map prod_map].
  rewrite (decide_False (P := m1 = "--cov-config")) by done. done.
Qed.
Lemma sealed_argv_split pytest_file coverage_file plugins selectors :
  Forall (λ plugin, pl_entry_point plugin ≠ "--") plugins →
  _split_pytest_adapter_argv (sealed_argv pytest_file coverage_file ++
    (plugins ≫= λ plugin, ["-p"; pl_entry_point plugin]) ++ "--" :: selectors) =
  Ok (sealed_argv pytest_file coverage_file ++ (plugins ≫= λ plugin, ["-p"; pl_entry_point plugin]), selectors).
Proof.
  intros Hp. apply split_argv_Ok. split; [by rewrite <-app_assoc|]. intros [Hin|Hin]%elem_of_app.
  - unfold sealed_argv in Hin. rewrite !elem_of_cons, elem_of_nil in Hin.
    destruct Hin as [?|[Hin|[?|[?|[?|[Hin|[]]]]]]]; try discriminate; symmetry in Hin; revert Hin;
      apply mounted_not_option; auto.
  - apply list_elem_of_bind in Hin as (plugin & Hin & Hpl). rewrite Forall_forall in Hp. specialize (Hp plugin Hpl).
    rewrite !elem_of_cons, elem_of_nil in Hin. destruct Hin as [?|[Hin|[]]]; congruence.
Qed.

Lemma write_coverage_projection_files mkdtemp b values b' mounted :
  _write_coverage_projection mkdtemp b values = Ok (b', mounted) →
  ∃ file payload, bb_files b' = bb_files b ++ [(file, payload)] ∧
    mounted = _mounted_config_path (S (length (bb_config_roots b))) file ∧ bb_member_argv b' = bb_member_argv b.
Proof.
  unfold _write_coverage_projection. case_match.
  - destruct (fold_res _ _ _); cbn [res_bind]; [|done]. intros [= <- <-]. eauto 10.
  - destruct (_serialize_coverage_projection values); cbn [res_bind]; [|done]. intros [= <- <-]. eauto 10.
Qed.
Lemma selection_controls_pass policy selection :
  validate_pytest_selection_controls policy = Ok selection → cr_status selection = "PASS" →
  ∃ addopts, json_iter (jget_default "addopts" (JArr []) policy) = Ok addopts ∧
    Forall (λ opt, rejected_addopt (json_str opt) = false) addopts.
Proof.
  unfold validate_pytest_selection_controls, json_strs. destruct (json_iter _) as [addopts|]; cbn [res_bind]; [|done].
  destruct (existsb rejected_addopt (json_str <$> addopts)) eqn:E; [by intros [= <-]|]. intros _ _.
  exists addopts. split; [done|]. apply existsb_false_Forall in E. by apply Forall_fmap in E.
Qed.

(** A bound test policy is admissible and is the one the gate runs
    (_bind_pytest_coverage_policy, _with_pytest_inventory and
    _split_pytest_adapter_argv in run/runner.py).  When binding succeeds, no
    added option selects tests (doctest modules of a local project apart), the
    policy's projection passed and its text is the file that the gate finds
    behind [-c]; whatever plugins are added, the gate splits off exactly the
    selectors of the inventory and finds the coverage file as well. *)
Theorem bound_policy_reaches_gate (mkdtemp : nat → string) (policy_bundle : option policy_root)
    (origin : option string) (b : _PolicyBindingBuilder) (selectors : list string)
    (plugins : list PytestPluginIdentity) :
  _bind_pytest_coverage_policy mkdtemp empty_builder policy_bundle origin = Ok b →
  Forall (λ plugin, pl_entry_point plugin ≠ "--") plugins →
  ∃ policy projection addopts text pytest_file coverage_file coverage_text adapter_argv policy_argv,
    _pytest_policy_values policy_bundle = Ok policy ∧
    json_iter (jget_default "addopts" (JArr []) policy) = Ok addopts ∧
    (∀ opt, opt ∈ addopts →
       rejected_addopt (json_str opt) = false ∨ (is_Some origin ∧ opt = JStr "--doctest-modules")) ∧
    project_pytest_policy policy snapshot_path "/opt/specfact/tmp/pytest" = Ok projection ∧
    pp_status projection = "PASS" ∧ _serialize_pytest_projection (pp_values projection) = Ok text ∧
    bb_files b = [(pytest_file, text); (coverage_file, coverage_text)] ∧
    dict_get "targeted-pytest-coverage" (_with_pytest_inventory (bb_member_argv b) selectors plugins)
      = Some adapter_argv ∧
    _split_pytest_adapter_argv adapter_argv = Ok (policy_argv, selectors) ∧
    after_flag "-c" policy_argv = Some (_mounted_config_path 1 pytest_file) ∧
    after_flag "--cov-config" policy_argv = Some (_mounted_config_path 2 coverage_file).
Proof.
  unfold _bind_pytest_coverage_policy. destruct (check _ _); cbn [res_bind]; [|done].
  destruct (_pytest_policy_values policy_bundle) as [policy|]; cbn [res_bind]; [|done].
  destruct (if bool_decide (is_Some origin) then _ else _) as [selection_policy|] eqn:Esel; cbn [res_bind]; [|done].
  destruct (validate_pytest_selection_controls selection_policy) as [selection|] eqn:Eval; cbn [res_bind]; [|done].
  destruct (String.eqb_spec (cr_status selection) "PASS") as [Hsel|]; cbn [check res_bind]; [|done].
  destruct (project_pytest_policy _ _ _) as [projection|] eqn:Eproj; cbn [res_bind]; [|done].
  destruct (String.eqb_spec (pp_status projection) "PASS") as [Hstatus|]; cbn [check res_bind]; [|done].
  destruct (_coverage_policy_values _) as [coverage_policy|]; cbn [res_bind]; [|done].
  destruct (if bool_decide (is_Some origin) then split_local coverage_policy else (coverage_policy, []))
    as [cov_policy local_coverage].
  destruct (check _ _); cbn [res_bind]; [|done].
  destruct (_serialize_pytest_projection _) as [text|] eqn:Etext; cbn [res_bind]; [|done].
  set (file := path_join (mkdtemp 0) "pytest.ini"). cbn [_write_policy_projection empty_builder bb_files length bb_config_roots].
  destruct (_write_coverage_projection _ _ _) as [[b1 mounted]|] eqn:Ecov; cbn [res_bind]; [|done].
  apply write_coverage_projection_files in Ecov as (cfile & ctext & Hfiles & -> & Hargv).
  destruct (jitem "testpaths" policy) as [testpaths|]; cbn [res_bind]; [|done].
  destruct (json_strs testpaths) as [roots|]; cbn [res_bind]; [|done]. intros [= <-] Hplugins.
  apply selection_controls_pass in Eval as (addopts & Hiter & Hadd); [|done].
  assert (∃ raw, json_iter (jget_default "addopts" (JArr []) policy) = Ok raw ∧ ∀ opt, opt ∈ raw →
    rejected_addopt (json_str opt) = false ∨ (is_Some origin ∧ opt = JStr "--doctest-modules")) as (raw & Hraw & Hopts).
  { case_bool_decide as Ho.
    - destruct (json_iter (jget_default "addopts" (JArr []) policy)) as [raw|]; cbn [res_bind] in Esel; [|done].
      injection Esel as <-. unfold jget_default in Hiter. rewrite dict_get_set_eq in Hiter. cbn in Hiter.
      injection Hiter as <-. exists raw. split; [done|]. intros opt Hopt.
      destruct (decide (opt = JStr "--doctest-modules")); [by right|left].
      rewrite Forall_forall in Hadd. apply Hadd, list_elem_of_filter. done.
    - injection Esel as <-. exists addopts. split; [done|]. intros opt Hopt. left.
      rewrite Forall_forall in Hadd. by apply Hadd. }
  exists policy, projection, raw, text, file, cfile, ctext,
    (sealed_argv file cfile ++ (plugins ≫= λ plugin, ["-p"; pl_entry_point plugin]) ++ "--" :: selectors),
    (sealed_argv file cfile ++ (plugins ≫= λ plugin, ["-p"; pl_entry_point plugin])).
  split_and!; try done.
  - unfold _with_pytest_inventory. rewrite dict_get_set_eq. do 2 f_equal.
    unfold bind_argv. cbn [bb_member_argv]. rewrite dict_get_set_ne by done. rewrite dict_get_set_eq. done.
  - by apply sealed_argv_split.
  - apply sealed_argv_flags.
Qed.
End sealed.

(** * Samples *)

#[local] Instance sample_repr : PyRepr := λ _, "".
#[local] Instance sample_ini : IniRead := λ text,
  if String.eqb text "pytest.ini"
  then Some [("pytest", [("testpaths", "/opt/specfact/snapshot/tests")])]
  else Some [("report", [("fail_under", "90")])].
#[local] Instance sample_toml : TomlValues := λ _, None.

Definition phase_record (nodeid phase : string) : record :=
  obj [("nodeid", VStr nodeid); ("phase", VStr phase); ("passed", VBool true); ("skipped", VBool false);
       ("wasxfail", VStr "")].
Definition sample_nodes : list string := ["tests/test_a.py::test_one"; "tests/test_a.py::TestB::test_two[x-1]"].
Definition sample_observer : list record :=
  ((λ n, phase_record n "collection") <$> sample_nodes) ++
  (sample_nodes ≫= λ n, phase_record n <$> ["setup"; "call"; "teardown"] : list record).
Definition sample_case (classname name : string) : element :=
  Elem "testcase" [("classname", classname); ("name", name); ("time", "0.1")] [].
Definition sample_junit : element :=
  Elem "testsuites" [] [Elem "testsuite" [("tests", "2")]
    [sample_case "tests.test_a" "test_one"; sample_case "tests.test_a.TestB" "test_two[x-1]"]].
Definition sample_source : string := "/opt/specfact/snapshot/src/a.py".
Definition sample_payload : pyval :=
  VDict (obj [("files", VDict (obj [("src/a.py", VDict (obj [("summary",
    VDict (obj [("percent_covered", VFloat (float_dec 925 1))]))]))]))]).
Definition sample_files : HostFiles :=
  {| hf_resolve := λ p, Some (if is_absolute p then p else path_join snapshot_path p);
     hf_read_text := λ p, Ok (of_chars (path_name p)); hf_exists := λ _, true; hf_cwd := snapshot_path |}.
Definition sample_run : PytestRun :=
  {| pr_pytest_found := true; pr_pytest_cov_found := true; pr_execution := Executed 0;
     pr_observer := Ok (VList (VDict <$> sample_observer)); pr_junit := Ok sample_junit;
     pr_coverage := Ok sample_payload |}.
Definition sample_argv : list string :=
  ["-c"; "/opt/specfact/config/1/pytest.ini"; "--rootdir"; snapshot_path; "--cov-config";
   "/opt/specfact/config/2/coveragerc"; "--"; "tests/test_a.py::test_one"; "tests/test_a.py::TestB::test_two"].
Definition sample_gate : result gate_result :=
  _evaluate_complete_tdd_gate sample_files sample_run [sample_source; "/opt/specfact/snapshot/tests/test_a.py"]
    sample_argv snapshot_path false.

Example sample_gate_clean : sample_gate = Ok ([], Some [(sample_source, float_dec 925 1)]).
Proof. vm_compute. reflexivity. Qed.

Lemma complete_gate_sound_witness :
  ∃ policy_argv selectors test_roots threshold observer junit payload,
    sample_argv = policy_argv ++ "--" :: selectors ∧ ("--" ∉ policy_argv) ∧
    (selectors = [] → false = true) ∧
    _projected_pytest_test_roots sample_files policy_argv = Ok test_roots ∧
    _coverage_threshold_from_policy_argv sample_files policy_argv = Ok threshold ∧
    float_leb (float_of_Z 80) threshold = true ∧
    pr_execution sample_run = Executed 0 ∧
    _load_pytest_outcome_evidence (pr_observer sample_run) (pr_junit sample_run) = Ok (observer, junit) ∧
    run_passed observer junit 0 selectors ∧ pr_coverage sample_run = Ok payload ∧
    ∀ file, file ∈ [sample_source; "/opt/specfact/snapshot/tests/test_a.py"] →
      production_file snapshot_path test_roots selectors observer file →
      (∃ percent, _coverage_for_source sample_files file payload = Ok (Some percent) ∧
         float_leb threshold percent = true) ∨
      (_coverage_for_source sample_files file payload = Ok None ∧
       ∃ content, of_chars (path_name file) = "__init__.py" ∧ hf_read_text sample_files file = Ok content ∧
         stripped_content content ∈ [""; "pass"] ∧
         (triple_free dquote_char content → triple_free squote_char content →
          ∀ line, line ∈ split_on (ascii_of_nat 10) content → idle_line line)).
Proof. eapply complete_gate_sound. exact sample_gate_clean. Defined.

Lemma sample_nodes_eq : nodes sample_observer = sample_nodes.
Proof. vm_compute. reflexivity. Qed.
Lemma sample_named nodeid identity :
  (nodeid, identity) ∈ [("tests/test_a.py::test_one", ("tests.test_a", "test_one"));
                        ("tests/test_a.py::TestB::test_two[x-1]", ("tests.test_a.TestB", "test_two[x-1]"))] →
  named sample_observer nodeid identity.
Proof.
  unfold named. rewrite sample_nodes_eq. intros [[= -> ->]|[[= -> ->]|[]%elem_of_nil]%elem_of_cons]%elem_of_cons;
    (split_and!; [repeat constructor|by vm_compute|]);
    by intros other [->|[->|[]%elem_of_nil]%elem_of_cons]%elem_of_cons ?.
Qed.
Lemma sample_reports : reports_passes sample_junit sample_observer.
Proof.
  split.
  - intros c Hc. change (test_cases sample_junit) with
      [sample_case "tests.test_a" "test_one"; sample_case "tests.test_a.TestB" "test_two[x-1]"] in Hc.
    apply elem_of_cons in Hc as [->|[->|[]%elem_of_nil]%elem_of_cons]; (split; [done|]); eexists;
      apply sample_named; repeat constructor.
  - rewrite sample_nodes_eq. intros n [->|[->|[]%elem_of_nil]%elem_of_cons]%elem_of_cons.
    + exists (sample_case "tests.test_a" "test_one"). split; [by constructor|]. apply sample_named. repeat constructor.
    + exists (sample_case "tests.test_a.TestB" "test_two[x-1]"). split; [by repeat constructor|].
      apply sample_named. repeat constructor.
Qed.
Lemma sample_nodes_passed nodeid :
  nodeid ∈ nodes sample_observer → node_passed (records_of nodeid sample_observer).
Proof.
  rewrite sample_nodes_eq. intros [->|[->|[]%elem_of_nil]%elem_of_cons]%elem_of_cons;
    apply observed_passed; by vm_compute.
Qed.
Definition sample_options : coverage_options :=
  {| co_allow_project_omitted_initializers := false; co_threshold := float_of_Z 90; co_blocking_low_coverage := true |}.
Definition sample_discovery : option discovery :=
  Some {| di_snapshot := snapshot_path; di_patterns := ["test_*.py"] |}.
Lemma honest_run_accepted_witness :
  ∃ coverage, _evaluate_pytest_execution sample_files sample_run [sample_source; snapshot_path +:+ "/tests/test_a.py"]
    [] sample_options sample_discovery sample_source = Ok ([], Some coverage).
Proof.
  eapply (honest_run_accepted sample_files sample_run _ [] sample_options sample_discovery sample_source
    sample_observer sample_junit sample_payload); try reflexivity.
  - exact sample_nodes_passed.
  - exact sample_reports.
  - by left.
  - right. split; [done|]. rewrite sample_nodes_eq.
    intros nodeid [->|[->|[]%elem_of_nil]%elem_of_cons]%elem_of_cons;
      (split_and!; [by vm_compute|apply (bool_decide_unpack _); by vm_compute|by vm_compute]).
  - intros file [->|[->|[]%elem_of_nil]%elem_of_cons]%elem_of_cons.
    + right. left. exists (float_dec 925 1). split; vm_compute; reflexivity.
    + left. exists {| di_snapshot := snapshot_path; di_patterns := ["test_*.py"] |}, "tests/test_a.py::test_one".
      split; [done|]. split; [rewrite sample_nodes_eq; left|]. by vm_compute.
Defined.

#[local] Instance sealed_sha : Sha256 := λ l, of_chars l.
#[local] Instance sealed_error : ParserError := λ _, "error".
#[local] Instance sealed_toml : TomlLoads := λ _,
  Some (JObj [("tool", JObj [
    ("pytest", JObj [("testpaths", JArr [JStr "tests"]); ("addopts", JStr "-q --doctest-modules")]);
    ("coverage", JObj [("report", JObj [("fail_under", JInt 85)])])])]).
Definition sealed_root : policy_root := λ path, Ok (if String.eqb path "pyproject.toml" then Some "text" else None).
Definition sealed_builder : result _PolicyBindingBuilder :=
  _bind_pytest_coverage_policy (λ n, "/tmp/" +:+ pretty n) empty_builder (Some sealed_root) (Some "worktree").
Lemma bound_policy_reaches_gate_witness : ∃ b, sealed_builder = Ok b ∧
  ∃ policy projection addopts text pytest_file coverage_file coverage_text adapter_argv policy_argv,
    _pytest_policy_values (Some sealed_root) = Ok policy ∧
    json_iter (jget_default "addopts" (JArr []) policy) = Ok addopts ∧
    (∀ opt, opt ∈ addopts →
       rejected_addopt (json_str opt) = false ∨ (is_Some (Some "worktree") ∧ opt = JStr "--doctest-modules")) ∧
    project_pytest_policy policy snapshot_path "/opt/specfact/tmp/pytest" = Ok projection ∧
    pp_status projection = "PASS" ∧ _serialize_pytest_projection (pp_values projection) = Ok text ∧
    bb_files b = [(pytest_file, text); (coverage_file, coverage_text)] ∧
    dict_get "targeted-pytest-coverage" (_with_pytest_inventory (bb_member_argv b) ["tests/test_a.py::test_one"]
      [{| pl_entry_point := "pytest_asyncio" |}]) = Some adapter_argv ∧
    _split_pytest_adapter_argv adapter_argv = Ok (policy_argv, ["tests/test_a.py::test_one"]) ∧
    after_flag "-c" policy_argv = Some (_mounted_config_path 1 pytest_file) ∧
    after_flag "--cov-config" policy_argv = Some (_mounted_config_path 2 coverage_file).
Proof.
  destruct sealed_builder as [b|e] eqn:E; [|vm_compute in E; discriminate E].
  exists b. split; [reflexivity|].
  apply (bound_policy_reaches_gate (λ n, "/tmp/" +:+ pretty n) (Some sealed_root) (Some "worktree") b).
  - exact E.
  - repeat constructor. discriminate.
Defined.

(** ** Behaviours worth knowing *)

(** Code between two comments that hold three quotes is taken for a docstring:
    such an initializer passes as empty. *)
Definition hidden_code : string :=
  join newline ["# " +:+ of_chars (replicate 3 dquote_char); "launch()"; "# " +:+ of_chars (replicate 3 dquote_char)].
Lemma hidden_code_exempt :
  _is_empty_init_file {| hf_resolve := λ _, None; hf_read_text := λ _, Ok hidden_code; hf_exists := λ _, true;
    hf_cwd := "/" |} "src/pkg/__init__.py" = Ok true.
Proof. vm_compute. reflexivity. Qed.

(** A skipped teardown is not looked at: only a JUnit file that says so keeps
    the run from passing. *)
Definition skipping_teardown : list record :=
  [phase_record "tests/test_a.py::test_one" "call";
   obj [("nodeid", VStr "tests/test_a.py::test_one"); ("phase", VStr "teardown"); ("passed", VBool false);
        ("skipped", VBool true); ("wasxfail", VStr "")]].
Lemma skipped_teardown_ignored :
  _pytest_observed_outcome skipping_teardown = Passed ∧
  or_status (reconcile_pytest_outcomes skipping_teardown [junit_record "tests/test_a.py::test_one" "passed"] 0 [])
    = "PASS" ∧
  or_status (reconcile_pytest_outcomes skipping_teardown [junit_record "tests/test_a.py::test_one" "skipped"] 0 [])
    = "UNKNOWN".
Proof. by vm_compute. Qed.
