(* ===== verification/Merge.v ===== *)
(** Merge: the persona-aware bundle merge of
    [specfact_project/merge/resolver.py] with the section ownership of
    [specfact_project/utils/persona_ownership.py]. *)

From S2P Require Import Prelude Text Regex Dict PyValue.

(** * Shell patterns ([fnmatch.fnmatch] on a case-sensitive platform)

    A pattern is translated to a regular expression that the whole name must
    match. *)

(** Where the closing bracket of a class is looked for: behind an optional
    [!] and an immediate []]; [None] when there is none. *)
Fixpoint find_close (skipped : list ascii) (l : list ascii) : option (list ascii * list ascii) :=
  match l with
  | [] => None
  | c :: l' => if bool_decide (c = "]"%char) then Some (reverse skipped, l') else find_close (c :: skipped) l'
  end.
Definition take_bang (l : list ascii) : list ascii * list ascii :=
  match l with
  | c :: l' => if bool_decide (c = "!"%char) then ([c], l') else ([], l)
  | [] => ([], [])
  end.
Definition split_class (l : list ascii) : option (list ascii * list ascii) :=
  let '(bang, l) := take_bang l in
  match l with
  | c :: l' => if bool_decide (c = "]"%char) then find_close (c :: bang) l' else find_close bang l
  | [] => None
  end.

(** The text between the brackets cut at the hyphens that make ranges: a
    hyphen counts from the position [skip] characters ahead. *)
Fixpoint class_chunks (skip : nat) (chunk : list ascii) (l : list ascii) : list (list ascii) :=
  match l with
  | [] => [reverse chunk]
  | c :: l' =>
      match skip with
      | S skip => class_chunks skip (c :: chunk) l'
      | O => if bool_decide (c = "-"%char) then reverse chunk :: class_chunks 2 [] l'
             else class_chunks 0 (c :: chunk) l'
      end
  end.
(** A range that ends with its hyphen is no range: the hyphen is literal. *)
Definition close_chunks (chunks : list (list ascii)) : list (list ascii) :=
  match reverse chunks with
  | [] :: last :: front => reverse ((last ++ ["-"%char]) :: front)
  | _ => chunks
  end.
(** Empty ranges are removed, from the last one. *)
Definition join_empty (chunk : list ascii) (rest : list (list ascii)) : list (list ascii) :=
  match rest, reverse chunk with
  | (hi :: tail) :: more, lo :: front =>
      if (code hi <? code lo)%Z then (reverse front ++ tail) :: more else chunk :: rest
  | _, _ => chunk :: rest
  end.
Definition class_ranges (chunks : list (list ascii)) : list (list ascii) := foldr join_empty [] chunks.

Definition in_range (lo hi c : ascii) : bool := between (code lo) (code hi) c.
Fixpoint class_mem (chunks : list (list ascii)) (c : ascii) : bool :=
  match chunks with
  | [] => false
  | chunk :: rest =>
      bool_decide (c ∈ chunk)
      || match last chunk, rest with
         | Some lo, (hi :: _) :: _ => in_range lo hi c
         | _, _ => false
         end
      || class_mem rest c
  end.
Definition class_regex (stuff : list ascii) : regex :=
  let '(bang, _) := take_bang stuff in
  let chunks := class_ranges (close_chunks (class_chunks (S (length bang)) [] stuff)) in
  match chunks with
  | (c :: chunk) :: rest =>
      if bool_decide (c = "!"%char)
      then RSet (λ d, negb (class_mem (chunk :: rest) d))
      else RSet (class_mem chunks)
  | _ => RSet (class_mem chunks)
  end.

Fixpoint translate (fuel : nat) (pat : list ascii) : regex :=
  match fuel, pat with
  | S fuel, c :: pat' =>
      if bool_decide (c = "*"%char) then RSeq (RStar (RSet (λ _, true))) (translate fuel pat')
      else if bool_decide (c = "?"%char) then RSeq (RSet (λ _, true)) (translate fuel pat')
      else if bool_decide (c = "["%char)
      then match split_class pat' with
           | Some (stuff, rest) => RSeq (class_regex stuff) (translate fuel rest)
           | None => RSeq (RChar c) (translate fuel pat')
           end
      else RSeq (RChar c) (translate fuel pat')
  | _, _ => REmpty
  end.
Definition fnmatch (name pat : string) : bool :=
  fullmatch (translate (length (chars pat)) (chars pat)) name.

Example fnmatch_star : fnmatch "features.F-1.stories" "features.*" = true.
Proof. vm_compute. reflexivity. Qed.
Example fnmatch_class : fnmatch "b-]x" "[!ac-e][-][]]?" = true.
Proof. vm_compute. reflexivity. Qed.
Example fnmatch_open : fnmatch "[a" "[a" = true.
Proof. vm_compute. reflexivity. Qed.

(** * Ownership (utils/persona_ownership.py) *)

Record PersonaMapping := { owns : list string }.
Record BundleManifest := { personas : list (string * PersonaMapping) }.

Definition match_section_pattern (section_pattern path : string) : bool :=
  let pattern := replace ".*" "/*" section_pattern in
  fnmatch path pattern || fnmatch path section_pattern.

Definition check_persona_ownership (persona : string) (manifest : BundleManifest) (section_path : string) :
    bool :=
  match dict_get persona (personas manifest) with
  | None => false
  | Some persona_mapping => existsb (λ p, match_section_pattern p section_path) (owns persona_mapping)
  end.

(** * Bundles

    The fields the merge reads and writes; everything else a bundle and its
    parts carry is one opaque value. *)
Section bundles.
Context {X : Type}.

Record Story := { story_key : string; story_description : pyval; story_rest : X }.
Record Feature := { feature_title : pyval; stories : list Story; feature_rest : X }.
Record Idea := { idea_title : pyval; idea_rest : X }.
Record Business := { value_proposition : pyval; business_rest : X }.
Record Product := { themes : list pyval; product_rest : X }.
Record ProjectBundle := {
  manifest : BundleManifest;
  idea : option Idea;
  business : option Business;
  product : option Product;
  features : list (string * Feature);
  bundle_rest : X
}.

Inductive MergeStrategy := AUTO | OURS | THEIRS | BASE | MANUAL.
Record MergeConflict := {
  section_path : string;
  field_name : string;
  base_value : pyval;
  ours_value : pyval;
  theirs_value : pyval;
  owner_ours : option string;
  owner_theirs : option string;
  resolution : MergeStrategy;
  resolved_value : option pyval
}.
Record MergeResolution := {
  merged_bundle : ProjectBundle;
  conflicts : list MergeConflict;
  auto_resolved : nat;
  manual_resolved : nat;
  unresolved : nat
}.

Definition _sections_disjoint (ours theirs : ProjectBundle) : bool := false.

(** ** Merging disjoint sections *)

Definition prefer {A} (merged ours : option A) : option A :=
  match merged with Some _ => merged | None => ours end.
Definition _merge_sections (base ours theirs : ProjectBundle) : ProjectBundle :=
  let with_ours := foldl (λ d kf, dict_set kf.1 kf.2 d) (features base) (features ours) in
  let with_theirs :=
    foldl (λ d kf, if dict_mem kf.1 d then d else dict_set kf.1 kf.2 d) with_ours (features theirs) in
  {| manifest := manifest base;
     idea := prefer (prefer (idea base) (idea ours)) (idea theirs);
     business := prefer (prefer (business base) (business ours)) (business theirs);
     product := match product theirs with
                | Some p => Some p
                | None => match product ours with Some p => Some p | None => product base end
                end;
     features := with_theirs; bundle_rest := bundle_rest base |}.

(** ** Conflicts *)

Definition conflict_values : Type := pyval * pyval * pyval.
(** All three differ. *)
Definition all_differ {A} `{EqDecision A} (b o t : A) : bool :=
  bool_decide (b ≠ o) && bool_decide (b ≠ t) && bool_decide (o ≠ t).

(** [next((s for s in stories if s.key == key), None)] *)
Definition find_story (key : string) (l : list Story) : option Story :=
  find (λ s, String.eqb (story_key s) key) l.
Definition story_path (key story_key : string) : string :=
  "features." +:+ key +:+ ".stories." +:+ story_key +:+ ".description".
Definition title_path (key : string) : string := "features." +:+ key +:+ ".title".

Definition story_keys (f : Feature) : gset string := list_to_set (story_key <$> stories f).
Definition story_conflict (key : string) (ours theirs : Feature) (acc : list (string * conflict_values))
    (skey : string) : list (string * conflict_values) :=
  match find_story skey (stories ours), find_story skey (stories theirs) with
  | Some o, Some t =>
      if bool_decide (story_description o ≠ story_description t)
      then dict_set (story_path key skey) (VNone, story_description o, story_description t) acc
      else acc
  | _, _ => acc
  end.

Definition feature_conflicts `{SetIter} (base ours theirs : ProjectBundle)
    (acc : list (string * conflict_values)) (key : string) : list (string * conflict_values) :=
  match dict_get key (features base), dict_get key (features ours), dict_get key (features theirs) with
  | Some b, Some o, Some t =>
      if all_differ (feature_title b) (feature_title o) (feature_title t)
      then
        let acc := dict_set (title_path key) (feature_title b, feature_title o, feature_title t) acc in
        let common_stories := (story_keys o ∩ story_keys t) ∖ story_keys b in
        foldl (story_conflict key o t) acc (set_iter common_stories)
      else acc
  | _, _, _ => acc
  end.

Definition all_feature_keys (base ours theirs : ProjectBundle) : gset string :=
  list_to_set (dict_keys (features base)) ∪ list_to_set (dict_keys (features ours))
  ∪ list_to_set (dict_keys (features theirs)).

Definition idea_conflict (base ours theirs : ProjectBundle) (acc : list (string * conflict_values)) :=
  match idea base, idea ours, idea theirs with
  | Some b, Some o, Some t =>
      if all_differ (idea_title b) (idea_title o) (idea_title t)
      then dict_set "idea.title" (idea_title b, idea_title o, idea_title t) acc else acc
  | _, _, _ => acc
  end.
Definition business_conflict (base ours theirs : ProjectBundle) (acc : list (string * conflict_values)) :=
  match business base, business ours, business theirs with
  | Some b, Some o, Some t =>
      if all_differ (value_proposition b) (value_proposition o) (value_proposition t)
      then dict_set "business.value_proposition"
             (value_proposition b, value_proposition o, value_proposition t) acc
      else acc
  | _, _, _ => acc
  end.
Definition product_conflict (base ours theirs : ProjectBundle) (acc : list (string * conflict_values)) :=
  match product base, product ours, product theirs with
  | Some b, Some o, Some t =>
      if bool_decide (themes o ≠ themes t)
         && (bool_decide (themes o ≠ themes b) || bool_decide (themes t ≠ themes b))
         && bool_decide (themes o ≠ themes b) && bool_decide (themes t ≠ themes b)
      then dict_set "product.themes" (VList (themes b), VList (themes o), VList (themes t)) acc
      else acc
  | _, _, _ => acc
  end.

Definition _find_conflicts `{SetIter} (base ours theirs : ProjectBundle) :
    list (string * conflict_values) :=
  let acc := foldl (feature_conflicts base ours theirs) []
               (set_iter (all_feature_keys base ours theirs)) in
  product_conflict base ours theirs (business_conflict base ours theirs (idea_conflict base ours theirs acc)).

Definition _get_owner (section_path : string) (m : BundleManifest) (persona : string) : option string :=
  if check_persona_ownership persona m section_path then Some persona else None.

Definition _get_section_path (conflict_path : string) : string :=
  match split_on "."%char conflict_path with
  | first :: rest =>
      if bool_decide (first ∈ ["idea"; "business"; "product"; "protocols"; "contracts"]) then first
      else
        match String.eqb first "features", rest with
        | true, key :: more =>
            match more with
            | third :: _ => if String.eqb third "stories" then "features." +:+ key +:+ ".stories"
                            else "features." +:+ key
            | [] => "features." +:+ key
            end
        | _, _ => conflict_path
        end
  | [] => conflict_path
  end.

(** ** Applying a resolution *)

Definition set_idea_title (v : pyval) (b : ProjectBundle) : ProjectBundle :=
  {| manifest := manifest b;
     idea := (λ i, {| idea_title := v; idea_rest := idea_rest i |}) <$> idea b;
     business := business b; product := product b; features := features b;
     bundle_rest := bundle_rest b |}.
Definition set_value_proposition (v : pyval) (b : ProjectBundle) : ProjectBundle :=
  {| manifest := manifest b; idea := idea b;
     business := (λ i, {| value_proposition := v; business_rest := business_rest i |}) <$> business b;
     product := product b; features := features b; bundle_rest := bundle_rest b |}.
Definition set_themes (l : list pyval) (b : ProjectBundle) : ProjectBundle :=
  {| manifest := manifest b; idea := idea b; business := business b;
     product := (λ p, {| themes := l; product_rest := product_rest p |}) <$> product b;
     features := features b; bundle_rest := bundle_rest b |}.
Definition set_feature (key : string) (f : Feature) (b : ProjectBundle) : ProjectBundle :=
  {| manifest := manifest b; idea := idea b; business := business b; product := product b;
     features := dict_set key f (features b); bundle_rest := bundle_rest b |}.
Definition with_title (v : pyval) (f : Feature) : Feature :=
  {| feature_title := v; stories := stories f; feature_rest := feature_rest f |}.
(** The first story with the key takes the description. *)
Fixpoint describe_story (key : string) (v : pyval) (l : list Story) : list Story :=
  match l with
  | [] => []
  | s :: l' =>
      if String.eqb (story_key s) key
      then {| story_key := story_key s; story_description := v; story_rest := story_rest s |} :: l'
      else s :: describe_story key v l'
  end.
Definition with_description (skey : string) (v : pyval) (f : Feature) : Feature :=
  {| feature_title := feature_title f; stories := describe_story skey v (stories f);
     feature_rest := feature_rest f |}.

Definition apply_to_feature (rest : list string) (value : pyval) (f : Feature) : Feature :=
  match rest with
  | third :: more =>
      if String.eqb third "title" then with_title value f
      else if String.eqb third "stories"
      then match more with
           | skey :: fifth :: _ =>
               if String.eqb fifth "description" then with_description skey value f else f
           | _ => f
           end
      else f
  | [] => f
  end.

Definition is_some {A} (o : option A) : bool := match o with Some _ => true | None => false end.
Definition _apply_resolution (bundle : ProjectBundle) (path : string) (value : pyval) : ProjectBundle :=
  match split_on "."%char path with
  | first :: rest =>
      let second := match rest with s :: _ => s | [] => "" end in
      if String.eqb first "idea" && is_some (idea bundle)
      then if String.eqb second "title" then set_idea_title value bundle else bundle
      else if String.eqb first "business" && is_some (business bundle)
      then if String.eqb second "value_proposition" then set_value_proposition value bundle else bundle
      else
        match String.eqb first "product" && is_some (product bundle) && String.eqb second "themes", value with
        | true, VList l => set_themes l bundle
        | _, _ =>
            match String.eqb first "features", rest with
            | true, key :: more =>
                match dict_get key (features bundle) with
                | Some f => set_feature key (apply_to_feature more value f) bundle
                | None => bundle
                end
            | _, _ => bundle
            end
        end
  | [] => bundle
  end.

(** ** The resolver *)

(** How the owners decide; [None] is a manual resolution. *)
Definition decide_owner (owner_ours owner_theirs : option string) (persona_ours persona_theirs : string) :
    option bool :=
  let ours := bool_decide (owner_ours = Some persona_ours) in
  let theirs := bool_decide (owner_theirs = Some persona_theirs) in
  if ours && negb theirs then Some true
  else if theirs && negb ours then Some false
  else if ours && theirs
  then if String.eqb persona_ours persona_theirs then Some true else None
  else None.

Definition resolve_step (m : BundleManifest) (persona_ours persona_theirs : string)
    (acc : MergeResolution) (c : string * conflict_values) : MergeResolution :=
  let '(path, (base_val, ours_val, theirs_val)) := c in
  let section := _get_section_path path in
  let owner_o := _get_owner section m persona_ours in
  let owner_t := _get_owner section m persona_theirs in
  let decision := decide_owner owner_o owner_t persona_ours persona_theirs in
  let resolved := (λ ours : bool, if ours then ours_val else theirs_val) <$> decision in
  {| merged_bundle :=
       match resolved with
       | Some v => _apply_resolution (merged_bundle acc) path v
       | None => merged_bundle acc
       end;
     conflicts := conflicts acc ++
       [{| section_path := section; field_name := path; base_value := base_val; ours_value := ours_val;
           theirs_value := theirs_val; owner_ours := owner_o; owner_theirs := owner_t;
           resolution := match decision with
                         | Some true => OURS | Some false => THEIRS | None => MANUAL
                         end;
           resolved_value := resolved |}];
     auto_resolved := match decision with Some _ => S (auto_resolved acc) | None => auto_resolved acc end;
     manual_resolved := manual_resolved acc;
     unresolved := match decision with Some _ => unresolved acc | None => S (unresolved acc) end |}.

Definition resolve `{SetIter} (base ours theirs : ProjectBundle) (persona_ours persona_theirs : string) :
    result MergeResolution :=
  if String.eqb persona_ours "" then Err (ContractViolation "Persona ours must be non-empty string")
  else if String.eqb persona_theirs "" then Err (ContractViolation "Persona theirs must be non-empty string")
  else
    let start := {| merged_bundle := base; conflicts := []; auto_resolved := 0;
                    manual_resolved := 0; unresolved := 0 |} in
    if _sections_disjoint ours theirs
    then Ok {| merged_bundle := _merge_sections base ours theirs; conflicts := [];
               auto_resolved := 0; manual_resolved := 0; unresolved := 0 |}
    else Ok (foldl (resolve_step (manifest base) persona_ours persona_theirs) start
               (_find_conflicts base ours theirs)).
End bundles.
Arguments Story : clear implicits.
Arguments Feature : clear implicits.
Arguments Idea : clear implicits.
Arguments Business : clear implicits.
Arguments Product : clear implicits.
Arguments ProjectBundle : clear implicits.
Arguments MergeResolution : clear implicits.
