(* ===== verification/MergeProofs.v ===== *)
(** MergeProofs: the accounting of a bundle merge and what each merged field
    holds: ownership decides the fields that all three versions disagree on,
    and every other field keeps its base value. *)

From S2P Require Import Prelude Text Regex Dict PyValue Merge.

#[export] Instance MergeStrategy_eq_dec : EqDecision MergeStrategy.
Proof. solve_decision. Defined.

Lemma length_filter_fmap {A B} (f : A → B) (P : B → Prop) (Q : A → Prop) `{∀ x, Decision (P x)}
    `{∀ x, Decision (Q x)} (l : list A) :
  (∀ x, P (f x) ↔ Q x) → length (filter P (f <$> l)) = length (filter Q l).
Proof.
  intros Hpq. induction l as [|x l IH]; [done|]. rewrite fmap_cons, !filter_cons.
  repeat case_decide; cbn; rewrite ?IH; firstorder.
Qed.

(** * Paths *)

Definition dot_free (s : string) : Prop := "."%char ∉ chars s.

Lemma split_on_dot a b : dot_free a → split_on "."%char (a +:+ "." +:+ b) = a :: split_on "."%char b.
Proof.
  intros Ha. unfold split_on. rewrite !chars_app. change (chars ".") with ["."%char].
  change (["."%char] ++ chars b) with ("."%char :: chars b).
  rewrite split_chars_app; [by cbn; rewrite of_chars_chars| |by apply bool_decide_eq_true].
  apply Forall_forall. intros d Hd. apply bool_decide_eq_false. intros ->. by apply Ha.
Qed.

Lemma split_on_single a : dot_free a → split_on "."%char a = [a].
Proof.
  intros Ha. unfold split_on. rewrite split_chars_single; [by cbn; rewrite of_chars_chars|].
  apply Forall_forall. intros d Hd. apply bool_decide_eq_false. intros ->. by apply Ha.
Qed.

Lemma split_title_path key : dot_free key → split_on "."%char (title_path key) = ["features"; key; "title"].
Proof.
  intros Hk. unfold title_path.
  change ("features." +:+ key +:+ ".title") with ("features" +:+ "." +:+ (key +:+ "." +:+ "title")).
  rewrite split_on_dot by (vm_compute; intros H; repeat (apply elem_of_cons in H as [?|H]; [done|]);
    by apply elem_of_nil in H).
  by rewrite (split_on_dot key "title" Hk).
Qed.

Lemma split_story_path key skey :
  dot_free key → ∃ rest, split_on "."%char (story_path key skey) = "features" :: key :: "stories" :: rest.
Proof.
  intros Hk. unfold story_path.
  change ("features." +:+ key +:+ ".stories." +:+ skey +:+ ".description") with
    ("features" +:+ "." +:+ (key +:+ "." +:+ ("stories" +:+ "." +:+ (skey +:+ ".description")))).
  rewrite split_on_dot by (vm_compute; intros H; repeat (apply elem_of_cons in H as [?|H]; [done|]);
    by apply elem_of_nil in H).
  rewrite (split_on_dot key _ Hk).
  rewrite split_on_dot by (vm_compute; intros H; repeat (apply elem_of_cons in H as [?|H]; [done|]);
    by apply elem_of_nil in H).
  by eexists.
Qed.

Lemma title_path_inj k1 k2 : title_path k1 = title_path k2 → k1 = k2.
Proof.
  unfold title_path. intros E%(inj (String.append _)). apply (f_equal chars) in E.
  rewrite !chars_app in E. apply app_inv_tail in E. by apply (inj chars).
Qed.

Lemma title_path_ne_story k1 k2 s : title_path k1 ≠ story_path k2 s.
Proof.
  unfold title_path, story_path. intros E%(f_equal (λ t, last (chars t))).
  rewrite !chars_app, !last_app in E. discriminate E.
Qed.

(** * Applying a resolution: what each path changes *)

Section merge.
Context {X : Type}.
Implicit Types (b base ours theirs : ProjectBundle X).

(** What the merge tells apart of a bundle *)
Definition title_of (key : string) (b : ProjectBundle X) : option pyval :=
  feature_title <$> dict_get key (features b).
Definition idea_of (b : ProjectBundle X) : option pyval := idea_title <$> idea b.
Definition proposition_of (b : ProjectBundle X) : option pyval := value_proposition <$> business b.
Definition themes_of (b : ProjectBundle X) : option (list pyval) := themes <$> product b.

Lemma apply_features b path key rest v :
  split_on "."%char path = "features" :: key :: rest →
  _apply_resolution b path v =
    match dict_get key (features b) with
    | Some f => set_feature key (apply_to_feature rest v f) b
    | None => b
    end.
Proof. intros E. unfold _apply_resolution. rewrite E. by destruct v. Qed.

Lemma apply_features_idea b path key rest v :
  split_on "."%char path = "features" :: key :: rest → idea_of (_apply_resolution b path v) = idea_of b.
Proof. intros E. rewrite (apply_features _ _ _ _ _ E). by destruct (dict_get _ _). Qed.
Lemma apply_features_business b path key rest v :
  split_on "."%char path = "features" :: key :: rest →
  proposition_of (_apply_resolution b path v) = proposition_of b.
Proof. intros E. rewrite (apply_features _ _ _ _ _ E). by destruct (dict_get _ _). Qed.
Lemma apply_features_product b path key rest v :
  split_on "."%char path = "features" :: key :: rest → themes_of (_apply_resolution b path v) = themes_of b.
Proof. intros E. rewrite (apply_features _ _ _ _ _ E). by destruct (dict_get _ _). Qed.

Lemma title_of_set_feature key key' f b :
  title_of key (set_feature key' f b) = if decide (key = key') then Some (feature_title f) else title_of key b.
Proof. unfold title_of, set_feature. cbn. rewrite dict_get_set. by case_decide. Qed.

(** A title path sets the title of its feature, and nothing else sets one. *)
Lemma apply_title key b v :
  dot_free key → title_of key (_apply_resolution b (title_path key) v) = (λ _, v) <$> title_of key b.
Proof.
  intros Hk. rewrite (apply_features _ _ _ _ _ (split_title_path key Hk)).
  destruct (dict_get key (features b)) as [f|] eqn:E.
  - rewrite title_of_set_feature, decide_True by done. unfold title_of. by rewrite E.
  - unfold title_of. by rewrite E.
Qed.
Lemma apply_title_other key key' b v :
  dot_free key' → key ≠ key' → title_of key (_apply_resolution b (title_path key') v) = title_of key b.
Proof.
  intros Hk Hne. rewrite (apply_features _ _ _ _ _ (split_title_path key' Hk)).
  destruct (dict_get key' (features b)); [|done]. by rewrite title_of_set_feature, decide_False.
Qed.
Lemma apply_story_title key key' skey b v :
  dot_free key' → title_of key (_apply_resolution b (story_path key' skey) v) = title_of key b.
Proof.
  intros Hk. destruct (split_story_path key' skey Hk) as [rest E].
  rewrite (apply_features _ _ _ _ _ E). destruct (dict_get key' (features b)) as [f|] eqn:Ef; [|done].
  rewrite title_of_set_feature. case_decide as Hkey; [|done]. subst. unfold title_of. rewrite Ef. cbn.
  destruct rest as [|s1 [|s2 rest]]; try done. cbn. by destruct (String.eqb s2 "description").
Qed.

(** The fixed paths *)
Lemma split_idea : split_on "."%char "idea.title" = ["idea"; "title"].
Proof. vm_compute. reflexivity. Qed.
Lemma split_business : split_on "."%char "business.value_proposition" = ["business"; "value_proposition"].
Proof. vm_compute. reflexivity. Qed.
Lemma split_product : split_on "."%char "product.themes" = ["product"; "themes"].
Proof. vm_compute. reflexivity. Qed.

Lemma apply_idea b v :
  _apply_resolution b "idea.title" v = match idea b with Some _ => set_idea_title v b | None => b end.
Proof. unfold _apply_resolution. rewrite split_idea. destruct b as [? [?|] ? ? ? ?], v; reflexivity. Qed.
Lemma apply_business b v :
  _apply_resolution b "business.value_proposition" v =
    match business b with Some _ => set_value_proposition v b | None => b end.
Proof. unfold _apply_resolution. rewrite split_business. destruct b as [? ? [?|] ? ? ?], v; reflexivity. Qed.
Lemma apply_product b v :
  _apply_resolution b "product.themes" v =
    match product b, v with Some _, VList l => set_themes l b | _, _ => b end.
Proof. unfold _apply_resolution. rewrite split_product. destruct b as [? ? ? [?|] ? ?], v; reflexivity. Qed.

(** The paths a merge reports, for feature keys without a dot *)
Definition conflict_path (p : string) : Prop :=
  (∃ k, dot_free k ∧ p = title_path k) ∨ (∃ k s, dot_free k ∧ p = story_path k s) ∨
  p = "idea.title" ∨ p = "business.value_proposition" ∨ p = "product.themes".

Lemma conflict_path_split p :
  conflict_path p →
  (∃ key rest, split_on "."%char p = "features" :: key :: rest) ∨
  p = "idea.title" ∨ p = "business.value_proposition" ∨ p = "product.themes".
Proof.
  intros [(k & Hk & ->)|[(k & s & Hk & ->)|?]]; [left|left|by right].
  - exists k, ["title"]. by apply split_title_path.
  - destruct (split_story_path k s Hk) as [rest E]. exists k, ("stories" :: rest). done.
Qed.

Lemma title_path_kept key b v q :
  conflict_path q → q ≠ title_path key → title_of key (_apply_resolution b q v) = title_of key b.
Proof.
  intros [(k & Hk & ->)|[(k & s & Hk & ->)|[->|[->| ->]]]] Hne.
  - apply apply_title_other; [done|]. by intros ->.
  - by apply apply_story_title.
  - rewrite apply_idea. by destruct (idea b).
  - rewrite apply_business. by destruct (business b).
  - rewrite apply_product. destruct (product b), v; done.
Qed.
Lemma idea_kept b v q : conflict_path q → q ≠ "idea.title" → idea_of (_apply_resolution b q v) = idea_of b.
Proof.
  intros [(key & rest & E)|[->|[->| ->]]]%conflict_path_split Hne.
  - by eapply apply_features_idea.
  - done.
  - rewrite apply_business. by destruct (business b).
  - rewrite apply_product. destruct (product b), v; done.
Qed.
Lemma proposition_kept b v q :
  conflict_path q → q ≠ "business.value_proposition" →
  proposition_of (_apply_resolution b q v) = proposition_of b.
Proof.
  intros [(key & rest & E)|[->|[->| ->]]]%conflict_path_split Hne.
  - by eapply apply_features_business.
  - rewrite apply_idea. by destruct (idea b).
  - done.
  - rewrite apply_product. destruct (product b), v; done.
Qed.
Lemma themes_kept b v q :
  conflict_path q → q ≠ "product.themes" → themes_of (_apply_resolution b q v) = themes_of b.
Proof.
  intros [(key & rest & E)|[->|[->| ->]]]%conflict_path_split Hne.
  - by eapply apply_features_product.
  - rewrite apply_idea. by destruct (idea b).
  - rewrite apply_business. by destruct (business b).
  - done.
Qed.

(** * Folding the resolutions *)

Section fold.
Context (m : BundleManifest) (po pt : string).

Definition decision (path : string) : option bool :=
  decide_owner (_get_owner (_get_section_path path) m po) (_get_owner (_get_section_path path) m pt) po pt.
(** The value that is applied at a conflicting path, if any *)
Definition chosen (path : string) (vals : conflict_values) : option pyval :=
  (λ ours : bool, if ours then vals.1.2 else vals.2) <$> decision path.

Lemma resolve_step_merged (acc : MergeResolution X) path vals :
  merged_bundle (resolve_step m po pt acc (path, vals)) =
    match chosen path vals with
    | Some v => _apply_resolution (merged_bundle acc) path v
    | None => merged_bundle acc
    end.
Proof. destruct vals as [[bv ov] tv]. reflexivity. Qed.

Lemma fold_observed {A} (obs : ProjectBundle X → option A) (upd : pyval → option A → option A) p
    (cs : list (string * conflict_values)) (acc : MergeResolution X) :
  dict_wf cs → Forall (λ c, conflict_path c.1) cs →
  (∀ b v, obs (_apply_resolution b p v) = upd v (obs b)) →
  (∀ b v q, conflict_path q → q ≠ p → obs (_apply_resolution b q v) = obs b) →
  obs (merged_bundle (foldl (resolve_step m po pt) acc cs)) =
    match dict_get p cs ≫= chosen p with
    | Some v => upd v (obs (merged_bundle acc))
    | None => obs (merged_bundle acc)
    end.
Proof.
  intros Hwf Hcs Hset Hkeep. revert acc. unfold dict_wf, dict_keys in Hwf.
  induction cs as [|[q vals] cs IH]; intros acc; [done|]. cbn [foldl].
  apply NoDup_cons in Hwf as [Hq Hwf]. apply Forall_cons in Hcs as [Hcq Hcs]. cbn [fst] in *.
  rewrite (IH Hwf Hcs), resolve_step_merged. cbn [dict_get]. case_decide as E.
  - subst. rewrite (proj2 (dict_get_None q cs) Hq). cbn [mbind option_bind].
    destruct (chosen q vals); [by rewrite Hset|done].
  - destruct (chosen q vals); [|done]. by rewrite Hkeep by done.
Qed.

Lemma fold_accounting (cs : list (string * conflict_values)) (acc : MergeResolution X) :
  let r := foldl (resolve_step m po pt) acc cs in
  conflicts r = conflicts acc ++
    ((λ c : string * conflict_values,
        {| section_path := _get_section_path c.1; field_name := c.1; base_value := c.2.1.1;
           ours_value := c.2.1.2; theirs_value := c.2.2;
           owner_ours := _get_owner (_get_section_path c.1) m po;
           owner_theirs := _get_owner (_get_section_path c.1) m pt;
           resolution := match decision c.1 with Some true => OURS | Some false => THEIRS | None => MANUAL end;
           resolved_value := chosen c.1 c.2 |}) <$> cs) ∧
  auto_resolved r + unresolved r = auto_resolved acc + unresolved acc + length cs ∧
  unresolved r = unresolved acc + length (filter (λ c, decision c.1 = None) cs) ∧
  manual_resolved r = manual_resolved acc.
Proof.
  revert acc. induction cs as [|[q vals] cs IH]; intros acc; cbn [foldl].
  { rewrite app_nil_r. cbn. split_and!; lia || done. }
  destruct (IH (resolve_step m po pt acc (q, vals))) as (H1 & H2 & H3 & H4). cbv zeta.
  rewrite H1, H2, H3, H4. destruct vals as [[bv ov] tv]. cbn [resolve_step conflicts auto_resolved
    unresolved manual_resolved]. rewrite filter_cons. cbn [fst].
  change (decide_owner _ _ po pt) with (decision q). unfold chosen; cbn [fst snd].
  split_and!.
  - rewrite <-app_assoc. done.
  - destruct (decision q); cbn; lia.
  - destruct (decision q); case_decide; cbn; try lia; congruence.
  - done.
Qed.
End fold.

(** * The conflicts that are found *)

Section found.
Context `{SetIterLaws}.

(** The conflict at a title path *)
Definition title_conflict base ours theirs (key : string) : option conflict_values :=
  match dict_get key (features base), dict_get key (features ours), dict_get key (features theirs) with
  | Some b, Some o, Some t =>
      if all_differ (feature_title b) (feature_title o) (feature_title t)
      then Some (feature_title b, feature_title o, feature_title t) else None
  | _, _, _ => None
  end.

Lemma story_conflict_get key (fo ft : Feature X) acc skey p :
  p ≠ story_path key skey → dict_get p (story_conflict key fo ft acc skey) = dict_get p acc.
Proof.
  intros Hp. unfold story_conflict. destruct (find_story skey (stories fo)), (find_story skey (stories ft));
    try done. case_bool_decide; [|done]. by apply dict_get_set_ne.
Qed.
Lemma story_conflicts_get key (fo ft : Feature X) skeys acc p :
  (∀ s, p ≠ story_path key s) →
  dict_get p (foldl (story_conflict key fo ft) acc skeys) = dict_get p acc.
Proof.
  intros Hp. revert acc. induction skeys as [|s skeys IH]; intros acc; [done|]. cbn.
  by rewrite IH, story_conflict_get.
Qed.

Lemma feature_conflicts_get base ours theirs acc key p :
  (∀ s, p ≠ story_path key s) →
  dict_get p (feature_conflicts base ours theirs acc key) =
    if decide (p = title_path key)
    then match title_conflict base ours theirs key with Some c => Some c | None => dict_get p acc end
    else dict_get p acc.
Proof.
  intros Hp. unfold feature_conflicts, title_conflict.
  destruct (dict_get key (features base)), (dict_get key (features ours)), (dict_get key (features theirs));
    try (by case_decide).
  destruct (all_differ _ _ _); [|by case_decide]. cbv zeta. rewrite story_conflicts_get by done.
  rewrite dict_get_set. by case_decide.
Qed.

Lemma features_conflicts_get base ours theirs keys acc p :
  (∀ k s, p ≠ story_path k s) → (∀ k, k ∈ keys → p ≠ title_path k) →
  dict_get p (foldl (feature_conflicts base ours theirs) acc keys) = dict_get p acc.
Proof.
  intros Hs. revert acc. induction keys as [|k keys IH]; intros acc Ht; [done|]. cbn.
  rewrite IH by (intros; apply Ht; by right). rewrite feature_conflicts_get by done.
  rewrite decide_False; [done|]. apply Ht. left.
Qed.

Lemma features_conflicts_title base ours theirs keys acc key :
  dict_get (title_path key) acc = None →
  dict_get (title_path key) (foldl (feature_conflicts base ours theirs) acc keys) =
    if decide (key ∈ keys) then title_conflict base ours theirs key else None.
Proof.
  revert acc. induction keys as [|k keys IH]; intros acc Hacc; [by rewrite decide_False by apply not_elem_of_nil|].
  cbn [foldl]. destruct (decide (key = k)) as [->|Hne].
  - rewrite (decide_True (P := k ∈ k :: keys)) by left.
    destruct (title_conflict base ours theirs k) as [c|] eqn:Ec.
    + assert (Hkeep : ∀ ks d, dict_get (title_path k) d = Some c →
        dict_get (title_path k) (foldl (feature_conflicts base ours theirs) d ks) = Some c).
      { induction ks as [|k' ks IHk]; intros d Hd; [done|]. cbn. apply IHk.
        rewrite feature_conflicts_get by (intros; apply title_path_ne_story).
        destruct (decide (title_path k = title_path k')) as [E|_]; [|exact Hd].
        apply title_path_inj in E as <-. by rewrite Ec. }
      apply Hkeep. rewrite feature_conflicts_get by (intros; apply title_path_ne_story).
      by rewrite decide_True, Ec.
    + rewrite IH; [by case_decide|]. rewrite feature_conflicts_get by (intros; apply title_path_ne_story).
      by rewrite decide_True, Ec.
  - rewrite IH.
    + destruct (decide (key ∈ keys)) as [Hk|Hk]; [rewrite decide_True; [done|by right]|].
      rewrite decide_False; [done|]. by intros [?|?]%elem_of_cons.
    + rewrite feature_conflicts_get by (intros; apply title_path_ne_story).
      rewrite decide_False; [done|]. by intros ?%title_path_inj.
Qed.
(** ** The fixed paths and the whole set of conflicts *)

(** The conflict of one field, from its three values *)
Definition conflict3 (b o t : option pyval) : option conflict_values :=
  match b, o, t with
  | Some b, Some o, Some t => if all_differ b o t then Some (b, o, t) else None
  | _, _, _ => None
  end.
Definition themes_value (b : ProjectBundle X) : option pyval := VList <$> themes_of b.

Lemma title_conflict_eq base ours theirs key :
  title_conflict base ours theirs key = conflict3 (title_of key base) (title_of key ours) (title_of key theirs).
Proof. unfold title_conflict, title_of. by do 3 destruct (dict_get key _). Qed.

Lemma idea_conflict_get base ours theirs acc p :
  dict_get p (idea_conflict base ours theirs acc) =
    if decide (p = "idea.title")
    then match conflict3 (idea_of base) (idea_of ours) (idea_of theirs) with
         | Some c => Some c | None => dict_get p acc end
    else dict_get p acc.
Proof.
  unfold idea_conflict, idea_of. destruct (idea base), (idea ours), (idea theirs); cbn; try (by case_decide).
  destruct (all_differ _ _ _); [|by case_decide]. rewrite dict_get_set. by case_decide.
Qed.
Lemma business_conflict_get base ours theirs acc p :
  dict_get p (business_conflict base ours theirs acc) =
    if decide (p = "business.value_proposition")
    then match conflict3 (proposition_of base) (proposition_of ours) (proposition_of theirs) with
         | Some c => Some c | None => dict_get p acc end
    else dict_get p acc.
Proof.
  unfold business_conflict, proposition_of.
  destruct (business base), (business ours), (business theirs); cbn; try (by case_decide).
  destruct (all_differ _ _ _); [|by case_decide]. rewrite dict_get_set. by case_decide.
Qed.
Lemma all_differ_lists (b o t : list pyval) :
  all_differ (VList b) (VList o) (VList t) =
    bool_decide (o ≠ t) && (bool_decide (o ≠ b) || bool_decide (t ≠ b)) && bool_decide (o ≠ b)
    && bool_decide (t ≠ b).
Proof.
  apply eq_true_iff_eq. unfold all_differ. rewrite !andb_true_iff, orb_true_iff, !bool_decide_eq_true.
  split; intros; destruct_and!; split_and!; try (left); congruence.
Qed.
Lemma product_conflict_get base ours theirs acc p :
  dict_get p (product_conflict base ours theirs acc) =
    if decide (p = "product.themes")
    then match conflict3 (themes_value base) (themes_value ours) (themes_value theirs) with
         | Some c => Some c | None => dict_get p acc end
    else dict_get p acc.
Proof.
  unfold product_conflict, themes_value, themes_of.
  destruct (product base), (product ours), (product theirs); cbn [fmap option_fmap option_map conflict3];
    try (by case_decide).
  rewrite all_differ_lists. destruct (_ && _); [|by case_decide]. rewrite dict_get_set. by case_decide.
Qed.

(** Every entry was put there by [dict_set] with a path of the merge. *)
Definition found_ok (P : string → Prop) (d : list (string * conflict_values)) : Prop :=
  dict_wf d ∧ Forall (λ c, P c.1) d.
Lemma found_ok_set P p c d : P p → found_ok P d → found_ok P (dict_set p c d).
Proof.
  intros Hp [Hwf Hd]. split; [by apply dict_wf_set|]. clear Hwf.
  induction Hd as [|[q c'] d Hq Hd IH]; cbn [dict_set]; [by constructor|]. cbn [fst] in Hq.
  case_decide; constructor; simplify_eq; done.
Qed.
Lemma found_ok_fold {A} P (f : list (string * conflict_values) → A → _) l d :
  (∀ d x, x ∈ l → found_ok P d → found_ok P (f d x)) → found_ok P d → found_ok P (foldl f d l).
Proof.
  intros Hf. revert d. induction l as [|x l IH]; intros d Hd; [done|]. apply IH.
  - intros; apply Hf; [by right|done].
  - apply Hf; [left|done].
Qed.

Lemma feature_conflicts_ok base ours theirs d key :
  (key ∈ dict_keys (features base) → dot_free key) →
  found_ok conflict_path d → found_ok conflict_path (feature_conflicts base ours theirs d key).
Proof.
  intros Hk Hd. unfold feature_conflicts.
  destruct (dict_get key (features base)) as [fb|] eqn:Eb; [|done].
  assert (Hdot : dot_free key) by (apply Hk, elem_of_dict_keys; eauto).
  destruct (dict_get key (features ours)), (dict_get key (features theirs)); try done.
  destruct (all_differ _ _ _); [|done]. apply found_ok_fold.
  - intros d' s _ Hd'. unfold story_conflict. repeat case_match; try done.
    apply found_ok_set; [|done]. right; left. eauto.
  - apply found_ok_set; [|done]. left. eauto.
Qed.

Lemma find_conflicts_ok base ours theirs :
  Forall dot_free (dict_keys (features base)) → found_ok conflict_path (_find_conflicts base ours theirs).
Proof.
  intros Hdot. unfold _find_conflicts, product_conflict, business_conflict, idea_conflict. cbv zeta.
  assert (Hf : found_ok conflict_path (foldl (feature_conflicts base ours theirs) []
    (set_iter (all_feature_keys base ours theirs)))).
  { apply found_ok_fold; [|by split; constructor]. intros d key _. apply feature_conflicts_ok.
    by apply Forall_forall. }
  repeat case_match; repeat (apply found_ok_set; [unfold conflict_path; tauto|]); done.
Qed.

Lemma find_conflicts_title base ours theirs key :
  dict_get (title_path key) (_find_conflicts base ours theirs) =
    conflict3 (title_of key base) (title_of key ours) (title_of key theirs).
Proof.
  unfold _find_conflicts. cbv zeta. rewrite product_conflict_get, decide_False by done.
  rewrite business_conflict_get, decide_False by done. rewrite idea_conflict_get, decide_False by done.
  rewrite features_conflicts_title by done. rewrite <-title_conflict_eq. case_decide as Hk; [done|].
  unfold title_conflict. destruct (dict_get key (features base)) as [f|] eqn:E; [|done]. destruct Hk.
  rewrite set_iter_perm. apply elem_of_elements. unfold all_feature_keys.
  rewrite !elem_of_union, elem_of_list_to_set. left; left. apply elem_of_dict_keys. eauto.
Qed.

Lemma features_conflicts_fixed base ours theirs p :
  (∀ k s, p ≠ story_path k s) → (∀ k, p ≠ title_path k) →
  dict_get p (foldl (feature_conflicts base ours theirs) []
    (set_iter (all_feature_keys base ours theirs))) = None.
Proof. intros. by rewrite features_conflicts_get. Qed.

Lemma find_conflicts_idea base ours theirs :
  dict_get "idea.title" (_find_conflicts base ours theirs) =
    conflict3 (idea_of base) (idea_of ours) (idea_of theirs).
Proof.
  unfold _find_conflicts. cbv zeta. rewrite product_conflict_get, decide_False by done.
  rewrite business_conflict_get, decide_False by done. rewrite idea_conflict_get, decide_True by done.
  rewrite features_conflicts_fixed by done. by destruct (conflict3 _ _ _).
Qed.
Lemma find_conflicts_business base ours theirs :
  dict_get "business.value_proposition" (_find_conflicts base ours theirs) =
    conflict3 (proposition_of base) (proposition_of ours) (proposition_of theirs).
Proof.
  unfold _find_conflicts. cbv zeta. rewrite product_conflict_get, decide_False by done.
  rewrite business_conflict_get, decide_True by done. rewrite idea_conflict_get, decide_False by done.
  rewrite features_conflicts_fixed by done. by destruct (conflict3 _ _ _).
Qed.
Lemma find_conflicts_product base ours theirs :
  dict_get "product.themes" (_find_conflicts base ours theirs) =
    conflict3 (themes_value base) (themes_value ours) (themes_value theirs).
Proof.
  unfold _find_conflicts. cbv zeta. rewrite product_conflict_get, decide_True by done.
  rewrite business_conflict_get, decide_False by done. rewrite idea_conflict_get, decide_False by done.
  rewrite features_conflicts_fixed by done. by destruct (conflict3 _ _ _).
Qed.
(** * The merged bundle *)

(** Which side owns a section: [Some true] is ours. *)
Definition section_owner (m : BundleManifest) (po pt section : string) : option bool :=
  match check_persona_ownership po m section, check_persona_ownership pt m section with
  | true, false => Some true
  | false, true => Some false
  | true, true => if String.eqb po pt then Some true else None
  | false, false => None
  end.
Lemma decision_owner m po pt path : decision m po pt path = section_owner m po pt (_get_section_path path).
Proof.
  unfold decision, decide_owner, _get_owner, section_owner. set (section := _get_section_path path).
  destruct (check_persona_ownership po m section), (check_persona_ownership pt m section);
    repeat case_bool_decide; by try congruence.
Qed.

(** The three-way merge of one field: the base value stands unless all three
    differ and one side owns the section. *)
Definition merge3 (owner : option bool) (b o t : option pyval) : option pyval :=
  match b, o, t with
  | Some bv, Some ov, Some tv =>
      if all_differ bv ov tv then match owner with Some true => o | Some false => t | None => b end else b
  | _, _, _ => b
  end.

Lemma merge3_apply m po pt path (upd : pyval → option pyval → option pyval) (b o t : option pyval) :
  (∀ bv ov tv v, conflict3 b o t = Some (bv, ov, tv) → v = ov ∨ v = tv → upd v b = Some v) →
  match conflict3 b o t ≫= chosen m po pt path with Some v => upd v b | None => b end =
    merge3 (section_owner m po pt (_get_section_path path)) b o t.
Proof.
  intros Hupd. unfold conflict3, merge3 in *. destruct b as [bv|], o as [ov|], t as [tv|]; try done.
  destruct (all_differ bv ov tv); [|done]. cbn [mbind option_bind]. unfold chosen.
  rewrite decision_owner. destruct (section_owner _ _ _ _) as [[]|]; cbn; eauto.
Qed.

(** What a resolution does to a field that is there *)
Definition set_field (v : pyval) (o : option pyval) : option pyval := (λ _, v) <$> o.
Definition set_list (v : pyval) (o : option pyval) : option pyval :=
  match o, v with Some _, VList l => Some (VList l) | _, _ => o end.
Lemma conflict3_upd (b o t : option pyval) bv ov tv (v : pyval) :
  conflict3 b o t = Some (bv, ov, tv) → v = ov ∨ v = tv → set_field v b = Some v.
Proof. by destruct b. Qed.

Lemma section_title key : dot_free key → _get_section_path (title_path key) = "features." +:+ key.
Proof. intros Hk. unfold _get_section_path. by rewrite split_title_path. Qed.

Lemma resolve_fold base ours theirs po pt r :
  resolve base ours theirs po pt = Ok r →
  r = foldl (resolve_step (manifest base) po pt)
        {| merged_bundle := base; conflicts := []; auto_resolved := 0; manual_resolved := 0; unresolved := 0 |}
        (_find_conflicts base ours theirs).
Proof. unfold resolve. repeat case_match; try done. by intros [= <-]. Qed.

(** C36 A merge decides field by field.  When no feature key of the base bundle
    contains a dot, each feature title, the idea title, the value proposition
    and the themes of the merged bundle are the three-way merge of the three
    versions: the base value, unless all three versions have the field with
    three different values and exactly one persona owns the section (or both
    are the same persona), in which case the owner's value.  A change made on
    one side only is therefore not merged. *)
Theorem merge_outcome base ours theirs po pt r :
  Forall dot_free (dict_keys (features base)) →
  resolve base ours theirs po pt = Ok r →
  let owner := section_owner (manifest base) po pt in
  let merged := merged_bundle r in
  (∀ key, dot_free key →
     title_of key merged =
       merge3 (owner ("features." +:+ key)) (title_of key base) (title_of key ours) (title_of key theirs)) ∧
  idea_of merged = merge3 (owner "idea") (idea_of base) (idea_of ours) (idea_of theirs) ∧
  proposition_of merged =
    merge3 (owner "business") (proposition_of base) (proposition_of ours) (proposition_of theirs) ∧
  themes_value merged =
    merge3 (owner "product") (themes_value base) (themes_value ours) (themes_value theirs).
Proof.
  intros Hdot ->%resolve_fold. cbv zeta. destruct (find_conflicts_ok base ours theirs Hdot) as [Hwf Hok].
  split_and!.
  - intros key Hk. rewrite <-(section_title key Hk).
    rewrite (fold_observed _ _ _ (title_of key) set_field (title_path key)) by
      eauto using apply_title, title_path_kept.
    rewrite find_conflicts_title. cbn [merged_bundle]. apply (merge3_apply _ _ _ _ set_field).
    eauto using conflict3_upd.
  - change "idea" with (_get_section_path "idea.title").
    rewrite (fold_observed _ _ _ idea_of set_field "idea.title") by
      (eauto using idea_kept; intros b v; rewrite apply_idea; by destruct b as [? [?|] ? ? ? ?]).
    rewrite find_conflicts_idea. cbn [merged_bundle]. apply (merge3_apply _ _ _ _ set_field).
    eauto using conflict3_upd.
  - change "business" with (_get_section_path "business.value_proposition").
    rewrite (fold_observed _ _ _ proposition_of set_field "business.value_proposition") by
      (eauto using proposition_kept; intros b v; rewrite apply_business; by destruct b as [? ? [?|] ? ? ?]).
    rewrite find_conflicts_business. cbn [merged_bundle]. apply (merge3_apply _ _ _ _ set_field).
    eauto using conflict3_upd.
  - change "product" with (_get_section_path "product.themes").
    rewrite (fold_observed _ _ _ themes_value
      set_list "product.themes").
    + rewrite find_conflicts_product. cbn [merged_bundle]. apply (merge3_apply _ _ _ _ set_list).
      intros bv ov tv v. unfold conflict3, themes_value. destruct (themes_of base), (themes_of ours),
        (themes_of theirs); cbn; try done. destruct (all_differ _ _ _); [|done].
      by intros [= <- <- <-] [-> | ->].
    + done.
    + done.
    + intros b v. unfold themes_value. rewrite apply_product. by destruct b as [? ? ? [?|] ? ?], v.
    + intros b v q Hq Hne. unfold themes_value. by rewrite themes_kept.
Qed.

(** The counters and the conflict list of a merge agree: one record per
    conflicting path, in the order the conflicts are found, each with the
    section it belongs to, the three values, the resolution that ownership
    gives and the value applied; the automatic resolutions are the conflicts
    that were decided, the rest are unresolved, and none is manual. *)
Theorem merge_accounting base ours theirs po pt r :
  resolve base ours theirs po pt = Ok r →
  let found := _find_conflicts base ours theirs in
  let owner path := section_owner (manifest base) po pt (_get_section_path path) in
  field_name <$> conflicts r = dict_keys found ∧
  Forall (λ c, section_path c = _get_section_path (field_name c) ∧
    (base_value c, ours_value c, theirs_value c) ∈ (dict_values found) ∧
    match owner (field_name c) with
    | Some true => resolution c = OURS ∧ resolved_value c = Some (ours_value c)
    | Some false => resolution c = THEIRS ∧ resolved_value c = Some (theirs_value c)
    | None => resolution c = MANUAL ∧ resolved_value c = None
    end) (conflicts r) ∧
  auto_resolved r + unresolved r = length (conflicts r) ∧
  unresolved r = length (filter (λ c, resolution c = MANUAL) (conflicts r)) ∧
  manual_resolved r = 0.
Proof.
  intros ->%resolve_fold. cbv zeta.
  pose proof (fold_accounting (manifest base) po pt (_find_conflicts base ours theirs)
    {| merged_bundle := base; conflicts := []; auto_resolved := 0; manual_resolved := 0; unresolved := 0 |})
    as (Hc & Hsum & Hun & Hman). cbv zeta in *. cbn [conflicts auto_resolved unresolved manual_resolved app] in *.
  rewrite Hc, Hman, Hsum. split_and!.
  - rewrite <-list_fmap_compose. done.
  - apply Forall_fmap, Forall_forall. intros [q [[bv ov] tv]] Hin. cbn -[_get_section_path].
    rewrite <-decision_owner. split_and!; [done| |unfold chosen; by destruct (decision _ _ _ q) as [[]|]].
    apply list_elem_of_fmap. by eexists (_, _).
  - by rewrite length_fmap.
  - rewrite Hun. symmetry. apply length_filter_fmap. intros c. cbn. by destruct (decision _ _ _ _) as [[]|].
  - done.
Qed.
End found.
End merge.

(** * A merge on concrete bundles *)

Definition sample_manifest : BundleManifest :=
  {| personas := [("product-owner", {| owns := ["idea"; "features.*.stories"; "product"] |});
                  ("architect", {| owns := ["features.*"; "product"] |})] |}.
Definition sample_bundle (title idea value : string) (ts : list pyval) : ProjectBundle unit :=
  {| manifest := sample_manifest; idea := Some {| idea_title := VStr idea; idea_rest := tt |};
     business := Some {| value_proposition := VStr value; business_rest := tt |};
     product := Some {| themes := ts; product_rest := tt |};
     features := [("F-1", {| feature_title := VStr title; stories := []; feature_rest := tt |})];
     bundle_rest := tt |}.
Definition sample_base := sample_bundle "t" "i" "v" [VStr "a"].
Definition sample_ours := sample_bundle "t1" "i1" "v1" [VStr "b"].
Definition sample_theirs := sample_bundle "t2" "i2" "v" [VStr "c"].

(** Theirs (the architect) owns the feature, ours the idea; both own the
    product, and only ours changed the value proposition. *)
Lemma merge_outcome_witness :
  ∃ r, resolve (H := elements_iter) sample_base sample_ours sample_theirs "product-owner" "architect" = Ok r ∧
    title_of "F-1" (merged_bundle r) = Some (VStr "t2") ∧
    idea_of (merged_bundle r) = Some (VStr "i1") ∧
    proposition_of (merged_bundle r) = Some (VStr "v") ∧
    themes_value (merged_bundle r) = Some (VList [VStr "a"]).
Proof.
  assert (Hdot : Forall dot_free (dict_keys (features sample_base))).
  { apply Forall_cons. split; [|constructor]. unfold dot_free. apply (bool_decide_unpack _).
    vm_compute. exact I. }
  eexists. split; [reflexivity|].
  destruct (merge_outcome (H0 := elements_iter_laws) sample_base sample_ours sample_theirs
    "product-owner" "architect" _ Hdot eq_refl) as (Ht & Hi & Hv & Hp).
  split_and!; [rewrite Ht; [vm_compute; reflexivity|]|rewrite Hi|rewrite Hv|rewrite Hp];
    try (vm_compute; reflexivity).
  by apply Forall_inv in Hdot.
Defined.

Lemma merge_accounting_witness :
  ∃ r, resolve (H := elements_iter) sample_base sample_ours sample_theirs "product-owner" "architect" = Ok r ∧
    auto_resolved r + unresolved r = 3 ∧ unresolved r = 1.
Proof.
  eexists. split; [reflexivity|].
  destruct (merge_accounting (H := elements_iter) sample_base sample_ours sample_theirs
    "product-owner" "architect" _ eq_refl) as (_ & _ & Hsum & Hun & _).
  rewrite Hsum, Hun. split; vm_compute; reflexivity.
Defined.
