(* ===== verification/Ledger.v ===== *)
(** Ledger: the reward ledger of [specfact_code_review/ledger/client.py]: the
    state a review run updates, and the client that keeps it in a remote table
    with a local file to fall back on. *)

From S2P Require Import Prelude Text Dict Floats PyValue Json Findings.

(** * Data *)

Inductive LedgerVerdict := LPass | LPassWithAdvisory | LFail | LUnknown | LNotApplicable.
#[export] Instance LedgerVerdict_eq_dec : EqDecision LedgerVerdict.
Proof. solve_decision. Defined.

Definition ledger_verdict_text (v : LedgerVerdict) : string :=
  match v with
  | LPass => "PASS" | LPassWithAdvisory => "PASS_WITH_ADVISORY" | LFail => "FAIL"
  | LUnknown => "UNKNOWN" | LNotApplicable => "NOT_APPLICABLE"
  end.
Definition parse_ledger_verdict (s : string) : option LedgerVerdict :=
  find (λ v, String.eqb (ledger_verdict_text v) s) [LPass; LPassWithAdvisory; LFail; LUnknown; LNotApplicable].

Record LedgerRun := {
  lr_session_id : string;
  lr_issue_number : option Z;
  lr_agent : string;
  lr_changed_files : list string;
  lr_score : Z;
  lr_reward_delta : Z;
  lr_verdict : LedgerVerdict;
  lr_findings_json : list json;
  lr_report_json : option json;
  lr_report_digest : option string;
  lr_house_rules_ver : Z;
  lr_created_at : datetime
}.

Record LedgerState := {
  ls_agent : string;
  cumulative_coins : spec_float;
  streak_pass : Z;
  streak_block : Z;
  last_delta : Z;
  last_verdict : option LedgerVerdict;
  violation_counts : list (string * Z);
  runs : list LedgerRun
}.
(** [LedgerState(agent=agent)] *)
Definition new_state (agent : string) : LedgerState :=
  {| ls_agent := agent; cumulative_coins := S754_zero false; streak_pass := 0; streak_block := 0;
     last_delta := 0; last_verdict := None; violation_counts := []; runs := [] |}.

Record LedgerStatus := {
  coins : spec_float;
  status_streak_pass : Z;
  status_streak_block : Z;
  status_last_verdict : string;
  top_violations : list (string * Z)
}.

(** The field constraints of the two models *)
Definition run_ok (r : LedgerRun) : bool := (0 <=? lr_score r)%Z && (lr_score r <=? 120)%Z.
Definition state_ok (s : LedgerState) : bool := (0 <=? streak_pass s)%Z && (0 <=? streak_block s)%Z.
Definition make_run (r : LedgerRun) : result LedgerRun :=
  let! _ := check (run_ok r) (ValueError "score") in Ok r.
Definition make_state (s : LedgerState) : result LedgerState :=
  let! _ := check (state_ok s) (ValueError "streak") in Ok s.

(** * Storage

    How a report and a state are written as JSON is pydantic's; [load_state]
    is [json.loads] followed by validation, [None] when either fails. *)
Class ReportDump := {
  report_dump : ReviewReport → json;
  finding_dump : ReviewFinding → json
}.
Class LedgerCodec (T : Type) := {
  dump_state : LedgerState → T;
  load_state : T → option LedgerState
}.

(** What the local path holds *)
Inductive local_file (T : Type) :=
  | Missing
  | Unreadable
  | Undecodable
  | Holds (text : T).
Arguments Missing {T}.
Arguments Unreadable {T}.
Arguments Undecodable {T}.
Arguments Holds {T} text.

(** A row sent to the [reward_ledger] table; the time of the update is left out. *)
Record LedgerRow := {
  row_agent : string;
  row_session_id : string;
  row_cumulative_coins : spec_float;
  row_last_delta : Z;
  row_last_verdict : option LedgerVerdict;
  row_streak_pass : Z;
  row_streak_block : Z
}.

Record World (T : Type) := {
  local : local_file T;
  run_rows : list LedgerRun;
  ledger_rows : list LedgerRow
}.
Arguments local {T} _.
Arguments run_rows {T} _.
Arguments ledger_rows {T} _.

(** What becomes of a write to the local file.  [write_text] truncates the
    file before it writes, and making its directory comes before that: a
    failed write raises an error and may leave the old text, an empty file, a
    part of the new text or anything else. *)
Inductive write_outcome (T : Type) :=
  | Written
  | Failed (e : exn) (left_file : local_file T).
Arguments Written {T}.
Arguments Failed {T} e left_file.

(** How the outside answers during one call: the JSON of a GET ([None] when
    the request, its status or its body fails), whether each POST succeeds,
    and what becomes of a write to the local file. *)
Record Answers (T : Type) := {
  get_answer : option pyval;
  run_post_ok : bool;
  ledger_post_ok : bool;
  local_write : write_outcome T
}.
Arguments get_answer {T} _.
Arguments run_post_ok {T} _.
Arguments ledger_post_ok {T} _.
Arguments local_write {T} _.
Definition local_write_ok {T} (a : Answers T) : bool :=
  match local_write a with Written => true | Failed _ _ => false end.

Record LedgerClient := { supabase_url : string; supabase_key : string; agent : string }.

Fixpoint lstrip_char (c : ascii) (l : list ascii) : list ascii :=
  match l with
  | d :: l' => if bool_decide (d = c) then lstrip_char c l' else l
  | [] => []
  end.
(** [s.rstrip("/")] *)
Definition rstrip_slash (s : string) : string :=
  of_chars (reverse (lstrip_char "/"%char (reverse (chars s)))).

Definition LedgerClient_init (url key : option string) (agent : string) : LedgerClient :=
  {| supabase_url := rstrip_slash (default "" url); supabase_key := default "" key; agent := agent |}.
Definition _supabase_enabled (c : LedgerClient) : bool :=
  bool_decide (supabase_url c ≠ "") && bool_decide (supabase_key c ≠ "").

(** * Recording a report *)

Section ledger.
Context `{Sha256} `{PyRepr} `{ReportDump} {T : Type} `{LedgerCodec T}.
Implicit Types (c : LedgerClient) (w : World T) (r : ReviewReport) (a : Answers T).

Definition _changed_files_for r : list string :=
  sorted_set (list_to_set (List.filter (λ f, bool_decide (f ≠ "")) (rf_file <$> rr_findings r)) : gset string).

Definition of_assurance (s : assurance_status) : LedgerVerdict :=
  match s with APass => LPass | AFail => LFail | AUnknown => LUnknown | ANotApplicable => LNotApplicable end.
Definition of_verdict (v : verdict) : LedgerVerdict :=
  match v with PASS => LPass | PASS_WITH_ADVISORY => LPassWithAdvisory | FAIL => LFail end.
Definition _verdict_for r : LedgerVerdict :=
  if schema_version_at_least (rr_schema_version r) 6
  then match rr_assurance_status r with Some s => of_assurance s | None => LUnknown end
  else match rr_overall_verdict r with Some v => of_verdict v | None => LPassWithAdvisory end.
Definition _reward_delta_for r : Z :=
  if schema_version_at_least (rr_schema_version r) 6
  then if bool_decide (rr_assurance_status r = Some APass ∨ rr_assurance_status r = Some AFail)
       then default 0%Z (rr_reward_delta r) else 0%Z
  else default 0%Z (rr_reward_delta r).

(** [Counter(finding.rule for finding in findings)] and [Counter.update] *)
Definition _rule_counts (findings : list ReviewFinding) : list (string * Z) :=
  foldl (λ d f, dict_incr (rf_rule f) 1 d) [] findings.
Definition counter_update (d d' : list (string * Z)) : list (string * Z) :=
  foldl (λ d kn, dict_incr kn.1 kn.2 d) d d'.

Definition run_of c r : LedgerRun :=
  {| lr_session_id := rr_run_id r; lr_issue_number := None; lr_agent := agent c;
     lr_changed_files := _changed_files_for r; lr_score := rr_score r;
     lr_reward_delta := _reward_delta_for r; lr_verdict := _verdict_for r;
     lr_findings_json := finding_dump <$> rr_findings r; lr_report_json := Some (report_dump r);
     lr_report_digest := Some (sha256_digest (utf8 (dumps false (sort_keys (report_dump r)))));
     lr_house_rules_ver := 1; lr_created_at := rr_timestamp r |}.

(** Verdicts that leave both streaks alone *)
Definition undecided (v : LedgerVerdict) : bool := bool_decide (v ∈ [LUnknown; LNotApplicable]).
Definition next_pass_streak (s : LedgerState) (v : LedgerVerdict) : Z :=
  if undecided v then streak_pass s else if bool_decide (v ≠ LFail) then (streak_pass s + 1)%Z else 0%Z.
Definition next_block_streak (s : LedgerState) (v : LedgerVerdict) : Z :=
  if undecided v then streak_block s else if bool_decide (v = LFail) then (streak_block s + 1)%Z else 0%Z.
Definition coin_delta (delta : Z) (v : LedgerVerdict) (pass block : Z) : result spec_float :=
  let! d := int_float delta in
  let coins := float_div d (float_of_Z 10) in
  let coins := if bool_decide (v ∉ [LFail; LUnknown; LNotApplicable]) && (5 <=? pass)%Z
               then float_add coins (float_dec 5 1) else coins in
  Ok (if bool_decide (v = LFail) && (3 <=? block)%Z then float_sub coins (float_of_Z 1) else coins).

Definition _apply_report c (s : LedgerState) r : result (LedgerState * LedgerRun) :=
  let! run_entry := make_run (run_of c r) in
  let verdict := lr_verdict run_entry in
  let pass := next_pass_streak s verdict in
  let block := next_block_streak s verdict in
  let! delta := coin_delta (lr_reward_delta run_entry) verdict pass block in
  let! updated := make_state
    {| ls_agent := agent c; cumulative_coins := round2 (float_add (cumulative_coins s) delta);
       streak_pass := pass; streak_block := block; last_delta := lr_reward_delta run_entry;
       last_verdict := Some verdict;
       violation_counts := counter_update (violation_counts s) (_rule_counts (rr_findings r));
       runs := runs s ++ [run_entry] |} in
  Ok (updated, run_entry).

(** * Reading *)

Definition _read_local_state c w : result LedgerState :=
  match local w with
  | Missing | Unreadable => Ok (new_state (agent c))
  | Undecodable => Err (ValueError "'utf-8' codec can't decode")
  | Holds text => Ok (default (new_state (agent c)) (load_state text))
  end.

(** The state in the latest row; the errors listed in the [except] clause give
    the empty state, the others escape. *)
Definition row_verdict (v : pyval) : result (option LedgerVerdict) :=
  match v with
  | VNone => Ok None
  | VStr s => match parse_ledger_verdict s with
              | Some v => Ok (Some v)
              | None => Err (ValueError "last_verdict")
              end
  | _ => Err (ValueError "last_verdict")
  end.
Definition row_state c (row : list (string * pyval)) : result LedgerState :=
  let! coins := py_float (sget_default "cumulative_coins" (VFloat (S754_zero false)) row) in
  let! pass := py_int (sget_default "streak_pass" (VInt 0) row) in
  let! block := py_int (sget_default "streak_block" (VInt 0) row) in
  let! delta := py_int (py_or (sget_default "last_delta" (VInt 0) row) (VInt 0)) in
  let! verdict := row_verdict (sget "last_verdict" row) in
  make_state {| ls_agent := py_str (sget_default "agent" (VStr (agent c)) row);
                cumulative_coins := coins; streak_pass := pass; streak_block := block; last_delta := delta;
                last_verdict := verdict; violation_counts := []; runs := [] |}.
Definition caught (e : exn) : bool :=
  match e with ValueError _ | TypeError _ => true | _ => false end.

(** A JSON object has string keys. *)
Definition string_items (d : list (pyval * pyval)) : list (string * pyval) :=
  omap (λ kv, match kv.1 with VStr k => Some (k, kv.2) | _ => None end) d.
Definition _read_supabase_state c a : result (option LedgerState) :=
  if negb (_supabase_enabled c) then Ok None
  else
    match get_answer a with
    | None => Ok None
    | Some (VList (VDict row :: _)) =>
        match row_state c (string_items row) with
        | Ok s => Ok (Some s)
        | Err e => if caught e then Ok (Some (new_state (agent c))) else Err e
        end
    | Some _ => Ok (Some (new_state (agent c)))
    end.

(** * Writing *)

Definition row_of (run_entry : LedgerRun) (s : LedgerState) : LedgerRow :=
  {| row_agent := ls_agent s; row_session_id := lr_session_id run_entry;
     row_cumulative_coins := cumulative_coins s; row_last_delta := last_delta s;
     row_last_verdict := last_verdict s; row_streak_pass := streak_pass s;
     row_streak_block := streak_block s |}.
Definition post_run (run_entry : LedgerRun) w : World T :=
  {| local := local w; run_rows := run_rows w ++ [run_entry]; ledger_rows := ledger_rows w |}.
Definition post_ledger (row : LedgerRow) w : World T :=
  {| local := local w; run_rows := run_rows w; ledger_rows := ledger_rows w ++ [row] |}.
Definition set_local (f : local_file T) w : World T :=
  {| local := f; run_rows := run_rows w; ledger_rows := ledger_rows w |}.
Definition write_local (s : LedgerState) w : World T := set_local (Holds (dump_state s)) w.

Definition _write_supabase a (run_entry : LedgerRun) (s : LedgerState) w : bool * World T :=
  if negb (run_post_ok a) then (false, w)
  else
    let w := post_run run_entry w in
    if negb (ledger_post_ok a) then (false, w) else (true, post_ledger (row_of run_entry s) w).
(** The world is returned with the error of a failed write: the file is what
    that write left. *)
Definition _write_local_state a (s : LedgerState) w : result unit * World T :=
  match local_write a with
  | Written => (Ok tt, write_local s w)
  | Failed e left_file => (Err e, set_local left_file w)
  end.

(** * The client *)

Definition _status_payload (s : LedgerState) : LedgerStatus :=
  {| coins := round2 (cumulative_coins s);
     status_streak_pass := streak_pass s; status_streak_block := streak_block s;
     status_last_verdict := match last_verdict s with Some v => ledger_verdict_text v | None => "UNKNOWN" end;
     top_violations := take 3 (sort_by (λ kn : string * Z, ((- kn.2)%Z, kn.1)) (violation_counts s)) |}.

(** Where a call starts from: the remote state when it can be read, otherwise
    the local one. *)
Definition current_state c a w : result LedgerState :=
  let! remote := (if _supabase_enabled c then _read_supabase_state c a else Ok None) in
  match remote with Some s => Ok s | None => _read_local_state c w end.

(** The world is returned with an error too: rows that were sent stay, and so
    does what a failed write left. *)
Definition record_run c a r w : result LedgerStatus * World T :=
  match (let! s := current_state c a w in _apply_report c s r) with
  | Err e => (Err e, w)
  | Ok (updated, run_entry) =>
      let '(written, w) := if _supabase_enabled c then _write_supabase a run_entry updated w else (false, w) in
      if written then (Ok (_status_payload updated), w)
      else
        let '(wrote, w) := _write_local_state a updated w in
        (let! _ := wrote in Ok (_status_payload updated), w)
  end.

Definition get_status c a w : result LedgerStatus :=
  let! remote := _read_supabase_state c a in
  let! s := match remote with Some s => Ok s | None => _read_local_state c w end in
  Ok (_status_payload s).

(** [l[-limit:]] *)
Definition last_slice {A} (limit : Z) (l : list A) : list A :=
  if (limit <=? 0)%Z then drop (Z.to_nat (- limit)) l
  else drop (length l - Z.to_nat limit) l.
(** The rows of the [review_runs] table, newest first, as validated entries *)
Definition _read_supabase_runs (answer : option (list (option LedgerRun))) : option (list LedgerRun) :=
  rows ← answer; mapM id (reverse rows).
Definition get_recent_runs c (answer : option (list (option LedgerRun))) (limit : Z) w :
    result (list LedgerRun) :=
  match (if _supabase_enabled c then _read_supabase_runs answer else None) with
  | Some l => Ok l
  | None => let! s := _read_local_state c w in Ok (last_slice limit (runs s))
  end.

Definition reset_local w : World T := set_local Missing w.

(** Runs recorded one after the other by one client, with the outside's
    answers; the first error ends them. *)
Fixpoint record_all c (l : list (Answers T * ReviewReport)) w : result (list LedgerStatus) * World T :=
  match l with
  | [] => (Ok [], w)
  | (a, r) :: l' =>
      let '(status, w) := record_run c a r w in
      match status with
      | Err e => (Err e, w)
      | Ok status =>
          let '(rest, w) := record_all c l' w in
          (let! rest := rest in Ok (status :: rest), w)
      end
  end.
End ledger.
