(* ===== verification/LedgerProofs.v ===== *)
(** LedgerProofs: a sequence of recorded reports as a function of the reports
    (streaks, counts, balance and stored runs), and where each outcome of the
    remote service and of the write to the local file leaves a report. *)

From S2P Require Import Prelude Text Dict Floats PyValue Json Findings FindingsProofs Ledger.

(** * Counting *)

(** The sum of the entries of a counter at a key *)
Fixpoint total (k : string) (d : list (string * Z)) : Z :=
  match d with [] => 0 | (k', n) :: d' => ((if decide (k = k') then n else 0) + total k d')%Z end.

Lemma total_wf k d : dict_wf d → total k d = default 0%Z (dict_get k d).
Proof.
  unfold dict_wf, dict_keys. induction d as [|[k' n] d IH]; cbn; [done|].
  intros [Hk Hd]%NoDup_cons. rewrite IH by done. case_decide as E; [subst|done].
  rewrite (proj2 (dict_get_None k' d)) by done. cbn. lia.
Qed.

Lemma counter_update_get k d d' :
  default 0%Z (dict_get k (counter_update d d')) = (default 0 (dict_get k d) + total k d')%Z.
Proof.
  unfold counter_update. revert d. induction d' as [|[k' n] d' IH]; intros d; cbn; [lia|].
  rewrite IH, dict_incr_get. cbn. lia.
Qed.

(** How many findings have a rule *)
Definition with_rule (rule : string) (l : list ReviewFinding) : Z :=
  Z.of_nat (length (filter (λ f, rf_rule f = rule) l)).

Lemma rule_counts_get rule l : default 0%Z (dict_get rule (_rule_counts l)) = with_rule rule l.
Proof. apply (dict_count_get rf_rule). Qed.
Lemma rule_counts_wf l : dict_wf (_rule_counts l).
Proof. apply (dict_count_wf rf_rule). Qed.

(** * Streaks *)

Definition decided (v : LedgerVerdict) : bool := negb (undecided v).
Definition passing (v : LedgerVerdict) : bool := bool_decide (v ≠ LFail).
Definition failing (v : LedgerVerdict) : bool := bool_decide (v = LFail).

Fixpoint prefix_len {A} (p : A → bool) (l : list A) : nat :=
  match l with [] => 0 | x :: l' => if p x then S (prefix_len p l') else 0 end.
(** The length of the streak [p] at the end of [vs], continuing a streak of
    [n0]; verdicts that decide nothing do not count. *)
Definition streak (p : LedgerVerdict → bool) (n0 : Z) (vs : list LedgerVerdict) : Z :=
  let ds := List.filter decided vs in
  (Z.of_nat (prefix_len p (reverse ds)) + if forallb p ds then n0 else 0)%Z.

Lemma streak_snoc p n0 vs v :
  streak p n0 (vs ++ [v]) =
    if undecided v then streak p n0 vs else if p v then (streak p n0 vs + 1)%Z else 0%Z.
Proof.
  unfold streak. rewrite List.filter_app. cbn [List.filter]. change (decided v) with (negb (undecided v)).
  destruct (undecided v); cbn [negb]; [by rewrite app_nil_r|].
  rewrite forallb_app, reverse_snoc. cbn [prefix_len forallb].
  destruct (p v), (forallb p _); cbn [andb]; lia.
Qed.
Lemma streak_nonneg p n0 vs : (0 <= n0)%Z → (0 <= streak p n0 vs)%Z.
Proof. unfold streak. destruct (forallb _ _); lia. Qed.

(** * One report *)

Definition finite (f : spec_float) : bool :=
  match f with S754_zero _ | S754_finite _ _ _ => true | _ => false end.

(** What a run pays *)
Definition payout (delta : Z) (v : LedgerVerdict) (pass block : Z) : spec_float :=
  let reward := float_div (float_of_Z delta) (float_of_Z 10) in
  match v with
  | LPass | LPassWithAdvisory => if (5 <=? pass)%Z then float_add reward (float_dec 5 1) else reward
  | LFail => if (3 <=? block)%Z then float_sub reward (float_of_Z 1) else reward
  | _ => reward
  end.

Section history.
Context `{Sha256} `{ReportDump}.
Implicit Types (c : LedgerClient) (r : ReviewReport).

(** A report whose score is in range and whose reward is a float *)
Definition recordable r : Prop :=
  (0 <= rr_score r <= 120)%Z ∧ ∃ d, int_float (_reward_delta_for r) = Ok d.

Definition next_state c (s : LedgerState) r : LedgerState :=
  let v := _verdict_for r in
  {| ls_agent := agent c;
     cumulative_coins := round2 (float_add (cumulative_coins s)
       (payout (_reward_delta_for r) v (next_pass_streak s v) (next_block_streak s v)));
     streak_pass := next_pass_streak s v; streak_block := next_block_streak s v;
     last_delta := _reward_delta_for r; last_verdict := Some v;
     violation_counts := counter_update (violation_counts s) (_rule_counts (rr_findings r));
     runs := runs s ++ [run_of c r] |}.

Lemma int_float_Ok z d : int_float z = Ok d → d = float_of_Z z.
Proof. unfold int_float. by destruct (float_of_Z z); intros [= <-]. Qed.

Lemma coin_delta_payout delta v pass block d :
  int_float delta = Ok d → coin_delta delta v pass block = Ok (payout delta v pass block).
Proof.
  intros Hd. unfold coin_delta. rewrite Hd. apply int_float_Ok in Hd as ->. cbn [res_bind]. unfold payout.
  destruct v; cbn -[float_div float_add float_sub float_of_Z float_dec]; try done;
    repeat (case_match || case_bool_decide); try done; set_solver.
Qed.

Lemma next_streaks_ok s v :
  state_ok s = true → (0 <= next_pass_streak s v ∧ 0 <= next_block_streak s v)%Z.
Proof.
  unfold state_ok, next_pass_streak, next_block_streak. intros Hs. bool_hyps.
  repeat case_match; lia.
Qed.

Lemma apply_report_ok c s r :
  recordable r → state_ok s = true → _apply_report c s r = Ok (next_state c s r, run_of c r).
Proof.
  intros [Hscore [d Hd]] Hs. unfold _apply_report, make_run.
  assert (Hrun : run_ok (run_of c r) = true).
  { unfold run_ok. cbn. apply andb_true_iff. split; lia. }
  rewrite Hrun. cbn [check res_bind run_of lr_reward_delta lr_verdict].
  rewrite (coin_delta_payout _ _ _ _ _ Hd). cbn [res_bind]. unfold make_state.
  destruct (next_streaks_ok s (_verdict_for r) Hs) as [Hp Hb]. unfold state_ok. cbn [streak_pass streak_block].
  rewrite (proj2 (Z.leb_le _ _) Hp), (proj2 (Z.leb_le _ _) Hb). done.
Qed.
(** * A sequence of reports *)

(** What each of the reports pays, the streaks counted from [s0] *)
Definition payouts (s0 : LedgerState) (rs : list ReviewReport) : list spec_float :=
  imap (λ i r, payout (_reward_delta_for r) (_verdict_for r)
    (streak passing (streak_pass s0) (_verdict_for <$> take (S i) rs))
    (streak failing (streak_block s0) (_verdict_for <$> take (S i) rs))) rs.
Definition balance (s0 : LedgerState) (rs : list ReviewReport) : spec_float :=
  foldl (λ x p, round2 (float_add x p)) (cumulative_coins s0) (payouts s0 rs).

Lemma payouts_snoc s0 rs r :
  payouts s0 (rs ++ [r]) = payouts s0 rs ++
    [payout (_reward_delta_for r) (_verdict_for r)
       (streak passing (streak_pass s0) (_verdict_for <$> rs ++ [r]))
       (streak failing (streak_block s0) (_verdict_for <$> rs ++ [r]))].
Proof.
  unfold payouts. rewrite imap_app. f_equal.
  - apply imap_ext. intros i x Hi. apply lookup_lt_Some in Hi. by rewrite take_app_le by lia.
  - cbn. rewrite Nat.add_0_r. rewrite take_ge by (rewrite length_app; cbn; lia). done.
Qed.

Definition states c (s0 : LedgerState) (rs : list ReviewReport) : LedgerState := foldl (next_state c) s0 rs.

Lemma states_snoc c s0 rs r : states c s0 (rs ++ [r]) = next_state c (states c s0 rs) r.
Proof. unfold states. by rewrite foldl_app. Qed.

(** The abstract ledger: the state as a function of the reports. *)
Record summarises c (s0 : LedgerState) (rs : list ReviewReport) (s : LedgerState) : Prop := {
  sum_runs : runs s = runs s0 ++ (run_of c <$> rs);
  sum_pass : streak_pass s = streak passing (streak_pass s0) (_verdict_for <$> rs);
  sum_block : streak_block s = streak failing (streak_block s0) (_verdict_for <$> rs);
  sum_coins : cumulative_coins s = balance s0 rs;
  sum_counts rule : default 0%Z (dict_get rule (violation_counts s)) =
    (default 0 (dict_get rule (violation_counts s0)) + with_rule rule (rs ≫= rr_findings))%Z;
  sum_last : last_verdict s = match last rs with Some r => Some (_verdict_for r) | None => last_verdict s0 end
}.

Lemma states_summarise c s0 rs : summarises c s0 rs (states c s0 rs).
Proof.
  induction rs as [|r rs IH] using rev_ind.
  { split; try done; intros; unfold with_rule; cbn; rewrite ?app_nil_r; lia || done. }
  rewrite states_snoc. destruct IH as [Hruns Hpass Hblock Hcoins Hcounts _].
  assert (Hp : next_pass_streak (states c s0 rs) (_verdict_for r) =
    streak passing (streak_pass s0) (_verdict_for <$> rs ++ [r])).
  { unfold next_pass_streak. rewrite fmap_app, Hpass.
    change (_verdict_for <$> [r]) with [_verdict_for r]. by rewrite streak_snoc. }
  assert (Hb : next_block_streak (states c s0 rs) (_verdict_for r) =
    streak failing (streak_block s0) (_verdict_for <$> rs ++ [r])).
  { unfold next_block_streak. rewrite fmap_app, Hblock.
    change (_verdict_for <$> [r]) with [_verdict_for r]. by rewrite streak_snoc. }
  split; cbn [next_state runs streak_pass streak_block cumulative_coins violation_counts last_verdict].
  - by rewrite Hruns, fmap_app, app_assoc.
  - exact Hp.
  - exact Hb.
  - unfold balance. rewrite payouts_snoc, foldl_app. cbn [foldl]. rewrite Hp, Hb, Hcoins. done.
  - intros rule. rewrite counter_update_get, total_wf, rule_counts_get, Hcounts by apply rule_counts_wf.
    unfold with_rule. rewrite bind_app, filter_app, length_app. cbn. rewrite app_nil_r. lia.
  - by rewrite last_snoc.
Qed.

(** ** Through the local file *)

Context `{PyRepr} {T : Type} `{LedgerCodec T}.

(** States a file can hold: valid, with a finite balance *)
Definition storable (s : LedgerState) : bool :=
  state_ok s && forallb run_ok (runs s) && finite (cumulative_coins s).
Class LedgerCodecLaws := load_dump s : storable s = true → load_state (dump_state s) = Some s.
End history.

Section offline.
Context `{Sha256} `{ReportDump} `{PyRepr} {T : Type} `{LedgerCodecLaws T}.
Implicit Types (c : LedgerClient) (r : ReviewReport) (w : World T) (a : Answers T).

Lemma storable_next c s r :
  storable s = true → recordable r → finite (cumulative_coins (next_state c s r)) = true →
  storable (next_state c s r) = true.
Proof.
  unfold storable. intros Hs [Hscore _] Hfin. bool_hyps. apply andb_true_iff; split; [apply andb_true_iff; split|done].
  - destruct (next_streaks_ok s (_verdict_for r)) as [Hp Hb]; [done|]. unfold state_ok.
    apply andb_true_iff. split; by apply Z.leb_le.
  - cbn [next_state runs]. rewrite forallb_app. apply andb_true_iff. split; [done|]. cbn. unfold run_ok. cbn.
    rewrite andb_true_r. apply andb_true_iff. split; lia.
Qed.

Lemma record_run_offline c a r w s :
  _supabase_enabled c = false → local_write_ok a = true → recordable r →
  _read_local_state c w = Ok s → state_ok s = true →
  record_run c a r w = (Ok (_status_payload (next_state c s r)), write_local (next_state c s r) w).
Proof.
  intros Hoff Hwr Hrec Hread Hs. unfold record_run, current_state. rewrite Hoff. cbn [res_bind].
  rewrite Hread. cbn [res_bind]. rewrite apply_report_ok by done. unfold _write_local_state. unfold local_write_ok in Hwr. by destruct (local_write a).
Qed.

Lemma record_all_offline c l w s0 :
  _supabase_enabled c = false → Forall (λ p, local_write_ok p.1 = true ∧ recordable p.2) l →
  _read_local_state c w = Ok s0 → storable s0 = true →
  (∀ n, finite (cumulative_coins (states c s0 (take n l.*2))) = true) →
  ∃ statuses w', record_all c l w = (Ok statuses, w') ∧
    _read_local_state c w' = Ok (states c s0 l.*2) ∧
    statuses = imap (λ i _, _status_payload (states c s0 (take (S i) l.*2))) l ∧
    run_rows w' = run_rows w ∧ ledger_rows w' = ledger_rows w.
Proof.
  intros Hoff Hl. revert w s0. induction Hl as [|[a r] l [Hwr Hrec] Hl IH]; intros w s0 Hread Hs Hfin.
  { by exists [], w. }
  cbn [fst snd] in *.
  assert (Hnext : storable (next_state c s0 r) = true).
  { apply storable_next; [done..|]. apply (Hfin 1). }
  assert (Hok : state_ok s0 = true) by (unfold storable in Hs; by bool_hyps).
  destruct (IH (write_local (next_state c s0 r) w) (next_state c s0 r)) as (sts & w' & E & Hr & -> & ? & ?).
  - unfold _read_local_state, write_local. cbn [local set_local]. by rewrite load_dump.
  - done.
  - intros n. apply (Hfin (S n)).
  - exists (_status_payload (next_state c s0 r) ::
      imap (λ i _, _status_payload (states c (next_state c s0 r) (take (S i) l.*2))) l), w'.
    cbn [record_all]. rewrite (record_run_offline c a r w s0) by done. cbn [res_bind]. rewrite E.
    split_and!; done.
Qed.

(** ** The remote service *)

Lemma remote_state_empty c a s :
  _supabase_enabled c = true → get_answer a ≠ None → _read_supabase_state c a = Ok s →
  ∃ s', s = Some s' ∧ runs s' = [] ∧ violation_counts s' = [].
Proof.
  unfold _read_supabase_state. intros -> Ha. cbn [negb]. destruct (get_answer a) as [v|]; [clear Ha|done].
  assert (Hnew : Ok (Some (new_state (agent c))) = Ok s → ∃ s', s = Some s' ∧ runs s' = [] ∧
    violation_counts s' = []) by (intros [= <-]; eauto).
  destruct v as [| | | | | | |l| | | |]; try exact Hnew. destruct l as [|v l]; [exact Hnew|].
  destruct v as [| | | | | | | | |row| |]; try exact Hnew.
  destruct (row_state c (string_items row)) as [s'|e] eqn:E; [|destruct (caught e); [exact Hnew|done]].
  intros [= <-]. unfold row_state, make_state in E. res_inv. subst. eauto.
Qed.

Lemma current_state_remote c a w s :
  _supabase_enabled c = true → get_answer a ≠ None → current_state c a w = Ok s →
  runs s = [] ∧ violation_counts s = [].
Proof.
  intros Hon Ha. unfold current_state. rewrite Hon.
  intros (remote & Hr & Hs)%res_bind_Ok.
  destruct (remote_state_empty c a remote Hon Ha Hr) as (s' & -> & ? & ?). by injection Hs as <-.
Qed.

(** C37 Recording reports without the remote service refines the abstract
    ledger.  Starting from a stored state, recording any sequence of reports
    with scores in range, while the balance stays finite and the file can be
    written, succeeds; the local file then reads back as a state whose runs
    are the earlier ones followed by one per report in order, whose pass and
    block streaks are the numbers of trailing non-failing and failing verdicts
    (undecided ones not counting), whose balance is the rounded sum of what
    each report pays, and which counts for every rule the findings reported so
    far; the status returned last and a later status query show that state. *)
Theorem ledger_history c (l : list (Answers T * ReviewReport)) w s0 :
  _supabase_enabled c = false →
  Forall (λ p, local_write_ok p.1 = true ∧ recordable p.2) l →
  _read_local_state c w = Ok s0 → storable s0 = true →
  (∀ n, finite (balance s0 (take n l.*2)) = true) →
  ∃ statuses w' s, record_all c l w = (Ok statuses, w') ∧
    _read_local_state c w' = Ok s ∧ summarises c s0 l.*2 s ∧
    length statuses = length l ∧ (l ≠ [] → last statuses = Some (_status_payload s)) ∧
    (∀ a, get_status c a w' = Ok (_status_payload s)) ∧
    run_rows w' = run_rows w ∧ ledger_rows w' = ledger_rows w.
Proof.
  intros Hoff Hl Hread Hs Hfin.
  destruct (record_all_offline c l w s0 Hoff Hl Hread Hs) as (sts & w' & E & Hr & -> & ? & ?).
  { intros n. by rewrite (sum_coins _ _ _ _ (states_summarise c s0 (take n l.*2))). }
  eexists _, w', (states c s0 l.*2). split_and!; [exact E|exact Hr|apply states_summarise| | | |done..].
  - apply length_imap.
  - intros Hne. rewrite last_lookup, length_imap, list_lookup_imap.
    destruct (lookup_lt_is_Some_2 l (pred (length l))) as [x Hx]; [destruct l; [done|cbn; lia]|].
    rewrite Hx. cbn [fmap option_fmap option_map]. do 3 f_equal. apply take_ge. rewrite length_fmap. lia.
  - intros a. unfold get_status, _read_supabase_state. rewrite Hoff. cbn [negb res_bind]. by rewrite Hr.
Qed.

(** C38 Where a recorded report ends up.  From the state a call starts from,
    when the service is configured and accepts both rows, the two rows are
    added and the local file is untouched.  Otherwise the new state replaces
    the local file and its status is returned, or, when the write fails, its
    error is raised and the file is whatever that write left: the old history
    only if the write left it, and the empty state for every later call if
    what it left does not parse, as a truncated file does not.  A run row the
    service had already accepted stays there in both cases.  When the start
    state was read from the service its run list and violation counts are
    empty, so the fallback write replaces the history in the local file by the
    single new run. *)
Theorem record_run_storage c a r w s :
  current_state c a w = Ok s → state_ok s = true → recordable r →
  let s' := next_state c s r in
  let on := _supabase_enabled c in
  let stored := on && run_post_ok a && ledger_post_ok a in
  (stored = true →
     record_run c a r w = (Ok (_status_payload s'),
       {| local := local w; run_rows := run_rows w ++ [run_of c r];
          ledger_rows := ledger_rows w ++ [row_of (run_of c r) s'] |})) ∧
  (stored = false →
     ∃ outcome w', record_run c a r w = (outcome, w') ∧
       match local_write a with
       | Written => outcome = Ok (_status_payload s') ∧ local w' = Holds (dump_state s')
       | Failed e left_file =>
           outcome = Err e ∧ local w' = left_file ∧
           (∀ text, left_file = Holds text → load_state text = None →
              _read_local_state c w' = Ok (new_state (agent c)))
       end ∧
       ledger_rows w' = ledger_rows w ∧
       run_rows w' = run_rows w ++ if on && run_post_ok a then [run_of c r] else []) ∧
  (on = true → get_answer a ≠ None →
     runs s' = [run_of c r] ∧
     ∀ rule, default 0%Z (dict_get rule (violation_counts s')) = with_rule rule (rr_findings r)).
Proof.
  intros Hcur Hs Hrec. cbv zeta. unfold record_run. rewrite Hcur. cbn [res_bind].
  rewrite apply_report_ok by done. unfold _write_supabase, _write_local_state. split_and!.
  - destruct (_supabase_enabled c), (run_post_ok a), (ledger_post_ok a); done.
  - intros Hst. destruct (_supabase_enabled c), (run_post_ok a), (ledger_post_ok a), (local_write a);
      try discriminate Hst; eexists _, _; (split_and!; [reflexivity|..]); cbn;
      rewrite ?app_nil_r; split_and?; try done;
      intros text -> Hload; unfold _read_local_state; cbn [local set_local]; by rewrite Hload.
  - intros Hon Ha. destruct (current_state_remote c a w s Hon Ha Hcur) as [Hr Hv].
    cbn [next_state runs violation_counts]. rewrite Hr, Hv. split; [done|]. intros rule.
    rewrite counter_update_get, total_wf, rule_counts_get by apply rule_counts_wf. done.
Qed.
End offline.

(** * Concrete runs *)

Section sample.
#[local] Instance sample_sha : Sha256 := λ _, "00".
#[local] Instance sample_dump : ReportDump := {| report_dump := λ _, JNull; finding_dump := λ _, JNull |}.
#[local] Instance sample_repr : PyRepr := λ _, "<repr>".
(** A text is a state, or [None] for one that does not parse. *)
#[local] Instance option_codec : LedgerCodec (option LedgerState) := {| dump_state := Some; load_state := id |}.

Lemma option_codec_laws : LedgerCodecLaws (T := option LedgerState).
Proof. intros s _. reflexivity. Qed.

Definition offline_client : LedgerClient := LedgerClient_init None None "claude-code".
Definition online_client : LedgerClient := LedgerClient_init (Some "https://host/") (Some "key") "claude-code".
Definition no_service : Answers (option LedgerState) :=
  {| get_answer := None; run_post_ok := false; ledger_post_ok := false; local_write := Written |}.
Definition empty_table : Answers (option LedgerState) :=
  {| get_answer := Some (VList []); run_post_ok := true; ledger_post_ok := false; local_write := Written |}.
(** A write that truncates the file and then fails *)
Definition full_disk : Answers (option LedgerState) :=
  {| get_answer := None; run_post_ok := false; ledger_post_ok := false;
     local_write := Failed (OSError "No space left on device") (Holds None) |}.
Definition world_of (f : local_file (option LedgerState)) : World (option LedgerState) :=
  {| local := f; run_rows := []; ledger_rows := [] |}.

(** A report of the old schema with a verdict, a reward and findings *)
Definition scored_report (v : verdict) (delta : Z) (findings : list ReviewFinding) : ReviewReport :=
  {| rr_schema_version := "1.0"; rr_run_id := "run"; rr_timestamp := {| dt_wall_us := 0; dt_utcoffset_us := None |};
     rr_overall_verdict := Some v; rr_ci_exit_code := None; rr_assurance_status := None;
     rr_has_unknown_required_evidence := None; rr_scope_evidence := None; rr_analyzer_evidence := None;
     rr_suppression_catalog_digest := None; rr_score := (80 + delta)%Z; rr_reward_delta := Some delta;
     rr_findings := findings; rr_summary := "ok"; rr_simplification_summary := None; rr_cleanup_forecast := None;
     rr_enforcement_mode := None; rr_enforcement_summary := None; rr_requirements_evidence := None;
     rr_house_rules_updates := [] |}.
Definition sample_history : list (Answers (option LedgerState) * ReviewReport) :=
  (λ v, (no_service, scored_report v 10 [sample_finding SevInfo false])) <$> [FAIL; PASS; PASS; PASS; PASS; PASS].

Lemma scored_recordable v findings : recordable (scored_report v 10 findings).
Proof. split; [cbn; lia|]. by eexists. Qed.

(** One failing run, then five passing ones, the last of which pays the
    bonus: the balance is 6.50. *)
Lemma ledger_history_witness :
  ∃ statuses w' s, record_all offline_client sample_history (world_of Missing) = (Ok statuses, w') ∧
    _read_local_state offline_client w' = Ok s ∧ length statuses = 6 ∧
    streak_pass s = 5%Z ∧ streak_block s = 0%Z ∧ cumulative_coins s = float_dec 65 1 ∧
    length (runs s) = 6 ∧
    default 0%Z (dict_get (rf_rule (sample_finding SevInfo false)) (violation_counts s)) = 6%Z.
Proof.
  destruct (ledger_history (H3 := option_codec_laws) offline_client sample_history (world_of Missing)
    (new_state "claude-code")) as (sts & w' & s & E & Hr & [Hruns Hp Hb Hc Hn _] & Hlen & _).
  - reflexivity.
  - repeat (apply Forall_cons; split; [split; [reflexivity|apply scored_recordable]|]). constructor.
  - reflexivity.
  - reflexivity.
  - intros n. do 7 (destruct n as [|n]; [vm_compute; reflexivity|]). vm_compute. reflexivity.
  - exists sts, w', s. split; [exact E|]. split; [exact Hr|]. rewrite Hlen, Hp, Hb, Hc, Hn, Hruns.
    split_and!; vm_compute; reflexivity.
Defined.

(** The service answers with no row and then refuses the second post: the
    run that was in the local file is gone.  Without the service a write that
    fails after truncating the file loses it too. *)
Lemma record_run_storage_witness :
  let earlier := next_state offline_client (new_state "claude-code") (scored_report PASS 10 []) in
  let r := scored_report FAIL 0 [] in
  (∃ w', record_run online_client empty_table r (world_of (Holds (Some earlier))) =
      (Ok (_status_payload (next_state online_client (new_state "claude-code") r)), w') ∧
    length (runs earlier) = 1 ∧
    local w' = Holds (Some (next_state online_client (new_state "claude-code") r)) ∧
    runs (next_state online_client (new_state "claude-code") r) = [run_of online_client r] ∧
    run_rows w' = [run_of online_client r]) ∧
  ∃ w', record_run offline_client full_disk r (world_of (Holds (Some earlier))) =
      (Err (OSError "No space left on device"), w') ∧
    _read_local_state offline_client w' = Ok (new_state "claude-code") ∧ run_rows w' = [].
Proof.
  cbv zeta. set (earlier := next_state _ _ _). set (r := scored_report FAIL 0 []).
  assert (Hr : recordable r) by (split; [cbn; lia|]; by eexists).
  split.
  - destruct (record_run_storage online_client empty_table r (world_of (Holds (Some earlier)))
      (new_state "claude-code")) as (_ & Hfallback & Hlost); [vm_compute; reflexivity|reflexivity|exact Hr|].
    destruct (Hfallback eq_refl) as (o & w' & E & [-> Hl] & _ & Hrows). exists w'. split; [exact E|].
    split; [reflexivity|]. split; [exact Hl|]. split; [apply Hlost; [reflexivity|done]|exact Hrows].
  - destruct (record_run_storage offline_client full_disk r (world_of (Holds (Some earlier))) earlier)
      as (_ & Hfallback & _); [reflexivity|reflexivity|exact Hr|].
    destruct (Hfallback eq_refl) as (o & w' & E & (-> & _ & Hread) & _ & Hrows). exists w'. split; [exact E|].
    split; [apply (Hread None); reflexivity|exact Hrows].
Defined.
End sample.
