(* ===== verification/FeatureKeys.v ===== *)
(** FeatureKeys: the feature key formats of
    [specfact_project/utils/feature_keys.py] and their common normal form. *)

From S2P Require Import Prelude Text Dict PyValue.

(** * Text operations *)

(** [str.zfill(width)]: zeros go between a sign and the digits. *)
Definition zeros (n : nat) : list ascii := replicate n "0"%char.
Definition zfill (width : nat) (s : string) : string :=
  let pad l := zeros (width - length (chars s)) ++ l in
  match chars s with
  | c :: l => if bool_decide (c ∈ ["-"%char; "+"%char]) then of_chars (c :: pad l) else of_chars (pad (c :: l))
  | [] => of_chars (pad [])
  end.

(** [str.capitalize()] and [str.title()] *)
Definition capitalize (s : string) : string :=
  match chars s with
  | c :: l => of_chars (upper_char c :: (lower_char <$> l))
  | [] => ""
  end.
Definition is_letter (c : ascii) : bool := is_upper c || is_lower c.
Fixpoint title_chars (inside : bool) (l : list ascii) : list ascii :=
  match l with
  | c :: l' => (if inside then lower_char c else upper_char c) :: title_chars (is_letter c) l'
  | [] => []
  end.
Definition title_case (s : string) : string := of_chars (title_chars false (chars s)).

(** [re.split] at single characters of a class *)
Definition split_at (p : ascii → bool) (s : string) : list string := of_chars <$> split_chars p (chars s).

(** * Keys *)

(** [re.sub(r"^\d{3}" + sep, "", key)] *)
Definition drop_number (sep : ascii) (s : string) : string :=
  match chars s with
  | a :: b :: c :: d :: l =>
      if is_digit a && is_digit b && is_digit c && bool_decide (d = sep) then of_chars l else s
  | _ => s
  end.

Definition is_separator (c : ascii) : bool :=
  bool_decide (c = "_"%char) || is_space c || bool_decide (c = "-"%char).

Definition normalize_feature_key (key : string) : string :=
  let key := replace "FEATURE-" "" key in
  let key := drop_number "_"%char key in
  let key := drop_number "-"%char key in
  upper (of_chars (List.filter (λ c, negb (is_separator c)) (chars key))).

Definition to_sequential_key (key : string) (index : Z) : string :=
  "FEATURE-" +:+ zfill 3 (pretty index).
Definition to_classname_key (class_name : string) : string := "FEATURE-" +:+ upper class_name.
Definition to_underscore_key (title prefix : string) : string :=
  prefix +:+ "_" +:+ replace " " "_" (upper title).

Definition pascal (parts : list string) : string := join "" (capitalize <$> parts).
(** ["FEATURE-" in key] for a key of any type *)
Definition has_prefix_text (key : pyval) : result bool :=
  match key with
  | VStr k => Ok (py_in "FEATURE-" k)
  | VList l | VTuple l | VSet l => Ok (bool_decide (VStr "FEATURE-" ∈ l))
  | VDict d => Ok (bool_decide (VStr "FEATURE-" ∈ d.*1))
  | _ => Err (TypeError "argument is not iterable")
  end.
Definition _extract_class_name (key title : pyval) : result string :=
  let! found := has_prefix_text key in
  if found : bool
  then
    match key with
    | VStr key =>
        let class_part := replace "FEATURE-" "" key in
        Ok (if py_in "_" class_part || py_in "-" class_part
            then pascal (split_at (λ c, bool_decide (c = "_"%char) || bool_decide (c = "-"%char)) (lower class_part))
            else title_case class_part)
    | _ => Err (AttributeError "replace")
    end
  else if truthy title
  then match title with
       | VStr t => Ok (pascal (split_at is_separator t))
       | _ => Err (TypeError "expected string or bytes-like object")
       end
  else Ok "UnknownClass".

(** * Feature dictionaries *)

Abbreviation feature_dict := (list (string * pyval)).

(** The argument check of a parameter annotated [str] *)
Definition str_arg (v : pyval) : result string :=
  match v with VStr s => Ok s | _ => Err (ContractViolation "parameter is not a str") end.

Fixpoint find_normalized (target : string) (features : list feature_dict) : result (option feature_dict) :=
  match features with
  | [] => Ok None
  | feature :: features =>
      match dict_get "key" feature with
      | None => find_normalized target features
      | Some key =>
          let! key := str_arg key in
          if String.eqb (normalize_feature_key key) target then Ok (Some feature)
          else find_normalized target features
      end
  end.
Definition find_feature_by_normalized_key (features : list feature_dict) (target_key : string) :
    result (option feature_dict) :=
  find_normalized (normalize_feature_key target_key) features.

(** The new key of a feature, and the index the next one gets *)
Definition converted_key (target_format : string) (current_index : Z) (original_key title : pyval) :
    result (pyval * Z) :=
  if String.eqb target_format "sequential" then
    let! key := str_arg original_key in
    Ok (VStr (to_sequential_key key current_index), (current_index + 1)%Z)
  else if String.eqb target_format "classname" then
    let! class_name := _extract_class_name original_key title in
    Ok (VStr (to_classname_key class_name), current_index)
  else if String.eqb target_format "underscore" then
    let! title := str_arg title in
    Ok (VStr (to_underscore_key title (zfill 3 (pretty (current_index - 1)%Z))), (current_index + 1)%Z)
  else Ok (original_key, current_index).

Fixpoint convert_from (target_format : string) (current_index : Z) (features : list feature_dict) :
    result (list feature_dict) :=
  match features with
  | [] => Ok []
  | feature :: features =>
      match dict_get "key" feature with
      | None => convert_from target_format current_index features
      | Some original_key =>
          let! (new_key, next_index) :=
            converted_key target_format current_index original_key (sget_default "title" (VStr "") feature) in
          let! rest := convert_from target_format next_index features in
          Ok (dict_set "key" new_key feature :: rest)
      end
  end.
Definition convert_feature_keys (features : list feature_dict) (target_format : string) (start_index : Z) :
    result (list feature_dict) :=
  convert_from target_format start_index features.

Example normalize_docs :
  normalize_feature_key <$> ["000_CONTRACT_FIRST_TEST_MANAGER"; "FEATURE-CONTRACTFIRSTTESTMANAGER";
    "FEATURE-001"; "041-ide-integration-system"] =
  ["CONTRACTFIRSTTESTMANAGER"; "CONTRACTFIRSTTESTMANAGER"; "001"; "IDEINTEGRATIONSYSTEM"].
Proof. vm_compute. reflexivity. Qed.
Example sequential_docs : to_sequential_key "x" 5 = "FEATURE-005".
Proof. vm_compute. reflexivity. Qed.
Example class_docs :
  _extract_class_name (VStr "FEATURE-code_analyzer-x") VNone = Ok "CodeAnalyzerX" ∧
  _extract_class_name (VStr "FEATURE-CODE2ANALYZER") VNone = Ok "Code2Analyzer" ∧
  _extract_class_name (VStr "000_X") (VStr "contract first") = Ok "ContractFirst".
Proof. vm_compute. done. Qed.
