(* ===== verification/FeatureKeyProofs.v ===== *)
(** FeatureKeyProofs: normal forms of feature keys, and that a feature list
    converted to sequential keys finds each feature back by its new key. *)

From S2P Require Import Prelude Text Dict PyValue Json Decimal FeatureKeys.

(** * Padded numbers *)

Lemma dec_value_zeros n l : dec_value (zeros n ++ l) = dec_value l.
Proof. unfold dec_value. rewrite foldl_app. by induction n. Qed.

(** A padded number is made of digits and keeps its value. *)
Lemma zfill_nonneg w z :
  (0 <= z)%Z → digits (chars (zfill w (pretty z))) ∧ dec_value (chars (zfill w (pretty z))) = z.
Proof.
  intros Hz. destruct (pretty_nonneg z Hz) as [Hd Hv]. unfold zfill.
  assert (Hzeros : ∀ n, digits (zeros n)) by (intros; by apply Forall_replicate).
  destruct (chars (pretty z)) as [|c l] eqn:E.
  - rewrite chars_of_chars, dec_value_zeros. split; [by apply digits_app|done].
  - assert (Hc : is_digit c = true) by (by apply Forall_inv in Hd).
    rewrite bool_decide_eq_false_2.
    + rewrite chars_of_chars, dec_value_zeros. split; [by apply digits_app|done].
    + rewrite !elem_of_cons, elem_of_nil. intros [->|[->|[]]]; discriminate Hc.
Qed.

(** * Text *)

Lemma replace_go_none n old new s :
  (∀ s', String.prefix old s' = true → "-"%char ∈ chars s') → "-"%char ∉ chars s →
  replace_go n old new s = s.
Proof.
  intros Hold. revert s. induction n as [|n IH]; intros s Hs; [done|]. cbn [replace_go].
  destruct (String.prefix old s) eqn:Hp; [by apply Hold in Hp|].
  destruct s as [|c s]; [done|]. rewrite IH; [done|]. intros ?. apply Hs. by right.
Qed.
Lemma feature_prefix_dash s : String.prefix "FEATURE-" s = true → "-"%char ∈ chars s.
Proof.
  intros Hp. do 8 (destruct s as [|? s]; [discriminate Hp|]; cbn [String.prefix] in Hp;
    case_match; [subst|discriminate Hp]).
  change (chars _) with ("F"%char :: "E"%char :: "A"%char :: "T"%char :: "U"%char :: "R"%char :: "E"%char
    :: "-"%char :: chars s). set_solver.
Qed.
Lemma replace_feature_none s : "-"%char ∉ chars s → replace "FEATURE-" "" s = s.
Proof. apply replace_go_none, feature_prefix_dash. Qed.

Lemma substring_all n s : String.length s ≤ n → String.substring 0 n s = s.
Proof.
  revert n. induction s as [|c s IH]; intros [|n] Hn; cbn in *; try done; [lia|].
  by rewrite IH by lia.
Qed.
Lemma replace_feature_prefix s : "-"%char ∉ chars s → replace "FEATURE-" "" ("FEATURE-" +:+ s) = s.
Proof.
  intros Hs. unfold replace. change (replace_go (S ?n) ?old ?new ?t) with
    (if String.prefix old t
     then new +:+ replace_go n old new (String.substring (String.length old) (String.length t) t)
     else match t with "" => "" | String c t' => String c (replace_go n old new t') end).
  assert (Hpre : String.prefix "FEATURE-" ("FEATURE-" +:+ s) = true) by (by destruct s).
  assert (Hsub : String.substring (String.length "FEATURE-") (String.length ("FEATURE-" +:+ s))
    ("FEATURE-" +:+ s) = s) by (change (String.substring 0 (8 + String.length s) s = s); apply substring_all; lia).
  rewrite Hpre, Hsub. apply replace_go_none; [apply feature_prefix_dash|done].
Qed.

Lemma drop_number_none sep s : sep ∉ chars s → drop_number sep s = s.
Proof.
  intros Hs. unfold drop_number. destruct (chars s) as [|a [|b [|c [|d l]]]]; try done.
  rewrite (bool_decide_eq_false_2 (d = sep)); [by rewrite andb_false_r|]. intros ->. set_solver.
Qed.

Lemma upper_char_idemp c : upper_char (upper_char c) = upper_char c.
Proof. destruct c as [[] [] [] [] [] [] [] []]; vm_compute; reflexivity. Qed.
Lemma upper_char_separator c : is_separator (upper_char c) = is_separator c.
Proof. destruct c as [[] [] [] [] [] [] [] []]; vm_compute; reflexivity. Qed.
Lemma upper_digit c : is_digit c = true → upper_char c = c.
Proof. destruct c as [[] [] [] [] [] [] [] []]; vm_compute; done. Qed.
Lemma digit_separator c : is_digit c = true → is_separator c = false.
Proof. destruct c as [[] [] [] [] [] [] [] []]; vm_compute; done. Qed.

Lemma filter_all (p : ascii → bool) l : Forall (λ c, p c = true) l → List.filter p l = l.
Proof. induction 1 as [|c l Hc _ IH]; cbn; [done|]. by rewrite Hc, IH. Qed.

(** ** Normal forms *)

(** Upper case and without separators *)
Definition normal_key (key : string) : Prop :=
  Forall (λ c, is_separator c = false ∧ upper_char c = c) (chars key).

Lemma separator_absent c key : normal_key key → is_separator c = true → c ∉ chars key.
Proof. intros Hk Hc Hin. destruct (proj1 (Forall_forall _ _) Hk c Hin). congruence. Qed.

Lemma fmap_upper_normal l : Forall (λ c, upper_char c = c) l → upper_char <$> l = l.
Proof. induction 1 as [|c l Hc _ IH]; cbn; [done|]. by rewrite Hc, IH. Qed.

Lemma normalize_normal key : normal_key key → normalize_feature_key key = key.
Proof.
  intros Hk. unfold normalize_feature_key.
  rewrite replace_feature_none by (by apply separator_absent).
  rewrite (drop_number_none "_"), (drop_number_none "-") by (by apply separator_absent).
  rewrite filter_all; [|by eapply Forall_impl; [exact Hk|]; intros c [-> _]].
  unfold upper. rewrite chars_of_chars, fmap_upper_normal; [apply of_chars_chars|].
  eapply Forall_impl; [exact Hk|]. by intros c [_ ?].
Qed.

Lemma digits_normal s : digits (chars s) → normal_key s.
Proof. intros Hd. eapply Forall_impl; [exact Hd|]. intros c Hc. by rewrite digit_separator, upper_digit. Qed.

Lemma normalize_is_normal key : normal_key (normalize_feature_key key).
Proof.
  unfold normalize_feature_key, normal_key, upper. rewrite !chars_of_chars. apply Forall_fmap, Forall_forall.
  intros c Hc. cbn. rewrite upper_char_separator, upper_char_idemp. split; [|done].
  apply list_elem_of_In, filter_In in Hc as [_ Hc]. by apply negb_true_iff.
Qed.

Lemma normalize_sequential key n :
  (0 <= n)%Z → normalize_feature_key (to_sequential_key key n) = zfill 3 (pretty n).
Proof.
  intros Hn. destruct (zfill_nonneg 3 n Hn) as [Hd _].
  pose proof (digits_normal _ Hd) as Hk.
  unfold to_sequential_key. rewrite <-(normalize_normal _ Hk) at 2. unfold normalize_feature_key at 1.
  rewrite replace_feature_prefix by (by apply separator_absent).
  unfold normalize_feature_key. by rewrite replace_feature_none by (by apply separator_absent).
Qed.

(** * Sequential keys *)

Definition has_key (f : feature_dict) : Prop := is_Some (dict_get "key" f).
#[export] Instance has_key_dec f : Decision (has_key f).
Proof. unfold has_key. apply _. Defined.

Definition with_index (start : Z) (f : feature_dict) : feature_dict :=
  dict_set "key" (VStr ("FEATURE-" +:+ zfill 3 (pretty start))) f.
(** The features that have a key, numbered from [start] *)
Fixpoint numbered (start : Z) (features : list feature_dict) : list feature_dict :=
  match features with
  | [] => []
  | f :: features => with_index start f :: numbered (start + 1) features
  end.

Lemma convert_sequential features start :
  Forall (λ f, ∀ v, dict_get "key" f = Some v → ∃ s, v = VStr s) features →
  convert_from "sequential" start features = Ok (numbered start (filter has_key features)).
Proof.
  intros Hf. revert start. induction Hf as [|f features Hf _ IH]; intros start; [done|].
  cbn [convert_from]. rewrite filter_cons.
  assert (Hk : has_key f ↔ is_Some (dict_get "key" f)) by done.
  destruct (decide (has_key f)) as [H|H]; rewrite Hk in H; destruct (dict_get "key" f) as [v|]; try by destruct H.
  - destruct (Hf v eq_refl) as [s ->].
    change (converted_key "sequential" start (VStr s) (sget_default "title" (VStr "") f)) with
      (@Ok (pyval * Z) (VStr (to_sequential_key s start), (start + 1)%Z)).
    cbn [res_bind]. rewrite IH. done.
  - apply IH.
Qed.

Lemma numbered_lookup start features i f :
  numbered start features !! i = Some f → ∃ f0, f = with_index (start + Z.of_nat i) f0.
Proof.
  revert start i. induction features as [|f0 features IH]; intros start i; [done|].
  destruct i as [|i]; cbn.
  - intros [= <-]. exists f0. by rewrite Z.add_0_r.
  - intros [f1 ->]%IH. exists f1. f_equal. lia.
Qed.

Lemma find_numbered start features i f :
  (0 <= start)%Z → numbered start features !! i = Some f →
  find_normalized (zfill 3 (pretty (start + Z.of_nat i)%Z)) (numbered start features) = Ok (Some f).
Proof.
  revert start i. induction features as [|f0 features IH]; intros start i Hs; [done|].
  cbn [numbered find_normalized]. unfold with_index at 2. rewrite dict_get_set_eq. cbn [str_arg res_bind].
  change ("FEATURE-" +:+ ?d) with (to_sequential_key "" start). rewrite normalize_sequential by done.
  destruct i as [|i]; cbn [lookup list_lookup].
  - intros [= <-]. rewrite Z.add_0_r, String.eqb_refl. done.
  - intros Hi. destruct (String.eqb_spec (zfill 3 (pretty start)) (zfill 3 (pretty (start + Z.of_nat (S i))%Z)))
      as [E|_].
    + apply (f_equal (dec_value ∘ chars)) in E. cbn in E.
      rewrite (proj2 (zfill_nonneg 3 start Hs)), (proj2 (zfill_nonneg 3 (start + Z.of_nat (S i)) ltac:(lia))) in E. lia.
    + replace (start + Z.of_nat (S i))%Z with (start + 1 + Z.of_nat i)%Z by lia. apply IH; [lia|done].
Qed.

(** Conversion to sequential keys and lookup by normalized key are inverse.
    Normalizing a key twice is the same as once; converting features whose
    keys are strings keeps, in order, the features that have a key, numbers
    them from the start index, and each is the feature found under the key it
    was given, and under the padded number alone. *)
Theorem sequential_roundtrip (features : list feature_dict) (start : Z) :
  (0 <= start)%Z →
  Forall (λ f, ∀ v, dict_get "key" f = Some v → ∃ s, v = VStr s) features →
  ∃ out, convert_feature_keys features "sequential" start = Ok out ∧
    out = imap (λ i f, dict_set "key" (VStr (to_sequential_key "" (start + Z.of_nat i))) f)
            (filter has_key features) ∧
    (∀ i f, out !! i = Some f → ∃ key, dict_get "key" f = Some (VStr key) ∧
       find_feature_by_normalized_key out key = Ok (Some f) ∧
       find_feature_by_normalized_key out (zfill 3 (pretty (start + Z.of_nat i)%Z)) = Ok (Some f)) ∧
    (∀ key, normalize_feature_key (normalize_feature_key key) = normalize_feature_key key).
Proof.
  intros Hs Hf. exists (numbered start (filter has_key features)).
  assert (Hidem : ∀ key, normalize_feature_key (normalize_feature_key key) = normalize_feature_key key).
  { intros key. apply normalize_normal, normalize_is_normal. }
  split_and!; [by apply convert_sequential| | |done].
  - generalize (filter has_key features) as l. intros l. revert start Hs. induction l as [|f l IH]; intros start Hs;
      [done|]. cbn [numbered]. rewrite imap_cons, Z.add_0_r. f_equal.
    rewrite IH by lia. apply imap_ext. intros i x _. cbn. do 3 f_equal. lia.
  - intros i f Hi. destruct (numbered_lookup _ _ _ _ Hi) as [f0 ->].
    exists (to_sequential_key "" (start + Z.of_nat i)). split; [unfold with_index; by rewrite dict_get_set_eq|].
    unfold find_feature_by_normalized_key. rewrite normalize_sequential by lia.
    rewrite normalize_normal by (apply digits_normal, zfill_nonneg; lia).
    split; by apply find_numbered.
Qed.

Lemma sequential_roundtrip_witness :
  let features := [[("key", VStr "000_A"); ("title", VStr "a")]; [("title", VStr "no key")];
                   [("key", VStr "FEATURE-B")]] in
  ∃ out, convert_feature_keys features "sequential" 9 = Ok out ∧ length out = 2 ∧
    find_feature_by_normalized_key out "FEATURE-010" = Ok (out !! 1) ∧
    find_feature_by_normalized_key out "010" = Ok (out !! 1).
Proof.
  cbv zeta. destruct (sequential_roundtrip [[("key", VStr "000_A"); ("title", VStr "a")];
    [("title", VStr "no key")]; [("key", VStr "FEATURE-B")]] 9 ltac:(lia)) as (out & E & -> & Hfind & _).
  - repeat (apply Forall_cons; split; [cbn; intros v [= <-] || (intros v E; discriminate E); by eexists|]).
    constructor.
  - eexists. split; [exact E|]. split; [reflexivity|].
    destruct (Hfind 1 [("key", VStr "FEATURE-010")]) as (key & Hk & H1 & H2); [vm_compute; reflexivity|].
    vm_compute in Hk. injection Hk as <-. change (zfill 3 (pretty (9 + Z.of_nat 1)%Z)) with "010" in H2.
    split; [rewrite H1|rewrite H2]; vm_compute; reflexivity.
Defined.
