(* ===== verification/Comparator.v ===== *)
(** Comparator: the deviations between two plan bundles, of
    [specfact_project/comparators/plan_comparator.py]. *)

From S2P Require Import Prelude Text Dict Floats PyValue FeatureKeys.

(** * Plans

    The fields the comparison reads. *)
Record Idea := { idea_title : string; narrative : string }.
Record Story := {
  story_key : string;
  story_title : string;
  acceptance : list string;
  story_points : option Z;
  value_points : option Z;
  story_confidence : spec_float;
  draft : bool
}.
Record Feature := {
  feature_key : string;
  feature_title : string;
  stories : list Story;
  feature_confidence : spec_float
}.
Record PlanBundle := {
  idea : option Idea;
  business : bool;  (** whether there is a business section *)
  themes : list string;
  features : list Feature
}.

(** * Deviations *)

Inductive DeviationType :=
  | EXTRA_IMPLEMENTATION | MISSING_FEATURE | MISMATCH | MISSING_BUSINESS_CONTEXT
  | MISSING_STORY | ACCEPTANCE_DRIFT.
Inductive DeviationSeverity := LOW | MEDIUM | HIGH.
#[export] Instance DeviationType_eq_dec : EqDecision DeviationType.
Proof. solve_decision. Defined.

Record Deviation := {
  dev_type : DeviationType;
  dev_severity : DeviationSeverity;
  description : string;
  location : string;
  fix_hint : string
}.
Record DeviationReport := {
  manual_plan : string;
  auto_plan : string;
  deviations : list Deviation;
  summary : list (string * Z)
}.
(** [deviation.type.value]: the texts of the enumeration are another package's. *)
Class DeviationValue := deviation_value : DeviationType → string.

Definition when {A} (c : bool) (l : list A) : list A := if c then l else [].

(** [{f(x): x for x in l}]: the last one with a key stays, at the place of the first. *)
Definition dict_by {A} (f : A → string) (l : list A) : list (string * A) :=
  foldl (λ d x, dict_set (f x) x d) [] l.

Section compare.
Context `{SetIter} `{DeviationValue}.
Implicit Types manual auto : PlanBundle.

Definition _compare_ideas manual auto : list Deviation :=
  match idea manual, idea auto with
  | None, None => []
  | None, Some _ =>
      [{| dev_type := EXTRA_IMPLEMENTATION; dev_severity := LOW;
          description := "Auto plan has Idea section but manual plan does not"; location := "idea";
          fix_hint := "Consider removing auto-derived Idea or adding it to manual plan" |}]
  | Some _, None =>
      [{| dev_type := MISSING_FEATURE; dev_severity := MEDIUM;
          description := "Manual plan has Idea section but auto plan does not"; location := "idea";
          fix_hint := "Add Idea section to auto-derived plan" |}]
  | Some m, Some a =>
      when (bool_decide (idea_title m ≠ idea_title a))
        [{| dev_type := MISMATCH; dev_severity := LOW;
            description := "Idea title differs: manual='" +:+ idea_title m +:+ "', auto='" +:+ idea_title a +:+ "'";
            location := "idea.title"; fix_hint := "Update auto plan title to match manual plan" |}]
      ++ when (bool_decide (narrative m ≠ narrative a))
        [{| dev_type := MISMATCH; dev_severity := LOW;
            description := "Idea narrative differs between plans"; location := "idea.narrative";
            fix_hint := "Update narrative to match manual plan" |}]
  end.

Definition _compare_business manual auto : list Deviation :=
  when (business manual && negb (business auto))
    [{| dev_type := MISSING_BUSINESS_CONTEXT; dev_severity := MEDIUM;
        description := "Manual plan has Business context but auto plan does not"; location := "business";
        fix_hint := "Add business context to auto-derived plan" |}].

Definition theme_missing (theme : string) : Deviation :=
  {| dev_type := MISMATCH; dev_severity := LOW;
     description := "Product theme '" +:+ theme +:+ "' in manual plan but not in auto plan";
     location := "product.themes"; fix_hint := "Add theme '" +:+ theme +:+ "' to auto plan" |}.
Definition theme_extra (theme : string) : Deviation :=
  {| dev_type := MISMATCH; dev_severity := LOW;
     description := "Product theme '" +:+ theme +:+ "' in auto plan but not in manual plan";
     location := "product.themes"; fix_hint := "Remove theme '" +:+ theme +:+ "' from auto plan or add to manual" |}.
Definition _compare_product manual auto : list Deviation :=
  let manual_themes : gset string := list_to_set (themes manual) in
  let auto_themes : gset string := list_to_set (themes auto) in
  (theme_missing <$> set_iter (manual_themes ∖ auto_themes))
  ++ (theme_extra <$> set_iter (auto_themes ∖ manual_themes)).

(** ** Stories *)

Definition points (o : option Z) : Z := default 0%Z o.
Definition story_location (feature_key key : string) : string :=
  "features[" +:+ feature_key +:+ "].stories[" +:+ key +:+ "]".

Definition missing_story (feature_key key : string) (s : Story) : Deviation :=
  {| dev_type := MISSING_STORY;
     dev_severity := if (8 <=? points (value_points s))%Z || negb (draft s) then HIGH else MEDIUM;
     description := "Story '" +:+ key +:+ "' (" +:+ story_title s +:+ ") in manual plan but not implemented";
     location := story_location feature_key key;
     fix_hint := "Implement story '" +:+ key +:+ "' or update manual plan" |}.
Definition extra_story (feature_key key : string) (s : Story) : Deviation :=
  {| dev_type := EXTRA_IMPLEMENTATION;
     dev_severity := if float_leb (float_dec 8 1) (story_confidence s) || (8 <=? points (value_points s))%Z
                     then MEDIUM else LOW;
     description := "Story '" +:+ key +:+ "' (" +:+ story_title s +:+ ") found in code but not in manual plan";
     location := story_location feature_key key;
     fix_hint := "Add story '" +:+ key +:+ "' to manual plan or remove from code" |}.

Definition common_story (feature_key key : string) (m a : Story) : list Deviation :=
  let loc := story_location feature_key key in
  let manual_acceptance : gset string := list_to_set (acceptance m) in
  let auto_acceptance : gset string := list_to_set (acceptance a) in
  let missing_criteria := manual_acceptance ∖ auto_acceptance in
  let extra_criteria := auto_acceptance ∖ manual_acceptance in
  when (bool_decide (story_title m ≠ story_title a))
    [{| dev_type := MISMATCH; dev_severity := LOW;
        description := "Story '" +:+ key +:+ "' title differs: manual='" +:+ story_title m +:+ "', auto='"
          +:+ story_title a +:+ "'";
        location := loc +:+ ".title"; fix_hint := "Update story title in code or manual plan" |}]
  ++ when (bool_decide (manual_acceptance ≠ auto_acceptance))
      (when (bool_decide (missing_criteria ≠ ∅))
        [{| dev_type := ACCEPTANCE_DRIFT; dev_severity := HIGH;
            description := "Story '" +:+ key +:+ "' missing acceptance criteria: "
              +:+ join ", " (set_iter missing_criteria);
            location := loc +:+ ".acceptance";
            fix_hint := "Ensure all acceptance criteria are implemented: "
              +:+ join ", " (set_iter missing_criteria) |}]
       ++ when (bool_decide (extra_criteria ≠ ∅))
        [{| dev_type := ACCEPTANCE_DRIFT; dev_severity := MEDIUM;
            description := "Story '" +:+ key +:+ "' has extra acceptance criteria in code: "
              +:+ join ", " (set_iter extra_criteria);
            location := loc +:+ ".acceptance";
            fix_hint := "Update manual plan to include: " +:+ join ", " (set_iter extra_criteria) |}])
  ++ when (3 <=? Z.abs (points (story_points m) - points (story_points a)))%Z
      [{| dev_type := MISMATCH; dev_severity := MEDIUM;
          description := "Story '" +:+ key +:+ "' story points differ significantly: manual="
            +:+ pretty (points (story_points m)) +:+ ", auto=" +:+ pretty (points (story_points a));
          location := loc +:+ ".story_points";
          fix_hint := "Re-evaluate story complexity or update manual plan" |}]
  ++ when (5 <=? Z.abs (points (value_points m) - points (value_points a)))%Z
      [{| dev_type := MISMATCH; dev_severity := MEDIUM;
          description := "Story '" +:+ key +:+ "' value points differ significantly: manual="
            +:+ pretty (points (value_points m)) +:+ ", auto=" +:+ pretty (points (value_points a));
          location := loc +:+ ".value_points";
          fix_hint := "Re-evaluate business value or update manual plan" |}].

(** ** Two dictionaries side by side *)

(** The entries of [d1] whose key [d2] lacks, in order *)
Definition only_in {A} (d1 d2 : list (string * A)) : list (string * A) :=
  List.filter (λ kx : string * A, negb (dict_mem kx.1 d2)) d1.
(** The common keys, in the order of the set, with both values *)
Definition in_both {A} (d1 d2 : list (string * A)) : list (string * (A * A)) :=
  omap (λ k, x ← dict_get k d1; y ← dict_get k d2; Some (k, (x, y)))
    (set_iter (list_to_set (dict_keys d1) ∩ list_to_set (dict_keys d2))).

Definition _compare_stories (manual_feature auto_feature : Feature) (feature_key : string) : list Deviation :=
  let manual_stories := dict_by story_key (stories manual_feature) in
  let auto_stories := dict_by story_key (stories auto_feature) in
  ((λ ks, missing_story feature_key ks.1 ks.2) <$> only_in manual_stories auto_stories)
  ++ ((λ ks, extra_story feature_key ks.1 ks.2) <$> only_in auto_stories manual_stories)
  ++ (in_both manual_stories auto_stories ≫= λ kms, common_story feature_key kms.1 kms.2.1 kms.2.2).

(** ** Features *)

Definition missing_feature (f : Feature) : Deviation :=
  {| dev_type := MISSING_FEATURE;
     dev_severity := match stories f with [] => MEDIUM | _ => HIGH end;
     description := "Feature '" +:+ feature_key f +:+ "' (" +:+ feature_title f
       +:+ ") in manual plan but not implemented";
     location := "features[" +:+ feature_key f +:+ "]";
     fix_hint := "Implement feature '" +:+ feature_key f +:+ "' or update manual plan" |}.
Definition extra_severity (f : Feature) : DeviationSeverity :=
  if bool_decide (3 < length (stories f)) || float_leb (float_dec 8 1) (feature_confidence f) then HIGH
  else if bool_decide (length (stories f) = 0) || float_ltb (feature_confidence f) (float_dec 5 1) then LOW
  else MEDIUM.
Definition extra_feature (f : Feature) : Deviation :=
  {| dev_type := EXTRA_IMPLEMENTATION; dev_severity := extra_severity f;
     description := "Feature '" +:+ feature_key f +:+ "' (" +:+ feature_title f
       +:+ ") found in code but not in manual plan";
     location := "features[" +:+ feature_key f +:+ "]";
     fix_hint := "Add feature '" +:+ feature_key f +:+ "' to manual plan or remove from code" |}.
Definition common_feature (m a : Feature) : list Deviation :=
  let key := feature_key m in
  when (bool_decide (feature_title m ≠ feature_title a))
    [{| dev_type := MISMATCH; dev_severity := LOW;
        description := "Feature '" +:+ key +:+ "' title differs: manual='" +:+ feature_title m +:+ "', auto='"
          +:+ feature_title a +:+ "'";
        location := "features[" +:+ key +:+ "].title";
        fix_hint := "Update feature title in code or manual plan" |}]
  ++ _compare_stories m a key.

Definition features_by_norm (l : list Feature) : list (string * Feature) :=
  dict_by (λ f, normalize_feature_key (feature_key f)) l.
Definition _compare_features manual auto : list Deviation :=
  let manual_features_by_norm := features_by_norm (features manual) in
  let auto_features_by_norm := features_by_norm (features auto) in
  ((λ kf, missing_feature kf.2) <$> only_in manual_features_by_norm auto_features_by_norm)
  ++ ((λ kf, extra_feature kf.2) <$> only_in auto_features_by_norm manual_features_by_norm)
  ++ (in_both manual_features_by_norm auto_features_by_norm ≫= λ kma, common_feature kma.2.1 kma.2.2).

(** ** The report *)

Definition summarise (l : list Deviation) : list (string * Z) :=
  foldl (λ d dev, dict_incr (deviation_value (dev_type dev)) 1 d) [] l.

Definition compare manual auto (manual_label auto_label : string) : result DeviationReport :=
  let! _ := check (bool_decide (manual_label ≠ "")) (ContractViolation "Manual label must be non-empty string") in
  let! _ := check (bool_decide (auto_label ≠ "")) (ContractViolation "Auto label must be non-empty string") in
  let found := _compare_ideas manual auto ++ _compare_business manual auto
    ++ _compare_product manual auto ++ _compare_features manual auto in
  Ok {| manual_plan := manual_label; auto_plan := auto_label; deviations := found; summary := summarise found |}.
End compare.
