(* ===== verification/ComparatorProofs.v ===== *)
(** ComparatorProofs: a comparison is empty exactly when the plans agree, and
    its summary counts what it lists. *)

From S2P Require Import Prelude Text Dict Floats PyValue FeatureKeys Comparator.

(** * Dictionaries built from lists *)

(** The last element of a list with a key *)
Definition last_with {A} (f : A → string) (k : string) (l : list A) : option A :=
  last (filter (λ x, f x = k) l).

Section dict_by.
Context {A : Type} (f : A → string).

Lemma dict_by_get k l : dict_get k (dict_by f l) = last_with f k l.
Proof.
  unfold dict_by, last_with. induction l as [|x l IH] using rev_ind; [done|].
  rewrite foldl_app, filter_app, last_app, filter_cons, filter_nil. cbn [foldl]. rewrite dict_get_set.
  destruct (decide (k = f x)) as [->|Hne]; [by rewrite decide_True|]. by rewrite decide_False.
Qed.
Lemma dict_by_wf l : dict_wf (dict_by f l).
Proof.
  unfold dict_by. induction l as [|x l IH] using rev_ind; [by apply dict_wf_nil|].
  rewrite foldl_app. by apply dict_wf_set.
Qed.
End dict_by.

Lemma only_in_elem {A} (d1 d2 : list (string * A)) k x :
  dict_wf d1 → (k, x) ∈ only_in d1 d2 ↔ dict_get k d1 = Some x ∧ dict_get k d2 = None.
Proof.
  intros Hwf. unfold only_in. rewrite list_elem_of_In, filter_In, <-list_elem_of_In. cbn.
  rewrite negb_true_iff, <-not_true_iff_false, dict_mem_true, dict_get_None.
  split; intros [Hx Hk]; split; try done.
  - by apply dict_get_elem.
  - by apply dict_get_Some_elem.
Qed.

Section both.
Context `{SetIterLaws} {A : Type}.
Implicit Types d : list (string * A).

Lemma in_both_elem d1 d2 k x y :
  (k, (x, y)) ∈ in_both d1 d2 ↔ dict_get k d1 = Some x ∧ dict_get k d2 = Some y.
Proof.
  unfold in_both. rewrite list_elem_of_omap. split.
  - intros (k' & _ & E). destruct (dict_get k' d1) eqn:E1, (dict_get k' d2) eqn:E2; cbn in E; try done.
    by simplify_eq.
  - intros [E1 E2]. exists k. rewrite E1, E2. split; [|done]. rewrite set_iter_perm. apply elem_of_elements.
    rewrite elem_of_intersection, !elem_of_list_to_set, !elem_of_dict_keys, E1, E2. eauto.
Qed.

Lemma nil_iff {B} (l : list B) : l = [] ↔ ∀ x, x ∉ l.
Proof. split; [intros -> x; apply not_elem_of_nil|]. destruct l as [|x l]; [done|]. intros H'. destruct (H' x). left. Qed.

(** Two dictionaries have the same keys and no finding at a common key. *)
Lemma both_clean {B} (g : string → A → A → list B) d1 d2 :
  dict_wf d1 → dict_wf d2 →
  only_in d1 d2 = [] ∧ only_in d2 d1 = [] ∧ (in_both d1 d2 ≫= λ kxy, g kxy.1 kxy.2.1 kxy.2.2) = [] ↔
  ∀ k, match dict_get k d1, dict_get k d2 with
       | None, None => True
       | Some x, Some y => g k x y = []
       | _, _ => False
       end.
Proof.
  intros H1 H2. rewrite !nil_iff. split.
  - intros (Ho1 & Ho2 & Hb) k. destruct (dict_get k d1) as [x|] eqn:E1, (dict_get k d2) as [y|] eqn:E2; try done.
    + apply nil_iff. intros b Hbg. apply (Hb b). apply list_elem_of_bind. exists (k, (x, y)).
      split; [done|]. by apply in_both_elem.
    + apply (Ho1 (k, x)). by apply only_in_elem.
    + apply (Ho2 (k, y)). by apply only_in_elem.
  - intros Hk. split_and!.
    + intros [k x] [E1 E2]%only_in_elem; [|done]. specialize (Hk k). by rewrite E1, E2 in Hk.
    + intros [k x] [E1 E2]%only_in_elem; [|done]. specialize (Hk k). by rewrite E1, E2 in Hk.
    + intros b ([k [x y]] & Hb & [E1 E2]%in_both_elem)%list_elem_of_bind. specialize (Hk k).
      rewrite E1, E2 in Hk. cbn in Hb. rewrite Hk in Hb. by apply not_elem_of_nil in Hb.
Qed.
End both.

Lemma when_nil {A} (c : bool) (l : list A) : l ≠ [] → when c l = [] ↔ c = false.
Proof. by destruct c. Qed.
Lemma when_decide_nil {A} (P : Prop) `{Decision P} (l : list A) :
  l ≠ [] → when (bool_decide (¬ P)) l = [] ↔ P.
Proof.
  intros Hl. rewrite when_nil by done. rewrite bool_decide_eq_false. split; [apply dec_stable|tauto].
Qed.

(** * Agreement *)

Definition same_elements (l1 l2 : list string) : Prop := ∀ x, x ∈ l1 ↔ x ∈ l2.

Definition ideas_agree (m a : option Idea) : Prop :=
  match m, a with
  | None, None => True
  | Some m, Some a => idea_title m = idea_title a ∧ narrative m = narrative a
  | _, _ => False
  end.
Definition stories_agree (s t : Story) : Prop :=
  story_title s = story_title t ∧ same_elements (acceptance s) (acceptance t) ∧
  (Z.abs (points (story_points s) - points (story_points t)) < 3)%Z ∧
  (Z.abs (points (value_points s) - points (value_points t)) < 5)%Z.
(** Under every key either both have something, and it agrees, or neither has. *)
Definition agree_at {A} (R : A → A → Prop) (x y : option A) : Prop :=
  match x, y with None, None => True | Some x, Some y => R x y | _, _ => False end.
Definition features_agree (m a : Feature) : Prop :=
  feature_title m = feature_title a ∧
  ∀ k, agree_at stories_agree (last_with story_key k (stories m)) (last_with story_key k (stories a)).
Definition norm (f : Feature) : string := normalize_feature_key (feature_key f).
Definition plans_agree (manual auto : PlanBundle) : Prop :=
  ideas_agree (idea manual) (idea auto) ∧ (business manual = true → business auto = true) ∧
  same_elements (themes manual) (themes auto) ∧
  ∀ k, agree_at features_agree (last_with norm k (features manual)) (last_with norm k (features auto)).

Section compare.
Context `{SetIterLaws} `{DeviationValue}.
Implicit Types manual auto : PlanBundle.

Lemma ideas_clean manual auto : _compare_ideas manual auto = [] ↔ ideas_agree (idea manual) (idea auto).
Proof.
  unfold _compare_ideas, ideas_agree. destruct (idea manual), (idea auto); try done.
  rewrite app_nil, !when_decide_nil by done. done.
Qed.
Lemma business_clean manual auto :
  _compare_business manual auto = [] ↔ (business manual = true → business auto = true).
Proof. unfold _compare_business. destruct (business manual), (business auto); cbn; naive_solver. Qed.

Lemma set_iter_nil (X : gset string) : set_iter X = [] ↔ X = ∅.
Proof.
  rewrite <-(leibniz_equiv_iff X), <-elements_empty_iff. pose proof (set_iter_perm X) as Hp. split; intros E.
  - rewrite E in Hp. by apply Permutation_nil_l in Hp.
  - rewrite E in Hp. by apply Permutation_nil_r in Hp.
Qed.
Lemma same_elements_sets l1 l2 :
  same_elements l1 l2 ↔ (list_to_set l1 : gset string) = list_to_set l2.
Proof. unfold same_elements. rewrite set_eq. by setoid_rewrite elem_of_list_to_set. Qed.
Lemma differences_empty (X Y : gset string) : X ∖ Y = ∅ ∧ Y ∖ X = ∅ ↔ X = Y.
Proof. split; [|set_solver]. intros [HX HY]. apply set_eq. intros x. destruct (decide (x ∈ X)), (decide (x ∈ Y)); set_solver. Qed.

Lemma product_clean manual auto :
  _compare_product manual auto = [] ↔ same_elements (themes manual) (themes auto).
Proof.
  unfold _compare_product. cbv zeta. rewrite app_nil, !fmap_nil_iff, !set_iter_nil, differences_empty.
  by rewrite same_elements_sets.
Qed.

Lemma story_clean fk key s t : common_story fk key s t = [] ↔ stories_agree s t.
Proof.
  unfold common_story, stories_agree. cbv zeta. rewrite !app_nil, same_elements_sets.
  set (X := list_to_set (acceptance s) : gset string). set (Y := list_to_set (acceptance t) : gset string).
  assert (Hacc : ∀ l1 l2 : list Deviation, l1 ≠ [] → l2 ≠ [] →
    when (bool_decide (X ≠ Y)) (when (bool_decide (X ∖ Y ≠ ∅)) l1 ++ when (bool_decide (Y ∖ X ≠ ∅)) l2) = [] ↔
    X = Y).
  { intros l1 l2 Hl1 Hl2. destruct (decide (X = Y)) as [E|E].
    - rewrite (bool_decide_eq_false_2 (X ≠ Y)) by tauto. done.
    - rewrite (bool_decide_eq_true_2 (X ≠ Y)) by done. cbn [when].
      rewrite app_nil, !when_decide_nil by done. apply differences_empty. }
  rewrite Hacc by done. rewrite when_decide_nil by done. rewrite !when_nil by done.
  rewrite !Z.leb_gt. done.
Qed.

Lemma stories_clean m a fk :
  _compare_stories m a fk = [] ↔
  ∀ k, agree_at stories_agree (last_with story_key k (stories m)) (last_with story_key k (stories a)).
Proof.
  unfold _compare_stories. cbv zeta. rewrite !app_nil, !fmap_nil_iff.
  rewrite (both_clean (λ k s t, common_story fk k s t)) by apply dict_by_wf.
  apply forall_proper. intros k. rewrite !dict_by_get. unfold agree_at.
  destruct (last_with _ _ _), (last_with _ _ _); try done. apply story_clean.
Qed.

Lemma feature_clean m a : common_feature m a = [] ↔ features_agree m a.
Proof.
  unfold common_feature, features_agree. cbv zeta. rewrite app_nil, when_decide_nil, stories_clean by done. done.
Qed.

Lemma features_clean manual auto :
  _compare_features manual auto = [] ↔
  ∀ k, agree_at features_agree (last_with norm k (features manual)) (last_with norm k (features auto)).
Proof.
  unfold _compare_features, features_by_norm. cbv zeta. rewrite !app_nil, !fmap_nil_iff.
  rewrite (both_clean (λ _ m a, common_feature m a)) by apply dict_by_wf.
  apply forall_proper. intros k. rewrite !dict_by_get. unfold agree_at, norm.
  destruct (last_with _ _ _), (last_with _ _ _); try done. apply feature_clean.
Qed.

(** C40 A comparison reports exactly the disagreements.  With two non-empty
    labels it succeeds; it lists nothing if and only if the plans agree: their
    ideas, a business section where the manual plan has one, the sets of
    themes, and under every normalized key, taking the last feature with that
    key, the titles and under every story key the titles, the sets of
    acceptance criteria and the points within the tolerance.  A feature whose
    key only one plan has is listed with its severity, and the summary counts
    the deviations of each type. *)
Theorem compare_spec manual auto (manual_label auto_label : string) :
  Inj (=) (=) (deviation_value) → manual_label ≠ "" → auto_label ≠ "" →
  ∃ r, compare manual auto manual_label auto_label = Ok r ∧
    manual_plan r = manual_label ∧ auto_plan r = auto_label ∧
    (deviations r = [] ↔ plans_agree manual auto) ∧
    (∀ k f, last_with norm k (features manual) = Some f → last_with norm k (features auto) = None →
       missing_feature f ∈ deviations r) ∧
    (∀ k f, last_with norm k (features auto) = Some f → last_with norm k (features manual) = None →
       extra_feature f ∈ deviations r) ∧
    (∀ ty, default 0%Z (dict_get (deviation_value ty) (summary r)) =
       Z.of_nat (length (filter (λ d, dev_type d = ty) (deviations r)))).
Proof.
  intros Hinj Hm Ha. unfold compare. rewrite !bool_decide_eq_true_2 by done. eexists. split; [reflexivity|].
  cbn [manual_plan auto_plan deviations summary]. split_and!; try done.
  - rewrite !app_nil, ideas_clean, business_clean, product_clean, features_clean. done.
  - intros k f Hf Hno. rewrite !elem_of_app. right; right; right. unfold _compare_features. cbv zeta.
    rewrite !elem_of_app. left. apply list_elem_of_fmap. exists (k, f). split; [done|].
    apply only_in_elem; [apply dict_by_wf|]. unfold features_by_norm. by rewrite !dict_by_get.
  - intros k f Hf Hno. rewrite !elem_of_app. right; right; right. unfold _compare_features. cbv zeta.
    rewrite !elem_of_app. right; left. apply list_elem_of_fmap. exists (k, f). split; [done|].
    apply only_in_elem; [apply dict_by_wf|]. unfold features_by_norm. by rewrite !dict_by_get.
  - intros ty. etransitivity; [apply (dict_count_get (λ d, deviation_value (dev_type d)))|]. do 2 f_equal.
    apply list_filter_iff. intros d. split; [apply Hinj|by intros ->].
Qed.
End compare.

(** * Two concrete plans *)

Section sample.
#[local] Instance sample_iter : SetIter := elements_iter.
#[local] Instance sample_values : DeviationValue := λ ty,
  match ty with
  | EXTRA_IMPLEMENTATION => "extra" | MISSING_FEATURE => "missing" | MISMATCH => "mismatch"
  | MISSING_BUSINESS_CONTEXT => "business" | MISSING_STORY => "story" | ACCEPTANCE_DRIFT => "drift"
  end.
Lemma sample_values_inj : Inj (=) (=) (deviation_value).
Proof. by intros [] []. Qed.

Definition sample_story (criteria : list string) : Story :=
  {| story_key := "S-1"; story_title := "s"; acceptance := criteria; story_points := Some 3%Z;
     value_points := None; story_confidence := float_of_Z 1; draft := false |}.
Definition sample_feature (key : string) (criteria : list string) : Feature :=
  {| feature_key := key; feature_title := "t"; stories := [sample_story criteria];
     feature_confidence := float_of_Z 1 |}.
Definition sample_plan (fs : list Feature) : PlanBundle :=
  {| idea := None; business := false; themes := ["a"; "b"]; features := fs |}.

(** The same feature under two spellings of its key, the criteria in another
    order: no deviation; a feature the other plan lacks is listed. *)
Lemma compare_spec_witness :
  (∃ r, compare (sample_plan [sample_feature "041-log-in" ["x"; "y"]])
      (sample_plan [sample_feature "FEATURE-LOGIN" ["y"; "x"; "y"]]) "m" "a" = Ok r ∧ deviations r = []) ∧
  ∃ r, compare (sample_plan [sample_feature "041-log-in" ["x"]]) (sample_plan []) "m" "a" = Ok r ∧
    missing_feature (sample_feature "041-log-in" ["x"]) ∈ deviations r ∧
    default 0%Z (dict_get "missing" (summary r)) = 1%Z.
Proof.
  split.
  - destruct (compare_spec (H0 := elements_iter_laws) (sample_plan [sample_feature "041-log-in" ["x"; "y"]])
      (sample_plan [sample_feature "FEATURE-LOGIN" ["y"; "x"; "y"]]) "m" "a" sample_values_inj)
      as (r & E & _); [done..|].
    exists r. split; [exact E|]. vm_compute in E. injection E as <-. reflexivity.
  - destruct (compare_spec (H0 := elements_iter_laws) (sample_plan [sample_feature "041-log-in" ["x"]])
      (sample_plan []) "m" "a" sample_values_inj) as (r & E & _ & _ & _ & Hmiss & _ & Hsum); [done..|].
    exists r. split; [exact E|]. split.
    + apply (Hmiss "LOGIN"); vm_compute; reflexivity.
    + change "missing" with (deviation_value MISSING_FEATURE). rewrite Hsum. vm_compute in E.
      injection E as <-. reflexivity.
Defined.
End sample.
