(* ===== verification/Policy.v ===== *)
(** Policy: the policy engine of [specfact_backlog/policy_engine]: snapshot
    items and their canonical fields, the Scrum, Kanban and SAFe rules, the
    evaluator registry, filters, groups and suggestions, and what the validate
    and suggest commands decide. *)

From S2P Require Import Prelude Text Dict Floats PyValue Locations.

Abbreviation item := (list (pyval * pyval)).

(** * Configuration and results *)

Record ScrumPolicyConfig := { dor_required_fields : list string; dod_required_fields : list string }.
Record KanbanColumnPolicyConfig := { entry_required_fields : list string; exit_required_fields : list string }.
Record KanbanPolicyConfig := { columns : list (string * KanbanColumnPolicyConfig) }.
Record SafePolicyConfig := { pi_readiness_required_fields : list string }.
Record PolicyConfig := { scrum : ScrumPolicyConfig; kanban : KanbanPolicyConfig; safe : SafePolicyConfig }.

Record PolicyResult := {
  rule_id : string;
  policy_severity : string;
  evidence_pointer : string;
  recommended_action : string;
  policy_message : string
}.
#[export] Instance PolicyResult_eq_dec : EqDecision PolicyResult.
Proof. solve_decision. Defined.

Definition normalize_policy_result (finding : PolicyResult) : result PolicyResult :=
  let! _ := check (nonblank (rule_id finding)) (ContractViolation "rule_id must not be empty") in
  let! _ := check (nonblank (policy_severity finding)) (ContractViolation "severity must not be empty") in
  let! _ := check (nonblank (evidence_pointer finding)) (ContractViolation "evidence_pointer must not be empty") in
  let! _ := check (nonblank (recommended_action finding))
    (ContractViolation "recommended_action must not be empty") in
  Ok {| rule_id := strip (rule_id finding); policy_severity := lower (strip (policy_severity finding));
        evidence_pointer := strip (evidence_pointer finding);
        recommended_action := strip (recommended_action finding);
        policy_message := strip (policy_message finding) |}.

(** * Snapshot items (engine/validator.py) *)

Definition _is_missing_value (value : pyval) : bool :=
  match value with
  | VNone => true
  | VStr s => String.eqb (strip s) ""
  | VList l => bool_decide (l = [])
  | _ => false
  end.

Fixpoint _first_present (primary secondary : item) (keys : list string) : pyval :=
  match keys with
  | [] => VNone
  | key :: keys =>
      if dict_mem (VStr key) primary && negb (_is_missing_value (vget key primary)) then vget key primary
      else if dict_mem (VStr key) secondary && negb (_is_missing_value (vget key secondary))
      then vget key secondary
      else _first_present primary secondary keys
  end.

(** [s.splitlines()] *)
Definition str_lines (s : string) : list string :=
  (λ l, of_chars (ascii_of_N <$> l)) <$> text_lines (bytes_of s).
Fixpoint span (p : ascii → bool) (l : list ascii) : list ascii * list ascii :=
  match l with
  | c :: l' => if p c then let '(a, b) := span p l' in (c :: a, b) else ([], l)
  | [] => ([], [])
  end.
(** The stripped title of a line that [^\s{0,3}#{1,6}\s+(?P<title>.+?)\s*$]
    matches: something must follow the first space behind the hashes. *)
Definition heading_title (line : string) : option string :=
  let '(spaces, l) := span is_space (chars line) in
  let '(hashes, l) := span (λ c, bool_decide (c = "#"%char)) l in
  if bool_decide (length spaces ≤ 3) && bool_decide (1 ≤ length hashes ≤ 6)
  then match l with
       | c :: (_ :: _) as rest => if is_space c then Some (strip (of_chars rest)) else None
       | _ => None
       end
  else None.
(** The lines of the first section with one of the names, up to the next heading *)
Fixpoint section_lines (names : list string) (collecting : bool) (lines : list string) : list string :=
  match lines with
  | [] => []
  | line :: lines =>
      match heading_title line with
      | Some title =>
          if collecting then []
          else section_lines names (bool_decide (lower title ∈ names)) lines
      | None =>
          if collecting then line :: section_lines names collecting lines
          else section_lines names collecting lines
      end
  end.
Definition newline : string := of_chars [ascii_of_nat 10].
Definition _extract_markdown_section (description : string) (section_names : list string) : option string :=
  if String.eqb (strip description) "" then None
  else
    let names := (λ n, lower (strip n)) <$> section_names in
    let content := strip (join newline (section_lines names false (str_lines description))) in
    if String.eqb content "" then None else Some content.

Section items.
Context `{PyRepr}.

(** A canonical field: one of its aliases, or a section of the description *)
Definition section_or (value : pyval) (normalized : item) (section : string) : pyval :=
  if _is_missing_value value
  then match _extract_markdown_section (py_str (py_or (vget "description" normalized) (VStr ""))) [section] with
       | Some s => VStr s
       | None => VNone
       end
  else value.
Definition set_present (key : string) (value : pyval) (normalized : item) : item :=
  if _is_missing_value value then normalized else dict_set (VStr key) value normalized.

Definition _normalize_policy_item (it : item) : item :=
  let raw := match vget "raw_data" it with VDict d => d | _ => [] end in
  let acceptance_criteria := _first_present it raw
    ["acceptance_criteria"; "acceptanceCriteria"; "System.AcceptanceCriteria"; "acceptance criteria"] in
  let normalized := set_present "acceptance_criteria"
    (section_or acceptance_criteria it "acceptance criteria") it in
  let business_value := _first_present normalized raw
    ["business_value"; "businessValue"; "Microsoft.VSTS.Common.BusinessValue"; "business value"] in
  let normalized := set_present "business_value" business_value normalized in
  let definition_of_done := _first_present normalized raw
    ["definition_of_done"; "definitionOfDone"; "System.DefinitionOfDone"; "definition of done"] in
  set_present "definition_of_done" (section_or definition_of_done normalized "definition of done") normalized.

Definition is_dict (v : pyval) : bool := match v with VDict _ => true | _ => false end.
Definition _coerce_items (items : pyval) : list pyval :=
  match items with
  | VList l => l
  | VDict d => List.filter is_dict d.*2
  | _ => []
  end.
Definition _extract_items (payload : pyval) : list pyval :=
  match payload with
  | VList l => l
  | VDict d =>
      if dict_mem (VStr "items") d then _coerce_items (vget "items" d)
      else match vget "backlog_graph" d with
           | VDict g => if dict_mem (VStr "items") g then _coerce_items (vget "items" g) else []
           | _ => []
           end
  | _ => []
  end.
(** What reading and parsing the snapshot file gives: its value or an error
    text.  An empty document passes the error test and fails the assertion. *)
Definition load_snapshot_items (payload : string + pyval) : result (string + list item) :=
  match payload with
  | inl error => Ok (inl error)
  | inr VNone => Err (ContractViolation "assert payload is not None")
  | inr payload =>
      let normalized := omap (λ v, match v with VDict d => Some (_normalize_policy_item d) | _ => None end)
        (_extract_items payload) in
      Ok (match normalized with
          | [] => inl "Snapshot payload does not contain any policy-evaluable items."
          | _ => inr normalized
          end)
  end.

(** * Rules (policies) *)

Definition _is_missing (it : item) (field : string) : bool := _is_missing_value (vget field it).

Definition pointer (idx : nat) (field : string) : string :=
  "items[" +:+ pretty (Z.of_nat idx) +:+ "]." +:+ field.
Definition failure (rule : string) (idx : nat) (field action message : string) : result PolicyResult :=
  normalize_policy_result
    {| rule_id := rule; policy_severity := "error"; evidence_pointer := pointer idx field;
       recommended_action := action; policy_message := message |}.

(** The findings for the missing ones of some fields *)
Definition missing_fields (it : item) (finding : string → result PolicyResult) (fields : list string) :
    result (list PolicyResult) :=
  map_res finding (List.filter (_is_missing it) fields).
(** The findings of every item, one after the other *)
Fixpoint for_items (idx : nat) (f : nat → item → result (list PolicyResult)) (items : list item) :
    result (list PolicyResult) :=
  match items with
  | [] => Ok []
  | it :: items =>
      let! found := f idx it in
      let! rest := for_items (S idx) f items in
      Ok (found ++ rest)
  end.

Definition scrum_dor (idx : nat) (field : string) : result PolicyResult :=
  failure ("scrum.dor." +:+ field) idx field ("Add required DoR field '" +:+ field +:+ "'.")
    ("Missing required DoR field '" +:+ field +:+ "'.").
Definition scrum_dod (idx : nat) (field : string) : result PolicyResult :=
  failure ("scrum.dod." +:+ field) idx field ("Add required DoD field '" +:+ field +:+ "'.")
    ("Missing required DoD field '" +:+ field +:+ "'.").
Definition build_scrum_failures (config : PolicyConfig) (items : list item) : result (list PolicyResult) :=
  for_items 0 (λ idx it,
    let! dor := missing_fields it (scrum_dor idx) (dor_required_fields (scrum config)) in
    let! dod := missing_fields it (scrum_dod idx) (dod_required_fields (scrum config)) in
    Ok (dor ++ dod)) items.

Definition column_of (it : item) : string := strip (py_str (default (VStr "") (dict_get (VStr "column") it))).
Definition kanban_entry (column : string) (idx : nat) (field : string) : result PolicyResult :=
  failure ("kanban.entry." +:+ column +:+ "." +:+ field) idx field
    ("Add required entry field '" +:+ field +:+ "' before column '" +:+ column +:+ "'.")
    ("Missing required entry field '" +:+ field +:+ "' for column '" +:+ column +:+ "'.").
Definition kanban_exit (column : string) (idx : nat) (field : string) : result PolicyResult :=
  failure ("kanban.exit." +:+ column +:+ "." +:+ field) idx field
    ("Add required exit field '" +:+ field +:+ "' before leaving column '" +:+ column +:+ "'.")
    ("Missing required exit field '" +:+ field +:+ "' for column '" +:+ column +:+ "'.").
Definition build_kanban_failures (config : PolicyConfig) (items : list item) : result (list PolicyResult) :=
  let column_rules := columns (kanban config) in
  if bool_decide (column_rules = []) then Ok []
  else
    for_items 0 (λ idx it,
      let column := column_of it in
      if String.eqb column "" then Ok []
      else
        match dict_get column column_rules with
        | None => Ok []
        | Some rules =>
            let! entry := missing_fields it (kanban_entry column idx) (entry_required_fields rules) in
            let! exit := missing_fields it (kanban_exit column idx) (exit_required_fields rules) in
            Ok (entry ++ exit)
        end) items.

Definition safe_pi (idx : nat) (field : string) : result PolicyResult :=
  failure ("safe.pi_readiness." +:+ field) idx field ("Add PI readiness field '" +:+ field +:+ "'.")
    ("Missing required PI readiness field '" +:+ field +:+ "'.").
Definition build_safe_failures (config : PolicyConfig) (items : list item) : result (list PolicyResult) :=
  if bool_decide (pi_readiness_required_fields (safe config) = []) then Ok []
  else for_items 0 (λ idx it, missing_fields it (safe_pi idx) (pi_readiness_required_fields (safe config))) items.

(** ** The registry of further evaluators *)

Definition PolicyEvaluator : Type := PolicyConfig → list item → result (list PolicyResult).
Definition PolicyRegistry : Type := list (string * PolicyEvaluator).
Definition register (name : string) (evaluator : PolicyEvaluator) (r : PolicyRegistry) : result PolicyRegistry :=
  let! _ := check (nonblank name) (ContractViolation "Policy evaluator name must not be empty") in
  Ok (dict_set name evaluator r).
Definition list_names (r : PolicyRegistry) : list string := sorted (dict_keys r).
Definition get_all (r : PolicyRegistry) : list PolicyEvaluator := omap (λ name, dict_get name r) (list_names r).

Definition validate_policies (config : PolicyConfig) (items : list item) (registry : option PolicyRegistry) :
    result (list PolicyResult) :=
  let! scrum_failures := build_scrum_failures config items in
  let! kanban_failures := build_kanban_failures config items in
  let! safe_failures := build_safe_failures config items in
  let! extra := map_res (λ evaluator : PolicyEvaluator, evaluator config items)
    (match registry with Some r => get_all r | None => [] end) in
  Ok (scrum_failures ++ kanban_failures ++ safe_failures ++ mjoin extra).
End items.

(** * The commands (main.py) *)

Definition _normalize_rule_filters (rule_filters : option (list string)) : list string :=
  match rule_filters with
  | None => []
  | Some l => List.filter (λ t, negb (String.eqb t "")) (l ≫= λ raw, strip <$> split_on ","%char raw)
  end.
Definition _filter_findings_by_rule (findings : list PolicyResult) (rule_filters : list string) :
    list PolicyResult :=
  match rule_filters with
  | [] => findings
  | _ => List.filter (λ f, existsb (λ rule, py_in rule (rule_id f)) rule_filters) findings
  end.

(** [re.search(r"items\[(?P<index>\d+)\]", pointer)] and the number it found *)
Definition pointer_at (l : list ascii) : option Z :=
  if bool_decide (take 6 l = chars "items[")
  then
    let '(digits, l) := span is_digit (drop 6 l) in
    match digits, l with
    | _ :: _, "]"%char :: _ => parse_digits 0 false digits
    | _, _ => None
    end
  else None.
Fixpoint search_pointer (l : list ascii) : option Z :=
  match pointer_at l with
  | Some z => Some z
  | None => match l with [] => None | _ :: l' => search_pointer l' end
  end.
Definition _extract_item_index (pointer : string) : option Z := search_pointer (chars pointer).
Definition index_of (f : PolicyResult) : option Z := _extract_item_index (evidence_pointer f).

(** [l[:limit]] *)
Definition first_slice {A} (limit : Z) (l : list A) : list A :=
  if (limit <? 0)%Z then take (Z.to_nat (Z.of_nat (length l) + limit)) l else take (Z.to_nat limit) l.
Definition _limit_findings_by_item (findings : list PolicyResult) (limit : option Z) : list PolicyResult :=
  match limit with
  | None => findings
  | Some limit =>
      let item_indexes := sorted_set (list_to_set (omap index_of findings) : gset Z) in
      let allowed := first_slice limit item_indexes in
      List.filter (λ f, match index_of f with Some i => bool_decide (i ∈ allowed) | None => false end) findings
  end.

Record Group (A : Type) := { item_index : Z; group_count : nat; group_members : list A }.
Arguments item_index {A} _.
Arguments group_count {A} _.
Arguments group_members {A} _.
(** Elements with an index, by index; both groupings of the file do this. *)
Definition group_by_index {A} (index : A → option Z) (l : list A) : list (Group A) :=
  (λ kg : Z * list A, {| item_index := kg.1; group_count := length kg.2; group_members := kg.2 |}) <$>
    sort_by fst (foldl (λ d x, match index x with Some i => dict_append i x d | None => d end) [] l).
Definition _group_failures_by_item : list PolicyResult → list (Group PolicyResult) := group_by_index index_of.

Record Suggestion := { sg_rule_id : string; sg_confidence : spec_float; sg_reason : string; sg_path : string }.
Definition _score_confidence (finding : PolicyResult) : spec_float :=
  if String.eqb (policy_severity finding) "error" then float_dec 9 1 else float_dec 75 2.
Definition build_suggestions (findings : list PolicyResult) : list Suggestion :=
  (λ f, {| sg_rule_id := rule_id f; sg_confidence := _score_confidence f; sg_reason := policy_message f;
           sg_path := evidence_pointer f |}) <$> findings.
Definition _group_suggestions_by_item : list Suggestion → list (Group Suggestion) :=
  group_by_index (λ s, _extract_item_index (sg_path s)).

Definition result_row (f : PolicyResult) : string :=
  "| " +:+ rule_id f +:+ " | " +:+ policy_severity f +:+ " | " +:+ evidence_pointer f +:+ " | "
  +:+ recommended_action f +:+ " |".
Definition report_head (findings : list PolicyResult) : list string :=
  ["# Policy Validation Results"; ""; "- Findings: " +:+ pretty (length findings); ""].
Definition table_head : list string :=
  ["| rule_id | severity | evidence_pointer | recommended_action |"; "|---|---|---|---|"].
Definition render_markdown (findings : list PolicyResult) : string :=
  match findings with
  | [] => join newline (report_head findings ++ ["No policy failures found."]) +:+ newline
  | _ => join newline (report_head findings ++ table_head ++ (result_row <$> findings) ++ [""])
  end.
Definition _render_grouped_markdown (findings : list PolicyResult) : string :=
  match _group_failures_by_item findings with
  | [] => join newline (report_head findings ++ ["No grouped item findings available."]) +:+ newline
  | groups =>
      join newline (report_head findings ++ (groups ≫= λ g,
        ["## Item " +:+ pretty (item_index g) +:+ " (" +:+ pretty (group_count g) +:+ " findings)"; ""]
        ++ table_head ++ (result_row <$> group_members g) ++ [""]))
  end.

Section commands.
Context `{PyRepr}.

(** The findings a command shows *)
Definition selected_findings (config : PolicyConfig) (items : list item) (rule : option (list string))
    (limit : option Z) (group_by_item : bool) : result (list PolicyResult) :=
  let! findings := validate_policies config items None in
  let findings := _filter_findings_by_rule findings (_normalize_rule_filters rule) in
  Ok (if group_by_item then _limit_findings_by_item findings limit
      else match limit with Some n => first_slice n findings | None => findings end).

Record ValidateOutcome := {
  exit_code : Z;
  shown : list PolicyResult;
  markdown : option string;
  groups : option (list (Group PolicyResult))
}.
Definition stopped (code : Z) : ValidateOutcome :=
  {| exit_code := code; shown := []; markdown := None; groups := None |}.

(** [config] and [items] are what the loaders returned, errors included; the
    errors they raise escape. *)
Definition validate_command (config : string + PolicyConfig) (payload : string + pyval) (output_format : string)
    (rule : option (list string)) (limit : option Z) (group_by_item : bool) : result ValidateOutcome :=
  match config with
  | inl _ => Ok (stopped 1)
  | inr config =>
      let! loaded := load_snapshot_items payload in
      match loaded with
      | inl _ => Ok (stopped 1)
      | inr items =>
          let! findings := selected_findings config items rule limit group_by_item in
          let normalized_format := lower (strip output_format) in
          if bool_decide (normalized_format ∈ ["json"; "markdown"; "both"])
          then Ok {| exit_code := match findings with [] => 0 | _ => 1 end;
                     shown := findings;
                     markdown := if bool_decide (normalized_format ∈ ["markdown"; "both"])
                                 then Some (if group_by_item then _render_grouped_markdown findings
                                            else render_markdown findings)
                                 else None;
                     groups := if group_by_item then Some (_group_failures_by_item findings) else None |}
          else Ok (stopped 2)
      end
  end.

Definition suggest_command (config : string + PolicyConfig) (payload : string + pyval)
    (rule : option (list string)) (limit : option Z) (group_by_item : bool) :
    result (Z * (list (Group Suggestion) + list Suggestion)) :=
  match config with
  | inl _ => Ok (1%Z, inr [])
  | inr config =>
      let! loaded := load_snapshot_items payload in
      match loaded with
      | inl _ => Ok (1%Z, inr [])
      | inr items =>
          let! findings := selected_findings config items rule limit group_by_item in
          let suggestions := build_suggestions findings in
          Ok (0%Z, if group_by_item then inl (_group_suggestions_by_item suggestions) else inr suggestions)
      end
  end.
End commands.

Example section_example :
  _extract_markdown_section (join newline ["intro"; "## Acceptance Criteria  "; " - one"; "- two"; ""; "# Notes"; "x"])
    ["acceptance criteria"] = Some (join newline ["- one"; "- two"]).
Proof. vm_compute. reflexivity. Qed.
Example index_example :
  _extract_item_index "x items[] items[12].f" = Some 12%Z ∧ _extract_item_index "items[1" = None.
Proof. vm_compute. done. Qed.
