(* ===== verification/PolicyProofs.v ===== *)
(** PolicyProofs: the rules report exactly the missing required fields, an
    item is found back from the pointer of a finding, and the exit code of the
    validate command says whether a selected rule is violated, whatever is
    shown. *)

From S2P Require Import Prelude Text Dict Floats PyValue Json Decimal Locations Policy.

(** * What the configuration requires *)

Section rules.
Context `{PyRepr}.

(** The fields an item must have, each with the rule that asks for it *)
Inductive requires (config : PolicyConfig) (it : item) : string → string → Prop :=
  | requires_dor field :
      field ∈ dor_required_fields (scrum config) → requires config it ("scrum.dor." +:+ field) field
  | requires_dod field :
      field ∈ dod_required_fields (scrum config) → requires config it ("scrum.dod." +:+ field) field
  | requires_entry rules field :
      column_of it ≠ "" → dict_get (column_of it) (columns (kanban config)) = Some rules →
      field ∈ entry_required_fields rules →
      requires config it ("kanban.entry." +:+ column_of it +:+ "." +:+ field) field
  | requires_exit rules field :
      column_of it ≠ "" → dict_get (column_of it) (columns (kanban config)) = Some rules →
      field ∈ exit_required_fields rules →
      requires config it ("kanban.exit." +:+ column_of it +:+ "." +:+ field) field
  | requires_pi field :
      field ∈ pi_readiness_required_fields (safe config) →
      requires config it ("safe.pi_readiness." +:+ field) field.

(** The item at an index lacks a field that a rule requires. *)
Definition violates (config : PolicyConfig) (items : list item) (idx : nat) (rid field : string) : Prop :=
  ∃ it, items !! idx = Some it ∧ requires config it rid field ∧ _is_missing it field = true.

(** * Findings *)

(** The finding that reports it *)
Definition is_finding (f : PolicyResult) (idx : nat) (rid field : string) : Prop :=
  rule_id f = strip rid ∧ evidence_pointer f = strip (pointer idx field) ∧ policy_severity f = "error".

Lemma failure_ok c rid idx field a action message :
  is_space c = false → is_space a = false →
  ∃ f, failure (String c rid) idx field (String a action) message = Ok f ∧ is_finding f idx (String c rid) field.
Proof.
  intros Hc Ha. unfold failure, normalize_policy_result.
  cbn [rule_id policy_severity evidence_pointer recommended_action].
  assert (Hn : ∀ x s, is_space x = false → nonblank (String x s) = true).
  { intros x s Hx. rewrite <-(of_chars_chars (String x s)). by apply (nonblank_head x (chars s)). }
  unfold pointer. rewrite (Hn c rid Hc), (Hn a action Ha).
  change ("items[" +:+ ?s) with (String "i" ("tems[" +:+ s)). rewrite !Hn by done.
  eexists. split; [reflexivity|]. split_and!; [done..|vm_compute; reflexivity].
Qed.

(** The list holds a finding for each case of [R], and only such findings. *)
Definition describes (R : nat → string → string → Prop) (fs : list PolicyResult) : Prop :=
  (∀ f, f ∈ fs → ∃ idx rid field, R idx rid field ∧ is_finding f idx rid field) ∧
  (∀ idx rid field, R idx rid field → ∃ f, f ∈ fs ∧ is_finding f idx rid field).

Lemma describes_iff R1 R2 fs :
  (∀ idx rid field, R1 idx rid field ↔ R2 idx rid field) → describes R1 fs → describes R2 fs.
Proof. intros HR [H1 H2]. split; [intros f Hf; destruct (H1 f Hf) as (?&?&?&?&?)|]; naive_solver. Qed.
Lemma describes_nil R : (∀ idx rid field, ¬ R idx rid field) → describes R [].
Proof. intros HR. split; [intros f Hf; by apply not_elem_of_nil in Hf|]. intros; by destruct (HR idx rid field). Qed.
Lemma describes_app R1 R2 fs1 fs2 :
  describes R1 fs1 → describes R2 fs2 →
  describes (λ idx rid field, R1 idx rid field ∨ R2 idx rid field) (fs1 ++ fs2).
Proof.
  intros [A1 B1] [A2 B2]. split.
  - intros f [Hf|Hf]%elem_of_app; [destruct (A1 f Hf) as (?&?&?&?&?)|destruct (A2 f Hf) as (?&?&?&?&?)]; eauto 10.
  - intros idx rid field [HR|HR]; [destruct (B1 _ _ _ HR) as (f&?&?)|destruct (B2 _ _ _ HR) as (f&?&?)];
      exists f; rewrite elem_of_app; eauto.
Qed.

Lemma missing_fields_describes it idx (mk : string → result PolicyResult) (rid : string → string) fields :
  (∀ field, ∃ f, mk field = Ok f ∧ is_finding f idx (rid field) field) →
  ∃ fs, missing_fields it mk fields = Ok fs ∧
    describes (λ i r field, i = idx ∧ r = rid field ∧ field ∈ fields ∧ _is_missing it field = true) fs.
Proof.
  intros Hmk. unfold missing_fields. induction fields as [|field fields IH]; cbn [List.filter].
  { exists []. split; [done|]. apply describes_nil. intros ? ? ? (_ & _ & Hin & _). by apply not_elem_of_nil in Hin. }
  destruct IH as (fs & E & Hfs). destruct (_is_missing it field) eqn:Em.
  - destruct (Hmk field) as (f & Ef & Hf). exists (f :: fs). cbn [map_res]. rewrite Ef, E. split; [done|].
    assert (H1 : describes (λ i r fd, i = idx ∧ r = rid field ∧ fd = field) [f]).
    { split; [intros f' ->%list_elem_of_singleton; by exists idx, (rid field), field|].
      intros i r fd (-> & -> & ->). exists f. split; [by left|done]. }
    eapply describes_iff; [|exact (describes_app _ _ [f] fs H1 Hfs)].
    intros i r fd. cbn. rewrite elem_of_cons. naive_solver.
  - exists fs. split; [done|]. eapply describes_iff; [|exact Hfs]. intros i r fd. cbn. rewrite elem_of_cons.
    split; [naive_solver|]. intros (-> & -> & [->|Hin] & Hmiss); [congruence|done].
Qed.

Lemma for_items_describes (g : nat → item → result (list PolicyResult)) (Q : item → string → string → Prop) k items :
  (∀ idx it, ∃ fs, g idx it = Ok fs ∧ describes (λ i rid field, i = idx ∧ Q it rid field) fs) →
  ∃ fs, for_items k g items = Ok fs ∧
    describes (λ i rid field, ∃ j it, i = k + j ∧ items !! j = Some it ∧ Q it rid field) fs.
Proof.
  intros Hg. revert k. induction items as [|it items IH]; intros k; cbn [for_items].
  { exists []. split; [done|]. apply describes_nil. by intros ? ? ? (? & ? & _ & ? & _). }
  destruct (Hg k it) as (fs & E & Hfs), (IH (S k)) as (rest & Er & Hrest). rewrite E, Er. cbn [res_bind].
  eexists. split; [reflexivity|]. eapply describes_iff; [|exact (describes_app _ _ _ _ Hfs Hrest)].
  intros i rid field. cbn. split.
  - intros [[-> HQ]|(j & it' & -> & Hj & HQ)].
    + exists 0, it. split_and!; [lia|done..].
    + exists (S j), it'. split_and!; [lia|done..].
  - intros ([|j] & it' & -> & Hj & HQ); cbn in Hj.
    + injection Hj as <-. left. split; [lia|done].
    + right. exists j, it'. split_and!; [lia|done..].
Qed.

Ltac solve_failure := intros field; apply failure_ok; reflexivity.

(** The findings of one item from two lists of fields *)
Lemma two_lists_describe it idx mk1 rid1 fields1 mk2 rid2 fields2 :
  (∀ field, ∃ f, mk1 field = Ok f ∧ is_finding f idx (rid1 field) field) →
  (∀ field, ∃ f, mk2 field = Ok f ∧ is_finding f idx (rid2 field) field) →
  ∃ fs, (let! a := missing_fields it mk1 fields1 in let! b := missing_fields it mk2 fields2 in Ok (a ++ b)) = Ok fs ∧
    describes (λ i r field, i = idx ∧
      (r = rid1 field ∧ field ∈ fields1 ∨ r = rid2 field ∧ field ∈ fields2) ∧ _is_missing it field = true) fs.
Proof.
  intros H1 H2. destruct (missing_fields_describes it idx mk1 rid1 fields1 H1) as (fs1 & -> & D1).
  destruct (missing_fields_describes it idx mk2 rid2 fields2 H2) as (fs2 & -> & D2). cbn [res_bind].
  eexists. split; [reflexivity|]. eapply describes_iff; [|exact (describes_app _ _ _ _ D1 D2)].
  intros i r field. cbn. tauto.
Qed.

(** What each family reports *)
Definition family (Q : PolicyConfig → item → string → string → Prop) (config : PolicyConfig) (items : list item) :
    nat → string → string → Prop :=
  λ idx rid field, ∃ it, items !! idx = Some it ∧ Q config it rid field ∧ _is_missing it field = true.

Lemma family_of_items g (Q : PolicyConfig → item → string → string → Prop) config items :
  (∀ idx it, ∃ fs, g idx it = Ok fs ∧
     describes (λ i rid field, i = idx ∧ Q config it rid field ∧ _is_missing it field = true) fs) →
  ∃ fs, for_items 0 g items = Ok fs ∧ describes (family Q config items) fs.
Proof.
  intros Hg. destruct (for_items_describes g
    (λ it rid field, Q config it rid field ∧ _is_missing it field = true) 0 items Hg) as (fs & E & D).
  exists fs. split; [done|]. eapply describes_iff; [|exact D]. unfold family. naive_solver.
Qed.

Lemma scrum_describes config items :
  ∃ fs, build_scrum_failures config items = Ok fs ∧
    describes (family (λ config it rid field,
      rid = "scrum.dor." +:+ field ∧ field ∈ dor_required_fields (scrum config) ∨
      rid = "scrum.dod." +:+ field ∧ field ∈ dod_required_fields (scrum config)) config items) fs.
Proof.
  apply family_of_items. intros idx it.
  apply (two_lists_describe it idx (scrum_dor idx) (λ field, "scrum.dor." +:+ field) _
    (scrum_dod idx) (λ field, "scrum.dod." +:+ field)); solve_failure.
Qed.

Lemma kanban_describes config items :
  ∃ fs, build_kanban_failures config items = Ok fs ∧
    describes (family (λ config it rid field, column_of it ≠ "" ∧
      ∃ rules, dict_get (column_of it) (columns (kanban config)) = Some rules ∧
        (rid = "kanban.entry." +:+ column_of it +:+ "." +:+ field ∧ field ∈ entry_required_fields rules ∨
         rid = "kanban.exit." +:+ column_of it +:+ "." +:+ field ∧ field ∈ exit_required_fields rules))
      config items) fs.
Proof.
  unfold build_kanban_failures. cbv zeta. case_bool_decide as Hnone.
  { exists []. split; [done|]. apply describes_nil. intros idx rid field (it & _ & (_ & rules & Hr & _) & _).
    by rewrite Hnone in Hr. }
  apply family_of_items. intros idx it. destruct (String.eqb_spec (column_of it) "") as [E|E].
  { exists []. split; [done|]. apply describes_nil. naive_solver. }
  destruct (dict_get (column_of it) (columns (kanban config))) as [rules|].
  - destruct (two_lists_describe it idx (kanban_entry (column_of it) idx)
      (λ field, "kanban.entry." +:+ column_of it +:+ "." +:+ field) (entry_required_fields rules)
      (kanban_exit (column_of it) idx) (λ field, "kanban.exit." +:+ column_of it +:+ "." +:+ field)
      (exit_required_fields rules)) as (fs & -> & D); [solve_failure..|].
    exists fs. split; [done|]. eapply describes_iff; [|exact D]. naive_solver.
  - exists []. split; [done|]. apply describes_nil. naive_solver.
Qed.

Lemma safe_describes config items :
  ∃ fs, build_safe_failures config items = Ok fs ∧
    describes (family (λ config it rid field, rid = "safe.pi_readiness." +:+ field ∧
      field ∈ pi_readiness_required_fields (safe config)) config items) fs.
Proof.
  unfold build_safe_failures. case_bool_decide as Hnone.
  { exists []. split; [done|]. apply describes_nil. intros idx rid field (it & _ & (_ & Hin) & _).
    rewrite Hnone in Hin. by apply not_elem_of_nil in Hin. }
  apply family_of_items. intros idx it.
  destruct (missing_fields_describes it idx (safe_pi idx) (λ field, "safe.pi_readiness." +:+ field)
    (pi_readiness_required_fields (safe config))) as (fs & -> & D); [solve_failure|].
  exists fs. split; [done|]. eapply describes_iff; [|exact D]. naive_solver.
Qed.

Lemma validate_describes config items :
  ∃ fs, validate_policies config items None = Ok fs ∧ describes (violates config items) fs.
Proof.
  unfold validate_policies. destruct (scrum_describes config items) as (fs1 & -> & D1).
  destruct (kanban_describes config items) as (fs2 & -> & D2).
  destruct (safe_describes config items) as (fs3 & -> & D3). cbn [res_bind map_res mjoin list_join].
  rewrite app_nil_r. eexists. split; [reflexivity|].
  eapply describes_iff; [|exact (describes_app _ _ _ _ D1 (describes_app _ _ _ _ D2 D3))].
  intros idx rid field. unfold family, violates. split.
  - intros [(it & Hi & [[-> Hf]|[-> Hf]] & Hm)|[(it & Hi & (Hc & rules & Hr & [[-> Hf]|[-> Hf]]) & Hm)|
      (it & Hi & (-> & Hf) & Hm)]]; exists it; (split_and!; [done| |done]); by econstructor.
  - intros (it & Hi & Hreq & Hm). destruct Hreq; eauto 15.
Qed.
End rules.

(** * Pointers *)

Lemma span_digits l r :
  digits l → (∀ c, head r = Some c → is_digit c = false) → span is_digit (l ++ r) = (l, r).
Proof.
  intros Hl Hr. induction Hl as [|c l Hc Hl IH]; cbn.
  - destruct r as [|c r]; [done|]. cbn. by rewrite (Hr c).
  - by rewrite Hc, IH.
Qed.

Lemma pointer_index idx field : _extract_item_index (strip (pointer idx field)) = Some (Z.of_nat idx).
Proof.
  destruct (pretty_nonneg (Z.of_nat idx) ltac:(lia)) as [Hd Hv].
  destruct (pretty_Z_head (Z.of_nat idx)) as (c & Hc & _).
  unfold pointer. set (num := pretty (Z.of_nat idx)) in *.
  assert (Hchars : chars ("items[" +:+ num +:+ "]." +:+ field) =
    "i"%char :: (chars "tems[" ++ chars num ++ ["]"%char]) ++ "."%char :: chars field).
  { rewrite !chars_app. cbn. by rewrite <-app_assoc. }
  destruct (strip_prefix "i" (chars "tems[" ++ chars num ++ ["]"%char]) "." (chars field)) as [t Ht]; [done..|].
  rewrite <-Hchars, of_chars_chars in Ht. unfold _extract_item_index. rewrite Ht.
  cbn [search_pointer]. unfold pointer_at. rewrite bool_decide_eq_true_2.
  - change (drop 6 _) with ((chars num ++ ["]"%char]) ++ "."%char :: t). rewrite <-app_assoc.
    rewrite span_digits; [|done|by intros ? [= <-]]. cbn [app].
    destruct (chars num) as [|d l] eqn:E; [done|].
    rewrite parse_digits_value by (done || by right). by rewrite <-Hv.
  - by vm_compute.
Qed.

Lemma finding_index f idx rid field : is_finding f idx rid field → index_of f = Some (Z.of_nat idx).
Proof. intros (_ & Hp & _). unfold index_of. rewrite Hp. apply pointer_index. Qed.

(** * Limits and groups *)

Lemma first_slice_nil {A} limit (l : list A) : (1 <= limit)%Z → first_slice limit l = [] ↔ l = [].
Proof.
  intros Hl. unfold first_slice. rewrite (proj2 (Z.ltb_ge limit 0)) by lia.
  destruct (Z.to_nat limit) as [|n] eqn:E; [lia|]. by destruct l.
Qed.
Lemma first_slice_elem {A} limit (l : list A) x : x ∈ first_slice limit l → x ∈ l.
Proof.
  assert (Htake : ∀ n, x ∈ take n l → x ∈ l).
  { intros n Hx. rewrite <-(take_drop n l). apply elem_of_app. by left. }
  unfold first_slice. destruct (limit <? 0)%Z; apply Htake.
Qed.

(** A limit of at least one keeps a finding when there is one. *)
Lemma limit_nil findings limit :
  (∀ n, limit = Some n → (1 <= n)%Z) → (∀ f, f ∈ findings → is_Some (index_of f)) →
  _limit_findings_by_item findings limit = [] ↔ findings = [].
Proof.
  intros Hl Hidx. unfold _limit_findings_by_item. destruct limit as [limit|]; [|done]. cbv zeta.
  split; [|by intros ->]. intros Hnil. destruct findings as [|f findings]; [done|]. exfalso.
  destruct (Hidx f) as [i Hi]; [left|].
  set (indexes := sorted_set _) in *.
  assert (Hin : i ∈ indexes).
  { unfold indexes. rewrite elem_of_sorted_set, elem_of_list_to_set, list_elem_of_omap. exists f. split; [left|done]. }
  destruct (first_slice limit indexes) as [|j allowed] eqn:Ea.
  { apply first_slice_nil in Ea; [|eauto]. rewrite Ea in Hin. by apply not_elem_of_nil in Hin. }
  assert (Hj : j ∈ indexes) by (apply (first_slice_elem limit); rewrite Ea; left).
  unfold indexes in Hj. rewrite elem_of_sorted_set, elem_of_list_to_set, list_elem_of_omap in Hj.
  destruct Hj as (g & Hg & Hgj).
  assert (Hmem : g ∈ @nil PolicyResult); [|by apply not_elem_of_nil in Hmem].
  rewrite <-Hnil. apply list_elem_of_In, filter_In. split; [by apply list_elem_of_In|]. rewrite Hgj.
  apply bool_decide_eq_true. left.
Qed.
Lemma limit_elem findings limit f : f ∈ _limit_findings_by_item findings limit → f ∈ findings.
Proof.
  unfold _limit_findings_by_item. destruct limit; [|done]. cbv zeta.
  rewrite list_elem_of_In, filter_In, <-list_elem_of_In. by intros [? _].
Qed.

(** Grouping by an index that every element has *)
Section groups.
Context {A : Type} (index : A → option Z).

Lemma group_by_index_total l :
  (∀ x, x ∈ l → is_Some (index x)) →
  foldl (λ d x, match index x with Some i => dict_append i x d | None => d end) [] l =
    group_by (λ x, default 0%Z (index x)) l.
Proof.
  unfold group_by. generalize (@nil (Z * list A)). induction l as [|x l IH]; intros d Hl; [done|]. cbn [foldl].
  destruct (Hl x) as [i Hi]; [left|]. rewrite Hi. cbn. apply IH. intros; apply Hl; by right.
Qed.

Lemma groups_spec l :
  (∀ x, x ∈ l → is_Some (index x)) →
  mjoin (group_members <$> group_by_index index l) ≡ₚ l ∧
  StronglySorted Z.lt (item_index <$> group_by_index index l) ∧
  Forall (λ g, group_count g = length (group_members g) ∧
    ∀ x, x ∈ group_members g → index x = Some (item_index g)) (group_by_index index l).
Proof.
  intros Hl. unfold group_by_index. rewrite group_by_index_total by done.
  set (key := λ x, default 0%Z (index x)). set (d := group_by key l).
  assert (Hwf : dict_wf d) by apply dict_wf_group_by.
  assert (Hperm : sort_by fst d ≡ₚ d) by apply sort_by_perm.
  assert (Hval : ∀ kg, kg ∈ sort_by fst d → kg.2 = filter (λ x, key x = kg.1) l).
  { intros [k g] Hk. rewrite Hperm in Hk. apply dict_get_elem in Hk; [|done].
    cbn. rewrite <-(bucket_group_by key k l). unfold bucket. fold d. by rewrite Hk. }
  assert (Hnd : NoDup (sort_by fst d).*1) by (by rewrite Hperm).
  split_and!.
  - rewrite <-list_fmap_compose. transitivity (mjoin ((λ k, filter (λ x, key x = k) l) <$> (sort_by fst d).*1)).
    { rewrite <-list_fmap_compose. apply reflexive_eq. f_equal. apply list_fmap_ext. intros i kg Hi. cbn.
      apply Hval. by eapply list_elem_of_lookup_2. }
    apply partition_perm; [done|]. intros x Hx. rewrite Hperm. apply elem_of_keys_group_by. eauto.
  - rewrite <-list_fmap_compose. change (item_index ∘ _) with (@fst Z (list A)).
    pose proof (sort_by_sorted (K := Z) fst d) as Hs. revert Hs Hnd.
    generalize (sort_by fst d) as s. intros s Hs Hnd. induction Hs as [|[k g] s Hs IH Hk]; cbn; [constructor|].
    cbn in Hnd. apply NoDup_cons in Hnd as [Hkn Hnd]. constructor; [by apply IH|].
    apply Forall_fmap, Forall_forall. intros [k' g'] Hin. cbn.
    pose proof (proj1 (Forall_forall _ _) Hk (k', g') Hin) as Hle. unfold key_le, py_le, py_leb in Hle. cbn in Hle.
    assert (k ≠ k') by (intros ->; apply Hkn, list_elem_of_fmap; by exists (k', g')).
    change (py_cmp k k') with (Z.compare k k') in Hle. destruct (Z.compare_spec k k'); [done|done|discriminate].
  - apply Forall_fmap, Forall_forall. intros kg Hkg. cbn. split; [done|]. intros x Hx.
    rewrite (Hval kg Hkg), list_elem_of_filter in Hx. destruct Hx as [Hk Hx]. destruct (Hl x Hx) as [i Hi].
    unfold key in Hk. rewrite Hi in Hk |- *. by f_equal.
Qed.
End groups.

(** * The validate command *)

(** A rule that the filters select; no filter selects every rule. *)
Definition selects (filters : list string) (rid : string) : Prop :=
  filters = [] ∨ ∃ rule, rule ∈ filters ∧ py_in rule (strip rid) = true.

Lemma filter_elem findings filters f :
  f ∈ _filter_findings_by_rule findings filters ↔
  f ∈ findings ∧ (filters = [] ∨ ∃ rule, rule ∈ filters ∧ py_in rule (rule_id f) = true).
Proof.
  unfold _filter_findings_by_rule. destruct filters as [|r filters]; [naive_solver|].
  rewrite list_elem_of_In, filter_In, <-list_elem_of_In, existsb_exists. setoid_rewrite <-list_elem_of_In.
  naive_solver.
Qed.

Section gate.
Context `{PyRepr}.

Lemma selected_spec config items rule limit grp :
  (∀ n, limit = Some n → (1 <= n)%Z) →
  ∃ findings, selected_findings config items rule limit grp = Ok findings ∧
    (findings = [] ↔ ∀ idx rid field, violates config items idx rid field →
       ¬ selects (_normalize_rule_filters rule) rid) ∧
    ∀ f, f ∈ findings → ∃ idx rid field, violates config items idx rid field ∧
      selects (_normalize_rule_filters rule) rid ∧ is_finding f idx rid field.
Proof.
  intros Hl. unfold selected_findings. set (filters := _normalize_rule_filters rule).
  destruct (validate_describes config items) as (all & -> & Dsound & Dcomplete). cbn [res_bind].
  set (chosen := _filter_findings_by_rule all filters).
  assert (Hchosen : ∀ f, f ∈ chosen → ∃ idx rid field, violates config items idx rid field ∧
    selects filters rid ∧ is_finding f idx rid field).
  { intros f [Hf Hsel]%filter_elem. destruct (Dsound f Hf) as (idx & rid & field & Hv & Hfind).
    exists idx, rid, field. split_and!; [done| |done]. unfold selects. by rewrite <-(proj1 Hfind). }
  assert (Hnil : chosen = [] ↔ ∀ idx rid field, violates config items idx rid field → ¬ selects filters rid).
  { split.
    - intros E idx rid field Hv Hsel. destruct (Dcomplete _ _ _ Hv) as (f & Hf & Hfind).
      assert (f ∈ chosen) as Hin; [|rewrite E in Hin; by apply not_elem_of_nil in Hin].
      apply filter_elem. split; [done|]. unfold selects in Hsel. by rewrite (proj1 Hfind).
    - intros Hno. destruct chosen as [|f l]; [done|]. destruct (Hchosen f) as (idx & rid & field & Hv & Hsel & _);
        [left|]. by destruct (Hno _ _ _ Hv). }
  eexists. split; [reflexivity|]. destruct grp.
  - split; [|intros f Hf%limit_elem; by apply Hchosen]. rewrite <-Hnil. apply limit_nil; [done|].
    intros f (idx & rid & field & _ & _ & Hf)%Hchosen. rewrite (finding_index _ _ _ _ Hf). eauto.
  - destruct limit as [n|]; [|done]. split; [|intros f Hf%first_slice_elem; by apply Hchosen].
    rewrite <-Hnil. apply first_slice_nil. eauto.
Qed.

(** C39 The policy gate.  For a readable snapshot and a known output format,
    the validate command ends with exit code 0 exactly when no item lacks a
    field that a rule selected by the filters requires of it (by the Scrum
    lists, its column's entry and exit lists, or the PI readiness list), and
    with 1 otherwise, whatever limit of at least one and whichever grouping is
    asked for.  Everything it shows is such a violation, with a pointer from
    which the item is found back, and the groups are the findings shown, by
    increasing item, each with its count. *)
Theorem policy_gate config payload items output_format rule limit grp :
  load_snapshot_items payload = Ok (inr items) →
  lower (strip output_format) ∈ ["json"; "markdown"; "both"] →
  (∀ n, limit = Some n → (1 <= n)%Z) →
  let filters := _normalize_rule_filters rule in
  ∃ o, validate_command (inr config) payload output_format rule limit grp = Ok o ∧
    (exit_code o = 0%Z ∨ exit_code o = 1%Z) ∧
    (exit_code o = 0%Z ↔
       ∀ idx rid field, violates config items idx rid field → ¬ selects filters rid) ∧
    (∀ f, f ∈ shown o → ∃ idx rid field, violates config items idx rid field ∧ selects filters rid ∧
       rule_id f = strip rid ∧ index_of f = Some (Z.of_nat idx)) ∧
    (grp = true → ∃ gs, groups o = Some gs ∧ mjoin (group_members <$> gs) ≡ₚ shown o ∧
       StronglySorted Z.lt (item_index <$> gs) ∧
       Forall (λ g, group_count g = length (group_members g) ∧
         ∀ f, f ∈ group_members g → index_of f = Some (item_index g)) gs).
Proof.
  intros Hload Hfmt Hl. cbv zeta. unfold validate_command. rewrite Hload. cbn [res_bind].
  destruct (selected_spec config items rule limit grp Hl) as (findings & -> & Hnil & Hsound). cbn [res_bind].
  rewrite bool_decide_eq_true_2 by done. eexists. split; [reflexivity|]. cbn [exit_code shown groups].
  assert (Hidx : ∀ f, f ∈ findings → is_Some (index_of f)).
  { intros f (idx & rid & field & _ & _ & Hf)%Hsound. rewrite (finding_index _ _ _ _ Hf). eauto. }
  split_and!.
  - destruct findings; tauto.
  - rewrite <-Hnil. by destruct findings.
  - intros f (idx & rid & field & Hv & Hsel & Hf)%Hsound. exists idx, rid, field.
    split_and!; [done..|apply Hf|by eapply finding_index].
  - intros ->. eexists. split; [reflexivity|]. by apply groups_spec.
Qed.
End gate.

(** * A concrete snapshot *)

Section sample.
#[local] Instance sample_repr : PyRepr := λ _, "<repr>".

Definition sample_config : PolicyConfig :=
  {| scrum := {| dor_required_fields := ["acceptance_criteria"]; dod_required_fields := [] |};
     kanban := {| columns := [("Doing", {| entry_required_fields := ["owner"]; exit_required_fields := [] |})] |};
     safe := {| pi_readiness_required_fields := [] |} |}.
(** The first item has its criteria in the description only. *)
Definition sample_items : list pyval :=
  [VDict [(VStr "description", VStr (join newline ["# Acceptance Criteria"; "works"]))];
   VDict [(VStr "acceptanceCriteria", VStr "yes"); (VStr "column", VStr " Doing ")]].

Lemma policy_gate_witness :
  (∃ o, validate_command (inr sample_config) (inr (VList sample_items)) "JSON " (Some ["scrum, safe"])
     (Some 1%Z) true = Ok o ∧ exit_code o = 0%Z) ∧
  ∃ o, validate_command (inr sample_config) (inr (VList sample_items)) "both" None None true = Ok o ∧
    exit_code o = 1%Z ∧ (index_of <$> shown o) = [Some 1%Z].
Proof.
  assert (Hload : ∃ items, load_snapshot_items (inr (VList sample_items)) = Ok (inr items))
    by (eexists; vm_compute; reflexivity).
  destruct Hload as [items Hload]. split.
  - destruct (policy_gate sample_config (inr (VList sample_items)) items "JSON " (Some ["scrum, safe"])
      (Some 1%Z) true Hload) as (o & E & _); [by apply (bool_decide_unpack _)|by intros n [= <-]|].
    exists o. split; [exact E|]. vm_compute in E. by injection E as <-.
  - destruct (policy_gate sample_config (inr (VList sample_items)) items "both" None None true Hload)
      as (o & E & _); [by apply (bool_decide_unpack _)|done|].
    exists o. split; [exact E|]. vm_compute in E. injection E as <-. done.
Defined.
End sample.
