(* ===== verification/Cleanup.v ===== *)
(** Cleanup: the clean-up forecast of [specfact_code_review/run/forecast.py]
    and the preview and mutation evidence of [run/cleanup_evidence.py], over a
    store of text files. *)

From S2P Require Import Prelude Text Paths Dict PyValue Findings Floats Diff Assembly.

(** * Files

    A store maps the text of a path to a file: its decoded text, or bytes that
    are not UTF-8.  An absent path is one that cannot be read. *)
Inductive stored := Decoded (text : string) | NotUtf8.
Abbreviation files := (gmap string stored).

#[export] Instance stored_eq_dec : EqDecision stored. Proof. solve_decision. Defined.

(** Universal newlines: CR LF and CR are read as LF. *)
Fixpoint translate_newlines (l : list ascii) : list ascii :=
  match l with
  | [] => []
  | c :: l' =>
      if (code c =? 13)%Z then
        ascii_of_nat 10 ::
        match l' with
        | d :: l'' => if (code d =? 10)%Z then translate_newlines l'' else translate_newlines l'
        | [] => []
        end
      else c :: translate_newlines l'
  end.
Definition UnicodeDecodeError : exn := OtherError "UnicodeDecodeError".
(** [path.read_text(encoding="utf-8")] *)
Definition read_text (fs : files) (path : string) : result string :=
  match fs !! as_posix path with
  | Some (Decoded text) => Ok (of_chars (translate_newlines (chars text)))
  | Some NotUtf8 => Err UnicodeDecodeError
  | None => Err (OSError path)
  end.

(** * Forecast *)

Module Forecast.

Definition guidance_text (k : guidance_kind) : string :=
  match k with
  | SafeMechanical => "safe_mechanical" | NeedsTests => "needs_tests"
  | DesignJudgment => "design_judgment" | Preserve => "preserve"
  end.
Definition action_text (a : action_status) : string :=
  match a with
  | AsRecommended => "recommended" | AsApplied => "applied" | AsKept => "kept"
  | AsSkipped => "skipped" | AsFailed => "failed"
  end.

Definition _CLEANUP_FORECAST_WEIGHTS : list (string * spec_float) :=
  [("safe_mechanical", float_dec 10 1); ("needs_tests", float_dec 6 1);
   ("design_judgment", float_dec 25 2); ("preserve", S754_zero false)].

Record _CleanupForecastTotals := {
  by_guidance_kind : list (string * GuidanceKindForecast);
  by_action_status : list (string * Z);
  low : Z;
  expected : spec_float;
  high : Z;
  weighted_points : spec_float
}.
Definition no_totals : _CleanupForecastTotals :=
  {| by_guidance_kind := []; by_action_status := []; low := 0; expected := S754_zero false;
     high := 0; weighted_points := S754_zero false |}.

Definition validate_GuidanceKindForecast (g : GuidanceKindForecast) : result GuidanceKindForecast :=
  let! _ := check ((0 <=? gkf_count g)%Z && (0 <=? gkf_estimated_deletion_lines g)%Z
                   && float_leb (S754_zero false) (gkf_weight g)) (ValueError "ge=0") in
  Ok g.
Definition validate_AiBloatIndex (a : AiBloatIndex) : result AiBloatIndex :=
  let! _ := check (float_leb (S754_zero false) (abi_findings_per_kloc a)
                   && float_leb (S754_zero false) (abi_weighted_bloat_points_per_kloc a)
                   && float_leb (S754_zero false) (abi_cleanup_yield_loc_per_kloc a)) (ValueError "ge=0") in
  Ok a.

Definition deletion_lines_of (f : ReviewFinding) : Z := default 0%Z (rf_estimated_deletion_lines f).
Definition guidance_of (f : ReviewFinding) : guidance_kind := default DesignJudgment (rf_guidance_kind f).
Definition weight_of (k : guidance_kind) : spec_float :=
  default (S754_zero false) (dict_get (guidance_text k) _CLEANUP_FORECAST_WEIGHTS).

Definition _add_cleanup_forecast_finding (totals : _CleanupForecastTotals) (finding : ReviewFinding) :
    result _CleanupForecastTotals :=
  let guidance_kind := guidance_of finding in
  let key := guidance_text guidance_kind in
  let deletion_lines := deletion_lines_of finding in
  let weight := weight_of guidance_kind in
  let! current :=
    match dict_get key (by_guidance_kind totals) with
    | Some g => Ok g
    | None => validate_GuidanceKindForecast
                {| gkf_count := 0; gkf_estimated_deletion_lines := 0; gkf_weight := weight |}
    end in
  let! next := validate_GuidanceKindForecast
    {| gkf_count := gkf_count current + 1;
       gkf_estimated_deletion_lines := gkf_estimated_deletion_lines current + deletion_lines;
       gkf_weight := weight |} in
  let! lines := int_float deletion_lines in
  Ok {| by_guidance_kind := dict_set key next (by_guidance_kind totals);
        by_action_status := match rf_action_status finding with
                            | Some a => dict_incr (action_text a) 1 (by_action_status totals)
                            | None => by_action_status totals
                            end;
        low := if bool_decide (guidance_kind = SafeMechanical) then low totals + deletion_lines
               else low totals;
        high := if bool_decide (guidance_kind ≠ Preserve) then high totals + deletion_lines
                else high totals;
        expected := float_add (expected totals) (float_mul lines weight);
        weighted_points := float_add (weighted_points totals) weight |}.
Definition _cleanup_forecast_totals (guided : list ReviewFinding) : result _CleanupForecastTotals :=
  fold_res _add_cleanup_forecast_finding no_totals guided.

(** [path.stem] *)
Definition path_stem (path : string) : string :=
  match path_suffix path with
  | "" => of_chars (path_name path)
  | suffix => removesuffix suffix (of_chars (path_name path))
  end.
Definition test_directory (part : string) : bool :=
  let normalized := replace "-" "_" (lower part) in
  bool_decide (normalized ∈ ["test"; "tests"])
  || startswith "test_" normalized || startswith "tests_" normalized
  || endswith "_test" normalized || endswith "_tests" normalized.
Definition _is_test_path (file_path : string) : bool :=
  let name := lower (of_chars (path_name file_path)) in
  let stem := lower (path_stem file_path) in
  startswith "test_" name || endswith "_test" stem || endswith ".spec.py" name || endswith ".spec.pyi" name
  || existsb test_directory (removelast (path_parts file_path)).

Definition _count_python_loc (fs : files) (file_path : string) : result Z :=
  let! text := read_text fs file_path in
  Ok (count_true (λ line, nonblank line
                          && match lstrip_chars (chars line) with "#"%char :: _ => false | _ => true end)
        (str_splitlines text)).

(** One file of the loop: [(production, tests)] *)
Definition add_reviewed_loc (fs : files) (loc : Z * Z) (file_path : string) : Z * Z :=
  if bool_decide (path_suffix file_path ∈ [".py"; ".pyi"]) then
    match _count_python_loc fs file_path with
    | Ok n => if _is_test_path file_path then (loc.1, loc.2 + n)%Z else (loc.1 + n, loc.2)%Z
    | Err _ => loc
    end
  else loc.
Definition _reviewed_loc_for_files (fs : files) (paths : list string) : result ReviewedLoc :=
  let '(production, tests) := foldl (add_reviewed_loc fs) (0%Z, 0%Z) paths in
  validate_ReviewedLoc {| rl_production := production; rl_tests := tests; rl_total := production + tests |}.

Definition has_preview (f : ReviewFinding) : bool :=
  match rf_remediation_packet f with
  | Some p => match rp_patch_forecast_refs p with Some (_ :: _) => true | _ => false end
  | None => false
  end.
Definition has_mutation (f : ReviewFinding) : bool :=
  existsb (λ s, String.eqb (ste_source s) "mutation") (default [] (rf_signal_trace f)).

(** [round(x / kloc, 3)] *)
Definition per_kloc (x kloc : spec_float) : spec_float := round_digits 3 (float_div x kloc).

Definition build_cleanup_forecast (fs : files) (findings : list ReviewFinding) (paths : list string) :
    result CleanupForecast :=
  let! reviewed_loc := _reviewed_loc_for_files fs paths in
  let guided := List.filter (λ f, has_some (rf_guidance_kind f)) findings in
  let! totals := _cleanup_forecast_totals guided in
  let! total := int_float (rl_total reviewed_loc) in
  let kloc := float_max (float_div total (float_of_Z 1000)) (float_dec 1 3) in
  let! expected_lines := round_int (expected totals) in
  let! deletion := validate_DeletionEstimate
    {| de_low := low totals; de_expected := expected_lines; de_high := high totals |} in
  let! count := int_float (Z.of_nat (length guided)) in
  let! yield := int_float expected_lines in
  let! index := validate_AiBloatIndex
    {| abi_findings_per_kloc := per_kloc count kloc;
       abi_weighted_bloat_points_per_kloc := per_kloc (weighted_points totals) kloc;
       abi_cleanup_yield_loc_per_kloc := per_kloc yield kloc |} in
  Ok {| cf_reviewed_loc := reviewed_loc; cf_estimated_deletion_lines := deletion;
        cf_ai_bloat_index := index; cf_by_guidance_kind := by_guidance_kind totals;
        cf_by_action_status := by_action_status totals;
        cf_preview_evidence_count := count_true has_preview guided;
        cf_mutation_evidence_count := count_true has_mutation guided |}.
End Forecast.

(** * Record updates *)

(** [{**finding.model_dump(), "signal_trace": ..., "remediation_packet": ...}] *)
Definition with_evidence (trace : option (list SignalTraceEntry)) (packet : option RemediationPacket)
    (f : ReviewFinding) : ReviewFinding :=
  match f with
  | Build_ReviewFinding c sev tl ru fl ln msg fx st ds ab bl ex eo er cf rh cp ik ed rl gk ra cc ra' sc pr
      ac br ar im _ pn _ =>
      Build_ReviewFinding c sev tl ru fl ln msg fx st ds ab bl ex eo er cf rh cp ik ed rl gk ra cc ra' sc pr
        ac br ar im trace pn packet
  end.
(** [report.model_copy(update={"findings": ...})], and the schema version *)
Definition with_findings (findings : list ReviewFinding) (r : ReviewReport) : ReviewReport :=
  match r with
  | Build_ReviewReport sv id t ov ec st un sc ev di so rd _ su ss cf em es re hr =>
      Build_ReviewReport sv id t ov ec st un sc ev di so rd findings su ss cf em es re hr
  end.
Definition with_schema_version (version : string) (r : ReviewReport) : ReviewReport :=
  match r with
  | Build_ReviewReport _ id t ov ec st un sc ev di so rd fs su ss cf em es re hr =>
      Build_ReviewReport version id t ov ec st un sc ev di so rd fs su ss cf em es re hr
  end.

(** * The interface of the fixers

    The fixers a preview runs read and write the store and answer with the
    findings they applied.  A preview relies on one thing: they write no file
    but those the report's findings name. *)
Abbreviation fixers := (ReviewReport → files → result (list ReviewFinding * files)).
Class ConfinedFixers (fix_files : fixers) := fixers_confined report fs applied fs' path :
  fix_files report fs = Ok (applied, fs') →
  (∀ f, f ∈ rr_findings report → as_posix (rf_file f) ≠ path) → fs' !! path = fs !! path.

(** * Preview and mutation evidence *)

Module Evidence.

Definition recommended_text (a : recommended_action) : string :=
  match a with
  | RaRemove => "remove" | RaInline => "inline" | RaCollapse => "collapse" | RaDeduplicate => "deduplicate"
  | RaMakeRequired => "make_required" | RaKeep => "keep" | RaInspect => "inspect"
  end.

Definition with_refreshed_cleanup_forecast (fs : files) (report : ReviewReport) (paths : list string) :
    result ReviewReport :=
  let! forecast := Forecast.build_cleanup_forecast fs (rr_findings report) paths in
  Ok (with_schema_version
        (if schema_version_at_least (rr_schema_version report) 3 then rr_schema_version report else "1.3")
        (with_cleanup_forecast (Some forecast) report)).

Definition _fixable_simplifications_by_stable_line_order (findings : list ReviewFinding) :
    list ReviewFinding :=
  sort_by (λ f, (rf_file f, (- rf_line f)%Z, rf_rule f))
    (List.filter is_safe_mechanical_simplification findings).

Definition _report_for_preview `{PyRepr} (now : datetime) (finding : ReviewFinding) : result ReviewReport :=
  validate_ReviewReport (fresh_report "1.0" "preview" now 85 [finding] "Preview simplification fix.").

Definition _line_delta (before after : string) : Z * Z :=
  let before_count := Z.of_nat (length (str_splitlines before)) in
  let after_count := Z.of_nat (length (str_splitlines after)) in
  (Z.max 0 (after_count - before_count), Z.max 0 (before_count - after_count)).

Definition _packet_with_patch_ref (finding : ReviewFinding) (patch_ref : string) : result RemediationPacket :=
  match rf_remediation_packet finding with
  | None =>
      validate_RemediationPacket
        {| rp_issue := rf_message finding;
           rp_recommended_action := default "inspect" (recommended_text <$> rf_recommended_action finding);
           rp_possible_keep_reason := rf_preserve_reason finding;
           rp_safety_checks := match rf_safety_checks finding with
                               | Some (c :: cs) => c :: cs
                               | _ => ["inspect the surrounding behavior before editing"]
                               end;
           rp_validation_plan := ["run targeted tests"; "rerun simplify review"];
           rp_safe_to_autofix := is_safe_mechanical_simplification finding && rf_fixable finding;
           rp_patch_forecast_refs := Some [patch_ref] |}
  | Some p =>
      let refs := default [] (rp_patch_forecast_refs p) in
      Ok {| rp_issue := rp_issue p; rp_recommended_action := rp_recommended_action p;
            rp_possible_keep_reason := rp_possible_keep_reason p; rp_safety_checks := rp_safety_checks p;
            rp_validation_plan := rp_validation_plan p; rp_safe_to_autofix := rp_safe_to_autofix p;
            rp_patch_forecast_refs :=
              Some (if bool_decide (patch_ref ∈ refs) then refs else refs ++ [patch_ref]) |}
  end.

(** [EvidenceRef(path=finding.file, start_line=finding.line)] *)
Definition finding_ref (finding : ReviewFinding) : result EvidenceRef :=
  validate_EvidenceRef {| er_path := Some (rf_file finding); er_start_line := Some (rf_line finding);
                          er_end_line := None; er_artifact_id := None; er_description := None |}.

(** The finding rebuilt with one more entry in its trace *)
Definition with_signal (finding : ReviewFinding) (entry : EvidenceRef → SignalTraceEntry)
    (packet : option RemediationPacket) : result ReviewFinding :=
  let! ref := finding_ref finding in
  let! entry := validate_SignalTraceEntry (entry ref) in
  validate_ReviewFinding
    (with_evidence (Some (default [] (rf_signal_trace finding) ++ [entry])) packet finding).

Definition preview_entry (added removed : Z) (ref : EvidenceRef) : SignalTraceEntry :=
  {| ste_tool := "specfact"; ste_source := "preview_fixes"; ste_fired := true;
     ste_score := Some (float_dec 10 1);
     ste_value := VStr ("added=" +:+ pretty added +:+ "; removed=" +:+ pretty removed
                        +:+ "; net=" +:+ pretty (added - removed)%Z);
     ste_evidence_refs := Some [ref];
     ste_explanation := "Non-mutating preview computed a safe-mechanical patch forecast." |}.
Definition patch_ref_of (finding : ReviewFinding) : string :=
  "preview:" +:+ rf_file finding +:+ ":" +:+ pretty (rf_line finding).
Definition _with_patch_preview (finding : ReviewFinding) (added removed : Z) : result ReviewFinding :=
  let! _ := finding_ref finding in
  let! packet := _packet_with_patch_ref finding (patch_ref_of finding) in
  with_signal finding (preview_entry added removed) (Some packet).

(** The temporary directory goes away with every file below it. *)
Definition below (dir path : string) : bool := is_relative_to path dir.
Definition remove_tree (dir : string) (fs : files) : files := filter (λ kv, below dir kv.1 = false) fs.

Section preview.
Context `{PyRepr} (now : datetime) (mkdtemp : files → string) (writable : string → bool).
Variable apply_simplification_fixes : fixers.

Definition _write_preview_source (path source : string) (fs : files) : bool * files :=
  if writable path then (true, <[as_posix path := Decoded source]> fs) else (false, fs).

(** The body of the [with] block *)
Definition preview_in (dir : string) (finding : ReviewFinding) (before : string) (fs : files) :
    result (option string * files) :=
  let preview_path := path_join dir (of_chars (path_name (rf_file finding))) in
  let '(written, fs) := _write_preview_source preview_path before fs in
  if written then
    let! report := _report_for_preview now (with_file preview_path finding) in
    let! answer := apply_simplification_fixes report fs in
    let '(applied, fs) := answer in
    match applied with
    | [] => Ok (None, fs)
    | _ => match read_text fs preview_path with
           | Ok after => Ok (Some after, fs)
           | Err (OSError _) => Ok (None, fs)
           | Err e => Err e
           end
    end
  else Ok (None, fs).

Definition _preview_single_simplification (finding : ReviewFinding) (fs : files) :
    result (option ReviewFinding * files) :=
  match read_text fs (rf_file finding) with
  | Err (OSError _) => Ok (None, fs)
  | Err e => Err e
  | Ok before =>
      let dir := mkdtemp fs in
      let! answer := preview_in dir finding before fs in
      let '(after, fs) := answer in
      let fs := remove_tree dir fs in
      match after with
      | None => Ok (None, fs)
      | Some after =>
          let '(added, removed) := _line_delta before after in
          let! previewed := _with_patch_preview finding added removed in
          Ok (Some previewed, fs)
      end
  end.

Definition preview_step (acc : list ReviewFinding * files) (finding : ReviewFinding) :
    result (list ReviewFinding * files) :=
  let! answer := _preview_single_simplification finding acc.2 in
  let '(preview, fs) := answer in
  Ok (match preview with Some p => acc.1 ++ [p] | None => acc.1 end, fs).
Definition _preview_simplification_fixes (report : ReviewReport) (fs : files) :
    result (list ReviewFinding * files) :=
  fold_res preview_step ([], fs) (_fixable_simplifications_by_stable_line_order (rr_findings report)).

Definition finding_key (f : ReviewFinding) : string * Z * string := (rf_file f, rf_line f, rf_rule f).
Definition with_replacements (previewed findings : list ReviewFinding) : list ReviewFinding :=
  let replacements := dict_of ((λ f, (finding_key f, f)) <$> previewed) in
  (λ f, default f (dict_get (finding_key f) replacements)) <$> findings.

Definition with_previewed_simplification_findings (report : ReviewReport) (paths : list string) (fs : files) :
    result (ReviewReport * files) :=
  let! answer := _preview_simplification_fixes report fs in
  let '(previewed, fs) := answer in
  let! report := match previewed with
                 | [] => with_refreshed_cleanup_forecast fs report paths
                 | _ => with_refreshed_cleanup_forecast fs
                          (with_findings (with_replacements previewed (rr_findings report)) report) paths
                 end in
  Ok (report, fs).
End preview.

Definition mutation_entry (tool_available : bool) (ref : EvidenceRef) : SignalTraceEntry :=
  {| ste_tool := "mutmut"; ste_source := "mutation"; ste_fired := false; ste_score := None;
     ste_value := VStr (if tool_available then "inconclusive: mutation scaffolding only"
                        else "inconclusive: mutmut unavailable");
     ste_evidence_refs := Some [ref];
     ste_explanation :=
       if tool_available
       then "Mutation tooling was available, but candidate-scoped execution is not configured yet."
       else "Mutation proof was requested, but mutmut is not installed." |}.
Definition _with_mutation_signal (_mutation_tool_available : bool) (finding : ReviewFinding) :
    result ReviewFinding :=
  if is_safe_mechanical_simplification finding
  then with_signal finding (mutation_entry _mutation_tool_available) (rf_remediation_packet finding)
  else Ok finding.
Definition with_mutation_evidence (_mutation_tool_available : bool) (fs : files) (report : ReviewReport)
    (paths : list string) : result ReviewReport :=
  let! findings := map_res (_with_mutation_signal _mutation_tool_available) (rr_findings report) in
  with_refreshed_cleanup_forecast fs (with_findings findings report) paths.
End Evidence.
