(* ===== verification/CleanupProofs.v ===== *)
(** CleanupProofs: the forecast is always produced and ordered for estimates
    that fit a float exactly, it accounts for every guided finding, and the
    preview changes no file and annotates the findings it previews, others
    only when they share file, line and rule with one of these. *)

From S2P Require Import Prelude Text Paths Dict PyValue Findings FindingsProofs Floats FloatProofs Diff Assembly Cleanup.
Local Open Scope Z_scope.

Import Forecast.

(** * Signs of float operations *)

(** Not negative and not NaN, possibly infinite *)
Definition nonneg (f : spec_float) : Prop :=
  match f with
  | S754_zero false | S754_infinity false | S754_finite false _ _ => True
  | _ => False
  end.
Definition positive (f : spec_float) : Prop :=
  match f with S754_infinity false | S754_finite false _ _ => True | _ => False end.

Lemma nonneg_leb f : nonneg f → float_leb (S754_zero false) f = true.
Proof. by destruct f as [[]|[]| |[] ? ?]. Qed.

Lemma within_nonneg lo hi f : within lo hi f → nonneg f.
Proof. intros [Hf _]. by destruct f as [[]|[]| |[] ? ?]. Qed.

Lemma shr_nonneg x e n : 0 ≤ shr_m x → 0 ≤ shr_m (shr x e n).1.
Proof.
  intros Hx. destruct n as [|p|p]; [done| |done]. cbn [shr fst]. rewrite iter_pos_nat.
  induction (Pos.to_nat p) as [|k IH]; [done|]. by apply shr_1_half.
Qed.

Lemma round_aux_nonneg m e l : 0 ≤ m → nonneg (binary_round_aux prec emax false m e l).
Proof.
  intros Hm. unfold binary_round_aux, shr_fexp.
  assert (Hl : 0 ≤ shr_m (shr_record_of_loc m l)) by (by destruct l as [|[]]).
  pose proof (shr_nonneg _ e (fexp prec emax (Zdigits2 m + e) - e) Hl) as H1.
  destruct (shr (shr_record_of_loc m l) _ _) as [x e1]. cbn [fst] in H1.
  assert (Hr : 0 ≤ round_nearest_even (shr_m x) (loc_of_shr_record x)).
  { destruct x as [q [] []]; cbn in *; repeat case_match; lia. }
  set (q := round_nearest_even _ _) in *.
  pose proof (shr_nonneg (shr_record_of_loc q loc_Exact) e1
    (fexp prec emax (Zdigits2 q + e1) - e1) Hr) as H2.
  destruct (shr (shr_record_of_loc q loc_Exact) _ _) as [y e2]. cbn [fst] in H2.
  destruct (shr_m y); [done| |lia]. by case_match.
Qed.

Lemma float_div_nonneg a b : nonneg a → a ≠ S754_infinity false → positive b → nonneg (float_div a b).
Proof.
  destruct a as [[]|[]| |[] ma ea], b as [[]|[]| |[] mb eb]; try done.
  intros _ _ _. cbn [float_div SFdiv xorb].
  destruct (SFdiv_core_binary _ _ _ _ _ _) as [[q e] l] eqn:Hc. apply round_aux_nonneg.
  unfold SFdiv_core_binary in Hc.
  destruct (Z.div_eucl _ _) as [q' r] eqn:Hd in Hc. injection Hc as <- _ _.
  pose proof (f_equal fst Hd) as Hq. cbn [fst] in Hq.
  match type of Hd with Z.div_eucl ?m _ = _ => assert (0 ≤ m) as Hm end.
  { case_match; [lia| |lia]. apply Z.shiftl_nonneg. lia. }
  revert Hq. generalize dependent q'. intros q' Hd <-.
  rewrite Hd. cbn [fst]. pose proof (Z.div_pos _ (Zpos mb) Hm ltac:(lia)) as Hp.
  unfold Z.div in Hp. by rewrite Hd in Hp.
Qed.

Lemma decimal_units_nonneg k f : nonneg f → 0 ≤ decimal_units k f.
Proof.
  destruct f as [[]|[]| |[] m e]; try done. intros _. cbn [decimal_units].
  assert (0 ≤ 10 ^ k) by (apply Z.pow_nonneg; lia).
  destruct (Z.leb_spec 0 e); [assert (0 ≤ 2 ^ e) by (apply Z.pow_nonneg; lia); nia|].
  unfold round_half_even.
  assert (0 < 2 ^ (- e)) by (apply Z.pow_pos_nonneg; lia).
  assert (0 ≤ Zpos m * 10 ^ k / 2 ^ (- e)) by (apply Z.div_pos; nia).
  repeat case_match; lia.
Qed.

Lemma round_digits_nonneg k f : 0 ≤ k → nonneg f → nonneg (round_digits k f).
Proof.
  intros Hk Hf. pose proof (decimal_units_nonneg k f Hf) as Hu.
  destruct f as [[]|[]| |[] m e]; try done. unfold round_digits.
  destruct (Z.eqb_spec (decimal_units k (S754_finite false m e)) 0); [done|].
  unfold float_dec, int_div. generalize dependent (decimal_units k (S754_finite false m e)).
  intros n Hn Hn0. assert (Hp : 0 < 10 ^ k) by (apply Z.pow_pos_nonneg; lia).
  apply float_div_nonneg; [by destruct n|by destruct n|by destruct (10 ^ k)].
Qed.

Lemma per_kloc_nonneg lo hi x kloc : within lo hi x → positive kloc → nonneg (per_kloc x kloc).
Proof.
  intros Hx Hk. apply round_digits_nonneg; [lia|]. apply float_div_nonneg; [by eapply within_nonneg| |done].
  intros ->. by destruct Hx.
Qed.

Lemma kloc_positive n : 0 ≤ n < 2 ^ 53 →
  positive (float_max (float_div (float_of_Z n) (float_of_Z 1000)) (float_dec 1 3)).
Proof.
  intros Hn. pose proof (float_of_Z_within n Hn) as Hw.
  assert (Hd : nonneg (float_div (float_of_Z n) (float_of_Z 1000))).
  { apply float_div_nonneg; [by eapply within_nonneg| |by vm_compute].
    intros E. rewrite E in Hw. by destruct Hw. }
  unfold float_max. revert Hd. generalize (float_div (float_of_Z n) (float_of_Z 1000)).
  intros a Ha. case_match eqn:Hl; [by vm_compute|].
  by destruct a as [[]|[]| |[] m e].
Qed.

Lemma int_float_within n : 0 ≤ n < 2 ^ 53 → int_float n = Ok (float_of_Z n).
Proof.
  intros Hn. pose proof (float_of_Z_within n Hn) as [Hw _]. unfold int_float.
  by destruct (float_of_Z n).
Qed.

(** * Totals *)

Definition estimates (p : guidance_kind → bool) (l : list ReviewFinding) : Z :=
  foldr (λ f n, (if p (guidance_of f) then deletion_lines_of f else 0) + n) 0 l.
Definition is_safe (k : guidance_kind) : bool := bool_decide (k = SafeMechanical).
Definition is_removable (k : guidance_kind) : bool := bool_decide (k ≠ Preserve).
Definition valid_estimates (l : list ReviewFinding) : Prop := Forall (λ f, 0 ≤ deletion_lines_of f) l.

Lemma weight_within k : within (Z.b2z (is_safe k)) (Z.b2z (is_removable k)) (weight_of k).
Proof. destruct k; (split; [by vm_compute|]); split; apply Z.leb_le; vm_compute; reflexivity. Qed.

Lemma estimates_app p l1 l2 : estimates p (l1 ++ l2) = estimates p l1 + estimates p l2.
Proof. induction l1 as [|f l1 IH]; simpl; lia. Qed.
Lemma estimates_one p f : estimates p [f] = if p (guidance_of f) then deletion_lines_of f else 0.
Proof. simpl. lia. Qed.
Lemma estimates_nonneg p l : valid_estimates l → 0 ≤ estimates p l.
Proof. induction 1; simpl; [lia|]. case_match; lia. Qed.
Lemma estimates_mono (p q : guidance_kind → bool) l :
  (∀ k, p k = true → q k = true) → valid_estimates l → estimates p l ≤ estimates q l.
Proof.
  intros Hpq. induction 1 as [|f l Hf Hl IH]; simpl; [lia|].
  specialize (Hpq (guidance_of f)). destruct (p _); [rewrite Hpq by done; lia|]. case_match; lia.
Qed.

(** What a kind's entry is after the findings [l] *)
Definition of_kind (k : guidance_kind) (f : ReviewFinding) : bool := bool_decide (guidance_of f = k).
Definition kind_forecast (l : list ReviewFinding) (k : guidance_kind) : option GuidanceKindForecast :=
  match List.filter (of_kind k) l with
  | [] => None
  | fs => Some {| gkf_count := Z.of_nat (length fs);
                  gkf_estimated_deletion_lines := estimates (λ k', bool_decide (k' = k)) l;
                  gkf_weight := weight_of k |}
  end.
Definition action_count (l : list ReviewFinding) (a : action_status) : option Z :=
  match List.filter (λ f, bool_decide (rf_action_status f = Some a)) l with
  | [] => None
  | fs => Some (Z.of_nat (length fs))
  end.
Definition accounts (l : list ReviewFinding) (t : _CleanupForecastTotals) : Prop :=
  (∀ k, dict_get (guidance_text k) (by_guidance_kind t) = kind_forecast l k)
  ∧ (∀ a, dict_get (action_text a) (by_action_status t) = action_count l a)
  ∧ low t = estimates is_safe l ∧ high t = estimates is_removable l.

#[export] Instance guidance_text_inj : Inj (=) (=) guidance_text.
Proof. by intros [] []. Qed.
#[export] Instance action_text_inj : Inj (=) (=) action_text.
Proof. by intros [] []. Qed.

Lemma kind_forecast_other l f k : guidance_of f ≠ k → kind_forecast (l ++ [f]) k = kind_forecast l k.
Proof.
  intros Hk. unfold kind_forecast. rewrite List.filter_app, estimates_app. simpl.
  unfold of_kind at 2. rewrite !bool_decide_eq_false_2, app_nil_r, !Z.add_0_r by done. done.
Qed.

Lemma estimates_none k l :
  List.filter (of_kind k) l = [] → estimates (λ k', bool_decide (k' = k)) l = 0.
Proof.
  induction l as [|f l IH]; simpl; [done|]. unfold of_kind at 1. case_bool_decide; [done|]. intros. by rewrite IH.
Qed.

Lemma kind_forecast_same l f k :
  guidance_of f = k →
  kind_forecast (l ++ [f]) k
  = let g := default {| gkf_count := 0; gkf_estimated_deletion_lines := 0; gkf_weight := weight_of k |}
               (kind_forecast l k) in
    Some {| gkf_count := gkf_count g + 1;
            gkf_estimated_deletion_lines := gkf_estimated_deletion_lines g + deletion_lines_of f;
            gkf_weight := weight_of k |}.
Proof.
  intros Hk. unfold kind_forecast. rewrite List.filter_app, estimates_app. simpl.
  unfold of_kind at 2. rewrite !bool_decide_eq_true_2, Z.add_0_r by done.
  pose proof (estimates_none k l) as Hnone.
  destruct (List.filter (of_kind k) l) as [|g gs] eqn:E; simpl.
  - by rewrite Hnone.
  - rewrite length_app. simpl. do 2 f_equal. lia.
Qed.

Lemma action_count_snoc l f a :
  action_count (l ++ [f]) a
  = if bool_decide (rf_action_status f = Some a) then Some (default 0 (action_count l a) + 1)
    else action_count l a.
Proof.
  unfold action_count. rewrite List.filter_app. simpl. case_bool_decide.
  - destruct (List.filter _ l) as [|g gs]; simpl; [done|]. rewrite length_app. simpl. f_equal. lia.
  - by rewrite app_nil_r.
Qed.

Lemma if_kind (b : bool) (n d : Z) : (if b then n + d else n) = n + (if b then d else 0).
Proof. destruct b; lia. Qed.

Lemma add_finding_accounts l t f t' :
  accounts l t → _add_cleanup_forecast_finding t f = Ok t' → accounts (l ++ [f]) t'.
Proof.
  intros (Hk & Ha & Hlow & Hhigh) Ht. unfold _add_cleanup_forecast_finding in Ht.
  rewrite Hk in Ht. apply res_bind_Ok in Ht as (g & Hg & (n & Hn & (x & Hx & [= <-])%res_bind_Ok)%res_bind_Ok).
  assert (g = default {| gkf_count := 0; gkf_estimated_deletion_lines := 0;
                         gkf_weight := weight_of (guidance_of f) |} (kind_forecast l (guidance_of f))) as ->.
  { destruct (kind_forecast l (guidance_of f)); [by injection Hg as <-|].
    unfold validate_GuidanceKindForecast in Hg. res_inv. done. }
  unfold validate_GuidanceKindForecast in Hn. res_inv. subst n.
  split_and!; cbn.
  - intros k. destruct (decide (guidance_of f = k)) as [<-|Hne].
    + rewrite dict_get_set_eq. by rewrite kind_forecast_same.
    + rewrite dict_get_set_ne by (by intros E%(inj guidance_text)). by rewrite kind_forecast_other.
  - intros a. rewrite action_count_snoc. destruct (rf_action_status f) as [a'|] eqn:E; [|by rewrite Ha].
    unfold dict_incr. case_bool_decide as Heq.
    + injection Heq as ->. by rewrite dict_get_set_eq, Ha.
    + rewrite dict_get_set_ne; [done|]. intros E'%(inj action_text). congruence.
  - rewrite estimates_app, estimates_one, <-Hlow. apply if_kind.
  - rewrite estimates_app, estimates_one, <-Hhigh. apply if_kind.
Qed.

Lemma totals_account guided t : _cleanup_forecast_totals guided = Ok t → accounts guided t.
Proof.
  assert (∀ l acc, accounts l acc → fold_res _add_cleanup_forecast_finding acc guided = Ok t →
    accounts (l ++ guided) t) as H.
  { induction guided as [|f fs IH]; intros l acc Hacc Ht; cbn in Ht.
    - injection Ht as <-. by rewrite app_nil_r.
    - apply res_bind_Ok in Ht as (acc' & Hs & Ht).
      rewrite (app_assoc l [f] fs : l ++ f :: fs = _). eapply IH; [|done]. by eapply add_finding_accounts. }
  apply (H [] no_totals). by split_and!.
Qed.

(** * The forecast is always produced *)

(** The float sums of a prefix of the guided findings *)
Definition sums_within (l : list ReviewFinding) (t : _CleanupForecastTotals) : Prop :=
  within (estimates is_safe l) (estimates is_removable l) (expected t)
  ∧ within 0 (Z.of_nat (length l)) (weighted_points t).

Lemma kind_forecast_lines l k g :
  valid_estimates l → kind_forecast l k = Some g → 0 ≤ gkf_count g ∧ 0 ≤ gkf_estimated_deletion_lines g.
Proof.
  unfold kind_forecast. intros Hl. destruct (List.filter _ _); [done|]. intros [= <-]. cbn.
  split; [lia|]. by apply estimates_nonneg.
Qed.

Lemma validate_kind_ok n d k :
  0 ≤ n → 0 ≤ d →
  validate_GuidanceKindForecast
    {| gkf_count := n; gkf_estimated_deletion_lines := d; gkf_weight := weight_of k |}
  = Ok {| gkf_count := n; gkf_estimated_deletion_lines := d; gkf_weight := weight_of k |}.
Proof.
  intros Hn Hd. unfold validate_GuidanceKindForecast. cbn -[float_leb].
  rewrite !(proj2 (Z.leb_le _ _)), nonneg_leb by (done || (eapply within_nonneg, weight_within)). done.
Qed.

Lemma add_finding_progress l t f :
  accounts l t → sums_within l t → valid_estimates (l ++ [f]) →
  estimates is_removable (l ++ [f]) < 2 ^ 53 → deletion_lines_of f < 2 ^ 53 →
  Z.of_nat (length (l ++ [f])) < 2 ^ 53 →
  ∃ t', _add_cleanup_forecast_finding t f = Ok t' ∧ sums_within (l ++ [f]) t'.
Proof.
  intros (Hk & _) (Hexp & Hw) [Hl Hf]%Forall_app Hsum Hmax Hlen.
  apply Forall_inv in Hf. rewrite length_app in Hlen. simpl in Hlen.
  unfold _add_cleanup_forecast_finding. rewrite Hk. rewrite estimates_app, estimates_one in Hsum.
  assert (∃ g, match kind_forecast l (guidance_of f) with
               | Some g => Ok g
               | None => validate_GuidanceKindForecast
                   {| gkf_count := 0; gkf_estimated_deletion_lines := 0; gkf_weight := weight_of (guidance_of f) |}
               end = Ok g ∧ 0 ≤ gkf_count g ∧ 0 ≤ gkf_estimated_deletion_lines g) as (g & -> & Hg1 & Hg2).
  { destruct (kind_forecast l (guidance_of f)) as [g|] eqn:E.
    - exists g. split; [done|]. by eapply kind_forecast_lines.
    - rewrite validate_kind_ok by lia. by eexists. }
  cbn [res_bind]. rewrite validate_kind_ok, int_float_within by lia. cbn [res_bind].
  eexists. split; [done|].
  pose proof (weight_within (guidance_of f)) as Hweight.
  pose proof (estimates_nonneg is_safe l Hl). pose proof (estimates_nonneg is_removable l Hl).
  assert (Hline : within (if is_safe (guidance_of f) then deletion_lines_of f else 0)
                    (if is_removable (guidance_of f) then deletion_lines_of f else 0)
                    (float_mul (float_of_Z (deletion_lines_of f)) (weight_of (guidance_of f)))).
  { eapply within_weaken; [apply (float_mul_within (deletion_lines_of f) (deletion_lines_of f)
      (Z.b2z (is_safe (guidance_of f))) (Z.b2z (is_removable (guidance_of f)))); [|done|done| |]| |].
    - by apply float_of_Z_within.
    - by destruct (is_safe _).
    - destruct (is_removable _); simpl Z.b2z; lia.
    - destruct (is_safe _); simpl Z.b2z; lia.
    - destruct (is_removable _); simpl Z.b2z; lia. }
  split; cbn.
  - rewrite !estimates_app, !estimates_one. apply float_add_within; try done.
    by destruct (is_safe _).
  - rewrite length_app. simpl. eapply within_weaken;
      [apply (float_add_within 0 (Z.of_nat (length l)) 0 1); [done| |lia|lia|lia]|lia|lia].
    eapply within_weaken; [done| |]; [by destruct (is_safe _)|by destruct (is_removable _)].
Qed.

(** What the forecast needs to stay exact: the estimates are not negative and
    add up to less than [2^53], and there are fewer findings than that. *)
Definition forecastable (guided : list ReviewFinding) : Prop :=
  valid_estimates guided ∧ estimates (λ _, true) guided < 2 ^ 53 ∧ Z.of_nat (length guided) < 2 ^ 53.

Lemma totals_progress guided :
  forecastable guided → ∃ t, _cleanup_forecast_totals guided = Ok t ∧ sums_within guided t.
Proof.
  intros (Hv & Hs & Hn).
  assert (∀ rest l acc, l ++ rest = guided → accounts l acc → sums_within l acc →
    ∃ t, fold_res _add_cleanup_forecast_finding acc rest = Ok t ∧ sums_within guided t) as H.
  { induction rest as [|f rest IH]; intros l acc Heq Hacc Hsum; cbn.
    - rewrite app_nil_r in Heq. subst l. by eexists.
    - rewrite (app_assoc l [f] rest : l ++ f :: rest = _) in Heq.
      assert (Hv' : valid_estimates (l ++ [f])) by (rewrite <-Heq in Hv; by apply Forall_app in Hv as [? _]).
      assert (Hvr : valid_estimates rest) by (rewrite <-Heq in Hv; by apply Forall_app in Hv as [_ ?]).
      rewrite <-Heq, estimates_app in Hs. rewrite <-Heq, length_app in Hn.
      pose proof (estimates_nonneg (λ _, true) rest Hvr).
      pose proof (estimates_mono is_removable (λ _, true) (l ++ [f]) ltac:(done) Hv').
      assert (Hf : 0 ≤ deletion_lines_of f ∧ deletion_lines_of f < 2 ^ 53).
      { apply Forall_app in Hv' as [Hl Hf%Forall_inv]. split; [done|].
        rewrite estimates_app, estimates_one in Hs. pose proof (estimates_nonneg (λ _, true) l Hl). lia. }
      destruct (add_finding_progress l acc f) as (acc' & Hstep & Hsum'); [done..|lia|lia|lia|].
      rewrite Hstep. cbn. apply (IH (l ++ [f])); [done| |done]. by eapply add_finding_accounts. }
  apply (H guided [] no_totals); [done| |]; by split_and!.
Qed.

Lemma count_true_nonneg {A} (p : A → bool) l : 0 ≤ count_true p l.
Proof. induction l as [|x l IH]; simpl; [lia|]. destruct (p x); simpl; lia. Qed.

Definition reviewed_lines (fs : files) (paths : list string) : Z * Z :=
  foldl (add_reviewed_loc fs) (0, 0) paths.

Lemma reviewed_lines_nonneg fs paths : 0 ≤ (reviewed_lines fs paths).1 ∧ 0 ≤ (reviewed_lines fs paths).2.
Proof.
  unfold reviewed_lines. assert (H : 0 ≤ (0, 0).1 ∧ 0 ≤ (0, 0).2) by done. revert H.
  generalize (0, 0). induction paths as [|p paths IH]; intros acc Hacc; simpl; [done|].
  apply IH. unfold add_reviewed_loc, _count_python_loc. case_bool_decide; [|done].
  destruct (read_text fs p) as [text|]; [|done]. cbn [res_bind].
  match goal with |- context [count_true ?q ?l] => pose proof (count_true_nonneg q l) end.
  case_match; simpl; lia.
Qed.

Lemma reviewed_loc_ok fs paths :
  _reviewed_loc_for_files fs paths
  = Ok {| rl_production := (reviewed_lines fs paths).1; rl_tests := (reviewed_lines fs paths).2;
          rl_total := (reviewed_lines fs paths).1 + (reviewed_lines fs paths).2 |}.
Proof.
  pose proof (reviewed_lines_nonneg fs paths) as [Hp Ht]. unfold _reviewed_loc_for_files.
  change (foldl _ _ paths) with (reviewed_lines fs paths).
  destruct (reviewed_lines fs paths) as [p t]; simpl in *. unfold validate_ReviewedLoc. cbn.
  by rewrite !(proj2 (Z.leb_le _ _)), Z.eqb_refl by lia.
Qed.

Definition guided_findings (findings : list ReviewFinding) : list ReviewFinding :=
  List.filter (λ f, has_some (rf_guidance_kind f)) findings.

(** C21 The clean-up forecast never fails and is never out of order: for
    estimates that are not negative and add up to less than [2^53] the float
    sum of the weighted estimates, whatever its rounding, rounds to an integer
    between the lines of the safe findings and the lines of all but the
    preserved ones, so the model's own validator accepts it; and the counts
    and lines recorded per guidance kind and per action are those of the
    findings. *)
Theorem forecast_produced fs findings paths :
  forecastable (guided_findings findings) →
  (reviewed_lines fs paths).1 + (reviewed_lines fs paths).2 < 2 ^ 53 →
  ∃ cf, build_cleanup_forecast fs findings paths = Ok cf
    ∧ de_low (cf_estimated_deletion_lines cf) = estimates is_safe (guided_findings findings)
    ∧ de_high (cf_estimated_deletion_lines cf) = estimates is_removable (guided_findings findings)
    ∧ de_low (cf_estimated_deletion_lines cf) ≤ de_expected (cf_estimated_deletion_lines cf)
      ≤ de_high (cf_estimated_deletion_lines cf)
    ∧ (∀ k, dict_get (guidance_text k) (cf_by_guidance_kind cf) = kind_forecast (guided_findings findings) k)
    ∧ (∀ a, dict_get (action_text a) (cf_by_action_status cf) = action_count (guided_findings findings) a).
Proof.
  intros Hf Hloc. unfold build_cleanup_forecast. rewrite reviewed_loc_ok. cbn [res_bind rl_total].
  fold (guided_findings findings).
  destruct (totals_progress _ Hf) as (t & Ht & Hexp & Hpoints). rewrite Ht. cbn [res_bind].
  destruct (totals_account _ _ Ht) as (Hk & Ha & Hlow & Hhigh). destruct Hf as (Hv & Hsum & Hlen).
  pose proof (reviewed_lines_nonneg fs paths).
  pose proof (estimates_nonneg is_safe _ Hv).
  pose proof (estimates_mono is_safe is_removable _ ltac:(by intros []) Hv).
  pose proof (estimates_mono is_removable (λ _, true) _ ltac:(done) Hv).
  destruct (round_int_within _ _ _ Hexp) as (n & Hn & Hnb).
  rewrite int_float_within by lia. cbn [res_bind]. rewrite Hn. cbn [res_bind].
  unfold validate_DeletionEstimate. cbn [de_low de_expected de_high].
  rewrite Hlow, Hhigh, !(proj2 (Z.leb_le _ _)) by lia. cbn [andb check res_bind].
  rewrite !int_float_within by lia. cbn [res_bind].
  pose proof (kloc_positive ((reviewed_lines fs paths).1 + (reviewed_lines fs paths).2) ltac:(lia)) as Hkloc.
  unfold validate_AiBloatIndex. cbn [abi_findings_per_kloc abi_weighted_bloat_points_per_kloc
    abi_cleanup_yield_loc_per_kloc].
  rewrite !nonneg_leb by (eapply per_kloc_nonneg; [first [exact Hpoints|apply float_of_Z_within; lia]|done]).
  cbn [andb check res_bind]. eexists. split; [reflexivity|].
  cbn [cf_estimated_deletion_lines cf_by_guidance_kind cf_by_action_status de_low de_expected de_high].
  split_and!; done || lia.
Qed.

(** * Preview *)

Import Evidence.

Lemma preview_path_below dir name : dir ≠ "" → below dir (as_posix (path_join dir (of_chars (path_name name)))).
Proof.
  intros Hd. unfold below. apply Is_true_true, is_relative_to_iff.
  rewrite path_root_as_posix, path_components_as_posix.
  apply is_relative_to_iff, is_relative_to_join; [apply path_name_relative|done].
Qed.

(** What a temporary directory is: a name no stored file is at or below *)
Definition fresh_dir (dir : string) (fs : files) : Prop :=
  dir ≠ "" ∧ ∀ path file, fs !! path = Some file → below dir path = false.

Lemma remove_tree_frame dir fs fs' :
  (∀ path, below dir path = false → fs' !! path = fs !! path) →
  (∀ path file, fs !! path = Some file → below dir path = false) → remove_tree dir fs' = fs.
Proof.
  intros Hframe Hfresh. unfold remove_tree. apply map_eq. intros path.
  destruct (below dir path) eqn:Hb.
  - rewrite map_lookup_filter_None_2 by (right; intros ??; cbn; congruence).
    destruct (fs !! path) eqn:E; [|done]. apply Hfresh in E. congruence.
  - rewrite <-(Hframe path Hb). destruct (fs' !! path) eqn:E.
    + by apply map_lookup_filter_Some_2.
    + apply map_lookup_filter_None_2. by left.
Qed.

(** The finding with one more entry in its trace, a packet, and the two
    derived lifecycle fields: nothing else differs. *)
Definition annotated (f : ReviewFinding) (entry : SignalTraceEntry) (packet : option RemediationPacket) :
    ReviewFinding :=
  with_lifecycle (Some (rf_fixable f)) (Some (expected_blocking f))
    (with_evidence (Some (default [] (rf_signal_trace f) ++ [entry])) packet f).

Lemma validated_finding f g :
  validate_ReviewFinding f = Ok g → g = with_lifecycle (Some (rf_fixable f)) (Some (expected_blocking f)) f.
Proof.
  intros (_ & _ & _ & Hd)%validate_finding_inv. unfold _derive_c14_lifecycle_fields in Hd. by res_inv.
Qed.

Lemma with_signal_inv f entry packet g :
  with_signal f entry packet = Ok g → ∃ ref, g = annotated f (entry ref) packet.
Proof.
  unfold with_signal. intros H. apply res_bind_Ok in H as (ref & _ & H).
  apply res_bind_Ok in H as (e & He & H).
  assert (e = entry ref) as -> by (unfold validate_SignalTraceEntry in He; res_inv; done).
  apply validated_finding in H as ->. exists ref. by destruct f.
Qed.

Lemma patch_preview_inv f added removed g :
  _with_patch_preview f added removed = Ok g →
  ∃ entry packet, g = annotated f entry (Some packet)
    ∧ patch_ref_of f ∈ default [] (rp_patch_forecast_refs packet).
Proof.
  unfold _with_patch_preview. intros H. apply res_bind_Ok in H as (_ & _ & H).
  apply res_bind_Ok in H as (packet & Hp & [ref ->]%with_signal_inv). eexists _, packet. split; [done|].
  unfold _packet_with_patch_ref in Hp. destruct (rf_remediation_packet f) as [p|].
  - injection Hp as <-. cbn. case_bool_decide; [done|]. rewrite elem_of_app, list_elem_of_singleton. by right.
  - unfold validate_RemediationPacket in Hp. res_inv. subst packet. cbn. by left.
Qed.

Section preview_proofs.
Context `{PyRepr} (now : datetime) (mkdtemp : files → string) (writable : string → bool).
Context (fix_files : fixers) `{!ConfinedFixers fix_files}.

Lemma preview_in_frame dir f before fs after fs' path :
  preview_in now writable fix_files dir f before fs = Ok (after, fs') →
  dir ≠ "" → below dir path = false → fs' !! path = fs !! path.
Proof.
  intros Hp Hdir Hpath. unfold preview_in, _write_preview_source in Hp.
  set (target := path_join dir (of_chars (path_name (rf_file f)))) in *.
  assert (Hne : as_posix target ≠ path).
  { intros <-. pose proof (preview_path_below dir (rf_file f) Hdir) as Hb. fold target in Hb. by rewrite Hpath in Hb. }
  destruct (writable target); [|by injection Hp as _ <-].
  apply res_bind_Ok in Hp as (report & Hr & Hp). apply res_bind_Ok in Hp as ([applied fs1] & Hfix & Hp).
  assert (Hfs1 : fs1 !! path = fs !! path).
  { erewrite (fixers_confined report _ applied fs1 path Hfix); [by apply lookup_insert_ne|].
    unfold _report_for_preview in Hr. apply validated_fields in Hr as (-> & _).
    intros g ->%list_elem_of_singleton. by destruct f. }
  destruct applied; [by injection Hp as _ <-|].
  destruct (read_text fs1 target) as [text|[]]; simplify_eq; done.
Qed.

Lemma preview_single_keeps f fs p fs' :
  fresh_dir (mkdtemp fs) fs →
  _preview_single_simplification now mkdtemp writable fix_files f fs = Ok (p, fs') →
  fs' = fs ∧ ∀ g, p = Some g →
    ∃ entry packet, g = annotated f entry (Some packet)
      ∧ patch_ref_of f ∈ default [] (rp_patch_forecast_refs packet).
Proof.
  unfold _preview_single_simplification. intros [Hdir Hno] Hp.
  destruct (read_text fs (rf_file f)) as [before|[]]; try done; [|by injection Hp as <- <-].
  apply res_bind_Ok in Hp as ([after fs1] & Hin & Hp).
  assert (remove_tree (mkdtemp fs) fs1 = fs) as Heq.
  { apply remove_tree_frame; [|done]. intros path. by eapply preview_in_frame. }
  rewrite Heq in Hp. destruct after as [after|]; [|by injection Hp as <- <-].
  destruct (_line_delta before after) as [added removed].
  apply res_bind_Ok in Hp as (g & Hg & [= <- <-]). split; [done|].
  intros ? [= <-]. by eapply patch_preview_inv.
Qed.

Lemma preview_fixes_keep report fs previewed fs' :
  fresh_dir (mkdtemp fs) fs →
  _preview_simplification_fixes now mkdtemp writable fix_files report fs = Ok (previewed, fs') →
  fs' = fs ∧ Forall (λ g, ∃ f entry packet, f ∈ rr_findings report
      ∧ is_safe_mechanical_simplification f = true ∧ g = annotated f entry (Some packet)
      ∧ patch_ref_of f ∈ default [] (rp_patch_forecast_refs packet)) previewed.
Proof.
  intros Hfresh Hp. unfold _preview_simplification_fixes in Hp. set (Q := λ g, _) in |- *.
  apply (fold_res_inv _ (λ acc, acc.2 = fs ∧ Forall Q acc.1) _ _ _ Hp); [by split|].
  intros f [acc fs1] [acc' fs2] Hf [Heq Hacc] Hstep. unfold preview_step in Hstep. cbn [fst snd] in *.
  subst fs1.
  apply res_bind_Ok in Hstep as ([p fs3] & Hs & [= <- <-]).
  apply preview_single_keeps in Hs as [-> Hg]; [|done]. split; [done|]. destruct p as [g|]; [|done].
  apply Forall_app. split; [done|]. apply Forall_singleton.
  destruct (Hg g eq_refl) as (entry & packet & -> & Href).
  unfold _fixable_simplifications_by_stable_line_order in Hf.
  rewrite elem_of_sort_by in Hf. apply list_elem_of_In, filter_In in Hf as [Hf Hsafe].
  exists f, entry, packet. by rewrite <-list_elem_of_In in Hf.
Qed.
End preview_proofs.

(** A previewed report: every finding is the one it was, or that finding
    annotated with the preview of its own fix. *)
Definition previewed_as (f g : ReviewFinding) : Prop :=
  g = f ∨ is_safe_mechanical_simplification f = true ∧
    ∃ entry packet, g = annotated f entry (Some packet)
      ∧ patch_ref_of f ∈ default [] (rp_patch_forecast_refs packet).
Definition distinct_keys (findings : list ReviewFinding) : Prop := NoDup (finding_key <$> findings).

Lemma annotated_key f entry packet : finding_key (annotated f entry packet) = finding_key f.
Proof. by destruct f. Qed.

Lemma distinct_keys_eq findings f g :
  distinct_keys findings → f ∈ findings → g ∈ findings → finding_key f = finding_key g → f = g.
Proof.
  intros Hd [i Hi]%list_elem_of_lookup [j Hj]%list_elem_of_lookup Hk.
  assert (i = j) as ->; [|by rewrite Hi in Hj; injection Hj].
  eapply NoDup_lookup; [exact Hd|by rewrite list_lookup_fmap, Hi|by rewrite list_lookup_fmap, Hj, Hk].
Qed.

(** What can stand in the place of a finding in general: itself, or the
    annotated form of a finding with the same file, line and rule *)
Definition replaced_as (findings : list ReviewFinding) (f g : ReviewFinding) : Prop :=
  g = f ∨ ∃ f', f' ∈ findings ∧ finding_key f' = finding_key f ∧ is_safe_mechanical_simplification f' = true ∧
    ∃ entry packet, g = annotated f' entry (Some packet)
      ∧ patch_ref_of f' ∈ default [] (rp_patch_forecast_refs packet).

Lemma replacements_annotate previewed findings :
  Forall (λ g, ∃ f entry packet, f ∈ findings ∧ is_safe_mechanical_simplification f = true
      ∧ g = annotated f entry (Some packet)
      ∧ patch_ref_of f ∈ default [] (rp_patch_forecast_refs packet)) previewed →
  Forall2 (replaced_as findings) findings (with_replacements previewed findings).
Proof.
  intros Hp. unfold with_replacements. apply Forall2_fmap_r, Forall_Forall2_diag, Forall_forall. intros f Hf.
  unfold compose. match goal with |- context [dict_get ?k ?d] => destruct (dict_get k d) as [g|] eqn:Hg end; [|by left].
  apply dict_of_get_elem, list_elem_of_fmap in Hg as (g' & Hpair & Hg').
  pose proof (f_equal fst Hpair) as Hk. pose proof (f_equal snd Hpair) as Hg. cbn [fst snd] in Hk, Hg. subst g.
  rewrite Forall_forall in Hp. destruct (Hp g' Hg') as (f' & entry & packet & Hf' & Hsafe & -> & Href).
  right. exists f'. split_and!; [done| |done|by exists entry, packet].
  unfold finding_key in *. destruct f'. cbn in *. congruence.
Qed.
Lemma replaced_previewed findings f g :
  distinct_keys findings → f ∈ findings → replaced_as findings f g → previewed_as f g.
Proof.
  intros Hd Hf [->|(f' & Hf' & Hk & Hsafe & Hg)]; [by left|]. right.
  by rewrite (distinct_keys_eq _ _ _ Hd Hf Hf' (eq_sym Hk)).
Qed.

Lemma with_own_findings r : with_findings (rr_findings r) r = r.
Proof. by destruct r. Qed.

Lemma refreshed_inv fs report paths r :
  with_refreshed_cleanup_forecast fs report paths = Ok r →
  ∃ version cf, build_cleanup_forecast fs (rr_findings report) paths = Ok cf
    ∧ r = with_schema_version version (with_cleanup_forecast (Some cf) report).
Proof. intros (cf & Hcf & [= <-])%res_bind_Ok. by eexists _, cf. Qed.

(** C20 The preview of the mechanical fixes is what it calls itself,
    non-mutating: with fixers that write no file but those a report names,
    and a temporary directory of a fresh name, it leaves every file of the
    store as it was; and of the report it changes only the forecast, the
    schema version and findings, each of which stays or gives its place to a
    safe finding of the report with the same file, line and rule that gained
    one trace entry and the reference to its own patch.  In a report whose
    findings have distinct files, lines and rules that is the finding itself,
    with its place, its location, its severity and its verdict (without that a
    finding that was not previewed can be replaced by another one, see the
    finding). *)
Theorem preview_only_annotates `{PyRepr} now mkdtemp writable fix_files `{!ConfinedFixers fix_files}
    report paths fs report' fs' :
  fresh_dir (mkdtemp fs) fs →
  with_previewed_simplification_findings now mkdtemp writable fix_files report paths fs = Ok (report', fs') →
  fs' = fs
  ∧ ∃ findings version cf, build_cleanup_forecast fs findings paths = Ok cf
      ∧ report' = with_schema_version version (with_cleanup_forecast (Some cf) (with_findings findings report))
      ∧ Forall2 (replaced_as (rr_findings report)) (rr_findings report) findings
      ∧ (distinct_keys (rr_findings report) → Forall2 previewed_as (rr_findings report) findings).
Proof.
  intros Hfresh Hp. unfold with_previewed_simplification_findings in Hp.
  apply res_bind_Ok in Hp as ([previewed fs1] & Hpre & Hp).
  apply (preview_fixes_keep now mkdtemp writable fix_files) in Hpre as [-> Hall]; [|done].
  apply res_bind_Ok in Hp as (r & Hr & [= <- <-]). split; [done|].
  pose proof (replacements_annotate previewed _ Hall) as Hrep.
  assert (∃ findings version cf, build_cleanup_forecast fs findings paths = Ok cf
      ∧ r = with_schema_version version (with_cleanup_forecast (Some cf) (with_findings findings report))
      ∧ Forall2 (replaced_as (rr_findings report)) (rr_findings report) findings)
    as (findings & version & cf & Hcf & -> & Hf).
  { destruct previewed as [|g gs]; apply refreshed_inv in Hr as (version & cf & Hcf & ->).
    - exists (rr_findings report), version, cf. rewrite with_own_findings. split_and!; [done..|].
      apply Forall_Forall2_diag, Forall_forall. by left.
    - exists (with_replacements (g :: gs) (rr_findings report)), version, cf.
      split_and!; [by destruct report|done|done]. }
  exists findings, version, cf. split_and!; [done..|]. intros Hd.
  apply Forall2_same_length_lookup. apply Forall2_same_length_lookup in Hf as [Hlen Hf]. split; [done|].
  intros i f g Hi Hg. eapply replaced_previewed; [done|by eapply list_elem_of_lookup_2|by eapply Hf].
Qed.

(** A file that is not UTF-8 stops the preview with the decoding error, which
    the forecast of the same files passes over. *)
Lemma preview_stops_at_undecodable `{PyRepr} now mkdtemp writable fix_files f fs :
  fs !! as_posix (rf_file f) = Some NotUtf8 →
  _preview_single_simplification now mkdtemp writable fix_files f fs = Err UnicodeDecodeError
  ∧ ∀ loc, add_reviewed_loc fs loc (rf_file f) = loc.
Proof.
  intros Hf. unfold _preview_single_simplification, add_reviewed_loc, _count_python_loc, read_text.
  rewrite Hf. split; [done|]. intros loc. by case_bool_decide.
Qed.

(** * Witnesses and limits *)

Definition guided_finding (k : guidance_kind) (line lines : Z) : ReviewFinding :=
  {| rf_category := AiBloat; rf_severity := SevInfo; rf_tool := "ast"; rf_rule := "ai-bloat.dead-branch";
     rf_file := "src/example.py"; rf_line := line; rf_message := "Simplify local code."; rf_fixable := true;
     rf_status := StOpen; rf_differential_state := None; rf_autofix_available := None;
     rf_blocking := None; rf_execution_state := None; rf_evidence_outcome := None;
     rf_evidence_refs := None; rf_confidence := Some ConfHigh; rf_rewrite_hint := None;
     rf_canonical_pattern := None; rf_intent_key := None; rf_estimated_deletion_lines := Some lines;
     rf_related_locations := None; rf_guidance_kind := Some k; rf_recommended_action := Some RaRemove;
     rf_clean_code_principle := Some CcKiss; rf_rationale := Some "Written twice.";
     rf_safety_checks := Some ["same expression is returned"];
     rf_preserve_reason := Some "Public."; rf_action_status := Some AsRecommended; rf_before_ref := None;
     rf_after_ref := None; rf_improvement := None; rf_signal_trace := None;
     rf_preserve_reasons := None; rf_remediation_packet := None |}.
Definition guided_sample : list ReviewFinding :=
  [guided_finding SafeMechanical 1 2; guided_finding NeedsTests 2 3; guided_finding DesignJudgment 3 4;
   guided_finding Preserve 4 5].
Definition lf : string := String (ascii_of_nat 10) "".
Definition sample_store : files :=
  {["src/example.py" := Decoded ("# comment" +:+ lf +:+ lf +:+ "value = 1" +:+ lf);
    "tests/test_example.py" := Decoded ("assert True" +:+ lf)]}.

Lemma forecast_produced_witness :
  forecastable (guided_findings guided_sample) ∧
  ∃ cf, build_cleanup_forecast sample_store guided_sample ["src/example.py"; "tests/test_example.py"] = Ok cf
    ∧ de_low (cf_estimated_deletion_lines cf) = 2 ∧ de_high (cf_estimated_deletion_lines cf) = 9
    ∧ 2 ≤ de_expected (cf_estimated_deletion_lines cf) ≤ 9.
Proof.
  assert (forecastable (guided_findings guided_sample)) as Hf.
  { split_and!; [repeat constructor; vm_compute; done|vm_compute; done|vm_compute; done]. }
  split; [exact Hf|].
  destruct (forecast_produced sample_store guided_sample ["src/example.py"; "tests/test_example.py"] Hf)
    as (cf & Hcf & Hlow & Hhigh & Hle & _); [vm_compute; reflexivity|].
  exists cf. split; [exact Hcf|].
  assert (estimates is_safe (guided_findings guided_sample) = 2) as E1 by (vm_compute; reflexivity).
  assert (estimates is_removable (guided_findings guided_sample) = 9) as E2 by (vm_compute; reflexivity).
  rewrite E1 in Hlow. rewrite E2 in Hhigh. rewrite Hlow, Hhigh in *. split; [reflexivity|split; [reflexivity|exact Hle]].
Defined.

(** The bound is sharp: one safe estimate of [2^53 + 1] lines is rounded below
    itself, and the validator of the forecast rejects it. *)
Lemma huge_estimate_rejected :
  build_cleanup_forecast ∅ [guided_finding SafeMechanical 1 (2 ^ 53 + 1)] []
  = Err (ValueError "estimated_deletion_lines must satisfy low <= expected <= high").
Proof. vm_compute. reflexivity. Qed.

(** Two findings of one rule on one line share a key: the preview of the safe
    one takes the place of the other. *)
Lemma preview_key_collision :
  let safe := guided_finding SafeMechanical 1 2 in
  let kept := guided_finding Preserve 1 2 in
  with_replacements [safe] [safe; kept] = [safe; safe] ∧ kept ≠ safe.
Proof. by vm_compute. Qed.

(** A fixer that empties the files it is told of *)
Definition emptying : fixers := λ report fs,
  Ok (rr_findings report, foldr (λ f fs, <[as_posix (rf_file f) := Decoded ""]> fs) fs (rr_findings report)).
#[export] Instance emptying_confined : ConfinedFixers emptying.
Proof.
  intros report fs applied fs' path [= _ <-]. induction (rr_findings report) as [|f l IH]; intros Hp; simpl; [done|].
  rewrite lookup_insert_ne by (apply Hp; left). apply IH. intros g Hg. apply Hp. by right.
Qed.

#[local] Instance preview_repr : PyRepr := λ _, "<repr>".
Definition preview_sample : ReviewReport :=
  fresh_report "1.3" "run-1" {| dt_wall_us := 0; dt_utcoffset_us := Some 0 |} 85 guided_sample "ok".
Definition preview_result : result (ReviewReport * files) :=
  with_previewed_simplification_findings {| dt_wall_us := 0; dt_utcoffset_us := Some 0 |}
    (λ _, "/tmp/preview") (λ _, true) emptying preview_sample ["src/example.py"] sample_store.

Lemma preview_only_annotates_witness :
  ∃ report', preview_result = Ok (report', sample_store)
    ∧ ∃ findings version cf,
        build_cleanup_forecast sample_store findings ["src/example.py"] = Ok cf
        ∧ report' = with_schema_version version (with_cleanup_forecast (Some cf) (with_findings findings preview_sample))
        ∧ Forall2 previewed_as (rr_findings preview_sample) findings.
Proof.
  destruct preview_result as [[report' fs']|e] eqn:E; [|by vm_compute in E].
  destruct (preview_only_annotates {| dt_wall_us := 0; dt_utcoffset_us := Some 0 |} (λ _, "/tmp/preview")
    (λ _, true) emptying preview_sample ["src/example.py"] sample_store report' fs')
    as [-> (findings & version & cf & Hcf & Hr & _ & Hf)].
  - split; [done|]. intros path file Hp.
    unfold sample_store in Hp. rewrite lookup_insert_Some, lookup_singleton_Some in Hp.
    destruct Hp as [[<- _]|[_ [<- _]]]; vm_compute; reflexivity.
  - exact E.
  - exists report'. split; [reflexivity|]. exists findings, version, cf. split; [exact Hcf|]. split; [exact Hr|].
    apply Hf. unfold distinct_keys. apply (bool_decide_eq_true_1 _). vm_compute. reflexivity.
Defined.
