(* ===== verification/Ast.v ===== *)
(** Ast: Python syntax trees as [ast.parse] returns them (class name, text
    attributes, positions, fields), with the operations of the [ast] module
    the code uses: [ast.walk], [ast.dump] without attributes and
    [ast.get_source_segment]. *)

From S2P Require Import Prelude Text Dict PyValue.

(** * Nodes

    [node_texts] are the fields that hold no node: an identifier, the [repr]
    of a constant.  Optional and repeated fields are lists of nodes.  Lines
    count from 1; columns count the bytes of a line. *)
Record position := { lineno : Z; col_offset : Z; end_lineno : option Z; end_col_offset : option Z }.
#[warnings="-register-all"]
Inductive node :=
  Node (kind : string) (texts : list (string * string)) (pos : position) (fields : list (string * list node)).

Definition node_kind (n : node) : string := let 'Node k _ _ _ := n in k.
Definition node_texts (n : node) : list (string * string) := let 'Node _ t _ _ := n in t.
Definition node_pos (n : node) : position := let 'Node _ _ p _ := n in p.
Definition node_fields (n : node) : list (string * list node) := let 'Node _ _ _ f := n in f.

Definition isinstance (n : node) (kinds : list string) : bool := bool_decide (node_kind n ∈ kinds).
Definition field (name : string) (n : node) : list node := default [] (dict_get name (node_fields n)).
(** A field that holds one node, or [None] *)
Definition field1 (name : string) (n : node) : option node := head (field name n).
Definition text (name : string) (n : node) : option string := dict_get name (node_texts n).
Definition line (n : node) : Z := lineno (node_pos n).
(** [n.end_lineno or n.lineno] *)
Definition end_line (n : node) : Z :=
  match end_lineno (node_pos n) with Some z => if (z =? 0)%Z then line n else z | None => line n end.
(** [ast.iter_child_nodes] *)
Definition children (n : node) : list node := (node_fields n).*2 ≫= id.

Section node_rect.
Variable P : node → Prop.
Hypothesis HNode : ∀ k t p fs, Forall (λ f, Forall P f.2) fs → P (Node k t p fs).
Fixpoint node_nested_ind (n : node) : P n :=
  let go := fix go l : Forall P l :=
    match l with [] => Forall_nil_2 P | x :: l' => Forall_cons_2 P x l' (node_nested_ind x) (go l') end in
  match n with
  | Node k t p fs =>
      HNode k t p fs
        ((fix go2 l : Forall (λ f, Forall P f.2) l :=
            match l with
            | [] => Forall_nil_2 _
            | f :: l' => Forall_cons_2 _ f l' (go f.2) (go2 l')
            end) fs)
  end.
End node_rect.

(** * [ast.dump(n, include_attributes=False)]

    The text of a tree without its positions: two trees have the same dump
    exactly when they differ in positions only, so the tree with its
    positions erased stands for it. *)
Definition no_position : position :=
  {| lineno := 0; col_offset := 0; end_lineno := None; end_col_offset := None |}.
Fixpoint dump (n : node) : node :=
  let 'Node k t _ fs := n in Node k t no_position (map (λ f : string * list node, (f.1, map dump f.2)) fs).

#[export] Instance position_eq_dec : EqDecision position. Proof. solve_decision. Defined.
#[export] Instance node_eq_dec : EqDecision node.
Proof.
  refine (fix go n1 n2 :=
    let _ : EqDecision _ := @go in
    match n1, n2 with
    | Node k1 t1 p1 f1, Node k2 t2 p2 f2 =>
        cast_if_and4 (decide (k1 = k2)) (decide (t1 = t2)) (decide (p1 = p2)) (decide (f1 = f2))
    end); abstract congruence.
Defined.

(** * [ast.walk]

    Breadth first: a queue of nodes, each replaced by its children at the
    end.  The fuel is the number of nodes still to visit. *)
Fixpoint node_size (n : node) : nat :=
  let 'Node _ _ _ fs := n in
  S (foldr (λ f k, foldr (λ x j, node_size x + j) 0 f.2 + k) 0 fs)%nat.
Definition nodes_size (l : list node) : nat := foldr (λ x j, node_size x + j)%nat 0%nat l.
Fixpoint walk_queue (fuel : nat) (queue : list node) : list node :=
  match fuel, queue with
  | S fuel, n :: queue => n :: walk_queue fuel (queue ++ children n)
  | _, _ => []
  end.
Definition walk (n : node) : list node := walk_queue (node_size n) [n].

(** * [ast.get_source_segment]

    Lines end at LF, CR LF and CR only, and keep their ends; columns count
    UTF-8 bytes, two for a code point above 127. *)
Fixpoint split_lines_keep (cur : list ascii) (l : list ascii) : list (list ascii) :=
  match l with
  | [] => match cur with [] => [] | _ => [reverse cur] end
  | c :: l' =>
      if (code c =? 10)%Z then reverse (c :: cur) :: split_lines_keep [] l'
      else if (code c =? 13)%Z then
        match l' with
        | d :: l'' => if (code d =? 10)%Z then reverse (d :: c :: cur) :: split_lines_keep [] l''
                      else reverse (c :: cur) :: split_lines_keep [] l'
        | [] => [reverse (c :: cur)]
        end
      else split_lines_keep (c :: cur) l'
  end.
Definition byte_width (c : ascii) : Z := if (code c <? 128)%Z then 1 else 2.
Fixpoint byte_take (n : Z) (l : list ascii) : list ascii :=
  match l with
  | c :: l' => if (byte_width c <=? n)%Z then c :: byte_take (n - byte_width c) l' else []
  | [] => []
  end.
Fixpoint byte_drop (n : Z) (l : list ascii) : list ascii :=
  match l with
  | c :: l' => if (byte_width c <=? n)%Z then byte_drop (n - byte_width c) l' else l
  | [] => []
  end.
Definition get_source_segment (source : string) (n : node) : option string :=
  match end_lineno (node_pos n), end_col_offset (node_pos n) with
  | Some end_lineno, Some end_col =>
      let lines := split_lines_keep [] (chars source) in
      let line_at z := lines !! Z.to_nat (z - 1) in
      let start := line n in
      let col := col_offset (node_pos n) in
      if (end_lineno =? start)%Z then
        (λ l, of_chars (byte_drop col (byte_take end_col l))) <$> line_at start
      else
        match line_at start, line_at end_lineno with
        | Some first, Some last =>
            let middle := take (Z.to_nat (end_lineno - start - 1)) (drop (Z.to_nat start) lines) in
            Some (of_chars (byte_drop col first ++ concat middle ++ byte_take end_col last))
        | _, _ => None
        end
  | _, _ => None
  end.
