(* ===== verification/Fixes.v ===== *)
(** Fixes: the safe mechanical rewrites of [specfact_code_review/run/commands.py]
    ([_apply_simplification_fixes] and the four fixers), over the trees of
    [Ast] and the file store of [Cleanup]. *)

From S2P Require Import Prelude Text Paths Dict PyValue Findings Assembly Cleanup Ast.

(** * Predicates on statements *)

Definition impure_nodes : list string :=
  ["Attribute"; "Await"; "Call"; "DictComp"; "GeneratorExp"; "Lambda"; "ListComp"; "NamedExpr"; "SetComp";
   "Subscript"; "Yield"; "YieldFrom"].
Definition _is_pure_test (test_node : node) : bool :=
  negb (existsb (λ n, isinstance n impure_nodes) (walk test_node)).

Definition _terminal_return (body : list node) : bool :=
  match last body with Some n => isinstance n ["Return"] | None => false end.

Definition _iter_functions (tree : node) : list node :=
  List.filter (λ n, isinstance n ["FunctionDef"; "AsyncFunctionDef"]) (walk tree).

(** [stmt.test] of an [If] *)
Definition if_test (stmt : node) : option node :=
  if isinstance stmt ["If"] then field1 "test" stmt else None.

Definition _matches_duplicate_terminal_guard (stmt : node) (ln : Z) (test_key : node)
    (prior_terminal_tests : list node) : bool :=
  (line stmt =? ln)%Z && bool_decide (test_key ∈ prior_terminal_tests)
  && _terminal_return (field "body" stmt) && bool_decide (field "orelse" stmt = []).

Definition _is_pass_through_try_except (stmt : node) : bool :=
  isinstance stmt ["Try"] && bool_decide (field "orelse" stmt = []) && bool_decide (field "finalbody" stmt = [])
  && match field "handlers" stmt with
     | [handler] =>
         match field "body" handler with
         | [s] => isinstance s ["Raise"] && bool_decide (field1 "exc" s = None)
         | _ => false
         end
     | _ => false
     end.

Definition _matches_redundant_intermediate (stmt next_stmt : node) (ln : Z) : bool :=
  (line stmt =? ln)%Z && isinstance stmt ["Assign"]
  && match field "targets" stmt with
     | [target] =>
         isinstance target ["Name"] && isinstance next_stmt ["Return"]
         && match field1 "value" next_stmt with
            | Some v => isinstance v ["Name"] && bool_decide (text "id" v = text "id" target)
            | None => false
            end
     | _ => false
     end.

(** [stmt.value.value] when it is a [bool] constant; a constant's text is its
    [repr]. *)
Definition _return_bool_constant (stmt : node) : option bool :=
  if isinstance stmt ["Return"] then
    match field1 "value" stmt with
    | Some v =>
        if isinstance v ["Constant"] then
          if bool_decide (text "value" v = Some "True") then Some true
          else if bool_decide (text "value" v = Some "False") then Some false else None
        else None
    | None => None
    end
  else None.

Definition _bool_expr (predicate : string) (first_value : bool) : string :=
  if first_value then predicate else "not (" +:+ predicate +:+ ")".

Definition _verbose_bool_replacement_expression (source : string) (stmt next_stmt : node) (ln : Z) :
    option string :=
  if (line stmt =? ln)%Z && isinstance stmt ["If"] then
    match field1 "test" stmt ≫= get_source_segment source with
    | Some predicate =>
        match field "body" stmt, field "orelse" stmt with
        | [inner], [] =>
            match _return_bool_constant inner, _return_bool_constant next_stmt with
            | Some first_value, Some second_value =>
                if Bool.eqb first_value second_value then None else Some (_bool_expr predicate first_value)
            | _, _ => None
            end
        | _, _ => None
        end
    | None => None
    end
  else None.

(** * Lines *)

Definition IndexError : exn := OtherError "IndexError".
Definition line_break : string := String (ascii_of_nat 10) "".

(** [line[: len(line) - len(line.lstrip())]] *)
Definition indent_of (l : string) : string :=
  of_chars (take (length (chars l) - length (lstrip_chars (chars l))) (chars l)).
(** [source.splitlines()[line_number - 1]]: line 0 is the last line. *)
Definition _indent_for_line (source : string) (line_number : Z) : result string :=
  let lines := str_splitlines source in
  let i := (line_number - 1)%Z in
  let i := if (i <? 0)%Z then (i + Z.of_nat (length lines))%Z else i in
  match (if (i <? 0)%Z then None else lines !! Z.to_nat i) with
  | Some l => Ok (indent_of l)
  | None => Err IndexError
  end.

(** [lines[start_line - 1 : end_line] = replacement] for
    [1 <= start_line <= end_line <= len(lines)], and the text written *)
Definition splice (start_line end_line : Z) (replacement lines : list string) : list string :=
  take (Z.to_nat (start_line - 1)) lines ++ replacement ++ drop (Z.to_nat end_line) lines.
Definition replaced_text (source : string) (start_line end_line : Z) (replacement : list string) : string :=
  join line_break (splice start_line end_line replacement (str_splitlines source))
  +:+ (if endswith line_break source then line_break else "").

(** [lines[start:stop]] for [0 <= start] *)
Definition slice (start stop : Z) (lines : list string) : list string :=
  drop (Z.to_nat start) (take (Z.to_nat stop) lines).

Definition _dedented_try_body_lines (source : string) (stmt : node) : result (option (list string)) :=
  match field "body" stmt, field "handlers" stmt with
  | first :: _, handler :: _ =>
      let lines := str_splitlines source in
      let start_line := line first in
      let end_line := (line handler - 1)%Z in
      let! try_indent := _indent_for_line source (line stmt) in
      let! body_indent := _indent_for_line source start_line in
      if (String.length body_indent <=? String.length try_indent)%nat then Ok None
      else
        Ok (Some ((λ l, if startswith body_indent l
                        then try_indent +:+ of_chars (drop (String.length body_indent) (chars l)) else l)
                  <$> slice (start_line - 1) end_line lines))
  | _, _ => Ok None
  end.

(** * Fixers *)

Section fixers.
Context `{PyRepr} (ast_parse : string → option node) (writable : string → bool).

(** A fixer answers whether it rewrote the file, with the store it left. *)
Definition _replace_line_range (fs : files) (file_path source : string) (start_line end_line : Z)
    (replacement : list string) : result (bool * files) :=
  if (start_line <? 1)%Z || (end_line <? start_line)%Z
     || (Z.of_nat (length (str_splitlines source)) <? end_line)%Z
  then Ok (false, fs)
  else if writable file_path
  then Ok (true, <[as_posix file_path := Decoded (replaced_text source start_line end_line replacement)]> fs)
  else Err (OSError file_path).

Definition _parsed_finding_source (fs : files) (finding : ReviewFinding) : option (string * node) :=
  match read_text fs (rf_file finding) with
  | Ok source => (λ tree, (source, tree)) <$> ast_parse source
  | Err _ => None
  end.

(** [for x in l: if f(x): return True] and then [return False], where [f] may
    answer at once *)
Fixpoint first_answer {A} (f : A → option (result (bool * files))) (l : list A) (fs : files) :
    result (bool * files) :=
  match l with
  | [] => Ok (false, fs)
  | x :: l => match f x with Some answer => answer | None => first_answer f l fs end
  end.

(** The loop of [_apply_duplicate_terminal_guard_fix] up to its first match *)
Fixpoint duplicate_guard (ln : Z) (prior_terminal_tests : list node) (body : list node) : option node :=
  match body with
  | [] => None
  | stmt :: body =>
      match if_test stmt with
      | Some test =>
          if _is_pure_test test then
            if _matches_duplicate_terminal_guard stmt ln (dump test) prior_terminal_tests then Some stmt
            else if _terminal_return (field "body" stmt) && bool_decide (field "orelse" stmt = [])
            then duplicate_guard ln (dump test :: prior_terminal_tests) body
            else duplicate_guard ln [] body
          else duplicate_guard ln [] body
      | None => duplicate_guard ln [] body
      end
  end.
Definition _apply_duplicate_terminal_guard_fix (fs : files) (finding : ReviewFinding) (source : string)
    (function_node : node) : result (bool * files) :=
  match duplicate_guard (rf_line finding) [] (field "body" function_node) with
  | Some stmt => _replace_line_range fs (rf_file finding) source (line stmt) (end_line stmt) []
  | None => Ok (false, fs)
  end.

(** Functions are tried in turn until one is rewritten. *)
Fixpoint apply_dead_branches (fs : files) (finding : ReviewFinding) (source : string) (functions : list node) :
    result (bool * files) :=
  match functions with
  | [] => Ok (false, fs)
  | function_node :: rest =>
      let! answer := _apply_duplicate_terminal_guard_fix fs finding source function_node in
      if answer.1 then Ok answer else apply_dead_branches fs finding source rest
  end.
Definition _apply_dead_branch_fix (fs : files) (finding : ReviewFinding) : result (bool * files) :=
  match _parsed_finding_source fs finding with
  | Some (source, tree) => apply_dead_branches fs finding source (_iter_functions tree)
  | None => Ok (false, fs)
  end.

Definition try_fix (fs : files) (finding : ReviewFinding) (source : string) (stmt : node) :
    option (result (bool * files)) :=
  if (line stmt =? rf_line finding)%Z && _is_pass_through_try_except stmt then
    Some (let! replacement := _dedented_try_body_lines source stmt in
          match replacement with
          | None => Ok (false, fs)
          | Some replacement =>
              _replace_line_range fs (rf_file finding) source (line stmt) (end_line stmt) replacement
          end)
  else None.
Definition _apply_pass_through_try_except_fix (fs : files) (finding : ReviewFinding) : result (bool * files) :=
  match _parsed_finding_source fs finding with
  | Some (source, tree) =>
      first_answer (try_fix fs finding source) (_iter_functions tree ≫= field "body") fs
  | None => Ok (false, fs)
  end.

(** Consecutive statements of every function body *)
Definition statement_pairs (function_node : node) : list (node * node) :=
  zip (field "body" function_node) (tail (field "body" function_node)).
Definition return_line (source : string) (stmt : node) (expression : string) : result (list string) :=
  let! indent := _indent_for_line source (line stmt) in
  Ok [indent +:+ "return " +:+ expression].

Definition redundant_fix (fs : files) (finding : ReviewFinding) (source : string) (pair : node * node) :
    option (result (bool * files)) :=
  let '(stmt, next_stmt) := pair in
  if _matches_redundant_intermediate stmt next_stmt (rf_line finding) then
    Some (match field1 "value" stmt ≫= get_source_segment source with
          | None => Ok (false, fs)
          | Some expression =>
              let! replacement := return_line source stmt expression in
              _replace_line_range fs (rf_file finding) source (line stmt) (end_line next_stmt) replacement
          end)
  else None.
Definition _apply_redundant_intermediate_fix (fs : files) (finding : ReviewFinding) : result (bool * files) :=
  match _parsed_finding_source fs finding with
  | Some (source, tree) =>
      first_answer (redundant_fix fs finding source) (_iter_functions tree ≫= statement_pairs) fs
  | None => Ok (false, fs)
  end.

Definition verbose_fix (fs : files) (finding : ReviewFinding) (source : string) (pair : node * node) :
    option (result (bool * files)) :=
  let '(stmt, next_stmt) := pair in
  (λ expression,
     let! replacement := return_line source stmt expression in
     _replace_line_range fs (rf_file finding) source (line stmt) (end_line next_stmt) replacement)
  <$> _verbose_bool_replacement_expression source stmt next_stmt (rf_line finding).
Definition _apply_verbose_bool_return_fix (fs : files) (finding : ReviewFinding) : result (bool * files) :=
  match _parsed_finding_source fs finding with
  | Some (source, tree) =>
      first_answer (verbose_fix fs finding source) (_iter_functions tree ≫= statement_pairs) fs
  | None => Ok (false, fs)
  end.

(** * Applying them to a report *)

Definition simplification_fixers : list (string * (files → ReviewFinding → result (bool * files))) :=
  [("ai-bloat.dead-branch", _apply_dead_branch_fix);
   ("ai-bloat.pass-through-try-except", _apply_pass_through_try_except_fix);
   ("ai-bloat.redundant-intermediate", _apply_redundant_intermediate_fix);
   ("ai-bloat.verbose-bool-return", _apply_verbose_bool_return_fix)].

Definition _fixable_simplifications_by_stable_line_order (findings : list ReviewFinding) :
    list ReviewFinding :=
  let indexed_findings :=
    List.filter (λ p, is_safe_mechanical_simplification p.2 && rf_fixable p.2)
      (zip (seq 0 (length findings)) findings) in
  (sort_by (λ p, (rf_file p.2, (- rf_line p.2)%Z, p.1)) indexed_findings).*2.

Definition with_applied (before_ref after_ref : EvidenceRef) (f : ReviewFinding) : ReviewFinding :=
  match f with
  | Build_ReviewFinding c sev tl ru fl ln msg fx st ds ab bl ex eo er cf rh cp ik ed rl gk ra cc ra' sc pr
      _ _ _ _ sg pn rp =>
      Build_ReviewFinding c sev tl ru fl ln msg fx st ds ab bl ex eo er cf rh cp ik ed rl gk ra cc ra' sc pr
        (Some AsApplied) (Some before_ref) (Some after_ref)
        (Some ("Applied safe-mechanical rewrite for " +:+ ru +:+ ".")) sg pn rp
  end.
Definition _applied_simplification_finding (finding : ReviewFinding) : result ReviewFinding :=
  let estimate := match rf_estimated_deletion_lines finding with
                  | Some z => if (z =? 0)%Z then 1%Z else z | None => 1%Z end in
  let deletion_lines := Z.max 1 estimate in
  let ref last := {| er_path := Some (rf_file finding); er_start_line := Some (rf_line finding);
                     er_end_line := Some last; er_artifact_id := None; er_description := None |} in
  let! before_ref := validate_EvidenceRef (ref (rf_line finding + deletion_lines - 1)%Z) in
  let! after_ref := validate_EvidenceRef (ref (rf_line finding)) in
  Ok (with_applied before_ref after_ref finding).

Definition apply_step (acc : list ReviewFinding * files) (finding : ReviewFinding) :
    result (list ReviewFinding * files) :=
  match dict_get (rf_rule finding) simplification_fixers with
  | None => Ok acc
  | Some fixer =>
      let! answer := fixer acc.2 finding in
      if answer.1 then
        let! applied := _applied_simplification_finding finding in
        Ok (acc.1 ++ [applied], answer.2)
      else Ok (acc.1, answer.2)
  end.
Definition _apply_simplification_fixes : fixers := λ report fs,
  fold_res apply_step ([], fs) (_fixable_simplifications_by_stable_line_order (rr_findings report)).

(** The report rebuilt with the applied findings and a fresh summary *)
Definition with_summary (s : option SimplificationSummary) (r : ReviewReport) : ReviewReport :=
  match r with
  | Build_ReviewReport sv id t ov ec st un sc ev di so rd fs su _ cf em es re hr =>
      Build_ReviewReport sv id t ov ec st un sc ev di so rd fs su s cf em es re hr
  end.
Definition _with_applied_simplification_findings (report : ReviewReport)
    (applied_findings : list ReviewFinding) : result ReviewReport :=
  match applied_findings with
  | [] => Ok report
  | _ =>
      validate_ReviewReport (with_summary None (with_findings (rr_findings report ++ applied_findings) report))
  end.
End fixers.
