(* ===== verification/FixProofs.v ===== *)
(** FixProofs: removing a duplicate guard keeps every run of the function, a
    rewrite replaces the lines it numbers for its statement (with line feeds
    only, those of the parser), the fixers write no file but their findings'
    own, and the rewrites that are not safe. *)

From S2P Require Import Prelude Text Paths Dict PyValue Findings FindingsProofs Assembly Cleanup CleanupProofs.
From S2P Require Import Ast Fixes.

(** * [ast.walk] visits every node once *)

Lemma nodes_size_app l1 l2 : nodes_size (l1 ++ l2) = nodes_size l1 + nodes_size l2.
Proof. induction l1 as [|n l1 IH]; simpl; [done|]. rewrite IH. lia. Qed.
Lemma node_size_eq n : node_size n = S (nodes_size (children n)).
Proof.
  destruct n as [k t p fs]. cbn [node_size]. f_equal. unfold children. cbn [node_fields].
  induction fs as [|[name l] fs IH]; [done|].
  change (((name, l) :: fs).*2 ≫= id) with (l ++ (fs.*2 ≫= id)). rewrite nodes_size_app, <-IH. done.
Qed.
(** The nodes below a node, itself included *)
Inductive subnode (n : node) : node → Prop :=
  | subnode_self : subnode n n
  | subnode_child m c : subnode n m → c ∈ children m → subnode n c.

Lemma subnode_from_child n c m : c ∈ children n → subnode c m → subnode n m.
Proof. intros Hc. induction 1; [eapply subnode_child; [apply subnode_self|done]|by eapply subnode_child]. Qed.

Lemma subnode_inv n m : subnode n m → m = n ∨ ∃ c, c ∈ children n ∧ subnode c m.
Proof.
  induction 1 as [|m c Hm IH Hc]; [by left|]. right. destruct IH as [->|(c' & Hc' & Hs)].
  - exists c. split; [done|apply subnode_self].
  - exists c'. split; [done|]. by eapply subnode_child.
Qed.

Lemma elem_of_walk_queue fuel queue m :
  nodes_size queue ≤ fuel → m ∈ walk_queue fuel queue ↔ ∃ n, n ∈ queue ∧ subnode n m.
Proof.
  revert queue. induction fuel as [|fuel IH]; intros queue Hf.
  - destruct queue as [|n queue]; [|simpl in Hf; rewrite node_size_eq in Hf; lia].
    cbn. split; [by intros ?%not_elem_of_nil|by intros (n & ?%not_elem_of_nil & _)].
  - destruct queue as [|n queue]; cbn [walk_queue].
    { split; [by intros ?%not_elem_of_nil|by intros (n & ?%not_elem_of_nil & _)]. }
    rewrite elem_of_cons, IH.
    2: { simpl in Hf. rewrite node_size_eq in Hf. rewrite nodes_size_app. lia. }
    split.
    + intros [->|(x & Hx & Hs)]; [exists n; split; [left|constructor]|].
      apply elem_of_app in Hx as [Hx|Hx]; [exists x; split; [by right|done]|].
      exists n. split; [left|]. by eapply subnode_from_child.
    + intros (x & Hx & Hs). apply elem_of_cons in Hx as [->|Hx].
      * apply subnode_inv in Hs as [->|(c & Hc & Hs)]; [by left|]. right. exists c.
        rewrite elem_of_app. auto.
      * right. exists x. rewrite elem_of_app. auto.
Qed.

(** The fuel of [walk] is enough: it reaches every node of the tree. *)
Lemma elem_of_walk n m : m ∈ walk n ↔ subnode n m.
Proof.
  unfold walk. rewrite elem_of_walk_queue by (simpl; lia). split.
  - by intros (x & ->%list_elem_of_singleton & Hs).
  - intros Hs. exists n. split; [by apply list_elem_of_singleton|done].
Qed.

(** * What a function body does

    A statement list runs from a state to an outcome: it falls through its end
    in some state, or stops (with a return or an exception).  An [If] whose
    test is pure takes the branch its test selects, and the test, having the
    same text, has the same truth in the same state; a [Return] stops.  What
    any other statement does is left open. *)
Section semantics.
Context {state stop : Type}.
Inductive outcome := Falls (s : state) | Stops (r : stop).
Context (truth : node → state → bool) (returns : node → state → stop → Prop)
  (other : node → state → outcome → Prop).

Definition pure_test (n : node) : option node :=
  match if_test n with Some t => if _is_pure_test t then Some t else None | None => None end.

Inductive runs : list node → state → outcome → Prop :=
  | runs_end s : runs [] s (Falls s)
  | runs_next n l s s' o : steps n s (Falls s') → runs l s' o → runs (n :: l) s o
  | runs_stop n l s r : steps n s (Stops r) → runs (n :: l) s (Stops r)
with steps : node → state → outcome → Prop :=
  | steps_if n t s o :
      pure_test n = Some t →
      runs (if truth (dump t) s then field "body" n else field "orelse" n) s o → steps n s o
  | steps_return n s r :
      pure_test n = None → isinstance n ["Return"] = true → returns n s r → steps n s (Stops r)
  | steps_other n s o :
      pure_test n = None → isinstance n ["Return"] = false → other n s o → steps n s o.

Lemma runs_nil s o : runs [] s o ↔ o = Falls s.
Proof. split; [by inversion 1|intros ->; constructor]. Qed.

Lemma runs_cons n l s o :
  runs (n :: l) s o ↔ (∃ s', steps n s (Falls s') ∧ runs l s' o) ∨ ∃ r, o = Stops r ∧ steps n s (Stops r).
Proof.
  split.
  - inversion 1; subst; eauto.
  - intros [(s' & ? & ?)|(r & -> & ?)]; [by eapply runs_next|by apply runs_stop].
Qed.

Lemma steps_pure n t s o :
  pure_test n = Some t →
  steps n s o ↔ runs (if truth (dump t) s then field "body" n else field "orelse" n) s o.
Proof.
  intros Hn. split; [|by eapply steps_if].
  inversion 1; subst; simplify_eq; done.
Qed.

Lemma return_never_falls n s s' : isinstance n ["Return"] = true → ¬ steps n s (Falls s').
Proof.
  intros Hr Hs. inversion Hs as [? t ? ? Hp _| |]; subst; [|congruence].
  unfold pure_test, if_test in Hp. destruct (isinstance n ["If"]) eqn:Hif; [|done].
  unfold isinstance in *. bool_hyps. rewrite list_elem_of_singleton in *. congruence.
Qed.

(** A block that ends with a [Return] never falls through. *)
Lemma terminal_never_falls l s s' : _terminal_return l = true → ¬ runs l s (Falls s').
Proof.
  unfold _terminal_return. intros Hl. destruct (last l) as [n|] eqn:Hlast; [|done].
  apply last_Some in Hlast as [l' ->]. revert s. induction l' as [|m l' IH]; intros s; cbn [app].
  - rewrite runs_cons. intros [(s1 & Hs & _)|(r & [=] & _)]. by eapply return_never_falls.
  - rewrite runs_cons. intros [(s1 & _ & Hr)|(r & [=] & _)]. by eapply IH.
Qed.

(** No test of the list holds. *)
Definition refuted (keys : list node) (s : state) : Prop := ∀ k, k ∈ keys → truth k s = false.

End semantics.

(** Leaving out the guard found keeps the runs from the states that refute the
    tests collected so far. *)
Definition removable (keys l1 : list node) (stmt : node) (l2 : list node) : Prop :=
  ∀ (state stop : Type) truth returns other (s : state), refuted truth keys s →
  ∀ o : @outcome state stop,
    runs truth returns other (l1 ++ stmt :: l2) s o ↔ runs truth returns other (l1 ++ l2) s o.

Lemma removable_here keys n t l :
  pure_test n = Some t → dump t ∈ keys → field "orelse" n = [] → removable keys [] n l.
Proof.
  intros Hp Hin Helse state stop truth returns other s Hk o. cbn [app].
  rewrite runs_cons. setoid_rewrite (steps_pure truth returns other n t s _ Hp).
  rewrite (Hk (dump t) Hin), Helse. setoid_rewrite runs_nil. naive_solver.
Qed.

Lemma removable_after keys n l1 stmt l2 : removable [] l1 stmt l2 → removable keys (n :: l1) stmt l2.
Proof.
  intros Hr state stop truth returns other s _ o. cbn [app]. rewrite !runs_cons.
  assert (∀ s', runs truth returns other (l1 ++ stmt :: l2) s' o ↔ runs truth returns other (l1 ++ l2) s' o) as H.
  { intros s'. apply Hr. by intros k ?%not_elem_of_nil. }
  by setoid_rewrite H.
Qed.

Lemma removable_guarded keys n t l1 stmt l2 :
  pure_test n = Some t → _terminal_return (field "body" n) = true → field "orelse" n = [] →
  removable (dump t :: keys) l1 stmt l2 → removable keys (n :: l1) stmt l2.
Proof.
  intros Hp Hterm Helse Hr state stop truth returns other s Hk o. cbn [app].
  rewrite !runs_cons. setoid_rewrite (steps_pure truth returns other n t s _ Hp).
  destruct (truth (dump t) s) eqn:Htruth.
  - split; (intros [(s' & Hs & _)|Hstop]; [by apply terminal_never_falls in Hs|by right]).
  - rewrite Helse. setoid_rewrite runs_nil.
    assert (refuted truth (dump t :: keys) s) as Hk'.
    { intros k [->|Hin]%elem_of_cons; [done|by apply Hk]. }
    specialize (Hr state stop truth returns other s Hk' o). naive_solver.
Qed.

Lemma duplicate_guard_found ln keys body stmt :
  duplicate_guard ln keys body = Some stmt →
  ∃ l1 l2, body = l1 ++ stmt :: l2 ∧ line stmt = ln ∧ removable keys l1 stmt l2.
Proof.
  revert keys. induction body as [|n body IH]; intros keys Hd; [done|]. cbn [duplicate_guard] in Hd.
  assert (Hclear : duplicate_guard ln [] body = Some stmt → ∃ l1 l2, n :: body = l1 ++ stmt :: l2
    ∧ line stmt = ln ∧ removable keys l1 stmt l2).
  { intros (l1 & l2 & -> & Hln & Hr)%IH. exists (n :: l1), l2. split_and!; [done..|by apply removable_after]. }
  destruct (if_test n) as [t|] eqn:Ht; [|by apply Hclear].
  destruct (_is_pure_test t) eqn:Hpure; [|by apply Hclear].
  assert (Hp : pure_test n = Some t) by (unfold pure_test; by rewrite Ht, Hpure).
  destruct (_matches_duplicate_terminal_guard n ln (dump t) keys) eqn:Hm.
  - injection Hd as <-. unfold _matches_duplicate_terminal_guard in Hm. bool_hyps.
    exists [], body. split_and!; [done..|by eapply removable_here].
  - destruct (_terminal_return (field "body" n)) eqn:Hterm; [|by apply Hclear].
    cbn [andb] in Hd. case_bool_decide as Helse; [|by apply Hclear].
    apply IH in Hd as (l1 & l2 & -> & Hln & Hr). exists (n :: l1), l2.
    split_and!; [done..|by eapply removable_guarded].
Qed.

(** * Lines of a rewritten text *)

Definition unbroken (l : string) : Prop := Forall (λ c, is_line_boundary c = false) (chars l).

Lemma splitlines_go_unbroken cur l :
  Forall (λ c, is_line_boundary c = false) cur →
  Forall (λ w, Forall (λ c, is_line_boundary c = false) w) (str_splitlines_go cur l).
Proof.
  revert cur. induction l as [l IH] using (Nat.measure_induction _ length). intros cur Hcur. destruct l as [|c l]; cbn [str_splitlines_go].
  - destruct cur; [constructor|]. constructor; [by apply Forall_reverse|constructor].
  - destruct (is_line_boundary c) eqn:Hc.
    + destruct l as [|d l]; [constructor; [by apply Forall_reverse|constructor]|].
      case_match; (constructor; [by apply Forall_reverse|apply IH; [simpl; lia|constructor]]).
    + apply IH; [simpl; lia|by constructor].
Qed.

Lemma splitlines_unbroken s : Forall unbroken (str_splitlines s).
Proof.
  unfold str_splitlines. apply Forall_fmap. eapply Forall_impl; [apply splitlines_go_unbroken; constructor|].
  intros w Hw. unfold unbroken, compose. by rewrite chars_of_chars.
Qed.

Lemma splitlines_go_line cur w rest :
  Forall (λ c, is_line_boundary c = false) w →
  str_splitlines_go cur (w ++ ascii_of_nat 10 :: rest) = (reverse cur ++ w) :: str_splitlines_go [] rest.
Proof.
  intros Hw. revert cur. induction Hw as [|c w Hc Hw IH]; intros cur; cbn [app str_splitlines_go].
  - change (is_line_boundary (ascii_of_nat 10)) with true. cbn iota.
    rewrite app_nil_r. by destruct rest.
  - rewrite Hc, IH, reverse_cons, <-app_assoc. done.
Qed.

Lemma chars_join_break ls :
  ls ≠ [] → chars (join line_break ls +:+ line_break) = ls ≫= (λ l, chars l ++ [ascii_of_nat 10]).
Proof.
  intros Hne. induction ls as [|l [|m ls] IH]; [done|by rewrite chars_app; simpl; rewrite app_nil_r|].
  change (join line_break (l :: m :: ls)) with (l +:+ line_break +:+ join line_break (m :: ls)).
  rewrite chars_app in IH. rewrite !chars_app, <-!app_assoc, IH by done.
  change ((l :: m :: ls) ≫= (λ l, chars l ++ [ascii_of_nat 10]))
    with ((chars l ++ [ascii_of_nat 10]) ++ ((m :: ls) ≫= (λ l, chars l ++ [ascii_of_nat 10]))).
  by rewrite <-app_assoc.
Qed.

Lemma splitlines_join ls : Forall unbroken ls → ls ≠ [] → str_splitlines (join line_break ls +:+ line_break) = ls.
Proof.
  intros Hls Hne. unfold str_splitlines. rewrite chars_join_break by done. clear Hne.
  induction Hls as [|l ls Hl Hls IH]; [done|].
  change ((l :: ls) ≫= (λ l, chars l ++ [ascii_of_nat 10]))
    with ((chars l ++ [ascii_of_nat 10]) ++ (ls ≫= (λ l, chars l ++ [ascii_of_nat 10]))).
  rewrite <-app_assoc. cbn [app]. rewrite splitlines_go_line by done. rewrite fmap_cons, IH.
  cbn. by rewrite of_chars_chars.
Qed.

Lemma translate_plain l : Forall (λ c, (code c =? 13)%Z = false) l → translate_newlines l = l.
Proof. induction 1 as [|c l Hc Hl IH]; cbn; [done|]. by rewrite Hc, IH. Qed.

Lemma unbroken_no_return l : unbroken l → Forall (λ c, (code c =? 13)%Z = false) (chars l).
Proof.
  intros Hl. eapply Forall_impl; [exact Hl|]. cbn beta. intros c Hc. apply Z.eqb_neq. intros E.
  unfold is_line_boundary, between in Hc. rewrite E in Hc. done.
Qed.

Lemma chars_join_no_return ls :
  Forall unbroken ls → Forall (λ c, (code c =? 13)%Z = false) (chars (join line_break ls)).
Proof.
  induction 1 as [|l ls Hl Hls IH]; [constructor|]. destruct ls as [|m ls]; [by apply unbroken_no_return|].
  change (join line_break (l :: m :: ls)) with (l +:+ line_break +:+ join line_break (m :: ls)).
  rewrite !chars_app. apply Forall_app. split; [by apply unbroken_no_return|].
  apply Forall_app. split; [|done]. by repeat constructor.
Qed.

Lemma splice_unbroken a b repl lines :
  Forall unbroken lines → Forall unbroken repl → Forall unbroken (splice a b repl lines).
Proof. intros Hl Hr. unfold splice. rewrite !Forall_app. by auto using Forall_take, Forall_drop. Qed.

(** ** The parser's lines

    The parser ends lines at line feeds only (a text read back holds no
    carriage return); [str.splitlines] ends them at other characters too. *)
Definition parser_lines (s : string) : list string := split_on (ascii_of_nat 10) s.
Definition only_line_feeds (s : string) : Prop :=
  Forall (λ c, is_line_boundary c = true → c = ascii_of_nat 10) (chars s).
Abbreviation at_line_feed := (λ d, bool_decide (d = ascii_of_nat 10)).
Definition without_last_empty (segs : list (list ascii)) : list (list ascii) :=
  if decide (last segs = Some []) then removelast segs else segs.

Lemma boundary_line_feed c : is_line_boundary c = false → c ≠ ascii_of_nat 10.
Proof. by intros Hc ->. Qed.
Lemma split_chars_cons p l : ∃ w ws, split_chars p l = w :: ws.
Proof. destruct l as [|c l]; cbn; [by eexists _, _|]. repeat case_match; by eexists _, _. Qed.
Lemma without_last_empty_cons x y l : without_last_empty (x :: y :: l) = x :: without_last_empty (y :: l).
Proof. unfold without_last_empty. change (last (x :: y :: l)) with (last (y :: l)). by case_decide. Qed.

Lemma splitlines_go_split cur l w ws :
  Forall (λ c, is_line_boundary c = true → c = ascii_of_nat 10) l →
  split_chars at_line_feed l = w :: ws →
  str_splitlines_go cur l = without_last_empty ((reverse cur ++ w) :: ws).
Proof.
  intros Hl. revert cur w ws. induction Hl as [|c l Hc Hl IH]; intros cur w ws Hs.
  - cbn in Hs. injection Hs as <- <-. rewrite app_nil_r. cbn [str_splitlines_go]. unfold without_last_empty.
    destruct cur as [|d cur]; [done|]. rewrite decide_False; [done|]. cbn [last]. intros [= E].
    by rewrite reverse_cons in E; destruct (reverse cur).
  - cbn [split_chars str_splitlines_go] in *. destruct (is_line_boundary c) eqn:Eb.
    + rewrite (Hc eq_refl) in *. cbn in Hs. injection Hs as <- <-. rewrite app_nil_r.
      destruct (split_chars_cons at_line_feed l) as (w & ws & Ew). rewrite Ew, without_last_empty_cons.
      specialize (IH [] w ws Ew). change (reverse [] ++ w) with w in IH.
      rewrite <-IH. destruct l as [|d l]; [done|]. done.
    + rewrite bool_decide_eq_false_2 in Hs by (by apply boundary_line_feed).
      destruct (split_chars at_line_feed l) as [|w' ws'] eqn:Ew.
      { destruct (split_chars_cons at_line_feed l) as (? & ? & ?). congruence. }
      injection Hs as <- <-. rewrite (IH (c :: cur) w' ws' eq_refl). rewrite reverse_cons, <-app_assoc. done.
Qed.
Lemma last_split_empty l :
  last (split_chars at_line_feed l) = Some [] ↔ l = [] ∨ ∃ t, l = t ++ [ascii_of_nat 10].
Proof.
  induction l as [|c l IH]; [naive_solver|]. cbn [split_chars].
  destruct (split_chars_cons at_line_feed l) as (w & ws & Ew). rewrite Ew in *.
  destruct (decide (c = ascii_of_nat 10)) as [->|Hc].
  - rewrite bool_decide_eq_true_2 by done. change (last ([] :: w :: ws)) with (last (w :: ws)). rewrite IH. split.
    + intros [->|[t ->]]; right; [by exists []|by exists (ascii_of_nat 10 :: t)].
    + intros [|[[|d t] [= E]]]; [done|by left|right; by exists t].
  - rewrite bool_decide_eq_false_2 by done. destruct ws as [|w2 ws].
    + cbn [last] in *. split; [done|]. intros [|[[|d t] [= -> E]]]; [done|done|]. exfalso.
      assert (last [w] = Some []) as [= ->] by (apply IH; right; by exists t).
      rewrite E in Ew. revert Ew. clear. induction t as [|d t IHt]; cbn; [done|].
      destruct (split_chars_cons at_line_feed (t ++ [ascii_of_nat 10])) as (w & ws & ->).
      by case_match.
    + change (last ((c :: w) :: w2 :: ws)) with (last (w :: w2 :: ws)). rewrite IH. split.
      * intros [->|[t ->]]; [done|right; by exists (c :: t)].
      * intros [|[[|d t] [= -> E]]]; [done|done|right; by exists t].
Qed.
Lemma endswith_break s : endswith line_break s = true ↔ ∃ t, chars s = t ++ [ascii_of_nat 10].
Proof.
  rewrite endswith_iff. split.
  - intros [t ->]. exists (chars t). by rewrite chars_app.
  - intros [t E]. exists (of_chars t). rewrite <-(of_chars_chars s), E, of_chars_app. done.
Qed.
(** The end of the parser's lines, after those of [str.splitlines] *)
Definition last_line (s : string) : list string := if endswith line_break s then [""] else [].
Lemma parser_lines_split s :
  s ≠ "" → only_line_feeds s → parser_lines s = str_splitlines s ++ last_line s.
Proof.
  intros Hne Hs. unfold parser_lines, str_splitlines, split_on, last_line.
  destruct (split_chars_cons at_line_feed (chars s)) as (w & ws & Ew).
  rewrite (splitlines_go_split [] _ w ws Hs Ew). change (reverse [] ++ w) with w. rewrite <-Ew.
  unfold without_last_empty. pose proof (last_split_empty (chars s)) as Hlast. case_decide as E.
  - assert (endswith line_break s = true) as ->.
    { apply endswith_break. destruct (proj1 Hlast E) as [E'|?]; [|done]. by apply chars_nil_iff in E'. }
    apply last_Some in E as [segs ->]. rewrite removelast_last, fmap_app. done.
  - destruct (endswith line_break s) eqn:Ee; [|by rewrite app_nil_r].
    destruct E. apply Hlast. right. by apply endswith_break.
Qed.
Lemma chars_of_lines (ls : list string) : of_chars ∘ chars <$> ls = ls.
Proof. induction ls as [|l ls IH]; [done|]. cbn. by rewrite of_chars_chars, IH. Qed.
Lemma parser_lines_join ls (ends : bool) :
  Forall unbroken ls → ls ≠ [] →
  parser_lines (join line_break ls +:+ (if ends then line_break else "")) = ls ++ (if ends then [""] else []).
Proof.
  intros Hls Hne. unfold parser_lines, split_on.
  assert (Hgo : ∀ tail, split_chars at_line_feed (chars (join line_break ls) ++ tail)
    = (chars <$> removelast ls) ++ split_chars at_line_feed (chars (default "" (last ls)) ++ tail)).
  { intros tail. induction Hls as [|l ls Hl Hls IH]; [done|]. destruct ls as [|m ls]; [done|].
    change (join line_break (l :: m :: ls)) with (l +:+ line_break +:+ join line_break (m :: ls)).
    rewrite !chars_app, <-!app_assoc. cbn [app]. change (chars line_break) with [ascii_of_nat 10]. cbn [app].
    rewrite split_chars_app; [| |by apply bool_decide_eq_true_2].
    - rewrite IH by done. done.
    - eapply Forall_impl; [exact Hl|]. intros c Hc. apply bool_decide_eq_false_2. by apply boundary_line_feed. }
  destruct (last ls) as [z|] eqn:Ez; [|by apply last_None in Ez]. apply last_Some in Ez as [init ->].
  apply Forall_app in Hls as [_ [Hz _]%Forall_cons].
  assert (Hz' : Forall (λ c, at_line_feed c = false) (chars z)).
  { eapply Forall_impl; [exact Hz|]. intros c Hc. apply bool_decide_eq_false_2. by apply boundary_line_feed. }
  rewrite chars_app, Hgo. rewrite removelast_last. cbn [default]. destruct ends.
  - change (chars line_break) with [ascii_of_nat 10].
    rewrite split_chars_app; [|exact Hz'|by apply bool_decide_eq_true_2]. cbn [split_chars].
    rewrite !fmap_app, <-list_fmap_compose. cbn. rewrite of_chars_chars, <-app_assoc. cbn. f_equal.
    apply chars_of_lines.
  - rewrite app_nil_r, split_chars_single by exact Hz'.
    rewrite !fmap_app, <-list_fmap_compose, app_nil_r. cbn. rewrite of_chars_chars. f_equal.
    apply chars_of_lines.
Qed.

(** A rewritten text is read back as it was written. *)
Lemma replaced_text_plain source a b :
  of_chars (translate_newlines (chars (replaced_text source a b []))) = replaced_text source a b [].
Proof.
  rewrite translate_plain, of_chars_chars; [done|]. unfold replaced_text. rewrite chars_app. apply Forall_app. split.
  - apply chars_join_no_return, splice_unbroken; [apply splitlines_unbroken|constructor].
  - case_match; by repeat constructor.
Qed.
(** Leaving lines out leaves out the parser's lines with these numbers. *)
Lemma replaced_parser_lines source a b :
  only_line_feeds source → (1 < a ≤ b)%Z → (b ≤ Z.of_nat (length (str_splitlines source)))%Z →
  parser_lines (replaced_text source a b [])
  = take (Z.to_nat (a - 1)) (parser_lines source) ++ drop (Z.to_nat b) (parser_lines source).
Proof.
  intros Hsrc Hab Hb. assert (Hne : source ≠ "") by (intros ->; cbn in Hb; lia).
  rewrite (parser_lines_split _ Hne Hsrc). unfold replaced_text, last_line.
  set (ls := str_splitlines source) in *.
  rewrite take_app_le, drop_app_le by lia. rewrite app_assoc.
  rewrite parser_lines_join; [done| |].
  - apply splice_unbroken; [apply splitlines_unbroken|constructor].
  - unfold splice. intros E. apply app_eq_nil in E as [E _]. apply (f_equal length) in E.
    rewrite length_take in E. cbn in E. lia.
Qed.

(** * Which files are written *)

Section confined.
Context `{PyRepr} (ast_parse : string → option node) (writable : string → bool).

(** The two stores differ at most in the file of the finding. *)
Definition only_file (finding : ReviewFinding) (fs fs' : files) : Prop :=
  ∀ path, path ≠ as_posix (rf_file finding) → fs' !! path = fs !! path.

Lemma replace_only fs finding source a b repl ok fs' :
  _replace_line_range writable fs (rf_file finding) source a b repl = Ok (ok, fs') → only_file finding fs fs'.
Proof.
  unfold _replace_line_range. intros Hr path Hp. case_match; [by simplify_eq|]. case_match; [|done].
  injection Hr as _ <-. by rewrite lookup_insert_ne.
Qed.

Lemma first_answer_only {A} (f : A → option (result (bool * files))) l finding fs ok fs' :
  (∀ x ok fs', f x = Some (Ok (ok, fs')) → only_file finding fs fs') →
  first_answer f l fs = Ok (ok, fs') → only_file finding fs fs'.
Proof.
  intros Hf. induction l as [|x l IH]; cbn; [by intros [= _ <-] path|].
  destruct (f x) as [answer|] eqn:E; [|done]. intros ->. by eapply Hf.
Qed.

Definition confined_fixer (fixer : files → ReviewFinding → result (bool * files)) : Prop :=
  ∀ fs finding ok fs', fixer fs finding = Ok (ok, fs') → only_file finding fs fs'.

Lemma dead_branch_confined : confined_fixer (_apply_dead_branch_fix ast_parse writable).
Proof.
  intros fs finding ok fs' Hr. unfold _apply_dead_branch_fix in Hr. case_match; [|by injection Hr as _ <-].
  case_match. induction (_iter_functions n) as [|g gs IH]; cbn in Hr; [by injection Hr as _ <-|].
  apply res_bind_Ok in Hr as ([ok1 fs1] & Hg & Hr). cbn [fst] in Hr. destruct ok1; [|by apply IH].
  injection Hr as _ <-. unfold _apply_duplicate_terminal_guard_fix in Hg. case_match; [|done].
  by eapply replace_only.
Qed.

Lemma try_confined : confined_fixer (_apply_pass_through_try_except_fix ast_parse writable).
Proof.
  intros fs finding ok fs' Hr. unfold _apply_pass_through_try_except_fix in Hr.
  case_match; [|by injection Hr as _ <-]. case_match. eapply first_answer_only; [|done].
  intros x ok1 fs1. unfold try_fix. case_match; [|done]. intros [= E].
  apply res_bind_Ok in E as ([repl|] & _ & E); [by eapply replace_only|by injection E as _ <-].
Qed.

Lemma redundant_confined : confined_fixer (_apply_redundant_intermediate_fix ast_parse writable).
Proof.
  intros fs finding ok fs' Hr. unfold _apply_redundant_intermediate_fix in Hr.
  case_match; [|by injection Hr as _ <-]. case_match. eapply first_answer_only; [|done].
  intros [x y] ok1 fs1. cbn. case_match; [|done]. intros [= E]. case_match; [|by injection E as _ <-].
  apply res_bind_Ok in E as (repl & _ & E). by eapply replace_only.
Qed.

Lemma verbose_confined : confined_fixer (_apply_verbose_bool_return_fix ast_parse writable).
Proof.
  intros fs finding ok fs' Hr. unfold _apply_verbose_bool_return_fix in Hr.
  case_match; [|by injection Hr as _ <-]. case_match. eapply first_answer_only; [|done].
  intros [x y] ok1 fs1 E. cbn in E. apply fmap_Some in E as (e & _ & E). symmetry in E.
  apply res_bind_Ok in E as (repl & _ & E). by eapply replace_only.
Qed.

Lemma fixers_all_confined rule fixer :
  dict_get rule (simplification_fixers ast_parse writable) = Some fixer → confined_fixer fixer.
Proof.
  intros Hd%dict_get_Some_elem. unfold simplification_fixers in Hd.
  rewrite !elem_of_cons, elem_of_nil in Hd.
  destruct Hd as [E|[E|[E|[E|[]]]]]; apply (f_equal snd) in E; cbn [snd] in E; subst fixer.
  - apply dead_branch_confined.
  - apply try_confined.
  - apply redundant_confined.
  - apply verbose_confined.
Qed.

Lemma elem_of_fixable findings f :
  f ∈ Fixes._fixable_simplifications_by_stable_line_order findings →
  f ∈ findings ∧ is_safe_mechanical_simplification f = true ∧ rf_fixable f = true.
Proof.
  unfold Fixes._fixable_simplifications_by_stable_line_order. intros ([i g] & -> & Hf)%list_elem_of_fmap.
  rewrite elem_of_sort_by in Hf. apply list_elem_of_In, filter_In in Hf as [Hin Hb]. cbn in *. bool_hyps.
  split; [|done]. apply list_elem_of_In. by apply in_combine_r in Hin.
Qed.

(** The fixers are what a preview may run. *)
#[export] Instance simplification_fixes_confined : ConfinedFixers (_apply_simplification_fixes ast_parse writable).
Proof.
  intros report fs applied fs' path Hfix Hp. unfold _apply_simplification_fixes in Hfix.
  apply (fold_res_inv _ (λ acc, acc.2 !! path = fs !! path) _ _ _ Hfix); [done|].
  intros f [acc fs1] [acc' fs2] Hf Hacc Hstep. cbn [snd] in *. unfold apply_step in Hstep. cbn [fst snd] in Hstep.
  apply elem_of_fixable in Hf as [Hf _]. destruct (dict_get _ _) as [fixer|] eqn:Hd; [|by simplify_eq].
  apply res_bind_Ok in Hstep as ([ok fs3] & Hfixer & Hstep). cbn [fst snd] in Hstep.
  assert (fs3 !! path = fs !! path) as H3.
  { rewrite <-Hacc. apply (fixers_all_confined _ _ Hd _ _ _ _ Hfixer). intros ->. by apply (Hp f). }
  destruct ok; [|by simplify_eq]. apply res_bind_Ok in Hstep as (g & _ & [= _ <-]). done.
Qed.
End confined.

(** * The rewrites *)

Lemma elem_of_functions tree f : f ∈ _iter_functions tree → subnode tree f.
Proof.
  unfold _iter_functions. intros Hf. apply list_elem_of_In, filter_In in Hf as [Hf _].
  by apply list_elem_of_In, elem_of_walk in Hf.
Qed.

(** C19 Removing a dead branch keeps what the function does: when the fixer
    rewrites a file, the parsed source has a function whose body, without the
    guard on the finding's line, has from every state exactly the runs the body
    had: whatever the other statements do, whatever the tests compute, with the
    same result, exception or fall-through.  No other file is written, and in
    this one, if the source ends its lines with line feeds only and the guard
    does not begin on the first line, reading it back gives exactly the
    parser's lines without those of the guard.  (With other line boundaries in
    the source the fixer numbers lines differently from the parser and can
    remove others: see the finding.) *)
Theorem dead_branch_fix_sound ast_parse writable fs finding fs' :
  _apply_dead_branch_fix ast_parse writable fs finding = Ok (true, fs') →
  ∃ source tree function_node l1 stmt l2,
    read_text fs (rf_file finding) = Ok source ∧ ast_parse source = Some tree
    ∧ subnode tree function_node ∧ field "body" function_node = l1 ++ stmt :: l2 ∧ line stmt = rf_line finding
    ∧ (∀ path, path ≠ as_posix (rf_file finding) → fs' !! path = fs !! path)
    ∧ (only_line_feeds source → (1 < line stmt)%Z → ∃ new, read_text fs' (rf_file finding) = Ok new
        ∧ parser_lines new = take (Z.to_nat (line stmt - 1)) (parser_lines source)
                             ++ drop (Z.to_nat (end_line stmt)) (parser_lines source)
        ∧ (line stmt ≤ end_line stmt ≤ Z.of_nat (length (parser_lines source)))%Z)
    ∧ ∀ (state stop : Type) truth returns other (s : state) (o : @outcome state stop),
        runs truth returns other (field "body" function_node) s o
        ↔ runs truth returns other (l1 ++ l2) s o.
Proof.
  intros Hr. unfold _apply_dead_branch_fix, _parsed_finding_source in Hr.
  destruct (read_text fs (rf_file finding)) as [source|]; [|done].
  destruct (ast_parse source) as [tree|] eqn:Hp; [|done]. cbn in Hr.
  assert (∃ g, g ∈ _iter_functions tree
    ∧ _apply_duplicate_terminal_guard_fix writable fs finding source g = Ok (true, fs')) as (g & Hg & Hfix).
  { induction (_iter_functions tree) as [|g gs IH]; cbn in Hr; [done|].
    apply res_bind_Ok in Hr as ([[] fs1] & Hg & Hr); cbn in Hr.
    - injection Hr as ->. exists g. split; [left|done].
    - destruct (IH Hr) as (h & Hh & Hfix). exists h. split; [by right|done]. }
  unfold _apply_duplicate_terminal_guard_fix in Hfix.
  destruct (duplicate_guard _ _ _) as [stmt|] eqn:Hd; [|done].
  destruct (duplicate_guard_found _ _ _ _ Hd) as (l1 & l2 & Hbody & Hln & Hremovable).
  unfold _replace_line_range in Hfix. case_match eqn:Hrange; [done|]. case_match; [|done]. injection Hfix as <-.
  apply orb_false_iff in Hrange as [[Ha%Z.ltb_ge Hb%Z.ltb_ge]%orb_false_iff Hend%Z.ltb_ge].
  exists source, tree, g, l1, stmt, l2. split_and!; try done; [by apply elem_of_functions| | |].
  { intros path Hpath. by rewrite lookup_insert_ne. }
  { intros Hsrc Hfirst. exists (replaced_text source (line stmt) (end_line stmt) []). split.
    - unfold read_text. rewrite lookup_insert_eq. do 2 f_equal. by apply replaced_text_plain.
    - split; [by apply replaced_parser_lines|]. split; [done|].
      rewrite parser_lines_split by (done || intros ->; cbn in Hend; lia). rewrite length_app. lia. }
  intros state stop truth returns other s o. rewrite Hbody. apply Hremovable.
  by intros k ?%not_elem_of_nil.
Qed.

(** A rewrite is local: the fixers' one way to write a file replaces the
    lines of the statement by the new lines, so that reading the file back
    gives, line for line, the old lines before the statement, the new lines and
    the old lines after it, and no other file changes.  (For a text that ends
    with a line feed and does not become empty.) *)
Theorem rewrite_is_local writable fs path source a b repl fs' :
  _replace_line_range writable fs path source a b repl = Ok (true, fs') →
  Forall unbroken repl → endswith line_break source = true →
  splice a b repl (str_splitlines source) ≠ [] →
  (∃ new, read_text fs' path = Ok new ∧ endswith line_break new = true
    ∧ str_splitlines new = take (Z.to_nat (a - 1)) (str_splitlines source) ++ repl
                           ++ drop (Z.to_nat b) (str_splitlines source))
  ∧ (1 ≤ a ∧ a ≤ b ∧ b ≤ Z.of_nat (length (str_splitlines source)))%Z
  ∧ ∀ p, p ≠ as_posix path → fs' !! p = fs !! p.
Proof.
  unfold _replace_line_range. intros Hr Hrepl Hend Hne. case_match; [done|]. case_match; [|done].
  injection Hr as <-. bool_hyps. split; [|split; [lia|intros p Hp; by rewrite lookup_insert_ne]].
  pose proof (splice_unbroken a b repl _ (splitlines_unbroken source) Hrepl) as Hun.
  set (ls := splice a b repl (str_splitlines source)) in *.
  exists (join line_break ls +:+ line_break). split_and!.
  - unfold read_text. rewrite lookup_insert_eq. unfold replaced_text. rewrite Hend. fold ls.
    rewrite translate_plain, of_chars_chars; [done|]. rewrite chars_app. apply Forall_app. split.
    + by apply chars_join_no_return.
    + by repeat constructor.
  - apply endswith_iff. by eexists.
  - by apply splitlines_join.
Qed.

(** * Witnesses *)

Definition at_pos (l c el ec : Z) : position :=
  {| lineno := l; col_offset := c; end_lineno := Some el; end_col_offset := Some ec |}.
Definition load : node := Node "Load" [] no_position [].
Definition name_node (id : string) (p : position) : node := Node "Name" [("id", id)] p [("ctx", [load])].
Definition constant_node (repr : string) (p : position) : node := Node "Constant" [("value", repr)] p [].
Definition return_node (v : node) (p : position) : node := Node "Return" [] p [("value", [v])].
Definition if_node (test : node) (body : list node) (p : position) : node :=
  Node "If" [] p [("test", [test]); ("body", body); ("orelse", [])].
Definition function_of (body : list node) : node :=
  Node "Module" [] no_position
    [("body", [Node "FunctionDef" [("name", "f")] (at_pos 1 0 9 0) [("body", body)]])].
Definition lines_of (ls : list string) : string := join line_break ls +:+ line_break.
Definition file_of (source : string) : files := {["src/example.py" := Decoded source]}.
Definition mechanical (rule : string) (ln : Z) : ReviewFinding :=
  match guided_finding SafeMechanical ln 1 with
  | Build_ReviewFinding c sev tl _ fl ln msg fx st ds ab bl ex eo er cf rh cp ik ed rl gk ra cc ra' sc pr
      ac br ar im sg pn rp =>
      Build_ReviewFinding c sev tl rule fl ln msg fx st ds ab bl ex eo er cf rh cp ik ed rl gk ra cc ra' sc pr
        ac br ar im sg pn rp
  end.
(** A parser that knows one source *)
Definition parses (source : string) (tree : node) (s : string) : option node :=
  if String.eqb s source then Some tree else None.

Definition guards_source : string :=
  lines_of ["def f(x):"; "    if x:"; "        return 1"; "    if x:"; "        return 2"; "    return 3"].
Definition guards_tree : node :=
  function_of
    [if_node (name_node "x" (at_pos 2 7 2 8)) [return_node (constant_node "1" (at_pos 3 15 3 16)) (at_pos 3 8 3 16)]
       (at_pos 2 4 3 16);
     if_node (name_node "x" (at_pos 4 7 4 8)) [return_node (constant_node "2" (at_pos 5 15 5 16)) (at_pos 5 8 5 16)]
       (at_pos 4 4 5 16);
     return_node (constant_node "3" (at_pos 6 11 6 12)) (at_pos 6 4 6 12)].
Definition guards_fixed : files :=
  file_of (lines_of ["def f(x):"; "    if x:"; "        return 1"; "    return 3"]).

Lemma dead_branch_fix_sound_witness :
  ∃ function_node l1 stmt l2 new,
    subnode guards_tree function_node ∧ field "body" function_node = l1 ++ stmt :: l2 ∧ line stmt = 4%Z
    ∧ read_text guards_fixed "src/example.py" = Ok new
    ∧ parser_lines new = take 3 (parser_lines guards_source)
                         ++ drop (Z.to_nat (end_line stmt)) (parser_lines guards_source)
    ∧ ∀ (state stop : Type) truth returns other (s : state) (o : @outcome state stop),
        runs truth returns other (field "body" function_node) s o
        ↔ runs truth returns other (l1 ++ l2) s o.
Proof.
  destruct (dead_branch_fix_sound (parses guards_source guards_tree) (λ _, true) (file_of guards_source)
    (mechanical "ai-bloat.dead-branch" 4) guards_fixed ltac:(vm_compute; reflexivity))
    as (source & tree & function_node & l1 & stmt & l2 & Hsrc & Htree & Hsub & Hbody & Hline & _ & Hlines & Hruns).
  vm_compute in Hsrc. injection Hsrc as <-. vm_compute in Htree. injection Htree as <-.
  destruct Hlines as (new & Hnew & Hl & _).
  - unfold only_line_feeds. apply (bool_decide_unpack _). vm_compute. reflexivity.
  - rewrite Hline. reflexivity.
  - exists function_node, l1, stmt, l2, new. rewrite Hline in Hl.
    split; [exact Hsub|]. split; [exact Hbody|]. split; [exact Hline|]. split; [exact Hnew|].
    split; [exact Hl|exact Hruns].
Defined.

Lemma rewrite_is_local_witness :
  (∃ new, read_text guards_fixed "src/example.py" = Ok new ∧ endswith line_break new = true
    ∧ str_splitlines new = take 3 (str_splitlines guards_source) ++ []
                           ++ drop 5 (str_splitlines guards_source))
  ∧ (1 ≤ 4 ∧ 4 ≤ 5 ∧ 5 ≤ Z.of_nat (length (str_splitlines guards_source)))%Z
  ∧ ∀ p, p ≠ "src/example.py" → guards_fixed !! p = file_of guards_source !! p.
Proof.
  apply (rewrite_is_local (λ _, true) (file_of guards_source) "src/example.py" guards_source 4 5 [] guards_fixed).
  - vm_compute. reflexivity.
  - constructor.
  - vm_compute. reflexivity.
  - vm_compute. done.
Defined.

(** * Rewrites that are not safe *)

(** What a function returns at a verbose bool return whose predicate has the
    value [v], and what the replacement expression has *)
Definition returned_before (v : pyval) (first_value : bool) : pyval :=
  VBool (if truthy v then first_value else negb first_value).
Definition returned_after (v : pyval) (first_value : bool) : pyval :=
  if first_value then v else VBool (negb (truthy v)).

(** The rewrite keeps the value exactly when it negates the predicate or the
    predicate is a [bool] already. *)
Lemma verbose_bool_value v first_value :
  returned_after v first_value = returned_before v first_value ↔ first_value = false ∨ ∃ b, v = VBool b.
Proof.
  unfold returned_after, returned_before. destruct first_value; cbn [negb].
  - split; [|intros [|[b ->]]; [done|by destruct b]]. intros ->. right. by eexists.
  - split; [by left|]. intros _. by destruct (truthy v).
Qed.

Definition rewritten (fixer : (string → option node) → (string → bool) → files → ReviewFinding → result (bool * files))
    (source : string) (tree : node) (f : ReviewFinding) : result (bool * files) :=
  fixer (parses source tree) (λ _, true) (file_of source) f.

(** [if x: return True], [return False] becomes [return x], for any [x]. *)
Lemma verbose_bool_returns_operand :
  rewritten _apply_verbose_bool_return_fix
    (lines_of ["def f(x):"; "    if x:"; "        return True"; "    return False"])
    (function_of
       [if_node (name_node "x" (at_pos 2 7 2 8))
          [return_node (constant_node "True" (at_pos 3 15 3 19)) (at_pos 3 8 3 19)] (at_pos 2 4 3 19);
        return_node (constant_node "False" (at_pos 4 11 4 16)) (at_pos 4 4 4 16)])
    (mechanical "ai-bloat.verbose-bool-return" 2)
  = Ok (true, file_of (lines_of ["def f(x):"; "    return x"])).
Proof. vm_compute. reflexivity. Qed.

Definition assign_node (id : string) (v : node) (p : position) : node :=
  Node "Assign" [] p [("targets", [name_node id p]); ("value", [v])].

(** A statement before the assignment on its line goes with it. *)
Lemma redundant_intermediate_drops_statement :
  rewritten _apply_redundant_intermediate_fix
    (lines_of ["def f():"; "    log(); x = g(); return x"])
    (function_of
       [Node "Expr" [] (at_pos 2 4 2 9) [("value", [Node "Call" [] (at_pos 2 4 2 9) []])];
        assign_node "x" (Node "Call" [] (at_pos 2 15 2 18) []) (at_pos 2 11 2 18);
        return_node (name_node "x" (at_pos 2 27 2 28)) (at_pos 2 20 2 28)])
    (mechanical "ai-bloat.redundant-intermediate" 2)
  = Ok (true, file_of (lines_of ["def f():"; "    return g()"])).
Proof. vm_compute. reflexivity. Qed.

(** The parentheses around an expression of several lines are lost, and with
    them the expression: what follows the first line is another statement. *)
Lemma redundant_intermediate_loses_parentheses :
  rewritten _apply_redundant_intermediate_fix
    (lines_of ["def f(a, b):"; "    x = ("; "        a"; "        + b"; "    )"; "    return x"])
    (function_of
       [assign_node "x" (Node "BinOp" [] (at_pos 3 8 4 11) []) (at_pos 2 4 5 5);
        return_node (name_node "x" (at_pos 6 11 6 12)) (at_pos 6 4 6 12)])
    (mechanical "ai-bloat.redundant-intermediate" 2)
  = Ok (true, file_of (lines_of ["def f(a, b):"; "    return a"; "        + b"])).
Proof. vm_compute. reflexivity. Qed.

(** Form feeds end a line for [str.splitlines] but not for the parser: the
    lines removed are not those of the guard. *)
Definition form_feed : string := String (ascii_of_nat 12) "".
Lemma dead_branch_off_by_form_feed :
  rewritten _apply_dead_branch_fix
    (lines_of [form_feed; "def f(x):"; "    if x:"; "        return 1"; "    if x:"; "        return 2"; "    return 3"])
    (function_of
       [if_node (name_node "x" (at_pos 3 7 3 8))
          [return_node (constant_node "1" (at_pos 4 15 4 16)) (at_pos 4 8 4 16)] (at_pos 3 4 4 16);
        if_node (name_node "x" (at_pos 5 7 5 8))
          [return_node (constant_node "2" (at_pos 6 15 6 16)) (at_pos 6 8 6 16)] (at_pos 5 4 6 16);
        return_node (constant_node "3" (at_pos 7 11 7 12)) (at_pos 7 4 7 12)])
    (mechanical "ai-bloat.dead-branch" 5)
  = Ok (true, file_of (lines_of [""; ""; "def f(x):"; "    if x:"; "        return 2"; "    return 3"])).
Proof. vm_compute. reflexivity. Qed.

(** Removing a pass-through [try] also dedents the lines inside a string. *)
Definition quotes : string := of_chars (repeat (ascii_of_nat 34) 3).
Lemma pass_through_changes_string :
  rewritten _apply_pass_through_try_except_fix
    (lines_of ["def f():"; "    try:"; "        return " +:+ quotes; "        text" +:+ quotes;
               "    except ValueError:"; "        raise"])
    (function_of
       [Node "Try" [] (at_pos 2 4 6 13)
          [("body", [return_node (constant_node "text" (at_pos 3 15 4 15)) (at_pos 3 8 4 15)]);
           ("handlers", [Node "ExceptHandler" [] (at_pos 5 4 6 13)
                           [("body", [Node "Raise" [] (at_pos 6 8 6 13) []])]]);
           ("orelse", []); ("finalbody", [])]])
    (mechanical "ai-bloat.pass-through-try-except" 2)
  = Ok (true, file_of (lines_of ["def f():"; "    return " +:+ quotes; "    text" +:+ quotes])).
Proof. vm_compute. reflexivity. Qed.
