(* ===== verification/LocalReview.v ===== *)
(** LocalReview: the review of local files, [run_capsule_review] of
    [specfact_code_review/run/runner.py]: the signed analyzer capsule or the
    development host, the staged snapshot or the worktree, the identity of the
    worktree before and after the analysis, and the report each way ends in. *)

From S2P Require Import Prelude Text Paths Dict PyValue Json Findings Differential Suppression RangeReview Diff.
From S2P Require Import Assembly Cleanup.

(** * What the host answers during one review *)

(** [WorktreeReviewIdentity | Literal["not_repository"]]: identities are only
    compared, so a text stands for one. *)
Inductive worktree_identity := NotRepository | Identity (value : string).
#[export] Instance worktree_identity_eq_dec : EqDecision worktree_identity. Proof. solve_decision. Defined.

Record CachedAnalysisSnapshot := { cas_repository : string; cas_root : string }.

(** [la_runtime] is the reason [_prepare_capsule_runtime] gives when there is
    no runtime; [la_identity n] is the [n]-th capture of the worktree's
    identity; [la_changed_lines cached] are the changed lines read with or
    without the identity of the staged diff; [la_project_runtime] is the
    evidence of the project runtime when one was requested; the capsule's
    snapshot result is [la_snapshot] with [la_expected_versions] and
    [la_platform_id]. *)
Record LocalAnswers := {
  la_resources : catalog_resources;
  la_backend : BackendSelection;
  la_run_id : string;
  la_now : datetime;
  la_runtime : option string;
  la_development_checkout : bool;
  la_environ : string → option string;
  la_repository : option string;
  la_cached_snapshot : option CachedAnalysisSnapshot;
  la_tree_unmodified : bool;
  la_identity : nat → option worktree_identity;
  la_host : HostAnswers;
  la_snapshot : CapsuleSnapshotResult;
  la_expected_versions : option (list (string * string));
  la_platform_id : string;
  la_project_runtime : option pyval;
  la_changed_lines : bool → option line_map
}.

(** [report.model_copy(update={"scope_evidence": scope_evidence})] *)
Definition with_scope_evidence (scope : list (string * pyval)) (r : ReviewReport) : ReviewReport :=
  match r with
  | Build_ReviewReport sv id t ov ec st un _ ev di so rd fs su ss cf em es re hr =>
      Build_ReviewReport sv id t ov ec st un (Some scope) ev di so rd fs su ss cf em es re hr
  end.

(** * Findings of the staged tree under the caller's paths *)

(** [_normalize_report_path(repository.joinpath( *parts))] *)
Definition caller_path (report_path : string → string) (repository : string) (parts : list string) : string :=
  report_path (path_join repository (join "/" parts)).
Definition rebase_host_finding (report_path : string → string) (snapshot_root repository : string)
    (finding : ReviewFinding) : option ReviewFinding :=
  let raw_path := rf_file finding in
  let snapshot_path := if is_absolute raw_path then raw_path else path_join snapshot_root raw_path in
  (λ parts, with_file (caller_path report_path repository parts) finding)
    <$> relative_to snapshot_root (normpath snapshot_path).
Definition _rebase_host_snapshot_findings (report_path : string → string) (snapshot_root repository : string)
    (report : ReviewReport) : option ReviewReport :=
  (λ findings, with_findings findings report)
    <$> mapM (rebase_host_finding report_path snapshot_root repository) (rr_findings report).

Section local.
Context `{PyRepr} `{Sha256} `{JsonLoads} `{LineTargetsDataclass} (report_path : string → string).

(** * Decisions *)

Definition _allows_development_host_compatibility (a : LocalAnswers) (reason : string) : bool :=
  la_development_checkout a
  && (String.eqb reason "unsupported_controller_platform"
      || (String.eqb reason "oci_acquisition_failed:verified cache entry is missing"
          && bool_decide (la_environ a "SPECFACT_CODE_REVIEW_DEV_HOST_COMPAT" = Some "1"))).
Definition _cached_review_requested (a : LocalAnswers) (options : ReviewOptions) : bool :=
  let diff_mode := lower (strip (default "worktree" (la_environ a "SPECFACT_CODE_REVIEW_CHANGED_DIFF"))) in
  bool_decide (ro_review_mode options = EmChanged) && String.eqb diff_mode "cached".
(** The [n]-th capture differs from [identity]. *)
Definition _worktree_analysis_identity_changed (a : LocalAnswers) (identity : worktree_identity) (n : nat) : bool :=
  negb (bool_decide (identity = NotRepository)) && negb (bool_decide (la_identity a n = Some identity)).

(** * Reports *)

Definition _with_capsule_enforcement (a : LocalAnswers) (report : ReviewReport) (options : ReviewOptions)
    (findings_by_member : list (string * list ReviewFinding)) (cached_diff : bool) : result ReviewReport :=
  _with_enforcement report_path report (ro_review_mode options) findings_by_member
    (la_changed_lines a cached_diff) cached_diff.
(** An unknown report under the enforcement mode *)
Definition unknown_review (a : LocalAnswers) (reason : string) (options : ReviewOptions)
    (scope_evidence : list (string * pyval)) (cached_diff : bool) : result ReviewReport :=
  let! report := _unknown_capsule_report (la_resources a) (la_run_id a) (la_now a) (la_backend a) reason options
                   scope_evidence in
  _with_capsule_enforcement a report options [] cached_diff.
Definition _worktree_snapshot_unknown (a : LocalAnswers) (reason : string) (options : ReviewOptions)
    (scope_evidence : list (string * pyval)) : result ReviewReport :=
  unknown_review a reason options scope_evidence false.

Definition full_mode (options : ReviewOptions) : ReviewOptions :=
  {| ro_no_tests := ro_no_tests options; ro_include_noise := ro_include_noise options;
     ro_bug_hunt := ro_bug_hunt options; ro_review_level := ro_review_level options;
     ro_review_mode := EmFull; ro_focus := ro_focus options |}.

(** ** The development host *)

Definition _run_cached_development_host_review (a : LocalAnswers) (options : ReviewOptions)
    (scope_evidence : list (string * pyval)) : result ReviewReport :=
  let unknown reason := unknown_review a reason options scope_evidence false in
  match la_repository a, la_cached_snapshot a with
  | Some repository, Some cached_snapshot =>
      let! host_report := run_review report_path (la_host a) (la_run_id a) (la_now a) (full_mode options)
                            (la_changed_lines a false) in
      if negb (la_tree_unmodified a) then unknown "cached_host_snapshot_mutated"
      else
        match _rebase_host_snapshot_findings report_path (cas_root cached_snapshot) repository host_report with
        | None => unknown "cached_host_finding_path_unavailable"
        | Some rebased_report =>
            _with_capsule_enforcement a (with_scope_evidence scope_evidence rebased_report) options [] true
        end
  | _, _ => unknown "cached_snapshot_materialization_unavailable"
  end.
Definition _run_worktree_development_host_review (a : LocalAnswers) (options : ReviewOptions)
    (scope_evidence : list (string * pyval)) : result ReviewReport :=
  match (if bool_decide (ro_review_mode options = EmChanged) then la_identity a 0 else Some NotRepository) with
  | None => _worktree_snapshot_unknown a "worktree_snapshot_identity_unavailable" options scope_evidence
  | Some identity =>
      let! report := run_review report_path (la_host a) (la_run_id a) (la_now a) options
                       (la_changed_lines a false) in
      if _worktree_analysis_identity_changed a identity 1
      then _worktree_snapshot_unknown a "worktree_snapshot_changed_during_analysis" options scope_evidence
      else Ok (with_scope_evidence scope_evidence report)
  end.

(** ** The capsule *)

Record _LocalCapsuleReviewContext := {
  lc_options : ReviewOptions;
  lc_scope_evidence : list (string * pyval);
  lc_cached_snapshot : option CachedAnalysisSnapshot;
  lc_worktree_identity : worktree_identity
}.
Definition _finalize_local_capsule_snapshot (a : LocalAnswers) (snapshot : CapsuleSnapshotResult)
    (context : _LocalCapsuleReviewContext) : result ReviewReport :=
  let options := lc_options context in
  let scope_evidence := lc_scope_evidence context in
  let cached_diff := has_some (lc_cached_snapshot context) in
  let changed n := _worktree_analysis_identity_changed a (lc_worktree_identity context) n in
  let drifted := _worktree_snapshot_unknown a "worktree_snapshot_changed_during_analysis" options scope_evidence in
  if changed 1 then drifted
  else
    let rebased_findings :=
      match lc_cached_snapshot context with
      | None => Some (csr_findings_by_member snapshot)
      | Some cached_snapshot =>
          _rebase_cached_snapshot_findings (caller_path report_path (cas_repository cached_snapshot))
            (cas_root cached_snapshot) (csr_findings_by_member snapshot)
      end in
    match rebased_findings with
    | None => unknown_review a "cached_capsule_finding_path_unavailable" options scope_evidence cached_diff
    | Some findings_by_member =>
        let! report := _capsule_report (la_resources a) (la_run_id a) (la_now a) (csr_evidence snapshot)
                         findings_by_member options scope_evidence (la_expected_versions a)
                         (la_platform_id a) in
        let! enforced_report := _with_capsule_enforcement a report options findings_by_member cached_diff in
        if changed 2 then drifted else Ok enforced_report
    end.

(** What the context is analysed as: the staged snapshot and the identity of
    the worktree, or the reason why there is none. *)
Definition local_inputs (a : LocalAnswers) (options : ReviewOptions) :
    string + (option CachedAnalysisSnapshot * worktree_identity) :=
  if _cached_review_requested a options then
    match la_cached_snapshot a with
    | None => inl "cached_snapshot_materialization_unavailable"
    | Some cached_snapshot => inr (Some cached_snapshot, NotRepository)
    end
  else if bool_decide (ro_review_mode options = EmChanged) then
    match la_identity a 0 with
    | None => inl "worktree_snapshot_identity_unavailable"
    | Some identity => inr (None, identity)
    end
  else inr (None, NotRepository).
Definition _run_local_capsule_context (a : LocalAnswers) (options : ReviewOptions)
    (scope_evidence : list (string * pyval)) : result ReviewReport :=
  match local_inputs a options with
  | inl reason => unknown_review a reason options scope_evidence false
  | inr (cached_snapshot, identity) =>
      let scope_evidence := match la_project_runtime a with
                            | Some evidence => dict_set "project_runtime" evidence scope_evidence
                            | None => scope_evidence
                            end in
      _finalize_local_capsule_snapshot a (la_snapshot a)
        {| lc_options := options; lc_scope_evidence := scope_evidence; lc_cached_snapshot := cached_snapshot;
           lc_worktree_identity := identity |}
  end.

Definition run_capsule_review (a : LocalAnswers) (assurance_kind : string) (options : ReviewOptions) :
    result ReviewReport :=
  let! _ := check (bool_decide (assurance_kind ∈ _LOCAL_ASSURANCE_KINDS))
    (ValueError ("unsupported_local_assurance_kind:" +:+ assurance_kind)) in
  let scope_evidence := [("assurance_kind", VStr assurance_kind); ("capsule_execution", VStr "required")] in
  match la_runtime a with
  | Some reason =>
      if _allows_development_host_compatibility a reason then
        if _cached_review_requested a options
        then _run_cached_development_host_review a options scope_evidence
        else _run_worktree_development_host_review a options scope_evidence
      else unknown_review a reason options scope_evidence false
  | None => _run_local_capsule_context a options scope_evidence
  end.
End local.
