(* ===== verification/LocalReviewProofs.v ===== *)
(** LocalReviewProofs: the failures of a local review that end in an unknown
    report, which never passes, and the inputs that one that passes analyzed,
    a changed-mode worktree with the identity it had before. *)

From S2P Require Import Prelude Text Paths Dict PyValue Json Findings FindingsProofs Correspondence.
From S2P Require Import Differential Suppression SuppressionProofs Scope RangeReview RangeReviewProofs Diff Floats.
From S2P Require Import Assembly AssemblyProofs Cleanup LocalReview.

(** * Unknown evidence *)

Section reports.
Context `{PyRepr} `{Sha256} `{JsonLoads} `{LineTargetsDataclass}.

Definition unknown_evidence (evidence : list (string * evidence_item)) : Prop :=
  ∀ member item, dict_get member evidence = Some item → outcome_of item = "UNKNOWN".

Lemma aggregate_unknown evidence versions :
  unknown_evidence evidence →
  per_assurance_status (aggregate_profile_evidence evidence versions) = AUnknown
  ∧ per_has_unknown_required_evidence (aggregate_profile_evidence evidence versions) = true.
Proof.
  intros Hu. unfold aggregate_profile_evidence.
  set (expected := match versions with Some (v :: vs) => v :: vs | _ => _C14_ANALYZER_VERSIONS end).
  cbn [per_assurance_status per_has_unknown_required_evidence].
  assert (Hm : ∀ member, (aggregate_member expected evidence member).1.2 = true
                         ∧ (aggregate_member expected evidence member).2 = false).
  { intros member. unfold aggregate_member. cbn [fst snd].
    assert (text_of "evidence_outcome" "UNKNOWN" (default [] (dict_get member evidence)) = "UNKNOWN") as ->.
    { destruct (dict_get member evidence) as [item|] eqn:E; [by apply (Hu member)|done]. }
    by destruct (_ || _ || _). }
  assert (existsb snd (aggregate_member expected evidence <$> all_ids default_pr_range_profile) = false) as ->.
  { apply not_true_iff_false. rewrite existsb_exists. intros (x & Hx & Ht).
    apply list_elem_of_In, list_elem_of_fmap in Hx as (member & -> & _).
    destruct (Hm member) as [_ Hf]. by rewrite Hf in Ht. }
  assert (existsb (λ m, m.1.2) (aggregate_member expected evidence <$> all_ids default_pr_range_profile) = true) as ->;
    [|done].
  assert (Hin : "basedpyright" ∈ all_ids default_pr_range_profile) by (by apply (bool_decide_unpack _); vm_compute).
  apply existsb_exists. exists (aggregate_member expected evidence "basedpyright"). split; [|apply Hm].
  by apply list_elem_of_In, list_elem_of_fmap_2.
Qed.

Lemma activated_unknown resources evidence versions platform activation report_evidence :
  unknown_evidence evidence →
  _activated_capsule_report_evidence resources evidence versions platform = Ok (activation, report_evidence) →
  unknown_evidence report_evidence.
Proof.
  intros Hu Ha. unfold _activated_capsule_report_evidence in Ha.
  apply res_bind_Ok in Ha as (a & _ & Ha). destruct (_ && _) in Ha; [by injection Ha as _ <-|].
  destruct (_ && _) in Ha; [by injection Ha as _ <-|].
  apply res_bind_Ok in Ha as (items & Hitems & [= _ <-]). intros member item Hg%dict_of_get_elem.
  destruct (map_res_elem _ _ _ _ Hitems Hg) as (m & _ & Hm). by eapply deactivated_unknown.
Qed.

Lemma darwin_unknown options scope evidence scope' evidence' :
  unknown_evidence evidence → darwin_evidence options scope evidence = Ok (scope', evidence') →
  unknown_evidence evidence'.
Proof.
  intros Hu Hd. unfold darwin_evidence in Hd. apply res_bind_Ok in Hd as (local & _ & [= _ <-]).
  intros member item. rewrite dict_get_set. case_decide as E; [|apply Hu]. intros [= <-].
  set (pytest := if is_str _ _ then _ else default [] (dict_get pytest_member evidence)).
  assert (Hp : outcome_of pytest = "UNKNOWN").
  { assert (Hd : outcome_of (default [] (dict_get pytest_member evidence)) = "UNKNOWN").
    { destruct (dict_get pytest_member evidence) eqn:Eg; [by eapply Hu|done]. }
    unfold pytest. destruct (is_str _ _); [|done].
    unfold outcome_of, text_of, sget_default in *. by rewrite dict_get_set_ne. }
  destruct (_ || _ || _); [|done]. unfold outcome_of, text_of, sget_default.
  rewrite dict_get_set_ne by done. by rewrite dict_get_set_eq.
Qed.

(** A report of the capsule is a validated report with schema 1.6, whose
    status is the profile's. *)
Lemma capsule_report_raw resources run_id now evidence findings_by_member options scope versions platform report :
  _capsule_report resources run_id now evidence findings_by_member options scope versions platform = Ok report →
  ∃ raw profile, validate_ReviewReport raw = Ok report ∧ rr_schema_version raw = "1.6"
    ∧ rr_assurance_status raw = Some (per_assurance_status profile)
    ∧ rr_has_unknown_required_evidence raw = Some (per_has_unknown_required_evidence profile)
    ∧ rr_enforcement_mode raw = Some (ro_review_mode options)
    ∧ rr_findings raw = select_findings options (member_findings findings_by_member)
    ∧ rr_simplification_summary raw = None
    ∧ (unknown_evidence evidence → per_assurance_status profile = AUnknown
                                   ∧ per_has_unknown_required_evidence profile = true).
Proof.
  intros Hr. unfold _capsule_report in Hr. apply res_bind_Ok in Hr as ([activation ev] & Ha & Hr).
  apply res_bind_Ok in Hr as ([scope' ev'] & Hd & Hr). apply res_bind_Ok in Hr as (items & _ & Hr).
  eexists _, (aggregate_profile_evidence ev' versions). split; [exact Hr|]. split_and!; [done..|].
  intros Hu. apply aggregate_unknown. apply (activated_unknown _ _ _ _ _ _ Hu) in Ha.
  destruct (String.eqb platform "darwin-arm64"); [exact (darwin_unknown _ _ _ _ _ Ha Hd)|by injection Hd as _ <-].
Qed.

Lemma validated_version raw r :
  validate_ReviewReport raw = Ok r → rr_schema_version raw = "1.6" →
  schema_version_at_least (rr_schema_version r) 6 = true.
Proof.
  intros Hv Hs. assert (Hat : schema_version_at_least (rr_schema_version raw) 6 = true) by by rewrite Hs.
  by rewrite (validated_schema _ _ Hv Hat).
Qed.

(** An unknown status stays unknown. *)
Lemma validated_unknown raw r :
  validate_ReviewReport raw = Ok r → rr_schema_version raw = "1.6" → rr_assurance_status raw = Some AUnknown →
  rr_assurance_status r = Some AUnknown ∧ (rr_enforcement_mode raw ≠ Some EmShadow → rr_ci_exit_code r ≠ Some 0%Z).
Proof.
  intros Hv Hs Ha. pose proof (validated_version _ _ Hv Hs) as Hat.
  assert (Hst : is_Some (rr_assurance_status r)) by (apply (validated_status_some _ _ Hv); by eexists). split.
  - pose proof (validate_report_inv _ _ Hv) as
      (version & summary & auth & v & e & s & u & _ & _ & Hauth & -> & Hf)%derive_governance_inv.
    destruct (with_timestamp_fields (_normalize_timestamp (rr_timestamp raw)) raw) as (_ & _ & _ & _ & Hst1 & _).
    cbn [rr_assurance_status with_governance g_assurance_status].
    destruct auth as [[[[s0 u0] v0] e0]|].
    + destruct Hf as (-> & _). f_equal. unfold _derive_authoritative_governance in Hauth.
      rewrite Hst1, Ha in Hauth. destruct (schema_version_at_least version 6); [|done].
      cbn in Hauth. rewrite orb_true_r in Hauth. cbn in Hauth. by injection Hauth.
    + destruct Hf as (-> & _). congruence.
  - intros Hm Hz. destruct (validated_fields _ _ Hv) as (_ & Hmode & _).
    destruct (validated_zero_exit _ _ Hv Hat Hst Hz) as (s & _ & Hs' & Hacc & _); [congruence|].
    rewrite Ha in Hs'. injection Hs' as <-. by destruct Hacc.
Qed.

Context (report_path : string → string).

(** A review that ends unknown does not pass. *)
Lemma unknown_review_fails a reason options scope cached r :
  unknown_review report_path a reason options scope cached = Ok r →
  rr_assurance_status r = Some AUnknown
  ∧ (ro_review_mode options ≠ EmShadow → rr_ci_exit_code r ≠ Some 0%Z).
Proof.
  intros (u & Hu & He)%res_bind_Ok. unfold _unknown_capsule_report in Hu.
  apply res_bind_Ok in Hu as (evidence & Hev & Hu).
  assert (Hunk : unknown_evidence evidence).
  { intros member item Hg%dict_get_Some_elem. destruct (map_res_elem _ _ _ _ Hev Hg) as (m & _ & Hm).
    apply res_bind_Ok in Hm as (v & _ & [= _ <-]). done. }
  apply capsule_report_raw in Hu as (raw & profile & Hv & Hs & Hst & _ & Hmode & _ & _ & Hp).
  destruct (Hp Hunk) as [Hp1 _]. rewrite Hp1 in Hst.
  destruct (validated_unknown _ _ Hv Hs Hst) as [Hst' Hz]. rewrite Hmode in Hz.
  unfold _with_capsule_enforcement, _with_enforcement in He.
  destruct (ro_review_mode options) eqn:Em.
  - injection He as <-. split; [by destruct u|]. intros _. cbn. apply Hz. congruence.
  - unfold _with_changed_enforcement, _changed_enforcement_precondition in He.
    rewrite bool_decide_eq_true_2 in He by done. injection He as <-. split; [by destruct u|].
    intros _. cbn. apply Hz. congruence.
  - injection He as <-. split; [by destruct u|done].
Qed.

(** * What lets a review pass *)

(** The report exits with 0 by itself, or no blocking finding of it is on a
    changed line. *)
Definition gate (a : LocalAnswers) (options : ReviewOptions) (cached : bool) (report : ReviewReport) : Prop :=
  rr_ci_exit_code report = Some 0%Z ∨
  ro_review_mode options = EmChanged ∧
    ∃ changed, la_changed_lines a cached = Some changed ∧ clear_of_changes report_path report changed.

Lemma changed_gate report findings_by_member changed_lines cached out :
  schema_version_at_least (rr_schema_version report) 6 = true → is_Some (rr_assurance_status report) →
  (∀ s, rr_assurance_status report = Some s → s = APass ∨ s = ANotApplicable →
        rr_ci_exit_code report = Some 0%Z) →
  _with_changed_enforcement report_path report findings_by_member changed_lines cached = Ok out →
  rr_ci_exit_code out = Some 0%Z →
  rr_ci_exit_code report = Some 0%Z ∨
    ∃ changed, changed_lines = Some changed ∧ clear_of_changes report_path report changed.
Proof.
  intros Hver [st Hst] Hacc Ho Hz.
  destruct (decide (rr_assurance_status report = Some AUnknown ∨ rr_has_unknown_required_evidence report = Some true))
    as [Hunk|[Hu1 Hu2]%Decidable.not_or].
  - left. unfold _with_changed_enforcement, _changed_enforcement_precondition in Ho.
    replace (bool_decide (rr_assurance_status report = Some AUnknown)
             || bool_decide (rr_has_unknown_required_evidence report = Some true)) with true in Ho
      by (symmetry; rewrite orb_true_iff, !bool_decide_eq_true; done). by injection Ho as <-.
  - destruct changed_lines as [changed|].
    + destruct (changed_enforcement_known _ _ _ _ _ _ Ho Hu1 Hu2) as [(_ & u & Hr & Hm & _ & _ & Hs)|
        [(_ & u & Hr & Hm & Hs)|(Hc & _)]]; [| |by right; eexists].
      * rewrite Hst in Hs. cbn [has_some] in Hs.
        destruct (revalidated_zero _ _ _ Hr Hm ltac:(rewrite Hs; by eexists) Hver Hz) as (s & Hs' & Hok & _).
        rewrite Hs in Hs'. injection Hs' as <-. by destruct Hok.
      * destruct (revalidated_zero _ _ _ Hr Hm ltac:(rewrite Hs, Hst; by eexists) Hver Hz) as (s & Hs' & Hok & _).
        left. apply (Hacc s); [congruence|done].
    + apply changed_unknown_lines in Ho as (_ & _ & _ & Hx); [|done..]. rewrite Hx in Hz.
      destruct cached; [done|by left].
Qed.

Lemma enforcement_findings report mode findings_by_member changed_lines cached out :
  _with_enforcement report_path report mode findings_by_member changed_lines cached = Ok out →
  rr_findings out = rr_findings report.
Proof.
  destruct mode; cbn [_with_enforcement]; [intros [= <-]; by destruct report| |intros [= <-]; by destruct report].
  unfold _with_changed_enforcement. intros Ho.
  destruct (_changed_enforcement_precondition _ _ _) eqn:E.
  - injection Ho as <-. unfold _changed_enforcement_precondition in E.
    repeat case_match; simplify_eq; by destruct report.
  - unfold _revalidated_report in Ho. repeat case_match; apply validated_fields in Ho as (-> & _); by destruct report.
Qed.

Lemma capsule_gate a evidence fbm options scope versions platform report cached out :
  _capsule_report (la_resources a) (la_run_id a) (la_now a) evidence fbm options scope versions platform = Ok report →
  _with_capsule_enforcement report_path a report options fbm cached = Ok out →
  rr_ci_exit_code out = Some 0%Z → ro_review_mode options ≠ EmShadow →
  rr_findings out = select_findings options (member_findings fbm) ∧ gate a options cached report.
Proof.
  intros Hr Ho Hz Hm. apply capsule_report_raw in Hr as (raw & profile & Hv & Hs & Hst & _ & _ & Hf & _).
  destruct (validated_fields _ _ Hv) as (Hf' & _). split.
  - unfold _with_capsule_enforcement in Ho. apply enforcement_findings in Ho. congruence.
  - unfold gate. unfold _with_capsule_enforcement, _with_enforcement in Ho.
    destruct (ro_review_mode options); [by injection Ho as <-; left| |done].
    destruct (changed_gate report fbm (la_changed_lines a cached) cached out) as [?|?]; [..|by left|by right]; [| | |done..].
    + by eapply validated_version.
    + apply (validated_status_some _ _ Hv). by eexists.
    + intros s Hs' Hok. eapply validated_accepted_exit; [exact Hv|by eapply validated_version|exact Hs'|exact Hok].
Qed.

(** A full-mode review of the host has no assurance status. *)
Lemma full_host_review a run_id now options changed_lines r :
  ro_review_mode options = EmFull → run_review report_path a run_id now options changed_lines = Ok r →
  rr_assurance_status r = None ∧ rr_has_unknown_required_evidence r = None.
Proof.
  intros Hm Hr. unfold run_review in Hr. res_inv. rewrite Hm in *. cbn [_with_enforcement] in *. simplify_eq.
  match goal with Hv : validate_ReviewReport _ = Ok ?x |- _ =>
    destruct (validated_no_status _ _ Hv) as [Hs Hu]; [by destruct (ro_focus options) as [[]|]|] end.
  destruct (bool_decide _ && _ && _); cbn; rewrite Hs, Hu; by destruct (ro_focus options) as [[]|].
Qed.

Lemma cached_host_gate a options scope repository root host rebased out :
  run_review report_path (la_host a) (la_run_id a) (la_now a) (full_mode options) (la_changed_lines a false) = Ok host →
  _rebase_host_snapshot_findings report_path root repository host = Some rebased →
  _with_capsule_enforcement report_path a (with_scope_evidence scope rebased) options [] true = Ok out →
  ro_review_mode options = EmChanged → rr_ci_exit_code out = Some 0%Z →
  rr_findings out = rr_findings rebased ∧
  ∃ changed, la_changed_lines a true = Some changed ∧ clear_of_changes report_path rebased changed.
Proof.
  intros Hh Hb He Hm Hz. apply full_host_review in Hh as [Hs Hu]; [|done].
  unfold _rebase_host_snapshot_findings in Hb. apply fmap_Some in Hb as (findings & _ & ->).
  pose proof (enforcement_findings _ _ _ _ _ _ He) as Hf. split; [rewrite Hf; by destruct host|].
  unfold _with_capsule_enforcement, _with_enforcement in He. rewrite Hm in He.
  set (report := with_scope_evidence scope (with_findings findings host)) in *.
  assert (Hs' : rr_assurance_status report = None) by by destruct host.
  assert (Hu' : rr_has_unknown_required_evidence report = None) by by destruct host.
  destruct (la_changed_lines a true) as [changed|].
  - exists changed. split; [done|]. assert (Hc : clear_of_changes report_path report changed)
      by (eapply (changed_legacy report_path report [] changed true out He Hs'); [congruence|done]).
    by destruct host.
  - apply changed_unknown_lines in He as (_ & _ & _ & Hx); [congruence|congruence|congruence].
Qed.

Definition steady (a : LocalAnswers) (identity : worktree_identity) (n : nat) : Prop :=
  identity = NotRepository ∨ la_identity a n = Some identity.
Lemma identity_steady a identity n :
  _worktree_analysis_identity_changed a identity n = false → steady a identity n.
Proof.
  unfold _worktree_analysis_identity_changed, steady.
  intros [Hn|Hn]%andb_false_iff; apply negb_false_iff, bool_decide_eq_true in Hn; auto.
Qed.

(** What a passing review of the development host, and of the capsule, rests
    on *)
Definition host_basis (a : LocalAnswers) (options : ReviewOptions) (cached : option CachedAnalysisSnapshot)
    (r : ReviewReport) : Prop :=
  match cached with
  | None => ∃ report,
      run_review report_path (la_host a) (la_run_id a) (la_now a) options (la_changed_lines a false) = Ok report
      ∧ rr_ci_exit_code report = Some 0%Z ∧ rr_findings r = rr_findings report
  | Some snapshot => la_tree_unmodified a = true ∧ ∃ repository host rebased changed,
      la_repository a = Some repository
      ∧ run_review report_path (la_host a) (la_run_id a) (la_now a) (full_mode options) (la_changed_lines a false)
          = Ok host
      ∧ _rebase_host_snapshot_findings report_path (cas_root snapshot) repository host = Some rebased
      ∧ rr_findings r = rr_findings rebased
      ∧ la_changed_lines a true = Some changed ∧ clear_of_changes report_path rebased changed
  end.
Definition capsule_basis (a : LocalAnswers) (options : ReviewOptions) (cached : option CachedAnalysisSnapshot)
    (r : ReviewReport) : Prop :=
  ∃ findings_by_member scope report,
    match cached with
    | None => Some (csr_findings_by_member (la_snapshot a))
    | Some snapshot => _rebase_cached_snapshot_findings (caller_path report_path (cas_repository snapshot))
                         (cas_root snapshot) (csr_findings_by_member (la_snapshot a))
    end = Some findings_by_member
    ∧ _capsule_report (la_resources a) (la_run_id a) (la_now a) (csr_evidence (la_snapshot a)) findings_by_member
        options scope (la_expected_versions a) (la_platform_id a) = Ok report
    ∧ rr_findings r = select_findings options (member_findings findings_by_member)
    ∧ gate a options (has_some cached) report.

Lemma host_review_basis a options scope r :
  (if _cached_review_requested a options then _run_cached_development_host_review report_path a options scope
   else _run_worktree_development_host_review report_path a options scope) = Ok r →
  rr_ci_exit_code r = Some 0%Z → ro_review_mode options ≠ EmShadow →
  ∃ cached identity, local_inputs a options = inr (cached, identity) ∧ steady a identity 1
    ∧ host_basis a options cached r.
Proof.
  intros Hr Hz Hm.
  assert (Hno : ∀ reason cached, unknown_review report_path a reason options scope cached = Ok r → False).
  { intros reason cached Hu. apply unknown_review_fails in Hu as [_ Hu]. by apply Hu. }
  unfold local_inputs. destruct (_cached_review_requested a options) eqn:Ec.
  - unfold _run_cached_development_host_review in Hr.
    destruct (la_repository a) as [repository|] eqn:Erep; [|by apply Hno in Hr].
    destruct (la_cached_snapshot a) as [snapshot|]; [|by apply Hno in Hr].
    apply res_bind_Ok in Hr as (host & Hh & Hr).
    destruct (la_tree_unmodified a) eqn:Et; cbn [negb] in Hr; [|by apply Hno in Hr].
    destruct (_rebase_host_snapshot_findings _ _ _ host) as [rebased|] eqn:Eb; [|by apply Hno in Hr].
    assert (Hmode : ro_review_mode options = EmChanged)
      by (unfold _cached_review_requested in Ec; bool_hyps; done).
    destruct (cached_host_gate _ _ _ _ _ _ _ _ Hh Eb Hr Hmode Hz) as (Hf & changed & Hc & Hclear).
    exists (Some snapshot), NotRepository. split_and!; [done|by left|]. cbn. split; [done|].
    exists repository, host, rebased, changed. by split_and!.
  - unfold _run_worktree_development_host_review in Hr.
    destruct (if bool_decide _ then la_identity a 0 else Some NotRepository) as [identity|] eqn:Ei;
      [|by apply Hno in Hr].
    apply res_bind_Ok in Hr as (report & Hh & Hr).
    destruct (_worktree_analysis_identity_changed a identity 1) eqn:Ed; [by apply Hno in Hr|].
    apply identity_steady in Ed. injection Hr as <-. exists None, identity. split_and!; [|done|].
    + case_bool_decide; [by rewrite Ei|by injection Ei as <-].
    + exists report. split_and!; [done|by destruct report|by destruct report].
Qed.

Lemma capsule_review_basis a options scope r :
  _run_local_capsule_context report_path a options scope = Ok r →
  rr_ci_exit_code r = Some 0%Z → ro_review_mode options ≠ EmShadow →
  ∃ cached identity, local_inputs a options = inr (cached, identity) ∧ steady a identity 1
    ∧ steady a identity 2 ∧ capsule_basis a options cached r.
Proof.
  intros Hr Hz Hm.
  assert (Hno : ∀ reason scope cached, unknown_review report_path a reason options scope cached = Ok r → False).
  { intros reason scope' cached Hu. apply unknown_review_fails in Hu as [_ Hu]. by apply Hu. }
  unfold _run_local_capsule_context in Hr.
  destruct (local_inputs a options) as [reason|[cached identity]]; [by apply Hno in Hr|].
  exists cached, identity. split; [done|].
  unfold _finalize_local_capsule_snapshot in Hr. cbn [lc_options lc_scope_evidence lc_cached_snapshot
    lc_worktree_identity] in Hr.
  destruct (_worktree_analysis_identity_changed a identity 1) eqn:E1; [by apply Hno in Hr|].
  set (rebased := match cached with None => _ | Some _ => _ end) in Hr.
  destruct rebased as [fbm|] eqn:Eb; [|by apply Hno in Hr].
  apply res_bind_Ok in Hr as (report & Hc & Hr). apply res_bind_Ok in Hr as (enforced & He & Hr).
  destruct (_worktree_analysis_identity_changed a identity 2) eqn:E2; [by apply Hno in Hr|].
  injection Hr as ->. split; [by apply identity_steady|]. split; [by apply identity_steady|].
  destruct (capsule_gate _ _ _ _ _ _ _ _ _ _ Hc He Hz Hm) as [Hf Hg].
  eexists fbm, _, report. split_and!; [exact Eb|exact Hc|done|done].
Qed.

(** What goes wrong during a local review and is answered with an unknown
    report *)
Inductive local_failure (a : LocalAnswers) (options : ReviewOptions) : Prop :=
| no_runtime reason :
    la_runtime a = Some reason → _allows_development_host_compatibility a reason = false →
    local_failure a options
| inputs_unbound why : local_inputs a options = inl why → local_failure a options
| worktree_changed cached identity :
    local_inputs a options = inr (cached, identity) →
    ¬ steady a identity 1 ∨ la_runtime a = None ∧ ¬ steady a identity 2 →
    local_failure a options
| staged_host_mutated reason :
    la_runtime a = Some reason → _cached_review_requested a options = true →
    la_repository a = None ∨ la_tree_unmodified a = false → local_failure a options
| staged_path_unavailable snapshot identity :
    la_runtime a = None → local_inputs a options = inr (Some snapshot, identity) →
    _rebase_cached_snapshot_findings (caller_path report_path (cas_repository snapshot)) (cas_root snapshot)
      (csr_findings_by_member (la_snapshot a)) = None →
    local_failure a options
| host_path_unavailable reason snapshot repository host :
    la_runtime a = Some reason → _cached_review_requested a options = true →
    la_cached_snapshot a = Some snapshot → la_repository a = Some repository →
    run_review report_path (la_host a) (la_run_id a) (la_now a) (full_mode options) (la_changed_lines a false)
      = Ok host →
    _rebase_host_snapshot_findings report_path (cas_root snapshot) repository host = None →
    local_failure a options.

(** A report that is unknown, and does not pass *)
Definition fails_unknown (options : ReviewOptions) (r : ReviewReport) : Prop :=
  rr_assurance_status r = Some AUnknown ∧ (ro_review_mode options ≠ EmShadow → rr_ci_exit_code r ≠ Some 0%Z).

Lemma unsteady_changed a identity n :
  ¬ steady a identity n → _worktree_analysis_identity_changed a identity n = true.
Proof.
  intros Hs. destruct (_worktree_analysis_identity_changed a identity n) eqn:E; [done|].
  by destruct Hs; apply identity_steady.
Qed.

Lemma host_failure a options scope reason r :
  la_runtime a = Some reason → local_failure a options →
  _allows_development_host_compatibility a reason = true →
  (if _cached_review_requested a options then _run_cached_development_host_review report_path a options scope
   else _run_worktree_development_host_review report_path a options scope) = Ok r →
  fails_unknown options r.
Proof.
  intros Hrt Hf Ha Hr.
  assert (Hno : ∀ why c, unknown_review report_path a why options scope c = Ok r → fails_unknown options r)
    by (intros why c; apply unknown_review_fails).
  destruct Hf as [reason' Hrt' Ha'|why Hi|cached identity Hi Hd|reason' Hrt' Hc Ht|? ? Hrt' _ _
    |reason' snapshot repository host Hrt' Hc Hsn Hrep Hh Hn]; [congruence| | | |congruence|].
  - unfold local_inputs in Hi. destruct (_cached_review_requested a options).
    + unfold _run_cached_development_host_review in Hr. destruct (la_cached_snapshot a); [done|].
      destruct (la_repository a); by eapply Hno.
    + unfold _run_worktree_development_host_review in Hr. case_bool_decide; [|done].
      destruct (la_identity a 0); [done|by eapply Hno].
  - destruct Hd as [Hd|[Hn _]]; [|congruence]. unfold local_inputs in Hi.
    destruct (_cached_review_requested a options).
    { destruct (la_cached_snapshot a); [|done]. injection Hi as <- <-. by destruct Hd; left. }
    unfold _run_worktree_development_host_review in Hr.
    destruct (if bool_decide _ then la_identity a 0 else Some NotRepository) as [i|] eqn:Ei; [|by eapply Hno].
    assert (i = identity) as ->.
    { case_bool_decide; [rewrite Ei in Hi; by injection Hi as _ <-|congruence]. }
    apply res_bind_Ok in Hr as (report & _ & Hr). rewrite (unsteady_changed _ _ _ Hd) in Hr. by eapply Hno.
  - rewrite Hc in Hr. unfold _run_cached_development_host_review in Hr.
    destruct (la_repository a); [|by eapply Hno]. destruct Ht as [Ht|Ht]; [done|].
    destruct (la_cached_snapshot a); [|by eapply Hno].
    apply res_bind_Ok in Hr as (host & _ & Hr). rewrite Ht in Hr. cbn [negb] in Hr. by eapply Hno.
  - rewrite Hc in Hr. unfold _run_cached_development_host_review in Hr. rewrite Hsn, Hrep, Hh in Hr. cbn in Hr.
    destruct (la_tree_unmodified a); cbn in Hr; [rewrite Hn in Hr|]; by eapply Hno.
Qed.

Lemma capsule_failure a options scope r :
  la_runtime a = None → local_failure a options →
  _run_local_capsule_context report_path a options scope = Ok r → fails_unknown options r.
Proof.
  intros Hrt Hf Hr.
  assert (Hno : ∀ why scope c, unknown_review report_path a why options scope c = Ok r → fails_unknown options r)
    by (intros why scope' c; apply unknown_review_fails).
  unfold _run_local_capsule_context in Hr.
  destruct (local_inputs a options) as [why|[cached identity]] eqn:Hi; [by eapply Hno|].
  unfold _finalize_local_capsule_snapshot in Hr. cbn [lc_options lc_scope_evidence lc_cached_snapshot
    lc_worktree_identity] in Hr.
  destruct (_worktree_analysis_identity_changed a identity 1) eqn:E1; [by eapply Hno|].
  set (rebased := match cached with None => _ | Some _ => _ end) in Hr.
  destruct rebased as [fbm|] eqn:Eb; [|by eapply Hno].
  apply res_bind_Ok in Hr as (report & _ & Hr). apply res_bind_Ok in Hr as (enforced & _ & Hr).
  destruct (_worktree_analysis_identity_changed a identity 2) eqn:E2; [by eapply Hno|].
  apply identity_steady in E1, E2.
  destruct Hf as [? ? _|? Hi'|? ? Hi' Hd|? ? _ _|? ? _ Hi' Hn|? ? ? ? Hrt' _ _ _ _ _];
    [congruence|congruence| |congruence| |congruence].
  - rewrite Hi in Hi'. injection Hi' as <- <-. by destruct Hd as [Hd|[_ Hd]]; destruct Hd.
  - rewrite Hi in Hi'. injection Hi' as -> ->. unfold rebased in Eb. congruence.
Qed.

(** What a changed-mode review outside the staged snapshot kept: the identity
    captured before the analysis is that of no repository, or is captured
    again after it, and in the capsule once more after the report. *)
Definition identity_kept (a : LocalAnswers) (options : ReviewOptions) : Prop :=
  ro_review_mode options = EmChanged → _cached_review_requested a options = false →
  la_identity a 0 = Some NotRepository ∨
    ∃ value, la_identity a 0 = Some (Identity value) ∧ la_identity a 1 = Some (Identity value)
             ∧ (la_runtime a = None → la_identity a 2 = Some (Identity value)).
(** What is analyzed: the staged snapshot when it was asked for, else the
    worktree. *)
Definition analyzed_inputs (a : LocalAnswers) (options : ReviewOptions) (cached : option CachedAnalysisSnapshot) : Prop :=
  if _cached_review_requested a options then is_Some (la_cached_snapshot a) ∧ cached = la_cached_snapshot a
  else cached = None.

Lemma bound_inputs a options cached identity :
  local_inputs a options = inr (cached, identity) → steady a identity 1 →
  (la_runtime a = None → steady a identity 2) →
  analyzed_inputs a options cached ∧ identity_kept a options.
Proof.
  unfold local_inputs, analyzed_inputs, identity_kept, steady. intros Hi Hone Htwo.
  destruct (_cached_review_requested a options).
  - destruct (la_cached_snapshot a); [|done]. injection Hi as <- <-. by split; [split; [by eexists|]|].
  - case_bool_decide; [|by injection Hi as <- _]. destruct (la_identity a 0) as [i|]; [|done].
    injection Hi as <- ->. split; [done|]. intros _ _. destruct identity as [|value]; [by left|right].
    exists value. split; [done|]. destruct Hone as [?|Hone]; [done|]. split; [done|].
    intros Hn. by destruct (Htwo Hn).
Qed.

End reports.

(** ** A worktree review in the capsule *)

Section samples.
#[local] Instance local_repr : PyRepr := λ _, "<repr>".
#[local] Instance local_sha : Sha256 := λ _,
  "3cc769700bc97d6a13b1a9c3554b66453aa319cf229795e7cede4d917ff13f3b".
#[local] Instance local_loads : JsonLoads := sample_loads.
#[local] Instance local_targets : LineTargetsDataclass := λ _ _, false.

(** A changed-mode review whose one analyzer finding, which blocks, is on a
    line that did not change *)
Definition local_evidence : list (string * evidence_item) :=
  (λ mv, if String.eqb mv.1 "ruff" then (mv.1, dict_set "evidence_outcome" (VStr "FAIL") mv.2) else mv)
    <$> range_evidence.
Definition local_answers : LocalAnswers :=
  {| la_resources := sample_resources; la_backend := {| bs_kind := "linux-x86_64"; bs_environment_id := "" |};
     la_run_id := "1"; la_now := {| dt_wall_us := 0; dt_utcoffset_us := None |}; la_runtime := None;
     la_development_checkout := false; la_environ := λ _, None; la_repository := Some "/repo";
     la_cached_snapshot := None; la_tree_unmodified := true; la_identity := λ _, Some (Identity "tree");
     la_host := sample_answers;
     la_snapshot := {| csr_evidence := local_evidence; csr_findings_by_member := [("ruff", [blocking_finding])] |};
     la_expected_versions := None; la_platform_id := "linux-x86_64"; la_project_runtime := None;
     la_changed_lines := λ _, Some [("a.py", {[5%Z]})] |}.
Definition local_report : ReviewReport :=
  Eval vm_compute in ok_or (run_capsule_review id local_answers "worktree" (sample_options EmChanged)) failing_report.


(** The same review of a worktree another process changed meanwhile *)
Definition drifted_answers : LocalAnswers :=
  {| la_resources := sample_resources; la_backend := {| bs_kind := "linux-x86_64"; bs_environment_id := "" |};
     la_run_id := "1"; la_now := {| dt_wall_us := 0; dt_utcoffset_us := None |}; la_runtime := None;
     la_development_checkout := false; la_environ := λ _, None; la_repository := Some "/repo";
     la_cached_snapshot := None; la_tree_unmodified := true;
     la_identity := λ n, Some (Identity (if bool_decide (n = 2) then "edited" else "tree"));
     la_host := sample_answers;
     la_snapshot := {| csr_evidence := local_evidence; csr_findings_by_member := [("ruff", [blocking_finding])] |};
     la_expected_versions := None; la_platform_id := "linux-x86_64"; la_project_runtime := None;
     la_changed_lines := λ _, Some [("a.py", {[5%Z]})] |}.
Lemma drifted_is_unknown :
  local_failure id drifted_answers (sample_options EmChanged) ∧
  ((λ r, (rr_assurance_status r, rr_ci_exit_code r)) <$>
     match run_capsule_review id drifted_answers "worktree" (sample_options EmChanged) with Ok r => Some r | Err _ => None end)
  = Some (Some AUnknown, Some 1%Z).
Proof.
  split; [|vm_compute; reflexivity].
  apply (worktree_changed _ _ _ None (Identity "tree")); [vm_compute; reflexivity|].
  right. split; [done|]. intros [?|?]; discriminate.
Qed.
End samples.
