(* ===== verification/RunCommand.v ===== *)
(** RunCommand: the review run command, [specfact_code_review/run/commands.py]:
    building and validating a request, and accepting a finished Requirements
    proof as provenance.  The run itself is in [ReviewRun]. *)

From S2P Require Import Prelude Text Paths Dict PyValue Json Findings Assembly Scope Suppression Differential.
From S2P Require Import Lifecycle Cleanup Fixes.

(** * Requests *)

Module Request.

Inductive AutoScope := AutoChanged | AutoWorktree | AutoIndex | AutoRange | AutoFull.
#[export] Instance AutoScope_eq_dec : EqDecision AutoScope. Proof. solve_decision. Defined.

Record ReviewRunRequest := {
  q_files : list string;
  q_include_tests : bool;
  q_scope : option AutoScope;
  q_path_filters : option (list string);
  q_base_ref : option string;
  q_head_ref : option string;
  q_pr_context_file : option string;
  q_include_noise : bool;
  q_json_output : bool;
  q_out : option string;
  q_score_only : bool;
  q_no_tests : bool;
  q_fix : bool;
  q_preview_fixes : bool;
  q_with_mutation : bool;
  q_bug_hunt : bool;
  q_review_mode : enforcement_mode;
  q_review_level : option review_level;
  q_focus_facets : list string;
  q_review_focus : option ReviewFocus;
  q_requirements_evidence : option string;
  q_project_config : option string;
  q_project_runtime : option string
}.

(** Keyword arguments: paths, lists and tuples of arguments, and values *)
#[warnings="-register-all"]
Inductive arg := APath (path : string) | AList (l : list arg) | ATuple (l : list arg) | AValue (v : pyval).
(** [repr(value)] and [type(value).__name__] *)
Class ArgText := { arg_repr : arg → string; arg_type : arg → string }.

Definition path_of (a : arg) : option string := match a with APath p => Some p | _ => None end.
Definition text_of (a : arg) : option string := match a with AValue (VStr s) => Some s | _ => None end.
Fixpoint all_some {A B} (f : A → option B) (l : list A) : option (list B) :=
  match l with
  | [] => Some []
  | x :: l => match f x, all_some f l with Some y, Some ys => Some (y :: ys) | _, _ => None end
  end.

Definition parse_scope (s : string) : option AutoScope :=
  if String.eqb s "changed" then Some AutoChanged else if String.eqb s "worktree" then Some AutoWorktree
  else if String.eqb s "index" then Some AutoIndex else if String.eqb s "range" then Some AutoRange
  else if String.eqb s "full" then Some AutoFull else None.

Section build.
Context `{ArgText}.
Abbreviation kwargs := (list (string * arg)).

Definition _as_auto_scope (value : arg) : result (option AutoScope) :=
  let bad := Err (RunCommandError ("Invalid scope value: " +:+ arg_repr value)) in
  match value with
  | AValue VNone => Ok None
  | AValue (VStr s) => match parse_scope s with Some scope => Ok (Some scope) | None => bad end
  | _ => bad
  end.
Definition _as_path_filters (value : arg) : result (option (list string)) :=
  let bad := Err (RunCommandError "Path filters must be a list of Path instances.") in
  match value with
  | AValue VNone => Ok None
  | AList l => match all_some path_of l with Some paths => Ok (Some paths) | None => bad end
  | AValue (VList []) => Ok (Some [])
  | _ => bad
  end.
Definition _as_optional_path (value : arg) : result (option string) :=
  match value with
  | AValue VNone => Ok None
  | APath p => Ok (Some p)
  | _ => Err (RunCommandError "Output path must be a Path instance.")
  end.
Definition _as_review_mode (value : arg) : result enforcement_mode :=
  let bad := Err (RunCommandError ("Invalid review mode: " +:+ arg_repr value)) in
  match value with
  | AValue VNone => Ok EmChanged
  | AValue (VStr s) =>
      if String.eqb s "enforce" || String.eqb s "full" then Ok EmFull
      else if String.eqb s "changed" then Ok EmChanged
      else if String.eqb s "shadow" then Ok EmShadow else bad
  | _ => bad
  end.
Definition _as_review_level (value : arg) : result (option review_level) :=
  let bad := Err (RunCommandError ("Invalid review level: " +:+ arg_repr value)) in
  match value with
  | AValue VNone => Ok None
  | AValue (VStr s) =>
      if String.eqb s "error" then Ok (Some LevelError)
      else if String.eqb s "warning" then Ok (Some LevelWarning) else bad
  | _ => bad
  end.
Definition focus_facets_of (items : option (list string)) : result (list string) :=
  match items with
  | None => Err (RunCommandError "focus facets must be a list or tuple of strings")
  | Some items =>
      match find (λ item, negb (bool_decide (item ∈ ["source"; "tests"; "docs"; "simplify"]))) items with
      | Some item => Err (RunCommandError ("Invalid focus facet: " +:+ arg_repr (AValue (VStr item))))
      | None => Ok items
      end
  end.
Definition value_text (v : pyval) : option string := match v with VStr s => Some s | _ => None end.
Definition _as_focus_facets (value : arg) : result (list string) :=
  match value with
  | AValue VNone => Ok []
  | AList l | ATuple l => focus_facets_of (all_some text_of l)
  | AValue (VList l) | AValue (VTuple l) => focus_facets_of (all_some value_text l)
  | _ => focus_facets_of None
  end.
Definition _review_focus_from_facets (facets : list string) : option ReviewFocus :=
  if bool_decide ("simplify" ∈ facets) then Some Simplify else None.

(** [request_kwargs.pop(name, None)] *)
Definition pop (name : string) (k : kwargs) : arg := default (AValue VNone) (dict_get name k).
Definition _get_bool_param (name : string) (k : kwargs) : result bool :=
  match pop name k with
  | AValue VNone => Ok false
  | AValue (VBool b) => Ok b
  | v => Err (RunCommandError (name +:+ " must be a boolean, got " +:+ arg_type v))
  end.
Definition get_ref (name : string) (k : kwargs) : result (option string) :=
  match pop name k with
  | AValue VNone => Ok None
  | AValue (VStr s) => Ok (Some s)
  | _ => Err (RunCommandError (name +:+ " must be a string"))
  end.
Definition known_options : list string :=
  ["include_tests"; "scope"; "path_filters"; "out"; "requirements_evidence"; "base_ref"; "head_ref";
   "pr_context_file"; "focus_facets"; "include_noise"; "json_output"; "score_only"; "no_tests"; "fix";
   "preview_fixes"; "with_mutation"; "bug_hunt"; "review_mode"; "review_level"; "project_config";
   "project_runtime"].

Definition _build_review_run_request (files : list string) (k : kwargs) : result ReviewRunRequest :=
  let! include_tests := _get_bool_param "include_tests" k in
  let! scope := _as_auto_scope (pop "scope" k) in
  let! path_filters := _as_path_filters (pop "path_filters" k) in
  let! out := _as_optional_path (pop "out" k) in
  let! requirements_evidence := _as_optional_path (pop "requirements_evidence" k) in
  let! base_ref := get_ref "base_ref" k in
  let! head_ref := get_ref "head_ref" k in
  let! pr_context_file := _as_optional_path (pop "pr_context_file" k) in
  let! focus_facets := _as_focus_facets (pop "focus_facets" k) in
  let! include_noise := _get_bool_param "include_noise" k in
  let! json_output := _get_bool_param "json_output" k in
  let! score_only := _get_bool_param "score_only" k in
  let! no_tests := _get_bool_param "no_tests" k in
  let! fix_option := _get_bool_param "fix" k in
  let! preview_fixes := _get_bool_param "preview_fixes" k in
  let! with_mutation := _get_bool_param "with_mutation" k in
  let! bug_hunt := _get_bool_param "bug_hunt" k in
  let! review_mode := _as_review_mode (default (AValue (VStr "changed")) (dict_get "review_mode" k)) in
  let! review_level := _as_review_level (pop "review_level" k) in
  let! project_config := _as_optional_path (pop "project_config" k) in
  let! project_runtime := _as_optional_path (pop "project_runtime" k) in
  let rest := List.filter (λ key, negb (bool_decide (key ∈ known_options))) (dict_keys k) in
  let! _ := check (bool_decide (rest = []))
    (RunCommandError ("Unexpected keyword arguments: " +:+ join ", " (sorted rest))) in
  Ok {| q_files := files; q_include_tests := include_tests; q_scope := scope; q_path_filters := path_filters;
        q_base_ref := base_ref; q_head_ref := head_ref; q_pr_context_file := pr_context_file;
        q_include_noise := include_noise; q_json_output := json_output; q_out := out;
        q_score_only := score_only; q_no_tests := no_tests; q_fix := fix_option;
        q_preview_fixes := preview_fixes; q_with_mutation := with_mutation; q_bug_hunt := bug_hunt;
        q_review_mode := review_mode; q_review_level := review_level; q_focus_facets := focus_facets;
        q_review_focus := _review_focus_from_facets focus_facets;
        q_requirements_evidence := requirements_evidence; q_project_config := project_config;
        q_project_runtime := project_runtime |}.
End build.

(** * Validation *)

Definition InvalidOptionCombinationError (msg : string) : exn := OtherError "InvalidOptionCombinationError".
Definition MissingOutForJsonError (msg : string) : exn := OtherError "MissingOutForJsonError".

Definition _raise_if_targeting_styles_conflict (files : list string) (scope : option AutoScope)
    (path_filters : list string) : result unit :=
  let conflict := ConflictingScopeError "Choose positional files or auto-scope controls, not both." in
  let! _ := check (negb (bool_decide (files ≠ []) && has_some scope)) conflict in
  check (negb (bool_decide (files ≠ []) && bool_decide (path_filters ≠ []))) conflict.
Definition _validate_output_options (q : ReviewRunRequest) : result unit :=
  let! _ := check (negb (q_json_output q && q_score_only q))
    (InvalidOptionCombinationError "Use either --json or --score-only, not both.") in
  check (q_json_output q || negb (has_some (q_out q))) (MissingOutForJsonError "Use --out together with --json.").
Definition _validate_simplification_options (q : ReviewRunRequest) : result unit :=
  let simplify := bool_decide (q_review_focus q = Some Simplify) in
  let! _ := check (negb (q_preview_fixes q && q_fix q))
    (InvalidOptionCombinationError "Cannot combine --preview-fixes with --fix.") in
  let! _ := check (negb (q_preview_fixes q) || simplify)
    (InvalidOptionCombinationError "Use --preview-fixes only with --focus simplify.") in
  check (negb (q_with_mutation q) || simplify)
    (InvalidOptionCombinationError "Use --with-mutation only with --focus simplify.").
Definition _validate_immutable_scope_options (q : ReviewRunRequest) : result unit :=
  let immutable_options := has_some (q_base_ref q) || has_some (q_head_ref q) || has_some (q_pr_context_file q) in
  let range := bool_decide (q_scope q = Some AutoRange) in
  let! _ := check (negb immutable_options || range)
    (InvalidOptionCombinationError "--base-ref, --head-ref, and --pr-context-file require --scope range.") in
  let! _ := check (negb range || (has_some (q_base_ref q) && has_some (q_head_ref q)))
    (InvalidOptionCombinationError "--scope range requires both --base-ref and --head-ref.") in
  check (match q_pr_context_file q with Some p => is_absolute p | None => true end)
    (InvalidOptionCombinationError "--pr-context-file must be an absolute path.").
Definition _validate_review_request (q : ReviewRunRequest) : result unit :=
  let! _ := _raise_if_targeting_styles_conflict (q_files q) (q_scope q) (default [] (q_path_filters q)) in
  let! _ := _validate_output_options q in
  let! _ := _validate_simplification_options q in
  _validate_immutable_scope_options q.

Definition with_focus (focus : option ReviewFocus) (q : ReviewRunRequest) : ReviewRunRequest :=
  match q with
  | Build_ReviewRunRequest fs it sc pf br hr pc ino js ou so nt fx pv wm bh rm rl ff _ re pcf pr =>
      Build_ReviewRunRequest fs it sc pf br hr pc ino js ou so nt fx pv wm bh rm rl ff focus re pcf pr
  end.
Definition _normalize_review_request (q : ReviewRunRequest) : ReviewRunRequest :=
  if has_some (q_review_focus q) || negb (bool_decide ("simplify" ∈ q_focus_facets q)) then q
  else with_focus (_review_focus_from_facets (q_focus_facets q)) q.
End Request.

(** * Requirements provenance *)

Module Provenance.
Import Request.

(** [json.loads(path.read_bytes())]: a parameter, [None] when the file cannot
    be read or is not JSON. *)
Class EvidenceFiles := evidence_json : string → option pyval.

(** [json.dumps(value, ensure_ascii=False, separators=(",", ":"),
    sort_keys=True)] of what [json.loads] returns *)
Definition float_json `{PyRepr} (f : spec_float) : string :=
  match f with
  | S754_nan => "NaN"
  | S754_infinity s => if s then "-Infinity" else "Infinity"
  | _ => py_repr (VFloat f)
  end.
Definition key_text (v : pyval) : string := match v with VStr s => s | _ => "" end.
Definition json_text (s : string) : list ascii := dquote :: escape_string false s ++ [dquote].
Fixpoint canonical_json `{PyRepr} (v : pyval) : list ascii :=
  match v with
  | VBool b => chars (if b then "true" else "false")
  | VInt z => chars (pretty z)
  | VFloat f => chars (float_json f)
  | VStr s => json_text s
  | VList l | VTuple l => "["%char :: commas (map canonical_json l) ++ ["]"%char]
  | VDict d =>
      "{"%char ::
      commas (map (λ kv : string * list ascii, json_text kv.1 ++ ":"%char :: kv.2)
                (sort_by fst (map (λ kv : pyval * pyval, (key_text kv.1, canonical_json kv.2)) d)))
      ++ ["}"%char]
  | _ => chars "null"
  end.
Definition _canonical_json_digest `{PyRepr, Sha256} (value : list (pyval * pyval)) : string :=
  sha256_digest (utf8 (canonical_json (VDict value))).

Definition _is_sha256_digest (value : pyval) : bool :=
  match value with
  | VStr s => (String.length s =? 71)%nat && startswith "sha256:" s && forallb is_hex_lower (drop 7 (chars s))
  | _ => false
  end.

Section proof.
Context `{PyRepr} `{Sha256}.

(** The Requirements producer's own plan identity *)
Definition _requirements_plan_digest (mapping_digest : string) (cases : list (list (pyval * pyval))) :
    result string :=
  let! plan := build_plan mapping_digest cases in
  let! digest := vitem "plan_digest" plan in
  Ok (py_str digest).

(** [_is_complete_plan]; the last argument is [None] when it is left out. *)
Definition _is_complete_plan (plan mapping_digest : pyval) (plan_digest : option pyval) : result bool :=
  match plan with
  | VDict plan =>
      match vget "cases" plan with
      | VList cases =>
          if negb (bool_decide (vget "mapping_digest" plan = mapping_digest)) then Ok false
          else if bool_decide (cases = []) || negb (_is_sha256_digest (vget "plan_digest" plan)) then Ok false
          else
            match mapping_digest with
            | VStr md =>
                if negb (forallb (λ c, match c with VDict _ => true | _ => false end) cases) then Ok false
                else
                  let! digest := _requirements_plan_digest md (mapping_cases cases) in
                  if negb (is_str digest (vget "plan_digest" plan)) then Ok false
                  else Ok (match plan_digest with
                           | None | Some VNone => true
                           | Some d => bool_decide (vget "plan_digest" plan = d)
                           end)
            | _ => Ok false
            end
      | _ => Ok false
      end
  | _ => Ok false
  end.

Definition _passing_proof_basis_is_complete (decoded execution_proof : list (pyval * pyval)) : bool :=
  if negb (is_str "pass" (vget "gate_decision" decoded)) then true
  else if is_str "red-junit" (vget "proof_basis" execution_proof) then true
  else if negb (is_str "legacy-tdd-ledger" (vget "proof_basis" execution_proof)) then false
  else
    match vget "legacy_tdd_evidence" decoded with
    | VDict legacy =>
        is_str "1" (vget "schema_version" legacy) && is_str "legacy-tdd-ledger" (vget "kind" legacy)
        && match vget "change_id" legacy with VStr s => bool_decide (s ≠ "") | _ => false end
        && _is_sha256_digest (vget "ledger_digest" legacy)
        && bool_decide (vget "mapping_digest" legacy = vget "mapping_digest" decoded)
        && bool_decide (vget "plan_digest" legacy = vget "plan_digest" decoded)
    | _ => false
    end.

(** [all((...))]: every entry is computed first. *)
Definition _proof_fields_are_complete (decoded execution_proof : list (pyval * pyval)) : result bool :=
  let mapping_digest := vget "mapping_digest" decoded in
  let plan_digest := vget "plan_digest" decoded in
  match vget "findings" decoded, vget "selectors" execution_proof with
  | VList findings, VList selectors =>
      let! observed := in_set (vget "observed_maturity" decoded) ["verified"; "incomplete"] in
      let! plan := _is_complete_plan (vget "plan" decoded) mapping_digest (Some plan_digest) in
      let! execution_plan := _is_complete_plan (vget "execution_plan" decoded) mapping_digest None in
      Ok (is_str "verified" (vget "required_maturity" decoded) && observed
          && _is_sha256_digest mapping_digest && _is_sha256_digest plan_digest
          && forallb (λ f, match f with VStr _ => true | _ => false end) findings
          && plan && execution_plan && _is_sha256_digest (vget "junit_digest" execution_proof)
          && bool_decide (selectors ≠ [])
          && forallb (λ s, match s with VStr t => bool_decide (t ≠ "") | _ => false end) selectors
          && _passing_proof_basis_is_complete decoded execution_proof)
  | _, _ => Ok false
  end.

Definition selector_of_case (case : pyval) : option string :=
  match case with
  | VDict c =>
      if is_str "test" (vget "method" c) then match vget "node_id" c with VStr s => Some s | _ => None end
      else None
  | _ => None
  end.
(** A complete plan has a list of cases. *)
Definition _execution_plan_selectors (execution_plan : list (pyval * pyval)) : gset string :=
  match vget "cases" execution_plan with
  | VList cases => list_to_set (omap selector_of_case cases)
  | _ => ∅
  end.

Definition _proof_decision_is_consistent (decoded : list (pyval * pyval)) (findings : list pyval) : bool :=
  Bool.eqb (is_str "pass" (vget "gate_decision" decoded))
    (is_str "verified" (vget "observed_maturity" decoded) && bool_decide (findings = [])).

Definition _is_complete_final_requirements_proof (decoded execution_proof : list (pyval * pyval)) : result bool :=
  match vget "execution_plan" decoded, vget "findings" decoded, vget "selectors" execution_proof with
  | VDict execution_plan, VList findings, VList selectors =>
      let! complete := _proof_fields_are_complete decoded execution_proof in
      if negb complete then Ok false
      else
        let expected_selectors := _execution_plan_selectors execution_plan in
        if bool_decide (expected_selectors = ∅)
           || negb (bool_decide (selectors = VStr <$> sorted_set expected_selectors))
        then Ok false
        else Ok (_proof_decision_is_consistent decoded findings)
  | _, _, _ => Ok false
  end.

(** [RequirementsEvidenceContext.model_validate(values)]: [None] is a
    [ValidationError]. *)
Definition parse_gate (v : pyval) : option gate :=
  match v with VStr s => if String.eqb s "pass" then Some GatePass
                         else if String.eqb s "fail" then Some GateFail else None
             | _ => None end.
Definition context_of_values (path content_digest : string) (mapping_digest plan_digest source_ref decision : pyval) :
    option RequirementsEvidenceContext :=
  match mapping_digest, plan_digest, source_ref, parse_gate decision with
  | VStr md, VStr pd, VStr ref, Some decision =>
      match validate_RequirementsEvidenceContext
              {| rec_path := path; rec_content_digest := content_digest; rec_mapping_digest := md;
                 rec_plan_digest := pd; rec_source_ref := ref; rec_gate_decision := decision |} with
      | Ok c => Some c
      | Err _ => None
      end
  | _, _, _, _ => None
  end.

Definition context_of_proof (path : string) (decoded : list (pyval * pyval)) :
    result RequirementsEvidenceContext :=
  let! _ := check (is_str "2" (vget "schema_version" decoded))
    (RunCommandError "finalized Requirements evidence must have schema_version=2") in
  let stage_error := RunCommandError "finalized Requirements evidence must have execution_proof.run_stage=final" in
  match vget "execution_proof" decoded with
  | VDict execution_proof =>
      let! _ := check (is_str "final" (vget "run_stage" execution_proof)) stage_error in
      let! complete := _is_complete_final_requirements_proof decoded execution_proof in
      let! _ := check complete
        (RunCommandError "finalized Requirements evidence must be a complete final Requirements proof") in
      match context_of_values path (_canonical_json_digest decoded) (vget "mapping_digest" decoded)
              (vget "plan_digest" decoded) (vget "source_ref" execution_proof) (vget "gate_decision" decoded) with
      | Some context => Ok context
      | None => Err (RunCommandError "finalized Requirements evidence has invalid provenance")
      end
  | _ => Err stage_error
  end.
Definition _requirements_evidence_context `{EvidenceFiles} (path : string) : result RequirementsEvidenceContext :=
  match evidence_json path with
  | None => Err (RunCommandError "finalized Requirements evidence must be readable JSON")
  | Some (VDict decoded) => context_of_proof (as_posix path) decoded
  | Some _ => Err (RunCommandError "finalized Requirements evidence must contain a JSON object")
  end.
End proof.

Definition with_requirements (context : RequirementsEvidenceContext) (r : ReviewReport) : ReviewReport :=
  match r with
  | Build_ReviewReport sv id t ov ec st un sc ev di so rd fs su ss cf em es _ hr =>
      Build_ReviewReport sv id t ov ec st un sc ev di so rd fs su ss cf em es (Some context) hr
  end.
Definition _attach_requirements_evidence (report : ReviewReport) (context : RequirementsEvidenceContext) :
    ReviewReport :=
  with_schema_version (if schema_version_at_least (rr_schema_version report) 5 then rr_schema_version report else "1.5")
    (with_requirements context report).
End Provenance.
