(* ===== verification/RunCommandProofs.v ===== *)
(** RunCommandProofs: a Requirements proof is accepted as provenance only when
    it is a complete one, and the proofs the Requirements lifecycle writes are
    accepted. *)

From S2P Require Import Prelude Text Regex Paths Dict PyValue Json Findings FindingsProofs Assembly Scope.
From S2P Require Import Lifecycle DigestProofs LifecycleProofs Cleanup Fixes RunCommand.

Import Request Provenance.

(** * Digests *)

Lemma sha256_text_shape s :
  ((String.length s =? 71)%nat && startswith "sha256:" s && forallb is_hex_lower (drop 7 (chars s)))
  = is_sha256_text s.
Proof.
  apply eq_bool_prop_intro. rewrite !Is_true_true. unfold is_sha256_text, hex_run.
  rewrite !andb_true_iff, !Nat.eqb_eq, bool_decide_eq_true, length_drop, length_chars. split.
  - intros [[Hl [t ->]%startswith_iff] Hh]. rewrite chars_app. split_and!; [done|lia|by rewrite chars_app in Hh].
  - intros (Ht & Hl & Hh). split_and!; [|apply startswith_iff|done].
    + assert (length (take 7 (chars s)) = 7) as H7 by by rewrite Ht.
      rewrite length_take, length_chars in H7. lia.
    + exists (of_chars (drop 7 (chars s))).
      rewrite <-(of_chars_chars s), <-(take_drop 7 (chars s)) at 1. rewrite Ht. by rewrite of_chars_app.
Qed.

Lemma is_sha256_digest_iff v : Provenance._is_sha256_digest v = true ↔ _is_digest v = true.
Proof. destruct v; try done. cbn. by rewrite sha256_text_shape. Qed.

Lemma is_digest_inv v : _is_digest v = true → ∃ s, v = VStr s ∧ is_sha256_text s = true.
Proof. destruct v; try done. eauto. Qed.

(** * What an accepted proof is *)

Section proof.
Context `{PyRepr} `{Sha256}.

(** A plan whose digest is the one of its cases *)
Definition genuine_plan (md : string) (plan : pyval) (cases : list (list (pyval * pyval))) (digest : string) : Prop :=
  ∃ d expected, plan = VDict d ∧ vget "mapping_digest" d = VStr md ∧ vget "cases" d = VList (VDict <$> cases)
    ∧ cases ≠ [] ∧ vget "plan_digest" d = VStr digest ∧ build_plan md cases = Ok expected
    ∧ vget "plan_digest" expected = VStr digest.

Lemma mapping_cases_all l :
  forallb (λ c, match c with VDict _ => true | _ => false end) l = true → l = VDict <$> mapping_cases l.
Proof.
  induction l as [|v l IH]; [done|]. cbn. destruct v; try done. intros Hl. cbn. f_equal. by apply IH.
Qed.

Lemma requirements_plan_digest_iff md cases digest :
  _requirements_plan_digest md cases = Ok digest ↔
  ∃ plan, build_plan md cases = Ok plan ∧ vget "plan_digest" plan = VStr digest.
Proof.
  unfold _requirements_plan_digest. split.
  - intros (plan & Hb & (v & Hv & [= <-])%res_bind_Ok)%res_bind_Ok. exists plan. split; [done|].
    destruct (build_plan_inv _ _ _ Hb) as (o & x & _ & _ & _ & _ & Hx). unfold vitem in Hv. unfold vget in *.
    destruct (dict_get _ plan); [|done]. injection Hv as ->. cbn in *. by subst v.
  - intros (plan & -> & Hd). cbn [res_bind]. unfold vitem. unfold vget in Hd.
    destruct (dict_get _ plan); [|done]. cbn in *. by subst.
Qed.

Lemma complete_plan_inv plan md digest :
  _is_complete_plan plan (VStr md) digest = Ok true →
  ∃ cases d, genuine_plan md plan cases d ∧ is_sha256_text d = true
    ∧ (∀ v, digest = Some v → v ≠ VNone → v = VStr d).
Proof.
  unfold _is_complete_plan. destruct plan as [| | | | | | | | |plan| |]; try done.
  destruct (vget "cases" plan) as [| | | | | | |cases| | | |] eqn:Hc; try done.
  destruct (bool_decide_reflect (vget "mapping_digest" plan = VStr md)) as [Hm|]; cbn [negb]; [|done].
  destruct (bool_decide_reflect (cases = [])) as [|Hne]; cbn [orb]; [done|].
  destruct (Provenance._is_sha256_digest (vget "plan_digest" plan)) eqn:Hd; cbn [negb]; [|done].
  apply is_sha256_digest_iff, is_digest_inv in Hd as (d & Hd & Hsha).
  destruct (forallb _ cases) eqn:Hall; cbn [negb]; [|done]. apply mapping_cases_all in Hall.
  intros (x & Hx & E)%res_bind_Ok. rewrite Hd in E.
  destruct (is_str x (VStr d)) eqn:Hxd; cbn [negb] in E; [|done].
  apply is_str_true in Hxd. injection Hxd as <-.
  apply requirements_plan_digest_iff in Hx as (expected & Hb & He).
  exists (mapping_cases cases), d. split; [|split; [done|]].
  - exists plan, expected. rewrite <-Hall. split_and!; try done. intros Hnil. rewrite Hnil in Hall. done.
  - intros v -> Hv. injection E as E. destruct v; try done; apply bool_decide_eq_true in E; by simplify_eq.
Qed.

Lemma complete_plan_ok plan md cases d digest :
  genuine_plan md plan cases d → is_sha256_text d = true → (digest = None ∨ digest = Some (VStr d)) →
  _is_complete_plan plan (VStr md) digest = Ok true.
Proof.
  intros (p & expected & -> & Hm & Hc & Hne & Hd & Hb & He) Hsha Hdig. unfold _is_complete_plan.
  rewrite Hc, Hm, bool_decide_eq_true_2 by done. cbn [negb].
  rewrite bool_decide_eq_false_2 by by destruct cases. cbn [orb]. rewrite Hd.
  rewrite (proj2 (is_sha256_digest_iff (VStr d)) Hsha). cbn [negb].
  assert (forallb (λ c, match c with VDict _ => true | _ => false end) (VDict <$> cases) = true) as ->
    by (apply forallb_forall; intros c (x & -> & _)%list_elem_of_In%list_elem_of_fmap; done).
  cbn [negb]. rewrite mapping_cases_dicts.
  rewrite (proj2 (requirements_plan_digest_iff md cases d)) by eauto. cbn [res_bind].
  rewrite (proj2 (is_str_true d (VStr d)) eq_refl). cbn [negb].
  destruct Hdig as [->| ->]; [done|]. by rewrite bool_decide_eq_true_2.
Qed.

(** The basis a passing proof needs *)
Definition basis_recorded (r proof : list (pyval * pyval)) (md pd : string) : Prop :=
  vget "proof_basis" proof = VStr "red-junit" ∨
  vget "proof_basis" proof = VStr "legacy-tdd-ledger" ∧
  ∃ legacy, vget "legacy_tdd_evidence" r = VDict legacy
    ∧ vget "schema_version" legacy = VStr "1" ∧ vget "kind" legacy = VStr "legacy-tdd-ledger"
    ∧ (∃ s, vget "change_id" legacy = VStr s ∧ s ≠ "") ∧ _is_digest (vget "ledger_digest" legacy) = true
    ∧ vget "mapping_digest" legacy = VStr md ∧ vget "plan_digest" legacy = VStr pd.

Lemma proof_basis_complete r proof md pd :
  vget "mapping_digest" r = VStr md → vget "plan_digest" r = VStr pd →
  _passing_proof_basis_is_complete r proof = true ↔
  (vget "gate_decision" r = VStr "pass" → basis_recorded r proof md pd).
Proof.
  intros Hm Hp. unfold _passing_proof_basis_is_complete, basis_recorded. rewrite Hm, Hp.
  destruct (is_str "pass" (vget "gate_decision" r)) eqn:Hg; cbn [negb].
  2: { split; [|done]. intros _ Hpass. apply is_str_true in Hpass. congruence. }
  apply is_str_true in Hg.
  destruct (is_str "red-junit" (vget "proof_basis" proof)) eqn:Hr; [apply is_str_true in Hr; split; [by intros _ _; left|done]|].
  assert (vget "proof_basis" proof ≠ VStr "red-junit") as Hnr by (by intros ?%is_str_true; congruence).
  destruct (is_str "legacy-tdd-ledger" (vget "proof_basis" proof)) eqn:Hl; cbn [negb].
  2: { split; [done|]. intros Hb. destruct (Hb Hg) as [|[?%is_str_true _]]; [done|congruence]. }
  apply is_str_true in Hl. split.
  - intros Hb _. right. split; [done|]. destruct (vget "legacy_tdd_evidence" r) as [| | | | | | | | |legacy| |]; try done.
    bool_hyps. repeat match goal with E : is_str _ _ = true |- _ => apply is_str_true in E end.
    exists legacy. split_and!; try done; [|by apply is_sha256_digest_iff].
    destruct (vget "change_id" legacy); try done. bool_hyps. eauto.
  - intros Hb. destruct (Hb Hg) as [|(_ & legacy & -> & E1 & E2 & (s & E3 & Hs) & E4 & E5 & E6)]; [done|].
    rewrite E1, E2, E3, E5, E6, !(proj2 (is_str_true _ _) eq_refl), !bool_decide_eq_true_2 by done.
    by rewrite (proj2 (is_sha256_digest_iff _) E4).
Qed.
End proof.

Section accepted.
Context `{PyRepr} `{Sha256}.

(** The exact tests of a list of cases, as the proof must name them *)
Definition named_tests (cases : list (list (pyval * pyval))) : list string :=
  sorted_set (list_to_set (omap selector_of_case (VDict <$> cases))).

(** What the document behind an accepted context is *)
Definition proof_behind (r : list (pyval * pyval)) (c : RequirementsEvidenceContext) : Prop :=
  ∃ proof cases exec_cases exec_digest findings,
    vget "schema_version" r = VStr "2" ∧ vget "execution_proof" r = VDict proof
    ∧ vget "run_stage" proof = VStr "final" ∧ vget "required_maturity" r = VStr "verified"
    ∧ vget "mapping_digest" r = VStr (rec_mapping_digest c) ∧ vget "plan_digest" r = VStr (rec_plan_digest c)
    ∧ vget "source_ref" proof = VStr (rec_source_ref c) ∧ _is_digest (vget "junit_digest" proof) = true
    ∧ rec_content_digest c = _canonical_json_digest r
    ∧ genuine_plan (rec_mapping_digest c) (vget "plan" r) cases (rec_plan_digest c)
    ∧ genuine_plan (rec_mapping_digest c) (vget "execution_plan" r) exec_cases exec_digest
    ∧ vget "selectors" proof = VList (VStr <$> named_tests exec_cases) ∧ named_tests exec_cases ≠ []
    ∧ vget "findings" r = VList findings
    ∧ (rec_gate_decision c = GatePass ↔ vget "observed_maturity" r = VStr "verified" ∧ findings = [])
    ∧ (rec_gate_decision c = GatePass →
         basis_recorded r proof (rec_mapping_digest c) (rec_plan_digest c)).

Lemma proof_fields_inv r proof :
  _proof_fields_are_complete r proof = Ok true →
  ∃ findings selectors md pd, vget "findings" r = VList findings ∧ vget "selectors" proof = VList selectors
    ∧ vget "mapping_digest" r = VStr md ∧ vget "plan_digest" r = VStr pd
    ∧ vget "required_maturity" r = VStr "verified" ∧ _is_digest (vget "junit_digest" proof) = true
    ∧ _is_complete_plan (vget "plan" r) (VStr md) (Some (VStr pd)) = Ok true
    ∧ _is_complete_plan (vget "execution_plan" r) (VStr md) None = Ok true
    ∧ selectors ≠ [] ∧ _passing_proof_basis_is_complete r proof = true.
Proof.
  unfold _proof_fields_are_complete.
  destruct (vget "findings" r) as [| | | | | | |findings| | | |] eqn:Hf; try done.
  destruct (vget "selectors" proof) as [| | | | | | |selectors| | | |] eqn:Hs; try done.
  intros (observed & _ & (p1 & H1 & (p2 & H2 & [= E])%res_bind_Ok)%res_bind_Ok)%res_bind_Ok. bool_hyps. subst p1 p2.
  repeat match goal with E : Provenance._is_sha256_digest _ = true |- _ => apply is_sha256_digest_iff in E end.
  repeat match goal with E : is_str _ _ = true |- _ => apply is_str_true in E end.
  destruct (is_digest_inv (vget "mapping_digest" r)) as (md & Hm & _); [done|].
  destruct (is_digest_inv (vget "plan_digest" r)) as (pd & Hp & _); [done|].
  rewrite Hm in *. rewrite Hp in *. exists findings, selectors, md, pd. by split_and!.
Qed.

Lemma context_of_values_inv path digest md pd ref decision c :
  context_of_values path digest md pd ref decision = Some c →
  md = VStr (rec_mapping_digest c) ∧ pd = VStr (rec_plan_digest c) ∧ ref = VStr (rec_source_ref c)
  ∧ rec_content_digest c = digest
  ∧ decision = VStr (match rec_gate_decision c with GatePass => "pass" | GateFail => "fail" end).
Proof.
  unfold context_of_values. destruct md, pd, ref; try done.
  destruct (parse_gate decision) as [g|] eqn:Hg; [|done].
  destruct (validate_RequirementsEvidenceContext _) as [x|] eqn:Hx; [|done]. intros [= <-].
  unfold validate_RequirementsEvidenceContext in Hx. res_inv. subst x. cbn. split_and!; try done.
  unfold parse_gate in Hg. destruct decision; try done.
  destruct (String.eqb_spec s2 "pass") as [->|]; [by injection Hg as <-|].
  destruct (String.eqb_spec s2 "fail") as [->|]; [by injection Hg as <-|done].
Qed.

Lemma sorted_tests_nonempty (X : gset string) : X ≠ ∅ → sorted_set X ≠ [].
Proof. intros HX E. by apply sorted_set_nil_iff in E. Qed.

(** C22 A Requirements proof enters a review report only when it holds
    together: when [_requirements_evidence_context] accepts a document, it is a
    final proof at required maturity verified with a digest of the JUnit file,
    both its plans carry the digest recomputed from their own cases and the
    mapping digest the context records, the selectors it proves are exactly the
    test selectors of its execution plan and there is one, its decision is pass
    exactly when it observed verified without findings, and a passing one
    records a red run or a legacy ledger bound to the same two digests. *)
Theorem accepted_provenance path r c : context_of_proof path r = Ok c → proof_behind r c.
Proof.
  unfold context_of_proof. intros E. apply res_bind_Ok in E as ([] & Hschema & E).
  unfold check in Hschema. destruct (is_str "2" _) eqn:H2 in Hschema; [|done]. apply is_str_true in H2.
  destruct (vget "execution_proof" r) as [| | | | | | | | |proof| |] eqn:Hproof; try done.
  apply res_bind_Ok in E as ([] & Hstage & E). unfold check in Hstage.
  destruct (is_str "final" _) eqn:H3 in Hstage; [|done]. apply is_str_true in H3.
  apply res_bind_Ok in E as (complete & Hcomplete & E). apply res_bind_Ok in E as ([] & Hcheck & E).
  destruct complete; [|done].
  destruct (context_of_values _ _ _ _ _ _) as [c'|] eqn:Hc; [|done]. injection E as ->.
  apply context_of_values_inv in Hc as (Hmd & Hpd & Href & Hdigest & Hgate).
  unfold _is_complete_final_requirements_proof in Hcomplete.
  destruct (vget "execution_plan" r) as [| | | | | | | | |eplan| |] eqn:Heplan; try done.
  destruct (vget "findings" r) as [| | | | | | |findings| | | |] eqn:Hf; try done.
  destruct (vget "selectors" proof) as [| | | | | | |selectors| | | |] eqn:Hs; try done.
  apply res_bind_Ok in Hcomplete as ([] & Hfields & E); cbn [negb] in E; [|done].
  apply proof_fields_inv in Hfields as (fs & ss & md & pd & Hf' & Hs' & Hm & Hp & Hreq & Hj & H1 & H4 & _ & Hbasis).
  rewrite Hm in Hmd. rewrite Hp in Hpd. injection Hmd as ->. injection Hpd as ->.
  apply complete_plan_inv in H1 as (cases & d1 & Hg1 & _ & Hd1).
  apply complete_plan_inv in H4 as (ecases & d2 & Hg2 & _ & _).
  assert (d1 = rec_plan_digest c) as -> by (specialize (Hd1 _ eq_refl ltac:(done)); congruence).
  rewrite Heplan in Hg2. destruct Hg2 as (ed & expected & [= <-] & He1 & He2 & He3).
  unfold _execution_plan_selectors in E. rewrite He2 in E.
  destruct (bool_decide_reflect (list_to_set (omap selector_of_case (VDict <$> ecases)) = (∅ : gset string)))
    as [|Hne]; cbn [orb] in E; [done|].
  destruct (bool_decide_reflect (selectors = VStr <$> sorted_set (list_to_set (omap selector_of_case (VDict <$> ecases)))))
    as [->|]; cbn [negb] in E; [|done].
  injection E as Hcons. unfold _proof_decision_is_consistent in Hcons. apply Bool.eqb_prop in Hcons.
  assert (Hpass : rec_gate_decision c = GatePass ↔ is_str "pass" (vget "gate_decision" r) = true).
  { rewrite is_str_true, Hgate. by destruct (rec_gate_decision c). }
  exists proof, cases, ecases, d2, findings. rewrite Heplan.
  split_and!; try done.
  - by exists eplan, expected.
  - by apply sorted_tests_nonempty.
  - rewrite Hpass, Hcons, andb_true_iff, is_str_true, bool_decide_eq_true. done.
  - intros Hg. apply (proof_basis_complete r proof _ _ Hm Hp); [done|]. by apply is_str_true, Hpass.
Qed.
End accepted.

(** * The proofs of the Requirements lifecycle *)

Section lifecycle.
Context `{PyRepr} `{Sha256} `{ParseXml}.

Lemma mapping_cases_length l : length (mapping_cases l) = length l → l = VDict <$> mapping_cases l.
Proof.
  assert (Hle : ∀ l, length (mapping_cases l) ≤ length l).
  { intros k. induction k as [|v k IH]; [done|]. unfold mapping_cases in *. destruct v; cbn; cbn in IH; lia. }
  induction l as [|v l IH]; [done|]. unfold mapping_cases in *. intros E.
  destruct v; cbn in E; try (pose proof (Hle l) as Hl; cbn in Hl; lia). cbn. f_equal. apply IH. by injection E.
Qed.

(** What a trusted plan is *)
Lemma plan_cases_inv pr pl :
  _plan_cases pr = Ok pl →
  ∃ cases, genuine_plan (pl_mapping_digest pl) (VDict (pl_plan pl)) cases (pl_plan_digest pl)
    ∧ is_sha256_text (pl_mapping_digest pl) = true ∧ is_sha256_text (pl_plan_digest pl) = true
    ∧ pl_cases pl ≠ [] ∧ Forall (λ c, is_test_case c = true ∧ ∃ s, vget "node_id" c = VStr s ∧ s ≠ "") (pl_cases pl)
    ∧ NoDup (selector_of <$> pl_cases pl).
Proof.
  unfold _plan_cases. intros (plan & Ht & (all & Hall & (cases & Hex & [= <-])%res_bind_Ok)%res_bind_Ok)%res_bind_Ok.
  cbn [pl_mapping_digest pl_plan pl_plan_digest pl_cases].
  unfold _trusted_plan in Ht. destruct (_ || _); [done|]. cbv zeta in Ht.
  destruct (vget "plan" pr) as [| | | | | | | | |p| |]; try done.
  destruct (vget "cases" p) as [| | | | | | |cs| | | |] eqn:Hcs; try done.
  destruct (_is_digest (vget "mapping_digest" p)) eqn:Hm; cbn [negb orb] in Ht; [|done].
  destruct (_is_digest (vget "plan_digest" p)) eqn:Hp; cbn [negb] in Ht; [|done]. injection Ht as <-.
  apply is_digest_inv in Hm as (md & Hm & Hmsha). apply is_digest_inv in Hp as (pd & Hp & Hpsha).
  rewrite Hm, Hp. cbn [py_str]. unfold _consistent_plan_cases in Hall. rewrite Hcs, Hm in Hall.
  apply res_bind_Ok in Hall as (expected & Hb & Hall). rewrite Hp in Hall.
  destruct (bool_decide_reflect (vget "plan_digest" expected ≠ VStr pd)) as [|He%dec_stable]; [done|].
  destruct (bool_decide_reflect (length (mapping_cases cs) ≠ length cs)) as [|Hlen%dec_stable]; [done|].
  destruct (bool_decide_reflect (mapping_cases cs = [])) as [|Hne]; cbn [orb] in Hall; [done|]. injection Hall as <-.
  exists (mapping_cases cs). split.
  { exists p, expected. rewrite <-(mapping_cases_length cs Hlen). by split_and!. }
  unfold _execution_cases in Hex. cbv zeta in Hex.
  destruct (filter _ (mapping_cases cs)) as [|c l] eqn:Ef; [done|].
  apply res_bind_Ok in Hex as (sels & Hsels & Hex). case_bool_decide as Hnd; [|done]. injection Hex as <-.
  apply map_res_Ok in Hsels.
  assert (Hsel : Forall2 (λ x s, vget "node_id" x = VStr s ∧ s ≠ "") (c :: l) sels).
  { eapply Forall2_impl; [exact Hsels|]. intros x s Hx. unfold execution_selector in Hx.
    destruct (_validate_selector x _) as [sel|] eqn:Hv; [|done].
    destruct (bool_decide_reflect (vget "node_id" x ≠ VStr (sel_node_id sel))) as [|Hn%dec_stable]; [done|].
    injection Hx as <-. split; [done|]. apply validate_selector_inl in Hv as (_ & Hmatch & _).
    apply selector_nonblank in Hmatch. intros E. rewrite E in Hmatch. done. }
  split_and!; [done|done|done| |].
  - apply Forall_forall. intros x Hx. split.
    + rewrite <-Ef in Hx. by apply list_elem_of_filter in Hx as [Hx _].
    + apply list_elem_of_lookup in Hx as [i Hi]. destruct (Forall2_lookup_l _ _ _ _ _ Hsel Hi) as (s & _ & Hs).
      eauto.
  - assert (selector_of <$> c :: l = sels) as ->; [|done].
    clear -Hsel. induction Hsel as [|x s xs ss [Hx _] _ IH]; [done|]. rewrite fmap_cons, IH.
    unfold selector_of. by rewrite Hx.
Qed.

(** The fields of a reconciliation report *)
Lemma reconciliation_fields ctx stage ref out r :
  _reconciliation_report ctx stage ref out = Ok r →
  ∃ eplan, build_plan (pl_mapping_digest (ro_plan out)) (pl_cases (ro_plan out)) = Ok eplan
    ∧ vget "schema_version" r = VStr "2" ∧ vget "execution_plan" r = VDict eplan
    ∧ vget "execution_proof" r = VDict (execution_proof stage ref out)
    ∧ vget "required_maturity" r = VStr (maturity_text (stage_maturity stage))
    ∧ vget "findings" r = str_list (sorted_set (list_to_set (ro_findings out) : gset string))
    ∧ (ro_proof_basis out = Some "legacy-tdd-ledger" → ro_findings out = [] →
         ∀ d, rc_legacy_tdd_evidence ctx = VDict d → vget "legacy_tdd_evidence" r = VDict d).
Proof.
  unfold _reconciliation_report. cbv zeta. rewrite res_bind_Ok. intros (r0 & Hr0 & [= <-]).
  unfold _lifecycle_report in Hr0. cbv zeta in Hr0.
  destruct (lifecycle_status _) as [ds ie]. apply res_bind_Ok in Hr0 as (plan & Hb & [= <-]).
  exists plan. split; [done|].
  destruct (bool_decide_reflect (ro_proof_basis out = Some "legacy-tdd-ledger")) as [Hl|Hl];
    destruct (bool_decide_reflect (ro_findings out = [])) as [Hf|Hf]; cbn [andb]; split_and!; try done.
  intros _ _ d ->. done.
Qed.
End lifecycle.

Section accepted_lifecycle.
Context `{PyRepr} `{Sha256} `{ParseXml}.

Lemma execution_proof_fields stage ref out d :
  ro_junit_digest out = Some d →
  let proof := execution_proof stage ref out in
  vget "run_stage" proof = VStr (stage_text stage) ∧ vget "source_ref" proof = VStr ref
  ∧ vget "selectors" proof
    = str_list (sorted ((λ c, py_str (vget "node_id" c)) <$> pl_cases (ro_plan out)))
  ∧ vget "junit_digest" proof = VStr d
  ∧ vget "proof_basis" proof = match ro_proof_basis out with Some b => VStr b | None => VNone end.
Proof. intros Hd. cbv zeta. unfold execution_proof. rewrite Hd. by destruct (ro_proof_basis out). Qed.

Lemma case_selectors cases :
  Forall (λ c, is_test_case c = true ∧ ∃ s, vget "node_id" c = VStr s ∧ s ≠ "") cases →
  omap selector_of_case (VDict <$> cases) = selector_of <$> cases.
Proof.
  induction 1 as [|c cases [Ht (s & Hs & _)] _ IH]; [done|].
  cbn. unfold is_test_case in Ht. rewrite Ht, Hs. unfold selector_of at 1. rewrite Hs. cbn. f_equal. exact IH.
Qed.

Lemma named_tests_perm cases o :
  Forall (λ c, is_test_case c = true ∧ ∃ s, vget "node_id" c = VStr s ∧ s ≠ "") cases →
  NoDup (selector_of <$> cases) → o ≡ₚ cases → named_tests o = sorted (selector_of <$> cases).
Proof.
  intros Hc Hnd Hperm. unfold named_tests.
  rewrite case_selectors by (eapply Forall_Permutation; [|done|done]; done || by symmetry).
  unfold sorted_set. apply sorted_perm_eq.
  rewrite elements_list_to_set by by rewrite Hperm. by rewrite Hperm.
Qed.

(** The basis a final reconciliation records *)
Lemma final_basis ctx pl findings b :
  _proof_basis_for_context ctx FinalStage (pl_mapping_digest pl) (pl_plan_digest pl) = Ok (findings, b) →
  findings = [] →
  b = Some "red-junit" ∨ b = Some "legacy-tdd-ledger" ∧ legacy_ledger_for (rc_legacy_tdd_evidence ctx) pl.
Proof.
  cbn [_proof_basis_for_context]. unfold _final_proof_findings. intros Hp ->.
  destruct (bool_decide (rc_prior_red_proof ctx ≠ VNone) && bool_decide (rc_legacy_tdd_evidence ctx ≠ VNone)); [done|].
  destruct (bool_decide (rc_prior_red_proof ctx ≠ VNone)); apply res_bind_Ok in Hp as (fs & Hfs & [= -> <-]).
  - by left.
  - right. split; [done|]. by apply legacy_evidence_nil.
Qed.

Lemma text_nonempty v : _is_text v = true → ∃ s, v = VStr s ∧ s ≠ "".
Proof. destruct v; try done. intros Hs. eexists. split; [done|]. by intros ->. Qed.

(** What a document must have to be accepted, whatever wrote it *)
Lemma provenance_accepted path r proof md pd ref cases ecases ed junit findings :
  path ≠ "" → is_sha256_text md = true → is_sha256_text pd = true → is_object_id ref = true →
  is_sha256_text (_canonical_json_digest r) = true →
  vget "schema_version" r = VStr "2" → vget "execution_proof" r = VDict proof →
  vget "run_stage" proof = VStr "final" → vget "required_maturity" r = VStr "verified" →
  vget "mapping_digest" r = VStr md → vget "plan_digest" r = VStr pd → vget "source_ref" proof = VStr ref →
  vget "junit_digest" proof = VStr junit → is_sha256_text junit = true →
  genuine_plan md (vget "plan" r) cases pd → genuine_plan md (vget "execution_plan" r) ecases ed →
  is_sha256_text ed = true →
  vget "selectors" proof = VList (VStr <$> named_tests ecases) → named_tests ecases ≠ [] →
  Forall (λ s, s ≠ "") (named_tests ecases) → vget "findings" r = VList (VStr <$> findings) →
  vget "gate_decision" r = VStr (if bool_decide (findings = []) then "pass" else "fail") →
  vget "observed_maturity" r = VStr (if bool_decide (findings = []) then "verified" else "incomplete") →
  (findings = [] → basis_recorded r proof md pd) →
  ∃ c, context_of_proof path r = Ok c
    ∧ rec_gate_decision c = (if bool_decide (findings = []) then GatePass else GateFail)
    ∧ rec_mapping_digest c = md ∧ rec_plan_digest c = pd ∧ rec_source_ref c = ref.
Proof.
  intros Hpath Hmd Hpd Href Hcontent H2 Hproof Hstage Hreq Hm Hp Hr Hj Hjsha Hg1 Hg2 Hed Hsel Hne Hall Hf
    Hgate Hobs Hbasis.
  assert (Hfields : _proof_fields_are_complete r proof = Ok true).
  { unfold _proof_fields_are_complete. rewrite Hf, Hsel, Hm, Hp, Hobs.
    replace (in_set _ _) with (Ok true : result bool) by (by case_bool_decide).
    cbn [res_bind]. rewrite (complete_plan_ok _ _ _ _ (Some (VStr pd)) Hg1) by auto. cbn [res_bind].
    rewrite (complete_plan_ok _ _ _ _ None Hg2) by auto. cbn [res_bind].
    rewrite Hreq, Hj, !(proj2 (is_sha256_digest_iff _)) by done.
    rewrite (proj2 (is_str_true _ _) eq_refl), (proj2 (proof_basis_complete r proof md pd Hm Hp)).
    2: { rewrite Hgate. intros Hpass. apply Hbasis. by case_bool_decide. }
    rewrite bool_decide_eq_true_2 by by destruct (named_tests ecases).
    assert (forallb (λ f, match f with VStr _ => true | _ => false end) (VStr <$> findings) = true) as ->
      by (apply forallb_forall; intros v (s & -> & _)%list_elem_of_In%list_elem_of_fmap; done).
    assert (forallb (λ s, match s with VStr t => bool_decide (t ≠ "") | _ => false end)
      (VStr <$> named_tests ecases) = true) as ->; [|done].
    apply forallb_forall. intros v (s & -> & Hs)%list_elem_of_In%list_elem_of_fmap.
    rewrite Forall_forall in Hall. by apply bool_decide_eq_true_2, Hall. }
  assert (Hcomplete : _is_complete_final_requirements_proof r proof = Ok true).
  { unfold _is_complete_final_requirements_proof.
    destruct Hg2 as (ep & expected & Hep & _ & Hcs & _). rewrite Hep, Hf, Hsel, Hfields. cbn [res_bind negb].
    unfold _execution_plan_selectors. rewrite Hcs.
    rewrite bool_decide_eq_false_2 by (intros E; apply Hne; unfold named_tests; by rewrite E).
    rewrite bool_decide_eq_true_2 by done. cbn [orb negb].
    unfold _proof_decision_is_consistent. rewrite Hgate, Hobs.
    destruct (bool_decide_reflect (findings = [])) as [->|Hn]; [done|].
    rewrite bool_decide_eq_false_2 by by destruct findings. done. }
  unfold context_of_proof. rewrite H2, (proj2 (is_str_true _ _) eq_refl). cbn [check res_bind]. rewrite Hproof, Hstage.
  rewrite (proj2 (is_str_true _ _) eq_refl). cbn [check res_bind]. rewrite Hcomplete. cbn [check res_bind].
  rewrite Hm, Hp, Hr, Hgate. unfold context_of_values.
  assert (parse_gate (VStr (if bool_decide (findings = []) then "pass" else "fail"))
    = Some (if bool_decide (findings = []) then GatePass else GateFail)) as -> by by case_bool_decide.
  unfold validate_RequirementsEvidenceContext. cbn [rec_path rec_content_digest rec_mapping_digest rec_plan_digest rec_source_ref].
  rewrite bool_decide_eq_true_2 by done. rewrite Hcontent, Hmd, Hpd, Href. cbn [check andb res_bind].
  eexists. split; [reflexivity|]. done.
Qed.
End accepted_lifecycle.

Section lifecycle_accepted.
Context `{PyRepr} `{Sha256} `{ParseXml}.

Lemma junit_digest_sha junit d :
  (∀ x, is_sha256_text (sha256_digest x) = true) → (_junit_results junit).2 = Some d → is_sha256_text d = true.
Proof.
  intros Hsha. unfold _junit_results. destruct junit; try done.
  destruct (MAX_JUNIT_BYTES <? _)%Z; [done|]. destruct (_ || _); [done|].
  destruct (parse_xml payload) as [root|]; [|done].
  destruct (foldl _ _ _). intros [= <-]. apply Hsha.
Qed.

Lemma build_plan_genuine md cases plan :
  (∀ x, is_sha256_text (sha256_digest x) = true) → build_plan md cases = Ok plan → cases ≠ [] →
  ∃ o d, ordered_cases cases = Ok o ∧ genuine_plan md (VDict plan) o d ∧ is_sha256_text d = true ∧ o ≡ₚ cases.
Proof.
  intros Hsha Hb Hne. destruct (build_plan_inv md cases plan Hb) as (o & x & Ho & Hx & Hcs & Hm & Hd).
  pose proof (ordered_cases_perm _ _ Ho) as Hperm. exists o, x. split; [done|]. split.
  - exists plan, plan. split_and!; try done.
    + intros ->. by apply Permutation_nil_l in Hperm.
    + by rewrite (build_plan_ordered md cases o Ho).
  - split; [|done]. apply canonical_digest_Ok in Hx as (j & _ & ->). apply Hsha.
Qed.

(** C23 The two packages agree on what a finished proof is: every report that
    the final reconciliation of the Requirements lifecycle writes from a JUnit
    file it could read is accepted by the review command as provenance, with
    the same decision, mapping digest, plan digest and source commit; so a
    passing lifecycle always reaches the review report, and a failing one
    cannot enter it as passing. *)
Theorem lifecycle_proof_accepted path pr junit ctx r :
  (∀ x, is_sha256_text (sha256_digest x) = true) → path ≠ "" → rc_run_stage ctx = VStr "final" →
  reconcile_junit pr junit (Some ctx) [] = Ok r → (_junit_results junit).2 ≠ None →
  ∃ c, context_of_proof path r = Ok c
    ∧ (rec_gate_decision c = GatePass ↔ vget "gate_decision" r = VStr "pass")
    ∧ vget "mapping_digest" r = VStr (rec_mapping_digest c) ∧ vget "plan_digest" r = VStr (rec_plan_digest c)
    ∧ rc_source_ref ctx = VStr (rec_source_ref c).
Proof.
  intros Hsha Hpath Hfinal Hr Hj. unfold reconcile_junit in Hr. cbn [_resolved_reconciliation_context res_bind] in Hr.
  apply res_bind_Ok in Hr as ([stage ref] & Hv & (pl & Hpl & Hr)%res_bind_Ok).
  assert (stage = FinalStage ∧ rc_source_ref ctx = VStr ref ∧ is_object_id ref = true) as (-> & Hsource & Href).
  { unfold _validate_reconciliation_context in Hv. rewrite Hfinal in Hv. cbn in Hv.
    destruct (rc_source_ref ctx); try done. destruct (is_object_id s) eqn:Hs; [|done]. injection Hv as <- <-.
    by rewrite Hs. }
  destruct (plan_cases_inv pr pl Hpl) as (cases & Hplan & Hmd & Hpd & Hne & Htests & Hnd).
  destruct (_junit_results junit) as [[results jf] jd] eqn:Ej. cbv zeta in Hr. cbn [snd] in Hj.
  destruct jd as [d|]; [|done].
  assert (Hd : is_sha256_text d = true) by (apply (junit_digest_sha junit d Hsha); by rewrite Ej).
  apply res_bind_Ok in Hr as ([pf b] & Hbasis & Hr). cbn [fst snd] in Hr.
  set (out := Build_ReconciliationOutcome _ _ _ _) in Hr.
  destruct (reconciliation_report_inv ctx FinalStage ref out r Hr) as (Hgate & Hobs & Hm & Hp & Hplanr).
  destruct (reconciliation_fields ctx FinalStage ref out r Hr)
    as (eplan & Hb & Hschema & Heplan & Hproof & Hreq & Hf & Hlegacy).
  destruct (build_plan_genuine _ _ _ Hsha Hb Hne) as (o & ed & Ho & Hg2 & Hed & Hperm).
  destruct (execution_proof_fields FinalStage ref out d eq_refl) as (Hstage & Hsrc & Hsel & Hjd & Hpb).
  pose proof (named_tests_perm _ o Htests Hnd Hperm) as Hnamed.
  set (findings := sorted_set (list_to_set (ro_findings out) : gset string)) in Hf.
  assert (Hnil : bool_decide (ro_findings out = []) = bool_decide (findings = [])).
  { apply bool_decide_ext. symmetry. apply set_list_nil_iff. }
  rewrite Hnil in Hgate, Hobs.
  destruct (provenance_accepted path r (execution_proof FinalStage ref out) (pl_mapping_digest pl)
    (pl_plan_digest pl) ref cases o ed d findings) as (c & Hc & Hcg & Hcm & Hcp & Hcr); try done.
  - apply Hsha.
  - by rewrite Hplanr.
  - by rewrite Heplan.
  - rewrite Hsel, Hnamed. done.
  - rewrite Hnamed, sorted_nil_iff. by destruct (pl_cases pl).
  - rewrite Hnamed. apply Forall_forall. intros s. rewrite elem_of_sorted.
    intros (x & -> & Hx)%list_elem_of_fmap. rewrite Forall_forall in Htests.
    destruct (Htests x Hx) as (_ & s & Hs & Hs0). unfold selector_of. by rewrite Hs.
  - rewrite Hobs. clearbody findings. by destruct findings.
  - intros Hfs. assert (Hout : ro_findings out = []) by by apply set_list_nil_iff.
    assert (Hpf : pf = []) by (unfold out in Hout; cbn in Hout; by apply app_eq_nil in Hout as [_ [_ ?]%app_eq_nil]).
    destruct (final_basis ctx pl pf b Hbasis Hpf) as [->|[-> (l & Hl & Hs1 & Hs2 & Hid & Hld & Hs5 & Hs6)]].
    + left. by rewrite Hpb.
    + right. split; [by rewrite Hpb|]. exists l. split_and!; try done; [by apply Hlegacy|by apply text_nonempty].
  - exists c. rewrite Hcg, Hcm, Hcp, Hcr, Hgate. split_and!; try done.
    clearbody findings. by destruct findings.
Qed.
End lifecycle_accepted.

(** * Witnesses *)

#[local] Existing Instances LifecycleProofs.sample_repr LifecycleProofs.zero_sha LifecycleProofs.sample_xml.

(** The sample mapping planned, run red and run final *)
Definition sample_final : result (list (pyval * pyval)) :=
  let! planned := evaluate_mapping sample_mapping "test-authored" (Some sample_review) in
  let! red := reconcile_junit planned (JunitBytes ["F"%char]) (Some (red_context sample_ref)) [] in
  reconcile_junit planned (JunitBytes ["P"%char]) (Some (final_context sample_ref red)) [].

Lemma lifecycle_proof_accepted_witness :
  ∃ r c, sample_final = Ok r ∧ context_of_proof "proof.json" r = Ok c ∧ rec_gate_decision c = GatePass.
Proof.
  unfold sample_final.
  destruct (evaluate_mapping sample_mapping "test-authored" (Some sample_review)) as [planned|e] eqn:E0;
    [|exfalso; vm_compute in E0; discriminate E0].
  cbn [res_bind].
  destruct (reconcile_junit planned (JunitBytes ["F"%char]) (Some (red_context sample_ref)) []) as [red|e] eqn:E1.
  2:{ exfalso. vm_compute in E0; injection E0 as <-. vm_compute in E1. discriminate E1. }
  cbn [res_bind].
  destruct (reconcile_junit planned (JunitBytes ["P"%char]) (Some (final_context sample_ref red)) []) as [r|e] eqn:E2.
  2:{ exfalso. vm_compute in E0; injection E0 as <-. vm_compute in E1; injection E1 as <-.
      vm_compute in E2. discriminate E2. }
  assert (Hg : vget "gate_decision" r = VStr "pass").
  { vm_compute in E0; injection E0 as <-. vm_compute in E1; injection E1 as <-.
    vm_compute in E2; injection E2 as <-. vm_compute. reflexivity. }
  destruct (lifecycle_proof_accepted "proof.json" planned (JunitBytes ["P"%char]) (final_context sample_ref red) r)
    as (c & Hc & Hpass & _).
  - intros x. vm_compute. reflexivity.
  - discriminate.
  - reflexivity.
  - exact E2.
  - vm_compute. discriminate.
  - exists r, c. split; [reflexivity|]. split; [exact Hc|]. apply Hpass, Hg.
Defined.

Lemma accepted_provenance_witness :
  ∃ r c, sample_final = Ok r ∧ context_of_proof "proof.json" r = Ok c ∧ proof_behind r c.
Proof.
  destruct sample_final as [r|e] eqn:E; [|exfalso; vm_compute in E; discriminate E].
  destruct (context_of_proof "proof.json" r) as [c|e] eqn:Ec.
  2:{ exfalso. vm_compute in E. injection E as <-. vm_compute in Ec. discriminate Ec. }
  exists r, c. split; [reflexivity|]. split; [exact Ec|]. apply (accepted_provenance "proof.json" r c Ec).
Defined.
