(* ===== verification/ReviewRun.v ===== *)
(** ReviewRun: one run of [specfact code review run], the rest of
    [specfact_code_review/run/commands.py]: the fix, preview and mutation loop
    around a review, plain and interactive; the files a request selects; the
    report of an immutable scope that could not be resolved; what is written
    and the exit code. *)

From S2P Require Import Prelude Text Paths Dict PyValue Json Findings Differential Suppression Scope.
From S2P Require Import RangeReview Diff Assembly Cleanup Ast Fixes RunCommand.

Import Request Provenance.

(** * The interface of a review

    The loop calls [run_review] once or twice; the [n]-th call answers with a
    report and the files as the analysis leaves them: it runs pytest and other
    tools in the project, which can leave files behind.  What the loop relies
    on is that a report is governed: it has an exit code and a verdict, and its
    summary counts its own findings. *)
Record RunInputs := {
  ri_options : ReviewOptions;
  ri_assurance_kind : string;
  ri_project_config : option string;
  ri_project_runtime : option string
}.
Abbreviation reviewer := (nat → RunInputs → list string → files → result (ReviewReport * files)).
Definition governed (r : ReviewReport) : Prop :=
  (rr_ci_exit_code r = Some 0%Z ∨ rr_ci_exit_code r = Some 1%Z) ∧ is_Some (rr_overall_verdict r)
  ∧ rr_simplification_summary r = _build_simplification_summary (rr_findings r).
Class GovernedReviews (run_review : reviewer) :=
  reviews_governed n inputs paths fs r fs' : run_review n inputs paths fs = Ok (r, fs') → governed r.

(** * The loop *)

(** [progress_callback] only prints and is left out. *)
Record _ReviewLoopFlags := {
  fl_no_tests : bool;
  fl_include_noise : bool;
  fl_fix : bool;
  fl_preview_fixes : bool;
  fl_with_mutation : bool;
  fl_bug_hunt : bool;
  fl_review_mode : enforcement_mode;
  fl_review_level : option review_level;
  fl_review_focus : option ReviewFocus;
  fl_assurance_kind : string;
  fl_project_config : option string;
  fl_project_runtime : option string
}.
Definition run_inputs (flags : _ReviewLoopFlags) : RunInputs :=
  {| ri_options := {| ro_no_tests := fl_no_tests flags; ro_include_noise := fl_include_noise flags;
                      ro_bug_hunt := fl_bug_hunt flags; ro_review_level := fl_review_level flags;
                      ro_review_mode := fl_review_mode flags; ro_focus := fl_review_focus flags |};
     ri_assurance_kind := fl_assurance_kind flags; ri_project_config := fl_project_config flags;
     ri_project_runtime := fl_project_runtime flags |}.
(** The flags without the fixes, the preview and the mutation evidence *)
Definition base_flags (flags : _ReviewLoopFlags) : _ReviewLoopFlags :=
  {| fl_no_tests := fl_no_tests flags; fl_include_noise := fl_include_noise flags; fl_fix := false;
     fl_preview_fixes := false; fl_with_mutation := false; fl_bug_hunt := fl_bug_hunt flags;
     fl_review_mode := fl_review_mode flags; fl_review_level := fl_review_level flags;
     fl_review_focus := fl_review_focus flags; fl_assurance_kind := fl_assurance_kind flags;
     fl_project_config := fl_project_config flags; fl_project_runtime := fl_project_runtime flags |}.

(** [report.model_copy(update={"overall_verdict": "FAIL", "ci_exit_code": 1})] *)
Definition failed_verdict : report_update :=
  {| u_overall_verdict := Some (Some FAIL); u_ci_exit_code := Some (Some 1%Z); u_assurance_status := None;
     u_has_unknown := None; u_analyzer_evidence := None; u_enforcement_mode := None;
     u_enforcement_summary := None |}.
Definition _with_simplify_enforce_verdict (report : ReviewReport) (flags : _ReviewLoopFlags) : ReviewReport :=
  if bool_decide (fl_review_focus flags = Some Simplify) && bool_decide (fl_review_mode flags = EmFull)
     && blocking_simplifications report
  then apply_update failed_verdict report else report.

Definition RuntimeError (msg : string) : exn := OtherError "RuntimeError".

Section loop.
Context `{PyRepr} (run_review : reviewer).
Context (ast_parse : string → option node) (writable : string → bool).
Context (now : datetime) (mkdtemp : files → string) (_mutation_tool_available : bool).
(** A command answers with its exit status and output, and the files it left,
    or with an exception. *)
Variable subprocess_run : list string → files → result (Z * string * string * files).

Definition apply_command (fs : files) (command : list string) : result files :=
  let! answer := subprocess_run command fs in
  let '(returncode, stdout, stderr, fs) := answer in
  if ((returncode =? 0)%Z || (returncode =? 1)%Z) && bool_decide (command !! 1%nat = Some "check") then Ok fs
  else if (returncode =? 0)%Z then Ok fs
  else
    let output := strip (if String.eqb stderr "" then stdout else stderr) in
    Err (RuntimeError ("Auto-fix command failed: " +:+ join " " command +:+ ": "
                       +:+ (if String.eqb output "" then "unknown error" else output))).
Definition _apply_fixes (paths : list string) (fs : files) : result files :=
  fold_res apply_command fs
    [["ruff"; "check"; "--fix"] ++ (as_posix <$> paths); ["ruff"; "format"] ++ (as_posix <$> paths)].

(** The rewrites of a first report, which apply under the simplify focus *)
Definition apply_simplifications (flags : _ReviewLoopFlags) (report : ReviewReport) (fs : files) :
    result (list ReviewFinding * files) :=
  if bool_decide (fl_review_focus flags = Some Simplify)
  then _apply_simplification_fixes ast_parse writable report fs else Ok ([], fs).
(** The preview and the mutation evidence that the flags ask for *)
Definition with_evidence (flags : _ReviewLoopFlags) (paths : list string) (report : ReviewReport) (fs : files) :
    result (ReviewReport * files) :=
  let! answer := (if fl_preview_fixes flags
                  then Evidence.with_previewed_simplification_findings now mkdtemp writable
                         (_apply_simplification_fixes ast_parse writable) report paths fs
                  else Ok (report, fs)) in
  let! report := (if fl_with_mutation flags
                  then Evidence.with_mutation_evidence _mutation_tool_available answer.2 answer.1 paths
                  else Ok answer.1) in
  Ok (report, answer.2).

(** [n] is the number of reviews run before. *)
Definition _run_review_once (n : nat) (paths : list string) (flags : _ReviewLoopFlags) (fs : files) :
    result (ReviewReport * files) :=
  let! first := run_review n (run_inputs flags) paths fs in
  let! answer :=
    (if fl_fix flags then
       let! applied := apply_simplifications flags first.1 first.2 in
       let! fs := _apply_fixes paths applied.2 in
       let! again := run_review (S n) (run_inputs flags) paths fs in
       let! report := _with_applied_simplification_findings again.1 applied.1 in
       Ok (report, again.2)
     else Ok first) in
  let! answer := with_evidence flags paths answer.1 answer.2 in
  Ok (_with_simplify_enforce_verdict answer.1 flags, answer.2).

Definition _run_review_with_status (paths : list string) (flags : _ReviewLoopFlags) (fs : files) :
    result (ReviewReport * files) :=
  let base := base_flags flags in
  let! first := _run_review_once 0 paths base fs in
  let! answer :=
    (if fl_fix flags then
       let! applied := apply_simplifications flags first.1 first.2 in
       let! fs := _apply_fixes paths applied.2 in
       let! again := _run_review_once 1 paths base fs in
       let! report := _with_applied_simplification_findings again.1 applied.1 in
       Ok (report, again.2)
     else Ok first) in
  let! answer := with_evidence flags paths answer.1 answer.2 in
  Ok (_with_simplify_enforce_verdict answer.1 flags, answer.2).

Definition _run_review_with_progress (interactive : bool) (paths : list string) (flags : _ReviewLoopFlags)
    (fs : files) : result (ReviewReport * files) :=
  if interactive then _run_review_with_status paths flags fs else _run_review_once 0 paths flags fs.
End loop.

(** * Files of a local request *)

(** The texts [git] prints, [None] when it fails: paths that differ from
    HEAD, tracked paths, untracked paths *)
Record GitPaths := { gp_modified : option string; gp_cached : option string; gp_untracked : option string }.

Section files.
Context (is_file : string → bool) (git : GitPaths).

Definition discovered (tracked : option string) (include_tests : bool) (failure : string) : result (list string) :=
  match tracked, gp_untracked git with
  | Some tracked, Some untracked => Ok (discover_worktree_python_files is_file tracked untracked include_tests)
  | _, _ => Err (RunCommandError failure)
  end.
Definition _changed_files_from_git_diff (include_tests : bool) : result (list string) :=
  discovered (gp_modified git) include_tests
    "Unable to determine changed tracked and untracked files from the worktree scope.".
Definition _all_python_files_from_git : result (list string) :=
  discovered (gp_cached git) true "Unable to determine tracked and untracked files from the full scope.".

Definition legacy_scope (scope : option AutoScope) : option ScopeKind :=
  match scope with
  | Some AutoChanged | Some AutoWorktree => Some SkChanged
  | Some AutoFull => Some SkFull
  | _ => None
  end.
(** A discovery runs only when no file is named; the one that is not run has
    no answer. *)
Definition _resolve_worktree_files (q : ReviewRunRequest) : result (list string) :=
  let file_focus_facets :=
    List.filter (λ facet, bool_decide (facet ∈ ["source"; "tests"; "docs"])) (q_focus_facets q) in
  let include_for_resolve := q_include_tests q || bool_decide (file_focus_facets ≠ []) in
  let path_filters := default [] (q_path_filters q) in
  let scope := legacy_scope (q_scope q) in
  let! found := (if bool_decide (q_files q ≠ []) then Ok []
                 else if bool_decide (scope = Some SkFull) then _all_python_files_from_git
                 else _changed_files_from_git_diff (include_for_resolve || bool_decide (path_filters ≠ []))) in
  let! resolved_files := resolve_legacy_files is_file (q_files q)
    {| lf_include_tests := include_for_resolve; lf_scope := scope; lf_path_filters := path_filters;
       lf_changed_discovery := λ _, found; lf_full_discovery := found |} in
  let resolved_files := filter_files_by_focus resolved_files (q_focus_facets q) in
  let! _ := check (bool_decide (resolved_files ≠ []))
    (NoReviewableFilesError
       (if bool_decide (q_focus_facets q ≠ [])
        then "No reviewable Python files matched the selected --focus facets."
        else "No Python files to review were provided or detected.")) in
  Ok resolved_files.
End files.

(** * Immutable scopes *)

(** [re.search(r"github\.com(?::|/)([^/]+)/([^/]+?)(?:\.git)?$", text)]: what
    follows [github.com], and the first place where it fits *)
Fixpoint until_slash (l : list ascii) : list ascii * list ascii :=
  match l with
  | [] => ([], [])
  | c :: rest => if is_slash c then ([], l) else (c :: (until_slash rest).1, (until_slash rest).2)
  end.
Definition slug_name (name : string) : string :=
  if endswith ".git" name && (4 <? String.length name)%nat then removesuffix ".git" name else name.
Definition slug_after (l : list ascii) : option string :=
  match l with
  | c :: rest =>
      if is_slash c || bool_decide (c = ":"%char) then
        match until_slash rest with
        | (o :: owner, _ :: name) =>
            if bool_decide (name ≠ []) && forallb (λ c, negb (is_slash c)) name
            then Some (of_chars (o :: owner) +:+ "/" +:+ slug_name (of_chars name)) else None
        | _ => None
        end
      else None
  | [] => None
  end.
Fixpoint find_slug (l : list ascii) : option string :=
  match (if startswith "github.com" (of_chars l) then slug_after (drop 10 l) else None), l with
  | Some slug, _ => Some slug
  | None, _ :: rest => find_slug rest
  | None, [] => None
  end.
(** The exit status and output of [git config --get remote.origin.url] *)
Definition _repository_slug (answer : Z * string) : option string :=
  if (answer.1 =? 0)%Z then find_slug (chars (strip answer.2)) else None.

Definition assurance_kind_text (k : AssuranceKind) : string :=
  match k with
  | AkWorktree => "worktree" | AkIndex => "index" | AkRangePreview => "range_preview"
  | AkRangeCandidate => "range_candidate" | AkPrRange => "pr_range" | AkFull => "full"
  | AkExplicitFiles => "explicit_files"
  end.
Definition texts (l : list string) : pyval := VList (VStr <$> l).
Definition fields (l : list (string * pyval)) : pyval := VDict ((λ kv, (VStr kv.1, kv.2)) <$> l).
Definition identity_fields (identity : InputIdentity) : pyval :=
  fields [("object_type", VStr (ii_object_type identity)); ("git_mode", VStr (ii_git_mode identity));
          ("blob_sha", VStr (ii_blob_sha identity)); ("content_digest", VStr (ii_content_digest identity));
          ("open_policy", VStr "descriptor-relative-nofollow")].
Definition metadata_fields (metadata : IndexMetadata) : pyval :=
  fields [("git_mode", VStr (im_git_mode metadata)); ("blob_sha", VStr (im_blob_sha metadata));
          ("stage", VInt (im_stage metadata)); ("intent_to_add", VBool (im_intent_to_add metadata));
          ("flag_tag", VStr (im_flag_tag metadata))].
Definition source_lock_fields (lock : string * string * string) : pyval :=
  fields [("path", VStr lock.1.1); ("blob_sha", VStr lock.1.2); ("content_sha256", VStr lock.2)].
(** [{path: f(value) for path, value in sorted(manifest.items())}] *)
Definition by_path {A} (f : A → pyval) (manifest : list (string * A)) : pyval :=
  fields ((λ pv, (pv.1, f pv.2)) <$> sort_by fst manifest).
Definition _scope_evidence (r : ScopeResolution) : list (string * pyval) :=
  [("status", VStr (assurance_text (sr_status r))); ("reason", VStr (sr_reason r));
   ("assurance_kind", VStr (assurance_kind_text (sr_assurance_kind r)));
   ("effective_assurance_kind", VStr (assurance_kind_text (sr_effective_assurance_kind r)));
   ("selected_paths", texts (sr_selected_paths r));
   ("merge_base_candidates", texts (sr_merge_base_candidates r));
   ("merge_base_candidate_digest", VStr (sr_merge_base_candidate_digest r));
   ("context_digest", VStr (sr_context_digest r));
   ("project_runtime_source_locks", VList (source_lock_fields <$> sr_project_runtime_source_locks r));
   ("resolved_target_commit", VStr (sr_resolved_target_commit r));
   ("resolved_target_tree", VStr (sr_resolved_target_tree r));
   ("resolved_head_commit", VStr (sr_resolved_head_commit r));
   ("resolved_head_tree", VStr (sr_resolved_head_tree r));
   ("exact_rename_digest", VStr (sr_exact_rename_digest r));
   ("base_source_manifest_digest", VStr (sr_base_source_manifest_digest r));
   ("head_source_manifest_digest", VStr (sr_head_source_manifest_digest r));
   ("policy_manifest_digest", VStr (sr_policy_manifest_digest r));
   ("candidate_policy_change_digest", VStr (sr_candidate_policy_change_digest r));
   ("index_tree", VStr (sr_index_tree r)); ("selection_tree", VStr (sr_selection_tree r));
   ("input_manifest", by_path identity_fields (sr_input_manifest r));
   ("index_metadata", by_path metadata_fields (sr_index_metadata r))].

(** [a or b] of texts *)
Definition or_else (a b : string) : string := if String.eqb a "" then b else a.
Definition level_text (l : review_level) : string :=
  match l with LevelError => "error" | LevelWarning => "warning" end.
Definition catalog_ready (activation : CatalogActivation) : bool :=
  is_activated activation && has_some (ca_digest activation).

Section immutable.
Context `{PyRepr} `{Sha256} `{JsonLoads} `{TomlLoads} `{IniRead} `{RangePolicyPaths}.
Context (repo : Repository) (index : IndexAnswers) (remote_url : Z * string).
Context (resources : catalog_resources) (now : datetime).
(** [run_immutable_scope_review]: materialises both trees and runs the capsule
    on them; [RangeReview] and [Assembly] hold what it makes of the answers.
    Like a local review it can leave files behind. *)
Variable run_immutable_scope_review :
  ScopeResolution → ReviewOptions → option string → option string → list (string * pyval) → files →
  result (ReviewReport * files).

Definition immutable_scope (scope : option AutoScope) : option ScopeKind :=
  match scope with Some AutoIndex => Some SkIndex | Some AutoRange => Some SkRange | _ => None end.
Definition scope_request (scope : ScopeKind) (q : ReviewRunRequest) : ScopeRequest :=
  {| sq_scope := scope; sq_files := q_files q; sq_base_ref := q_base_ref q; sq_head_ref := q_head_ref q;
     sq_enforcement := Some (q_review_mode q); sq_include_tests := q_include_tests q;
     sq_exclude_tests := false; sq_focus := q_focus_facets q;
     sq_path_filters := default [] (q_path_filters q); sq_no_tests := q_no_tests q;
     sq_level := level_text <$> q_review_level q; sq_fix := q_fix q;
     sq_preview_fixes := q_preview_fixes q; sq_with_mutation := q_with_mutation q;
     sq_has_pr_context_file := has_some (q_pr_context_file q);
     sq_repository_slug := _repository_slug remote_url; sq_project_runtime_source_lock_paths := [];
     sq_portable_project_runtime := negb (has_some (q_pr_context_file q)) |}.
Definition request_options (q : ReviewRunRequest) : ReviewOptions :=
  {| ro_no_tests := q_no_tests q; ro_include_noise := q_include_noise q; ro_bug_hunt := q_bug_hunt q;
     ro_review_level := q_review_level q; ro_review_mode := q_review_mode q; ro_focus := q_review_focus q |}.

(** The report of a resolution that did not pass *)
Definition unresolved_report (q : ReviewRunRequest) (r : ScopeResolution) : result ReviewReport :=
  let run_identity := or_else (sr_resolved_head_commit r) (or_else (sr_index_tree r) "unresolved") in
  let! activation := activate_packaged_suppression_catalog resources "linux-x86_64" None in
  let ready := catalog_ready activation in
  let '(status, reason) :=
    if bool_decide (sr_status r = ANotApplicable) && negb ready
    then (AUnknown, or_else (ca_reason activation) "suppression_catalog_activation_failed")
    else (sr_status r, sr_reason r) in
  validate_ReviewReport
    {| rr_schema_version := "1.6"; rr_run_id := "review-scope-" +:+ run_identity; rr_timestamp := now;
       rr_overall_verdict := None; rr_ci_exit_code := None; rr_assurance_status := Some status;
       rr_has_unknown_required_evidence := Some (bool_decide (status = AUnknown));
       rr_scope_evidence := Some (dict_set "reason" (VStr reason) (_scope_evidence r));
       rr_analyzer_evidence := Some [];
       rr_suppression_catalog_digest := if ready then ca_digest activation else None;
       rr_score := 0; rr_reward_delta := None; rr_findings := [];
       rr_summary := or_else (sr_diagnostics r) (replace "_" " " reason);
       rr_simplification_summary := None; rr_cleanup_forecast := None;
       rr_enforcement_mode := Some (if bool_decide (q_review_mode q = EmShadow) then EmShadow else EmFull);
       rr_enforcement_summary := None; rr_requirements_evidence := None; rr_house_rules_updates := [] |}.
(** [finally: cleanup_scope_resolution(resolution)] removes the temporary
    trees, which belong to the [Repository]. *)
Definition _immutable_scope_report (scope : ScopeKind) (q : ReviewRunRequest) (fs : files) :
    result (ReviewReport * files) :=
  let! r := resolve_scope repo index (scope_request scope q) in
  if bool_decide (sr_status r = APass)
  then run_immutable_scope_review r (request_options q) (q_project_config q) (q_project_runtime q)
         (dict_set "reason" (VStr (sr_reason r)) (_scope_evidence r)) fs
  else let! report := unresolved_report q r in Ok (report, fs).
End immutable.

(** * The command *)

Section command.
Context `{PyRepr} `{Sha256} `{JsonLoads} `{TomlLoads} `{IniRead} `{RangePolicyPaths} `{ArgText} `{EvidenceFiles}.
Context (run_review : reviewer).
Context (ast_parse : string → option node) (writable : string → bool).
Context (now : datetime) (mkdtemp : files → string) (_mutation_tool_available : bool).
Variable subprocess_run : list string → files → result (Z * string * string * files).
Context (is_file : string → bool) (git : GitPaths).
Context (repo : Repository) (index : IndexAnswers) (remote_url : Z * string) (resources : catalog_resources).
Variable run_immutable_scope_review :
  ScopeResolution → ReviewOptions → option string → option string → list (string * pyval) → files →
  result (ReviewReport * files).
(** [report.model_dump_json()], and [sys.stderr.isatty()] *)
Context (model_dump_json : ReviewReport → string) (interactive : bool).

Definition _json_output_path (out : option string) : string := default "review-report.json" out.
(** The exit code, the text answered, and the files after the report was
    written; [parent.mkdir] is part of what [writable] says. *)
Definition _render_review_result (report : ReviewReport) (q : ReviewRunRequest) (fs : files) :
    result (Z * option string * files) :=
  let code := default 0%Z (rr_ci_exit_code report) in
  if q_json_output q then
    let output_path := as_posix (_json_output_path (q_out q)) in
    if writable output_path
    then Ok (code, Some output_path, <[output_path := Decoded (model_dump_json report)]> fs)
    else Err (OSError output_path)
  else if q_score_only q then Ok (code, Some (pretty (rr_score report)), fs)
  else Ok (code, None, fs).

Definition loop_flags (q : ReviewRunRequest) : _ReviewLoopFlags :=
  {| fl_no_tests := q_no_tests q; fl_include_noise := q_include_noise q; fl_fix := q_fix q;
     fl_preview_fixes := q_preview_fixes q; fl_with_mutation := q_with_mutation q; fl_bug_hunt := q_bug_hunt q;
     fl_review_mode := q_review_mode q; fl_review_level := q_review_level q;
     fl_review_focus := q_review_focus q;
     fl_assurance_kind := if bool_decide (q_files q ≠ []) then "explicit_files"
                          else if bool_decide (q_scope q = Some AutoFull) then "full" else "worktree";
     fl_project_config := q_project_config q; fl_project_runtime := q_project_runtime q |}.
Definition requirements_context (q : ReviewRunRequest) : result (option RequirementsEvidenceContext) :=
  match q_requirements_evidence q with
  | Some path => let! context := _requirements_evidence_context path in Ok (Some context)
  | None => Ok None
  end.
Definition attach (context : option RequirementsEvidenceContext) (report : ReviewReport) : ReviewReport :=
  match context with Some context => _attach_requirements_evidence report context | None => report end.

Definition run_request (q : ReviewRunRequest) (fs : files) : result (Z * option string * files) :=
  let q := _normalize_review_request q in
  let! _ := _validate_review_request q in
  match immutable_scope (q_scope q) with
  | Some scope =>
      let! answer := _immutable_scope_report repo index remote_url resources now run_immutable_scope_review scope q fs in
      let! context := requirements_context q in
      _render_review_result (attach context answer.1) q answer.2
  | None =>
      let! resolved_files := _resolve_worktree_files is_file git q in
      let! context := requirements_context q in
      let! answer := _run_review_with_progress run_review ast_parse writable now mkdtemp _mutation_tool_available
                       subprocess_run interactive resolved_files (loop_flags q) fs in
      _render_review_result (attach context answer.1) q answer.2
  end.
(** [run_command] takes a request, or files and keyword arguments. *)
Definition run_command (request_or_files : ReviewRunRequest + list string * list (string * arg)) (fs : files) :
    result (Z * option string * files) :=
  let! q := match request_or_files with
            | inl q => Ok q
            | inr (paths, k) => _build_review_run_request paths k
            end in
  run_request q fs.
End command.
