(* ===== verification/ReviewRunProofs.v ===== *)
(** ReviewRunProofs: an interactive run does what a plain one does; a run that
    is not asked to fix writes nothing but its report to the files its review
    left and exits with what that review says; an immutable scope passes only when it was resolved or does
    not apply; and the local reviews of [LocalReview] are governed reports. *)

From S2P Require Import Prelude Text Paths Dict PyValue Json Findings FindingsProofs Differential Suppression Scope.
From S2P Require Import RangeReview Diff Assembly AssemblyProofs Cleanup CleanupProofs Ast Fixes FixProofs RunCommand.
From S2P Require Import ScopeProofs SuppressionProofs LocalReview LocalReviewProofs ReviewRun.

Import Request Provenance.

(** * Reports up to their verdict *)

Abbreviation failed := (apply_update failed_verdict).
(** The final verdict of the loop fails the report. *)
Definition must_fail (flags : _ReviewLoopFlags) (r : ReviewReport) : bool :=
  bool_decide (fl_review_focus flags = Some Simplify) && bool_decide (fl_review_mode flags = EmFull)
  && blocking_simplifications r.
Definition same_report (r1 r2 : ReviewReport) : Prop := failed r1 = failed r2.

Lemma failed_idemp r : failed (failed r) = failed r.
Proof. by destruct r. Qed.
Lemma failed_blocking r : blocking_simplifications (failed r) = blocking_simplifications r.
Proof. by destruct r. Qed.
Lemma same_blocking r1 r2 : same_report r1 r2 → blocking_simplifications r1 = blocking_simplifications r2.
Proof. intros Hs. by rewrite <-(failed_blocking r1), Hs, failed_blocking. Qed.
Lemma verdict_of flags r :
  _with_simplify_enforce_verdict r flags = if must_fail flags r then failed r else r.
Proof. done. Qed.

(** Two reports are interchangeable at the end of a run when they are the same
    or differ in a verdict that the end overwrites. *)
Definition interchangeable (flags : _ReviewLoopFlags) (r1 r2 : ReviewReport) : Prop :=
  same_report r1 r2 ∧ (r1 = r2 ∨ must_fail flags r1 = true).
Lemma interchangeable_verdict flags r1 r2 :
  interchangeable flags r1 r2 →
  _with_simplify_enforce_verdict r1 flags = _with_simplify_enforce_verdict r2 flags.
Proof.
  intros [Hs [->|Hm]]; [done|]. rewrite !verdict_of, Hm.
  unfold must_fail in *. rewrite <-(same_blocking _ _ Hs). by rewrite Hm.
Qed.
Lemma verdict_interchangeable flags r : interchangeable flags (_with_simplify_enforce_verdict r flags) r.
Proof.
  rewrite verdict_of. destruct (must_fail flags r) eqn:E; [|by split; [|left]].
  split; [apply failed_idemp|]. right. unfold must_fail. by rewrite failed_blocking.
Qed.

Lemma Ok_pair_inj {A B} (a1 a2 : A) (b1 b2 : B) : Ok (a1, b1) = Ok (a2, b2) → a1 = a2 ∧ b1 = b2.
Proof. by intros [= -> ->]. Qed.

(** * The evidence of a report *)

Lemma refreshed_failed fs r paths :
  Evidence.with_refreshed_cleanup_forecast fs (failed r) paths
  = let! r' := Evidence.with_refreshed_cleanup_forecast fs r paths in Ok (failed r').
Proof.
  unfold Evidence.with_refreshed_cleanup_forecast. destruct r. cbn.
  by destruct (Forecast.build_cleanup_forecast _ _ _).
Qed.
Lemma refreshed_keeps fs r paths r' :
  Evidence.with_refreshed_cleanup_forecast fs r paths = Ok r' →
  rr_ci_exit_code r' = rr_ci_exit_code r ∧ blocking_simplifications r' = blocking_simplifications r.
Proof. intros (cf & _ & [= <-])%res_bind_Ok. by destruct r. Qed.

Section loop.
Context `{PyRepr} (run_review : reviewer).
Context (ast_parse : string → option node) (writable : string → bool).
Context (now : datetime) (mkdtemp : files → string) (tool : bool).
Context (subprocess_run : list string → files → result (Z * string * string * files)).

Abbreviation evidence := (with_evidence ast_parse writable now mkdtemp tool).

Lemma evidence_failed flags paths r fs :
  evidence flags paths (failed r) fs
  = let! a := evidence flags paths r fs in Ok (failed a.1, a.2).
Proof.
  unfold with_evidence.
  set (preview := Evidence.with_previewed_simplification_findings now mkdtemp writable
      (_apply_simplification_fixes ast_parse writable)).
  assert (Hp : preview (failed r) paths fs = let! a := preview r paths fs in Ok (failed a.1, a.2)).
  { unfold preview, Evidence.with_previewed_simplification_findings, Evidence._preview_simplification_fixes.
    replace (rr_findings (failed r)) with (rr_findings r) by (by destruct r).
    destruct (fold_res _ _ _) as [[previewed fs']|e]; [cbn [res_bind]|done].
    assert (Hf : ∀ findings, with_findings findings (failed r) = failed (with_findings findings r))
      by (intros; by destruct r).
    destruct previewed; rewrite ?Hf, refreshed_failed;
      by destruct (Evidence.with_refreshed_cleanup_forecast _ _ _). }
  assert (Hm : ∀ fs r, Evidence.with_mutation_evidence tool fs (failed r) paths
    = let! r' := Evidence.with_mutation_evidence tool fs r paths in Ok (failed r')).
  { intros fs0 r0. unfold Evidence.with_mutation_evidence.
    replace (rr_findings (failed r0)) with (rr_findings r0) by (by destruct r0).
    destruct (map_res _ _) as [l|e]; [cbn [res_bind]|done].
    replace (with_findings l (failed r0)) with (failed (with_findings l r0)) by (by destruct r0).
    apply refreshed_failed. }
  destruct (fl_preview_fixes flags).
  - rewrite Hp. destruct (preview r paths fs) as [[r1 fs1]|e];
      [cbn [res_bind fst snd]|done].
    destruct (fl_with_mutation flags); [rewrite Hm|done]. by destruct (Evidence.with_mutation_evidence _ _ _ _).
  - cbn [res_bind fst snd]. destruct (fl_with_mutation flags); [rewrite Hm|done].
    by destruct (Evidence.with_mutation_evidence _ _ _ _).
Qed.

Lemma evidence_keeps flags paths r fs r' fs' :
  evidence flags paths r fs = Ok (r', fs') →
  rr_ci_exit_code r' = rr_ci_exit_code r ∧ blocking_simplifications r' = blocking_simplifications r.
Proof.
  intros ([r1 fs1] & Hp & He)%res_bind_Ok. apply res_bind_Ok in He as (r2 & Hm & [= <- <-]).
  cbn [fst snd] in *.
  assert (H1 : rr_ci_exit_code r1 = rr_ci_exit_code r ∧ blocking_simplifications r1 = blocking_simplifications r).
  { destruct (fl_preview_fixes flags); [|by injection Hp as <- <-].
    unfold Evidence.with_previewed_simplification_findings in Hp.
    apply res_bind_Ok in Hp as ([previewed fs2] & _ & Hp). apply res_bind_Ok in Hp as (r3 & Hr & [= <- <-]).
    destruct previewed; apply refreshed_keeps in Hr as [-> ->]; by destruct r. }
  destruct H1 as [<- <-]. destruct (fl_with_mutation flags); [|by injection Hm as <-].
  unfold Evidence.with_mutation_evidence in Hm. apply res_bind_Ok in Hm as (l & _ & Hm).
  apply refreshed_keeps in Hm as [-> ->]. by destruct r1.
Qed.

(** Adding evidence to interchangeable reports and taking the verdict *)
Lemma evidence_interchangeable flags paths r1 r2 fs :
  interchangeable flags r1 r2 →
  (let! a := evidence flags paths r1 fs in Ok (_with_simplify_enforce_verdict a.1 flags, a.2))
  = let! a := evidence flags paths r2 fs in Ok (_with_simplify_enforce_verdict a.1 flags, a.2).
Proof.
  intros [Hs Hor]. pose proof (evidence_failed flags paths r1 fs) as H1.
  pose proof (evidence_failed flags paths r2 fs) as H2. unfold same_report in Hs. rewrite Hs, H2 in H1.
  destruct (evidence flags paths r1 fs) as [[a1 fs1]|e1] eqn:E1,
    (evidence flags paths r2 fs) as [[a2 fs2]|e2] eqn:E2; cbn [res_bind fst snd] in H1; try discriminate H1;
    [|congruence].
  apply Ok_pair_inj in H1 as [Hf <-]. cbn [res_bind fst snd]. do 2 f_equal. apply interchangeable_verdict. split; [by symmetry|].
  destruct Hor as [->|Hm]; [left; congruence|right].
  destruct (evidence_keeps _ _ _ _ _ _ E1) as [_ Hb]. unfold must_fail in *. by rewrite Hb.
Qed.

(** * Applied findings *)

Lemma count_true_app {A} (p : A → bool) l k : count_true p (l ++ k) = (count_true p l + count_true p k)%Z.
Proof. unfold count_true. induction l as [|x l IH]; simpl; [done|]. rewrite IH. lia. Qed.

(** A summary of more findings has at least as many open simplifications. *)
Lemma blocking_summary_app findings more :
  match _build_simplification_summary findings with
  | Some s => (0 <? ss_blocking_simplification_count s)%Z | None => false end = true →
  match _build_simplification_summary (findings ++ more) with
  | Some s => (0 <? ss_blocking_simplification_count s)%Z | None => false end = true.
Proof.
  unfold _build_simplification_summary. rewrite List.filter_app.
  destruct (List.filter has_guided_simplification_metadata findings) as [|f l]; [done|]. cbn [app].
  cbn [ss_blocking_simplification_count]. rewrite !Z.ltb_lt. intros Hl.
  change (f :: l ++ ?k) with ((f :: l) ++ k).
  rewrite (count_true_app _ (f :: l)). pose proof (count_true_nonneg is_safe_mechanical_simplification
    (List.filter has_guided_simplification_metadata more)). lia.
Qed.

(** Validation keeps two reports that differ in a final verdict so. *)
Lemma validate_failed r :
  rr_ci_exit_code r = Some 0%Z ∨ rr_ci_exit_code r = Some 1%Z → is_Some (rr_overall_verdict r) →
  (let! r' := validate_ReviewReport (failed r) in Ok (failed r')) = let! r' := validate_ReviewReport r in Ok (failed r').
Proof.
  intros Hx [v Hv]. unfold validate_ReviewReport.
  destruct r as [sv id t ov ec st un sc ev di so rd fs su ss cf em es re hr]. cbn in Hx, Hv. subst ov.
  assert (∃ x, ec = Some x ∧ (x =? 0) || (x =? 1) = true)%Z as (x & -> & Hx') by (destruct Hx; subst; by eexists).
  cbn. rewrite Hx'. destruct (nonblank sv && nonblank id); [|done]. cbn.
  destruct ((0 <=? so) && (so <=? 120))%Z; [|done]. cbn. destruct (nonblank su); [|done]. cbn.
  unfold _derive_governance_fields, _derive_authoritative_governance, _has_explicit_legacy_governance. cbn.
  destruct st as [st|].
  - destruct (schema_version_at_least _ 6).
    + destruct (if bool_decide (st = APass) then _ else _) as [incomplete|e]; [|done]. cbn.
      destruct (if _ || _ || _ then _ else _) as [unknown|e]; [|done]. done.
    + cbn. destruct em; [done|]. cbn. by destruct (_derive_score_governance so fs).
  - cbn. destruct em; [done|]. cbn. by destruct (_derive_score_governance so fs).
Qed.

Lemma validated_summary r r' :
  validate_ReviewReport r = Ok r' →
  rr_simplification_summary r = None ∨ rr_simplification_summary r = _build_simplification_summary (rr_findings r) →
  rr_simplification_summary r' = _build_simplification_summary (rr_findings r').
Proof.
  intros (version & summary & auth & v & e & s & u & _ & Hs & _ & -> & _)%validate_report_inv%derive_governance_inv Hn.
  destruct r. cbn in *. subst summary. destruct Hn as [-> | ->]; [done|]. by destruct (_build_simplification_summary _).
Qed.

(** Adding the applied findings before or after the verdict *)
Lemma applied_verdict {A} flags r applied (rest : ReviewReport → result A) :
  governed r → (∀ r1 r2, interchangeable flags r1 r2 → rest r1 = rest r2) →
  (let! r' := _with_applied_simplification_findings (_with_simplify_enforce_verdict r flags) applied in rest r')
  = let! r' := _with_applied_simplification_findings r applied in rest r'.
Proof.
  intros (Hx & Hv & Hsum) Hrest. destruct applied as [|g more]; [by apply Hrest, verdict_interchangeable|].
  rewrite verdict_of. destruct (must_fail flags r) eqn:Hm; [|done].
  unfold _with_applied_simplification_findings.
  set (raw := with_summary None (with_findings (rr_findings r ++ g :: more) r)).
  replace (with_summary None (with_findings (rr_findings (failed r) ++ g :: more) (failed r)))
    with (failed raw) by (unfold raw; by destruct r).
  assert (Hend : ∀ r', validate_ReviewReport raw = Ok r' → must_fail flags r' = true).
  { intros r' Hr'. destruct (validated_fields _ _ Hr') as (Hf & _).
    pose proof (validated_summary _ _ Hr') as Hs'. unfold must_fail, blocking_simplifications in *.
    rewrite Hs', Hf by (left; by destruct r). apply andb_true_iff in Hm as [-> Hb]. cbn.
    rewrite Hsum in Hb. replace (rr_findings raw) with (rr_findings r ++ g :: more) by (unfold raw; by destruct r).
    by apply blocking_summary_app. }
  assert (Hval := validate_failed raw ltac:(unfold raw; by destruct r) ltac:(unfold raw; by destruct r)).
  destruct (validate_ReviewReport raw) as [a2|e2], (validate_ReviewReport (failed raw)) as [a1|e1];
    cbn [res_bind] in Hval; try discriminate Hval; [|congruence].
  cbn [res_bind]. assert (Hs : failed a1 = failed a2) by congruence. symmetry.
  apply Hrest. split; [by symmetry|]. right. by apply Hend.
Qed.

(** The interactive loop is the plain one. *)
Lemma base_review n paths flags fs :
  _run_review_once run_review ast_parse writable now mkdtemp tool subprocess_run n paths (base_flags flags) fs
  = let! a := run_review n (run_inputs flags) paths fs in Ok (_with_simplify_enforce_verdict a.1 flags, a.2).
Proof. unfold _run_review_once. by destruct (run_review n _ paths fs) as [[r fs1]|]. Qed.

Lemma status_is_once `{!GovernedReviews run_review} paths flags fs :
  _run_review_with_status run_review ast_parse writable now mkdtemp tool subprocess_run paths flags fs
  = _run_review_once run_review ast_parse writable now mkdtemp tool subprocess_run 0 paths flags fs.
Proof.
  unfold _run_review_with_status. cbv zeta. rewrite (base_review 0).
  etransitivity; [|symmetry; unfold _run_review_once; reflexivity].
  destruct (run_review 0 (run_inputs flags) paths fs) as [[r fs0]|e]; [cbn [res_bind fst snd]|done].
  destruct (fl_fix flags); [|by apply evidence_interchangeable, verdict_interchangeable].
  assert (Happ : ∀ fs, apply_simplifications ast_parse writable flags (_with_simplify_enforce_verdict r flags) fs
                       = apply_simplifications ast_parse writable flags r fs).
  { intros fs3. rewrite verdict_of. destruct (must_fail flags r); [|done]. by destruct r. }
  rewrite Happ. destruct (apply_simplifications _ _ flags r fs0) as [[applied fs1]|e]; [cbn [res_bind fst snd]|done].
  destruct (_apply_fixes subprocess_run paths fs1) as [fs2|e]; [cbn [res_bind]|done]. rewrite base_review.
  destruct (run_review 1 (run_inputs flags) paths fs2) as [[r2 fs3]|e] eqn:E2; [cbn [res_bind fst snd]|done].
  assert (Hg : governed r2) by (by eapply reviews_governed).
  pose proof (applied_verdict flags r2 applied
    (λ r', let! a := evidence flags paths r' fs3 in Ok (_with_simplify_enforce_verdict a.1 flags, a.2)) Hg) as Ha.
  revert Ha. generalize (_with_applied_simplification_findings (_with_simplify_enforce_verdict r2 flags) applied).
  generalize (_with_applied_simplification_findings r2 applied). intros m2 m1 Ha.
  assert (Hm := Ha (λ r1 r3 Hi, evidence_interchangeable flags paths r1 r3 fs3 Hi)).
  destruct m1 as [a1|e1], m2 as [a2|e2]; exact Hm.
Qed.

(** C18 An interactive run does what a plain one does.  The loop with a status
    line reviews without the fixes, evidence and verdict that were asked for,
    and adds them afterwards; for any flags, files and governed reviews it
    ends with the same report and the same files as the plain loop, and fails
    with the same exception. *)
Theorem interactive_run_agrees `{!GovernedReviews run_review} paths flags fs :
  _run_review_with_progress run_review ast_parse writable now mkdtemp tool subprocess_run true paths flags fs
  = _run_review_with_progress run_review ast_parse writable now mkdtemp tool subprocess_run false paths flags fs.
Proof. apply status_is_once. Qed.
End loop.

(** * The reviews of the capsule and of the host are governed *)

Section governed.
Context `{PyRepr} `{Sha256} `{JsonLoads} `{LineTargetsDataclass} (report_path : string → string).

Lemma validated_governed raw r :
  validate_ReviewReport raw = Ok r →
  rr_simplification_summary raw = None ∨
    rr_simplification_summary raw = _build_simplification_summary (rr_findings raw) → governed r.
Proof.
  intros Hv Hs. split_and!; [|by apply (validated_exit_some _ _ Hv)|by eapply validated_summary].
  unfold validate_ReviewReport in Hv. res_inv.
  match goal with Hd : _derive_governance_fields _ = Ok r |- _ =>
    apply derive_governance_inv in Hd as (version & summary & auth & v & e & s & u & _ & _ & Ha & -> & Hf) end.
  cbn [rr_ci_exit_code with_governance g_ci_exit_code].
  destruct auth as [[[[s0 u0] v0] e0]|].
  - destruct Hf as (_ & _ & _ & ->). apply authoritative_inv in Ha as (_ & _ & _ & [-> | ->]); auto.
  - destruct Hf as (_ & _ & Hf). destruct (_has_explicit_legacy_governance _) eqn:El.
    + destruct Hf as [_ ->]. unfold _has_explicit_legacy_governance in El. destruct raw. cbn in *. bool_hyps.
      destruct rr_ci_exit_code; [|done]. bool_hyps.
      match goal with Hz : (_ =? 0)%Z || (_ =? 1)%Z = true |- _ => apply orb_true_iff in Hz end.
      rewrite !Z.eqb_eq in *. naive_solver.
    + destruct Hf as (v0 & e0 & Hsc & _ & ->). unfold _derive_score_governance in Hsc.
      repeat case_match; simplify_eq; auto.
Qed.

Definition keeps_governed (u : report_update) : Prop :=
  (u_ci_exit_code u = None ∨ u_ci_exit_code u = Some (Some 0%Z) ∨ u_ci_exit_code u = Some (Some 1%Z))
  ∧ (u_overall_verdict u = None ∨ ∃ v, u_overall_verdict u = Some (Some v)).
Lemma updated_governed u r : keeps_governed u → governed r → governed (apply_update u r).
Proof.
  intros (Hx & Hv) (Hrx & Hrv & Hs). split_and!; [..|by destruct r]; cbn.
  - destruct Hx as [-> |[-> | ->]]; cbn; auto.
  - destruct Hv as [-> |[v ->]]; cbn; eauto.
Qed.

Lemma enforced_governed report mode findings_by_member changed_lines cached out :
  governed report → _with_enforcement report_path report mode findings_by_member changed_lines cached = Ok out →
  governed out.
Proof.
  intros Hg Ho. unfold _with_enforcement in Ho. destruct mode.
  - injection Ho as <-. apply updated_governed; [|done]. split; cbn; auto.
  - unfold _with_changed_enforcement in Ho. destruct (_changed_enforcement_precondition _ _ _) eqn:Ep.
    + injection Ho as <-. unfold _changed_enforcement_precondition in Ep.
      repeat case_match; simplify_eq; (apply updated_governed; [|done]); split; cbn; eauto.
    + unfold _revalidated_report in Ho. destruct Hg as (_ & _ & Hs).
      repeat case_match; (eapply validated_governed; [exact Ho|right]); cbn; congruence.
  - injection Ho as <-. apply updated_governed; [|done]. split; cbn; auto.
Qed.

Lemma host_review_governed a run_id now options changed_lines r :
  run_review report_path a run_id now options changed_lines = Ok r → governed r.
Proof.
  unfold run_review. intros Hr. res_inv.
  match goal with Hv : validate_ReviewReport _ = Ok ?x, He : _with_enforcement _ ?x _ _ _ _ = Ok ?y |- _ =>
    assert (Hy : governed y) by (eapply enforced_governed; [|exact He]; eapply validated_governed; [exact Hv|];
      left; by destruct (ro_focus options) as [[]|]) end.
  subst r. destruct (_ && _ && _); [|done]. apply updated_governed; [|done]. split; cbn; eauto.
Qed.

Lemma capsule_report_governed resources run_id now evidence fbm options scope versions platform r :
  _capsule_report resources run_id now evidence fbm options scope versions platform = Ok r → governed r.
Proof.
  intros (raw & profile & Hv & _ & _ & _ & _ & _ & Hs & _)%capsule_report_raw.
  eapply validated_governed; [exact Hv|by left].
Qed.
Lemma unknown_review_governed a reason options scope cached r :
  unknown_review report_path a reason options scope cached = Ok r → governed r.
Proof.
  intros (u & Hu & He)%res_bind_Ok. eapply enforced_governed; [|exact He].
  unfold _unknown_capsule_report in Hu. apply res_bind_Ok in Hu as (ev & _ & Hu).
  by eapply capsule_report_governed.
Qed.

(** Findings under other paths have the same summary. *)
Definition moved (f g : ReviewFinding) : Prop := ∃ path, g = with_file path f.
Lemma moved_filter l k : Forall2 moved l k →
  Forall2 moved (List.filter has_guided_simplification_metadata l)
                (List.filter has_guided_simplification_metadata k).
Proof.
  induction 1 as [|f g l k (path & ->) _ IH]; cbn; [constructor|].
  replace (has_guided_simplification_metadata (with_file path f)) with (has_guided_simplification_metadata f) by done.
  destruct (has_guided_simplification_metadata f); [|done]. constructor; [by eexists|done].
Qed.
Lemma moved_foldl {A} (step : A → ReviewFinding → A) l k :
  (∀ a f path, step a (with_file path f) = step a f) → Forall2 moved l k → ∀ a, foldl step a l = foldl step a k.
Proof.
  intros Hstep. induction 1 as [|f g l k (path & ->) _ IH]; intros a; cbn; [done|]. by rewrite Hstep, IH.
Qed.
Lemma moved_count l k : Forall2 moved l k →
  count_true is_safe_mechanical_simplification l = count_true is_safe_mechanical_simplification k.
Proof.
  unfold count_true. induction 1 as [|f g l k (path & ->) _ IH]; cbn; [done|]. by rewrite IH.
Qed.
Lemma moved_summary l k : Forall2 moved l k →
  _build_simplification_summary l = _build_simplification_summary k.
Proof.
  intros Hm%moved_filter. unfold _build_simplification_summary.
  destruct Hm as [|x y l' k' Hfg Hm]; [done|]. assert (Hfm : Forall2 moved (x :: l') (y :: k')) by (by constructor).
  rewrite (moved_foldl count_kind _ _ (λ _ _ _, eq_refl) Hfm), (moved_foldl count_action _ _ (λ _ _ _, eq_refl) Hfm).
  by rewrite (moved_count _ _ Hfm).
Qed.
Lemma rebased_governed root repository scope r out :
  governed r → _rebase_host_snapshot_findings report_path root repository r = Some out →
  governed (with_scope_evidence scope out).
Proof.
  intros (Hx & Hv & Hs) Hb. unfold _rebase_host_snapshot_findings in Hb. apply fmap_Some in Hb as (l & Hl & ->).
  assert (Hm : Forall2 moved (rr_findings r) l).
  { apply mapM_Some_1 in Hl. eapply Forall2_impl; [exact Hl|]. intros f g Hfg.
    unfold rebase_host_finding in Hfg. apply fmap_Some in Hfg as (parts & _ & ->). by eexists. }
  destruct r. cbn in *. split_and!; [done|done|]. rewrite Hs. by apply moved_summary.
Qed.

Lemma local_reviews_governed a kind options r :
  run_capsule_review report_path a kind options = Ok r → governed r.
Proof.
  intros (? & _ & Hr)%res_bind_Ok. pose proof unknown_review_governed as Hunk.
  destruct (la_runtime a) as [reason|].
  - destruct (_allows_development_host_compatibility a reason); [|by eapply Hunk].
    destruct (_cached_review_requested a options).
    + unfold _run_cached_development_host_review in Hr.
      destruct (la_repository a), (la_cached_snapshot a); try by eapply Hunk.
      apply res_bind_Ok in Hr as (host & Hh & Hr). apply host_review_governed in Hh.
      destruct (la_tree_unmodified a); cbn [negb] in Hr; [|by eapply Hunk].
      destruct (_rebase_host_snapshot_findings _ _ _ host) eqn:Eb; [|by eapply Hunk].
      eapply enforced_governed; [|exact Hr]. by eapply rebased_governed.
    + unfold _run_worktree_development_host_review in Hr.
      destruct (if bool_decide _ then la_identity a 0 else Some NotRepository); [|by eapply Hunk].
      apply res_bind_Ok in Hr as (host & Hh%host_review_governed & Hr).
      destruct (_worktree_analysis_identity_changed _ _ _); [by eapply Hunk|]. injection Hr as <-. by destruct host.
  - unfold _run_local_capsule_context in Hr. destruct (local_inputs a options) as [reason|[cached identity]];
      [by eapply Hunk|].
    unfold _finalize_local_capsule_snapshot in Hr.
    destruct (_worktree_analysis_identity_changed _ _ 1); [by eapply Hunk|].
    destruct (match lc_cached_snapshot _ with None => _ | Some _ => _ end); [|by eapply Hunk].
    apply res_bind_Ok in Hr as (report & Hc%capsule_report_governed & Hr).
    apply res_bind_Ok in Hr as (enforced & He & Hr).
    destruct (_worktree_analysis_identity_changed _ _ 2); [by eapply Hunk|]. injection Hr as <-.
    by eapply enforced_governed.
Qed.

(** [run_capsule_review] as the reviewer of a run, whatever the host answers
    to its calls and whatever files its tools leave *)
Definition capsule_reviewer (answers : nat → RunInputs → list string → files → LocalAnswers)
    (left_files : nat → RunInputs → list string → files → files) : reviewer :=
  λ n inputs paths fs,
    let! report := run_capsule_review report_path (answers n inputs paths fs) (ri_assurance_kind inputs)
                     (ri_options inputs) in
    Ok (report, left_files n inputs paths fs).
Lemma capsule_reviewer_left answers left_files n inputs paths fs r fs' :
  capsule_reviewer answers left_files n inputs paths fs = Ok (r, fs') → fs' = left_files n inputs paths fs.
Proof. by intros (report & _ & [= _ <-])%res_bind_Ok. Qed.
#[export] Instance capsule_reviews_governed answers left_files :
  GovernedReviews (capsule_reviewer answers left_files).
Proof. intros n inputs paths fs r fs' (report & Hr & [= -> _])%res_bind_Ok. by eapply local_reviews_governed. Qed.
End governed.

(** * The command *)

Lemma normalize_keeps q :
  q_fix (_normalize_review_request q) = q_fix q ∧ q_scope (_normalize_review_request q) = q_scope q
  ∧ q_json_output (_normalize_review_request q) = q_json_output q ∧ q_out (_normalize_review_request q) = q_out q
  ∧ q_review_mode (_normalize_review_request q) = q_review_mode q.
Proof. unfold _normalize_review_request. destruct (_ || _); by destruct q. Qed.

Section command.
Context `{PyRepr} `{Sha256} `{JsonLoads} `{TomlLoads} `{IniRead} `{RangePolicyPaths} `{ArgText} `{EvidenceFiles}.
Context (run_review : reviewer) `{!GovernedReviews run_review}.
Context (ast_parse : string → option node) (writable : string → bool).
Context (now : datetime) (mkdtemp : files → string) (tool : bool).
Context (subprocess_run : list string → files → result (Z * string * string * files)).
Context (is_file : string → bool) (git : GitPaths).
Context (repo : Repository) (index : IndexAnswers) (remote_url : Z * string) (resources : catalog_resources).
Context (run_immutable_scope_review :
  ScopeResolution → ReviewOptions → option string → option string → list (string * pyval) → files →
  result (ReviewReport * files)).
Context (model_dump_json : ReviewReport → string) (interactive : bool).

Abbreviation run := (run_request run_review ast_parse writable now mkdtemp tool subprocess_run is_file git repo
  index remote_url resources run_immutable_scope_review model_dump_json interactive).

(** The files after a report was rendered: the report file is the only one
    that is written. *)
Definition only_report_written (q : ReviewRunRequest) (fs fs' : files) : Prop :=
  if q_json_output q
  then ∃ document, fs' = <[as_posix (_json_output_path (q_out q)) := Decoded document]> fs
  else fs' = fs.
Lemma render_inv report q fs code text fs' :
  _render_review_result writable model_dump_json report q fs = Ok (code, text, fs') →
  code = default 0%Z (rr_ci_exit_code report) ∧ only_report_written q fs fs'.
Proof.
  unfold _render_review_result, only_report_written. intros Hr. destruct (q_json_output q).
  - destruct (writable _); [|done]. injection Hr as <- _ <-. split; [done|by eexists].
  - by destruct (q_score_only q); injection Hr as <- _ <-.
Qed.
Lemma attach_exit context report : rr_ci_exit_code (attach context report) = rr_ci_exit_code report.
Proof. destruct context; by destruct report. Qed.

Lemma reading_loop flags paths fs r fs' :
  fl_fix flags = false →
  _run_review_once run_review ast_parse writable now mkdtemp tool subprocess_run 0 paths flags fs = Ok (r, fs') →
  ∃ report reviewed, run_review 0 (run_inputs flags) paths fs = Ok (report, reviewed)
    ∧ (fresh_dir (mkdtemp reviewed) reviewed ∨ fl_preview_fixes flags = false → fs' = reviewed)
    ∧ rr_ci_exit_code r = if must_fail flags report then Some 1%Z else rr_ci_exit_code report.
Proof.
  intros Hfix ([report reviewed] & Hrev & Hr)%res_bind_Ok. rewrite Hfix in Hr. cbn [res_bind fst snd] in Hr.
  apply res_bind_Ok in Hr as ([r1 fs1] & He & [= <- <-]). cbn [fst snd].
  destruct (evidence_keeps _ _ _ _ _ _ _ _ _ _ _ He) as [Hx Hb]. exists report, reviewed. split; [done|]. split.
  - intros Hdir. apply res_bind_Ok in He as ([r2 fs2] & Hp & He).
    apply res_bind_Ok in He as (r3 & _ & [= _ <-]). cbn [fst snd].
    destruct (fl_preview_fixes flags); [|by injection Hp as _ <-]. destruct Hdir as [Hdir|]; [|done].
    unfold Evidence.with_previewed_simplification_findings in Hp.
    apply res_bind_Ok in Hp as ([previewed fs3] & Hpre & Hp). apply res_bind_Ok in Hp as (r4 & _ & [= _ <-]).
    by apply (preview_fixes_keep now mkdtemp writable _) in Hpre as [-> _].
  - rewrite verdict_of. unfold must_fail in *. rewrite Hb.
    destruct (_ && _ && _); [by destruct r1|done].
Qed.

(** C17 A run that is not asked to fix leaves what its review leaves.  When a
    local run without [--fix] ends, plain or interactive, with or without
    mutation evidence, it reviewed the files the request selects exactly once,
    in the store as it was found; it wrote nothing to the store that this
    review left but the report it was asked to write (with previews, whose
    working copies are made and removed, when the temporary directory they are
    given is a fresh one); and its exit code is that of the review, or 1 when
    the simplify focus enforces the summary of that review: no evidence that
    is added later changes it. *)
Theorem reading_run_exit q fs code text fs' :
  q_fix q = false → immutable_scope (q_scope q) = None →
  run q fs = Ok (code, text, fs') →
  ∃ paths report reviewed, let q' := _normalize_review_request q in
    _resolve_worktree_files is_file git q' = Ok paths
    ∧ run_review 0 (run_inputs (loop_flags q')) paths fs = Ok (report, reviewed)
    ∧ (fresh_dir (mkdtemp reviewed) reviewed ∨ q_preview_fixes q' = false → only_report_written q reviewed fs')
    ∧ code = if must_fail (loop_flags q') report then 1%Z else default 0%Z (rr_ci_exit_code report).
Proof.
  intros Hfix Hscope Hr. unfold run_request in Hr.
  destruct (normalize_keeps q) as (Hf & Hs & Hj & Ho & _). set (q' := _normalize_review_request q) in *.
  apply res_bind_Ok in Hr as (? & _ & Hr). rewrite Hs, Hscope in Hr.
  apply res_bind_Ok in Hr as (paths & Hpaths & Hr). apply res_bind_Ok in Hr as (context & _ & Hr).
  apply res_bind_Ok in Hr as ([r fs1] & Hloop & Hr). cbn [fst snd] in Hr.
  apply render_inv in Hr as [-> Hw]. rewrite attach_exit.
  assert (Honce : _run_review_once run_review ast_parse writable now mkdtemp tool subprocess_run 0 paths
    (loop_flags q') fs = Ok (r, fs1)).
  { destruct interactive; [|exact Hloop]. by rewrite <-status_is_once by done. }
  destruct (reading_loop (loop_flags q') paths fs r fs1 ltac:(cbn; congruence) Honce)
    as (report & reviewed & Hrev & Hkeep & Hx).
  exists paths, report, reviewed. split_and!; [done|done| |].
  - intros Hdir. rewrite (Hkeep Hdir) in Hw. unfold only_report_written in *. by rewrite Hj, Ho in Hw.
  - rewrite Hx. by destruct (must_fail _ _).
Qed.

Lemma first_enabled_none options : first_enabled options = None → Forall (λ o, o.2 = false) options.
Proof.
  unfold first_enabled. induction options as [|[name b] l IH]; cbn; [constructor|].
  destruct b; [done|]. intros Hn. constructor; [done|by apply IH].
Qed.
Lemma immutable_request scope q r :
  immutable_scope (q_scope q) = Some scope →
  resolve_scope repo index (scope_request remote_url scope q) = Ok r →
  q_fix q = false ∧ q_preview_fixes q = false ∧ q_with_mutation q = false.
Proof.
  intros Hscope (? & Hv & _)%res_bind_Ok. unfold Scope._validate_immutable_scope_options in Hv.
  assert (Hs : sq_scope (normalize_scope_request (scope_request remote_url scope q)) = scope
               ∧ (scope = SkIndex ∨ scope = SkRange)).
  { destruct (q_scope q) as [[]|]; cbn in Hscope; simplify_eq; cbn; auto. }
  destruct Hs as [Heq Hs]. rewrite Heq in Hv.
  replace (negb _) with false in Hv by (by destruct Hs as [-> | ->]).
  destruct (first_enabled (mutations _)) eqn:E; [done|]. apply first_enabled_none in E.
  unfold mutations in E. rewrite !Forall_cons in E. cbn in E. naive_solver.
Qed.

End command.

(** * Witnesses *)

Section samples.
#[local] Instance run_repr : PyRepr := λ _, "<repr>".
#[local] Instance run_sha : Sha256 := λ bytes, of_chars bytes.
#[local] Instance run_loads : JsonLoads := λ _, None.
#[local] Instance run_toml : TomlLoads := λ _, None.
#[local] Instance run_ini : IniRead := λ _, None.
#[local] Instance run_policies : RangePolicyPaths := λ _, Ok ∅.
#[local] Instance run_targets : LineTargetsDataclass := λ _ _, false.
#[local] Instance run_args : ArgText := {| arg_repr := λ _, "<arg>"; arg_type := λ _, "<type>" |}.
#[local] Instance run_evidence : EvidenceFiles := λ _, None.
Definition run_now : datetime := {| dt_wall_us := 0; dt_utcoffset_us := Some 0%Z |}.

(** A development host: the first review finds a dead branch and another
    simplification, every later one only the other. *)
Definition remaining : ReviewFinding := mechanical "ai-bloat.other" 2.
Definition host_answers (n : nat) : LocalAnswers :=
  {| la_resources := sample_resources; la_backend := {| bs_kind := "unsupported"; bs_environment_id := "" |};
     la_run_id := pretty (Z.of_nat n); la_now := run_now; la_runtime := Some "unsupported_controller_platform";
     la_development_checkout := true; la_environ := λ _, None; la_repository := Some "/repo";
     la_cached_snapshot := None; la_tree_unmodified := true; la_identity := λ _, Some (Identity "tree");
     la_host := {| ha_tool_findings := if (n =? 0)%nat then [mechanical "ai-bloat.dead-branch" 4; remaining]
                                       else [remaining];
                   ha_tdd_findings := []; ha_coverage_by_source := []; ha_checklist_findings := [];
                   ha_enrich := id; ha_forecast := λ _, sample_forecast; ha_no_suppressions := true |};
     la_snapshot := {| csr_evidence := []; csr_findings_by_member := [] |}; la_expected_versions := None;
     la_platform_id := "linux-x86_64"; la_project_runtime := None; la_changed_lines := λ _, None |}.
(** Each review leaves a coverage file behind. *)
Definition left_coverage (n : nat) (inputs : RunInputs) (paths : list string) (fs : files) : files :=
  <[".coverage" := Decoded (pretty (Z.of_nat n))]> fs.
Definition sample_reviewer : reviewer := capsule_reviewer id (λ n _ _ _, host_answers n) left_coverage.
Definition sample_flags (fix_option : bool) : _ReviewLoopFlags :=
  {| fl_no_tests := true; fl_include_noise := true; fl_fix := fix_option; fl_preview_fixes := negb fix_option;
     fl_with_mutation := true; fl_bug_hunt := false; fl_review_mode := EmFull; fl_review_level := None;
     fl_review_focus := Some Simplify; fl_assurance_kind := "explicit_files"; fl_project_config := None;
     fl_project_runtime := None |}.
Definition quiet (command : list string) (fs : files) : result (Z * string * string * files) := Ok (0%Z, "", "", fs).
Definition sample_run (interactive : bool) : result (ReviewReport * files) :=
  _run_review_with_progress sample_reviewer (parses guards_source guards_tree) (λ _, true) run_now
    (λ _, "/tmp/preview") true quiet interactive ["src/example.py"] (sample_flags true) (file_of guards_source).

(** The dead branch is removed and reported as applied, and what remains
    fails the run. *)
Definition run_left : files := left_coverage 1 (run_inputs (sample_flags true)) ["src/example.py"] guards_fixed.
Lemma interactive_run_agrees_witness :
  ∃ r, sample_run true = Ok (r, run_left) ∧ sample_run false = Ok (r, run_left)
    ∧ rr_ci_exit_code r = Some 1%Z ∧ (rf_action_status <$> rr_findings r) = [Some AsRecommended; Some AsApplied].
Proof.
  assert (Hc : match sample_run false with
    | Ok (r, fs) => bool_decide (fs = run_left) && bool_decide (rr_ci_exit_code r = Some 1%Z)
                    && bool_decide ((rf_action_status <$> rr_findings r) = [Some AsRecommended; Some AsApplied])
    | Err _ => false end = true) by (vm_compute; reflexivity).
  destruct (sample_run false) as [[r fs]|e] eqn:E; [|discriminate Hc].
  apply andb_true_iff in Hc as [[->%bool_decide_eq_true Hx%bool_decide_eq_true]%andb_true_iff Hf%bool_decide_eq_true].
  exists r. split; [|by split_and!]. rewrite <-E.
  exact (interactive_run_agrees sample_reviewer (parses guards_source guards_tree) (λ _, true) run_now
    (λ _, "/tmp/preview") true quiet ["src/example.py"] (sample_flags true) (file_of guards_source)).
Defined.

Definition sample_request (scope : option AutoScope) (paths : list string) (preview json : bool) : ReviewRunRequest :=
  {| q_files := paths; q_include_tests := true; q_scope := scope; q_path_filters := None;
     q_base_ref := if has_some scope then Some "main" else None;
     q_head_ref := if has_some scope then Some "topic" else None; q_pr_context_file := None;
     q_include_noise := true; q_json_output := json; q_out := None; q_score_only := false;
     q_no_tests := negb (has_some scope); q_fix := false; q_preview_fixes := preview; q_with_mutation := preview;
     q_bug_hunt := false; q_review_mode := EmFull; q_review_level := None;
     q_focus_facets := if preview then ["simplify"] else []; q_review_focus := None;
     q_requirements_evidence := None; q_project_config := None; q_project_runtime := None |}.
Definition no_git : GitPaths := {| gp_modified := None; gp_cached := None; gp_untracked := None |}.
Definition no_index : IndexAnswers :=
  {| capture_index := Err (GitResolutionError ""); ls_files_stage := Err (GitResolutionError "");
     ls_files_flags := Err (GitResolutionError ""); write_tree := Err (GitResolutionError "");
     resolved_index_policy_paths := λ _, (∅, ""); discovered_index_policy_paths := λ _, Ok ∅ |}.
Definition sample_immutable (_ : ScopeResolution) (_ : ReviewOptions) (_ _ : option string)
    (_ : list (string * pyval)) (fs : files) : result (ReviewReport * files) :=
  Ok (local_report, <[".coverage" := Decoded "0"]> fs).
Definition sample_command (q : ReviewRunRequest) : result (Z * option string * files) :=
  run_request sample_reviewer (parses guards_source guards_tree) (λ _, true) run_now (λ _, "/tmp/preview") true quiet
    (λ _, true) no_git scope_repo no_index (1%Z, "") sample_resources
    sample_immutable (λ _, "{}") true q (file_of guards_source).
Definition preview_request : ReviewRunRequest := sample_request None ["src/example.py"] true true.

(** A preview of the dead branch under the simplify focus: the report is
    written and the run fails, because the simplifications are still there. *)
Lemma reading_run_exit_witness :
  ∃ text fs', sample_command preview_request = Ok (1%Z, text, fs')
    ∧ fs' !! "src/example.py" = Some (Decoded guards_source)
    ∧ only_report_written preview_request
        (left_coverage 0 (run_inputs (sample_flags false)) ["src/example.py"] (file_of guards_source)) fs'.
Proof.
  assert (Hcode : match sample_command preview_request with Ok (c, _, _) => c | Err _ => 0%Z end = 1%Z)
    by (vm_compute; reflexivity).
  destruct (sample_command preview_request) as [[[code text] fs']|e] eqn:E; [subst code|discriminate Hcode].
  destruct (reading_run_exit sample_reviewer (parses guards_source guards_tree) (λ _, true) run_now
    (λ _, "/tmp/preview") true quiet (λ _, true) no_git scope_repo no_index (1%Z, "") sample_resources
    sample_immutable (λ _, "{}") true preview_request (file_of guards_source) 1%Z text fs' eq_refl eq_refl)
    as (paths & report & reviewed & Hpaths & Hrev & Hw & _).
  { exact E. }
  assert (paths = ["src/example.py"]) as -> by (vm_compute in Hpaths; by injection Hpaths as <-).
  assert (reviewed = left_coverage 0 (run_inputs (sample_flags false)) ["src/example.py"] (file_of guards_source)) as ->.
  { apply capsule_reviewer_left in Hrev. rewrite Hrev. unfold left_coverage. reflexivity. }
  assert (Hwritten : only_report_written preview_request
    (left_coverage 0 (run_inputs (sample_flags false)) ["src/example.py"] (file_of guards_source)) fs').
  { apply Hw. left. split; [discriminate|]. intros path file Hp. unfold left_coverage, file_of in Hp.
    apply lookup_insert_Some in Hp as [[<- _]|[_ Hp]]; [vm_compute; reflexivity|].
    apply lookup_singleton_Some in Hp as [<- _]. vm_compute. reflexivity. }
  exists text, fs'. split; [reflexivity|]. split; [|exact Hwritten].
  destruct Hwritten as [document ->]. reflexivity.
Defined.

(** A range that resolves *)
Definition range_request : ReviewRunRequest := sample_request (Some AutoRange) [] false false.
End samples.
